(* ===== verification/_CoqProject ===== *)
-Q . S2P
Prelude.v
Bytes.v
Layout.v
Mm.v
MmFacts.v
MmCow.v
Sched.v
SchedFacts.v
Wait.v
Fair.v
Ctype.v
Console.v
ConsoleFacts.v
TtyIo.v
TtyFacts.v
Fs.v
Buffer.v
Bitmap.v
Inode.v
FileIo.v
Super.v
Namei.v
Open.v
Proc.v
Exec.v
FsFacts.v
FsBoot.v
Rings.v
CacheInv.v
CacheOps.v
Cache.v
CacheFacts.v
FileFacts.v
FileWrite.v
Hd.v
HdCtl.v
HdFacts.v
HdQueue.v
BitmapFacts.v
PipeFacts.v
ExecFacts.v
ExecArgs.v
Frame.v
NameiFacts.v
DirFacts.v
Alloc.v
InodeDisk.v
InodeFacts.v
FileTree.v
FileGrow.v
FileTrunc.v
ProcFacts.v
Reap.v
Time.v
Init.v
InitFacts.v
Str.v
StrFacts.v
Printf.v
PrintfFacts.v
Syscall.v
Traps.v
TrapsFacts.v
