(* ===== verification/Prelude.v ===== *)
(** * Linux 0.01, 64-bit port: a verification library

    A model of the kernel under src/ as Rocq functions and theorems about them.
    The definitions keep the names of the C functions and follow their text,
    statement by statement, guards and early returns included; the theorems say
    what the functions are for.

    ** How a C function is written here

    A function is a term of the monad [M St] (below) over the record of the
    objects that it can reach.  A run ends in one of six ways: [Ret] (the
    function returns), [Panic], [Exit] (do_exit), [Sleep] (the processor is
    given up, and what the caller would do next is not followed), [Fault] (an
    access outside of its object, which the C code would carry out on whatever
    lies there), and [NoFuel].  [wp m Q s] says that [m] started in [s] returns,
    without any of the other endings, in a state with [Q]: a theorem of this
    form includes termination and memory safety.  Integers are [Z] in the range
    of their type, with the conversions written where C makes them ([u8] to
    [s64]); pointers to structures are 1 + an index into their table, 0 is NULL,
    except in Sched.v, Mm.v, Exec.v and Str.v, where they are addresses.

    Loops run over a list of indices where the source counts ([mloop], [mfor])
    and on fuel otherwise ([mwhile], [miter]).  Fuel is always large enough or
    an argument: the queue walks of Buffer.v take the number of buffers, the
    search for a buffer as many rounds as there are buffers, [schedule] needs
    two rounds, [find_empty_process] 65 tries.  Functions on strings in memory
    (Str.v, Printf.v, Exec.v, Namei.v) take their fuel first, and the theorems
    ask for the length of the strings.

    ** The parts, and where they are

    - Types.  Layout.v: sizes and offsets of the structures of include/linux/*.h
      by the ABI rules, and the offsets that the assembly relies on.
    - Memory, src/mm/memory.c.  Mm.v: [get_free_page], [free_page], the tables,
      [copy_page_tables], [un_wp_page], [do_no_page]; MmFacts.v: the allocator
      and one step of the page walk; MmCow.v: [copy_page_tables] (for any ranges,
      and as copy-on-write for disjoint ones), a write copies, exit gives back,
      and what mm/page.nasm passes to the handlers.
    - Scheduling, src/kernel/sched.c.  Sched.v: [schedule], [sleep_on],
      [wake_up], [do_timer], alarms, and from system_call.nasm the whole of
      [timer_interrupt] with the loop at [ret_from_sys_call]; SchedFacts.v:
      [schedule] chooses best, and recharges exactly when it has to; Wait.v: the
      step relation that interleaves sleepers, wakers and interrupts, and its
      invariant; Fair.v: timer ticks give the processor to every runnable task
      within a bound, and a tick of the idle task alone never returns.
    - Terminals.  Ctype.v (lib/ctype.c), Console.v (kernel/console.c), TtyIo.v
      (kernel/tty_io.c, rs_write); ConsoleFacts.v: memory safety and scrolling;
      TtyFacts.v: the ring buffers as lists, the line discipline against a
      specification on lists (with echo, signals and both devices), translation
      on output.  The calls that sleep take what happens meanwhile as an
      argument.
    - File system.  Fs.v is its state: buffers, inodes, files, super blocks,
      the disk, and the records of Mm, Sched and TtyIo as parts.  Buffer.v
      (fs/buffer.c, fs/block_dev.c's rw_block, kernel/hd.c as the cache sees
      it), Bitmap.v (fs/bitmap.c), Inode.v (fs/inode.c, fs/truncate.c), Super.v
      (fs/super.c, sys_setup), FileIo.v (fs/read_write.c, file_dev.c,
      block_dev.c, char_dev.c, pipe.c), Namei.v (fs/namei.c), Open.v (fs/open.c,
      stat.c, fcntl.c, ioctl.c, tty_ioctl.c).
    - Hard disk driver, src/kernel/hd.c.  Hd.v: the request queue, the elevator,
      the interrupt handlers over a log of port accesses; HdCtl.v: the class
      [Controller] of what the hardware promises, with an instance; HdFacts.v:
      serving a request by interrupts does what [hd_transfer] of Buffer.v takes
      it to do; HdQueue.v: insertion is an elevator.
    - Processes.  Proc.v (kernel/fork.c, exit.c, sys.c), Exec.v (fs/exec.c,
      a.out.h); ProcFacts.v: pids and kill; Reap.v: waitpid; ExecArgs.v and
      ExecFacts.v: the strings and the tables on the stack of a program.
    - Entry points.  Syscall.v (unistd.h, linux/sys.h, system_call.nasm): from
      the stub in the library to the function and back; Traps.v and TrapsFacts.v
      (traps.c, asm.nasm, asm/system.h, sched_init, rs_init): which handler each
      vector reaches after boot, with which privilege, and how the serial ports
      are set.
    - Boot.  Time.v (kernel/mktime.c, time_init); Init.v and InitFacts.v: the
      shell of init/main.c that this port boots into.
    - Strings and output.  Str.v, StrFacts.v (include/string.h); Printf.v,
      PrintfFacts.v (kernel/vsprintf.c, printk.c, panic.c).

    The other files carry proofs: Bytes.v (lists of bytes in a memory), Rings.v
    (circular lists as cyclic sequences of edges), FsFacts.v (the [wp] rules of
    the accesses of Fs.v), Frame.v, FsBoot.v (the concrete states of the
    examples).

    ** What the theorems of the file system add up to

    CacheInv.v and CacheOps.v keep the free ring and the hash lists well formed.
    Cache.v defines [content], what a block holds: the data of its up-to-date
    buffer or what the disk has.  On that, CacheFacts.v states what the cache
    promises its clients ([idle]: a call leaves the other users of buffers as
    they were, and the invariant), and [bread], [brelse] and [sync_dev] are
    proved against it.  FileFacts.v and FileWrite.v use these promises only: the
    zones of an inode name blocks, the blocks are the bytes of the file, and
    read and write move exactly these bytes.  DirFacts.v reads directories the
    same way.  Alloc.v takes the zone bitmap for a set of used zones.  With these,
    FileTree.v takes an inode for a tree of zones; FileGrow.v proves that a write
    extends it (or says that the partition is full) and FileTrunc.v that truncate
    gives back all of it, neither touching what other files own.  InodeDisk.v
    stores an inode in its block and loads it back, and InodeFacts.v puts the
    inode table on the cache: iget, iput, changes by holders and sync answer as
    [spec_step], a store with every inode in memory, does.  HdFacts.v
    closes the other end: the one-step transfer that Buffer.v uses is what the
    interrupt-driven driver does with a controller that keeps to [Controller].

    ** Parameters

    Hardware and other code are arguments: [controller] (the ports of the disk),
    [cmos] (the clock), [wait_on] and [yield] (other tasks, in TtyIo.v), the
    interrupts during add_request (Hd.v), the addresses of handlers (Traps.v),
    [run] (the functions behind the system-call table, in Syscall.v), the memory
    that die prints.  Theorems on calls that copy to user memory say on which
    addresses verify_area succeeds or which pages are mapped.

    ** Not modelled, and why

    - boot/*.nasm, kernel/switch.nasm, the register save of system_call.nasm,
      asm.nasm, page.nasm, keyboard.nasm, rs_io.nasm: assembly; what the C code
      gets from them is modelled where it matters (Traps.v, Syscall.v,
      [timer_interrupt], [ret_from_sys_call], [page_fault]).  [switch_to] passes
      the processor by changing [current]; the registers are not followed.
    - The messages of main() and its endless loops, the ports of the cursor,
      the speaker and the keyboard, invalidate(): port or control-register
      writes that nothing reads back.
    - What a task does after it slept inside of the file system ([Sleep] ends
      the run there): the repeats of getblk and iget after a wait are not
      reached.  Wait.v has the interleavings of the scheduler's own functions.
    - Constants and prototypes of headers that no code of the kernel uses
      (termios.h, a.out.h), errno of lib/ (a result of the stubs),
      tools/build.c (run at build time), hd.c's table of the drives' geometry.
    - Padding bytes of structures copied to user space. *)

From Stdlib Require Export ZArith Lia.
From stdpp Require Export base tactics option list list_numbers gmap strings.

#[global] Open Scope Z_scope.
#[global] Set Default Goal Selector "!".

(** ** Machine integers

    An integer of the C program is a [Z] kept in the range of its type; the
    conversions below are the ones C makes on assignment and on arithmetic at
    that width (two's complement, as gcc implements the signed ones). *)

Definition u8 (x : Z) : Z := x mod 2 ^ 8.
Definition u16 (x : Z) : Z := x mod 2 ^ 16.
Definition u32 (x : Z) : Z := x mod 2 ^ 32.
Definition u64 (x : Z) : Z := x mod 2 ^ 64.
Definition s8 (x : Z) : Z := (x + 2 ^ 7) mod 2 ^ 8 - 2 ^ 7.
Definition s32 (x : Z) : Z := (x + 2 ^ 31) mod 2 ^ 32 - 2 ^ 31.
Definition s64 (x : Z) : Z := (x + 2 ^ 63) mod 2 ^ 64 - 2 ^ 63.

(** A C condition: any value but zero is true. *)
Definition truth (x : Z) : bool := negb (x =? 0).

Lemma truth_true x : truth x = true ↔ x ≠ 0.
Proof. unfold truth. destruct (Z.eqb_spec x 0); naive_solver. Qed.
Lemma truth_false x : truth x = false ↔ x = 0.
Proof. unfold truth. destruct (Z.eqb_spec x 0); naive_solver. Qed.

(** [lia] for goals with division and remainder by constants. *)
Ltac dlia := Z.to_euclidean_division_equations; lia.

Infix ".&" := Z.land (at level 40, left associativity) : Z_scope.
Infix ".|" := Z.lor (at level 50, left associativity) : Z_scope.

Lemma u8_small x : 0 ≤ x < 256 → u8 x = x.
Proof. apply Z.mod_small. Qed.
Lemma u16_small x : 0 ≤ x < 65536 → u16 x = x.
Proof. apply Z.mod_small. Qed.
Lemma u32_small x : 0 ≤ x < 4294967296 → u32 x = x.
Proof. apply Z.mod_small. Qed.
Lemma u64_small x : 0 ≤ x < 18446744073709551616 → u64 x = x.
Proof. apply Z.mod_small. Qed.
Lemma s32_small x : -2147483648 ≤ x < 2147483648 → s32 x = x.
Proof. intros. unfold s32. rewrite Z.mod_small; lia. Qed.
Lemma s64_small x : -9223372036854775808 ≤ x < 9223372036854775808 → s64 x = x.
Proof. intros. unfold s64. rewrite Z.mod_small; lia. Qed.
Lemma u8_range x : 0 ≤ u8 x < 256.
Proof. by apply Z.mod_pos_bound. Qed.
Lemma u16_range x : 0 ≤ u16 x < 65536.
Proof. by apply Z.mod_pos_bound. Qed.
Lemma u32_range x : 0 ≤ u32 x < 4294967296.
Proof. by apply Z.mod_pos_bound. Qed.
Lemma u64_range x : 0 ≤ u64 x < 18446744073709551616.
Proof. by apply Z.mod_pos_bound. Qed.
Lemma s32_range x : -2147483648 ≤ s32 x < 2147483648.
Proof.
  unfold s32. pose proof (Z.mod_pos_bound (x + 2 ^ 31) (2 ^ 32)). lia.
Qed.

(** ** Record update

    [r <| f := v |>] is [r] with the field [f] replaced, as the assignment
    [p->f = v] of the source does.  A record declares how it is rebuilt from
    its projections ([Eta]); the setter of a field is found from it. *)

Class Eta (R : Type) := eta_of : R → R.
Class Setter {R E : Type} (proj : R → E) := setter_of : (E → E) → R → R.
Definition upd {R E : Type} (proj : R → E) {S : Setter proj}
  (f : E → E) (r : R) : R := S f r.
Arguments upd {R E} proj {S} f !r /.

Ltac field_setter R E proj :=
  let inst := constr:(_ : Eta R) in
  let body := eval hnf in inst in
  lazymatch eval pattern proj in body with
  | ?k _ =>
      let t := eval cbv beta in (fun f : E → E => k (fun r => f (proj r))) in
      exact t
  end.
#[export] Hint Extern 1 (@Setter ?R ?E ?proj) =>
  field_setter R E proj : typeclass_instances.

Declare Scope kernel_scope.
Delimit Scope kernel_scope with kernel.
Notation "x <| proj := v |>" := (upd proj (fun _ => v) x)
  (at level 1, left associativity, proj at level 10, v at level 200,
   format "x <| proj  :=  v |>") : kernel_scope.
Notation "x <| proj ::= f |>" := (upd proj f x)
  (at level 1, left associativity, proj at level 10, f at level 200,
   format "x <| proj  ::=  f |>") : kernel_scope.
#[global] Open Scope kernel_scope.

(** ** The kernel monad

    A C function that reads or changes the state [St] of its component is a
    function of that state.  It returns a value, or it ends in one of the ways
    the kernel's code ends without returning to its caller. *)

Inductive outcome (St A : Type) : Type :=
| Ret (a : A) (s : St)             (* the function returned [a] *)
| Panic (msg : string) (s : St)    (* panic(msg): print and loop for ever *)
| Exit (code : Z) (s : St)         (* do_exit(code): the task is gone *)
| Sleep (s : St)                   (* sleep_on: the processor is given up *)
| Fault (s : St)                   (* an access outside of its object *)
| NoFuel (s : St).                 (* the loop was cut off by the fuel *)
Arguments Ret {St A} a s.
Arguments Panic {St A} msg s.
Arguments Exit {St A} code s.
Arguments Sleep {St A} s.
Arguments Fault {St A} s.
Arguments NoFuel {St A} s.

Definition M (St A : Type) : Type := St → outcome St A.

#[export] Instance M_ret St : MRet (M St) := λ A a s, Ret a s.
#[export] Instance M_bind St : MBind (M St) := λ A B k m s,
  match m s with
  | Ret a s' => k a s'
  | Panic msg s' => Panic msg s'
  | Exit c s' => Exit c s'
  | Sleep s' => Sleep s'
  | Fault s' => Fault s'
  | NoFuel s' => NoFuel s'
  end.

Section Operations.
Context {St A : Type}.
Definition get_st : M St St := λ s, Ret s s.
Definition put_st (s : St) : M St () := λ _, Ret tt s.
Definition gets (f : St → A) : M St A := λ s, Ret (f s) s.
Definition modify (f : St → St) : M St () := λ s, Ret tt (f s).
Definition panic (msg : string) : M St A := λ s, Panic msg s.
Definition do_exit_with (code : Z) : M St A := λ s, Exit code s.
Definition sleep : M St A := λ s, Sleep s.
Definition fault : M St A := λ s, Fault s.
Definition nofuel : M St A := λ s, NoFuel s.
(** [if (c) m], with nothing done otherwise. *)
Definition when (c : bool) (m : M St ()) : M St () := if c then m else mret ().
End Operations.

(** A loop over a list of indices whose body may leave it ([Some r]: break or
    return with [r]). *)
Fixpoint mloop {St I R : Type} (body : I → M St (option R)) (l : list I)
    : M St (option R) :=
  match l with
  | [] => mret None
  | i :: l => r ← body i;
              match r with Some x => mret (Some x) | None => mloop body l end
  end.

(** A loop over a list of indices without break. *)
Fixpoint mfor {St I : Type} (body : I → M St ()) (l : list I) : M St () :=
  match l with
  | [] => mret ()
  | i :: l => body i;; mfor body l
  end.

(** [while (1) body]: the body leaves the loop with [Some r]. *)
Fixpoint mwhile {St R : Type} (fuel : nat) (body : M St (option R)) : M St R :=
  match fuel with
  | O => nofuel
  | S n => r ← body; match r with Some x => mret x | None => mwhile n body end
  end.

(** A function of one component, run on the part [f] of a larger state. *)
Definition zoom {St T A : Type} (f : St → T) {Sf : Setter f} (m : M T A) : M St A := λ s,
  match m (f s) with
  | Ret a t => Ret a (s <| f := t |>)
  | Panic msg t => Panic msg (s <| f := t |>)
  | Exit c t => Exit c (s <| f := t |>)
  | Sleep t => Sleep (s <| f := t |>)
  | Fault t => Fault (s <| f := t |>)
  | NoFuel t => NoFuel (s <| f := t |>)
  end.

(** ** Reasoning about outcomes *)

(** [wp m Q s]: started in [s], [m] returns, and what it returns and leaves
    satisfies [Q].  It is total: no panic, fault, sleep or loss of fuel. *)
Definition wp {St A} (m : M St A) (Q : A → St → Prop) (s : St) : Prop :=
  match m s with Ret a s' => Q a s' | _ => False end.

Section Wp.
Context {St : Type}.
Implicit Types s : St.

Lemma wp_ret {A} (a : A) (Q : A → St → Prop) s : Q a s → wp (mret a) Q s.
Proof. done. Qed.
Lemma wp_bind {A B} (m : M St A) (k : A → M St B) (Q : B → St → Prop) s :
  wp m (λ a, wp (k a) Q) s → wp (m ≫= k) Q s.
Proof. unfold wp, mbind, M_bind. destruct (m s); naive_solver. Qed.
Lemma wp_bind_inv {A B} (m : M St A) (k : A → M St B) (Q : B → St → Prop) s :
  wp (m ≫= k) Q s → wp m (λ a, wp (k a) Q) s.
Proof. unfold wp, mbind, M_bind. destruct (m s); naive_solver. Qed.
Lemma wp_mono {A} (m : M St A) (P Q : A → St → Prop) s :
  wp m P s → (∀ a s', P a s' → Q a s') → wp m Q s.
Proof. unfold wp. destruct (m s); naive_solver. Qed.
Lemma wp_and {A} (m : M St A) (P Q : A → St → Prop) s :
  wp m P s → wp m Q s → wp m (λ a s', P a s' ∧ Q a s') s.
Proof. unfold wp. destruct (m s); naive_solver. Qed.
Lemma wp_gets {A} (f : St → A) (Q : A → St → Prop) s : Q (f s) s → wp (gets f) Q s.
Proof. done. Qed.
Lemma wp_modify f (Q : () → St → Prop) s : Q tt (f s) → wp (modify f) Q s.
Proof. done. Qed.
Lemma wp_when (c : bool) (m : M St ()) (Q : () → St → Prop) s :
  (c = true → wp m Q s) → (c = false → Q tt s) → wp (when c m) Q s.
Proof. destruct c; unfold when; naive_solver. Qed.
Lemma wp_returns {A} (m : M St A) (Q : A → St → Prop) s :
  wp m Q s → ∃ a s', m s = Ret a s' ∧ Q a s'.
Proof. unfold wp. destruct (m s); naive_solver. Qed.
Lemma wp_of_ret {A} (m : M St A) (Q : A → St → Prop) s a s' :
  m s = Ret a s' → Q a s' → wp m Q s.
Proof. unfold wp. by intros ->. Qed.

(** A loop invariant for [mfor]: it is indexed by what is still to do. *)
Lemma wp_mfor {I} (body : I → M St ()) (Inv : list I → St → Prop) l s :
  Inv l s →
  (∀ i l' s, Inv (i :: l') s → wp (body i) (λ _, Inv l') s) →
  wp (mfor body l) (λ _, Inv []) s.
Proof.
  intros H0 Hstep. revert s H0. induction l as [|i l IH]; intros s H0; [done|].
  simpl. apply wp_bind. eapply wp_mono; [by apply Hstep|]. naive_solver.
Qed.
End Wp.

Lemma wp_zoom {St T A} (f : St → T) {Sf : Setter f} (m : M T A) (Q : A → St → Prop) s :
  wp m (λ a t, Q a (s <| f := t |>)) (f s) → wp (zoom f m) Q s.
Proof. unfold wp, zoom. by destruct (m (f s)). Qed.

Lemma Ret_inj {St A} (a a' : A) (s s' : St) : Ret a s = Ret a' s' → a = a' ∧ s = s'.
Proof. by intros [= -> ->]. Qed.

(** A bind whose first part is known to return. *)
Lemma bind_ret {St A B} (m : M St A) (k : A → M St B) s a s' :
  m s = Ret a s' → (m ≫= k) s = k a s'.
Proof. unfold mbind, M_bind. by intros ->. Qed.

Lemma bind_gets {St A B} (f : St → A) (k : A → M St B) s : (gets f ≫= k) s = k (f s) s.
Proof. done. Qed.
Lemma bind_modify {St B} (f : St → St) (k : () → M St B) s : (modify f ≫= k) s = k tt (f s).
Proof. done. Qed.

(** What a bind that returned has gone through. *)
Lemma bind_inv {St A B} (m : M St A) (k : A → M St B) s b s' :
  (m ≫= k) s = Ret b s' → ∃ a s1, m s = Ret a s1 ∧ k a s1 = Ret b s'.
Proof. unfold mbind, M_bind. destruct (m s) as [a s1| | | | |]; [eauto|done..]. Qed.

(** A search that reads the state only: it stops at the first index that fails
    the test [P]. *)
Lemma mloop_test {St I} (P : I → bool) (body : I → M St (option bool)) (l : list I) s :
  (∀ i, i ∈ l → body i s = Ret (if P i then None else Some false) s) →
  mloop body l s = Ret (if forallb P l then None else Some false) s.
Proof.
  intros Hb. induction l as [|i l IH]; [done|].
  simpl. rewrite (bind_ret _ _ s _ s (Hb i ltac:(left))).
  destruct (P i); simpl; [|done]. apply IH. intros j Hj. apply Hb. by right.
Qed.

Lemma mloop_cons {St I R} (body : I → M St (option R)) i l :
  mloop body (i :: l) =
  (r ← body i; match r with Some x => mret (Some x) | None => mloop body l end).
Proof. done. Qed.
Lemma mfor_cons {St I} (body : I → M St ()) i l :
  mfor body (i :: l) = (body i;; mfor body l).
Proof. done. Qed.

(** Rewrite the first step of a bind with an equation for it. *)
Tactic Notation "mstep" constr(H) := erewrite bind_ret by (exact H).

(** ** Arrays of the program

    [arr ! i] reads [arr[i]]; an index outside of the array is a [Fault]. *)

Definition index {St A} (l : list A) (i : Z) : M St A :=
  if i <? 0 then fault else
  match l !! Z.to_nat i with Some x => mret x | None => fault end.

(** [arr[i] = x] on the array reached by the field [f] of the state. *)
Definition store {St A} (f : St → list A) {S : Setter f} (i : Z) (x : A) : M St () :=
  l ← gets f;
  if (i <? 0) || (Z.of_nat (length l) <=? i) then fault
  else modify (λ s, s <| f ::= <[Z.to_nat i := x]> |>).

(** The index lists of the counted loops. *)
Definition upto (n : nat) : list Z := seqZ 0 (Z.of_nat n).          (* 0, 1, ... *)
Definition downfrom (n : nat) : list Z := reverse (upto n).         (* n-1, ..., 0 *)

Lemma index_Some {St A} (l : list A) i x (s : St) :
  0 ≤ i → l !! Z.to_nat i = Some x → index l i s = Ret x s.
Proof.
  intros Hi Hx. unfold index. destruct (Z.ltb_spec i 0); [lia|]. by rewrite Hx.
Qed.
Lemma wp_index {St A} (l : list A) i (Q : A → St → Prop) s :
  0 ≤ i < Z.of_nat (length l) →
  (∀ x, l !! Z.to_nat i = Some x → Q x s) → wp (index l i) Q s.
Proof.
  intros Hi HQ. destruct (lookup_lt_is_Some_2 l (Z.to_nat i)) as [x Hx]; [lia|].
  eapply wp_of_ret; [apply index_Some; [lia|done]|by apply HQ].
Qed.
Lemma index_out {St A} (l : list A) i (s : St) :
  (i < 0 ∨ Z.of_nat (length l) ≤ i) → index l i s = Fault s.
Proof.
  intros Hi. unfold index. destruct (Z.ltb_spec i 0); [done|].
  rewrite lookup_ge_None_2; [reflexivity|lia].
Qed.
Lemma store_in {St A} (f : St → list A) {S : Setter f} i x (s : St) :
  0 ≤ i < Z.of_nat (length (f s)) →
  store f i x s = Ret tt (s <| f ::= <[Z.to_nat i := x]> |>).
Proof.
  intros Hi. unfold store, gets, mbind, M_bind.
  destruct (Z.ltb_spec i 0); [lia|].
  destruct (Z.leb_spec (Z.of_nat (length (f s))) i); [lia|done].
Qed.

Lemma upto_S n : upto (S n) = upto n ++ [Z.of_nat n].
Proof.
  unfold upto. by rewrite seqZ_S, Z.add_0_l.
Qed.
Lemma downfrom_S n : downfrom (S n) = Z.of_nat n :: downfrom n.
Proof. unfold downfrom. by rewrite upto_S, reverse_snoc. Qed.
Lemma elem_of_upto i n : i ∈ upto n ↔ 0 ≤ i < Z.of_nat n.
Proof. unfold upto. rewrite elem_of_seqZ. lia. Qed.

Lemma mfor_app {St I} (body : I → M St ()) l1 l2 s :
  mfor body (l1 ++ l2) s = (mfor body l1;; mfor body l2) s.
Proof.
  revert s. induction l1 as [|i l1 IH]; intros s; [done|].
  simpl. unfold mbind, M_bind in *. destruct (body i s); done.
Qed.

(** Loop rules for [for (i = 0; i < n; i++)], without and with break. *)
Lemma wp_mfor_upto {St} (body : Z → M St ()) (Inv : nat → St → Prop) n s :
  Inv O s →
  (∀ k s, (k < n)%nat → Inv k s → wp (body (Z.of_nat k)) (λ _, Inv (S k)) s) →
  wp (mfor body (upto n)) (λ _, Inv n) s.
Proof.
  intros H0 Hstep. induction n as [|n IH]; [done|].
  unfold wp. rewrite upto_S, mfor_app. change (wp (mfor body (upto n);;
    mfor body [Z.of_nat n]) (λ _, Inv (S n)) s).
  apply wp_bind. eapply wp_mono; [apply IH; auto|].
  intros [] s' Hn. simpl. apply wp_bind. eapply wp_mono; [apply Hstep; [lia|done]|done].
Qed.

Lemma mloop_app {St I R} (body : I → M St (option R)) l1 l2 s :
  mloop body (l1 ++ l2) s =
  (r ← mloop body l1; match r with Some x => mret (Some x) | None => mloop body l2 end) s.
Proof.
  revert s. induction l1 as [|i l1 IH]; intros s; [done|].
  simpl. unfold mbind, M_bind in *. destruct (body i s) as [[]| | | | |]; done.
Qed.

Lemma wp_mloop_upto {St R} (body : Z → M St (option R)) (Inv : nat → St → Prop)
    (Q : option R → St → Prop) n s :
  Inv O s →
  (∀ k s, (k < n)%nat → Inv k s →
     wp (body (Z.of_nat k)) (λ r s', match r with Some x => Q (Some x) s' | None => Inv (S k) s' end) s) →
  (∀ s, Inv n s → Q None s) →
  wp (mloop body (upto n)) Q s.
Proof.
  intros H0 Hstep Hend.
  cut (wp (mloop body (upto n))
         (λ r s', match r with Some x => Q (Some x) s' | None => Inv n s' end) s).
  { intros H. eapply wp_mono; [done|]. intros [] ?; auto. }
  clear Hend. induction n as [|n IH]; [done|].
  unfold wp. rewrite upto_S, mloop_app. change (wp (mloop body (upto n) ≫= λ r,
    match r with Some x => mret (Some x) | None => mloop body [Z.of_nat n] end)
    (λ r s', match r with Some x => Q (Some x) s' | None => Inv (S n) s' end) s).
  apply wp_bind. eapply wp_mono; [apply IH; auto|].
  intros [x|] s' Hn; [done|]. simpl. apply wp_bind.
  eapply wp_mono; [apply Hstep; [lia|done]|]. by intros [].
Qed.

#[global] Arguments upto : simpl never.
#[global] Arguments downfrom : simpl never.
#[global] Arguments mfor : simpl never.
#[global] Arguments mloop : simpl never.

(** ** What a function keeps

    [keeps R m]: whenever [m] returns, its initial and final states are related
    by the preorder [R] (a part of the state is unchanged, say).  The tactic
    [keep] proves it by following the structure of [m], with the lemmas of the
    database [keeps] for the functions it calls. *)

Definition keeps {St A} (R : St → St → Prop) (m : M St A) : Prop :=
  ∀ s a s', m s = Ret a s' → R s s'.

Section Keeps.
Context {St : Type} (R : St → St → Prop) `{!PreOrder R}.

Lemma keeps_ret {A} (a : A) : keeps R (mret a : M St A).
Proof. intros s b s' [= _ <-]. reflexivity. Qed.
Lemma keeps_bind {A B} (m : M St A) (k : A → M St B) :
  keeps R m → (∀ a, keeps R (k a)) → keeps R (m ≫= k).
Proof.
  intros Hm Hk s b s' H. unfold mbind, M_bind in H.
  destruct (m s) as [a s1| | | | |] eqn:E; try discriminate.
  transitivity s1; [by eapply Hm|by eapply Hk].
Qed.
Lemma keeps_gets {A} (f : St → A) : keeps R (gets f).
Proof. intros s b s' [= _ <-]. reflexivity. Qed.
Lemma keeps_get_st : keeps R get_st.
Proof. intros s b s' [= _ <-]. reflexivity. Qed.
Lemma keeps_modify (f : St → St) : (∀ s, R s (f s)) → keeps R (modify f).
Proof. intros H s b s' [= _ <-]. done. Qed.
Lemma keeps_panic {A} msg : keeps R (panic msg : M St A).
Proof. intros s b s' [=]. Qed.
Lemma keeps_exit {A} c : keeps R (do_exit_with c : M St A).
Proof. intros s b s' [=]. Qed.
Lemma keeps_fault {A} : keeps R (fault : M St A).
Proof. intros s b s' [=]. Qed.
Lemma keeps_sleep {A} : keeps R (sleep : M St A).
Proof. intros s b s' [=]. Qed.
Lemma keeps_nofuel {A} : keeps R (nofuel : M St A).
Proof. intros s b s' [=]. Qed.
Lemma keeps_when (c : bool) (m : M St ()) : keeps R m → keeps R (when c m).
Proof. intros H. destruct c; [done|apply keeps_ret]. Qed.
Lemma keeps_mfor {I} (body : I → M St ()) l : (∀ i, keeps R (body i)) → keeps R (mfor body l).
Proof.
  intros H. induction l as [|i l IH]; simpl; [apply keeps_ret|].
  by apply keeps_bind.
Qed.
Lemma keeps_mloop {I X} (body : I → M St (option X)) l :
  (∀ i, keeps R (body i)) → keeps R (mloop body l).
Proof.
  intros H. induction l as [|i l IH]; simpl; [apply keeps_ret|].
  apply keeps_bind; [done|]. intros []; [apply keeps_ret|done].
Qed.
Lemma keeps_index {A} (l : list A) i : keeps R (index l i).
Proof.
  unfold index. destruct (i <? 0); [apply keeps_fault|].
  destruct (l !! _); [apply keeps_ret|apply keeps_fault].
Qed.
Lemma keeps_store {A} (f : St → list A) {Sf : Setter f} i x :
  (∀ s, R s (s <| f ::= <[Z.to_nat i := x]> |>)) → keeps R (store f i x).
Proof.
  intros H. unfold store. apply keeps_bind; [apply keeps_gets|]. intros l.
  destruct (_ || _); [apply keeps_fault|by apply keeps_modify].
Qed.
Lemma keeps_zoom {T A} (f : St → T) {Sf : Setter f} (m : M T A) :
  (∀ s a t, m (f s) = Ret a t → R s (s <| f := t |>)) → keeps R (zoom f m).
Proof.
  intros H s a s' Hs. unfold zoom in Hs.
  destruct (m (f s)) as [b t| | | | |] eqn:E; simplify_eq. by eapply H.
Qed.
Lemma wp_keeps {A} (m : M St A) (Q : A → St → Prop) s :
  keeps R m → wp m Q s → wp m (λ a s', Q a s' ∧ R s s') s.
Proof.
  intros Hm Hw. unfold wp in *. destruct (m s) eqn:E; try done. split; [done|by eapply Hm].
Qed.
End Keeps.

Create HintDb keeps.
#[export] Hint Extern 0 (keeps _ (@mret _ _ _ _)) => refine (keeps_ret _ _) : keeps.
#[export] Hint Extern 0 (keeps _ (gets _)) => refine (keeps_gets _ _) : keeps.
#[export] Hint Extern 0 (keeps _ get_st) => refine (keeps_get_st _) : keeps.
#[export] Hint Extern 0 (keeps _ (panic _)) => refine (keeps_panic _ _) : keeps.
#[export] Hint Extern 0 (keeps _ (do_exit_with _)) => refine (keeps_exit _ _) : keeps.
#[export] Hint Extern 0 (keeps _ fault) => refine (keeps_fault _) : keeps.
#[export] Hint Extern 0 (keeps _ sleep) => refine (keeps_sleep _) : keeps.
#[export] Hint Extern 0 (keeps _ nofuel) => refine (keeps_nofuel _) : keeps.
#[export] Hint Extern 0 (keeps _ (index _ _)) => refine (keeps_index _ _ _) : keeps.
Ltac keep_step :=
  match goal with
  | |- keeps _ (@mbind _ _ _ _ _ _) => refine (keeps_bind _ _ _ _ _); [|intros ?]
  | |- keeps _ (when _ _) => refine (keeps_when _ _ _ _)
  | |- keeps _ (mfor _ _) => refine (keeps_mfor _ _ _ _); intros ?
  | |- keeps _ (mloop _ _) => refine (keeps_mloop _ _ _ _); intros ?
  | |- keeps _ (if ?b then _ else _) => destruct b
  | |- keeps _ (match ?x with _ => _ end) => destruct x
  | |- keeps _ (let _ := _ in _) => cbv zeta
  | |- keeps _ _ => solve [auto with keeps]
  end.
Ltac keep := repeat keep_step.
