(* ===== verification/Bytes.v ===== *)
(** * Bytes in memory

    A memory is a finite map from addresses to bytes: lists of bytes at an
    address, their assignment, C strings, and ranges that do not overlap. *)

From S2P Require Export Prelude.

Abbreviation zlen l := (Z.of_nat (length l)).

Fixpoint at_bytes (m : gmap Z Z) (p : Z) (l : list Z) : Prop :=
  match l with [] => True | b :: l => m !! p = Some b ∧ at_bytes m (p + 1) l end.
Fixpoint blit (p : Z) (l : list Z) (m : gmap Z Z) : gmap Z Z :=
  match l with [] => m | b :: l => blit (p + 1) l (<[p := b]> m) end.
Definition chars (l : list Z) : Prop := Forall (λ b, 0 < b < 256) l.
(** The string [l] is at [p]. *)
Definition cstr (m : gmap Z Z) (p : Z) (l : list Z) : Prop := chars l ∧ at_bytes m p (l ++ [0]).
(** The [n] bytes from [p] on are memory of the program. *)
Definition room (m : gmap Z Z) (p n : Z) : Prop := ∀ q, p ≤ q < p + n → is_Some (m !! q).
Lemma blit_lookup l : ∀ p m q,
  blit p l m !! q = if decide (p ≤ q < p + zlen l) then l !! Z.to_nat (q - p) else m !! q.
Proof.
  induction l as [|b l IH]; intros p m q; cbn [blit length].
  - by rewrite decide_False by lia.
  - rewrite IH. case_decide; [rewrite decide_True by lia|case_decide].
    + by replace (Z.to_nat (q - p)) with (S (Z.to_nat (q - (p + 1)))) by lia.
    + replace q with p by lia. rewrite lookup_insert_eq, Z.sub_diag. done.
    + by rewrite lookup_insert_ne by lia.
Qed.
Lemma blit_out p l m q : ¬ p ≤ q < p + zlen l → blit p l m !! q = m !! q.
Proof. intros. by rewrite blit_lookup, decide_False. Qed.
Lemma at_bytes_lookup m p l : at_bytes m p l ↔ ∀ i b, l !! i = Some b → m !! (p + Z.of_nat i) = Some b.
Proof.
  revert p. induction l as [|b l IH]; intros p; [naive_solver|]. cbn [at_bytes]. rewrite IH. split.
  - intros [H0 H] [|i] c Hc; [injection Hc as <-; by rewrite Z.add_0_r|].
    replace (p + Z.of_nat (S i)) with (p + 1 + Z.of_nat i) by lia. by apply H.
  - intros H. split; [by rewrite <-(Z.add_0_r p); apply (H O)|]. intros i c Hc.
    replace (p + 1 + Z.of_nat i) with (p + Z.of_nat (S i)) by lia. by apply H.
Qed.
Lemma at_app m p l1 l2 : at_bytes m p (l1 ++ l2) ↔ at_bytes m p l1 ∧ at_bytes m (p + zlen l1) l2.
Proof.
  revert p. induction l1 as [|b l IH]; intros p; cbn [app at_bytes length]; [rewrite Z.add_0_r; tauto|].
  rewrite IH. replace (p + Z.of_nat (S (length l))) with (p + 1 + zlen l) by lia. tauto.
Qed.
Lemma at_ext m m' p l : at_bytes m p l → (∀ q, p ≤ q < p + zlen l → m' !! q = m !! q) → at_bytes m' p l.
Proof.
  rewrite !at_bytes_lookup. intros H Hm i b Hi. rewrite Hm; [by apply H|].
  apply lookup_lt_Some in Hi. lia.
Qed.
Lemma at_blit p l m : at_bytes (blit p l m) p l.
Proof.
  apply at_bytes_lookup. intros i b Hi. pose proof (lookup_lt_Some _ _ _ Hi).
  rewrite blit_lookup, decide_True by lia. replace (Z.to_nat _) with i by lia. done.
Qed.
Lemma at_room m p l : at_bytes m p l → room m p (zlen l).
Proof.
  rewrite at_bytes_lookup. intros H q Hq.
  destruct (lookup_lt_is_Some_2 l (Z.to_nat (q - p))) as [b Hb]; [lia|].
  exists b. apply H in Hb. by replace (p + Z.of_nat (Z.to_nat (q - p))) with q in Hb by lia.
Qed.
Lemma room_blit m p n q l : room m p n → room (blit q l m) p n.
Proof.
  intros H r Hr. rewrite blit_lookup. case_decide; [apply lookup_lt_is_Some; lia|by apply H].
Qed.
Lemma blit_app l1 : ∀ p l2 m, blit p (l1 ++ l2) m = blit (p + zlen l1) l2 (blit p l1 m).
Proof.
  induction l1 as [|b l IH]; intros p l2 m; cbn [app blit length]; [by rewrite Z.add_0_r|].
  rewrite IH. f_equal. lia.
Qed.
Lemma chars_cons b l : chars (b :: l) ↔ 0 < b < 256 ∧ chars l.
Proof. unfold chars. by rewrite Forall_cons. Qed.
Lemma cstr_cons m p b l : cstr m p (b :: l) ↔ 0 < b < 256 ∧ m !! p = Some b ∧ cstr m (p + 1) l.
Proof. unfold cstr. rewrite chars_cons. cbn [app at_bytes]. tauto. Qed.
Lemma cstr_nil m p : cstr m p [] ↔ m !! p = Some 0.
Proof. unfold cstr, chars. cbn [app at_bytes]. rewrite Forall_nil. tauto. Qed.
(** The byte that a loop over a string reads: the first of what is left, or 0. *)
Lemma cstr_head m p l : cstr m p l → m !! p = Some (hd 0 l).
Proof. destruct l; [by rewrite cstr_nil|rewrite cstr_cons; tauto]. Qed.
Lemma cstr_drop m p l k : cstr m p l → (k ≤ length l)%nat → cstr m (p + Z.of_nat k) (drop k l).
Proof.
  revert p l. induction k as [|k IH]; intros p l H Hk; [by rewrite Z.add_0_r|].
  destruct l as [|b l]; [simpl in Hk; lia|]. apply cstr_cons in H as (_ & _ & H). simpl in Hk.
  replace (p + Z.of_nat (S k)) with (p + 1 + Z.of_nat k) by lia. apply IH; [done|lia].
Qed.
Definition octets (l : list Z) : Prop := Forall (λ b, 0 ≤ b < 256) l.
Lemma octets_cons b l : octets (b :: l) ↔ 0 ≤ b < 256 ∧ octets l.
Proof. unfold octets. by rewrite Forall_cons. Qed.
Lemma chars_octets l : chars l → octets l.
Proof. intros H. eapply Forall_impl; [exact H|]. simpl. lia. Qed.
Lemma room_insert m p n q b : room m p n → room (<[q := b]> m) p n.
Proof. intros H r Hr. apply lookup_insert_is_Some. destruct (decide (q = r)); [by left|right; split; [done|by apply H]]. Qed.
Lemma room_sub m p n p' n' : room m p n → p ≤ p' → p' + n' ≤ p + n → room m p' n'.
Proof. intros H ? ? r Hr. apply H. lia. Qed.
(** Two ranges of memory. *)
Definition apart (p n q k : Z) : Prop := p + n ≤ q ∨ q + k ≤ p.
Lemma at_insert m p l q b : at_bytes m p l → q < p ∨ p + zlen l ≤ q → at_bytes (<[q := b]> m) p l.
Proof. intros H Hq. eapply at_ext; [done|]. intros r Hr. apply lookup_insert_ne. lia. Qed.
Lemma blit_insert_end p l b m : blit p l (<[p + zlen l := b]> m) = blit p (l ++ [b]) m.
Proof.
  apply map_eq. intros q. rewrite !blit_lookup, length_app. cbn [length].
  destruct (decide (p ≤ q < p + zlen l)).
  - rewrite decide_True by lia. rewrite lookup_app_l by lia. done.
  - case_decide.
    + replace q with (p + zlen l) by lia. rewrite lookup_insert_eq, lookup_app_r by lia.
      by replace (Z.to_nat (p + zlen l - p) - length l)%nat with O by lia.
    + apply lookup_insert_ne. lia.
Qed.
Lemma cstr_app m p l1 l2 : cstr m p (l1 ++ l2) → cstr m (p + zlen l1) l2.
Proof. intros H. apply (cstr_drop _ _ _ (length l1)) in H; [by rewrite drop_app_length in H|rewrite length_app; lia]. Qed.
Lemma cstr_at m p l1 l2 : cstr m p (l1 ++ l2) → at_bytes m p l1 ∧ chars l1 ∧ chars l2.
Proof.
  intros [Hc Ha]. apply Forall_app in Hc as [? ?]. rewrite <-app_assoc in Ha. by apply at_app in Ha as [? _].
Qed.
Lemma cstr_ext m m' p l : cstr m p l → (∀ q, p ≤ q ≤ p + zlen l → m' !! q = m !! q) → cstr m' p l.
Proof.
  intros [Hc Ha] Hm. split; [done|]. eapply at_ext; [done|]. intros q Hq. apply Hm.
  rewrite length_app in Hq. simpl in Hq. lia.
Qed.
(** A 0 put behind a run of bytes makes it a string. *)
Lemma cstr_cut m p l : at_bytes m p l → chars l → cstr (<[p + zlen l := 0]> m) p l.
Proof.
  intros Ha Hc. split; [done|]. apply at_app. split; [apply at_insert; [done|lia]|].
  simpl. by rewrite lookup_insert_eq.
Qed.
Lemma room_check m p n : forallb (λ q, bool_decide (is_Some (m !! q))) (seqZ p n) = true → room m p n.
Proof.
  intros H q Hq. rewrite forallb_forall in H. specialize (H q). rewrite bool_decide_eq_true in H.
  apply H. apply list_elem_of_In, elem_of_seqZ. lia.
Qed.
Lemma chars_check l : forallb (λ b, (0 <? b) && (b <? 256)) l = true → chars l.
Proof.
  intros H. rewrite forallb_forall in H. apply Forall_forall. intros b Hb%list_elem_of_In%H.
  apply andb_prop in Hb as [?%Z.ltb_lt ?%Z.ltb_lt]. lia.
Qed.
