(* ===== verification/Layout.v ===== *)
(** * Layout of the C structures

    The kernel relies on the memory layout of its structures: blocks read from
    disk are used through casts ([struct d_inode], [struct dir_entry],
    [struct super_block]), [kernel/switch.nasm] reaches into [task_struct] by a
    constant offset and a task is kept in one page.  This file models the x86_64
    layout rules (natural alignment, [packed], [aligned]) and translates the
    structures of the headers, field by field. *)

From S2P Require Import Prelude.

(** ** Types and layout rules *)

#[warnings="-register-all"]
Inductive ctype :=
| TScalar (size : Z)                       (* integers and pointers *)
| TArray (t : ctype) (n : nat)
| TStruct (packed : bool) (aligned : Z) (fields : list (string * ctype)).

Definition TChar := TScalar 1.
Definition TShort := TScalar 2.
Definition TInt := TScalar 4.
Definition TLong := TScalar 8.
Definition TPtr := TScalar 8.

Definition struct (fs : list (string * ctype)) : ctype := TStruct false 1 fs.

Definition align_up (x a : Z) : Z := (x + (a - 1)) / a * a.

(** Where the fields go: each is placed at the next offset its alignment
    allows.  [place] works on fields whose size and alignment are known. *)
Fixpoint place {X} (fs : list (X * (Z * Z))) (off : Z) : list (X * Z * Z) :=
  match fs with
  | [] => []
  | (name, (sz, al)) :: fs =>
      let o := align_up off al in (name, o, sz) :: place fs (o + sz)
  end.

Definition end_of {X} (fs : list (X * Z * Z)) (off : Z) : Z :=
  foldl (λ _ '(_, o, sz), o + sz) off fs.

Definition max_align {X} (fs : list (X * (Z * Z))) (al : Z) : Z :=
  foldr (λ '(_, (_, a)) m, Z.max a m) al fs.

(** Size and alignment of a type. *)
Fixpoint size_align (t : ctype) : Z * Z :=
  match t with
  | TScalar n => (n, n)
  | TArray t n => let '(s, a) := size_align t in (s * Z.of_nat n, a)
  | TStruct packed al fs =>
      let sa := map (λ '(name, t),
                  let '(s, a) := size_align t in
                  (name, (s, if packed then 1 else a))) fs in
      let a := max_align sa al in
      (align_up (end_of (place sa 0) 0) a, a)
  end.

Definition sizeof (t : ctype) : Z := (size_align t).1.
Definition alignof (t : ctype) : Z := (size_align t).2.

(** The fields of a structure with their offset and size. *)
Definition layout (t : ctype) : list (string * Z * Z) :=
  match t with
  | TStruct packed _ fs =>
      place (map (λ '(name, t),
               let '(s, a) := size_align t in
               (name, (s, if packed then 1 else a))) fs) 0
  | _ => []
  end.

Fixpoint field_offset (l : list (string * Z * Z)) (name : string) : option Z :=
  match l with
  | [] => None
  | (n, o, _) :: l => if decide (n = name) then Some o else field_offset l name
  end.

Definition offsetof (t : ctype) (name : string) : option Z :=
  field_offset (layout t) name.

(** ** include/linux/head.h *)

Definition desc_struct := struct [("a", TInt); ("b", TInt)].

Definition idt_entry := TStruct true 1
  [("offset_low", TShort); ("selector", TShort); ("ist", TChar);
   ("type_attr", TChar); ("offset_mid", TShort); ("offset_high", TInt);
   ("reserved", TInt)].

(** ** include/linux/fs.h *)

Definition NAME_LEN : nat := 14.
Definition BLOCK_SIZE : Z := 1024.
Definition NR_OPEN : nat := 20.
Definition PAGE_SIZE : Z := 4096.

Definition buffer_head_t := struct
  [("b_data", TPtr); ("b_dev", TShort); ("b_blocknr", TShort);
   ("b_uptodate", TChar); ("b_dirt", TChar); ("b_count", TChar);
   ("b_lock", TChar); ("b_wait", TPtr); ("b_prev", TPtr); ("b_next", TPtr);
   ("b_prev_free", TPtr); ("b_next_free", TPtr)].

Definition d_inode_t := struct
  [("i_mode", TShort); ("i_uid", TShort); ("i_size", TLong); ("i_time", TLong);
   ("i_gid", TChar); ("i_nlinks", TChar); ("i_zone", TArray TShort 9)].

Definition m_inode_t := struct
  [("i_mode", TShort); ("i_uid", TShort); ("i_size", TLong); ("i_mtime", TLong);
   ("i_gid", TChar); ("i_nlinks", TChar); ("i_zone", TArray TShort 9);
   ("i_wait", TPtr); ("i_atime", TLong); ("i_ctime", TLong); ("i_dev", TShort);
   ("i_num", TShort); ("i_count", TShort); ("i_lock", TChar); ("i_dirt", TChar);
   ("i_pipe", TChar); ("i_mount", TChar); ("i_seek", TChar);
   ("i_update", TChar)].

Definition file_t := struct
  [("f_mode", TShort); ("f_flags", TShort); ("f_count", TShort);
   ("f_inode", TPtr); ("f_pos", TLong)].

Definition super_block_t := struct
  [("s_ninodes", TShort); ("s_nzones", TShort); ("s_imap_blocks", TShort);
   ("s_zmap_blocks", TShort); ("s_firstdatazone", TShort);
   ("s_log_zone_size", TShort); ("s_max_size", TLong); ("s_magic", TShort);
   ("s_imap", TArray TPtr 8); ("s_zmap", TArray TPtr 8); ("s_dev", TShort);
   ("s_isup", TPtr); ("s_imount", TPtr); ("s_time", TLong);
   ("s_rd_only", TChar); ("s_dirt", TChar)].

Definition dir_entry_t := struct
  [("inode", TShort); ("name", TArray TChar NAME_LEN)].

Definition INODES_PER_BLOCK : Z := BLOCK_SIZE / sizeof d_inode_t.
Definition DIR_ENTRIES_PER_BLOCK : Z := BLOCK_SIZE / sizeof dir_entry_t.

(** ** include/linux/sched.h *)

Definition i387_struct := TStruct false 16
  [("cwd", TShort); ("swd", TShort); ("twd", TShort); ("fop", TShort);
   ("rip", TLong); ("rdp", TLong); ("mxcsr", TInt); ("mxcsr_mask", TInt);
   ("st_space", TArray TInt 32); ("xmm_space", TArray TInt 64);
   ("padding", TArray TInt 24)].

Definition tss_struct := TStruct true 1
  [("reserved0", TInt); ("rsp0", TLong); ("rsp1", TLong); ("rsp2", TLong);
   ("reserved1", TLong); ("ist", TArray TLong 7); ("reserved2", TLong);
   ("reserved3", TShort); ("iopb_offset", TShort)].

Definition thread_struct := struct
  [("rsp", TLong); ("rip", TLong); ("rbx", TLong); ("rbp", TLong);
   ("r12", TLong); ("r13", TLong); ("r14", TLong); ("r15", TLong);
   ("fs", TLong); ("gs", TLong)].

Definition task_struct_t := struct
  [("state", TLong); ("counter", TLong); ("priority", TLong);
   ("signal", TLong); ("sig_restorer", TPtr); ("sig_fn", TArray TPtr 32);
   ("exit_code", TInt); ("end_code", TLong); ("end_data", TLong);
   ("brk", TLong); ("start_stack", TLong); ("pid", TLong); ("father", TLong);
   ("pgrp", TLong); ("session", TLong); ("leader", TLong); ("uid", TShort);
   ("euid", TShort); ("suid", TShort); ("gid", TShort); ("egid", TShort);
   ("sgid", TShort); ("alarm", TLong); ("utime", TLong); ("stime", TLong);
   ("cutime", TLong); ("cstime", TLong); ("start_time", TLong);
   ("used_math", TShort); ("tty", TInt); ("umask", TShort); ("pwd", TPtr);
   ("root", TPtr); ("close_on_exec", TLong); ("filp", TArray TPtr NR_OPEN);
   ("ldt", TArray desc_struct 3); ("thread", thread_struct);
   ("i387", i387_struct); ("kernel_stack", TArray TLong 1024)].

(** ** include/a.out.h, include/linux/hdreg.h *)

Definition exec_t := struct
  [("a_magic", TLong); ("a_text", TInt); ("a_data", TInt); ("a_bss", TInt);
   ("a_syms", TInt); ("a_entry", TInt); ("a_trsize", TInt);
   ("a_drsize", TInt)].

Definition partition_t := struct
  [("boot_ind", TChar); ("head", TChar); ("sector", TChar); ("cyl", TChar);
   ("sys_ind", TChar); ("end_head", TChar); ("end_sector", TChar);
   ("end_cyl", TChar); ("start_sect", TInt); ("nr_sects", TInt)].

(** ** kernel/switch.nasm

    The constants [__switch_to] uses to reach the saved registers. *)

Definition TASK_THREAD : Z := 784.
Definition switch_offsets : list (string * Z) :=
  [("rsp", 0); ("rip", 8); ("rbx", 16); ("rbp", 24); ("r12", 32); ("r13", 40);
   ("r14", 48); ("r15", 56)].

(** The offsets that system_call.nasm uses for the fields of the task. *)
Definition task_offsets : list (string * Z) :=
  [("state", 0); ("counter", 8); ("priority", 16); ("signal", 24); ("sig_restorer", 32); ("sig_fn", 40)].

(** ** The layout rules are sound *)

Fixpoint wf_ctype (t : ctype) : bool :=
  match t with
  | TScalar n => 0 <? n
  | TArray t _ => wf_ctype t
  | TStruct _ al fs => (0 <? al) && forallb (λ f, wf_ctype f.2) fs
  end.

Lemma align_up_spec x a :
  0 < a → x ≤ align_up x a < x + a ∧ align_up x a mod a = 0.
Proof.
  intros Ha. unfold align_up. rewrite Z.mod_mul by lia.
  pose proof (Z.div_mod (x + (a - 1)) a). pose proof (Z.mod_pos_bound (x + (a - 1)) a).
  split; [nia|done].
Qed.

Definition fields_pos {X} (fs : list (X * (Z * Z))) : Prop :=
  Forall (λ '(_, (sz, al)), 0 ≤ sz ∧ 0 < al) fs.

(** Fields placed one after the other: [off] is where the last one ended. *)
Fixpoint laid_out {X} (l : list (X * Z * Z)) (off : Z) : Prop :=
  match l with
  | [] => True
  | (_, o, sz) :: l => off ≤ o ∧ 0 ≤ sz ∧ laid_out l (o + sz)
  end.

Lemma place_laid_out {X} (fs : list (X * (Z * Z))) off :
  fields_pos fs → laid_out (place fs off) off.
Proof.
  revert off. induction fs as [|[n [sz al]] fs IH]; intros off Hp; [done|].
  apply Forall_cons in Hp as [[??] Hp]. simpl.
  pose proof (align_up_spec off al). split_and!; [lia|lia|by apply IH].
Qed.

Lemma laid_out_end {X} (l : list (X * Z * Z)) off :
  laid_out l off → off ≤ end_of l off.
Proof.
  revert off. induction l as [|[[n o] sz] l IH]; intros off; [done|].
  simpl. intros (? & ? & H). apply IH in H. unfold end_of in *. simpl. lia.
Qed.

Lemma laid_out_in {X} (l : list (X * Z * Z)) off n o sz :
  laid_out l off → (n, o, sz) ∈ l → off ≤ o ∧ 0 ≤ sz ∧ o + sz ≤ end_of l off.
Proof.
  revert off. induction l as [|[[n' o'] sz'] l IH]; intros off; [by intros ? ?%not_elem_of_nil|].
  simpl. intros (? & ? & H) Hin. apply elem_of_cons in Hin as [?|Hin].
  - simplify_eq. apply laid_out_end in H. unfold end_of in *. simpl. lia.
  - destruct (IH _ H Hin) as (? & ? & ?). unfold end_of in *. simpl. lia.
Qed.

Lemma laid_out_disjoint {X} (l : list (X * Z * Z)) off i j f g :
  laid_out l off → (i < j)%nat → l !! i = Some f → l !! j = Some g →
  f.1.2 + f.2 ≤ g.1.2.
Proof.
  revert off i j. induction l as [|[[n o] sz] l IH]; intros off i j; [done|].
  simpl. intros (? & ? & H) Hij Hi Hj.
  destruct i, j; [lia| |lia|].
  - simplify_eq/=. destruct g as [[n' o'] sz'].
    apply list_elem_of_lookup_2, (laid_out_in _ _ _ _ _ H) in Hj. simpl. lia.
  - eapply IH; [done| |done|done]. lia.
Qed.

Lemma max_align_pos {X} (fs : list (X * (Z * Z))) al :
  0 < al → 0 < max_align fs al.
Proof. intros. induction fs as [|[? [??]] fs IH]; simpl; lia. Qed.

Definition sized_fields (packed : bool) (fs : list (string * ctype)) :=
  map (λ '(name, t),
    let '(s, a) := size_align t in (name, (s, if packed then 1 else a))) fs.

Fixpoint size_align_pos (t : ctype) :
  wf_ctype t = true → 0 ≤ (size_align t).1 ∧ 0 < (size_align t).2.
Proof.
  destruct t as [n|t n|packed al fs]; simpl.
  - intros ?%Z.ltb_lt. lia.
  - intros H. apply size_align_pos in H as [??]. destruct (size_align t); simpl in *. nia.
  - intros [Hal Hfs]%andb_prop. apply Z.ltb_lt in Hal.
    assert (fields_pos (sized_fields packed fs)) as Hp.
    { clear Hal. induction fs as [|[n t] fs IH]; [constructor|].
      simpl in Hfs. apply andb_prop in Hfs as [Ht Hfs].
      apply size_align_pos in Ht as [??]. simpl.
      destruct (size_align t); constructor; [destruct packed; simpl in *; lia|by apply IH]. }
    split; [|by apply max_align_pos].
    change (0 ≤ align_up (end_of (place (sized_fields packed fs) 0) 0)
                  (max_align (sized_fields packed fs) al)).
    pose proof (laid_out_end _ _ (place_laid_out _ 0 Hp)).
    pose proof (align_up_spec (end_of (place (sized_fields packed fs) 0) 0)
      (max_align (sized_fields packed fs) al) (max_align_pos _ _ Hal)). lia.
Qed.

Lemma sized_fields_pos packed fs :
  forallb (λ f, wf_ctype f.2) fs = true → fields_pos (sized_fields packed fs).
Proof.
  induction fs as [|[n t] fs IH]; [constructor|]. simpl.
  intros [Ht Hfs]%andb_prop. apply size_align_pos in Ht as [??].
  destruct (size_align t); constructor; [destruct packed; simpl in *; lia|by apply IH].
Qed.

(** Two different fields of a structure never share a byte, and every field
    lies inside of the structure. *)
Lemma layout_fields_disjoint packed al fs i j f g :
  wf_ctype (TStruct packed al fs) = true →
  layout (TStruct packed al fs) !! i = Some f →
  layout (TStruct packed al fs) !! j = Some g → (i < j)%nat →
  0 ≤ f.1.2 ∧ f.1.2 + f.2 ≤ g.1.2 ∧ g.1.2 + g.2 ≤ sizeof (TStruct packed al fs).
Proof.
  simpl. intros [Hal Hfs]%andb_prop Hi Hj Hij. apply Z.ltb_lt in Hal.
  assert (Hl := place_laid_out _ 0 (sized_fields_pos packed fs Hfs)).
  destruct f as [[n o] sz], g as [[n' o'] sz'].
  pose proof (laid_out_disjoint _ _ _ _ _ _ Hl Hij Hi Hj).
  apply list_elem_of_lookup_2, (laid_out_in _ _ _ _ _ Hl) in Hi.
  apply list_elem_of_lookup_2, (laid_out_in _ _ _ _ _ Hl) in Hj.
  pose proof (align_up_spec (end_of (place (sized_fields packed fs) 0) 0)
    (max_align (sized_fields packed fs) al) (max_align_pos _ _ Hal)).
  unfold sizeof. simpl in *. fold (sized_fields packed fs). lia.
Qed.

(** the inode of a disk block and the inode in memory begin with the same
    fields at the same offsets, and the memory-only fields start after the disk
    part, so the casts [*(struct d_inode * )inode = ...] of read_inode and
    write_inode copy every disk field and touch no memory-only field. *)
Theorem d_inode_prefix_of_m_inode :
  take 7 (map (λ f, (f.1.2, f.2)) (layout m_inode_t)) =
    map (λ f, (f.1.2, f.2)) (layout d_inode_t) ∧
  Forall (λ f, sizeof d_inode_t ≤ f.1.2) (drop 7 (layout m_inode_t)).
Proof. split; [reflexivity|]. repeat constructor; vm_compute; congruence. Qed.

(** on x86_64 the disk inode takes 48 bytes (its [unsigned long] fields are
    8 bytes wide), so the sanity check [32 != sizeof (struct d_inode)] that
    mount_root makes before anything else always fails, and the magic number of
    a super block is read at offset 24 where the minix format has it at 16. *)
Theorem disk_format_mismatch :
  sizeof d_inode_t = 48 ∧ INODES_PER_BLOCK = 21 ∧
  offsetof super_block_t "s_magic" = Some 24.
Proof. done. Qed.

(** The way back from the kernel tests the fields it means to test. *)
Lemma task_offsets_right : Forall (λ '(f, o), offsetof task_struct_t f = Some o) task_offsets.
Proof. repeat constructor. Qed.

(** [__switch_to] saves and restores the registers at offset 784 of the
    task, but [thread] lies at offset 664: the whole range it touches falls
    inside of [i387], so what copy_process stores in [p->thread] is never
    loaded; and a task structure is larger than the page it is kept in. *)
Theorem switch_to_misses_thread :
  offsetof task_struct_t "thread" = Some 664 ∧
  (∀ reg o, (reg, o) ∈ switch_offsets →
     offsetof thread_struct reg = Some o ∧
     664 + sizeof thread_struct ≤ TASK_THREAD + o ∧
     752 ≤ TASK_THREAD + o ∧ TASK_THREAD + o + 8 ≤ 752 + sizeof i387_struct) ∧
  offsetof task_struct_t "i387" = Some 752 ∧
  sizeof task_struct_t = 9456 ∧ PAGE_SIZE < sizeof task_struct_t.
Proof.
  split_and!; try done. intros reg o Hin.
  repeat (apply elem_of_cons in Hin as [[= -> ->]|Hin];
          [split_and!; vm_compute; congruence|]).
  by apply elem_of_nil in Hin.
Qed.
