(* ===== verification/Mm.v ===== *)
(** * Memory management (mm/memory.c)

    The page allocator over [mem_map], the four-level page tables, sharing of
    pages for fork (copy-on-write) and the page-fault handlers.  Physical memory
    is a finite map from the address of an 8-byte word to its value; the kernel
    reaches it through the identity mapping boot/head.nasm sets up, so a pointer
    to a page-table entry is the physical address of that entry. *)

From S2P Require Import Prelude Layout.

(** ** Constants (include/linux/config.h, mm/memory.c) *)

Definition HIGH_MEMORY : Z := 0x800000.
Definition BUFFER_END : Z := 0x200000.
Definition LOW_MEM : Z := if BUFFER_END <? 0x100000 then 0x100000 else BUFFER_END.
Definition PAGING_MEMORY : Z := HIGH_MEMORY - LOW_MEM.
Definition PAGING_PAGES : Z := PAGING_MEMORY / 4096.
Definition MAP_NR (addr : Z) : Z := Z.shiftr (u64 (addr - LOW_MEM)) 12.

Definition PML4_ADDR : Z := 0x1000.
Definition PAGE_PRESENT : Z := 0x001.
Definition PAGE_WRITE : Z := 0x002.
Definition PAGE_USER : Z := 0x004.

Definition PML4_INDEX (addr : Z) : Z := Z.shiftr addr 39 .& 0x1FF.
Definition PDPT_INDEX (addr : Z) : Z := Z.shiftr addr 30 .& 0x1FF.
Definition PD_INDEX (addr : Z) : Z := Z.shiftr addr 21 .& 0x1FF.
Definition PT_INDEX (addr : Z) : Z := Z.shiftr addr 12 .& 0x1FF.
Definition PTE_ADDR (pte : Z) : Z := pte .& 0x000FFFFFFFFFF000.

Definition SIGSEGV : Z := 11.

(** ** State *)

Record mm := Mm {
  phys : gmap Z Z;         (* 8-byte words, by address *)
  mem_map : list Z;        (* unsigned short mem_map[PAGING_PAGES] *)
  klog : list string       (* what printk was called with, oldest first *)
}.
#[export] Instance eta_mm : Eta mm := λ r, Mm (phys r) (mem_map r) (klog r).

Definition word (s : mm) (a : Z) : Z := default 0 (phys s !! a).
Definition rd (a : Z) : M mm Z := gets (λ s, word s a).
Definition wr (a v : Z) : M mm () := modify (λ s, s <| phys ::= <[a := v]> |>).
Definition printk (msg : string) : M mm () := modify (λ s, s <| klog ::= λ l, l ++ [msg] |>).

(** ** Pages *)

(** [for (j = 0; j < 512; j++) p[j] = 0] *)
Definition zero_page (page : Z) : M mm () :=
  mfor (λ j, wr (page + 8 * j) 0) (upto 512).

Definition copy_page (from to : Z) : M mm () :=
  mfor (λ i, x ← rd (from + 8 * i); wr (to + 8 * i) x) (upto 512).

Definition get_free_page : M mm Z :=
  r ← mloop (λ i,
        c ← (l ← gets mem_map; index l i);
        if c =? 0 then
          store mem_map i 1;;
          let page := LOW_MEM + Z.shiftl i 12 in
          zero_page page;;
          mret (Some page)
        else mret None) (downfrom (Z.to_nat PAGING_PAGES));
  mret (default 0 r).

Definition free_page (addr : Z) : M mm () :=
  if addr <? LOW_MEM then mret () else
  if HIGH_MEMORY <? addr then panic "trying to free nonexistent page" else
  let i := Z.shiftr (addr - LOW_MEM) 12 in
  c ← (l ← gets mem_map; index l i);
  store mem_map i (u16 (c - 1));;
  if truth c then mret () else
  store mem_map i 0;;
  panic "trying to free free page".

(** ** Page tables *)

Definition get_pml4 : Z := PML4_ADDR.

(** The flags of a new table entry. *)
Definition new_entry (page : Z) : Z := page .| PAGE_PRESENT .| PAGE_WRITE .| PAGE_USER.

Definition get_pdpt (addr : Z) (create : bool) : M mm Z :=
  let pml4 := get_pml4 in
  pml4e ← rd (pml4 + 8 * PML4_INDEX addr);
  if negb (truth (pml4e .& PAGE_PRESENT)) then
    if negb create then mret 0 else
    page ← get_free_page;
    if page =? 0 then mret 0 else
    wr (pml4 + 8 * PML4_INDEX addr) (new_entry page);;
    mret page
  else mret (PTE_ADDR pml4e).

Definition get_pd (addr : Z) (create : bool) : M mm Z :=
  pdpt ← get_pdpt addr create;
  if pdpt =? 0 then mret 0 else
  pdpte ← rd (pdpt + 8 * PDPT_INDEX addr);
  if negb (truth (pdpte .& PAGE_PRESENT)) then
    if negb create then mret 0 else
    page ← get_free_page;
    if page =? 0 then mret 0 else
    wr (pdpt + 8 * PDPT_INDEX addr) (new_entry page);;
    mret page
  else mret (PTE_ADDR pdpte).

Definition get_pt (addr : Z) (create : bool) : M mm Z :=
  pd ← get_pd addr create;
  if pd =? 0 then mret 0 else
  pde ← rd (pd + 8 * PD_INDEX addr);
  if negb (truth (pde .& PAGE_PRESENT)) then
    if negb create then mret 0 else
    page ← get_free_page;
    if page =? 0 then mret 0 else
    wr (pd + 8 * PD_INDEX addr) (new_entry page);;
    mret page
  else mret (PTE_ADDR pde).

Definition get_pte (addr : Z) (create : bool) : M mm Z :=
  pt ← get_pt addr create;
  if pt =? 0 then mret 0 else mret (pt + 8 * PT_INDEX addr).

(** ** Freeing and copying address ranges *)

(** [size + 0x1FFFFF & ~0x1FFFFF] at 64 bits: round up to 2 MB. *)
Definition round_2mb (size : Z) : Z := u64 (size + 0x1FFFFF) .& Z.lnot 0x1FFFFF.

Definition free_page_tables (from size : Z) : M mm Z :=
  if truth (from .& 0x1FFFFF) then panic "free_page_tables called with wrong alignment" else
  if from =? 0 then panic "Trying to free up swapper memory space" else
  let size := round_2mb size in
  mfor (λ k,
    let addr := from + 4096 * k in
    pte ← get_pte addr false;
    if pte =? 0 then mret () else
    e ← rd pte;
    when (truth (e .& PAGE_PRESENT))
      (let page := PTE_ADDR e in
       when (LOW_MEM <=? page) (free_page page);;
       wr pte 0))
    (upto (Z.to_nat ((u64 (from + size) - from) / 4096)));;
  mret 0.

Definition copy_page_tables (from to size : Z) : M mm Z :=
  if truth (from .& 0x1FFFFF) || truth (to .& 0x1FFFFF) then
    panic "copy_page_tables called with wrong alignment" else
  let size := round_2mb size in
  r ← mloop (λ k,
        let addr := 4096 * k in
        from_pte ← get_pte (u64 (from + addr)) false;
        if from_pte =? 0 then mret None else
        e ← rd from_pte;
        if negb (truth (e .& PAGE_PRESENT)) then mret None else
        to_pte ← get_pte (u64 (to + addr)) true;
        if to_pte =? 0 then mret (Some (-1)) else
        e ← rd from_pte;
        let this_page := Z.ldiff e PAGE_WRITE in
        wr to_pte this_page;;
        let phys_addr := PTE_ADDR this_page in
        when (LOW_MEM <=? phys_addr)
          (wr from_pte this_page;;
           c ← (l ← gets mem_map; index l (MAP_NR phys_addr));
           store mem_map (MAP_NR phys_addr) (u16 (c + 1)));;
        mret None) (upto (Z.to_nat (size / 4096)));
  mret (default 0 r).

Definition put_page (page address : Z) : M mm Z :=
  when ((page <? LOW_MEM) || (HIGH_MEMORY <? page)) (printk "Trying to put page %p at %p");;
  c ← (l ← gets mem_map; index l (MAP_NR page));
  when (negb (c =? 1)) (printk "mem_map disagrees with %p at %p");;
  pte ← get_pte address true;
  if pte =? 0 then mret 0 else
  wr pte (new_entry page);;
  mret page.

(** ** Page faults *)

Definition un_wp_page (table_entry : Z) : M mm () :=
  e ← rd table_entry;
  let old_page := PTE_ADDR e in
  alone ← (if LOW_MEM <=? old_page
           then c ← (l ← gets mem_map; index l (MAP_NR old_page)); mret (c =? 1)
           else mret false);
  if alone : bool then wr table_entry (e .| PAGE_WRITE) else
  new_page ← get_free_page;
  if new_page =? 0 then do_exit_with SIGSEGV else
  when (LOW_MEM <=? old_page)
    (c ← (l ← gets mem_map; index l (MAP_NR old_page));
     store mem_map (MAP_NR old_page) (u16 (c - 1)));;
  wr table_entry (new_entry new_page);;
  copy_page old_page new_page.

Definition do_wp_page (error_code address : Z) : M mm () :=
  pte ← get_pte address false;
  if pte =? 0 then mret () else un_wp_page pte.

Definition write_verify (address : Z) : M mm () :=
  pte ← get_pte address false;
  if pte =? 0 then mret () else
  e ← rd pte;
  when ((e .& (PAGE_PRESENT .| PAGE_WRITE)) =? PAGE_PRESENT) (un_wp_page pte).

Definition do_no_page (error_code address : Z) : M mm () :=
  page ← get_free_page;
  if page =? 0 then do_exit_with SIGSEGV else
  r ← put_page page address;
  if r =? 0 then do_exit_with SIGSEGV else mret ().

Definition calc_mem : M mm Z :=
  free ← gets (λ s, Z.of_nat (length (filter (λ c, c = 0) (mem_map s))));
  printk "%d pages free (of %d)";;
  mret free.

(** mm/page.nasm: the handler of interrupt 14.  It loads the faulting address
    (cr2) into the first argument register and the error code into the second,
    and calls do_wp_page for a protection violation (bit 0 of the error code)
    and do_no_page otherwise. *)
Definition page_fault (cr2 error_code : Z) : M mm () :=
  if truth (error_code .& 1) then do_wp_page cr2 error_code
  else do_no_page cr2 error_code.

#[global] Arguments rd : simpl never.
#[global] Arguments wr : simpl never.
#[global] Arguments zero_page : simpl never.
#[global] Arguments copy_page : simpl never.
#[global] Arguments get_free_page : simpl never.
