(* ===== verification/MmFacts.v ===== *)
(** * Memory management: the page allocator and the page tables are correct *)

From S2P Require Import Prelude Layout Mm.

(** ** Pages *)

Definition page_addr (i : nat) : Z := LOW_MEM + 4096 * Z.of_nat i.

Lemma page_addr_range i :
  Z.of_nat i < 1536 →
  LOW_MEM ≤ page_addr i ∧ page_addr i + 4096 ≤ HIGH_MEMORY ∧ page_addr i mod 4096 = 0.
Proof.
  intros Hi. unfold page_addr. change LOW_MEM with (512 * 4096).
  unfold HIGH_MEMORY. split_and!; [lia|lia|].
  rewrite <- (Z.mul_comm (Z.of_nat i)), <- Z.mul_add_distr_r. by apply Z.mod_mul.
Qed.

(** The allocator's map: one 16-bit counter per page. *)
Definition map_ok (s : mm) : Prop :=
  Z.of_nat (length (mem_map s)) = 1536 ∧ Forall (λ c, 0 ≤ c < 65536) (mem_map s).

Definition in_page (p a : Z) : Prop := p ≤ a < p + 4096.

Lemma zero_page_spec p s :
  ∃ ph, zero_page p s = Ret tt (s <| phys := ph |>) ∧
    (∀ j, 0 ≤ j < 512 → ph !! (p + 8 * j) = Some 0) ∧
    (∀ a, ¬ in_page p a → ph !! a = phys s !! a).
Proof.
  unfold zero_page.
  cut (∀ n, (n ≤ 512)%nat → ∃ ph, mfor (λ j, wr (p + 8 * j) 0) (upto n) s
         = Ret tt (s <| phys := ph |>) ∧
       (∀ j, 0 ≤ j < Z.of_nat n → ph !! (p + 8 * j) = Some 0) ∧
       (∀ a, ¬ in_page p a → ph !! a = phys s !! a)).
  { intros H. destruct (H 512%nat) as (ph & ? & ? & ?); [lia|eauto]. }
  induction n as [|n IH]; intros Hn.
  { exists (phys s). split_and!; [by destruct s|lia|done]. }
  destruct IH as (ph & Hr & H1 & H2); [lia|].
  exists (<[p + 8 * Z.of_nat n := 0]> ph). split_and!.
  - rewrite upto_S, mfor_app. erewrite bind_ret by done. by destruct s.
  - intros j Hj. rewrite lookup_insert. case_decide; [done|]. apply H1. lia.
  - intros a Ha. rewrite lookup_insert_ne; [by apply H2|].
    unfold in_page in Ha. lia.
Qed.

(** The scan of get_free_page: the last counter that is zero. *)
Definition last_free (l : list Z) (i : nat) : Prop :=
  l !! i = Some 0 ∧ ∀ j, (i < j)%nat → l !! j ≠ Some 0.

Lemma get_free_page_scan (s : mm) n :
  (n ≤ length (mem_map s))%nat →
  (∀ j, (n ≤ j)%nat → mem_map s !! j ≠ Some 0) →
  let body := λ i,
        c ← (l ← gets mem_map; index l i);
        if c =? 0 then
          store mem_map i 1;;
          let page := LOW_MEM + Z.shiftl i 12 in
          zero_page page;;
          mret (Some page)
        else mret None in
  (mloop body (downfrom n) s = Ret None s ∧ ∀ j, mem_map s !! j ≠ Some 0) ∨
  (∃ i ph, last_free (mem_map s) i ∧
     mloop body (downfrom n) s =
       Ret (Some (page_addr i)) (s <| phys := ph |> <| mem_map ::= <[i := 1]> |>) ∧
     (∀ j, 0 ≤ j < 512 → ph !! (page_addr i + 8 * j) = Some 0) ∧
     (∀ a, ¬ in_page (page_addr i) a → ph !! a = phys s !! a)).
Proof.
  intros Hn Hfree body. induction n as [|n IH].
  { left. split; [done|]. intros j. apply Hfree. lia. }
  rewrite downfrom_S, mloop_cons.
  destruct (lookup_lt_is_Some_2 (mem_map s) n) as [c Hc]; [lia|].
  assert ((gets mem_map ≫= λ l, index l (Z.of_nat n)) s = Ret c s) as Hi'.
  { apply index_Some; [lia|]. by rewrite Nat2Z.id. }
  destruct (Z.eqb_spec c 0) as [->|Hc0].
  - right. destruct (zero_page_spec (LOW_MEM + Z.shiftl (Z.of_nat n) 12)
      (s <| mem_map ::= <[n := 1]> |>)) as (ph & Hz & H1 & H2).
    assert (LOW_MEM + Z.shiftl (Z.of_nat n) 12 = page_addr n) as Hp.
    { unfold page_addr. rewrite Z.shiftl_mul_pow2; lia. }
    rewrite Hp in *. exists n, ph. split_and!; [split; [done|]|..]; [|..|done|done].
    + intros j Hj. apply Hfree. lia.
    + assert (body (Z.of_nat n) s =
        Ret (Some (page_addr n)) (s <| phys := ph |> <| mem_map ::= <[n := 1]> |>)) as Hb.
      { unfold body. mstep Hi'. rewrite Z.eqb_refl. mstep (store_in mem_map (Z.of_nat n) 1 s ltac:(lia)).
        cbv zeta. rewrite Nat2Z.id, Hp. mstep Hz. by destruct s. }
      by mstep Hb.
  - assert (body (Z.of_nat n) s = Ret None s) as Hb.
    { unfold body. mstep Hi'. by destruct (Z.eqb_spec c 0). }
    mstep Hb.
    destruct IH as [[IH1 IH2]|IH]; [lia| |by left|by right].
    intros j Hj. destruct (decide (j = n)) as [->|]; [|apply Hfree; lia].
    rewrite Hc. naive_solver.
Qed.

Lemma get_free_page_cases s :
  map_ok s →
  (get_free_page s = Ret 0 s ∧ ∀ j, mem_map s !! j ≠ Some 0) ∨
  (∃ i ph, last_free (mem_map s) i ∧
     get_free_page s = Ret (page_addr i) (s <| phys := ph |> <| mem_map ::= <[i := 1]> |>) ∧
     LOW_MEM ≤ page_addr i ∧ page_addr i + 4096 ≤ HIGH_MEMORY ∧ page_addr i mod 4096 = 0 ∧
     (∀ j, 0 ≤ j < 512 → ph !! (page_addr i + 8 * j) = Some 0) ∧
     (∀ a, ¬ in_page (page_addr i) a → ph !! a = phys s !! a)).
Proof.
  intros [Hlen _]. unfold get_free_page.
  destruct (get_free_page_scan s (Z.to_nat PAGING_PAGES)) as [[H1 H2]|(i & ph & H1 & H2 & H3 & H4)].
  - change (Z.to_nat PAGING_PAGES) with (Z.to_nat 1536). lia.
  - intros j Hj. rewrite lookup_ge_None_2; [done|].
    change (Z.to_nat PAGING_PAGES) with (Z.to_nat 1536) in Hj. lia.
  - left. split; [|done]. by mstep H1.
  - right. exists i, ph. destruct H1 as [H1 H1'].
    pose proof (lookup_lt_Some _ _ _ H1) as Hi.
    destruct (page_addr_range i) as (? & ? & ?); [lia|].
    split_and!; [by split|mstep H2; reflexivity|assumption..].
Qed.

(** C35: get_free_page returns 0, changing nothing, exactly when every page is in
    use; otherwise it returns the free page with the highest address, which is
    page aligned and lies in [LOW_MEM, HIGH_MEMORY), sets its counter to 1,
    fills its 4096 bytes with zeroes and changes nothing else. *)
Theorem get_free_page_spec s :
  map_ok s →
  (get_free_page s = Ret 0 s ∧ ∀ j, mem_map s !! j ≠ Some 0) ∨
  (∃ i ph, last_free (mem_map s) i ∧
     get_free_page s = Ret (page_addr i) (s <| phys := ph |> <| mem_map ::= <[i := 1]> |>) ∧
     LOW_MEM ≤ page_addr i ∧ page_addr i + 4096 ≤ HIGH_MEMORY ∧ page_addr i mod 4096 = 0 ∧
     (∀ j, 0 ≤ j < 512 → ph !! (page_addr i + 8 * j) = Some 0) ∧
     (∀ a, ¬ in_page (page_addr i) a → ph !! a = phys s !! a)).
Proof. apply get_free_page_cases. Qed.

Lemma get_free_page_spec_witness :
  (∃ i ph, last_free (replicate 1536 0) i ∧ 
     get_free_page (Mm ∅ (replicate 1536 0) []) =
       Ret (page_addr i) (Mm ph (<[i := 1]> (replicate 1536 0)) [])).
Proof.
  destruct (get_free_page_spec (Mm ∅ (replicate 1536 0) [])) as [[_ H]|H].
  - split; [reflexivity|]. apply Forall_replicate. lia.
  - exfalso. apply (H 0%nat). reflexivity.
  - destruct H as (i & ph & H1 & H2 & _). exists i, ph. split; [exact H1|exact H2].
Defined.

(** ** Freeing a page *)

Lemma MAP_NR_page_addr i : Z.of_nat i < 1536 → MAP_NR (page_addr i) = Z.of_nat i.
Proof.
  intros Hi. unfold MAP_NR, page_addr. change LOW_MEM with 2097152.
  rewrite u64_small by lia. rewrite Z.shiftr_div_pow2 by lia.
  replace (2097152 + 4096 * Z.of_nat i - 2097152) with (Z.of_nat i * 2 ^ 12) by lia.
  by apply Z.div_mul.
Qed.

(** What free_page does to the counter [c] of a page. *)
Lemma free_page_run s i a c :
  map_ok s → mem_map s !! i = Some c → in_page (page_addr i) a →
  free_page a s =
    (if c =? 0 then Panic "trying to free free page" s
     else Ret tt (s <| mem_map ::= <[i := c - 1]> |>)).
Proof.
  intros [Hlen Hrng] Hc Ha. pose proof (lookup_lt_Some _ _ _ Hc) as Hi.
  destruct (page_addr_range i) as (H1 & H2 & _); [lia|]. unfold in_page in Ha.
  rewrite Forall_lookup in Hrng. specialize (Hrng _ _ Hc).
  unfold free_page.
  destruct (Z.ltb_spec a LOW_MEM); [lia|]. destruct (Z.ltb_spec HIGH_MEMORY a); [lia|].
  assert (Z.shiftr (a - LOW_MEM) 12 = Z.of_nat i) as Hsh.
  { rewrite Z.shiftr_div_pow2 by lia. unfold page_addr in *.
    symmetry. apply (Z.div_unique _ _ _ (a - LOW_MEM - 4096 * Z.of_nat i)); lia. }
  cbv zeta. rewrite Hsh.
  assert ((gets mem_map ≫= λ l, index l (Z.of_nat i)) s = Ret c s) as Hr.
  { apply index_Some; [lia|]. by rewrite Nat2Z.id. }
  mstep Hr. mstep (store_in mem_map (Z.of_nat i) (u16 (c - 1)) s ltac:(lia)).
  rewrite Nat2Z.id. unfold truth. destruct (Z.eqb_spec c 0) as [->|]; simpl.
  - erewrite bind_ret by (apply store_in; simpl; rewrite length_insert; lia).
    rewrite Nat2Z.id. unfold panic. f_equal. destruct s as [ph mp lg]; simpl in *.
    f_equal. rewrite list_insert_insert_eq. by apply list_insert_id.
  - by rewrite u16_small by lia.
Qed.

(** giving back the page get_free_page has just returned restores the
    allocator's map exactly, and giving it back a second time stops the kernel
    with "trying to free free page" (the counter is not left at 65535). *)
Theorem free_page_undoes_get_free_page s page s1 :
  map_ok s → get_free_page s = Ret page s1 → page ≠ 0 →
  ∃ s2, free_page page s1 = Ret tt s2 ∧ mem_map s2 = mem_map s ∧
    free_page page s2 = Panic "trying to free free page" s2.
Proof.
  intros Hok Hg Hp. destruct (get_free_page_cases s Hok) as [[H _]|(i & ph & [Hi _] & H & _)];
    rewrite H in Hg; clear H; apply Ret_inj in Hg as [<- <-]; [by destruct Hp|].
  pose proof (lookup_lt_Some _ _ _ Hi) as Hlt.
  assert (in_page (page_addr i) (page_addr i)) as Hin by (unfold in_page; lia).
  exists (s <| phys := ph |>).
  rewrite (free_page_run (s <| phys := ph |> <| mem_map ::= <[i:=1]> |>) i (page_addr i) 1); [..|done].
  - split_and!; [|done|].
    + simpl. f_equal. destruct s; simpl. f_equal.
      rewrite list_insert_insert_eq. by apply list_insert_id.
    + by rewrite (free_page_run _ i _ 0).
  - destruct Hok as [Ho1 Ho2]. split; simpl.
    + by rewrite length_insert.
    + apply Forall_insert; [done|lia].
  - simpl. by apply list_lookup_insert_eq.
Qed.

(** ** The page-table tree

    [table s k va] is the table a walk for [va] reaches at depth [k] (0 is the
    PML4, 3 the page table), 0 where the walk stops; [pte_val s va] is the
    page-table entry of [va], 0 where there is none: the translation. *)

Definition idx (k : nat) (va : Z) : Z :=
  match k with
  | 0%nat => PML4_INDEX va | 1%nat => PDPT_INDEX va | 2%nat => PD_INDEX va
  | _ => PT_INDEX va
  end.

Definition present (e : Z) : bool := truth (e .& PAGE_PRESENT).

Fixpoint table (s : mm) (k : nat) (va : Z) : Z :=
  match k with
  | O => PML4_ADDR
  | S k =>
      let t := table s k va in
      if t =? 0 then 0 else
      let e := word s (t + 8 * idx k va) in
      if present e then PTE_ADDR e else 0
  end.

Definition slot (s : mm) (k : nat) (va : Z) : Z := table s k va + 8 * idx k va.
Definition pte_val (s : mm) (va : Z) : Z :=
  if table s 3 va =? 0 then 0 else word s (slot s 3 va).

(** Two addresses with the same path down to depth [k]. *)
Definition same (k : nat) (va va' : Z) : Prop :=
  ∀ j, (j < k)%nat → idx j va = idx j va'.

(** The virtual page number of an address (48-bit addresses). *)
Definition vpn (va : Z) : Z := (va / 4096) mod 2 ^ 36.

Lemma idx_div k va : (k ≤ 3)%nat →
  idx k va = (va / 4096 / 512 ^ (3 - Z.of_nat k)) mod 512.
Proof.
  intros Hk. rewrite Z.div_div by lia.
  destruct k as [|[|[|[|k]]]]; [..|lia]; simpl idx;
  unfold PML4_INDEX, PDPT_INDEX, PD_INDEX, PT_INDEX;
  change 0x1FF with (Z.ones 9); rewrite Z.land_ones, Z.shiftr_div_pow2 by lia; done.
Qed.

Lemma idx_range k va : 0 ≤ idx k va < 512.
Proof.
  destruct k as [|[|[|k]]]; simpl idx;
  unfold PML4_INDEX, PDPT_INDEX, PD_INDEX, PT_INDEX;
  change 0x1FF with (Z.ones 9); rewrite Z.land_ones by lia;
  by apply Z.mod_pos_bound.
Qed.

Lemma vpn_idx va :
  vpn va = idx 3 va + 512 * (idx 2 va + 512 * (idx 1 va + 512 * idx 0 va)).
Proof.
  unfold vpn. rewrite !idx_div by lia. set (q := va / 4096).
  replace (2 ^ 36) with (512 * (512 * (512 * 512))) by lia.
  rewrite Z.rem_mul_r, Z.rem_mul_r, Z.rem_mul_r by lia.
  change (512 ^ (3 - Z.of_nat 3)) with 1. change (512 ^ (3 - Z.of_nat 2)) with 512.
  change (512 ^ (3 - Z.of_nat 1)) with (512 * 512).
  change (512 ^ (3 - Z.of_nat 0)) with (512 * (512 * 512)).
  rewrite Z.div_1_r, !Z.div_div by lia. done.
Qed.

Lemma same_vpn va va' : same 4 va va' ↔ vpn va = vpn va'.
Proof.
  rewrite !vpn_idx. split.
  - intros H. by rewrite (H 0%nat), (H 1%nat), (H 2%nat), (H 3%nat) by lia.
  - intros H. pose proof (idx_range 0 va). pose proof (idx_range 0 va').
    pose proof (idx_range 1 va). pose proof (idx_range 1 va').
    pose proof (idx_range 2 va). pose proof (idx_range 2 va').
    pose proof (idx_range 3 va). pose proof (idx_range 3 va').
    intros [|[|[|[|j]]]] Hj; lia.
Qed.

Lemma same_S k va va' : same (S k) va va' ↔ same k va va' ∧ idx k va = idx k va'.
Proof.
  split; [intros H; split; [intros j Hj|]; apply H; lia|].
  intros [H H'] j Hj. destruct (decide (j = k)) as [->|]; [done|]. apply H. lia.
Qed.

#[export] Instance same_dec k va va' : Decision (same k va va').
Proof.
  induction k as [|k IH]; [left; intros j; lia|].
  destruct IH as [H|H], (decide (idx k va = idx k va')) as [H'|H'];
    [left; by apply same_S|right; rewrite same_S; tauto..].
Defined.

Lemma table_same s k va va' : same k va va' → table s k va = table s k va'.
Proof.
  induction k as [|k IH]; [done|]. rewrite same_S. intros [H1 H2]. simpl.
  by rewrite IH, H2.
Qed.

(** *** Entries *)

Lemma PTE_ADDR_aligned e : PTE_ADDR e mod 4096 = 0.
Proof.
  unfold PTE_ADDR. change 0x000FFFFFFFFFF000 with (Z.shiftl (Z.ones 40) 12).
  change 4096 with (2 ^ 12). rewrite <- Z.land_ones by lia.
  apply Z.bits_inj'. intros i Hi. rewrite !Z.land_spec, Z.bits_0.
  destruct (decide (i < 12)).
  - rewrite Z.shiftl_spec_low by lia. by rewrite andb_false_r.
  - rewrite Z.ones_spec_high by lia. apply andb_false_r.
Qed.

Lemma PTE_ADDR_range e : 0 ≤ PTE_ADDR e < 2 ^ 52.
Proof.
  unfold PTE_ADDR. change 0x000FFFFFFFFFF000 with (Z.land (Z.ones 52) (Z.lnot 4095)).
  rewrite (Z.land_comm (Z.ones 52)), Z.land_assoc, Z.land_ones by lia.
  by apply Z.mod_pos_bound.
Qed.

Lemma page_bits p i : 0 ≤ p < 2 ^ 52 → p mod 4096 = 0 → 0 ≤ i →
  i < 12 ∨ 52 ≤ i → Z.testbit p i = false.
Proof.
  intros Hp Hm Hi [?|?].
  - rewrite <- (Z.mod_pow2_bits_low p 12) by lia. change (2 ^ 12) with 4096.
    by rewrite Hm, Z.bits_0.
  - rewrite <- (Z.mod_small p (2 ^ 52)) by lia. by apply Z.mod_pow2_bits_high.
Qed.

Lemma PTE_ADDR_new_entry p :
  0 ≤ p < 2 ^ 52 → p mod 4096 = 0 → PTE_ADDR (new_entry p) = p.
Proof.
  intros Hp Hm. unfold PTE_ADDR, new_entry.
  change 0x000FFFFFFFFFF000 with (Z.shiftl (Z.ones 40) 12).
  rewrite <- !Z.lor_assoc. change (PAGE_PRESENT .| (PAGE_WRITE .| PAGE_USER)) with (Z.ones 3).
  apply Z.bits_inj'. intros i Hi. rewrite Z.land_spec, Z.lor_spec.
  destruct (decide (i < 12 ∨ 52 ≤ i)) as [Ho|Ho].
  - rewrite (page_bits p i) by done. destruct Ho.
    + rewrite (Z.shiftl_spec_low (Z.ones 40)) by lia. apply andb_false_r.
    + rewrite Z.shiftl_spec, (Z.ones_spec_high 40) by lia. apply andb_false_r.
  - rewrite Z.shiftl_spec, (Z.ones_spec_low 40), Z.ones_spec_high by lia.
    by rewrite orb_false_r, andb_true_r.
Qed.

Lemma present_new_entry p : present (new_entry p) = true.
Proof.
  unfold present, new_entry. apply truth_true. intros H.
  apply (f_equal (λ z, Z.testbit z 0)) in H.
  rewrite Z.land_spec, !Z.lor_spec, Z.bits_0 in H.
  change (Z.testbit PAGE_PRESENT 0) with true in H.
  by rewrite orb_true_r in H.
Qed.

Lemma present_0 : present 0 = false.
Proof. done. Qed.

(** *** Well-formed page tables

    The tables form a tree: a table is reached along one path only, a present
    entry of an upper table points to a table, and no table lies in a page the
    allocator holds to be free. *)

Record wf (s : mm) : Prop := {
  wf_map : map_ok s;
  wf_nz : ∀ k va, (k < 3)%nat → table s k va ≠ 0 →
    present (word s (slot s k va)) = true → PTE_ADDR (word s (slot s k va)) ≠ 0;
  wf_alias : ∀ k k' va va', (k ≤ 3)%nat → (k' ≤ 3)%nat → table s k va ≠ 0 →
    table s k va = table s k' va' → k = k' ∧ same k va va';
  wf_free : ∀ i k va, mem_map s !! i = Some 0 → (k ≤ 3)%nat → table s k va ≠ page_addr i
}.

Lemma word_wr s a v b :
  word (s <| phys ::= <[a := v]> |>) b = if decide (a = b) then v else word s b.
Proof. unfold word. simpl. rewrite lookup_insert. by case_decide. Qed.

Lemma word_wr_ne s a v b : a ≠ b → word (s <| phys ::= <[a := v]> |>) b = word s b.
Proof. intros. rewrite word_wr. by case_decide. Qed.

Lemma table_aligned s k va : table s k va mod 4096 = 0.
Proof.
  destruct k; simpl; [done|].
  destruct (_ =? 0); [done|]. destruct (present _); [apply PTE_ADDR_aligned|done].
Qed.

Lemma aligned_page_eq p q a :
  p mod 4096 = 0 → q mod 4096 = 0 → in_page p a → in_page q a → p = q.
Proof.
  unfold in_page. intros Hp Hq Ha Hb.
  pose proof (Z.div_mod p 4096). pose proof (Z.div_mod q 4096). lia.
Qed.

Lemma slot_in_table s k va : in_page (table s k va) (slot s k va).
Proof. unfold in_page, slot. pose proof (idx_range k va). lia. Qed.

Lemma slot_inj s k k' va va' :
  slot s k va = slot s k' va' → table s k va = table s k' va' ∧ idx k va = idx k' va'.
Proof.
  intros H. assert (table s k va = table s k' va') as E.
  { eapply (aligned_page_eq _ _ (slot s k va)); [apply table_aligned..|apply slot_in_table|].
    rewrite H. apply slot_in_table. }
  split; [done|]. unfold slot in H. lia.
Qed.

(** Different places of a well-formed tree are different words. *)
Lemma slot_ne s k k' va va' :
  wf s → (k ≤ 3)%nat → (k' ≤ 3)%nat → table s k va ≠ 0 →
  ¬ (k = k' ∧ same (S k) va va') → slot s k va ≠ slot s k' va'.
Proof.
  intros Hwf Hk Hk' Ht Hne E. apply slot_inj in E as [E1 E2].
  destruct (wf_alias s Hwf k k' va va') as [-> ?]; [done..|].
  apply Hne. split; [done|]. by apply same_S.
Qed.

Lemma table_0_S s k va : table s k va = 0 → table s (S k) va = 0.
Proof. simpl. by intros ->. Qed.

Lemma table_0_le s k j va : table s k va = 0 → (k ≤ j)%nat → table s j va = 0.
Proof. intros H Hj. induction Hj; [done|by apply table_0_S]. Qed.

(** *** Allocation does not disturb the tables *)

Lemma get_free_page_wf s page s1 :
  wf s → get_free_page s = Ret page s1 →
  (page = 0 ∧ s1 = s) ∨
  (∃ i, page = page_addr i ∧ mem_map s !! i = Some 0 ∧
     mem_map s1 = <[i := 1]> (mem_map s) ∧ klog s1 = klog s ∧
     wf s1 ∧ (∀ k va, (k ≤ 3)%nat → table s1 k va = table s k va) ∧
     (∀ va, pte_val s1 va = pte_val s va) ∧
     (∀ k va, (k ≤ 3)%nat → table s1 k va ≠ page) ∧
     (∀ j, 0 ≤ j < 512 → word s1 (page + 8 * j) = 0) ∧
     (∀ a, ¬ in_page page a → word s1 a = word s a)).
Proof.
  intros Hwf Hg. destruct (get_free_page_cases s (wf_map s Hwf))
    as [[H _]|(i & ph & [Hi _] & H & Hlo & Hhi & Hal & Hz & Hout)];
    rewrite H in Hg; clear H; apply Ret_inj in Hg as [<- <-]; [by left|right].
  set (s1 := s <| phys := ph |> <| mem_map ::= <[i := 1]> |>).
  assert (∀ a, ¬ in_page (page_addr i) a → word s1 a = word s a) as Hw.
  { intros a Ha. unfold word. simpl. by rewrite Hout. }
  assert (∀ k va, (k ≤ 3)%nat → word s1 (slot s k va) = word s (slot s k va)) as Hs.
  { intros k va Hk. apply Hw. intros Hin. apply (wf_free s Hwf i k va Hi Hk).
    eapply aligned_page_eq; [apply table_aligned|done|apply slot_in_table|done]. }
  assert (∀ k va, (k ≤ 3)%nat → table s1 k va = table s k va) as Ht.
  { induction k as [|k IH]; intros va Hk; [done|]. simpl. rewrite IH by lia.
    fold (slot s k va). by rewrite Hs by lia. }
  assert (∀ k va, (k ≤ 3)%nat → slot s1 k va = slot s k va) as Hsl.
  { intros. unfold slot. by rewrite Ht. }
  pose proof (lookup_lt_Some _ _ _ Hi) as Hlt.
  exists i. split_and!; try done.
  - destruct Hwf as [[Hl Hr] Hnz Hal' Hfr]. split.
    + split; simpl; [by rewrite length_insert|apply Forall_insert; [done|lia]].
    + intros k va Hk. rewrite Ht, Hsl, Hs by lia. by apply Hnz.
    + intros k k' va va' Hk Hk'. rewrite !Ht by lia. by apply Hal'.
    + intros j k va. simpl. intros Hj Hk. rewrite Ht by done. apply Hfr; [|done].
      destruct (decide (i = j)) as [->|]; [by rewrite list_lookup_insert_eq in Hj|].
      by rewrite list_lookup_insert_ne in Hj.
  - intros va. unfold pte_val. by rewrite Ht, Hsl, Hs by lia.
  - intros k va Hk. rewrite Ht by done. by apply wf_free.
  - intros j Hj. unfold word. simpl. by rewrite Hz.
Qed.

(** *** Linking a new table *)

Section Link.
Context (s : mm) (Hwf : wf s) (k : nat) (va : Z) (Hk : (k < 3)%nat).
Context (Ht : table s k va ≠ 0) (Habs : present (word s (slot s k va)) = false).
Context (i : nat) (c : Z) (Hi : mem_map s !! i = Some c) (Hc : c ≠ 0).
Context (Hfresh : ∀ k va, (k ≤ 3)%nat → table s k va ≠ page_addr i).
Context (Hzero : ∀ j, 0 ≤ j < 512 → word s (page_addr i + 8 * j) = 0).

Let p := page_addr i.
Let s' := s <| phys ::= <[slot s k va := new_entry p]> |>.

Lemma link_page_range : 0 < p ∧ p < 2 ^ 52 ∧ p mod 4096 = 0.
Proof.
  clear Hk. destruct (wf_map s Hwf) as [Hlen _].
  pose proof (lookup_lt_Some _ _ _ Hi). destruct (page_addr_range i) as (H1 & H2 & H3); [lia|].
  unfold p. change LOW_MEM with 2097152 in H1. unfold HIGH_MEMORY in H2. lia.
Qed.

Lemma link_table j va' : (j ≤ 3)%nat →
  table s' j va' =
    if decide (same (S k) va va') then
      if decide (j ≤ k)%nat then table s j va'
      else if decide (j = S k) then p else 0
    else table s j va'.
Proof.
  destruct link_page_range as (Hp1 & Hp2 & Hp3).
  induction j as [|j IH]; intros Hj.
  { simpl. repeat case_decide; done || lia. }
  simpl. rewrite IH by lia. clear IH.
  destruct (decide (same (S k) va va')) as [Hs|Hs].
  - destruct (decide (j ≤ k)%nat) as [Hjk|Hjk].
    + destruct (decide (j = k)) as [->|Hne].
      * rewrite decide_False, decide_True by lia.
        apply same_S in Hs as [Hs Hx]. rewrite <- (table_same s k va va'), <- Hx by done.
        destruct (Z.eqb_spec (table s k va) 0); [done|].
        fold (slot s k va). unfold s'. rewrite word_wr, decide_True by done.
        rewrite present_new_entry. apply PTE_ADDR_new_entry; [lia|done].
      * rewrite decide_True by lia.
        destruct (Z.eqb_spec (table s j va') 0); [done|]. fold (slot s j va').
        unfold s'. rewrite word_wr_ne; [done|]. apply slot_ne; [done|lia|lia|done|].
        intros [-> _]. done.
    + rewrite (decide_False (P := (S j ≤ k)%nat)), (decide_False (P := S j = S k)) by lia.
      case_decide; [subst|done].
      destruct (Z.eqb_spec p 0); [done|].
      unfold s'. rewrite word_wr_ne.
      { unfold p. rewrite Hzero by apply idx_range. done. }
      intros E. apply (Hfresh k va); [lia|].
      eapply (aligned_page_eq _ _ (slot s k va)); [apply table_aligned|done|apply slot_in_table|].
      rewrite E. unfold in_page. pose proof (idx_range (S k) va'). fold p. lia.
  - destruct (Z.eqb_spec (table s j va') 0); [done|]. fold (slot s j va').
    unfold s'. rewrite word_wr_ne; [done|]. apply slot_ne; [done|lia|lia|done|].
    intros [-> H]. done.
Qed.

Lemma link_table_lower j va' : same (S k) va va' → (k < j)%nat → table s j va' = 0.
Proof.
  intros Hs Hj. apply same_S in Hs as [Hs Hx].
  apply (table_0_le s (S k)); [|lia]. simpl.
  rewrite <- (table_same s k va va'), <- Hx by done.
  destruct (Z.eqb_spec (table s k va) 0); [done|]. fold (slot s k va). by rewrite Habs.
Qed.

Lemma link_slot_not_fresh a : in_page p a → slot s k va ≠ a.
Proof.
  intros Ha <-. destruct link_page_range as (_ & _ & Hp3).
  apply (Hfresh k va); [lia|].
  eapply aligned_page_eq; [apply table_aligned|done|apply slot_in_table|done].
Qed.

Lemma link_pte_val va' : pte_val s' va' = pte_val s va'.
Proof.
  unfold pte_val, slot. rewrite link_table by lia.
  destruct (decide (same (S k) va va')) as [Hs|Hs].
  - rewrite (decide_False (P := (3 ≤ k)%nat)) by lia.
    rewrite (link_table_lower 3 va') by (done || lia).
    case_decide; [|done]. destruct (p =? 0); [done|].
    unfold s'. rewrite word_wr_ne; [apply Hzero, (idx_range 3)|].
    apply link_slot_not_fresh. unfold in_page. pose proof (idx_range 3 va'). lia.
  - destruct (Z.eqb_spec (table s 3 va') 0); [done|]. fold (slot s 3 va').
    unfold s'. rewrite word_wr_ne; [done|]. apply slot_ne; [done|lia|lia|done|].
    intros [-> _]. lia.
Qed.

Lemma link_wf : wf s'.
Proof.
  destruct link_page_range as (Hp1 & Hp2 & Hp3). split.
  - destruct (wf_map s Hwf). by split.
  - intros j va' Hj Hn Hpr. unfold slot in *. rewrite link_table in * by lia.
    destruct (decide (same (S k) va va')) as [Hs|Hs].
    + destruct (decide (j ≤ k)%nat).
      * fold (slot s j va') in *. unfold s' in *. rewrite word_wr in *. case_decide.
        { rewrite PTE_ADDR_new_entry by (done || lia). lia. }
        by apply wf_nz.
      * case_decide; [|done]. exfalso. revert Hpr.
        unfold s'. rewrite word_wr_ne.
        { unfold p. by rewrite Hzero by apply idx_range. }
        apply link_slot_not_fresh. unfold in_page. pose proof (idx_range j va'). lia.
    + fold (slot s j va') in *. unfold s' in *. rewrite word_wr_ne in *.
      * by apply wf_nz.
      * apply slot_ne; [done|lia|lia|done|]. intros [-> ?]. done.
      * apply slot_ne; [done|lia|lia|done|]. intros [-> ?]. done.
  - intros j j' va1 va2 Hj Hj'. rewrite !link_table by lia.
    assert (∀ a b, (a ≤ 3)%nat → table s a b ≠ p) as Hf by done.
    destruct (decide (same (S k) va va1)) as [S1|S1], (decide (same (S k) va va2)) as [S2|S2];
      repeat case_decide; intros Hn E;
      first [ by apply (wf_alias s Hwf) | by destruct (Hf _ _ Hj E) | by destruct (Hf _ _ Hj' (eq_sym E))
            | lia | subst; split; [done|]; intros x Hx; by rewrite <- (S1 x), <- (S2 x) ].
  - intros i' j va' Hi' Hj. simpl in Hi'. rewrite link_table by lia.
    assert (page_addr i' ≠ 0) as Hn0.
    { unfold page_addr. change LOW_MEM with 2097152. lia. }
    repeat case_decide; try done; try (by apply wf_free).
    intros E. assert (i' = i) as -> by (unfold p, page_addr in E; lia). congruence.
Qed.
End Link.

(** ** Walking with creation

    [extends s s']: the tables have grown from [s] to [s'] without changing any
    translation, any counter of a used page, or any word outside of the tables
    and the free pages. *)

Record extends (s s' : mm) : Prop := {
  ext_pte : ∀ va, pte_val s' va = pte_val s va;
  ext_log : klog s' = klog s;
  ext_used : ∀ i c, mem_map s !! i = Some c → c ≠ 0 → mem_map s' !! i = Some c;
  ext_len : length (mem_map s') = length (mem_map s);
  ext_tab : ∀ k va, (k ≤ 3)%nat → table s' k va = table s k va ∨
    ∃ i, mem_map s !! i = Some 0 ∧ (table s' k va = page_addr i ∨ table s' k va = 0);
  ext_stable : ∀ k va, (k ≤ 3)%nat → table s k va ≠ 0 → table s' k va = table s k va;
  ext_word : ∀ a, (∀ k va, (k ≤ 3)%nat → table s k va ≠ 0 → ¬ in_page (table s k va) a) →
    (∀ i, mem_map s !! i = Some 0 → ¬ in_page (page_addr i) a) → word s' a = word s a;
  ext_fresh : ∀ i, mem_map s !! i = Some 0 → mem_map s' !! i = Some 0 ∨ mem_map s' !! i = Some 1
}.

Lemma extends_free s s' i : extends s s' → mem_map s' !! i = Some 0 → mem_map s !! i = Some 0.
Proof.
  intros He H. destruct (lookup_lt_is_Some_2 (mem_map s) i) as [c Hc].
  { rewrite <- (ext_len _ _ He). by eapply lookup_lt_Some. }
  destruct (decide (c = 0)) as [->|Hne]; [done|].
  pose proof (ext_used _ _ He _ _ Hc Hne). congruence.
Qed.

#[export] Instance extends_preorder : PreOrder extends.
Proof.
  split.
  - intros s. split; auto.
  - intros s1 s2 s3 H12 H23. split.
    + intros va. by rewrite (ext_pte _ _ H23), (ext_pte _ _ H12).
    + by rewrite (ext_log _ _ H23), (ext_log _ _ H12).
    + intros i c Hi Hc. apply (ext_used _ _ H23); [|done]. by apply (ext_used _ _ H12).
    + by rewrite (ext_len _ _ H23), (ext_len _ _ H12).
    + intros k va Hk. destruct (ext_tab _ _ H23 k va Hk) as [->|(i & Hi & H)].
      * by apply (ext_tab _ _ H12).
      * right. exists i. split; [|done]. by eapply extends_free.
    + intros k va Hk Hn. pose proof (ext_stable _ _ H12 k va Hk Hn) as E.
      rewrite <- E. apply (ext_stable _ _ H23); [done|congruence].
    + intros a Ht Hf. rewrite (ext_word _ _ H23).
      * by apply (ext_word _ _ H12).
      * intros k va Hk Hn. destruct (ext_tab _ _ H12 k va Hk) as [E|(i & Hi & [E|E])].
        -- rewrite E in *. by apply Ht.
        -- rewrite E. by apply Hf.
        -- done.
      * intros i Hi. apply Hf. by eapply extends_free.
    + intros i Hi. destruct (ext_fresh _ _ H12 i Hi) as [H|H]; [by apply (ext_fresh _ _ H23)|right].
      by apply (ext_used _ _ H23).
Qed.

(** One level of the walk, as get_pdpt, get_pd and get_pt make it. *)
Definition step_table (k : nat) (va : Z) (create : bool) (t : Z) : M mm Z :=
  if t =? 0 then mret 0 else
  e ← rd (t + 8 * idx k va);
  if negb (truth (e .& PAGE_PRESENT)) then
    if negb create then mret 0 else
    page ← get_free_page;
    if page =? 0 then mret 0 else
    wr (t + 8 * idx k va) (new_entry page);;
    mret page
  else mret (PTE_ADDR e).

Lemma get_pt_steps va create :
  get_pt va create =
    ((step_table 0 va create PML4_ADDR ≫= step_table 1 va create) ≫= step_table 2 va create).
Proof. done. Qed.

Lemma step_table_find s k va :
  step_table k va false (table s k va) s = Ret (table s (S k) va) s.
Proof.
  unfold step_table. simpl. destruct (table s k va =? 0); [done|].
  change (rd ?a) with (gets (λ s, word s a)). unfold gets, mbind, M_bind, present.
  by destruct (truth _).
Qed.

Lemma get_pt_find s va : get_pt va false s = Ret (table s 3 va) s.
Proof.
  rewrite get_pt_steps. unfold mbind, M_bind.
  rewrite (step_table_find s 0), (step_table_find s 1). apply (step_table_find s 2).
Qed.

Lemma get_pte_find s va :
  get_pte va false s = Ret (if table s 3 va =? 0 then 0 else slot s 3 va) s.
Proof. unfold get_pte. mstep (get_pt_find s va). by destruct (_ =? 0). Qed.

Lemma step_table_create s k va :
  wf s → (k < 3)%nat → table s k va ≠ 0 →
  ∃ r s', step_table k va true (table s k va) s = Ret r s' ∧ wf s' ∧ extends s s' ∧
    (r = 0 → s' = s ∧ ∀ j, mem_map s !! j ≠ Some 0) ∧
    (r ≠ 0 → table s' (S k) va = r).
Proof.
  intros Hwf Hk Ht. unfold step_table.
  destruct (Z.eqb_spec (table s k va) 0); [done|].
  assert (rd (table s k va + 8 * idx k va) s = Ret (word s (slot s k va)) s) as Hr by done.
  mstep Hr. change (truth (word s (slot s k va) .& PAGE_PRESENT)) with (present (word s (slot s k va))).
  destruct (present (word s (slot s k va))) eqn:Hp; cbn [negb].
  { exists (table s (S k) va), s. split_and!; [|done|done| |done].
    - simpl. fold (slot s k va). rewrite Hp. by destruct (Z.eqb_spec (table s k va) 0).
    - intros H0. destruct (wf_nz s Hwf k va Hk Ht Hp). revert H0. simpl.
      fold (slot s k va). rewrite Hp. by destruct (Z.eqb_spec (table s k va) 0). }
  destruct (get_free_page_cases s (wf_map s Hwf)) as [[Hg Hnone]|(i & ph & _ & Hg & _)].
  { mstep Hg. clear Hg. exists 0, s. split_and!; [done|done|done| |done]. by intros. }
  destruct (get_free_page_wf _ _ _ Hwf Hg) as [[E _]|(i' & E & Hi & Hm & Hl & Hwf1 & Htab & Hpte & Hfr & Hz & Hw)].
  { exfalso. revert E. unfold page_addr. change LOW_MEM with 2097152. lia. }
  assert (i' = i) as -> by (unfold page_addr in E; lia). clear E.
  mstep Hg. clear Hg. set (s1 := s <| phys := ph |> <| mem_map ::= <[i := 1]> |>) in *.
  assert (page_addr i ≠ 0) as Hn0 by (unfold page_addr; change LOW_MEM with 2097152; lia).
  destruct (Z.eqb_spec (page_addr i) 0); [done|].
  assert (slot s1 k va = slot s k va) as Hsl by (unfold slot; by rewrite Htab by lia).
  fold (slot s k va). rewrite <- Hsl.
  assert (table s1 k va ≠ 0) as Ht1 by (by rewrite Htab by lia).
  assert (present (word s1 (slot s1 k va)) = false) as Hp1.
  { rewrite Hsl, Hw; [done|]. intros Hin. apply (wf_free s Hwf i k va Hi); [lia|].
    destruct (link_page_range s1 Hwf1 i 1) as (_ & _ & Hal); [by rewrite Hm, list_lookup_insert_eq by (by eapply lookup_lt_Some)|].
    eapply aligned_page_eq; [apply table_aligned|done|apply slot_in_table|done]. }
  assert (mem_map s1 !! i = Some 1) as Hi1.
  { rewrite Hm, list_lookup_insert_eq; [done|]. by eapply lookup_lt_Some. }
  exists (page_addr i), (s1 <| phys ::= <[slot s1 k va := new_entry (page_addr i)]> |>).
  split_and!; [done|by eapply link_wf| |done|].
  - split.
    + intros va'. rewrite (link_pte_val s1 Hwf1 k va Hk Ht1 Hp1 i 1) by done. apply Hpte.
    + done.
    + intros j c Hj Hc. simpl. rewrite list_lookup_insert_ne; congruence.
    + simpl. by rewrite length_insert.
    + intros j va' Hj. rewrite (link_table s1 Hwf1 k va Hk Ht1 Hp1 i 1) by done.
      rewrite !Htab by done. repeat case_decide; eauto.
    + intros j va' Hj Hn. rewrite (link_table s1 Hwf1 k va Hk Ht1 Hp1 i 1) by done.
      rewrite <- Htab in Hn by done. rewrite <- (Htab j va') by done.
      case_decide as Hsm; [|done]. destruct (decide (j ≤ k)%nat); [done|].
      destruct Hn. by apply (link_table_lower s1 k va Hk Hp1 i); [|lia].
    + intros a Ha Hf. rewrite word_wr_ne; [by apply Hw, Hf|]. rewrite Hsl.
      intros <-. apply (Ha k va); [lia|done|]. apply slot_in_table.
    + intros j Hj. simpl. destruct (decide (i = j)) as [<-|].
      * right. apply list_lookup_insert_eq. by eapply lookup_lt_Some.
      * left. by rewrite list_lookup_insert_ne.
  - intros _. rewrite (link_table s1 Hwf1 k va Hk Ht1 Hp1 i 1) by (done || lia).
    rewrite decide_True by done. rewrite decide_False by lia. by rewrite decide_True.
Qed.

(** Walking down with creation: the whole of get_pt and get_pte. *)
Lemma get_pt_create s va :
  wf s →
  ∃ r s', get_pt va true s = Ret r s' ∧ wf s' ∧ extends s s' ∧
    (r = 0 → ∀ j, mem_map s' !! j ≠ Some 0) ∧ (r ≠ 0 → table s' 3 va = r).
Proof.
  intros Hwf. rewrite get_pt_steps.
  destruct (step_table_create s 0 va Hwf) as (r1 & s1 & E1 & Hwf1 & He1 & Hz1 & Hn1); [lia|done|].
  change (table s 0 va) with PML4_ADDR in E1.
  assert (∀ k s, step_table k va true 0 s = Ret 0 s) as Hstop by done.
  destruct (decide (r1 = 0)) as [->|Hr1].
  { destruct (Hz1 eq_refl) as [-> ?]. exists 0, s.
    unfold mbind, M_bind. by rewrite E1, !Hstop. }
  specialize (Hn1 Hr1).
  destruct (step_table_create s1 1 va Hwf1) as (r2 & s2 & E2 & Hwf2 & He2 & Hz2 & Hn2); [lia|by rewrite Hn1|].
  rewrite Hn1 in E2.
  destruct (decide (r2 = 0)) as [->|Hr2].
  { destruct (Hz2 eq_refl) as [-> ?]. exists 0, s1.
    unfold mbind, M_bind. by rewrite E1, E2, Hstop. }
  specialize (Hn2 Hr2).
  destruct (step_table_create s2 2 va Hwf2) as (r3 & s3 & E3 & Hwf3 & He3 & Hz3 & Hn3); [lia|by rewrite Hn2|].
  rewrite Hn2 in E3. exists r3, s3. split_and!; [|done| | |done].
  - unfold mbind, M_bind. by rewrite E1, E2, E3.
  - by rewrite He1, He2.
  - intros H. by destruct (Hz3 H) as [-> ?].
Qed.

Lemma get_pte_create s va :
  wf s →
  ∃ r s', get_pte va true s = Ret r s' ∧ wf s' ∧ extends s s' ∧
    (r = 0 → ∀ j, mem_map s' !! j ≠ Some 0) ∧
    (r ≠ 0 → table s' 3 va ≠ 0 ∧ r = slot s' 3 va).
Proof.
  intros Hwf. destruct (get_pt_create s va Hwf) as (t & s' & E & Hwf' & He & Hz & Hn).
  assert (0 ≤ t) as Hpos.
  { destruct (decide (t = 0)) as [->|Ht]; [done|]. rewrite <- Hn by done.
    destruct (decide (table s' 3 va = 0)) as [->|]; [done|]. simpl.
    destruct (_ =? 0); [done|]. destruct (present _); [apply PTE_ADDR_range|done]. }
  unfold get_pte. pose proof (idx_range 3 va) as Hx. simpl in Hx.
  exists (if t =? 0 then 0 else t + 8 * PT_INDEX va), s'. mstep E.
  destruct (Z.eqb_spec t 0) as [->|Ht]; split_and!; try done.
  - intros. lia.
  - intros _. specialize (Hn Ht). split; [congruence|]. unfold slot. by rewrite Hn.
Qed.

(** get_pte(addr, 1) finds the entry of [addr], creating the tables that are
    missing on the way; it changes no translation of any address, no counter of
    a page in use and no word of a page that is neither a table nor free, and it
    fails (0) only when no page is free.  The tables stay a tree. *)
Theorem get_pte_creates_tables_only s va :
  wf s →
  ∃ r s', get_pte va true s = Ret r s' ∧ wf s' ∧ extends s s' ∧
    (r = 0 → ∀ j, mem_map s' !! j ≠ Some 0) ∧
    (r ≠ 0 → table s' 3 va ≠ 0 ∧ r = slot s' 3 va).
Proof. apply get_pte_create. Qed.

(** ** Writing an entry *)

Lemma table_phys s s' k va : phys s = phys s' → table s k va = table s' k va.
Proof.
  intros H. assert (∀ a, word s a = word s' a) as Hw by (intros; unfold word; by rewrite H).
  induction k as [|k IH]; [done|]. simpl. by rewrite IH, Hw.
Qed.

Lemma pte_val_phys s s' va : phys s = phys s' → pte_val s va = pte_val s' va.
Proof. intros H. unfold pte_val, slot, word. by rewrite (table_phys s s'), H. Qed.

Section SetPte.
Context (s : mm) (Hwf : wf s) (va v : Z) (Ht : table s 3 va ≠ 0).
Let s' := s <| phys ::= <[slot s 3 va := v]> |>.

Lemma set_pte_table k va' : (k ≤ 3)%nat → table s' k va' = table s k va'.
Proof.
  induction k as [|k IH]; intros Hk; [done|]. simpl. rewrite IH by lia.
  destruct (Z.eqb_spec (table s k va') 0); [done|]. fold (slot s k va').
  unfold s'. rewrite word_wr_ne; [done|].
  apply slot_ne; [done|lia|lia|done|]. intros [? _]. lia.
Qed.

Lemma set_pte_slot k va' : (k ≤ 3)%nat → slot s' k va' = slot s k va'.
Proof. intros. unfold slot. by rewrite set_pte_table. Qed.

Lemma set_pte_val va' :
  pte_val s' va' = if decide (vpn va = vpn va') then v else pte_val s va'.
Proof.
  unfold pte_val. rewrite set_pte_table, set_pte_slot by lia.
  unfold s'. rewrite word_wr. case_decide as H1; case_decide as H2; try done.
  - apply same_vpn, same_S in H2 as [H2 _]. rewrite <- (table_same s 3 va va') by done.
    by destruct (Z.eqb_spec (table s 3 va) 0).
  - destruct (Z.eqb_spec (table s 3 va') 0); [done|]. exfalso.
    revert H1. apply slot_ne; [done|lia|lia|done|]. intros [_ H]. by apply H2, same_vpn.
  - exfalso. apply H1. apply same_vpn, same_S in H2 as [H2 H3].
    unfold slot. by rewrite (table_same s 3 va va'), H3.
Qed.

Lemma set_pte_wf : wf s'.
Proof.
  destruct Hwf as [Hm Hnz Hal Hfr]. split; [done|..].
  - intros k va' Hk. rewrite set_pte_table, set_pte_slot by lia. intros Hn.
    unfold s'. rewrite word_wr_ne; [by apply Hnz|].
    apply slot_ne; [done|lia|lia|done|]. intros [? _]. lia.
  - intros k k' va1 va2 Hk Hk'. rewrite !set_pte_table by lia. by apply Hal.
  - intros i k va' Hi Hk. rewrite set_pte_table by lia. by apply Hfr.
Qed.
End SetPte.

(** Changing a counter: it may become zero only if the page is not a table. *)
Lemma wf_counter s i c' :
  wf s → 0 ≤ c' < 65536 →
  (c' = 0 → ∀ k va, (k ≤ 3)%nat → table s k va ≠ page_addr i) →
  wf (s <| mem_map ::= <[i := c']> |>).
Proof.
  intros [[Hl Hr] Hnz Hal Hfr] Hc' H0. set (s' := s <| mem_map ::= <[i := c']> |>).
  assert (∀ k va, table s' k va = table s k va) as Ht by (intros; by apply table_phys).
  assert (∀ k va, slot s' k va = slot s k va) as Hs by (intros; unfold slot; by rewrite Ht).
  split.
  - split; simpl; [by rewrite length_insert|]. apply Forall_insert; [done|lia].
  - intros k va Hk. rewrite Ht, Hs. by apply Hnz.
  - intros k k' va va'. rewrite !Ht. apply Hal.
  - intros j k va Hj Hk. rewrite Ht. simpl in Hj.
    apply list_lookup_insert_Some in Hj as [(-> & E & _)|[_ Hj]]; [by apply H0|by apply Hfr].
Qed.

Lemma wf_set_counter s i c c' :
  wf s → mem_map s !! i = Some c → c ≠ 0 → 0 < c' < 65536 →
  wf (s <| mem_map ::= <[i := c']> |>).
Proof. intros Hwf _ _ Hc'. apply wf_counter; [done|lia|lia]. Qed.

Lemma put_page_run s i va :
  wf s → mem_map s !! i = Some 1 →
  ∃ r s', put_page (page_addr i) va s = Ret r s' ∧ wf s' ∧ klog s' = klog s ∧
    mem_map s' !! i = Some 1 ∧
    (∀ k va', (k ≤ 3)%nat → table s' k va' = page_addr i → table s k va' = page_addr i) ∧
    ((r = 0 ∧ (∀ va', pte_val s' va' = pte_val s va') ∧ ∀ j, mem_map s' !! j ≠ Some 0) ∨
     (r = page_addr i ∧ ∀ va',
        pte_val s' va' = if decide (vpn va = vpn va') then new_entry (page_addr i)
                         else pte_val s va')).
Proof.
  intros Hwf Hi. destruct (wf_map s Hwf) as [Hlen _].
  pose proof (lookup_lt_Some _ _ _ Hi) as Hlt.
  destruct (page_addr_range i) as (H1 & H2 & H3); [lia|].
  destruct (get_pte_create s va Hwf) as (r & s1 & E & Hwf1 & He & Hz & Hn).
  assert (mem_map s1 !! i = Some 1) as Hi1 by (by apply (ext_used _ _ He)).
  assert (∀ k va', (k ≤ 3)%nat → table s1 k va' = page_addr i → table s k va' = page_addr i) as Htb.
  { intros k va' Hk E'. destruct (ext_tab _ _ He k va' Hk) as [E''|(i' & Hi' & [E''|E''])];
      rewrite E'' in E'; [done| |].
    - unfold page_addr in E'. assert (i = i') as -> by lia. by rewrite Hi in Hi'.
    - revert E'. unfold page_addr. change LOW_MEM with 2097152. lia. }
  unfold put_page.
  assert ((page_addr i <? LOW_MEM) || (HIGH_MEMORY <? page_addr i) = false) as Hb by lia.
  rewrite Hb. change (when false ?m) with (mret () : M mm ()).
  assert ((mret () : M mm ()) s = Ret tt s) as Hs by done. mstep Hs.
  assert ((gets mem_map ≫= λ l, index l (MAP_NR (page_addr i))) s = Ret 1 s) as Hr.
  { rewrite MAP_NR_page_addr by lia. apply index_Some; [lia|]. by rewrite Nat2Z.id. }
  mstep Hr. change (when (negb (1 =? 1)) ?m) with (mret () : M mm ()). mstep Hs. mstep E.
  destruct (Z.eqb_spec r 0) as [->|Hr0].
  - exists 0, s1. split_and!; [done|done|by apply ext_log|done|done|].
    left. split_and!; [done|apply He|by apply Hz].
  - destruct (Hn Hr0) as [Ht ->].
    exists (page_addr i), (s1 <| phys ::= <[slot s1 3 va := new_entry (page_addr i)]> |>).
    split_and!; [done|by apply set_pte_wf|by apply (ext_log _ _ He)|done| |].
    { intros k va' Hk. rewrite set_pte_table by done. by apply Htb. }
    right. split; [done|]. intros va'. rewrite set_pte_val by done.
    case_decide; [done|]. apply He.
Qed.

(** put_page maps the page it is given at the virtual page of [address]
    (present, writable, user), creating tables as needed, and leaves the
    translation of every other virtual page as it was; it returns 0, with every
    translation unchanged, only when memory has run out. *)
Theorem put_page_maps s i va :
  wf s → mem_map s !! i = Some 1 →
  ∃ r s', put_page (page_addr i) va s = Ret r s' ∧ wf s' ∧
    ((r = 0 ∧ (∀ va', pte_val s' va' = pte_val s va') ∧ ∀ j, mem_map s' !! j ≠ Some 0) ∨
     (r = page_addr i ∧ ∀ va',
        pte_val s' va' = if decide (vpn va = vpn va') then new_entry (page_addr i)
                         else pte_val s va')).
Proof.
  intros Hwf Hi. destruct (put_page_run s i va Hwf Hi) as (r & s' & H1 & H2 & _ & _ & _ & H3).
  by exists r, s'.
Qed.

(** A state without any table: used by the examples. *)
Lemma wf_blank l lg : map_ok (Mm ∅ l lg) → wf (Mm ∅ l lg).
Proof.
  intros Hm. set (s := Mm ∅ l lg).
  assert (∀ a, word s a = 0) as Hw by (intros; done).
  assert (∀ k va, table s (S k) va = 0) as Ht.
  { intros k va. simpl. destruct (_ =? 0); [done|]. by rewrite Hw. }
  split; [done|..].
  - intros k va _ _. by rewrite Hw.
  - intros [|k] [|k'] va va' _ _; [| |by rewrite Ht..].
    + intros _ _. split; [done|]. intros j Hj. lia.
    + by rewrite Ht.
  - intros i [|k] va _ _; [|rewrite Ht]; unfold page_addr; change LOW_MEM with 2097152;
      [simpl; unfold PML4_ADDR|]; lia.
Qed.

Definition blank_mm : mm := Mm ∅ (<[0%nat := 1]> (replicate 1536 0)) [].

Lemma blank_wf : wf blank_mm.
Proof.
  apply wf_blank. split; [reflexivity|].
  apply (Forall_insert _ (replicate 1536 0) 0%nat 1); [apply Forall_replicate; lia|lia].
Qed.

Lemma get_pte_creates_tables_only_witness :
  ∃ r s', get_pte 0x40000000 true blank_mm = Ret r s' ∧ extends blank_mm s'.
Proof.
  destruct (get_pte_creates_tables_only blank_mm 0x40000000 blank_wf)
    as (r & s' & H1 & _ & H2 & _).
  exists r, s'. split; [exact H1|exact H2].
Defined.

Lemma put_page_maps_witness :
  ∃ r s', put_page (page_addr 0) 0x40000000 blank_mm = Ret r s' ∧ wf s'.
Proof.
  destruct (put_page_maps blank_mm 0 0x40000000 blank_wf) as (r & s' & H1 & H2 & _).
  - reflexivity.
  - exists r, s'. split; [exact H1|exact H2].
Defined.

Lemma free_page_undoes_get_free_page_witness :
  ∃ s2, free_page (page_addr 1535) (Mm ∅ (<[1535%nat := 1]> (replicate 1536 0)) []) = Ret tt s2.
Proof.
  destruct (get_free_page_cases blank_mm (wf_map _ blank_wf)) as [[_ H]|(i & ph & _ & H & _)].
  - exfalso. apply (H 5%nat). reflexivity.
  - destruct (free_page_undoes_get_free_page blank_mm (page_addr i) _ (wf_map _ blank_wf) H)
      as (s2 & H2 & _).
    + unfold page_addr. change LOW_MEM with 2097152. lia.
    + eexists. vm_compute. reflexivity.
Defined.

