(* ===== verification/MmCow.v ===== *)
(** * Memory management: sharing, copy-on-write and page faults

    How page tables are copied (copy_page_tables), what a write to a shared page does
    (un_wp_page), what exec and exit rely on (free_page_tables), and what the
    page-fault entry hands to the two handlers. *)

From S2P Require Import Prelude Layout Mm MmFacts.

(** ** The ranges the two routines walk *)

(** The [k]-th page of the range that starts at [base]. *)
Definition nth_page (base : Z) (k : nat) : Z := u64 (base + 4096 * Z.of_nat k).

(** The pages of the range of [size] bytes, rounded up to 2 MB. *)
Definition range_pages (size : Z) : nat := Z.to_nat (round_2mb size / 4096).

(** The entries among the first [n] of the range at [base] that map page [i]. *)
Definition refs (s : mm) (base : Z) (n i : nat) : list nat :=
  filter (λ k, present (pte_val s (nth_page base k)) = true ∧
               PTE_ADDR (pte_val s (nth_page base k)) = page_addr i) (seq 0 n).

(** An entry that copy_page_tables shares and write-protects in the parent too. *)
Definition shared (e : Z) : bool := present e && (LOW_MEM <=? PTE_ADDR e).

(** The virtual pages of two ranges of [n] pages are all different. *)
Definition disjoint_ranges (a b : Z) (n : nat) : Prop :=
  ∀ j k, (j < n)%nat → (k < n)%nat → vpn (nth_page a j) ≠ vpn (nth_page b k).

(** ** Write protection of an entry *)

Lemma PTE_ADDR_protect e : PTE_ADDR (Z.ldiff e PAGE_WRITE) = PTE_ADDR e.
Proof.
  unfold PTE_ADDR, PAGE_WRITE. apply Z.bits_inj'. intros i Hi.
  rewrite !Z.land_spec, Z.ldiff_spec. change 2 with (2 ^ 1).
  rewrite Z.pow2_bits_eqb by lia. destruct (Z.eqb_spec 1 i) as [<-|]; cbn [negb]; [|by rewrite andb_true_r].
  change (Z.testbit 0x000FFFFFFFFFF000 1) with false. by rewrite !andb_false_r.
Qed.

Lemma present_protect e : present (Z.ldiff e PAGE_WRITE) = present e.
Proof.
  unfold present. f_equal. unfold PAGE_PRESENT, PAGE_WRITE. apply Z.bits_inj'. intros i Hi.
  rewrite !Z.land_spec, Z.ldiff_spec.
  pose proof (Z.pow2_bits_eqb 1 i ltac:(lia)) as E1. pose proof (Z.pow2_bits_eqb 0 i ltac:(lia)) as E0.
  change (2 ^ 1) with 2 in E1. change (2 ^ 0) with 1 in E0. rewrite E1, E0.
  destruct (Z.eqb_spec 1 i) as [<-|]; cbn [negb]; [|by rewrite andb_true_r].
  by rewrite !andb_false_r.
Qed.

Lemma protect_idem e : Z.ldiff (Z.ldiff e PAGE_WRITE) PAGE_WRITE = Z.ldiff e PAGE_WRITE.
Proof.
  apply Z.bits_inj'. intros i Hi. rewrite !Z.ldiff_spec. by destruct (Z.testbit e i), (Z.testbit PAGE_WRITE i).
Qed.

(** ** Virtual page numbers of a range *)

Lemma vpn_range va : 0 ≤ vpn va < 2 ^ 36.
Proof. unfold vpn. by apply Z.mod_pos_bound. Qed.


Lemma vpn_u64 va : vpn (u64 va) = vpn va.
Proof.
  unfold vpn, u64. pose proof (Z.div_mod va (2 ^ 64) ltac:(lia)) as E.
  set (q := va / 2 ^ 64) in *. set (r := va mod 2 ^ 64) in *. rewrite E.
  replace (2 ^ 64 * q + r) with (r + (2 ^ 52 * q) * 4096) by lia.
  rewrite Z.div_add by lia. replace (2 ^ 52 * q) with ((2 ^ 16 * q) * 2 ^ 36) by lia.
  by rewrite Z_mod_plus_full.
Qed.

Lemma vpn_nth_page base k :
  vpn (nth_page base k) = (base / 4096 + Z.of_nat k) mod 2 ^ 36.
Proof.
  unfold nth_page. rewrite vpn_u64. unfold vpn.
  replace (base + 4096 * Z.of_nat k) with (base + Z.of_nat k * 4096) by lia.
  by rewrite Z.div_add by lia.
Qed.

Lemma vpn_nth_page_inj base j k :
  Z.of_nat j < 2 ^ 36 → Z.of_nat k < 2 ^ 36 →
  vpn (nth_page base j) = vpn (nth_page base k) → j = k.
Proof.
  intros Hj Hk. rewrite !vpn_nth_page. intros E.
  set (b := base / 4096) in *.
  pose proof (Z.div_mod (b + Z.of_nat j) (2 ^ 36) ltac:(lia)).
  pose proof (Z.div_mod (b + Z.of_nat k) (2 ^ 36) ltac:(lia)). nia.
Qed.

Lemma pte_val_vpn s va va' : vpn va = vpn va' → pte_val s va = pte_val s va'.
Proof.
  intros E. apply same_vpn, same_S in E as [E1 E2]. unfold pte_val, slot.
  by rewrite (table_same s 3 va va' E1), E2.
Qed.

Lemma refs_S s base n i :
  refs s base (S n) i = refs s base n i ++
    (if decide (present (pte_val s (nth_page base n)) = true ∧
                PTE_ADDR (pte_val s (nth_page base n)) = page_addr i) then [n] else []).
Proof.
  unfold refs. rewrite seq_S, filter_app. f_equal.
Qed.

Lemma refs_le s base n i : (length (refs s base n i) ≤ n)%nat.
Proof. unfold refs. rewrite <- (length_seq n 0) at 2. apply length_filter. Qed.

Lemma page_addr_inj i j : page_addr i = page_addr j → i = j.
Proof. unfold page_addr. lia. Qed.

(** ** copy_page_tables *)

Lemma pte_val_set_counter s i c va :
  pte_val (s <| mem_map ::= <[i := c]> |>) va = pte_val s va.
Proof. by apply pte_val_phys. Qed.

Lemma table_set_counter s i c k va :
  table (s <| mem_map ::= <[i := c]> |>) k va = table s k va.
Proof. by apply table_phys. Qed.

(** Incrementing the counter of a page, as the source does it. *)
Lemma bump_counter (s : mm) i c :
  map_ok s → mem_map s !! i = Some c → 0 ≤ c → c + 1 < 65536 →
  (c ← (l ← gets mem_map; index l (MAP_NR (page_addr i)));
   store mem_map (MAP_NR (page_addr i)) (u16 (c + 1))) s
  = Ret tt (s <| mem_map ::= <[i := c + 1]> |>).
Proof.
  intros [Hlen _] Hi Hc Hb. pose proof (lookup_lt_Some _ _ _ Hi).
  rewrite MAP_NR_page_addr by lia.
  assert ((gets mem_map ≫= λ l, index l (Z.of_nat i)) s = Ret c s) as Hr.
  { apply index_Some; [lia|]. by rewrite Nat2Z.id. }
  mstep Hr. rewrite store_in by lia. by rewrite u16_small, Nat2Z.id by lia.
Qed.

Lemma drop_counter (s : mm) i c :
  map_ok s → mem_map s !! i = Some c → 0 < c < 65536 →
  (c ← (l ← gets mem_map; index l (MAP_NR (page_addr i)));
   store mem_map (MAP_NR (page_addr i)) (u16 (c - 1))) s
  = Ret tt (s <| mem_map ::= <[i := c - 1]> |>).
Proof.
  intros [Hlen _] Hi Hc. pose proof (lookup_lt_Some _ _ _ Hi).
  rewrite MAP_NR_page_addr by lia.
  assert ((gets mem_map ≫= λ l, index l (Z.of_nat i)) s = Ret c s) as Hr.
  { apply index_Some; [lia|]. by rewrite Nat2Z.id. }
  mstep Hr. rewrite store_in by lia. by rewrite u16_small, Nat2Z.id by lia.
Qed.

(** *** What the copy means for the translations

    A translation [f] gives the entry of every address.  Copying the entry of page
    [a] to page [b] write-protects the copy, and the original as well if the page
    is shared. *)
Definition protect (e : Z) : Z := Z.ldiff e PAGE_WRITE.
Definition share (f : Z → Z) (a b : Z) : Z → Z :=
  let e := f a in
  if present e then λ va,
    if decide (vpn b = vpn va) then protect e
    else if decide (shared e = true ∧ vpn a = vpn va) then protect e else f va
  else f.
(** The first [n] pages of the range at [from], one after the other: ranges that
    overlap read entries that were copied before. *)
Fixpoint shares (f : Z → Z) (from to : Z) (n : nat) : Z → Z :=
  match n with
  | O => f
  | S m => share (shares f from to m) (nth_page from m) (nth_page to m)
  end.
(** The entry round [k] copies, and the rounds that add a reference to page [i]. *)
Definition copied_entry (f : Z → Z) (from to : Z) (k : nat) : Z := shares f from to k (nth_page from k).
Definition copied_refs (f : Z → Z) (from to : Z) (n i : nat) : list nat :=
  filter (λ k, present (copied_entry f from to k) = true ∧ PTE_ADDR (copied_entry f from to k) = page_addr i) (seq 0 n).

(** Every page the rounds share is one of the allocator, and the 16-bit counters
    have room for the references (and for one more of a page that is free). *)
Definition room (s : mm) (from to : Z) (n : nat) : Prop :=
  ∀ k, (k < n)%nat → shared (copied_entry (pte_val s) from to k) = true →
    ∃ i c, PTE_ADDR (copied_entry (pte_val s) from to k) = page_addr i ∧ mem_map s !! i = Some c ∧ 0 ≤ c ∧
      Z.max c 1 + Z.of_nat (length (copied_refs (pte_val s) from to n i)) < 65536.

Lemma copied_refs_S f from to n i :
  copied_refs f from to (S n) i = copied_refs f from to n i ++
    (if decide (present (copied_entry f from to n) = true ∧ PTE_ADDR (copied_entry f from to n) = page_addr i) then [n] else []).
Proof. unfold copied_refs. rewrite seq_S, filter_app. f_equal. Qed.

Lemma copied_refs_mono f from to m n i : (m ≤ n)%nat →
  (length (copied_refs f from to m i) ≤ length (copied_refs f from to n i))%nat.
Proof. induction 1 as [|n _ IH]; [done|]. rewrite copied_refs_S, length_app. lia. Qed.

(** Ranges of different pages: the copy reads only original entries. *)
Lemma shares_disjoint f from to n : Z.of_nat n < 2 ^ 36 → disjoint_ranges from to n → ∀ m, (m ≤ n)%nat →
  (∀ k, (k < m)%nat → present (f (nth_page from k)) = true → shares f from to m (nth_page to k) = protect (f (nth_page from k))) ∧
  (∀ k, (k < n)%nat → shares f from to m (nth_page from k) =
     let e := f (nth_page from k) in if bool_decide (k < m)%nat && shared e then protect e else e) ∧
  (∀ va, (∀ k, (k < n)%nat → vpn (nth_page from k) ≠ vpn va) →
     (∀ k, (k < m)%nat → present (f (nth_page from k)) = true → vpn (nth_page to k) ≠ vpn va) →
     shares f from to m va = f va).
Proof.
  intros Hn Hd. induction m as [|m IH]; intros Hm; [by split_and!; [lia|intros; cbv zeta; by rewrite bool_decide_false by lia|]|].
  destruct IH as (H1 & H2 & H3); [lia|]. cbn [shares]. set (g := shares f from to m) in *.
  assert (g (nth_page from m) = f (nth_page from m)) as Em by (rewrite H2 by lia; cbv zeta; by rewrite bool_decide_false by lia).
  unfold share. rewrite Em. set (e := λ k, f (nth_page from k)) in *. change (f (nth_page from m)) with (e m).
  destruct (present (e m)) eqn:Hp; split_and!.
  - intros k Hk Hpk. destruct (decide (k = m)) as [->|Hkm]; [by rewrite decide_True|].
    rewrite decide_False by (intros E; apply vpn_nth_page_inj in E; lia).
    rewrite decide_False by (intros [_ E]; by apply Hd in E; [|lia..]). apply H1; [lia|done].
  - intros k Hk. rewrite decide_False by (intros E; symmetry in E; by apply Hd in E; [|lia..]).
    cbv zeta in *. destruct (decide (k = m)) as [->|Hkm].
    + rewrite bool_decide_true by lia. cbn [andb]. fold (e m). destruct (shared (e m)); [by rewrite decide_True|].
      rewrite decide_False by (by intros []). exact Em.
    + rewrite decide_False by (intros [_ E]; apply vpn_nth_page_inj in E; lia).
      rewrite H2 by done. by rewrite (bool_decide_ext (k < S m)%nat (k < m)%nat) by lia.
  - intros va Hf Ht. rewrite !decide_False; [|intros [_ E]; apply (Hf m); [lia|done]|apply Ht; [lia|done]].
    apply H3; [done|]. intros k Hk. apply Ht. lia.
  - intros k Hk Hpk. apply H1; [|done]. destruct (decide (k = m)) as [->|]; [unfold e in Hp; congruence|lia].
  - intros k Hk. rewrite H2 by done. cbv zeta. destruct (decide (k = m)) as [->|Hkm].
    + fold (e m). unfold shared. rewrite Hp. by rewrite !andb_false_r.
    + by rewrite (bool_decide_ext (k < S m)%nat (k < m)%nat) by lia.
  - intros va Hf Ht. apply H3; [done|]. intros k Hk. apply Ht. lia.
Qed.

Lemma copied_entry_disjoint f from to n k : Z.of_nat n < 2 ^ 36 → disjoint_ranges from to n → (k < n)%nat →
  copied_entry f from to k = f (nth_page from k).
Proof.
  intros Hn Hd Hk. destruct (shares_disjoint f from to n Hn Hd k) as (_ & H & _); [lia|].
  unfold copied_entry. rewrite H by done. cbv zeta. by rewrite bool_decide_false by lia.
Qed.
Lemma copied_refs_disjoint s from to n i : Z.of_nat n < 2 ^ 36 → disjoint_ranges from to n →
  copied_refs (pte_val s) from to n i = refs s from n i.
Proof.
  intros Hn Hd. assert (∀ m, (m ≤ n)%nat → copied_refs (pte_val s) from to m i = refs s from m i) as H; [|by apply H].
  induction m as [|m IH]; intros Hm; [done|]. rewrite copied_refs_S, refs_S, IH by lia.
  by rewrite (copied_entry_disjoint _ from to n) by (done || lia).
Qed.

Lemma room_disjoint s from to n : Z.of_nat n < 2 ^ 36 → disjoint_ranges from to n →
  (∀ k, (k < n)%nat → shared (pte_val s (nth_page from k)) = true →
    ∃ i c, PTE_ADDR (pte_val s (nth_page from k)) = page_addr i ∧ mem_map s !! i = Some c ∧ 0 ≤ c ∧
      Z.max c 1 + Z.of_nat n < 65536) → room s from to n.
Proof.
  intros Hn Hd H k Hk. rewrite (copied_entry_disjoint _ from to n) by done. intros Hs.
  destruct (H k Hk Hs) as (i & c & ? & ? & ? & ?). exists i, c. split_and!; [done..|].
  rewrite copied_refs_disjoint by done. pose proof (refs_le s from n i). lia.
Qed.

Section Copy.
Context (s0 : mm) (from to : Z) (n : nat).
Context (Hwf0 : wf s0) (Hroom : room s0 from to n).

Let F := nth_page from.
Let T := nth_page to.
Let f := shares (pte_val s0) from to.
Let e k := copied_entry (pte_val s0) from to k.
Let ro k := protect (e k).
Let added (m i : nat) : Z := Z.of_nat (length (copied_refs (pte_val s0) from to m i)).

(** After [m] rounds.  A page that was free may have become a page table. *)
Record copied (m : nat) (s : mm) : Prop := {
  cp_wf : wf s;
  cp_pte : ∀ va, pte_val s va = f m va;
  cp_count : ∀ i c, mem_map s0 !! i = Some c →
    ∃ t, 0 ≤ t ≤ 1 ∧ (c ≠ 0 → t = 0) ∧ mem_map s !! i = Some (c + t + added m i)
}.

Lemma added_S m i : added (S m) i = added m i + (if decide (present (e m) = true ∧ PTE_ADDR (e m) = page_addr i) then 1 else 0).
Proof. unfold added. rewrite copied_refs_S, length_app. fold (e m). case_decide; simpl; lia. Qed.

Lemma copied_skip m s : present (e m) = false → copied m s → copied (S m) s.
Proof.
  intros Hp [H1 H2 H3]. split; [done|..].
  - intros va. rewrite H2. unfold f. cbn [shares]. unfold share. fold (e m). change (shares _ _ _ m (nth_page from m)) with (e m). by rewrite Hp.
  - intros i c Hi. destruct (H3 i c Hi) as (t & Ht & Htc & E). exists t. split_and!; [lia..|done|]. rewrite E, added_S.
    rewrite decide_False by (intros [? _]; congruence). do 2 f_equal. lia.
Qed.

(** The entry of the child is written, and the parent's entry if it is shared. *)
Lemma copied_write m s s1 :
  present (e m) = true → copied m s → extends s s1 → wf s1 → table s1 3 (T m) ≠ 0 → table s1 3 (F m) ≠ 0 →
  let s2 := s1 <| phys ::= <[slot s1 3 (T m) := ro m]> |> in
  let s3 := if shared (e m) then s2 <| phys ::= <[slot s1 3 (F m) := ro m]> |> else s2 in
  wf s3 ∧ ∀ va, pte_val s3 va = f (S m) va.
Proof.
  intros Hp Hc He Hwf Ht Hf s2 s3. assert (wf s2) as Hwf2 by (by apply set_pte_wf).
  assert (∀ va, pte_val s2 va = if decide (vpn (T m) = vpn va) then ro m else f m va) as Hv2.
  { intros va. unfold s2. rewrite set_pte_val by done. by rewrite (ext_pte _ _ He), (cp_pte m s Hc). }
  assert (∀ va, f (S m) va = if decide (vpn (T m) = vpn va) then ro m
     else if decide (shared (e m) = true ∧ vpn (F m) = vpn va) then ro m else f m va) as Hf3.
  { intros va. unfold f. cbn [shares]. unfold share. change (shares _ _ _ m (nth_page from m)) with (e m). by rewrite Hp. }
  unfold s3. destruct (shared (e m)).
  - assert (table s2 3 (F m) ≠ 0) as Hf2 by (unfold s2; by rewrite set_pte_table by (done || lia)).
    assert (slot s1 3 (F m) = slot s2 3 (F m)) as -> by (unfold s2; by rewrite set_pte_slot by (done || lia)).
    split; [by apply set_pte_wf|]. intros va. rewrite set_pte_val by done. rewrite Hv2, Hf3.
    repeat case_decide; try done; tauto.
  - split; [done|]. intros va. rewrite Hv2, Hf3. by rewrite (decide_False (P := false = true ∧ _)) by (by intros []).
Qed.

Definition copy_body (k : Z) : M mm (option Z) :=
  let addr := 4096 * k in
  from_pte ← get_pte (u64 (from + addr)) false;
  if from_pte =? 0 then mret None else
  e ← rd from_pte;
  if negb (truth (e .& PAGE_PRESENT)) then mret None else
  to_pte ← get_pte (u64 (to + addr)) true;
  if to_pte =? 0 then mret (Some (-1)) else
  e ← rd from_pte;
  let this_page := Z.ldiff e PAGE_WRITE in
  wr to_pte this_page;;
  let phys_addr := PTE_ADDR this_page in
  when (LOW_MEM <=? phys_addr)
    (wr from_pte this_page;;
     c ← (l ← gets mem_map; index l (MAP_NR phys_addr));
     store mem_map (MAP_NR phys_addr) (u16 (c + 1)));;
  mret None.

Lemma table_pos s k va : (k ≤ 3)%nat → 0 ≤ table s k va.
Proof.
  destruct k as [|k]; [done|]. intros _. simpl.
  destruct (_ =? 0); [done|]. destruct (present _); [apply PTE_ADDR_range|done].
Qed.

Lemma slot_nz s va : table s 3 va ≠ 0 → slot s 3 va ≠ 0.
Proof.
  intros H. pose proof (table_pos s 3 va ltac:(lia)). unfold slot.
  pose proof (idx_range 3 va). lia.
Qed.

(** The writes of one round, from the state the child's table is ready in. *)
Lemma copy_finish m s s1 :
  (m < n)%nat → present (e m) = true → copied m s → extends s s1 → wf s1 →
  table s1 3 (T m) ≠ 0 → table s1 3 (F m) ≠ 0 →
  wp (when (LOW_MEM <=? PTE_ADDR (e m))
        (wr (slot s1 3 (F m)) (ro m);;
         c ← (l ← gets mem_map; index l (MAP_NR (PTE_ADDR (e m))));
         store mem_map (MAP_NR (PTE_ADDR (e m))) (u16 (c + 1)));;
      mret None)
    (λ (r : option Z) s', match r with
             | Some x => x = -1 ∧ wf s' ∧ ∀ j, mem_map s' !! j ≠ Some 0
             | None => copied (S m) s'
             end) (s1 <| phys ::= <[slot s1 3 (T m) := ro m]> |>).
Proof.
  intros Hm Hp Hc He Hwf1 Ht Hf1. destruct (copied_write m s s1 Hp Hc He Hwf1 Ht Hf1) as [Hwf3 Hv3].
  set (s2 := s1 <| phys ::= <[slot s1 3 (T m) := ro m]> |>) in *.
  assert (∀ i c, mem_map s0 !! i = Some c → ∃ t, 0 ≤ t ≤ 1 ∧ (c ≠ 0 → t = 0) ∧ mem_map s1 !! i = Some (c + t + added m i)) as Hmm.
  { intros i c Hi. destruct (cp_count m s Hc i c Hi) as (t & Ht01 & Htc & E). destruct (decide (c + t + added m i = 0)) as [Hz|Hz].
    - assert (0 ≤ c) by (eapply (Forall_lookup_1 _ _ _ _ (proj2 (wf_map s0 Hwf0))); exact Hi). rewrite Hz in E. unfold added in *.
      destruct (ext_fresh _ _ He i E) as [E'|E']; [exists t|exists (t + 1)]; (split; [|split; [|rewrite E'; f_equal]]); lia.
    - exists t. split_and!; [lia..|done|]. by apply (ext_used _ _ He). }
  assert (shared (e m) = (LOW_MEM <=? PTE_ADDR (e m))) as Hsh by (unfold shared; by rewrite Hp).
  rewrite Hsh in Hwf3, Hv3. apply wp_bind, wp_when; intros Hb; rewrite Hb in Hwf3, Hv3; rewrite Hb in Hsh.
  - destruct (Hroom m Hm Hsh) as (i & c & Hpa & Hi & Hc0 & Hcb). change (PTE_ADDR (e m) = page_addr i) in Hpa. rewrite Hpa.
    destruct (Hmm i c Hi) as (t & Ht01 & Htc & Et). pose proof (copied_refs_mono (pte_val s0) from to (S m) n i ltac:(lia)) as Hle.
    pose proof (added_S m i) as HS. rewrite decide_True in HS by done. unfold added in HS.
    apply wp_bind, wp_modify. eapply wp_of_ret.
    { apply (bump_counter _ i (c + t + added m i)); [apply Hwf3|exact Et|unfold added; lia..]. }
    apply wp_ret. split.
    + apply wf_counter; [exact Hwf3|unfold added; lia..].
    + intros va. by rewrite pte_val_set_counter, Hv3.
    + intros i' c' Hi'. destruct (Hmm i' c' Hi') as (t' & ? & ? & Et'). exists t'. split_and!; [lia..|done|]. simpl.
      rewrite added_S. destruct (decide (i = i')) as [<-|Hne].
      * rewrite decide_True by done. simplify_eq. rewrite list_lookup_insert_eq by (by eapply lookup_lt_Some). f_equal. lia.
      * rewrite list_lookup_insert_ne, Et' by done. rewrite decide_False; [f_equal; lia|].
        intros [_ E]. rewrite Hpa in E. by apply page_addr_inj in E.
  - apply wp_ret. split; [done|done|]. intros i c Hi. destruct (Hmm i c Hi) as (t & ? & ? & Et). exists t. split_and!; [lia..|done|].
    rewrite added_S, decide_False; [simpl; rewrite Et; f_equal; lia|]. intros [_ E]. rewrite E in Hb.
    apply Z.leb_gt in Hb. unfold page_addr in Hb. lia.
Qed.

Lemma copy_body_run m s :
  (m < n)%nat → copied m s →
  wp (copy_body (Z.of_nat m))
    (λ r s', match r with
             | Some x => x = -1 ∧ wf s' ∧ ∀ j, mem_map s' !! j ≠ Some 0
             | None => copied (S m) s'
             end) s.
Proof.
  intros Hm Hc. unfold copy_body. fold (nth_page from m) (nth_page to m). fold (F m) (T m).
  assert (pte_val s (F m) = e m) as Hem by apply (cp_pte m s Hc).
  apply wp_bind. eapply wp_of_ret; [apply get_pte_find|].
  unfold pte_val in Hem. destruct (Z.eqb_spec (table s 3 (F m)) 0) as [|Hf]; cbn [Z.eqb].
  { apply wp_ret, copied_skip; [|done]. by rewrite <- Hem. }
  destruct (Z.eqb_spec (slot s 3 (F m)) 0) as [Hx|_]; [by apply slot_nz in Hx|].
  apply wp_bind, wp_gets. rewrite Hem. change (truth (e m .& PAGE_PRESENT)) with (present (e m)).
  destruct (present (e m)) eqn:Hp; cbn [negb]; [|by apply wp_ret, copied_skip].
  apply wp_bind. destruct (get_pte_create s (T m) (cp_wf m s Hc)) as (r & s1 & E & Hwf1 & He & Hz & Hr).
  eapply wp_of_ret; [exact E|]. clear E.
  destruct (Z.eqb_spec r 0) as [->|Hr0]; [by apply wp_ret; auto|].
  destruct (Hr Hr0) as [Ht ->]. clear Hr Hz Hr0.
  assert (table s1 3 (F m) ≠ 0) as Hf1 by (by rewrite (ext_stable _ _ He) by (done || lia)).
  assert (slot s 3 (F m) = slot s1 3 (F m)) as ->.
  { unfold slot. by rewrite (ext_stable _ _ He) by (done || lia). }
  apply wp_bind, wp_gets.
  assert (word s1 (slot s1 3 (F m)) = e m) as ->.
  { pose proof (ext_pte _ _ He (F m)) as Hpv. unfold pte_val in Hpv. rewrite Hem in Hpv.
    destruct (Z.eqb_spec (table s1 3 (F m)) 0); [done|].
    destruct (Z.eqb_spec (table s 3 (F m)) 0); done. }
  apply wp_bind, wp_modify. change (Z.ldiff (e m) PAGE_WRITE) with (ro m).
  replace (PTE_ADDR (ro m)) with (PTE_ADDR (e m)) by (symmetry; apply PTE_ADDR_protect).
  apply (copy_finish m s s1); done.
Qed.
End Copy.

(** C13: copy_page_tables, for any two ranges, overlapping or not, copies the
    pages that are present one after the other: each becomes read-only at its new
    address and, if it lies above LOW_MEM, at the old one too, and is counted once
    more for each copy; it fails (-1) only when memory has run out, and the tables
    stay a tree.  If the ranges are disjoint this is copy-on-write: every page
    present below [from] is mapped read-only at the same place below [to], the
    entries below [from] keep their pages and become read-only if shared, every
    other translation stays as it was, and each page gets one reference for each
    entry that maps it.  (The first fork passes ranges that overlap: the limit is
    4 GB, the bases are 64 MB apart.)  The counters must have room for the
    references; a page that was free may have become a page table. *)
Theorem copy_page_tables_cow s from to size (n := range_pages size) :
  wf s → from .& 0x1FFFFF = 0 → to .& 0x1FFFFF = 0 → room s from to n →
  ∃ r s', copy_page_tables from to size s = Ret r s' ∧ wf s' ∧
    ((r = -1 ∧ ∀ j, mem_map s' !! j ≠ Some 0) ∨
     (r = 0 ∧
      (∀ va, pte_val s' va = shares (pte_val s) from to n va) ∧
      (∀ i c, mem_map s !! i = Some c → ∃ t, 0 ≤ t ≤ 1 ∧ (c ≠ 0 → t = 0) ∧
         mem_map s' !! i = Some (c + t + Z.of_nat (length (copied_refs (pte_val s) from to n i)))) ∧
      (Z.of_nat n < 2 ^ 36 → disjoint_ranges from to n →
        (∀ k, (k < n)%nat → present (pte_val s (nth_page from k)) = true →
           pte_val s' (nth_page to k) = Z.ldiff (pte_val s (nth_page from k)) PAGE_WRITE) ∧
        (∀ k, (k < n)%nat →
           pte_val s' (nth_page from k) =
             (let e := pte_val s (nth_page from k) in
              if shared e then Z.ldiff e PAGE_WRITE else e)) ∧
        (∀ va, (∀ k, (k < n)%nat → vpn (nth_page from k) ≠ vpn va) →
           (∀ k, (k < n)%nat → present (pte_val s (nth_page from k)) = true →
              vpn (nth_page to k) ≠ vpn va) →
           pte_val s' va = pte_val s va) ∧
        ∀ i, copied_refs (pte_val s) from to n i = refs s from n i))).
Proof.
  intros Hwf Hf Ht Hr.
  assert (wp (mloop (copy_body from to) (upto n)) (λ r s', match r with
      | Some x => x = -1 ∧ wf s' ∧ ∀ j, mem_map s' !! j ≠ Some 0
      | None => copied s from to n s' end) s) as H.
  { apply (wp_mloop_upto _ (copied s from to)); [|intros; by apply (copy_body_run s from to n Hwf Hr)|done].
    split; [done|done|]. intros i c Hi. exists 0. split_and!; [lia..|done|]. rewrite Hi. f_equal. simpl. lia. }
  apply wp_returns in H as (r & s' & E & H). exists (default 0 r), s'. split.
  { unfold copy_page_tables. rewrite Hf, Ht. cbn [truth Z.eqb negb orb]. by rewrite (bind_ret _ _ s r s' E). }
  destruct r as [x|]; [destruct H as (-> & H1 & H2); split; [done|]; by left|].
  destruct H as [H1 H2 H3]. split; [done|]. right. split_and!; [done|exact H2|exact H3|]. intros Hn Hd.
  destruct (shares_disjoint (pte_val s) from to n Hn Hd n (le_n n)) as (D1 & D2 & D3). split_and!.
  - intros k Hk Hp. rewrite H2. by apply D1.
  - intros k Hk. rewrite H2, D2 by done. cbv zeta. by rewrite bool_decide_true.
  - intros va Hva Hvt. rewrite H2. by apply D3.
  - intros i. by apply copied_refs_disjoint.
Qed.

(** ** A write to a shared page: un_wp_page *)

Lemma copy_page_spec p q s :
  p mod 4096 = 0 → q mod 4096 = 0 → p ≠ q →
  ∃ ph, copy_page p q s = Ret tt (s <| phys := ph |>) ∧
    (∀ j, 0 ≤ j < 512 → default 0 (ph !! (q + 8 * j)) = word s (p + 8 * j)) ∧
    (∀ a, ¬ in_page q a → ph !! a = phys s !! a).
Proof.
  intros Hp Hq Hne. unfold copy_page.
  cut (∀ n, (n ≤ 512)%nat → ∃ ph,
    mfor (λ i, x ← rd (p + 8 * i); wr (q + 8 * i) x) (upto n) s = Ret tt (s <| phys := ph |>) ∧
    (∀ j, 0 ≤ j < Z.of_nat n → default 0 (ph !! (q + 8 * j)) = word s (p + 8 * j)) ∧
    (∀ a, ¬ in_page q a → ph !! a = phys s !! a)).
  { intros H. destruct (H 512%nat) as (ph & ? & ? & ?); [lia|eauto]. }
  induction n as [|n IH]; intros Hn.
  { exists (phys s). split_and!; [by destruct s|lia|done]. }
  destruct IH as (ph & Hr & H1 & H2); [lia|].
  exists (<[q + 8 * Z.of_nat n := word s (p + 8 * Z.of_nat n)]> ph). split_and!.
  - rewrite upto_S, mfor_app. erewrite bind_ret by done.
    unfold mfor, rd, wr, gets, modify, mbind, M_bind, mret, M_ret, word. destruct s. simpl.
    rewrite H2; [done|]. intros Hin. apply Hne.
    apply (aligned_page_eq p q (p + 8 * Z.of_nat n)); [done..| |done]. unfold in_page. lia.
  - intros j Hj. rewrite lookup_insert. case_decide as E.
    + assert (j = Z.of_nat n) as -> by lia. done.
    + apply H1. lia.
  - intros a Ha. rewrite lookup_insert_ne; [by apply H2|]. unfold in_page in Ha. lia.
Qed.

(** Memory changed only outside of the page tables. *)
Lemma wf_outside s s' :
  wf s → mem_map s' = mem_map s →
  (∀ k va, (k ≤ 3)%nat → word s' (slot s k va) = word s (slot s k va)) →
  wf s' ∧ ∀ va, pte_val s' va = pte_val s va.
Proof.
  intros [Hm Hnz Hal Hfr] Hmm Hs.
  assert (∀ k va, (k ≤ 3)%nat → table s' k va = table s k va) as Ht.
  { induction k as [|k IH]; intros va Hk; [done|]. simpl. rewrite IH by lia.
    fold (slot s k va). by rewrite Hs by lia. }
  assert (∀ k va, (k ≤ 3)%nat → slot s' k va = slot s k va) as Hsl.
  { intros. unfold slot. by rewrite Ht. }
  split; [split|].
  - unfold map_ok. by rewrite Hmm.
  - intros k va Hk. rewrite Ht, Hsl, Hs by lia. by apply Hnz.
  - intros k k' va va' Hk Hk'. rewrite !Ht by lia. by apply Hal.
  - intros i k va. rewrite Hmm. intros Hi Hk. rewrite Ht by done. by apply Hfr.
  - intros va. unfold pte_val. by rewrite Ht, Hsl, Hs by lia.
Qed.

(** What the writer of a shared page gets: page [j] instead of page [i]. *)
Record private_copy (s s' : mm) (va : Z) (i j : nat) (c : Z) : Prop := {
  pc_wf : wf s';
  pc_fresh : mem_map s !! j = Some 0;
  pc_map : mem_map s' = <[i := c - 1]> (<[j := 1]> (mem_map s));
  pc_pte : ∀ va', pte_val s' va' =
    if decide (vpn va = vpn va') then new_entry (page_addr j) else pte_val s va';
  pc_same : ∀ w, 0 ≤ w < 512 → word s' (page_addr j + 8 * w) = word s (page_addr i + 8 * w);
  pc_rest : ∀ a, ¬ in_page (page_addr j) a → slot s 3 va ≠ a → word s' a = word s a
}.

Section UnWp.
Context (s : mm) (Hwf : wf s) (va : Z) (i : nat) (c : Z).
Context (Ht : table s 3 va ≠ 0) (Hc : mem_map s !! i = Some c).
Context (Hdata : ∀ k va', (k ≤ 3)%nat → table s k va' ≠ page_addr i).

Lemma un_wp_read :
  (gets mem_map ≫= λ l, index l (MAP_NR (page_addr i))) s = Ret c s.
Proof.
  destruct (wf_map s Hwf) as [Hl _]. pose proof (lookup_lt_Some _ _ _ Hc).
  rewrite MAP_NR_page_addr by lia. apply index_Some; [lia|]. by rewrite Nat2Z.id.
Qed.

(** The last steps of un_wp_page: drop the old page, map the new, copy. *)
Lemma un_wp_copy j ph (s1 := s <| phys := ph |> <| mem_map ::= <[j := 1]> |>) :
  1 < c < 65536 → get_free_page s = Ret (page_addr j) s1 →
  ∃ s', (when (LOW_MEM <=? page_addr i)
           (c ← (l ← gets mem_map; index l (MAP_NR (page_addr i)));
            store mem_map (MAP_NR (page_addr i)) (u16 (c - 1)));;
         wr (slot s 3 va) (new_entry (page_addr j));;
         copy_page (page_addr i) (page_addr j)) s1 = Ret tt s' ∧ private_copy s s' va i j c.
Proof.
  intros Hcr Hg. destruct (get_free_page_wf _ _ _ Hwf Hg)
    as [[E _]|(j' & E & Hj & Hm & _ & Hwf1 & Htab & Hpte & Hfr & _ & Hw)].
  { exfalso. revert E. unfold page_addr. change LOW_MEM with 2097152. lia. }
  apply page_addr_inj in E as <-. clear Hg.
  assert (i ≠ j) as Hij by (intros ->; rewrite Hc in Hj; injection Hj; lia).
  destruct (wf_map s Hwf) as [Hlen _]. pose proof (lookup_lt_Some _ _ _ Hc) as Hlt.
  pose proof (lookup_lt_Some _ _ _ Hj) as Hltj.
  destruct (page_addr_range i) as (Hi1 & _ & Hi3); [lia|].
  destruct (page_addr_range j) as (_ & _ & Hj3); [lia|].
  assert (slot s1 3 va = slot s 3 va) as Hsl by (unfold slot; by rewrite Htab by lia).
  assert (mem_map s1 !! i = Some c) as Hc1 by (rewrite Hm; by rewrite list_lookup_insert_ne).
  set (s2 := s1 <| mem_map ::= <[i := c - 1]> |>).
  assert (wf s2) as Hwf2 by (eapply wf_set_counter; [done|exact Hc1|lia..]).
  set (s3 := s2 <| phys ::= <[slot s2 3 va := new_entry (page_addr j)]> |>).
  assert (slot s2 3 va = slot s 3 va) as Hsl2 by exact Hsl.
  assert (table s2 3 va ≠ 0) as Ht2.
  { rewrite (table_phys s2 s1) by done. by rewrite Htab by lia. }
  destruct (copy_page_spec (page_addr i) (page_addr j) s3) as (ph3 & Hcp & Hsame & Hout);
    [done|done|intros E; by apply page_addr_inj in E|].
  exists (s3 <| phys := ph3 |>). split.
  { apply Z.leb_le in Hi1. rewrite Hi1. unfold when.
    erewrite bind_ret; [|apply (drop_counter s1 i c); [apply Hwf1|done|lia]].
    erewrite bind_ret; [|reflexivity]. fold s2. rewrite <- Hsl2. exact Hcp. }
  assert (∀ k va', (k ≤ 3)%nat → table s3 k va' = table s k va') as Htab3.
  { intros k va' Hk. unfold s3. rewrite set_pte_table by done.
    rewrite (table_phys s2 s1) by done. by apply Htab. }
  assert (∀ a, ¬ in_page (page_addr j) a → word (s3 <| phys := ph3 |>) a = word s3 a) as Hw3.
  { intros a Ha. unfold word. cbn [phys upd]. by rewrite Hout. }
  assert (∀ a, slot s 3 va ≠ a → word s3 a = word s1 a) as Hws.
  { intros a Ha. unfold s3. rewrite word_wr_ne by (by rewrite Hsl2). done. }
  destruct (wf_outside s3 (s3 <| phys := ph3 |>)) as [Hwf' Hpte']; [by apply set_pte_wf|done| |].
  { intros k va' Hk. apply Hw3. intros Hin. apply (Hfr k va' Hk).
    rewrite Htab, <- Htab3 by done.
    apply (aligned_page_eq _ _ (slot s3 k va')); [apply table_aligned|done|apply slot_in_table|done]. }
  split; [done|done|done|..].
  - intros va'. rewrite Hpte'. unfold s3. rewrite set_pte_val by done.
    case_decide; [done|]. rewrite (pte_val_phys s2 s1) by done. apply Hpte.
  - intros w Hw'. etrans; [apply (Hsame w Hw')|].
    assert (in_page (page_addr i) (page_addr i + 8 * w)) as Hin by (unfold in_page; lia).
    rewrite Hws, Hw; [done| |].
    + intros Hin'. apply Hij, page_addr_inj. by apply (aligned_page_eq _ _ (page_addr i + 8 * w)).
    + intros E. apply (Hdata 3 va); [lia|].
      apply (aligned_page_eq _ _ (slot s 3 va)); [apply table_aligned|done|apply slot_in_table|by rewrite E].
  - intros a Ha Hne. by rewrite Hw3, Hws, Hw by done.
Qed.
End UnWp.

(** C14: the first write to a copy-on-write page.  If the page has one user left
    it is made writable in place.  If it is shared, the writer gets a fresh page
    with the same 4096 bytes, mapped writable at the faulting page only; the old
    page keeps its contents and loses one reference, so the other users still
    see what they saw; with no page free the writer is killed (SIGSEGV) and
    nothing has changed. *)
Theorem un_wp_page_copies s va i c :
  wf s → table s 3 va ≠ 0 → PTE_ADDR (pte_val s va) = page_addr i →
  mem_map s !! i = Some c → 0 < c →
  (∀ k va', (k ≤ 3)%nat → table s k va' ≠ page_addr i) →
  if decide (c = 1) then
    ∃ s', un_wp_page (slot s 3 va) s = Ret tt s' ∧ wf s' ∧ mem_map s' = mem_map s ∧
      ∀ va', pte_val s' va' =
        if decide (vpn va = vpn va') then pte_val s va .| PAGE_WRITE else pte_val s va'
  else
    (un_wp_page (slot s 3 va) s = Exit SIGSEGV s ∧ ∀ j, mem_map s !! j ≠ Some 0) ∨
    (∃ j s', un_wp_page (slot s 3 va) s = Ret tt s' ∧ private_copy s s' va i j c).
Proof.
  intros Hwf Ht Hpa Hc Hc0 Hdata.
  assert (pte_val s va = word s (slot s 3 va)) as He.
  { unfold pte_val. by destruct (Z.eqb_spec (table s 3 va) 0). }
  rewrite He in *. destruct (wf_map s Hwf) as [Hlen Hrange].
  pose proof (lookup_lt_Some _ _ _ Hc) as Hlt. pose proof (Forall_lookup_1 _ _ _ _ Hrange Hc) as Hcr.
  destruct (page_addr_range i) as (Hlo & _ & _); [lia|]. apply Z.leb_le in Hlo.
  assert (∀ B (k : bool → M mm B), (alone ← (if LOW_MEM <=? page_addr i
      then c ← (l ← gets mem_map; index l (MAP_NR (page_addr i))); mret (c =? 1)
      else mret false); k alone) s = k (c =? 1) s) as Halone.
  { intros B k. rewrite Hlo. erewrite bind_ret; [done|].
    erewrite bind_ret by (by apply un_wp_read). done. }
  assert (rd (slot s 3 va) s = Ret (word s (slot s 3 va)) s) as Hr by done.
  unfold un_wp_page. mstep Hr. cbv zeta.
  rewrite Hpa, Halone. case_decide as Hc1.
  - rewrite Hc1. cbn [Z.eqb Pos.eqb].
    exists (s <| phys ::= <[slot s 3 va := word s (slot s 3 va) .| PAGE_WRITE]> |>).
    split_and!; [done|by apply set_pte_wf|done|]. intros va'. by rewrite set_pte_val.
  - apply Z.eqb_neq in Hc1 as Hb. rewrite Hb.
    destruct (get_free_page_cases s (wf_map s Hwf)) as [[Hg Hn]|(j & ph & _ & Hg & Hlow & _)].
    + left. split; [|done]. by mstep Hg.
    + right. exists j. mstep Hg.
      destruct (Z.eqb_spec (page_addr j) 0) as [E|_].
      { rewrite E in Hlow. change LOW_MEM with 2097152 in Hlow. lia. }
      clear Halone Hr. apply (un_wp_copy s Hwf va i c Ht Hc Hdata j ph); [|exact Hg].
      simpl in Hcr. lia.
Qed.

(** ** free_page_tables *)

(** Every page above LOW_MEM that the first [n] entries map is a page of the
    allocator, counted at least as often as they map it, and is no page table. *)
Definition owned (s : mm) (base : Z) (n : nat) : Prop :=
  ∀ k, (k < n)%nat → shared (pte_val s (nth_page base k)) = true →
    ∃ i c, PTE_ADDR (pte_val s (nth_page base k)) = page_addr i ∧
      mem_map s !! i = Some c ∧ Z.of_nat (length (refs s base n i)) ≤ c ∧
      ∀ d va, (d ≤ 3)%nat → table s d va ≠ page_addr i.

Lemma refs_mono s base m n i : (m ≤ n)%nat →
  (length (refs s base m i) ≤ length (refs s base n i))%nat.
Proof.
  induction 1 as [|n Hn IH]; [done|]. rewrite refs_S, length_app. lia.
Qed.

Section Free.
Context (s0 : mm) (from : Z) (n : nat) (Hn : Z.of_nat n < 2 ^ 36).
Context (Hown : owned s0 from n).

Let F := nth_page from.
Let e k := pte_val s0 (F k).

Record freed (m : nat) (s : mm) : Prop := {
  fr_wf : wf s;
  fr_tab : ∀ d va, (d ≤ 3)%nat → table s d va = table s0 d va;
  fr_in : ∀ k, (k < n)%nat →
    pte_val s (F k) = if bool_decide (k < m)%nat && present (e k) then 0 else e k;
  fr_out : ∀ va, (∀ k, (k < n)%nat → vpn (F k) ≠ vpn va) → pte_val s va = pte_val s0 va;
  fr_count : ∀ i c, mem_map s0 !! i = Some c →
    mem_map s !! i = Some (c - Z.of_nat (length (refs s0 from m i)))
}.

Definition free_body (addr : Z) : M mm () :=
  pte ← get_pte addr false;
  if pte =? 0 then mret () else
  e ← rd pte;
  when (truth (e .& PAGE_PRESENT))
    (let page := PTE_ADDR e in
     when (LOW_MEM <=? page) (free_page page);;
     wr pte 0).

Lemma freed_skip m s : (m < n)%nat → present (e m) = false → freed m s → freed (S m) s.
Proof.
  intros Hm Hp [H1 H2 H3 H4 H5]. split; [done..| |done|].
  - intros k Hk. rewrite H3 by done. destruct (decide (k = m)) as [->|].
    + by rewrite Hp, !andb_false_r.
    + by rewrite (bool_decide_ext (k < S m)%nat (k < m)%nat) by lia.
  - intros i c Hi. rewrite refs_S. change (pte_val s0 (nth_page from m)) with (e m).
    rewrite decide_False, app_nil_r; [by apply H5|]. intros [Hx _]. congruence.
Qed.

(** Clearing the entry, in a state [s1] whose counters are already those of
    the next round. *)
Lemma freed_clear m s s1 :
  (m < n)%nat → present (e m) = true → freed m s → table s 3 (F m) ≠ 0 →
  wf s1 → phys s1 = phys s →
  (∀ i c, mem_map s0 !! i = Some c →
     mem_map s1 !! i = Some (c - Z.of_nat (length (refs s0 from (S m) i)))) →
  freed (S m) (s1 <| phys ::= <[slot s 3 (F m) := 0]> |>).
Proof.
  intros Hm Hp [H1 H2 H3 H4 H5] Ht Hwf1 Hph Hc.
  assert (∀ d va, table s1 d va = table s d va) as Ht1 by (intros; by apply table_phys).
  assert (slot s 3 (F m) = slot s1 3 (F m)) as -> by (unfold slot; by rewrite Ht1).
  rewrite <- Ht1 in Ht.
  assert (∀ va, pte_val s1 va = pte_val s va) as Hp1 by (intros; by apply pte_val_phys).
  split; [by apply set_pte_wf|..|done].
  - intros d va Hd. rewrite set_pte_table by done. rewrite Ht1. by apply H2.
  - intros k Hk. rewrite set_pte_val, Hp1, H3 by done. destruct (decide (k = m)) as [->|Hkm].
    + rewrite decide_True by done. by rewrite Hp, bool_decide_true by lia.
    + rewrite decide_False; [|intros E; apply vpn_nth_page_inj in E; lia].
      by rewrite (bool_decide_ext (k < S m)%nat (k < m)%nat) by lia.
  - intros va Hva. rewrite set_pte_val, Hp1 by done. rewrite decide_False by (by apply Hva).
    by apply H4.
Qed.

Lemma free_body_run m s :
  (m < n)%nat → freed m s → wp (free_body (F m)) (λ _, freed (S m)) s.
Proof.
  intros Hm Hc. unfold free_body.
  assert (pte_val s (F m) = e m) as Hem.
  { rewrite (fr_in m s Hc m Hm). by rewrite bool_decide_false by lia. }
  apply wp_bind. eapply wp_of_ret; [apply get_pte_find|].
  unfold pte_val in Hem. destruct (Z.eqb_spec (table s 3 (F m)) 0) as [|Hf]; cbn [Z.eqb].
  { apply wp_ret, freed_skip; [done| |done]. by rewrite <- Hem. }
  destruct (Z.eqb_spec (slot s 3 (F m)) 0) as [Hx|_]; [by apply slot_nz in Hx|].
  apply wp_bind, wp_gets. rewrite Hem. change (truth (e m .& PAGE_PRESENT)) with (present (e m)).
  apply wp_when; intros Hp; [|by apply freed_skip].
  cbv zeta. apply wp_bind, wp_when; intros Hb.
  - destruct (Hown m Hm) as (i & c & Hpa & Hi & Hle & Hnt).
    { change (shared (e m) = true). unfold shared. by rewrite Hp. }
    change (PTE_ADDR (e m) = page_addr i) in Hpa. rewrite Hpa.
    assert (refs s0 from (S m) i = refs s0 from m i ++ [m]) as Hr.
    { rewrite refs_S. change (pte_val s0 (nth_page from m)) with (e m). by rewrite decide_True. }
    pose proof (refs_mono s0 from (S m) n i ltac:(lia)) as Hmono. rewrite Hr, length_app in Hmono.
    simpl in Hmono. pose proof (fr_count m s Hc i c Hi) as Hci.
    eapply wp_of_ret.
    { rewrite (free_page_run s i _ _ (wf_map s (fr_wf m s Hc)) Hci) by (unfold in_page; lia).
      destruct (Z.eqb_spec (c - Z.of_nat (length (refs s0 from m i))) 0); [lia|done]. }
    pose proof (Forall_lookup_1 _ _ _ _ (proj2 (wf_map s (fr_wf m s Hc))) Hci) as Hrg. simpl in Hrg.
    apply wp_modify, (freed_clear m s); [done..| |done|].
    + apply wf_counter; [apply Hc|lia|]. intros _ d va Hd. rewrite (fr_tab m s Hc) by done. by apply Hnt.
    + intros i' c' Hi'. simpl. destruct (decide (i = i')) as [<-|Hne].
      * rewrite list_lookup_insert_eq by (by eapply lookup_lt_Some). rewrite Hr, length_app.
        f_equal. simpl. simplify_eq. lia.
      * rewrite list_lookup_insert_ne by done. rewrite refs_S.
        change (pte_val s0 (nth_page from m)) with (e m).
        rewrite decide_False, app_nil_r; [by apply (fr_count m s Hc)|].
        intros [_ E]. rewrite Hpa in E. by apply page_addr_inj in E.
  - apply wp_modify, (freed_clear m s); [done..|by apply Hc|done|].
    intros i c Hi. rewrite refs_S. change (pte_val s0 (nth_page from m)) with (e m).
    rewrite decide_False, app_nil_r; [by apply (fr_count m s Hc)|]. intros [_ E].
    rewrite E in Hb. apply Z.leb_gt in Hb. unfold page_addr in Hb. lia.
Qed.
End Free.

(** C36: free_page_tables, which exec and exit use, removes every present entry
    of the range, gives back one reference of a page for each entry that mapped
    it, and touches neither the translations outside of the range nor the page
    tables, which stay a tree (the table pages themselves are not freed). *)
Theorem free_page_tables_unmaps s from size (n := range_pages size) :
  wf s → from .& 0x1FFFFF = 0 → 0 < from → from + round_2mb size < 2 ^ 64 →
  Z.of_nat n < 2 ^ 36 → owned s from n →
  ∃ s', free_page_tables from size s = Ret 0 s' ∧ wf s' ∧
    (∀ d va, (d ≤ 3)%nat → table s' d va = table s d va) ∧
    (∀ k, (k < n)%nat → pte_val s' (nth_page from k) =
       (let e := pte_val s (nth_page from k) in if present e then 0 else e)) ∧
    (∀ va, (∀ k, (k < n)%nat → vpn (nth_page from k) ≠ vpn va) → pte_val s' va = pte_val s va) ∧
    (∀ i c, mem_map s !! i = Some c →
       mem_map s' !! i = Some (c - Z.of_nat (length (refs s from n i)))).
Proof.
  intros Hwf Hal Hf Hov Hn Hown.
  assert (0 ≤ round_2mb size) as Hr.
  { unfold round_2mb. apply Z.land_nonneg. left. apply u64_range. }
  assert (wp (mfor (λ k, free_body (from + 4096 * k)) (upto n)) (λ _, freed s from n n) s) as H.
  { apply (wp_mfor_upto _ (freed s from n)).
    - split; [done..| |done|].
      + intros k Hk. by rewrite bool_decide_false by lia.
      + intros i c Hi. by rewrite Z.sub_0_r.
    - intros k s1 Hk Hs1. pose proof (free_body_run s from n Hn Hown k s1 Hk Hs1) as Hb.
      unfold nth_page in Hb. rewrite u64_small in Hb; [done|].
      unfold n, range_pages in Hk. pose proof (Z.mul_div_le (round_2mb size) 4096). lia. }
  apply wp_returns in H as ([] & s' & E & [H1 H2 H3 H4 H5]).
  exists s'. split.
  { unfold free_page_tables. rewrite Hal. destruct (Z.eqb_spec from 0); [lia|].
    cbn [truth Z.eqb negb]. cbv zeta. rewrite u64_small, Z.add_simpl_l by lia.
    erewrite bind_ret; [|exact E]. done. }
  split_and!; try done. intros k Hk. rewrite H3 by done. by rewrite bool_decide_true.
Qed.

(** ** Edges of the code *)

(** free_page lets HIGH_MEMORY itself pass its range check (the test is
    [addr > HIGH_MEMORY]) and then reads the counter one past the end of
    mem_map; every address above it is refused. *)
Theorem free_page_at_HIGH_MEMORY s :
  Z.of_nat (length (mem_map s)) = PAGING_PAGES →
  free_page HIGH_MEMORY s = Fault s ∧
  ∀ a, HIGH_MEMORY < a → free_page a s = Panic "trying to free nonexistent page" s.
Proof.
  intros Hl. change PAGING_PAGES with 1536 in Hl. unfold free_page. split.
  - change (HIGH_MEMORY <? LOW_MEM) with false. change (HIGH_MEMORY <? HIGH_MEMORY) with false.
    change (Z.shiftr (HIGH_MEMORY - LOW_MEM) 12) with 1536. cbv zeta.
    unfold gets, mbind, M_bind. rewrite index_out; [done|lia].
  - intros a Ha. change LOW_MEM with 2097152. change HIGH_MEMORY with 8388608 in *.
    destruct (Z.ltb_spec a 2097152); [lia|]. by destruct (Z.ltb_spec 8388608 a); [|lia].
Qed.

(** Entry of a fault on a page that is not present: whatever page was asked for
    (cr2), the handler maps a page at the address that is the error code. *)
Lemma do_no_page_cases s a address :
  wf s →
  (∃ s', do_no_page a address s = Exit SIGSEGV s' ∧ wf s' ∧ ∀ va, pte_val s' va = pte_val s va) ∨
  (∃ i s', do_no_page a address s = Ret tt s' ∧ wf s' ∧ mem_map s !! i = Some 0 ∧
     ∀ va, pte_val s' va =
       if decide (vpn address = vpn va) then new_entry (page_addr i) else pte_val s va).
Proof.
  intros Hwf. unfold do_no_page.
  destruct (get_free_page_cases s (wf_map s Hwf)) as [[Hg Hn]|(i & ph & [Hi _] & Hg & Hlow & _)].
  { mstep Hg. clear Hg. left. by exists s. }
  destruct (get_free_page_wf _ _ _ Hwf Hg) as [[E _]|(j & E & _ & Hm & _ & Hwf1 & _ & Hpte & _)].
  { rewrite E in Hlow. change LOW_MEM with 2097152 in Hlow. lia. }
  apply page_addr_inj in E as <-. mstep Hg. clear Hg.
  destruct (Z.eqb_spec (page_addr i) 0) as [E|Hne].
  { rewrite E in Hlow. change LOW_MEM with 2097152 in Hlow. lia. }
  set (s1 := s <| phys := ph |> <| mem_map ::= <[i := 1]> |>) in *.
  destruct (put_page_run s1 i address Hwf1) as (r & s' & Hp & Hwf' & _ & _ & _ & H).
  { rewrite Hm. apply list_lookup_insert_eq. by eapply lookup_lt_Some. }
  mstep Hp. clear Hp. destruct H as [(-> & H & _)|[-> H]].
  - left. exists s'. split_and!; [done|done|]. intros va. by rewrite H.
  - right. exists i, s'. destruct (Z.eqb_spec (page_addr i) 0); [done|].
    split_and!; [done|done|done|]. intros va. rewrite H. case_decide; [done|]. apply Hpte.
Qed.

(** do_no_page gives the task one fresh page at the virtual page of
    [address] and changes no other translation, or kills it with SIGSEGV with
    every translation unchanged. *)
Theorem do_no_page_maps s error_code address :
  wf s →
  (∃ s', do_no_page error_code address s = Exit SIGSEGV s' ∧ wf s' ∧
     ∀ va, pte_val s' va = pte_val s va) ∨
  (∃ i s', do_no_page error_code address s = Ret tt s' ∧ wf s' ∧ mem_map s !! i = Some 0 ∧
     ∀ va, pte_val s' va =
       if decide (vpn address = vpn va) then new_entry (page_addr i) else pte_val s va).
Proof. apply do_no_page_cases. Qed.

(** C39: the page-fault entry passes (cr2, error code) where the C handlers take
    (error code, address).  A fault on a page that is not present therefore never
    maps the page that was accessed: the handler either kills the task or maps a
    page at virtual page 0 (the error code is taken for the address), and the
    access faults again. *)
Theorem page_fault_maps_page_zero s cr2 error_code :
  wf s → 0 ≤ error_code < 4096 → error_code .& 1 = 0 → vpn cr2 ≠ 0 →
  (∃ s', page_fault cr2 error_code s = Exit SIGSEGV s' ∧ pte_val s' cr2 = pte_val s cr2) ∨
  (∃ i s', page_fault cr2 error_code s = Ret tt s' ∧ pte_val s' cr2 = pte_val s cr2 ∧
     mem_map s !! i = Some 0 ∧ pte_val s' 0 = new_entry (page_addr i)).
Proof.
  intros Hwf He H1 Hv. unfold page_fault. rewrite H1. change (truth 0) with false. cbv iota.
  assert (vpn error_code = 0) as Hz by (unfold vpn; by rewrite Z.div_small by lia).
  destruct (do_no_page_cases s cr2 error_code Hwf)
    as [(s' & E & _ & H)|(i & s' & E & _ & Hi & H)].
  - left. exists s'. split; [exact E|apply H].
  - right. exists i, s'. split_and!; [exact E| |done|].
    + rewrite H, decide_False; [done|congruence].
    + rewrite H, decide_True; [done|]. by rewrite Hz.
Qed.

(** ** Concrete states *)

(** Page 0 mapped at 0x40000000, by put_page itself. *)
Definition mapped_mm : mm :=
  match put_page (page_addr 0) 0x40000000 blank_mm with Ret _ s => s | _ => blank_mm end.

Lemma mapped_mm_ok :
  wf mapped_mm ∧ mem_map mapped_mm !! 0%nat = Some 1 ∧
  (∀ k va, (k ≤ 3)%nat → table mapped_mm k va ≠ page_addr 0) ∧
  ∀ va, pte_val mapped_mm va =
    if decide (vpn 0x40000000 = vpn va) then new_entry (page_addr 0) else 0.
Proof.
  assert (put_page (page_addr 0) 0x40000000 blank_mm = Ret (page_addr 0) mapped_mm) as E
    by (vm_compute; reflexivity).
  destruct (put_page_run blank_mm 0 0x40000000 blank_wf eq_refl) as (r & s' & E' & Hwf & _ & Hm & Ht & H).
  rewrite E in E'. clear E. apply Ret_inj in E' as [<- <-].
  assert (∀ k va, table blank_mm (S k) va = 0) as Hb.
  { intros k va. simpl. by destruct (_ =? 0). }
  split_and!; [done|done| |].
  - intros k va Hk E. apply Ht in E; [|done]. destruct k as [|k]; [|rewrite Hb in E];
      vm_compute in E; discriminate E.
  - destruct H as [[E _]|[_ H]]; [vm_compute in E; discriminate E|]. intros va. rewrite H. case_decide; [done|].
    unfold pte_val. by rewrite Hb.
Qed.

Lemma mapped_shared k :
  (k < 512)%nat → shared (pte_val mapped_mm (nth_page 0x40000000 k)) = true → k = 0%nat.
Proof.
  intros Hk. rewrite (proj2 (proj2 (proj2 mapped_mm_ok))). case_decide as E; [|done].
  intros _. rewrite vpn_nth_page in E. change (vpn 0x40000000) with 0x40000 in E.
  change (0x40000000 / 4096) with 0x40000 in E. rewrite Z.mod_small in E by lia. lia.
Qed.

Lemma mapped_pte0 : pte_val mapped_mm (nth_page 0x40000000 0) = new_entry (page_addr 0).
Proof. rewrite (proj2 (proj2 (proj2 mapped_mm_ok))). by rewrite decide_True by reflexivity. Qed.

Lemma disjoint_example : disjoint_ranges 0x40000000 0x80000000 512.
Proof.
  intros j k Hj Hk. rewrite !vpn_nth_page. change (0x40000000 / 4096) with 0x40000.
  change (0x80000000 / 4096) with 0x80000. rewrite !Z.mod_small by lia. lia.
Qed.

(** Two ranges of 4 MB that are 2 MB apart: the page is copied, and the copy too. *)
Example overlapping_copy :
  match copy_page_tables 0x40000000 0x40200000 0x400000 mapped_mm with
  | Ret r s' => r = 0 ∧ mem_map s' !! 0%nat = Some 3 ∧
      forallb (λ va, pte_val s' va =? protect (new_entry (page_addr 0))) [0x40000000; 0x40200000; 0x40400000] = true
  | _ => False
  end.
Proof. vm_compute. by split_and!. Qed.

Lemma copy_page_tables_cow_witness :
  ∃ r s', copy_page_tables 0x40000000 0x80000000 4096 mapped_mm = Ret r s' ∧ wf s'.
Proof.
  destruct mapped_mm_ok as (Hwf & Hm & Hnt & Hp).
  destruct (copy_page_tables_cow mapped_mm 0x40000000 0x80000000 4096) as (r & s' & E & H & _).
  - exact Hwf.
  - reflexivity.
  - reflexivity.
  - apply room_disjoint; [reflexivity|exact disjoint_example|].
    intros k Hk Hs. apply mapped_shared in Hs; [|exact Hk]. subst k. exists 0%nat, 1.
    rewrite mapped_pte0. split_and!; [reflexivity|exact Hm|lia|reflexivity].
  - exists r, s'. split; [exact E|exact H].
Defined.

Lemma free_page_tables_unmaps_witness :
  ∃ s', free_page_tables 0x40000000 4096 mapped_mm = Ret 0 s' ∧ wf s' ∧
    mem_map s' !! 0%nat = Some 0.
Proof.
  destruct mapped_mm_ok as (Hwf & Hm & Hnt & Hp).
  destruct (free_page_tables_unmaps mapped_mm 0x40000000 4096) as (s' & E & H & _ & _ & _ & Hc).
  - exact Hwf.
  - reflexivity.
  - lia.
  - reflexivity.
  - reflexivity.
  - intros k Hk Hs. apply mapped_shared in Hs; [|exact Hk]. subst k. exists 0%nat, 1.
    rewrite mapped_pte0. split_and!; [reflexivity|exact Hm| |exact Hnt].
    vm_compute. discriminate.
  - exists s'. split_and!; [exact E|exact H|]. rewrite (Hc 0%nat 1 Hm). vm_compute. reflexivity.
Defined.

(** The same page with a second user. *)
Lemma un_wp_page_copies_witness :
  let s := mapped_mm <| mem_map ::= <[0%nat := 2]> |> in
  (un_wp_page (slot s 3 0x40000000) s = Exit SIGSEGV s ∧ ∀ j, mem_map s !! j ≠ Some 0) ∨
  (∃ j s', un_wp_page (slot s 3 0x40000000) s = Ret tt s' ∧
     private_copy s s' 0x40000000 0 j 2).
Proof.
  intros s. destruct mapped_mm_ok as (Hwf & Hm & Hnt & Hp).
  apply (un_wp_page_copies s 0x40000000 0 2).
  - apply (wf_set_counter mapped_mm 0 1); [exact Hwf|exact Hm|lia|lia].
  - intros E. assert (pte_val s 0x40000000 = 0) as E' by (unfold pte_val; rewrite E; reflexivity).
    unfold s in E'. rewrite pte_val_set_counter, Hp, decide_True in E' by reflexivity.
    vm_compute in E'. discriminate E'.
  - unfold s. rewrite pte_val_set_counter, Hp, decide_True by reflexivity. reflexivity.
  - apply list_lookup_insert_eq. eapply lookup_lt_Some. exact Hm.
  - lia.
  - intros k va Hk. unfold s. rewrite table_set_counter. apply Hnt. exact Hk.
Defined.

Lemma free_page_at_HIGH_MEMORY_witness : free_page HIGH_MEMORY blank_mm = Fault blank_mm.
Proof. apply free_page_at_HIGH_MEMORY. reflexivity. Defined.

Lemma do_no_page_maps_witness :
  (∃ s', do_no_page 4 0x40000000 blank_mm = Exit SIGSEGV s') ∨
  (∃ i s', do_no_page 4 0x40000000 blank_mm = Ret tt s' ∧ 
     pte_val s' 0x40000000 = new_entry (page_addr i)).
Proof.
  destruct (do_no_page_maps blank_mm 4 0x40000000 blank_wf)
    as [(s' & E & _)|(i & s' & E & _ & _ & H)].
  - left. exists s'. exact E.
  - right. exists i, s'. split; [exact E|]. rewrite H, decide_True by reflexivity. reflexivity.
Defined.

Lemma page_fault_maps_page_zero_witness :
  (∃ s', page_fault 0x40000000 4 blank_mm = Exit SIGSEGV s') ∨
  (∃ i s', page_fault 0x40000000 4 blank_mm = Ret tt s' ∧ pte_val s' 0 = new_entry (page_addr i)).
Proof.
  destruct (page_fault_maps_page_zero blank_mm 0x40000000 4 blank_wf)
    as [(s' & E & _)|(i & s' & E & _ & _ & H)].
  - lia.
  - reflexivity.
  - vm_compute. discriminate.
  - left. exists s'. exact E.
  - right. exists i, s'. split; [exact E|exact H].
Defined.
