(* ===== verification/Sched.v ===== *)
(** * Tasks and the scheduler (kernel/sched.c, include/linux/sched.h)

    Task structures live at addresses ([heap]); the array [task] holds the
    addresses of the 64 slots (0 is NULL), [current] the address of the running
    task, and [waitq] the contents of the wait-queue heads, by their address.
    [schedule] is the whole function up to and including the choice of the next
    task and the assignment of [current]; what a function does after a call of
    schedule happens when its own task runs again, so the sleeping functions
    come in two halves, before and after the switch, and [step] interleaves
    them.  The timer interrupt and the way back from the kernel
    (kernel/system_call.nasm) are here as well. *)

From S2P Require Import Prelude.

Module Task.
Record task_struct := Task {
  state : Z; counter : Z; priority : Z; signal : Z; sig_restorer : Z;
  sig_fn : list Z; exit_code : Z; end_code : Z; end_data : Z; brk : Z;
  start_stack : Z; pid : Z; father : Z; pgrp : Z; session : Z; leader : Z;
  uid : Z; euid : Z; suid : Z; gid : Z; egid : Z; sgid : Z; alarm : Z;
  utime : Z; stime : Z; cutime : Z; cstime : Z; start_time : Z;
  used_math : Z; tty : Z; umask : Z; pwd : Z; root : Z; close_on_exec : Z;
  filp : list Z; ldt : list (Z * Z)
}.
#[global] Instance eta_task : Eta task_struct := λ t,
  Task (state t) (counter t) (priority t) (signal t) (sig_restorer t)
    (sig_fn t) (exit_code t) (end_code t) (end_data t) (brk t)
    (start_stack t) (pid t) (father t) (pgrp t) (session t) (leader t)
    (uid t) (euid t) (suid t) (gid t) (egid t) (sgid t) (alarm t)
    (utime t) (stime t) (cutime t) (cstime t) (start_time t)
    (used_math t) (tty t) (umask t) (pwd t) (root t) (close_on_exec t) (filp t) (ldt t).
End Task.

Definition NR_TASKS : nat := 64.
Definition HZ : Z := 100.
Definition TASK_RUNNING : Z := 0.
Definition TASK_INTERRUPTIBLE : Z := 1.
Definition TASK_UNINTERRUPTIBLE : Z := 2.
Definition TASK_ZOMBIE : Z := 3.
Definition TASK_STOPPED : Z := 4.
Definition SIGALRM : Z := 14.

(** The signals sys_signal accepts: HUP INT QUIT ILL TRAP ABRT FPE USR1 SEGV
    USR2 PIPE ALRM CHLD. *)
Definition catchable : list Z := [1; 2; 3; 4; 5; 6; 8; 10; 11; 12; 13; 14; 17].

Definition INIT_TASK : Task.task_struct :=
  Task.Task 0 15 15 0 0 (replicate 32 0) 0 0 0 0 0 0 (-1) 0 0 0 0 0 0 0 0 0
    0 0 0 0 0 0 0 (-1) 91 0 0 0 (replicate 20 0)
    [(0, 0); (0xFFFF, 0x00AFFA00); (0xFFFF, 0x00CFF200)].

Record sched := Sched {
  heap : gmap Z Task.task_struct;
  task : list Z;
  current : Z;
  jiffies : Z;
  startup_time : Z;
  last_task_used_math : Z;
  waitq : gmap Z Z
}.
#[export] Instance eta_sched : Eta sched := λ s,
  Sched (heap s) (task s) (current s) (jiffies s) (startup_time s)
    (last_task_used_math s) (waitq s).

(** The address of the static task: no page of the allocator has it. *)
Definition init_task : Z := 8.

(** ** Access to tasks *)

Definition deref (p : Z) : M sched Task.task_struct :=
  h ← gets heap; match h !! p with Some t => mret t | None => fault end.
Definition set_task (p : Z) (f : Task.task_struct → Task.task_struct) : M sched () :=
  t ← deref p; modify (λ s, s <| heap ::= <[p := f t]> |>).
Definition task_at (i : Z) : M sched Z := l ← gets task; index l i.
Definition cur_task : M sched Task.task_struct := p ← gets current; deref p.
Definition set_cur (f : Task.task_struct → Task.task_struct) : M sched () :=
  p ← gets current; set_task p f.
Definition head_of (q : Z) : M sched Z := gets (λ s, default 0 (waitq s !! q)).
Definition set_head (q v : Z) : M sched () := modify (λ s, s <| waitq ::= <[q := v]> |>).

(** ** schedule *)

(** [for(p = &LAST_TASK ; p > &FIRST_TASK ; --p)]: slots 63, ..., 1. *)
Definition last_to_first : list Z := map Z.succ (downfrom (NR_TASKS - 1)).

Definition check_signals (i : Z) : M sched () :=
  p ← task_at i;
  if p =? 0 then mret () else
  t ← deref p;
  j ← gets jiffies;
  when (truth (Task.alarm t) && (Task.alarm t <? j))
    (set_task p (λ t, t <| Task.signal ::= λ x, x .| Z.shiftl 1 (SIGALRM - 1) |>
                        <| Task.alarm := 0 |>));;
  t ← deref p;
  when (truth (Task.signal t) && (Task.state t =? TASK_INTERRUPTIBLE))
    (set_task p (λ t, t <| Task.state := TASK_RUNNING |>)).

(** The selection loop [while (--i)]; [c] is an int. *)
Fixpoint pick (l : list Z) (c next : Z) : M sched (Z * Z) :=
  match l with
  | [] => mret (c, next)
  | i :: l =>
      p ← task_at i;
      if p =? 0 then pick l c next else
      t ← deref p;
      if (Task.state t =? TASK_RUNNING) && (c <? Task.counter t)
      then pick l (s32 (Task.counter t)) i
      else pick l c next
  end.

Definition recharge (i : Z) : M sched () :=
  p ← task_at i;
  if p =? 0 then mret () else
  set_task p (λ t, t <| Task.counter :=
    s64 (Z.shiftr (Task.counter t) 1 + Task.priority t) |>).

Definition choose_once : M sched (option Z) :=
  r ← pick last_to_first (-1) 0;
  if truth r.1 then mret (Some r.2) else
  mfor recharge last_to_first;; mret None.

(** [switch_to(n)]: the processor continues in the task of slot [n]. *)
Definition switch_to (n : Z) : M sched () :=
  next ← task_at n;
  cur ← gets current;
  when (truth next && negb (cur =? next)) (modify (λ s, s <| current := next |>)).

Definition schedule (fuel : nat) : M sched () :=
  mfor check_signals last_to_first;;
  next ← mwhile fuel choose_once;
  switch_to next.

(** ** Sleeping and waking *)

(** sleep_on up to the call of schedule: the local [tmp], or [None] if the function has
    returned at once. *)
Definition sleep_on_enter (q : Z) : M sched (option Z) :=
  if q =? 0 then mret None else
  cur ← gets current;
  if cur =? init_task then panic "task[0] trying to sleep" else
  tmp ← head_of q;
  set_head q cur;;
  set_cur (λ t, t <| Task.state := TASK_UNINTERRUPTIBLE |>);;
  mret (Some tmp).
(** ... and after it. *)
Definition sleep_on_leave (tmp : Z) : M sched () :=
  when (truth tmp) (set_task tmp (λ t, t <| Task.state := 0 |>)).

Definition interruptible_sleep_on_enter (q : Z) : M sched (option Z) :=
  if q =? 0 then mret None else
  cur ← gets current;
  if cur =? init_task then panic "task[0] trying to sleep" else
  tmp ← head_of q;
  set_head q cur;;
  set_cur (λ t, t <| Task.state := TASK_INTERRUPTIBLE |>);;
  mret (Some tmp).
(** What follows schedule: [true] if the function returns, [false] if it has
    gone back to [repeat] and is about to call schedule again. *)
Definition interruptible_sleep_on_leave (q tmp : Z) : M sched bool :=
  h ← head_of q;
  cur ← gets current;
  if truth h && negb (h =? cur) then
    set_task h (λ t, t <| Task.state := 0 |>);;
    set_cur (λ t, t <| Task.state := TASK_INTERRUPTIBLE |>);;
    mret false
  else
    set_head q 0;;
    when (truth tmp) (set_task tmp (λ t, t <| Task.state := 0 |>));;
    mret true.

Definition wake_up (q : Z) : M sched () :=
  if q =? 0 then mret () else
  h ← head_of q;
  when (truth h) (set_task h (λ t, t <| Task.state := 0 |>);; set_head q 0).

(** ** The timer and the simple system calls *)

Definition do_timer (fuel : nat) (cpl : Z) : M sched () :=
  (if truth cpl then set_cur (λ t, t <| Task.utime ::= λ x, s64 (x + 1) |>)
   else set_cur (λ t, t <| Task.stime ::= λ x, s64 (x + 1) |>));;
  set_cur (λ t, t <| Task.counter ::= λ x, s64 (x - 1) |>);;
  t ← cur_task;
  if 0 <? Task.counter t then mret () else
  set_cur (λ t, t <| Task.counter := 0 |>);;
  if negb (truth cpl) then mret () else schedule fuel.

(** ** The way back from the kernel (kernel/system_call.nasm)

    Every system call and every tick ends at the label ret_from_sys_call.  One
    passage: [None] if it jumps to [reschedule], which calls schedule and comes
    back to the label; else the registers are restored.  (The signal part between
    the tests and .restore has no effect: all its branches end at .restore.)
    What follows a call of schedule is done by the task that was switched to, and
    a task that lost the processor to a tick, at this label or in fork continues
    here as well. *)
Definition resched (fuel : nat) : M sched (option ()) := schedule fuel;; mret None.
Definition ret_passage (fuel : nat) : M sched (option ()) :=
  t ← cur_task;
  if negb (Task.state t =? 0) then resched fuel else
  if Task.counter t =? 0 then resched fuel else
  mret (Some ()).
Definition ret_from_sys_call (fuel : nat) : M sched () := mwhile fuel (ret_passage fuel).
Definition ret_from_fork (fuel : nat) : M sched () := ret_from_sys_call fuel.

(** [cs] is the code segment in the frame of the interrupt.  The registers it
    saves and the end of interrupt it sends to the controller are not modelled. *)
Definition timer_interrupt (fuel : nat) (cs : Z) : M sched () :=
  modify (λ s, s <| jiffies ::= λ j, s64 (j + 1) |>);;
  do_timer fuel (cs .& 3);;
  ret_from_sys_call fuel.

Definition sys_pause_enter (fuel : nat) : M sched () :=
  set_cur (λ t, t <| Task.state := TASK_INTERRUPTIBLE |>);;
  schedule fuel.

Definition sys_alarm (seconds : Z) : M sched Z :=
  j ← gets jiffies;
  set_cur (λ t, t <| Task.alarm := if 0 <? seconds then s64 (j + HZ * seconds) else 0 |>);;
  mret (s32 seconds).

Definition sys_getpid : M sched Z := t ← cur_task; mret (s32 (Task.pid t)).
Definition sys_getppid : M sched Z := t ← cur_task; mret (s32 (Task.father t)).
Definition sys_getuid : M sched Z := t ← cur_task; mret (Task.uid t).
Definition sys_geteuid : M sched Z := t ← cur_task; mret (Task.euid t).
Definition sys_getgid : M sched Z := t ← cur_task; mret (Task.gid t).
Definition sys_getegid : M sched Z := t ← cur_task; mret (Task.egid t).

Definition sys_nice (increment : Z) : M sched Z :=
  t ← cur_task;
  when (0 <? s64 (Task.priority t - increment))
    (set_cur (λ t, t <| Task.priority ::= λ x, s64 (x - increment) |>));;
  mret 0.

(** The handler that was installed, as the int the call returns. *)
Definition sys_signal (sig addr restorer : Z) : M sched Z :=
  if bool_decide (sig ∈ catchable) then
    t ← cur_task;
    i ← index (Task.sig_fn t) (sig - 1);
    set_cur (λ t, t <| Task.sig_fn ::= <[Z.to_nat (sig - 1) := addr]> |>
                    <| Task.sig_restorer := restorer |>);;
    mret (s32 i)
  else mret (-1).

Definition math_state_restore : M sched () :=
  t ← cur_task;
  when (negb (truth (Task.used_math t))) (set_cur (λ t, t <| Task.used_math := 1 |>));;
  cur ← gets current;
  modify (λ s, s <| last_task_used_math := cur |>).
