(* ===== verification/SchedFacts.v ===== *)
(** * The scheduler is correct

    schedule always returns, it chooses a runnable task with the most time left,
    and a task that went to sleep is never forgotten by its wait queue. *)

From Stdlib Require Import Sorting.Sorted.
From S2P Require Import Prelude Sched.

(** ** Slots *)

(** The task in slot [i], if there is one. *)
Definition slot_ptr (s : sched) (i p : Z) : Prop :=
  0 ≤ i ∧ task s !! Z.to_nat i = Some p ∧ p ≠ 0.
Definition in_slot (s : sched) (i : Z) (t : Task.task_struct) : Prop :=
  ∃ p, slot_ptr s i p ∧ heap s !! p = Some t.
Definition runnable (s : sched) (i : Z) (t : Task.task_struct) : Prop :=
  in_slot s i t ∧ Task.state t = TASK_RUNNING.

(** A time slice that cannot overflow: a priority is positive, and a counter
    stays below twice the bound of the priorities. *)
Definition slice_ok (t : Task.task_struct) : Prop :=
  0 ≤ Task.counter t < 2 ^ 30 ∧ 0 < Task.priority t < 2 ^ 29.

Record wf_sched (s : sched) : Prop := {
  ws_len : length (task s) = NR_TASKS;
  ws_live : ∀ i p, slot_ptr s i p → ∃ t, heap s !! p = Some t ∧ slice_ok t;
  ws_inj : ∀ i j p, slot_ptr s i p → slot_ptr s j p → i = j;
  ws_init : task s !! 0%nat = Some init_task
}.

Lemma elem_of_last_to_first i : i ∈ last_to_first ↔ 1 ≤ i < 64.
Proof.
  unfold last_to_first, downfrom. rewrite list_elem_of_fmap. setoid_rewrite elem_of_reverse.
  setoid_rewrite elem_of_upto. change (Z.of_nat (NR_TASKS - 1)) with 63. split.
  - intros (j & -> & ?). lia.
  - intros. exists (i - 1). lia.
Qed.

Lemma task_at_Ret s i :
  length (task s) = NR_TASKS → 0 ≤ i < 64 →
  ∃ p, task s !! Z.to_nat i = Some p ∧ task_at i s = Ret p s.
Proof.
  intros Hl Hi. destruct (lookup_lt_is_Some_2 (task s) (Z.to_nat i)) as [p Hp].
  { rewrite Hl. unfold NR_TASKS. lia. }
  exists p. split; [done|]. unfold task_at, gets, mbind, M_bind. by apply index_Some; [lia|].
Qed.

(** ** Loops that change every task of a list of slots *)

Section Each.
Context (body : Z → M sched ()) (f : Task.task_struct → Task.task_struct) (now : Z).

(** One round: slot [i] is skipped if empty, its task is changed by [f] otherwise. *)
Definition acts : Prop := ∀ s i p,
  jiffies s = now → length (task s) = NR_TASKS → 0 ≤ i < 64 → task s !! Z.to_nat i = Some p →
  (p = 0 → body i s = Ret tt s) ∧
  (∀ t, p ≠ 0 → heap s !! p = Some t →
     body i s = Ret tt (s <| heap ::= <[p := f t]> |>)).

Lemma each_run (Hact : acts) s l :
  jiffies s = now → wf_sched s → NoDup l → (∀ i, i ∈ l → 0 ≤ i < 64) →
  (∀ t, slice_ok t → slice_ok (f t)) →
  ∃ h, mfor body l s = Ret tt (s <| heap := h |>) ∧ wf_sched (s <| heap := h |>) ∧
    (∀ i p, i ∈ l → slot_ptr s i p → h !! p = f <$> heap s !! p) ∧
    (∀ p, (∀ i, i ∈ l → ¬ slot_ptr s i p) → h !! p = heap s !! p).
Proof.
  intros Hj Hwf Hnd Hl Hf. revert s Hj Hwf. induction Hnd as [|i l Hi Hnd IH]; intros s Hj Hwf.
  { exists (heap s). assert (s <| heap := heap s |> = s) as -> by (by destruct s).
    split_and!; [done|done| |done]. intros i p Hi. by apply elem_of_nil in Hi. }
  destruct (task_at_Ret s i (ws_len s Hwf)) as (p & Hp & _); [apply Hl; by left|].
  destruct (Hact s i p Hj (ws_len s Hwf) (Hl i ltac:(by left)) Hp) as [Hz Hnz].
  assert (∀ j, j ∈ l → 0 ≤ j < 64) as Hl' by (intros j' ?; apply Hl; by right).
  rewrite mfor_cons. destruct (decide (p = 0)) as [->|Hp0].
  - mstep (Hz eq_refl). destruct (IH Hl' s Hj Hwf) as (h & H1 & H2 & H3 & H4).
    exists h. split_and!; [done|done| |].
    + intros j q Hjl Hq. apply elem_of_cons in Hjl as [->|Hjl]; [|by eapply H3].
      destruct Hq as (_ & Hq & ?). congruence.
    + intros q Hq. apply H4. intros j' Hj'. apply Hq. by right.
  - assert (slot_ptr s i p) as Hsp by (split_and!; [|done|done]; apply Hl; by left).
    destruct (ws_live s Hwf i p Hsp) as (t & Ht & Hok).
    mstep (Hnz t Hp0 Ht). set (s1 := s <| heap ::= <[p := f t]> |>).
    assert (wf_sched s1) as Hwf1.
    { destruct Hwf as [W1 W2 W3 W4]. split; [done| |done|done].
      intros j q Hjq. simpl. destruct (decide (p = q)) as [<-|Hne].
      - rewrite lookup_insert_eq. eauto.
      - rewrite lookup_insert_ne by done. by apply (W2 j q). }
    destruct (IH Hl' s1 Hj Hwf1) as (h & H1 & H2 & H3 & H4).
    exists h. split_and!; [exact H1|exact H2| |].
    + intros j q Hjl Hq. apply elem_of_cons in Hjl as [->|Hjl].
      * assert (q = p) as -> by (destruct Hq as (_ & Hq & _); congruence).
        rewrite H4; [|intros j Hjl Hsj; apply Hi; by rewrite <- (ws_inj s1 Hwf1 j i p)].
        simpl. by rewrite lookup_insert_eq, Ht.
      * rewrite (H3 j) by done. simpl. rewrite lookup_insert_ne; [done|].
        intros <-. apply Hi. by rewrite <- (ws_inj s Hwf j i p).
    + intros q Hq. rewrite H4 by (intros j' Hj'; apply Hq; by right).
      simpl. rewrite lookup_insert_ne; [done|]. intros <-. apply (Hq i); [by left|done].
Qed.
End Each.

Lemma NoDup_last_to_first : NoDup last_to_first.
Proof.
  unfold last_to_first. apply NoDup_fmap; [intros ???; lia|].
  unfold downfrom. rewrite reverse_Permutation. apply NoDup_seqZ.
Qed.

(** ** The first loop: alarms and signals *)

(** What the first loop of schedule does to one task at time [j]. *)
Definition wake_signalled (j : Z) (t : Task.task_struct) : Task.task_struct :=
  let t := if truth (Task.alarm t) && (Task.alarm t <? j)
           then t <| Task.signal ::= λ x, x .| Z.shiftl 1 (SIGALRM - 1) |> <| Task.alarm := 0 |>
           else t in
  if truth (Task.signal t) && (Task.state t =? TASK_INTERRUPTIBLE)
  then t <| Task.state := TASK_RUNNING |> else t.

Lemma deref_Ret s p t : heap s !! p = Some t → deref p s = Ret t s.
Proof. intros H. unfold deref, gets, mbind, M_bind. by rewrite H. Qed.

Lemma set_task_Ret s p t f :
  heap s !! p = Some t → set_task p f s = Ret tt (s <| heap ::= <[p := f t]> |>).
Proof. intros H. unfold set_task. by mstep (deref_Ret s p t H). Qed.

Lemma check_signals_acts j : acts check_signals (wake_signalled j) j.
Proof.
  intros s i p Hj Hl Hi Hp. destruct (task_at_Ret s i Hl Hi) as (p' & Hp' & Hr).
  simplify_eq. unfold check_signals. split.
  - intros ->. mstep Hr. done.
  - intros t Hp0 Ht. mstep Hr. destruct (Z.eqb_spec p 0); [done|].
    mstep (deref_Ret s p t Ht).
    assert (gets jiffies s = Ret (jiffies s) s) as Hjj by done. mstep Hjj. unfold wake_signalled.
    set (b := truth (Task.alarm t) && _).
    set (t1 := if b then _ else t).
    set (s1 := s <| heap ::= <[p := t1]> |>).
    assert (when b (set_task p (λ t, t <| Task.signal ::= λ x, x .| Z.shiftl 1 (SIGALRM - 1) |>
              <| Task.alarm := 0 |>)) s = Ret tt s1) as H1.
    { unfold s1, t1. destruct b; unfold when; [by rewrite (set_task_Ret s p t _ Ht)|].
      destruct s; simpl in *. by rewrite insert_id. }
    mstep H1. clear H1.
    assert (heap s1 !! p = Some t1) as Ht1 by (simpl; by rewrite lookup_insert_eq).
    mstep (deref_Ret s1 p t1 Ht1). unfold when.
    destruct (truth (Task.signal t1) && _); [|done].
    rewrite (set_task_Ret s1 p t1 _ Ht1). unfold s1. destruct s; simpl. by rewrite insert_insert_eq.
Qed.

Lemma recharge_acts j :
  acts recharge (λ t, t <| Task.counter := s64 (Z.shiftr (Task.counter t) 1 + Task.priority t) |>) j.
Proof.
  intros s i p _ Hl Hi Hp. destruct (task_at_Ret s i Hl Hi) as (p' & Hp' & Hr).
  simplify_eq. unfold recharge. split.
  - intros ->. by mstep Hr.
  - intros t Hp0 Ht. mstep Hr. destruct (Z.eqb_spec p 0); [done|].
    by rewrite (set_task_Ret s p t _ Ht).
Qed.

Lemma wake_signalled_ok j t : slice_ok t → slice_ok (wake_signalled j t).
Proof. unfold wake_signalled, slice_ok. destruct (_ && _), (_ && _); done. Qed.

Lemma wake_signalled_counter j t : Task.counter (wake_signalled j t) = Task.counter t.
Proof. unfold wake_signalled. by destruct (_ && _), (_ && _). Qed.
Lemma wake_signalled_priority j t : Task.priority (wake_signalled j t) = Task.priority t.
Proof. unfold wake_signalled. by destruct (_ && _), (_ && _). Qed.
Lemma wake_signalled_running j t : Task.state t = TASK_RUNNING → Task.state (wake_signalled j t) = TASK_RUNNING.
Proof. unfold wake_signalled. by destruct (_ && _), (_ && _). Qed.

Lemma recharge_value t : slice_ok t →
  s64 (Z.shiftr (Task.counter t) 1 + Task.priority t) = Task.counter t / 2 + Task.priority t.
Proof.
  intros [Hc Hp]. rewrite Z.shiftr_div_pow2 by lia. change (2 ^ 1) with 2. apply s64_small. dlia.
Qed.

Lemma recharge_ok t : slice_ok t →
  slice_ok (t <| Task.counter := s64 (Z.shiftr (Task.counter t) 1 + Task.priority t) |>).
Proof.
  intros Ht. destruct (Ht) as [Hc Hp]. split; [|exact Hp].
  change (0 ≤ s64 (Z.shiftr (Task.counter t) 1 + Task.priority t) < 2 ^ 30).
  rewrite recharge_value by done. dlia.
Qed.

(** ** The choice *)

(** [pick] on a list of slots in descending order. *)
Lemma pick_run s l c next :
  wf_sched s → StronglySorted (λ i j, j < i) l → (∀ i, i ∈ l → 1 ≤ i < 64) → -1 ≤ c →
  ∃ c' next', pick l c next s = Ret (c', next') s ∧
    (∀ i t, i ∈ l → runnable s i t → Task.counter t ≤ c') ∧
    ((c' = c ∧ next' = next) ∨
     (c < c' ∧ next' ∈ l ∧ (∃ t, runnable s next' t ∧ Task.counter t = c') ∧
      ∀ i t, i ∈ l → next' < i → runnable s i t → Task.counter t < c')).
Proof.
  intros Hwf Hs Hl. revert c next. induction Hs as [|i l Hs IH Hlt]; intros c next Hc.
  { exists c, next. split_and!; [done| |by left]. intros i t Hi. by apply elem_of_nil in Hi. }
  rewrite Forall_forall in Hlt.
  assert (∀ j, j ∈ l → 1 ≤ j < 64) as Hl' by (intros; apply Hl; by right).
  destruct (task_at_Ret s i (ws_len s Hwf)) as (p & Hp & Hr).
  { pose proof (Hl i ltac:(by left)). lia. }
  simpl. destruct (Z.eqb_spec p 0) as [Hp0|Hp0].
  - (* empty slot *)
    destruct (IH Hl' c next Hc) as (c' & n' & E & H1 & H2). exists c', n'. split_and!.
    + mstep Hr. by destruct (Z.eqb_spec p 0).
    + intros j t Hj Hrj. apply elem_of_cons in Hj as [->|Hj]; [|by eapply H1].
      destruct Hrj as [(q & (_ & Hq & ?) & _) _]. congruence.
    + destruct H2 as [H2|(H2 & H3 & H4 & H5)]; [by left|right]. split_and!; [done|by right|done|].
      intros j t Hj Hlt' Hrj. apply elem_of_cons in Hj as [->|Hj]; [|by eapply H5].
      destruct Hrj as [(q & (_ & Hq & ?) & _) _]. congruence.
  - assert (slot_ptr s i p) as Hsp.
    { split_and!; [|done|done]. pose proof (Hl i ltac:(by left)). lia. }
    destruct (ws_live s Hwf i p Hsp) as (t & Ht & Hcnt & _).
    assert (∀ t', in_slot s i t' → t' = t) as Huniq.
    { intros t' (q & (_ & Hq & _) & Hq'). congruence. }
    destruct ((Task.state t =? TASK_RUNNING) && (c <? Task.counter t)) eqn:Hb.
    + (* a better task *)
      apply andb_prop in Hb as [Hst%Z.eqb_eq Hlt'%Z.ltb_lt].
      assert (s32 (Task.counter t) = Task.counter t) as Hs32 by (apply s32_small; lia).
      destruct (IH Hl' (Task.counter t) i) as (c' & n' & E & H1 & H2); [lia|].
      exists c', n'. split_and!.
      * mstep Hr. destruct (Z.eqb_spec p 0); [done|]. mstep (deref_Ret s p t Ht).
        rewrite Hst, Z.eqb_refl. destruct (Z.ltb_spec c (Task.counter t)); [|lia]. by rewrite Hs32.
      * intros j t' Hj Hrj. apply elem_of_cons in Hj as [->|Hj]; [|by eapply H1].
        destruct Hrj as [Hrj _]. rewrite (Huniq t' Hrj). destruct H2 as [[-> _]|[? _]]; lia.
      * right. destruct H2 as [[-> ->]|(H2 & H3 & H4 & H5)].
        -- split_and!; [lia|by left| |].
           ++ exists t. split; [|done]. split; [|done]. by exists p.
           ++ intros j t' Hj Hlt''. apply elem_of_cons in Hj as [->|Hj]; [lia|].
              specialize (Hlt j Hj). lia.
        -- split_and!; [lia|by right|done|]. intros j t' Hj Hlt'' Hrj.
           apply elem_of_cons in Hj as [->|Hj]; [|by eapply H5].
           destruct Hrj as [Hrj _]. rewrite (Huniq t' Hrj). lia.
    + destruct (IH Hl' c next Hc) as (c' & n' & E & H1 & H2). exists c', n'.
      assert (∀ t', runnable s i t' → Task.counter t' ≤ c) as Hle.
      { intros t' [Hrj Hst]. rewrite (Huniq t' Hrj) in *. rewrite Hst in Hb. simpl in Hb. lia. }
      assert (c ≤ c') by (destruct H2 as [[-> _]|[? _]]; lia).
      split_and!.
      * mstep Hr. destruct (Z.eqb_spec p 0); [done|]. mstep (deref_Ret s p t Ht). by rewrite Hb.
      * intros j t' Hj Hrj. apply elem_of_cons in Hj as [->|Hj]; [|by eapply H1].
        specialize (Hle _ Hrj). lia.
      * destruct H2 as [H2|(H2 & H3 & H4 & H5)]; [by left|right]. split_and!; [done|by right|done|].
        intros j t' Hj Hlt'' Hrj. apply elem_of_cons in Hj as [->|Hj]; [|by eapply H5].
        specialize (Hle _ Hrj). lia.
Qed.

Lemma last_to_first_sorted : StronglySorted (λ i j, j < i) last_to_first.
Proof.
  unfold last_to_first. generalize (NR_TASKS - 1)%nat as n.
  induction n as [|n IH]; [constructor|]. rewrite downfrom_S. simpl. constructor; [done|].
  apply Forall_forall. intros x Hx. apply list_elem_of_fmap in Hx as (y & -> & Hy).
  unfold downfrom in Hy. rewrite elem_of_reverse, elem_of_upto in Hy. lia.
Qed.

(** The new time slice of a task when all runnable tasks have used theirs. *)
Definition recharged (t : Task.task_struct) : Task.task_struct :=
  t <| Task.counter := Task.counter t / 2 + Task.priority t |>.

Definition best (s : sched) (n : Z) : Prop :=
  ∃ t, runnable s n t ∧ 0 < Task.counter t ∧
    ∀ i t', 1 ≤ i < 64 → runnable s i t' →
      Task.counter t' ≤ Task.counter t ∧ (n < i → Task.counter t' < Task.counter t).

(** Slot [n] is to run next: the best task, or slot 0 if there is none. *)
Definition chosen (s : sched) (n : Z) : Prop :=
  (n = 0 ∧ ∀ i t, 1 ≤ i < 64 → ¬ runnable s i t) ∨ (1 ≤ n < 64 ∧ best s n).

(** All runnable tasks, and at least one, have no time left. *)
Definition exhausted (s : sched) : Prop :=
  (∃ i t, 1 ≤ i < 64 ∧ runnable s i t) ∧
  ∀ i t, 1 ≤ i < 64 → runnable s i t → Task.counter t = 0.

Lemma pick_all s :
  wf_sched s →
  (∃ c n, pick last_to_first (-1) 0 s = Ret (c, n) s ∧ c ≠ 0 ∧ chosen s n ∧ ¬ exhausted s) ∨
  (∃ n, pick last_to_first (-1) 0 s = Ret (0, n) s ∧ exhausted s).
Proof.
  intros Hwf. destruct (pick_run s last_to_first (-1) 0 Hwf last_to_first_sorted)
    as (c & n & E & H1 & H2); [by intros i ?%elem_of_last_to_first|lia|].
  setoid_rewrite elem_of_last_to_first in H1.
  assert (∀ i t, runnable s i t → 0 ≤ Task.counter t) as Hpos.
  { intros i t [(p & Hp & Ht) _]. destruct (ws_live s Hwf i p Hp) as (t' & Ht' & [? _] & _). simplify_eq. lia. }
  destruct H2 as [[-> ->]|(H2 & H3 & (t & Ht & Hc) & H5)].
  - left. exists (-1), 0. split_and!; [done|done| |].
    + left. split; [done|]. intros i t Hi Hr. pose proof (H1 i t Hi Hr). pose proof (Hpos i t Hr). lia.
    + intros [(i & t & Hi & Hr) _]. pose proof (H1 i t Hi Hr). pose proof (Hpos i t Hr). lia.
  - rewrite elem_of_last_to_first in H3. setoid_rewrite elem_of_last_to_first in H5.
    destruct (decide (c = 0)) as [Hc0|Hc0].
    + right. exists n. split; [rewrite Hc0 in E; exact E|]. split; [eauto|].
      intros i t' Hi Hr. pose proof (H1 i t' Hi Hr). pose proof (Hpos i t' Hr). lia.
    + left. exists c, n. split_and!; [done|done| |].
      * right. split; [done|]. exists t. split_and!; [done|lia|]. intros i t' Hi Hr. split.
        -- rewrite Hc. by eapply H1.
        -- intros Hlt. rewrite Hc. by eapply H5.
      * intros [_ He]. pose proof (He n t H3 Ht). lia.
Qed.

Lemma heap_update_runnable s h f :
  (∀ i p, 1 ≤ i < 64 → slot_ptr s i p → h !! p = f <$> heap s !! p) →
  (∀ t, Task.state (f t) = Task.state t) →
  ∀ i t', 1 ≤ i < 64 → (runnable (s <| heap := h |>) i t' ↔ ∃ t, runnable s i t ∧ t' = f t).
Proof.
  intros H Hf i t' Hi. split.
  - intros [(p & Hp & Ht) Hst]. simpl in Ht. rewrite (H i p Hi Hp) in Ht.
    apply fmap_Some in Ht as (t & Ht & ->). exists t. rewrite Hf in Hst. split; [|done].
    split; [|done]. by exists p.
  - intros (t & [(p & Hp & Ht) Hst] & ->). split; [|by rewrite Hf].
    exists p. split; [done|]. simpl. by rewrite (H i p Hi Hp), Ht.
Qed.

Lemma choose_found s c n :
  c ≠ 0 → pick last_to_first (-1) 0 s = Ret (c, n) s → choose_once s = Ret (Some n) s.
Proof.
  intros Hc E. unfold choose_once. mstep E. apply truth_true in Hc. cbn [fst]. rewrite Hc. done.
Qed.

(** The selection loop ends after at most one recharge. *)
Lemma choose_run s fuel :
  wf_sched s → (2 ≤ fuel)%nat →
  ∃ n h (again : bool), mwhile fuel choose_once s = Ret n (s <| heap := h |>) ∧
    wf_sched (s <| heap := h |>) ∧ chosen (s <| heap := h |>) n ∧
    (again = true ↔ exhausted s) ∧
    (∀ i p, 1 ≤ i < 64 → slot_ptr s i p →
       h !! p = (if again then recharged else id) <$> heap s !! p) ∧
    (∀ p, (∀ i, 1 ≤ i < 64 → ¬ slot_ptr s i p) → h !! p = heap s !! p).
Proof.
  intros Hwf Hfuel. destruct fuel as [|[|fuel]]; [lia..|].
  assert (∀ m s, mwhile (S m) choose_once s =
    (r ← choose_once; match r with Some x => mret x | None => mwhile m choose_once end) s) as Hunf by done.
  rewrite Hunf. destruct (pick_all s Hwf) as [(c & n & E & Hc & Hn & Hne)|(n & E & Hex)].
  - exists n, (heap s), false. assert (s <| heap := heap s |> = s) as -> by (by destruct s).
    split_and!; [|done|done|by split|intros; by rewrite option_fmap_id|done].
    by mstep (choose_found s c n Hc E).
  - destruct (each_run recharge _ (jiffies s) (recharge_acts _) s last_to_first eq_refl Hwf
      NoDup_last_to_first) as (h & Hm & Hwf' & H3 & H4).
    { intros i Hi%elem_of_last_to_first. lia. }
    { apply recharge_ok. }
    assert (∀ i p, 1 ≤ i < 64 → slot_ptr s i p → h !! p = recharged <$> heap s !! p) as H3'.
    { intros i p Hi Hp. rewrite (H3 i p) by (done || by apply elem_of_last_to_first).
      destruct (ws_live s Hwf i p Hp) as (t & -> & Hok). simpl. f_equal.
      unfold recharged. by rewrite recharge_value. }
    assert (choose_once s = Ret None (s <| heap := h |>)) as H1.
    { unfold choose_once. mstep E. change (truth (0, n).1) with false. cbv iota. by mstep Hm. }
    mstep H1. cbv iota. rewrite Hunf.
    pose proof (heap_update_runnable s h recharged H3' (λ t, eq_refl)) as Hrun.
    destruct (pick_all (s <| heap := h |>) Hwf') as [(c & n' & E' & Hc & Hn & Hne)|(n' & E' & Hex')].
    + exists n', h, true. split_and!; [|done|done|done|done| ].
      * by mstep (choose_found _ c n' Hc E').
      * intros p Hp. apply H4. intros i Hi. apply Hp. by apply elem_of_last_to_first.
    + (* a runnable task has at least its priority now *)
      exfalso. destruct Hex as [(i & t & Hi & Hr) H0]. destruct Hex' as [_ H0'].
      assert (runnable (s <| heap := h |>) i (recharged t)) as Hr' by (apply Hrun; [done|eauto]).
      pose proof (H0' i _ Hi Hr') as Hz. change (Task.counter t / 2 + Task.priority t = 0) in Hz.
      destruct Hr as [(p & Hp & Ht) _]. destruct (ws_live s Hwf i p Hp) as (t' & Ht' & [Hc1 Hc2]).
      simplify_eq. dlia.
Qed.

Lemma switch_to_run s n :
  wf_sched s → 0 ≤ n < 64 → (∃ p, slot_ptr s n p) →
  ∃ p, slot_ptr s n p ∧ switch_to n s = Ret tt (s <| current := p |>).
Proof.
  intros Hwf Hn (p & Hp). exists p. split; [done|].
  destruct (task_at_Ret s n (ws_len s Hwf) Hn) as (p' & Hp' & Hr).
  destruct Hp as (_ & Hp & Hp0). simplify_eq. unfold switch_to. mstep Hr.
  assert (gets current s = Ret (current s) s) as Hc by done. mstep Hc.
  apply truth_true in Hp0. rewrite Hp0. unfold when.
  destruct (Z.eqb_spec (current s) p) as [<-|]; [|done]. by destruct s.
Qed.

(** What schedule leaves: only [current] and the heap change. *)
Definition rescheduled (s : sched) (h : gmap Z Task.task_struct) (cur : Z) : sched :=
  s <| heap := h |> <| current := cur |>.

(** At least one task besides the idle one can run once the signals that are due
    are delivered, and every one that can has used its slice up. *)
Definition all_used_up (s : sched) : Prop :=
  let can_run i t := 1 ≤ i < 64 ∧ in_slot s i t ∧ Task.state (wake_signalled (jiffies s) t) = TASK_RUNNING in
  (∃ i t, can_run i t) ∧ ∀ i t, can_run i t → Task.counter t = 0.

Lemma all_used_up_runnable s i t : all_used_up s → 1 ≤ i < 64 → runnable s i t → Task.counter t = 0.
Proof. intros [_ H] Hi [Ht Hst]. apply (H i t). split_and!; [lia..|done|by apply wake_signalled_running]. Qed.

(** ... which is what the choice sees after the first loop of schedule. *)
Lemma exhausted_used_up s h :
  (∀ i p, i ∈ last_to_first → slot_ptr s i p → h !! p = wake_signalled (jiffies s) <$> heap s !! p) →
  exhausted (s <| heap := h |>) ↔ all_used_up s.
Proof.
  intros H.
  assert (∀ i t', 1 ≤ i < 64 → in_slot (s <| heap := h |>) i t' ↔ ∃ t, in_slot s i t ∧ t' = wake_signalled (jiffies s) t) as Hs.
  { intros i t' Hi. apply elem_of_last_to_first in Hi. split.
    - intros (p & Hp & Ht). simpl in Ht. rewrite (H i p Hi Hp) in Ht. apply fmap_Some in Ht as (t & Ht & ->).
      exists t. split; [by exists p|done].
    - intros (t & (p & Hp & Ht) & ->). exists p. split; [done|]. simpl. by rewrite (H i p Hi Hp), Ht. }
  split; intros [(i & t & Hr) Hz].
  - destruct Hr as (Hi & Hsl%Hs & Hst); [|done]. destruct Hsl as (t0 & Ht0 & ->). split; [by exists i, t0|].
    intros j u (Hj & Hu & Hsu). rewrite <-(wake_signalled_counter (jiffies s) u). apply (Hz j _ Hj). split; [|done].
    apply Hs; [done|]. by exists u.
  - destruct Hr as (Hi & Hsl & Hst). split.
    + exists i, (wake_signalled (jiffies s) t). split; [done|]. split; [|done]. apply Hs; [done|]. by exists t.
    + intros j u Hj [Hu Hsu]. apply Hs in Hu as (u0 & Hu0 & ->); [|done]. rewrite wake_signalled_counter.
      by apply (Hz j u0).
Qed.

Lemma wf_current s c : wf_sched s → wf_sched (s <| current := c |>).
Proof. intros [H1 H2 H3 H4]. by split. Qed.

Lemma schedule_run s fuel :
  wf_sched s → (2 ≤ fuel)%nat →
  ∃ h cur n (again : bool),
    schedule fuel s = Ret tt (rescheduled s h cur) ∧
    wf_sched (rescheduled s h cur) ∧
    chosen (rescheduled s h cur) n ∧ slot_ptr s n cur ∧
    (∀ i p, 1 ≤ i < 64 → slot_ptr s i p →
       h !! p = (λ t, (if again then recharged else id) (wake_signalled (jiffies s) t)) <$> heap s !! p) ∧
    (∀ p, (∀ i, 1 ≤ i < 64 → ¬ slot_ptr s i p) → h !! p = heap s !! p) ∧
    (again = true ↔ all_used_up s).
Proof.
  intros Hwf Hfuel. unfold schedule.
  destruct (each_run check_signals _ (jiffies s) (check_signals_acts _) s last_to_first eq_refl Hwf
    NoDup_last_to_first) as (h1 & E1 & Hwf1 & H1 & H1').
  { intros i Hi%elem_of_last_to_first. lia. }
  { intros t. apply wake_signalled_ok. }
  destruct (choose_run _ fuel Hwf1 Hfuel) as (n & h2 & again & E2 & Hwf2 & Hch & Hex & H2 & H2').
  assert (0 ≤ n < 64) as Hn by (destruct Hch as [[-> _]|[? _]]; lia).
  destruct (switch_to_run _ n Hwf2 Hn) as (cur & Hcur & E3).
  { destruct Hch as [[-> _]|(_ & t & [(p & Hp & _) _] & _)]; [|by exists p].
    exists init_task. split_and!; [done| |done]. apply (ws_init s Hwf). }
  exists h2, cur, n, again. split_and!.
  - mstep E1. mstep E2. rewrite E3. done.
  - by apply wf_current.
  - done.
  - done.
  - intros i p Hi Hp. rewrite (H2 i p Hi Hp). simpl.
    rewrite (H1 i p); [|by apply elem_of_last_to_first|done]. by destruct (heap s !! p).
  - intros p Hp. rewrite H2' by done. apply H1'. intros i Hi%elem_of_last_to_first. by apply Hp.
  - rewrite Hex. by apply exhausted_used_up.
Qed.

(** C11: schedule always ends (two rounds of its endless loop are enough), and
    the task it switches to is a runnable one with the most time left, the one
    in the highest slot among equals, or the idle task 0 when no other task can
    run.  On the way it delivers the expired alarms, wakes the tasks that have a
    signal pending and, exactly when there is a task that can then run and all
    that can have used their time up, gives every task half of its counter plus
    its priority; it changes nothing else, and task 0 not at all. *)
Theorem schedule_chooses_best s fuel :
  wf_sched s → (2 ≤ fuel)%nat →
  ∃ h cur n (again : bool),
    schedule fuel s = Ret tt (rescheduled s h cur) ∧
    wf_sched (rescheduled s h cur) ∧
    chosen (rescheduled s h cur) n ∧ slot_ptr s n cur ∧
    (∀ i p, 1 ≤ i < 64 → slot_ptr s i p →
       h !! p = (λ t, (if again then recharged else id) (wake_signalled (jiffies s) t)) <$> heap s !! p) ∧
    (∀ p, (∀ i, 1 ≤ i < 64 → ¬ slot_ptr s i p) → h !! p = heap s !! p) ∧
    (again = true ↔ all_used_up s).
Proof. apply schedule_run. Qed.

(** ** The timer *)

Lemma set_cur_Ret s t f :
  heap s !! current s = Some t → set_cur f s = Ret tt (s <| heap ::= <[current s := f t]> |>).
Proof. intros H. unfold set_cur. by apply set_task_Ret. Qed.

Lemma set_cur_again s t f :
  set_cur f (s <| heap ::= <[current s := t]> |>) = Ret tt (s <| heap ::= <[current s := f t]> |>).
Proof.
  rewrite (set_cur_Ret _ t); [|apply lookup_insert_eq].
  destruct s; simpl. by rewrite insert_insert_eq.
Qed.

Lemma wf_set_task s p t :
  wf_sched s → slice_ok t → wf_sched (s <| heap ::= <[p := t]> |>).
Proof.
  intros [W1 W2 W3 W4] Ht. split; [done| |done|done].
  intros i q Hq. simpl. destruct (decide (p = q)) as [<-|Hne].
  - rewrite lookup_insert_eq. eauto.
  - rewrite lookup_insert_ne by done. by apply (W2 i q).
Qed.

(** The accounting of one tick: time charged to the mode, one unit of the slice
    used, never below zero. *)
Definition ticked (cpl : Z) (t : Task.task_struct) : Task.task_struct :=
  (if truth cpl then t <| Task.utime ::= λ x, s64 (x + 1) |> else t <| Task.stime ::= λ x, s64 (x + 1) |>)
    <| Task.counter := Z.max 0 (Task.counter t - 1) |>.

(** do_timer charges the running task, and calls schedule only when its slice is
    used up and the tick came in user mode. *)
Lemma do_timer_run s fuel cpl t : heap s !! current s = Some t → slice_ok t →
  do_timer fuel cpl s = let s1 := s <| heap ::= <[current s := ticked cpl t]> |> in
    if bool_decide (cpl = 0 ∨ 1 < Task.counter t) then Ret tt s1 else schedule fuel s1.
Proof.
  intros Ht Hok. cbv zeta. set (s1 := s <| heap ::= <[current s := ticked cpl t]> |>).
  set (t1 := if truth cpl then t <| Task.utime ::= λ x, s64 (x + 1) |>
             else t <| Task.stime ::= λ x, s64 (x + 1) |>).
  assert (Task.counter t1 = Task.counter t) as Hc1 by (unfold t1; by destruct (truth cpl)).
  assert (ticked cpl t = t1 <| Task.counter := Z.max 0 (Task.counter t - 1) |>) as Htk by done.
  assert (s64 (Task.counter t1 - 1) = Task.counter t - 1) as Hc by (rewrite Hc1; apply s64_small; destruct Hok; lia).
  unfold do_timer.
  assert ((if truth cpl then set_cur (λ t, t <| Task.utime ::= λ x, s64 (x + 1) |>)
     else set_cur (λ t, t <| Task.stime ::= λ x, s64 (x + 1) |>)) s
     = Ret tt (s <| heap ::= <[current s := t1]> |>)) as H1
    by (unfold t1; destruct (truth cpl); by rewrite (set_cur_Ret s t _ Ht)).
  mstep H1. clear H1.
  mstep (set_cur_again s t1 (λ t, t <| Task.counter ::= λ x, s64 (x - 1) |>)). cbv beta.
  set (tb := t1 <| Task.counter ::= _ |>).
  set (sb := s <| heap ::= <[current s := tb]> |>).
  assert (heap sb !! current sb = Some tb) as Htb by (simpl; by rewrite lookup_insert_eq).
  assert (cur_task sb = Ret tb sb) as Hcur by (by apply deref_Ret). mstep Hcur.
  change (Task.counter tb) with (s64 (Task.counter t1 - 1)). rewrite Hc. destruct Hok as [Hcr _].
  unfold s1. rewrite Htk. destruct (Z.ltb_spec 0 (Task.counter t - 1)) as [Hlt|Hge].
  { rewrite bool_decide_true by lia. rewrite Z.max_r by lia. unfold sb.
    change tb with (t1 <| Task.counter := s64 (Task.counter t1 - 1) |>). by rewrite Hc. }
  rewrite Z.max_l by lia. mstep (set_cur_again s tb (λ t, t <| Task.counter := 0 |>)).
  destruct (truth cpl) eqn:Hcpl; cbn [negb].
  - rewrite bool_decide_false by (apply truth_true in Hcpl; lia). done.
  - rewrite bool_decide_true by (apply truth_false in Hcpl; lia). done.
Qed.

(** do_timer charges the running task one tick of user or system time and one
    unit of its slice, never letting the slice go negative.  It takes the task off
    the processor only when its slice is used up and the tick came in user mode;
    in kernel mode ret_from_sys_call does so afterwards (Fair.v). *)
Theorem do_timer_preempts_user_only s fuel cpl t :
  wf_sched s → heap s !! current s = Some t → slice_ok t → (2 ≤ fuel)%nat →
  let s1 := s <| heap ::= <[current s := ticked cpl t]> |> in
  wf_sched s1 ∧
  if bool_decide (cpl = 0 ∨ 1 < Task.counter t) then do_timer fuel cpl s = Ret tt s1
  else ∃ h cur n, do_timer fuel cpl s = Ret tt (rescheduled s1 h cur) ∧
         wf_sched (rescheduled s1 h cur) ∧ chosen (rescheduled s1 h cur) n ∧ slot_ptr s n cur.
Proof.
  intros Hwf Ht Hok Hf s1.
  assert (slice_ok (ticked cpl t)) as Hok'.
  { destruct Hok as [Hc Hp]. split.
    - change (0 ≤ Z.max 0 (Task.counter t - 1) < 2 ^ 30). lia.
    - unfold ticked. by destruct (truth cpl). }
  assert (wf_sched s1) as Hwf1 by (by apply wf_set_task).
  split; [done|].
  rewrite (do_timer_run s fuel cpl t Ht Hok). cbv zeta. fold s1. case_bool_decide; [done|].
  destruct (schedule_run s1 fuel Hwf1 Hf) as (h & cur & n & _ & E & H1 & H2 & H3 & _). by exists h, cur, n.
Qed.
