(* ===== verification/Wait.v ===== *)
(** * Sleeping and waking, interleaved (kernel/sched.c)

    A machine of the tasks and of where each sleeping task is stopped inside of
    sleep_on or interruptible_sleep_on, with one step per thing a task or an
    interrupt does.  Its wait queues never forget an uninterruptible sleeper;
    interruptible_sleep_on can. *)

From S2P Require Import Prelude Sched SchedFacts.

(** Where a task that called schedule from a sleeping function goes on. *)
Inductive cont :=
| InSleepOn (tmp : Z)
| InIntSleep (q tmp : Z).

Definition tmp_of (k : cont) : Z :=
  match k with InSleepOn tmp => tmp | InIntSleep _ tmp => tmp end.

Record machine := Machine { ks : sched; conts : gmap Z cont }.

(** Two rounds are enough for schedule (schedule_run). *)
Definition FUEL : nat := 2.

Inductive step : machine → machine → Prop :=
| step_sleep s c q tmp s1 s2 :
    (* the running task calls sleep_on(q) *)
    c !! current s = None →
    sleep_on_enter q s = Ret (Some tmp) s1 → schedule FUEL s1 = Ret tt s2 →
    step (Machine s c) (Machine s2 (<[current s := InSleepOn tmp]> c))
| step_int_sleep s c q tmp s1 s2 :
    (* the running task calls interruptible_sleep_on(q) *)
    c !! current s = None →
    interruptible_sleep_on_enter q s = Ret (Some tmp) s1 → schedule FUEL s1 = Ret tt s2 →
    step (Machine s c) (Machine s2 (<[current s := InIntSleep q tmp]> c))
| step_resume s c tmp s1 :
    (* a task that was asleep in sleep_on runs again and returns *)
    c !! current s = Some (InSleepOn tmp) → sleep_on_leave tmp s = Ret tt s1 →
    step (Machine s c) (Machine s1 (delete (current s) c))
| step_int_resume s c q tmp s1 :
    c !! current s = Some (InIntSleep q tmp) →
    interruptible_sleep_on_leave q tmp s = Ret true s1 →
    step (Machine s c) (Machine s1 (delete (current s) c))
| step_int_repeat s c q tmp s1 s2 :
    c !! current s = Some (InIntSleep q tmp) →
    interruptible_sleep_on_leave q tmp s = Ret false s1 → schedule FUEL s1 = Ret tt s2 →
    step (Machine s c) (Machine s2 c)
| step_wake s c q s1 :
    (* the running task or an interrupt calls wake_up(q) *)
    wake_up q s = Ret tt s1 → step (Machine s c) (Machine s1 c)
| step_yield s c s1 :
    schedule FUEL s = Ret tt s1 → step (Machine s c) (Machine s1 c)
| step_signal s c p sig s1 :
    set_task p (λ t, t <| Task.signal ::= λ x, x .| sig |>) s = Ret tt s1 →
    step (Machine s c) (Machine s1 c)
| step_tick s c :
    step (Machine s c) (Machine (s <| jiffies ::= Z.succ |>) c).

(** Somebody will wake [t]: a wait queue has it at its head, or a task that has
    yet to return from a sleeping function holds it in its local [tmp]. *)
Definition linked (m : machine) (t : Z) : Prop :=
  (∃ q, waitq (ks m) !! q = Some t) ∨ (∃ t' k, conts m !! t' = Some k ∧ tmp_of k = t).

(** The state field of the task at [t]. *)
Definition state_of (s : sched) (t : Z) : option Z := Task.state <$> heap s !! t.

Definition sleeping (m : machine) (t : Z) : Prop :=
  t ≠ 0 ∧ state_of (ks m) t = Some TASK_UNINTERRUPTIBLE ∧
  ∃ tmp, conts m !! t = Some (InSleepOn tmp).

Definition none_lost (m : machine) : Prop := ∀ t, sleeping m t → linked m t.

(** ** What the operations do to sleepers *)

Definition same_or_awake (s s' : sched) : Prop :=
  ∀ t, state_of s' t = Some TASK_UNINTERRUPTIBLE → state_of s t = Some TASK_UNINTERRUPTIBLE.

Lemma wf_set_state s p t v :
  wf_sched s → heap s !! p = Some t →
  wf_sched (s <| heap ::= <[p := t <| Task.state := v |>]> |>).
Proof.
  intros [W1 W2 W3 W4] Ht. split; [done| |done|done].
  intros i q Hq. simpl. destruct (decide (p = q)) as [<-|Hne].
  - rewrite lookup_insert_eq. destruct (W2 i p Hq) as (t' & Ht' & Hok). simplify_eq. eauto.
  - rewrite lookup_insert_ne by done. by apply (W2 i q).
Qed.

Lemma wake_signalled_state j t :
  Task.state (wake_signalled j t) = TASK_UNINTERRUPTIBLE → Task.state t = TASK_UNINTERRUPTIBLE.
Proof. unfold wake_signalled. destruct (_ && _), (_ && _); done. Qed.

Lemma slot_cases s t :
  (∃ i, 1 ≤ i < 64 ∧ slot_ptr s i t) ∨ (∀ i, 1 ≤ i < 64 → ¬ slot_ptr s i t).
Proof.
  destruct (decide (Exists (λ i, task s !! Z.to_nat i = Some t ∧ t ≠ 0) last_to_first)) as [H|H].
  - left. apply Exists_exists in H as (i & Hi%elem_of_last_to_first & H1 & H2).
    exists i. split; [done|]. split_and!; [lia|done|done].
  - right. intros i Hi (_ & H1 & H2). apply H, Exists_exists. exists i.
    split; [by apply elem_of_last_to_first|done].
Qed.

Lemma schedule_sleepers s s' :
  wf_sched s → schedule FUEL s = Ret tt s' →
  wf_sched s' ∧ waitq s' = waitq s ∧ same_or_awake s s'.
Proof.
  intros Hwf E. destruct (schedule_run s FUEL Hwf) as (h & cur & n & again & E' & Hwf' & _ & _ & H1 & H2 & _);
    [done|]. rewrite E in E'. apply Ret_inj in E' as [_ ->]. split_and!; [done|done|].
  intros t. unfold state_of. change (heap (rescheduled s h cur)) with h.
  destruct (slot_cases s t) as [(i & Hi & Hp)|Hno]; [|by rewrite H2].
  rewrite (H1 i t Hi Hp). destruct (heap s !! t) as [ts|]; [|done]. simpl.
  intros [= Hst]. f_equal. apply (wake_signalled_state (jiffies s)). by destruct again.
Qed.

Lemma set_state_awake s p t :
  heap s !! p = Some t →
  same_or_awake s (s <| heap ::= <[p := t <| Task.state := 0 |>]> |>).
Proof.
  intros Ht t'. unfold state_of. simpl. destruct (decide (p = t')) as [<-|].
  - by rewrite lookup_insert_eq.
  - by rewrite lookup_insert_ne.
Qed.

(** Waking a task through a pointer that may be NULL. *)
Lemma wake_tmp s tmp s' :
  wf_sched s → when (truth tmp) (set_task tmp (λ t, t <| Task.state := 0 |>)) s = Ret tt s' →
  wf_sched s' ∧ waitq s' = waitq s ∧ current s' = current s ∧ same_or_awake s s' ∧
  (tmp ≠ 0 → state_of s' tmp = Some 0).
Proof.
  intros Hwf. unfold when. destruct (truth tmp) eqn:Htr.
  - unfold set_task, deref, gets, mbind, M_bind, mret, M_ret, modify, fault.
    destruct (heap s !! tmp) as [t|] eqn:Ht; [|done]. intros E. apply Ret_inj in E as [_ <-].
    split_and!; [by apply wf_set_state|done|done|by apply set_state_awake|].
    intros _. unfold state_of. simpl. by rewrite lookup_insert_eq.
  - intros E. apply Ret_inj in E as [_ <-]. apply truth_false in Htr.
    split_and!; [done|done|done|by intros ?|done].
Qed.

(** The part of both sleeping functions before schedule: [v] is the new state. *)
Lemma enter_run s q v tmp s1 :
  (cur ← gets current;
   if cur =? init_task then panic "task[0] trying to sleep" else
   tmp ← head_of q;
   set_head q cur;;
   set_cur (λ t, t <| Task.state := v |>);;
   mret (Some tmp)) s = Ret (Some tmp) s1 →
  wf_sched s →
  wf_sched s1 ∧ tmp = default 0 (waitq s !! q) ∧ waitq s1 = <[q := current s]> (waitq s) ∧
  current s1 = current s ∧ state_of s1 (current s) = Some v ∧
  ∀ t, t ≠ current s → state_of s1 t = state_of s t.
Proof.
  unfold head_of, set_head, set_cur, set_task, deref, gets, mbind, M_bind, mret, M_ret, modify, fault, panic.
  destruct (current s =? init_task); [done|]. simpl.
  destruct (heap s !! current s) as [t|] eqn:Ht; [|done]. intros E Hwf.
  apply Ret_inj in E as [[= <-] <-]. split_and!; [|done|done|done| |].
  - destruct (wf_set_state s _ t v Hwf Ht) as [W1 W2 W3 W4]. by split.
  - unfold state_of. simpl. by rewrite lookup_insert_eq.
  - intros t' Hne. unfold state_of. simpl. by rewrite lookup_insert_ne.
Qed.

(** Entering a sleeping function and switching away keeps every sleeper linked:
    the queue's old head is now held by the new one. *)
Lemma enter_none_lost s c q v k tmp s1 s2 :
  wf_sched s → none_lost (Machine s c) → c !! current s = None → tmp_of k = tmp →
  (cur ← gets current;
   if cur =? init_task then panic "task[0] trying to sleep" else
   tmp ← head_of q;
   set_head q cur;;
   set_cur (λ t, t <| Task.state := v |>);;
   mret (Some tmp)) s = Ret (Some tmp) s1 →
  schedule FUEL s1 = Ret tt s2 →
  wf_sched s2 ∧ none_lost (Machine s2 (<[current s := k]> c)).
Proof.
  intros Hwf Hnl Hc Hk E1 E2. destruct (enter_run _ _ _ _ _ E1 Hwf) as (Hwf1 & Htmp & Hq1 & _ & _ & Hst).
  clear E1. destruct (schedule_sleepers _ _ Hwf1 E2) as (Hwf2 & Hq2 & Haw). clear E2.
  split; [done|]. intros t (Ht0 & Ht2 & tmp' & Hct). simpl in *.
  destruct (decide (current s = t)) as [<-|Hne].
  { left. exists q. simpl. by rewrite Hq2, Hq1, lookup_insert_eq. }
  rewrite lookup_insert_ne in Hct by done.
  apply Haw in Ht2. rewrite Hst in Ht2 by done.
  destruct (Hnl t) as [(q' & Hq')|(t' & k' & Hk' & Hkt)]; simpl in *.
  - split_and!; [done|done|by exists tmp'].
  - destruct (decide (q = q')) as [<-|Hqq].
    + right. exists (current s), k. simpl. rewrite lookup_insert_eq. split; [done|].
      rewrite Hk, Htmp, Hq'. done.
    + left. exists q'. simpl. by rewrite Hq2, Hq1, lookup_insert_ne.
  - right. exists t', k'. simpl. rewrite lookup_insert_ne; [done|]. intros <-. congruence.
Qed.

(** Leaving: the task [tmp] of the leaver is awake, the other links remain. *)
Lemma leave_none_lost s c k s1 :
  none_lost (Machine s c) → c !! current s = Some k → same_or_awake s s1 →
  (tmp_of k ≠ 0 → state_of s1 (tmp_of k) = Some 0) →
  (∀ q t, waitq s !! q = Some t → t ≠ 0 → t ≠ current s → waitq s1 !! q = Some t) →
  none_lost (Machine s1 (delete (current s) c)).
Proof.
  intros Hnl Hc Haw Hk Hq t (Ht0 & Ht2 & tmp' & Hct). simpl in *.
  destruct (decide (current s = t)) as [<-|Hne]; [by rewrite lookup_delete_eq in Hct|].
  rewrite lookup_delete_ne in Hct by done.
  destruct (Hnl t) as [(q' & Hq')|(t' & k' & Hk' & Hkt)]; simpl in *.
  - split_and!; [done|by apply Haw|by exists tmp'].
  - left. exists q'. apply Hq; [done|done|congruence].
  - right. exists t', k'. simpl. rewrite lookup_delete_ne; [done|]. intros <-.
    assert (k' = k) as -> by congruence. rewrite Hkt in Hk. rewrite Hk in Ht2; done.
Qed.

(** Anything that only wakes tasks and keeps the queues. *)
Lemma wake_none_lost s c s1 :
  none_lost (Machine s c) → same_or_awake s s1 →
  (∀ q t, waitq s !! q = Some t → t ≠ 0 → state_of s1 t = Some TASK_UNINTERRUPTIBLE →
     waitq s1 !! q = Some t) →
  none_lost (Machine s1 c).
Proof.
  intros Hnl Haw Hq t (Ht0 & Ht2 & Hct). simpl in *.
  destruct (Hnl t) as [(q' & Hq')|Hk]; [by split_and!; [|apply Haw|]| |by right].
  left. exists q'. by apply Hq.
Qed.

Lemma wake_up_run s q s1 :
  wf_sched s → wake_up q s = Ret tt s1 →
  wf_sched s1 ∧ same_or_awake s s1 ∧
  (∀ q' t, waitq s !! q' = Some t → t ≠ 0 → state_of s1 t ≠ Some 0 → waitq s1 !! q' = Some t).
Proof.
  intros Hwf. unfold wake_up. destruct (q =? 0).
  { intros E. apply Ret_inj in E as [_ <-]. split_and!; [done|by intros ?|done]. }
  unfold head_of, set_head, set_task, deref, gets, mbind, M_bind, mret, M_ret, modify, fault, when.
  destruct (truth (default 0 (waitq s !! q))) eqn:Htr.
  - destruct (heap s !! default 0 (waitq s !! q)) as [t|] eqn:Ht; [|done].
    intros E. apply Ret_inj in E as [_ <-]. split_and!.
    + destruct (wf_set_state s _ t 0 Hwf Ht) as [W1 W2 W3 W4]. by split.
    + exact (set_state_awake s _ t Ht).
    + intros q' t' Hq' Ht0 Hst. simpl. destruct (decide (q = q')) as [<-|]; [|by rewrite lookup_insert_ne].
      exfalso. apply Hst. unfold state_of. simpl. rewrite Hq' in *. simpl. by rewrite lookup_insert_eq.
  - intros E. apply Ret_inj in E as [_ <-]. split_and!; [done|by intros ?|done].
Qed.

Lemma int_leave_run s q tmp r s1 :
  wf_sched s → interruptible_sleep_on_leave q tmp s = Ret r s1 →
  wf_sched s1 ∧
  if r then
    same_or_awake s s1 ∧ (tmp ≠ 0 → state_of s1 tmp = Some 0) ∧
    (∀ q' t, waitq s !! q' = Some t → t ≠ 0 → t ≠ current s → waitq s1 !! q' = Some t)
  else waitq s1 = waitq s ∧ same_or_awake s s1.
Proof.
  intros Hwf. unfold interruptible_sleep_on_leave.
  unfold head_of at 1, gets at 1 2, mbind at 1 2, M_bind at 1 2. cbv beta iota.
  set (h := default 0 (waitq s !! q)).
  destruct (truth h && negb (h =? current s)) eqn:Hb.
  - intros E. destruct (heap s !! h) as [th|] eqn:Hh.
    2: { unfold set_task, deref, gets, mbind, M_bind, fault in E. by rewrite Hh in E. }
    rewrite (bind_ret _ _ _ _ _ (set_task_Ret s h th _ Hh)) in E.
    set (s0 := s <| heap ::= <[h := th <| Task.state := 0 |>]> |>) in *.
    assert (wf_sched s0) as Hwf0 by (by apply wf_set_state).
    unfold set_cur in E. unfold gets, mbind at 1 2, M_bind at 1 2 in E. cbv beta iota in E.
    destruct (heap s0 !! current s0) as [tc|] eqn:Htc.
    2: { unfold set_task, deref, gets, mbind, M_bind, fault in E. by rewrite Htc in E. }
    rewrite (set_task_Ret s0 _ tc _ Htc) in E. apply Ret_inj in E as [<- <-].
    split; [by apply wf_set_state|]. split; [done|]. intros t Ht.
    apply (set_state_awake s h th Hh). fold s0. revert Ht. unfold state_of. simpl.
    destruct (decide (current s0 = t)) as [<-|]; [by rewrite lookup_insert_eq|by rewrite lookup_insert_ne].
  - set (s0 := s <| waitq ::= <[q := 0]> |>). intros E.
    assert (wf_sched s0) as Hwf0 by (destruct Hwf as [W1 W2 W3 W4]; by split).
    rewrite (bind_ret (set_head q 0) _ s tt s0 eq_refl) in E.
    unfold mbind, M_bind in E.
    destruct (when (truth tmp) (set_task tmp (λ t, t <| Task.state := 0 |>)) s0) as [[] s2| | | | |] eqn:Ew;
      try done. apply Ret_inj in E as [<- <-].
    destruct (wake_tmp s0 tmp s2 Hwf0 Ew) as (Hwf2 & Hq2 & _ & Haw & Htmp).
    split; [done|]. split_and!; [exact Haw|done|]. intros q' t Hq' Ht0 Htc.
    rewrite Hq2. simpl. destruct (decide (q = q')) as [<-|]; [|by rewrite lookup_insert_ne].
    exfalso. unfold h in Hb. rewrite Hq' in Hb. simpl in Hb. apply truth_true in Ht0. rewrite Ht0 in Hb.
    by destruct (Z.eqb_spec t (current s)).
Qed.

Lemma same_or_awake_trans s1 s2 s3 :
  same_or_awake s1 s2 → same_or_awake s2 s3 → same_or_awake s1 s3.
Proof. intros H1 H2 t Ht. by apply H1, H2. Qed.

Lemma step_inv m m' :
  step m m' → wf_sched (ks m) → none_lost m → wf_sched (ks m') ∧ none_lost m'.
Proof.
  destruct 1 as [s c q tmp s1 s2 Hc E1 E2|s c q tmp s1 s2 Hc E1 E2|s c tmp s1 Hc E1
    |s c q tmp s1 Hc E1|s c q tmp s1 s2 Hc E1 E2|s c q s1 E1|s c s1 E1|s c p sig s1 E1|s c];
    simpl; intros Hwf Hnl.
  - unfold sleep_on_enter in E1. destruct (q =? 0); [done|]. by eapply enter_none_lost.
  - unfold interruptible_sleep_on_enter in E1. destruct (q =? 0); [done|]. by eapply enter_none_lost.
  - destruct (wake_tmp s tmp s1 Hwf E1) as (Hwf1 & Hq & _ & Haw & Htmp). split; [done|].
    eapply leave_none_lost; [done|exact Hc|done|done|]. intros q t Hqt _ _. by rewrite Hq.
  - destruct (int_leave_run _ _ _ _ _ Hwf E1) as (Hwf1 & Haw & Htmp & Hq). split; [done|].
    by eapply leave_none_lost.
  - destruct (int_leave_run _ _ _ _ _ Hwf E1) as (Hwf1 & Hq & Haw).
    destruct (schedule_sleepers _ _ Hwf1 E2) as (Hwf2 & Hq2 & Haw2). split; [done|].
    eapply wake_none_lost; [done|by eapply same_or_awake_trans|]. intros q' t Hqt _ _. by rewrite Hq2, Hq.
  - destruct (wake_up_run _ _ _ Hwf E1) as (Hwf1 & Haw & Hq). split; [done|].
    eapply wake_none_lost; [done|done|]. intros q' t Hqt Ht0 Hst. apply Hq; [done|done|by rewrite Hst].
  - destruct (schedule_sleepers _ _ Hwf E1) as (Hwf1 & Hq & Haw). split; [done|].
    eapply wake_none_lost; [done|done|]. intros q' t Hqt _ _. by rewrite Hq.
  - unfold set_task, deref, gets, mbind, M_bind, mret, M_ret, modify, fault in E1.
    destruct (heap s !! p) as [t|] eqn:Ht; [|done]. apply Ret_inj in E1 as [_ <-]. split.
    + destruct Hwf as [W1 W2 W3 W4]. split; [done| |done|done]. intros i q Hq. simpl.
      destruct (decide (p = q)) as [<-|]; [|rewrite lookup_insert_ne by done; by apply (W2 i)].
      rewrite lookup_insert_eq. destruct (W2 i p Hq) as (t' & Ht' & Hok). simplify_eq. eauto.
    + eapply wake_none_lost; [done| |done]. intros t'. unfold state_of. simpl.
      destruct (decide (p = t')) as [<-|]; [rewrite lookup_insert_eq, Ht|rewrite lookup_insert_ne]; done.
  - split; [|exact Hnl]. destruct Hwf as [W1 W2 W3 W4]. by split.
Qed.

(** C10: whatever the tasks and interrupts do, and in whatever order, a task that
    is asleep in sleep_on is never forgotten: it is at the head of a wait queue,
    or a task that has yet to return from its own sleep holds it and wakes it on
    the way out.  The chain of sleepers needs no list: it is in the stacks. *)
Theorem sleepers_stay_linked s m t :
  wf_sched s → rtc step (Machine s ∅) m → sleeping m t → linked m t.
Proof.
  intros Hwf Hr. cut (wf_sched (ks m) ∧ none_lost m); [intros [_ H]; apply H|].
  assert (none_lost (Machine s ∅)) as H0 by (intros t' (_ & _ & k & Hk); simpl in Hk; by rewrite lookup_empty in Hk).
  revert Hwf H0. change s with (ks (Machine s ∅)) at 1.
  induction Hr as [m|m1 m2 m3 Hs _ IH]; intros Hwf H0; [done|].
  destruct (step_inv _ _ Hs Hwf H0). by apply IH.
Qed.

(** ** A concrete machine *)

(** Tasks A and B in slots 1 and 2, A running. *)
Definition task_A : Z := 0x7fe000.
Definition task_B : Z := 0x7fd000.
Definition two_tasks : sched :=
  Sched (<[init_task := INIT_TASK]> (<[task_A := INIT_TASK <| Task.pid := 1 |>]>
          (<[task_B := INIT_TASK <| Task.pid := 2 |>]> ∅)))
    ([init_task; task_A; task_B] ++ replicate 61 0) task_A 0 0 0 ∅.

Lemma two_tasks_wf : wf_sched two_tasks.
Proof.
  assert (∀ i p, slot_ptr two_tasks i p →
    (i = 0 ∧ p = init_task) ∨ (i = 1 ∧ p = task_A) ∨ (i = 2 ∧ p = task_B)) as Hs.
  { intros i p (Hi & Hp & Hp0). simpl in Hp.
    destruct (decide (i < 3)) as [Hlt|Hge].
    - assert (i = 0 ∨ i = 1 ∨ i = 2) as [->|[->| ->]] by lia; simpl in Hp; simplify_eq; auto.
    - exfalso. apply Hp0. replace (Z.to_nat i) with (3 + Z.to_nat (i - 3))%nat in Hp by lia.
      rewrite !lookup_cons_ne_0 in Hp by lia. simpl in Hp.
      change (replicate 61 0 !! Z.to_nat (i - 3) = Some p) in Hp.
      by apply lookup_replicate in Hp as [-> _]. }
  split; [done| | |done].
  - intros i p Hp. assert (slice_ok INIT_TASK) as Hok by (split; lia || (cbn; lia)).
    destruct (Hs i p Hp) as [[-> ->]|[[-> ->]|[-> ->]]]; eexists; (split; [reflexivity|]); exact Hok.
  - intros i j p Hi Hj. apply Hs in Hi, Hj.
    destruct Hi as [[-> ->]|[[-> ->]|[-> ->]]], Hj as [[-> Hx]|[[-> Hx]|[-> Hx]]]; done.
Qed.

Definition QUEUE : Z := 0x1000.

(** The steps of the execution below, computed. *)
Definition run_int_sleep (m : machine) : machine :=
  match interruptible_sleep_on_enter QUEUE (ks m) with
  | Ret (Some tmp) s1 =>
      match schedule FUEL s1 with
      | Ret _ s2 => Machine s2 (<[current (ks m) := InIntSleep QUEUE tmp]> (conts m))
      | _ => m
      end
  | _ => m
  end.
Definition run_wake (m : machine) : machine :=
  match wake_up QUEUE (ks m) with Ret _ s1 => Machine s1 (conts m) | _ => m end.
Definition run_resume (m : machine) : machine :=
  match conts m !! current (ks m) with
  | Some (InIntSleep q tmp) =>
      match interruptible_sleep_on_leave q tmp (ks m) with
      | Ret true s1 => Machine s1 (delete (current (ks m)) (conts m))
      | Ret false s1 =>
          match schedule FUEL s1 with Ret _ s2 => Machine s2 (conts m) | _ => m end
      | _ => m
      end
  | _ => m
  end.
Definition lost_run : machine :=
  run_resume (run_resume (run_int_sleep (run_wake (run_int_sleep (Machine two_tasks ∅))))).

Lemma run_int_sleep_step m :
  conts m !! current (ks m) = None → rtc step m (run_int_sleep m).
Proof.
  intros Hc. unfold run_int_sleep. destruct (interruptible_sleep_on_enter _ _) as [[tmp|] s1| | | | |] eqn:E1;
    try done. destruct (schedule FUEL s1) as [[] s2| | | | |] eqn:E2; try done.
  destruct m. apply rtc_once. by eapply step_int_sleep.
Qed.
Lemma run_wake_step m : rtc step m (run_wake m).
Proof.
  unfold run_wake. destruct (wake_up _ _) as [[] s1| | | | |] eqn:E1; try done.
  destruct m. apply rtc_once. by eapply step_wake.
Qed.
Lemma run_resume_step m : rtc step m (run_resume m).
Proof.
  unfold run_resume. destruct (conts m !! current (ks m)) as [[|q tmp]|] eqn:Hc; try done.
  destruct (interruptible_sleep_on_leave q tmp (ks m)) as [[] s1| | | | |] eqn:E1; try done.
  - destruct m. apply rtc_once. by eapply step_int_resume.
  - destruct (schedule FUEL s1) as [[] s2| | | | |] eqn:E2; try done.
    destruct m. apply rtc_once. by eapply step_int_repeat.
Qed.

Lemma lost_steps : rtc step (Machine two_tasks ∅) lost_run.
Proof.
  unfold lost_run. etrans; [|apply run_resume_step]. etrans; [|apply run_resume_step].
  etrans; [|apply run_int_sleep_step; vm_compute; reflexivity].
  etrans; [|apply run_wake_step]. apply run_int_sleep_step. reflexivity.
Qed.
Lemma lost_state : state_of (ks lost_run) task_A = Some TASK_INTERRUPTIBLE.
Proof. vm_compute. reflexivity. Qed.
Lemma lost_waitq : waitq (ks lost_run) = {[QUEUE := 0]}.
Proof. vm_compute. reflexivity. Qed.
Lemma lost_conts : conts lost_run = {[task_A := InIntSleep QUEUE 0]}.
Proof. vm_compute. reflexivity. Qed.

(** Nobody refers to [t], and no wake_up changes its state. *)
Lemma unlinked m t :
  t ≠ 0 → waitq (ks m) = {[QUEUE := 0]} → conts m = {[t := InIntSleep QUEUE 0]} →
  ¬ linked m t ∧ ∀ q s', wake_up q (ks m) = Ret tt s' → s' = ks m.
Proof.
  intros Ht0 Hq Hc. split.
  - intros [(q & Hqt)|(t' & k & Hk & Ht)].
    + rewrite Hq in Hqt. by apply lookup_singleton_Some in Hqt as [_ <-].
    + rewrite Hc in Hk. by apply lookup_singleton_Some in Hk as [_ <-].
  - intros q s'. unfold wake_up. destruct (q =? 0); [by intros [_ <-]%Ret_inj|].
    assert (default 0 (waitq (ks m) !! q) = 0) as Hz.
    { rewrite Hq. destruct ({[QUEUE := 0]} !! q) as [x|] eqn:Hx; [|done].
      by apply lookup_singleton_Some in Hx as [_ <-]. }
    unfold head_of, gets, mbind, M_bind. rewrite Hz. by intros [_ <-]%Ret_inj.
Qed.

(** interruptible_sleep_on can lose a wake-up.  A sleeps on a queue; B wakes
    the queue and then sleeps on it itself; A runs, finds B at the head, wakes B
    and goes back to sleep; B runs, empties the queue and returns.  A is now
    asleep, no queue and no task refers to it, and no later wake_up on any queue
    makes it runnable. *)
Theorem interruptible_sleeper_lost :
  rtc step (Machine two_tasks ∅) lost_run ∧
  state_of (ks lost_run) task_A = Some TASK_INTERRUPTIBLE ∧
  conts lost_run !! task_A = Some (InIntSleep QUEUE 0) ∧ ¬ linked lost_run task_A ∧
  ∀ q s', wake_up q (ks lost_run) = Ret tt s' → state_of s' task_A = Some TASK_INTERRUPTIBLE.
Proof.
  destruct (unlinked lost_run task_A ltac:(discriminate) lost_waitq lost_conts) as [Hl Hw].
  split_and!; [exact lost_steps|exact lost_state| |exact Hl|].
  - rewrite lost_conts. apply lookup_singleton_eq.
  - intros q s' E. rewrite (Hw q s' E). exact lost_state.
Qed.

(** A goes to sleep on the queue. *)
Definition slept : machine :=
  match sleep_on_enter QUEUE two_tasks with
  | Ret (Some tmp) s1 =>
      match schedule FUEL s1 with
      | Ret _ s2 => Machine s2 (<[task_A := InSleepOn tmp]> ∅)
      | _ => Machine two_tasks ∅
      end
  | _ => Machine two_tasks ∅
  end.

Lemma slept_step : step (Machine two_tasks ∅) slept.
Proof.
  eapply (step_sleep two_tasks ∅ QUEUE 0); [reflexivity|vm_compute; reflexivity|vm_compute; reflexivity].
Qed.

Lemma sleepers_stay_linked_witness : linked slept task_A.
Proof.
  apply (sleepers_stay_linked two_tasks slept task_A two_tasks_wf (rtc_once _ _ slept_step)).
  split; [discriminate|]. split; [vm_compute; reflexivity|]. exists 0. vm_compute. reflexivity.
Defined.

Lemma schedule_chooses_best_witness :
  ∃ h cur, schedule 2 two_tasks = Ret tt (rescheduled two_tasks h cur) ∧
    wf_sched (rescheduled two_tasks h cur).
Proof.
  destruct (schedule_chooses_best two_tasks 2 two_tasks_wf) as (h & cur & n & again & H1 & H2 & _).
  - lia.
  - exists h, cur. split; [exact H1|exact H2].
Defined.

Lemma do_timer_preempts_user_only_witness :
  do_timer 2 3 two_tasks =
    Ret tt (two_tasks <| heap ::= <[task_A := ticked 3 (INIT_TASK <| Task.pid := 1 |>)]> |>).
Proof.
  destruct (do_timer_preempts_user_only two_tasks 2 3 (INIT_TASK <| Task.pid := 1 |>) two_tasks_wf)
    as [_ H].
  - reflexivity.
  - split; vm_compute; split; congruence.
  - lia.
  - rewrite bool_decide_true in H by (right; vm_compute; reflexivity). exact H.
Defined.
