(* ===== verification/Fair.v ===== *)
(** * The timer: no runnable task starves, and the idle task alone hangs

    While the tasks only compute, the timer interrupts give every runnable task
    the processor after a number of ticks that the time slices and the priorities
    bound: a slice that is used up is renewed only when all are, and then every
    task has one.  A tick is the whole of timer_interrupt, with the loop at
    ret_from_sys_call; the tasks that computed when they lost the processor
    continue in that loop.  When no task but task 0 can run, the same loop does
    not end. *)

From S2P Require Import Prelude Sched SchedFacts Wait.

(** ** The time that is left *)

(** A field of the task in slot [i], or 0. *)
Definition at_slot (f : Task.task_struct → Z) (s : sched) (i : Z) : Z :=
  match task s !! Z.to_nat i with
  | Some p => if p =? 0 then 0 else match heap s !! p with Some t => f t | None => 0 end
  | None => 0
  end.
Definition total (l : list Z) : Z := foldr Z.add 0 l.
(** All the time left, and all that a renewal may add. *)
Definition budget (s : sched) : Z := total (at_slot Task.counter s <$> upto NR_TASKS).
Definition renewal (s : sched) : Z := total (at_slot Task.priority s <$> upto NR_TASKS).

Lemma at_slot_ptr f s i p t : slot_ptr s i p → heap s !! p = Some t → at_slot f s i = f t.
Proof. intros (_ & Hp & Hp0) Ht. unfold at_slot. by rewrite Hp, (proj2 (Z.eqb_neq p 0)), Ht. Qed.
Lemma slot_unique s i p q : slot_ptr s i p → slot_ptr s i q → p = q.
Proof. intros (_ & Hp & _) (_ & Hq & _). congruence. Qed.
Lemma at_slot_cases s i : wf_sched s → 0 ≤ i < 64 →
  (∃ t, slice_ok t ∧ ∀ f, at_slot f s i = f t) ∨ (∀ f, at_slot f s i = 0).
Proof.
  intros Hwf Hi. destruct (task_at_Ret s i (ws_len s Hwf) Hi) as (p & Hp & _). destruct (decide (p = 0)) as [->|Hp0].
  - right. intros f. unfold at_slot. by rewrite Hp.
  - left. assert (slot_ptr s i p) as Hsp by (split_and!; [lia|done|done]). destruct (ws_live s Hwf i p Hsp) as (t & Ht & Hok).
    exists t. split; [done|]. intros f. by apply (at_slot_ptr f s i p).
Qed.
Lemma at_slot_nonneg s i : wf_sched s → 0 ≤ i < 64 → 0 ≤ at_slot Task.counter s i ∧ 0 ≤ at_slot Task.priority s i.
Proof. intros Hwf Hi. destruct (at_slot_cases s i Hwf Hi) as [(t & [? ?] & E)|E]; rewrite !E; lia. Qed.

Lemma total_cons (f : Z → Z) i l : total (f <$> i :: l) = f i + total (f <$> l).
Proof. done. Qed.
Lemma total_le (f g : Z → Z) l : (∀ i, i ∈ l → f i ≤ g i) → total (f <$> l) ≤ total (g <$> l).
Proof.
  induction l as [|i l IH]; intros H; [done|]. rewrite !total_cons. pose proof (H i ltac:(by left)).
  assert (total (f <$> l) ≤ total (g <$> l)); [|lia]. apply IH. intros j Hj. apply H. by right.
Qed.
Lemma total_eq (f g : Z → Z) l : (∀ i, i ∈ l → f i = g i) → total (f <$> l) = total (g <$> l).
Proof. intros H. apply Z.le_antisymm; apply total_le; intros i Hi; by rewrite H. Qed.
Lemma total_add (f g : Z → Z) l : total ((λ i, f i + g i) <$> l) = total (f <$> l) + total (g <$> l).
Proof. induction l as [|i l IH]; [done|]. rewrite !total_cons. lia. Qed.
Lemma total_at (f g : Z → Z) l i : NoDup l → i ∈ l → (∀ j, j ∈ l → j ≠ i → f j = g j) →
  total (f <$> l) = total (g <$> l) + f i - g i.
Proof.
  intros Hnd. induction Hnd as [|j l Hj Hnd IH]; intros Hi H; [by apply elem_of_nil in Hi|].
  rewrite !total_cons. apply elem_of_cons in Hi as [->|Hi].
  - rewrite (total_eq f g l); [lia|]. intros k Hk. apply H; [by right|]. intros ->. done.
  - rewrite IH; [|done|intros k Hk; apply H; by right]. rewrite (H j); [lia|by left|]. intros ->. done.
Qed.
Lemma budget_pos s i : wf_sched s → 0 ≤ i < 64 → at_slot Task.counter s i ≤ budget s.
Proof.
  intros Hwf Hi. unfold budget. assert (∀ j, j ∈ upto NR_TASKS → 0 ≤ at_slot Task.counter s j) as Hnn.
  { intros j Hj%elem_of_upto. apply at_slot_nonneg; [done|]. change (Z.of_nat NR_TASKS) with 64 in Hj. lia. }
  rewrite (total_at (at_slot Task.counter s) (λ j, if decide (j = i) then 0 else at_slot Task.counter s j) (upto NR_TASKS) i).
  - rewrite decide_True by done. assert (total ((λ _, 0) <$> upto NR_TASKS) ≤
      total ((λ j, if decide (j = i) then 0 else at_slot Task.counter s j) <$> upto NR_TASKS)) as H.
    { apply total_le. intros j Hj. case_decide; [done|auto]. }
    change (total ((λ _ : Z, 0) <$> upto NR_TASKS)) with 0 in H. lia.
  - apply NoDup_seqZ.
  - apply elem_of_upto. change (Z.of_nat NR_TASKS) with 64. lia.
  - intros j _ Hj. by rewrite decide_False.
Qed.

(** ** One tick *)

(** A tick for every element: the code segment it finds in the frame. *)
Fixpoint ticks (fuel : nat) (css : list Z) : M sched () :=
  match css with [] => mret () | cs :: css => timer_interrupt fuel cs;; ticks fuel css end.

(** Task [t] in slot [i] can run; some task runs. *)
Record waiting (s : sched) (i p : Z) (t : Task.task_struct) : Prop := Waiting {
  wa_wf : wf_sched s;
  wa_slot : 1 ≤ i < 64 ∧ slot_ptr s i p;
  wa_task : heap s !! p = Some t ∧ Task.state t = TASK_RUNNING;
  wa_current : ∃ m, 0 ≤ m < 64 ∧ slot_ptr s m (current s)
}.
(** The ticks until all time is used up. *)
Definition left_over (s : sched) : Z :=
  budget s + match heap s !! current s with Some t => if Task.counter t =? 0 then 1 else 0 | None => 0 end.

(** The running task is charged. *)
Lemma at_slot_charged f s m c j : wf_sched s → slot_ptr s m (current s) → 0 ≤ j →
  at_slot f (s <| heap ::= <[current s := c]> |>) j = if decide (j = m) then f c else at_slot f s j.
Proof.
  intros Hwf Hm Hj. case_decide as E.
  - subst j. apply (at_slot_ptr f _ m (current s)); [done|]. simpl. apply lookup_insert_eq.
  - unfold at_slot. simpl. destruct (task s !! Z.to_nat j) as [p|] eqn:Hp; [|done]. destruct (Z.eqb_spec p 0) as [|Hp0]; [done|].
    rewrite lookup_insert_ne; [done|]. intros <-. apply E. by apply (ws_inj s Hwf j m (current s)).
Qed.
(** schedule changes the tasks of the slots from 1 on by [g]. *)
Lemma at_slot_rescheduled f g s h cur j : wf_sched s → 0 ≤ j < 64 →
  (∀ i p, 1 ≤ i < 64 → slot_ptr s i p → h !! p = g <$> heap s !! p) →
  (∀ p, (∀ i, 1 ≤ i < 64 → ¬ slot_ptr s i p) → h !! p = heap s !! p) →
  at_slot f (rescheduled s h cur) j = if j =? 0 then at_slot f s 0 else at_slot (f ∘ g) s j.
Proof.
  intros Hwf Hj Hg Ho. destruct (Z.eqb_spec j 0) as [->|Hj0]; unfold at_slot; simpl;
    destruct (task s !! Z.to_nat _) as [p|] eqn:Hp; try done; destruct (Z.eqb_spec p 0) as [|Hp0]; try done.
  - rewrite Ho; [done|]. intros i Hi Hs. pose proof (ws_inj s Hwf i 0 p Hs) as E. rewrite E in Hi; [lia|]. by split_and!.
  - rewrite (Hg j p) by (lia || by split_and!; [lia|..]). by destruct (heap s !! p).
Qed.

Lemma ticked_counter c t : Task.counter (ticked c t) = Z.max 0 (Task.counter t - 1).
Proof. done. Qed.
Lemma ticked_same c t :
  Task.priority (ticked c t) = Task.priority t ∧ Task.state (ticked c t) = Task.state t ∧ (slice_ok t → slice_ok (ticked c t)).
Proof.
  split; [unfold ticked; by destruct (truth c)|]. split; [unfold ticked; by destruct (truth c)|].
  intros [Hc Hp]. split; [rewrite ticked_counter; lia|]. unfold ticked. by destruct (truth c).
Qed.
Lemma budget_charged s m c t : wf_sched s → 0 ≤ m < 64 → slot_ptr s m (current s) → heap s !! current s = Some t → slice_ok t →
  let s1 := s <| heap ::= <[current s := ticked c t]> |> in
  budget s1 = budget s - (if Task.counter t =? 0 then 0 else 1) ∧ renewal s1 = renewal s.
Proof.
  intros Hwf Hm Hs Ht [Hc _] s1. assert (m ∈ upto NR_TASKS) as Hin by (apply elem_of_upto; change (Z.of_nat NR_TASKS) with 64; lia).
  split.
  - unfold budget. rewrite (total_at (at_slot Task.counter s1) (at_slot Task.counter s) (upto NR_TASKS) m (NoDup_seqZ _ _) Hin).
    + unfold s1. rewrite (at_slot_charged _ s m), decide_True by (done || lia). rewrite (at_slot_ptr _ s m _ t Hs Ht), ticked_counter.
      destruct (Z.eqb_spec (Task.counter t) 0); lia.
    + intros j Hj%elem_of_upto Hne. unfold s1. by rewrite (at_slot_charged _ s m), decide_False by (done || lia).
  - apply total_eq. intros j Hj%elem_of_upto. unfold s1. rewrite (at_slot_charged _ s m) by (done || lia). case_decide as E; [|done].
    subst j. by rewrite (at_slot_ptr _ s m _ t Hs Ht), (proj1 (ticked_same c t)).
Qed.

(** What schedule does to the time that is left: without a renewal nothing. *)
Lemma budget_rescheduled s h cur (again : bool) : wf_sched s →
  (∀ i p, 1 ≤ i < 64 → slot_ptr s i p →
     h !! p = (λ t, (if again then recharged else id) (wake_signalled (jiffies s) t)) <$> heap s !! p) →
  (∀ p, (∀ i, 1 ≤ i < 64 → ¬ slot_ptr s i p) → h !! p = heap s !! p) →
  renewal (rescheduled s h cur) = renewal s ∧
  budget (rescheduled s h cur) ≤ budget s + (if again then renewal s else 0).
Proof.
  intros Hwf Hg Ho. pose proof (λ f j Hj, at_slot_rescheduled f _ s h cur j Hwf Hj Hg Ho) as H.
  assert (∀ j, j ∈ upto NR_TASKS → 0 ≤ j < 64) as Hup by (intros j Hj%elem_of_upto; change (Z.of_nat NR_TASKS) with 64 in Hj; lia).
  split.
  - apply total_eq. intros j Hj%Hup. rewrite H by done. destruct (Z.eqb_spec j 0) as [->|]; [done|].
    destruct (at_slot_cases s j Hwf Hj) as [(t & _ & E)|E]; rewrite !E; [|done].
    simpl. destruct again; simpl; by rewrite wake_signalled_priority.
  - assert (∀ j, 0 ≤ j < 64 → at_slot Task.counter (rescheduled s h cur) j ≤
      at_slot Task.counter s j + (if again then at_slot Task.priority s j else 0)) as Hle.
    { intros j Hj. rewrite H by done. destruct (at_slot_cases s j Hwf Hj) as [(t & [? ?] & E)|E].
      - destruct (Z.eqb_spec j 0) as [->|]; rewrite !E; [destruct again; lia|].
        simpl. destruct again; simpl; rewrite ?wake_signalled_counter, ?wake_signalled_priority; dlia.
      - destruct (Z.eqb_spec j 0) as [->|]; rewrite !E; destruct again; lia. }
    unfold budget. etransitivity; [apply (total_le _ (λ j, at_slot Task.counter s j + (if again then at_slot Task.priority s j else 0)))|].
    + intros j Hj%Hup. by apply Hle.
    + rewrite total_add. by destruct again.
Qed.

(** One passage through ret_from_sys_call: the running task goes on while it can
    run and has time left. *)
Lemma ret_goes_on s fuel t : heap s !! current s = Some t → Task.state t = TASK_RUNNING → Task.counter t ≠ 0 →
  (1 ≤ fuel)%nat → ∀ n, mwhile fuel (ret_passage n) s = Ret tt s.
Proof.
  intros Ht Hst Hc Hf n. destruct fuel as [|fuel]; [lia|]. cbn [mwhile].
  assert (ret_passage n s = Ret (Some tt) s) as E.
  { unfold ret_passage. assert (cur_task s = Ret t s) as Ec by (by apply deref_Ret). mstep Ec.
    rewrite Hst. destruct (Z.eqb_spec (Task.counter t) 0); [done|]. done. }
  by mstep E.
Qed.
Lemma ret_reschedules s s' n t : heap s !! current s = Some t → Task.state t ≠ TASK_RUNNING ∨ Task.counter t = 0 →
  schedule n s = Ret tt s' → ret_passage n s = Ret None s'.
Proof.
  intros Ht Hd E. unfold ret_passage, resched. assert (cur_task s = Ret t s) as Ec by (by apply deref_Ret). mstep Ec.
  change TASK_RUNNING with 0 in Hd. destruct (Z.eqb_spec (Task.state t) 0) as [Hs|Hs]; cbn [negb]; [|by mstep E].
  destruct Hd as [?|Hz]; [done|]. rewrite Hz, Z.eqb_refl. by mstep E.
Qed.

(** schedule while task [t] in slot [i] can run: the task that is chosen can run
    and has time left. *)
Lemma schedule_step s i p t fuel : wf_sched s → 1 ≤ i < 64 ∧ slot_ptr s i p → heap s !! p = Some t → Task.state t = TASK_RUNNING →
  (2 ≤ fuel)%nat → ∃ s' t' b, schedule fuel s = Ret tt s' ∧ waiting s' i p t' ∧
    (heap s' !! current s' = Some b ∧ Task.state b = TASK_RUNNING ∧ 0 < Task.counter b) ∧ renewal s' = renewal s ∧
    ((Task.counter t' = Task.counter t ∧ left_over s' ≤ budget s) ∨
     (Task.counter t = 0 ∧ 0 < Task.counter t' ∧ left_over s' ≤ budget s + renewal s)).
Proof.
  intros Hwf [Hi Hsp] Ht Hst Hf. destruct (schedule_run s fuel Hwf Hf) as (h & cur & n & again & E & Hwf2 & Hch & Hcur & Hg & Ho & Hag).
  set (s2 := rescheduled s h cur) in *. destruct (budget_rescheduled s h cur again Hwf Hg Ho) as [Hr2 Hb2]. fold s2 in Hr2, Hb2.
  set (t' := (if again then recharged else id) (wake_signalled (jiffies s) t)).
  assert (heap s2 !! p = Some t') as Ht2 by (simpl; by rewrite (Hg i p), Ht).
  assert (Task.state t' = TASK_RUNNING) as Hst2.
  { unfold t'. pose proof (wake_signalled_running (jiffies s) t Hst). by destruct again. }
  destruct Hch as [[_ Hno]|(Hn & b & [(q & Hq & Hbt) Hbr] & Hpos & _)]; [destruct (Hno i t' Hi); split; [by exists p|done]|].
  assert (q = cur) as -> by (eapply slot_unique; [exact Hq|exact Hcur]).
  assert (left_over s2 = budget s2) as El2.
  { unfold left_over. change (current s2) with cur. rewrite Hbt. destruct (Z.eqb_spec (Task.counter b) 0); lia. }
  exists s2, t', b. split; [done|]. split; [split; [done|by split|by split|exists n; split; [lia|exact Hcur]]|].
  split; [by split_and!|]. split; [done|]. rewrite El2. destruct again.
  - right. assert (Task.counter t = 0) as Hz.
    { apply (all_used_up_runnable s i t); [by apply Hag|done|]. split; [by exists p|done]. }
    split; [done|]. split; [|done]. unfold t'. simpl. rewrite wake_signalled_counter, wake_signalled_priority, Hz.
    destruct (ws_live s Hwf i p Hsp) as (t2 & Ht2' & [_ ?]). assert (t2 = t) as -> by congruence. change (0 / 2) with 0. lia.
  - left. split; [exact (wake_signalled_counter (jiffies s) t)|lia].
Qed.

(** What a tick does: it charges the running task, which then goes on, or
    schedule chooses, in do_timer or at ret_from_sys_call. *)
Lemma tick_run s m c fuel cs : wf_sched s → 0 ≤ m < 64 → slot_ptr s m (current s) → heap s !! current s = Some c → slice_ok c →
  let s1 := s <| jiffies ::= λ j, s64 (j + 1) |> <| heap ::= <[current s := ticked (cs .& 3) c]> |> in
  wf_sched s1 ∧ budget s1 = budget s - (if Task.counter c =? 0 then 0 else 1) ∧ renewal s1 = renewal s ∧
  timer_interrupt fuel cs s = (if bool_decide (Task.state c = TASK_RUNNING ∧ 1 < Task.counter c)
     then ret_from_sys_call fuel s1
     else if bool_decide (cs .& 3 = 0 ∨ 1 < Task.counter c) then ret_from_sys_call fuel s1
     else (schedule fuel;; ret_from_sys_call fuel) s1).
Proof.
  intros Hwf Hm Hcs Hc Hok. set (s0 := s <| jiffies ::= λ j, s64 (j + 1) |>). set (s1 := s0 <| heap ::= <[current s0 := ticked (cs .& 3) c]> |>).
  assert (wf_sched s0) as Hwf0 by (destruct Hwf; by split). destruct (budget_charged s0 m (cs .& 3) c Hwf0 Hm Hcs Hc Hok) as [Hb Hr].
  split; [apply wf_set_task; [done|by apply ticked_same]|]. split; [exact Hb|]. split; [exact Hr|].
  unfold timer_interrupt. assert (modify (λ s, s <| jiffies ::= λ j, s64 (j + 1) |>) s = Ret tt s0) as Em by done. mstep Em.
  unfold mbind at 1, M_bind. rewrite (do_timer_run s0 fuel _ c Hc Hok). cbv zeta. fold s1.
  case_bool_decide as H1; case_bool_decide as H2; try done. exfalso. apply H1. right. lia.
Qed.

Lemma tick_step s i p t fuel cs : waiting s i p t → current s ≠ p → (2 ≤ fuel)%nat →
  ∃ s' t', timer_interrupt fuel cs s = Ret tt s' ∧ waiting s' i p t' ∧ renewal s' = renewal s ∧
    ((Task.counter t' = Task.counter t ∧ left_over s' ≤ left_over s - 1) ∨
     (Task.counter t = 0 ∧ 0 < Task.counter t' ∧ left_over s' ≤ left_over s + renewal s)).
Proof.
  intros [Hwf [Hi Hsp] [Ht Hst] (m & Hm & Hcs)] Hne Hf. destruct (ws_live s Hwf m _ Hcs) as (c & Hc & Hok).
  destruct (tick_run s m c fuel cs Hwf Hm Hcs Hc Hok) as (Hwf1 & Hb1 & Hr1 & Erun). revert Hwf1 Hb1 Hr1 Erun.
  set (s1 := s <| jiffies ::= _ |> <| heap ::= _ |>). intros Hwf1 Hb1 Hr1 Erun.
  assert (heap s1 !! current s1 = Some (ticked (cs .& 3) c)) as Hc1 by apply lookup_insert_eq.
  assert (left_over s = budget s + (if Task.counter c =? 0 then 1 else 0)) as El by (unfold left_over; by rewrite Hc).
  assert (heap s1 !! p = Some t) as Ht1 by (simpl; by rewrite lookup_insert_ne).
  destruct (ticked_same (cs .& 3) c) as (_ & Hs1 & _). pose proof (ticked_counter (cs .& 3) c) as Hn1. destruct Hok as [Hc0 _].
  rewrite Erun. destruct (bool_decide_reflect (Task.state c = TASK_RUNNING ∧ 1 < Task.counter c)) as [[Hrc Hlt]|Hno].
  { exists s1, t. split; [apply (ret_goes_on s1 fuel _ Hc1); [by rewrite Hs1|lia|lia]|]. split; [|split; [done|left; split; [done|]]].
    - split; [done|done|done|]. by exists m.
    - unfold left_over at 1. rewrite Hc1, El, Hb1, Hn1. destruct (Z.eqb_spec (Task.counter c) 0), (Z.eqb_spec (0 `max` (Task.counter c - 1)) 0); lia. }
  destruct (schedule_step s1 i p t fuel Hwf1 (conj Hi Hsp) Ht1 Hst Hf) as (s2 & t' & b & E & HW & (Hb & Hbr & Hbc) & Hr2 & Hcase).
  exists s2, t'. split; [|split; [done|split; [congruence|]]].
  - destruct fuel as [|[|fuel]]; [lia|lia|]. case_bool_decide as Hd.
    + unfold ret_from_sys_call. cbn [mwhile]. assert (ret_passage (S (S fuel)) s1 = Ret None s2) as E1.
      { apply (ret_reschedules s1 s2 _ _ Hc1); [|done]. rewrite Hs1, Hn1. destruct (decide (Task.state c = TASK_RUNNING)); [right; lia|by left]. }
      mstep E1. apply (ret_goes_on s2 (S fuel) b Hb Hbr); lia.
    + mstep E. apply (ret_goes_on s2 (S (S fuel)) b Hb Hbr); lia.
  - rewrite El. destruct (Task.counter c =? 0); destruct Hcase as [[? ?]|(? & ? & ?)]; [left|right|left|right]; repeat split; lia.
Qed.

(** ** No starvation *)

Lemma waiting_counter s i p t : waiting s i p t → Task.counter t ≤ budget s.
Proof.
  intros [Hwf [Hi Hsp] [Ht _] _]. rewrite <-(at_slot_ptr Task.counter s i p t Hsp Ht). apply budget_pos; [done|lia].
Qed.
Lemma left_over_budget s : budget s ≤ left_over s ≤ budget s + 1.
Proof. unfold left_over. destruct (heap s !! current s) as [t|]; [|lia]. destruct (Task.counter t =? 0); lia. Qed.
(** A task with time left runs before that of all is used up. *)
Lemma runs_in_this_round fuel i p k : (2 ≤ fuel)%nat → ∀ css s t, waiting s i p t → 0 < Task.counter t →
  left_over s ≤ Z.of_nat k → (k ≤ length css)%nat →
  ∃ n s', (n ≤ k)%nat ∧ ticks fuel (take n css) s = Ret tt s' ∧ current s' = p.
Proof.
  intros Hf. induction k as [|k IH]; intros css s t HW Hpos Hk Hl.
  - pose proof (waiting_counter s i p t HW). pose proof (left_over_budget s). lia.
  - destruct (decide (current s = p)) as [|Hne]; [by exists O, s; split; [lia|]|]. destruct css as [|cs css]; [simpl in Hl; lia|].
    destruct (tick_step s i p t fuel cs HW Hne Hf) as (s1 & t1 & E & HW1 & _ & [(Ec & Hl1)|(Ez & _)]); [|lia].
    destruct (IH css s1 t1 HW1 ltac:(lia) ltac:(lia) ltac:(simpl in Hl; lia)) as (n & s' & Hn & En & Ecur). exists (S n), s'. split; [lia|].
    split; [|done]. cbn [take ticks]. by rewrite (bind_ret _ _ _ _ _ E).
Qed.
Lemma budgets_nonneg s : wf_sched s → 0 ≤ budget s ∧ 0 ≤ renewal s.
Proof.
  intros Hwf. change 0 with (total ((λ _ : Z, 0) <$> upto NR_TASKS)).
  split; apply total_le; intros j Hj%elem_of_upto; by apply at_slot_nonneg.
Qed.
(** A task without waits for the renewal first. *)
Lemma runs_in_two_rounds fuel i p k : (2 ≤ fuel)%nat → ∀ css s t, waiting s i p t → left_over s ≤ Z.of_nat k →
  2 * Z.of_nat k + 1 + renewal s ≤ Z.of_nat (length css) →
  ∃ n s', Z.of_nat n ≤ 2 * Z.of_nat k + 1 + renewal s ∧ ticks fuel (take n css) s = Ret tt s' ∧ current s' = p.
Proof.
  intros Hf. induction k as [k IH] using lt_wf_ind. intros css s t HW Hk Hlen.
  destruct (budgets_nonneg s (wa_wf _ _ _ _ HW)) as [Hb Hr]. pose proof (left_over_budget s) as Hlb.
  destruct (decide (current s = p)) as [|Hne]; [by exists O, s; split; [lia|]|]. destruct css as [|cs css]; [simpl in Hlen; lia|].
  rewrite length_cons in Hlen. destruct (tick_step s i p t fuel cs HW Hne Hf) as (s1 & t1 & E & HW1 & ER & Hcase).
  destruct (budgets_nonneg s1 (wa_wf _ _ _ _ HW1)) as [Hb1 _]. pose proof (left_over_budget s1) as Hlb1.
  assert (∃ n s', Z.of_nat n ≤ 2 * Z.of_nat k + renewal s ∧ ticks fuel (take n css) s1 = Ret tt s' ∧ current s' = p) as (n & s' & Hn & En & Ec).
  { destruct Hcase as [[_ Hl]|(_ & Hpos & Hl)].
    - destruct (IH (k - 1)%nat ltac:(lia) css s1 t1 HW1 ltac:(lia) ltac:(lia)) as (n & s' & Hn & H). exists n, s'. split; [lia|done].
    - destruct (runs_in_this_round fuel i p (Z.to_nat (left_over s1)) Hf css s1 t1 HW1 Hpos ltac:(lia) ltac:(lia)) as (n & s' & Hn & H).
      exists n, s'. split; [lia|done]. }
  exists (S n), s'. split; [lia|]. split; [|done]. cbn [take ticks]. by rewrite (bind_ret _ _ _ _ _ E).
Qed.

(** C12: No runnable task starves while the tasks compute: whatever time slices
    and priorities there are, whichever task runs, and whether the ticks find the
    processor in user or in kernel mode ([css] are the code segments they find),
    after at most twice the time all tasks have left, plus what one renewal adds,
    plus three ticks, timer_interrupt has returned every time and has given the
    processor to it.  Signals that come due and tasks they wake on the way do not
    delay it further. *)
Theorem runnable_task_gets_processor s i p t fuel css :
  wf_sched s → 1 ≤ i < 64 → slot_ptr s i p → heap s !! p = Some t → Task.state t = TASK_RUNNING →
  (∃ m, 0 ≤ m < 64 ∧ slot_ptr s m (current s)) → (2 ≤ fuel)%nat →
  2 * budget s + renewal s + 3 ≤ Z.of_nat (length css) →
  ∃ n s', Z.of_nat n ≤ 2 * budget s + renewal s + 3 ∧ ticks fuel (take n css) s = Ret tt s' ∧ current s' = p.
Proof.
  intros Hwf Hi Hsp Ht Hst Hcur Hf Hlen. assert (waiting s i p t) as HW by (by split).
  pose proof (left_over_budget s). destruct (budgets_nonneg s Hwf).
  destruct (runs_in_two_rounds fuel i p (Z.to_nat (left_over s)) Hf css s t HW ltac:(lia) ltac:(lia)) as (n & s' & Hn & H').
  exists n, s'. split; [lia|done].
Qed.

(** ** Tasks A and B compute, A runs, B is in slot 2

    The ticks find user mode (0x1b) and kernel mode (0x08) in turn. *)

Definition modes (n : nat) : list Z := mjoin (replicate n [0x1b; 0x08]).

Example two_tasks_ticks : match ticks 2 (take 15 (modes 8)) two_tasks with Ret _ s => current s = task_B | _ => False end ∧
  match ticks 2 (take 14 (modes 8)) two_tasks with Ret _ s => current s = task_A | _ => False end ∧
  budget two_tasks = 45 ∧ renewal two_tasks = 45.
Proof. split_and!; vm_compute; reflexivity. Qed.
Lemma runnable_task_gets_processor_witness :
  ∃ n s', Z.of_nat n ≤ 138 ∧ ticks 2 (take n (modes 70)) two_tasks = Ret tt s' ∧ current s' = task_B.
Proof.
  destruct (runnable_task_gets_processor two_tasks 2 task_B (INIT_TASK <| Task.pid := 2 |>) 2 (modes 70)) as (n & s' & Hn & E & Ec).
  - exact two_tasks_wf.
  - lia.
  - split; [lia|split; [reflexivity|discriminate]].
  - reflexivity.
  - reflexivity.
  - exists 1. split; [lia|]. split; [lia|split; [reflexivity|discriminate]].
  - lia.
  - vm_compute. discriminate.
  - exists n, s'. split; [vm_compute in Hn |- *; exact Hn|]. split; [exact E|exact Ec].
Defined.

(** ** The idle task alone

    In the original order of the stubs the tests of state and counter stand
    before the label ret_from_sys_call; here they follow it, so [reschedule] comes
    back to them.  When no task but task 0 can run, schedule renews no slice: the
    loop is endless, in an interrupt gate, with interrupts off. *)

Record alone (s : sched) (t : Task.task_struct) : Prop := Alone {
  al_wf : wf_sched s;
  al_current : current s = init_task;
  al_task : heap s !! init_task = Some t;
  al_others : ∀ i t', 1 ≤ i < 64 → in_slot s i t' → Task.state (wake_signalled (jiffies s) t') ≠ TASK_RUNNING
}.

Lemma wake_signalled_idem j t : wake_signalled j (wake_signalled j t) = wake_signalled j t.
Proof.
  destruct t as [st c pr sg ? ? ? ? ? ? ? ? ? ? ? ? ? ? ? ? ? ? al]. unfold wake_signalled; simpl.
  destruct (truth al && (al <? j)) eqn:E; simpl.
  - destruct (truth (sg .| _) && (st =? TASK_INTERRUPTIBLE)) eqn:F; simpl; by rewrite ?F, ?andb_false_r.
  - destruct (truth sg && (st =? TASK_INTERRUPTIBLE)) eqn:F; simpl; rewrite E; simpl; by rewrite ?F, ?andb_false_r.
Qed.

Lemma schedule_alone s t fuel : alone s t → (2 ≤ fuel)%nat →
  ∃ s', schedule fuel s = Ret tt s' ∧ alone s' t.
Proof.
  intros [Hwf Hc Ht Ho] Hf. destruct (schedule_run s fuel Hwf Hf) as (h & cur & n & again & E & Hwf' & Hch & Hcur & Hg & Hn & Hag).
  assert (again = false) as ->.
  { destruct again; [|done]. destruct (proj1 Hag eq_refl) as [(i & t' & Hi & Hs & Hst) _]. by destruct (Ho i t' Hi Hs). }
  assert (∀ i t', 1 ≤ i < 64 → in_slot (rescheduled s h cur) i t' → ∃ t0, in_slot s i t0 ∧ t' = wake_signalled (jiffies s) t0) as Hin.
  { intros i t' Hi (p & Hp & Ht'). simpl in Ht'. rewrite (Hg i p Hi Hp) in Ht'. apply fmap_Some in Ht' as (t0 & Ht0 & ->).
    exists t0. split; [by exists p|done]. }
  assert (slot_ptr s 0 init_task) as H0 by (split_and!; [lia|apply (ws_init s Hwf)|done]).
  exists (rescheduled s h cur). split; [done|]. split; [done| | |].
  - destruct Hch as [[-> _]|(Hn1 & b & [Hb Hst] & _)]; [by apply (slot_unique s 0)|].
    destruct (Hin n b Hn1 Hb) as (t0 & Ht0 & ->). by destruct (Ho n t0 Hn1 Ht0).
  - simpl. rewrite Hn; [done|]. intros i Hi Hsi. pose proof (ws_inj s Hwf i 0 init_task Hsi H0). lia.
  - intros i t' Hi Hs. destruct (Hin i t' Hi Hs) as (t0 & Ht0 & ->). simpl. rewrite wake_signalled_idem. by apply (Ho i t0).
Qed.

Lemma passage_alone s t fuel : alone s t → Task.counter t = 0 → (2 ≤ fuel)%nat →
  ∃ s', ret_passage fuel s = Ret None s' ∧ alone s' t.
Proof.
  intros Ha Hz Hf. destruct (schedule_alone s t fuel Ha Hf) as (s' & E & Ha'). exists s'. split; [|done].
  apply (ret_reschedules s s' fuel t); [by rewrite (al_current s t Ha), (al_task s t Ha)|by right|done].
Qed.
Lemma passages_alone t fuel n : Task.counter t = 0 → (2 ≤ fuel)%nat → ∀ s, alone s t →
  (∃ s', nsteps (λ a b, ret_passage fuel a = Ret None b) n s s') ∧ ∃ s', mwhile n (ret_passage fuel) s = NoFuel s'.
Proof.
  intros Hz Hf. induction n as [|n IH]; intros s Ha; [split; exists s; [constructor|done]|].
  destruct (passage_alone s t fuel Ha Hz Hf) as (s1 & E & Ha1). destruct (IH s1 Ha1) as [(s' & Hs) (s2 & En)].
  split; [exists s'; by econstructor|]. exists s2. cbn [mwhile]. by mstep E.
Qed.

(** do_timer charges task 0 and leaves it alone with no time. *)
Lemma tick_alone s t fuel cpl : alone s t → Task.counter t ≤ 1 → (2 ≤ fuel)%nat →
  ∃ s' , do_timer fuel cpl s = Ret tt s' ∧ alone s' (ticked cpl t).
Proof.
  intros [Hwf Hc Ht Ho] H1 Hf. assert (slot_ptr s 0 init_task) as H0 by (split_and!; [lia|apply (ws_init s Hwf)|done]).
  assert (slice_ok t) as Hok by (destruct (ws_live s Hwf 0 _ H0) as (t' & Ht' & Hok); congruence).
  set (s1 := s <| heap ::= <[current s := ticked cpl t]> |>).
  assert (alone s1 (ticked cpl t)) as Ha1.
  { split; [apply wf_set_task; [done|by apply ticked_same]|done|simpl; rewrite Hc; apply lookup_insert_eq|].
    intros i t' Hi (p & Hp & Hpt). apply (Ho i t' Hi). exists p. split; [done|]. simpl in Hpt.
    rewrite lookup_insert_ne in Hpt; [done|]. rewrite Hc. intros <-. pose proof (ws_inj s Hwf i 0 init_task Hp H0). lia. }
  rewrite (do_timer_run s fuel cpl t) by (done || by rewrite Hc). cbv zeta. fold s1.
  case_bool_decide; [by exists s1|]. by apply schedule_alone.
Qed.

(** C40: The tick that uses up the slice of task 0 while no other task can run
    never returns, in user mode or in kernel mode: do_timer returns, but every
    passage through ret_from_sys_call calls schedule and jumps back to the label,
    so no amount of fuel is enough.  (The code runs its shell as task 0 in kernel
    mode, alone: the fifteenth tick after boot is such a tick.) *)
Theorem idle_tick_never_returns s t cs :
  wf_sched s → current s = init_task → heap s !! init_task = Some t → Task.counter t ≤ 1 →
  (∀ i t', 1 ≤ i < 64 → in_slot s i t' → Task.state (wake_signalled (s64 (jiffies s + 1)) t') ≠ TASK_RUNNING) →
  (∃ s1, do_timer 2 (cs .& 3) (s <| jiffies ::= λ j, s64 (j + 1) |>) = Ret tt s1 ∧
     ∀ n, ∃ s', nsteps (λ a b, ret_passage 2 a = Ret None b) n s1 s') ∧
  ∀ fuel, (2 ≤ fuel)%nat → ∃ s', timer_interrupt fuel cs s = NoFuel s'.
Proof.
  intros Hwf Hc Ht H1 Ho. set (s0 := s <| jiffies ::= λ j, s64 (j + 1) |>).
  assert (alone s0 t) as Ha by (split; [destruct Hwf; by split|done..]).
  assert (Task.counter (ticked (cs .& 3) t) = 0) as Hz by (rewrite ticked_counter; lia). split.
  - destruct (tick_alone s0 t 2 (cs .& 3) Ha H1 (le_n 2)) as (s1 & E & Ha1). exists s1. split; [exact E|].
    intros n. by apply (passages_alone _ 2 n Hz (le_n 2)).
  - intros fuel Hf. destruct (tick_alone s0 t fuel (cs .& 3) Ha H1 Hf) as (s1 & E & Ha1).
    destruct (passages_alone _ fuel fuel Hz Hf s1 Ha1) as [_ (s' & Hn)]. exists s'. unfold timer_interrupt.
    assert (modify (λ s, s <| jiffies ::= λ j, s64 (j + 1) |>) s = Ret tt s0) as Em by done. mstep Em. mstep E. exact Hn.
Qed.

(** ** The system after start-up: the shell runs as task 0, in kernel mode *)

Definition booted : sched := Sched {[init_task := INIT_TASK]} (init_task :: replicate 63 0) init_task 0 0 0 ∅.
(** After 14 ticks. *)
Definition last_slice : Task.task_struct := INIT_TASK <| Task.stime := 14 |> <| Task.counter := 1 |>.
Definition booted_14 : sched := booted <| heap := {[init_task := last_slice]} |> <| jiffies := 14 |>.

Lemma booted_slots s i p : task s = task booted → slot_ptr s i p → i = 0 ∧ p = init_task.
Proof.
  intros Et (Hi & Hp & Hp0). rewrite Et in Hp. destruct (Z.to_nat i) as [|n] eqn:E; [split; [lia|by injection Hp]|].
  simpl in Hp. apply (lookup_replicate_1 63) in Hp as [-> _]. done.
Qed.
Lemma booted_14_wf : wf_sched booted_14.
Proof.
  split; [done| | |done].
  - intros i p [-> ->]%booted_slots; [|done]. exists last_slice. split; [by apply lookup_singleton_eq|].
    split; vm_compute; split; congruence.
  - intros i j p [-> ->]%booted_slots [-> _]%booted_slots; done.
Qed.
Lemma booted_14_ticks : ticks 2 (replicate 14 0x08) booted = Ret tt booted_14.
Proof. vm_compute. reflexivity. Qed.

Lemma idle_tick_never_returns_witness :
  ticks 2 (replicate 14 0x08) booted = Ret tt booted_14 ∧
  ∀ fuel, (2 ≤ fuel)%nat → ∃ s', timer_interrupt fuel 0x08 booted_14 = NoFuel s'.
Proof.
  split; [exact booted_14_ticks|].
  destruct (idle_tick_never_returns booted_14 last_slice 0x08) as [_ H].
  - exact booted_14_wf.
  - reflexivity.
  - reflexivity.
  - vm_compute. discriminate.
  - intros i t' Hi (p & [-> _]%booted_slots & _); [lia|reflexivity].
  - exact H.
Defined.
