(* ===== verification/Ctype.v ===== *)
(** * Character classes (include/ctype.h, lib/ctype.c)

    The table of 257 bytes the macros index with [c + 1], the class tests and
    the two case conversions.  An index outside of the table is an access
    outside of its object ([None]). *)

From S2P Require Import Prelude.

Module Ctype.
Definition U : Z := 0x01.
Definition L : Z := 0x02.
Definition D : Z := 0x04.
Definition C : Z := 0x08.
Definition P : Z := 0x10.
Definition S : Z := 0x20.
Definition X : Z := 0x40.
Definition SP : Z := 0x80.

Definition ctype : list Z :=
  [0x00] ++
  replicate 8 C ++ [C] ++ replicate 5 (C .| S) ++ [C; C] ++
  replicate 8 C ++ replicate 8 C ++
  [S .| SP] ++ replicate 7 P ++ replicate 8 P ++
  replicate 8 D ++ [D; D] ++ replicate 6 P ++
  [P] ++ replicate 6 (U .| X) ++ [U] ++ replicate 8 U ++ replicate 8 U ++
  [U; U; U] ++ replicate 5 P ++
  [P] ++ replicate 6 (L .| X) ++ [L] ++ replicate 8 L ++ replicate 8 L ++
  [L; L; L] ++ replicate 4 P ++ [C] ++
  replicate 128 0.

(** [(_ctype+1)[c] & mask] *)
Definition class_of (mask c : Z) : option bool :=
  if c + 1 <? 0 then None
  else (λ v, truth (v .& mask)) <$> ctype !! Z.to_nat (c + 1).

Definition isalnum := class_of (U .| L .| D).
Definition isalpha := class_of (U .| L).
Definition iscntrl := class_of C.
Definition isdigit := class_of D.
Definition isgraph := class_of (P .| U .| L .| D).
Definition islower := class_of L.
Definition isprint := class_of (P .| U .| L .| D .| SP).
Definition ispunct := class_of P.
Definition isspace := class_of S.
Definition isupper := class_of U.
Definition isxdigit := class_of (D .| X).

Definition isascii (c : Z) : bool := u32 c <=? 0x7f.
Definition toascii (c : Z) : Z := u32 c .& 0x7f.

(** [_ctmp] is a (signed) char. *)
Definition tolower (c : Z) : option Z :=
  let ctmp := s8 c in
  b ← isupper ctmp; mret (if b : bool then ctmp + (97 + 65) else ctmp).
Definition toupper (c : Z) : option Z :=
  let ctmp := s8 c in
  b ← islower ctmp; mret (if b : bool then ctmp + (65 - 97) else ctmp).
End Ctype.

(** ** The classes are the ASCII ones *)

Definition between (a c b : Z) : bool := (a <=? c) && (c <=? b).

(** The meaning of each class on the codes 0 to 127. *)
Definition ascii_class (f : Z → option bool) (g : Z → bool) : Prop :=
  ∀ c, 0 ≤ c < 128 → f c = Some (g c).

Definition agree (f : Z → option bool) (g : Z → bool) (c : Z) : bool :=
  match f c with Some b => Bool.eqb b (g c) | None => false end.

Lemma ascii_class_check f g : forallb (agree f g) (upto 128) = true → ascii_class f g.
Proof.
  intros H c Hc. rewrite forallb_forall in H.
  assert (agree f g c = true) as Ha by (apply H, list_elem_of_In, elem_of_upto; lia).
  unfold agree in Ha. destruct (f c) as [b|]; [|done]. by apply Bool.eqb_prop in Ha as ->.
Qed.

Lemma isupper_ascii : ascii_class Ctype.isupper (λ c, between 65 c 90).
Proof. apply ascii_class_check. vm_compute. reflexivity. Qed.
Lemma islower_ascii : ascii_class Ctype.islower (λ c, between 97 c 122).
Proof. apply ascii_class_check. vm_compute. reflexivity. Qed.

(** the class macros are the ASCII character classes, for every code from 0
    to 127, and an end-of-file (-1) is in no class. *)
Theorem ctype_classes :
  ascii_class Ctype.isdigit (λ c, between 48 c 57) ∧
  ascii_class Ctype.isupper (λ c, between 65 c 90) ∧
  ascii_class Ctype.islower (λ c, between 97 c 122) ∧
  ascii_class Ctype.isalpha (λ c, between 65 c 90 || between 97 c 122) ∧
  ascii_class Ctype.isalnum (λ c, between 48 c 57 || between 65 c 90 || between 97 c 122) ∧
  ascii_class Ctype.isxdigit (λ c, between 48 c 57 || between 65 c 70 || between 97 c 102) ∧
  ascii_class Ctype.isspace (λ c, between 9 c 13 || (c =? 32)) ∧
  ascii_class Ctype.iscntrl (λ c, between 0 c 31 || (c =? 127)) ∧
  ascii_class Ctype.isprint (λ c, between 32 c 126) ∧
  ascii_class Ctype.isgraph (λ c, between 33 c 126) ∧
  ascii_class Ctype.ispunct (λ c, between 33 c 47 || between 58 c 64 || between 91 c 96 || between 123 c 126) ∧
  Ctype.isalnum (-1) = Some false ∧ Ctype.isspace (-1) = Some false ∧ Ctype.isprint (-1) = Some false.
Proof.
  split_and!; try reflexivity; apply ascii_class_check; vm_compute; reflexivity.
Qed.

(** toupper maps the small letters to the capitals and leaves the other
    codes alone, but tolower, which adds 'a'+'A' instead of 'a'-'A', maps every
    capital to a value that is no ASCII code. *)
Theorem case_conversions c :
  0 ≤ c < 128 →
  Ctype.toupper c = Some (if between 97 c 122 then c - 32 else c) ∧
  Ctype.tolower c = Some (if between 65 c 90 then c + 162 else c).
Proof.
  intros Hc. assert (s8 c = c) as Hs by (unfold s8; rewrite Z.mod_small; lia).
  unfold Ctype.toupper, Ctype.tolower. rewrite Hs, isupper_ascii, islower_ascii by done. simpl.
  destruct (between 97 c 122), (between 65 c 90); split; try done; f_equal; lia.
Qed.

Lemma case_conversions_witness :
  Ctype.toupper 97 = Some 65 ∧ Ctype.tolower 65 = Some 227.
Proof.
  destruct (case_conversions 97) as [H1 _]; [lia|].
  destruct (case_conversions 65) as [_ H2]; [lia|]. split; [exact H1|exact H2].
Defined.
