(* ===== verification/Console.v ===== *)
(** * The console (kernel/console.c)

    The VT102 emulation over the text-mode video memory.  Video memory is a map
    from the address of a 16-bit cell to its value; a read or write outside of
    [SCREEN_START, SCREEN_END) is a [Fault].  [con_put] is the body of con_write
    for one character; it reports whether respond is to be called, which belongs
    to the terminal (TtyIo). *)

From S2P Require Import Prelude.

Definition SCREEN_START : Z := 0xb8000.
Definition SCREEN_END : Z := 0xc0000.
Definition LINES : Z := 25.
Definition COLUMNS : Z := 80.
Definition NPAR : Z := 16.

(** "\033[?1;2c" *)
Definition RESPONSE : list Z := [27; 91; 63; 49; 59; 50; 99].

Record console := Console {
  origin : Z; scr_end : Z; pos : Z; x : Z; y : Z; top : Z; bottom : Z;
  esc : Z;                       (* [state], the state of the escape parser *)
  npar : Z; par : list Z; ques : Z; attr : Z; saved_x : Z; saved_y : Z;
  vram : gmap Z Z;               (* 16-bit cells, by address *)
  ports : list (Z * Z)           (* (value, port) of every outb, oldest first *)
}.
#[export] Instance eta_console : Eta console := λ c,
  Console (origin c) (scr_end c) (pos c) (x c) (y c) (top c) (bottom c) (esc c)
    (npar c) (par c) (ques c) (attr c) (saved_x c) (saved_y c) (vram c) (ports c).

(** [lines] and [columns] are variables of the source that are never assigned. *)
Definition lines : Z := LINES.
Definition columns : Z := COLUMNS.

Definition con_boot : console :=
  Console SCREEN_START (SCREEN_START + LINES * COLUMNS * 2) 0 0 0 0 LINES 0 0
    (replicate 16 0) 0 0x07 0 0 ∅ [].

(** ** Video memory *)

Definition in_vram (a : Z) : bool := (SCREEN_START <=? a) && (a + 2 <=? SCREEN_END).
Definition vread (a : Z) : M console Z :=
  if in_vram a then gets (λ c, default 0 (vram c !! a)) else fault.
Definition vwrite (a v : Z) : M console () :=
  if in_vram a then modify (λ c, c <| vram ::= <[a := v]> |>) else fault.
Definition outb_p (v port : Z) : M console () :=
  modify (λ c, c <| ports ::= λ l, l ++ [(v, port)] |>).

Definition memsetw (dest val count : Z) : M console () :=
  mfor (λ i, vwrite (dest + 2 * i) val) (upto (Z.to_nat count)).
Definition memcpyw (dest src count : Z) : M console () :=
  mfor (λ i, v ← vread (src + 2 * i); vwrite (dest + 2 * i) v) (upto (Z.to_nat count)).
(** from the last word down to the first *)
Definition memcpyw_backward (dest src count : Z) : M console () :=
  mfor (λ i, v ← vread (src + 2 * i); vwrite (dest + 2 * i) v) (downfrom (Z.to_nat count)).

(** ** Cursor and scrolling *)

Definition gotoxy (new_x new_y : Z) : M console () :=
  let new_x := u32 new_x in
  let new_y := u32 new_y in
  if (columns <=? new_x) || (lines <=? new_y) then mret () else
  modify (λ c, c <| x := new_x |> <| y := new_y |>
                 <| pos := origin c + Z.shiftl (new_y * columns + new_x) 1 |>).

Definition set_origin : M console () :=
  o ← gets origin;
  outb_p 12 0x3d4;; outb_p (0xff .& Z.shiftr (o - SCREEN_START) 9) 0x3d5;;
  outb_p 13 0x3d4;; outb_p (0xff .& Z.shiftr (o - SCREEN_START) 1) 0x3d5.

Definition scrup : M console () :=
  t ← gets top;
  b ← gets bottom;
  if negb (truth t) && (b =? lines) then
    modify (λ c, c <| origin ::= Z.add (Z.shiftl columns 1) |>
                   <| pos ::= Z.add (Z.shiftl columns 1) |>
                   <| scr_end ::= Z.add (Z.shiftl columns 1) |>);;
    e ← gets scr_end;
    (if SCREEN_END <? e then
       o ← gets origin;
       memcpyw SCREEN_START o ((lines - 1) * columns);;
       memsetw (SCREEN_START + (lines - 1) * columns * 2) 0x0720 columns;;
       modify (λ c, c <| scr_end ::= λ e, e - (origin c - SCREEN_START) |>
                      <| pos ::= λ p, p - (origin c - SCREEN_START) |>
                      <| origin := SCREEN_START |>)
     else memsetw (e - Z.shiftl columns 1) 0x0720 columns);;
    set_origin
  else
    o ← gets origin;
    memcpyw (o + Z.shiftl columns 1 * t) (o + Z.shiftl columns 1 * (t + 1))
      (u64 (b - t - 1) * columns);;
    memsetw (o + Z.shiftl columns 1 * (b - 1)) 0x0720 columns.

Definition scrdown : M console () :=
  t ← gets top;
  b ← gets bottom;
  o ← gets origin;
  memcpyw_backward (o + Z.shiftl columns 1 * (t + 1)) (o + Z.shiftl columns 1 * t)
    (u64 (b - t - 1) * columns);;
  memsetw (o + Z.shiftl columns 1 * t) 0x0720 columns.

Definition lf : M console () :=
  cy ← gets y;
  b ← gets bottom;
  if cy + 1 <? b then
    modify (λ c, c <| y ::= Z.succ |> <| pos ::= Z.add (Z.shiftl columns 1) |>)
  else scrup.

Definition ri : M console () :=
  cy ← gets y;
  t ← gets top;
  if t <? cy then
    modify (λ c, c <| y ::= Z.pred |> <| pos ::= λ p, p - Z.shiftl columns 1 |>)
  else scrdown.

Definition cr : M console () :=
  modify (λ c, c <| pos ::= λ p, p - Z.shiftl (x c) 1 |> <| x := 0 |>).

Definition del : M console () :=
  cx ← gets x;
  if truth cx then
    modify (λ c, c <| pos ::= λ p, p - 2 |> <| x ::= Z.pred |>);;
    p ← gets pos;
    vwrite p 0x0720
  else mret ().

(** ** Erasing *)

Definition csi_J (vpar : Z) : M console () :=
  c ← get_st;
  let vpar := s32 vpar in
  if vpar =? 0 then memsetw (pos c) 0x0720 (Z.shiftr (u64 (scr_end c - pos c)) 1)
  else if vpar =? 1 then memsetw (origin c) 0x0720 (Z.shiftr (u64 (pos c - origin c)) 1)
  else if vpar =? 2 then memsetw (origin c) 0x0720 (columns * lines)
  else mret ().

Definition csi_K (vpar : Z) : M console () :=
  c ← get_st;
  let vpar := s32 vpar in
  if vpar =? 0 then
    if columns <=? x c then mret () else memsetw (pos c) 0x0720 (columns - x c)
  else if vpar =? 1 then
    memsetw (pos c - Z.shiftl (x c) 1) 0x0720 (if x c <? columns then x c else columns)
  else if vpar =? 2 then memsetw (pos c - Z.shiftl (x c) 1) 0x0720 columns
  else mret ().

Definition attr_of (p old : Z) : Z :=
  if p =? 0 then 0x07 else if p =? 1 then 0x0f else if p =? 4 then 0x0f
  else if p =? 7 then 0x70 else if p =? 27 then 0x07 else old.

Definition csi_m : M console () :=
  n ← gets npar;
  mfor (λ i, l ← gets par; p ← index l i; modify (λ c, c <| attr ::= attr_of p |>))
    (upto (Z.to_nat (n + 1))).

Definition set_cursor : M console () :=
  p ← gets pos;
  outb_p 14 0x3d4;; outb_p (0xff .& Z.shiftr (p - SCREEN_START) 9) 0x3d5;;
  outb_p 15 0x3d4;; outb_p (0xff .& Z.shiftr (p - SCREEN_START) 1) 0x3d5.

(** ** Inserting and deleting *)

(** [i = x; while (i++ < columns) { tmp = *p; *p = old; old = tmp; p++; }] *)
Fixpoint shift_right (n : nat) (p old : Z) : M console () :=
  match n with
  | O => mret ()
  | S n => tmp ← vread p; vwrite p old;; shift_right n (p + 2) tmp
  end.
Definition insert_char : M console () :=
  cx ← gets x;
  p ← gets pos;
  shift_right (Z.to_nat (columns - cx)) p 0x0720.

Definition insert_line : M console () :=
  oldtop ← gets top;
  oldbottom ← gets bottom;
  modify (λ c, c <| top := y c |> <| bottom := lines |>);;
  scrdown;;
  modify (λ c, c <| top := oldtop |> <| bottom := oldbottom |>).

Definition delete_char : M console () :=
  cx ← gets x;
  p ← gets pos;
  if columns <=? cx then mret () else
  mfor (λ i, v ← vread (p + 2 * (i + 1)); vwrite (p + 2 * i) v)
    (upto (Z.to_nat (columns - cx - 1)));;
  vwrite (p + 2 * (columns - cx - 1)) 0x0720.

Definition delete_line : M console () :=
  oldtop ← gets top;
  oldbottom ← gets bottom;
  modify (λ c, c <| top := y c |> <| bottom := lines |>);;
  scrup;;
  modify (λ c, c <| top := oldtop |> <| bottom := oldbottom |>).

(** The four [csi_] functions with a count: at most [limit], at least 1 times. *)
Definition times (limit nr : Z) (m : M console ()) : M console () :=
  let nr := u32 nr in
  let nr := if limit <? nr then limit else if negb (truth nr) then 1 else nr in
  mfor (λ _, m) (upto (Z.to_nat nr)).
Definition csi_at (nr : Z) : M console () := times columns nr insert_char.
Definition csi_L (nr : Z) : M console () := times lines nr insert_line.
Definition csi_P (nr : Z) : M console () := times columns nr delete_char.
Definition csi_M (nr : Z) : M console () := times lines nr delete_line.

Definition save_cur : M console () :=
  modify (λ c, c <| saved_x := x c |> <| saved_y := y c |>).
Definition restore_cur : M console () :=
  modify (λ c, c <| x := saved_x c |> <| y := saved_y c |>
                 <| pos := origin c + Z.shiftl (saved_y c * columns + saved_x c) 1 |>).

(** ** One character *)

(** [if (x > columns or x >= columns) { x -= columns; pos -= columns<<1; lf(); }] *)
Definition wrap_line : M console () :=
  modify (λ c, c <| x ::= λ v, v - columns |> <| pos ::= λ p, p - Z.shiftl columns 1 |>);;
  lf.

Definition put_plain (erase c : Z) : M console () :=
  if (31 <? c) && (c <? 127) then
    cx ← gets x;
    when (columns <=? cx) wrap_line;;
    p ← gets pos;
    a ← gets attr;
    vwrite p (Z.shiftl a 8 .| u8 c);;
    modify (λ c, c <| pos ::= Z.add 2 |> <| x ::= Z.succ |>)
  else if c =? 27 then modify (λ c, c <| esc := 1 |>)
  else if (c =? 10) || (c =? 11) || (c =? 12) then lf
  else if c =? 13 then cr
  else if c =? erase then del
  else if c =? 8 then
    cx ← gets x;
    when (truth cx) (modify (λ c, c <| x ::= Z.pred |> <| pos ::= λ p, p - 2 |>))
  else if c =? 9 then
    cx ← gets x;
    let n := 8 - (cx .& 7) in
    modify (λ c, c <| x ::= Z.add n |> <| pos ::= Z.add (Z.shiftl n 1) |>);;
    cx ← gets x;
    when (columns <? cx) wrap_line
  else mret ().

(** State 1, after ESC: [true] asks for respond. *)
Definition put_escape (c : Z) : M console bool :=
  modify (λ c, c <| esc := 0 |>);;
  cy ← gets y;
  cx ← gets x;
  if c =? 91 (* [ *) then modify (λ c, c <| esc := 2 |>);; mret false
  else if c =? 69 (* E *) then gotoxy 0 (cy + 1);; mret false
  else if c =? 77 (* M *) then ri;; mret false
  else if c =? 68 (* D *) then lf;; mret false
  else if c =? 90 (* Z *) then mret true
  else if cx =? 55 (* x=='7' *) then save_cur;; mret false
  else if cx =? 56 (* x=='8' *) then restore_cur;; mret false
  else mret false.

(** [if (par[i]) par[i]--] and [if (!par[i]) par[i]++] *)
Definition dec_par (i : Z) : M console () :=
  l ← gets par;
  p ← index l i;
  when (truth p) (store par i (p - 1)).
Definition one_par (i : Z) : M console () :=
  l ← gets par;
  p ← index l i;
  when (negb (truth p)) (store par i (p + 1)).
Definition get_par (i : Z) : M console Z := l ← gets par; index l i.

(** State 4: the final character of a control sequence. *)
Definition put_final (c : Z) : M console () :=
  modify (λ c, c <| esc := 0 |>);;
  cx ← gets x;
  cy ← gets y;
  if (c =? 71) || (c =? 96) (* G ` *) then dec_par 0;; p ← get_par 0; gotoxy p cy
  else if c =? 65 (* A *) then one_par 0;; p ← get_par 0; gotoxy cx (cy - p)
  else if (c =? 66) || (c =? 101) (* B e *) then one_par 0;; p ← get_par 0; gotoxy cx (cy + p)
  else if (c =? 67) || (c =? 97) (* C a *) then one_par 0;; p ← get_par 0; gotoxy (cx + p) cy
  else if c =? 68 (* D *) then one_par 0;; p ← get_par 0; gotoxy (cx - p) cy
  else if c =? 69 (* E *) then one_par 0;; p ← get_par 0; gotoxy 0 (cy + p)
  else if c =? 70 (* F *) then one_par 0;; p ← get_par 0; gotoxy 0 (cy - p)
  else if c =? 100 (* d *) then dec_par 0;; p ← get_par 0; gotoxy cx p
  else if (c =? 72) || (c =? 102) (* H f *) then
    dec_par 0;; dec_par 1;; p ← get_par 0; q ← get_par 1; gotoxy q p
  else if c =? 74 (* J *) then p ← get_par 0; csi_J p
  else if c =? 75 (* K *) then p ← get_par 0; csi_K p
  else if c =? 76 (* L *) then p ← get_par 0; csi_L p
  else if c =? 77 (* M *) then p ← get_par 0; csi_M p
  else if c =? 80 (* P *) then p ← get_par 0; csi_P p
  else if c =? 64 (* @ *) then p ← get_par 0; csi_at p
  else if c =? 109 (* m *) then csi_m
  else if c =? 114 (* r *) then
    dec_par 0;;
    (p ← get_par 1; when (negb (truth p)) (store par 1 lines));;
    p ← get_par 0; q ← get_par 1;
    when ((p <? q) && (q <=? lines)) (modify (λ c, c <| top := p |> <| bottom := q |>))
  else if c =? 115 (* s *) then save_cur
  else if c =? 117 (* u *) then restore_cur
  else mret ().

(** State 3: the parameters; falls through to state 4. *)
Definition put_param (c : Z) : M console () :=
  n ← gets npar;
  if (c =? 59) && (n <? NPAR - 1) then modify (λ c, c <| npar ::= Z.succ |>)
  else if (48 <=? c) && (c <=? 57) then
    p ← get_par n; store par n (u64 (10 * p + c - 48))
  else modify (λ c, c <| esc := 4 |>);; put_final c.

(** State 2, after ESC [: clears the parameters; falls through to state 3. *)
Definition put_bracket (c : Z) : M console () :=
  modify (λ s, s <| par := replicate 16 0 |> <| npar := 0 |> <| esc := 3 |>
                 <| ques := if c =? 63 then 1 else 0 |>);;
  if c =? 63 then mret () else put_param c.

(** The switch of con_write; [true] asks for respond(tty). *)
Definition con_put (erase c : Z) : M console bool :=
  st ← gets esc;
  if st =? 0 then put_plain erase c;; mret false
  else if st =? 1 then put_escape c
  else if st =? 2 then put_bracket c;; mret false
  else if st =? 3 then put_param c;; mret false
  else if st =? 4 then put_final c;; mret false
  else mret false.

(** con_init, as far as the console's own state goes: the cursor position the
    boot sector has left at 0x90000+510 and 0x90000+511. *)
Definition con_init (boot_x boot_y : Z) : M console () := gotoxy boot_x boot_y.
