(* ===== verification/ConsoleFacts.v ===== *)
(** * The console is memory safe and scrolls the screen it shows *)

From S2P Require Import Prelude Console.

(** ** The invariant

    The screen lies inside of video memory, the cursor inside of the screen (or
    just behind the end of a line), the scroll region is not empty, and the
    parameters of the escape parser are inside of their array. *)

Definition con_ok (c : console) : Prop :=
  SCREEN_START ≤ origin c ∧ scr_end c = origin c + 4000 ∧ scr_end c ≤ SCREEN_END ∧
  pos c = origin c + 2 * (80 * y c + x c) ∧ 0 ≤ x c ≤ 80 ∧ 0 ≤ y c < 25 ∧
  0 ≤ top c ∧ top c < bottom c ∧ bottom c ≤ 25 ∧
  0 ≤ saved_x c ≤ 80 ∧ 0 ≤ saved_y c < 25 ∧
  0 ≤ npar c < 16 ∧ length (par c) = 16%nat ∧ Forall (λ p, 0 ≤ p < 2 ^ 64) (par c).

(** The cell at row [r], column [k] of the screen. *)
Definition cell (c : console) (r k : Z) : Z :=
  default 0 (vram c !! (origin c + 2 * (80 * r + k))).

Definition blank : Z := 0x0720.

Ltac con_consts :=
  change lines with 25 in *; change columns with 80 in *; change LINES with 25 in *;
  change COLUMNS with 80 in *; change SCREEN_START with 753664 in *;
  change SCREEN_END with 786432 in *; change (Z.shiftl 80 1) with 160 in *; change NPAR with 16 in *.

Lemma in_vram_true a : 753664 ≤ a → a + 2 ≤ 786432 → in_vram a = true.
Proof. intros. unfold in_vram. con_consts. lia. Qed.

(** ** Filling and copying *)

(** Changing only video memory. *)
Definition vram_only (c c' : console) : Prop := ∃ v, c' = c <| vram := v |>.

Definition vcell (c : console) (a : Z) : Z := default 0 (vram c !! a).

Lemma con_ok_vram c v : con_ok c → con_ok (c <| vram := v |>).
Proof. intros H. exact H. Qed.
Lemma con_ok_ports c p : con_ok c → con_ok (c <| ports := p |>).
Proof. intros H. exact H. Qed.

Lemma vwrite_Ret c a v :
  753664 ≤ a → a + 2 ≤ 786432 → vwrite a v c = Ret tt (c <| vram ::= <[a := v]> |>).
Proof. intros. unfold vwrite. by rewrite in_vram_true. Qed.
Lemma vread_Ret c a : 753664 ≤ a → a + 2 ≤ 786432 → vread a c = Ret (vcell c a) c.
Proof. intros. unfold vread. by rewrite in_vram_true. Qed.

Lemma vcell_insert c a v b :
  vcell (c <| vram ::= <[a := v]> |>) b = if decide (a = b) then v else vcell c b.
Proof. unfold vcell. simpl. rewrite lookup_insert. by case_decide. Qed.

(** The [n] cells from [d] on. *)
Definition in_range (d n a : Z) : Prop := ∃ i, 0 ≤ i < n ∧ a = d + 2 * i.

Lemma memsetw_spec c d val n :
  (0 < n → 753664 ≤ d ∧ d + 2 * n ≤ 786432) →
  wp (memsetw d val n) (λ _ c', vram_only c c' ∧
    (∀ i, 0 ≤ i < n → vcell c' (d + 2 * i) = val) ∧
    (∀ a, ¬ in_range d n a → vcell c' a = vcell c a)) c.
Proof.
  intros Hr. unfold memsetw.
  eapply wp_mono; [apply (wp_mfor_upto _ (λ k c', vram_only c c' ∧
    (∀ i, 0 ≤ i < Z.of_nat k → vcell c' (d + 2 * i) = val) ∧
    (∀ a, ¬ in_range d (Z.of_nat k) a → vcell c' a = vcell c a)))|].
  - split_and!; [exists (vram c); by destruct c|lia|done].
  - intros k c' Hk ((v & ->) & H1 & H2). eapply wp_of_ret; [apply vwrite_Ret; lia|].
    split_and!.
    + by eexists.
    + intros i Hi. rewrite vcell_insert. case_decide; [done|]. apply H1. lia.
    + intros a Ha. rewrite vcell_insert, decide_False.
      * apply H2. intros (i & Hi & ->). apply Ha. exists i. lia.
      * intros <-. apply Ha. exists (Z.of_nat k). lia.
  - intros [] c' (H0 & H1 & H2). split_and!; [done| |].
    + intros i Hi. apply H1. lia.
    + intros a Ha. apply H2. intros (i & Hi & ->). apply Ha. exists i. lia.
Qed.

(** The copy loops move the cells as they were, whichever way the ranges
    overlap, when the direction is right for it. *)
Definition copied (c c' : console) (d src n : Z) : Prop :=
  vram_only c c' ∧
  (∀ i, 0 ≤ i < n → vcell c' (d + 2 * i) = vcell c (src + 2 * i)) ∧
  (∀ a, ¬ in_range d n a → vcell c' a = vcell c a).

Lemma memcpyw_spec c d src n :
  (0 < n → 753664 ≤ d ∧ d ≤ src ∧ src + 2 * n ≤ 786432) →
  wp (memcpyw d src n) (λ _ c', copied c c' d src n) c.
Proof.
  intros Hr. unfold memcpyw.
  eapply wp_mono; [apply (wp_mfor_upto _ (λ k c', copied c c' d src (Z.of_nat k)))|].
  - split_and!; [exists (vram c); by destruct c|lia|done].
  - intros k c' Hk ((v & ->) & H1 & H2).
    apply wp_bind. eapply wp_of_ret; [apply vread_Ret; lia|].
    eapply wp_of_ret; [apply vwrite_Ret; lia|]. split_and!.
    + by eexists.
    + intros i Hi. rewrite vcell_insert. case_decide as E.
      * assert (i = Z.of_nat k) as -> by lia. apply H2. intros (j & Hj & E'). lia.
      * apply H1. lia.
    + intros a Ha. rewrite vcell_insert, decide_False.
      * apply H2. intros (i & Hi & ->). apply Ha. exists i. lia.
      * intros <-. apply Ha. exists (Z.of_nat k). lia.
  - intros [] c' (H0 & H1 & H2). split_and!; [done| |].
    + intros i Hi. apply H1. lia.
    + intros a Ha. apply H2. intros (i & Hi & ->). apply Ha. exists i. lia.
Qed.

Lemma memcpyw_backward_spec c d src n :
  (0 < n → 753664 ≤ src ∧ src ≤ d ∧ d + 2 * n ≤ 786432) →
  wp (memcpyw_backward d src n) (λ _ c', copied c c' d src n) c.
Proof.
  intros Hr. unfold memcpyw_backward.
  assert (∀ k, (Z.of_nat k ≤ Z.max 0 n) → ∀ c0, copied c c0 (d + 2 * Z.of_nat k) (src + 2 * Z.of_nat k) (n - Z.of_nat k) →
    wp (mfor (λ i, v ← vread (src + 2 * i); vwrite (d + 2 * i) v) (downfrom k))
       (λ _ c', copied c c' d src n) c0) as Hgen.
  { induction k as [|k IH]; intros Hk c0 Hc0.
    - change (downfrom 0) with (@nil Z). apply wp_ret.
      replace (d + 2 * Z.of_nat 0) with d in Hc0 by lia.
      replace (src + 2 * Z.of_nat 0) with src in Hc0 by lia.
      by replace (n - Z.of_nat 0) with n in Hc0 by lia.
    - rewrite downfrom_S, mfor_cons. destruct Hc0 as ((v & ->) & H1 & H2).
      apply wp_bind, wp_bind. eapply wp_of_ret; [apply vread_Ret; lia|].
      eapply wp_of_ret; [apply vwrite_Ret; lia|]. apply IH; [lia|]. split_and!.
      + by eexists.
      + intros i Hi. rewrite vcell_insert. case_decide as E.
        * assert (i = 0) as -> by lia. rewrite Z.mul_0_r, Z.add_0_r.
          apply H2. intros (j & Hj & E'). lia.
        * replace (d + 2 * Z.of_nat k + 2 * i) with (d + 2 * Z.of_nat (S k) + 2 * (i - 1)) by lia.
          rewrite H1 by lia. f_equal. lia.
      + intros a Ha. rewrite vcell_insert, decide_False.
        * apply H2. intros (i & Hi & ->). apply Ha. exists (i + 1). lia.
        * intros <-. apply Ha. exists 0. lia. }
  apply Hgen; [lia|]. split_and!.
  - exists (vram c). by destruct c.
  - intros i Hi. lia.
  - done.
Qed.

(** ** Every operation keeps the invariant and stays inside of video memory *)

Definition safe {A} (m : M console A) : Prop := ∀ c, con_ok c → wp m (λ _, con_ok) c.

Ltac con_solve :=
  intros; unfold con_ok in *; simpl in *; con_consts; destruct_and?; split_and?; try done; lia.

Lemma safe_memsetw c d val n :
  con_ok c → (0 < n → 753664 ≤ d ∧ d + 2 * n ≤ 786432) → wp (memsetw d val n) (λ _, con_ok) c.
Proof.
  intros Hc Hr. eapply wp_mono; [by apply memsetw_spec|]. intros [] c' ((v & ->) & _). exact Hc.
Qed.

Lemma safe_outb v p : safe (outb_p v p).
Proof. intros c Hc. exact Hc. Qed.

Lemma safe_bind {A B} (m : M console A) (k : A → M console B) :
  safe m → (∀ a, safe (k a)) → safe (m ≫= k).
Proof. intros Hm Hk c Hc. apply wp_bind. eapply wp_mono; [by apply Hm|]. intros a c' H. by apply Hk. Qed.
Lemma safe_gets {A} (f : console → A) : safe (gets f).
Proof. intros c Hc. exact Hc. Qed.
Lemma safe_mret {A} (a : A) : safe (mret a).
Proof. intros c Hc. exact Hc. Qed.
Lemma safe_when b m : safe m → safe (when b m).
Proof. destruct b; [done|]. intros _. apply safe_mret. Qed.
Lemma safe_if {A} (b : bool) (m1 m2 : M console A) : safe m1 → safe m2 → safe (if b then m1 else m2).
Proof. by destruct b. Qed.
Lemma safe_mfor {I} (body : I → M console ()) l : (∀ i, safe (body i)) → safe (mfor body l).
Proof.
  intros Hb. induction l as [|i l IH]; [apply safe_mret|]. rewrite mfor_cons. by apply safe_bind.
Qed.

Lemma safe_gotoxy nx ny : safe (gotoxy nx ny).
Proof.
  intros c Hc. unfold gotoxy. pose proof (u32_range nx). pose proof (u32_range ny).
  destruct (Z.leb_spec columns (u32 nx)); [exact Hc|].
  destruct (Z.leb_spec lines (u32 ny)); [exact Hc|]. simpl. apply wp_modify.
  rewrite Z.shiftl_mul_pow2 by lia. con_solve.
Qed.

Lemma safe_set_origin : safe set_origin.
Proof. unfold set_origin. repeat (apply safe_bind; [apply safe_gets || apply safe_outb|intros]); apply safe_outb. Qed.
Lemma safe_set_cursor : safe set_cursor.
Proof. unfold set_cursor. repeat (apply safe_bind; [apply safe_gets || apply safe_outb|intros]); apply safe_outb. Qed.

(** What the scrolling functions need: the invariant without the bounds on the
    saved cursor and the parser, which they do not touch. *)
Lemma set_origin_run c : ∃ l, set_origin c = Ret tt (c <| ports := l |>).
Proof. by eexists. Qed.

Lemma scrup_ok c : con_ok c → wp scrup (λ _ c', con_ok c' ∧ x c' = x c) c.
Proof.
  intros Hc. unfold scrup. apply wp_bind, wp_gets, wp_bind, wp_gets.
  destruct (negb (truth (top c)) && (bottom c =? lines)) eqn:Hb.
  - apply andb_prop in Hb as [Ht%negb_true_iff%truth_false Hbt%Z.eqb_eq].
    apply wp_bind, wp_modify. set (c1 := c <| origin ::= _ |> <| pos ::= _ |> <| scr_end ::= _ |>).
    apply wp_bind, wp_gets.
    assert (Hc1 : origin c1 = origin c + 160 ∧ pos c1 = pos c + 160 ∧ scr_end c1 = scr_end c + 160)
      by (unfold c1; simpl; con_consts; lia).
    apply wp_bind. apply wp_mono with (P := λ _ c', con_ok c' ∧ x c' = x c).
    2: { intros [] c' [Hc' Hx]. destruct (set_origin_run c') as [l E].
         eapply wp_of_ret; [exact E|]. by split. }
    destruct (Z.ltb_spec SCREEN_END (scr_end c1)).
    + apply wp_bind, wp_gets, wp_bind. eapply wp_mono.
      { apply memcpyw_spec. con_solve. }
      intros [] c2 ((v & ->) & _). apply wp_bind. eapply wp_mono.
      { apply memsetw_spec. con_consts. lia. }
      intros [] c3 ((v' & ->) & _). apply wp_modify. split; [|done]. unfold c1. con_solve.
    + eapply wp_mono; [apply memsetw_spec; unfold c1; con_solve|].
      intros [] c2 ((v & ->) & _). split; [|done]. unfold c1. con_solve.
  - apply wp_bind, wp_gets, wp_bind. rewrite u64_small by con_solve. eapply wp_mono.
    { apply memcpyw_spec. con_solve. }
    intros [] c2 ((v & ->) & _). eapply wp_mono; [apply memsetw_spec; con_solve|].
    intros [] c3 ((v' & ->) & _). by split.
Qed.

Lemma safe_scrup : safe scrup.
Proof. intros c Hc. eapply wp_mono; [by apply scrup_ok|]. by intros [] c' []. Qed.

Lemma safe_scrdown : safe scrdown.
Proof.
  intros c Hc. unfold scrdown. apply wp_bind, wp_gets, wp_bind, wp_gets, wp_bind, wp_gets, wp_bind.
  rewrite u64_small by con_solve. eapply wp_mono.
  { apply memcpyw_backward_spec. con_solve. }
  intros [] c2 ((v & ->) & _). apply safe_memsetw; [exact Hc|]. con_solve.
Qed.

Lemma lf_ok c : con_ok c → wp lf (λ _ c', con_ok c' ∧ x c' = x c) c.
Proof.
  intros Hc. unfold lf. apply wp_bind, wp_gets, wp_bind, wp_gets.
  destruct (Z.ltb_spec (y c + 1) (bottom c)); [|by apply scrup_ok].
  apply wp_modify. split; [con_solve|done].
Qed.

Lemma safe_lf : safe lf.
Proof. intros c Hc. eapply wp_mono; [by apply lf_ok|]. by intros [] c' []. Qed.

Lemma safe_ri : safe ri.
Proof.
  intros c Hc. unfold ri. apply wp_bind, wp_gets, wp_bind, wp_gets.
  destruct (Z.ltb_spec (top c) (y c)); [|by apply safe_scrdown].
  apply wp_modify. con_solve.
Qed.

Lemma safe_cr : safe cr.
Proof.
  intros c Hc. apply wp_modify. rewrite Z.shiftl_mul_pow2 by lia. con_solve.
Qed.

Lemma safe_del : safe del.
Proof.
  intros c Hc. unfold del. apply wp_bind, wp_gets. destruct (truth (x c)) eqn:Hx; [|exact Hc].
  apply truth_true in Hx. apply wp_bind, wp_modify, wp_bind, wp_gets.
  eapply wp_of_ret; [apply vwrite_Ret; con_solve|]. con_solve.
Qed.

Lemma shiftr_1 a : Z.shiftr a 1 = a / 2.
Proof. by rewrite Z.shiftr_div_pow2. Qed.

Lemma safe_csi_J v : safe (csi_J v).
Proof.
  intros c Hc. unfold csi_J. apply wp_bind. change (wp (get_st) ?Q c) with (Q c c). cbv beta zeta.
  destruct (_ =? 0); [|destruct (_ =? 1); [|destruct (_ =? 2); [|exact Hc]]];
    apply safe_memsetw; try done; rewrite ?shiftr_1, ?u64_small by con_solve.
  - unfold con_ok in Hc. con_consts. destruct_and? Hc. dlia.
  - unfold con_ok in Hc. con_consts. destruct_and? Hc. dlia.
  - con_solve.
Qed.

Lemma safe_csi_K v : safe (csi_K v).
Proof.
  intros c Hc. unfold csi_K. apply wp_bind. change (wp (get_st) ?Q c) with (Q c c). cbv beta zeta.
  rewrite Z.shiftl_mul_pow2 by lia.
  destruct (_ =? 0); [|destruct (_ =? 1); [|destruct (_ =? 2); [|exact Hc]]].
  - destruct (Z.leb_spec columns (x c)); [exact Hc|]. apply safe_memsetw; [done|]. con_solve.
  - apply safe_memsetw; [done|]. destruct (Z.ltb_spec (x c) columns); con_solve.
  - apply safe_memsetw; [done|]. con_solve.
Qed.

Lemma wp_par_index c i (Q : Z → console → Prop) :
  con_ok c → 0 ≤ i < 16 → (∀ p, 0 ≤ p < 2 ^ 64 → Q p c) → wp (index (par c) i) Q c.
Proof.
  intros Hc Hi HQ. unfold con_ok in Hc. destruct_and? Hc. apply wp_index; [lia|].
  intros p Hp. apply HQ. by eapply (Forall_lookup_1 (λ p, 0 ≤ p < 2 ^ 64)).
Qed.

Lemma safe_get_par i : 0 ≤ i < 16 → safe (get_par i).
Proof.
  intros Hi c Hc. unfold get_par. apply wp_bind, wp_gets. by apply wp_par_index.
Qed.

Lemma con_ok_store c i v :
  con_ok c → 0 ≤ i < 16 → 0 ≤ v < 2 ^ 64 → wp (store par i v) (λ _, con_ok) c.
Proof.
  intros Hc Hi Hv. unfold con_ok in Hc. destruct_and? Hc.
  eapply wp_of_ret; [apply store_in; lia|]. unfold con_ok. simpl.
  split_and!; try done; [by rewrite length_insert|by apply Forall_insert].
Qed.

Lemma safe_dec_par i : 0 ≤ i < 16 → safe (dec_par i).
Proof.
  intros Hi c Hc. unfold dec_par. apply wp_bind, wp_gets, wp_bind, wp_par_index; [done..|].
  intros p Hp. apply wp_when; [|done]. intros Ht%truth_true. apply con_ok_store; [done..|lia].
Qed.

Lemma safe_one_par i : 0 ≤ i < 16 → safe (one_par i).
Proof.
  intros Hi c Hc. unfold one_par. apply wp_bind, wp_gets, wp_bind, wp_par_index; [done..|].
  intros p Hp. apply wp_when; [|done]. intros Ht%negb_true_iff%truth_false. apply con_ok_store; [done..|lia].
Qed.

Lemma safe_csi_m : safe csi_m.
Proof.
  intros c Hc. unfold csi_m. apply wp_bind, wp_gets.
  eapply wp_mono; [apply (wp_mfor_upto _ (λ _ c', con_ok c' ∧ npar c' = npar c))|by intros [] c' []].
  - done.
  - intros k c' Hk [Hc' Hn]. apply wp_bind, wp_gets, wp_bind, wp_par_index; [done| |].
    + unfold con_ok in Hc'. destruct_and? Hc'. lia.
    + intros p _. by apply wp_modify.
Qed.

Lemma safe_shift_right n c p old :
  con_ok c → (0 < n)%nat → 753664 ≤ p → p + 2 * Z.of_nat n ≤ 786432 →
  wp (shift_right n p old) (λ _, con_ok) c.
Proof.
  revert c p old. induction n as [|n IH]; intros c p old Hc Hn H1 H2; [lia|].
  simpl. apply wp_bind. eapply wp_of_ret; [apply vread_Ret; lia|].
  apply wp_bind. eapply wp_of_ret; [apply vwrite_Ret; lia|].
  destruct n as [|n]; [exact Hc|]. apply IH; [exact Hc|lia..].
Qed.

Lemma safe_insert_char : safe insert_char.
Proof.
  intros c Hc. unfold insert_char. apply wp_bind, wp_gets, wp_bind, wp_gets.
  destruct (decide (x c = 80)) as [->|Hx]; [exact Hc|].
  apply safe_shift_right; [done|..]; con_solve.
Qed.

Lemma safe_delete_char : safe delete_char.
Proof.
  intros c Hc. unfold delete_char. apply wp_bind, wp_gets, wp_bind, wp_gets.
  destruct (Z.leb_spec columns (x c)); [exact Hc|]. con_consts.
  apply wp_bind. eapply wp_mono; [apply (wp_mfor_upto _ (λ _, con_ok)); [done|]|].
  - intros k c' Hk Hc'. apply wp_bind. eapply wp_of_ret; [apply vread_Ret; con_solve|].
    eapply wp_of_ret; [apply vwrite_Ret; con_solve|exact Hc'].
  - intros [] c' Hc'. eapply wp_of_ret; [apply vwrite_Ret; con_solve|exact Hc'].
Qed.

(** insert_line and delete_line scroll the part of the screen below the cursor. *)
Lemma safe_region (m : M console ()) : safe m →
  safe (oldtop ← gets top; oldbottom ← gets bottom;
        modify (λ c, c <| top := y c |> <| bottom := lines |>);;
        m;; modify (λ c, c <| top := oldtop |> <| bottom := oldbottom |>)).
Proof.
  intros Hm c Hc. apply wp_bind, wp_gets, wp_bind, wp_gets, wp_bind, wp_modify, wp_bind.
  eapply wp_mono; [apply Hm; con_solve|]. intros [] c' Hc'. apply wp_modify. con_solve.
Qed.

Lemma safe_insert_line : safe insert_line.
Proof. apply safe_region, safe_scrdown. Qed.
Lemma safe_delete_line : safe delete_line.
Proof. apply safe_region, safe_scrup. Qed.

Lemma safe_times limit nr m : safe m → safe (times limit nr m).
Proof. intros Hm. unfold times. by apply safe_mfor. Qed.

Lemma safe_save_cur : safe save_cur.
Proof. intros c Hc. apply wp_modify. con_solve. Qed.
Lemma safe_restore_cur : safe restore_cur.
Proof. intros c Hc. apply wp_modify. rewrite Z.shiftl_mul_pow2 by lia. con_solve. Qed.

(** ** The escape parser *)

(** A cursor behind the end of the line is brought back before it is used. *)
Lemma wrap_line_ok c n :
  con_ok (c <| x := n |> <| pos := pos c - 160 |>) → x c = n + 80 →
  wp wrap_line (λ _ c', con_ok c' ∧ x c' = n) c.
Proof.
  intros Hc Hx. unfold wrap_line. apply wp_bind, wp_modify. con_consts.
  assert (c <| x ::= λ v, v - 80 |> <| pos ::= λ p, p - 160 |> = c <| x := n |> <| pos := pos c - 160 |>) as ->.
  { destruct c; simpl in *. f_equal. lia. }
  by apply lf_ok.
Qed.

Lemma safe_put_plain erase ch : safe (put_plain erase ch).
Proof.
  intros c Hc. unfold put_plain. destruct (_ && _) eqn:Hch.
  { apply wp_bind, wp_gets, wp_bind. apply wp_mono with (P := λ _ c', con_ok c' ∧ x c' < 80).
    - apply wp_when; intros Hb.
      + eapply wp_mono; [apply (wrap_line_ok c (x c - 80)); [con_solve|lia]|].
        intros [] c' [H1 H2]. split; [done|con_solve].
      + split; [done|]. con_consts. lia.
    - intros [] c1 [Hc1 Hx]. apply wp_bind, wp_gets, wp_bind, wp_gets, wp_bind.
      eapply wp_of_ret; [apply vwrite_Ret; con_solve|]. apply wp_modify. con_solve. }
  destruct (ch =? 27); [exact Hc|].
  destruct (_ || _ || _); [by apply safe_lf|].
  destruct (ch =? 13); [by apply safe_cr|].
  destruct (ch =? erase); [by apply safe_del|].
  destruct (ch =? 8).
  { apply wp_bind, wp_gets, wp_when; [|done]. intros Hx%truth_true. apply wp_modify. con_solve. }
  destruct (ch =? 9); [|exact Hc].
  apply wp_bind, wp_gets. set (n := 8 - (x c .& 7)).
  assert (1 ≤ n ≤ 8) as Hn.
  { unfold n. change 7 with (Z.ones 3). rewrite Z.land_ones by lia.
    pose proof (Z.mod_pos_bound (x c) (2 ^ 3)). lia. }
  apply wp_bind, wp_modify, wp_bind, wp_gets. rewrite Z.shiftl_mul_pow2 by lia.
  set (c1 := c <| x ::= _ |> <| pos ::= _ |>).
  apply wp_when; intros Hb.
  - eapply wp_mono; [apply (wrap_line_ok c1 (x c + n - 80))|by intros [] c' []].
    + unfold c1. con_solve.
    + unfold c1. simpl. lia.
  - unfold c1 in *. con_solve.
Qed.

Create HintDb con_safe.
#[export] Hint Resolve safe_gotoxy safe_lf safe_ri safe_cr safe_del safe_csi_J safe_csi_K
  safe_csi_m safe_insert_char safe_delete_char safe_insert_line safe_delete_line safe_times
  safe_save_cur safe_restore_cur safe_put_plain safe_dec_par safe_one_par safe_get_par : con_safe.
#[export] Hint Extern 1 (0 ≤ _ < 16) => lia : con_safe.

(** Follows the structure of an operation down to the ones already known. *)
Ltac safe_step :=
  lazymatch goal with
  | |- safe (if _ then _ else _) => apply safe_if
  | |- safe (mbind _ _) => apply safe_bind; [|intros]
  | |- safe (mret _) => apply safe_mret
  | |- safe (gets _) => apply safe_gets
  | |- safe (when _ _) => apply safe_when
  | |- safe (modify _) => let c := fresh in let Hc := fresh in intros c Hc; exact Hc
  | |- safe _ => solve [eauto with con_safe]
  end.

Lemma safe_put_escape ch : safe (put_escape ch).
Proof. unfold put_escape. repeat safe_step. Qed.

(** The region 'r' sets is not empty and lies on the screen. *)
Lemma safe_set_region p q : 0 ≤ p →
  safe (when ((p <? q) && (q <=? lines)) (modify (λ c, c <| top := p |> <| bottom := q |>))).
Proof.
  intros Hp c Hc. apply wp_when; [|done]. intros [H1%Z.ltb_lt H2%Z.leb_le]%andb_prop.
  apply wp_modify. con_solve.
Qed.

Lemma safe_bind_par i {B} (k : Z → M console B) :
  0 ≤ i < 16 → (∀ p, 0 ≤ p → safe (k p)) → safe (get_par i ≫= k).
Proof.
  intros Hi Hk c Hc. unfold get_par. apply wp_bind, wp_bind, wp_gets, wp_par_index; [done..|].
  intros p Hp. apply Hk; [lia|done].
Qed.

Lemma safe_store_lines : safe (store par 1 lines).
Proof. intros c Hc. apply con_ok_store; [done|lia|con_consts; lia]. Qed.
#[export] Hint Resolve safe_store_lines : con_safe.

Lemma safe_put_final ch : safe (put_final ch).
Proof.
  unfold put_final.
  apply safe_bind; [safe_step|intros]. do 2 (apply safe_bind; [apply safe_gets|intros]).
  repeat (apply safe_if; [try solve [repeat safe_step]|]); [|solve [repeat safe_step]..].
  apply safe_bind; [solve [repeat safe_step]|intros].
  apply safe_bind; [repeat safe_step|intros].
  apply safe_bind_par; [lia|intros p Hp]. apply safe_bind; [repeat safe_step|intros q].
  by apply safe_set_region.
Qed.
#[export] Hint Resolve safe_put_final : con_safe.

Lemma safe_put_param ch : safe (put_param ch).
Proof.
  intros c Hc. unfold put_param. apply wp_bind, wp_gets.
  destruct ((ch =? 59) && (npar c <? NPAR - 1)) eqn:Hn.
  { apply andb_prop in Hn as [_ Hn%Z.ltb_lt]. apply wp_modify. con_solve. }
  destruct ((48 <=? ch) && (ch <=? 57)).
  - assert (0 ≤ npar c < 16) as Hnp by con_solve.
    apply wp_bind. unfold get_par. apply wp_bind, wp_gets, wp_par_index; [done..|].
    intros p Hp. apply con_ok_store; [done..|apply u64_range].
  - apply wp_bind, wp_modify. by apply safe_put_final.
Qed.
#[export] Hint Resolve safe_put_param : con_safe.

Lemma safe_put_bracket ch : safe (put_bracket ch).
Proof.
  unfold put_bracket. apply safe_bind; [|intros; repeat safe_step].
  intros c Hc. apply wp_modify. unfold con_ok in *. simpl. destruct_and? Hc. split_and!; try done; try lia.
  by repeat constructor.
Qed.
#[export] Hint Resolve safe_put_bracket safe_put_escape : con_safe.

Lemma safe_con_put erase ch : safe (con_put erase ch).
Proof. unfold con_put. repeat safe_step. Qed.

(** C21: no sequence of characters makes the console write outside of video
    memory or lose its screen: from a good state, every character of every
    value leads to a good state (the screen inside of video memory, the cursor
    on the screen, the scroll region not empty, the parser inside of its
    parameters), and no access leaves the video memory or the parameters. *)
Theorem con_put_memory_safe erase ch c :
  con_ok c → ∃ r c', con_put erase ch c = Ret r c' ∧ con_ok c'.
Proof.
  intros Hc. apply wp_returns. revert c Hc. exact (safe_con_put erase ch).
Qed.

(** Outside of an escape sequence no character but ESC starts one, and none asks
    for the answer to ESC Z. *)
Definition same_esc (c c' : console) : Prop := esc c' = esc c.
#[export] Instance same_esc_preorder : PreOrder same_esc.
Proof. split; [intros c; done|]. intros c1 c2 c3 H1 H2. unfold same_esc in *. congruence. Qed.
Lemma put_plain_same_esc erase ch : ch ≠ 27 → keeps same_esc (put_plain erase ch).
Proof.
  intros Hch. unfold put_plain. destruct (Z.eqb_spec ch 27); [done|].
  unfold wrap_line, lf, cr, del, scrup, set_origin, memcpyw, memsetw, vread, vwrite, outb_p.
  repeat first [keep_step | refine (keeps_modify _ _ _); intros ?; done].
Qed.
Lemma con_put_ground erase ch c : con_ok c → esc c = 0 → ch ≠ 27 →
  ∃ c', con_put erase ch c = Ret false c' ∧ con_ok c' ∧ esc c' = 0.
Proof.
  intros Hc He Hch. destruct (wp_returns _ _ _ (safe_con_put erase ch c Hc)) as (r & c' & E & Hc').
  assert (con_put erase ch c = (put_plain erase ch;; mret false) c) as Ep.
  { unfold con_put. assert (gets esc c = Ret (esc c) c) as Eg by done. mstep Eg. by rewrite He. }
  rewrite Ep in E. unfold mbind, M_bind in E. destruct (put_plain erase ch c) as [[] c1| | | | |] eqn:E1; try discriminate.
  injection E as <- ->. exists c'. split; [|split; [done|]].
  - rewrite Ep. unfold mbind, M_bind. by rewrite E1.
  - rewrite <-He. apply (put_plain_same_esc erase ch Hch c tt c' E1).
Qed.

(** A console after boot with the cursor at the top. *)
Definition con_started : console :=
  match con_init 0 0 con_boot with Ret _ c => c | _ => con_boot end.

Lemma con_started_ok : con_ok con_started.
Proof.
  assert (Forall (λ p, 0 ≤ p < 2 ^ 64) (par con_started)) as Hp
    by (apply (Forall_replicate (λ p, 0 ≤ p < 2 ^ 64)); lia).
  unfold con_ok. split_and!; try exact Hp; vm_compute; congruence.
Qed.

Lemma con_put_memory_safe_witness :
  ∃ r c', con_put 127 65 con_started = Ret r c' ∧ con_ok c'.
Proof. apply (con_put_memory_safe 127 65 con_started con_started_ok). Defined.

(** ** Scrolling, as the screen shows it *)

Lemma cell_vcell c r k : cell c r k = vcell c (origin c + 2 * (80 * r + k)).
Proof. done. Qed.

(** Whether the hardware origin moves, video memory is exhausted and the screen
    is copied back to its start, or only a region scrolls: every line of the
    region moves up by one and the last one is blank. *)
Definition scrolled_up (c c' : console) (t b : Z) : Prop :=
  ∀ r k, 0 ≤ r < 25 → 0 ≤ k < 80 →
    cell c' r k = if bool_decide (t ≤ r < b - 1) then cell c (r + 1) k
                  else if bool_decide (r = b - 1) then blank else cell c r k.

Definition scrolled_down (c c' : console) (t b : Z) : Prop :=
  ∀ r k, 0 ≤ r < 25 → 0 ≤ k < 80 →
    cell c' r k = if bool_decide (t < r < b) then cell c (r - 1) k
                  else if bool_decide (r = t) then blank else cell c r k.

(** The cursor stays at its place on the screen. *)
Definition same_place (c c' : console) : Prop :=
  x c' = x c ∧ y c' = y c ∧ top c' = top c ∧ bottom c' = bottom c ∧
  pos c' - origin c' = pos c - origin c.

Lemma region_up c c' c'' t b :
  0 ≤ t → t < b → b ≤ 25 →
  copied c c' (origin c + 160 * t) (origin c + 160 * (t + 1)) ((b - t - 1) * 80) →
  vram_only c' c'' →
  (∀ i, 0 ≤ i < 80 → vcell c'' (origin c + 160 * (b - 1) + 2 * i) = blank) →
  (∀ a, ¬ in_range (origin c + 160 * (b - 1)) 80 a → vcell c'' a = vcell c' a) →
  scrolled_up c c'' t b.
Proof.
  intros Ht Htb Hb ((v & ->) & H1 & H2) (v' & ->) H3 H4 r k Hr Hk.
  rewrite !cell_vcell. cbn [origin upd]. simpl.
  repeat case_bool_decide; simpl.
  - rewrite H4 by (intros (i & Hi & E); lia).
    replace (origin c + 2 * (80 * r + k)) with (origin c + 160 * t + 2 * (80 * (r - t) + k)) by lia.
    rewrite H1 by lia. f_equal. lia.
  - replace (origin c + 2 * (80 * r + k)) with (origin c + 160 * (b - 1) + 2 * k) by lia. by apply H3.
  - rewrite H4 by (intros (i & Hi & E); lia). apply H2. intros (i & Hi & E). lia.
Qed.

Lemma full_region c : con_ok c →
  negb (truth (top c)) && (bottom c =? lines) = true → top c = 0 ∧ bottom c = 25.
Proof. intros _ [Ht%negb_true_iff%truth_false Hb%Z.eqb_eq]%andb_prop. by con_consts. Qed.

Lemma scrup_scrolls c :
  con_ok c → wp scrup (λ _ c', same_place c c' ∧ scrolled_up c c' (top c) (bottom c)) c.
Proof.
  intros Hc. unfold scrup. apply wp_bind, wp_gets, wp_bind, wp_gets.
  destruct (negb (truth (top c)) && (bottom c =? lines)) eqn:Hb.
  - destruct (full_region c Hc Hb) as [-> ->].
    apply wp_bind, wp_modify. set (c1 := c <| origin ::= _ |> <| pos ::= _ |> <| scr_end ::= _ |>).
    apply wp_bind, wp_gets.
    assert (Hc1 : origin c1 = origin c + 160 ∧ pos c1 = pos c + 160 ∧ scr_end c1 = scr_end c + 160)
      by (unfold c1; simpl; con_consts; lia).
    destruct Hc1 as (Ho1 & Hp1 & He1).
    apply wp_bind. apply wp_mono with (P := λ _ c', same_place c c' ∧ scrolled_up c c' 0 25).
    2: { intros [] c' H. destruct (set_origin_run c') as [l E]. eapply wp_of_ret; [exact E|exact H]. }
    destruct (Z.ltb_spec SCREEN_END (scr_end c1)).
    + apply wp_bind, wp_gets, wp_bind. eapply wp_mono.
      { apply memcpyw_spec. con_solve. }
      intros [] c2 ((v & ->) & H1 & H2). apply wp_bind. eapply wp_mono.
      { apply memsetw_spec. con_consts. lia. }
      intros [] c3 ((v' & ->) & H3 & H4). apply wp_modify. con_consts. split.
      { unfold same_place. simpl. unfold con_ok in Hc. con_consts. split_and!; done || lia. }
      intros r k Hr Hk. lazymatch goal with |- cell ?s r k = _ =>
        change (cell s r k) with (vcell (c1 <| vram := v' |>) (753664 + 2 * (80 * r + k))) end.
      rewrite cell_vcell. repeat case_bool_decide; try lia.
      * rewrite H4 by (intros (i & Hi & E); lia). rewrite H1 by lia.
        rewrite Ho1. change (vcell c1) with (vcell c). f_equal. lia.
      * replace (753664 + 2 * (80 * r + k)) with (753664 + (25 - 1) * 80 * 2 + 2 * k) by lia. by apply H3.
    + eapply wp_mono; [apply memsetw_spec; unfold c1; con_solve|].
      intros [] c2 ((v & ->) & H3 & H4). con_consts. split.
      { unfold same_place. simpl. con_consts. split_and!; done || lia. }
      intros r k Hr Hk. rewrite !cell_vcell. change (origin (c1 <| vram := v |>)) with (origin c1).
      assert (scr_end c1 - 160 = origin c1 + 3840) as Es by con_solve. rewrite Es in *. clear Es.
      repeat case_bool_decide; try lia.
      * rewrite H4 by (intros (i & Hi & E); lia). change (vcell c1) with (vcell c). f_equal. lia.
      * replace (origin c1 + 2 * (80 * r + k)) with (origin c1 + 3840 + 2 * k) by lia. by apply H3.
  - apply wp_bind, wp_gets, wp_bind. rewrite u64_small by con_solve. eapply wp_mono.
    { apply memcpyw_spec. con_solve. }
    intros [] c2 H2. eapply wp_mono; [apply memsetw_spec; con_solve|].
    intros [] c3 (H0 & H3 & H4). con_consts. split.
    { destruct H2 as ((v & ->) & _), H0 as (v' & ->). by unfold same_place. }
    unfold con_ok in Hc. con_consts. destruct_and? Hc.
    apply (region_up c c2 c3); done.
Qed.

Lemma scrdown_scrolls c :
  con_ok c → wp scrdown (λ _ c', same_place c c' ∧ scrolled_down c c' (top c) (bottom c)) c.
Proof.
  intros Hc. unfold scrdown. apply wp_bind, wp_gets, wp_bind, wp_gets, wp_bind, wp_gets, wp_bind.
  rewrite u64_small by con_solve. eapply wp_mono.
  { apply memcpyw_backward_spec. con_solve. }
  intros [] c2 ((v & ->) & H1 & H2). eapply wp_mono; [apply memsetw_spec; con_solve|].
  intros [] c3 ((v' & ->) & H3 & H4). con_consts. split; [by unfold same_place|].
  unfold con_ok in Hc. con_consts. destruct_and? Hc.
  intros r k Hr Hk. rewrite !cell_vcell.
  change (origin (c <| vram := v |> <| vram := v' |>)) with (origin c).
  repeat case_bool_decide; try lia.
  - rewrite H4 by (intros (i & Hi & E); lia).
    replace (origin c + 2 * (80 * r + k))
      with (origin c + 160 * (top c + 1) + 2 * (80 * (r - top c - 1) + k)) by lia.
    rewrite H1 by lia. f_equal. lia.
  - replace (origin c + 2 * (80 * r + k)) with (origin c + 160 * top c + 2 * k) by lia. by apply H3.
  - rewrite H4 by (intros (i & Hi & E); lia). apply H2. intros (i & Hi & E). lia.
Qed.

(** C22: a line feed moves the cursor down one line and changes nothing on the
    screen, or, when the cursor is on the last line of the scroll region,
    scrolls that region up by one line with a blank line at its end and leaves
    the cursor where it is.  This is what the screen shows whether the code
    moves the hardware origin, copies the screen back to the start of video
    memory because it has reached its end, or copies lines; a reverse line feed
    is its mirror image. *)
Theorem line_feed_scrolls c :
  con_ok c →
  wp lf (λ _ c',
    if bool_decide (y c + 1 < bottom c) then
      y c' = y c + 1 ∧ x c' = x c ∧ pos c' = pos c + 160 ∧ ∀ r k, cell c' r k = cell c r k
    else same_place c c' ∧ scrolled_up c c' (top c) (bottom c)) c ∧
  wp ri (λ _ c',
    if bool_decide (top c < y c) then
      y c' = y c - 1 ∧ x c' = x c ∧ pos c' = pos c - 160 ∧ ∀ r k, cell c' r k = cell c r k
    else same_place c c' ∧ scrolled_down c c' (top c) (bottom c)) c.
Proof.
  intros Hc. split.
  - unfold lf. apply wp_bind, wp_gets, wp_bind, wp_gets.
    destruct (Z.ltb_spec (y c + 1) (bottom c)).
    + apply wp_modify. rewrite bool_decide_true by done. con_consts. simpl. split_and!; done || lia.
    + rewrite bool_decide_false by lia. by apply scrup_scrolls.
  - unfold ri. apply wp_bind, wp_gets, wp_bind, wp_gets.
    destruct (Z.ltb_spec (top c) (y c)).
    + apply wp_modify. rewrite bool_decide_true by done. con_consts. simpl. split_and!; done || lia.
    + rewrite bool_decide_false by lia. by apply scrdown_scrolls.
Qed.

Lemma line_feed_scrolls_witness : wp lf (λ _ c', y c' = 1) con_started.
Proof.
  destruct (line_feed_scrolls con_started con_started_ok) as [H _].
  eapply wp_mono; [exact H|]. intros [] c' H'. rewrite bool_decide_true in H' by (vm_compute; reflexivity).
  destruct H' as [H' _]. exact H'.
Defined.

(** ** Two of the escapes do not do what they are for *)

(** ESC 7 and ESC 8 (save and restore the cursor) are decided by the cursor
    column instead of the character: in any state after ESC, '7' does nothing
    unless the cursor is in column 55 or 56, and in column 55 every character
    that starts no other escape saves the cursor. *)
Theorem escape_7_tests_the_column erase ch c :
  esc c = 1 → ch ∉ [91; 69; 77; 68; 90] →
  con_put erase ch c =
    (if x c =? 55 then Ret false (c <| esc := 0 |> <| saved_x := x c |> <| saved_y := y c |>)
     else if x c =? 56 then
       Ret false (c <| esc := 0 |> <| x := saved_x c |> <| y := saved_y c |>
                    <| pos := origin c + Z.shiftl (saved_y c * columns + saved_x c) 1 |>)
     else Ret false (c <| esc := 0 |>)).
Proof.
  intros He Hch. unfold con_put. unfold gets at 1, mbind at 1, M_bind at 1. rewrite He. cbn [Z.eqb Pos.eqb].
  unfold put_escape, gets, modify, mbind, M_bind. change (x (c <| esc := 0 |>)) with (x c).
  assert (∀ n, n ∈ [91; 69; 77; 68; 90] → (ch =? n) = false) as Hn.
  { intros n Hn. apply Z.eqb_neq. intros ->. done. }
  rewrite !Hn by (repeat (left; reflexivity) || (repeat right; left) || set_solver).
  by destruct (x c =? 55), (x c =? 56).
Qed.

Lemma escape_7_tests_the_column_witness :
  con_put 127 55 (con_started <| esc := 1 |>) = Ret false (con_started <| esc := 0 |>).
Proof.
  rewrite (escape_7_tests_the_column 127 55 (con_started <| esc := 1 |>)).
  - reflexivity.
  - reflexivity.
  - intros H. repeat (apply elem_of_cons in H as [H|H]; [discriminate H|]). by apply elem_of_nil in H.
Defined.
