(* ===== verification/TtyIo.v ===== *)
(** * Terminals (kernel/tty_io.c, include/linux/tty.h, kernel/serial.c)

    The ring buffers, the line discipline (copy_to_cooked) and the read and
    write calls, over the console and the two serial lines.  While a task has
    given the processor up, other tasks and interrupts run: what they do to the
    terminals is the parameter [wait_on] (interruptible_sleep_on of a queue) and
    [yield] (schedule). *)

From S2P Require Import Prelude Ctype Sched Console.

Definition TTY_BUF_SIZE : Z := 1024.

Record tty_queue := TtyQueue {
  data : Z; head : Z; tail : Z; buf : list Z (* char buf[TTY_BUF_SIZE] *)
}.
#[export] Instance eta_tty_queue : Eta tty_queue := λ q,
  TtyQueue (data q) (head q) (tail q) (buf q).

(** ** The queue macros *)

Definition INC (a : Z) : Z := u64 (a + 1) .& (TTY_BUF_SIZE - 1).
Definition DEC (a : Z) : Z := u64 (a - 1) .& (TTY_BUF_SIZE - 1).
Definition EMPTY (q : tty_queue) : bool := head q =? tail q.
Definition LEFT (q : tty_queue) : Z := u64 (tail q - head q - 1) .& (TTY_BUF_SIZE - 1).
Definition LAST (q : tty_queue) : Z :=
  default 0 (buf q !! Z.to_nat ((TTY_BUF_SIZE - 1) .& u64 (head q - 1))).
Definition FULL (q : tty_queue) : bool := negb (truth (LEFT q)).
Definition CHARS (q : tty_queue) : Z := u64 (head q - tail q) .& (TTY_BUF_SIZE - 1).

Definition getch (q : tty_queue) : option (Z * tty_queue) :=
  c ← buf q !! Z.to_nat (tail q);
  mret (c, q <| tail ::= INC |>).
Definition putch (c : Z) (q : tty_queue) : option tty_queue :=
  if head q <? Z.of_nat (length (buf q))
  then mret (q <| buf ::= <[Z.to_nat (head q) := s8 c]> |> <| head ::= INC |>)
  else None.

(** ** Terminals *)

Record termios := Termios {
  c_iflag : Z; c_oflag : Z; c_cflag : Z; c_lflag : Z; c_line : Z; c_cc : list Z
}.
Inductive writer := ConWrite | RsWrite.
Record tty_struct := TtyStruct {
  tio : termios; pgrp : Z; stopped : Z; writer_of : writer;
  read_q : tty_queue; write_q : tty_queue; secondary : tty_queue
}.
#[export] Instance eta_tty_struct : Eta tty_struct := λ t,
  TtyStruct (tio t) (pgrp t) (stopped t) (writer_of t) (read_q t) (write_q t) (secondary t).

(** c_iflag, c_oflag and c_lflag bits (include/termios.h) *)
Definition INLCR : Z := 64.
Definition IGNCR : Z := 128.
Definition ICRNL : Z := 256.
Definition IUCLC : Z := 512.
Definition OPOST : Z := 1.
Definition OLCUC : Z := 2.
Definition ONLCR : Z := 4.
Definition OCRNL : Z := 8.
Definition ONLRET : Z := 32.
Definition ISIG : Z := 1.
Definition ICANON : Z := 2.
Definition ECHO : Z := 8.
Definition ECHOCTL : Z := 512.
Definition ECHOKE : Z := 2048.
Definition B2400 : Z := 11.
Definition CS8 : Z := 48.

Definition VINTR : nat := 0.
Definition VERASE : nat := 2.
Definition VEOF : nat := 4.
Definition VTIME : nat := 5.
Definition VMIN : nat := 6.
Definition VSTART : nat := 8.
Definition VSTOP : nat := 9.

Definition L_FLAG (t : tty_struct) (f : Z) : bool := truth (c_lflag (tio t) .& f).
Definition I_FLAG (t : tty_struct) (f : Z) : bool := truth (c_iflag (tio t) .& f).
Definition O_FLAG (t : tty_struct) (f : Z) : bool := truth (c_oflag (tio t) .& f).
Definition cc (t : tty_struct) (n : nat) : Z := default 0 (c_cc (tio t) !! n).
Definition EOF_CHAR t := cc t VEOF.
Definition INTR_CHAR t := cc t VINTR.
Definition STOP_CHAR t := cc t VSTOP.
Definition START_CHAR t := cc t VSTART.
Definition ERASE_CHAR t := cc t VERASE.

(** "\003\034\177\025\004\0\1\0\021\023\031\0\022\017\027\026\0" *)
Definition INIT_C_CC : list Z := [3; 28; 127; 21; 4; 0; 1; 0; 17; 19; 25; 0; 18; 15; 23; 22; 0].

Definition queue0 (d : Z) : tty_queue := TtyQueue d 0 0 (replicate 1024 0).
Definition tty_table_init : list tty_struct :=
  [TtyStruct (Termios 0 (OPOST .| ONLCR) 0 (ICANON .| ECHO .| ECHOCTL .| ECHOKE) 0 INIT_C_CC)
     0 0 ConWrite (queue0 0) (queue0 0) (queue0 0);
   TtyStruct (Termios 0 (OPOST .| ONLRET) (B2400 .| CS8) 0 0 INIT_C_CC)
     0 0 RsWrite (queue0 0x3f8) (queue0 0x3f8) (queue0 0);
   TtyStruct (Termios 0 (OPOST .| ONLRET) (B2400 .| CS8) 0 0 INIT_C_CC)
     0 0 RsWrite (queue0 0x2f8) (queue0 0x2f8) (queue0 0)].

(** ** State *)

Record io := Io {
  con : console;
  tty_table : list tty_struct;
  cr_flag : Z;                (* static in tty_write *)
  sch : sched;
  user : gmap Z Z;            (* bytes of the task's memory *)
  inports : Z → Z;            (* what inb reads *)
  outports : list (Z * Z)     (* (value, port) of the serial lines *)
}.
#[export] Instance eta_io : Eta io := λ s,
  Io (con s) (tty_table s) (cr_flag s) (sch s) (user s) (inports s) (outports s).

Definition tty (i : Z) : M io tty_struct := l ← gets tty_table; index l i.
Definition set_tty (i : Z) (f : tty_struct → tty_struct) : M io () :=
  t ← tty i; store tty_table i (f t).

Definition GETCH (i : Z) (q : tty_struct → tty_queue) {S : Setter q} : M io Z :=
  t ← tty i;
  match getch (q t) with
  | Some (c, q') => set_tty i (λ t, t <| q := q' |>);; mret c
  | None => fault
  end.
Definition PUTCH (c i : Z) (q : tty_struct → tty_queue) {S : Setter q} : M io () :=
  t ← tty i;
  match putch c (q t) with
  | Some q' => set_tty i (λ t, t <| q := q' |>)
  | None => fault
  end.

(** Where the wait-queue head of a queue of terminal [i] is. *)
Definition proc_list (i which : Z) : Z := 0x3000 + 32 * (3 * i + which).
Definition SECONDARY : Z := 2.
Definition WRITE_Q : Z := 1.

Definition get_fs_byte (a : Z) : M io Z := gets (λ s, default 0 (user s !! a)).
Definition put_fs_byte (v a : Z) : M io () := modify (λ s, s <| user ::= <[a := u8 v]> |>).
Definition current_task : M io Task.task_struct := zoom sch cur_task.
Definition set_current (f : Task.task_struct → Task.task_struct) : M io () := zoom sch (set_cur f).

(** ** Signals from the keyboard *)

Definition SIGINT : Z := 2.
Definition EINTR : Z := 4.
Definition ALRMMASK : Z := Z.shiftl 1 (SIGALRM - 1).

Definition tty_intr (i signal : Z) : M io () :=
  t ← tty i;
  if pgrp t <=? 0 then mret () else
  mfor (λ k, zoom sch (
    p ← task_at k;
    if p =? 0 then mret () else
    ts ← deref p;
    when (Task.pgrp ts =? pgrp t)
      (set_task p (λ ts, ts <| Task.signal ::= λ x, x .| Z.shiftl 1 (signal - 1) |>))))
    (upto NR_TASKS).

(** ** Writing to the device *)

Definition rs_write (i : Z) : M io () :=
  t ← tty i;
  when (negb (EMPTY (write_q t)))
    (v ← gets (λ s, inports s (data (write_q t) + 1));
     modify (λ s, s <| outports ::= λ l, l ++ [(v .| 0x02, data (write_q t) + 1)] |>)).

(** respond, up to the call of copy_to_cooked *)
Definition respond_put (i : Z) : M io () := mfor (λ c, PUTCH c i read_q) RESPONSE.

(** The erase character of copy_to_cooked: the last character of the line goes. *)
Definition erase_last (wr : M io ()) (i : Z) : M io () :=
  t ← tty i;
  if EMPTY (secondary t) then mret () else
  let c := LAST (secondary t) in
  if (c =? 10) || (c =? EOF_CHAR t) then mret () else
  when (L_FLAG t ECHO)
    (when (c <? 32) (PUTCH 127 i write_q);; PUTCH 127 i write_q;; wr);;
  set_tty i (λ t, t <| secondary ::= λ q, q <| head ::= DEC |> |>).

(** The echo of an accepted character. *)
Definition echo (wr : M io ()) (i c : Z) : M io () :=
  t ← tty i;
  when (L_FLAG t ECHO)
    ((if c =? 10 then PUTCH 10 i write_q;; PUTCH 13 i write_q
      else if c <? 32 then
        when (L_FLAG t ECHOCTL) (PUTCH 94 i write_q;; PUTCH (c + 64) i write_q)
      else PUTCH c i write_q);;
     wr).

(** The input mapping: [None] if the character is dropped (IGNCR). *)
Definition map_input (t : tty_struct) (c : Z) : option Z :=
  if c =? 13 then
    if I_FLAG t ICRNL then Some 10 else if I_FLAG t IGNCR then None else Some c
  else if (c =? 10) && I_FLAG t INLCR then Some 13 else Some c.

(** One round of the loop of copy_to_cooked; [wr] is tty->write(tty). *)
Definition cook_one (wr : M io ()) (i : Z) : M io () :=
  c ← GETCH i read_q;
  t ← tty i;
  match map_input t c with
  | None => mret ()
  | Some c =>
      c ← (if I_FLAG t IUCLC
           then match Ctype.tolower c with Some c' => mret (s8 c') | None => fault end
           else mret c);
      if L_FLAG t ICANON && (c =? ERASE_CHAR t) then erase_last wr i
      else if L_FLAG t ICANON && (c =? STOP_CHAR t) then set_tty i (λ t, t <| stopped := 1 |>)
      else if L_FLAG t ICANON && (c =? START_CHAR t) then set_tty i (λ t, t <| stopped := 0 |>)
      else if negb (L_FLAG t ISIG) && (c =? INTR_CHAR t) then tty_intr i SIGINT
      else
        when ((c =? 10) || (c =? EOF_CHAR t))
          (set_tty i (λ t, t <| secondary ::= λ q, q <| data ::= λ d, u64 (d + 1) |> |>));;
        echo wr i c;;
        PUTCH c i secondary
  end.

(** The loop of con_write for [nr] characters and the loop of copy_to_cooked.
    They call each other: con_write answers ESC Z through respond and
    copy_to_cooked, and copy_to_cooked echoes through con_write. *)
Fixpoint con_loop (fuel : nat) (i nr : Z) : M io () :=
  match fuel with
  | O => nofuel
  | S n =>
      if nr =? 0 then mret () else
      c ← GETCH i write_q;
      t ← tty i;
      r ← zoom con (con_put (ERASE_CHAR t) c);
      (if r : bool then respond_put i;; copy_to_cooked n i else mret ());;
      con_loop n i (nr - 1)
  end
with copy_to_cooked (fuel : nat) (i : Z) : M io () :=
  match fuel with
  | O => nofuel
  | S n =>
      t ← tty i;
      if EMPTY (read_q t) || FULL (secondary t)
      then zoom sch (wake_up (proc_list i SECONDARY))
      else
        cook_one
          (match writer_of t with
           | ConWrite => t ← tty i; con_loop n i (CHARS (write_q t));; zoom con set_cursor
           | RsWrite => rs_write i
           end) i;;
        copy_to_cooked n i
  end.

Definition con_write (fuel : nat) (i : Z) : M io () :=
  t ← tty i; con_loop fuel i (CHARS (write_q t));; zoom con set_cursor.

(** [tty->write(tty)] *)
Definition write_tty (fuel : nat) (i : Z) : M io () :=
  t ← tty i; match writer_of t with ConWrite => con_write fuel i | RsWrite => rs_write i end.

Definition do_tty_interrupt (fuel : nat) (i : Z) : M io () := copy_to_cooked fuel i.

(** ** The read and write calls *)

Section Calls.
Context (wait_on : Z → M io ()) (yield : M io ()).

Definition sleep_if_empty (fuel : nat) (i : Z) : M io () :=
  mwhile fuel (
    ts ← current_task;
    t ← tty i;
    if negb (truth (Task.signal ts)) && EMPTY (secondary t)
    then wait_on (proc_list i SECONDARY);; mret None
    else mret (Some tt)).

Definition sleep_if_full (fuel : nat) (i : Z) : M io () :=
  t ← tty i;
  if negb (FULL (write_q t)) then mret () else
  mwhile fuel (
    ts ← current_task;
    t ← tty i;
    if negb (truth (Task.signal ts)) && (LEFT (write_q t) <? 128)
    then wait_on (proc_list i WRITE_Q);; mret None
    else mret (Some tt)).

(** The do loop of tty_read: reads characters until the queue is empty, [nr] is
    used up, or the end-of-file character of a cooked terminal.  It returns the
    count so far, what is left of [nr], and whether the call returns there. *)
Fixpoint read_chars (fuel : nat) (i buf b nr : Z) : M io (Z * Z * bool) :=
  match fuel with
  | O => nofuel
  | S n =>
      c ← GETCH i secondary;
      t ← tty i;
      when ((c =? EOF_CHAR t) || (c =? 10))
        (set_tty i (λ t, t <| secondary ::= λ q, q <| data ::= λ d, u64 (d - 1) |> |>));;
      if (c =? EOF_CHAR t) && L_FLAG t ICANON then mret (b, nr, true) else
      put_fs_byte c (buf + b);;
      if nr - 1 =? 0 then mret (b + 1, 0, false) else
      t ← tty i;
      if (0 <? nr - 1) && negb (EMPTY (secondary t)) then read_chars n i buf (b + 1) (nr - 1)
      else mret (b + 1, nr - 1, false)
  end.

(** The while loop of tty_read: the count, and whether the call returned from
    inside of it (then the alarm is not restored). *)
Fixpoint read_loop (fuel : nat) (i buf time minimum oldalarm b nr : Z) (flag : bool)
    : M io (Z * bool) :=
  match fuel with
  | O => nofuel
  | S n =>
      if nr <=? 0 then mret (b, false) else
      ts ← current_task;
      if flag && truth (Task.signal ts .& ALRMMASK) then
        set_current (λ ts, ts <| Task.signal ::= λ x, Z.ldiff x ALRMMASK |>);;
        mret (b, false)
      else if truth (Task.signal ts) then mret (b, false) else
      t ← tty i;
      if EMPTY (secondary t)
         || (L_FLAG t ICANON && negb (truth (data (secondary t))) && (20 <? LEFT (secondary t)))
      then sleep_if_empty n i;; read_loop n i buf time minimum oldalarm b nr flag
      else
      r ← read_chars n i buf b nr;
      let '(b, nr, eof) := r in
      if eof : bool then mret (b, true) else
      t ← tty i;
      flag ← (if truth time && negb (L_FLAG t ICANON) then
                j ← gets (λ s, jiffies (sch s));
                let flag := negb (truth oldalarm) || (time + j <? oldalarm) in
                set_current (λ ts, ts <| Task.alarm := if flag then time + j else oldalarm |>);;
                mret flag
              else mret flag);
      if L_FLAG t ICANON then
        if truth b then mret (b, false) else read_loop n i buf time minimum oldalarm b nr flag
      else if minimum <=? b then mret (b, false)
      else read_loop n i buf time minimum oldalarm b nr flag
  end.

Definition tty_read (fuel : nat) (channel buf nr : Z) : M io Z :=
  if (2 <? channel) || (nr <? 0) then mret (-1) else
  t ← tty channel;
  ts ← current_task;
  let oldalarm := Task.alarm ts in
  let time := 10 * cc t VTIME in
  let minimum := cc t VMIN in
  j ← gets (λ s, jiffies (sch s));
  let set := truth time && negb (truth minimum) in
  let minimum := if set then 1 else minimum in
  let flag := set && (negb (truth oldalarm) || (time + j <? oldalarm)) in
  when flag (set_current (λ ts, ts <| Task.alarm := time + j |>));;
  let minimum := if nr <? minimum then nr else minimum in
  r ← read_loop fuel channel buf time minimum oldalarm 0 nr flag;
  if r.2 : bool then mret r.1 else
  set_current (λ ts, ts <| Task.alarm := oldalarm |>);;
  ts ← current_task;
  if truth (Task.signal ts) && negb (truth r.1) then mret (- EINTR) else mret r.1.

(** The inner loop of tty_write: fills the write queue. *)
Fixpoint write_chars (fuel : nat) (i buf b nr : Z) : M io (Z * Z) :=
  match fuel with
  | O => nofuel
  | S n =>
      t ← tty i;
      if (nr <=? 0) || FULL (write_q t) then mret (b, nr) else
      c ← get_fs_byte (buf + b);
      let c := s8 c in
      cr ← gets cr_flag;
      let put c :=
        modify (λ s, s <| cr_flag := 0 |>);;
        PUTCH c i write_q;;
        write_chars n i buf (b + 1) (nr - 1) in
      if O_FLAG t OPOST then
        let c := if (c =? 13) && O_FLAG t OCRNL then 10
                 else if (c =? 10) && O_FLAG t ONLRET then 13 else c in
        if (c =? 10) && negb (truth cr) && O_FLAG t ONLCR then
          modify (λ s, s <| cr_flag := 1 |>);;
          PUTCH 13 i write_q;;
          write_chars n i buf b nr
        else if O_FLAG t OLCUC then
          match Ctype.toupper c with Some c' => put (s8 c') | None => fault end
        else put c
      else put c
  end.

Fixpoint write_loop (fuel : nat) (i buf b nr : Z) : M io Z :=
  match fuel with
  | O => nofuel
  | S n =>
      if nr <=? 0 then mret b else
      sleep_if_full n i;;
      ts ← current_task;
      if truth (Task.signal ts) then mret b else
      r ← write_chars n i buf b nr;
      write_tty n i;;
      when (0 <? r.2) yield;;
      write_loop n i buf r.1 r.2
  end.

Definition tty_write (fuel : nat) (channel buf nr : Z) : M io Z :=
  if (2 <? channel) || (nr <? 0) then mret (-1) else
  write_loop fuel channel buf 0 nr.
End Calls.
