(* ===== verification/TtyFacts.v ===== *)
(** * The terminals: ring buffers as lists, and the line discipline *)

From S2P Require Import Prelude Ctype Sched SchedFacts Wait Console ConsoleFacts TtyIo.

(** ** A queue is a list of at most 1023 characters *)

Record q_ok (q : tty_queue) : Prop := {
  qo_len : length (buf q) = 1024%nat;
  qo_head : 0 ≤ head q < 1024;
  qo_tail : 0 ≤ tail q < 1024;
  qo_char : Forall (λ c, -128 ≤ c < 128) (buf q)
}.

Definition at_pos (q : tty_queue) (i : Z) : Z :=
  default 0 (buf q !! Z.to_nat ((tail q + i) mod 1024)).
Definition count (q : tty_queue) : Z := (head q - tail q) mod 1024.
Definition contents (q : tty_queue) : list Z := at_pos q <$> seqZ 0 (count q).

Lemma mask_1023 v : u64 v .& (TTY_BUF_SIZE - 1) = v mod 1024.
Proof.
  change (TTY_BUF_SIZE - 1) with (Z.ones 10). rewrite Z.land_ones by lia.
  unfold u64. change (2 ^ 64) with (2 ^ 10 * 2 ^ 54).
  rewrite Z.rem_mul_r by lia. change (2 ^ 10) with 1024.
  by rewrite (Z.mul_comm 1024), Z_mod_plus_full, Z.mod_mod.
Qed.

Lemma count_range q : 0 ≤ count q < 1024.
Proof. by apply Z.mod_pos_bound. Qed.

Lemma length_contents q : Z.of_nat (length (contents q)) = count q.
Proof.
  unfold contents. rewrite length_fmap, length_seqZ. pose proof (count_range q). lia.
Qed.

Lemma CHARS_count q : CHARS q = count q.
Proof. apply mask_1023. Qed.
Lemma LEFT_count q : LEFT q = 1023 - count q.
Proof.
  unfold LEFT. rewrite mask_1023. unfold count. dlia.
Qed.
Lemma EMPTY_count q : q_ok q → EMPTY q = (count q =? 0).
Proof. intros [_ Hh Ht _]. unfold EMPTY, count. apply Bool.eq_iff_eq_true. rewrite !Z.eqb_eq. dlia. Qed.
Lemma FULL_count q : FULL q = (count q =? 1023).
Proof.
  unfold FULL, truth. rewrite negb_involutive, LEFT_count. apply Bool.eq_iff_eq_true. rewrite !Z.eqb_eq. lia.
Qed.

Lemma contents_lookup q i :
  contents q !! i = if decide (Z.of_nat i < count q) then Some (at_pos q (Z.of_nat i)) else None.
Proof.
  unfold contents. rewrite list_lookup_fmap. case_decide.
  - rewrite lookup_seqZ_lt by lia. done.
  - rewrite lookup_seqZ_ge by lia. done.
Qed.

Lemma contents_nil q : contents q = [] ↔ count q = 0.
Proof. rewrite <- length_zero_iff_nil, <- length_contents. lia. Qed.

Lemma putch_run q c :
  q_ok q → ∃ q', putch c q = Some q' ∧ q_ok q' ∧ data q' = data q ∧
    contents q' = if FULL q then [] else contents q ++ [s8 c].
Proof.
  intros [Hl Hh Ht Hc]. unfold putch. destruct (Z.ltb_spec (head q) (Z.of_nat (length (buf q)))); [|lia].
  eexists. split; [done|].
  set (q' := q <| buf ::= _ |> <| head ::= INC |>).
  assert (head q' = (head q + 1) mod 1024) as Hh' by apply mask_1023.
  assert (count q' = (count q + 1) mod 1024) as Hcnt.
  { unfold count. rewrite Hh'. change (tail q') with (tail q). dlia. }
  assert (∀ i, 0 ≤ i < 1024 → at_pos q' i = if decide (i = count q) then s8 c else at_pos q i) as Hat.
  { intros i Hi. unfold at_pos. change (tail q') with (tail q).
    change (buf q') with (<[Z.to_nat (head q) := s8 c]> (buf q)).
    case_decide as E.
    - rewrite E. unfold count. replace ((tail q + (head q - tail q) mod 1024) mod 1024) with (head q) by dlia.
      rewrite list_lookup_insert_eq by lia. done.
    - rewrite list_lookup_insert_ne; [done|]. unfold count in E.
      assert (head q ≠ (tail q + i) mod 1024); [|dlia]. dlia. }
  split_and!; [|done|].
  - split.
    + change (buf q') with (<[Z.to_nat (head q) := s8 c]> (buf q)). by rewrite length_insert.
    + rewrite Hh'. by apply Z.mod_pos_bound.
    + done.
    + apply Forall_insert; [done|]. unfold s8. pose proof (Z.mod_pos_bound (c + 2 ^ 7) (2 ^ 8)). lia.
  - rewrite FULL_count. pose proof (count_range q). destruct (Z.eqb_spec (count q) 1023) as [E|E].
    + apply contents_nil. rewrite Hcnt, E. done.
    + assert (count q' = count q + 1) as Hc1 by (rewrite Hcnt; apply Z.mod_small; lia).
      apply list_eq. intros i. rewrite contents_lookup, Hc1. case_decide.
      * rewrite Hat by lia. case_decide as Ei.
        -- rewrite lookup_app_r by (apply Nat2Z.inj_le; rewrite length_contents; lia).
           replace (i - length (contents q))%nat with 0%nat; [done|].
           pose proof (length_contents q). lia.
        -- rewrite lookup_app_l by (apply Nat2Z.inj_lt; rewrite length_contents; lia).
           rewrite contents_lookup, decide_True by lia. done.
      * symmetry. apply lookup_ge_None_2. rewrite length_app. pose proof (length_contents q). simpl. lia.
Qed.

Lemma getch_run q c l :
  q_ok q → contents q = c :: l →
  ∃ q', getch q = Some (c, q') ∧ q_ok q' ∧ data q' = data q ∧ contents q' = l.
Proof.
  intros [Hl Hh Ht Hc] E. unfold getch.
  assert (0 < count q) as Hn by (rewrite <- length_contents, E; simpl; lia).
  assert (buf q !! Z.to_nat (tail q) = Some c) as Hb.
  { pose proof (contents_lookup q 0) as H0. rewrite E, decide_True in H0 by done. simpl in H0.
    unfold at_pos in H0. rewrite Z.add_0_r, Z.mod_small in H0 by lia.
    destruct (lookup_lt_is_Some_2 (buf q) (Z.to_nat (tail q))) as [v Hv]; [lia|].
    rewrite Hv in *. simpl in H0. congruence. }
  rewrite Hb. simpl. eexists. split; [done|]. set (q' := q <| tail ::= INC |>).
  assert (tail q' = (tail q + 1) mod 1024) as Ht' by apply mask_1023.
  assert (count q' = count q - 1) as Hcnt.
  { unfold count in *. rewrite Ht'. change (head q') with (head q). dlia. }
  split_and!; [|done|].
  - split; [done|done| |done]. rewrite Ht'. by apply Z.mod_pos_bound.
  - apply list_eq. intros i. change (l !! i) with ((c :: l) !! S i). rewrite <- E, !contents_lookup, Hcnt.
    destruct (decide (Z.of_nat i < count q - 1)); [|by rewrite decide_False by lia].
    rewrite decide_True by lia. f_equal. unfold at_pos. rewrite Ht'. change (buf q') with (buf q).
    do 3 f_equal. dlia.
Qed.

Lemma last_run q l c :
  q_ok q → contents q = l ++ [c] →
  LAST q = c ∧ q_ok (q <| head ::= DEC |>) ∧ contents (q <| head ::= DEC |>) = l.
Proof.
  intros [Hl Hh Ht Hc] E. pose proof (length_contents q) as Hlen. rewrite E, length_app in Hlen. simpl in Hlen.
  set (q' := q <| head ::= DEC |>).
  assert (head q' = (head q - 1) mod 1024) as Hh' by apply mask_1023.
  assert (count q' = count q - 1) as Hcnt.
  { unfold count in *. rewrite Hh'. change (tail q') with (tail q). dlia. }
  split_and!.
  - unfold LAST. rewrite Z.land_comm, mask_1023.
    pose proof (contents_lookup q (length l)) as H0.
    rewrite E, lookup_app_r, Nat.sub_diag, decide_True in H0 by lia. simpl in H0. injection H0 as ->.
    unfold at_pos. do 3 f_equal. unfold count in Hlen. dlia.
  - split; [done| |done|done]. rewrite Hh'. by apply Z.mod_pos_bound.
  - apply list_eq. intros i. rewrite contents_lookup, Hcnt. case_decide.
    + pose proof (contents_lookup q i) as H0. rewrite E, lookup_app_l, decide_True in H0 by lia.
      rewrite H0. done.
    + symmetry. apply lookup_ge_None_2. lia.
Qed.

(** C38: the ring buffer with its head and tail counters is a list of at most
    1023 characters: CHARS, LEFT, EMPTY and FULL measure it, PUTCH appends to
    it unless it is full, GETCH takes its first character, LAST and DEC(head)
    look at and drop its last one.  A PUTCH into a full buffer, which the code
    does not prevent when it echoes, throws the whole contents away. *)
Theorem ring_buffer_is_a_list q :
  q_ok q →
  (CHARS q = Z.of_nat (length (contents q)) ∧ LEFT q = 1023 - CHARS q ∧
   EMPTY q = (CHARS q =? 0) ∧ FULL q = (CHARS q =? 1023)) ∧
  (∀ c, ∃ q', putch c q = Some q' ∧ q_ok q' ∧
     contents q' = if FULL q then [] else contents q ++ [s8 c]) ∧
  (∀ c l, contents q = c :: l → ∃ q', getch q = Some (c, q') ∧ q_ok q' ∧ contents q' = l) ∧
  (∀ c l, contents q = l ++ [c] → LAST q = c ∧ contents (q <| head ::= DEC |>) = l).
Proof.
  intros Hq. rewrite !CHARS_count, LEFT_count, EMPTY_count, FULL_count, length_contents by done.
  split_and!; try done.
  - intros c. destruct (putch_run q c Hq) as (q' & H1 & H2 & _ & H3).
    rewrite FULL_count in H3. by exists q'.
  - intros c l E. destruct (getch_run q c l Hq E) as (q' & H1 & H2 & _ & H3). by exists q'.
  - intros c l E. by destruct (last_run q l c Hq E) as (H1 & _ & H2).
Qed.

Lemma queue0_ok d : q_ok (queue0 d).
Proof. split; [done|done|done|]. apply Forall_replicate. lia. Qed.

Lemma ring_buffer_is_a_list_witness :
  ∃ q', putch 65 (queue0 0) = Some q' ∧ contents q' = [65].
Proof.
  destruct (ring_buffer_is_a_list (queue0 0) (queue0_ok 0)) as (_ & H & _ & _).
  destruct (H 65) as (q' & H1 & _ & H2). exists q'. split; [exact H1|exact H2].
Defined.

(** ** Access to one terminal *)

Definition with_tty (s : io) (i : Z) (t : tty_struct) : io :=
  s <| tty_table ::= <[Z.to_nat i := t]> |>.

Definition is_tty (s : io) (i : Z) (t : tty_struct) : Prop :=
  0 ≤ i ∧ tty_table s !! Z.to_nat i = Some t.

Lemma tty_Ret s i t : is_tty s i t → tty i s = Ret t s.
Proof. intros [Hi Ht]. unfold tty, gets, mbind, M_bind. by apply index_Some. Qed.

Lemma is_tty_with s i t t' : is_tty s i t → is_tty (with_tty s i t') i t'.
Proof.
  intros [Hi Ht]. split; [done|]. simpl. apply list_lookup_insert_eq. by eapply lookup_lt_Some.
Qed.


Lemma with_tty_same s i t : is_tty s i t → with_tty s i t = s.
Proof. intros [_ Ht]. destruct s. unfold with_tty. simpl in *. by rewrite list_insert_id. Qed.

Lemma set_tty_Ret s i t f : is_tty s i t → set_tty i f s = Ret tt (with_tty s i (f t)).
Proof.
  intros Ht. unfold set_tty. mstep (tty_Ret s i t Ht). destruct Ht as [Hi Ht].
  apply lookup_lt_Some in Ht. by rewrite store_in by lia.
Qed.

Section Queue.
Context (q : tty_struct → tty_queue) {Sq : Setter q}.
Context (Hget : ∀ t v, q (t <| q := v |>) = v).

Lemma PUTCH_Ret s i t c :
  is_tty s i t → q_ok (q t) → FULL (q t) = false →
  ∃ q', PUTCH c i q s = Ret tt (with_tty s i (t <| q := q' |>)) ∧ q_ok q' ∧
    data q' = data (q t) ∧ contents q' = contents (q t) ++ [s8 c].
Proof.
  intros Ht Hq Hf. destruct (putch_run (q t) c Hq) as (q' & H1 & H2 & H3 & H4).
  rewrite Hf in H4. exists q'. split_and!; [|done..].
  unfold PUTCH. mstep (tty_Ret s i t Ht). rewrite H1. by rewrite (set_tty_Ret s i t _ Ht).
Qed.

Lemma GETCH_Ret s i t c l :
  is_tty s i t → q_ok (q t) → contents (q t) = c :: l →
  ∃ q', GETCH i q s = Ret c (with_tty s i (t <| q := q' |>)) ∧ q_ok q' ∧
    data q' = data (q t) ∧ contents q' = l.
Proof.
  intros Ht Hq Hc. destruct (getch_run (q t) c l Hq Hc) as (q' & H1 & H2 & H3 & H4).
  exists q'. split_and!; [|done..].
  unfold GETCH. mstep (tty_Ret s i t Ht). rewrite H1. by mstep (set_tty_Ret s i t (λ t, t <| q := q' |>) Ht).
Qed.
End Queue.

Lemma contents_range q c : q_ok q → c ∈ contents q → -128 ≤ c < 128.
Proof.
  intros [Hl Hh Ht Hc] Hin. apply list_elem_of_fmap in Hin as (i & -> & _). unfold at_pos.
  destruct (buf q !! Z.to_nat ((tail q + i) mod 1024)) as [v|] eqn:E; simpl; [|lia].
  by apply (Forall_lookup_1 _ _ _ _ Hc E).
Qed.

Lemma s8_char c : -128 ≤ c < 128 → s8 c = c.
Proof. intros. unfold s8. rewrite Z.mod_small; lia. Qed.

(** ** The line discipline on lists

    What an input character does, in terms of the bits of the termios structure
    and the positions of its control characters (include/termios.h), without the
    queues.  Of TtyIo.v it uses the fields of the structure, and no function. *)

Record line := Line {
  kept : list Z;      (* the line collected so far *)
  echoed : list (list Z); (* what has been sent back, a string for each key *)
  halted : Z;         (* output is stopped *)
  ends : Z;           (* newlines and end-of-file characters accepted *)
  struck : bool       (* the interrupt key was struck *)
}.
#[export] Instance eta_line : Eta line := λ l, Line (kept l) (echoed l) (halted l) (ends l) (struck l).

Section Discipline.
Context (tm : termios).

Definition in_bit (n : Z) : bool := Z.testbit (c_iflag tm) n.
Definition local_bit (n : Z) : bool := Z.testbit (c_lflag tm) n.
(** Keys: 0 interrupt, 2 erase, 4 end of file, 8 start, 9 stop. *)
Definition key (n : nat) : Z := default 0 (c_cc tm !! n).

(** The character a received one stands for: CR becomes NL (bit 8) or is dropped
    (bit 7), NL becomes CR (bit 6); bit 9 is to map capitals to small letters,
    but tolower adds 162 instead of 32, which a char holds as -94. *)
Definition received (c : Z) : option Z :=
  (λ c, if in_bit 9 then if decide (65 ≤ c ≤ 90) then c - 94 else c else c) <$>
  (if decide (c = 13) then if in_bit 8 then Some 10 else if in_bit 7 then None else Some 13
   else if decide (c = 10) then Some (if in_bit 6 then 13 else 10)
   else Some c).

(** How an accepted character is shown: NL as NL CR, a control character as ^X
    (bit 9). *)
Definition picture (c : Z) : list Z :=
  if decide (c = 10) then [10; 13]
  else if decide (c < 32) then if local_bit 9 then [94; c + 64] else []
  else [c].
(** ... and how its erasure is shown. *)
Definition rubout (c : Z) : list Z := if decide (c < 32) then [127; 127] else [127].

(** The keys have their meaning in canonical mode (bit 1), the interrupt key when
    bit 0 is off; bit 3 asks for the echo. *)
Definition type_one (L : line) (c : Z) : line :=
  match received c with
  | None => L
  | Some c =>
      let show s := echoed L ++ (if local_bit 3 then [s] else []) in
      if local_bit 1 && bool_decide (c = key 2) then
        match last (kept L) with
        | Some x => if bool_decide (x = 10 ∨ x = key 4) then L
                    else L <| kept := removelast (kept L) |> <| echoed := show (rubout x) |>
        | None => L
        end
      else if local_bit 1 && bool_decide (c = key 9) then L <| halted := 1 |>
      else if local_bit 1 && bool_decide (c = key 8) then L <| halted := 0 |>
      else if negb (local_bit 0) && bool_decide (c = key 0) then L <| struck := true |>
      else Line (kept L ++ [c]) (show (picture c)) (halted L)
             (ends L + if decide (c = 10 ∨ c = key 4) then 1 else 0) (struck L)
  end.

(** Typing [cs]: it stops when the line buffer is full.  What is left over is
    the second component. *)
Fixpoint type_all (L : line) (cs : list Z) : line * list Z :=
  match cs with
  | [] => (L, [])
  | c :: cs' => if bool_decide (length (kept L) = 1023%nat) then (L, cs) else type_all (type_one L c) cs'
  end.

Lemma type_one_echo L c : echoed L `prefix_of` echoed (type_one L c).
Proof.
  unfold type_one. destruct (received c) as [c1|]; [|done]. cbv zeta. repeat case_match; simpl; (apply prefix_app_r; reflexivity) || done.
Qed.
Lemma type_all_echo cs : ∀ L, echoed L `prefix_of` echoed (type_all L cs).1.
Proof.
  induction cs as [|c cs IH]; intros L; [done|]. cbn [type_all]. case_bool_decide; [done|].
  etrans; [apply type_one_echo|apply IH].
Qed.
End Discipline.

(** The tasks of process group [g] have received SIGINT (bit 1). *)
Definition interrupted (g : Z) (ss : sched) : sched :=
  if decide (0 < g) then
    ss <| heap ::= map_imap (λ p ts, Some (if bool_decide (p ∈ task ss ∧ p ≠ 0 ∧ Task.pgrp ts = g)
                                           then ts <| Task.signal ::= λ x, x .| 2 |> else ts)) |>
  else ss.

(** *** The flags and characters of the code *)

Lemma truth_bit w n : 0 ≤ n → truth (w .& 2 ^ n) = Z.testbit w n.
Proof.
  intros Hn. unfold truth. destruct (Z.testbit w n) eqn:E.
  - destruct (Z.eqb_spec (w .& 2 ^ n) 0) as [H|]; [|done]. exfalso.
    assert (Z.testbit (w .& 2 ^ n) n = true) as Hb by (by rewrite Z.land_spec, E, Z.pow2_bits_true by lia).
    by rewrite H, Z.bits_0 in Hb.
  - assert (w .& 2 ^ n = 0) as ->; [|done]. apply Z.bits_inj'. intros k Hk. rewrite Z.land_spec, Z.bits_0, Z.pow2_bits_eqb by lia.
    destruct (Z.eqb_spec n k) as [<-|]; [by rewrite E|]. by rewrite andb_false_r.
Qed.
Lemma I_FLAG_bit t n : 0 ≤ n → I_FLAG t (2 ^ n) = in_bit (tio t) n.
Proof. apply truth_bit. Qed.
Lemma L_FLAG_bit t n : 0 ≤ n → L_FLAG t (2 ^ n) = local_bit (tio t) n.
Proof. apply truth_bit. Qed.
Lemma eqb_decide (a b : Z) : (a =? b) = bool_decide (a = b).
Proof. case_bool_decide; lia. Qed.

Lemma tolower_char c : -1 ≤ c < 128 → s8 <$> Ctype.tolower c = Some (if decide (65 ≤ c ≤ 90) then c - 94 else c).
Proof.
  intros Hc. destruct (decide (c = -1)) as [->|]; [done|]. destruct (case_conversions c) as [_ ->]; [lia|]. simpl. f_equal.
  unfold between. case_decide; destruct (Z.leb_spec 65 c), (Z.leb_spec c 90); try lia; cbn [andb].
  - unfold s8. replace (c + 162 + 2 ^ 7) with (c + 34 + 1 * 2 ^ 8) by lia. rewrite Z_mod_plus_full, Z.mod_small; lia.
  - apply s8_char. lia.
  - apply s8_char. lia.
Qed.

(** The input mapping of the code, with the case conversion. *)
Lemma received_run t c s : -128 ≤ c < 128 → (in_bit (tio t) 9 = true → -1 ≤ c) →
  match map_input t c with
  | None => received (tio t) c = None
  | Some c1 => ∃ c2, received (tio t) c = Some c2 ∧ -128 ≤ c2 < 128 ∧
      (if I_FLAG t IUCLC then match Ctype.tolower c1 with Some c' => mret (s8 c') | None => fault end
       else mret c1 : M io Z) s = Ret c2 s
  end.
Proof.
  intros Hc Hl. change IUCLC with (2 ^ 9). rewrite I_FLAG_bit by lia. unfold received, map_input.
  change INLCR with (2 ^ 6). change IGNCR with (2 ^ 7). change ICRNL with (2 ^ 8). rewrite !I_FLAG_bit by lia.
  set (tm := tio t) in *.
  assert (∀ c1, -128 ≤ c1 < 128 → (in_bit tm 9 = true → -1 ≤ c1) → ∃ c2,
    (λ c, if in_bit tm 9 then if decide (65 ≤ c ≤ 90) then c - 94 else c else c) <$> Some c1 = Some c2 ∧ -128 ≤ c2 < 128 ∧
    (if in_bit tm 9 then match Ctype.tolower c1 with Some c' => mret (s8 c') | None => fault end
       else mret c1 : M io Z) s = Ret c2 s) as H.
  { intros c1 H1 H2. eexists. split; [reflexivity|]. cbv beta. destruct (in_bit tm 9); [|split; [exact H1|reflexivity]]. pose proof (tolower_char c1 ltac:(lia)) as E.
    destruct (Ctype.tolower c1) as [c'|]; simpl in E; [|done]. injection E as E. rewrite E. split; [case_decide; lia|reflexivity]. }
  rewrite !eqb_decide. case_bool_decide as E13; [rewrite decide_True by done|rewrite decide_False by done].
  - destruct (in_bit tm 8); [apply H; lia|]. destruct (in_bit tm 7); [done|]. subst c. apply H; lia.
  - case_bool_decide as E10; cbn [andb]; [rewrite decide_True by done|rewrite decide_False by done; by apply H].
    destruct (in_bit tm 6); [apply H; lia|]. subst c. apply H; lia.
Qed.

(** *** Signals *)

Section Group.
Context (g : Z).
Let body (k : Z) : M sched () :=
  p ← task_at k;
  if p =? 0 then mret () else
  ts ← deref p;
  when (Task.pgrp ts =? g) (set_task p (λ ts, ts <| Task.signal ::= λ x, x .| Z.shiftl 1 (SIGINT - 1) |>)).
Let hit (ts : Task.task_struct) : Task.task_struct :=
  if Task.pgrp ts =? g then ts <| Task.signal ::= λ x, x .| 2 |> else ts.

Lemma body_acts now : acts body hit now.
Proof.
  intros s i p _ Hl Hi Hp. destruct (task_at_Ret s i Hl Hi) as (p' & Hp' & Hr). simplify_eq. unfold body. split.
  - intros ->. by mstep Hr.
  - intros t Hp0 Ht. mstep Hr. destruct (Z.eqb_spec p 0); [done|]. mstep (deref_Ret s p t Ht). unfold hit.
    destruct (Task.pgrp t =? g); unfold when; [by rewrite (set_task_Ret s p t _ Ht)|].
    destruct s; simpl in *. by rewrite insert_id.
Qed.

Lemma signal_group ss : wf_sched ss → 0 < g →
  mfor body (upto NR_TASKS) ss = Ret tt (interrupted g ss) ∧ wf_sched (interrupted g ss).
Proof.
  intros Hwf Hg. destruct (each_run body hit (jiffies ss) (body_acts _) ss (upto NR_TASKS) eq_refl Hwf) as (h & E & Hwf' & H1 & H2).
  - apply NoDup_seqZ.
  - intros i Hi%elem_of_upto. change (Z.of_nat NR_TASKS) with 64 in Hi. lia.
  - intros t Ht. unfold hit. by destruct (_ =? _).
  - assert (ss <| heap := h |> = interrupted g ss) as <-; [|done].
    unfold interrupted. rewrite decide_True by done. destruct ss as [hp tk cu ji stt lm wq]. simpl in *. f_equal. apply map_eq. intros p.
    rewrite map_lookup_imap. destruct (decide (p ∈ tk ∧ p ≠ 0)) as [[Hin Hp0]|Hno].
    + apply list_elem_of_lookup in Hin as (i & Hi). pose proof (lookup_lt_Some _ _ _ Hi) as Hlt.
      pose proof (ws_len _ Hwf) as Hlen. simpl in Hlen. rewrite (H1 (Z.of_nat i) p).
      * destruct (hp !! p) as [t|]; [|done]. simpl. f_equal. unfold hit. rewrite eqb_decide.
        assert (p ∈ tk) by (by apply list_elem_of_lookup; exists i). repeat case_bool_decide; try done; tauto.
      * apply elem_of_upto. lia.
      * split_and!; [lia|simpl; by rewrite Nat2Z.id|done].
    + rewrite H2.
      * destruct (hp !! p) as [t|]; [|done]. simpl. rewrite bool_decide_false; [done|]. intros (? & ? & _). by apply Hno.
      * intros i Hi (_ & Hp & Hp0). apply Hno. split; [|done]. simpl in Hp. by eapply list_elem_of_lookup_2.
Qed.
End Group.

Lemma interrupted_twice g ss : interrupted g (interrupted g ss) = interrupted g ss.
Proof.
  unfold interrupted. destruct (decide (0 < g)); [|done]. destruct ss as [hp tk cu ji stt lm wq]. simpl. f_equal. apply map_eq. intros p.
  rewrite !map_lookup_imap. destruct (hp !! p) as [t|]; [|done]. simpl. f_equal. destruct (decide (p ∈ tk ∧ p ≠ 0 ∧ Task.pgrp t = g)) as [H|H].
  - rewrite (bool_decide_true (p ∈ tk ∧ p ≠ 0 ∧ Task.pgrp t = g)) by exact H. rewrite bool_decide_true by exact H.
    destruct t; simpl. f_equal. by rewrite <-Z.lor_assoc, Z.lor_diag.
  - rewrite (bool_decide_false (p ∈ tk ∧ p ≠ 0 ∧ Task.pgrp t = g)) by exact H. by rewrite bool_decide_false by exact H.
Qed.
Lemma interrupted_wf g ss : wf_sched ss → wf_sched (interrupted g ss).
Proof.
  intros Hwf. destruct (decide (0 < g)) as [Hg|Hg]; [by apply (signal_group g ss)|]. unfold interrupted. by rewrite decide_False.
Qed.
Lemma interrupted_alive g ss p : is_Some (heap ss !! p) → is_Some (heap (interrupted g ss) !! p).
Proof.
  intros [t Ht]. unfold interrupted. case_decide; [|by exists t]. simpl. rewrite map_lookup_imap, Ht. simpl. eauto.
Qed.
Lemma interrupted_waitq g ss : waitq (interrupted g ss) = waitq ss.
Proof. unfold interrupted. by case_decide. Qed.

Lemma zoom_sch_mfor (b : Z → M sched ()) l : ∀ s c, mfor b l (sch s) = Ret tt c →
  mfor (λ k, zoom sch (b k)) l s = Ret tt (s <| sch := c |>).
Proof.
  induction l as [|k l IH]; intros s c.
  - intros [= <-]. by destruct s.
  - rewrite !mfor_cons. unfold mbind, M_bind. unfold zoom at 1. destruct (b k (sch s)) as [[] c1| | | | |]; try done.
    intros E. rewrite (IH (s <| sch := c1 |>) c); [by destruct s|]. by destruct s.
Qed.

(** *** The states copy_to_cooked goes through *)

Section Cooked.
Context (s0 : io) (i : Z) (t0 : tty_struct).
Context (Ht0 : is_tty s0 i t0) (Hwf0 : wf_sched (sch s0)).

(** Terminal [i] is [t], the group has been signalled if [b], the console is [k]. *)
Definition cooking (t : tty_struct) (b : bool) (o : list (Z * Z)) (k : console) : io :=
  (with_tty s0 i t) <| con := k |> <| sch := if b then interrupted (pgrp t0) (sch s0) else sch s0 |> <| outports := o |>.

(** What the device makes of the strings that are shown: a serial line holds them
    in its write queue, the console draws them one by one.  (ECHO is bit 3.) *)
Definition drawn (strings : list (list Z)) (k k' : console) : Prop :=
  mfor (λ cs, mfor (λ c, con_put (key (tio t0) 2) c;; mret ()) cs;; set_cursor) strings k = Ret tt k'.
Definition device (strings : list (list Z)) (w : list Z) (k : console) : Prop :=
  if local_bit (tio t0) 3 then
    match writer_of t0 with
    | RsWrite => w = contents (write_q t0) ++ mjoin strings ∧ k = con s0
    | ConWrite => w = [] ∧ con_ok k ∧ esc k = 0 ∧ drawn strings (con s0) k
    end
  else w = contents (write_q t0) ∧ k = con s0.
(** The strings a device can take: as many as its queue holds, or no ESC. *)
Definition showable (strings : list (list Z)) : Prop :=
  local_bit (tio t0) 3 = true →
  match writer_of t0 with
  | RsWrite => Z.of_nat (length (contents (write_q t0) ++ mjoin strings)) ≤ 1023
  | ConWrite => 27 ∉ mjoin strings
  end.

Lemma showable_prefix l l' : l `prefix_of` l' → showable l' → showable l.
Proof.
  intros [m ->] H H3. specialize (H H3). rewrite join_app in H. destruct (writer_of t0).
  - intros Hin. apply H, elem_of_app. left. exact Hin.
  - rewrite !length_app in *. lia.
Qed.

Record edited (L : line) (rest : list Z) (t : tty_struct) (k : console) : Prop := {
  ed_tio : tio t = tio t0; ed_pgrp : pgrp t = pgrp t0; ed_writer : writer_of t = writer_of t0;
  ed_read_ok : q_ok (read_q t); ed_write_ok : q_ok (write_q t); ed_ok : q_ok (secondary t);
  ed_read : contents (read_q t) = rest;
  ed_kept : contents (secondary t) = kept L;
  ed_device : device (echoed L) (contents (write_q t)) k;
  ed_halted : stopped t = halted L;
  ed_ends : data (secondary t) = u64 (data (secondary t0) + ends L)
}.

Lemma cooking_tty t b o k : is_tty (cooking t b o k) i t.
Proof. apply (is_tty_with s0 i t0 t Ht0). Qed.
Lemma cooking_with t t' b o k : with_tty (cooking t b o k) i t' = cooking t' b o k.
Proof. unfold cooking, with_tty. simpl. by rewrite list_insert_insert_eq. Qed.
Lemma cooking_set t b o k f : set_tty i f (cooking t b o k) = Ret tt (cooking (f t) b o k).
Proof. by rewrite (set_tty_Ret _ i t f (cooking_tty t b o k)), cooking_with. Qed.
Lemma cooking_GETCH (q : tty_struct → tty_queue) {Sq : Setter q} t b o k c cs : q_ok (q t) → contents (q t) = c :: cs →
  ∃ q', GETCH i q (cooking t b o k) = Ret c (cooking (t <| q := q' |>) b o k) ∧ q_ok q' ∧ contents q' = cs.
Proof.
  intros Hq Hc. destruct (GETCH_Ret q _ i t c cs (cooking_tty t b o k) Hq Hc) as (q' & E & Hq' & _ & Hc').
  exists q'. rewrite E, cooking_with. by split_and!.
Qed.
Lemma cooking_PUTCH (q : tty_struct → tty_queue) {Sq : Setter q} t b o k c :
  q_ok (q t) → count (q t) ≠ 1023 →
  ∃ q', PUTCH c i q (cooking t b o k) = Ret tt (cooking (t <| q := q' |>) b o k) ∧ q_ok q' ∧ data q' = data (q t) ∧
    contents q' = contents (q t) ++ [s8 c].
Proof.
  intros Hq Hc. destruct (PUTCH_Ret q _ i t c (cooking_tty t b o k) Hq) as (q' & E & H); [rewrite FULL_count; lia|].
  exists q'. rewrite E, cooking_with. by split.
Qed.

(** Several characters to the write queue. *)
Lemma cooking_PUTCHs t b o k cs : q_ok (write_q t) → (Z.of_nat (length (contents (write_q t) ++ cs)) ≤ 1023) →
  Forall (λ c, -128 ≤ c < 128) cs →
  ∃ q', mfor (λ c, PUTCH c i write_q) cs (cooking t b o k) = Ret tt (cooking (t <| write_q := q' |>) b o k) ∧ q_ok q' ∧
    contents q' = contents (write_q t) ++ cs.
Proof.
  intros Hq Hl Hc. revert t Hq Hl. induction Hc as [|c cs Hc _ IH]; intros t Hq Hl.
  { exists (write_q t). rewrite app_nil_r. split_and!; [|done..]. by destruct t. }
  rewrite length_app, length_cons in Hl. pose proof (length_contents (write_q t)).
  destruct (cooking_PUTCH write_q t b o k c Hq ltac:(lia)) as (q1 & E & Hq1 & _ & Hc1).
  rewrite s8_char in Hc1 by done. destruct (IH (t <| write_q := q1 |>)) as (q' & E' & Hq' & Hc'); [done| |].
  { change (write_q (t <| write_q := q1 |>)) with q1. rewrite Hc1, !length_app. simpl. lia. }
  exists q'. rewrite mfor_cons. mstep E. split_and!; [exact E'|done|]. rewrite Hc'. change (write_q (t <| write_q := q1 |>)) with q1.
  by rewrite Hc1, <-app_assoc.
Qed.

Lemma tty_intr_run t b o k : pgrp t = pgrp t0 → tty_intr i SIGINT (cooking t b o k) = Ret tt (cooking t true o k).
Proof.
  intros Hp. unfold tty_intr. mstep (tty_Ret _ i t (cooking_tty t b o k)). rewrite Hp. destruct (Z.leb_spec (pgrp t0) 0) as [Hle|Hlt].
  { unfold cooking, interrupted. rewrite decide_False by lia. by destruct b. }
  set (ss := if b then interrupted (pgrp t0) (sch s0) else sch s0).
  assert (wf_sched ss) as Hwf by (unfold ss; destruct b; [by apply interrupted_wf|done]).
  destruct (signal_group (pgrp t0) ss Hwf Hlt) as [E _]. rewrite (zoom_sch_mfor _ _ (cooking t b o k) _ E). f_equal.
  assert (interrupted (pgrp t0) ss = interrupted (pgrp t0) (sch s0)) as -> by (unfold ss; destruct b; [apply interrupted_twice|done]).
  reflexivity.
Qed.

(** *** The devices *)

(** [tty->write(tty)] as copy_to_cooked calls it, with its fuel for con_write. *)
Definition start_device (n : nat) (t : tty_struct) : M io () :=
  match writer_of t with
  | ConWrite => t ← tty i; con_loop n i (CHARS (write_q t));; zoom con set_cursor
  | RsWrite => rs_write i
  end.

Lemma rs_write_cooking t b o k : ∃ o', rs_write i (cooking t b o k) = Ret tt (cooking t b o' k).
Proof.
  unfold rs_write. mstep (tty_Ret _ i t (cooking_tty t b o k)). unfold when.
  destruct (negb _); [eexists; reflexivity|by exists o].
Qed.

Lemma con_loop_run n b o cs : ∀ t k, tio t = tio t0 → q_ok (write_q t) → contents (write_q t) = cs → con_ok k → esc k = 0 →
  27 ∉ cs → (length cs < n)%nat →
  ∃ q' k', con_loop n i (Z.of_nat (length cs)) (cooking t b o k) = Ret tt (cooking (t <| write_q := q' |>) b o k') ∧
    q_ok q' ∧ contents q' = [] ∧ con_ok k' ∧ esc k' = 0 ∧ mfor (λ c, con_put (key (tio t0) 2) c;; mret ()) cs k = Ret tt k'.
Proof.
  revert n. induction cs as [|c cs IH]; intros n t k Ht Hq Hc Hk He Hno Hn; (destruct n as [|n]; [lia|]).
  { exists (write_q t), k. split_and!; [|done..]. simpl. f_equal. by destruct t. }
  cbn [con_loop]. destruct (Z.eqb_spec (Z.of_nat (length (c :: cs))) 0) as [E|_]; [simpl in E; lia|].
  destruct (cooking_GETCH write_q t b o k c cs Hq Hc) as (q1 & E & Hq1 & Hc1). mstep E. clear E.
  match goal with |- context [cooking ?x b o k] => set (t1 := x) end. mstep (tty_Ret _ i t1 (cooking_tty t1 b o k)).
  apply not_elem_of_cons in Hno as [Hc27 Hno].
  destruct (con_put_ground (key (tio t0) 2) c k Hk He ltac:(done)) as (k1 & Ek & Hk1 & He1).
  assert (zoom con (con_put (ERASE_CHAR t1) c) (cooking t1 b o k) = Ret false (cooking t1 b o k1)) as Ez.
  { unfold zoom. change (con (cooking t1 b o k)) with k. change (ERASE_CHAR t1) with (key (tio t) 2). by rewrite Ht, Ek. }
  mstep Ez. cbv iota. assert ((mret () : M io ()) (cooking t1 b o k1) = Ret tt (cooking t1 b o k1)) as Em by done. mstep Em.
  replace (Z.of_nat (length (c :: cs)) - 1) with (Z.of_nat (length cs)) by (simpl; lia).
  destruct (IH n t1 k1) as (q' & k' & E' & H1 & H2 & H3 & H4 & H5); [done..|simpl in Hn; lia|].
  exists q', k'. split_and!; [exact E'|done..|]. rewrite mfor_cons. unfold mbind, M_bind. rewrite Ek. exact H5.
Qed.

Lemma set_cursor_run k : ∃ k', set_cursor k = Ret tt k' ∧ (con_ok k → con_ok k') ∧ esc k' = esc k.
Proof. eexists. split; [reflexivity|]. split; [intros H; exact H|done]. Qed.

(** The characters [cs] are in the queue behind what was there: the device takes
    the string. *)
Lemma device_shows strings cs t b o k w n : tio t = tio t0 → writer_of t = writer_of t0 → q_ok (write_q t) →
  local_bit (tio t0) 3 = true → device strings w k → contents (write_q t) = w ++ cs → showable (strings ++ [cs]) →
  (length cs < n)%nat →
  ∃ q' o' k', start_device n t (cooking t b o k) = Ret tt (cooking (t <| write_q := q' |>) b o' k') ∧
    q_ok q' ∧ device (strings ++ [cs]) (contents q') k'.
Proof.
  unfold device, showable, start_device. intros Ht Hw Hq H3 Hd Hc Hs Hn. rewrite H3 in *. specialize (Hs eq_refl). rewrite Hw.
  destruct (writer_of t0); rewrite join_app in *; simpl mjoin in *; rewrite app_nil_r in *.
  - destruct Hd as (-> & Hk & He & Hdr). simpl in Hc. mstep (tty_Ret _ i t (cooking_tty t b o k)).
    rewrite CHARS_count, <-length_contents, Hc.
    assert (27 ∉ cs) as Hno by (intros Hin; apply Hs, elem_of_app; by right).
    destruct (con_loop_run n b o cs t k Ht Hq Hc Hk He Hno Hn) as (q' & k1 & E & Hq' & Hc' & Hk1 & He1 & Em). mstep E.
    destruct (set_cursor_run k1) as (k' & Ec & Hk' & He'). exists q', o, k'. split_and!; [|done|done|by apply Hk'|congruence|].
    + unfold zoom. match goal with |- context [con (cooking ?x ?y ?z k1)] => change (con (cooking x y z k1)) with k1 end. by rewrite Ec.
    + unfold drawn in *. rewrite mfor_app. mstep Hdr. rewrite mfor_cons. rewrite <-(bind_ret _ (λ _, set_cursor) k tt k1 Em) in Ec. by mstep Ec.
  - destruct Hd as [-> ->]. destruct (rs_write_cooking t b o (con s0)) as (o' & E). exists (write_q t), o', (con s0).
    split; [|split; [done|split; [by rewrite Hc, app_assoc|done]]]. rewrite E. by destruct t.
Qed.

(** *** One character *)

Context (n : nat) (wr : M io ()) (Hn : (2 < n)%nat).
Context (Hwr : ∀ t, writer_of t = writer_of t0 → wr = start_device n t).

Lemma unit_bind {St} (m : M St ()) s : (m;; mret ()) s = m s.
Proof. unfold mbind, M_bind. by destruct (m s) as [[] ?| | | | |]. Qed.

Definition shown (strings : list (list Z)) (cs : list Z) : list (list Z) :=
  strings ++ (if local_bit (tio t0) 3 then [cs] else []).

(** What is shown goes to the write queue, and the device is started. *)
Lemma show_run strings t b o k (body : M io ()) cs : tio t = tio t0 → writer_of t = writer_of t0 → q_ok (write_q t) →
  (∀ s, body s = mfor (λ c, PUTCH c i write_q) cs s) → Forall (λ c, -128 ≤ c < 128) cs → (length cs ≤ 2)%nat →
  device strings (contents (write_q t)) k → showable (shown strings cs) →
  ∃ q' o' k', when (L_FLAG t ECHO) (body;; wr) (cooking t b o k) = Ret tt (cooking (t <| write_q := q' |>) b o' k') ∧
    q_ok q' ∧ device (shown strings cs) (contents q') k'.
Proof.
  intros Htio Hw Hq Hb Hcs Hl Hd Hs. change ECHO with (2 ^ 3). rewrite L_FLAG_bit, Htio by lia. unfold shown in *.
  destruct (local_bit (tio t0) 3) eqn:E3; unfold when.
  - assert (Z.of_nat (length (contents (write_q t) ++ cs)) ≤ 1023) as Hroom.
    { pose proof (Hs E3) as H. unfold device in Hd. rewrite E3 in Hd. destruct (writer_of t0).
      - destruct Hd as (-> & _). simpl. lia.
      - destruct Hd as (-> & _). rewrite join_app, app_assoc in H. simpl in H. by rewrite app_nil_r in H. }
    destruct (cooking_PUTCHs t b o k cs Hq Hroom Hcs) as (q1 & E & Hq1 & Hc1). rewrite <-Hb in E. mstep E. clear E.
    match goal with |- context [cooking ?x b o k] => set (t1 := x) end. rewrite (Hwr t1 Hw).
    destruct (device_shows strings cs t1 b o k (contents (write_q t)) n Htio Hw Hq1 E3 Hd Hc1 Hs ltac:(lia)) as (q' & o' & k' & E & Hq' & Hd').
    exists q', o', k'. by rewrite E.
  - exists (write_q t), o, k. rewrite app_nil_r. split_and!; [|done..]. by destruct t.
Qed.

Lemma picture_range c : -128 ≤ c < 128 → Forall (λ c, -128 ≤ c < 128) (picture (tio t0) c) ∧ (length (picture (tio t0) c) ≤ 2)%nat.
Proof.
  intros Hc. unfold picture. repeat case_decide; [|destruct (local_bit (tio t0) 9)|]; (split; [|simpl; lia]);
    repeat first [apply Forall_nil_2 | apply Forall_cons_2; [lia|]].
Qed.
Lemma rubout_range c : Forall (λ c, -128 ≤ c < 128) (rubout c) ∧ (length (rubout c) ≤ 2)%nat.
Proof. unfold rubout. case_decide; (split; [|simpl; lia]); repeat first [apply Forall_nil_2 | apply Forall_cons_2; [lia|]]. Qed.

Lemma echo_run strings t b o k c : tio t = tio t0 → writer_of t = writer_of t0 → q_ok (write_q t) → -128 ≤ c < 128 →
  device strings (contents (write_q t)) k → showable (shown strings (picture (tio t0) c)) →
  ∃ q' o' k', echo wr i c (cooking t b o k) = Ret tt (cooking (t <| write_q := q' |>) b o' k') ∧
    q_ok q' ∧ device (shown strings (picture (tio t0) c)) (contents q') k'.
Proof.
  intros Htio Hw Hq Hc Hd Hs. unfold echo. mstep (tty_Ret _ i t (cooking_tty t b o k)). destruct (picture_range c Hc).
  apply show_run; [done..| |done|done|done|done]. intros s. unfold picture. rewrite eqb_decide.
  change ECHOCTL with (2 ^ 9). rewrite L_FLAG_bit, Htio by lia.
  case_bool_decide as E1; [rewrite decide_True by done|rewrite decide_False by done].
  { rewrite !mfor_cons. unfold mbind, M_bind. destruct (PUTCH 10 i write_q s); try done. symmetry. apply unit_bind. }
  destruct (Z.ltb_spec c 32); [rewrite decide_True by done|rewrite decide_False by lia].
  - unfold when. destruct (local_bit (tio t0) 9); [|done]. rewrite !mfor_cons. unfold mbind, M_bind.
    destruct (PUTCH 94 i write_q s); try done. symmetry. apply unit_bind.
  - rewrite mfor_cons. symmetry. apply unit_bind.
Qed.

Lemma erase_run L rest t o k : edited L rest t k →
  let L' := match last (kept L) with
            | Some x => if bool_decide (x = 10 ∨ x = key (tio t0) 4) then L
                else L <| kept := removelast (kept L) |> <| echoed := shown (echoed L) (rubout x) |>
            | None => L
            end in
  showable (echoed L') →
  ∃ t' o' k', erase_last wr i (cooking t (struck L) o k) = Ret tt (cooking t' (struck L') o' k') ∧ edited L' rest t' k'.
Proof.
  intros He L' Hroom. pose proof He as [H1 H2 H3 H4 H5 H6 H7 H8 H9 H10 H11]. unfold erase_last. mstep (tty_Ret _ i t (cooking_tty t (struck L) o k)).
  rewrite EMPTY_count by done. destruct (Z.eqb_spec (count (secondary t)) 0) as [E|E].
  { exists t, o, k. assert (L' = L) as ->; [|done]. unfold L'. apply contents_nil in E. by rewrite <-H8, E. }
  destruct (exists_last (l := contents (secondary t))) as (l & x & El); [by rewrite contents_nil|].
  destruct (last_run _ _ _ H6 El) as (-> & Hq' & Hc'). assert (kept L = l ++ [x]) as Hk by congruence.
  unfold L' in *. clear L'. rewrite Hk, last_snoc, removelast_last in *. rewrite !eqb_decide.
  assert (EOF_CHAR t = key (tio t0) 4) as -> by (unfold EOF_CHAR, cc; by rewrite H1).
  rewrite <-bool_decide_or. case_bool_decide as Hend; [by exists t, o, k|]. cbn [echoed struck] in *. destruct (rubout_range x).
  destruct (show_run (echoed L) t (struck L) o k (when (x <? 32) (PUTCH 127 i write_q);; PUTCH 127 i write_q) (rubout x))
    as (q1 & o1 & k1 & E1 & Hq1 & Hd1); [done..| |done|done|done|exact Hroom|].
  - intros s. unfold rubout, when. destruct (Z.ltb_spec x 32); [rewrite decide_True by done|rewrite decide_False by lia].
    + rewrite !mfor_cons. unfold mbind, M_bind. destruct (PUTCH 127 i write_q s); try done. symmetry. apply unit_bind.
    + rewrite mfor_cons. symmetry. apply unit_bind.
  - assert (when (L_FLAG t ECHO) (when (x <? 32) (PUTCH 127 i write_q);; PUTCH 127 i write_q;; wr) (cooking t (struck L) o k)
      = Ret tt (cooking (t <| write_q := q1 |>) (struck L) o1 k1)) as E2.
    { rewrite <-E1. unfold when at 1 3. destruct (L_FLAG t ECHO); [|done]. unfold mbind, M_bind. by destruct (when (x <? 32) _ _). }
    mstep E2. rewrite cooking_set. eexists _, o1, k1. split; [reflexivity|]. by split.
Qed.

Lemma u64_succ x y : u64 (u64 x + y) = u64 (x + y).
Proof. unfold u64. by rewrite Zplus_mod_idemp_l. Qed.

(** An accepted character: counted if it ends a line, shown, and appended. *)
Lemma accept_run L rest t o k c : edited L rest t k → -128 ≤ c < 128 → (length (kept L) ≠ 1023)%nat →
  let L' := Line (kept L ++ [c]) (shown (echoed L) (picture (tio t0) c)) (halted L)
              (ends L + if decide (c = 10 ∨ c = key (tio t0) 4) then 1 else 0) (struck L) in
  showable (echoed L') →
  ∃ t' o' k', (when ((c =? 10) || (c =? EOF_CHAR t))
              (set_tty i (λ t, t <| secondary ::= λ q, q <| data ::= λ d, u64 (d + 1) |> |>));;
            echo wr i c;; PUTCH c i secondary) (cooking t (struck L) o k) = Ret tt (cooking t' (struck L) o' k') ∧ edited L' rest t' k'.
Proof.
  intros He Hc Hlen L' Hroom. unfold L' in *. clear L'. cbn [echoed] in Hroom. set (e := if decide (c = 10 ∨ _) then 1 else 0).
  assert (∃ t1, when ((c =? 10) || (c =? EOF_CHAR t))
      (set_tty i (λ t, t <| secondary ::= λ q, q <| data ::= λ d, u64 (d + 1) |> |>)) (cooking t (struck L) o k)
      = Ret tt (cooking t1 (struck L) o k) ∧ edited (L <| ends := ends L + e |>) rest t1 k) as (t1 & E1 & [H1 H2 H3 H4 H5 H6 H7 H8 H9 H10 H11]).
  { destruct He as [H1 H2 H3 H4 H5 H6 H7 H8 H9 H10 H11]. rewrite !eqb_decide, <-bool_decide_or.
    assert (EOF_CHAR t = key (tio t0) 4) as -> by (unfold EOF_CHAR, cc; by rewrite H1). unfold e. case_bool_decide as E.
    - unfold when. rewrite cooking_set, decide_True by done. eexists. split; [reflexivity|]. split; try done.
      + by destruct H6.
      + simpl. by rewrite H11, u64_succ, Z.add_assoc.
    - unfold when. rewrite decide_False by done. exists t. split; [done|]. split; try done. simpl. by rewrite Z.add_0_r. }
  mstep E1. clear He E1. simpl in H8, H9, H10.
  destruct (echo_run (echoed L) t1 (struck L) o k c H1 H3 H5 Hc H9 Hroom) as (q1 & o1 & k1 & E2 & Hq1 & Hd1). mstep E2. clear E2.
  match goal with |- context [cooking ?x (struck L) o1 k1] => set (t2 := x) end.
  pose proof (length_contents (secondary t1)) as Hl. rewrite H8 in Hl.
  destruct (cooking_PUTCH secondary t2 (struck L) o1 k1 c H6) as (q2 & E3 & Hq2 & Hd2 & Hc2); [change (secondary t2) with (secondary t1); lia|].
  rewrite E3. eexists _, o1, k1. split; [reflexivity|]. change (secondary t2) with (secondary t1) in *. rewrite s8_char in Hc2 by done.
  split; try done; simpl; [by rewrite Hc2, H8|by rewrite Hd2, H11].
Qed.

Lemma edited_read L c cs t k q' : edited L (c :: cs) t k → q_ok q' → contents q' = cs → edited L cs (t <| read_q := q' |>) k.
Proof. intros [H1 H2 H3 H4 H5 H6 H7 H8 H9 H10 H11] Hq Hc. by split. Qed.
Lemma edited_stop L rest t k v : edited L rest t k → edited (L <| halted := v |>) rest (t <| stopped := v |>) k.
Proof. intros [H1 H2 H3 H4 H5 H6 H7 H8 H9 H10 H11]. by split. Qed.
Lemma edited_strike L rest t k : edited L rest t k → edited (L <| struck := true |>) rest t k.
Proof. intros [H1 H2 H3 H4 H5 H6 H7 H8 H9 H10 H11]. by split. Qed.

(** One round of the loop does what typing one character means. *)
Lemma cook_one_run L c cs t o k : edited L (c :: cs) t k → (length (kept L) ≠ 1023)%nat → (in_bit (tio t0) 9 = true → -1 ≤ c) →
  let L' := type_one (tio t0) L c in showable (echoed L') →
  ∃ t' o' k', cook_one wr i (cooking t (struck L) o k) = Ret tt (cooking t' (struck L') o' k') ∧ edited L' cs t' k'.
Proof.
  intros He Hlen Hlow L' Hroom. unfold L', type_one in *. clear L'. unfold cook_one.
  assert (-128 ≤ c < 128) as Hc by (apply (contents_range (read_q t)); [apply He|rewrite (ed_read _ _ _ _ He); by left]).
  destruct (cooking_GETCH read_q t (struck L) o k c cs (ed_read_ok _ _ _ _ He) (ed_read _ _ _ _ He)) as (r' & E & Hr' & Hcr).
  mstep E. clear E. pose proof (edited_read L c cs t k r' He Hr' Hcr) as He1. clear He. revert He1. set (t1 := t <| read_q := r' |>). intros He.
  mstep (tty_Ret _ i t1 (cooking_tty t1 (struck L) o k)). pose proof (ed_tio _ _ _ _ He) as Et.
  pose proof (received_run t1 c (cooking t1 (struck L) o k) Hc) as Hrec. rewrite Et in Hrec. specialize (Hrec Hlow).
  destruct (map_input t1 c) as [c1|]; [|rewrite Hrec in *; by exists t1, o, k]. destruct Hrec as (c2 & Er & Hc2 & El). rewrite Er in *. mstep El. clear El c1.
  change ICANON with (2 ^ 1). change ISIG with (2 ^ 0). rewrite !L_FLAG_bit, !Et by lia.
  assert (ERASE_CHAR t1 = key (tio t0) 2 ∧ STOP_CHAR t1 = key (tio t0) 9 ∧ START_CHAR t1 = key (tio t0) 8 ∧ INTR_CHAR t1 = key (tio t0) 0)
    as (-> & -> & -> & ->) by (unfold ERASE_CHAR, STOP_CHAR, START_CHAR, INTR_CHAR, cc; by rewrite Et).
  cbv zeta in *. rewrite <-!eqb_decide in *.
  destruct (local_bit (tio t0) 1 && (c2 =? key (tio t0) 2)); [by apply erase_run|].
  destruct (local_bit (tio t0) 1 && (c2 =? key (tio t0) 9)); [rewrite cooking_set; eexists _, o, k; split; [reflexivity|by apply edited_stop]|].
  destruct (local_bit (tio t0) 1 && (c2 =? key (tio t0) 8)); [rewrite cooking_set; eexists _, o, k; split; [reflexivity|by apply edited_stop]|].
  destruct (negb (local_bit (tio t0) 0) && (c2 =? key (tio t0) 0)).
  { exists t1, o, k. split; [apply tty_intr_run, (ed_pgrp _ _ _ _ He)|by apply edited_strike]. }
  exact (accept_run L cs t1 o k c2 He Hc2 Hlen Hroom).
Qed.
End Cooked.

(** *** The loop *)

(** What the theorem asks of terminal [i] of [s], for the line [L] that results:
    whole queues; characters tolower has an entry for, if capitals are to be
    mapped; for an echo, room in the queue of a serial line, or a console that has
    nothing to write and is not inside of an escape sequence; live tasks in the
    table and at the head of the queue that is woken. *)
Record cookable (s : io) (i : Z) (t : tty_struct) (L : line) : Prop := {
  ck_tty : is_tty s i t;
  ck_queues : q_ok (read_q t) ∧ q_ok (write_q t) ∧ q_ok (secondary t) ∧ 0 ≤ data (secondary t) < 2 ^ 64;
  ck_lower : in_bit (tio t) 9 = true → Forall (λ c, -1 ≤ c) (contents (read_q t));
  ck_show : showable t (echoed L);
  ck_console : local_bit (tio t) 3 = true → writer_of t = ConWrite → contents (write_q t) = [] ∧ con_ok (con s) ∧ esc (con s) = 0;
  ck_tasks : wf_sched (sch s);
  ck_waiter : let w := default 0 (waitq (sch s) !! proc_list i SECONDARY) in w = 0 ∨ is_Some (heap (sch s) !! w)
}.

Lemma wake_up_alive q ss : default 0 (waitq ss !! q) = 0 ∨ is_Some (heap ss !! default 0 (waitq ss !! q)) →
  ∃ sc, wake_up q ss = Ret tt sc.
Proof.
  intros H. unfold wake_up. destruct (q =? 0); [by exists ss|]. assert (head_of q ss = Ret (default 0 (waitq ss !! q)) ss) as E by done.
  mstep E. unfold when. destruct (truth (default 0 (waitq ss !! q))) eqn:Et; [|by exists ss]. apply truth_true in Et.
  destruct H as [H|[t Ht]]; [done|]. mstep (set_task_Ret ss _ t (λ t, t <| Task.state := 0 |>) Ht). eexists. reflexivity.
Qed.

(** The loop, from a state in which part of the input is done. *)
Lemma cooked_run s0 i t0 fuel : is_tty s0 i t0 → wf_sched (sch s0) →
  ∀ rest L t o k, edited s0 t0 L rest t k → (length rest + 3 < fuel)%nat → (in_bit (tio t0) 9 = true → Forall (λ c, -1 ≤ c) rest) →
  let r := type_all (tio t0) L rest in showable t0 (echoed r.1) →
  ∃ t' o' k', copy_to_cooked fuel i (cooking s0 i t0 t (struck L) o k)
      = zoom sch (wake_up (proc_list i SECONDARY)) (cooking s0 i t0 t' (struck r.1) o' k') ∧ edited s0 t0 r.1 r.2 t' k'.
Proof.
  intros Ht0 Hwf. induction fuel as [|fuel IH]; intros rest L t o k He Hf Hlow r Hshow; [lia|]. unfold r in *. clear r.
  cbn [copy_to_cooked]. mstep (tty_Ret _ i t (cooking_tty s0 i t0 Ht0 t (struck L) o k)).
  rewrite EMPTY_count, FULL_count by apply He. pose proof (length_contents (read_q t)) as Hr. pose proof (length_contents (secondary t)) as Hs.
  rewrite (ed_read _ _ _ _ _ _ He) in Hr. rewrite (ed_kept _ _ _ _ _ _ He) in Hs.
  destruct rest as [|c cs]; [rewrite <-Hr; by exists t, o, k|]. simpl in Hr, Hf. destruct (Z.eqb_spec (count (read_q t)) 0); [lia|].
  cbn [type_all] in *. destruct (Z.eqb_spec (count (secondary t)) 1023) as [E1|E1].
  { rewrite bool_decide_true in * by lia. by exists t, o, k. }
  rewrite bool_decide_false in * by lia. cbn [orb]. cbv iota.
  match goal with |- context [cook_one ?w i] => set (wr := w) end.
  assert (∀ t1, writer_of t1 = writer_of t0 → wr = start_device i fuel t1) as Hwr.
  { intros t1 Hw. unfold wr, start_device. by rewrite Hw, (ed_writer _ _ _ _ _ _ He). }
  pose proof (type_all_echo (tio t0) cs (type_one (tio t0) L c)) as Hmono.
  destruct (cook_one_run s0 i t0 Ht0 Hwf fuel wr ltac:(lia) Hwr L c cs t o k He) as (t1 & o1 & k1 & E & He1);
    [lia| |by eapply showable_prefix|].
  { intros H9. by apply (Forall_inv (Hlow H9)). }
  mstep E. apply IH; [done|lia| |done]. intros H9. by apply (Forall_inv_tail (Hlow H9)).
Qed.

(** C24: copy_to_cooked ends, having taken the input characters one by one until
    there are none or the line buffer is full, and has done what typing them means
    ([type_all], stated on lists): CR and NL mapped or dropped and capitals mapped
    as asked, the erase key taking back the last character of the current line
    and no more, stop and start setting the flag, the interrupt key sending SIGINT
    to the tasks of the process group, everything else appended, line ends
    counted; what is echoed has gone to the device in the same order: into the
    write queue of a serial line, onto the screen of the console.  Then it wakes
    the readers.  Asked of the terminal ([cookable]): room in a serial line's
    queue for the echo, and for a console that echoes that no escape sequence is
    open and none is shown (a byte -37 is shown as ^ and ESC; an answer to ESC Z
    would call copy_to_cooked again: [respond_underruns_write_queue]). *)
Theorem copy_to_cooked_edits_lines fuel s i t :
  let r := type_all (tio t) (Line (contents (secondary t)) [] (stopped t) 0 false) (contents (read_q t)) in
  cookable s i t r.1 → (length (contents (read_q t)) + 3 < fuel)%nat →
  ∃ t' k sc o, copy_to_cooked fuel i s = Ret tt ((with_tty s i t') <| con := k |> <| sch := sc |> <| outports := o |>) ∧
    wake_up (proc_list i SECONDARY) (if struck r.1 then interrupted (pgrp t) (sch s) else sch s) = Ret tt sc ∧
    (tio t', pgrp t', writer_of t', stopped t') = (tio t, pgrp t, writer_of t, halted r.1) ∧
    q_ok (read_q t') ∧ q_ok (write_q t') ∧ q_ok (secondary t') ∧
    contents (read_q t') = r.2 ∧ contents (secondary t') = kept r.1 ∧
    data (secondary t') = u64 (data (secondary t) + ends r.1) ∧
    device s t (echoed r.1) (contents (write_q t')) k.
Proof.
  intros r [Ht (Hr & Hw & Hs & Hd) Hlow Hshow Hcon Hwf Hwk] Hf.
  assert (edited s t (Line (contents (secondary t)) [] (stopped t) 0 false) (contents (read_q t)) t (con s)) as He.
  { split; try done; simpl; [|unfold u64; by rewrite Z.add_0_r, Z.mod_small]. unfold device.
    destruct (local_bit (tio t) 3); [|done]. destruct (writer_of t); [|by rewrite app_nil_r].
    destruct (Hcon eq_refl eq_refl) as (? & ? & ?). by split_and!. }
  assert (s = cooking s i t t false (outports s) (con s)) as Es by (unfold cooking; rewrite with_tty_same by done; by destruct s).
  destruct (cooked_run s i t fuel Ht Hwf _ _ t (outports s) (con s) He Hf Hlow Hshow) as (t' & o & k & E & He').
  cbn [struck] in E. rewrite <-Es in E. fold r in E, He'.
  destruct (wake_up_alive (proc_list i SECONDARY) (if struck r.1 then interrupted (pgrp t) (sch s) else sch s)) as (sc & Ew).
  { destruct (struck r.1); [|exact Hwk]. rewrite interrupted_waitq. destruct Hwk as [?|?]; [by left|right; by apply interrupted_alive]. }
  exists t', k, sc, o. split; [|split; [exact Ew|]].
  - rewrite E. unfold zoom. change (sch (cooking s i t t' (struck r.1) o k)) with (if struck r.1 then interrupted (pgrp t) (sch s) else sch s).
    by rewrite Ew.
  - destruct He' as [H1 H2 H3 H4 H5 H6 H7 H8 H9 H10 H11]. split_and!; try done. by rewrite H1, H2, H3, H10.
Qed.

(** ** Output processing *)












(** ** Concrete terminals *)

(** The characters [cs] stored in an empty queue. *)
Definition filled (cs : list Z) : tty_queue :=
  foldl (λ q c, default q (putch c q)) (queue0 0) cs.

Definition io_boot : io := Io con_started tty_table_init 0 two_tasks ∅ (λ _, 0) [].

(** The console with [cs] waiting to be written. *)
Definition io_writing (cs : list Z) : io :=
  io_boot <| tty_table ::= alter (λ t, t <| write_q := filled cs |>) 0%nat |>.

(** What con_write leaves of the console's terminal. *)
Definition after_con_write (cs : list Z) : option tty_struct :=
  match con_write 200 0 (io_writing cs) with Ret _ s => tty_table s !! 0%nat | _ => None end.

(** con_write counts the characters to write before it starts, but the
    answer to ESC Z goes through copy_to_cooked, whose echo calls con_write
    again.  The inner call empties the queue; the outer one goes on with its old
    count and takes characters that are not there.  With "ESC Z a b" waiting the
    tail overtakes the head, and the empty queue then looks almost full (1022
    characters); without the ESC Z the queue is empty afterwards. *)
Theorem respond_underruns_write_queue :
  (∃ t, after_con_write [27; 90; 97; 98] = Some t ∧ CHARS (write_q t) = 1022) ∧
  (∃ t, after_con_write [97; 98] = Some t ∧ CHARS (write_q t) = 0).
Proof.
  split; eexists; (split; [vm_compute; reflexivity|vm_compute; reflexivity]).
Qed.

(** A cooked serial line that echoes, of process group 5, with "ab DEL c ^C CR"
    typed; task A is in the group. *)
Definition cooked_tty : tty_struct :=
  TtyStruct (Termios ICRNL 0 0 (ICANON .| ECHO .| ECHOCTL) 0 INIT_C_CC) 5 0 RsWrite
    (filled [97; 98; 127; 99; 3; 13]) (queue0 0x3f8) (queue0 0).
Definition grouped : sched := two_tasks <| heap ::= <[task_A := INIT_TASK <| Task.pid := 1 |> <| Task.pgrp := 5 |>]> |>.
Definition io_typed : io := io_boot <| tty_table ::= <[1%nat := cooked_tty]> |> <| sch := grouped |>.

Lemma filled_ok cs : q_ok (filled cs).
Proof.
  unfold filled. generalize (queue0_ok 0). generalize (queue0 0) as q. intros q Hq. revert q Hq. induction cs as [|c cs IH]; intros q Hq; [done|].
  simpl. apply IH. destruct (putch_run q c Hq) as (q' & -> & Hq' & _). done.
Qed.
Lemma grouped_wf : wf_sched grouped.
Proof. apply wf_set_task; [exact two_tasks_wf|]. split; vm_compute; split; congruence. Qed.

Definition typed_line : line := Line [97; 99; 10] [[97]; [98]; [127]; [99]; [10; 13]] 0 1 true.
Lemma typed_line_run : type_all (tio cooked_tty)
  (Line (contents (secondary cooked_tty)) [] (stopped cooked_tty) 0 false) (contents (read_q cooked_tty)) = (typed_line, []).
Proof. vm_compute. reflexivity. Qed.
(** ^C gives task A the signal. *)
Example interrupted_grouped : (Task.signal <$> heap (interrupted 5 grouped) !! task_A) = Some 2.
Proof. vm_compute. reflexivity. Qed.

Lemma copy_to_cooked_edits_lines_witness :
  ∃ t' k sc o, copy_to_cooked 100 1 io_typed = Ret tt ((with_tty io_typed 1 t') <| con := k |> <| sch := sc |> <| outports := o |>) ∧
    wake_up (proc_list 1 SECONDARY) (interrupted 5 grouped) = Ret tt sc ∧
    contents (secondary t') = [97; 99; 10] ∧ contents (write_q t') = [97; 98; 127; 99; 10; 13].
Proof.
  destruct (copy_to_cooked_edits_lines 100 io_typed 1 cooked_tty) as (t' & k & sc & o & E & Ew & _ & _ & _ & _ & _ & Hk & _ & Hd).
  - rewrite typed_line_run. split.
    + split; [discriminate|reflexivity].
    + split; [apply filled_ok|]. split; [apply queue0_ok|]. split; [apply queue0_ok|]. split; [discriminate|reflexivity].
    + discriminate.
    + intros _. vm_compute. discriminate.
    + discriminate.
    + exact grouped_wf.
    + left. reflexivity.
  - apply Nat.ltb_lt. vm_compute. reflexivity.
  - rewrite typed_line_run in Ew, Hk, Hd. destruct Hd as [Hc _]. exists t', k, sc, o. split; [exact E|]. split; [exact Ew|]. split; [exact Hk|].
    etrans; [exact Hc|]. vm_compute. reflexivity.
Defined.

(** The same keys on the console: the screen shows what is left of the line. *)
Definition console_typed : io :=
  io_boot <| tty_table ::= alter (λ t, t <| read_q := filled [97; 98; 127; 99; 10] |>) 0%nat |>.
Lemma console_typed_cookable : ∃ t, tty_table console_typed !! 0%nat = Some t ∧
  cookable console_typed 0 t (type_all (tio t) (Line (contents (secondary t)) [] (stopped t) 0 false) (contents (read_q t))).1.
Proof.
  eexists. split; [reflexivity|]. split.
  - split; [discriminate|reflexivity].
  - split; [apply filled_ok|]. split; [apply queue0_ok|]. split; [apply queue0_ok|]. split; [discriminate|reflexivity].
  - discriminate.
  - intros _. apply (bool_decide_unpack (27 ∉ _)). vm_compute. exact I.
  - intros _ _. split; [reflexivity|]. split; [exact con_started_ok|reflexivity].
  - exact two_tasks_wf.
  - left. reflexivity.
Qed.

