(* ===== verification/Fs.v ===== *)
(** * The state of the file system (include/linux/fs.h)

    The structures of fs.h, the tables of the file system, and the access to
    them.  A pointer into a table is 1 + the index of the entry (0 is NULL), so
    a dereference of NULL or of a pointer outside of its table is a [Fault].
    The terminals ([TtyIo.io], with the tasks and the memory of the running
    task) and the pages ([Mm.mm]) are parts of this state: a system call of the
    file system reads [current], wakes sleepers and takes pages through them.

    A call that gives the processor up ends in [Sleep]: what other tasks do in
    the meantime is not modelled here (Wait.v has the interleavings). *)

From S2P Require Export Prelude Layout Mm Sched.
From S2P Require TtyIo.
#[export] Existing Instance TtyIo.eta_io.
#[export] Existing Instance TtyIo.eta_tty_struct.
#[export] Existing Instance TtyIo.eta_tty_queue.

Definition READ : Z := 0.
Definition WRITE : Z := 1.
Definition NR_INODE : nat := 32.
Definition NR_FILE : nat := 64.
Definition NR_SUPER : nat := 8.
Definition NR_HASH : Z := 307.
Definition I_MAP_SLOTS : nat := 8.
Definition Z_MAP_SLOTS : nat := 8.
Definition SUPER_MAGIC : Z := 0x137F.
Definition ROOT_DEV : Z := 0x306.

Definition MAJOR (a : Z) : Z := Z.shiftr (u32 a) 8.
Definition MINOR (a : Z) : Z := a .& 0xff.
Definition IS_BLOCKDEV (x : Z) : bool := (x =? 2) || (x =? 3).

(** ** Structures *)

Record buffer_head := BufferHead {
  b_data : list Z;          (* the 1024 bytes it points to *)
  b_dev : Z; b_blocknr : Z; b_uptodate : Z; b_dirt : Z; b_count : Z; b_lock : Z;
  b_prev : Z; b_next : Z; b_prev_free : Z; b_next_free : Z
}.
#[export] Instance eta_buffer_head : Eta buffer_head := λ b,
  BufferHead (b_data b) (b_dev b) (b_blocknr b) (b_uptodate b) (b_dirt b) (b_count b)
    (b_lock b) (b_prev b) (b_next b) (b_prev_free b) (b_next_free b).

Record m_inode := MInode {
  i_mode : Z; i_uid : Z; i_size : Z; i_mtime : Z; i_gid : Z; i_nlinks : Z; i_zone : list Z;
  i_atime : Z; i_ctime : Z; i_dev : Z; i_num : Z; i_count : Z; i_lock : Z; i_dirt : Z;
  i_pipe : Z; i_mount : Z; i_seek : Z; i_update : Z
}.
#[export] Instance eta_m_inode : Eta m_inode := λ i,
  MInode (i_mode i) (i_uid i) (i_size i) (i_mtime i) (i_gid i) (i_nlinks i) (i_zone i)
    (i_atime i) (i_ctime i) (i_dev i) (i_num i) (i_count i) (i_lock i) (i_dirt i)
    (i_pipe i) (i_mount i) (i_seek i) (i_update i).
(** What memset leaves when it clears an inode. *)
Definition inode0 : m_inode := MInode 0 0 0 0 0 0 (replicate 9 0) 0 0 0 0 0 0 0 0 0 0 0.
Definition zone (i : m_inode) (k : Z) : Z := default 0 (i_zone i !! Z.to_nat k).

Record file := File { f_mode : Z; f_flags : Z; f_count : Z; f_inode : Z; f_pos : Z }.
#[export] Instance eta_file : Eta file := λ f,
  File (f_mode f) (f_flags f) (f_count f) (f_inode f) (f_pos f).

Record superblock := SuperBlock {
  s_ninodes : Z; s_nzones : Z; s_imap_blocks : Z; s_zmap_blocks : Z; s_firstdatazone : Z;
  s_log_zone_size : Z; s_max_size : Z; s_magic : Z;
  s_imap : list Z; s_zmap : list Z;      (* pointers to buffers *)
  s_dev : Z; s_isup : Z; s_imount : Z; s_time : Z; s_rd_only : Z; s_dirt : Z
}.
#[export] Instance eta_superblock : Eta superblock := λ s,
  SuperBlock (s_ninodes s) (s_nzones s) (s_imap_blocks s) (s_zmap_blocks s)
    (s_firstdatazone s) (s_log_zone_size s) (s_max_size s) (s_magic s) (s_imap s) (s_zmap s)
    (s_dev s) (s_isup s) (s_imount s) (s_time s) (s_rd_only s) (s_dirt s).

Record fs := Fs {
  heads : gmap Z buffer_head;       (* start_buffer[0..], by pointer *)
  nr_buffers : nat;
  hash_table : list Z;
  free_list : Z;
  null_b_prev : Z;                  (* the word that NULL->b_prev is *)
  media : gmap (Z * Z) (list Z);    (* the sectors of the drives that can be read *)
  hd : list (Z * Z);                (* start_sect, nr_sects *)
  callable : Z;                     (* static in sys_setup *)
  inode_table : list m_inode;
  last_allocated_inode : Z;
  file_table : list file;
  super_block : list superblock;
  term : TtyIo.io;
  mem : mm
}.
#[export] Instance eta_fs : Eta fs := λ s,
  Fs (heads s) (nr_buffers s) (hash_table s) (free_list s) (null_b_prev s) (media s) (hd s)
    (callable s) (inode_table s) (last_allocated_inode s) (file_table s) (super_block s) (term s) (mem s).

(** ** Access *)

Definition NULL : Z := 0.

Definition bh (p : Z) : M fs buffer_head :=
  h ← gets heads; match h !! p with Some b => mret b | None => fault end.
Definition set_bh (p : Z) (f : buffer_head → buffer_head) : M fs () :=
  b ← bh p; modify (λ s, s <| heads ::= <[p := f b]> |>).
Definition inode (p : Z) : M fs m_inode := l ← gets inode_table; index l (p - 1).
Definition set_inode (p : Z) (f : m_inode → m_inode) : M fs () :=
  i ← inode p; store inode_table (p - 1) (f i).
Definition filp (p : Z) : M fs file := l ← gets file_table; index l (p - 1).
Definition set_filp (p : Z) (f : file → file) : M fs () :=
  x ← filp p; store file_table (p - 1) (f x).
Definition sblock (p : Z) : M fs superblock := l ← gets super_block; index l (p - 1).
Definition set_sblock (p : Z) (f : superblock → superblock) : M fs () :=
  x ← sblock p; store super_block (p - 1) (f x).

Definition in_tty {A} (m : M TtyIo.io A) : M fs A := zoom term m.
Definition in_sched {A} (m : M sched A) : M fs A := in_tty (zoom TtyIo.sch m).
Definition in_mm {A} (m : M mm A) : M fs A := zoom mem m.

Definition cur : M fs Task.task_struct := in_sched cur_task.
Definition set_current (f : Task.task_struct → Task.task_struct) : M fs () :=
  in_sched (set_cur f).
Definition kprint (msg : string) : M fs () := in_mm (printk msg).
Definition CURRENT_TIME : M fs Z :=
  in_sched (gets (λ s, s64 (startup_time s + Z.quot (jiffies s) HZ))).

(** The addresses of the wait-queue heads b_wait, i_wait and buffer_wait; only
    that they differ matters. *)
Definition b_wait (p : Z) : Z := 0x100000000 + p.
Definition i_wait (p : Z) : Z := 0x200000000 + p.
Definition buffer_wait : Z := 0x300000000.
Definition sleep_on {A} (q : Z) : M fs A := in_sched (sleep_on_enter q);; sleep.
Definition wake (q : Z) : M fs () := in_sched (wake_up q).

(** ** Bytes and halfwords of a buffer

    The accesses to b_data as an array of shorts or ints; the processor is
    little-endian. *)

Definition byte_at (d : list Z) (k : Z) : Z := default 0 (d !! Z.to_nat k).
Definition set_byte (d : list Z) (k v : Z) : list Z := <[Z.to_nat k := u8 v]> d.
Definition half_at (d : list Z) (k : Z) : Z := byte_at d (2 * k) + 256 * byte_at d (2 * k + 1).
Definition set_half (d : list Z) (k v : Z) : list Z :=
  set_byte (set_byte d (2 * k) v) (2 * k + 1) (Z.shiftr v 8).
Definition int_at (d : list Z) (k : Z) : Z := half_at d (2 * k) + 65536 * half_at d (2 * k + 1).
Definition set_int (d : list Z) (k v : Z) : list Z :=
  set_half (set_half d (2 * k) v) (2 * k + 1) (Z.shiftr v 16).

(** ** The memory of the running task (include/asm/segment.h) *)

Definition get_fs_byte (a : Z) : M fs Z := in_tty (TtyIo.get_fs_byte a).
Definition put_fs_byte (v a : Z) : M fs () := in_tty (TtyIo.put_fs_byte v a).
Definition get_fs_long (a : Z) : M fs Z :=
  gets (λ s, foldr (λ k w, default 0 (TtyIo.user (term s) !! (a + k)) + 256 * w) 0 (upto 8)).
Definition put_fs_long (v a : Z) : M fs () :=
  mfor (λ k, put_fs_byte (Z.shiftr v (8 * k)) (a + k)) (upto 8).

(** The base of a segment descriptor (sched.h) *)
Definition get_base (d : Z * Z) : Z :=
  Z.shiftr d.1 16 .| Z.shiftl (d.2 .& 0xff) 16 .| Z.shiftl (Z.shiftr d.2 24) 24.

(** verify_area (kernel/fork.c): every page of the range is made writable. *)
Definition verify_area (addr size : Z) : M fs () :=
  let start := u64 addr in
  let size := s32 (size + (start .& 0xfff)) in
  t ← cur;
  d ← index (Task.ldt t) 2;
  let start := (start .& 0xfffff000) + get_base d in
  mfor (λ k, in_mm (write_verify (u64 (start + 4096 * k))))
    (upto (Z.to_nat ((size + 4095) / 4096))).

(** ** Errors and modes *)

Definition EPERM : Z := 1.
Definition ENOENT : Z := 2.
Definition EINTR : Z := 4.
Definition EIO : Z := 5.
Definition EBADF : Z := 9.
Definition ECHILD : Z := 10.
Definition EAGAIN : Z := 11.
Definition ENOMEM : Z := 12.
Definition EACCES : Z := 13.
Definition EEXIST : Z := 17.
Definition EXDEV : Z := 18.
Definition ENOTDIR : Z := 20.
Definition EISDIR : Z := 21.
Definition EINVAL : Z := 22.
Definition EMFILE : Z := 24.
Definition ENOTTY : Z := 25.
Definition ENOSPC : Z := 28.
Definition ESPIPE : Z := 29.
Definition ENOTEMPTY : Z := 39.
Definition ERROR : Z := 99.

(** include/sys/stat.h; the numbers are octal there. *)
Definition S_IFMT : Z := 0xF000.
Definition S_ISREG (m : Z) : bool := (m .& S_IFMT) =? 0x8000.
Definition S_ISBLK (m : Z) : bool := (m .& S_IFMT) =? 0x6000.
Definition S_ISDIR (m : Z) : bool := (m .& S_IFMT) =? 0x4000.
Definition S_ISCHR (m : Z) : bool := (m .& S_IFMT) =? 0x2000.
Definition I_REGULAR : Z := 0x8000.
Definition I_DIRECTORY : Z := 0x4000.

(** ** get_super *)

Definition get_super (dev : Z) : M fs Z :=
  r ← mloop (λ k, s ← sblock (k + 1);
               mret (if s_dev s =? dev then Some (k + 1) else None)) (upto NR_SUPER);
  mret (default NULL r).

#[global] Arguments verify_area : simpl never.
