(* ===== verification/Buffer.v ===== *)
(** * The buffer cache (fs/buffer.c), the block devices (fs/block_dev.c) and the
    hard disk as the cache sees it (kernel/hd.c)

    Every buffer is in the circular free list; a buffer that holds a block is
    also in the list of its hash bucket.  The queues are modelled with their
    pointers. *)

From S2P Require Export Fs.

(** ** Waiting *)

Definition wait_on_buffer (p : Z) : M fs () :=
  b ← bh p; if truth (b_lock b) then sleep_on (b_wait p) else mret ().

(** ** The drives

    [NR_HD] drives of type 17; [hd_transfer] is what a request of two sectors
    has done when rw_abs_hd returns: the interrupt handlers read_intr and
    write_intr run once for each sector.  A request that fails is issued again
    at its first sector with the number of sectors it has left, so when only
    the second sector is bad, the first is read (or written) in its place. *)

Definition NR_HD : Z := 2.
Definition hd_head : Z := 5.
Definition hd_sect : Z := 17.
Definition hd_cyl : Z := 980.

Definition hd_transfer (rw nr lba p : Z) : M fs () :=
  b ← bh p;
  m ← gets media;
  let d0 := take 512 (b_data b) in
  let d1 := drop 512 (b_data b) in
  match m !! (nr, lba), m !! (nr, lba + 1) with
  | None, _ => set_bh p (λ b, b <| b_uptodate := 0 |>)
  | Some s0, second =>
      (if rw =? READ
       then set_bh p (λ b, b <| b_data := s0 ++ default s0 second |>)
       else modify (λ s, s <| media ::= λ m,
              match second with
              | Some _ => <[(nr, lba + 1) := d1]> (<[(nr, lba) := d0]> m)
              | None => <[(nr, lba) := d1]> m
              end |>));;
      set_bh p (λ b, b <| b_uptodate := 1 |> <| b_dirt := 0 |>)
  end.

Definition rw_abs_hd (rw nr sec head cyl p : Z) : M fs () :=
  if negb ((rw =? READ) || (rw =? WRITE)) then panic "Bad hd command, must be R/W" else
  b ← bh p;
  when (truth (b_lock b)) (kprint "hd.c: buffer multiply locked");;
  set_bh p (λ b, b <| b_lock := 1 |>);;
  hd_transfer rw nr ((cyl * hd_head + head) * hd_sect + sec - 1) p;;
  set_bh p (λ b, b <| b_lock := 0 |>);;
  wake (b_wait p);;
  wait_on_buffer p.

Definition rw_hd (rw p : Z) : M fs () :=
  b ← bh p;
  let block := u32 (Z.shiftl (b_blocknr b) 1) in
  let dev := MINOR (b_dev b) in
  if 5 * NR_HD <=? dev then mret () else
  part ← (l ← gets hd; index l dev);
  if part.2 <? u32 (block + 2) then mret () else
  let block := u32 (block + part.1) in
  let dev := dev / 5 in
  let sec := block mod hd_sect in
  let block := block / hd_sect in
  rw_abs_hd rw dev (sec + 1) (block mod hd_head) (block / hd_head) p.

(** rd_blk: only the hard disk has a function. *)
Definition ll_rw_block (rw p : Z) : M fs () :=
  b ← bh p;
  let major := MAJOR (b_dev b) in
  if (7 <=? major) || negb (major =? 3)
  then panic "Trying to read nonexistent block-device" else
  rw_hd rw p.

(** ** Writing the cache back *)

(** The pointers start_buffer, start_buffer+1, ... *)
Definition all_buffers : M fs (list Z) := n ← gets nr_buffers; mret (map Z.succ (upto n)).

Definition sync_dev (dev : Z) : M fs () :=
  l ← all_buffers;
  mfor (λ p, b ← bh p;
    if negb (b_dev b =? dev) then mret () else
    wait_on_buffer p;;
    b ← bh p;
    when (truth (b_dirt b)) (ll_rw_block WRITE p)) l.

(** sys_sync after sync_inodes. *)
Definition sync_buffers : M fs () :=
  l ← all_buffers;
  mfor (λ p,
    wait_on_buffer p;;
    b ← bh p;
    when (truth (b_dirt b)) (ll_rw_block WRITE p)) l.

(** ** The queues *)

Definition _hashfn (dev block : Z) : Z := u32 (Z.lxor dev block) mod NR_HASH.
Definition hash (dev block : Z) : M fs Z := l ← gets hash_table; index l (_hashfn dev block).
Definition set_hash (dev block p : Z) : M fs () := store hash_table (_hashfn dev block) p.

(** [p->b_prev = v], where [p] may be NULL: insert_into_queues writes there. *)
Definition set_b_prev (p v : Z) : M fs () :=
  if p =? NULL then modify (λ s, s <| null_b_prev := v |>)
  else set_bh p (λ b, b <| b_prev := v |>).

Definition remove_from_queues (p : Z) : M fs () :=
  b ← bh p;
  when (truth (b_next b)) (set_bh (b_next b) (λ c, c <| b_prev := b_prev b |>));;
  b ← bh p;
  when (truth (b_prev b)) (set_bh (b_prev b) (λ c, c <| b_next := b_next b |>));;
  b ← bh p;
  h ← hash (b_dev b) (b_blocknr b);
  when (h =? p) (set_hash (b_dev b) (b_blocknr b) (b_next b));;
  if negb (truth (b_prev_free b)) || negb (truth (b_next_free b))
  then panic "Free block list corrupted" else
  set_bh (b_prev_free b) (λ c, c <| b_next_free := b_next_free b |>);;
  b ← bh p;
  set_bh (b_next_free b) (λ c, c <| b_prev_free := b_prev_free b |>);;
  f ← gets free_list;
  b ← bh p;
  when (f =? p) (modify (λ s, s <| free_list := b_next_free b |>)).

Definition insert_into_queues (p : Z) : M fs () :=
  f ← gets free_list;
  set_bh p (λ b, b <| b_next_free := f |>);;
  fb ← bh f;
  set_bh p (λ b, b <| b_prev_free := b_prev_free fb |>);;
  fb ← bh f;
  set_bh (b_prev_free fb) (λ b, b <| b_next_free := p |>);;
  set_bh f (λ b, b <| b_prev_free := p |>);;
  set_bh p (λ b, b <| b_prev := NULL |>);;
  set_bh p (λ b, b <| b_next := NULL |>);;
  b ← bh p;
  if b_dev b =? 0 then mret () else
  h ← hash (b_dev b) (b_blocknr b);
  set_bh p (λ b, b <| b_next := h |>);;
  set_hash (b_dev b) (b_blocknr b) p;;
  b ← bh p;
  set_b_prev (b_next b) p.

(** The walk along a hash list; more steps than buffers means a cycle. *)
Fixpoint find_from (fuel : nat) (tmp dev block : Z) : M fs Z :=
  if tmp =? NULL then mret NULL else
  match fuel with
  | O => nofuel
  | S n =>
      b ← bh tmp;
      if (b_dev b =? dev) && (b_blocknr b =? block) then mret tmp
      else find_from n (b_next b) dev block
  end.
Definition find_buffer (dev block : Z) : M fs Z :=
  h ← hash dev block; n ← gets nr_buffers; find_from n h dev block.

(** ** getblk, brelse, bread *)

Definition brelse (p : Z) : M fs () :=
  if p =? NULL then mret () else
  wait_on_buffer p;;
  b ← bh p;
  set_bh p (λ b, b <| b_count := u8 (b_count b - 1) |>);;
  if b_count b =? 0 then panic "Trying to free free buffer" else
  wake buffer_wait.

(** [goto repeat] is taken only when the block has changed while the task slept;
    one more try is enough for a task that does not sleep. *)
Fixpoint get_hash_table (fuel : nat) (dev block : Z) : M fs Z :=
  match fuel with
  | O => nofuel
  | S n =>
      p ← find_buffer dev block;
      if p =? NULL then mret NULL else
      set_bh p (λ b, b <| b_count := u8 (b_count b + 1) |>);;
      wait_on_buffer p;;
      b ← bh p;
      if negb (b_dev b =? dev) || negb (b_blocknr b =? block)
      then brelse p;; get_hash_table n dev block
      else mret p
  end.
Definition REPEAT : nat := 2.

(** The do loop of getblk: the first unused buffer of the free list, or NULL. *)
Fixpoint find_free (fuel : nat) (tmp : Z) : M fs Z :=
  match fuel with
  | O => nofuel
  | S n =>
      b ← bh tmp;
      r ← (if b_count b =? 0 then
             wait_on_buffer tmp;;
             b ← bh tmp; mret (b_count b =? 0)
           else mret false);
      if r : bool then mret tmp else
      f ← gets free_list;
      b ← bh tmp;
      if negb (b_next_free b =? f) then find_free n (b_next_free b) else mret NULL
  end.

Fixpoint getblk_loop (fuel : nat) (dev block : Z) : M fs Z :=
  match fuel with
  | O => nofuel
  | S n =>
      tmp ← get_hash_table REPEAT dev block;
      if truth tmp then mret tmp else
      f ← gets free_list;
      k ← gets nr_buffers;
      tmp ← find_free k f;
      if tmp =? NULL then
        kprint "Sleeping on free buffer ..";;
        sleep_on buffer_wait
      else
      set_bh tmp (λ b, b <| b_count := u8 (b_count b + 1) |>);;
      remove_from_queues tmp;;
      b ← bh tmp;
      when (truth (b_dirt b)) (sync_dev (b_dev b));;
      set_bh tmp (λ b, b <| b_dev := u16 dev |> <| b_blocknr := u16 block |>
                         <| b_dirt := 0 |> <| b_uptodate := 0 |>);;
      other ← find_buffer dev block;
      if truth other then
        set_bh tmp (λ b, b <| b_dev := 0 |> <| b_blocknr := 0 |> <| b_count := 0 |>);;
        insert_into_queues tmp;;
        getblk_loop n dev block
      else
        insert_into_queues tmp;;
        mret tmp
  end.
Definition getblk (dev block : Z) : M fs Z := getblk_loop REPEAT dev block.

Definition bread (dev block : Z) : M fs Z :=
  p ← getblk dev block;
  if p =? NULL then panic "bread: getblk returned NULL" else
  b ← bh p;
  if truth (b_uptodate b) then mret p else
  ll_rw_block READ p;;
  b ← bh p;
  if truth (b_uptodate b) then mret p else
  brelse p;;
  mret NULL.

(** ** buffer_init

    [end_] is the address of the symbol end, where the buffer heads start, and
    [contents] what the memory holds at the addresses that become b_data. *)

Section Init.
Context (end_ : Z) (contents : Z → list Z).

Definition head_addr (p : Z) : Z := end_ + sizeof buffer_head_t * (p - 1).

Fixpoint init_heads (fuel : nat) (b h : Z) : M fs Z :=
  match fuel with
  | O => nofuel
  | S n =>
      let b := b - 1024 in
      if b <? head_addr (h + 1) then mret h else
      modify (λ s, s <| heads ::= <[h := BufferHead (contents b) 0 0 0 0 0 0
                                           NULL NULL (h - 1) (h + 1)]> |>
                     <| nr_buffers ::= S |>);;
      init_heads n (if b =? 0x100000 then 0xA0000 else b) (h + 1)
  end.

Definition buffer_init (fuel : nat) : M fs () :=
  h ← init_heads fuel BUFFER_END 1;
  let h := h - 1 in
  modify (λ s, s <| free_list := 1 |>);;
  set_bh 1 (λ b, b <| b_prev_free := h |>);;
  set_bh h (λ b, b <| b_next_free := 1 |>);;
  modify (λ s, s <| hash_table := replicate (Z.to_nat NR_HASH) NULL |>).
End Init.

#[global] Arguments bread : simpl never.
#[global] Arguments getblk : simpl never.
#[global] Arguments brelse : simpl never.
