(* ===== verification/Bitmap.v ===== *)
(** * The allocation bitmaps (fs/bitmap.c)

    A bitmap block is 8192 bits, accessed as 32-bit words; bit [k] of the map is
    bit [k mod 32] of word [k / 32].  new_inode and free_inode use the inode
    table, so they are in Inode.v. *)

From S2P Require Export Buffer.

(** ** Bits of a block *)

(** [1 << (nr & 31)] *)
Definition bit_mask (nr : Z) : Z := Z.shiftl 1 (nr .& 31).
Definition set_bit (nr : Z) (d : list Z) : Z * list Z :=
  let old := int_at d (Z.shiftr nr 5) .& bit_mask nr in
  (if truth old then 1 else 0, set_int d (Z.shiftr nr 5) (int_at d (Z.shiftr nr 5) .| bit_mask nr)).
(** The result is 1 if the bit was clear already. *)
Definition clear_bit (nr : Z) (d : list Z) : Z * list Z :=
  let old := int_at d (Z.shiftr nr 5) .& bit_mask nr in
  (if truth old then 0 else 1,
   set_int d (Z.shiftr nr 5) (Z.ldiff (int_at d (Z.shiftr nr 5)) (bit_mask nr))).

(** The inner loop of find_first_zero: the first one bit of [val] from bit [j]. *)
Fixpoint first_one (n : nat) (val j : Z) : option Z :=
  match n with
  | O => None
  | S n => if truth (val .& Z.shiftl 1 j) then Some j else first_one n val (j + 1)
  end.
Fixpoint first_zero_from (n : nat) (d : list Z) (i : Z) : Z :=
  match n with
  | O => 8192
  | S n =>
      let w := int_at d i in
      if negb (w =? 0xFFFFFFFF) then
        match first_one 32 (Z.lxor w 0xFFFFFFFF) 0 with
        | Some j => i * 32 + j
        | None => first_zero_from n d (i + 1)
        end
      else first_zero_from n d (i + 1)
  end.
Definition find_first_zero (d : list Z) : Z := first_zero_from 256 d 0.
Definition clear_block : list Z := replicate 1024 0.

(** The bit operations on the block of a buffer. *)
Definition bh_set_bit (nr p : Z) : M fs Z :=
  b ← bh p;
  let r := set_bit nr (b_data b) in
  set_bh p (λ b, b <| b_data := r.2 |>);; mret r.1.
Definition bh_clear_bit (nr p : Z) : M fs Z :=
  b ← bh p;
  let r := clear_bit nr (b_data b) in
  set_bh p (λ b, b <| b_data := r.2 |>);; mret r.1.

(** The loop over the eight slots of a map: the slot, its buffer and the bit. *)
Definition find_zero_in (map : list Z) : M fs (option (Z * Z * Z)) :=
  mloop (λ i,
    p ← index map i;
    if p =? NULL then mret None else
    b ← bh p;
    let j := find_first_zero (b_data b) in
    mret (if j <? 8192 then Some (i, p, j) else None)) (upto 8).

(** ** Blocks *)

Definition free_block (dev block : Z) : M fs () :=
  sb ← get_super dev;
  if sb =? NULL then panic "trying to free block on nonexistent device" else
  s ← sblock sb;
  if (block <? s_firstdatazone s) || (s_nzones s <=? block)
  then panic "trying to free block not in datazone" else
  p ← get_hash_table REPEAT dev block;
  b ← (if truth p then bh p else mret (BufferHead [] 0 0 0 0 1 0 0 0 0 0));
  if truth p && negb (b_count b =? 1)
  then kprint "trying to free block (%04x:%d), count=%d" else
  when (truth p)
    (set_bh p (λ b, b <| b_dirt := 0 |>);;
     set_bh p (λ b, b <| b_uptodate := 0 |>);;
     brelse p);;
  let block := block - (s_firstdatazone s - 1) in
  z ← index (s_zmap s) (Z.quot block 8192);
  r ← bh_clear_bit (block .& 8191) z;
  if truth r then
    kprint "block (%04x:%d) ";;
    panic "free_block: bit already cleared"
  else
    set_bh z (λ b, b <| b_dirt := 1 |>).

Definition new_block (dev : Z) : M fs Z :=
  sb ← get_super dev;
  if sb =? NULL then panic "trying to get new block from nonexistant device" else
  s ← sblock sb;
  r ← find_zero_in (s_zmap s);
  match r with
  | None => mret 0
  | Some (i, p, j) =>
      old ← bh_set_bit j p;
      if truth old then panic "new_block: bit already set" else
      set_bh p (λ b, b <| b_dirt := 1 |>);;
      let j := j + (i * 8192 + s_firstdatazone s - 1) in
      if s_nzones s <=? j then mret 0 else
      p ← getblk dev j;
      if p =? NULL then panic "new_block: cannot get block" else
      b ← bh p;
      if negb (b_count b =? 1) then panic "new block: count is != 1" else
      set_bh p (λ b, b <| b_data := clear_block |>);;
      set_bh p (λ b, b <| b_uptodate := 1 |>);;
      set_bh p (λ b, b <| b_dirt := 1 |>);;
      brelse p;;
      mret j
  end.

#[global] Arguments find_first_zero : simpl never.
#[global] Arguments free_block : simpl never.
#[global] Arguments new_block : simpl never.
