(* ===== verification/Inode.v ===== *)
(** * The inode table (fs/inode.c), the inode bitmap (fs/bitmap.c) and truncate
    (fs/truncate.c) *)

From S2P Require Export Bitmap.

(** ** Waiting *)

Definition wait_on_inode (p : Z) : M fs () :=
  i ← inode p; if truth (i_lock i) then sleep_on (i_wait p) else mret ().
Definition lock_inode (p : Z) : M fs () :=
  wait_on_inode p;; set_inode p (λ i, i <| i_lock := 1 |>).
Definition unlock_inode (p : Z) : M fs () :=
  set_inode p (λ i, i <| i_lock := 0 |>);; wake (i_wait p).

(** ** Disk inodes

    The copy of a [struct d_inode] to and from entry [k] of a block, field by
    field at the offsets of the structure (48 bytes with the padding, see
    Layout.v). *)

Definition le_at (d : list Z) (o n : Z) : Z :=
  foldr (λ k w, byte_at d (o + k) + 256 * w) 0 (upto (Z.to_nat n)).
Definition set_le (d : list Z) (o n v : Z) : list Z :=
  foldr (λ k d, set_byte d (o + k) (Z.shiftr v (8 * k))) d (upto (Z.to_nat n)).

Definition load_d_inode (d : list Z) (k : Z) (i : m_inode) : m_inode :=
  let o := k * sizeof d_inode_t in
  i <| i_mode := le_at d o 2 |> <| i_uid := le_at d (o + 2) 2 |>
    <| i_size := le_at d (o + 8) 8 |> <| i_mtime := le_at d (o + 16) 8 |>
    <| i_gid := le_at d (o + 24) 1 |> <| i_nlinks := le_at d (o + 25) 1 |>
    <| i_zone := map (λ j, le_at d (o + 26 + 2 * j) 2) (upto 9) |>.
Definition store_d_inode (d : list Z) (k : Z) (i : m_inode) : list Z :=
  let o := k * sizeof d_inode_t in
  let d := set_le d o 2 (i_mode i) in
  let d := set_le d (o + 2) 2 (i_uid i) in
  let d := set_le d (o + 8) 8 (i_size i) in
  let d := set_le d (o + 16) 8 (i_mtime i) in
  let d := set_le d (o + 24) 1 (i_gid i) in
  let d := set_le d (o + 25) 1 (i_nlinks i) in
  foldr (λ j d, set_le d (o + 26 + 2 * j) 2 (zone i j)) d (upto 9).

(** The block that holds an inode; i_num-1 is converted to unsigned long by
    the division. *)
Definition inode_block (s : superblock) (i : m_inode) : Z :=
  s32 (2 + s_imap_blocks s + s_zmap_blocks s + u64 (i_num i - 1) / INODES_PER_BLOCK).
Definition inode_entry (i : m_inode) : Z := u64 (i_num i - 1) mod INODES_PER_BLOCK.

Definition read_inode (p : Z) : M fs () :=
  lock_inode p;;
  i ← inode p;
  sb ← get_super (i_dev i);
  s ← sblock sb;
  b ← bread (i_dev i) (inode_block s i);
  if b =? NULL then panic "unable to read i-node block" else
  d ← bh b;
  set_inode p (load_d_inode (b_data d) (inode_entry i));;
  brelse b;;
  unlock_inode p.

Definition write_inode (p : Z) : M fs () :=
  lock_inode p;;
  i ← inode p;
  sb ← get_super (i_dev i);
  s ← sblock sb;
  b ← bread (i_dev i) (inode_block s i);
  if b =? NULL then panic "unable to read i-node block" else
  set_bh b (λ d, d <| b_data ::= λ x, store_d_inode x (inode_entry i) i |>);;
  set_bh b (λ d, d <| b_dirt := 1 |>);;
  set_inode p (λ i, i <| i_dirt := 0 |>);;
  brelse b;;
  unlock_inode p.

Definition sync_inodes : M fs () :=
  mfor (λ k,
    let p := k + 1 in
    wait_on_inode p;;
    i ← inode p;
    when (truth (i_dirt i) && negb (truth (i_pipe i))) (write_inode p)) (upto NR_INODE).

Definition sys_sync : M fs Z := sync_inodes;; sync_buffers;; mret 0.

(** ** Blocks of a file *)

(** A zone of the inode, allocated on demand. *)
Definition bmap_zone (p k : Z) (create : bool) : M fs Z :=
  i ← inode p;
  if create && (zone i k =? 0) then
    n ← new_block (i_dev i);
    set_inode p (λ i, i <| i_zone ::= <[Z.to_nat k := u16 n]> |>);;
    when (truth (u16 n))
      (now ← CURRENT_TIME;
       set_inode p (λ i, i <| i_ctime := u64 now |> <| i_dirt := 1 |>));;
    mret (u16 n)
  else mret (zone i k).

(** Entry [k] of an indirect block, allocated on demand. *)
Definition bmap_indirect (dev block k : Z) (create : bool) : M fs Z :=
  b ← bread dev block;
  if b =? NULL then mret 0 else
  d ← bh b;
  let i := half_at (b_data d) k in
  i ← (if create && (i =? 0) then
         i ← new_block dev;
         when (truth i)
           (set_bh b (λ d, d <| b_data ::= λ x, set_half x k i |>);;
            set_bh b (λ d, d <| b_dirt := 1 |>));;
         mret i
       else mret i);
  brelse b;;
  mret i.

Definition _bmap (p block : Z) (create : bool) : M fs Z :=
  if block <? 0 then panic "_bmap: block<0" else
  if 7 + 512 + 512 * 512 <=? block then panic "_bmap: block>big" else
  if block <? 7 then bmap_zone p block create else
  let block := block - 7 in
  if block <? 512 then
    z ← bmap_zone p 7 create;
    if z =? 0 then mret 0 else
    i ← inode p;
    bmap_indirect (i_dev i) z block create
  else
  let block := block - 512 in
  z ← bmap_zone p 8 create;
  if z =? 0 then mret 0 else
  i ← inode p;
  n ← bmap_indirect (i_dev i) z (Z.shiftr block 9) create;
  if n =? 0 then mret 0 else
  bmap_indirect (i_dev i) n (block .& 511) create.

Definition bmap (p block : Z) : M fs Z := _bmap p block false.
Definition create_block (p block : Z) : M fs Z := _bmap p block true.

(** ** truncate *)

(** The body of free_ind and free_dind: [free] on every entry of the block, then
    the block itself. *)
Definition free_table (free : Z → Z → M fs ()) (dev block : Z) : M fs () :=
  if block =? 0 then mret () else
  b ← bread dev block;
  when (truth b)
    (mfor (λ k, d ← bh b;
             let e := half_at (b_data d) k in
             when (truth e) (free dev e)) (upto 512);;
     brelse b);;
  free_block dev block.
Definition free_ind (dev block : Z) : M fs () := free_table free_block dev block.
Definition free_dind (dev block : Z) : M fs () := free_table free_ind dev block.

Definition truncate (p : Z) : M fs () :=
  i ← inode p;
  if negb (S_ISREG (i_mode i) || S_ISDIR (i_mode i)) then mret () else
  mfor (λ k,
    i ← inode p;
    when (truth (zone i k))
      (free_block (i_dev i) (zone i k);;
       set_inode p (λ i, i <| i_zone ::= <[Z.to_nat k := 0]> |>))) (upto 7);;
  i ← inode p;
  free_ind (i_dev i) (zone i 7);;
  i ← inode p;
  free_dind (i_dev i) (zone i 8);;
  set_inode p (λ i, i <| i_zone ::= λ z, <[7%nat := 0]> (<[8%nat := 0]> z) |>);;
  set_inode p (λ i, i <| i_size := 0 |>);;
  set_inode p (λ i, i <| i_dirt := 1 |>);;
  now ← CURRENT_TIME;
  set_inode p (λ i, i <| i_mtime := u64 now |> <| i_ctime := u64 now |>).

(** ** Inode numbers (fs/bitmap.c) *)

(** memset(inode,0,sizeof) also empties the wait queue of the inode. *)
Definition clear_inode (p : Z) : M fs () :=
  set_inode p (λ _, inode0);; in_sched (set_head (i_wait p) 0).

Definition free_inode (p : Z) : M fs () :=
  if p =? NULL then mret () else
  i ← inode p;
  if i_dev i =? 0 then clear_inode p else
  if 1 <? i_count i then
    kprint "trying to free inode with count=%d";; panic "free_inode" else
  if truth (i_nlinks i) then panic "trying to free inode with links" else
  sb ← get_super (i_dev i);
  if sb =? NULL then panic "trying to free inode on nonexistent device" else
  s ← sblock sb;
  if (i_num i <? 1) || (s_ninodes s <? i_num i)
  then panic "trying to free inode 0 or nonexistant inode" else
  b ← index (s_imap s) (Z.shiftr (i_num i) 13);
  if b =? NULL then panic "nonexistent imap in superblock" else
  r ← bh_clear_bit (i_num i .& 8191) b;
  if truth r then panic "free_inode: bit already cleared" else
  set_bh b (λ b, b <| b_dirt := 1 |>);;
  clear_inode p.

(** ** iput *)

(** From the label repeat: a dirty inode is written, once. *)
Fixpoint iput_last (fuel : nat) (p : Z) : M fs () :=
  match fuel with
  | O => nofuel
  | S n =>
      i ← inode p;
      if i_nlinks i =? 0 then truncate p;; free_inode p else
      if truth (i_dirt i) then write_inode p;; wait_on_inode p;; iput_last n p else
      set_inode p (λ i, i <| i_count := u16 (i_count i - 1) |>)
  end.

Definition iput (p : Z) : M fs () :=
  if p =? NULL then mret () else
  wait_on_inode p;;
  i ← inode p;
  if i_count i =? 0 then panic "iput: trying to free free inode" else
  if truth (i_pipe i) then
    wake (i_wait p);;
    set_inode p (λ i, i <| i_count := u16 (i_count i - 1) |>);;
    i ← inode p;
    if truth (i_count i) then mret () else
    in_mm (free_page (i_size i));;
    set_inode p (λ i, i <| i_count := 0 |> <| i_dirt := 0 |> <| i_pipe := 0 |>)
  else if (i_dev i =? 0) || (1 <? i_count i) then
    set_inode p (λ i, i <| i_count := u16 (i_count i - 1) |>)
  else iput_last 2 p.

(** ** Taking an inode *)

(** The do loop: the first unused inode from [ino] on, cyclically, or None. *)
Fixpoint find_unused (fuel : nat) (ino start : Z) : M fs (option Z) :=
  match fuel with
  | O => nofuel
  | S n =>
      i ← inode (ino + 1);
      if i_count i =? 0 then mret (Some ino) else
      let ino := if Z.of_nat NR_INODE <=? ino + 1 then 0 else ino + 1 in
      if negb (ino =? start) then find_unused n ino start else mret None
  end.
(** [while (inode->i_dirt)] *)
Fixpoint write_while_dirty (fuel : nat) (p : Z) : M fs () :=
  match fuel with
  | O => nofuel
  | S n =>
      i ← inode p;
      if truth (i_dirt i) then write_inode p;; wait_on_inode p;; write_while_dirty n p
      else mret ()
  end.

Fixpoint get_empty_loop (fuel : nat) : M fs Z :=
  match fuel with
  | O => nofuel
  | S n =>
      start ← gets last_allocated_inode;
      r ← find_unused NR_INODE start start;
      match r with
      | None =>
          mfor (λ _, kprint "%04x: %6d\t") (upto NR_INODE);;
          panic "No free inodes in mem"
      | Some ino =>
          modify (λ s, s <| last_allocated_inode := ino |>);;
          let p := ino + 1 in
          wait_on_inode p;;
          write_while_dirty 2 p;;
          i ← inode p;
          if i_count i =? 0 then
            clear_inode p;;
            set_inode p (λ i, i <| i_count := 1 |>);;
            mret p
          else get_empty_loop n
      end
  end.
Definition get_empty_inode : M fs Z := get_empty_loop REPEAT.

Definition new_inode (dev : Z) : M fs Z :=
  p ← get_empty_inode;
  if p =? NULL then mret NULL else
  sb ← get_super dev;
  if sb =? NULL then panic "new_inode with unknown device" else
  s ← sblock sb;
  r ← find_zero_in (s_imap s);
  match r with
  | None => iput p;; mret NULL
  | Some (i, b, j) =>
      if s_ninodes s <? j + i * 8192 then iput p;; mret NULL else
      old ← bh_set_bit j b;
      if truth old then panic "new_inode: bit already set" else
      set_bh b (λ b, b <| b_dirt := 1 |>);;
      now ← CURRENT_TIME;
      set_inode p (λ x, x <| i_count := 1 |> <| i_nlinks := 1 |> <| i_dev := u16 dev |>
                          <| i_dirt := 1 |> <| i_num := u16 (j + i * 8192) |>
                          <| i_mtime := u64 now |> <| i_atime := u64 now |>
                          <| i_ctime := u64 now |>);;
      mret p
  end.

(** ** Pipes

    PIPE_HEAD and PIPE_TAIL are two longs laid over the halfwords of i_zone. *)

Definition PIPE_HEAD (i : m_inode) : Z :=
  zone i 0 + 2 ^ 16 * zone i 1 + 2 ^ 32 * zone i 2 + 2 ^ 48 * zone i 3.
Definition PIPE_TAIL (i : m_inode) : Z :=
  zone i 4 + 2 ^ 16 * zone i 5 + 2 ^ 32 * zone i 6 + 2 ^ 48 * zone i 7.
Definition set_long (o : nat) (v : Z) (l : list Z) : list Z :=
  <[o := u16 v]> (<[S o := u16 (Z.shiftr v 16)]>
    (<[S (S o) := u16 (Z.shiftr v 32)]> (<[S (S (S o)) := u16 (Z.shiftr v 48)]> l))).

Definition get_pipe_inode : M fs Z :=
  p ← get_empty_inode;
  if p =? NULL then mret NULL else
  page ← in_mm get_free_page;
  set_inode p (λ i, i <| i_size := page |>);;
  if page =? 0 then set_inode p (λ i, i <| i_count := 0 |>);; mret NULL else
  set_inode p (λ i, i <| i_count := 2 |>);;
  set_inode p (λ i, i <| i_zone ::= λ z, set_long 0 0 (set_long 4 0 z) |>);;
  set_inode p (λ i, i <| i_pipe := 1 |>);;
  mret p.

(** ** iget *)

(** The while loop of iget: the first entry of the table for the inode. *)
Definition find_inode (dev nr : Z) : M fs (option Z) :=
  mloop (λ k,
    let p := k + 1 in
    i ← inode p;
    if negb (i_dev i =? dev) || negb (i_num i =? nr) then mret None else
    wait_on_inode p;;
    mret (Some p)) (upto NR_INODE).

Definition iget (dev nr : Z) : M fs Z :=
  if dev =? 0 then panic "iget with dev==0" else
  empty ← get_empty_inode;
  r ← find_inode dev nr;
  match r with
  | Some p =>
      set_inode p (λ i, i <| i_count := u16 (i_count i + 1) |>);;
      when (truth empty) (iput empty);;
      mret p
  | None =>
      if empty =? NULL then mret NULL else
      set_inode empty (λ i, i <| i_dev := u16 dev |> <| i_num := u16 nr |>);;
      read_inode empty;;
      mret empty
  end.

#[global] Arguments iput : simpl never.
#[global] Arguments iget : simpl never.
#[global] Arguments get_empty_inode : simpl never.
