(* ===== verification/FileIo.v ===== *)
(** * Reading and writing (fs/read_write.c, fs/file_dev.c, fs/block_dev.c,
    fs/char_dev.c, fs/pipe.c) *)

From S2P Require Export Inode.

(** ** Regular files (file_dev.c)

    The loops advance by at least one byte each time, so [count] steps are
    enough fuel. *)

Definition copy_out (d : list Z) (o chars buf : Z) : M fs () :=
  mfor (λ k, c ← index d (o + k); put_fs_byte c (buf + k)) (upto (Z.to_nat chars)).
Definition zero_out (chars buf : Z) : M fs () :=
  mfor (λ k, put_fs_byte 0 (buf + k)) (upto (Z.to_nat chars)).

(** The loop of file_read: it returns what is left. *)
Fixpoint file_read_loop (fuel : nat) (p fp buf left : Z) : M fs Z :=
  if left =? 0 then mret left else
  match fuel with
  | O => nofuel
  | S n =>
      f ← filp fp;
      nr ← bmap p (s32 (Z.quot (f_pos f) BLOCK_SIZE));
      i ← inode p;
      b ← (if truth nr then bread (i_dev i) nr else mret NULL);
      if truth nr && (b =? NULL) then mret left else
      let o := Z.rem (f_pos f) BLOCK_SIZE in
      let chars := Z.min (BLOCK_SIZE - o) left in
      set_filp fp (λ f, f <| f_pos ::= λ x, s64 (x + chars) |>);;
      (if truth b then
         d ← bh b;
         copy_out (b_data d) o chars buf;;
         brelse b
       else zero_out chars buf);;
      file_read_loop n p fp (buf + chars) (left - chars)
  end.

Definition file_read (p fp buf count : Z) : M fs Z :=
  if count <=? 0 then mret 0 else
  left ← file_read_loop (Z.to_nat count) p fp buf count;
  now ← CURRENT_TIME;
  set_inode p (λ i, i <| i_atime := u64 now |>);;
  mret (if truth (count - left) then count - left else - ERROR).

Definition O_APPEND : Z := 0x400.

(** The store of the bytes [buf .. buf+c) at offset [o] of a buffer. *)
Definition copy_in (b o c buf : Z) : M fs () :=
  mfor (λ k, v ← get_fs_byte (buf + k);
    d ← bh b;
    if (o + k <? 0) || (Z.of_nat (length (b_data d)) <=? o + k) then fault else
    set_bh b (λ d, d <| b_data ::= λ x, set_byte x (o + k) v |>)) (upto (Z.to_nat c)).

(** The loop of file_write: the position and the number of bytes written. *)
Fixpoint file_write_loop (fuel : nat) (p buf count pos i : Z) : M fs (Z * Z) :=
  if count <=? i then mret (pos, i) else
  match fuel with
  | O => nofuel
  | S n =>
      block ← create_block p (s32 (Z.quot pos BLOCK_SIZE));
      if block =? 0 then mret (pos, i) else
      x ← inode p;
      b ← bread (i_dev x) block;
      if b =? NULL then mret (pos, i) else
      let o := Z.rem pos BLOCK_SIZE in
      set_bh b (λ d, d <| b_dirt := 1 |>);;
      let c := if count - i <? BLOCK_SIZE - o then count - i else BLOCK_SIZE - o in
      let pos := s64 (pos + c) in
      when (i_size x <? u64 pos)
        (set_inode p (λ x, x <| i_size := u64 pos |> <| i_dirt := 1 |>));;
      copy_in b o c (buf + i);;
      brelse b;;
      file_write_loop n p buf count pos (i + c)
  end.

Definition file_write (p fp buf count : Z) : M fs Z :=
  f ← filp fp;
  x ← inode p;
  let append := truth (f_flags f .& O_APPEND) in
  r ← file_write_loop (Z.to_nat count) p buf count
        (if append then s64 (i_size x) else f_pos f) 0;
  now ← CURRENT_TIME;
  set_inode p (λ x, x <| i_mtime := u64 now |>);;
  when (negb append)
    (set_filp fp (λ f, f <| f_pos := r.1 |>);;
     set_inode p (λ x, x <| i_ctime := u64 now |>));;
  mret (if truth r.2 then r.2 else -1).

(** ** Block devices (block_dev.c)

    [chars] is not bounded by what is left of the block after [offset], so the
    copy can leave the buffer: that is a [Fault]. *)

Fixpoint block_write_loop (fuel : nat) (dev fp buf count block offset written : Z) : M fs Z :=
  if count <=? 0 then mret written else
  match fuel with
  | O => nofuel
  | S n =>
      b ← bread dev block;
      if b =? NULL then mret (if truth written then written else - EIO) else
      let chars := if count <? BLOCK_SIZE then count else BLOCK_SIZE in
      set_filp fp (λ f, f <| f_pos ::= λ x, s64 (x + chars) |>);;
      copy_in b offset chars buf;;
      set_bh b (λ d, d <| b_dirt := 1 |>);;
      brelse b;;
      block_write_loop n dev fp (buf + chars) (count - chars) (block + 1) 0 (written + chars)
  end.
Definition block_write (dev fp buf count : Z) : M fs Z :=
  f ← filp fp;
  block_write_loop (Z.to_nat count) dev fp buf count
    (s32 (Z.quot (f_pos f) BLOCK_SIZE)) (Z.rem (f_pos f) BLOCK_SIZE) 0.

Fixpoint block_read_loop (fuel : nat) (dev fp buf count block offset read : Z) : M fs Z :=
  if count <=? 0 then mret read else
  match fuel with
  | O => nofuel
  | S n =>
      b ← bread dev block;
      if b =? NULL then mret (if truth read then read else - EIO) else
      let chars := if count <? BLOCK_SIZE then count else BLOCK_SIZE in
      set_filp fp (λ f, f <| f_pos ::= λ x, s64 (x + chars) |>);;
      d ← bh b;
      copy_out (b_data d) offset chars buf;;
      set_bh b (λ d, d <| b_dirt := 1 |>);;
      brelse b;;
      block_read_loop n dev fp (buf + chars) (count - chars) (block + 1) 0 (read + chars)
  end.
(** The position is an unsigned long here. *)
Definition block_read (dev fp buf count : Z) : M fs Z :=
  f ← filp fp;
  block_read_loop (Z.to_nat count) dev fp buf count
    (s32 (u64 (f_pos f) / BLOCK_SIZE)) (u64 (f_pos f) mod BLOCK_SIZE) 0.

(** ** Character devices (char_dev.c)

    tty_read and tty_write run on the terminals; where they give the processor
    up, the call ends in [Sleep]. *)

Definition tty_wait (q : Z) : M TtyIo.io () :=
  zoom TtyIo.sch (interruptible_sleep_on_enter q);; sleep.
Definition tty_yield : M TtyIo.io () := sleep.

Definition rw_ttyx (fuel : nat) (rw minor buf count : Z) : M fs Z :=
  in_tty (if rw =? READ then TtyIo.tty_read tty_wait fuel minor buf count
          else TtyIo.tty_write tty_wait tty_yield fuel minor buf count).
Definition rw_tty (fuel : nat) (rw minor buf count : Z) : M fs Z :=
  t ← cur;
  if Task.tty t <? 0 then mret (- EPERM) else
  rw_ttyx fuel rw (Task.tty t) buf count.

Definition rw_char (fuel : nat) (rw dev buf count : Z) : M fs Z :=
  if 8 <=? MAJOR dev then panic "rw_char: dev>NRDEV" else
  if MAJOR dev =? 4 then rw_ttyx fuel rw (MINOR dev) buf count else
  if MAJOR dev =? 5 then rw_tty fuel rw (MINOR dev) buf count else
  kprint "dev: %04x";;
  panic "Trying to r/w from/to nonexistent character device".

(** ** Pipes (pipe.c)

    The page of a pipe is at the address i_size; the bytes of a page are those
    of the words of the physical memory. *)

Definition word_byte (w k : Z) : Z := Z.shiftr w (8 * k) .& 0xff.
Definition set_word_byte (w k v : Z) : Z :=
  Z.ldiff w (Z.shiftl 0xff (8 * k)) .| Z.shiftl (u8 v) (8 * k).
Definition page_byte (a : Z) : M fs Z :=
  w ← in_mm (rd (a - a mod 8)); mret (word_byte w (a mod 8)).
Definition set_page_byte (a v : Z) : M fs () :=
  w ← in_mm (rd (a - a mod 8)); in_mm (wr (a - a mod 8) (set_word_byte w (a mod 8) v)).

Definition PIPE_SIZE (i : m_inode) : Z := (PIPE_HEAD i - PIPE_TAIL i) .& (PAGE_SIZE - 1).
Definition PIPE_EMPTY (i : m_inode) : bool := PIPE_HEAD i =? PIPE_TAIL i.
Definition PIPE_FULL (i : m_inode) : bool := PIPE_SIZE i =? PAGE_SIZE - 1.
(** incl and andl on the low four bytes of the long. *)
Definition INC_PIPE (o : nat) (l : list Z) : list Z :=
  let v := u32 (default 0 (l !! o) + 2 ^ 16 * default 0 (l !! S o) + 1) .& 4095 in
  <[o := u16 v]> (<[S o := u16 (Z.shiftr v 16)]> l).
Definition SIGPIPE : Z := 13.
Definition sigpipe : M fs () :=
  set_current (λ t, t <| Task.signal ::= λ x, x .| Z.shiftl 1 (SIGPIPE - 1) |>).

(** The second loop of read_pipe: the number of bytes read. *)
Fixpoint pipe_get (fuel : nat) (p buf b count : Z) : M fs Z :=
  i ← inode p;
  if (count <=? 0) || PIPE_EMPTY i then mret b else
  match fuel with
  | O => nofuel
  | S n =>
      c ← page_byte (i_size i + PIPE_TAIL i);
      put_fs_byte c (buf + b);;
      set_inode p (λ i, i <| i_zone ::= INC_PIPE 4 |>);;
      pipe_get n p buf (b + 1) (count - 1)
  end.

Definition read_pipe (p buf count : Z) : M fs Z :=
  i ← inode p;
  if PIPE_EMPTY i then
    wake (i_wait p);;
    i ← inode p;
    if negb (i_count i =? 2) then mret 0 else sleep_on (i_wait p)
  else
  b ← pipe_get (Z.to_nat count) p buf 0 count;
  wake (i_wait p);;
  mret b.

(** The loop of write_pipe; it sleeps when the pipe is full. *)
Fixpoint pipe_put (fuel : nat) (p buf b count : Z) : M fs Z :=
  if count <=? 0 then wake (i_wait p);; mret b else
  match fuel with
  | O => nofuel
  | S n =>
      i ← inode p;
      if PIPE_FULL i then
        wake (i_wait p);;
        i ← inode p;
        if negb (i_count i =? 2) then sigpipe;; mret b
        else sleep_on (i_wait p)
      else
        c ← get_fs_byte (buf + b);
        set_page_byte (i_size i + PIPE_HEAD i) c;;
        set_inode p (λ i, i <| i_zone ::= INC_PIPE 0 |>);;
        wake (i_wait p);;
        pipe_put n p buf (b + 1) (count - 1)
  end.

Definition write_pipe (p buf count : Z) : M fs Z :=
  wake (i_wait p);;
  i ← inode p;
  if negb (i_count i =? 2) then sigpipe;; mret (-1) else
  pipe_put (Z.to_nat count) p buf 0 count.

(** The first [want] unused entries of the file table, each taken. *)
Definition take_files (want : nat) : M fs (list Z) :=
  l ← gets file_table;
  let free := filter (λ k, default 1 (f_count <$> l !! Z.to_nat k) = 0) (upto NR_FILE) in
  let fps := map Z.succ (take want free) in
  mfor (λ fp, set_filp fp (λ f, f <| f_count := 1 |>)) fps;;
  mret fps.
(** The first unused descriptors, one for each file of [fps]. *)
Definition take_fds (fps : list Z) : M fs (list Z) :=
  t ← cur;
  let free := filter (λ k, default 1 (Task.filp t !! Z.to_nat k) = 0) (upto NR_OPEN) in
  let fds := take (length fps) free in
  mfor (λ x : Z * Z, set_current (λ t, t <| Task.filp ::= <[Z.to_nat x.1 := x.2]> |>))
    (zip fds fps);;
  mret fds.
Definition drop_fds (fds : list Z) : M fs () :=
  mfor (λ k, set_current (λ t, t <| Task.filp ::= <[Z.to_nat k := NULL]> |>)) fds.
Definition drop_files (fps : list Z) : M fs () :=
  mfor (λ fp, set_filp fp (λ f, f <| f_count := 0 |>)) fps.

Definition sys_pipe (fildes : Z) : M fs Z :=
  fps ← take_files 2;
  if (length fps <? 2)%nat then drop_files fps;; mret (-1) else
  fds ← take_fds fps;
  if (length fds <? 2)%nat then drop_fds fds;; drop_files fps;; mret (-1) else
  p ← get_pipe_inode;
  if p =? NULL then drop_fds fds;; drop_files fps;; mret (-1) else
  f0 ← index fps 0; f1 ← index fps 1;
  set_filp f0 (λ f, f <| f_inode := p |> <| f_pos := 0 |> <| f_mode := 1 |>);;
  set_filp f1 (λ f, f <| f_inode := p |> <| f_pos := 0 |> <| f_mode := 2 |>);;
  d0 ← index fds 0; d1 ← index fds 1;
  put_fs_long d0 fildes;;
  put_fs_long d1 (fildes + 8);;
  mret 0.

(** ** The system calls (read_write.c) *)

(** current->filp[fd], for an unsigned fd: NULL stands for a bad one too. *)
Definition fd_file (fd : Z) : M fs Z :=
  if Z.of_nat NR_OPEN <=? u32 fd then mret NULL else
  t ← cur; index (Task.filp t) (u32 fd).

Definition sys_lseek (fd offset origin : Z) : M fs Z :=
  fp ← fd_file fd;
  if fp =? NULL then mret (- EBADF) else
  f ← filp fp;
  if f_inode f =? NULL then mret (- EBADF) else
  i ← inode (f_inode f);
  if negb (IS_BLOCKDEV (MAJOR (i_dev i))) then mret (- EBADF) else
  if truth (i_pipe i) then mret (- ESPIPE) else
  let seek (pos : Z) := set_filp fp (λ f, f <| f_pos := pos |>);; mret (s32 pos) in
  if origin =? 0 then
    if offset <? 0 then mret (- EINVAL) else seek offset
  else if origin =? 1 then
    if s64 (f_pos f + offset) <? 0 then mret (- EINVAL) else seek (s64 (f_pos f + offset))
  else if origin =? 2 then
    let tmp := s32 (i_size i + offset) in
    if tmp <? 0 then mret (- EINVAL) else seek tmp
  else mret (- EINVAL).

Definition sys_read (fuel : nat) (fd buf count : Z) : M fs Z :=
  fp ← fd_file fd;
  if (count <? 0) || (fp =? NULL) then mret (- EINVAL) else
  if count =? 0 then mret 0 else
  verify_area buf count;;
  f ← filp fp;
  let p := f_inode f in
  i ← inode p;
  if truth (i_pipe i) then
    if truth (f_mode f .& 1) then read_pipe p buf count else mret (-1)
  else if S_ISCHR (i_mode i) then rw_char fuel READ (zone i 0) buf count
  else if S_ISBLK (i_mode i) then block_read (zone i 0) fp buf count
  else if S_ISDIR (i_mode i) || S_ISREG (i_mode i) then
    let count := if i_size i <? u64 (count + f_pos f)
                 then s32 (i_size i - f_pos f) else count in
    if count <=? 0 then mret 0 else file_read p fp buf count
  else
    kprint "(Read)inode->i_mode=%06o";; mret (- EINVAL).

Definition sys_write (fuel : nat) (fd buf count : Z) : M fs Z :=
  fp ← fd_file fd;
  if (count <? 0) || (fp =? NULL) then mret (- EINVAL) else
  if count =? 0 then mret 0 else
  f ← filp fp;
  let p := f_inode f in
  i ← inode p;
  if truth (i_pipe i) then
    if truth (f_mode f .& 2) then write_pipe p buf count else mret (-1)
  else if S_ISCHR (i_mode i) then rw_char fuel WRITE (zone i 0) buf count
  else if S_ISBLK (i_mode i) then block_write (zone i 0) fp buf count
  else if S_ISREG (i_mode i) then file_write p fp buf count
  else
    kprint "(Write)inode->i_mode=%06o";; mret (- EINVAL).
