(* ===== verification/Super.v ===== *)
(** * Mounting the root file system (fs/super.c, sys_setup of kernel/hd.c) *)

From S2P Require Export Inode.

(** The assignment of the block to the structure p points to: the structure is
    filled from the block at the offsets of this compiler's layout (Layout.v). *)
Definition load_super (d : list Z) : superblock :=
  SuperBlock (le_at d 0 2) (le_at d 2 2) (le_at d 4 2) (le_at d 6 2) (le_at d 8 2) (le_at d 10 2)
    (le_at d 16 8) (le_at d 24 2)
    (map (λ k, le_at d (32 + 8 * k) 8) (upto I_MAP_SLOTS))
    (map (λ k, le_at d (96 + 8 * k) 8) (upto Z_MAP_SLOTS))
    (le_at d 160 2) (le_at d 168 8) (le_at d 176 8) (le_at d 184 8) (le_at d 192 1) (le_at d 193 1).

(** [map[i] = bread(dev,block)] for the [n] blocks of a map, until one fails;
    the number of the next block. *)
Fixpoint read_map (f : superblock → list Z) {Sf : Setter f} (n : nat) (p dev i block : Z) : M fs Z :=
  match n with
  | O => mret block
  | S n =>
      b ← bread dev block;
      s ← sblock p;
      if Z.of_nat (length (f s)) <=? i then fault else
      set_sblock p (λ s, s <| f ::= <[Z.to_nat i := b]> |>);;
      if truth b then read_map f n p dev (i + 1) (block + 1) else mret block
  end.

(** [(&arr[0])->b_data[0] |= 1] on the first buffer of a map. *)
Definition mark_first (map : list Z) : M fs () :=
  b ← index map 0;
  set_bh b (λ d, d <| b_data ::= λ x, set_byte x 0 (byte_at x 0 .| 1) |>).

(** The slot is marked before it is known to be one: with all of them in use
    the store is outside of the array. *)
Definition do_mount (dev : Z) : M fs Z :=
  r ← mloop (λ k, s ← sblock (k + 1);
               mret (if s_dev s =? 0 then Some (k + 1) else None)) (upto NR_SUPER);
  let p := default (Z.of_nat NR_SUPER + 1) r in
  set_sblock p (λ s, s <| s_dev := u16 (-1) |>);;
  if Z.of_nat NR_SUPER <? p then mret NULL else
  b ← bread dev 1;
  if b =? NULL then mret NULL else
  d ← bh b;
  set_sblock p (λ _, load_super (b_data d));;
  brelse b;;
  s ← sblock p;
  if negb (s_magic s =? SUPER_MAGIC) then
    set_sblock p (λ s, s <| s_dev := 0 |>);; mret NULL else
  set_sblock p (λ s, s <| s_imap := replicate I_MAP_SLOTS NULL |>
                       <| s_zmap := replicate Z_MAP_SLOTS NULL |>);;
  block ← read_map s_imap (Z.to_nat (s_imap_blocks s)) p dev 0 2;
  block ← read_map s_zmap (Z.to_nat (s_zmap_blocks s)) p dev 0 block;
  s ← sblock p;
  if negb (block =? 2 + s_imap_blocks s + s_zmap_blocks s) then
    mfor brelse (s_imap s);;
    mfor brelse (s_zmap s);;
    set_sblock p (λ s, s <| s_dev := 0 |>);;
    mret NULL
  else
  mark_first (s_imap s);;
  mark_first (s_zmap s);;
  set_sblock p (λ s, s <| s_dev := u16 dev |> <| s_isup := NULL |> <| s_imount := NULL |>
                       <| s_time := 0 |> <| s_rd_only := 0 |> <| s_dirt := 0 |>);;
  mret p.

(** super.c's own set_bit: it tests the bit (bt) and changes nothing. *)
Definition test_bit (nr p : Z) : M fs bool :=
  b ← bh p; mret (Z.testbit (int_at (b_data b) (Z.shiftr nr 5)) (nr .& 31)).

(** The clear bits of a map below [n]. *)
Definition count_free (map : list Z) (n : Z) : M fs Z :=
  l ← foldr (λ i m,
        k ← m; p ← index map (Z.shiftr i 13); t ← test_bit (i .& 8191) p;
        mret (if t : bool then k else k + 1)) (mret 0) (upto (Z.to_nat n));
  mret l.

Definition mount_root : M fs () :=
  if negb (32 =? sizeof d_inode_t) then panic "bad i-node size" else
  mfor (λ k, set_filp (k + 1) (λ f, f <| f_count := 0 |>)) (upto NR_FILE);;
  mfor (λ k, set_sblock (k + 1) (λ s, s <| s_dev := 0 |>)) (upto NR_SUPER);;
  p ← do_mount ROOT_DEV;
  if p =? NULL then panic "Unable to mount root" else
  mi ← iget ROOT_DEV 1;
  if mi =? NULL then panic "Unable to read root i-node" else
  set_inode mi (λ i, i <| i_count := u16 (i_count i + 3) |>);;
  set_sblock p (λ s, s <| s_isup := mi |> <| s_imount := mi |>);;
  set_current (λ t, t <| Task.pwd := mi |> <| Task.root := mi |>);;
  s ← sblock p;
  count_free (s_zmap s) (s_nzones s);;
  kprint "%d/%d free blocks";;
  count_free (s_imap s) (s_ninodes s + 1);;
  kprint "%d/%d free inodes".

(** sys_setup: the partition tables are read into the first buffer. *)
Definition sys_setup : M fs Z :=
  c ← gets callable;
  if c =? 0 then mret (-1) else
  modify (λ s, s <| callable := 0 |>);;
  mfor (λ drive,
    rw_abs_hd READ drive 1 0 0 1;;
    b ← bh 1;
    if b_uptodate b =? 0 then
      kprint "Unable to read partition table of drive %d";; panic "" else
    if negb (byte_at (b_data b) 510 =? 0x55) || negb (byte_at (b_data b) 511 =? 0xAA) then
      kprint "Bad partition table on drive %d";; panic "" else
    mfor (λ i,
      let o := 0x1BE + 16 * i in
      store hd (i + 1 + 5 * drive) (le_at (b_data b) (o + 8) 4, le_at (b_data b) (o + 12) 4))
      (upto 4)) (upto (Z.to_nat NR_HD));;
  kprint "Partition tables ok.";;
  mount_root;;
  mret 0.

(** hd_init: the whole drives; the request table is not part of this model. *)
Definition hd_init : M fs () :=
  mfor (λ i, store hd (i * 5) (0, hd_head * hd_sect * hd_cyl)) (upto (Z.to_nat NR_HD)).
