(* ===== verification/Namei.v ===== *)
(** * Path names and directories (fs/namei.c)

    A path is a string in the memory of the running task.  [n] is the fuel of
    the loops over its characters and components: more than its length is
    enough.  A [struct dir_entry] is given by the buffer that holds it and its
    index in the block. *)

From S2P Require Export Inode.

Definition MAY_EXEC : Z := 1.
Definition MAY_WRITE : Z := 2.
Definition MAY_READ : Z := 4.
Definition O_ACCMODE : Z := 3.
Definition O_WRONLY : Z := 1.
Definition O_CREAT : Z := 0x40.
Definition O_EXCL : Z := 0x80.
Definition O_TRUNC : Z := 0x200.
(** "\004\002\006\377"[x & O_ACCMODE]; a char is signed. *)
Definition ACC_MODE (x : Z) : Z :=
  default 0 ([4; 2; 6; -1] !! Z.to_nat (x .& O_ACCMODE)).

(** ** Permissions *)

Definition permission (p mask : Z) : M fs Z :=
  i ← inode p;
  if truth (i_dev i) && (i_nlinks i =? 0) then mret 0 else
  t ← cur;
  let mode :=
    if (Task.uid t =? 0) || (Task.euid t =? 0) then 0x1FF
    else if (Task.uid t =? i_uid i) || (Task.euid t =? i_uid i) then Z.shiftr (i_mode i) 6
    else if (Task.gid t =? i_gid i) || (Task.egid t =? i_gid i) then Z.shiftr (i_mode i) 3
    else i_mode i in
  mret (mode .& mask .& 7).

(** ** Directory entries *)

Definition de_inode (d : list Z) (e : Z) : Z := half_at d (8 * e).
(** A char of the name, as C reads it. *)
Definition de_name (d : list Z) (e k : Z) : Z := s8 (byte_at d (16 * e + 2 + k)).
Definition set_de_inode (b e v : Z) : M fs () :=
  set_bh b (λ d, d <| b_data ::= λ x, set_half x (8 * e) v |>).
Definition set_de_name (b e k v : Z) : M fs () :=
  set_bh b (λ d, d <| b_data ::= λ x, set_byte x (16 * e + 2 + k) v |>).

(** get_fs_byte gives an unsigned char, de->name[i] a signed one. *)
Definition match_ (len name : Z) (d : list Z) (e : Z) : M fs bool :=
  if (de_inode d e =? 0) || (Z.of_nat NAME_LEN <? len) then mret false else
  if (len <? Z.of_nat NAME_LEN) && truth (de_name d e len) then mret false else
  r ← mloop (λ i, c ← get_fs_byte (name + i);
               mret (if negb (c =? de_name d e i) then Some false else None))
        (upto (Z.to_nat len));
  mret (default true r).

(** The test that de is past the data of bh: reading bh->b_data through NULL is a
    fault. *)
Definition past_end (b e : Z) : M fs bool :=
  if b =? NULL then fault else mret (DIR_ENTRIES_PER_BLOCK <=? e).

(** The while loop of find_entry, from entry [i], with the buffer [b] and the
    entry [e] of it that de points to. *)
Fixpoint find_entry_loop (fuel : nat) (dir name namelen entries i b e : Z) : M fs (Z * Z) :=
  if entries <=? i then brelse b;; mret (NULL, 0) else
  match fuel with
  | O => nofuel
  | S n =>
      let try b e :=
        d ← bh b;
        r ← match_ namelen name (b_data d) e;
        if r : bool then mret (b, e)
        else find_entry_loop n dir name namelen entries (i + 1) b (e + 1) in
      past ← past_end b e;
      if negb past then try b e else
      brelse b;;
      block ← bmap dir (s32 (i / DIR_ENTRIES_PER_BLOCK));
      x ← inode dir;
      b ← (if block =? 0 then mret NULL else bread (i_dev x) block);
      if b =? NULL
      then find_entry_loop n dir name namelen entries (i + DIR_ENTRIES_PER_BLOCK) NULL e
      else try b 0
  end.

(** The buffer and the entry; NULL if there is none. *)
Definition find_entry (dir name namelen : Z) : M fs (Z * Z) :=
  let namelen := if Z.of_nat NAME_LEN <? namelen then Z.of_nat NAME_LEN else namelen in
  x ← inode dir;
  let entries := s32 (i_size x / 16) in
  if namelen =? 0 then mret (NULL, 0) else
  if zone x 0 =? 0 then mret (NULL, 0) else
  b ← bread (i_dev x) (zone x 0);
  if b =? NULL then mret (NULL, 0) else
  find_entry_loop (Z.to_nat entries) dir name namelen entries 0 b 0.

Fixpoint add_entry_loop (fuel : nat) (dir name namelen i b e : Z) : M fs (Z * Z) :=
  match fuel with
  | O => nofuel
  | S n =>
      let try b e :=
        x ← inode dir;
        when (i_size x <=? u64 (i * 16))
          (set_de_inode b e 0;;
           now ← CURRENT_TIME;
           set_inode dir (λ x, x <| i_size := u64 ((i + 1) * 16) |> <| i_dirt := 1 |>
                                 <| i_ctime := u64 now |>));;
        d ← bh b;
        if de_inode (b_data d) e =? 0 then
          now ← CURRENT_TIME;
          set_inode dir (λ x, x <| i_mtime := u64 now |>);;
          mfor (λ k,
            c ← (if k <? namelen then get_fs_byte (name + k) else mret 0);
            set_de_name b e k c) (upto NAME_LEN);;
          set_bh b (λ d, d <| b_dirt := 1 |>);;
          mret (b, e)
        else add_entry_loop n dir name namelen (i + 1) b (e + 1) in
      past ← past_end b e;
      if negb past then try b e else
      brelse b;;
      block ← create_block dir (s32 (i / DIR_ENTRIES_PER_BLOCK));
      if block =? 0 then mret (NULL, 0) else
      x ← inode dir;
      b ← bread (i_dev x) block;
      if b =? NULL
      then add_entry_loop n dir name namelen (i + DIR_ENTRIES_PER_BLOCK) NULL e
      else try b 0
  end.

Definition add_entry (n : nat) (dir name namelen : Z) : M fs (Z * Z) :=
  let namelen := if Z.of_nat NAME_LEN <? namelen then Z.of_nat NAME_LEN else namelen in
  if namelen =? 0 then mret (NULL, 0) else
  x ← inode dir;
  if zone x 0 =? 0 then mret (NULL, 0) else
  b ← bread (i_dev x) (zone x 0);
  if b =? NULL then mret (NULL, 0) else
  add_entry_loop n dir name namelen 0 b 0.

(** ** Paths *)

Definition slash : Z := 47.

(** [for(namelen=0;(c=get_fs_byte(pathname++))&&(c!='/');namelen++)]: the length
    and the character that ends the component. *)
Fixpoint component (n : nat) (pathname namelen : Z) : M fs (Z * Z) :=
  match n with
  | O => nofuel
  | S n =>
      c ← get_fs_byte pathname;
      if truth c && negb (c =? slash) then component n (pathname + 1) (namelen + 1)
      else mret (namelen, c)
  end.

(** The while loop of get_dir. *)
Fixpoint get_dir_loop (n m : nat) (p pathname : Z) : M fs Z :=
  match n with
  | O => nofuel
  | S n =>
      i ← inode p;
      x ← (if S_ISDIR (i_mode i) then permission p MAY_EXEC else mret 0);
      if x =? 0 then iput p;; mret NULL else
      r ← component m pathname 0;
      if r.2 =? 0 then mret p else
      e ← find_entry p pathname r.1;
      if e.1 =? NULL then iput p;; mret NULL else
      d ← bh e.1;
      let nr := de_inode (b_data d) e.2 in
      i ← inode p;
      brelse e.1;;
      iput p;;
      q ← iget (i_dev i) nr;
      if q =? NULL then mret NULL else
      get_dir_loop n m q (pathname + r.1 + 1)
  end.

Definition get_dir (n : nat) (pathname : Z) : M fs Z :=
  t ← cur;
  root ← (if Task.root t =? NULL then mret inode0 else inode (Task.root t));
  if i_count root =? 0 then panic "No root inode" else
  pwd ← (if Task.pwd t =? NULL then mret inode0 else inode (Task.pwd t));
  if i_count pwd =? 0 then panic "No cwd inode" else
  c ← get_fs_byte pathname;
  if c =? 0 then mret NULL else
  let p := if c =? slash then Task.root t else Task.pwd t in
  let pathname := if c =? slash then pathname + 1 else pathname in
  set_inode p (λ i, i <| i_count := u16 (i_count i + 1) |>);;
  get_dir_loop n n p pathname.

(** The loop of dir_namei: the start of the last component and the end of the
    string. *)
Fixpoint last_component (n : nat) (pathname basename : Z) : M fs (Z * Z) :=
  match n with
  | O => nofuel
  | S n =>
      c ← get_fs_byte pathname;
      if c =? 0 then mret (basename, pathname + 1) else
      last_component n (pathname + 1) (if c =? slash then pathname + 1 else basename)
  end.

(** The directory, the length of the name and the name; NULL on failure. *)
Definition dir_namei (n : nat) (pathname : Z) : M fs (Z * Z * Z) :=
  dir ← get_dir n pathname;
  if dir =? NULL then mret (NULL, 0, 0) else
  r ← last_component n pathname pathname;
  mret (dir, r.2 - r.1 - 1, r.1).

Definition namei (n : nat) (pathname : Z) : M fs Z :=
  r ← dir_namei n pathname;
  let '(dir, namelen, basename) := r in
  if dir =? NULL then mret NULL else
  if namelen =? 0 then mret dir else
  e ← find_entry dir basename namelen;
  if e.1 =? NULL then iput dir;; mret NULL else
  d ← bh e.1;
  let nr := de_inode (b_data d) e.2 in
  i ← inode dir;
  brelse e.1;;
  iput dir;;
  p ← iget (i_dev i) nr;
  when (truth p)
    (now ← CURRENT_TIME;
     set_inode p (λ i, i <| i_atime := u64 now |> <| i_dirt := 1 |>));;
  mret p.

(** ** open_namei *)

(** [inode->i_nlinks--; iput(inode)] *)
Definition drop_link (p : Z) : M fs () :=
  set_inode p (λ i, i <| i_nlinks := u8 (i_nlinks i - 1) |>);; iput p.

(** The branch of open_namei that creates the file in [dir]. *)
Definition open_create (n : nat) (dir basename namelen mode : Z) : M fs (Z * Z) :=
  w ← permission dir MAY_WRITE;
  if w =? 0 then iput dir;; mret (- EACCES, NULL) else
  d ← inode dir;
  p ← new_inode (i_dev d);
  if p =? NULL then iput dir;; mret (- ENOSPC, NULL) else
  set_inode p (λ i, i <| i_mode := u16 mode |> <| i_dirt := 1 |>);;
  e ← add_entry n dir basename namelen;
  if e.1 =? NULL then drop_link p;; iput dir;; mret (- ENOSPC, NULL) else
  i ← inode p;
  set_de_inode e.1 e.2 (i_num i);;
  set_bh e.1 (λ b, b <| b_dirt := 1 |>);;
  brelse e.1;;
  iput dir;;
  mret (0, p).

(** The result and, when it is 0, the inode. *)
Definition open_namei (n : nat) (pathname flag mode : Z) : M fs (Z * Z) :=
  let flag := if truth (flag .& O_TRUNC) && negb (truth (flag .& O_ACCMODE))
              then flag .| O_WRONLY else flag in
  t ← cur;
  let mode := mode .& Z.ldiff 0x1FF (Task.umask t) .| I_REGULAR in
  r ← dir_namei n pathname;
  let '(dir, namelen, basename) := r in
  if dir =? NULL then mret (- ENOENT, NULL) else
  if namelen =? 0 then
    if negb (truth (flag .& (O_ACCMODE .| O_CREAT .| O_TRUNC))) then mret (0, dir)
    else iput dir;; mret (- EISDIR, NULL)
  else
  e ← find_entry dir basename namelen;
  if e.1 =? NULL then
    if negb (truth (flag .& O_CREAT)) then iput dir;; mret (- ENOENT, NULL)
    else open_create n dir basename namelen mode
  else
  d ← bh e.1;
  let nr := de_inode (b_data d) e.2 in
  i ← inode dir;
  brelse e.1;;
  iput dir;;
  if truth (flag .& O_EXCL) then mret (- EEXIST, NULL) else
  p ← iget (i_dev i) nr;
  if p =? NULL then mret (- EACCES, NULL) else
  i ← inode p;
  ok ← (if S_ISDIR (i_mode i) && truth (flag .& O_ACCMODE) then mret false
        else x ← permission p (ACC_MODE flag); mret (x =? ACC_MODE flag));
  if negb ok then iput p;; mret (- EPERM, NULL) else
  now ← CURRENT_TIME;
  set_inode p (λ i, i <| i_atime := u64 now |>);;
  when (truth (flag .& O_TRUNC)) (truncate p);;
  mret (0, p).

(** ** mkdir *)

(** strcpy of a short name, and strcmp with it, at entry [e]. *)
Definition put_name (b e : Z) (name : list Z) : M fs () :=
  mfor (λ k, set_de_name b e k (default 0 (name !! Z.to_nat k))) (upto (S (length name))).
Definition name_is (d : list Z) (e : Z) (name : list Z) : bool :=
  forallb (λ k, de_name d e k =? default 0 (name !! Z.to_nat k)) (upto (S (length name))).
Definition dot : list Z := [46].
Definition dotdot : list Z := [46; 46].

(** sys_mkdir from the allocation of the block of the new directory [p]. *)
Definition mkdir_fill (n : nat) (dir basename namelen p mode : Z) : M fs Z :=
  i ← inode p;
  b ← bread (i_dev i) (zone i 0);
  if b =? NULL then
    iput dir;;
    free_block (i_dev i) (zone i 0);;
    drop_link p;;
    mret (- ERROR)
  else
  set_de_inode b 0 (i_num i);;
  put_name b 0 dot;;
  d ← inode dir;
  set_de_inode b 1 (i_num d);;
  put_name b 1 dotdot;;
  set_inode p (λ i, i <| i_nlinks := 2 |>);;
  set_bh b (λ x, x <| b_dirt := 1 |>);;
  brelse b;;
  t ← cur;
  set_inode p (λ i, i <| i_mode := u16 (I_DIRECTORY .| (mode .& Z.ldiff 0x1FF (Task.umask t))) |>
                      <| i_dirt := 1 |>);;
  e ← add_entry n dir basename namelen;
  if e.1 =? NULL then
    iput dir;;
    i ← inode p;
    free_block (i_dev i) (zone i 0);;
    set_inode p (λ i, i <| i_nlinks := 0 |>);;
    iput p;;
    mret (- ENOSPC)
  else
  i ← inode p;
  set_de_inode e.1 e.2 (i_num i);;
  set_bh e.1 (λ x, x <| b_dirt := 1 |>);;
  set_inode dir (λ i, i <| i_nlinks := u8 (i_nlinks i + 1) |> <| i_dirt := 1 |>);;
  iput dir;;
  iput p;;
  brelse e.1;;
  mret 0.

Definition sys_mkdir (n : nat) (pathname mode : Z) : M fs Z :=
  t ← cur;
  if truth (Task.euid t) && truth (Task.uid t) then mret (- EPERM) else
  r ← dir_namei n pathname;
  let '(dir, namelen, basename) := r in
  if dir =? NULL then mret (- ENOENT) else
  if namelen =? 0 then iput dir;; mret (- ENOENT) else
  w ← permission dir MAY_WRITE;
  if w =? 0 then iput dir;; mret (- EPERM) else
  e ← find_entry dir basename namelen;
  if truth e.1 then brelse e.1;; iput dir;; mret (- EEXIST) else
  d ← inode dir;
  p ← new_inode (i_dev d);
  if p =? NULL then iput dir;; mret (- ENOSPC) else
  now ← CURRENT_TIME;
  set_inode p (λ i, i <| i_size := 32 |> <| i_dirt := 1 |> <| i_mtime := u64 now |>
                      <| i_atime := u64 now |>);;
  i ← inode p;
  z ← new_block (i_dev i);
  set_inode p (λ i, i <| i_zone ::= <[0%nat := u16 z]> |>);;
  if u16 z =? 0 then iput dir;; drop_link p;; mret (- ENOSPC) else
  set_inode p (λ i, i <| i_dirt := 1 |>);;
  mkdir_fill n dir basename namelen p mode.

(** ** rmdir *)

(** The while loop of empty_dir; a hole leaves bh as it is after brelse. *)
Fixpoint empty_dir_loop (fuel : nat) (p len nr b e : Z) : M fs Z :=
  if len <=? nr then brelse b;; mret 1 else
  match fuel with
  | O => nofuel
  | S n =>
      let try b e :=
        d ← bh b;
        if truth (de_inode (b_data d) e) then brelse b;; mret 0
        else empty_dir_loop n p len (nr + 1) b (e + 1) in
      if e <? DIR_ENTRIES_PER_BLOCK then try b e else
      brelse b;;
      block ← bmap p (s32 (nr / DIR_ENTRIES_PER_BLOCK));
      if block =? 0
      then empty_dir_loop n p len (nr + DIR_ENTRIES_PER_BLOCK) b e
      else
      i ← inode p;
      b ← bread (i_dev i) block;
      if b =? NULL then mret 0 else
      try b 0
  end.

Definition empty_dir (p : Z) : M fs Z :=
  i ← inode p;
  let len := s32 (i_size i / 16) in
  b ← (if (len <? 2) || (zone i 0 =? 0) then mret NULL else bread (i_dev i) (zone i 0));
  if b =? NULL then kprint "warning - bad directory on dev %04x";; mret 0 else
  d ← bh b;
  if negb (de_inode (b_data d) 0 =? i_num i) || (de_inode (b_data d) 1 =? 0)
     || negb (name_is (b_data d) 0 dot) || negb (name_is (b_data d) 1 dotdot)
  then kprint "warning - bad directory on dev %04x";; mret 0
  else empty_dir_loop (Z.to_nat len) p len 2 b 2.

Definition sys_rmdir (n : nat) (name : Z) : M fs Z :=
  t ← cur;
  if truth (Task.euid t) && truth (Task.uid t) then mret (- EPERM) else
  r ← dir_namei n name;
  let '(dir, namelen, basename) := r in
  if dir =? NULL then mret (- ENOENT) else
  if namelen =? 0 then iput dir;; mret (- ENOENT) else
  e ← find_entry dir basename namelen;
  if e.1 =? NULL then iput dir;; mret (- ENOENT) else
  w ← permission dir MAY_WRITE;
  if w =? 0 then iput dir;; brelse e.1;; mret (- EPERM) else
  x ← inode dir;
  d ← bh e.1;
  p ← iget (i_dev x) (de_inode (b_data d) e.2);
  if p =? NULL then iput dir;; brelse e.1;; mret (- EPERM) else
  let refuse (r : Z) := iput p;; iput dir;; brelse e.1;; mret r in
  if p =? dir then refuse (- EPERM) else
  i ← inode p;
  if negb (S_ISDIR (i_mode i)) then refuse (- ENOTDIR) else
  empty ← empty_dir p;
  if empty =? 0 then refuse (- ENOTEMPTY) else
  i ← inode p;
  when (negb (i_nlinks i =? 2)) (kprint "empty directory has nlink!=2 (%d)");;
  set_de_inode e.1 e.2 0;;
  set_bh e.1 (λ b, b <| b_dirt := 1 |>);;
  brelse e.1;;
  set_inode p (λ i, i <| i_nlinks := 0 |> <| i_dirt := 1 |>);;
  now ← CURRENT_TIME;
  set_inode dir (λ i, i <| i_nlinks := u8 (i_nlinks i - 1) |> <| i_mtime := u64 now |>
                        <| i_ctime := u64 now |> <| i_dirt := 1 |>);;
  iput dir;;
  iput p;;
  mret 0.

(** ** unlink and link *)

Definition sys_unlink (n : nat) (name : Z) : M fs Z :=
  r ← dir_namei n name;
  let '(dir, namelen, basename) := r in
  if dir =? NULL then mret (- ENOENT) else
  if namelen =? 0 then iput dir;; mret (- ENOENT) else
  w ← permission dir MAY_WRITE;
  if w =? 0 then iput dir;; mret (- EPERM) else
  e ← find_entry dir basename namelen;
  if e.1 =? NULL then iput dir;; mret (- ENOENT) else
  x ← inode dir;
  d ← bh e.1;
  p ← iget (i_dev x) (de_inode (b_data d) e.2);
  if p =? NULL then
    kprint "iget failed in delete (%04x:%d)";;
    iput dir;; brelse e.1;; mret (- ENOENT) else
  i ← inode p;
  if negb (S_ISREG (i_mode i)) then iput p;; iput dir;; brelse e.1;; mret (- EPERM) else
  when (i_nlinks i =? 0)
    (kprint "Deleting nonexistent file (%04x:%d), %d";;
     set_inode p (λ i, i <| i_nlinks := 1 |>));;
  set_de_inode e.1 e.2 0;;
  set_bh e.1 (λ b, b <| b_dirt := 1 |>);;
  brelse e.1;;
  now ← CURRENT_TIME;
  set_inode p (λ i, i <| i_nlinks := u8 (i_nlinks i - 1) |> <| i_dirt := 1 |>
                      <| i_ctime := u64 now |>);;
  iput p;;
  iput dir;;
  mret 0.

Definition sys_link (n : nat) (oldname newname : Z) : M fs Z :=
  old ← namei n oldname;
  if old =? NULL then mret (- ENOENT) else
  o ← inode old;
  if negb (S_ISREG (i_mode o)) then iput old;; mret (- EPERM) else
  r ← dir_namei n newname;
  let '(dir, namelen, basename) := r in
  if dir =? NULL then iput old;; mret (- EACCES) else
  if namelen =? 0 then iput old;; iput dir;; mret (- EPERM) else
  o ← inode old;
  d ← inode dir;
  if negb (i_dev d =? i_dev o) then iput dir;; iput old;; mret (- EXDEV) else
  w ← permission dir MAY_WRITE;
  if w =? 0 then iput dir;; iput old;; mret (- EACCES) else
  e ← find_entry dir basename namelen;
  if truth e.1 then brelse e.1;; iput dir;; iput old;; mret (- EEXIST) else
  e ← add_entry n dir basename namelen;
  if e.1 =? NULL then iput dir;; iput old;; mret (- ENOSPC) else
  o ← inode old;
  set_de_inode e.1 e.2 (i_num o);;
  set_bh e.1 (λ b, b <| b_dirt := 1 |>);;
  brelse e.1;;
  iput dir;;
  now ← CURRENT_TIME;
  set_inode old (λ i, i <| i_nlinks := u8 (i_nlinks i + 1) |> <| i_ctime := u64 now |>
                        <| i_dirt := 1 |>);;
  iput old;;
  mret 0.
