(* ===== verification/Open.v ===== *)
(** * Opening files and the calls on descriptors and inodes (fs/open.c, fs/stat.c,
    fs/fcntl.c, fs/ioctl.c, fs/tty_ioctl.c) *)

From S2P Require Export Namei FileIo.

(** ** open.c *)

Definition sys_utime (n : nat) (filename times : Z) : M fs Z :=
  p ← namei n filename;
  if p =? NULL then mret (- ENOENT) else
  now ← CURRENT_TIME;
  actime ← (if truth times then get_fs_long times else mret now);
  modtime ← (if truth times then get_fs_long (times + 8) else mret now);
  set_inode p (λ i, i <| i_atime := u64 actime |> <| i_mtime := u64 modtime |>
                      <| i_dirt := 1 |>);;
  iput p;;
  mret 0.

(** The inode is read after iput; the group is tested as the owner is. *)
Definition sys_access (n : nat) (filename mode : Z) : M fs Z :=
  let mode := mode .& 7 in
  p ← namei n filename;
  if p =? NULL then mret (- EACCES) else
  i ← inode p;
  let res := i_mode i .& 0x1FF in
  iput p;;
  t ← cur;
  let res := if (Task.euid t =? 0) || (Task.uid t =? 0)
             then if truth (res .& 0x49) then 0x1FF else 0x1B6
             else res in
  i ← inode p;
  let res := if Task.euid t =? i_uid i then Z.shiftr res 6
             else if Task.egid t =? i_gid i then Z.shiftr res 6
             else res in
  mret (if (res .& 7 .& mode) =? mode then 0 else - EACCES).

(** chdir and chroot differ in the field of the task they set. *)
Definition change_dir (field : Task.task_struct → Z) {S : Setter field} (n : nat) (filename : Z)
    : M fs Z :=
  p ← namei n filename;
  if p =? NULL then mret (- ENOENT) else
  i ← inode p;
  if negb (S_ISDIR (i_mode i)) then iput p;; mret (- ENOTDIR) else
  t ← cur;
  iput (field t);;
  set_current (λ t, t <| field := p |>);;
  mret 0.
Definition sys_chdir (n : nat) (filename : Z) : M fs Z := change_dir Task.pwd n filename.
Definition sys_chroot (n : nat) (filename : Z) : M fs Z := change_dir Task.root n filename.

Definition sys_chmod (n : nat) (filename mode : Z) : M fs Z :=
  p ← namei n filename;
  if p =? NULL then mret (- ENOENT) else
  t ← cur;
  i ← inode p;
  let user := truth (Task.uid t) && truth (Task.euid t) in
  if user && negb (Task.uid t =? i_uid i) && negb (Task.euid t =? i_uid i)
  then iput p;; mret (- EACCES) else
  let mode := if user then (mode .& 0x1FF) .| (i_mode i .& 0xE00) else mode in
  set_inode p (λ i, i <| i_mode := u16 ((mode .& 0xFFF) .| Z.ldiff (i_mode i) 0xFFF) |>
                      <| i_dirt := 1 |>);;
  iput p;;
  mret 0.

Definition sys_chown (n : nat) (filename uid gid : Z) : M fs Z :=
  p ← namei n filename;
  if p =? NULL then mret (- ENOENT) else
  t ← cur;
  if truth (Task.uid t) && truth (Task.euid t) then iput p;; mret (- EACCES) else
  set_inode p (λ i, i <| i_uid := u16 uid |> <| i_gid := u8 gid |> <| i_dirt := 1 |>);;
  iput p;;
  mret 0.

Definition set_fd (fd fp : Z) : M fs () :=
  set_current (λ t, t <| Task.filp ::= <[Z.to_nat fd := fp]> |>).
Definition clear_close_on_exec (fd : Z) : M fs () :=
  set_current (λ t, t <| Task.close_on_exec ::= λ x, Z.ldiff x (Z.shiftl 1 fd) |>).

(** The first index from [i] on whose entry is free, or the length. *)
Fixpoint first_free (l : list Z) (i : Z) : Z :=
  match l with
  | [] => i
  | x :: l => if x =? 0 then i else first_free l (i + 1)
  end.

(** What sys_open does for terminals; [false] if it gives up. *)
Definition open_tty (p : Z) : M fs bool :=
  i ← inode p;
  t ← cur;
  if negb (S_ISCHR (i_mode i)) then mret true else
  if MAJOR (zone i 0) =? 4 then
    when (truth (Task.leader t) && (Task.tty t <? 0))
      (set_current (λ t, t <| Task.tty := MINOR (zone i 0) |>);;
       in_tty (TtyIo.set_tty (MINOR (zone i 0)) (λ x, x <| TtyIo.pgrp := Task.pgrp t |>)));;
    mret true
  else if MAJOR (zone i 0) =? 5 then mret (negb (Task.tty t <? 0))
  else mret true.

Definition sys_open (n : nat) (filename flag mode : Z) : M fs Z :=
  t ← cur;
  let mode := mode .& Z.ldiff 0x1FF (Task.umask t) in
  let fd := first_free (Task.filp t) 0 in
  if Z.of_nat NR_OPEN <=? fd then mret (- EINVAL) else
  clear_close_on_exec fd;;
  files ← gets file_table;
  let i := first_free (map f_count files) 0 in
  if Z.of_nat NR_FILE <=? i then mret (- EINVAL) else
  let fp := i + 1 in
  set_fd fd fp;;
  set_filp fp (λ f, f <| f_count ::= λ c, u16 (c + 1) |>);;
  let undo := set_fd fd NULL;; set_filp fp (λ f, f <| f_count := 0 |>) in
  r ← open_namei n filename flag mode;
  if r.1 <? 0 then undo;; mret r.1 else
  ok ← open_tty r.2;
  if negb ok then iput r.2;; undo;; mret (- EPERM) else
  i ← inode r.2;
  set_filp fp (λ f, f <| f_mode := i_mode i |> <| f_flags := u16 flag |> <| f_count := 1 |>
                      <| f_inode := r.2 |> <| f_pos := 0 |>);;
  mret fd.

Definition sys_creat (n : nat) (pathname mode : Z) : M fs Z :=
  sys_open n pathname (O_CREAT .| O_TRUNC) mode.

Definition sys_close (fd : Z) : M fs Z :=
  let fd := u32 fd in
  if Z.of_nat NR_OPEN <=? fd then mret (- EINVAL) else
  clear_close_on_exec fd;;
  fp ← fd_file fd;
  if fp =? NULL then mret (- EINVAL) else
  set_fd fd NULL;;
  f ← filp fp;
  if f_count f =? 0 then panic "Close: file count is 0" else
  set_filp fp (λ f, f <| f_count ::= λ c, u16 (c - 1) |>);;
  f ← filp fp;
  if truth (f_count f) then mret 0 else
  iput (f_inode f);;
  mret 0.

(** ** stat.c

    The bytes of the structure, without the padding between its fields. *)

Definition put_le (a n v : Z) : M fs () :=
  mfor (λ k, put_fs_byte (Z.shiftr v (8 * k)) (a + k)) (upto (Z.to_nat n)).

Definition cp_stat (p statbuf : Z) : M fs Z :=
  verify_area statbuf 48;;
  i ← inode p;
  put_le statbuf 2 (i_dev i);;
  put_le (statbuf + 2) 2 (i_num i);;
  put_le (statbuf + 4) 2 (i_mode i);;
  put_le (statbuf + 6) 1 (i_nlinks i);;
  put_le (statbuf + 8) 2 (i_uid i);;
  put_le (statbuf + 10) 1 (i_gid i);;
  put_le (statbuf + 12) 2 (zone i 0);;
  put_le (statbuf + 16) 8 (i_size i);;
  put_le (statbuf + 24) 8 (i_atime i);;
  put_le (statbuf + 32) 8 (i_mtime i);;
  put_le (statbuf + 40) 8 (i_ctime i);;
  mret 0.

Definition sys_stat (n : nat) (filename statbuf : Z) : M fs Z :=
  p ← namei n filename;
  if p =? NULL then mret (- ENOENT) else
  r ← cp_stat p statbuf;
  iput p;;
  mret r.

Definition sys_fstat (fd statbuf : Z) : M fs Z :=
  fp ← fd_file fd;
  if fp =? NULL then mret (- ENOENT) else
  f ← filp fp;
  if f_inode f =? NULL then mret (- ENOENT) else
  cp_stat (f_inode f) statbuf.

(** ** fcntl.c *)

Definition O_NONBLOCK : Z := 0x800.

Definition dupfd (fd arg : Z) : M fs Z :=
  fp ← fd_file fd;
  if fp =? NULL then mret (- EBADF) else
  let arg := u32 arg in
  if Z.of_nat NR_OPEN <=? arg then mret (- EINVAL) else
  t ← cur;
  let arg := first_free (drop (Z.to_nat arg) (Task.filp t)) arg in
  if Z.of_nat NR_OPEN <=? arg then mret (- EMFILE) else
  clear_close_on_exec arg;;
  set_fd arg fp;;
  set_filp fp (λ f, f <| f_count ::= λ c, u16 (c + 1) |>);;
  mret arg.

Definition sys_dup2 (oldfd newfd : Z) : M fs Z := sys_close newfd;; dupfd oldfd newfd.
Definition sys_dup (fildes : Z) : M fs Z := dupfd fildes 0.

(** F_DUPFD, F_GETFD, F_SETFD, F_GETFL, F_SETFL are 0 to 4. *)
Definition sys_fcntl (fd cmd arg : Z) : M fs Z :=
  fp ← fd_file fd;
  if fp =? NULL then mret (- EBADF) else
  let fd := u32 fd in
  if cmd =? 0 then dupfd fd arg else
  t ← cur;
  if cmd =? 1 then mret (Z.shiftr (Task.close_on_exec t) fd .& 1) else
  if cmd =? 2 then
    (if truth (arg .& 1)
     then set_current (λ t, t <| Task.close_on_exec ::= λ x, x .| Z.shiftl 1 fd |>)
     else clear_close_on_exec fd);;
    mret 0
  else if cmd =? 3 then f ← filp fp; mret (f_flags f) else
  if cmd =? 4 then
    set_filp fp (λ f, f <| f_flags ::= λ x,
      Z.ldiff x (O_APPEND .| O_NONBLOCK) .| (arg .& (O_APPEND .| O_NONBLOCK)) |>);;
    mret 0
  else mret (-1).

(** ** tty_ioctl.c

    The argument is an int: an address is what its low 32 bits, sign-extended,
    say.  A [struct termios] is copied without the padding at its end. *)

Definition termios_bytes (x : TtyIo.termios) : list Z :=
  flat_map (λ v, map (λ k, u8 (Z.shiftr v (8 * k))) (upto 8))
    [TtyIo.c_iflag x; TtyIo.c_oflag x; TtyIo.c_cflag x; TtyIo.c_lflag x]
  ++ [u8 (TtyIo.c_line x)] ++ map u8 (TtyIo.c_cc x).
Definition termios_of (l : list Z) : TtyIo.termios :=
  TtyIo.Termios (le_at l 0 8) (le_at l 8 8) (le_at l 16 8) (le_at l 24 8) (byte_at l 32)
    (take 17 (drop 33 l)).
Definition NCC : nat := 8.
Definition termio_bytes (x : TtyIo.termios) : list Z :=
  flat_map (λ v, map (λ k, u8 (Z.shiftr v (8 * k))) (upto 2))
    [TtyIo.c_iflag x; TtyIo.c_oflag x; TtyIo.c_cflag x; TtyIo.c_lflag x]
  ++ [u8 (TtyIo.c_line x)] ++ map u8 (take NCC (TtyIo.c_cc x)).
(** The stores through [unsigned short *] keep the high bits of the flags. *)
Definition set_low (v lo : Z) : Z := Z.ldiff v 0xffff .| lo.
Definition termio_of (l : list Z) (x : TtyIo.termios) : TtyIo.termios :=
  TtyIo.Termios (set_low (TtyIo.c_iflag x) (le_at l 0 2)) (set_low (TtyIo.c_oflag x) (le_at l 2 2))
    (set_low (TtyIo.c_cflag x) (le_at l 4 2)) (set_low (TtyIo.c_lflag x) (le_at l 6 2))
    (byte_at l 8) (take NCC (drop 9 l) ++ drop NCC (TtyIo.c_cc x)).

Definition put_bytes (l : list Z) (a : Z) : M fs () :=
  mfor (λ k, put_fs_byte (byte_at l k) (a + k)) (upto (length l)).
Definition get_bytes (n : nat) (a : Z) : M fs (list Z) :=
  gets (λ s, map (λ k, default 0 (TtyIo.user (term s) !! (a + k))) (upto n)).

Definition the_tty (dev : Z) : M fs TtyIo.tty_struct := in_tty (TtyIo.tty dev).
Definition set_the_tty (dev : Z) (f : TtyIo.tty_struct → TtyIo.tty_struct) : M fs () :=
  in_tty (TtyIo.set_tty dev f).

Definition get_termios (dev a : Z) : M fs Z :=
  verify_area a 56;; t ← the_tty dev; put_bytes (termios_bytes (TtyIo.tio t)) a;; mret 0.
Definition set_termios (dev a : Z) : M fs Z :=
  l ← get_bytes 50 a;
  set_the_tty dev (λ t, t <| TtyIo.tio := termios_of l |>);;
  mret 0.
Definition get_termio (dev a : Z) : M fs Z :=
  verify_area a 18;; t ← the_tty dev; put_bytes (termio_bytes (TtyIo.tio t)) a;; mret 0.
Definition set_termio (dev a : Z) : M fs Z :=
  l ← get_bytes 17 a;
  set_the_tty dev (λ t, t <| TtyIo.tio ::= termio_of l |>);;
  mret 0.

Definition flushed (q : TtyIo.tty_queue) : TtyIo.tty_queue :=
  q <| TtyIo.head := TtyIo.tail q |>.
Definition flush_read (dev : Z) : M fs () :=
  set_the_tty dev (λ t, t <| TtyIo.read_q ::= flushed |>).
Definition flush_write (dev : Z) : M fs () :=
  set_the_tty dev (λ t, t <| TtyIo.write_q ::= flushed |>).

(** TCGETS is 0x5401, ..., TIOCOUTQ 0x5411; wait_until_sent and send_break do
    nothing. *)
Definition tty_ioctl (dev cmd arg : Z) : M fs Z :=
  t ← cur;
  let arg := s32 arg in
  let a := u64 arg in
  let dev' := if MAJOR dev =? 5 then Task.tty t else MINOR dev in
  if dev' <? 0 then panic "tty_ioctl: dev<0" else
  if cmd =? 0x5401 then get_termios dev' a else
  if cmd =? 0x5404 then flush_read dev';; set_termios dev' a else
  if (cmd =? 0x5403) || (cmd =? 0x5402) then set_termios dev' a else
  if cmd =? 0x5405 then get_termio dev' a else
  if cmd =? 0x5408 then flush_read dev';; set_termio dev' a else
  if (cmd =? 0x5407) || (cmd =? 0x5406) then set_termio dev' a else
  if cmd =? 0x5409 then mret 0 else
  if cmd =? 0x540B then
    if arg =? 0 then flush_read dev';; mret 0 else
    if arg =? 1 then flush_write dev';; mret 0 else
    if arg =? 2 then flush_read dev';; flush_write dev';; mret 0 else
    mret (- EINVAL)
  else if cmd =? 0x540F then
    verify_area a 4;; x ← the_tty dev'; put_fs_long (TtyIo.pgrp x) a;; mret 0
  else if cmd =? 0x5410 then
    v ← get_fs_long a; set_the_tty dev' (λ x, x <| TtyIo.pgrp := s64 v |>);; mret 0
  else if cmd =? 0x5411 then
    verify_area a 4;; x ← the_tty dev'; put_fs_long (TtyIo.CHARS (TtyIo.write_q x)) a;; mret 0
  else mret (- EINVAL).

(** ** ioctl.c: the table has tty_ioctl for the majors 4 and 5. *)
Definition sys_ioctl (fd cmd arg : Z) : M fs Z :=
  fp ← fd_file fd;
  if fp =? NULL then mret (- EBADF) else
  f ← filp fp;
  i ← inode (f_inode f);
  if negb (S_ISCHR (i_mode i)) && negb (S_ISBLK (i_mode i)) then mret (- EINVAL) else
  let dev := zone i 0 in
  if 8 <=? MAJOR dev then panic "unknown device for ioctl" else
  if (MAJOR dev =? 4) || (MAJOR dev =? 5) then tty_ioctl dev (s32 cmd) arg
  else mret (- ENOTTY).
