(* ===== verification/Proc.v ===== *)
(** * Processes (kernel/fork.c, kernel/exit.c, kernel/sys.c)

    fork, exit, wait, signals between processes, and the calls of sys.c, on the
    state of the file system extended with what fork.c keeps. *)

From S2P Require Export Open.

Record thread_regs := ThreadRegs {
  t_rsp : Z; t_rbx : Z; t_rbp : Z; t_r12 : Z; t_r13 : Z; t_r14 : Z; t_r15 : Z; t_fs : Z; t_gs : Z
}.
Record proc := Proc {
  fsys : fs;
  last_pid : Z;
  threads : gmap Z thread_regs;  (* p->thread, by the address of the task *)
  ldt_desc : gmap Z Z            (* the LDT descriptors of the gdt: task slot to task *)
}.
#[export] Instance eta_proc : Eta proc := λ s,
  Proc (fsys s) (last_pid s) (threads s) (ldt_desc s).

Definition in_fs {A} (m : M fs A) : M proc A := zoom fsys m.
Definition on_tasks {A} (m : M sched A) : M proc A := in_fs (in_sched m).
Definition me : M proc Task.task_struct := in_fs cur.
Definition set_me (f : Task.task_struct → Task.task_struct) : M proc () := in_fs (set_current f).
Definition task_p (p : Z) : M proc Task.task_struct := on_tasks (deref p).
Definition set_task_p (p : Z) (f : Task.task_struct → Task.task_struct) : M proc () :=
  on_tasks (set_task p f).
Definition slot (i : Z) : M proc Z := on_tasks (task_at i).

(** ** Segments (sched.h) *)

Definition set_base (d : Z * Z) (base : Z) : Z * Z :=
  (d.1 .& 0xffff .| Z.shiftl (base .& 0xffff) 16,
   d.2 .& 0xffff00 .| (Z.shiftr base 16 .& 0xff) .| Z.shiftl (Z.shiftr base 24 .& 0xff) 24).

(** lsl: the limit of a descriptor, in pages when the granularity bit is set.
    The selectors 0x0f and 0x17 are entries 1 and 2 of the table that ldtr names,
    which is always that of task 0: nothing loads ldtr after sched_init. *)
Definition lsl (d : Z * Z) : Z :=
  let l := d.1 .& 0xffff .| d.2 .& 0xf0000 in
  if Z.testbit d.2 23 then Z.shiftl l 12 .| 0xfff else l.
Definition get_limit (segment : Z) : M proc Z :=
  t ← task_p init_task;
  d ← index (Task.ldt t) (Z.shiftr segment 3);
  mret (lsl d + 1).

(** ** fork.c *)

Definition copy_mem (nr p : Z) : M proc Z :=
  code_limit ← get_limit 0x0f;
  data_limit ← get_limit 0x17;
  t ← me;
  c ← index (Task.ldt t) 1;
  d ← index (Task.ldt t) 2;
  if negb (get_base d =? get_base c) then panic "We don't support separate I&D" else
  if data_limit <? code_limit then panic "Bad data_limit" else
  let new_base := u64 (s32 (nr * 0x4000000)) in
  set_task_p p (λ t, t <| Task.ldt ::= λ l,
    <[2%nat := set_base (default (0, 0) (l !! 2%nat)) new_base]>
      (<[1%nat := set_base (default (0, 0) (l !! 1%nat)) new_base]> l) |>);;
  r ← in_fs (in_mm (copy_page_tables (get_base d) new_base data_limit));
  if truth r then
    in_fs (in_mm (free_page_tables new_base data_limit));;
    mret (- ENOMEM)
  else mret 0.

(** The words pushed on the new kernel stack, first pushed first; the label
    ret_from_fork of system_call.nasm is an address. *)
Section Fork.
Context (ret_from_fork : Z).

Definition child_frame (rbp rdi rsi gs rbx rcx rdx fs es ds rip cs rflags rsp ss : Z) : list Z :=
  [ss; rsp; rflags; cs; rip] ++ replicate 8 0 ++ [rbp; rsi; rdi; rdx; rcx; rbx; 0]
  ++ [gs; fs; es; ds; ret_from_fork].

Definition push_frame (p : Z) (frame : list Z) : M proc () :=
  mfor (λ k, in_fs (in_mm (wr (p + PAGE_SIZE - 8 * (k + 1))
                     (default 0 (frame !! Z.to_nat k))))) (upto (length frame)).

(** The fields of the child that differ from those of its parent. *)
Definition child_of (t : Task.task_struct) (pid now : Z) : Task.task_struct :=
  t <| Task.state := TASK_UNINTERRUPTIBLE |> <| Task.pid := pid |>
    <| Task.father := Task.pid t |> <| Task.counter := Task.priority t |>
    <| Task.signal := 0 |> <| Task.alarm := 0 |> <| Task.leader := 0 |>
    <| Task.utime := 0 |> <| Task.stime := 0 |> <| Task.cutime := 0 |>
    <| Task.cstime := 0 |> <| Task.start_time := now |>.

Definition copy_process (nr rbp rdi rsi gs rbx rcx rdx fs es ds rip cs rflags rsp ss : Z)
    : M proc Z :=
  p ← in_fs (in_mm get_free_page);
  if p =? 0 then mret (- EAGAIN) else
  t ← me;
  pid ← gets last_pid;
  now ← on_tasks (gets jiffies);
  on_tasks (modify (λ s, s <| heap ::= <[p := child_of t pid now]> |>));;
  let frame := child_frame rbp rdi rsi gs rbx rcx rdx fs es ds rip cs rflags rsp ss in
  push_frame p frame;;
  modify (λ s, s <| threads ::=
    <[p := ThreadRegs (p + PAGE_SIZE - 8 * Z.of_nat (length frame)) rbx rbp 0 0 0 0 fs gs]> |>);;
  r ← copy_mem nr p;
  if truth r then
    in_fs (in_mm (free_page p));; mret (- EAGAIN)
  else
  c ← task_p p;
  mfor (λ fp, when (truth fp)
    (in_fs (set_filp fp (λ f, f <| f_count ::= λ c, u16 (c + 1) |>)))) (Task.filp c);;
  t ← me;
  let hold (i : Z) := when (truth i)
    (in_fs (set_inode i (λ x, x <| i_count := u16 (i_count x + 1) |>))) in
  hold (Task.pwd t);;
  hold (Task.root t);;
  modify (λ s, s <| ldt_desc ::= <[nr := p]> |>);;
  set_task_p p (λ t, t <| Task.state := TASK_RUNNING |>);;
  on_tasks (store task nr p);;
  r ← gets last_pid;
  mret (s32 r).
End Fork.

(** Does a task have this pid? *)
Definition pid_in_use (pid : Z) : M proc bool :=
  r ← mloop (λ i,
        p ← slot i;
        if p =? 0 then mret None else
        t ← task_p p;
        mret (if Task.pid t =? pid then Some tt else None)) (upto NR_TASKS);
  mret (match r with Some _ => true | None => false end).

(** The loop on the label repeat. *)
Fixpoint next_pid (fuel : nat) : M proc () :=
  match fuel with
  | O => nofuel
  | S n =>
      modify (λ s, s <| last_pid ::= λ x, if s64 (x + 1) <? 0 then 1 else s64 (x + 1) |>);;
      pid ← gets last_pid;
      used ← pid_in_use pid;
      if used : bool then next_pid n else mret ()
  end.

(** 65 pids are tried at most: 64 tasks have 64 pids. *)
Definition find_empty_process : M proc Z :=
  next_pid (S NR_TASKS);;
  r ← mloop (λ i, p ← slot (i + 1); mret (if p =? 0 then Some (i + 1) else None))
        (upto (NR_TASKS - 1));
  mret (default (- EAGAIN) r).

(** ** exit.c *)

(** The task gives the processor up: when another one is chosen, what follows
    runs when this one is chosen again. *)
Definition reschedule : M proc () :=
  c ← on_tasks (gets current);
  on_tasks (schedule 2);;
  c' ← on_tasks (gets current);
  if c =? c' then mret () else sleep.

Definition release (p : Z) : M proc () :=
  if p =? 0 then mret () else
  r ← mloop (λ i, q ← slot (i + 1); mret (if q =? p then Some (i + 1) else None))
        (upto (NR_TASKS - 1));
  match r with
  | None => panic "trying to release non-existent task"
  | Some i =>
      on_tasks (store task i 0);;
      in_fs (in_mm (free_page p));;
      reschedule
  end.

Definition send_sig (sig p : Z) (priv : bool) : M proc () :=
  if (p =? 0) || (sig <? 1) || (32 <? sig) then mret () else
  c ← me;
  t ← task_p p;
  when (priv || (Task.uid c =? Task.uid t) || (Task.euid c =? Task.uid t)
        || (Task.uid c =? Task.euid t) || (Task.euid c =? Task.euid t))
    (set_task_p p (λ t, t <| Task.signal ::= λ x, x .| s32 (Z.shiftl 1 (sig - 1)) |>)).

(** Which tasks do_kill signals; pid 0 compares the group with current's pid. *)
Definition kill_target (pid : Z) (c t : Task.task_struct) : bool :=
  if pid =? 0 then Task.pgrp t =? Task.pid c
  else if 0 <? pid then Task.pid t =? pid
  else if pid =? -1 then true
  else Task.pgrp t =? s64 (- pid).

Definition do_kill (pid sig : Z) (priv : bool) : M proc () :=
  mfor (λ i,
    p ← slot i;
    if p =? 0 then mret () else
    c ← me;
    t ← task_p p;
    when (kill_target pid c t) (send_sig sig p priv)) last_to_first.

Definition sys_kill (pid sig : Z) : M proc Z :=
  t ← me;
  do_kill pid sig (negb (truth (Task.uid t) || truth (Task.euid t)));;
  mret 0.

Definition SIGCHLD : Z := 17.

(** The memory of the running task, described by descriptor [k]. *)
Definition free_segment (k segment : Z) : M proc () :=
  t ← me;
  d ← index (Task.ldt t) k;
  l ← get_limit segment;
  in_fs (in_mm (free_page_tables (get_base d) l));;
  mret ().

Definition orphan (i : Z) : M proc () :=
  p ← slot i;
  if p =? 0 then mret () else
  c ← me;
  t ← task_p p;
  when (Task.father t =? Task.pid c) (set_task_p p (λ t, t <| Task.father := 0 |>)).

Definition do_exit (code : Z) : M proc Z :=
  free_segment 1 0x0f;;
  free_segment 2 0x17;;
  mfor orphan (upto NR_TASKS);;
  mfor (λ i,
    t ← me;
    fp ← index (Task.filp t) i;
    when (truth fp) (in_fs (sys_close i);; mret ())) (upto NR_OPEN);;
  t ← me;
  in_fs (iput (Task.pwd t));;
  set_me (λ t, t <| Task.pwd := NULL |>);;
  t ← me;
  in_fs (iput (Task.root t));;
  set_me (λ t, t <| Task.root := NULL |>);;
  t ← me;
  when (truth (Task.leader t) && (0 <=? Task.tty t))
    (in_fs (set_the_tty (Task.tty t) (λ x, x <| TtyIo.pgrp := 0 |>)));;
  c ← on_tasks (gets current);
  last ← on_tasks (gets last_task_used_math);
  when (last =? c) (on_tasks (modify (λ s, s <| last_task_used_math := 0 |>)));;
  t ← me;
  (if truth (Task.father t) then
     set_me (λ t, t <| Task.state := TASK_ZOMBIE |>);;
     do_kill (Task.father t) SIGCHLD true;;
     set_me (λ t, t <| Task.exit_code := s32 code |>)
   else release c);;
  reschedule;;
  mret (-1).

Definition sys_exit (error_code : Z) : M proc Z :=
  do_exit (Z.shiftl (error_code .& 0xff) 8).

(** One task of the loop of sys_waitpid: the result of the call, if it is a dead
    child; whether it is a child at all. *)
Definition wait_for (pid stat_addr i : Z) (flag : bool) : M proc (bool * option Z) :=
  p ← slot i;
  c ← on_tasks (gets current);
  if (p =? 0) || (p =? c) then mret (flag, None) else
  m ← me;
  t ← task_p p;
  let wanted := (pid =? -1) || (Task.pid t =? pid)
                || ((pid =? 0) && (Task.pgrp t =? Task.pgrp m))
                || ((pid <? 0) && (Task.pgrp t =? s32 (- pid))) in
  if negb (wanted && (Task.father t =? Task.pid m)) then mret (flag, None) else
  if negb (Task.state t =? TASK_ZOMBIE) then mret (true, None) else
  in_fs (put_fs_long (u64 (Task.exit_code t)) stat_addr);;
  set_me (λ m, m <| Task.cutime ::= λ x, s64 (x + Task.utime t) |>
                 <| Task.cstime ::= λ x, s64 (x + Task.stime t) |>);;
  release p;;
  mret (true, Some (s32 (Task.pid t))).

Fixpoint wait_loop (l : list Z) (pid stat_addr : Z) (flag : bool) : M proc (bool * option Z) :=
  match l with
  | [] => mret (flag, None)
  | i :: l =>
      r ← wait_for pid stat_addr i flag;
      match r.2 with Some _ => mret r | None => wait_loop l pid stat_addr r.1 end
  end.

Definition WNOHANG : Z := 1.

(** sys_waitpid up to the call of sys_pause ... *)
Definition sys_waitpid (pid stat_addr options : Z) : M proc Z :=
  in_fs (verify_area stat_addr 4);;
  r ← wait_loop last_to_first pid stat_addr false;
  match r with
  | (_, Some v) => mret v
  | (false, None) => mret (- ECHILD)
  | (true, None) =>
      if truth (options .& WNOHANG) then mret 0 else
      on_tasks (sys_pause_enter 2);;
      sleep
  end.
(** ... and after it: the result, or None to go back to [repeat]. *)
Definition waitpid_resume : M proc (option Z) :=
  set_me (λ t, t <| Task.signal ::= λ x, Z.ldiff x (Z.shiftl 1 (SIGCHLD - 1)) |>);;
  t ← me;
  mret (if Task.signal t =? 0 then None else Some (- EINTR)).

(** ** sys.c *)

Definition ENOSYS : Z := 38.
Definition ESRCH : Z := 3.
Definition sys_ftime : M proc Z := mret (- ENOSYS).
Definition sys_mknod : M proc Z := mret (- ENOSYS).
Definition sys_break : M proc Z := mret (- ENOSYS).
Definition sys_mount : M proc Z := mret (- ENOSYS).
Definition sys_umount : M proc Z := mret (- ENOSYS).
Definition sys_ustat (dev ubuf : Z) : M proc Z := mret (-1).
Definition sys_ptrace : M proc Z := mret (- ENOSYS).
Definition sys_stty : M proc Z := mret (- ENOSYS).
Definition sys_gtty : M proc Z := mret (- ENOSYS).
Definition sys_rename : M proc Z := mret (- ENOSYS).
Definition sys_prof : M proc Z := mret (- ENOSYS).
Definition sys_acct : M proc Z := mret (- ENOSYS).
Definition sys_phys : M proc Z := mret (- ENOSYS).
Definition sys_lock : M proc Z := mret (- ENOSYS).
Definition sys_mpx : M proc Z := mret (- ENOSYS).
Definition sys_ulimit : M proc Z := mret (- ENOSYS).

Definition sys_setgid (gid : Z) : M proc Z :=
  t ← me;
  if truth (Task.euid t) && truth (Task.uid t) then
    if (Task.gid t =? gid) || (Task.sgid t =? gid)
    then set_me (λ t, t <| Task.egid := u16 gid |>);; mret 0
    else mret (- EPERM)
  else set_me (λ t, t <| Task.gid := u16 gid |> <| Task.egid := u16 gid |>);; mret 0.

Definition sys_setuid (uid : Z) : M proc Z :=
  t ← me;
  if truth (Task.euid t) && truth (Task.uid t) then
    if (uid =? Task.uid t) || (Task.suid t =? Task.uid t)
    then set_me (λ t, t <| Task.euid := u16 uid |>);; mret 0
    else mret (- EPERM)
  else set_me (λ t, t <| Task.euid := u16 uid |> <| Task.uid := u16 uid |>);; mret 0.

Definition sys_time (tloc : Z) : M proc Z :=
  now ← in_fs CURRENT_TIME;
  let i := s32 now in
  when (truth tloc) (in_fs (verify_area tloc 4;; put_fs_long (u64 i) tloc));;
  mret i.

Definition sys_stime (tptr : Z) : M proc Z :=
  t ← me;
  if truth (Task.euid t) && truth (Task.uid t) then mret (-1) else
  v ← in_fs (get_fs_long tptr);
  on_tasks (modify (λ s, s <| startup_time := s64 (v - Z.quot (jiffies s) HZ) |>));;
  mret 0.

Definition sys_times (tbuf : Z) : M proc Z :=
  j ← on_tasks (gets jiffies);
  if tbuf =? 0 then mret (s32 j) else
  in_fs (verify_area tbuf 32);;
  t ← me;
  in_fs (put_fs_long (u64 (Task.utime t)) tbuf;;
         put_fs_long (u64 (Task.stime t)) (tbuf + 8);;
         put_fs_long (u64 (Task.cutime t)) (tbuf + 16);;
         put_fs_long (u64 (Task.cstime t)) (tbuf + 24));;
  j ← on_tasks (gets jiffies);
  mret (s32 j).

Definition sys_brk (end_data_seg : Z) : M proc Z :=
  t ← me;
  when ((Task.end_code t <=? end_data_seg)
        && (end_data_seg <? u64 (Task.start_stack t - 16384)))
    (set_me (λ t, t <| Task.brk := end_data_seg |>));;
  t ← me;
  mret (s32 (Task.brk t)).

Definition sys_setpgid (pid pgid : Z) : M proc Z :=
  c ← me;
  let pid := if pid =? 0 then s32 (Task.pid c) else pid in
  let pgid := if pgid =? 0 then pid else pgid in
  r ← mloop (λ i,
        p ← slot i;
        if p =? 0 then mret None else
        t ← task_p p;
        if negb (Task.pid t =? pid) then mret None else
        if truth (Task.leader t) then mret (Some (- EPERM)) else
        if negb (Task.session t =? Task.session c) then mret (Some (- EPERM)) else
        set_task_p p (λ t, t <| Task.pgrp := pgid |>);;
        mret (Some 0)) (upto NR_TASKS);
  mret (default (- ESRCH) r).

Definition sys_getpgrp : M proc Z := t ← me; mret (s32 (Task.pgrp t)).

Definition sys_setsid : M proc Z :=
  t ← me;
  if truth (Task.uid t) && truth (Task.euid t) then mret (- EPERM) else
  if truth (Task.leader t) then mret (- EPERM) else
  set_me (λ t, t <| Task.leader := 1 |> <| Task.session := Task.pid t |>
                 <| Task.pgrp := Task.pid t |> <| Task.tty := -1 |>);;
  t ← me;
  mret (s32 (Task.pgrp t)).

(** "linux .0","nodename","release ","version ","machine ", nine bytes each *)
Definition thisname : list Z :=
  [108; 105; 110; 117; 120; 32; 46; 48; 0;  110; 111; 100; 101; 110; 97; 109; 101; 0;
   114; 101; 108; 101; 97; 115; 101; 32; 0;  118; 101; 114; 115; 105; 111; 110; 32; 0;
   109; 97; 99; 104; 105; 110; 101; 32; 0].
Definition sys_uname (name : Z) : M proc Z :=
  if name =? 0 then mret (-1) else
  in_fs (verify_area name 45);;
  in_fs (put_bytes thisname name);;
  mret 0.

Definition sys_umask (mask : Z) : M proc Z :=
  t ← me;
  set_me (λ t, t <| Task.umask := mask .& 0x1FF |>);;
  mret (Task.umask t).
