(* ===== verification/Exec.v ===== *)
(** * Executing a program (fs/exec.c, include/a.out.h)

    do_execve on the state of the processes.  The pages of the arguments are
    physical pages, reached by bytes here; the memory of the task is [user], in
    which a page that change_ldt maps shows its bytes at its address.  [fuel]
    bounds the lengths of strings and tables in that memory. *)

From S2P Require Export Proc.

(** ** include/a.out.h *)

Record exec := Exec {
  a_magic : Z; a_text : Z; a_data : Z; a_bss : Z; a_syms : Z; a_entry : Z; a_trsize : Z; a_drsize : Z
}.
(** The structure at the start of a block: a long, then ints. *)
Definition exec_of (d : list Z) : exec :=
  Exec (int_at d 0 + Z.shiftl (int_at d 1) 32) (int_at d 2) (int_at d 3) (int_at d 4) (int_at d 5) (int_at d 6)
    (int_at d 7) (int_at d 8).
Definition sizeof_exec : Z := 40.
Definition N_MAGIC (x : exec) : Z := a_magic x.
Definition OMAGIC : Z := 0x107.
Definition NMAGIC : Z := 0x108.
Definition ZMAGIC : Z := 0x10B.
Definition N_BADMAG (x : exec) : bool :=
  negb (N_MAGIC x =? OMAGIC) && negb (N_MAGIC x =? NMAGIC) && negb (N_MAGIC x =? ZMAGIC).
Definition SEGMENT_SIZE : Z := 1024.
Definition _N_HDROFF (x : exec) : Z := u64 (SEGMENT_SIZE - sizeof_exec).
Definition N_TXTOFF (x : exec) : Z :=
  if N_MAGIC x =? ZMAGIC then u64 (_N_HDROFF x + sizeof_exec) else sizeof_exec.
Definition N_DATOFF (x : exec) : Z := u64 (N_TXTOFF x + a_text x).
Definition N_TRELOFF (x : exec) : Z := u64 (N_DATOFF x + a_data x).
Definition N_DRELOFF (x : exec) : Z := u64 (N_TRELOFF x + a_trsize x).
Definition N_SYMOFF (x : exec) : Z := u64 (N_DRELOFF x + a_drsize x).
Definition N_STROFF (x : exec) : Z := u64 (N_SYMOFF x + a_syms x).
Definition N_TXTADDR (x : exec) : Z := 0.
Definition _N_SEGMENT_ROUND (x : Z) : Z := u32 (x + SEGMENT_SIZE - 1) .& u32 (Z.lnot (SEGMENT_SIZE - 1)).
Definition _N_TXTENDADDR (x : exec) : Z := u32 (N_TXTADDR x + a_text x).
Definition N_DATADDR (x : exec) : Z :=
  if N_MAGIC x =? OMAGIC then _N_TXTENDADDR x else _N_SEGMENT_ROUND (_N_TXTENDADDR x).
Definition N_BSSADDR (x : exec) : Z := u32 (N_DATADDR x + a_data x).

(** ** Loading the file *)

Definition MAX_ARG_PAGES : nat := 32.

Definition cp_block (from to : Z) : M fs () :=
  b ← bh from;
  mfor (λ i, put_fs_byte (byte_at (b_data b) i) (to + i)) (upto 1024).

Definition read_head (p blocks : Z) : M fs Z :=
  let blocks := if 6 <? blocks then 6 else blocks in
  r ← mloop (λ count,
        i ← inode p;
        if zone i (count + 1) =? 0 then mret None else
        b ← bread (i_dev i) (zone i (count + 1));
        if b =? NULL then mret (Some (-1)) else
        cp_block b (count * 1024);;
        brelse b;;
        mret None) (upto (Z.to_nat blocks));
  mret (default 0 r).

(** [size] bytes at most, in blocks named by the table of block [ind]. *)
Definition read_ind (dev ind size offset : Z) : M fs Z :=
  if size <=? 0 then panic "size<=0 in read_ind" else
  let size := if 512 * 1024 <? size then 512 * 1024 else size in
  if ind =? 0 then mret 0 else
  ih ← bread dev ind;
  if ih =? NULL then mret (-1) else
  r ← mloop (λ k,
        t ← bh ih;
        let block := half_at (b_data t) k in
        if block =? 0 then mret None else
        b ← bread dev block;
        if b =? NULL then brelse ih;; mret (Some (-1)) else
        cp_block b (u64 (offset + 1024 * k));;
        brelse b;;
        mret None) (upto (Z.to_nat ((size + 1023) / 1024)));
  match r with
  | Some x => mret x
  | None => brelse ih;; mret 0
  end.

Definition read_area (p size : Z) : M fs Z :=
  i ← read_head p (s32 (Z.quot (size + 1023) 1024));
  let size := size - 1024 * 6 in
  if truth i || (size <=? 0) then mret i else
  x ← inode p;
  i ← read_ind (i_dev x) (zone x 7) size (1024 * 6);
  let size := size - 1024 * 512 in
  if truth i || (size <=? 0) then mret i else
  x ← inode p;
  if zone x 8 =? 0 then mret 0 else
  dind ← bread (i_dev x) (zone x 8);
  if dind =? NULL then mret (-1) else
  r ← mloop (λ count,
        t ← bh dind;
        x ← inode p;
        let size := size - 1024 * 512 * count in
        i ← read_ind (i_dev x) (half_at (b_data t) count) size (1024 * (518 + count));
        if truth i || (size - 1024 * 512 <=? 0) then mret (Some i) else mret None) (upto 512);
  match r with Some i => mret i | None => panic "Impossibly long executable" end.

(** ** The arguments *)

Section Arguments.
Context (fuel : nat).

(** The address behind the 0 of the string at [p]. *)
Fixpoint string_end (n : nat) (p : Z) : M fs Z :=
  match n with
  | O => nofuel
  | S n => c ← get_fs_byte p; if truth c then string_end n (p + 1) else mret (p + 1)
  end.

(** The loop over the strings from [p] on, whose pointers go to [t]. *)
Fixpoint table (n : nat) (p t : Z) : M fs (Z * Z) :=
  match n with
  | O => mret (p, t)
  | S n => put_fs_long p t;; p ← string_end fuel p; table n p (t + 8)
  end.
Definition create_tables (p argc envc : Z) : M fs Z :=
  let sp := 0xfffffffc .& p in
  let sp := u64 (sp - 8 * (envc + 1)) in
  let envp := sp in
  let sp := u64 (sp - 8 * (argc + 1)) in
  let argv := sp in
  put_fs_long envp (sp - 8);;
  put_fs_long argv (sp - 16);;
  put_fs_long (u64 argc) (sp - 24);;
  '(p, argv) ← table (Z.to_nat argc) p argv;
  put_fs_long 0 argv;;
  '(p, envp) ← table (Z.to_nat envc) p envp;
  put_fs_long 0 envp;;
  mret (sp - 24).

Fixpoint count_from (n : nat) (tmp i : Z) : M fs Z :=
  match n with
  | O => nofuel
  | S n => x ← get_fs_long tmp; if truth x then count_from n (tmp + 8) (s32 (i + 1)) else mret i
  end.
Definition count (argv : Z) : M fs Z := if argv =? NULL then mret 0 else count_from fuel argv 0.

(** Pages for the string that is to start in page [i]; [false]: no memory. *)
Fixpoint page_run (n : nat) (i : Z) (page : list Z) : M mm (bool * list Z) :=
  match n with
  | O => mret (true, page)
  | S n =>
      if Z.of_nat MAX_ARG_PAGES <=? i then mret (true, page) else
      x ← index page i;
      if truth x then mret (true, page) else
      new ← get_free_page;
      if new =? 0 then mret (false, <[Z.to_nat i := 0]> page)
      else page_run n (i + 1) (<[Z.to_nat i := new]> page)
  end.
(** The [len] bytes before [tmp], from the last to the first, below [p]. *)
Fixpoint copy_down (len : nat) (tmp p : Z) (page : list Z) : M fs Z :=
  match len with
  | O => mret p
  | S len =>
      let p := u64 (p - 1) in
      x ← index page (p / PAGE_SIZE);
      if x =? 0 then panic "nonexistent page in exec.c" else
      c ← get_fs_byte (tmp - 1);
      set_page_byte (x + p mod PAGE_SIZE) c;;
      copy_down len (tmp - 1) p page
  end.
(** The strings [argv[argc - 1]], ..., [argv[0]]; [p - len] is unsigned and never
    below 0. *)
Fixpoint copy_strings (argc : nat) (argv : Z) (page : list Z) (p : Z) : M fs (Z * list Z) :=
  match argc with
  | O => mret (p, page)
  | S argc =>
      tmp ← get_fs_long (argv + 8 * Z.of_nat argc);
      if tmp =? NULL then panic "argc is wrong" else
      e ← string_end fuel tmp;
      let len := s32 (e - tmp) in
      '(ok, page) ← in_mm (page_run MAX_ARG_PAGES (Z.shiftr (u32 (p - len)) 12) page);
      if negb ok then mret (0, page) else
      p ← copy_down (Z.to_nat len) e p page;
      copy_strings argc argv page p
  end.
End Arguments.

(** ** The new memory of the task *)

Definition set_limit (d : Z * Z) (limit : Z) : Z * Z :=
  let l := Z.shiftr (u64 (limit - 1)) 12 in
  (Z.ldiff d.1 0xffff .| (l .& 0xffff), Z.ldiff d.2 0xf0000 .| Z.shiftl (Z.shiftr l 16 .& 0xf) 16).
Definition set_ldt (k : Z) (f : Z * Z → Z * Z) : M proc () :=
  t ← me;
  d ← index (Task.ldt t) k;
  set_me (λ t, t <| Task.ldt ::= <[Z.to_nat k := f d]> |>).

(** A mapped page shows its bytes in the memory of the task. *)
Definition show_page (page address : Z) : M proc () :=
  mfor (λ k,
    c ← in_fs (page_byte (page + k));
    in_fs (put_fs_byte c (address + k))) (upto (Z.to_nat PAGE_SIZE)).

Definition change_ldt (text_size : Z) (page : list Z) : M proc Z :=
  let code_limit := u64 (text_size + PAGE_SIZE - 1) .& 0xFFFFF000 in
  let data_limit := 0x4000000 in
  t ← me;
  d ← index (Task.ldt t) 1;
  let code_base := get_base d in
  let data_base := code_base in
  set_ldt 1 (λ d, set_base d code_base);;
  set_ldt 1 (λ d, set_limit d code_limit);;
  set_ldt 2 (λ d, set_base d data_base);;
  set_ldt 2 (λ d, set_limit d data_limit);;
  mfor (λ i,
    x ← index page i;
    if x =? 0 then mret () else
    let address := u64 (data_base + data_limit - PAGE_SIZE * (Z.of_nat MAX_ARG_PAGES - i)) in
    r ← in_fs (in_mm (put_page x address));
    when (truth r) (show_page x address)) (downfrom MAX_ARG_PAGES);;
  mret data_limit.

(** ** do_execve

    [eip] is the part of the stack of the call from the return address on: the
    entry point, the code segment, the flags and the stack pointer. *)

Definition ENOEXEC : Z := 8.

(** May the task execute this file? *)
Definition exec_mode (t : Task.task_struct) (i : m_inode) : Z :=
  if truth (Task.uid t) && truth (Task.euid t) then
    if Task.euid t =? i_uid i then Z.shiftr (i_mode i) 6
    else if Task.egid t =? i_gid i then Z.shiftr (i_mode i) 3
    else i_mode i
  else if truth (i_mode i .& 73) then 1 else i_mode i.

(** The test of the header; the sums are of unsigned ints. *)
Definition bad_header (ex : exec) (i_size : Z) : bool :=
  negb (N_MAGIC ex =? ZMAGIC) || truth (a_trsize ex) || truth (a_drsize ex) ||
  (0x3000000 <? u32 (a_text ex + a_data ex + a_bss ex)) ||
  (i_size <? u64 (u32 (a_text ex + a_data ex + a_syms ex) + N_TXTOFF ex)).

(** [while (i & 0xfff) put_fs_byte(0, i++)] *)
Fixpoint clear_to_page (n : nat) (i : Z) : M fs () :=
  match n with
  | O => nofuel
  | S n => if truth (i .& 0xfff) then put_fs_byte 0 i;; clear_to_page n (s32 (i + 1)) else mret ()
  end.

Definition do_execve (fuel : nat) (eip : list Z) (filename argv envp : Z) : M proc (Z * list Z) :=
  cs ← index eip 1;
  if negb ((0xffff .& cs) =? 0x000f) then panic "execve called from supervisor mode" else
  let page := replicate MAX_ARG_PAGES 0 in
  inode_p ← in_fs (namei fuel filename);
  if inode_p =? NULL then mret (- ENOENT, eip) else
  i ← in_fs (inode inode_p);
  if negb (S_ISREG (i_mode i)) then in_fs (iput inode_p);; mret (- EACCES, eip) else
  t ← me;
  if negb (truth (exec_mode t i .& 1)) then in_fs (iput inode_p);; mret (- ENOEXEC, eip) else
  b ← in_fs (bread (i_dev i) (zone i 0));
  if b =? NULL then in_fs (iput inode_p);; mret (- EACCES, eip) else
  d ← in_fs (bh b);
  let ex := exec_of (b_data d) in
  in_fs (brelse b);;
  i ← in_fs (inode inode_p);
  if bad_header ex (i_size i) then in_fs (iput inode_p);; mret (- ENOEXEC, eip) else
  if negb (N_TXTOFF ex =? 1024) then panic "N_TXTOFF != BLOCK_SIZE. See a.out.h." else
  argc ← in_fs (count fuel argv);
  envc ← in_fs (count fuel envp);
  '(p, page) ← in_fs (copy_strings fuel (Z.to_nat envc) envp page (PAGE_SIZE * Z.of_nat MAX_ARG_PAGES - 4));
  '(p, page) ← in_fs (copy_strings fuel (Z.to_nat argc) argv page p);
  if p =? 0 then
    mfor (λ i, x ← index page i; in_fs (in_mm (free_page x))) (upto MAX_ARG_PAGES);;
    in_fs (iput inode_p);;
    mret (-1, eip)
  else
  mfor (λ i, set_me (λ t, t <| Task.sig_fn ::= <[Z.to_nat i := 0]> |>)) (upto 32);;
  mfor (λ i,
    t ← me;
    when (Z.testbit (Task.close_on_exec t) i) (in_fs (sys_close i);; mret ())) (upto NR_OPEN);;
  set_me (λ t, t <| Task.close_on_exec := 0 |>);;
  free_segment 1 0x0f;;
  free_segment 2 0x17;;
  c ← on_tasks (gets current);
  last ← on_tasks (gets last_task_used_math);
  when (last =? c) (on_tasks (modify (λ s, s <| last_task_used_math := 0 |>)));;
  set_me (λ t, t <| Task.used_math := 0 |>);;
  data_limit ← change_ldt (a_text ex) page;
  p ← in_fs (create_tables fuel (u64 (p + data_limit - Z.of_nat MAX_ARG_PAGES * PAGE_SIZE)) argc envc);
  let end_data := u64 (a_data ex + a_text ex) in
  set_me (λ t, t <| Task.end_code := a_text ex |> <| Task.end_data := end_data |>
                 <| Task.brk := u64 (a_bss ex + end_data) |> <| Task.start_stack := p .& 0xfffff000 |>);;
  r ← in_fs (read_area inode_p (u32 (a_text ex + a_data ex)));
  in_fs (iput inode_p);;
  when (s32 r <? 0) (sys_exit (-1);; mret ());;
  in_fs (clear_to_page (S (Z.to_nat PAGE_SIZE)) (s32 (u32 (a_text ex + a_data ex))));;
  mret (0, <[3%nat := p]> (<[0%nat := a_entry ex]> eip)).
