(* ===== verification/FsFacts.v ===== *)
(** * Running the accessors of the file-system state

    Total-correctness rules ([wp]) for the accesses to buffers, inodes, files,
    tasks and the memory of the running task. *)

From S2P Require Export Fs.
From S2P Require Import SchedFacts.

(** A wait queue holds NULL or a task. *)
Definition waiters_ok (c : sched) : Prop :=
  ∀ q h, waitq c !! q = Some h → h = 0 ∨ is_Some (heap c !! h).
Definition sch (s : fs) : sched := TtyIo.sch (term s).
Definition user (s : fs) : gmap Z Z := TtyIo.user (term s).
(** The state with another scheduler state, and with another user memory. *)
Definition with_sch (s : fs) (c : sched) : fs :=
  s <| term := (term s) <| TtyIo.sch := c |> |>.
Definition with_user (s : fs) (u : gmap Z Z) : fs :=
  s <| term := (term s) <| TtyIo.user := u |> |>.

Section Rules.
Implicit Types s : fs.

Lemma wp_bh p b (Q : buffer_head → fs → Prop) s :
  heads s !! p = Some b → Q b s → wp (bh p) Q s.
Proof. intros Hb HQ. unfold bh, gets, mbind, M_bind, wp. by rewrite Hb. Qed.
Lemma wp_set_bh p b f (Q : () → fs → Prop) s :
  heads s !! p = Some b → Q tt (s <| heads ::= <[p := f b]> |>) → wp (set_bh p f) Q s.
Proof. intros Hb HQ. unfold set_bh. apply wp_bind, (wp_bh p b); [done|]. by apply wp_modify. Qed.

Lemma wp_inode p i (Q : m_inode → fs → Prop) s :
  1 ≤ p → inode_table s !! Z.to_nat (p - 1) = Some i → Q i s → wp (inode p) Q s.
Proof.
  intros Hp Hi HQ. unfold inode. apply wp_bind, wp_gets.
  eapply wp_of_ret; [apply index_Some; [lia|done]|done].
Qed.
Lemma wp_set_inode p i f (Q : () → fs → Prop) s :
  1 ≤ p → inode_table s !! Z.to_nat (p - 1) = Some i →
  Q tt (s <| inode_table ::= <[Z.to_nat (p - 1) := f i]> |>) → wp (set_inode p f) Q s.
Proof.
  intros Hp Hi HQ. unfold set_inode. apply wp_bind, (wp_inode p i); [done..|].
  eapply wp_of_ret; [apply store_in|exact HQ].
  apply lookup_lt_Some in Hi. lia.
Qed.
Lemma wp_filp p x (Q : file → fs → Prop) s :
  1 ≤ p → file_table s !! Z.to_nat (p - 1) = Some x → Q x s → wp (filp p) Q s.
Proof.
  intros Hp Hi HQ. unfold filp. apply wp_bind, wp_gets.
  eapply wp_of_ret; [apply index_Some; [lia|done]|done].
Qed.
Lemma wp_set_filp p x f (Q : () → fs → Prop) s :
  1 ≤ p → file_table s !! Z.to_nat (p - 1) = Some x →
  Q tt (s <| file_table ::= <[Z.to_nat (p - 1) := f x]> |>) → wp (set_filp p f) Q s.
Proof.
  intros Hp Hi HQ. unfold set_filp. apply wp_bind, (wp_filp p x); [done..|].
  eapply wp_of_ret; [apply store_in|exact HQ].
  apply lookup_lt_Some in Hi. lia.
Qed.

Lemma wp_in_sched {A} (m : M sched A) (Q : A → fs → Prop) s :
  wp m (λ a c, Q a (with_sch s c)) (sch s) → wp (in_sched m) Q s.
Proof. intros H. unfold in_sched, in_tty. by repeat apply wp_zoom. Qed.
Lemma wp_in_mm {A} (m : M mm A) (Q : A → fs → Prop) s :
  wp m (λ a t, Q a (s <| mem := t |>)) (mem s) → wp (in_mm m) Q s.
Proof. apply wp_zoom. Qed.

Lemma wp_get_fs_byte a (Q : Z → fs → Prop) s :
  Q (default 0 (user s !! a)) s → wp (get_fs_byte a) Q s.
Proof.
  intros HQ. unfold get_fs_byte, in_tty. apply wp_zoom.
  unfold TtyIo.get_fs_byte. apply wp_gets. by destruct s as [? ? ? ? ? ? ? ? ? ? ? ? [] ?].
Qed.
Lemma wp_put_fs_byte v a (Q : () → fs → Prop) s :
  Q tt (with_user s (<[a := u8 v]> (user s))) → wp (put_fs_byte v a) Q s.
Proof. intros HQ. unfold put_fs_byte, in_tty. apply wp_zoom. by apply wp_modify. Qed.
Lemma wp_cur t (Q : Task.task_struct → fs → Prop) s :
  heap (sch s) !! current (sch s) = Some t → Q t s → wp cur Q s.
Proof.
  intros Ht HQ. unfold cur. apply wp_in_sched. unfold cur_task. apply wp_bind, wp_gets.
  eapply wp_of_ret; [by apply deref_Ret|]. by destruct s as [? ? ? ? ? ? ? ? ? ? ? ? [] ?].
Qed.
Lemma wp_set_current t f (Q : () → fs → Prop) s :
  heap (sch s) !! current (sch s) = Some t →
  Q tt (with_sch s ((sch s) <| heap ::= <[current (sch s) := f t]> |>)) →
  wp (set_current f) Q s.
Proof.
  intros Ht HQ. unfold set_current. apply wp_in_sched. unfold set_cur. apply wp_bind, wp_gets.
  eapply wp_of_ret; [by apply set_task_Ret|exact HQ].
Qed.

(** What wake_up does to the scheduler: the task at the head becomes runnable. *)
Definition woken (c : sched) (q : Z) : sched :=
  match default 0 (waitq c !! q), heap c !! default 0 (waitq c !! q) with
  | h, Some t =>
      if h =? 0 then c
      else c <| heap ::= <[h := t <| Task.state := 0 |>]> |> <| waitq ::= <[q := 0]> |>
  | _, None => c
  end.
Lemma wp_wake q (Q : () → fs → Prop) s :
  q ≠ 0 → waiters_ok (sch s) → Q tt (with_sch s (woken (sch s) q)) → wp (wake q) Q s.
Proof.
  intros Hq Hok HQ. unfold wake. apply wp_in_sched. unfold wake_up.
  destruct (Z.eqb_spec q 0); [done|]. apply wp_bind. unfold head_of. apply wp_gets.
  unfold woken in HQ. set (h := default 0 (waitq (sch s) !! q)) in *.
  apply wp_when; intros Hh.
  - apply truth_true in Hh. destruct (waitq (sch s) !! q) as [h'|] eqn:E; [|done].
    assert (h = h') as -> by done. destruct (Hok _ _ E) as [|[t Ht]]; [done|].
    rewrite Ht in HQ. destruct (Z.eqb_spec h' 0); [done|].
    apply wp_bind. eapply wp_of_ret; [by apply set_task_Ret|].
    unfold set_head. apply wp_modify. exact HQ.
  - apply truth_false in Hh. rewrite Hh in HQ.
    destruct (heap (sch s) !! 0); exact HQ.
Qed.
(** The same as equations, for runs that do not return. *)
Lemma inode_Ret p i s :
  1 ≤ p → inode_table s !! Z.to_nat (p - 1) = Some i → inode p s = Ret i s.
Proof.
  intros Hp Hi. unfold inode, gets, mbind, M_bind. apply index_Some; [lia|done].
Qed.
Lemma wake_Ret q s : q ≠ 0 → waiters_ok (sch s) → wake q s = Ret tt (with_sch s (woken (sch s) q)).
Proof.
  intros Hq Hok. assert (wp (wake q) (λ _ s', s' = with_sch s (woken (sch s) q)) s) as H.
  { by apply wp_wake. }
  apply wp_returns in H as ([] & s' & H & ->). exact H.
Qed.
Lemma sleep_on_Sleep {A} q c s : q ≠ 0 → current (sch s) ≠ init_task →
  heap (sch s) !! current (sch s) = Some c → ∃ s', sleep_on (A := A) q s = Sleep s'.
Proof.
  intros Hq Hinit Hc.
  assert (wp (in_sched (sleep_on_enter q)) (λ _ _, True) s) as H.
  { apply wp_in_sched. unfold sleep_on_enter. destruct (Z.eqb_spec q 0); [done|].
    apply wp_bind, wp_gets. destruct (Z.eqb_spec (current (sch s)) init_task); [done|].
    apply wp_bind. unfold head_of. apply wp_gets. apply wp_bind. unfold set_head. apply wp_modify.
    apply wp_bind. unfold set_cur. apply wp_bind, wp_gets.
    eapply wp_of_ret; [by apply set_task_Ret|]. by apply wp_ret. }
  apply wp_returns in H as (r & s' & H & _). exists s'. unfold sleep_on.
  unfold mbind, M_bind. by rewrite H.
Qed.
Lemma woken_heap c q p t : heap c !! p = Some t → ∃ t', heap (woken c q) !! p = Some t'.
Proof.
  intros Ht. unfold woken. destruct (heap c !! default 0 _) as [w|] eqn:E; [|eauto].
  destruct (_ =? 0); [eauto|]. simpl. destruct (decide (p = default 0 (waitq c !! q))) as [->|].
  - rewrite lookup_insert_eq. eauto.
  - rewrite lookup_insert_ne by done. eauto.
Qed.
Lemma woken_ok c q : waiters_ok c → waiters_ok (woken c q).
Proof.
  intros Hok. unfold woken. destruct (heap c !! _) as [t|] eqn:E; [|done].
  destruct (Z.eqb_spec (default 0 (waitq c !! q)) 0); [done|].
  intros q' h. simpl. destruct (decide (q' = q)) as [->|].
  - rewrite lookup_insert_eq. intros [= <-]. by left.
  - rewrite lookup_insert_ne by done. intros H. destruct (Hok _ _ H) as [|[t' Ht]]; [by left|].
    right. destruct (decide (h = default 0 (waitq c !! q))) as [->|].
    + rewrite lookup_insert_eq. eauto.
    + rewrite lookup_insert_ne by done. eauto.
Qed.
Lemma woken_current c q : current (woken c q) = current c.
Proof. unfold woken. destruct (heap c !! _); [|done]. by destruct (_ =? 0). Qed.
End Rules.

Lemma with_sch_sch s c : sch (with_sch s c) = c.
Proof. done. Qed.
Lemma with_user_user s u : user (with_user s u) = u.
Proof. done. Qed.

Lemma i_wait_nonzero p : 0 ≤ p → i_wait p ≠ 0.
Proof. unfold i_wait. lia. Qed.
Lemma b_wait_nonzero p : 0 ≤ p → b_wait p ≠ 0.
Proof. unfold b_wait. lia. Qed.
