(* ===== verification/FsBoot.v ===== *)
(** * A file-system state to run things in: the examples of the theorems

    Empty tables, a cache of four buffers made by buffer_init, the terminals and
    tasks of the other examples, and one drive of 64 readable sectors. *)

From S2P Require Export Fs Buffer FsFacts.
From S2P Require MmFacts TtyFacts.

Definition super0 : superblock :=
  SuperBlock 0 0 0 0 0 0 0 0 (replicate 8 0) (replicate 8 0) 0 0 0 0 0 0.

(** Sector [n] of the drive is 512 times the byte [n]. *)
Definition drive0 : gmap (Z * Z) (list Z) :=
  list_to_map (map (λ n, ((0, n), replicate 512 n)) (seqZ 0 64)).

Definition fs_empty : fs :=
  Fs ∅ 0 [] 0 0 drive0 ((0, 64) :: replicate 9 (0, 0)) 1 (replicate 32 inode0) 0
    (replicate 64 (File 0 0 0 0 0)) (replicate 8 super0) TtyFacts.io_boot MmFacts.blank_mm.

(** Room for four buffers and their heads below BUFFER_END. *)
Definition small_end : Z := BUFFER_END - 4 * (1024 + sizeof buffer_head_t).
Definition zero_block (b : Z) : list Z := replicate 1024 0.
Definition fs_boot : fs :=
  match buffer_init small_end zero_block 10 fs_empty with Ret _ s => s | _ => fs_empty end.

Lemma boot_waiters : waiters_ok (sch fs_empty).
Proof. intros q h H. change (waitq (sch fs_empty)) with (∅ : gmap Z Z) in H. by rewrite lookup_empty in H. Qed.
