(* ===== verification/Rings.v ===== *)
(** * Circular doubly linked lists

    The free list of the buffer cache is a ring of buffers; a hash list is a
    ring through NULL (whose successor is the entry of the hash table).  Both
    are described by the edges of a cyclic list: [linked N P E] says that each
    edge (p, q) is there forwards ([N p q]) and backwards ([P q p]).  Taking an
    element out and putting one in are lemmas on edges, whatever the
    representation of the two relations. *)

From S2P Require Import Prelude.

(** The edges of a path from [a] through [l] to [b], and of a cycle. *)
Fixpoint path (a : Z) (l : list Z) (b : Z) : list (Z * Z) :=
  match l with [] => [(a, b)] | c :: l => (a, c) :: path c l b end.
Definition cycle (a : Z) (l : list Z) : list (Z * Z) := path a l a.

Definition last_of (a : Z) (l : list Z) : Z := default a (last l).
Definition first_of (l : list Z) (b : Z) : Z := default b (head l).

Lemma path_app a l1 x l2 b : path a (l1 ++ x :: l2) b = path a l1 x ++ path x l2 b.
Proof. revert a. induction l1 as [|c l1 IH]; intros a; simpl; [done|]. by rewrite IH. Qed.
Lemma path_fst a l b : (path a l b).*1 = a :: l.
Proof. revert a. induction l as [|c l IH]; intros a; simpl; [done|]. by rewrite IH. Qed.
Lemma path_snd a l b : (path a l b).*2 = l ++ [b].
Proof. revert a. induction l as [|c l IH]; intros a; simpl; [done|]. by rewrite IH. Qed.
Lemma last_of_cons a c l : last_of a (c :: l) = last_of c l.
Proof. unfold last_of. rewrite last_cons. by destruct (last l). Qed.
(** A path, but for its last edge, and but for its first one. *)
Lemma path_last a l : ∃ E, ∀ b', path a l b' = E ++ [(last_of a l, b')].
Proof.
  revert a. induction l as [|c l IH]; intros a.
  - exists []. done.
  - destruct (IH c) as [E HE]. exists ((a, c) :: E). intros b'. simpl.
    by rewrite HE, last_of_cons.
Qed.
Lemma path_first l b : ∃ E, ∀ a', path a' l b = (a', first_of l b) :: E.
Proof. destruct l as [|c l]; [by exists []|]. by exists (path c l b). Qed.
Lemma last_of_elem a l : last_of a l ∈ a :: l.
Proof.
  revert a. induction l as [|c l IH]; intros a; [by left|].
  rewrite last_of_cons. right. apply IH.
Qed.
Lemma first_of_elem l b : first_of l b ∈ l ++ [b].
Proof. destruct l; simpl; by left. Qed.
Lemma last_of_app a l x : last_of a (l ++ [x]) = x.
Proof. unfold last_of. by rewrite last_snoc. Qed.

Section Linked.
Implicit Types N P : Z → Z → Prop.

Definition linked N P (E : list (Z * Z)) : Prop := ∀ p q, (p, q) ∈ E → N p q ∧ P q p.

Lemma linked_app N P E1 E2 : linked N P (E1 ++ E2) ↔ linked N P E1 ∧ linked N P E2.
Proof. unfold linked. setoid_rewrite elem_of_app. firstorder. Qed.
Lemma linked_cons N P p q E : linked N P ((p, q) :: E) ↔ (N p q ∧ P q p) ∧ linked N P E.
Proof.
  unfold linked. setoid_rewrite elem_of_cons. split.
  - intros H. split; [by apply H; left|]. intros; apply H; by right.
  - intros [H1 H2] p' q' [[= -> ->]|H]; auto.
Qed.
Lemma linked_one N P p q : linked N P [(p, q)] ↔ N p q ∧ P q p.
Proof. rewrite linked_cons. split; [tauto|]. intros H. split; [done|]. intros ? ? []%elem_of_nil. Qed.

(** Links that are not among the changed ones stay. *)
Lemma linked_keep N P N' P' y z E :
  linked N P E → y ∉ E.*1 → z ∉ E.*2 →
  (∀ p q, p ≠ y → N p q → N' p q) → (∀ p q, q ≠ z → P q p → P' q p) →
  linked N' P' E.
Proof.
  intros HE Hy Hz HN HP p q Hpq. destruct (HE p q Hpq) as [H1 H2].
  split; [apply HN|apply HP]; try done; intros ->.
  - apply Hy. apply list_elem_of_fmap. by exists (y, q).
  - apply Hz. apply list_elem_of_fmap. by exists (p, z).
Qed.

Lemma cycle_rotate N P a b l : linked N P (cycle a (b :: l)) ↔ linked N P (cycle b (l ++ [a])).
Proof.
  unfold cycle. rewrite path_app. simpl. rewrite linked_app, linked_cons, linked_one. tauto.
Qed.

(** Taking [x] out: its neighbours are [y] and [z]. *)
Lemma unlink N P N' P' a l1 x l2 :
  let y := last_of a l1 in let z := first_of l2 a in
  NoDup (a :: l1 ++ x :: l2) → linked N P (cycle a (l1 ++ x :: l2)) →
  (N y x ∧ P x y ∧ N x z ∧ P z x) ∧
  ((∀ p q, p ≠ y → N p q → N' p q) → (∀ p q, q ≠ z → P q p → P' q p) →
   N' y z → P' z y → linked N' P' (cycle a (l1 ++ l2))).
Proof.
  intros y z Hnd HL. unfold cycle in *. rewrite path_app in HL.
  destruct (path_last a l1) as [E1 HE1]. destruct (path_first l2 a) as [E2 HE2].
  fold y in HE1. fold z in HE2.
  assert (∀ a', path a' l2 a = (a', z) :: E2) as HE2' by done.
  rewrite HE1, HE2 in HL. apply linked_app in HL as [HL1 HL2].
  apply linked_app in HL1 as [HL1 [Hyx Hxy]%linked_one].
  apply linked_cons in HL2 as [[Hxz Hzx] HL2]. split; [done|].
  intros HN HP HN' HP'.
  assert (path a (l1 ++ l2) a = E1 ++ (y, z) :: E2) as ->.
  { destruct l2 as [|c l2].
    - rewrite app_nil_r, HE1. specialize (HE2 0). simpl in HE2. injection HE2 as <-. done.
    - rewrite path_app, HE1. specialize (HE2 0). simpl in HE2. injection HE2 as <-.
      by rewrite <-app_assoc. }
  pose proof (path_fst a l1 x) as F1. pose proof (path_snd a l1 x) as S1.
  pose proof (path_fst x l2 a) as F2. pose proof (path_snd x l2 a) as S2.
  rewrite HE1, fmap_app in F1, S1. rewrite HE2 in F2, S2. rewrite !fmap_cons in F2, S2.
  apply app_inj_2 in S1 as [S1 _]; [|done]. injection F2 as F2.
  assert (NoDup ((E1.*1 ++ [y]) ++ x :: E2.*1)) as N1.
  { rewrite F2. change ([y]) with ([(y, x)].*1). by rewrite F1. }
  assert (NoDup (E1.*2 ++ x :: z :: E2.*2)) as N2.
  { rewrite S1. change (z :: E2.*2) with ((x, z).2 :: E2.*2). rewrite S2.
    assert (l1 ++ x :: l2 ++ [a] ≡ₚ a :: l1 ++ x :: l2) as -> by solve_Permutation. done. }
  apply linked_app. split; [|apply linked_cons; split; [done|]].
  - eapply linked_keep; [exact HL1|..|exact HN|exact HP].
    + intros Hin. apply NoDup_app in N1 as (N1 & _ & _). apply NoDup_app in N1 as (_ & N1 & _).
      apply (N1 y Hin). by left.
    + intros Hin. apply NoDup_app in N2 as (_ & N2 & _). apply (N2 z Hin). right. by left.
  - eapply linked_keep; [exact HL2|..|exact HN|exact HP].
    + intros Hin. apply NoDup_app in N1 as (_ & N1 & _). apply (N1 y).
      * apply elem_of_app. right. by left.
      * right. done.
    + intros Hin. apply NoDup_app in N2 as (_ & _ & N2). apply NoDup_cons in N2 as [_ N2].
      apply NoDup_cons in N2 as [N2 _]. done.
Qed.

(** Putting [x] in before [a], that is at the end of [a :: l]. *)
Lemma link_last N P N' P' a l x :
  let y := last_of a l in
  NoDup (a :: l) → linked N P (cycle a l) →
  (N y a ∧ P a y) ∧
  ((∀ p q, p ≠ y → N p q → N' p q) → (∀ p q, q ≠ a → P q p → P' q p) →
   N' y x → P' x y → N' x a → P' a x → linked N' P' (cycle a (l ++ [x]))).
Proof.
  intros y Hnd HL. unfold cycle in *. destruct (path_last a l) as [E HE]. fold y in HE.
  rewrite HE in HL. apply linked_app in HL as [HL [Hya Hay]%linked_one].
  split; [done|]. intros HN HP H1 H2 H3 H4.
  rewrite path_app, HE. simpl. rewrite !linked_app, !linked_one.
  split; [split; [|done]|done].
  pose proof (path_fst a l a) as F. pose proof (path_snd a l a) as S.
  rewrite HE, fmap_app in F, S. apply app_inj_2 in S as [S _]; [|done].
  eapply linked_keep; [exact HL|..|exact HN|exact HP].
  - intros Hin. rewrite <-F in Hnd. apply NoDup_app in Hnd as (_ & Hnd & _).
    apply (Hnd y Hin). by left.
  - rewrite S. by apply NoDup_cons in Hnd as [? _].
Qed.

(** Putting [x] in after [a], at the front of [l]. *)
Lemma link_first N P N' P' a l x :
  let z := first_of l a in
  NoDup (a :: l) → linked N P (cycle a l) →
  (N a z ∧ P z a) ∧
  ((∀ p q, p ≠ a → N p q → N' p q) → (∀ p q, q ≠ z → P q p → P' q p) →
   N' a x → P' x a → N' x z → P' z x → linked N' P' (cycle a (x :: l))).
Proof.
  intros z Hnd HL. unfold cycle in *. destruct (path_first l a) as [E HE]. fold z in HE.
  rewrite HE in HL. apply linked_cons in HL as [[Haz Hza] HL].
  split; [done|]. intros HN HP H1 H2 H3 H4.
  simpl. rewrite HE, !linked_cons. split; [done|]. split; [done|].
  pose proof (path_fst a l a) as F. pose proof (path_snd a l a) as S.
  rewrite HE, !fmap_cons in F, S. injection F as F.
  eapply linked_keep; [exact HL|..|exact HN|exact HP].
  - rewrite F. by apply NoDup_cons in Hnd as [? _].
  - intros Hin. assert (NoDup (l ++ [a])) as Hn.
    { by assert (l ++ [a] ≡ₚ a :: l) as -> by solve_Permutation. }
    rewrite <-S in Hn. apply NoDup_cons in Hn as [Hn _]. done.
Qed.
End Linked.
