(* ===== verification/CacheInv.v ===== *)
(** * The queues of the buffer cache

    The invariant of the free ring and of the hash lists, with one buffer [x]
    possibly taken out of them (0: none), and that remove_from_queues and
    insert_into_queues take a buffer out and put it back. *)

From S2P Require Export Buffer FsFacts Rings.

(** ** Links as functions *)

Definition view {T} (g : buffer_head → T) (H : gmap Z buffer_head) (p : Z) : option T := g <$> H !! p.
Definition payload (b : buffer_head) : list Z * Z * Z * Z * Z * Z * Z :=
  (b_data b, b_dev b, b_blocknr b, b_uptodate b, b_dirt b, b_count b, b_lock b).

Lemma view_Some {T} (g : buffer_head → T) H p b : H !! p = Some b → view g H p = Some (g b).
Proof. unfold view. by intros ->. Qed.
Lemma view_inv {T} (g : buffer_head → T) H p v : view g H p = Some v → ∃ b, H !! p = Some b ∧ g b = v.
Proof. unfold view. destruct (H !! p); [|done]. intros [= <-]. eauto. Qed.
Lemma view_same {T} (g : buffer_head → T) H p b f q :
  H !! p = Some b → g (f b) = g b → view g (<[p := f b]> H) q = view g H q.
Proof.
  intros Hb Hg. unfold view. destruct (decide (q = p)) as [->|].
  - rewrite lookup_insert_eq, Hb. simpl. by rewrite Hg.
  - by rewrite lookup_insert_ne.
Qed.
Lemma view_upd {T} (g : buffer_head → T) H p b q :
  view g (<[p := b]> H) q = if decide (q = p) then Some (g b) else view g H q.
Proof.
  unfold view. case_decide; subst; [by rewrite lookup_insert_eq|by rewrite lookup_insert_ne].
Qed.

(** [H'] is [H] with the link [g] of [p] set to [v], the other links and the
    payload unchanged. *)
Inductive link := LNext | LPrev | LNextFree | LPrevFree.
#[export] Instance link_eq_dec : EqDecision link.
Proof. solve_decision. Defined.
Definition get_link (k : link) (b : buffer_head) : Z :=
  match k with
  | LNext => b_next b | LPrev => b_prev b | LNextFree => b_next_free b | LPrevFree => b_prev_free b
  end.
Definition set_link (k : link) (v : Z) (b : buffer_head) : buffer_head :=
  match k with
  | LNext => b <| b_next := v |> | LPrev => b <| b_prev := v |>
  | LNextFree => b <| b_next_free := v |> | LPrevFree => b <| b_prev_free := v |>
  end.
Definition at_link (k : link) (H : gmap Z buffer_head) (p : Z) : option Z := view (get_link k) H p.

Definition link_set (k : link) (p v : Z) (H H' : gmap Z buffer_head) : Prop :=
  (∀ q, view payload H' q = view payload H q) ∧
  (∀ k' q, at_link k' H' q = if decide (k' = k ∧ q = p ∧ p ≠ 0) then Some v else at_link k' H q).

Lemma link_set_insert k p v b H : p ≠ 0 → H !! p = Some b →
  link_set k p v H (<[p := set_link k v b]> H).
Proof.
  intros Hp Hb. split.
  - intros q. apply view_same; [done|]. by destruct k.
  - intros k' q. unfold at_link. rewrite view_upd. destruct (decide (q = p)) as [->|].
    + destruct (decide (k' = k ∧ p = p ∧ p ≠ 0)) as [[-> _]|Hne].
      * by destruct k.
      * rewrite (view_Some _ _ _ _ Hb). destruct k, k'; done || by destruct Hne.
    + rewrite decide_False by tauto. done.
Qed.
Lemma link_set_NULL k v H : link_set k 0 v H H.
Proof. split; [done|]. intros k' q. by rewrite decide_False by tauto. Qed.

(** Two heads with the same payload and links are the same. *)
Lemma head_ext H H' q :
  view payload H' q = view payload H q → (∀ k, at_link k H' q = at_link k H q) → H' !! q = H !! q.
Proof.
  intros Hp Hk. pose proof (Hk LNext) as K1. pose proof (Hk LPrev) as K2.
  pose proof (Hk LNextFree) as K3. pose proof (Hk LPrevFree) as K4.
  unfold at_link, view in *. destruct (H' !! q) as [[]|], (H !! q) as [[]|]; try done.
  unfold payload in Hp. simpl in *. congruence.
Qed.
Lemma link_set_other k p v H H' q : link_set k p v H H' → q ≠ p → H' !! q = H !! q.
Proof.
  intros [Hp Hk] Hq. apply head_ext; [done|]. intros k'. by rewrite Hk, decide_False by tauto.
Qed.

(** [set_link] is how the code assigns to a link. *)
Lemma wp_set_link k p v (Q : () → fs → Prop) s :
  p ≠ 0 → is_Some (heads s !! p) →
  (∀ H', link_set k p v (heads s) H' → Q tt (s <| heads := H' |>)) →
  wp (set_bh p (set_link k v)) Q s.
Proof.
  intros Hp [b Hb] HQ. apply (wp_set_bh p b); [done|]. by apply HQ, link_set_insert.
Qed.
Lemma wp_set_link_if k p v (Q : () → fs → Prop) s :
  (p ≠ 0 → is_Some (heads s !! p)) →
  (∀ H', link_set k p v (heads s) H' → Q tt (s <| heads := H' |>)) →
  wp (when (truth p) (set_bh p (set_link k v))) Q s.
Proof.
  intros Hp HQ. apply wp_when; intros Ht.
  - apply truth_true in Ht. apply wp_set_link; auto.
  - apply truth_false in Ht as ->. specialize (HQ (heads s) (link_set_NULL k v _)).
    by destruct s.
Qed.
Lemma link_set_dom k p v H H' q : link_set k p v H H' → is_Some (H' !! q) ↔ is_Some (H !! q).
Proof.
  intros [Hpay _]. specialize (Hpay q). unfold view in Hpay.
  destruct (H !! q), (H' !! q); try discriminate Hpay; split; by intros [? ?].
Qed.

(** ** The invariant *)

Definition bucket (b : buffer_head) : Z := _hashfn (b_dev b) (b_blocknr b).
Definition free_next H p q := at_link LNextFree H p = Some q.
Definition free_prev H q p := at_link LPrevFree H q = Some p.
(** A hash list is a ring through NULL; [t] is the entry of the hash table. *)
Definition hash_next (t : Z) H p q := if decide (p = 0) then t = q else at_link LNext H p = Some q.
Definition hash_prev H q p := q = 0 ∨ at_link LPrev H q = Some p.

Definition in_use (x : Z) (H : gmap Z buffer_head) (h p : Z) : Prop :=
  ∃ b, H !! p = Some b ∧ p ≠ x ∧ b_dev b ≠ 0 ∧ bucket b = h.

Definition free_ring (x : Z) (s : fs) : Prop := ∃ l,
  NoDup (free_list s :: l) ∧
  (∀ p, p ∈ free_list s :: l ↔ 1 ≤ p ≤ Z.of_nat (nr_buffers s) ∧ p ≠ x) ∧
  linked (free_next (heads s)) (free_prev (heads s)) (cycle (free_list s) l).
Definition hash_ring (x : Z) (s : fs) (h : Z) : Prop := ∃ l t,
  hash_table s !! Z.to_nat h = Some t ∧ NoDup (0 :: l) ∧ (∀ p, p ∈ l ↔ in_use x (heads s) h p) ∧
  linked (hash_next t (heads s)) (hash_prev (heads s)) (cycle 0 l).

Record cache_inv (x : Z) (s : fs) : Prop := {
  ci_n : (2 ≤ nr_buffers s)%nat;
  ci_dom : ∀ p, is_Some (heads s !! p) ↔ 1 ≤ p ≤ Z.of_nat (nr_buffers s);
  ci_free : free_ring x s;
  ci_tab : length (hash_table s) = 307%nat;
  ci_hash : ∀ h, 0 ≤ h < NR_HASH → hash_ring x s h;
  ci_unhashed : ∀ p b, heads s !! p = Some b → p ≠ x → b_dev b = 0 → b_next b = 0 ∧ b_prev b = 0;
  ci_key : ∀ p q bp bq, heads s !! p = Some bp → heads s !! q = Some bq → p ≠ x → q ≠ x →
    b_dev bp ≠ 0 → b_dev bp = b_dev bq → b_blocknr bp = b_blocknr bq → p = q
}.

Lemma bucket_range b : 0 ≤ bucket b < NR_HASH.
Proof. unfold bucket, _hashfn, NR_HASH. apply Z.mod_pos_bound. lia. Qed.

(** The payload decides what is in use. *)
Lemma payload_in_use H H' x h p :
  (∀ q, view payload H' q = view payload H q) → in_use x H' h p ↔ in_use x H h p.
Proof.
  intros Hp. specialize (Hp p). unfold view, in_use in *.
  destruct (H !! p) as [b|], (H' !! p) as [b'|]; try discriminate Hp; [|naive_solver].
  apply (inj Some) in Hp as Hq. unfold payload in Hq.
  assert (b_dev b' = b_dev b) as Hd by congruence.
  assert (b_blocknr b' = b_blocknr b) as Hk by congruence.
  split; intros (c & [= <-] & Hx & Hdev & Hb); eexists; (split; [reflexivity|]);
    unfold bucket in *; split_and!; congruence.
Qed.

(** ** Running over the lists *)

Lemma all_bounded (l : list Z) n : NoDup l → (∀ p, p ∈ l → 1 ≤ p ≤ Z.of_nat n) → (length l ≤ n)%nat.
Proof.
  intros Hnd Hb. transitivity (length (map Z.succ (upto n))).
  - apply submseteq_length, NoDup_submseteq; [done|]. intros p Hp.
    apply list_elem_of_fmap. exists (p - 1). split; [lia|]. apply elem_of_upto.
    specialize (Hb p Hp). lia.
  - unfold upto. rewrite length_fmap, length_seqZ. lia.
Qed.

Definition has_key (s : fs) (dev block p : Z) : Prop :=
  ∃ b, heads s !! p = Some b ∧ b_dev b = dev ∧ b_blocknr b = block.

Lemma find_from_run s t dev block n a l :
  (length l ≤ n)%nat → 0 ∉ l → (∀ p, p ∈ l → is_Some (heads s !! p)) →
  linked (hash_next t (heads s)) (hash_prev (heads s)) (path a l 0) →
  ∃ r, find_from n (first_of l 0) dev block s = Ret r s ∧
    (r = 0 → ∀ p, p ∈ l → ¬ has_key s dev block p) ∧ (r ≠ 0 → r ∈ l ∧ has_key s dev block r).
Proof.
  revert a n. induction l as [|c l IH]; intros a n Hn H0 Hdom HL.
  { exists 0. split; [by destruct n|]. split; [intros _ p []%elem_of_nil|done]. }
  destruct n as [|n]; [simpl in Hn; lia|]. simpl in HL. apply linked_cons in HL as [_ HL].
  apply not_elem_of_cons in H0 as [Hc0 H0].
  destruct (Hdom c) as [b Hb]; [by left|].
  assert (b_next b = first_of l 0) as Hnext.
  { destruct (path_first l 0) as [E HE]. rewrite HE in HL.
    apply linked_cons in HL as [[HN _] _]. unfold hash_next in HN. rewrite decide_False in HN by done.
    unfold at_link in HN. rewrite (view_Some _ _ _ _ Hb) in HN. by injection HN. }
  change (first_of (c :: l) 0) with c. simpl find_from.
  destruct (Z.eqb_spec c NULL) as [->|_]; [done|].
  assert (bh c s = Ret b s) as Hbh by (unfold bh, gets, mbind, M_bind; by rewrite Hb).
  destruct ((b_dev b =? dev) && (b_blocknr b =? block)) eqn:Hk.
  - exists c. split; [mstep Hbh; by rewrite Hk|]. split; [done|]. intros _. split; [by left|].
    exists b. apply andb_prop in Hk as [?%Z.eqb_eq ?%Z.eqb_eq]. done.
  - destruct (IH c n ltac:(simpl in Hn; lia) H0 ltac:(intros; apply Hdom; by right) HL) as (r & Hr & H1 & H2).
    exists r. split; [mstep Hbh; rewrite Hk, Hnext; exact Hr|]. split.
    + intros Hr0 p [->|Hp]%elem_of_cons; [|by apply H1]. intros (b' & Hb' & Hd & Hbl).
      rewrite Hb in Hb'. injection Hb' as <-. rewrite Hd, Hbl, !Z.eqb_refl in Hk. done.
    + intros Hr0. destruct (H2 Hr0). split; [by right|done].
Qed.

Lemma find_buffer_run x s dev block : cache_inv x s → dev ≠ 0 →
  ∃ r, find_buffer dev block s = Ret r s ∧
    (r = 0 → ∀ p, p ≠ x → ¬ has_key s dev block p) ∧
    (r ≠ 0 → r ≠ x ∧ has_key s dev block r).
Proof.
  intros HI Hdev. set (h := _hashfn dev block).
  assert (0 ≤ h < NR_HASH) as Hh by (unfold h, _hashfn, NR_HASH; apply Z.mod_pos_bound; lia).
  destruct (ci_hash x s HI h Hh) as (l & t & Ht & Hnd & Hin & HL).
  apply NoDup_cons in Hnd as [H0 Hnd].
  assert (∀ p, p ∈ l → is_Some (heads s !! p)) as Hdom.
  { intros p Hp. apply Hin in Hp as (b & Hb & _). eauto. }
  destruct (find_from_run s t dev block (nr_buffers s) 0 l) as (r & Hr & H1 & H2); try done.
  { apply all_bounded; [done|]. intros p Hp. by apply (ci_dom x s HI), Hdom. }
  exists r. split.
  - unfold find_buffer. assert (hash dev block s = Ret t s) as Hhash.
    { unfold hash, gets, mbind, M_bind. by apply index_Some; [lia|]. }
    mstep Hhash. unfold gets at 1. unfold mbind, M_bind.
    destruct (path_first l 0) as [E HE]. unfold cycle in HL. rewrite HE in HL.
    apply linked_cons in HL as [[HN _] _]. unfold hash_next in HN. rewrite decide_True in HN by done.
    by rewrite HN.
  - split.
    + intros Hr0 p Hpx Hkey. pose proof Hkey as (b & Hb & Hd & Hbl).
      apply (H1 Hr0 p); [|done]. apply Hin. exists b. split_and!; try done; [congruence|].
      unfold bucket, h. by rewrite Hd, Hbl.
    + intros Hr0. destruct (H2 Hr0) as [Hrl Hk]. split; [|done]. apply Hin in Hrl as (b & _ & ? & _). done.
Qed.

Lemma bh_Ret p b s : heads s !! p = Some b → bh p s = Ret b s.
Proof. intros Hb. unfold bh, gets, mbind, M_bind. by rewrite Hb. Qed.
Lemma wait_on_buffer_Ret p b s : heads s !! p = Some b → b_lock b = 0 → wait_on_buffer p s = Ret tt s.
Proof. intros Hb Hl. unfold wait_on_buffer. mstep (bh_Ret p b s Hb). by rewrite Hl. Qed.

Lemma find_free_step n a b s : heads s !! a = Some b → b_lock b = 0 →
  find_free (S n) a s =
  if b_count b =? 0 then Ret a s
  else if b_next_free b =? free_list s then Ret NULL s else find_free n (b_next_free b) s.
Proof.
  intros Hb Hl. pose proof (bh_Ret a b s Hb) as Hbh.
  pose proof (wait_on_buffer_Ret a b s Hb Hl) as Hw.
  cbn [find_free]. mstep Hbh. destruct (b_count b =? 0) eqn:Hc.
  - erewrite bind_ret; [|mstep Hw; mstep Hbh; rewrite Hc; reflexivity]. done.
  - erewrite bind_ret; [|reflexivity]. cbv beta iota.
    erewrite bind_ret; [|reflexivity]. mstep Hbh. by destruct (b_next_free b =? free_list s).
Qed.

Lemma find_free_run s n a l :
  (length l < n)%nat → free_list s ∉ l →
  (∀ p, p ∈ a :: l → ∃ b, heads s !! p = Some b ∧ b_lock b = 0 ∧ p ≠ 0) →
  linked (free_next (heads s)) (free_prev (heads s)) (path a l (free_list s)) →
  ∃ r, find_free n a s = Ret r s ∧
    (r = 0 → ∀ p, p ∈ a :: l → ∃ b, heads s !! p = Some b ∧ b_count b ≠ 0) ∧
    (r ≠ 0 → r ∈ a :: l ∧ ∃ b, heads s !! r = Some b ∧ b_count b = 0).
Proof.
  revert a n. induction l as [|c l IH]; intros a n Hn HF Hdom HL;
    (destruct n as [|n]; [lia|]); destruct (Hdom a) as (b & Hb & Hlock & Ha0); try (by left);
    rewrite (find_free_step n a b s Hb Hlock); destruct (Z.eqb_spec (b_count b) 0) as [Hc|Hc];
    try (exists a; split; [done|]; split; [done|]; intros _; split; [by left|by eauto]);
    simpl in HL.
  - apply linked_one in HL as [HN _]. unfold free_next, at_link in HN.
    rewrite (view_Some _ _ _ _ Hb) in HN. injection HN as HN. simpl in HN.
    rewrite HN, Z.eqb_refl. exists 0. split; [done|]. split; [|done].
    intros _ p [->|[]%elem_of_nil]%elem_of_cons. eauto.
  - apply linked_cons in HL as [[HN _] HL]. unfold free_next, at_link in HN.
    rewrite (view_Some _ _ _ _ Hb) in HN. injection HN as HN. simpl in HN. rewrite HN.
    apply not_elem_of_cons in HF as [HFc HF].
    destruct (Z.eqb_spec c (free_list s)); [by destruct HFc|].
    destruct (IH c n) as (r & Hr & H1 & H2); try done; [simpl in Hn; lia|by intros; apply Hdom; right|].
    exists r. split; [done|]. split.
    + intros Hr0 p [->|Hp]%elem_of_cons; [eauto|by apply H1].
    + intros Hr0. destruct (H2 Hr0). split; [by right|done].
Qed.

(** ** Neighbours *)

(** The neighbours of [x] in the free ring, and the ring without [x], which
    starts where the code moves free_list. *)
Lemma free_neighbours s x b : cache_inv 0 s → heads s !! x = Some b →
  let y := b_prev_free b in let z := b_next_free b in
  y ≠ x ∧ z ≠ x ∧ is_Some (heads s !! y) ∧ is_Some (heads s !! z) ∧
  (∀ N' P' : Z → Z → Prop,
    (∀ p q, p ≠ y → free_next (heads s) p q → N' p q) →
    (∀ p q, q ≠ z → free_prev (heads s) q p → P' q p) → N' y z → P' z y →
    ∃ l, let f := if free_list s =? x then z else free_list s in
      NoDup (f :: l) ∧ (∀ p, p ∈ f :: l ↔ 1 ≤ p ≤ Z.of_nat (nr_buffers s) ∧ p ≠ x) ∧
      linked N' P' (cycle f l)).
Proof.
  intros HI Hb. cbv zeta. destruct (ci_free 0 s HI) as (l & Hnd & Hin & HL).
  assert (x ∈ free_list s :: l) as Hx.
  { apply Hin. assert (1 ≤ x ≤ Z.of_nat (nr_buffers s)) by (apply (ci_dom 0 s HI); eauto). lia. }
  (* a presentation of the ring in which [x] is not the first *)
  assert (∃ a l1 l2, free_list s :: l ≡ₚ a :: l1 ++ x :: l2 ∧
    linked (free_next (heads s)) (free_prev (heads s)) (cycle a (l1 ++ x :: l2)) ∧
    (if free_list s =? x then first_of l2 a = a ∧ l2 = [] else a = free_list s)) as (a & l1 & l2 & Hperm & HL' & Hf).
  { destruct (decide (free_list s = x)) as [Hfx|Hfx].
    - destruct l as [|a l].
      { exfalso. pose proof (ci_n 0 s HI). assert (2 = 1); [|done].
        assert (∀ p, 1 ≤ p ≤ 2 → p ∈ [free_list s]) as H2 by (intros p Hp; apply Hin; lia).
        pose proof (H2 1 ltac:(lia)) as E1%list_elem_of_singleton.
        pose proof (H2 2 ltac:(lia)) as E2%list_elem_of_singleton. congruence. }
      exists a, l, []. rewrite Hfx, Z.eqb_refl. split_and!; try done.
      + solve_Permutation.
      + rewrite Hfx in HL. by apply cycle_rotate.
    - apply elem_of_cons in Hx as [->|Hx]; [done|]. apply list_elem_of_split in Hx as (l1 & l2 & ->).
      exists (free_list s), l1, l2. destruct (Z.eqb_spec (free_list s) x); done. }
  assert (NoDup (a :: l1 ++ x :: l2)) as Hnd' by (by rewrite <-Hperm).
  assert (∀ p, p ∈ a :: l1 ++ x :: l2 ↔ 1 ≤ p ≤ Z.of_nat (nr_buffers s) ∧ p ≠ 0) as Hin'.
  { intros p. rewrite <-Hperm. apply Hin. }
  pose proof (λ N' P', unlink _ _ N' P' a l1 x l2 Hnd' HL') as Hun.
  destruct (Hun (λ _ _, True) (λ _ _, True)) as ((Hyx & Hxy & Hxz & Hzx) & _).
  unfold free_next, free_prev, at_link in Hxy, Hxz.
  rewrite (view_Some _ _ _ _ Hb) in Hxy. rewrite (view_Some _ _ _ _ Hb) in Hxz. simpl in Hxy, Hxz.
  injection Hxy as Hxy. injection Hxz as Hxz. rewrite Hxy, Hxz.
  assert (last_of a l1 ∈ a :: l1) as Hy by apply last_of_elem.
  assert (first_of l2 a ∈ l2 ++ [a]) as Hz by apply first_of_elem.
  apply NoDup_cons in Hnd' as [Ha Hnd']. apply NoDup_app in Hnd' as (_ & N12 & N2).
  apply NoDup_cons in N2 as [N2 _].
  assert (x ∉ a :: l1) as Hx1.
  { intros [->|Hx1]%elem_of_cons; [apply Ha; apply elem_of_app; right; by left|].
    apply (N12 x Hx1). by left. }
  assert (x ∉ l2 ++ [a]) as Hx2.
  { intros [Hx2|Hx2]%elem_of_app; [done|]. apply list_elem_of_singleton in Hx2. subst. apply Hx1. by left. }
  assert (∀ p, p ∈ a :: l1 ++ l2 → is_Some (heads s !! p)) as Hdom.
  { intros p Hp. apply (ci_dom 0 s HI). apply Hin'. apply elem_of_cons in Hp as [->|Hp]; [by left|].
    right. apply elem_of_app in Hp as [?|?]; apply elem_of_app; [by left|right; by right]. }
  split_and!; [congruence|congruence|..].
  - apply Hdom. apply elem_of_cons in Hy as [->|?]; [by left|]. right. apply elem_of_app. by left.
  - apply Hdom. apply elem_of_app in Hz as [?|?%list_elem_of_singleton]; [|subst; rewrite H; by left].
    right. apply elem_of_app. by right.
  - intros N' P' HN HP HN' HP'. destruct (Hun N' P') as [_ Hlink].
    exists (l1 ++ l2). cbv zeta.
    assert ((if free_list s =? x then first_of l2 a else free_list s) = a) as ->.
    { destruct (free_list s =? x); [by destruct Hf|done]. }
    split_and!; [..|by apply Hlink].
    + assert (NoDup (x :: a :: l1 ++ l2)) as Hn2; [|by apply NoDup_cons in Hn2 as [_ ?]].
      assert (x :: a :: l1 ++ l2 ≡ₚ free_list s :: l) as -> by (rewrite Hperm; solve_Permutation). done.
    + intros p. rewrite (elem_of_Permutation_proper _ (a :: l1 ++ l2)) by done. 
      split.
      * intros Hp. split; [by apply (ci_dom 0 s HI), Hdom|]. intros ->.
        apply elem_of_cons in Hp as [->|[?|?]%elem_of_app]; [apply Hx1; by left|apply Hx1; by right|done].
      * intros [Hp Hpx]. assert (p ∈ a :: l1 ++ x :: l2) as Hp' by (apply Hin'; lia).
        apply elem_of_cons in Hp' as [->|[?|[->|?]%elem_of_cons]%elem_of_app]; [by left|..|done|];
          right; apply elem_of_app; auto.
Qed.
