(* ===== verification/CacheOps.v ===== *)
(** * remove_from_queues and insert_into_queues keep the queues *)

From S2P Require Export CacheInv.

(** A function that changes the queues only. *)
Definition relinked (s s' : fs) : Prop := ∃ H' T' F' w,
  s' = s <| heads := H' |> <| hash_table := T' |> <| free_list := F' |> <| null_b_prev := w |> ∧
  ∀ q, view payload H' q = view payload (heads s) q.

(** ** Neighbours in a hash list *)

Lemma hash_first t H l : linked (hash_next t H) (hash_prev H) (cycle 0 l) → t = first_of l 0.
Proof.
  intros HL. destruct (path_first l 0) as [E HE]. unfold cycle in HL. rewrite HE in HL.
  apply linked_cons in HL as [[HN _] _]. unfold hash_next in HN. by rewrite decide_True in HN.
Qed.
Lemma hash_entry x s h t : cache_inv x s → 0 ≤ h < NR_HASH → hash_table s !! Z.to_nat h = Some t →
  t = 0 ∨ in_use x (heads s) h t.
Proof.
  intros HI Hh Ht. destruct (ci_hash x s HI h Hh) as (l & t' & Ht' & Hnd & Hin & HL).
  rewrite Ht in Ht'. injection Ht' as <-. rewrite (hash_first _ _ _ HL).
  destruct l as [|c l]; [by left|]. right. apply Hin. by left.
Qed.

Lemma hash_neighbours s x b : cache_inv 0 s → heads s !! x = Some b → b_dev b ≠ 0 →
  let u := b_prev b in let v := b_next b in
  ∃ t, hash_table s !! Z.to_nat (bucket b) = Some t ∧ (t = x ↔ u = 0) ∧ u ≠ x ∧ v ≠ x ∧
  (u = 0 ∨ in_use 0 (heads s) (bucket b) u) ∧ (v = 0 ∨ in_use 0 (heads s) (bucket b) v) ∧
  (∀ N' P' : Z → Z → Prop,
    (∀ p q, p ≠ u → hash_next t (heads s) p q → N' p q) →
    (∀ p q, q ≠ v → hash_prev (heads s) q p → P' q p) → N' u v → P' v u →
    ∃ l, NoDup (0 :: l) ∧ (∀ p, p ∈ l ↔ in_use x (heads s) (bucket b) p) ∧
         linked N' P' (cycle 0 l)).
Proof.
  intros HI Hb Hdev. cbv zeta.
  destruct (ci_hash 0 s HI (bucket b) (bucket_range b)) as (l & t & Ht & Hnd & Hin & HL).
  assert (x ∈ l) as Hx.
  { apply Hin. exists b. split_and!; try done.
    assert (1 ≤ x ≤ Z.of_nat (nr_buffers s)) by (apply (ci_dom 0 s HI); eauto). lia. }
  apply list_elem_of_split in Hx as (l1 & l2 & ->).
  pose proof (λ N' P', unlink _ _ N' P' 0 l1 x l2 Hnd HL) as Hun.
  destruct (Hun (λ _ _, True) (λ _ _, True)) as ((Hux & Hxu & Hxv & Hvx) & _).
  pose proof Hnd as [H0 Hnd']%NoDup_cons. apply NoDup_app in Hnd' as (N1 & N12 & N2).
  apply NoDup_cons in N2 as [N2 _].
  assert (x ≠ 0) as Hx0 by (intros ->; apply H0, elem_of_app; right; by left).
  unfold hash_prev, at_link in Hxu. rewrite (view_Some _ _ _ _ Hb) in Hxu.
  destruct Hxu as [?|Hxu]; [done|]. injection Hxu as Hxu. simpl in Hxu.
  unfold hash_next in Hxv. rewrite decide_False in Hxv by done. unfold at_link in Hxv.
  rewrite (view_Some _ _ _ _ Hb) in Hxv. injection Hxv as Hxv. simpl in Hxv.
  rewrite Hxu, Hxv. exists t. split; [done|].
  assert (last_of 0 l1 ∈ 0 :: l1) as Hu by apply last_of_elem.
  assert (first_of l2 0 ∈ l2 ++ [0]) as Hv by apply first_of_elem.
  assert (x ∉ 0 :: l1) as Hx1.
  { intros [->|Hx1]%elem_of_cons; [done|]. apply (N12 x Hx1). by left. }
  split.
  { rewrite (hash_first _ _ _ HL). destruct l1 as [|c l1]; [done|]. split.
    - intros Hc. exfalso. apply Hx1. right. change (c = x) in Hc. subst c. by left.
    - intros Hl. exfalso. apply H0. apply elem_of_app. left.
      assert (last_of c l1 ∈ c :: l1) as He by apply last_of_elem.
      by rewrite <-(last_of_cons 0), Hl in He. }
  split_and!.
  - congruence.
  - intros Hvx'. rewrite Hvx' in Hv. apply elem_of_app in Hv as [?|?%list_elem_of_singleton]; done.
  - apply elem_of_cons in Hu as [->|Hu]; [by left|]. right. apply Hin, elem_of_app. by left.
  - apply elem_of_app in Hv as [Hv|Hv%list_elem_of_singleton]; [|by left].
    right. apply Hin, elem_of_app. right. by right.
  - intros N' P' HN HP HN' HP'. destruct (Hun N' P') as [_ Hlink].
    exists (l1 ++ l2). split_and!; [..|by apply Hlink].
    + assert (NoDup (x :: 0 :: l1 ++ l2)) as Hn2; [|by apply NoDup_cons in Hn2 as [_ ?]].
      by assert (x :: 0 :: l1 ++ l2 ≡ₚ 0 :: l1 ++ x :: l2) as -> by solve_Permutation.
    + intros p. transitivity (p ∈ l1 ++ x :: l2 ∧ p ≠ x).
      * rewrite !elem_of_app, elem_of_cons. split; [|tauto]. intros Hp. split; [tauto|].
        intros ->. destruct Hp; [apply Hx1; by right|done].
      * rewrite Hin. split.
        -- intros [(c & Hc & _ & ? & ?) ?]. by exists c.
        -- intros (c & Hc & ? & ? & ?). split; [|done]. exists c. split_and!; try done.
           intros ->. destruct (ci_dom 0 s HI 0) as [Hd _]. destruct Hd; [eauto|lia].
Qed.

(** ** remove_from_queues *)

(** The links after [x] has been taken out. *)
Definition links_without (b : buffer_head) (H H' : gmap Z buffer_head) : Prop :=
  (∀ q, view payload H' q = view payload H q) ∧
  ∀ k q, at_link k H' q =
    match k with
    | LPrev => if decide (q = b_next b ∧ b_next b ≠ 0) then Some (b_prev b) else at_link k H q
    | LNext => if decide (q = b_prev b ∧ b_prev b ≠ 0) then Some (b_next b) else at_link k H q
    | LNextFree => if decide (q = b_prev_free b) then Some (b_next_free b) else at_link k H q
    | LPrevFree => if decide (q = b_next_free b) then Some (b_prev_free b) else at_link k H q
    end.

Lemma wp_remove_run s x b (Q : () → fs → Prop) : cache_inv 0 s → heads s !! x = Some b →
  (∀ H' t, links_without b (heads s) H' → hash_table s !! Z.to_nat (bucket b) = Some t →
     Q tt (s <| heads := H' |>
             <| hash_table := if t =? x then <[Z.to_nat (bucket b) := b_next b]> (hash_table s)
                              else hash_table s |>
             <| free_list := if free_list s =? x then b_next_free b else free_list s |>)) →
  wp (remove_from_queues x) Q s.
Proof.
  intros HI Hb HQ.
  assert (1 ≤ x ≤ Z.of_nat (nr_buffers s)) as Hx by (apply (ci_dom 0 s HI); eauto).
  assert (∃ t, hash_table s !! Z.to_nat (bucket b) = Some t) as [t Ht].
  { apply lookup_lt_is_Some_2. rewrite (ci_tab 0 s HI). pose proof (bucket_range b).
    unfold NR_HASH in *. lia. }
  destruct (free_neighbours s x b HI Hb) as (Hyx & Hzx & Hy & Hz & _).
  set (u := b_prev b) in *. set (v := b_next b) in *.
  set (y := b_prev_free b) in *. set (z := b_next_free b) in *.
  assert ((u ≠ 0 → u ≠ x ∧ is_Some (heads s !! u)) ∧ (v ≠ 0 → v ≠ x ∧ is_Some (heads s !! v))) as [Hu Hv].
  { destruct (decide (b_dev b = 0)) as [Hd|Hd].
    - destruct (ci_unhashed 0 s HI x b Hb ltac:(lia) Hd). done.
    - destruct (hash_neighbours s x b HI Hb Hd) as (t' & _ & _ & Hux & Hvx & Hu & Hv & _).
      fold u in Hux, Hu. fold v in Hvx, Hv.
      split; intros Hne; (split; [done|]); [destruct Hu as [?|(c & ? & _)]|destruct Hv as [?|(c & ? & _)]];
        by eauto. }
  assert (∀ p, is_Some (heads s !! p) → p ≠ 0) as Hnz.
  { intros p Hp. apply (ci_dom 0 s HI) in Hp. lia. }
  unfold remove_from_queues. apply wp_bind, (wp_bh x b); [done|].
  apply wp_bind, (wp_set_link_if LPrev v u); [intros; by apply Hv|]. intros H1 L1.
  assert (H1 !! x = Some b) as Hb1.
  { rewrite <-Hb. destruct (decide (v = 0)) as [Hv0|Hv0].
    - apply head_ext; [apply L1|]. intros k. rewrite (proj2 L1), decide_False; tauto.
    - apply (link_set_other _ _ _ _ _ _ L1). intros ->. by apply Hv. }
  apply wp_bind, (wp_bh x b); [done|].
  apply wp_bind, (wp_set_link_if LNext u v).
  { intros. simpl. rewrite (link_set_dom _ _ _ _ _ _ L1). by apply Hu. }
  simpl. intros H2 L2.
  assert (H2 !! x = Some b) as Hb2.
  { rewrite <-Hb1. destruct (decide (u = 0)) as [Hu0|Hu0].
    - apply head_ext; [apply L2|]. intros k. rewrite (proj2 L2), decide_False; tauto.
    - apply (link_set_other _ _ _ _ _ _ L2). intros ->. by apply Hu. }
  apply wp_bind, (wp_bh x b); [done|].
  apply wp_bind. unfold hash. apply wp_bind, wp_gets. simpl.
  eapply wp_of_ret; [apply index_Some; [apply bucket_range|exact Ht]|].
  apply wp_bind.
  set (s2 := s <| heads := H2 |>).
  set (T' := if t =? x then <[Z.to_nat (bucket b) := v]> (hash_table s) else hash_table s).
  assert (wp (when (t =? x) (set_hash (b_dev b) (b_blocknr b) (b_next b)))
    (λ _ s', s' = s2 <| hash_table := T' |>) s2) as Hset.
  { apply wp_when; intros E.
    - eapply wp_of_ret; [apply store_in|].
      + pose proof (bucket_range b). unfold bucket in *. simpl. rewrite (ci_tab 0 s HI).
        unfold NR_HASH in *. lia.
      + unfold T'. rewrite E. done.
    - unfold T'. rewrite E. by destruct s. }
  eapply wp_mono; [exact Hset|]. intros [] s3 ->. clear Hset.
  destruct (Z.eqb_spec y 0) as [Hy0|Hy0]; [by apply Hnz in Hy|].
  destruct (Z.eqb_spec z 0) as [Hz0|Hz0]; [by apply Hnz in Hz|].
  assert (truth (b_prev_free b) = true) as -> by (by apply truth_true).
  assert (truth (b_next_free b) = true) as -> by (by apply truth_true). simpl negb. cbn [orb].
  apply wp_bind, (wp_set_link LNextFree y z); [done|..].
  { simpl. by rewrite (link_set_dom _ _ _ _ _ _ L2), (link_set_dom _ _ _ _ _ _ L1). }
  simpl. intros H3 L3.
  assert (H3 !! x = Some b) as Hb3.
  { rewrite <-Hb2. apply (link_set_other _ _ _ _ _ _ L3). congruence. }
  apply wp_bind, (wp_bh x b); [done|].
  apply wp_bind, (wp_set_link LPrevFree z y); [done|..].
  { simpl. by rewrite (link_set_dom _ _ _ _ _ _ L3), (link_set_dom _ _ _ _ _ _ L2),
      (link_set_dom _ _ _ _ _ _ L1). }
  simpl. intros H4 L4.
  assert (H4 !! x = Some b) as Hb4.
  { rewrite <-Hb3. apply (link_set_other _ _ _ _ _ _ L4). congruence. }
  apply wp_bind, wp_gets. simpl. apply wp_bind, (wp_bh x b); [done|].
  assert (links_without b (heads s) H4) as HW.
  { split.
    - intros q. by rewrite (proj1 L4), (proj1 L3), (proj1 L2), (proj1 L1).
    - intros k q. rewrite (proj2 L4), (proj2 L3), (proj2 L2), (proj2 L1).
      fold u v y z. destruct k; repeat case_decide; try tauto; try (destruct_and?; discriminate). }
  specialize (HQ H4 t HW Ht). fold v T' z in HQ.
  apply wp_when; intros E; [apply wp_modify|]; rewrite E in HQ; destruct s; exact HQ.
Qed.

Lemma payload_back H H' p b' : (∀ q, view payload H' q = view payload H q) → H' !! p = Some b' →
  ∃ b, H !! p = Some b ∧ payload b' = payload b.
Proof.
  intros Hp Hb. specialize (Hp p). rewrite (view_Some _ _ _ _ Hb) in Hp.
  symmetry in Hp. destruct (view_inv _ _ _ _ Hp) as (b & Hb' & Heq). eauto.
Qed.
Lemma payload_fields b b' : payload b' = payload b →
  b_data b' = b_data b ∧ b_dev b' = b_dev b ∧ b_blocknr b' = b_blocknr b ∧
  b_uptodate b' = b_uptodate b ∧ b_dirt b' = b_dirt b ∧ b_count b' = b_count b ∧ b_lock b' = b_lock b.
Proof. unfold payload. intros H. split_and!; congruence. Qed.
Lemma payload_dom H H' p : (∀ q, view payload H' q = view payload H q) →
  is_Some (H' !! p) ↔ is_Some (H !! p).
Proof.
  intros Hp. specialize (Hp p). unfold view in Hp.
  destruct (H !! p), (H' !! p); try discriminate Hp; split; by intros [? ?].
Qed.
Lemma linked_mono (N P N' P' : Z → Z → Prop) a l :
  (∀ p q, p ∈ a :: l → N p q → N' p q) → (∀ p q, q ∈ l ++ [a] → P q p → P' q p) →
  linked N P (cycle a l) → linked N' P' (cycle a l).
Proof.
  intros HN HP HL p q Hpq. destruct (HL p q Hpq) as [H1 H2]. split.
  - apply HN; [|done]. rewrite <-(path_fst a l a). apply list_elem_of_fmap. by exists (p, q).
  - apply HP; [|done]. rewrite <-(path_snd a l a). apply list_elem_of_fmap. by exists (p, q).
Qed.

(** The parts of the invariant that the payload decides. *)
Lemma inv_payload x s H' : cache_inv x s → (∀ q, view payload H' q = view payload (heads s) q) →
  (∀ p, is_Some (H' !! p) ↔ 1 ≤ p ≤ Z.of_nat (nr_buffers s)) ∧
  (∀ p q bp bq, H' !! p = Some bp → H' !! q = Some bq → p ≠ x → q ≠ x →
    b_dev bp ≠ 0 → b_dev bp = b_dev bq → b_blocknr bp = b_blocknr bq → p = q).
Proof.
  intros HI Hp. split.
  - intros p. rewrite (payload_dom _ _ _ Hp). apply (ci_dom x s HI).
  - intros p q bp bq Hbp Hbq.
    destruct (payload_back _ _ _ _ Hp Hbp) as (cp & Hcp & (_ & Ed & Eb & _)%payload_fields).
    destruct (payload_back _ _ _ _ Hp Hbq) as (cq & Hcq & (_ & Fd & Fb & _)%payload_fields).
    rewrite Ed, Eb, Fd, Fb. by apply (ci_key x s HI).
Qed.

Section Removed.
Context (s : fs) (x : Z) (b : buffer_head) (H' : gmap Z buffer_head) (t : Z).
Context (HI : cache_inv 0 s) (Hb : heads s !! x = Some b).
Context (HW : links_without b (heads s) H') (Ht : hash_table s !! Z.to_nat (bucket b) = Some t).
Let T' : list Z := if t =? x then <[Z.to_nat (bucket b) := b_next b]> (hash_table s)
                   else hash_table s.

Lemma removed_x_nonzero : x ≠ 0.
Proof. assert (1 ≤ x ≤ Z.of_nat (nr_buffers s)) by (apply (ci_dom 0 s HI); eauto). lia. Qed.

Lemma removed_free : free_ring x (s <| heads := H' |> <| hash_table := T' |>
  <| free_list := if free_list s =? x then b_next_free b else free_list s |>).
Proof.
  destruct (free_neighbours s x b HI Hb) as (_ & _ & _ & _ & Hring).
  unfold free_ring. simpl. apply Hring; unfold free_next, free_prev; intros.
  - rewrite (proj2 HW), decide_False by done. done.
  - rewrite (proj2 HW), decide_False by done. done.
  - by rewrite (proj2 HW), decide_True.
  - by rewrite (proj2 HW), decide_True.
Qed.

(** A list whose members are none of the neighbours of [x] is as it was. *)
Lemma removed_other h l t0 : (∀ p, p ∈ l → in_use 0 (heads s) h p) →
  (b_dev b = 0 ∨ h ≠ bucket b) →
  linked (hash_next t0 (heads s)) (hash_prev (heads s)) (cycle 0 l) →
  linked (hash_next t0 H') (hash_prev H') (cycle 0 l).
Proof.
  intros Hin Hcase.
  assert (∀ p, p ∈ l → (p ≠ b_prev b ∨ b_prev b = 0) ∧ (p ≠ b_next b ∨ b_next b = 0)) as Hne.
  { intros p Hp. apply Hin in Hp as (c & Hc & _ & Hd & Hh).
    destruct (decide (b_dev b = 0)) as [Hd0|Hd0].
    - destruct (ci_unhashed 0 s HI x b Hb removed_x_nonzero Hd0). auto.
    - destruct Hcase as [?|Hcase]; [done|].
      destruct (hash_neighbours s x b HI Hb Hd0) as (_ & _ & _ & _ & _ & Hu & Hv & _).
      split; [destruct Hu as [?|(c' & Hc' & _ & _ & Hh')]|destruct Hv as [?|(c' & Hc' & _ & _ & Hh')]];
        auto; left; intros ->; simplify_eq. }
  apply linked_mono.
  - intros p q [->|Hp]%elem_of_cons; unfold hash_next; [by rewrite !decide_True|].
    case_decide; [done|]. rewrite (proj2 HW). destruct (Hne p Hp) as [[?|?] _];
      by rewrite decide_False by tauto.
  - intros p q [Hq| ->%list_elem_of_singleton]%elem_of_app; unfold hash_prev; [|by left].
    intros [?|Hl]; [by left|]. right. rewrite (proj2 HW). destruct (Hne q Hq) as [_ [?|?]];
      by rewrite decide_False by tauto.
Qed.

Lemma removed_hash h : 0 ≤ h < NR_HASH → hash_ring x (s <| heads := H' |> <| hash_table := T' |>
  <| free_list := if free_list s =? x then b_next_free b else free_list s |>) h.
Proof.
  intros Hh. pose proof removed_x_nonzero as Hx0. unfold hash_ring. simpl.
  destruct (decide (b_dev b ≠ 0 ∧ h = bucket b)) as [[Hd ->]|Hcase].
  - destruct (hash_neighbours s x b HI Hb Hd) as (t' & Ht' & Htx & Hux & Hvx & _ & _ & Hring).
    rewrite Ht in Ht'. injection Ht' as <-. set (t1 := if t =? x then b_next b else t).
    destruct (Hring (hash_next t1 H') (hash_prev H')) as (l & Hnd & Hin & HL).
    + intros p q Hp. unfold hash_next. case_decide as H0.
      * subst p. unfold t1. intros Hq. subst q.
        destruct (Z.eqb_spec t x) as [E|_]; [|done]. apply Htx in E. congruence.
      * by rewrite (proj2 HW), decide_False by tauto.
    + intros p q Hq [?|Hl]; [by left|]. right. by rewrite (proj2 HW), decide_False by tauto.
    + unfold hash_next. case_decide as H0.
      * unfold t1. apply Htx in H0 as ->. by rewrite Z.eqb_refl.
      * by rewrite (proj2 HW), decide_True by tauto.
    + unfold hash_prev. destruct (decide (b_next b = 0)); [by left|right].
      by rewrite (proj2 HW), decide_True by tauto.
    + exists l, t1. split_and!; [|done| |done].
      * unfold t1, T'. destruct (t =? x); [|done]. apply list_lookup_insert_eq. by eapply lookup_lt_Some.
      * intros p. rewrite Hin. symmetry. apply payload_in_use, HW.
  - destruct (ci_hash 0 s HI h Hh) as (l & t0 & Ht0 & Hnd & Hin & HL).
    exists l, t0. split_and!; [|done| |].
    + unfold T'. destruct (Z.eqb_spec t x) as [->|]; [|done].
      rewrite list_lookup_insert_ne; [done|]. intros E.
      assert (h = bucket b) as -> by (pose proof (bucket_range b); lia).
      apply Hcase. split; [|done]. destruct (hash_entry 0 s _ _ HI (bucket_range b) Ht) as [?|(c & Hc & _ & Hd & _)];
        [done|]. rewrite Hb in Hc. by injection Hc as <-.
    + intros p. rewrite Hin, (payload_in_use _ _ _ _ _ (proj1 HW)). split.
      * intros (c & Hc & _ & Hd & Hbk). exists c. split_and!; try done.
        intros ->. rewrite Hb in Hc. injection Hc as <-. by apply Hcase.
      * intros (c & Hc & _ & Hd & Hbk). exists c. split_and!; try done.
        intros ->. destruct (ci_dom 0 s HI 0) as [Hz _]. destruct Hz; [eauto|lia].
    + apply (removed_other h); [by intros p Hp; apply Hin| |done].
      destruct (decide (b_dev b = 0)); [by left|right; tauto].
Qed.

Lemma removed_inv : cache_inv x (s <| heads := H' |> <| hash_table := T' |>
  <| free_list := if free_list s =? x then b_next_free b else free_list s |>).
Proof.
  pose proof removed_x_nonzero as Hx0.
  destruct (inv_payload 0 s H' HI (proj1 HW)) as [Hdom Hkey].
  split; simpl.
  - apply (ci_n 0 s HI).
  - exact Hdom.
  - apply removed_free.
  - unfold T'. destruct (t =? x); [rewrite length_insert|]; apply (ci_tab 0 s HI).
  - apply removed_hash.
  - intros p c Hc Hpx Hd.
    destruct (payload_back _ _ _ _ (proj1 HW) Hc) as (c0 & Hc0 & (_ & Ed & _)%payload_fields).
    assert (p ≠ 0) as Hp0 by (intros ->; destruct (Hdom 0) as [Hz _]; destruct Hz; [eauto|lia]).
    destruct (ci_unhashed 0 s HI p c0 Hc0 Hp0 ltac:(congruence)) as [Hn Hpv].
    assert ((p ≠ b_prev b ∨ b_prev b = 0) ∧ (p ≠ b_next b ∨ b_next b = 0)) as [Hu Hv].
    { destruct (decide (b_dev b = 0)) as [Hd0|Hd0].
      - destruct (ci_unhashed 0 s HI x b Hb Hx0 Hd0). auto.
      - destruct (hash_neighbours s x b HI Hb Hd0) as (_ & _ & _ & _ & _ & Hu & Hv & _).
        split; [destruct Hu as [?|(c' & Hc' & _ & Hd' & _)]|destruct Hv as [?|(c' & Hc' & _ & Hd' & _)]];
          auto; left; intros ->; simplify_eq; congruence. }
    assert (at_link LNext H' p = Some (b_next c)) as E1 by (by apply view_Some).
    assert (at_link LPrev H' p = Some (b_prev c)) as E2 by (by apply view_Some).
    rewrite (proj2 HW), decide_False in E1 by tauto. rewrite (proj2 HW), decide_False in E2 by tauto.
    unfold at_link in E1, E2. rewrite (view_Some _ _ _ _ Hc0) in E1. rewrite (view_Some _ _ _ _ Hc0) in E2.
    simpl in E1, E2. split; congruence.
  - intros p q bp bq Hp Hq Hpx Hqx. apply (Hkey p q bp bq Hp Hq).
    + intros ->. destruct (Hdom 0) as [Hz _]. destruct Hz; [eauto|lia].
    + intros ->. destruct (Hdom 0) as [Hz _]. destruct Hz; [eauto|lia].
Qed.
End Removed.

Lemma wp_remove s x b : cache_inv 0 s → heads s !! x = Some b →
  wp (remove_from_queues x) (λ _ s', cache_inv x s' ∧ relinked s s') s.
Proof.
  intros HI Hb. apply (wp_remove_run s x b); [done..|]. intros H' t HW Ht. split.
  - by apply (removed_inv s x b H' t).
  - exists H', (if t =? x then <[Z.to_nat (bucket b) := b_next b]> (hash_table s) else hash_table s),
      (if free_list s =? x then b_next_free b else free_list s), (null_b_prev s).
    split; [reflexivity|exact (proj1 HW)].
Qed.

(** ** insert_into_queues *)

(** The links after [x] has been put in: [f] is the head of the free ring, [y]
    its last buffer, [t] the first of the hash list. *)
Definition links_with (x f y t : Z) (H H' : gmap Z buffer_head) : Prop :=
  (∀ q, view payload H' q = view payload H q) ∧
  ∀ k q, at_link k H' q =
    match k with
    | LPrev => if decide (q = t ∧ t ≠ 0) then Some x else if decide (q = x) then Some 0 else at_link k H q
    | LNext => if decide (q = x) then Some t else at_link k H q
    | LNextFree => if decide (q = y) then Some x else if decide (q = x) then Some f else at_link k H q
    | LPrevFree => if decide (q = f) then Some x else if decide (q = x) then Some y else at_link k H q
    end.

(** The free ring without [x]: its head, its last buffer, and how to append. *)
Lemma free_last s x : cache_inv x s → x ≠ 0 → is_Some (heads s !! x) →
  ∃ fb, heads s !! free_list s = Some fb ∧ free_list s ≠ x ∧
  let y := b_prev_free fb in
  y ≠ x ∧ is_Some (heads s !! y) ∧
  (∀ N' P' : Z → Z → Prop,
    (∀ p q, p ≠ y → p ≠ x → free_next (heads s) p q → N' p q) →
    (∀ p q, q ≠ free_list s → q ≠ x → free_prev (heads s) q p → P' q p) →
    N' y x → P' x y → N' x (free_list s) → P' (free_list s) x →
    ∃ l, NoDup (free_list s :: l) ∧
      (∀ p, p ∈ free_list s :: l ↔ 1 ≤ p ≤ Z.of_nat (nr_buffers s) ∧ p ≠ 0) ∧
      linked N' P' (cycle (free_list s) l)).
Proof.
  intros HI Hx0 Hx. destruct (ci_free x s HI) as (l & Hnd & Hin & HL).
  assert (∀ p, p ∈ free_list s :: l → is_Some (heads s !! p) ∧ p ≠ x) as Hdom.
  { intros p Hp. apply Hin in Hp as [? ?]. split; [by apply (ci_dom x s HI)|done]. }
  destruct (Hdom (free_list s)) as [[fb Hfb] Hfx]; [by left|].
  exists fb. split; [done|]. split; [done|]. cbv zeta.
  assert (linked (λ p q, p ≠ x ∧ free_next (heads s) p q) (λ q p, q ≠ x ∧ free_prev (heads s) q p)
            (cycle (free_list s) l)) as HL'.
  { revert HL. apply linked_mono; intros p q Hp ?; (split; [|done]).
    - by apply Hdom.
    - rewrite elem_of_app, list_elem_of_singleton in Hp. apply Hdom. apply elem_of_cons. tauto. }
  pose proof (λ N' P', link_last _ _ N' P' (free_list s) l x Hnd HL') as Hlink.
  destruct (Hlink (λ _ _, True) (λ _ _, True)) as ((_ & _ & Hprev) & _).
  unfold free_prev, at_link in Hprev. rewrite (view_Some _ _ _ _ Hfb) in Hprev.
  injection Hprev as Hprev. simpl in Hprev. rewrite Hprev.
  destruct (Hdom (last_of (free_list s) l) (last_of_elem _ _)) as [Hy Hyx].
  split_and!; [done..|]. intros N' P' HN HP H1 H2 H3 H4. exists (l ++ [x]).
  assert (x ∉ free_list s :: l) as Hxl by (intros Hp; by apply Hdom in Hp as [_ ?]).
  split_and!; [..|apply Hlink; [intros p q ? []; by apply HN|intros p q ? []; by apply HP|done..]].
  - assert (free_list s :: l ++ [x] ≡ₚ x :: free_list s :: l) as -> by solve_Permutation.
    by apply NoDup_cons.
  - intros p. transitivity (p = x ∨ p ∈ free_list s :: l).
    + rewrite !elem_of_cons, elem_of_app, list_elem_of_singleton. tauto.
    + rewrite Hin. assert (1 ≤ x ≤ Z.of_nat (nr_buffers s)) by (by apply (ci_dom x s HI)).
      destruct (decide (p = x)) as [->|]; [|lia]. split; [|by left]. lia.
Qed.

Lemma wp_insert_run s x b fb t (Q : () → fs → Prop) : cache_inv x s → x ≠ 0 →
  heads s !! x = Some b → b_dev b ≠ 0 → heads s !! free_list s = Some fb →
  hash_table s !! Z.to_nat (bucket b) = Some t →
  (∀ H', links_with x (free_list s) (b_prev_free fb) t (heads s) H' →
     Q tt (s <| heads := H' |> <| hash_table := <[Z.to_nat (bucket b) := x]> (hash_table s) |>
             <| null_b_prev := if t =? 0 then x else null_b_prev s |>)) →
  wp (insert_into_queues x) Q s.
Proof.
  intros HI Hx0 Hb Hdev Hfb Ht HQ.
  destruct (free_last s x HI Hx0 ltac:(eauto)) as (fb' & Hfb' & Hfx & Hyx & Hy & _).
  rewrite Hfb in Hfb'. injection Hfb' as <-.
  set (f := free_list s) in *. set (y := b_prev_free fb) in *.
  assert (∀ p, is_Some (heads s !! p) → p ≠ 0) as Hnz.
  { intros p Hp. apply (ci_dom x s HI) in Hp. lia. }
  assert (t = 0 ∨ t ≠ x ∧ is_Some (heads s !! t)) as Htx.
  { destruct (hash_entry x s _ _ HI (bucket_range b) Ht) as [?|(c & ? & ? & _)]; eauto. }
  unfold insert_into_queues. apply wp_bind, wp_gets. fold f.
  apply wp_bind, (wp_set_link LNextFree x f); [done|eauto|]. intros H1 L1.
  assert (H1 !! f = Some fb) as F1 by (rewrite <-Hfb; by apply (link_set_other _ _ _ _ _ _ L1)).
  apply wp_bind, (wp_bh f fb); [done|].
  apply wp_bind, (wp_set_link LPrevFree x y); [done|by apply (link_set_dom _ _ _ _ _ _ L1); eauto|].
  simpl. intros H2 L2.
  assert (H2 !! f = Some fb) as F2 by (rewrite <-F1; by apply (link_set_other _ _ _ _ _ _ L2)).
  assert (∀ q, is_Some (heads s !! q) → is_Some (H2 !! q)) as D2.
  { intros q. by rewrite (link_set_dom _ _ _ _ _ _ L2), (link_set_dom _ _ _ _ _ _ L1). }
  apply wp_bind, (wp_bh f fb); [done|]. fold y.
  apply wp_bind, (wp_set_link LNextFree y x); [by apply Hnz|by apply D2|]. simpl. intros H3 L3.
  apply wp_bind, (wp_set_link LPrevFree f x); [apply Hnz; eauto|..].
  { simpl. rewrite (link_set_dom _ _ _ _ _ _ L3). eauto. }
  simpl. intros H4 L4.
  assert (∀ q, is_Some (heads s !! q) → is_Some (H4 !! q)) as D4.
  { intros q Hq. rewrite (link_set_dom _ _ _ _ _ _ L4), (link_set_dom _ _ _ _ _ _ L3). by apply D2. }
  apply wp_bind, (wp_set_link LPrev x 0); [done|simpl; apply D4; eauto|]. simpl. intros H5 L5.
  apply wp_bind, (wp_set_link LNext x 0); [done|simpl; rewrite (link_set_dom _ _ _ _ _ _ L5); apply D4; eauto|].
  simpl. intros H6 L6.
  assert (∀ q, view payload H6 q = view payload (heads s) q) as P6.
  { intros q. by rewrite (proj1 L6), (proj1 L5), (proj1 L4), (proj1 L3), (proj1 L2), (proj1 L1). }
  assert (∃ b6, H6 !! x = Some b6 ∧ payload b6 = payload b) as (b6 & Hb6 & Hp6).
  { apply view_inv. rewrite P6. by apply view_Some. }
  apply payload_fields in Hp6 as (_ & Ed & Ek & _).
  apply wp_bind, (wp_bh x b6); [done|]. rewrite Ed.
  destruct (Z.eqb_spec (b_dev b) 0) as [|_]; [done|]. rewrite Ek.
  apply wp_bind. unfold hash. apply wp_bind, wp_gets. simpl.
  eapply wp_of_ret; [apply index_Some; [apply bucket_range|exact Ht]|].
  apply wp_bind, (wp_set_link LNext x t); [done|simpl; eauto|]. simpl. intros H7 L7.
  apply wp_bind. unfold set_hash.
  eapply wp_of_ret; [apply store_in; simpl; rewrite (ci_tab x s HI); pose proof (bucket_range b) as Hr;
    unfold bucket, NR_HASH in *; lia|].
  assert (∃ b7, H7 !! x = Some b7 ∧ b_next b7 = t) as (b7 & Hb7 & Hn7).
  { apply (view_inv (get_link LNext)). pose proof (proj2 L7 LNext x) as E.
    by rewrite decide_True in E by tauto. }
  apply wp_bind, (wp_bh x b7); [done|]. rewrite Hn7. unfold set_b_prev, NULL.
  assert (∀ H8, link_set LPrev t x H7 H8 → links_with x f y t (heads s) H8) as HW.
  { intros H8 L8. split; [intros q; by rewrite (proj1 L8), (proj1 L7), P6|].
    intros k q. rewrite (proj2 L8), (proj2 L7), (proj2 L6), (proj2 L5), (proj2 L4), (proj2 L3),
      (proj2 L2), (proj2 L1).
    assert (y ≠ 0) by (by apply Hnz). assert (f ≠ 0) by (apply Hnz; eauto).
    destruct k; repeat case_decide; try tauto; try (destruct_and?; discriminate). }
  destruct (Z.eqb_spec t 0) as [->|Ht0].
  - apply wp_modify. specialize (HQ H7 (HW _ (link_set_NULL _ _ _))). exact HQ.
  - destruct Htx as [?|[Htx Hdt]]; [done|].
    apply (wp_set_link LPrev t x); [done|..].
    { simpl. rewrite (link_set_dom _ _ _ _ _ _ L7), (link_set_dom _ _ _ _ _ _ L6),
        (link_set_dom _ _ _ _ _ _ L5). by apply D4. }
    simpl. intros H8 L8. specialize (HQ H8 (HW _ L8)). exact HQ.
Qed.

Section Inserted.
Context (s : fs) (x : Z) (b fb : buffer_head) (H' : gmap Z buffer_head) (t w : Z).
Context (HI : cache_inv x s) (Hx0 : x ≠ 0) (Hb : heads s !! x = Some b) (Hdev : b_dev b ≠ 0).
Context (Hfb : heads s !! free_list s = Some fb).
Context (Ht : hash_table s !! Z.to_nat (bucket b) = Some t).
Context (HW : links_with x (free_list s) (b_prev_free fb) t (heads s) H').
Context (Hnew : ∀ p, p ≠ x → ¬ has_key s (b_dev b) (b_blocknr b) p).
Let s' : fs := s <| heads := H' |> <| hash_table := <[Z.to_nat (bucket b) := x]> (hash_table s) |>
                 <| null_b_prev := w |>.

Lemma inserted_free : free_ring 0 s'.
Proof.
  destruct (free_last s x HI Hx0 ltac:(eauto)) as (fb' & Hfb' & Hfx & Hyx & Hy & Hring).
  rewrite Hfb in Hfb'. injection Hfb' as <-. unfold free_ring. simpl.
  apply Hring; unfold free_next, free_prev; intros; rewrite (proj2 HW).
  - by rewrite !decide_False.
  - by rewrite !decide_False.
  - by rewrite decide_True.
  - by rewrite decide_False, decide_True by done.
  - by rewrite decide_False, decide_True by done.
  - by rewrite decide_True.
Qed.

Lemma inserted_in_use h p : in_use 0 H' h p ↔ in_use x (heads s) h p ∨ p = x ∧ h = bucket b.
Proof.
  rewrite (payload_in_use _ _ _ _ _ (proj1 HW)). unfold in_use.
  destruct (decide (p = x)) as [->|Hpx].
  - split.
    + intros (c & Hc & _ & _ & Hk). rewrite Hb in Hc. injection Hc as <-. auto.
    + intros [(c & _ & ? & _)|[_ ->]]; [done|]. eauto.
  - split.
    + intros (c & Hc & _ & ? & ?). left. eauto.
    + intros [(c & Hc & _ & ? & ?)|[? _]]; [|done]. exists c. split_and!; try done.
      intros ->. destruct (ci_dom x s HI 0) as [Hz _]. destruct Hz; [eauto|lia].
Qed.

Lemma inserted_hash h : 0 ≤ h < NR_HASH → hash_ring 0 s' h.
Proof.
  intros Hh. unfold hash_ring. simpl.
  destruct (ci_hash x s HI h Hh) as (l & t0 & Ht0 & Hnd & Hin & HL).
  assert (x ∉ l) as Hxl by (intros (c & _ & ? & _)%Hin; done).
  destruct (decide (h = bucket b)) as [->|Hne].
  - rewrite Ht in Ht0. injection Ht0 as <-. pose proof (hash_first _ _ _ HL) as Hfirst.
    exists (x :: l), x. split_and!.
    + apply list_lookup_insert_eq. by eapply lookup_lt_Some.
    + assert (0 :: x :: l ≡ₚ x :: 0 :: l) as -> by solve_Permutation.
      apply NoDup_cons. split; [|done]. by apply not_elem_of_cons.
    + intros p. rewrite elem_of_cons, Hin, inserted_in_use. tauto.
    + assert (linked (λ p q, p ≠ x ∧ hash_next t (heads s) p q)
                (λ q p, q ≠ x ∧ hash_prev (heads s) q p) (cycle 0 l)) as HL'.
      { revert HL. apply linked_mono; intros p q Hp ?; (split; [|done]); intros ->.
        - by apply elem_of_cons in Hp as [?|?].
        - by apply elem_of_app in Hp as [?|?%list_elem_of_singleton]. }
      destruct (link_first _ _ (hash_next x H') (hash_prev H') 0 l x Hnd HL') as [_ Hlink].
      cbv zeta in Hlink. rewrite <-Hfirst in Hlink. apply Hlink.
      * intros p q Hp0 [Hpx Hq]. unfold hash_next in *. rewrite decide_False in Hq |- * by done.
        by rewrite (proj2 HW), decide_False.
      * intros p q Hqt [Hqx [?|Hq]]; [by left|right]. by rewrite (proj2 HW), !decide_False by tauto.
      * unfold hash_next. by rewrite decide_True.
      * right. rewrite (proj2 HW). destruct (decide (x = t ∧ t ≠ 0)) as [[-> _]|_].
        -- destruct (hash_entry _ s _ _ HI (bucket_range b) Ht) as [?|(c & _ & ? & _)]; done.
        -- by rewrite decide_True.
      * unfold hash_next. rewrite decide_False by done. by rewrite (proj2 HW), decide_True.
      * destruct (decide (t = 0)); [by left|right]. by rewrite (proj2 HW), decide_True.
  - exists l, t0. split_and!.
    + rewrite list_lookup_insert_ne; [done|]. pose proof (bucket_range b). lia.
    + done.
    + intros p. rewrite Hin, inserted_in_use. tauto.
    + revert HL. apply linked_mono.
      * intros p q Hp. unfold hash_next. case_decide as H0; [done|].
        apply elem_of_cons in Hp as [?|Hp]; [done|].
        rewrite (proj2 HW), decide_False; [done|]. by intros ->.
      * intros p q Hq [?|Hl]; [by left|]. destruct (decide (q = 0)); [by left|right].
        apply elem_of_app in Hq as [Hq|?%list_elem_of_singleton]; [|done].
        rewrite (proj2 HW), !decide_False; [done|by intros ->|].
        intros [-> _]. apply Hin in Hq as (c & Hc & _ & _ & Hk).
        destruct (hash_entry _ s _ _ HI (bucket_range b) Ht) as [?|(c' & Hc' & _ & _ & Hk')]; [done|].
        congruence.
Qed.

Lemma inserted_inv : cache_inv 0 s'.
Proof.
  destruct (inv_payload x s H' HI (proj1 HW)) as [Hdom Hkey]. split; simpl.
  - apply (ci_n x s HI).
  - exact Hdom.
  - apply inserted_free.
  - rewrite length_insert. apply (ci_tab x s HI).
  - apply inserted_hash.
  - intros p c Hc Hp0 Hd.
    destruct (payload_back _ _ _ _ (proj1 HW) Hc) as (c0 & Hc0 & (_ & Ed & _)%payload_fields).
    assert (p ≠ x) as Hpx by (intros ->; rewrite Hb in Hc0; injection Hc0 as <-; congruence).
    destruct (ci_unhashed x s HI p c0 Hc0 Hpx ltac:(congruence)) as [Hn Hpv].
    assert (at_link LNext H' p = Some (b_next c)) as E1 by (by apply view_Some).
    assert (at_link LPrev H' p = Some (b_prev c)) as E2 by (by apply view_Some).
    rewrite (proj2 HW), decide_False in E1 by done.
    rewrite (proj2 HW), !decide_False in E2; [|done|].
    + unfold at_link in E1, E2. rewrite (view_Some _ _ _ _ Hc0) in E1.
      rewrite (view_Some _ _ _ _ Hc0) in E2. simpl in E1, E2. split; congruence.
    + intros [-> ?]. destruct (hash_entry _ s _ _ HI (bucket_range b) Ht) as [?|(c' & Hc' & _ & Hd' & _)];
        [done|]. congruence.
  - intros p q bp bq Hp Hq _ _ Hd Ek El.
    destruct (payload_back _ _ _ _ (proj1 HW) Hp) as (cp & Hcp & (_ & Ed & Eb & _)%payload_fields).
    destruct (payload_back _ _ _ _ (proj1 HW) Hq) as (cq & Hcq & (_ & Fd & Fb & _)%payload_fields).
    destruct (decide (p = x)) as [->|Hpx], (decide (q = x)) as [->|Hqx]; [done|..|by eapply Hkey].
    + rewrite Hb in Hcp. injection Hcp as <-. destruct (Hnew q Hqx). exists cq. split_and!; congruence.
    + rewrite Hb in Hcq. injection Hcq as <-. destruct (Hnew p Hpx). exists cp. split_and!; congruence.
Qed.
End Inserted.

Lemma wp_insert s x b : cache_inv x s → x ≠ 0 → heads s !! x = Some b → b_dev b ≠ 0 →
  (∀ p, p ≠ x → ¬ has_key s (b_dev b) (b_blocknr b) p) →
  wp (insert_into_queues x) (λ _ s', cache_inv 0 s' ∧ relinked s s') s.
Proof.
  intros HI Hx0 Hb Hdev Hnew.
  destruct (free_last s x HI Hx0 ltac:(eauto)) as (fb & Hfb & _).
  assert (∃ t, hash_table s !! Z.to_nat (bucket b) = Some t) as [t Ht].
  { apply lookup_lt_is_Some_2. rewrite (ci_tab x s HI). pose proof (bucket_range b).
    unfold NR_HASH in *. lia. }
  apply (wp_insert_run s x b fb t); [done..|]. intros H' HW. split.
  - by apply (inserted_inv s x b fb H' t).
  - exists H', (<[Z.to_nat (bucket b) := x]> (hash_table s)), (free_list s),
      (if t =? 0 then x else null_b_prev s).
    split; [by destruct s|exact (proj1 HW)].
Qed.

(** The insertion into an empty hash list writes through NULL. *)
Lemma insert_writes_through_NULL s x b : cache_inv x s → x ≠ 0 → heads s !! x = Some b → b_dev b ≠ 0 →
  hash_table s !! Z.to_nat (bucket b) = Some NULL →
  wp (insert_into_queues x) (λ _ s', null_b_prev s' = x) s.
Proof.
  intros HI Hx0 Hb Hdev Ht. destruct (free_last s x HI Hx0 ltac:(eauto)) as (fb & Hfb & _).
  by apply (wp_insert_run s x b fb NULL).
Qed.
