(* ===== verification/Cache.v ===== *)
(** * The buffer cache is transparent

    One hard disk partition [D] seen through the cache: what a block holds is
    the data of the up-to-date buffer with its number or, when there is none,
    what the disk has.  bread and sync_dev leave what every block holds alone;
    bread returns it, and sync_dev makes the disk agree with it. *)

From S2P Require Export CacheOps.

Definition key (b : buffer_head) : Z * Z := (b_dev b, b_blocknr b).

(** ** Changes of the data only *)

Lemma cache_inv_data x s s' : cache_inv x s →
  nr_buffers s' = nr_buffers s → hash_table s' = hash_table s → free_list s' = free_list s →
  (∀ k p, at_link k (heads s') p = at_link k (heads s) p) →
  (∀ p, p ≠ x → view key (heads s') p = view key (heads s) p) → cache_inv x s'.
Proof.
  intros HI Hn Ht Hf Hk Hv.
  assert (∀ p, is_Some (heads s' !! p) ↔ is_Some (heads s !! p)) as Hdom.
  { intros p. specialize (Hk LNext p). unfold at_link, view in Hk.
    destruct (heads s' !! p), (heads s !! p); try discriminate Hk; split; by intros [? ?]. }
  assert (∀ p b', p ≠ x → heads s' !! p = Some b' → ∃ b, heads s !! p = Some b ∧ key b' = key b) as Hback.
  { intros p b' Hp Hb'. specialize (Hv p Hp). rewrite (view_Some _ _ _ _ Hb') in Hv.
    symmetry in Hv. destruct (view_inv _ _ _ _ Hv) as (b & ? & ?). eauto. }
  assert (∀ p b, p ≠ x → heads s !! p = Some b → ∃ b', heads s' !! p = Some b' ∧ key b' = key b) as Hforth.
  { intros p b Hp Hb. specialize (Hv p Hp). rewrite (view_Some _ _ _ _ Hb) in Hv.
    destruct (view_inv _ _ _ _ Hv) as (b' & ? & ?). eauto. }
  assert (∀ b b', key b' = key b → b_dev b' = b_dev b ∧ b_blocknr b' = b_blocknr b ∧ bucket b' = bucket b) as Hkey.
  { unfold key, bucket. intros b b' [= -> ->]. done. }
  split.
  - rewrite Hn. apply (ci_n x s HI).
  - intros p. rewrite Hdom, Hn. apply (ci_dom x s HI).
  - unfold free_ring. rewrite Hn, Hf. destruct (ci_free x s HI) as (l & Hnd & Hin & HL).
    exists l. split; [exact Hnd|]. split; [exact Hin|]. revert HL.
    apply linked_mono; intros p q _; unfold free_next, free_prev; by rewrite Hk.
  - rewrite Ht. apply (ci_tab x s HI).
  - intros h Hh. unfold hash_ring. rewrite Ht. destruct (ci_hash x s HI h Hh) as (l & t & Hlt & Hnd & Hin & HL).
    exists l, t. split; [exact Hlt|]. split; [exact Hnd|]. split.
    + intros p. rewrite Hin. unfold in_use. split; intros (b & Hb & Hp & Hd & Hbk).
      * destruct (Hforth p b Hp Hb) as (b' & Hb' & (E1 & _ & E2)%Hkey). exists b'. split_and!; congruence.
      * destruct (Hback p b Hp Hb) as (b' & Hb' & (E1 & _ & E2)%Hkey). exists b'. split_and!; congruence.
    + revert HL. apply linked_mono; intros p q _; unfold hash_next, hash_prev; by rewrite Hk.
  - intros p b Hb Hp Hd. destruct (Hback p b Hp Hb) as (b0 & Hb0 & (E1 & _ & _)%Hkey).
    destruct (ci_unhashed x s HI p b0 Hb0 Hp ltac:(congruence)) as [H1 H2].
    pose proof (Hk LNext p) as K1. pose proof (Hk LPrev p) as K2. unfold at_link in K1, K2.
    rewrite (view_Some _ _ _ _ Hb), (view_Some _ _ _ _ Hb0) in K1.
    rewrite (view_Some _ _ _ _ Hb), (view_Some _ _ _ _ Hb0) in K2. simpl in K1, K2. split; congruence.
  - intros p q bp bq Hbp Hbq Hp Hq.
    destruct (Hback p bp Hp Hbp) as (cp & Hcp & (-> & -> & _)%Hkey).
    destruct (Hback q bq Hq Hbq) as (cq & Hcq & (-> & -> & _)%Hkey).
    by apply (ci_key x s HI).
Qed.

(** A change of one buffer that leaves its links alone, and its key unless the
    buffer is out of the queues. *)
Lemma cache_inv_set x s p b b' : cache_inv x s → heads s !! p = Some b →
  (∀ k, get_link k b' = get_link k b) → (p = x ∨ key b' = key b) →
  cache_inv x (s <| heads := <[p := b']> (heads s) |>).
Proof.
  intros HI Hb Hl Hkey. apply (cache_inv_data x s); try done; simpl.
  - intros k q. unfold at_link. apply (view_same (get_link k) _ p b (λ _, b') q Hb). apply Hl.
  - intros q Hq. destruct Hkey as [->|Hkey].
    + unfold view. by rewrite lookup_insert_ne.
    + by apply (view_same key _ p b (λ _, b') q Hb).
Qed.

(** The position that rw_hd passes to the drive is the block's sector. *)
Lemma chs_lba b : 0 ≤ b → ((b / hd_sect / hd_head * hd_head + b / hd_sect mod hd_head) * hd_sect + (b mod hd_sect + 1) - 1) = b.
Proof. intros Hb. unfold hd_sect, hd_head. dlia. Qed.

Section Partition.
(** The partition: drive, first sector and number of sectors. *)
Context (D start nr : Z).
Let drive : Z := MINOR D / 5.
Let sector (blk : Z) : Z := 2 * blk + start.

Record partition_ok (s : fs) : Prop := {
  pt_dev : 0 ≤ D < 65536;
  pt_major : MAJOR D = 3;
  pt_minor : 0 ≤ MINOR D < 5 * NR_HD;
  pt_entry : hd s !! Z.to_nat (MINOR D) = Some (start, nr);
  pt_range : 0 ≤ start ∧ 0 ≤ nr ∧ start + nr < 2 ^ 32;
  pt_media : ∀ k, 0 ≤ k < nr → ∃ d, media s !! (drive, start + k) = Some d ∧ length d = 512%nat
}.

(** The blocks of the partition: what the code can address in it. *)
Definition valid (blk : Z) : Prop := 0 ≤ blk < 65536 ∧ 2 * blk + 2 ≤ nr.
Definition disk (s : fs) (blk : Z) : option (list Z) :=
  match media s !! (drive, sector blk), media s !! (drive, sector blk + 1) with
  | Some a, Some b => Some (a ++ b)
  | _, _ => None
  end.

Definition cached (s : fs) (blk p : Z) : bool :=
  match heads s !! p with
  | Some b => (b_dev b =? D) && (b_blocknr b =? blk) && truth (b_uptodate b)
  | None => false
  end.
Definition content (s : fs) (blk : Z) : option (list Z) :=
  match find (cached s blk) (map Z.succ (upto (nr_buffers s))) with
  | Some p => b_data <$> heads s !! p
  | None => disk s blk
  end.

Record head_ok (s : fs) (b : buffer_head) : Prop := {
  hk_data : length (b_data b) = 1024%nat;
  hk_lock : b_lock b = 0;
  hk_count : 0 ≤ b_count b < 256;
  hk_block : 0 ≤ b_blocknr b < 65536;
  hk_dev : b_dev b = 0 ∧ b_dirt b = 0 ∨ b_dev b = D;
  hk_dirt : b_dirt b ≠ 0 → b_uptodate b ≠ 0;
  hk_clean : b_dev b = D → valid (b_blocknr b) → b_uptodate b ≠ 0 → b_dirt b = 0 →
    disk s (b_blocknr b) = Some (b_data b)
}.
Record data_ok (s : fs) : Prop := {
  do_dom : ∀ p, is_Some (heads s !! p) ↔ 1 ≤ p ≤ Z.of_nat (nr_buffers s);
  do_head : ∀ p b, heads s !! p = Some b → head_ok s b;
  do_key : ∀ p q bp bq, heads s !! p = Some bp → heads s !! q = Some bq →
    b_dev bp ≠ 0 → key bp = key bq → p = q;
  do_wait : waiters_ok (sch s);
  do_part : partition_ok s
}.

(** The invariant of the cache between two calls. *)
Definition cache_ok (s : fs) : Prop := cache_inv 0 s ∧ data_ok s.

Lemma content_cached s blk p b : data_ok s → heads s !! p = Some b →
  b_dev b = D → b_blocknr b = blk → b_uptodate b ≠ 0 → content s blk = Some (b_data b).
Proof.
  intros HD Hb Hd Hk Hu. unfold content.
  assert (cached s blk p = true) as Hc.
  { unfold cached. by rewrite Hb, Hd, Hk, !Z.eqb_refl, (proj2 (truth_true _) Hu). }
  destruct (find _ _) as [q|] eqn:Hf.
  - apply find_some in Hf as [_ Hq]. unfold cached in Hq.
    destruct (heads s !! q) as [bq|] eqn:Hbq; [|done].
    apply andb_prop in Hq as [[Hqd%Z.eqb_eq Hqb%Z.eqb_eq]%andb_prop _].
    assert (D ≠ 0) as HD0 by (intros E; pose proof (pt_major s (do_part s HD)) as HM; by rewrite E in HM).
    assert (p = q) as <-.
    { apply (do_key s HD p q b bq Hb Hbq); [congruence|unfold key; congruence]. }
    rewrite Hb in Hbq. injection Hbq as <-. done.
  - exfalso. assert (1 ≤ p ≤ Z.of_nat (nr_buffers s)) by (apply (do_dom s HD); eauto).
    eapply find_none in Hf; [by rewrite Hc in Hf|].
    apply list_elem_of_In, list_elem_of_fmap. exists (p - 1). rewrite elem_of_upto. lia.
Qed.
Lemma content_disk s blk :
  (∀ p b, heads s !! p = Some b → b_dev b = D → b_blocknr b = blk → b_uptodate b = 0) →
  content s blk = disk s blk.
Proof.
  intros Hnone. unfold content. destruct (find _ _) as [q|] eqn:Hf; [|done]. exfalso.
  apply find_some in Hf as [_ Hq]. unfold cached in Hq.
  destruct (heads s !! q) as [bq|] eqn:Hbq; [|done].
  apply andb_prop in Hq as [[Hqd%Z.eqb_eq Hqb%Z.eqb_eq]%andb_prop Ht%truth_true].
  by apply Ht, (Hnone q bq).
Qed.
(** Either an up-to-date buffer holds the block or none does. *)
Lemma content_cases s blk :
  (∃ p b, heads s !! p = Some b ∧ b_dev b = D ∧ b_blocknr b = blk ∧ b_uptodate b ≠ 0) ∨
  (∀ p b, heads s !! p = Some b → b_dev b = D → b_blocknr b = blk → b_uptodate b = 0).
Proof.
  destruct (decide (map_Exists (λ _ b, b_dev b = D ∧ b_blocknr b = blk ∧ b_uptodate b ≠ 0) (heads s)))
    as [(p & b & Hb & H)|Hn]; [left; by eauto|right].
  intros p b Hb Hd Hk. destruct (decide (b_uptodate b = 0)); [done|]. destruct Hn. exists p, b. auto.
Qed.

Lemma disk_valid s blk : partition_ok s → valid blk →
  ∃ a b, media s !! (drive, sector blk) = Some a ∧ media s !! (drive, sector blk + 1) = Some b ∧
    length a = 512%nat ∧ length b = 512%nat.
Proof.
  intros HP [Hblk Hv]. unfold sector.
  destruct (pt_media s HP (2 * blk)) as (a & Ha & La); [lia|].
  destruct (pt_media s HP (2 * blk + 1)) as (b & Hb & Lb); [lia|]. exists a, b.
  replace (2 * blk + start) with (start + 2 * blk) by lia.
  replace (start + 2 * blk + 1) with (start + (2 * blk + 1)) by lia. done.
Qed.

(** ** One transfer *)

(** A request has been done for the buffer [p]: it holds [d], and is up to date
    and clean; a write has put [d] on the disk. *)
Definition transferred (rw p : Z) (b : buffer_head) (s s' : fs) : Prop := ∃ d,
  (if rw =? READ then disk s (b_blocknr b) = Some d else d = b_data b) ∧
  s' = with_sch (s <| heads := <[p := b <| b_data := d |> <| b_uptodate := 1 |> <| b_dirt := 0 |>]> (heads s) |>
                   <| media := if rw =? READ then media s else
                       <[(drive, sector (b_blocknr b) + 1) := drop 512 d]>
                         (<[(drive, sector (b_blocknr b)) := take 512 d]> (media s)) |>)
         (woken (sch s) (b_wait p)).

Lemma wp_ll_rw_block rw s p b : data_ok s → rw = READ ∨ rw = WRITE → heads s !! p = Some b → b_dev b = D →
  wp (ll_rw_block rw p)
    (λ _ s', if decide (valid (b_blocknr b)) then transferred rw p b s s' else s' = s) s.
Proof.
  intros HD Hrw Hb Hd. pose proof (do_head s HD p b Hb) as [Hlen Hlock Hcnt Hblk Hdev Hdirt Hclean].
  pose proof (do_part s HD) as HP. destruct (pt_range s HP) as (? & ? & ?).
  assert (0 ≤ p) as Hp. { assert (1 ≤ p ≤ Z.of_nat (nr_buffers s)) by (apply (do_dom s HD); eauto). lia. }
  unfold ll_rw_block. apply wp_bind, (wp_bh p b); [done|]. rewrite Hd, (pt_major s HP). simpl.
  unfold rw_hd. apply wp_bind, (wp_bh p b); [done|]. rewrite Hd.
  destruct (Z.leb_spec (5 * NR_HD) (MINOR D)); [pose proof (pt_minor s HP); lia|].
  apply wp_bind. eapply wp_of_ret.
  { unfold gets, mbind, M_bind. apply index_Some; [apply (pt_minor s HP)|apply (pt_entry s HP)]. }
  simpl snd. simpl fst.
  assert (u32 (Z.shiftl (b_blocknr b) 1) = 2 * b_blocknr b) as ->.
  { rewrite Z.shiftl_mul_pow2 by lia. change (2 ^ 1) with 2. rewrite Z.mul_comm. apply Z.mod_small. lia. }
  assert (u32 (2 * b_blocknr b + 2) = 2 * b_blocknr b + 2) as -> by (apply Z.mod_small; lia).
  destruct (Z.ltb_spec nr (2 * b_blocknr b + 2)) as [Hlt|Hle].
  { apply wp_ret. cbv beta. rewrite decide_False; [done|]. unfold valid. lia. }
  assert (valid (b_blocknr b)) as HV by (unfold valid; lia).
  apply (wp_mono _ (λ _ s', transferred rw p b s s')); [|intros [] s' HT; by rewrite decide_True].
  assert (u32 (2 * b_blocknr b + start) = sector (b_blocknr b)) as ->
    by (unfold sector; apply Z.mod_small; lia).
  assert (0 ≤ sector (b_blocknr b)) as Hs0 by (unfold sector; lia).
  destruct (disk_valid s _ HP HV) as (a0 & a1 & Ha0 & Ha1 & La0 & La1).
  unfold rw_abs_hd.
  assert (negb ((rw =? READ) || (rw =? WRITE)) = false) as -> by (by destruct Hrw as [-> | ->]).
  apply wp_bind, (wp_bh p b); [done|]. rewrite Hlock. simpl. apply wp_bind, wp_ret.
  apply wp_bind, (wp_set_bh p b); [done|]. rewrite chs_lba by done. fold drive.
  apply wp_bind. unfold hd_transfer.
  apply wp_bind, (wp_bh p (b <| b_lock := 1 |>)); [simpl; by rewrite lookup_insert_eq|].
  apply wp_bind, wp_gets. simpl. rewrite Ha0, Ha1.
  assert (∀ d m', (if rw =? READ then d = a0 ++ a1 else d = b_data b) →
    m' = (if rw =? READ then media s else
          <[(drive, sector (b_blocknr b) + 1) := drop 512 d]>
            (<[(drive, sector (b_blocknr b)) := take 512 d]> (media s))) →
    wp (set_bh p (λ b0, b0 <| b_uptodate := 1 |> <| b_dirt := 0 |>))
      (λ _, wp (set_bh p (λ b0, b0 <| b_lock := 0 |>);; wake (b_wait p);; wait_on_buffer p)
              (λ _ s', transferred rw p b s s'))
      (s <| heads := <[p := b <| b_lock := 1 |> <| b_data := d |>]> (heads s) |> <| media := m' |>)) as Hend.
  { intros d m' Hdd Hm. eapply wp_set_bh; [simpl; by rewrite lookup_insert_eq|]. simpl.
    apply wp_bind. eapply wp_set_bh; [simpl; by rewrite lookup_insert_eq|]. simpl.
    rewrite !insert_insert_eq. apply wp_bind, wp_wake; [by apply b_wait_nonzero|apply (do_wait s HD)|].
    unfold wait_on_buffer. apply wp_bind. eapply wp_bh; [simpl; by rewrite lookup_insert_eq|]. simpl.
    apply wp_ret. exists d. split.
    - destruct (rw =? READ); [|done]. unfold disk. by rewrite Ha0, Ha1, Hdd.
    - rewrite <-Hm. clear -Hlock. destruct b. simpl in *. subst. reflexivity. }
  destruct (rw =? READ) eqn:Erw.
  - apply wp_bind. eapply wp_set_bh; [simpl; by rewrite lookup_insert_eq|]. simpl.
    rewrite insert_insert_eq. apply (Hend (a0 ++ a1) (media s)); done.
  - apply wp_bind, wp_modify. simpl.
    specialize (Hend (b_data b) _ eq_refl eq_refl).
    destruct b. exact Hend.
Qed.

Lemma D_nonzero s : partition_ok s → D ≠ 0.
Proof. intros HP E. pose proof (pt_major s HP) as HM. by rewrite E in HM. Qed.

(** Changes that are no concern of the partition. *)
Lemma partition_same s s' : hd s' = hd s → media s' = media s → partition_ok s → partition_ok s'.
Proof. intros E1 E2 [? ? ? ? ?]. split; rewrite ?E1, ?E2; done. Qed.
Lemma disk_same s s' blk : media s' = media s → disk s' blk = disk s blk.
Proof. unfold disk. by intros ->. Qed.
Lemma head_ok_same s s' b : media s' = media s → head_ok s b → head_ok s' b.
Proof.
  intros E [? ? ? ? ? ? Hc]. split; try done. intros. rewrite (disk_same s) by done. auto.
Qed.

Section Transferred.
Context (rw : Z) (s s' : fs) (p : Z) (b : buffer_head).
Context (HD : data_ok s) (Hb : heads s !! p = Some b) (Hdev : b_dev b = D) (HV : valid (b_blocknr b)).
Context (Hread : rw = READ → b_dirt b = 0) (Hwrite : rw ≠ READ → b_uptodate b ≠ 0).
Context (HT : transferred rw p b s s').

Lemma transferred_disk : ∃ b', heads s' = <[p := b']> (heads s) ∧ disk s' (b_blocknr b) = Some (b_data b') ∧
  b' = b <| b_data := b_data b' |> <| b_uptodate := 1 |> <| b_dirt := 0 |> ∧ length (b_data b') = 1024%nat ∧
  (b_uptodate b ≠ 0 → b_data b' = b_data b) ∧
  (∀ blk, blk ≠ b_blocknr b → disk s' blk = disk s blk) ∧ partition_ok s'.
Proof.
  destruct HT as (d & Hd & ->). pose proof (do_part s HD) as HP.
  pose proof (do_head s HD p b Hb) as HK.
  destruct (disk_valid s _ HP HV) as (a0 & a1 & Ha0 & Ha1 & La0 & La1).
  exists (b <| b_data := d |> <| b_uptodate := 1 |> <| b_dirt := 0 |>). split; [done|].
  destruct (Z.eqb_spec rw READ) as [E|E].
  - split; [exact Hd|]. split; [done|].
    assert (d = a0 ++ a1) as Hd'.
    { unfold disk in Hd. rewrite Ha0, Ha1 in Hd. by injection Hd. }
    split; [simpl; rewrite Hd', length_app; lia|]. split.
    + intros Hu. pose proof (hk_clean s b HK Hdev HV Hu (Hread E)) as Hc. simpl. congruence.
    + split; [done|]. by apply (partition_same s).
  - subst d. pose proof (hk_data s b HK) as Hlen. unfold disk. simpl.
    set (k := sector (b_blocknr b)) in *.
    split.
    { rewrite lookup_insert_ne, !lookup_insert_eq by (intros [= Hk]; lia). by rewrite take_drop. }
    split; [done|]. split; [done|]. split; [done|]. split.
    + intros blk Hne. rewrite !lookup_insert_ne; [done|..]; unfold k, sector; intros [= Hk]; lia.
    + split; [apply HP..|]. intros j Hj. simpl.
      destruct (pt_media s HP j Hj) as (dd & Hdd & Hdl).
      destruct (decide (start + j = k + 1)) as [->|Hj1].
      { rewrite lookup_insert_eq. eexists. split; [done|]. by rewrite length_drop, Hlen. }
      rewrite lookup_insert_ne by (intros [= Hk]; lia).
      destruct (decide (start + j = k)) as [->|Hj0].
      { rewrite lookup_insert_eq. eexists. split; [done|]. by rewrite length_take, Hlen. }
      rewrite lookup_insert_ne by (intros [= Hk]; lia). eauto.
Qed.

Lemma transferred_dom : nr_buffers s' = nr_buffers s ∧ waiters_ok (sch s').
Proof.
  destruct HT as (d & Hd & ->). split; [done|]. rewrite with_sch_sch.
  apply woken_ok, (do_wait s HD).
Qed.

Lemma transferred_ok : data_ok s'.
Proof.
  destruct transferred_disk as (b' & Hh & Hdisk & Hb' & Hlen & Hsame & Hother & HP).
  destruct transferred_dom as [Hn Hw].
  assert (key b' = key b) as Hkey by (by rewrite Hb').
  assert (∀ q bq, heads s' !! q = Some bq → ∃ b0, heads s !! q = Some b0 ∧ key bq = key b0) as Hback.
  { intros q bq. rewrite Hh. destruct (decide (q = p)) as [->|].
    - rewrite lookup_insert_eq. intros [= <-]. eauto.
    - rewrite lookup_insert_ne by done. eauto. }
  split; [|..|done|done].
  - intros q. rewrite Hn, <-(do_dom s HD), Hh. destruct (decide (q = p)) as [->|].
    + rewrite lookup_insert_eq, Hb. done.
    + by rewrite lookup_insert_ne.
  - intros q bq Hbq. pose proof (do_head s HD p b Hb) as [? ? ? ? ? ? ?].
    rewrite Hh in Hbq. destruct (decide (q = p)) as [->|Hqp].
    + rewrite lookup_insert_eq in Hbq. injection Hbq as <-. rewrite Hb'. split; simpl; try done.
      * intros; by right.
    + rewrite lookup_insert_ne in Hbq by done. destruct (do_head s HD q bq Hbq) as [? ? ? ? ? ? Hc].
      split; try done. intros Hqd Hqv Hqu Hqdirt. rewrite Hother; [by auto|]. intros E.
      apply Hqp. apply (do_key s HD q p bq b Hbq Hb).
      * rewrite Hqd. by apply (D_nonzero s), (do_part s HD).
      * unfold key. congruence.
  - intros q r bq br Hbq Hbr Hd0 Ek.
    destruct (Hback q bq Hbq) as (cq & Hcq & Eq). destruct (Hback r br Hbr) as (cr & Hcr & Er).
    apply (do_key s HD q r cq cr Hcq Hcr); [|congruence]. unfold key in Eq. congruence.
Qed.

Lemma transferred_content blk : valid blk → content s' blk = content s blk.
Proof.
  intros Hv. destruct transferred_disk as (b' & Hh & Hdisk & Hb' & Hlen & Hsame & Hother & HP).
  pose proof transferred_ok as HD'.
  assert (heads s' !! p = Some b') as Hp' by (by rewrite Hh, lookup_insert_eq).
  assert (b_dev b' = D ∧ b_blocknr b' = b_blocknr b ∧ b_uptodate b' = 1) as (E1 & E2 & E3)
    by (rewrite Hb'; done).
  destruct (decide (blk = b_blocknr b)) as [->|Hne].
  - rewrite (content_cached s' _ p b' HD' Hp') by congruence.
    destruct (decide (b_uptodate b = 0)) as [Hu|Hu].
    + rewrite content_disk.
      * destruct (decide (rw = READ)) as [Er|Er]; [|by destruct (Hwrite Er)].
        destruct HT as (d & Hd & ->). rewrite Er in Hd. simpl in Hd. rewrite Hd.
        simpl in Hp'. rewrite lookup_insert_eq in Hp'. injection Hp' as <-. done.
      * intros q bq Hbq Hqd Hqb. assert (q = p) as ->; [|congruence].
        apply (do_key s HD q p bq b Hbq Hb); [|unfold key; congruence].
        rewrite Hqd. by apply (D_nonzero s), (do_part s HD).
    + rewrite (content_cached s _ p b HD Hb) by done. by rewrite Hsame.
  - destruct (content_cases s blk) as [(q & bq & Hbq & Hqd & Hqb & Hqu)|Hnone].
    + assert (q ≠ p) as Hqp by congruence.
      assert (heads s' !! q = Some bq) as Hbq' by (by rewrite Hh, lookup_insert_ne).
      by rewrite (content_cached s' _ q bq HD' Hbq'), (content_cached s _ q bq HD Hbq).
    + rewrite (content_disk s blk Hnone), content_disk; [by apply Hother|].
      intros q bq Hbq Hqd Hqb. rewrite Hh in Hbq. destruct (decide (q = p)) as [->|].
      * rewrite lookup_insert_eq in Hbq. congruence.
      * rewrite lookup_insert_ne in Hbq by done. by eapply Hnone.
Qed.
End Transferred.

(** ** sync_dev *)

Definition written (b : buffer_head) : buffer_head := b <| b_uptodate := 1 |> <| b_dirt := 0 |>.
Record flushed (s s' : fs) : Prop := {
  fl_ok : data_ok s';
  fl_content : ∀ blk, valid blk → content s' blk = content s blk;
  fl_rest : ∃ H' m' c', s' = with_sch (s <| heads := H' |> <| media := m' |>) c';
  fl_heads : ∀ p b, heads s !! p = Some b →
    ∃ b', heads s' !! p = Some b' ∧ (b' = b ∨ b_uptodate b ≠ 0 ∧ b' = written b)
}.

Lemma flushed_refl s : data_ok s → flushed s s.
Proof.
  intros HD. split; [done|done| |by eauto]. exists (heads s), (media s), (sch s).
  by destruct s as [? ? ? ? ? ? ? ? ? ? ? ? [] ?].
Qed.
Lemma flushed_trans s1 s2 s3 : flushed s1 s2 → flushed s2 s3 → flushed s1 s3.
Proof.
  intros [_ C1 (H1 & m1 & c1 & E1) F1] [D2 C2 (H2 & m2 & c2 & E2) F2]. split; [done|..].
  - intros blk Hv. rewrite C2, C1; done.
  - exists H2, m2, c2. subst. done.
  - intros p b Hb. destruct (F1 p b Hb) as (b1 & Hb1 & Hc1). destruct (F2 p b1 Hb1) as (b2 & Hb2 & Hc2).
    exists b2. split; [done|]. destruct Hc1 as [->|[Hu ->]]; [done|]. right. split; [done|].
    destruct Hc2 as [->|[_ ->]]; done.
Qed.

Lemma wp_write_back s p b : data_ok s → heads s !! p = Some b → b_dev b = D →
  wp (b ← bh p; when (truth (b_dirt b)) (ll_rw_block WRITE p))
    (λ _ s', flushed s s' ∧ ∃ b', heads s' !! p = Some b' ∧ (valid (b_blocknr b) → b_dirt b' = 0)) s.
Proof.
  intros HD Hb Hd. apply wp_bind, (wp_bh p b); [done|]. apply wp_when; intros Hdirt.
  - apply truth_true in Hdirt. pose proof (do_head s HD p b Hb) as HK.
    pose proof (hk_dirt s b HK Hdirt) as Hu.
    eapply wp_mono; [apply (wp_ll_rw_block WRITE s p b HD); [by right|done..]|].
    intros [] s' HT. cbv beta in HT. destruct (decide _) as [HV|HV].
    2:{ subst s'. split; [by apply flushed_refl|]. exists b. done. }

    destruct (transferred_disk WRITE s s' p b HD Hb Hd HV ltac:(done) HT)
      as (b' & Hh & Hdisk & Hb' & Hlen & Hsame & _).
    split; [|exists b'; split; [by rewrite Hh, lookup_insert_eq|intros _; by rewrite Hb']].
    split.
    + by apply (transferred_ok WRITE s s' p b).
    + by apply (transferred_content WRITE s s' p b).
    + destruct HT as (d & _ & ->). eauto.
    + intros q bq Hbq. rewrite Hh. destruct (decide (q = p)) as [->|].
      * rewrite lookup_insert_eq. eexists. split; [done|]. right. rewrite Hb in Hbq. injection Hbq as <-.
        split; [done|]. rewrite Hb', Hsame by done. by destruct b.
      * rewrite lookup_insert_ne by done. eauto.
  - apply truth_false in Hdirt. split; [by apply flushed_refl|]. eauto.
Qed.

(** A loop over the buffers that writes those of the device back. *)
Definition written_back (b : buffer_head) (p : Z) (s s' : fs) : Prop :=
  flushed s s' ∧ ∃ b', heads s' !! p = Some b' ∧ (valid (b_blocknr b) → b_dirt b' = 0).
Lemma wp_sync_loop s (body : Z → M fs ()) : data_ok s →
  (∀ s1 p b, data_ok s1 → heads s1 !! p = Some b →
    if decide (b_dev b = D) then wp (body p) (λ _ s2, written_back b p s1 s2) s1 else body p s1 = Ret tt s1) →
  wp (l ← all_buffers; mfor body l) (λ _ s', flushed s s' ∧
    ∀ p b, heads s' !! p = Some b → b_dev b = D → valid (b_blocknr b) → b_dirt b = 0) s.
Proof.
  intros HD Hbody. apply wp_bind. unfold all_buffers. apply wp_bind, wp_gets, wp_ret.
  set (all := map Z.succ (upto (nr_buffers s))).
  set (Inv := λ (l : list Z) (s1 : fs), flushed s s1 ∧ (∀ p, p ∈ l → p ∈ all) ∧
    ∀ p b, heads s1 !! p = Some b → p ∉ l → b_dev b = D → valid (b_blocknr b) → b_dirt b = 0).
  assert (∀ p, p ∈ all ↔ is_Some (heads s !! p)) as Hall.
  { intros p. rewrite (do_dom s HD). unfold all. rewrite list_elem_of_fmap. split.
    - intros (y & -> & Hy%elem_of_upto). lia.
    - intros Hp. exists (p - 1). rewrite elem_of_upto. lia. }
  eapply wp_mono; [apply (wp_mfor _ Inv)|].
  - split; [by apply flushed_refl|]. split; [done|]. intros p b Hb Hp. destruct Hp. apply Hall. eauto.
  - intros p l s1 (HF & Hin & Hclean). pose proof (fl_ok s s1 HF) as HD1.
    assert (is_Some (heads s !! p)) as [b0 Hb0] by (apply Hall, Hin; by left).
    destruct (fl_heads s s1 HF p b0 Hb0) as (b & Hb & _).
    pose proof (Hbody s1 p b HD1 Hb) as Hb1. destruct (decide (b_dev b = D)) as [Hd|Hd].
    + eapply wp_mono; [exact Hb1|].
      intros [] s2 [HF2 (b' & Hb' & Hdirt)]. split; [by eapply flushed_trans|].
      split; [intros; apply Hin; by right|]. intros q c Hc Hq Hcd Hcv.
      destruct (fl_heads s1 s2 HF2 p b Hb) as (b2 & Hb2 & Heq). rewrite Hb' in Hb2. injection Hb2 as <-.
      destruct (decide (q = p)) as [->|Hqp].
      * rewrite Hb' in Hc. injection Hc as <-. apply Hdirt. by destruct Heq as [->|[_ ->]].
      * assert (is_Some (heads s1 !! q)) as [c1 Hc1].
        { assert (nr_buffers s2 = nr_buffers s1) as En by (destruct (fl_rest s1 s2 HF2) as (? & ? & ? & ->); done).
          apply (do_dom s1 HD1). rewrite <-En. apply (do_dom s2 (fl_ok s1 s2 HF2)). eauto. }
        destruct (fl_heads s1 s2 HF2 q c1 Hc1) as (c2 & Hc2 & Hcq). rewrite Hc in Hc2. injection Hc2 as <-.
        destruct Hcq as [->|[_ ->]]; [|done]. apply (Hclean q c1 Hc1); [|done..].
        by apply not_elem_of_cons.
    + eapply wp_of_ret; [exact Hb1|]. split; [done|]. split; [intros; apply Hin; by right|].
      intros q c Hc Hq Hcd. destruct (decide (q = p)) as [->|]; [congruence|].
      apply (Hclean q c Hc); [|done]. by apply not_elem_of_cons.
  - intros [] s1 (HF & _ & Hclean). split; [done|]. intros p b Hb. apply (Hclean p b Hb).
    apply not_elem_of_nil.
Qed.

Lemma wp_sync s : data_ok s →
  wp (sync_dev D) (λ _ s', flushed s s' ∧
    ∀ p b, heads s' !! p = Some b → b_dev b = D → valid (b_blocknr b) → b_dirt b = 0) s.
Proof.
  intros HD. apply wp_sync_loop; [done|]. intros s1 p b HD1 Hb. case_decide as Hd.
  - apply wp_bind, (wp_bh p b); [done|]. rewrite Hd, Z.eqb_refl. simpl.
    apply wp_bind. eapply wp_of_ret; [|by apply wp_write_back].
    by apply (wait_on_buffer_Ret p b), (hk_lock s1), (do_head s1 HD1 p).
  - rewrite (bind_ret _ _ _ _ _ (bh_Ret p b s1 Hb)). by rewrite (proj2 (Z.eqb_neq (b_dev b) D)).
Qed.
(** sys_sync looks at the buffers of all devices; there are no others. *)
Lemma wp_sync_buffers s : data_ok s →
  wp sync_buffers (λ _ s', flushed s s' ∧
    ∀ p b, heads s' !! p = Some b → b_dev b = D → valid (b_blocknr b) → b_dirt b = 0) s.
Proof.
  intros HD. apply wp_sync_loop; [done|]. intros s1 p b HD1 Hb. pose proof (do_head s1 HD1 p b Hb) as HK.
  assert (wait_on_buffer p s1 = Ret tt s1) as Ew by (by apply (wait_on_buffer_Ret p b), (hk_lock s1)).
  case_decide as Hd.
  - apply wp_bind. eapply wp_of_ret; [exact Ew|by apply wp_write_back].
  - rewrite (bind_ret _ _ _ _ _ Ew), (bind_ret _ _ _ _ _ (bh_Ret p b s1 Hb)).
    destruct (hk_dev s1 b HK) as [[_ ->]|]; done.
Qed.

Lemma flushed_inv x s s' : flushed s s' → cache_inv x s → cache_inv x s'.
Proof.
  intros [HD _ (H' & m' & c' & ->) Hh] HI. simpl in Hh.
  assert (∀ (T : Type) (g : buffer_head → T), (∀ b, g (written b) = g b) →
    ∀ p, view g H' p = view g (heads s) p) as Hview.
  { intros T g Hg p. destruct (heads s !! p) as [b|] eqn:Hb.
    - rewrite (view_Some _ _ _ _ Hb). destruct (Hh p b Hb) as (b' & Hb' & Hc).
      rewrite (view_Some _ _ _ _ Hb'). by destruct Hc as [->|[_ ->]]; rewrite ?Hg.
    - unfold view. rewrite Hb. destruct (H' !! p) as [b'|] eqn:Hb'; [|done].
      assert (is_Some (heads s !! p)) as [? ?]; [|congruence].
      apply (ci_dom x s HI), (do_dom _ HD). simpl. eauto. }
  apply (cache_inv_data x s); try done; simpl.
  - intros k p. apply Hview. by destruct k.
  - intros p _. by apply Hview.
Qed.

(** ** Steps that keep what the blocks hold *)

(** Only the buffers, their queues, the disk and the wait queues change. *)
Definition only_cache (s s' : fs) : Prop := ∃ H' T' F' w m' c',
  s' = with_sch (s <| heads := H' |> <| hash_table := T' |> <| free_list := F' |>
                   <| null_b_prev := w |> <| media := m' |>) c'.
(** Besides, every buffer but [t] keeps its block, its users and its data. *)
Definition others (t : Z) (s s' : fs) : Prop :=
  only_cache s s' ∧ (∀ blk, valid blk → content s' blk = content s blk) ∧
  ∀ q b, q ≠ t → heads s !! q = Some b → ∃ b', heads s' !! q = Some b' ∧
    key b' = key b ∧ b_count b' = b_count b ∧ b_data b' = b_data b ∧ (b_uptodate b ≠ 0 → b_uptodate b' ≠ 0).
#[global] Instance only_cache_preorder : PreOrder only_cache.
Proof.
  split.
  - intros s. exists (heads s), (hash_table s), (free_list s), (null_b_prev s), (media s), (sch s).
    by destruct s as [? ? ? ? ? ? ? ? ? ? ? ? [] ?].
  - intros s1 s2 s3 (H1 & T1 & F1 & w1 & m1 & c1 & ->) (H2 & T2 & F2 & w2 & m2 & c2 & ->).
    by exists H2, T2, F2, w2, m2, c2.
Qed.
#[local] Instance others_preorder t : PreOrder (others t).
Proof.
  split.
  - intros s. split; [done|]. split; [done|]. eauto 10.
  - intros s1 s2 s3 (R1 & C1 & O1) (R2 & C2 & O2). split; [by transitivity s2|]. split.
    + intros blk Hv. by rewrite C2, C1.
    + intros q b Hq Hb. destruct (O1 q b Hq Hb) as (b1 & Hb1 & ? & ? & ? & ?).
      destruct (O2 q b1 Hq Hb1) as (b2 & Hb2 & ? & ? & ? & ?). exists b2. split_and!; try congruence. auto.
Qed.
Lemma only_cache_n s s' : only_cache s s' → nr_buffers s' = nr_buffers s.
Proof. by intros (? & ? & ? & ? & ? & ? & ->). Qed.

(** The keys of the other buffers are as they were. *)
Lemma others_key t s s' q b' : data_ok s → data_ok s' → others t s s' → q ≠ t →
  heads s' !! q = Some b' → ∃ b, heads s !! q = Some b ∧ key b' = key b.
Proof.
  intros HD HD' (HR & _ & HO) Hq Hb'.
  assert (is_Some (heads s !! q)) as [b Hb].
  { apply (do_dom s HD). rewrite <-(only_cache_n s s' HR). apply (do_dom s' HD'). eauto. }
  destruct (HO q b Hq Hb) as (b1 & Hb1 & ? & _). rewrite Hb' in Hb1. injection Hb1 as <-. eauto.
Qed.

Lemma flushed_others t s s' : flushed s s' → others t s s'.
Proof.
  intros [_ HC (H' & m' & c' & ->) HF]. split.
  - by exists H', (hash_table s), (free_list s), (null_b_prev s), m', c'; destruct s.
  - split; [done|]. intros q b _ Hb. destruct (HF q b Hb) as (b' & Hb' & Hc). exists b'.
    by destruct Hc as [->|[? ->]].
Qed.

Lemma relinked_data t s s' : relinked s s' → data_ok s → data_ok s' ∧ others t s s'.
Proof.
  intros (H' & T' & F' & w & -> & Hp) HD. set (s' := _ <| null_b_prev := w |>).
  assert (∀ p, is_Some (H' !! p) ↔ is_Some (heads s !! p)) as Hdom by (intros; by apply payload_dom).
  assert (∀ p b', H' !! p = Some b' → ∃ b, heads s !! p = Some b ∧ payload b' = payload b) as Hback.
  { intros p b'. by apply payload_back. }
  assert (data_ok s') as HD'.
  { split; simpl.
    - intros p. rewrite Hdom. apply (do_dom s HD).
    - intros p b' Hb'. destruct (Hback p b' Hb') as (b & Hb & Heq).
      destruct (do_head s HD p b Hb) as [? ? ? ? ? ? ?].
      apply payload_fields in Heq as (E1 & E2 & E3 & E4 & E5 & E6 & E7).
      split; rewrite ?E1, ?E2, ?E3, ?E4, ?E5, ?E6, ?E7; try done.
    - intros p q bp bq Hbp Hbq Hd Hk.
      destruct (Hback p bp Hbp) as (cp & Hcp & (_ & Ep1 & Ep2 & _)%payload_fields).
      destruct (Hback q bq Hbq) as (cq & Hcq & (_ & Eq1 & Eq2 & _)%payload_fields).
      apply (do_key s HD p q cp cq Hcp Hcq); unfold key in *; congruence.
    - apply (do_wait s HD).
    - by apply (partition_same s), (do_part s HD). }
  split; [done|]. split; [|split].
  - exists H', T', F', w, (media s), (sch s). by destruct s as [? ? ? ? ? ? ? ? ? ? ? ? [] ?].
  - intros blk _. unfold content. simpl.
    assert (∀ p, cached s' blk p = cached s blk p) as Hc.
    { intros p. unfold cached. simpl. specialize (Hp p). unfold view in Hp.
      destruct (H' !! p) as [b'|], (heads s !! p) as [b|]; try done. apply (inj Some) in Hp.
      by apply payload_fields in Hp as (_ & -> & -> & -> & _). }
    assert (find (cached s' blk) (map Z.succ (upto (nr_buffers s))) =
            find (cached s blk) (map Z.succ (upto (nr_buffers s)))) as ->.
    { induction (map Z.succ _) as [|p l IH]; [done|]. simpl. by rewrite Hc, IH. }
    destruct (find _ _) as [p|]; [|done]. specialize (Hp p). unfold view in Hp.
    destruct (H' !! p) as [b'|], (heads s !! p) as [b|]; try done. apply (inj Some) in Hp.
    simpl. by apply payload_fields in Hp as (-> & _).
  - intros q b _ Hb. assert (is_Some (H' !! q)) as [b' Hb'] by (apply Hdom; eauto). exists b'.
    split; [done|]. destruct (Hback q b' Hb') as (b0 & Hb0 & Heq). rewrite Hb in Hb0. injection Hb0 as <-.
    apply payload_fields in Heq as (E1 & E2 & E3 & E4 & E5 & E6 & E7).
    unfold key. by rewrite E1, E2, E3, E4, E6.
Qed.

(** A change of the buffer [p] ... *)
Lemma set_ok s p b b' : data_ok s → heads s !! p = Some b → head_ok s b' →
  (key b' = key b ∨ b_dev b' = 0 ∨ ∀ q c, q ≠ p → heads s !! q = Some c → key c ≠ key b') →
  data_ok (s <| heads := <[p := b']> (heads s) |>).
Proof.
  intros HD Hb HK Hkey. split; simpl.
  - intros q. rewrite <-(do_dom s HD). destruct (decide (q = p)) as [->|].
    + rewrite lookup_insert_eq, Hb. done.
    + by rewrite lookup_insert_ne.
  - intros q c Hc. apply (head_ok_same s); [done|]. destruct (decide (q = p)) as [->|].
    + rewrite lookup_insert_eq in Hc. by injection Hc as <-.
    + rewrite lookup_insert_ne in Hc by done. by apply (do_head s HD q).
  - intros q r bq br Hq Hr Hd Ek.
    destruct (decide (q = p)) as [->|Hqp], (decide (r = p)) as [->|Hrp]; [done|..].
    + rewrite lookup_insert_eq in Hq. rewrite lookup_insert_ne in Hr by done. injection Hq as <-.
      destruct Hkey as [Hk|[?|Hk]]; [|done|by destruct (Hk r br)].
      apply (do_key s HD p r b br Hb Hr); unfold key in *; congruence.
    + rewrite lookup_insert_eq in Hr. rewrite lookup_insert_ne in Hq by done. injection Hr as <-.
      destruct Hkey as [Hk|[?|Hk]]; [|unfold key in Ek; congruence|by destruct (Hk q bq)].
      apply (do_key s HD q p bq b Hq Hb); unfold key in *; congruence.
    + rewrite !lookup_insert_ne in Hq, Hr by done. by apply (do_key s HD q r bq br).
  - apply (do_wait s HD).
  - by apply (partition_same s), (do_part s HD).
Qed.
Lemma set_only s p b' : only_cache s (s <| heads := <[p := b']> (heads s) |>).
Proof.
  exists (<[p := b']> (heads s)), (hash_table s), (free_list s), (null_b_prev s), (media s), (sch s).
  by destruct s as [? ? ? ? ? ? ? ? ? ? ? ? [] ?].
Qed.
(** ... where its data is kept, or it is given up ... *)
Lemma set_data s p b b' : data_ok s → heads s !! p = Some b → head_ok s b' →
  (key b' = key b ∨ b_dev b' = 0 ∨ ∀ q c, q ≠ p → heads s !! q = Some c → key c ≠ key b') →
  (key b' = key b ∧ b_uptodate b' = b_uptodate b ∧ b_data b' = b_data b ∨
   b_uptodate b' = 0 ∧ (b_dev b = D → valid (b_blocknr b) → b_dirt b = 0)) →
  let s' := s <| heads := <[p := b']> (heads s) |> in data_ok s' ∧ others p s s'.
Proof.
  intros HD Hb HK Hkey Hdata s'.
  assert (∀ q, q ≠ p → heads s' !! q = heads s !! q) as Hne by (intros; simpl; by rewrite lookup_insert_ne).
  assert (heads s' !! p = Some b') as Hp by (simpl; by rewrite lookup_insert_eq).
  assert (data_ok s') as HD' by (by apply (set_ok s p b)).
  split; [done|]. split; [|split].
  - apply set_only.
  - intros blk Hv. destruct (content_cases s blk) as [(q & c & Hc & Hcd & Hck & Hcu)|Hnone].
    + rewrite (content_cached s blk q c HD Hc) by done. destruct (decide (q = p)) as [->|Hq].
      * rewrite Hb in Hc. injection Hc as <-. destruct Hdata as [(Hk & Hu & Hdd)|(Hu & Hcl)].
        -- rewrite (content_cached s' blk p b' HD' Hp); [by rewrite Hdd|..|by rewrite Hu];
             unfold key in Hk; congruence.
        -- rewrite content_disk.
           ++ subst blk. rewrite (disk_same s) by done.
              by apply (hk_clean s b (do_head s HD p b Hb)); auto.
           ++ intros r br Hbr Hrd Hrk. destruct (decide (r = p)) as [->|Hrp]; [congruence|].
              exfalso. rewrite Hne in Hbr by done. apply Hrp.
              apply (do_key s HD r p br b Hbr Hb); [|unfold key; congruence].
              rewrite Hrd. by apply (D_nonzero s), (do_part s HD).
      * apply (content_cached s' blk q c HD'); [by rewrite Hne|done..].
    + rewrite (content_disk s blk Hnone), content_disk; [by rewrite (disk_same s)|].
      intros q c Hc Hcd Hck. destruct (decide (q = p)) as [->|Hq].
      * rewrite Hp in Hc. injection Hc as <-. destruct Hdata as [(Hk & Hu & _)|(? & _)]; [|done].
        rewrite Hu. apply (Hnone p b Hb); unfold key in Hk; congruence.
      * rewrite Hne in Hc by done. by apply (Hnone q c).
  - intros q c Hq Hc. exists c. by rewrite Hne.
Qed.

(** ... and where it is written to: the other blocks hold what they held. *)
Lemma set_others s p b b' : data_ok s → heads s !! p = Some b → head_ok s b' → b_dev b = D →
  key b' = key b →
  let s' := s <| heads := <[p := b']> (heads s) |> in
  data_ok s' ∧ ∀ blk, blk ≠ b_blocknr b → content s' blk = content s blk.
Proof.
  intros HD Hb HK Hd Hkey s'.
  assert (data_ok s') as HD' by (apply (set_ok s p b); auto).
  unfold key in Hkey. split; [done|].
  intros blk Hne. destruct (content_cases s blk) as [(q & c & Hc & Hcd & Hck & Hcu)|Hnone].
  - rewrite (content_cached s blk q c) by done. apply (content_cached s' blk q c); try done.
    simpl. rewrite lookup_insert_ne by congruence. done.
  - rewrite (content_disk s blk Hnone), content_disk; [by rewrite (disk_same s)|].
    intros q c Hc Hcd Hck. simpl in Hc. destruct (decide (q = p)) as [->|].
    + rewrite lookup_insert_eq in Hc. congruence.
    + rewrite lookup_insert_ne in Hc by done. by apply (Hnone q c).
Qed.
Lemma set_content s p b b' : data_ok s → heads s !! p = Some b → head_ok s b' → b_dev b = D →
  key b' = key b → b_uptodate b' ≠ 0 →
  let s' := s <| heads := <[p := b']> (heads s) |> in
  data_ok s' ∧ content s' (b_blocknr b) = Some (b_data b') ∧
  ∀ blk, blk ≠ b_blocknr b → content s' blk = content s blk.
Proof.
  intros HD Hb HK Hd Hkey Hu' s'. destruct (set_others s p b b' HD Hb HK Hd Hkey) as [HD' HO].
  split; [done|]. split; [|done]. unfold key in Hkey.
  apply (content_cached s' _ p b'); [done|simpl; by rewrite lookup_insert_eq|congruence|congruence|done].
Qed.

(** ** getblk and bread *)

(** The users of the other buffers are left alone; [p] has one more. *)
Definition held (p : Z) (s s' : fs) : Prop := ∀ q b, heads s !! q = Some b →
  ∃ b', heads s' !! q = Some b' ∧ b_count b' = b_count b + (if decide (q = p) then 1 else 0) ∧
    (b_count b ≠ 0 → key b' = key b ∧ (b_uptodate b ≠ 0 → b_uptodate b' ≠ 0 ∧ b_data b' = b_data b)).

Lemma others_held p s s' : others p s s' →
  (∀ b, heads s !! p = Some b → ∃ b', heads s' !! p = Some b' ∧ b_count b' = b_count b + 1 ∧
     (b_count b ≠ 0 → key b' = key b ∧ (b_uptodate b ≠ 0 → b_uptodate b' ≠ 0 ∧ b_data b' = b_data b))) →
  held p s s'.
Proof.
  intros (_ & _ & HO) Hp q b Hb. destruct (decide (q = p)) as [->|Hq].
  - by apply Hp.
  - destruct (HO q b Hq Hb) as (b' & Hb' & ? & ? & ? & ?). exists b'. split_and!; auto; lia.
Qed.

Lemma wp_get_hash_table s blk (Q : Z → fs → Prop) n : cache_ok s → 0 ≤ blk < 65536 →
  (∀ p b, heads s !! p = Some b → key b = (D, blk) → b_count b < 255) →
  ((∀ p b, heads s !! p = Some b → key b ≠ (D, blk)) → Q NULL s) →
  (∀ p b, heads s !! p = Some b → key b = (D, blk) → p ≠ 0 →
     Q p (s <| heads := <[p := b <| b_count := b_count b + 1 |>]> (heads s) |>)) →
  wp (get_hash_table (S n) D blk) Q s.
Proof.
  intros [HI HD] Hblk Hcnt Hmiss Hhit.
  assert (D ≠ 0) as HD0 by (apply (D_nonzero s), (do_part s HD)).
  assert (∀ p, is_Some (heads s !! p) → p ≠ 0) as Hnz.
  { intros p Hp. apply (do_dom s HD) in Hp. lia. }
  destruct (find_buffer_run 0 s D blk HI HD0) as (r & Hr & Hr0 & Hr1).
  cbn [get_hash_table]. apply wp_bind. eapply wp_of_ret; [exact Hr|].
  destruct (Z.eqb_spec r NULL) as [->|Hrn].
  - apply wp_ret, Hmiss. intros p b Hb [= Hd Hk].
    apply (Hr0 eq_refl p); [by apply Hnz; eauto|]. by exists b.
  - destruct (Hr1 Hrn) as (_ & b & Hb & Hd & Hk).
    assert (key b = (D, blk)) as Hkey by (unfold key; congruence).
    specialize (Hcnt r b Hb Hkey). pose proof (do_head s HD r b Hb) as HK.
    apply wp_bind, (wp_set_bh r b); [done|]. simpl.
    rewrite u8_small by (pose proof (hk_count s b HK); lia).
    set (b1 := b <| b_count := b_count b + 1 |>).
    set (s1 := s <| heads := <[r := b1]> (heads s) |>).
    assert (heads s1 !! r = Some b1) as Hb1 by (simpl; by rewrite lookup_insert_eq).
    apply wp_bind. eapply wp_of_ret; [apply (wait_on_buffer_Ret r b1 s1 Hb1); apply (hk_lock s b HK)|].
    apply wp_bind, (wp_bh r b1); [done|]. simpl. rewrite Hd, Hk, !Z.eqb_refl. simpl.
    apply wp_ret. by apply Hhit.
Qed.

Lemma wp_find_free s (Q : Z → fs → Prop) : cache_ok s → (∃ p b, heads s !! p = Some b ∧ b_count b = 0) →
  (∀ p b, heads s !! p = Some b → b_count b = 0 → p ≠ 0 → Q p s) →
  wp (find_free (nr_buffers s) (free_list s)) Q s.
Proof.
  intros [HI HD] (pf & bf & Hbf & Hcf) HQ. destruct (ci_free 0 s HI) as (l & Hnd & Hin & HL).
  pose proof Hnd as [HF Hl]%NoDup_cons.
  assert (length (free_list s :: l) ≤ nr_buffers s)%nat as Hlen.
  { apply all_bounded; [done|]. intros p Hp. by apply Hin. }
  destruct (find_free_run s (nr_buffers s) (free_list s) l) as (r & Hr & Hr0 & Hr1).
  - simpl in Hlen. lia.
  - done.
  - intros p Hp. apply Hin in Hp as [Hp ?]. apply (do_dom s HD) in Hp as [b Hb].
    exists b. split; [done|]. split; [|done]. by apply (hk_lock s), (do_head s HD p).
  - exact HL.
  - eapply wp_of_ret; [exact Hr|]. destruct (decide (r = 0)) as [E|E].
    + exfalso. destruct (Hr0 E pf) as (b & Hb & Hc); [|congruence].
      apply Hin. assert (1 ≤ pf ≤ Z.of_nat (nr_buffers s)) by (apply (do_dom s HD); eauto). lia.
    + destruct (Hr1 E) as (_ & b & Hb & Hc). by eapply HQ.
Qed.

(** A free buffer [t] has been taken for the block: it is out of the queues. *)
Definition taken (t : Z) (s s' : fs) : Prop := cache_inv t s' ∧ data_ok s' ∧ others t s s' ∧
  ∃ b, heads s' !! t = Some b ∧ b_count b = 1.

Lemma wp_take s t b : cache_ok s → heads s !! t = Some b → b_count b = 0 →
  wp (set_bh t (λ b, b <| b_count := u8 (b_count b + 1) |>);; remove_from_queues t) (λ _, taken t s) s.
Proof.
  intros [HI HD] Hb Hc. apply wp_bind, (wp_set_bh t b); [done|]. simpl. rewrite Hc.
  change (u8 (0 + 1)) with 1. set (b1 := b <| b_count := 1 |>).
  pose proof (do_head s HD t b Hb) as HK.
  destruct (set_data s t b b1 HD Hb) as [HD1 HO1]; [| |by left|].
  { destruct HK. by split. } { by left. }
  set (s1 := s <| heads := <[t := b1]> (heads s) |>) in *.
  assert (heads s1 !! t = Some b1) as Hb1 by (simpl; by rewrite lookup_insert_eq).
  assert (cache_inv 0 s1) as HI1 by (apply (cache_inv_set 0 s t b); [done..|by intros []|by right]).
  eapply wp_mono; [by apply (wp_remove s1 t b1)|]. intros [] s2 [HI2 HR].
  destruct (relinked_data t s1 s2 HR HD1) as [HD2 HO2].
  split; [done|]. split; [done|]. split; [by transitivity s1|].
  destruct HR as (H' & T' & F' & w & -> & Hp). simpl. specialize (Hp t).
  rewrite (view_Some _ _ _ _ Hb1) in Hp. destruct (view_inv _ _ _ _ Hp) as (b2 & Hb2 & Heq).
  exists b2. split; [done|]. by apply payload_fields in Heq as (_ & _ & _ & _ & _ & -> & _).
Qed.

(** What getblk does with the buffer it has taken. *)
Lemma wp_reuse s s1 t blk : data_ok s → 0 ≤ blk < 65536 → t ≠ 0 → taken t s s1 →
  (∀ p b, heads s !! p = Some b → key b ≠ (D, blk)) → ∀ K,
  (∀ s', cache_ok s' → others t s s' →
     (∃ b, heads s' !! t = Some b ∧ key b = (D, blk) ∧ b_count b = 1 ∧ b_uptodate b = 0 ∧ b_dirt b = 0) →
     K t s') →
  wp (b ← bh t;
      when (truth (b_dirt b)) (sync_dev (b_dev b));;
      set_bh t (λ b, b <| b_dev := u16 D |> <| b_blocknr := u16 blk |>
                       <| b_dirt := 0 |> <| b_uptodate := 0 |>);;
      other ← find_buffer D blk;
      if truth other then
        set_bh t (λ b, b <| b_dev := 0 |> <| b_blocknr := 0 |> <| b_count := 0 |>);;
        insert_into_queues t;;
        getblk_loop 1 D blk
      else insert_into_queues t;; mret t) K s1.
Proof.
  intros HD Hblk Ht0 (HI1 & HD1 & HO1 & b & Hb & Hcnt) Hnew K HK.
  assert (D ≠ 0) as HD0 by (apply (D_nonzero s), (do_part s HD)).
  apply wp_bind, (wp_bh t b); [done|]. apply wp_bind.
  (* after sync_dev *)
  assert (wp (when (truth (b_dirt b)) (sync_dev (b_dev b))) (λ _ s2, flushed s1 s2 ∧
    (∀ b2, heads s2 !! t = Some b2 → b_dev b2 = D → valid (b_blocknr b2) → b_dirt b2 = 0)) s1) as Hsync.
  { apply wp_when; intros Hdirt.
    - apply truth_true in Hdirt. destruct (hk_dev s1 b (do_head s1 HD1 t b Hb)) as [[_ ?]|Hd]; [done|].
      rewrite Hd. eapply wp_mono; [by apply wp_sync|]. intros [] s2 [HF Hcl]. split; [done|].
      intros b2 Hb2. by apply (Hcl t).
    - apply truth_false in Hdirt. split; [by apply flushed_refl|]. intros b2 Hb2. congruence. }
  eapply wp_mono; [exact Hsync|]. clear Hsync. intros [] s2 [HF Hcl].
  pose proof (fl_ok s1 s2 HF) as HD2. pose proof (flushed_inv t s1 s2 HF HI1) as HI2.
  assert (others t s s2) as HO2 by (transitivity s1; [done|by apply flushed_others]).
  destruct (fl_heads s1 s2 HF t b Hb) as (b2 & Hb2 & Heq2).
  assert (b_count b2 = 1) as Hcnt2 by (by destruct Heq2 as [->|[_ ->]]).
  apply wp_bind, (wp_set_bh t b2); [done|]. simpl.
  rewrite (u16_small D), (u16_small blk) by (done || apply (pt_dev s), (do_part s HD)).
  set (b3 := b2 <| b_dev := D |> <| b_blocknr := blk |> <| b_dirt := 0 |> <| b_uptodate := 0 |>).
  assert (∀ q c, q ≠ t → heads s2 !! q = Some c → key c ≠ (D, blk)) as Hnew2.
  { intros q c Hq Hc. destruct (others_key t s s2 q c HD HD2 HO2 Hq Hc) as (c0 & Hc0 & ->).
    by apply (Hnew q). }
  destruct (set_data s2 t b2 b3 HD2 Hb2) as [HD3 HO3].
  { destruct (do_head s2 HD2 t b2 Hb2) as [? ? ? ? ? ? ?]. split; simpl; try done. intros; by right. }
  { right; right. exact Hnew2. }
  { right. split; [done|]. by apply Hcl. }
  set (s3 := s2 <| heads := <[t := b3]> (heads s2) |>) in *.
  assert (heads s3 !! t = Some b3) as Hb3 by (simpl; by rewrite lookup_insert_eq).
  assert (cache_inv t s3) as HI3 by (apply (cache_inv_set t s2 t b2); [done..|by intros []|by left]).
  assert (∀ q, q ≠ t → ¬ has_key s3 D blk q) as Hnew3.
  { intros q Hq (c & Hc & Hcd & Hck). simpl in Hc. rewrite lookup_insert_ne in Hc by done.
    apply (Hnew2 q c Hq Hc). unfold key. congruence. }
  destruct (find_buffer_run t s3 D blk HI3 HD0) as (r & Hr & _ & Hr1).
  apply wp_bind. eapply wp_of_ret; [exact Hr|].
  assert (r = 0) as ->.
  { destruct (decide (r = 0)) as [|E]; [done|]. destruct (Hr1 E) as [Hrt Hrk]. by destruct (Hnew3 r Hrt). }
  change (truth 0) with false. cbv beta iota.
  apply wp_bind. eapply wp_mono; [by apply (wp_insert s3 t b3)|].
  intros [] s4 [HI4 HR]. destruct (relinked_data t s3 s4 HR HD3) as [HD4 HO4].
  apply wp_ret, HK.
  - by split.
  - transitivity s3; [by transitivity s2|done].
  - destruct HR as (H' & T' & F' & w & -> & Hp). simpl. specialize (Hp t).
    rewrite (view_Some _ _ _ _ Hb3) in Hp. destruct (view_inv _ _ _ _ Hp) as (b4 & Hb4 & Heq).
    exists b4. split; [done|]. apply payload_fields in Heq as (_ & E1 & E2 & E3 & E4 & E5 & _).
    unfold key. rewrite E1, E2, E3, E4, E5. split_and!; done.
Qed.

Lemma wp_getblk s blk : cache_ok s → 0 ≤ blk < 65536 →
  (∃ p b, heads s !! p = Some b ∧ b_count b = 0) →
  (∀ p b, heads s !! p = Some b → key b = (D, blk) → b_count b < 255) →
  wp (getblk D blk) (λ p s', cache_ok s' ∧ p ≠ 0 ∧ held p s s' ∧ only_cache s s' ∧
    (∀ blk', valid blk' → content s' blk' = content s blk') ∧
    ∃ b, heads s' !! p = Some b ∧ key b = (D, blk) ∧ 1 ≤ b_count b) s.
Proof.
  intros HC Hblk Hfree Hcnt. pose proof HC as [HI HD].
  unfold getblk. change REPEAT with 2%nat. cbn [getblk_loop]. change REPEAT with 2%nat.
  apply wp_bind, wp_get_hash_table; [done..| |].
  - intros Hnew. change (truth NULL) with false. cbv beta iota.
    apply wp_bind, wp_gets, wp_bind, wp_gets, wp_bind, wp_find_free; [done..|].
    intros t b Hb Hc Ht. destruct (Z.eqb_spec t NULL); [done|].
    pose proof (wp_take s t b HC Hb Hc) as Htake. apply wp_bind_inv in Htake.
    apply wp_bind. eapply wp_mono; [exact Htake|]. intros [] s0 Hs0.
    apply wp_bind. eapply wp_mono; [exact Hs0|]. intros [] s1 HT.
    apply (wp_reuse s s1 t blk); [done..|]. intros s' HC' HO' (b' & Hb' & Hk & Hc' & _).
    split; [done|]. split; [done|]. split.
    { apply others_held; [done|]. intros b0 Hb0. rewrite Hb in Hb0. injection Hb0 as <-.
      exists b'. split_and!; [done|lia|by intros []]. }
    split; [apply HO'|]. split; [apply HO'|]. exists b'. split_and!; try done. lia.
  - intros p b Hb Hk Hp. rewrite (proj2 (truth_true p) Hp). apply wp_ret.
    specialize (Hcnt p b Hb Hk). pose proof (do_head s HD p b Hb) as HK. pose proof (hk_count s b HK).
    set (b1 := b <| b_count := b_count b + 1 |>).
    destruct (set_data s p b b1 HD Hb) as [HD1 HO1]; [|by left|by left|].
    { destruct HK. split; try done. simpl. lia. }
    split; [split; [|done]; apply (cache_inv_set 0 s p b); [done..|by intros []|by right]|].
    split; [done|]. split.
    { apply others_held; [done|]. intros b0 Hb0. rewrite Hb in Hb0. injection Hb0 as <-.
      exists b1. simpl. rewrite lookup_insert_eq. done. }
    split; [apply HO1|]. split; [apply HO1|]. exists b1. simpl. rewrite lookup_insert_eq.
    split_and!; try done. simpl. lia.
Qed.

(** What bread promises for the block [blk], whose buffer is [p]. *)
Definition bread_post (s : fs) (blk p : Z) (s' : fs) : Prop :=
  cache_ok s' ∧ held p s s' ∧ only_cache s s' ∧
  (∀ blk', valid blk' → content s' blk' = content s blk') ∧
  ∃ b, heads s' !! p = Some b ∧ key b = (D, blk) ∧ 1 ≤ b_count b ∧ b_uptodate b ≠ 0 ∧
    content s blk = Some (b_data b).

Lemma wp_bread s blk : cache_ok s → valid blk →
  (∃ p b, heads s !! p = Some b ∧ b_count b = 0) →
  (∀ p b, heads s !! p = Some b → key b = (D, blk) → b_count b < 255) →
  wp (bread D blk) (bread_post s blk) s.
Proof.
  intros HC HV Hfree Hcnt. unfold bread. apply wp_bind.
  eapply wp_mono; [apply (wp_getblk s blk); [done|apply HV|done..]|].
  intros p s1 ([HI1 HD1] & Hp & Hheld & Honly & Hcont & b & Hb & Hk & Hc).
  assert (b_dev b = D ∧ b_blocknr b = blk) as [Hbd Hbk] by (unfold key in Hk; split; congruence).
  destruct (Z.eqb_spec p NULL); [done|]. apply wp_bind, (wp_bh p b); [done|].
  destruct (truth (b_uptodate b)) eqn:Hu.
  - apply truth_true in Hu. apply wp_ret. split; [done|]. split; [done|]. split; [done|]. split; [done|].
    exists b. rewrite <-Hcont by done. rewrite (content_cached s1 blk p b) by done. done.
  - apply truth_false in Hu. pose proof (do_head s1 HD1 p b Hb) as HK.
    assert (b_dirt b = 0) as Hdirt.
    { destruct (decide (b_dirt b = 0)) as [|E]; [done|]. by destruct (hk_dirt s1 b HK E). }
    apply wp_bind. eapply wp_mono; [apply (wp_ll_rw_block READ s1 p b HD1); [by left|done..]|].
    intros [] s2 HT. cbv beta in HT. rewrite decide_True in HT by (by rewrite Hbk).
    assert (valid (b_blocknr b)) as HVb by (by rewrite Hbk).
    destruct (transferred_disk READ s1 s2 p b HD1 Hb Hbd HVb ltac:(done) HT)
      as (b' & Hh & _ & Hb' & _ & _ & _ & _).
    assert (heads s2 !! p = Some b') as Hp2 by (by rewrite Hh, lookup_insert_eq).
    assert (data_ok s2) as HD2 by (by apply (transferred_ok READ s1 s2 p b)).
    assert (∀ blk', valid blk' → content s2 blk' = content s1 blk') as HC2
      by (intros; by apply (transferred_content READ s1 s2 p b)).
    assert (b_uptodate b' = 1 ∧ key b' = key b ∧ b_count b' = b_count b) as (Hu' & Hk' & Hc')
      by (by rewrite Hb').
    assert (cache_inv 0 s2) as HI2.
    { assert (cache_inv 0 (s1 <| heads := <[p := b']> (heads s1) |>)) as H.
      { apply (cache_inv_set 0 s1 p b); [done..| |by right]. rewrite Hb'. by intros []. }
      refine (cache_inv_data 0 _ s2 H _ _ _ _ _); simpl; try (by intros; rewrite Hh);
        by destruct HT as (d & _ & ->). }
    apply wp_bind, (wp_bh p b'); [done|]. rewrite Hu'. change (truth 1) with true. cbv beta iota.
    apply wp_ret. split; [done|]. split; [|split; [|split]].
    + intros q c Hq. destruct (Hheld q c Hq) as (c1 & Hc1 & E1 & E2).
      destruct (decide (q = p)) as [->|Hqp].
      * rewrite Hb in Hc1. injection Hc1 as <-. exists b'. split_and!; [done|congruence|].
        intros Hcc. destruct (E2 Hcc) as [E3 E4]. split; [congruence|].
        intros Hcu. by destruct (E4 Hcu).
      * exists c1. rewrite Hh, lookup_insert_ne by done. done.
    + transitivity s1; [done|]. destruct HT as (d & _ & ->).
      exists (<[p := b <| b_data := d |> <| b_uptodate := 1 |> <| b_dirt := 0 |>]> (heads s1)),
        (hash_table s1), (free_list s1), (null_b_prev s1), (media s1), (woken (sch s1) (b_wait p)).
      by destruct s1 as [? ? ? ? ? ? ? ? ? ? ? ? [] ?].
    + intros blk' Hv. by rewrite HC2, Hcont.
    + exists b'. rewrite <-Hcont, <-HC2 by done.
      rewrite (content_cached s2 blk p b' HD2 Hp2); [|unfold key in *; congruence..|by rewrite Hu'].
      split_and!; [done|congruence|lia|by rewrite Hu'|done].
Qed.

Lemma flushed_synced s s' : cache_ok s → flushed s s' →
  (∀ p b, heads s' !! p = Some b → b_dev b = D → valid (b_blocknr b) → b_dirt b = 0) →
  cache_ok s' ∧ only_cache s s' ∧
    ∀ blk, valid blk → content s' blk = content s blk ∧ disk s' blk = content s blk.
Proof.
  intros [HI HD] HF Hclean.
  pose proof (flushed_others 0 s s' HF) as (HO & HC & _). pose proof (fl_ok s s' HF) as HD'.
  split; [split; [by eapply flushed_inv|done]|]. split; [done|].
  intros blk Hv. split; [by apply HC|]. rewrite <-HC by done.
  destruct (content_cases s' blk) as [(p & b & Hb & Hd & Hk & Hu)|Hnone].
  - rewrite (content_cached s' blk p b) by done. rewrite <-Hk.
    apply (hk_clean s' b); [by apply (do_head s' HD' p)|..]; try done; [congruence|].
    apply (Hclean p b Hb Hd). congruence.
  - by rewrite content_disk.
Qed.
Lemma wp_sync_dev s : cache_ok s →
  wp (sync_dev D) (λ _ s', cache_ok s' ∧ only_cache s s' ∧
    ∀ blk, valid blk → content s' blk = content s blk ∧ disk s' blk = content s blk) s.
Proof.
  intros HC. eapply wp_mono; [apply wp_sync, HC|]. intros [] s' [HF Hclean]. by apply flushed_synced.
Qed.
End Partition.

(** ** buffer_init *)

Section BufferInit.
Context (end_ : Z) (contents : Z → list Z).
Context (Hcontents : ∀ b, length (contents b) = 1024%nat).

(** The state of a buffer that init_heads has made. *)
Definition fresh_head (p : Z) (b : buffer_head) : Prop := ∃ d,
  length d = 1024%nat ∧ b = BufferHead d 0 0 0 0 0 0 NULL NULL (p - 1) (p + 1).
Definition fresh_heads (n : nat) (s : fs) : Prop :=
  nr_buffers s = n ∧ (∀ p, is_Some (heads s !! p) ↔ 1 ≤ p ≤ Z.of_nat n) ∧
  ∀ p b, heads s !! p = Some b → fresh_head p b.

Definition with_heads (s : fs) (n : nat) (H : gmap Z buffer_head) : fs :=
  s <| heads := H |> <| nr_buffers := n |>.

Lemma init_heads_step fuel b n s : fresh_heads n s → head_addr end_ (Z.of_nat n + 2) ≤ b - 1024 →
  ∃ b' H', b' ≤ b - 1024 ∧ (b - 1024 ≠ 0x100000 → b' = b - 1024) ∧ fresh_heads (S n) (with_heads s (S n) H') ∧
    init_heads end_ contents (S fuel) b (Z.of_nat n + 1) s =
    init_heads end_ contents fuel b' (Z.of_nat (S n) + 1) (with_heads s (S n) H').
Proof.
  intros (<- & Hdom & Hfresh) Hb. set (n := nr_buffers s) in *. set (p := Z.of_nat n + 1).
  set (h := BufferHead (contents (b - 1024)) 0 0 0 0 0 0 NULL NULL (p - 1) (p + 1)).
  exists (if b - 1024 =? 0x100000 then 0xA0000 else b - 1024), (<[p := h]> (heads s)).
  split; [destruct (Z.eqb_spec (b - 1024) 0x100000); lia|].
  split; [destruct (Z.eqb_spec (b - 1024) 0x100000); [done|done]|]. split.
  - split; [done|]. simpl. split.
    + intros q. destruct (decide (q = p)) as [->|].
      * rewrite lookup_insert_eq. split; [unfold p; lia|eauto].
      * rewrite lookup_insert_ne, Hdom by done. unfold p in *. lia.
    + intros q c. destruct (decide (q = p)) as [->|].
      * rewrite lookup_insert_eq. intros [= <-]. by exists (contents (b - 1024)).
      * rewrite lookup_insert_ne by done. apply Hfresh.
  - unfold h. cbn [init_heads]. replace (p + 1) with (Z.of_nat n + 2) by (unfold p; lia).
    destruct (Z.ltb_spec (b - 1024) (head_addr end_ (Z.of_nat n + 2))); [lia|].
    replace (Z.of_nat (S n) + 1) with (Z.of_nat n + 2) by lia.
    done.
Qed.

Lemma head_addr_ge p : 1 ≤ p → end_ ≤ head_addr end_ p.
Proof.
  intros Hp. unfold head_addr. change (sizeof buffer_head_t) with 56. lia.
Qed.
Lemma init_heads_run fuel b n s : fresh_heads n s → (1 ≤ fuel)%nat → b - end_ < 1024 * Z.of_nat fuel →
  ∃ n' H', (n ≤ n')%nat ∧ fresh_heads n' (with_heads s n' H') ∧
    init_heads end_ contents fuel b (Z.of_nat n + 1) s = Ret (Z.of_nat n' + 1) (with_heads s n' H').
Proof.
  revert b n s. induction fuel as [|fuel IH]; intros b n s Hs Hf Hb; [lia|].
  pose proof (head_addr_ge (Z.of_nat n + 2) ltac:(lia)) as Haddr.
  destruct (Z.ltb_spec (b - 1024) (head_addr end_ (Z.of_nat n + 2))) as [Hlt|Hle].
  - exists n, (heads s). destruct Hs as (Hn & Hs). split; [done|].
    assert (with_heads s n (heads s) = s) as E by (unfold with_heads; rewrite <-Hn; by destruct s).
    rewrite E. split; [done|]. cbn [init_heads].
    replace (Z.of_nat n + 1 + 1) with (Z.of_nat n + 2) by lia.
    by rewrite (proj2 (Z.ltb_lt _ _) Hlt).
  - destruct (init_heads_step fuel b n s Hs Hle) as (b' & H1 & Hb' & _ & Hs1 & ->).
    destruct (IH b' (S n) _ Hs1 ltac:(lia) ltac:(lia)) as (n' & H' & Hn' & Hs' & ->).
    exists n', H'. split; [lia|]. done.
Qed.

(** Two buffers fit: the ring of a single one would be lost when it is taken out. *)
Lemma init_heads_two fuel s : fresh_heads 0 s → end_ + 2 * (1024 + sizeof buffer_head_t) ≤ BUFFER_END →
  BUFFER_END - end_ < 1024 * Z.of_nat fuel →
  ∃ n H, (2 ≤ n)%nat ∧ fresh_heads n (with_heads s n H) ∧
    init_heads end_ contents fuel BUFFER_END 1 s = Ret (Z.of_nat n + 1) (with_heads s n H).
Proof.
  change (sizeof buffer_head_t) with 56. intros Hs He Hf.
  destruct fuel as [|[|fuel]]; [lia|lia|]. change 1 with (Z.of_nat 0 + 1) at 1.
  destruct (init_heads_step (S fuel) BUFFER_END 0 s Hs) as (b1 & H1 & Hb1 & Hb1' & Hs1 & ->).
  { unfold head_addr. change (sizeof buffer_head_t) with 56. unfold BUFFER_END in *. lia. }
  specialize (Hb1' ltac:(done)).
  destruct (init_heads_step fuel b1 1 _ Hs1) as (b2 & H2 & Hb2 & _ & Hs2 & ->).
  { unfold head_addr. change (sizeof buffer_head_t) with 56. unfold BUFFER_END in *. lia. }
  destruct (init_heads_run fuel b2 2 _ Hs2) as (n & H & Hn & Hs' & ->); [lia..|].
  exists n, H. done.
Qed.

Lemma linked_seq (N P : Z → Z → Prop) a k b :
  (∀ p, a ≤ p < a + Z.of_nat k → N p (p + 1) ∧ P (p + 1) p) →
  N (a + Z.of_nat k) b → P b (a + Z.of_nat k) → linked N P (path a (seqZ (a + 1) (Z.of_nat k)) b).
Proof.
  revert a. induction k as [|k IH]; intros a Hs HN HP.
  - simpl. rewrite Z.add_0_r in HN, HP. by apply linked_one.
  - rewrite seqZ_cons by lia. rewrite Nat2Z.inj_succ, Z.pred_succ.
    replace (Z.succ (a + 1)) with (a + 1 + 1) by lia. simpl. apply linked_cons.
    split; [apply Hs; lia|]. replace (a + Z.of_nat (S k)) with (a + 1 + Z.of_nat k) in HN, HP by lia.
    apply IH; [|done..]. intros p Hp. apply Hs. lia.
Qed.

(** A cache whose buffers are all unused, in the order of the ring. *)
Definition unused (n : nat) (p : Z) (b : buffer_head) : Prop := ∃ d,
  length d = 1024%nat ∧
  b = BufferHead d 0 0 0 0 0 0 NULL NULL (if p =? 1 then Z.of_nat n else p - 1)
        (if p =? Z.of_nat n then 1 else p + 1).

Lemma unused_inv n s : (2 ≤ n)%nat → nr_buffers s = n → free_list s = 1 →
  hash_table s = replicate (Z.to_nat NR_HASH) NULL →
  (∀ p, is_Some (heads s !! p) ↔ 1 ≤ p ≤ Z.of_nat n) →
  (∀ p b, heads s !! p = Some b → unused n p b) → cache_inv 0 s.
Proof.
  intros Hn En Ef Et Hdom Hun.
  assert (∀ p, 1 ≤ p ≤ Z.of_nat n → ∃ b, heads s !! p = Some b ∧ unused n p b) as Hb.
  { intros p [b Hb]%Hdom. eauto. }
  assert (∀ p b, heads s !! p = Some b → b_dev b = 0 ∧ b_next b = 0 ∧ b_prev b = 0) as H0.
  { intros p b (d & _ & ->)%Hun. done. }
  split.
  - lia.
  - by rewrite En.
  - exists (seqZ 2 (Z.of_nat (n - 1))). rewrite Ef, En. split; [|split].
    + apply NoDup_cons. split; [rewrite elem_of_seqZ; lia|apply NoDup_seqZ].
    + intros p. rewrite elem_of_cons, elem_of_seqZ. lia.
    + unfold cycle. apply (linked_seq _ _ 1 (n - 1) 1); unfold free_next, free_prev, at_link.
      * intros p Hp. destruct (Hb p ltac:(lia)) as (b1 & Hb1 & (d1 & _ & ->)).
        destruct (Hb (p + 1) ltac:(lia)) as (b2 & Hb2 & (d2 & _ & ->)).
        rewrite (view_Some _ _ _ _ Hb1), (view_Some _ _ _ _ Hb2). simpl.
        destruct (Z.eqb_spec p (Z.of_nat n)); [lia|]. destruct (Z.eqb_spec (p + 1) 1); [lia|].
        split; [done|]. f_equal. lia.
      * destruct (Hb (1 + Z.of_nat (n - 1)) ltac:(lia)) as (b1 & Hb1 & (d1 & _ & ->)).
        rewrite (view_Some _ _ _ _ Hb1). simpl. destruct (Z.eqb_spec (1 + Z.of_nat (n - 1)) (Z.of_nat n)); [done|lia].
      * destruct (Hb 1 ltac:(lia)) as (b1 & Hb1 & (d1 & _ & ->)).
        rewrite (view_Some _ _ _ _ Hb1). simpl. f_equal. lia.
  - by rewrite Et.
  - intros h Hh. exists [], 0. unfold NR_HASH in *. rewrite Et, lookup_replicate_2 by lia.
    split; [done|]. split; [by apply NoDup_singleton|]. split.
    + intros p. rewrite elem_of_nil. split; [done|]. intros (b & Hbb & _ & Hd & _).
      by destruct (H0 p b Hbb).
    + apply linked_one. split; [done|]. by left.
  - intros p b Hbb _ _. by destruct (H0 p b Hbb).
  - intros p q bp bq Hp _ _ _ Hd. by destruct (H0 p bp Hp).
Qed.

Lemma unused_data D start nr n s : nr_buffers s = n →
  (∀ p, is_Some (heads s !! p) ↔ 1 ≤ p ≤ Z.of_nat n) →
  (∀ p b, heads s !! p = Some b → unused n p b) → waiters_ok (sch s) → partition_ok D start nr s →
  data_ok D start nr s.
Proof.
  intros En Hdom Hun Hw HP. split; [by rewrite En| | |done|done].
  - intros p b (d & Hd & ->)%Hun. split; simpl; try done. by left.
  - intros p q bp bq (d & _ & ->)%Hun. done.
Qed.

Lemma wp_buffer_init fuel s (Q : () → fs → Prop) : heads s = ∅ → nr_buffers s = O →
  end_ + 2 * (1024 + sizeof buffer_head_t) ≤ BUFFER_END → BUFFER_END - end_ < 1024 * Z.of_nat fuel →
  (∀ n H', (2 ≤ n)%nat → (∀ p, is_Some (H' !! p) ↔ 1 ≤ p ≤ Z.of_nat n) →
     (∀ p b, H' !! p = Some b → unused n p b) →
     Q tt (s <| heads := H' |> <| nr_buffers := n |> <| free_list := 1 |>
             <| hash_table := replicate (Z.to_nat NR_HASH) NULL |>)) →
  wp (buffer_init end_ contents fuel) Q s.
Proof.
  intros Hh Hn Hroom Hfuel HQ.
  destruct (init_heads_two fuel s) as (n & H & Hn2 & (_ & Hdom & Hfresh) & Hrun); [|done..|].
  { split; [done|]. rewrite Hh. split; [|by intros ? ? ?%lookup_empty_Some].
    intros p. rewrite lookup_empty. split; [by intros []|lia]. }
  unfold buffer_init. apply wp_bind. eapply wp_of_ret; [exact Hrun|]. simpl in Hdom, Hfresh.
  replace (Z.of_nat n + 1 - 1) with (Z.of_nat n) by lia.
  destruct (proj2 (Hdom 1)) as [b1 Hb1]; [lia|]. destruct (proj2 (Hdom (Z.of_nat n))) as [bn Hbn]; [lia|].
  apply wp_bind, wp_modify, wp_bind, (wp_set_bh 1 b1); [done|]. simpl.
  apply wp_bind, (wp_set_bh (Z.of_nat n) bn); [simpl; rewrite lookup_insert_ne by lia; done|]. simpl.
  apply wp_modify.
  specialize (HQ n (<[Z.of_nat n := bn <| b_next_free := 1 |>]> (<[1 := b1 <| b_prev_free := Z.of_nat n |>]> H)) Hn2).
  apply HQ.
  - intros p. destruct (decide (p = Z.of_nat n)) as [->|].
    { rewrite lookup_insert_eq. split; [lia|eauto]. }
    rewrite lookup_insert_ne by done. destruct (decide (p = 1)) as [->|].
    { rewrite lookup_insert_eq. split; [lia|eauto]. }
    by rewrite lookup_insert_ne.
  - intros p b. destruct (decide (p = Z.of_nat n)) as [->|Hpn].
    { rewrite lookup_insert_eq. intros [= <-]. destruct (Hfresh _ _ Hbn) as (d & Hd & ->). exists d.
      split; [done|]. rewrite Z.eqb_refl. destruct (Z.eqb_spec (Z.of_nat n) 1); [lia|done]. }
    rewrite lookup_insert_ne by done. destruct (decide (p = 1)) as [->|Hp1].
    { rewrite lookup_insert_eq. intros [= <-]. destruct (Hfresh _ _ Hb1) as (d & Hd & ->). exists d.
      split; [done|]. destruct (Z.eqb_spec 1 (Z.of_nat n)); [lia|done]. }
    rewrite lookup_insert_ne by done. intros (d & Hd & ->)%Hfresh. exists d. split; [done|].
    destruct (Z.eqb_spec p 1); [done|]. by destruct (Z.eqb_spec p (Z.of_nat n)).
Qed.
End BufferInit.
