(* ===== verification/CacheFacts.v ===== *)
(** * What the cache promises to the file system

    buffer_init makes an empty cache in front of the disk; bread, brelse and
    sync_dev keep it one through which the blocks of the disk are read and
    written. *)

From S2P Require Import Cache FsBoot.

Section Clients.
Context (D start nr : Z).
Implicit Types s : fs.

Lemma cache_ok_sch s c : cache_ok D start nr s → waiters_ok c → cache_ok D start nr (with_sch s c).
Proof.
  intros [HI [? HH ? ? HP]] Hc. split; [by apply (cache_inv_data 0 s)|]. split; try done.
  - intros p b Hb. apply (head_ok_same _ _ _ s); [done|]. by apply (HH p).
  - by apply (partition_same _ _ _ s).
Qed.

Lemma wp_brelse s p b : cache_ok D start nr s → heads s !! p = Some b → 1 ≤ b_count b →
  wp (brelse p) (λ _ s', cache_ok D start nr s' ∧ only_cache s s' ∧
    (∀ blk, valid nr blk → content D start s' blk = content D start s blk) ∧
    heads s' = <[p := b <| b_count := b_count b - 1 |>]> (heads s)) s.
Proof.
  intros [HI HD] Hb Hc. pose proof (do_head _ _ _ s HD p b Hb) as HK. pose proof (hk_count _ _ _ s b HK).
  unfold brelse. destruct (Z.eqb_spec p NULL) as [->|_].
  { assert (1 ≤ NULL ≤ Z.of_nat (nr_buffers s)) by (apply (do_dom _ _ _ s HD); eauto). unfold NULL in *. lia. }
  apply wp_bind. eapply wp_of_ret; [apply (wait_on_buffer_Ret p b s Hb), (hk_lock _ _ _ s b HK)|].
  apply wp_bind, (wp_bh p b); [done|]. apply wp_bind, (wp_set_bh p b); [done|]. simpl.
  rewrite (u8_small (b_count b - 1)) by lia. destruct (Z.eqb_spec (b_count b) 0); [lia|].
  set (b1 := b <| b_count := b_count b - 1 |>). set (s1 := s <| heads := <[p := b1]> (heads s) |>).
  destruct (set_data D start nr s p b b1 HD Hb) as [HD1 HO1]; [|by left|by left|].
  { destruct HK. split; try done. simpl. lia. }
  assert (cache_ok D start nr s1) as HC1.
  { split; [|done]. apply (cache_inv_set 0 s p b); [done..|by intros []|by right]. }
  apply wp_wake; [done|apply (do_wait _ _ _ s HD)|].
  split; [apply cache_ok_sch; [done|apply woken_ok, (do_wait _ _ _ s HD)]|].
  split; [|split; [apply HO1|done]].
  exists (<[p := b1]> (heads s)), (hash_table s), (free_list s), (null_b_prev s), (media s),
    (woken (sch s) buffer_wait). by destruct s as [? ? ? ? ? ? ? ? ? ? ? ? [] ?].
Qed.

(** Buffers keep their users; those in use keep their block and stay up to date. *)
Definition users_kept s s' : Prop := ∀ q b, heads s !! q = Some b → ∃ b', heads s' !! q = Some b' ∧
  b_count b' = b_count b ∧ (b_count b ≠ 0 → key b' = key b ∧ (b_uptodate b ≠ 0 → b_uptodate b' ≠ 0)).
Lemma users_kept_refl s : users_kept s s.
Proof. intros q b Hb. exists b. done. Qed.
Lemma users_kept_trans s1 s2 s3 : users_kept s1 s2 → users_kept s2 s3 → users_kept s1 s3.
Proof.
  intros H1 H2 q b Hb. destruct (H1 q b Hb) as (b1 & Hb1 & E1 & K1). destruct (H2 q b1 Hb1) as (b2 & Hb2 & E2 & K2).
  exists b2. split; [done|]. split; [congruence|]. intros Hc. destruct (K1 Hc) as [Hk Hu]. rewrite E1 in K2.
  destruct (K2 Hc) as [Hk2 Hu2]. split; [congruence|auto].
Qed.
Lemma users_kept_heads s s' : heads s' = heads s → users_kept s s'.
Proof. intros E q b Hb. exists b. by rewrite E. Qed.
(** As before, but for one more user of [p]. *)
Definition lent (p : Z) s s' : Prop := ∀ q b, heads s !! q = Some b → ∃ b', heads s' !! q = Some b' ∧
  b_count b' = b_count b + (if decide (q = p) then 1 else 0) ∧
  (b_count b ≠ 0 → key b' = key b ∧ (b_uptodate b ≠ 0 → b_uptodate b' ≠ 0)).
Lemma held_lent p s s' : held p s s' → lent p s s'.
Proof.
  intros H q b Hb. destruct (H q b Hb) as (b' & Hb' & Ec & Hk). exists b'. split; [done|]. split; [done|].
  intros Hc. destruct (Hk Hc) as [? Hu]. split; [done|]. intros Hu0. by apply Hu.
Qed.
Lemma lent_trans p s1 s2 s3 : cache_ok D start nr s1 → lent p s1 s2 → users_kept s2 s3 → lent p s1 s3.
Proof.
  intros [_ HD] H1 H2 q b Hb. pose proof (hk_count _ _ _ _ _ (do_head _ _ _ _ HD q b Hb)) as Hc0.
  destruct (H1 q b Hb) as (b1 & Hb1 & E1 & K1). destruct (H2 q b1 Hb1) as (b2 & Hb2 & E2 & K2).
  exists b2. split; [done|]. split; [congruence|]. intros Hc. destruct (K1 Hc) as [Hk Hu].
  destruct K2 as [Hk2 Hu2]; [case_decide; lia|]. split; [congruence|auto].
Qed.
(** A buffer that was taken has been given back, changed or not. *)
Lemma users_returned s s1 s2 p b c : lent p s s1 → heads s1 !! p = Some b → heads s2 = <[p := c]> (heads s1) →
  b_count c = b_count b - 1 → key c = key b → (b_uptodate b ≠ 0 → b_uptodate c ≠ 0) → users_kept s s2.
Proof.
  intros Hheld Hb Hh Hc Hk Hu q d Hq. destruct (Hheld q d Hq) as (d1 & Hd1 & Ec & Hkk). rewrite Hh.
  destruct (decide (q = p)) as [->|Hqp].
  - rewrite lookup_insert_eq. exists c. split; [done|]. rewrite Hb in Hd1. injection Hd1 as <-. split; [lia|].
    intros Hd0. destruct (Hkk Hd0) as [E1 E2]. split; [congruence|auto].
  - rewrite lookup_insert_ne by done. exists d1. split; [done|]. split; [lia|done].
Qed.
Lemma users_released s s1 s2 p b c : held p s s1 → heads s1 !! p = Some b → heads s2 = <[p := c]> (heads s1) →
  b_count c = b_count b - 1 → key c = key b → (b_uptodate b ≠ 0 → b_uptodate c ≠ 0) → users_kept s s2.
Proof. intros H%held_lent. by apply users_returned. Qed.

(** The cache between two calls, with the same buffers in use as in [s]. *)
Definition idle s s' : Prop := cache_ok D start nr s' ∧ users_kept s s'.
(** Some buffer is free, and no count is about to wrap. *)
Definition room s : Prop := (∃ p b, heads s !! p = Some b ∧ b_count b = 0) ∧
  ∀ p b, heads s !! p = Some b → b_count b < 255.

Lemma idle_room s s' : only_cache s s' → cache_ok D start nr s → idle s s' → room s → room s'.
Proof.
  intros HR [_ HD] [[_ HD'] Hi] [(p & b & Hb & Hc) Hlt]. split.
  - destruct (Hi p b Hb) as (b' & Hb' & ? & _). exists p, b'. split; [done|congruence].
  - intros q c Hq. assert (is_Some (heads s !! q)) as [c0 Hc0].
    { apply (do_dom _ _ _ s HD). rewrite <-(only_cache_n s s' HR). apply (do_dom _ _ _ s' HD'). eauto. }
    destruct (Hi q c0 Hc0) as (c' & Hc' & ? & _). rewrite Hq in Hc'. injection Hc' as <-.
    specialize (Hlt q c0 Hc0). lia.
Qed.

(** Reading a block and releasing it. *)
Lemma wp_use s blk : cache_ok D start nr s → valid nr blk → room s →
  wp (p ← bread D blk; brelse p) (λ _ s', idle s s' ∧ only_cache s s' ∧
    ∀ blk', valid nr blk' → content D start s' blk' = content D start s blk') s.
Proof.
  intros HC HV [Hfree Hlt]. apply wp_bind. eapply wp_mono; [apply (wp_bread D start nr); try done|].
  { intros; by eapply Hlt. }
  intros p s1 (HC1 & Hheld & HR1 & Hcont & b & Hb & Hk & Hc & _).
  eapply wp_mono; [by apply (wp_brelse s1 p b)|]. intros [] s2 (HC2 & HR2 & Hcont2 & Hh2).
  split; [split; [done|]|split; [by transitivity s1|intros; by rewrite Hcont2, Hcont]].
  by apply (users_released s s1 s2 p b (b <| b_count := b_count b - 1 |>)).
Qed.

Lemma wp_uses s blks : cache_ok D start nr s → Forall (valid nr) blks → room s →
  wp (mfor (λ k, p ← bread D k; brelse p) blks) (λ _ s', cache_ok D start nr s' ∧ room s' ∧ only_cache s s' ∧
    ∀ blk', valid nr blk' → content D start s' blk' = content D start s blk') s.
Proof.
  intros HC Hblks Hroom. pose (Inv := λ l s1, Forall (valid nr) l ∧ cache_ok D start nr s1 ∧ room s1 ∧
    only_cache s s1 ∧ ∀ blk', valid nr blk' → content D start s1 blk' = content D start s blk').
  eapply wp_mono; [apply (wp_mfor _ Inv)|].
  - split; [done|]. split; [done|]. split; [done|]. split; [reflexivity|done].
  - intros k l s1 ([Hk Hl]%Forall_cons & HC1 & Hr1 & HR1 & Hc1).
    eapply wp_mono; [by apply (wp_use s1 k)|]. intros [] s2 (Hidle & HR2 & Hc2).
    split; [done|]. split; [apply Hidle|]. split; [by apply (idle_room s1)|].
    split; [by transitivity s1|]. intros. by rewrite Hc2, Hc1.
  - intros [] s' (_ & ?). done.
Qed.

(** What a writer does with the buffer that bread gave to it. *)
Lemma wp_modify_block s p b v : cache_ok D start nr s → heads s !! p = Some b → b_dev b = D →
  b_uptodate b ≠ 0 → length v = 1024%nat →
  wp (set_bh p (λ b, b <| b_data := v |> <| b_dirt := 1 |>)) (λ _ s', cache_ok D start nr s' ∧ only_cache s s' ∧
    heads s' = <[p := b <| b_data := v |> <| b_dirt := 1 |>]> (heads s) ∧
    content D start s' (b_blocknr b) = Some v ∧
    ∀ blk, blk ≠ b_blocknr b → content D start s' blk = content D start s blk) s.
Proof.
  intros [HI HD] Hb Hd Hu Hv. apply (wp_set_bh p b); [done|]. simpl.
  set (b1 := b <| b_data := v |> <| b_dirt := 1 |>).
  destruct (set_content D start nr s p b b1 HD Hb) as (HD1 & Hc1 & Ho1); try done.
  { destruct (do_head _ _ _ s HD p b Hb). split; try done. intros; by right. }
  split; [split; [|done]; apply (cache_inv_set 0 s p b); [done..|by intros []|by right]|].
  split; [apply set_only|]. done.
Qed.
End Clients.

(** ** The theorems *)

(** C37: buffer_init, given memory for at least two buffers and enough steps for
    the memory there is, ends with a cache that satisfies the invariant: the
    free ring holds every buffer, no block is cached, and what a block holds is
    what the disk has. *)
Theorem buffer_init_makes_cache D start nr end_ contents fuel s :
  heads s = ∅ → nr_buffers s = O → (∀ b, length (contents b) = 1024%nat) →
  end_ + 2 * (1024 + sizeof buffer_head_t) ≤ BUFFER_END → BUFFER_END - end_ < 1024 * Z.of_nat fuel →
  waiters_ok (sch s) → partition_ok D start nr s →
  wp (buffer_init end_ contents fuel) (λ _ s', cache_ok D start nr s' ∧ room s' ∧
    ∀ blk, content D start s' blk = disk D start s blk) s.
Proof.
  intros Hh Hn Hlen Hroom Hfuel Hw HP. apply wp_buffer_init; [done..|].
  intros n H' Hn2 Hdom Hun. set (s' := _ <| hash_table := _ |>).
  assert (partition_ok D start nr s') as HP' by (by apply (partition_same _ _ _ s)).
  split; [split; [by apply (unused_inv n)|by apply (unused_data D start nr n)]|]. split; [split|].
  - destruct (proj2 (Hdom 1)) as [b Hb]; [lia|]. exists 1, b. split; [done|].
    by destruct (Hun 1 b Hb) as (d & _ & ->).
  - by intros p b (d & _ & ->)%Hun.
  - intros blk. rewrite content_disk; [done|]. by intros p b (d & _ & ->)%Hun.
Qed.

(** C9: bread of a block of the partition returns a buffer that has the block's
    number, is up to date and holds what the block holds (the disk's sectors, or
    what was written to the cache since), with one more user; the invariant of
    the cache is kept, no other buffer in use is touched, and every block of the
    partition holds what it held, even if dirty buffers were written out and a
    buffer was given to another block. *)
Theorem bread_reads_block D start nr s blk :
  cache_ok D start nr s → valid nr blk → room s →
  ∃ p s', bread D blk s = Ret p s' ∧ cache_ok D start nr s' ∧ held p s s' ∧ only_cache s s' ∧
    (∀ blk', valid nr blk' → content D start s' blk' = content D start s blk') ∧
    ∃ b, heads s' !! p = Some b ∧ key b = (D, blk) ∧ 1 ≤ b_count b ∧ b_uptodate b ≠ 0 ∧
      content D start s blk = Some (b_data b).
Proof.
  intros HC HV [Hfree Hlt]. apply wp_returns. apply wp_bread; try done. intros; by eapply Hlt.
Qed.

(** sync_dev makes the disk agree with the cache: every block of the
    partition is on the disk as it was held before, and is held as before. *)
Theorem sync_dev_updates_disk D start nr s :
  cache_ok D start nr s →
  ∃ s', sync_dev D s = Ret tt s' ∧ cache_ok D start nr s' ∧ only_cache s s' ∧
    ∀ blk, valid nr blk → content D start s' blk = content D start s blk ∧
      disk D start s' blk = content D start s blk.
Proof.
  intros HC. destruct (wp_returns _ _ _ (wp_sync_dev D start nr s HC)) as ([] & s' & ? & ?). eauto.
Qed.

(** C7: a write through the cache is never lost.  A block is read, its buffer
    changed, marked dirty and released; then any number of other blocks are read
    and released, whatever buffers that recycles; the block read again has the
    new data, after sync_dev the disk has it, and all other blocks are as they
    were. *)
Theorem write_is_never_lost D start nr s blk v blks :
  cache_ok D start nr s → room s → valid nr blk → Forall (valid nr) blks → length v = 1024%nat →
  wp (p ← bread D blk;
      set_bh p (λ b, b <| b_data := v |> <| b_dirt := 1 |>);;
      brelse p;;
      mfor (λ k, q ← bread D k; brelse q) blks;;
      p ← bread D blk;
      b ← bh p;
      sync_dev D;;
      mret (b_data b))
    (λ d s', d = v ∧ disk D start s' blk = Some v ∧ cache_ok D start nr s' ∧
       ∀ blk', valid nr blk' → blk' ≠ blk → content D start s' blk' = content D start s blk') s.
Proof.
  intros HC Hroom HV Hblks Hv. pose proof Hroom as [Hfree Hlt].
  apply wp_bind. eapply wp_mono; [apply (wp_bread D start nr s blk); try done; intros; by eapply Hlt|].
  intros p s1 (HC1 & Hheld & HR1 & Hc1 & b & Hb & Hk & Hcnt & Hu & _).
  assert (b_dev b = D ∧ b_blocknr b = blk) as [Hbd Hbk] by (unfold key in Hk; split; congruence).
  apply wp_bind. eapply wp_mono; [by apply (wp_modify_block D start nr s1 p b v)|].
  intros [] s2 (HC2 & HR2 & Hh2 & Hcv & Hco). rewrite Hbk in Hcv, Hco.
  apply wp_bind. eapply wp_mono; [apply (wp_brelse D start nr s2 p (b <| b_data := v |> <| b_dirt := 1 |>)); try done|].
  { rewrite Hh2. apply lookup_insert_eq. }
  intros [] s3 (HC3 & HR3 & Hc3 & Hh3). simpl in Hh3. rewrite Hh2, insert_insert_eq in Hh3.
  assert (idle D start nr s s3) as Hidle.
  { split; [done|]. by eapply (users_released s s1 s3 p b). }
  assert (only_cache s s3) as HR by (transitivity s1; [done|by transitivity s2]).
  pose proof (idle_room D start nr s s3 HR HC Hidle Hroom) as Hroom3.
  apply wp_bind. eapply wp_mono; [by apply (wp_uses D start nr s3 blks)|].
  intros [] s4 (HC4 & [Hfree4 Hlt4] & _ & Hc4).
  apply wp_bind. eapply wp_mono; [apply (wp_bread D start nr s4 blk); try done; intros; by eapply Hlt4|].
  intros q s5 (HC5 & _ & _ & Hc5 & b5 & Hb5 & _ & _ & _ & Hd5).
  apply wp_bind, (wp_bh q b5); [done|].
  apply wp_bind. eapply wp_mono; [by apply (wp_sync_dev D start nr s5)|].
  intros [] s6 (HC6 & _ & Hc6). apply wp_ret.
  assert (content D start s4 blk = Some v) as Hv4 by (by rewrite Hc4, Hc3).
  split; [congruence|]. split; [|split; [done|]].
  - destruct (Hc6 blk HV) as [_ ->]. by rewrite Hc5.
  - intros blk' HV' Hne. destruct (Hc6 blk' HV') as [-> _]. by rewrite Hc5, Hc4, Hc3, Hco, Hc1.
Qed.

(** ** At boot *)

Lemma drive0_partition s : hd s = (0, 64) :: replicate 9 (0, 0) → media s = drive0 → partition_ok 0x300 0 64 s.
Proof.
  intros Eh Em. split; [done|done|done|by rewrite Eh|done|]. intros k Hk. rewrite Em.
  assert (forallb (λ k, match drive0 !! (0, k) with Some d => Nat.eqb (length d) 512 | None => false end)
            (upto 64) = true) as Hall by (vm_compute; reflexivity).
  rewrite forallb_forall in Hall. specialize (Hall k).
  change (MINOR 0x300 / 5, 0 + k) with (0, k). destruct (drive0 !! (0, k)) as [d|].
  - exists d. split; [done|]. apply Nat.eqb_eq, Hall, list_elem_of_In, elem_of_upto. lia.
  - assert (false = true); [|done]. apply Hall, list_elem_of_In, elem_of_upto. lia.
Qed.
Lemma boot_cache : cache_ok 0x300 0 64 fs_boot ∧ room fs_boot.
Proof.
  assert (∀ b, length (zero_block b) = 1024%nat) as Hlen by done.
  assert (wp (buffer_init small_end zero_block 10) (λ _ s', cache_ok 0x300 0 64 s' ∧ room s') fs_empty) as H.
  { apply wp_buffer_init; try done. intros n H' Hn2 Hdom Hun. set (s' := _ <| hash_table := _ |>).
    assert (partition_ok 0x300 0 64 s') as HP' by (by apply drive0_partition).
    split; [split; [by apply (unused_inv n)|apply (unused_data 0x300 0 64 n); try done; exact boot_waiters]|].
    split.
    - destruct (proj2 (Hdom 1)) as [b Hb]; [lia|]. exists 1, b. split; [done|].
      by destruct (Hun 1 b Hb) as (d & _ & ->).
    - by intros p b (d & _ & ->)%Hun. }
  apply wp_returns in H as (a & s' & Hs & HQ). unfold fs_boot. by rewrite Hs.
Qed.

Lemma buffer_init_makes_cache_witness :
  wp (buffer_init small_end zero_block 10) (λ _ s', cache_ok 0x300 0 64 s' ∧ room s' ∧
    ∀ blk, content 0x300 0 s' blk = disk 0x300 0 fs_empty blk) fs_empty.
Proof.
  apply buffer_init_makes_cache; [done..|exact boot_waiters|by apply drive0_partition].
Defined.
Lemma bread_reads_block_witness : ∃ p s', bread 0x300 3 fs_boot = Ret p s' ∧ cache_ok 0x300 0 64 s'.
Proof.
  destruct (bread_reads_block 0x300 0 64 fs_boot 3) as (p & s' & H & HC & _).
  - apply boot_cache.
  - split; lia.
  - apply boot_cache.
  - exists p, s'. exact (conj H HC).
Defined.
Lemma sync_dev_updates_disk_witness : ∃ s', sync_dev 0x300 fs_boot = Ret tt s' ∧ cache_ok 0x300 0 64 s'.
Proof.
  destruct (sync_dev_updates_disk 0x300 0 64 fs_boot) as (s' & H & HC & _); [apply boot_cache|].
  exists s'. exact (conj H HC).
Defined.
Lemma write_is_never_lost_witness :
  wp (p ← bread 0x300 3;
      set_bh p (λ b, b <| b_data := replicate 1024 7 |> <| b_dirt := 1 |>);;
      brelse p;;
      mfor (λ k, q ← bread 0x300 k; brelse q) [4; 5; 6; 7; 8];;
      p ← bread 0x300 3;
      b ← bh p;
      sync_dev 0x300;;
      mret (b_data b))
    (λ d s', d = replicate 1024 7 ∧ disk 0x300 0 s' 3 = Some (replicate 1024 7) ∧ cache_ok 0x300 0 64 s' ∧
       ∀ blk', valid 64 blk' → blk' ≠ 3 → content 0x300 0 s' blk' = content 0x300 0 fs_boot blk') fs_boot.
Proof.
  apply (write_is_never_lost 0x300 0 64 fs_boot 3 (replicate 1024 7)).
  - apply boot_cache.
  - apply boot_cache.
  - split; lia.
  - repeat constructor; lia.
  - reflexivity.
Defined.
