(* ===== verification/FileFacts.v ===== *)
(** * A regular file is an array of bytes

    What the zones of an inode say about the blocks of a file, over the blocks
    that the cache and the disk hold; and that reading and overwriting a file go
    through bmap, the cache and the driver to exactly these bytes. *)

From S2P Require Export Bytes.
From S2P Require Import FileIo Cache CacheFacts FsBoot.

(** ** Copies to the memory of the task *)

Lemma mfor_ext {St I} (f g : I → M St ()) l s : (∀ i s, i ∈ l → f i s = g i s) → mfor f l s = mfor g l s.
Proof.
  revert s. induction l as [|i l IH]; intros s H; [done|]. rewrite !mfor_cons. unfold mbind, M_bind.
  rewrite H by (by left). destruct (g i s); try done. apply IH. intros j t Hj. apply H. by right.
Qed.
Lemma blit_snoc p l b m : blit p (l ++ [b]) m = <[p + zlen l := b]> (blit p l m).
Proof. by rewrite blit_app. Qed.
Lemma put_bytes_run f buf n s :
  mfor (λ k, put_fs_byte (f k) (buf + k)) (upto n) s = Ret tt (with_user s (blit buf ((λ k, u8 (f k)) <$> upto n) (user s))).
Proof.
  induction n as [|n IH].
  - destruct s as [? ? ? ? ? ? ? ? ? ? ? ? [] ?]. done.
  - rewrite upto_S, mfor_app. rewrite (bind_ret _ _ _ _ _ IH). rewrite fmap_app.
    change ((λ k, u8 (f k)) <$> [Z.of_nat n]) with [u8 (f (Z.of_nat n))]. rewrite blit_snoc.
    rewrite length_fmap. unfold upto at 2. rewrite length_seqZ, Nat2Z.id. done.
Qed.

Lemma copy_out_run d o chars buf s : 0 ≤ o → o + chars ≤ zlen d →
  copy_out d o chars buf s =
  Ret tt (with_user s (blit buf ((λ k, u8 (byte_at d (o + k))) <$> upto (Z.to_nat chars)) (user s))).
Proof.
  intros Ho Hd. rewrite <-put_bytes_run. apply mfor_ext. intros k t Hk%elem_of_upto.
  destruct (lookup_lt_is_Some_2 d (Z.to_nat (o + k))) as [c Hc]; [lia|].
  unfold byte_at. rewrite Hc. by rewrite (bind_ret _ _ _ _ _ (index_Some d (o + k) c t ltac:(lia) Hc)).
Qed.
Lemma zero_out_run chars buf s :
  zero_out chars buf s = Ret tt (with_user s (blit buf ((λ k, 0) <$> upto (Z.to_nat chars)) (user s))).
Proof. unfold zero_out. by rewrite (put_bytes_run (λ _, 0)). Qed.

(** ** The part of the state that is neither cache, nor files, nor user memory *)

Definition rest (s : fs) :=
  (last_allocated_inode s, super_block s, mem s, hd s, callable s, nr_buffers s,
   (TtyIo.con (term s), TtyIo.tty_table (term s), TtyIo.cr_flag (term s), TtyIo.inports (term s), TtyIo.outports (term s))).

Lemma only_cache_rest s s' : only_cache s s' →
  rest s' = rest s ∧ inode_table s' = inode_table s ∧ file_table s' = file_table s ∧ user s' = user s.
Proof. by intros (H & T & F & w & m & c & ->). Qed.

Section Files.
Context (D start nr : Z).
Implicit Types s : fs.

(** From one time between two calls to another: the same users of the buffers,
    the same contents of the blocks. *)
Record steady s s' : Prop := Steady {
  st_idle : idle D start nr s s';
  st_content : ∀ blk, valid nr blk → content D start s' blk = content D start s blk;
  st_rest : rest s' = rest s
}.
(** ... and the same inodes, files and memory of the task. *)
Definition calm s s' : Prop := steady s s' ∧
  inode_table s' = inode_table s ∧ file_table s' = file_table s ∧ user s' = user s.

Lemma steady_trans s1 s2 s3 : steady s1 s2 → steady s2 s3 → steady s1 s3.
Proof.
  intros [[_ I1] C1 R1] [[K I2] C2 R2]. split.
  - split; [done|]. by eapply users_kept_trans.
  - intros blk Hv. by rewrite C2, C1.
  - by rewrite R2.
Qed.
Lemma calm_trans s1 s2 s3 : calm s1 s2 → calm s2 s3 → calm s1 s3.
Proof.
  intros (S1 & E1 & F1 & U1) (S2 & E2 & F2 & U2). split; [by eapply steady_trans|]. split_and!; congruence.
Qed.
Lemma room_idle s s' : cache_ok D start nr s → idle D start nr s s' → nr_buffers s' = nr_buffers s → room s → room s'.
Proof.
  intros [_ HD] [[_ HD'] Hi] HN [(p & b & Hb & Hc) Hlt]. split.
  - destruct (Hi p b Hb) as (b' & Hb' & ? & _). exists p, b'. split; [done|congruence].
  - intros q c Hq. assert (is_Some (heads s !! q)) as [c0 Hc0].
    { apply (do_dom _ _ _ s HD). rewrite <-HN. apply (do_dom _ _ _ s' HD'). eauto. }
    destruct (Hi q c0 Hc0) as (c' & Hc' & ? & _). rewrite Hq in Hc'. injection Hc' as <-.
    specialize (Hlt q c0 Hc0). lia.
Qed.
Lemma room_kept s s' : cache_ok D start nr s → idle D start nr s s' → rest s' = rest s → room s → room s'.
Proof. intros HC HI HR. apply room_idle; [done..|]. unfold rest in HR. congruence. Qed.

Lemma steady_room s s' : cache_ok D start nr s → steady s s' → room s → room s'.
Proof. intros HC [HI _ HR]. by apply room_kept. Qed.

(** A change outside of the cache. *)
Lemma cache_ok_ext s s' : cache_ok D start nr s → heads s' = heads s → nr_buffers s' = nr_buffers s →
  hash_table s' = hash_table s → free_list s' = free_list s → media s' = media s → hd s' = hd s →
  sch s' = sch s → cache_ok D start nr s'.
Proof.
  intros [HI [? HH ? ? HP]] E1 E2 E3 E4 E5 E6 E7. split.
  - apply (cache_inv_data 0 s); try done; intros; by rewrite E1.
  - split; rewrite ?E1, ?E2, ?E7; try done.
    + intros p b Hb. apply (head_ok_same _ _ _ s); [done|]. by apply (HH p).
    + by apply (partition_same _ _ _ s).
Qed.
Definition same_cache s s' : Prop :=
  heads s' = heads s ∧ hash_table s' = hash_table s ∧ free_list s' = free_list s ∧ media s' = media s ∧
  sch s' = sch s ∧ rest s' = rest s.
Lemma steady_ext s s' : cache_ok D start nr s → same_cache s s' → steady s s'.
Proof.
  intros HC (E1 & E2 & E3 & E4 & E5 & E6).
  assert (nr_buffers s' = nr_buffers s) as E7 by (unfold rest in E6; congruence).
  assert (hd s' = hd s) as E8 by (unfold rest in E6; congruence).
  split; [|intros; unfold content, cached, disk; by rewrite E1, E4, E7|done].
  split; [by apply (cache_ok_ext s)|by apply users_kept_heads].
Qed.

(** A block that bread gave out: its buffer, and the state before. *)
Record taken_block s (blk p : Z) (b : buffer_head) s1 : Prop := TakenBlock {
  tb_ok : cache_ok D start nr s1;
  tb_held : held p s s1;
  tb_content : ∀ blk', valid nr blk' → content D start s1 blk' = content D start s blk';
  tb_rest : rest s1 = rest s;
  tb_files : inode_table s1 = inode_table s ∧ file_table s1 = file_table s ∧ user s1 = user s;
  tb_head : heads s1 !! p = Some b;
  tb_key : b_dev b = D ∧ b_blocknr b = blk;
  tb_count : 1 ≤ b_count b;
  tb_uptodate : b_uptodate b ≠ 0;
  tb_data : content D start s blk = Some (b_data b);
  tb_length : length (b_data b) = 1024%nat;
  tb_pointer : p ≠ 0;
  tb_valid : valid nr blk
}.
Lemma wp_take_block s blk (Q : Z → fs → Prop) : cache_ok D start nr s → valid nr blk → room s →
  (∀ p b s1, taken_block s blk p b s1 → Q p s1) → wp (bread D blk) Q s.
Proof.
  intros HC HV [Hfree Hlt] HQ. eapply wp_mono.
  { apply (wp_bread D start nr s blk); try done. intros; by eapply Hlt. }
  intros p s1 (HC1 & Hheld & HR & Hcont & b & Hb & Hk & Hc & Hu & Hd). apply (HQ p b).
  destruct (only_cache_rest s s1 HR) as (? & ? & ? & ?). unfold key in Hk.
  assert (b_dev b = D ∧ b_blocknr b = blk) as Hkey by (split; congruence).
  split; try done; [apply (hk_data D start nr s1 b), (do_head D start nr s1 (proj2 HC1) p b Hb)|].
  intros ->. assert (1 ≤ 0 ≤ Z.of_nat (nr_buffers s1)); [|lia]. apply (do_dom D start nr s1 (proj2 HC1)). eauto.
Qed.
(** ... and given back after changes outside of the cache. *)
Lemma wp_release s blk p b s1 s2 : taken_block s blk p b s1 → same_cache s1 s2 →
  wp (brelse p) (λ _ s3, steady s s3 ∧ inode_table s3 = inode_table s2 ∧ file_table s3 = file_table s2 ∧
    user s3 = user s2) s2.
Proof.
  intros T Hsame. pose proof (steady_ext s1 s2 (tb_ok _ _ _ _ _ T) Hsame) as [[HC2 _] Hc2 HR2].
  destruct Hsame as (E1 & _). assert (heads s2 !! p = Some b) as Hb by (rewrite E1; exact (tb_head _ _ _ _ _ T)).
  eapply wp_mono; [exact (wp_brelse D start nr s2 p b HC2 Hb (tb_count _ _ _ _ _ T))|].
  intros [] s3 (HC3 & HO3 & Hc3 & Hh3). destruct (only_cache_rest s2 s3 HO3) as (HR3 & ? & ? & ?).
  split; [|done]. split.
  - split; [done|]. rewrite E1 in Hh3.
    by apply (users_released s s1 s3 p b _ (tb_held _ _ _ _ _ T) (tb_head _ _ _ _ _ T) Hh3).
  - intros blk' Hv. by rewrite Hc3, Hc2, (tb_content _ _ _ _ _ T).
  - by rewrite HR3, HR2, (tb_rest _ _ _ _ _ T).
Qed.
Lemma same_cache_refl s : same_cache s s.
Proof. by split_and!. Qed.

(** ** The blocks of a file *)

(** A block of the partition holds 1024 bytes. *)
Lemma content_length s blk : cache_ok D start nr s → valid nr blk →
  ∃ d, content D start s blk = Some d ∧ length d = 1024%nat.
Proof.
  intros [_ HD] HV. destruct (content_cases D s blk) as [(p & b & Hb & Hd & Hk & Hu)|Hno].
  - exists (b_data b). split; [by apply (content_cached D start nr s blk p b)|]. by apply (hk_data D start nr s b), (do_head D start nr s HD p).
  - rewrite (content_disk D start s blk Hno). destruct (disk_valid D start nr s blk (do_part _ _ _ s HD) HV) as (a & c & Ha & Hc & La & Lc).
    exists (a ++ c). unfold disk. cbv beta in Ha, Hc. rewrite Ha, Hc. split; [done|]. rewrite length_app. lia.
Qed.

(** Entry [k] of the table in block [blk]. *)
Definition entry s (blk k : Z) : Z := half_at (default [] (content D start s blk)) k.
(** The zone of block [n] of a file: direct, by one table, or by two. *)
Definition zone_of s (i : m_inode) (n : Z) : Z :=
  if n <? 7 then zone i n
  else if n - 7 <? 512 then if zone i 7 =? 0 then 0 else entry s (zone i 7) (n - 7)
  else if zone i 8 =? 0 then 0
  else let m := entry s (zone i 8) (Z.shiftr (n - 7 - 512) 9) in
       if m =? 0 then 0 else entry s m ((n - 7 - 512) .& 511).
(** The blocks on the way to block [n] and the block are of the partition. *)
Definition in_partition (z : Z) : Prop := z = 0 ∨ valid nr z.
Definition block_ok s (i : m_inode) (n : Z) : Prop :=
  in_partition (zone_of s i n) ∧
  (7 ≤ n → if n - 7 <? 512 then in_partition (zone i 7)
           else in_partition (zone i 8) ∧
             (zone i 8 ≠ 0 → in_partition (entry s (zone i 8) (Z.shiftr (n - 7 - 512) 9)))).
Definition max_blocks : Z := 7 + 512 + 512 * 512.

Lemma entry_steady s s' blk k : steady s s' → valid nr blk → entry s' blk k = entry s blk k.
Proof. intros S Hv. unfold entry. by rewrite (st_content _ _ S). Qed.
(** The tables of a file. *)
Definition is_table s (i : m_inode) (z : Z) : Prop :=
  z = zone i 7 ∨ z = zone i 8 ∨ zone i 8 ≠ 0 ∧ ∃ k, 0 ≤ k ∧ z = entry s (zone i 8) k.
(** Where the tables hold what they held, the blocks are the same. *)
Lemma zone_of_tables s s' i n :
  (∀ t, is_table s i t → valid nr t → content D start s' t = content D start s t) → block_ok s i n →
  zone_of s' i n = zone_of s i n ∧ block_ok s' i n.
Proof.
  intros S [Hz Hp].
  assert (∀ t k, is_table s i t → valid nr t → entry s' t k = entry s t k) as He.
  { intros t k Ht Hv. unfold entry. by rewrite S. }
  assert (zone_of s' i n = zone_of s i n ∧ (7 ≤ n → (n - 7 <? 512) = false → zone i 8 ≠ 0 →
    entry s' (zone i 8) (Z.shiftr (n - 7 - 512) 9) = entry s (zone i 8) (Z.shiftr (n - 7 - 512) 9))) as [E1 E2].
  { unfold zone_of. destruct (Z.ltb_spec n 7) as [|H7]; [split; [done|lia]|]. specialize (Hp H7).
    destruct (Z.ltb_spec (n - 7) 512).
    - split; [|done]. destruct (Z.eqb_spec (zone i 7) 0); [done|]. apply He; [by left|]. by destruct Hp.
    - destruct Hp as [Hp8 Hpm]. destruct (Z.eqb_spec (zone i 8) 0) as [|H8]; [done|].
      assert (entry s' (zone i 8) (Z.shiftr (n - 7 - 512) 9) = entry s (zone i 8) (Z.shiftr (n - 7 - 512) 9)) as E.
      { apply He; [by right; left|]. by destruct Hp8. }
      rewrite E. split; [|done]. destruct (Z.eqb_spec (entry s (zone i 8) (Z.shiftr (n - 7 - 512) 9)) 0); [done|].
      apply He; [right; right; split; [done|]; eexists; split; [|done]; apply Z.shiftr_nonneg; lia|]. by destruct (Hpm H8). }
  split; [done|]. split; [by rewrite E1|]. intros H7. specialize (Hp H7).
  destruct (n - 7 <? 512); [done|]. destruct Hp as [Hp8 Hpm]. split; [done|]. intros H8. rewrite E2 by done. auto.
Qed.
Lemma zone_of_steady s s' i n : steady s s' → block_ok s i n →
  zone_of s' i n = zone_of s i n ∧ block_ok s' i n.
Proof. intros S. apply zone_of_tables. intros t _. apply (st_content _ _ S). Qed.

(** ** bmap *)

Lemma wp_zone s p i k create : 1 ≤ p → inode_table s !! Z.to_nat (p - 1) = Some i →
  (create = true → zone i k ≠ 0) → wp (bmap_zone p k create) (λ z s', z = zone i k ∧ s' = s) s.
Proof.
  intros Hp Hi Hc. unfold bmap_zone. apply wp_bind, (wp_inode p i); [done..|].
  assert (create && (zone i k =? 0) = false) as ->; [|by apply wp_ret].
  destruct create; [|done]. by apply Z.eqb_neq, Hc.
Qed.
Lemma wp_entry s blk k create : cache_ok D start nr s → room s → valid nr blk → (create = true → entry s blk k ≠ 0) →
  wp (bmap_indirect D blk k create) (λ z s', z = entry s blk k ∧ calm s s') s.
Proof.
  intros HC Hroom HV Hc. unfold bmap_indirect. apply wp_bind, wp_take_block; [done..|]. intros p b s1 T.
  rewrite (proj2 (Z.eqb_neq p NULL) (tb_pointer _ _ _ _ _ T)). apply wp_bind, (wp_bh p b _ _ (tb_head _ _ _ _ _ T)).
  assert (half_at (b_data b) k = entry s blk k) as -> by (unfold entry; by rewrite (tb_data _ _ _ _ _ T)).
  assert (create && (entry s blk k =? 0) = false) as ->.
  { destruct create; [|done]. by apply Z.eqb_neq, Hc. }
  apply wp_bind, wp_ret. apply wp_bind. eapply wp_mono; [apply (wp_release _ _ _ _ _ _ T), same_cache_refl|].
  intros [] s3 (S & E1 & E2 & E3). apply wp_ret. destruct (tb_files _ _ _ _ _ T) as (F1 & F2 & F3). split; [done|].
  split; [done|]. split_and!; congruence.
Qed.

Lemma calm_refl s : cache_ok D start nr s → calm s s.
Proof. intros HC. split; [by apply steady_ext, same_cache_refl|done]. Qed.

(** bmap finds the zone, and leaves the cache as it should be between calls;
    create_block does the same where there is a zone. *)
Lemma wp_bmap s p i n create : cache_ok D start nr s → room s → 1 ≤ p → inode_table s !! Z.to_nat (p - 1) = Some i →
  i_dev i = D → 0 ≤ n < max_blocks → block_ok s i n → (create = true → zone_of s i n ≠ 0) →
  wp (_bmap p n create) (λ z s', z = zone_of s i n ∧ calm s s') s.
Proof.
  intros HC Hroom Hp Hi HD Hn [Hz Hpath] Hc. unfold _bmap, max_blocks in *.
  rewrite (proj2 (Z.ltb_ge n 0)), (proj2 (Z.leb_gt _ n)) by lia.
  unfold zone_of in *. destruct (Z.ltb_spec n 7) as [H7|H7].
  { eapply wp_mono; [by apply (wp_zone s p i)|]. intros z s' [-> ->]. split; [done|by apply calm_refl]. }
  specialize (Hpath ltac:(lia)). destruct (n - 7 <? 512) eqn:Hlt.
  - apply wp_bind. eapply wp_mono; [apply (wp_zone s p i); [done..|]|].
    { intros Ht E. apply (Hc Ht). by rewrite E. }
    intros z s' [-> ->].
    destruct (Z.eqb_spec (zone i 7) 0) as [|H0]; [apply wp_ret; split; [done|by apply calm_refl]|].
    apply wp_bind, (wp_inode p i); [done..|]. rewrite HD. apply wp_entry; [done..| |done]. by destruct Hpath.
  - destruct Hpath as [H8 Hm]. apply wp_bind. eapply wp_mono; [apply (wp_zone s p i); [done..|]|].
    { intros Ht E. apply (Hc Ht). by rewrite E. }
    intros z s' [-> ->].
    destruct (Z.eqb_spec (zone i 8) 0) as [|H0]; [apply wp_ret; split; [done|by apply calm_refl]|].
    specialize (Hm H0). destruct H8 as [|H8]; [done|].
    apply wp_bind, (wp_inode p i); [done..|]. rewrite HD. apply wp_bind. eapply wp_mono; [apply wp_entry; [done..|]|].
    { intros Ht E. apply (Hc Ht). by rewrite E. }
    intros m s1 [-> C1]. set (m := entry s (zone i 8) _) in *.
    destruct (Z.eqb_spec m 0) as [|Hm0]; [apply wp_ret; by split|]. destruct Hm as [|Hm]; [done|].
    destruct C1 as (S1 & Ei & Ef & Eu). pose proof (st_idle _ _ S1) as [HC1 _].
    assert (∀ k, entry s1 m k = entry s m k) as Em by (intros k; by apply (entry_steady s s1)).
    eapply wp_mono; [apply (wp_entry s1 m); [done|by apply (steady_room s)|done|by rewrite Em]|].
    intros z s2 [-> C2]. split; [by rewrite Em|]. eapply calm_trans; [|done]. done.
Qed.

(** ** The bytes of a file *)

Definition file_block s (i : m_inode) (n : Z) : list Z :=
  if zone_of s i n =? 0 then replicate 1024 0 else default [] (content D start s (zone_of s i n)).
Definition file_byte s (i : m_inode) (x : Z) : Z := u8 (byte_at (file_block s i (x / 1024)) (x mod 1024)).
Definition file_bytes s (i : m_inode) (pos n : Z) : list Z := file_byte s i <$> seqZ pos n.
(** The blocks below offset [top] are of the partition. *)
Definition file_ok s (i : m_inode) (top : Z) : Prop :=
  top ≤ 1024 * max_blocks ∧ ∀ n, 0 ≤ n → 1024 * n < top → block_ok s i n.

Lemma file_ok_steady s s' i top : steady s s' → file_ok s i top → file_ok s' i top.
Proof. intros S [H0 H]. split; [done|]. intros n Hn Hlt. by apply (zone_of_steady s s' i n S), H. Qed.
Lemma file_block_steady s s' i n : steady s s' → block_ok s i n → file_block s' i n = file_block s i n.
Proof.
  intros S Hn. unfold file_block. destruct (zone_of_steady s s' i n S Hn) as [-> _].
  destruct (Z.eqb_spec (zone_of s i n) 0); [done|]. destruct Hn as [[|Hv] _]; [done|].
  by rewrite (st_content _ _ S).
Qed.
Lemma file_bytes_steady s s' i top pos n : steady s s' → file_ok s i top → 0 ≤ pos → pos + n ≤ top →
  file_bytes s' i pos n = file_bytes s i pos n.
Proof.
  intros S [_ Hok] Hpos Htop. apply list_fmap_ext. intros k x Hx%list_elem_of_lookup_2%elem_of_seqZ.
  unfold file_byte. rewrite (file_block_steady s s' i _ S); [done|]. apply Hok; dlia.
Qed.
(** The part of the bytes that is in the first block. *)
Lemma file_bytes_first s i pos n c : 0 ≤ pos → 0 ≤ c ≤ n → pos mod 1024 + c ≤ 1024 →
  file_bytes s i pos n =
  ((λ k, u8 (byte_at (file_block s i (pos / 1024)) (pos mod 1024 + k))) <$> upto (Z.to_nat c)) ++
  file_bytes s i (pos + c) (n - c).
Proof.
  intros Hpos Hc Ho. unfold file_bytes. replace n with (c + (n - c)) at 1 by lia.
  rewrite seqZ_app, fmap_app by lia. f_equal. unfold upto. rewrite Z2Nat.id by lia.
  apply list_eq. intros k. rewrite !list_lookup_fmap. unfold seqZ. rewrite !list_lookup_fmap.
  destruct (seq 0 (Z.to_nat c) !! k) as [x|] eqn:E; [|done]. apply lookup_seq in E as [-> Hk]. simpl. f_equal.
  unfold file_byte. replace ((Z.of_nat k + pos) / 1024) with (pos / 1024) by dlia.
  do 2 f_equal. dlia.
Qed.

(** ** file_read *)

Lemma wp_file_read_loop p i fp fuel : ∀ s buf left f, cache_ok D start nr s → room s →
  1 ≤ p → inode_table s !! Z.to_nat (p - 1) = Some i → i_dev i = D →
  1 ≤ fp → file_table s !! Z.to_nat (fp - 1) = Some f → 0 ≤ f_pos f →
  0 ≤ left ≤ Z.of_nat fuel → file_ok s i (f_pos f + left) →
  wp (file_read_loop fuel p fp buf left) (λ r s', r = 0 ∧ steady s s' ∧ inode_table s' = inode_table s ∧
    user s' = blit buf (file_bytes s i (f_pos f) left) (user s) ∧
    file_table s' = <[Z.to_nat (fp - 1) := f <| f_pos := f_pos f + left |>]> (file_table s)) s.
Proof.
  induction fuel as [|fuel IH]; intros s buf left f HC Hroom Hp Hi HD Hfp Hf Hpos Hleft Hok;
    cbn [file_read_loop]; destruct (Z.eqb_spec left 0) as [->|Hne]; try lia.
  1,2: apply wp_ret; split; [done|]; split; [by apply steady_ext, same_cache_refl|]; split; [done|];
    split; [done|]; rewrite Z.add_0_r, list_insert_id; [done|]; rewrite Hf; by destruct f.
  destruct Hok as [Htop Hok]. assert (0 ≤ f_pos f / 1024 < max_blocks) as Hn by (unfold max_blocks in *; dlia).
  apply wp_bind, (wp_filp fp f); [done..|]. unfold BLOCK_SIZE. rewrite Z.quot_div_nonneg, Z.rem_mod_nonneg by lia.
  rewrite s32_small by (unfold max_blocks in *; lia). set (n := f_pos f / 1024) in *.
  assert (block_ok s i n) as Hbn by (apply Hok; unfold n; dlia).
  apply wp_bind. eapply wp_mono; [by apply (wp_bmap s p i n false)|]. intros z s1 [-> (S1 & Ei & Ef & Eu)].
  pose proof (st_idle _ _ S1) as [HC1 _]. pose proof (steady_room _ _ HC S1 Hroom) as Hroom1.
  assert (inode_table s1 !! Z.to_nat (p - 1) = Some i) as Hi1 by (by rewrite Ei).
  assert (file_table s1 !! Z.to_nat (fp - 1) = Some f) as Hf1 by (by rewrite Ef).
  set (o := f_pos f mod 1024). set (chars := Z.min (1024 - o) left). set (z := zone_of s i n).
  assert (0 ≤ o < 1024) as Ho by (apply Z.mod_pos_bound; lia). assert (1 ≤ chars ≤ left) as Hchars by lia.
  apply wp_bind, (wp_inode p i); [done..|].
  assert (f <| f_pos ::= λ x, s64 (x + chars) |> = f <| f_pos := f_pos f + chars |>) as Hs64.
  { pose proof (s64_small (f_pos f + chars) ltac:(unfold max_blocks in *; lia)) as E. by destruct f; simpl in *; rewrite <-E at 2. }
  (* what is left after the copy *)
  assert (∀ s3, steady s s3 → inode_table s3 = inode_table s →
    user s3 = blit buf ((λ k, u8 (byte_at (file_block s i n) (o + k))) <$> upto (Z.to_nat chars)) (user s) →
    file_table s3 = <[Z.to_nat (fp - 1) := f <| f_pos := f_pos f + chars |>]> (file_table s) →
    wp (file_read_loop fuel p fp (buf + chars) (left - chars)) (λ r s', r = 0 ∧ steady s s' ∧
      inode_table s' = inode_table s ∧ user s' = blit buf (file_bytes s i (f_pos f) left) (user s) ∧
      file_table s' = <[Z.to_nat (fp - 1) := f <| f_pos := f_pos f + left |>]> (file_table s)) s3) as Hrest.
  { intros s3 S3 Ei3 Eu3 Ef3. pose proof (st_idle _ _ S3) as [HC3 _].
    assert (file_ok s i (f_pos f + left)) as Hall by done.
    eapply wp_mono; [apply (IH s3 (buf + chars) (left - chars) (f <| f_pos := f_pos f + chars |>)); try done|].
    - by apply (steady_room s).
    - by rewrite Ei3.
    - rewrite Ef3. apply list_lookup_insert_eq. apply lookup_lt_Some in Hf. lia.
    - simpl. lia.
    - lia.
    - simpl. replace (f_pos f + chars + (left - chars)) with (f_pos f + left) by lia. by apply (file_ok_steady s).
    - intros r s' (-> & S' & Ei' & Eu' & Ef'). split; [done|]. split; [by eapply steady_trans|].
      split; [congruence|]. split.
      + rewrite Eu', Eu3. simpl. rewrite (file_bytes_first s i (f_pos f) left chars) by lia.
        rewrite (file_bytes_steady s s3 i (f_pos f + left)) by (done || lia). rewrite blit_app.
        rewrite length_fmap. unfold upto. rewrite length_seqZ. f_equal. lia.
      + rewrite Ef', Ef3, list_insert_insert_eq. simpl.
        by replace (f_pos f + chars + (left - chars)) with (f_pos f + left) by lia. }
  destruct (Z.eq_dec z 0) as [Hz|Hz].
  - rewrite (proj2 (truth_false z)) by done. apply wp_bind, wp_ret. cbv iota beta. change (truth NULL) with false. simpl andb.
    apply wp_bind, (wp_set_filp fp f); [done..|]. rewrite Hs64.
    apply wp_bind. eapply wp_of_ret; [apply zero_out_run|]. set (s2 := with_user _ _).
    assert (steady s1 s2) as S2 by (by apply steady_ext).
    apply Hrest; [by eapply steady_trans|done| |].
    + change (user s2) with (blit buf ((λ _, 0) <$> upto (Z.to_nat chars)) (user s1)). rewrite Eu. f_equal. apply list_fmap_ext. intros k x Hx%list_elem_of_lookup_2%elem_of_upto.
      unfold file_block. fold z. rewrite Hz, Z.eqb_refl. unfold byte_at.
      destruct (replicate 1024 0 !! Z.to_nat (o + x)) as [v|] eqn:E; [|done].
      by apply lookup_replicate in E as [-> _].
    + simpl. by rewrite Ef.
  - rewrite (proj2 (truth_true z)) by done. rewrite HD. assert (valid nr z) as Hv by (by destruct Hbn as [[|] _]).
    apply wp_bind, wp_take_block; [done..|]. intros q b s2 T.
    rewrite (proj2 (Z.eqb_neq q NULL) (tb_pointer _ _ _ _ _ T)). simpl andb. cbv iota.
    destruct (tb_files _ _ _ _ _ T) as (Ei2 & Ef2 & Eu2).
    apply wp_bind, (wp_set_filp fp f); [done|by rewrite Ef2|]. rewrite Hs64.
    rewrite (proj2 (truth_true q)) by (exact (tb_pointer _ _ _ _ _ T)).
    apply wp_bind. apply wp_bind, (wp_bh q b); [exact (tb_head _ _ _ _ _ T)|].
    apply wp_bind. eapply wp_of_ret.
    { apply copy_out_run; [lia|]. rewrite (tb_length _ _ _ _ _ T). lia. }
    set (s3 := with_user _ _). eapply wp_mono; [apply (wp_release _ _ _ _ _ s3 T); by split_and!|].
    intros [] s4 (S4 & Ei4 & Ef4 & Eu4). apply Hrest; [by eapply steady_trans| | |].
    + rewrite Ei4. simpl. congruence.
    + rewrite Eu4. change (user s3) with (blit buf ((λ k, u8 (byte_at (b_data b) (o + k))) <$> upto (Z.to_nat chars)) (user s2)).
      rewrite Eu2, Eu. f_equal.
      unfold file_block. fold z. rewrite (proj2 (Z.eqb_neq z 0)) by done.
      rewrite <-(st_content _ _ S1 z Hv), (tb_data _ _ _ _ _ T). done.
    + rewrite Ef4. simpl. congruence.
Qed.

Lemma wp_CURRENT_TIME (Q : Z → fs → Prop) s : (∀ now, Q now s) → wp CURRENT_TIME Q s.
Proof.
  intros HQ. unfold CURRENT_TIME. apply wp_in_sched, wp_gets.
  by destruct s as [? ? ? ? ? ? ? ? ? ? ? ? [] ?].
Qed.

Lemma wp_file_read p i fp s buf count f : cache_ok D start nr s → room s →
  1 ≤ p → inode_table s !! Z.to_nat (p - 1) = Some i → i_dev i = D →
  1 ≤ fp → file_table s !! Z.to_nat (fp - 1) = Some f → 0 ≤ f_pos f →
  0 < count → file_ok s i (f_pos f + count) →
  wp (file_read p fp buf count) (λ r s', r = count ∧ steady s s' ∧
    user s' = blit buf (file_bytes s i (f_pos f) count) (user s) ∧
    file_table s' = <[Z.to_nat (fp - 1) := f <| f_pos := f_pos f + count |>]> (file_table s) ∧
    ∃ now, inode_table s' = <[Z.to_nat (p - 1) := i <| i_atime := now |>]> (inode_table s)) s.
Proof.
  intros HC Hroom Hp Hi HD Hfp Hf Hpos Hcount Hok. unfold file_read. rewrite (proj2 (Z.leb_gt count 0)) by done.
  apply wp_bind. eapply wp_mono; [apply (wp_file_read_loop p i fp (Z.to_nat count)); done || lia|].
  intros left s1 (-> & S1 & Ei & Eu & Ef). apply wp_bind, wp_CURRENT_TIME. intros now.
  apply wp_bind, (wp_set_inode p i); [done|by rewrite Ei|]. apply wp_ret.
  rewrite Z.sub_0_r, (proj2 (truth_true count)) by lia. split; [done|]. split; [|split; [done|split; [done|]]].
  - eapply steady_trans; [done|]. apply steady_ext; [apply (st_idle _ _ S1)|done].
  - exists (u64 now). simpl. by rewrite Ei.
Qed.
End Files.

(** ** The system call *)

(** Descriptor [fd] of the running task is file [f] (at [fp]) of inode [i] (at
    [p]), a regular file or a directory of device [D], at a position in range. *)
Record opened (D : Z) (s : fs) (fd fp : Z) (f : file) (p : Z) (i : m_inode) : Prop := Opened {
  op_fd : 0 ≤ fd < Z.of_nat NR_OPEN;
  op_task : ∃ t, heap (sch s) !! current (sch s) = Some t ∧ Task.filp t !! Z.to_nat fd = Some fp;
  op_fp : 1 ≤ fp;
  op_file : file_table s !! Z.to_nat (fp - 1) = Some f;
  op_pos : 0 ≤ f_pos f < 2 ^ 31;
  op_p : f_inode f = p ∧ 1 ≤ p;
  op_inode : inode_table s !! Z.to_nat (p - 1) = Some i;
  op_dev : i_dev i = D;
  op_pipe : i_pipe i = 0;
  op_size : 0 ≤ i_size i
}.

Lemma readable_mode m : S_ISREG m || S_ISDIR m = true →
  S_ISCHR m = false ∧ S_ISBLK m = false ∧ S_ISDIR m || S_ISREG m = true.
Proof.
  unfold S_ISREG, S_ISCHR, S_ISBLK, S_ISDIR. intros [E%Z.eqb_eq|E%Z.eqb_eq]%orb_prop; by rewrite E.
Qed.

Lemma wp_fd_file D s fd fp f p i (Q : Z → fs → Prop) : opened D s fd fp f p i → Q fp s → wp (fd_file fd) Q s.
Proof.
  intros O HQ. destruct (op_task _ _ _ _ _ _ _ O) as (t & Ht & Hfp). pose proof (op_fd _ _ _ _ _ _ _ O) as Hfd.
  unfold fd_file. change (Z.of_nat NR_OPEN) with 20 in *. rewrite u32_small, (proj2 (Z.leb_gt 20 fd)) by lia.
  apply wp_bind, (wp_cur t); [done|]. eapply wp_of_ret; [apply index_Some; [lia|done]|done].
Qed.

(** What a read of [n] bytes does. *)
Record has_read (D start nr : Z) (s : fs) (fp : Z) (f : file) (p : Z) (i : m_inode) (buf n : Z) (s' : fs) : Prop := HasRead {
  hr_user : user s' = blit buf (file_bytes D start s i (f_pos f) n) (user s);
  hr_file : file_table s' = <[Z.to_nat (fp - 1) := f <| f_pos := f_pos f + n |>]> (file_table s);
  hr_inode : ∃ at', inode_table s' = <[Z.to_nat (p - 1) := i <| i_atime := at' |>]> (inode_table s);
  hr_cache : idle D start nr s s';
  hr_blocks : ∀ blk, valid nr blk → content D start s' blk = content D start s blk;
  hr_super : super_block s' = super_block s
}.

(** C1: read of a regular file or a directory returns what the file holds.  The
    result is the number of bytes asked for, or what is left of the file; exactly
    that many bytes, those of the blocks that the zones of the inode name (direct,
    by one table or by two, zeros for holes), at the position of the descriptor,
    go to the buffer of the task, and the position moves on; no block, inode
    (but for the access time) or other file changes, and the cache keeps its
    invariant and the users of its buffers. *)
Theorem sys_read_reads_file D start nr fuel fd fp f p i buf count m s :
  cache_ok D start nr s → room s → opened D s fd fp f p i → S_ISREG (i_mode i) || S_ISDIR (i_mode i) = true →
  file_ok D start nr s i (i_size i) → 0 ≤ count < 2 ^ 31 →
  verify_area buf count s = Ret tt (s <| mem := m |>) →
  let n := Z.max 0 (Z.min count (i_size i - f_pos f)) in
  wp (sys_read fuel fd buf count) (λ r s', r = n ∧ has_read D start nr s fp f p i buf n s') s.
Proof.
  intros HC Hroom O Hmode Hok Hcount Hver n. pose proof Hok as [Hmax _].
  pose proof (op_pos _ _ _ _ _ _ _ O) as Hpos. pose proof (op_size _ _ _ _ _ _ _ O) as Hsize.
  destruct (op_p _ _ _ _ _ _ _ O) as [Hfi Hp]. pose proof (op_fp _ _ _ _ _ _ _ O) as Hfp.
  pose proof (op_file _ _ _ _ _ _ _ O) as Hf. pose proof (op_inode _ _ _ _ _ _ _ O) as Hi.
  assert (i_size i < 2 ^ 31) as Hsize' by (unfold max_blocks in *; lia).
  unfold sys_read. apply wp_bind. eapply wp_fd_file; [done|].
  rewrite (proj2 (Z.ltb_ge count 0)) by lia. rewrite (proj2 (Z.eqb_neq fp NULL)) by (unfold NULL; lia). simpl orb. cbv iota.
  set (s0 := s <| mem := m |>).
  (* when nothing is read *)
  assert (n = 0 → ∀ s1, s1 = s ∨ s1 = s0 →
    wp (mret 0) (λ r s', r = n ∧ has_read D start nr s fp f p i buf n s') s1) as Hnone.
  { intros Hn s1 Hs1. rewrite Hn. apply wp_ret. split; [done|]. split; [by destruct Hs1 as [->| ->]|..].
    - rewrite Z.add_0_r, list_insert_id; [by destruct Hs1 as [->| ->]|]. rewrite Hf. by destruct f.
    - exists (i_atime i). rewrite list_insert_id; [by destruct Hs1 as [->| ->]|]. rewrite Hi. by destruct i.
    - split; [destruct Hs1 as [->| ->]; [done|by apply (cache_ok_ext D start nr s)]|].
      intros q b Hb. exists b. by destruct Hs1 as [->| ->].
    - intros blk _. by destruct Hs1 as [->| ->].
    - by destruct Hs1 as [->| ->]. }
  destruct (Z.eqb_spec count 0) as [|Hc0]; [apply Hnone; [lia|by left]|].
  apply wp_bind. eapply wp_of_ret; [exact Hver|]. fold s0.
  apply wp_bind, (wp_filp fp f); [done..|]. rewrite Hfi. apply wp_bind, (wp_inode p i); [done..|].
  rewrite (op_pipe _ _ _ _ _ _ _ O). change (truth 0) with false. cbv iota.
  destruct (readable_mode _ Hmode) as (-> & -> & ->).
  cbv zeta. rewrite u64_small, s32_small by lia.
  replace (if i_size i <? count + f_pos f then i_size i - f_pos f else count) with (Z.min count (i_size i - f_pos f))
    by (destruct (Z.ltb_spec (i_size i) (count + f_pos f)); lia).
  destruct (Z.leb_spec (Z.min count (i_size i - f_pos f)) 0) as [|Hn]; [apply Hnone; [lia|by right]|].
  assert (Z.min count (i_size i - f_pos f) = n) as -> by lia.
  assert (cache_ok D start nr s0) as HC0 by (by apply (cache_ok_ext D start nr s)).
  assert (file_ok D start nr s0 i (f_pos f + n)) as Hok0.
  { split; [lia|]. intros k Hk Hlt. apply (proj2 Hok k); lia. }
  eapply wp_mono; [apply (wp_file_read D start nr p i fp s0 buf n f); try done || lia; apply O|].
  intros r s' (-> & [Hidle Hcont HR] & Eu & Ef & Ei). split; [done|]. split; try done.
  unfold rest in HR. simpl in HR. congruence.
Qed.

(** ** A file at boot: block 3, a hole and block 5, opened at byte 1000 *)

Definition inode_2500 : m_inode := MInode 0x81A4 0 2500 0 0 1 [3; 0; 5; 0; 0; 0; 0; 0; 0] 0 0 0x300 2 1 0 0 0 0 0 0.
Definition file_1000 : file := File 3 0 1 1 1000.
Definition with_descriptor (c : sched) : sched :=
  c <| heap ::= alter (λ t, t <| Task.filp := replicate 3 0 ++ 1 :: replicate 16 0 |>) (current c) |>.
Definition with_file (i : m_inode) (s : fs) : fs := with_sch
  (s <| inode_table := i :: replicate 31 inode0 |>
     <| file_table := file_1000 :: replicate 63 (File 0 0 0 0 0) |>)
  (with_descriptor (sch s)).
Definition fs_file : fs := with_file inode_2500 fs_boot.

Lemma with_file_cache i D start nr s : cache_ok D start nr s → room s → waitq (sch s) = ∅ →
  cache_ok D start nr (with_file i s) ∧ room (with_file i s).
Proof.
  intros HC HR Hw. split; [|exact HR]. apply cache_ok_sch.
  - by apply (cache_ok_ext D start nr s).
  - intros q h H. change (waitq (sch s) !! q = Some h) in H. by rewrite Hw, lookup_empty in H.
Qed.
Lemma boot_file_cache i : cache_ok 0x300 0 64 (with_file i fs_boot) ∧ room (with_file i fs_boot).
Proof. apply with_file_cache; [apply boot_cache..|vm_compute; reflexivity]. Qed.
Lemma fs_file_opened : opened 0x300 fs_file 3 1 file_1000 1 inode_2500.
Proof.
  split; [split; done|eexists; split; vm_compute; reflexivity|done|reflexivity|split; done|done|reflexivity|done..].
Qed.
Lemma fs_file_ok : file_ok 0x300 0 64 fs_file inode_2500 2500.
Proof.
  split; [done|]. intros n Hn Hlt. assert (n = 0 ∨ n = 1 ∨ n = 2) as [->|[->| ->]] by lia.
  - split; [|by intros]. change (zone_of 0x300 0 fs_file inode_2500 0) with 3. right. split; lia.
  - split; [|by intros]. by left.
  - split; [|by intros]. change (zone_of 0x300 0 fs_file inode_2500 2) with 5. right. split; lia.
Qed.
Lemma fs_file_verify : verify_area 4096 2000 fs_file = Ret tt (fs_file <| mem := mem fs_file |>).
Proof. vm_compute. reflexivity. Qed.

Lemma sys_read_reads_file_witness :
  wp (sys_read 10 3 4096 2000)
    (λ r s', r = 1500 ∧ has_read 0x300 0 64 fs_file 1 file_1000 1 inode_2500 4096 1500 s') fs_file.
Proof.
  refine (sys_read_reads_file 0x300 0 64 10 3 1 file_1000 1 inode_2500 4096 2000 (mem fs_file) fs_file
    (proj1 (boot_file_cache _)) (proj2 (boot_file_cache _)) fs_file_opened _ fs_file_ok _ fs_file_verify).
  - reflexivity.
  - lia.
Defined.
