(* ===== verification/FileWrite.v ===== *)
(** * Writing into a regular file

    file_write over blocks that the file has: the bytes of the file become those
    of the task, through create_block, the cache and its dirty buffers, and
    nothing else changes; what was written is read back. *)

From S2P Require Export FileFacts.
From S2P Require Import FileIo Cache CacheFacts FsBoot.

(** ** The store into a buffer *)

Lemma byte_at_set d k v j : 0 ≤ k < zlen d → 0 ≤ j → byte_at (set_byte d k v) j = if decide (j = k) then u8 v else byte_at d j.
Proof.
  intros Hk Hj. unfold byte_at, set_byte. rewrite list_lookup_insert. case_decide as E; case_decide; try done; lia.
Qed.
(** The byte of the task's memory at [a], as get_fs_byte and put_fs_byte see it. *)
Definition user_byte (s : fs) (a : Z) : Z := u8 (default 0 (user s !! a)).

Lemma wp_copy_in q o c buf s b (Q : () → fs → Prop) : heads s !! q = Some b → 0 ≤ o → 0 ≤ c → o + c ≤ zlen (b_data b) →
  (∀ d, length d = length (b_data b) →
    (∀ k, 0 ≤ k → byte_at d k = if decide (o ≤ k < o + c) then user_byte s (buf + (k - o)) else byte_at (b_data b) k) →
    Q tt (s <| heads := <[q := b <| b_data := d |>]> (heads s) |>)) →
  wp (copy_in q o c buf) Q s.
Proof.
  intros Hb Ho Hc Hoc HQ. unfold copy_in.
  pose (Inv := λ (n : nat) s', ∃ d, s' = s <| heads := <[q := b <| b_data := d |>]> (heads s) |> ∧
    length d = length (b_data b) ∧ ∀ k, 0 ≤ k →
      byte_at d k = if decide (o ≤ k < o + Z.of_nat n) then user_byte s (buf + (k - o)) else byte_at (b_data b) k).
  eapply wp_mono; [apply (wp_mfor_upto _ Inv)|].
  - exists (b_data b). split; [|split; [done|]].
    + rewrite insert_id; [by destruct s|]. rewrite Hb. by destruct b.
    + intros k _. by rewrite decide_False by lia.
  - intros n s' Hn (d & -> & Hd & Hk). set (s1 := s <| heads := _ |>).
    assert (heads s1 !! q = Some (b <| b_data := d |>)) as Hb1 by (simpl; apply lookup_insert_eq).
    apply wp_bind, wp_get_fs_byte. apply wp_bind, (wp_bh q _ _ _ Hb1). simpl b_data.
    destruct (Z.ltb_spec (o + Z.of_nat n) 0); [lia|]. destruct (Z.leb_spec (zlen d) (o + Z.of_nat n)); [lia|]. simpl orb. cbv iota.
    apply (wp_set_bh q _ _ _ _ Hb1). exists (set_byte d (o + Z.of_nat n) (default 0 (user s !! (buf + Z.of_nat n)))).
    split; [|split].
    + unfold s1. destruct s; simpl. f_equal. by rewrite insert_insert_eq.
    + unfold set_byte. by rewrite length_insert.
    + intros k Hk0. rewrite byte_at_set by lia. case_decide as E.
      * subst k. rewrite decide_True by lia. unfold user_byte. do 4 f_equal. lia.
      * rewrite Hk by done. repeat case_decide; try done; lia.
  - intros [] s' (d & -> & Hd & Hk). apply HQ; [done|]. intros k Hk0. rewrite Hk by done.
    by rewrite Z2Nat.id by lia.
Qed.

Section Write.
Context (D start nr : Z).
Implicit Types s : fs.

(** The block [z] now holds [d]; all else is as in [s]. *)
Record wrote s (z : Z) (d : list Z) s' : Prop := Wrote {
  wr_idle : idle D start nr s s';
  wr_rest : rest s' = rest s;
  wr_block : content D start s' z = Some d;
  wr_others : ∀ blk, valid nr blk → blk ≠ z → content D start s' blk = content D start s blk
}.

(** The end of a store: the buffer is given back. *)
Lemma wp_release_written s z q b s2 d s3 : taken_block D start nr s z q b s2 → length d = 1024%nat →
  heads s3 = <[q := b <| b_data := d |> <| b_dirt := 1 |>]> (heads s2) →
  hash_table s3 = hash_table s2 → free_list s3 = free_list s2 → media s3 = media s2 → sch s3 = sch s2 → rest s3 = rest s2 →
  wp (brelse q) (λ _ s4, wrote s z d s4 ∧ inode_table s4 = inode_table s3 ∧ file_table s4 = file_table s3 ∧
    user s4 = user s3) s3.
Proof.
  intros T Hd Eh E1 E2 E3 E4 E5. set (b1 := b <| b_data := d |> <| b_dirt := 1 |>) in *.
  set (s2' := s2 <| heads := <[q := b1]> (heads s2) |>).
  assert (nr_buffers s3 = nr_buffers s2) as E6 by (unfold rest in E5; congruence).
  assert (hd s3 = hd s2) as E7 by (unfold rest in E5; congruence).
  destruct (tb_key _ _ _ _ _ _ _ _ T) as [Hdev Hz].
  pose proof (wp_modify_block D start nr s2 q b d (tb_ok _ _ _ _ _ _ _ _ T) (tb_head _ _ _ _ _ _ _ _ T) Hdev
    (tb_uptodate _ _ _ _ _ _ _ _ T) Hd) as Hmod.
  assert (set_bh q (λ b, b <| b_data := d |> <| b_dirt := 1 |>) s2 = Ret tt s2') as Erun.
  { unfold set_bh. rewrite (bind_ret _ _ _ _ _ (bh_Ret q b s2 (tb_head _ _ _ _ _ _ _ _ T))). done. }
  unfold wp in Hmod. rewrite Erun in Hmod. destruct Hmod as (HC2 & _ & _ & Hc2 & Ho2). rewrite Hz in Hc2, Ho2.
  assert (cache_ok D start nr s3) as HC3 by (by apply (cache_ok_ext D start nr s2')).
  assert (∀ blk, content D start s3 blk = content D start s2' blk) as Hcont.
  { intros blk. unfold content, cached, disk. rewrite Eh, E6, E3. done. }
  assert (heads s3 !! q = Some b1) as Hb by (rewrite Eh; apply lookup_insert_eq).
  eapply wp_mono; [exact (wp_brelse D start nr s3 q b1 HC3 Hb (tb_count _ _ _ _ _ _ _ _ T))|].
  intros [] s4 (HC4 & HO4 & Hc4 & Hh4). destruct (only_cache_rest s3 s4 HO4) as (HR4 & ? & ? & ?).
  pose proof (tb_valid _ _ _ _ _ _ _ _ T) as Hv.
  split; [|done]. split.
  - split; [done|]. rewrite Eh, insert_insert_eq in Hh4.
    by apply (users_released s s2 s4 q b _ (tb_held _ _ _ _ _ _ _ _ T) (tb_head _ _ _ _ _ _ _ _ T) Hh4).
  - by rewrite HR4, E5, (tb_rest _ _ _ _ _ _ _ _ T).
  - by rewrite Hc4, Hcont.
  - intros blk HV Hne. by rewrite Hc4, Hcont, Ho2, (tb_content _ _ _ _ _ _ _ _ T).
Qed.

(** ** Whose blocks are whose *)

(** The blocks of the file below [top] are of the partition, each is the block of
    one part of the file only, and none is one of the tables. *)
Record own_blocks s (i : m_inode) (top : Z) : Prop := OwnBlocks {
  ob_ok : file_ok D start nr s i top;
  ob_zones : in_partition nr (zone i 7) ∧ in_partition nr (zone i 8);
  ob_distinct : ∀ n n', 0 ≤ n → 1024 * n < top → 0 ≤ n' → 1024 * n' < top → zone_of D start s i n ≠ 0 →
    zone_of D start s i n' = zone_of D start s i n → n' = n;
  ob_tables : ∀ n, 0 ≤ n → 1024 * n < top → zone_of D start s i n ≠ 0 → ¬ is_table D start s i (zone_of D start s i n)
}.

(** A store into tables' blocks aside, the file keeps its blocks. *)
Lemma own_blocks_same s s' i top : own_blocks s i top →
  (∀ t, is_table D start s i t → valid nr t → content D start s' t = content D start s t) →
  own_blocks s' i top ∧ ∀ n, 0 ≤ n → 1024 * n < top → zone_of D start s' i n = zone_of D start s i n.
Proof.
  intros [[Htop Hok] [H7 H8] Hd Ht] HS.
  assert (∀ n, 0 ≤ n → 1024 * n < top → zone_of D start s' i n = zone_of D start s i n ∧ block_ok D start nr s' i n) as HZ.
  { intros n Hn Hlt. apply zone_of_tables; [done|by apply Hok]. }
  assert (∀ z, is_table D start s' i z → is_table D start s i z) as HT.
  { intros z [->|[->|(Hz8 & k & Hk & ->)]]; [by left|by right; left|right; right]. split; [done|]. exists k. split; [done|].
    unfold entry. rewrite HS; [done|by right; left|]. by destruct H8. }
  split; [|intros n Hn Hlt; by apply HZ]. split; [|done|..].
  - split; [done|]. intros n Hn Hlt. by apply HZ.
  - intros n n' Hn Hlt Hn' Hlt'. rewrite (proj1 (HZ n Hn Hlt)), (proj1 (HZ n' Hn' Hlt')). auto.
  - intros n Hn Hlt. rewrite (proj1 (HZ n Hn Hlt)). intros Hne HT'. by apply (Ht n Hn Hlt Hne), HT.
Qed.

(** Storing [d] in block [n] of the file. *)
Lemma wrote_file s i top n d s' : own_blocks s i top → 0 ≤ n → 1024 * n < top → zone_of D start s i n ≠ 0 →
  wrote s (zone_of D start s i n) d s' →
  own_blocks s' i top ∧ ∀ n', 0 ≤ n' → 1024 * n' < top → zone_of D start s' i n' = zone_of D start s i n' ∧
    file_block D start s' i n' = if decide (n' = n) then d else file_block D start s i n'.
Proof.
  intros HO Hn Hlt Hne W.
  assert (∀ t, is_table D start s i t → valid nr t → content D start s' t = content D start s t) as HS.
  { intros t Ht Hv. apply (wr_others _ _ _ _ W); [done|]. intros ->. by apply (ob_tables _ _ _ HO n Hn Hlt Hne). }
  destruct (own_blocks_same s s' i top HO HS) as [HO' HZ]. split; [done|].
  intros n' Hn' Hlt'. split; [by apply HZ|]. unfold file_block. rewrite HZ by done. case_decide as E.
  - subst n'. rewrite (proj2 (Z.eqb_neq _ 0) Hne). by rewrite (wr_block _ _ _ _ W).
  - destruct (Z.eqb_spec (zone_of D start s i n') 0) as [|Hne']; [done|].
    rewrite (wr_others _ _ _ _ W); [done| |].
    + by destruct (proj2 (ob_ok _ _ _ HO) n' Hn' Hlt') as [[|] _].
    + intros Ez. by apply E, (ob_distinct _ _ _ HO n n').
Qed.

(** ** The loop of file_write *)

(** The inode after [n] bytes at [pos]. *)
Definition grown (i : m_inode) (pos n : Z) : m_inode :=
  if i_size i <? pos + n then i <| i_size := pos + n |> <| i_dirt := 1 |> else i.
(** What the store of [n] bytes from [a] on at [pos] has done. *)
Record stored s (p : Z) (i : m_inode) (top pos n a : Z) s' : Prop := Stored {
  so_idle : idle D start nr s s';
  so_rest : rest s' = rest s;
  so_inode : inode_table s' = <[Z.to_nat (p - 1) := grown i pos n]> (inode_table s);
  so_files : file_table s' = file_table s ∧ user s' = user s;
  so_own : own_blocks s' i top;
  so_bytes : ∀ x, 0 ≤ x < top → file_byte D start s' i x =
    if decide (pos ≤ x < pos + n) then user_byte s (a + (x - pos)) else file_byte D start s i x;
  so_others : ∀ blk, valid nr blk → (∀ k, pos / 1024 ≤ k < (pos + n + 1023) / 1024 → blk ≠ zone_of D start s i k) →
    content D start s' blk = content D start s blk;
  so_zones : ∀ k, 0 ≤ k → 1024 * k < top → zone_of D start s' i k = zone_of D start s i k
}.

Lemma zone_of_grown s i pos n k : zone_of D start s (grown i pos n) k = zone_of D start s i k.
Proof. unfold grown. by destruct (i_size i <? pos + n). Qed.
Lemma grown_zone i pos n : i_zone (grown i pos n) = i_zone i ∧ i_dev (grown i pos n) = i_dev i.
Proof. unfold grown. by destruct (i_size i <? pos + n). Qed.
Lemma grown_grown i pos c n : 0 ≤ c ≤ n → grown (grown i pos c) (pos + c) (n - c) = grown i pos n.
Proof.
  intros Hc. unfold grown at 2. destruct (Z.ltb_spec (i_size i) (pos + c)).
  - unfold grown. simpl. rewrite (proj2 (Z.ltb_lt (i_size i) (pos + n))) by lia.
    destruct (Z.ltb_spec (pos + c) (pos + c + (n - c))).
    + replace (pos + c + (n - c)) with (pos + n) by lia. by destruct i.
    + replace (pos + n) with (pos + c) by lia. done.
  - unfold grown. by replace (pos + c + (n - c)) with (pos + n) by lia.
Qed.
Lemma own_blocks_grown s i pos n top : own_blocks s (grown i pos n) top ↔ own_blocks s i top.
Proof.
  unfold grown. destruct (i_size i <? pos + n); [|done].
  split; intros [H1 H2 H3 H4]; (split; [exact H1|exact H2|exact H3|exact H4]).
Qed.
Lemma file_byte_grown s i pos n x : file_byte D start s (grown i pos n) x = file_byte D start s i x.
Proof. unfold grown. by destruct (i_size i <? pos + n). Qed.

Lemma stored_nothing s p i top pos a : cache_ok D start nr s → 1 ≤ p → inode_table s !! Z.to_nat (p - 1) = Some i →
  own_blocks s i top → pos ≤ i_size i → stored s p i top pos 0 a s.
Proof.
  intros HC Hp Hi HO Hg%Z.ltb_ge. split; try done.
  - split; [done|]. apply users_kept_refl.
  - unfold grown. by rewrite Z.add_0_r, Hg, list_insert_id.
  - intros x Hx. by rewrite decide_False by lia.
Qed.
Lemma stored_trans s1 s2 s3 p i top pos c n a : 0 ≤ pos → 0 ≤ c ≤ n → pos + n ≤ top →
  stored s1 p i top pos c a s2 → stored s2 p (grown i pos c) top (pos + c) (n - c) (a + c) s3 →
  stored s1 p i top pos n a s3.
Proof.
  intros Hpos Hc Hn [I1 R1 T1 [F1 U1] O1 B1 K1 Z1] [I2 R2 T2 [F2 U2] O2 B2 K2 Z2].
  assert (∀ k, 0 ≤ k → 1024 * k < top → zone_of D start s2 (grown i pos c) k = zone_of D start s1 i k) as Z1'.
  { intros k Hk Hlt. rewrite zone_of_grown. auto. }
  split.
  - destruct I1 as [_ H1], I2 as [HC H2]. split; [done|]. by apply (users_kept_trans s1 s2).
  - by rewrite R2.
  - by rewrite T2, T1, list_insert_insert_eq, grown_grown.
  - split; congruence.
  - exact (proj1 (own_blocks_grown s3 i pos c top) O2).
  - intros x Hx. rewrite <-(file_byte_grown s3 i pos c), B2, file_byte_grown, B1 by done. unfold user_byte. rewrite U1.
    repeat case_decide; try lia; try done. do 3 f_equal. lia.
  - intros blk Hv Hb. rewrite K2, K1; [done|done| |done|].
    + intros k Hk. apply Hb. dlia.
    + intros k Hk. rewrite Z1' by dlia. apply Hb. dlia.
  - intros k Hk Hlt. rewrite <-(zone_of_grown s3 i pos c), Z2, Z1' by done. done.
Qed.

(** One block of the loop, from the store on. *)
Lemma wp_store_block {A} (K : M fs A) (Q : A → fs → Prop) s s1 p i top n o c pos a z q b : 1 ≤ p → inode_table s1 !! Z.to_nat (p - 1) = Some i →
  pos = 1024 * n + o → 0 ≤ o → 1 ≤ c → o + c ≤ 1024 → 0 ≤ n → pos + c ≤ top → pos + c < 2 ^ 31 → 0 ≤ i_size i →
  own_blocks s i top → z = zone_of D start s i n → z ≠ 0 → taken_block D start nr s z q b s1 →
  (∀ s', stored s p i top pos c a s' → wp K Q s') →
  wp (set_bh q (λ d, d <| b_dirt := 1 |>);;
      when (i_size i <? u64 (pos + c)) (set_inode p (λ x, x <| i_size := u64 (pos + c) |> <| i_dirt := 1 |>));;
      copy_in q o c a;;
      brelse q;;
      K) Q s1.
Proof.
  intros Hp Hi1 Hpos Ho Hc Hoc Hn Htop H31 Hsize HO -> Hz T HK.
  destruct (tb_files _ _ _ _ _ _ _ _ T) as (Ei & Ef & Eu). pose proof (tb_length _ _ _ _ _ _ _ _ T) as Hlen.
  apply wp_bind, (wp_set_bh q _ _ _ _ (tb_head _ _ _ _ _ _ _ _ T)). rewrite u64_small by lia.
  set (b1 := b <| b_dirt := 1 |>). set (s2 := s1 <| heads ::= <[q := b1]> |>).
  set (s3 := s2 <| inode_table := <[Z.to_nat (p - 1) := grown i pos c]> (inode_table s1) |>).
  apply wp_bind. eapply (wp_mono _ (λ _ s', s' = s3)).
  { unfold s3, grown. destruct (i_size i <? pos + c).
    - apply (wp_set_inode p i); [done|exact Hi1|done].
    - apply wp_ret. simpl. rewrite list_insert_id by done. by destruct s. }
  intros [] ? ->. apply wp_bind.
  assert (heads s3 !! q = Some b1) as Hb3 by apply lookup_insert_eq.
  apply (wp_copy_in q o c a s3 b1); [exact Hb3|lia|lia|change (b_data b1) with (b_data b); lia|].
  intros d Hd Hdk. change (b_data b1) with (b_data b) in *. set (s4 := s3 <| heads := _ |>).
  apply wp_bind. eapply wp_mono.
  { apply (wp_release_written s (zone_of D start s i n) q b s1 d s4 T); try done; [lia|].
    unfold s4, s3, s2. simpl. rewrite insert_insert_eq. by destruct b. }
  intros [] s5 (W & Ei5 & Ef5 & Eu5). destruct (wrote_file s i top n d s5 HO Hn ltac:(lia) Hz W) as [HO5 HZ].
  apply HK. split; [apply W|apply W| | |done|..].
  - rewrite Ei5, <-Ei. done.
  - split; [rewrite Ef5; exact Ef|rewrite Eu5; exact Eu].
  - intros x Hx. unfold file_byte. destruct (HZ (x / 1024)) as [_ ->]; [dlia|dlia|]. destruct (decide (x / 1024 = n)) as [E|E].
    + rewrite Hdk by dlia. assert (x = 1024 * n + x mod 1024) as Hxn by dlia.
      assert (∀ k, user_byte s3 k = user_byte s k) as Hu by (intros k; unfold user_byte; by rewrite <-Eu).
      destruct (decide (o ≤ x mod 1024 < o + c)).
      * rewrite decide_True by lia. rewrite Hu, (u8_small (user_byte _ _)) by apply u8_range. f_equal. lia.
      * rewrite decide_False by lia. unfold file_block. rewrite E, (proj2 (Z.eqb_neq _ 0) Hz).
        rewrite (tb_data _ _ _ _ _ _ _ _ T). done.
    + by rewrite decide_False by dlia.
  - intros blk Hv Hb. apply (wr_others _ _ _ _ W); [done|]. apply Hb. dlia.
  - intros k Hk Hlt. by apply HZ.
Qed.
Lemma stored_calm s s1 s2 p i top pos n a : own_blocks s i top → 0 ≤ pos → pos + n ≤ top → calm D start nr s s1 →
  stored s1 p i top pos n a s2 → stored s p i top pos n a s2.
Proof.
  intros HO Hpos Hn ([[_ H1] C1 R1] & T1 & F1 & U1) [[HC2 H2] R2 T2 [F2 U2] O2 B2 K2 Z2].
  destruct (own_blocks_same s s1 i top HO) as [_ HZ]; [intros t _; apply C1|].
  pose proof (ob_ok _ _ _ HO) as [_ Hok].
  split; try congruence; try done.
  - split; [done|]. by apply (users_kept_trans s s1).
  - split; congruence.
  - intros x Hx. rewrite B2 by done. unfold user_byte. rewrite U1. case_decide; [done|]. unfold file_byte, file_block.
    rewrite HZ by dlia. destruct (Z.eqb_spec (zone_of D start s i (x / 1024)) 0); [done|].
    rewrite C1; [done|]. destruct (Hok (x / 1024)) as [[|] _]; [dlia|dlia|done..].
  - intros blk Hv Hb. rewrite K2, C1; [done..|]. intros k Hk. rewrite HZ by dlia. auto.
  - intros k Hk Hlt. rewrite Z2, HZ; done.
Qed.

Lemma wp_file_write_loop p count buf top fuel : ∀ s pos i0 i, cache_ok D start nr s → room s →
  1 ≤ p → inode_table s !! Z.to_nat (p - 1) = Some i → i_dev i = D → 0 ≤ i_size i →
  own_blocks s i top → 0 ≤ pos → 0 ≤ count - i0 ≤ Z.of_nat fuel → pos + (count - i0) ≤ top →
  (count = i0 → pos ≤ i_size i) →
  (∀ k, pos / 1024 ≤ k → 1024 * k < pos + (count - i0) → zone_of D start s i k ≠ 0) →
  wp (file_write_loop fuel p buf count pos i0)
    (λ r s', r = (pos + (count - i0), count) ∧ stored s p i top pos (count - i0) (buf + i0) s') s.
Proof.
  induction fuel as [|fuel IH]; intros s pos i0 i HC Hroom Hp Hi HD Hsize HO Hpos Hfuel Htop Hend Hz;
    cbn [file_write_loop]; destruct (Z.leb_spec count i0) as [Hle|Hlt]; try lia.
  1,2: apply wp_ret; replace (count - i0) with 0 by lia; split; [f_equal; lia|];
    apply stored_nothing; [done..|apply Hend; lia].
  pose proof (ob_ok _ _ _ HO) as [Hmax Hok]. assert (pos + (count - i0) < 2 ^ 31) as H31 by (unfold max_blocks in *; lia).
  unfold BLOCK_SIZE. rewrite Z.quot_div_nonneg, Z.rem_mod_nonneg by lia. rewrite s32_small by dlia.
  set (n := pos / 1024). set (o := pos mod 1024). assert (pos = 1024 * n + o) as Hno by (unfold n, o; dlia).
  assert (0 ≤ o < 1024) as Ho by (apply Z.mod_pos_bound; lia). assert (0 ≤ n) as Hn by (unfold n; dlia).
  assert (zone_of D start s i n ≠ 0) as Hzn by (apply Hz; lia).
  apply wp_bind. eapply wp_mono.
  { apply (wp_bmap D start nr s p i n true); try done; [unfold max_blocks in *; lia|apply Hok; lia]. }
  intros z s1 [-> (S1 & Ei & Ef & Eu)]. pose proof (st_idle _ _ _ _ _ S1) as [HC1 _].
  pose proof (steady_room _ _ _ _ _ HC S1 Hroom) as Hroom1.
  rewrite (proj2 (Z.eqb_neq _ 0) Hzn). apply wp_bind, (wp_inode p i); [done|by rewrite Ei|]. rewrite HD.
  apply wp_bind, (wp_take_block D start nr); [done| |done|]. { destruct (Hok n Hn ltac:(lia)) as [[|] _]; done. }
  intros q b s2 T. rewrite (proj2 (Z.eqb_neq q NULL) (tb_pointer _ _ _ _ _ _ _ _ T)).
  replace (if count - i0 <? 1024 - o then count - i0 else 1024 - o) with (Z.min (count - i0) (1024 - o))
    by (destruct (Z.ltb_spec (count - i0) (1024 - o)); lia).
  set (c := Z.min (count - i0) (1024 - o)). rewrite (s64_small (pos + c)) by lia.
  destruct (own_blocks_same s s1 i top HO) as [HO1 HZ1]. { intros t _. apply (st_content _ _ _ _ _ S1). }
  apply (wp_store_block _ _ s1 s2 p i top n o c pos (buf + i0) (zone_of D start s i n) q b); try done; try lia.
  { rewrite (proj1 (tb_files _ _ _ _ _ _ _ _ T)). by rewrite Ei. }
  { rewrite HZ1 by lia. done. }
  intros s3 W1. assert (stored s p i top pos c (buf + i0) s3) as W.
  { apply (stored_calm s s1); [done|lia|lia|by split_and!|done]. }
  clear W1. pose proof (so_idle _ _ _ _ _ _ _ _ W) as [HC3 _]. destruct (grown_zone i pos c) as [_ Hgd].
  assert (0 ≤ i_size (grown i pos c) ∧ pos + c ≤ i_size (grown i pos c)) as [Hgs Hge].
  { unfold grown. destruct (Z.ltb_spec (i_size i) (pos + c)); simpl; lia. }
  eapply wp_mono.
  { apply (IH s3 (pos + c) (i0 + c) (grown i pos c)); try (done || lia).
    - apply (room_kept D start nr s); [done|apply W|apply W|done].
    - rewrite (so_inode _ _ _ _ _ _ _ _ W). apply list_lookup_insert_eq. apply lookup_lt_Some in Hi. lia.
    - apply (own_blocks_grown s3 i pos c top), W.
    - intros k Hk Hlt'. rewrite zone_of_grown, (so_zones _ _ _ _ _ _ _ _ W) by dlia. apply Hz; [unfold n, o in *; dlia|lia]. }
  intros r s4 [-> W4]. split; [f_equal; lia|].
  apply (stored_trans s s3 s4 p i top pos c); [lia|lia|lia|done|].
  by replace (count - i0 - c) with (count - (i0 + c)) by lia; replace (buf + i0 + c) with (buf + (i0 + c)) by lia.
Qed.

(** ** file_write *)

(** What a write of [n] bytes from [a] on at [pos] does to a file that owns its
    blocks below [top]: the bytes are those of the task, the others are kept, and
    so are the blocks of other files; size, times and position move. *)
Record has_written s (fp : Z) (f' : file) (p : Z) (i : m_inode) (top pos n a : Z) s' : Prop := HasWritten {
  hw_bytes : ∀ x, 0 ≤ x < top → file_byte D start s' i x =
    if decide (pos ≤ x < pos + n) then user_byte s (a + (x - pos)) else file_byte D start s i x;
  hw_others : ∀ blk, valid nr blk → (∀ k, pos / 1024 ≤ k < (pos + n + 1023) / 1024 → blk ≠ zone_of D start s i k) →
    content D start s' blk = content D start s blk;
  hw_inode : ∃ mt ct, inode_table s' =
    <[Z.to_nat (p - 1) := (grown i pos n) <| i_mtime := mt |> <| i_ctime := ct |>]> (inode_table s);
  hw_file : file_table s' = <[Z.to_nat (fp - 1) := f']> (file_table s);
  hw_user : user s' = user s;
  hw_cache : idle D start nr s s';
  hw_own : own_blocks s' i top;
  hw_rest : rest s' = rest s
}.

Lemma stored_then s p i top pos n a s1 s2 fp f' mt ct : stored s p i top pos n a s1 → same_cache s1 s2 →
  inode_table s2 = <[Z.to_nat (p - 1) := (grown i pos n) <| i_mtime := mt |> <| i_ctime := ct |>]> (inode_table s) →
  file_table s2 = <[Z.to_nat (fp - 1) := f']> (file_table s) → user s2 = user s →
  has_written s fp f' p i top pos n a s2.
Proof.
  intros W Hsame Ei Ef Eu. pose proof (so_idle _ _ _ _ _ _ _ _ W) as [HC1 Hi1].
  pose proof (steady_ext D start nr s1 s2 HC1 Hsame) as S.
  destruct (own_blocks_same s1 s2 i top (so_own _ _ _ _ _ _ _ _ W)) as [HO _]; [intros t _; apply S|].
  assert (∀ blk, content D start s2 blk = content D start s1 blk) as Hc.
  { destruct Hsame as (E1 & _ & _ & E4 & _ & E6). intros blk. unfold content, cached, disk.
    rewrite E1, E4. unfold rest in E6. by replace (nr_buffers s2) with (nr_buffers s1) by congruence. }
  split; [|..|done|].
  - intros x Hx. rewrite <-(so_bytes _ _ _ _ _ _ _ _ W x Hx). unfold file_byte, file_block, zone_of, entry.
    by rewrite !Hc.
  - intros blk Hv Hb. rewrite Hc. by apply (so_others _ _ _ _ _ _ _ _ W).
  - by exists mt, ct.
  - done.
  - done.
  - destruct S as [[HC2 Hi2] _ _]. split; [done|]. by apply (users_kept_trans s s1).
  - rewrite (st_rest _ _ _ _ _ S). apply W.
Qed.

Definition appends (f : file) : bool := truth (f_flags f .& O_APPEND).
(** Where a write starts, and the file after it. *)
Definition write_pos (f : file) (i : m_inode) : Z := if appends f then i_size i else f_pos f.
Definition after_write (f : file) (i : m_inode) (n : Z) : file :=
  if appends f then f else f <| f_pos := f_pos f + n |>.

Lemma wp_file_write p i fp f s buf n top : cache_ok D start nr s → room s →
  1 ≤ p → inode_table s !! Z.to_nat (p - 1) = Some i → i_dev i = D → 0 ≤ i_size i →
  1 ≤ fp → file_table s !! Z.to_nat (fp - 1) = Some f → 0 ≤ f_pos f →
  0 < n → own_blocks s i top → write_pos f i + n ≤ top →
  (∀ k, write_pos f i / 1024 ≤ k → 1024 * k < write_pos f i + n → zone_of D start s i k ≠ 0) →
  wp (file_write p fp buf n)
    (λ r s', r = n ∧ has_written s fp (after_write f i n) p i top (write_pos f i) n buf s') s.
Proof.
  intros HC Hroom Hp Hi HD Hsize Hfp Hf Hpos Hn HO Htop Hz. pose proof (ob_ok _ _ _ HO) as [Hmax _].
  pose proof (lookup_lt_Some _ _ _ Hi) as Hlt.
  unfold file_write. apply wp_bind, (wp_filp fp f); [done..|]. apply wp_bind, (wp_inode p i); [done..|]. cbv zeta.
  fold (appends f). assert (0 ≤ write_pos f i) as Hpos' by (unfold write_pos; by destruct (appends f)).
  replace (if appends f then s64 (i_size i) else f_pos f) with (write_pos f i).
  2: { unfold write_pos in *. destruct (appends f); [|done]. symmetry. apply s64_small. unfold max_blocks in *. lia. }
  set (pos := write_pos f i) in *. apply wp_bind. eapply wp_mono.
  { apply (wp_file_write_loop p n buf top (Z.to_nat n) s pos 0 i); try (done || lia).
    intros k Hk Hlt'. apply Hz; lia. }
  intros r s1 [-> W]. rewrite Z.sub_0_r, Z.add_0_r in W. simpl snd. cbv beta.
  destruct (so_files _ _ _ _ _ _ _ _ W) as [Ef Eu]. pose proof (so_inode _ _ _ _ _ _ _ _ W) as Ei.
  apply wp_bind, wp_CURRENT_TIME. intros now. set (g := grown i pos n) in *.
  assert (inode_table s1 !! Z.to_nat (p - 1) = Some g) as Hg.
  { rewrite Ei. apply list_lookup_insert_eq. lia. }
  apply wp_bind, (wp_set_inode p g); [done..|]. set (s2 := s1 <| inode_table ::= _ |>).
  rewrite (proj2 (truth_true n)) by lia. apply wp_bind. unfold after_write. destruct (appends f) eqn:Happ; simpl negb.
  - apply wp_ret, wp_ret. split; [done|].
    apply (stored_then s p i top pos n buf s1 s2 fp f (u64 now) (i_ctime i)); [done|done|..].
    + simpl. rewrite Ei, list_insert_insert_eq. f_equal. unfold g, grown. by destruct (i_size i <? pos + n); destruct i.
    + simpl. rewrite Ef, list_insert_id; done.
    + done.
  - unfold when. apply wp_bind, (wp_set_filp fp f); [done|simpl; by rewrite Ef|].
    set (g2 := g <| i_mtime := u64 now |>).
    apply (wp_set_inode p g2); [done|simpl; by apply list_lookup_insert_eq; rewrite Ei, length_insert|]. apply wp_ret.
    split; [done|]. eapply (stored_then s p i top pos n buf s1 _ fp _ (u64 now) (u64 now)); [done|done|..|done].
    + simpl. rewrite Ei, !list_insert_insert_eq. done.
    + simpl. rewrite Ef. do 2 f_equal. rewrite Z.sub_0_r. unfold pos, write_pos. by rewrite Happ.
Qed.
End Write.

(** ** The system call, and reading back *)

(** C4: write to a regular file over blocks it has makes the bytes of the file at
    the position (at its end, with O_APPEND) those of the task.  All bytes are
    written, whatever blocks they cross; the other bytes of the file, the blocks
    of everything else on the disk and the memory of the task stay as they were,
    the size grows if the end moves, and the cache keeps its invariant. *)
Theorem sys_write_overwrites_file D start nr fuel fd fp f p i buf n top s :
  cache_ok D start nr s → room s → opened D s fd fp f p i → S_ISREG (i_mode i) = true →
  own_blocks D start nr s i top → 0 < n → write_pos f i + n ≤ top →
  (∀ k, write_pos f i / 1024 ≤ k → 1024 * k < write_pos f i + n → zone_of D start s i k ≠ 0) →
  wp (sys_write fuel fd buf n)
    (λ r s', r = n ∧ has_written D start nr s fp (after_write f i n) p i top (write_pos f i) n buf s') s.
Proof.
  intros HC Hroom O Hmode HO Hn Htop Hz. destruct (op_p _ _ _ _ _ _ _ O) as [Hfi Hp].
  pose proof (op_fp _ _ _ _ _ _ _ O) as Hfp. pose proof (op_file _ _ _ _ _ _ _ O) as Hf.
  pose proof (op_pos _ _ _ _ _ _ _ O) as Hpos. pose proof (op_inode _ _ _ _ _ _ _ O) as Hi.
  unfold sys_write. apply wp_bind. eapply wp_fd_file; [done|].
  rewrite (proj2 (Z.ltb_ge n 0)), (proj2 (Z.eqb_neq n 0)) by lia.
  rewrite (proj2 (Z.eqb_neq fp NULL)) by (unfold NULL; lia). simpl orb. cbv iota.
  apply wp_bind, (wp_filp fp f); [done..|]. rewrite Hfi. apply wp_bind, (wp_inode p i); [done..|].
  rewrite (op_pipe _ _ _ _ _ _ _ O). change (truth 0) with false. cbv iota.
  destruct (readable_mode (i_mode i)) as (-> & -> & _); [by rewrite Hmode|]. rewrite Hmode. cbv iota.
  apply wp_file_write; try done; [apply O|apply O|lia].
Qed.

(** C16: What is written is read back: after a write over blocks that a file has,
    the descriptor put back to where it was, a read of as many bytes succeeds and
    gives the bytes that were written, in order, wherever its buffer is. *)
Theorem written_bytes_are_read_back D start nr p fp i f s buf buf2 n top :
  cache_ok D start nr s → room s →
  1 ≤ p → inode_table s !! Z.to_nat (p - 1) = Some i → i_dev i = D → 0 ≤ i_size i →
  1 ≤ fp → file_table s !! Z.to_nat (fp - 1) = Some f → 0 ≤ f_pos f → appends f = false →
  0 < n → own_blocks D start nr s i top → f_pos f + n ≤ top →
  (∀ k, f_pos f / 1024 ≤ k → 1024 * k < f_pos f + n → zone_of D start s i k ≠ 0) →
  wp (w ← file_write p fp buf n;
      set_filp fp (λ x, x <| f_pos := f_pos f |>);;
      r ← file_read p fp buf2 n;
      mret (w, r))
    (λ r s', r = (n, n) ∧ user s' = blit buf2 ((λ k, user_byte s (buf + k)) <$> seqZ 0 n) (user s) ∧
       cache_ok D start nr s' ∧ own_blocks D start nr s' i top) s.
Proof.
  intros HC Hroom Hp Hi HD Hsize Hfp Hf Hpos Happ Hn HO Htop Hz.
  assert (write_pos f i = f_pos f) as Hwp by (unfold write_pos; by rewrite Happ).
  pose proof (lookup_lt_Some _ _ _ Hi) as Hlt. pose proof (lookup_lt_Some _ _ _ Hf) as Hltf.
  apply wp_bind. eapply wp_mono.
  { apply (wp_file_write D start nr p i fp f s buf n top); try done; rewrite Hwp; done. }
  intros w s1 [-> W]. rewrite Hwp in W. destruct (hw_inode _ _ _ _ _ _ _ _ _ _ _ _ _ W) as (mt & ct & Ei).
  pose proof (hw_file _ _ _ _ _ _ _ _ _ _ _ _ _ W) as Ef. pose proof (hw_cache _ _ _ _ _ _ _ _ _ _ _ _ _ W) as HI.
  pose proof (hw_own _ _ _ _ _ _ _ _ _ _ _ _ _ W) as HO1. pose proof HI as [HC1 _].
  assert (room s1) as Hroom1 by (by apply (room_kept D start nr s); [..|apply W|]).
  set (i1 := (grown i (f_pos f) n) <| i_mtime := mt |> <| i_ctime := ct |>) in *.
  assert (i_dev i1 = D ∧ i_zone i1 = i_zone i) as [HD1 Hz1].
  { destruct (grown_zone i (f_pos f) n) as [E1 E2]. split; [by rewrite <-HD, <-E2|by rewrite <-E1]. }
  apply wp_bind, (wp_set_filp fp (after_write f i n)); [done|rewrite Ef; apply list_lookup_insert_eq; lia|].
  set (f2 := (after_write f i n) <| f_pos := f_pos f |>). set (s2 := s1 <| file_table ::= _ |>).
  assert (steady D start nr s1 s2) as S2 by (by apply steady_ext).
  pose proof (st_idle _ _ _ _ _ S2) as [HC2 _].
  assert (f_pos f2 = f_pos f) as Hp2 by done.
  assert (∀ t x, file_byte D start t i1 x = file_byte D start t i x) as Hbyte.
  { intros t x. unfold file_byte, file_block, zone_of, zone. by rewrite Hz1. }
  destruct (own_blocks_same D start nr s1 s2 i top HO1) as [HO2 _]; [intros t _; apply S2|].
  apply wp_bind. eapply wp_mono.
  { apply (wp_file_read D start nr p i1 fp s2 buf2 n f2); try (done || lia).
    - simpl. rewrite Ei. apply list_lookup_insert_eq. lia.
    - simpl. apply list_lookup_insert_eq. rewrite Ef, length_insert. lia.
    - destruct (ob_ok _ _ _ _ _ _ HO2) as [Hmax Hok]. split; [lia|]. intros k Hk Hkn.
      specialize (Hok k Hk ltac:(lia)). unfold block_ok, zone_of, zone in *. by rewrite Hz1. }
  intros r s3 (-> & S3 & Eu & _). apply wp_ret. split; [done|]. split.
  - rewrite Eu. change (user s2) with (user s1). rewrite (hw_user _ _ _ _ _ _ _ _ _ _ _ _ _ W). f_equal.
    rewrite Hp2. unfold file_bytes. replace (seqZ (f_pos f) n) with ((λ k, f_pos f + k) <$> seqZ 0 n).
    2: { unfold seqZ. rewrite <-list_fmap_compose. apply list_fmap_ext. intros. simpl. lia. }
    rewrite <-list_fmap_compose. apply list_fmap_ext. intros j k Hk%list_elem_of_lookup_2%elem_of_seqZ. simpl.
    rewrite Hbyte. change (file_byte D start s2 i (f_pos f + k)) with (file_byte D start s1 i (f_pos f + k)).
    rewrite (hw_bytes _ _ _ _ _ _ _ _ _ _ _ _ _ W) by lia. rewrite decide_True by lia. f_equal. lia.
  - split; [apply S3|]. destruct (own_blocks_same D start nr s2 s3 i top HO2) as [HO3 _]; [intros t _; apply S3|done].
Qed.

(** ** Blocks 3, 4 and 5, opened at byte 1000 *)

Definition inode_full : m_inode := MInode 0x81A4 0 1050 0 0 1 [3; 4; 5; 0; 0; 0; 0; 0; 0] 0 0 0x300 2 1 0 0 0 0 0 0.
Definition fs_full : fs := with_file inode_full fs_boot.
Lemma fs_full_opened : opened 0x300 fs_full 3 1 file_1000 1 inode_full.
Proof.
  split; [split; done|eexists; split; vm_compute; reflexivity|done|reflexivity|split; done|done|reflexivity|done..].
Qed.
Lemma fs_full_zones n : 0 ≤ n → 1024 * n < 3072 → zone_of 0x300 0 fs_full inode_full n = n + 3.
Proof. intros Hn Hlt. by assert (n = 0 ∨ n = 1 ∨ n = 2) as [->|[->| ->]] by lia. Qed.
Lemma fs_full_own : own_blocks 0x300 0 64 fs_full inode_full 3072.
Proof.
  split.
  - split; [done|]. intros n Hn Hlt. split; [|lia]. rewrite fs_full_zones by done. right. split; lia.
  - split; by left.
  - intros n n' Hn Hlt Hn' Hlt' _. rewrite !fs_full_zones by done. lia.
  - intros n Hn Hlt _. rewrite fs_full_zones by done. intros [E|[E|[E _]]]; [| |done]; unfold zone in E; simpl in E; lia.
Qed.
Lemma fs_full_blocks k : 1000 / 1024 ≤ k → 1024 * k < 1100 → zone_of 0x300 0 fs_full inode_full k ≠ 0.
Proof. intros Hk Hlt. change (1000 / 1024) with 0 in Hk. rewrite fs_full_zones by lia. lia. Qed.

Lemma sys_write_overwrites_file_witness :
  wp (sys_write 10 3 4096 100) (λ r s', r = 100 ∧
    has_written 0x300 0 64 fs_full 1 (after_write file_1000 inode_full 100) 1 inode_full 3072 1000 100 4096 s') fs_full.
Proof.
  apply (sys_write_overwrites_file 0x300 0 64 10 3 1 file_1000 1 inode_full 4096 100 3072 fs_full
    (proj1 (boot_file_cache _)) (proj2 (boot_file_cache _)) fs_full_opened eq_refl fs_full_own).
  - reflexivity.
  - discriminate.
  - exact fs_full_blocks.
Defined.
Lemma written_bytes_are_read_back_witness :
  wp (w ← file_write 1 1 4096 100;
      set_filp 1 (λ x, x <| f_pos := 1000 |>);;
      r ← file_read 1 1 8192 100;
      mret (w, r))
    (λ r s', r = (100, 100) ∧ user s' = blit 8192 ((λ k, user_byte fs_full (4096 + k)) <$> seqZ 0 100) (user fs_full) ∧
       cache_ok 0x300 0 64 s' ∧ own_blocks 0x300 0 64 s' inode_full 3072) fs_full.
Proof.
  apply (written_bytes_are_read_back 0x300 0 64 1 1 inode_full file_1000 fs_full 4096 8192 100 3072
    (proj1 (boot_file_cache _)) (proj2 (boot_file_cache _))); try reflexivity; try discriminate.
  - exact fs_full_own.
  - exact fs_full_blocks.
Defined.
