(* ===== verification/Hd.v ===== *)
(** * The hard disk driver (kernel/hd.c, include/linux/hdreg.h)

    The queue of requests, the elevator, and the interrupt handlers, over the
    ports of the controller.  Every port access is recorded; what a port reads
    as is a function [controller] of the accesses so far, which stands for the
    hardware.  A call of add_request can be interrupted: what the interrupts do
    in the meantime is an argument.

    Buffer.v has the same functions as the file system sees them, a finished
    transfer in one step; HdFacts.v relates the two. *)

From S2P Require Export Buffer.

Definition MAX_ERRORS : Z := 5.
Definition NR_REQUEST : nat := 32.

(** include/linux/hdreg.h *)
Definition _CYL : Z := 977.
Definition _HEAD : Z := 5.
Definition _SECT : Z := 17.
Definition _CTL : Z := 0.
Definition _WPCOM : Z := Z.shiftr 300 2.
Definition HD_DATA : Z := 0x1f0.
Definition HD_ERROR : Z := 0x1f1.
Definition HD_NSECTOR : Z := 0x1f2.
Definition HD_SECTOR : Z := 0x1f3.
Definition HD_LCYL : Z := 0x1f4.
Definition HD_HCYL : Z := 0x1f5.
Definition HD_CURRENT : Z := 0x1f6.
Definition HD_STATUS : Z := 0x1f7.
Definition HD_COMMAND : Z := HD_STATUS.
Definition HD_CMD : Z := 0x3f6.
Definition ERR_STAT : Z := 0x01.
Definition DRQ_STAT : Z := 0x08.
Definition SEEK_STAT : Z := 0x10.
Definition WRERR_STAT : Z := 0x20.
Definition READY_STAT : Z := 0x40.
Definition BUSY_STAT : Z := 0x80.
Definition WIN_READ : Z := 0x20.
Definition WIN_WRITE : Z := 0x30.
Definition WIN_SPECIFY : Z := 0x91.

(** ** State *)

Record hd_request := HdRequest {
  rq_hd : Z; rq_nsector : Z; rq_sector : Z; rq_head : Z; rq_cyl : Z; rq_cmd : Z; rq_errors : Z;
  rq_bh : Z; rq_next : Z
}.
#[export] Instance eta_hd_request : Eta hd_request := λ r,
  HdRequest (rq_hd r) (rq_nsector r) (rq_sector r) (rq_head r) (rq_cyl r) (rq_cmd r) (rq_errors r)
    (rq_bh r) (rq_next r).

(** The functions that do_hd can point to. *)
Inductive handler := h_NULL | h_read_intr | h_write_intr | h_do_request.
#[export] Instance handler_eq_dec : EqDecision handler.
Proof. solve_decision. Defined.

Inductive event := EvIn (port val : Z) | EvOut (port val : Z).

Record drv := Drv {
  request : list hd_request;
  this_request : Z;
  sorting : Z;
  do_hd : handler;
  io_log : list event;            (* the latest first *)
  kern : fs
}.
#[export] Instance eta_drv : Eta drv := λ s,
  Drv (request s) (this_request s) (sorting s) (do_hd s) (io_log s) (kern s).

Definition req (p : Z) : M drv hd_request := l ← gets request; index l (p - 1).
Definition set_req (p : Z) (f : hd_request → hd_request) : M drv () :=
  r ← req p; store request (p - 1) (f r).
Definition on_fs {A} (m : M fs A) : M drv A := zoom kern m.
Definition wait_for_request : Z := 0x400000000.

Definition IN_ORDER (s1 s2 : hd_request) : bool :=
  (rq_hd s1 <? rq_hd s2) || (rq_hd s1 =? rq_hd s2) &&
  ((rq_cyl s1 <? rq_cyl s2) || (rq_cyl s1 =? rq_cyl s2) &&
   ((rq_head s1 <? rq_head s2) || (rq_head s1 =? rq_head s2) &&
    (rq_sector s1 <? rq_sector s2))).

Definition lock_buffer (p : Z) : M fs () :=
  b ← bh p;
  when (truth (b_lock b)) (kprint "hd.c: buffer multiply locked");;
  set_bh p (λ b, b <| b_lock := 1 |>).
Definition unlock_buffer (p : Z) : M fs () :=
  b ← bh p;
  when (negb (truth (b_lock b))) (kprint "hd.c: free buffer being unlocked");;
  set_bh p (λ b, b <| b_lock := 0 |>);;
  wake (b_wait p).

(** ** Ports *)

Section Controller.
Context (controller : list event → Z → Z).

Definition inb (port : Z) : M drv Z :=
  h ← gets io_log;
  let v := u8 (controller h port) in
  modify (λ s, s <| io_log ::= cons (EvIn port v) |>);; mret v.
Definition inw (port : Z) : M drv Z :=
  h ← gets io_log;
  let v := u16 (controller h port) in
  modify (λ s, s <| io_log ::= cons (EvIn port v) |>);; mret v.
Definition outb (v port : Z) : M drv () := modify (λ s, s <| io_log ::= cons (EvOut port (u8 v)) |>).
Definition outw (v port : Z) : M drv () := modify (λ s, s <| io_log ::= cons (EvOut port (u16 v)) |>).

(** [nr] words between a port and the data of the buffer [p], from offset [off]. *)
Definition port_read (port p off : Z) (nr : nat) : M drv () :=
  mfor (λ k, w ← inw port;
    on_fs (set_bh p (λ b, b <| b_data ::= λ d,
      set_byte (set_byte d (off + 2 * k) w) (off + 2 * k + 1) (Z.shiftr w 8) |>))) (upto nr).
Definition port_write (port p off : Z) (nr : nat) : M drv () :=
  mfor (λ k, b ← on_fs (bh p);
    outw (byte_at (b_data b) (off + 2 * k) + 256 * byte_at (b_data b) (off + 2 * k + 1)) port) (upto nr).

(** ** The controller *)

Fixpoint controller_ready_loop (retries : nat) : M drv Z :=
  match retries with
  | O => mret 0
  | S n =>
      if Nat.eqb n 0 then mret 0 else
      i ← inb HD_STATUS;
      if negb ((i .& 0xc0) =? 0x40) then controller_ready_loop n else mret (Z.of_nat n)
  end.
Definition controller_ready : M drv Z := controller_ready_loop 1000.

Definition win_result : M drv Z :=
  i ← inb HD_STATUS;
  if (i .& (BUSY_STAT .| READY_STAT .| WRERR_STAT .| SEEK_STAT .| ERR_STAT)) =? (READY_STAT .| SEEK_STAT)
  then mret 0 else
  (if truth (i .& 1) then inb HD_ERROR;; mret () else mret ());;
  mret 1.

Definition hd_out (drive nsect sect head cyl cmd : Z) (intr_addr : handler) : M drv () :=
  if (1 <? drive) || (15 <? head) then panic "Trying to write bad sector" else
  r ← controller_ready;
  if negb (truth r) then panic "HD controller not ready" else
  modify (λ s, s <| do_hd := intr_addr |>);;
  outb _CTL HD_CMD;;
  outb _WPCOM (HD_DATA + 1);;
  outb nsect (HD_DATA + 2);;
  outb sect (HD_DATA + 3);;
  outb cyl (HD_DATA + 4);;
  outb (Z.shiftr cyl 8) (HD_DATA + 5);;
  outb (0xA0 .| Z.shiftl drive 4 .| head) (HD_DATA + 6);;
  outb cmd (HD_DATA + 7).

(** The condition is [(i == READY_STAT) | SEEK_STAT]. *)
Definition drive_busy : M drv Z :=
  mloop (λ _, i ← inb HD_STATUS;
    mret (if READY_STAT =? (i .& (BUSY_STAT .| READY_STAT)) then Some () else None)) (upto (Z.to_nat 100000));;
  i ← inb HD_STATUS;
  let i := i .& (BUSY_STAT .| READY_STAT .| SEEK_STAT) in
  if truth ((if i =? READY_STAT then 1 else 0) .| SEEK_STAT) then mret 0 else
  on_fs (kprint "HD controller times out");; mret 1.

Definition reset_controller : M drv () :=
  outb 4 HD_CMD;;
  outb 0 HD_CMD;;
  mloop (λ _, b ← drive_busy; mret (if truth b then None else Some ())) (upto (Z.to_nat 10000));;
  b ← drive_busy;
  when (truth b) (on_fs (kprint "HD-controller still busy"));;
  i ← inb ERR_STAT;
  when (negb (i =? 1)) (on_fs (kprint "HD-controller reset failed")).
Definition reset_hd (nr : Z) : M drv () :=
  reset_controller;;
  hd_out nr _SECT _SECT (_HEAD - 1) _CYL WIN_SPECIFY h_do_request.
Definition unexpected_hd_interrupt : M drv () := panic "Unexpected HD interrupt".

(** ** Interrupts *)

Definition this : M drv hd_request := p ← gets this_request; req p.
Definition set_this (f : hd_request → hd_request) : M drv () := p ← gets this_request; set_req p f.

Definition bad_rw_intr : M drv () :=
  r ← this;
  let i := rq_hd r in
  set_this (λ r, r <| rq_errors := s32 (rq_errors r + 1) |>);;
  when (MAX_ERRORS <=? rq_errors r)
    (on_fs (set_bh (rq_bh r) (λ b, b <| b_uptodate := 0 |>));;
     on_fs (unlock_buffer (rq_bh r));;
     on_fs (wake wait_for_request);;
     set_this (λ r, r <| rq_hd := -1 |>);;
     r ← this;
     modify (λ s, s <| this_request := rq_next r |>));;
  reset_hd i.

Definition do_request : M drv () :=
  so ← gets sorting;
  if truth so then mret () else
  p ← gets this_request;
  if p =? NULL then modify (λ s, s <| do_hd := h_NULL |>) else
  r ← req p;
  if rq_cmd r =? WIN_WRITE then
    hd_out (rq_hd r) (rq_nsector r) (rq_sector r) (rq_head r) (rq_cyl r) (rq_cmd r) h_write_intr;;
    ok ← mloop (λ _, i ← inb HD_STATUS;
           mret (if truth (i .& DRQ_STAT) then Some () else None)) (upto 3000);
    match ok with
    | None => reset_hd (rq_hd r)
    | Some _ => port_write HD_DATA (rq_bh r) (512 * (rq_nsector r .& 1)) 256
    end
  else if rq_cmd r =? WIN_READ then
    hd_out (rq_hd r) (rq_nsector r) (rq_sector r) (rq_head r) (rq_cyl r) (rq_cmd r) h_read_intr
  else panic "unknown hd-command".

(** The end of read_intr and write_intr: the request is done. *)
Definition end_request : M drv () :=
  r ← this;
  on_fs (set_bh (rq_bh r) (λ b, b <| b_uptodate := 1 |>));;
  on_fs (set_bh (rq_bh r) (λ b, b <| b_dirt := 0 |>));;
  on_fs (wake wait_for_request);;
  on_fs (unlock_buffer (rq_bh r));;
  set_this (λ r, r <| rq_hd := -1 |>);;
  r ← this;
  modify (λ s, s <| this_request := rq_next r |>);;
  do_request.

Definition read_intr : M drv () :=
  bad ← win_result;
  if truth bad then bad_rw_intr else
  r ← this;
  port_read HD_DATA (rq_bh r) (512 * (rq_nsector r .& 1)) 256;;
  set_this (λ r, r <| rq_errors := 0 |>);;
  set_this (λ r, r <| rq_nsector := s32 (rq_nsector r - 1) |>);;
  r ← this;
  if truth (rq_nsector r) then mret () else end_request.

Definition write_intr : M drv () :=
  bad ← win_result;
  if truth bad then bad_rw_intr else
  set_this (λ r, r <| rq_nsector := s32 (rq_nsector r - 1) |>);;
  r ← this;
  if truth (rq_nsector r) then port_write HD_DATA (rq_bh r) 512 256 else end_request.

(** hd_interrupt (kernel/system_call.nasm) calls what do_hd points to. *)
Definition hd_interrupt : M drv () :=
  h ← gets do_hd;
  match h with
  | h_NULL => unexpected_hd_interrupt
  | h_read_intr => read_intr
  | h_write_intr => write_intr
  | h_do_request => do_request
  end.

(** ** The queue *)

(** The walk of add_request: the entry after which [p] goes. *)
Fixpoint insert_point (fuel : nat) (tmp p : Z) : M drv Z :=
  match fuel with
  | O => nofuel
  | S n =>
      t ← req tmp;
      if rq_next t =? NULL then mret tmp else
      r ← req p;
      nx ← req (rq_next t);
      if (IN_ORDER t r || negb (IN_ORDER t nx)) && IN_ORDER r nx then mret tmp
      else insert_point n (rq_next t) p
  end.

(** [interrupts] is what happens between the two assignments to sorting. *)
Definition add_request (interrupts : M drv ()) (p : Z) : M drv () :=
  r ← req p;
  if negb (rq_nsector r =? 2) then panic "nsector!=2 not implemented" else
  modify (λ s, s <| sorting := 1 |>);;
  tmp ← gets this_request;
  (if tmp =? NULL then modify (λ s, s <| this_request := p |>) else
   t ← req tmp;
   if rq_next t =? NULL then set_req tmp (λ t, t <| rq_next := p |>) else
   tmp ← insert_point NR_REQUEST (rq_next t) p;
   t ← req tmp;
   set_req p (λ r, r <| rq_next := rq_next t |>);;
   set_req tmp (λ t, t <| rq_next := p |>));;
  interrupts;;
  modify (λ s, s <| sorting := 0 |>);;
  h ← gets do_hd;
  when (bool_decide (h = h_NULL)) do_request.

(** The first half of rw_abs_hd: up to wait_on_buffer. *)
Definition rw_abs_hd (interrupts : M drv ()) (rw nr sec head cyl p : Z) : M drv () :=
  if negb ((rw =? READ) || (rw =? WRITE)) then panic "Bad hd command, must be R/W" else
  on_fs (lock_buffer p);;
  l ← gets request;
  match list_find (λ r, rq_hd r < 0) l with
  | None => on_fs (sleep_on wait_for_request)
  | Some (k, _) =>
      let q := Z.of_nat k + 1 in
      set_req q (λ _, HdRequest (s32 nr) 2 (s32 sec) (s32 head) (s32 cyl)
                        (if rw =? READ then WIN_READ else WIN_WRITE) 0 p NULL);;
      add_request interrupts q
  end.

(** hd_init: the requests (the partition table is in Super.v, the ports in the
    interrupt controllers). *)
Definition hd_init_requests : M drv () :=
  mfor (λ i, set_req (i + 1) (λ r, r <| rq_hd := -1 |> <| rq_next := NULL |>)) (upto NR_REQUEST).
Definition hd_init_ports : M drv () :=
  i ← inb 0x21; outb (i .& 0xfb) 0x21;;
  i ← inb 0xA1; outb (i .& 0xbf) 0xA1.
End Controller.
