(* ===== verification/HdCtl.v ===== *)
(** * The controller as the driver relies on it

    What the task file of an AT controller documents, as an interface
    ([Controller]): the registers hold what was written last, a command starts
    at the sector they name, the status tells whether the sector being
    transferred is good, and data words go to or come from consecutive sectors.
    [ideal] is a controller that has these laws. *)

From S2P Require Export Hd FsFacts.

(** ** What the history of the ports says *)

Fixpoint reg (h : list event) (port : Z) : Z :=
  match h with
  | [] => 0
  | EvOut p v :: h => if p =? port then v else reg h port
  | EvIn _ _ :: h => reg h port
  end.
(** The data words transferred since the last command. *)
Fixpoint words (h : list event) : Z :=
  match h with
  | [] => 0
  | EvOut p _ :: h => if p =? HD_COMMAND then 0 else if p =? HD_DATA then words h + 1 else words h
  | EvIn p _ :: h => if p =? HD_DATA then words h + 1 else words h
  end.
Definition drive_of (h : list event) : Z := Z.shiftr (reg h HD_CURRENT) 4 .& 1.
Definition lba_of (h : list event) : Z :=
  ((reg h HD_LCYL + 256 * reg h HD_HCYL) * hd_head + (reg h HD_CURRENT .& 15)) * hd_sect + reg h HD_SECTOR - 1.
Definition word_at (d : list Z) (k : Z) : Z := byte_at d (2 * k) + 256 * byte_at d (2 * k + 1).
Definition set_word (d : list Z) (k w : Z) : list Z :=
  set_byte (set_byte d (2 * k) w) (2 * k + 1) (Z.shiftr w 8).

(** The sectors after the writes of the history, from [m]. *)
Fixpoint stored (m : gmap (Z * Z) (list Z)) (h : list event) : gmap (Z * Z) (list Z) :=
  match h with
  | [] => m
  | EvOut p w :: h =>
      let m := stored m h in
      if (p =? HD_DATA) && (reg h HD_COMMAND =? WIN_WRITE) then
        let key := (drive_of h, lba_of h + words h / 256) in
        match m !! key with Some d => <[key := set_word d (words h mod 256) w]> m | None => m end
      else m
  | EvIn _ _ :: h => stored m h
  end.
(** The sector an interrupt reports on: the next one of a read, the last one of
    a write. *)
Definition reported (h : list event) : Z * Z :=
  (drive_of h, lba_of h + (if reg h HD_COMMAND =? WIN_WRITE then words h / 256 - 1 else words h / 256)).

Definition result_bits : Z := BUSY_STAT .| READY_STAT .| WRERR_STAT .| SEEK_STAT .| ERR_STAT.

Class Controller (c : list event → Z → Z) (m : gmap (Z * Z) (list Z)) : Prop := {
  ctl_ready h : u8 (c h HD_STATUS) .& (BUSY_STAT .| READY_STAT) = READY_STAT;
  ctl_drq h : reg h HD_COMMAND = WIN_WRITE → truth (u8 (c h HD_STATUS) .& DRQ_STAT) = true;
  ctl_good h : is_Some (m !! reported h) → u8 (c h HD_STATUS) .& result_bits = READY_STAT .| SEEK_STAT;
  ctl_bad h : m !! reported h = None → u8 (c h HD_STATUS) .& result_bits ≠ READY_STAT .| SEEK_STAT;
  ctl_data h d : reg h HD_COMMAND = WIN_READ → stored m h !! (drive_of h, lba_of h + words h / 256) = Some d →
    c h HD_DATA = word_at d (words h mod 256)
}.

Definition ideal (m : gmap (Z * Z) (list Z)) (h : list event) (port : Z) : Z :=
  if port =? HD_STATUS then
    READY_STAT .| SEEK_STAT .| DRQ_STAT .| (if decide (is_Some (m !! reported h)) then 0 else ERR_STAT)
  else if port =? HD_DATA then
    match stored m h !! (drive_of h, lba_of h + words h / 256) with
    | Some d => word_at d (words h mod 256)
    | None => 0
    end
  else 0.
#[export] Instance ideal_Controller m : Controller (ideal m) m.
Proof.
  assert (∀ h, ideal m h HD_STATUS = if decide (is_Some (m !! reported h)) then 0x58 else 0x59) as E.
  { intros h. unfold ideal. rewrite Z.eqb_refl. by destruct (decide _). }
  split; intros h; rewrite ?E.
  - by destruct (decide _).
  - by destruct (decide _).
  - intros H. by rewrite decide_True.
  - intros H. rewrite H, decide_False by (by intros []). done.
  - intros d _ Hd. unfold ideal. simpl. by rewrite Hd.
Qed.

(** Sectors are 512 bytes. *)
Definition bytes (l : list Z) : Prop := Forall (λ x, 0 ≤ x < 256) l.
Definition good_media (m : gmap (Z * Z) (list Z)) : Prop :=
  ∀ k d, m !! k = Some d → length d = 512%nat ∧ bytes d.
(** The buffers are blocks of bytes. *)
Definition good_heads (H : gmap Z buffer_head) : Prop :=
  ∀ p b, H !! p = Some b → length (b_data b) = 1024%nat ∧ bytes (b_data b).

Lemma stored_dom m h k : is_Some (stored m h !! k) ↔ is_Some (m !! k).
Proof.
  induction h as [|[p v|p v] h IH]; simpl; [done|done|].
  destruct (_ && _); [|done]. destruct (stored m h !! (_, _)) as [d|] eqn:E; [|done].
  destruct (decide (k = (drive_of h, lba_of h + words h / 256))) as [->|].
  - rewrite lookup_insert_eq, <-IH, E. done.
  - by rewrite lookup_insert_ne.
Qed.

(** ** Copying words *)

Lemma byte_of_bytes d k : bytes d → 0 ≤ byte_at d k < 256.
Proof.
  intros Hd. unfold byte_at. destruct (d !! Z.to_nat k) as [x|] eqn:E; [|simpl; lia].
  simpl. by apply (Forall_lookup_1 _ _ _ _ Hd E).
Qed.
Lemma word_at_range d k : bytes d → 0 ≤ word_at d k < 65536.
Proof.
  intros Hd. unfold word_at. pose proof (byte_of_bytes d (2 * k) Hd).
  pose proof (byte_of_bytes d (2 * k + 1) Hd). lia.
Qed.
Lemma word_at_bytes d k : bytes d → u8 (word_at d k) = byte_at d (2 * k) ∧
  u8 (Z.shiftr (word_at d k) 8) = byte_at d (2 * k + 1).
Proof.
  intros Hd. pose proof (byte_of_bytes d (2 * k) Hd). pose proof (byte_of_bytes d (2 * k + 1) Hd).
  rewrite Z.shiftr_div_pow2 by lia. unfold u8, word_at. split; dlia.
Qed.
Lemma bytes_set_byte d k v : bytes d → bytes (set_byte d k v).
Proof. intros Hd. unfold set_byte. apply Forall_insert; [done|apply u8_range]. Qed.

(** [d'] is [d] with the first [2 * k] bytes of [src] copied to offset [off]. *)
Definition copied (off k : nat) (src d d' : list Z) : Prop := length d' = length d ∧
  ∀ i, d' !! i = if decide (off ≤ i < off + 2 * k)%nat then src !! (i - off)%nat else d !! i.

Lemma copied_0 off src d : copied off 0 src d d.
Proof. split; [done|]. intros i. rewrite decide_False by lia. done. Qed.
Lemma copied_step off k src d d' : bytes src → (2 * k + 2 ≤ length src)%nat → (off + 2 * k + 2 ≤ length d)%nat →
  copied off k src d d' →
  let w := word_at src (Z.of_nat k) in
  copied off (S k) src d
    (set_byte (set_byte d' (Z.of_nat off + 2 * Z.of_nat k) w) (Z.of_nat off + 2 * Z.of_nat k + 1) (Z.shiftr w 8)).
Proof.
  intros Hb Hs Hd [Hlen Hl] w. unfold set_byte. destruct (word_at_bytes src (Z.of_nat k) Hb) as [E0 E1].
  fold w in E0, E1. rewrite E0, E1.
  replace (Z.to_nat (Z.of_nat off + 2 * Z.of_nat k)) with (off + 2 * k)%nat by lia.
  replace (Z.to_nat (Z.of_nat off + 2 * Z.of_nat k + 1)) with (off + 2 * k + 1)%nat by lia.
  split; [by rewrite !length_insert|]. intros i.
  destruct (decide (i = off + 2 * k + 1)%nat) as [->|N1].
  { rewrite list_lookup_insert_eq by (rewrite length_insert; lia).
    rewrite decide_True by lia. unfold byte_at.
    destruct (src !! Z.to_nat (2 * Z.of_nat k + 1)) as [x|] eqn:E; [|apply lookup_ge_None in E; lia].
    simpl. rewrite <-E. f_equal. lia. }
  rewrite list_lookup_insert_ne by lia.
  destruct (decide (i = off + 2 * k)%nat) as [->|N2].
  { rewrite list_lookup_insert_eq by lia. rewrite decide_True by lia. unfold byte_at.
    destruct (src !! Z.to_nat (2 * Z.of_nat k)) as [x|] eqn:E; [|apply lookup_ge_None in E; lia].
    simpl. rewrite <-E. f_equal. lia. }
  rewrite list_lookup_insert_ne by lia. rewrite Hl. repeat case_decide; try lia; done.
Qed.
Lemma copied_all off k src d d' : (length src = 2 * k)%nat → (off + 2 * k ≤ length d)%nat →
  copied off k src d d' → d' = take off d ++ src ++ drop (off + 2 * k) d.
Proof.
  intros Hs Hd [Hlen Hl]. apply list_eq. intros i. rewrite Hl. case_decide as Hi.
  - rewrite lookup_app_r by (rewrite length_take; lia). rewrite length_take.
    rewrite lookup_app_l by lia. f_equal. lia.
  - destruct (decide (i < off)%nat).
    + rewrite lookup_app_l by (rewrite length_take; lia). by rewrite lookup_take_lt by lia.
    + rewrite lookup_app_r by (rewrite length_take; lia). rewrite length_take.
      rewrite lookup_app_r by lia. rewrite lookup_drop. f_equal. lia.
Qed.

(** ** Running the port functions *)

(** The history says that a command is being served: [k] words of it have gone. *)
Definition busy (m0 : gmap (Z * Z) (list Z)) (h : list event) (cmd drive lba k : Z)
    (m : gmap (Z * Z) (list Z)) : Prop :=
  reg h HD_COMMAND = cmd ∧ drive_of h = drive ∧ lba_of h = lba ∧ words h = k ∧ stored m0 h = m.

(** What the driver's messages and wake-ups leave alone. *)
Definition quiet (k k' : fs) : Prop := heads k' = heads k ∧ media k' = media k ∧ (waiters_ok (sch k) → waiters_ok (sch k')).
#[export] Instance quiet_preorder : PreOrder quiet.
Proof. split; [done|]. intros x y z (?&?&?) (?&?&?). split_and!; [congruence..|auto]. Qed.

Section Ports.
Context (c : list event → Z → Z) (m0 : gmap (Z * Z) (list Z)) `{!Controller c m0}.
Implicit Types (R : list hd_request) (t so : Z) (d : handler) (h : list event) (k : fs).

Lemma wp_inb port (Q : Z → drv → Prop) R t so d h k :
  Q (u8 (c h port)) (Drv R t so d (EvIn port (u8 (c h port)) :: h) k) → wp (inb c port) Q (Drv R t so d h k).
Proof. done. Qed.
Lemma wp_inw port (Q : Z → drv → Prop) R t so d h k :
  Q (u16 (c h port)) (Drv R t so d (EvIn port (u16 (c h port)) :: h) k) → wp (inw c port) Q (Drv R t so d h k).
Proof. done. Qed.
Lemma wp_outb v port (Q : () → drv → Prop) R t so d h k :
  Q tt (Drv R t so d (EvOut port (u8 v) :: h) k) → wp (outb v port) Q (Drv R t so d h k).
Proof. done. Qed.
Lemma wp_outw v port (Q : () → drv → Prop) R t so d h k :
  Q tt (Drv R t so d (EvOut port (u16 v) :: h) k) → wp (outw v port) Q (Drv R t so d h k).
Proof. done. Qed.
Lemma wp_on_fs {A} (m : M fs A) (Q : A → drv → Prop) R t so d h k :
  wp m (λ a k', Q a (Drv R t so d h k')) k → wp (on_fs m) Q (Drv R t so d h k).
Proof. intros H. by apply wp_zoom. Qed.
Lemma wp_kprint msg (Q : () → fs → Prop) k : (∀ k', quiet k k' → Q tt k') → wp (kprint msg) Q k.
Proof. intros H. unfold kprint. apply wp_in_mm. apply wp_modify. by apply H. Qed.
Lemma wp_when_quiet (b : bool) msg (Q : () → drv → Prop) R t so d h k :
  (∀ k', quiet k k' → Q tt (Drv R t so d h k')) →
  wp (when b (on_fs (kprint msg))) Q (Drv R t so d h k).
Proof.
  intros H. apply wp_when; intros _; [|by apply H]. apply wp_on_fs, wp_kprint. by apply H.
Qed.

(** A poll that succeeds at once. *)
Lemma wp_mloop_first {X} (body : Z → M drv (option X)) n (Q : option X → drv → Prop) s :
  (0 < n)%nat → wp (body 0) (λ r s', ∃ x, r = Some x ∧ Q (Some x) s') s → wp (mloop body (upto n)) Q s.
Proof.
  intros Hn H. unfold upto. rewrite seqZ_cons by lia. simpl. apply wp_bind.
  eapply wp_mono; [exact H|]. intros r s' (x & -> & HQ). done.
Qed.

(** The accesses that do not concern the transfer. *)
Lemma busy_in h cmd drive lba n m port v : port ≠ HD_DATA → busy m0 h cmd drive lba n m →
  busy m0 (EvIn port v :: h) cmd drive lba n m.
Proof.
  intros Hp (H1 & H2 & H3 & H4 & H5). unfold busy, drive_of, lba_of. simpl.
  destruct (Z.eqb_spec port HD_DATA); [done|]. done.
Qed.

Lemma wp_controller_ready (Q : Z → drv → Prop) R t so d h k :
  (∀ v, Q 999 (Drv R t so d (EvIn HD_STATUS v :: h) k)) → wp (controller_ready c) Q (Drv R t so d h k).
Proof.
  intros HQ. unfold controller_ready. change 1000%nat with (S 999). cbn [controller_ready_loop].
  change (Nat.eqb 999 0) with false. cbv beta iota. apply wp_bind, wp_inb.
  pose proof (ctl_ready h) as Hr. change (BUSY_STAT .| READY_STAT) with 0xc0 in Hr. rewrite Hr.
  change (negb (READY_STAT =? 64)) with false. apply wp_ret, HQ.
Qed.

Lemma wp_hd_out drive nsect sect head cyl cmd hdl (Q : () → drv → Prop) R t so d h k :
  0 ≤ drive ≤ 1 → 0 ≤ head ≤ 15 →
  (∀ h', reg h' HD_COMMAND = u8 cmd → reg h' HD_SECTOR = u8 sect → reg h' HD_LCYL = u8 cyl →
     reg h' HD_HCYL = u8 (Z.shiftr cyl 8) → reg h' HD_CURRENT = u8 (0xA0 .| Z.shiftl drive 4 .| head) →
     words h' = 0 → stored m0 h' = stored m0 h → Q tt (Drv R t so hdl h' k)) →
  wp (hd_out c drive nsect sect head cyl cmd hdl) Q (Drv R t so d h k).
Proof.
  intros Hd Hh HQ. unfold hd_out.
  destruct (Z.ltb_spec 1 drive); [lia|]. destruct (Z.ltb_spec 15 head); [lia|]. simpl orb. cbv iota.
  apply wp_bind, wp_controller_ready. intros v. change (negb (truth 999)) with false. cbv iota.
  apply wp_bind, wp_modify. simpl.
  do 7 (apply wp_bind, wp_outb). apply wp_outb. by apply HQ.
Qed.

Lemma wp_drive_busy (Q : Z → drv → Prop) R t so d h k :
  (∀ h', stored m0 h' = stored m0 h → Q 0 (Drv R t so d h' k)) → wp (drive_busy c) Q (Drv R t so d h k).
Proof.
  intros HQ. unfold drive_busy. apply wp_bind, wp_mloop_first; [lia|].
  apply wp_bind, wp_inb. rewrite ctl_ready. change (READY_STAT =? READY_STAT) with true.
  apply wp_ret. exists tt. split; [done|]. apply wp_bind, wp_inb. cbv zeta.
  assert (∀ x, truth ((if x =? READY_STAT then 1 else 0) .| SEEK_STAT) = true) as ->
    by (intros x; by destruct (x =? READY_STAT)).
  apply wp_ret, HQ. done.
Qed.
Lemma wp_reset_hd nr (Q : () → drv → Prop) R t so d h k : 0 ≤ nr ≤ 1 →
  (∀ h' k', stored m0 h' = stored m0 h → quiet k k' → Q tt (Drv R t so h_do_request h' k')) →
  wp (reset_hd c nr) Q (Drv R t so d h k).
Proof.
  intros Hnr HQ. unfold reset_hd, reset_controller. apply wp_bind.
  apply wp_bind, wp_outb, wp_bind, wp_outb, wp_bind, wp_mloop_first; [lia|].
  apply wp_bind, wp_drive_busy. intros h1 E1. apply wp_ret. exists tt. split; [done|].
  apply wp_bind, wp_drive_busy. intros h2 E2. apply wp_bind, wp_when_quiet. intros k1 K1.
  apply wp_bind, wp_inb, wp_when_quiet. intros k2 K2.
  apply wp_hd_out; [done|unfold _HEAD; lia|]. intros h3 _ _ _ _ _ _ E3. apply HQ.
  - rewrite E3. simpl. rewrite E2, E1. done.
  - by transitivity k1.
Qed.
Lemma wp_win_result (Q : Z → drv → Prop) cmd drive lba n m R t so d h k : busy m0 h cmd drive lba n m →
  (is_Some (m0 !! reported h) → ∀ h', busy m0 h' cmd drive lba n m → Q 0 (Drv R t so d h' k)) →
  (m0 !! reported h = None → ∀ h', stored m0 h' = m → Q 1 (Drv R t so d h' k)) →
  wp (win_result c) Q (Drv R t so d h k).
Proof.
  intros HB Hgood Hbad. unfold win_result. apply wp_bind, wp_inb. fold result_bits.
  pose proof (busy_in h cmd drive lba n m HD_STATUS (u8 (c h HD_STATUS)) ltac:(done) HB) as HB1.
  destruct (m0 !! reported h) as [x|] eqn:E.
  - pose proof (ctl_good h) as Hg. rewrite E in Hg. rewrite Hg by done. rewrite Z.eqb_refl.
    apply wp_ret. by apply Hgood.
  - pose proof (ctl_bad h E) as Hg. apply Z.eqb_neq in Hg. rewrite Hg. apply wp_bind.
    destruct (truth _).
    + apply wp_bind, wp_inb, wp_ret, wp_ret, Hbad; [done|]. apply HB1.
    + apply wp_ret, wp_ret, Hbad; [done|]. apply HB1.
Qed.

(** ** Data *)

Lemma wp_port_read p b src off drive lba j m (Q : () → drv → Prop) R t so d h k :
  busy m0 h WIN_READ drive lba (256 * j) m → m !! (drive, lba + j) = Some src → length src = 512%nat → bytes src →
  heads k !! p = Some b → (off + 512 ≤ length (b_data b))%nat →
  (∀ h', busy m0 h' WIN_READ drive lba (256 * (j + 1)) m →
     Q tt (Drv R t so d h' (k <| heads := <[p := b <| b_data := take off (b_data b) ++ src ++ drop (off + 512) (b_data b) |>]> (heads k) |>))) →
  wp (port_read c HD_DATA p (Z.of_nat off) 256) Q (Drv R t so d h k).
Proof.
  intros HB Hsrc Hlen Hby Hb Hoff HQ.
  set (Inv := λ (i : nat) (s : drv), ∃ h' dd, busy m0 h' WIN_READ drive lba (256 * j + Z.of_nat i) m ∧
    copied off i src (b_data b) dd ∧
    s = Drv R t so d h' (k <| heads := <[p := b <| b_data := dd |>]> (heads k) |>)).
  eapply wp_mono; [apply (wp_mfor_upto _ Inv 256)|].
  - exists h, (b_data b). split; [by rewrite Z.add_0_r|]. split; [apply copied_0|].
    assert (b <| b_data := b_data b |> = b) as E by (by destruct b).
    rewrite E, insert_id by done. by destruct k.
  - intros i s Hi (h' & dd & (B1 & B2 & B3 & B4 & B5) & Hc & ->). apply wp_bind, wp_inw.
    assert (c h' HD_DATA = word_at src (Z.of_nat i)) as Ed.
    { rewrite (ctl_data h' src); [f_equal; rewrite B4; dlia|done|].
      rewrite B5, B2, B3, B4. rewrite <-Hsrc. do 2 f_equal. dlia. }
    rewrite Ed. rewrite u16_small by (by apply word_at_range).
    apply wp_on_fs. eapply wp_set_bh; [simpl; by rewrite lookup_insert_eq|]. simpl. rewrite insert_insert_eq.
    pose proof (copied_step off i src (b_data b) dd Hby ltac:(lia) ltac:(lia) Hc) as Hc'. cbv zeta in Hc'.
    eexists _, _. split; [|split; [exact Hc'|reflexivity]].
    unfold busy, drive_of, lba_of in *. simpl. split_and!; try done. lia.
  - intros [] s (h' & dd & HB' & Hc & ->). apply copied_all in Hc; [|lia..]. rewrite Hc.
    apply HQ. replace (256 * (j + 1)) with (256 * j + Z.of_nat 256) by lia. done.
Qed.

(** The sectors after a sector has been written; a bad one keeps nothing. *)
Definition write_sector (m : gmap (Z * Z) (list Z)) (key : Z * Z) (d : list Z) : gmap (Z * Z) (list Z) :=
  match m !! key with Some _ => <[key := d]> m | None => m end.

Lemma wp_port_write p b off drive lba j m (Q : () → drv → Prop) R t so d h k :
  busy m0 h WIN_WRITE drive lba (256 * j) m → good_media m → heads k !! p = Some b → bytes (b_data b) →
  (off + 512 ≤ length (b_data b))%nat →
  (∀ h', busy m0 h' WIN_WRITE drive lba (256 * (j + 1))
           (write_sector m (drive, lba + j) (take 512 (drop off (b_data b)))) →
     Q tt (Drv R t so d h' k)) →
  wp (port_write HD_DATA p (Z.of_nat off) 256) Q (Drv R t so d h k).
Proof.
  intros HB Hm Hb Hby Hoff HQ. set (key := (drive, lba + j)). set (src := drop off (b_data b)).
  assert (bytes src) as Hsb by (by apply Forall_drop).
  set (Inv := λ (i : nat) (s : drv), ∃ h' m', busy m0 h' WIN_WRITE drive lba (256 * j + Z.of_nat i) m' ∧
    match m !! key with
    | Some dd => ∃ dd', copied 0 i src dd dd' ∧ m' = <[key := dd']> m
    | None => m' = m
    end ∧ s = Drv R t so d h' k).
  eapply wp_mono; [apply (wp_mfor_upto _ Inv 256)|].
  - exists h, m. split; [by rewrite Z.add_0_r|]. split; [|done]. destruct (m !! key) as [dd|] eqn:E; [|done].
    exists dd. split; [apply copied_0|]. by rewrite insert_id.
  - intros i s Hi (h' & m' & (B1 & B2 & B3 & B4 & B5) & Hc & ->).
    apply wp_bind, wp_on_fs, (wp_bh p b); [done|]. apply wp_outw.
    assert (byte_at (b_data b) (Z.of_nat off + 2 * Z.of_nat i) + 256 * byte_at (b_data b) (Z.of_nat off + 2 * Z.of_nat i + 1)
      = word_at src (Z.of_nat i)) as ->.
    { unfold word_at, byte_at, src. rewrite !lookup_drop. repeat f_equal; lia. }
    rewrite u16_small by (by apply word_at_range). set (w := word_at src (Z.of_nat i)).
    exists (EvOut HD_DATA w :: h'). eexists. split; [|split; [|reflexivity]].
    { unfold busy, drive_of, lba_of in *. simpl. split_and!; try done. lia. }
    cbn [stored]. rewrite B5, B1, B2, B3, B4. change ((HD_DATA =? HD_DATA) && (WIN_WRITE =? WIN_WRITE)) with true.
    cbv iota zeta. replace ((256 * j + Z.of_nat i) / 256) with j by dlia. fold key.
    replace ((256 * j + Z.of_nat i) mod 256) with (Z.of_nat i) by dlia.
    destruct (m !! key) as [dd|] eqn:E; [|rewrite Hc, E; done].
    destruct Hc as (dd' & Hc & ->). rewrite lookup_insert_eq, insert_insert_eq.
    destruct (Hm _ _ E) as [Hdl Hdb].
    exists (set_word dd' (Z.of_nat i) w). split; [|done].
    apply (copied_step 0 i src dd dd'); [done|unfold src; rewrite length_drop; lia|lia|done].
  - intros [] s (h' & m' & HB' & Hc & ->). apply HQ.
    replace (256 * (j + 1)) with (256 * j + Z.of_nat 256) by lia.
    assert (m' = write_sector m key (take 512 src)) as Em; [|rewrite Em in HB'; exact HB'].
    unfold write_sector. destruct (m !! key) as [dd|] eqn:E; [|done].
    destruct Hc as (dd' & Hc & ->). f_equal. destruct (Hm _ _ E) as [Hdl _].
    assert (copied 0 256 (take 512 src) dd dd') as Hc'.
    { destruct Hc as [Hl Hi]. split; [done|]. intros i. rewrite Hi. case_decide; [|done].
      rewrite lookup_take_lt by lia. done. }
    apply copied_all in Hc'; [|rewrite length_take; unfold src; rewrite length_drop; lia|lia].
    rewrite Hc'. rewrite drop_ge by lia. by rewrite app_nil_r.
Qed.
End Ports.
