(* ===== verification/HdFacts.v ===== *)
(** * The driver does what the cache takes a transfer to be

    With a controller that follows the interface of HdCtl.v, the interrupt-driven
    service of a request leaves the buffer and the disk as [hd_transfer]
    (Buffer.v) says, whatever sectors are bad. *)

From S2P Require Import HdCtl FsBoot.

Lemma bh_run q b (f : fs) : heads f !! q = Some b → bh q f = Ret b f.
Proof. intros Hb. unfold bh, gets, mbind, M_bind. by rewrite Hb. Qed.
Lemma set_bh_run q b g (f : fs) : heads f !! q = Some b →
  set_bh q g f = Ret tt (f <| heads := <[q := g b]> (heads f) |>).
Proof. intros Hb. unfold set_bh. rewrite (bind_ret _ _ _ _ _ (bh_run q b f Hb)). done. Qed.

Section Service.
Context (c : list event → Z → Z) (m0 : gmap (Z * Z) (list Z)) `{!Controller c m0}.
Implicit Types (R : list hd_request) (p so : Z) (d : handler) (h : list event) (k : fs) (r : hd_request).

(** Interrupts as long as the driver waits for one. *)
Fixpoint service (fuel : nat) : M drv () :=
  match fuel with
  | O => nofuel
  | S n => d ← gets do_hd; if decide (d = h_NULL) then mret () else hd_interrupt c;; service n
  end.

Lemma service_mono n n' Q s : (n ≤ n')%nat → wp (service n) Q s → wp (service n') Q s.
Proof.
  revert n' s. induction n as [|n IH]; intros n' s Hn H; [done|].
  destruct n' as [|n']; [lia|]. cbn [service] in *. apply wp_bind_inv in H. apply wp_bind.
  eapply wp_mono; [exact H|]. intros d s1 H1. cbv beta in H1.
  destruct (decide (d = h_NULL)); [done|]. apply wp_bind_inv in H1. apply wp_bind.
  eapply wp_mono; [exact H1|]. intros [] s2 H2. apply IH; [lia|done].
Qed.

Definition rq_lba r : Z := (rq_cyl r * hd_head + rq_head r) * hd_sect + rq_sector r - 1.
Definition rq_ok r : Prop :=
  0 ≤ rq_hd r ≤ 1 ∧ 0 ≤ rq_sector r < 256 ∧ 0 ≤ rq_head r ≤ 15 ∧ 0 ≤ rq_cyl r < 65536 ∧
  (rq_cmd r = WIN_READ ∨ rq_cmd r = WIN_WRITE) ∧ 0 ≤ rq_bh r.
(** The entry [p] of the table is [r], [n] sectors to go, [e] errors so far. *)
Definition at_entry R p r n e : Prop :=
  1 ≤ p ∧ R !! Z.to_nat (p - 1) = Some (r <| rq_nsector := n |> <| rq_errors := e |>).
Definition kern_ok k (H : gmap Z buffer_head) : Prop := heads k = H ∧ waiters_ok (sch k).

Lemma wp_req p r (Q : hd_request → drv → Prop) s :
  1 ≤ p → request s !! Z.to_nat (p - 1) = Some r → Q r s → wp (req p) Q s.
Proof.
  intros Hp Hr HQ. unfold req. apply wp_bind, wp_gets. eapply wp_of_ret; [apply index_Some; [lia|done]|done].
Qed.
Lemma wp_set_req p r f (Q : () → drv → Prop) R t so d h k :
  1 ≤ p → R !! Z.to_nat (p - 1) = Some r →
  Q tt (Drv (<[Z.to_nat (p - 1) := f r]> R) t so d h k) → wp (set_req p f) Q (Drv R t so d h k).
Proof.
  intros Hp Hr HQ. unfold set_req. apply wp_bind, (wp_req p r); [exact Hp|exact Hr|].
  eapply wp_of_ret; [apply store_in|exact HQ]. apply lookup_lt_Some in Hr. simpl. lia.
Qed.
Lemma wp_this p r n e (Q : hd_request → drv → Prop) R so d h k : at_entry R p r n e →
  Q (r <| rq_nsector := n |> <| rq_errors := e |>) (Drv R p so d h k) → wp this Q (Drv R p so d h k).
Proof. intros [Hp Hr] HQ. unfold this. apply wp_bind, wp_gets. by eapply wp_req. Qed.
Lemma wp_set_this p r n e f n' e' (Q : () → drv → Prop) R so d h k : at_entry R p r n e →
  f (r <| rq_nsector := n |> <| rq_errors := e |>) = r <| rq_nsector := n' |> <| rq_errors := e' |> →
  (at_entry (<[Z.to_nat (p - 1) := r <| rq_nsector := n' |> <| rq_errors := e' |>]> R) p r n' e' →
   Q tt (Drv (<[Z.to_nat (p - 1) := r <| rq_nsector := n' |> <| rq_errors := e' |>]> R) p so d h k)) →
  wp (set_this f) Q (Drv R p so d h k).
Proof.
  intros [Hp Hr] Hf HQ. unfold set_this. apply wp_bind, wp_gets. eapply wp_set_req; [done..|].
  rewrite Hf. apply HQ. split; [done|]. apply list_lookup_insert_eq. by eapply lookup_lt_Some.
Qed.

Lemma command_regs r h' : rq_ok r → reg h' HD_SECTOR = u8 (rq_sector r) → reg h' HD_LCYL = u8 (rq_cyl r) →
  reg h' HD_HCYL = u8 (Z.shiftr (rq_cyl r) 8) →
  reg h' HD_CURRENT = u8 (0xA0 .| Z.shiftl (rq_hd r) 4 .| rq_head r) →
  drive_of h' = rq_hd r ∧ lba_of h' = rq_lba r.
Proof.
  intros (H1 & H2 & H3 & H4 & _) E1 E2 E3 E4. unfold drive_of, lba_of. rewrite E1, E2, E3, E4.
  assert (forallb (λ a, forallb (λ b, (Z.shiftr (u8 (0xA0 .| Z.shiftl a 4 .| b)) 4 .& 1 =? a) &&
    (u8 (0xA0 .| Z.shiftl a 4 .| b) .& 15 =? b)) (upto 16)) (upto 2) = true) as Hall by (vm_compute; reflexivity).
  rewrite forallb_forall in Hall. specialize (Hall (rq_hd r)).
  rewrite forallb_forall in Hall. specialize (fun H => Hall H (rq_head r)).
  destruct (andb_prop _ _ (Hall ltac:(apply list_elem_of_In, elem_of_upto; lia)
    ltac:(apply list_elem_of_In, elem_of_upto; lia))) as [A1%Z.eqb_eq A2%Z.eqb_eq].
  split; [exact A1|]. rewrite A2. unfold rq_lba.
  rewrite (u8_small (rq_sector r)) by done. rewrite Z.shiftr_div_pow2 by lia.
  assert (u8 (rq_cyl r) + 256 * u8 (rq_cyl r / 2 ^ 8) = rq_cyl r) as ->; [|done].
  unfold u8. dlia.
Qed.

(** Offset of the half of the buffer for [n] sectors to go. *)
Definition off_of (n : Z) : nat := Z.to_nat (512 * (n .& 1)).

(** do_request sends the command; a write also sends the first sector. *)
Lemma wp_do_request_read p r n e (Q : () → drv → Prop) R d h k : at_entry R p r n e → rq_ok r →
  rq_cmd r = WIN_READ →
  (∀ h', busy m0 h' WIN_READ (rq_hd r) (rq_lba r) (256 * 0) (stored m0 h) →
     Q tt (Drv R p 0 h_read_intr h' k)) →
  wp (do_request c) Q (Drv R p 0 d h k).
Proof.
  intros [Hp Hr] Hok Hcmd HQ. unfold do_request. apply wp_bind, wp_gets. change (truth (sorting _)) with false.
  cbv iota. apply wp_bind, wp_gets. cbn [this_request]. destruct (Z.eqb_spec p NULL); [unfold NULL in *; lia|].
  apply wp_bind. eapply wp_req; [done..|]. simpl. rewrite Hcmd. change (WIN_READ =? WIN_WRITE) with false.
  change (WIN_READ =? WIN_READ) with true. cbv iota.
  pose proof Hok as (H1 & _ & H3 & _). apply (wp_hd_out c m0); [done..|].
  intros h' G1 G2 G3 G4 G5 G6 G7. apply HQ. destruct (command_regs r h' Hok G2 G3 G4 G5).
  unfold busy. done.
Qed.
Lemma wp_do_request_write p r n e b (Q : () → drv → Prop) R d h k : at_entry R p r n e → rq_ok r →
  rq_cmd r = WIN_WRITE → n = 1 ∨ n = 2 → heads k !! rq_bh r = Some b → length (b_data b) = 1024%nat →
  bytes (b_data b) → good_media (stored m0 h) →
  (∀ h', busy m0 h' WIN_WRITE (rq_hd r) (rq_lba r) (256 * 1)
           (write_sector (stored m0 h) (rq_hd r, rq_lba r) (take 512 (drop (off_of n) (b_data b)))) →
     Q tt (Drv R p 0 h_write_intr h' k)) →
  wp (do_request c) Q (Drv R p 0 d h k).
Proof.
  intros [Hp Hr] Hok Hcmd Hn Hb Hlen Hby Hm HQ. unfold do_request. apply wp_bind, wp_gets. change (truth (sorting _)) with false.
  cbv iota. apply wp_bind, wp_gets. cbn [this_request]. destruct (Z.eqb_spec p NULL); [unfold NULL in *; lia|].
  apply wp_bind. eapply wp_req; [done..|]. simpl. rewrite Hcmd. change (WIN_WRITE =? WIN_WRITE) with true. cbv iota.
  pose proof Hok as (H1 & _ & H3 & _). apply wp_bind, (wp_hd_out c m0); [done..|].
  intros h' G1 G2 G3 G4 G5 G6 G7. destruct (command_regs r h' Hok G2 G3 G4 G5) as [D1 D2].
  apply wp_bind, wp_mloop_first; [lia|]. apply wp_bind, wp_inb. rewrite (ctl_drq h') by done. apply wp_ret.
  exists tt. split; [done|].
  replace (512 * (n .& 1)) with (Z.of_nat (off_of n)) by (by destruct Hn as [-> | ->]).
  eapply (wp_port_write m0 _ b _ (rq_hd r) (rq_lba r) 0 (stored m0 h)); try done.
  - unfold off_of. destruct Hn as [-> | ->]; rewrite Hlen; simpl; lia.
  - intros h2 HB. rewrite Z.add_0_r in HB. apply HQ. exact HB.
Qed.

(** ** The interrupts *)

(** The buffer as a finished request leaves it. *)
Definition finished (b : buffer_head) : buffer_head := b <| b_uptodate := 1 |> <| b_dirt := 0 |> <| b_lock := 0 |>.
Definition failed (b : buffer_head) : buffer_head := b <| b_uptodate := 0 |> <| b_lock := 0 |>.
(** The entry has been given back; the next request is current. *)
Definition released R p r R' : Prop := ∃ r', rq_hd r' = -1 ∧ rq_next r' = rq_next r ∧
  R' = <[Z.to_nat (p - 1) := r']> R.

Lemma wp_kwhen (b : bool) msg (Q : () → fs → Prop) k :
  (∀ k', quiet k k' → Q tt k') → wp (when b (kprint msg)) Q k.
Proof. intros H. apply wp_when; intros _; [by apply wp_kprint|by apply H]. Qed.
Lemma wp_kwake q (Q : () → fs → Prop) k : q ≠ 0 → waiters_ok (sch k) →
  (∀ k', quiet k k' → waiters_ok (sch k') → Q tt k') → wp (wake q) Q k.
Proof.
  intros Hq Hw H. apply wp_wake; [done..|]. apply H; [split; [done|split; [done|]]|]; by intros; apply woken_ok.
Qed.
Lemma wp_unlock q b (Q : () → fs → Prop) k : heads k !! q = Some b → 0 ≤ q → waiters_ok (sch k) →
  (∀ k', kern_ok k' (<[q := b <| b_lock := 0 |>]> (heads k)) → media k' = media k → Q tt k') →
  wp (unlock_buffer q) Q k.
Proof.
  intros Hb Hq Hw HQ. unfold unlock_buffer. apply wp_bind, (wp_bh q b); [done|].
  apply wp_bind, wp_kwhen. intros k1 (E1 & E2 & E3). apply wp_bind, (wp_set_bh q b); [by rewrite E1|]. simpl.
  apply wp_kwake; [by apply b_wait_nonzero|by apply E3|]. intros k2 (F1 & F2 & _) Hw2. apply HQ.
  - split; [rewrite F1; simpl; by rewrite E1|done].
  - by rewrite F2.
Qed.

Lemma wp_end_request p r n e b (Q : () → drv → Prop) R so d h k H : at_entry R p r n e → 0 ≤ rq_bh r →
  kern_ok k H → H !! rq_bh r = Some b →
  (∀ R' k', released R p r R' → kern_ok k' (<[rq_bh r := finished b]> H) → media k' = media k →
     wp (do_request c) Q (Drv R' (rq_next r) so d h k')) →
  wp (end_request c) Q (Drv R p so d h k).
Proof.
  intros He Hp [Hk Hw] Hb HQ. unfold end_request. apply wp_bind. eapply wp_this; [done|]. simpl.
  apply wp_bind, wp_on_fs, (wp_set_bh _ b); [by rewrite Hk|]. simpl.
  apply wp_bind, wp_on_fs. eapply wp_set_bh; [simpl; by rewrite lookup_insert_eq|]. simpl. rewrite insert_insert_eq.
  apply wp_bind, wp_on_fs, wp_kwake; [done|done|]. intros k1 (E1 & E2 & _) Hw1. simpl in E1, E2.
  apply wp_bind, wp_on_fs. eapply wp_unlock; [rewrite E1; by rewrite lookup_insert_eq|done|done|].
  intros k2 [F1 F2] F3. apply wp_bind. pose proof He as [Hp1 Hr]. unfold set_this.
  apply wp_bind, wp_gets. eapply wp_set_req; [done..|]. simpl.
  set (r' := HdRequest (-1) _ _ _ _ _ _ _ _). apply wp_bind. unfold this. apply wp_bind, wp_gets.
  eapply (wp_req p r'); [done|simpl; apply list_lookup_insert_eq; by eapply lookup_lt_Some|].
  apply wp_bind, wp_modify. apply HQ.
  - by exists r'.
  - split; [|done]. simpl. rewrite F1, E1, insert_insert_eq, Hk. done.
  - simpl. by rewrite F3, E2.
Qed.

Lemma wp_bad_retry p r n e (Q : () → drv → Prop) R d h k : at_entry R p r n e → rq_ok r → 0 ≤ e < MAX_ERRORS →
  (∀ h' k', at_entry (<[Z.to_nat (p - 1) := r <| rq_nsector := n |> <| rq_errors := e + 1 |>]> R) p r n (e + 1) →
     stored m0 h' = stored m0 h → quiet k k' →
     Q tt (Drv (<[Z.to_nat (p - 1) := r <| rq_nsector := n |> <| rq_errors := e + 1 |>]> R) p 0 h_do_request h' k')) →
  wp (bad_rw_intr c) Q (Drv R p 0 d h k).
Proof.
  intros He Hok Hlt HQ. unfold bad_rw_intr, MAX_ERRORS in *. apply wp_bind. eapply wp_this; [done|]. simpl.
  apply wp_bind. eapply (wp_set_this p r n e _ n (e + 1)); [done| |].
  { simpl. rewrite s32_small by lia. done. }
  intros He'. destruct (Z.leb_spec 5 e); [lia|]. apply wp_bind, wp_ret.
  apply (wp_reset_hd c m0); [apply Hok|]. intros h' k' Hs Hq. by apply HQ.
Qed.
Lemma wp_bad_fail p r n b (Q : () → drv → Prop) R d h k H : at_entry R p r n MAX_ERRORS → rq_ok r →
  kern_ok k H → H !! rq_bh r = Some b →
  (∀ R' h' k', released R p r R' → stored m0 h' = stored m0 h → kern_ok k' (<[rq_bh r := failed b]> H) →
     media k' = media k → Q tt (Drv R' (rq_next r) 0 h_do_request h' k')) →
  wp (bad_rw_intr c) Q (Drv R p 0 d h k).
Proof.
  intros He Hok [Hk Hw] Hb HQ. pose proof Hok as (Hd & _ & _ & _ & _ & Hp0).
  unfold bad_rw_intr, MAX_ERRORS in *. apply wp_bind. eapply wp_this; [done|]. simpl.
  apply wp_bind. eapply (wp_set_this p r n 5 _ n 6); [done..|]. intros He'.
  set (R1 := <[_ := _]> R) in *. apply wp_bind.
  apply wp_bind, wp_on_fs, (wp_set_bh _ b); [by rewrite Hk|]. simpl.
  apply wp_bind, wp_on_fs. eapply wp_unlock; [simpl; by rewrite lookup_insert_eq|done|done|].
  intros k1 [E1 E2] E3. simpl in E1, E3. rewrite insert_insert_eq in E1.
  apply wp_bind, wp_on_fs, wp_kwake; [done|done|]. intros k2 (F1 & F2 & _) Hw2.
  apply wp_bind. pose proof He' as [Hp1 Hr]. unfold set_this.
  apply wp_bind, wp_gets. eapply wp_set_req; [done..|]. simpl.
  set (r' := HdRequest (-1) _ _ _ _ _ _ _ _). apply wp_bind. unfold this. apply wp_bind, wp_gets.
  eapply (wp_req p r'); [done|simpl; apply list_lookup_insert_eq; by eapply lookup_lt_Some|].
  apply wp_modify. apply (wp_reset_hd c m0); [done|]. intros h' k3 Hs (G1 & G2 & G3). simpl in G1, G2, G3. apply HQ.
  - exists r'. split; [done|]. split; [done|]. unfold R1. by rewrite list_insert_insert_eq.
  - done.
  - split; [|by apply G3]. rewrite G1, F1, E1, Hk. done.
  - by rewrite G2, F2, E3.
Qed.

Lemma wp_service_step n (Q : () → drv → Prop) R p so d h k : d ≠ h_NULL →
  wp (hd_interrupt c) (λ _ s', wp (service n) Q s') (Drv R p so d h k) →
  wp (service (S n)) Q (Drv R p so d h k).
Proof.
  intros Hd H. cbn [service]. apply wp_bind, wp_gets. cbn [do_hd]. rewrite decide_False by done.
  by apply wp_bind.
Qed.

(** The half of a block that is transferred with [n] sectors to go. *)
Definition half (n : Z) (b : buffer_head) : list Z := take 512 (drop (off_of n) (b_data b)).
(** The command for [r] has been sent. *)
Definition commanded r (n : Z) (b : buffer_head) (m : gmap (Z * Z) (list Z)) h d : Prop :=
  (rq_cmd r = WIN_READ ∧ d = h_read_intr ∧ busy m0 h WIN_READ (rq_hd r) (rq_lba r) (256 * 0) m) ∨
  (rq_cmd r = WIN_WRITE ∧ d = h_write_intr ∧
   busy m0 h WIN_WRITE (rq_hd r) (rq_lba r) (256 * 1) (write_sector m (rq_hd r, rq_lba r) (half n b))).

Lemma wp_command p r n e b (Q : () → drv → Prop) R d h k : at_entry R p r n e → rq_ok r →
  n = 1 ∨ n = 2 → heads k !! rq_bh r = Some b → length (b_data b) = 1024%nat → bytes (b_data b) →
  good_media (stored m0 h) →
  (∀ h' d', commanded r n b (stored m0 h) h' d' → Q tt (Drv R p 0 d' h' k)) →
  wp (do_request c) Q (Drv R p 0 d h k).
Proof.
  intros He Hok Hn Hb Hlen Hby Hm HQ. pose proof Hok as (_ & _ & _ & _ & [Hc|Hc] & _).
  - eapply wp_do_request_read; [done..|]. intros h' HB. apply HQ. by left.
  - eapply wp_do_request_write; [done..|]. intros h' HB. apply HQ. by right.
Qed.

(** An interrupt for a bad sector. *)
Lemma wp_bad_interrupt (Q : () → drv → Prop) cmd drive lba n m R p so d h k :
  d = h_read_intr ∨ d = h_write_intr → busy m0 h cmd drive lba n m → m0 !! reported h = None →
  (∀ h', stored m0 h' = m → wp (bad_rw_intr c) Q (Drv R p so d h' k)) →
  wp (hd_interrupt c) Q (Drv R p so d h k).
Proof.
  intros Hd HB Hbad HQ. unfold hd_interrupt. apply wp_bind, wp_gets. cbn [do_hd].
  assert (∀ K, wp (bad ← win_result c; if truth bad then bad_rw_intr c else K) Q (Drv R p so d h k)) as H.
  { intros K. apply wp_bind. eapply (wp_win_result c m0); [exact HB| |].
    - intros Hs. rewrite Hbad in Hs. by destruct Hs.
    - intros _ h' Hs. change (truth 1) with true. cbv iota. exact (HQ h' Hs). }
  destruct Hd as [-> | ->]; cbv iota; unfold read_intr, write_intr; apply H.
Qed.

(** What is reported when the first sector is bad. *)
Lemma commanded_bad r n b m h d : commanded r n b m h d → m !! (rq_hd r, rq_lba r) = None →
  ∃ cmd drive lba w, busy m0 h cmd drive lba w m ∧ reported h = (rq_hd r, rq_lba r) ∧
    (d = h_read_intr ∨ d = h_write_intr).
Proof.
  intros Hcom Hbad. destruct Hcom as [(_ & -> & HB)|(_ & -> & HB)]; do 4 eexists.
  - split; [exact HB|]. split; [|by left]. destruct HB as (B1 & B2 & B3 & B4 & _).
    unfold reported. rewrite B1, B2, B3, B4. f_equal. simpl. dlia.
  - unfold write_sector in HB. rewrite Hbad in HB. split; [exact HB|]. split; [|by right].
    destruct HB as (B1 & B2 & B3 & B4 & _). unfold reported. rewrite B1, B2, B3, B4. f_equal. simpl. dlia.
Qed.
(** Six times the first sector is bad. *)
Lemma wp_first_bad p r n b fuel (Q : () → drv → Prop) (j : nat) e R h d k H :
  e = 5 - Z.of_nat j → 0 ≤ e → n = 1 ∨ n = 2 → at_entry R p r n e → rq_ok r → kern_ok k H → H !! rq_bh r = Some b →
  length (b_data b) = 1024%nat → bytes (b_data b) → ∀ m, good_media m →
  m0 !! (rq_hd r, rq_lba r) = None → m !! (rq_hd r, rq_lba r) = None → commanded r n b m h d →
  (∀ R' d' h' k', released R p r R' → stored m0 h' = m → kern_ok k' (<[rq_bh r := failed b]> H) →
     wp (do_request c;; service fuel) Q (Drv R' (rq_next r) 0 d' h' k')) →
  wp (service (2 * j + 2 + fuel)) Q (Drv R p 0 d h k).
Proof.
  revert e R h d k. induction j as [|j IH]; intros e R h d k Ee He0 Hn He Hok HK Hb Hlen Hby m Hm Hbad0 Hbad Hcom HQ.
  all: destruct (commanded_bad r n b m h d Hcom Hbad) as (cmd & drive & lba & w & HB & Hrep & Hd).
  - apply wp_service_step; [by destruct Hd as [-> | ->]|].
    eapply wp_bad_interrupt; [done|exact HB|by rewrite Hrep|]. intros h1 E1.
    assert (e = MAX_ERRORS) as -> by (unfold MAX_ERRORS; lia).
    eapply wp_bad_fail; [done..|]. intros R' h2 k2 HR E2 HK2 _.
    apply wp_service_step; [done|]. unfold hd_interrupt. apply wp_bind, wp_gets. cbn [do_hd].
    apply wp_bind_inv. apply HQ; [done|congruence|done].
  - replace (2 * S j + 2 + fuel)%nat with (S (S (2 * j + 2 + fuel))) by lia.
    apply wp_service_step; [by destruct Hd as [-> | ->]|].
    eapply wp_bad_interrupt; [done|exact HB|by rewrite Hrep|]. intros h1 E1.
    eapply wp_bad_retry; [done..|unfold MAX_ERRORS; lia|]. intros h2 k2 He2 E2 (K1 & K2 & K3).
    apply wp_service_step; [done|]. unfold hd_interrupt. apply wp_bind, wp_gets. cbn [do_hd].
    assert (kern_ok k2 H) as HK2.
    { destruct HK as [HK Hw]. split; [congruence|by apply K3]. }
    eapply wp_command; [done|done|done|rewrite (proj1 HK2); done|done|done|rewrite E2, E1; done|].
    rewrite E2, E1. intros h3 d3 Hcom3.
    apply (IH (e + 1) _ h3 d3 k2 ltac:(lia) ltac:(lia) Hn He2 Hok HK2 Hb Hlen Hby m); try done.
    intros R' d' h' k' (r' & Hr1 & Hr2 & ->) Hs HK'. apply HQ; try done.
    exists r'. split; [done|]. split; [done|]. by rewrite list_insert_insert_eq.
Qed.

Lemma released_insert R p r x R' : released (<[Z.to_nat (p - 1) := x]> R) p r R' → released R p r R'.
Proof. intros (r' & H1 & H2 & ->). exists r'. by rewrite list_insert_insert_eq. Qed.

(** The buffer with a half replaced. *)
Definition with_half n (src : list Z) b : buffer_head :=
  b <| b_data := take (off_of n) (b_data b) ++ src ++ drop (off_of n + 512) (b_data b) |>.

(** An interrupt for a good sector of a read. *)
Lemma wp_read_good p r n e b src j m (Q : () → drv → Prop) R so h k H :
  n = 1 ∨ n = 2 → at_entry R p r n e → rq_ok r → kern_ok k H → H !! rq_bh r = Some b →
  length (b_data b) = 1024%nat → busy m0 h WIN_READ (rq_hd r) (rq_lba r) (256 * j) m →
  m !! (rq_hd r, rq_lba r + j) = Some src → length src = 512%nat → bytes src →
  is_Some (m0 !! (rq_hd r, rq_lba r + j)) →
  (n = 2 → ∀ R' h' k', at_entry R' p r 1 0 → (∀ R'', released R' p r R'' → released R p r R'') →
     busy m0 h' WIN_READ (rq_hd r) (rq_lba r) (256 * (j + 1)) m →
     kern_ok k' (<[rq_bh r := with_half n src b]> H) → Q tt (Drv R' p so h_read_intr h' k')) →
  (n = 1 → ∀ R' h' k', released R p r R' →
     busy m0 h' WIN_READ (rq_hd r) (rq_lba r) (256 * (j + 1)) m →
     kern_ok k' (<[rq_bh r := finished (with_half n src b)]> H) →
     wp (do_request c) Q (Drv R' (rq_next r) so h_read_intr h' k')) →
  wp (hd_interrupt c) Q (Drv R p so h_read_intr h k).
Proof.
  intros Hn He Hok [HK Hw] Hb Hlen HB Hsrc Hls Hbs Hgood HQ2 HQ1. unfold hd_interrupt.
  apply wp_bind, wp_gets. cbn [do_hd]. cbv iota. unfold read_intr.
  assert (is_Some (m0 !! reported h)) as Hrep.
  { destruct HB as (B1 & B2 & B3 & B4 & _). unfold reported. rewrite B1, B2, B3, B4. simpl.
    replace (256 * j / 256) with j by dlia. done. }
  apply wp_bind. eapply (wp_win_result c m0); [exact HB| |intros Hbad; rewrite Hbad in Hrep; by destruct Hrep].
  intros _ h1 HB1. change (truth 0) with false. cbv iota.
  apply wp_bind. eapply wp_this; [done|]. simpl.
  replace (512 * (n .& 1)) with (Z.of_nat (off_of n)) by (by destruct Hn as [-> | ->]).
  apply wp_bind. eapply (wp_port_read c m0); [exact HB1|exact Hsrc|done|done|by rewrite HK| |].
  { rewrite Hlen. unfold off_of. destruct Hn as [-> | ->]; simpl; lia. }
  intros h2 HB2. fold (with_half n src b).
  apply wp_bind. eapply (wp_set_this p r n e _ n 0); [done..|]. intros He1.
  apply wp_bind. eapply (wp_set_this p r n 0 _ (n - 1) 0); [done| |].
  { simpl. rewrite s32_small by (destruct Hn as [-> | ->]; lia). done. }
  intros He2. apply wp_bind. eapply wp_this; [done|]. simpl.
  rewrite !list_insert_insert_eq in *.
  assert (kern_ok (k <| heads := <[rq_bh r := with_half n src b]> (heads k) |>)
    (<[rq_bh r := with_half n src b]> H)) as HK2 by (split; [simpl; by rewrite HK|done]).
  destruct Hn as [-> | ->].
  - change (truth (1 - 1)) with false. cbv iota.
    eapply wp_end_request; [exact He2|by apply Hok|exact HK2|by rewrite lookup_insert_eq|].
    intros R' k' HR HK' _. rewrite insert_insert_eq in HK'. apply HQ1; [done|by eapply released_insert|exact HB2|done].
  - change (truth (2 - 1)) with true. cbv iota. apply wp_ret.
    apply HQ2; [done|exact He2|by apply released_insert|done|done].
Qed.

(** An interrupt for a good sector of a write. *)
Lemma wp_write_good p r n e b j m (Q : () → drv → Prop) R h k H :
  n = 1 ∨ n = 2 → at_entry R p r n e → rq_ok r → kern_ok k H → H !! rq_bh r = Some b →
  length (b_data b) = 1024%nat → bytes (b_data b) → good_media m →
  busy m0 h WIN_WRITE (rq_hd r) (rq_lba r) (256 * (j + 1)) m →
  is_Some (m0 !! (rq_hd r, rq_lba r + j)) →
  (n = 2 → ∀ R' h', at_entry R' p r 1 e → (∀ R'', released R' p r R'' → released R p r R'') →
     busy m0 h' WIN_WRITE (rq_hd r) (rq_lba r) (256 * (j + 1 + 1))
       (write_sector m (rq_hd r, rq_lba r + (j + 1)) (half 1 b)) →
     Q tt (Drv R' p 0 h_write_intr h' k)) →
  (n = 1 → ∀ R' h' k', released R p r R' → stored m0 h' = m →
     kern_ok k' (<[rq_bh r := finished b]> H) →
     wp (do_request c) Q (Drv R' (rq_next r) 0 h_write_intr h' k')) →
  wp (hd_interrupt c) Q (Drv R p 0 h_write_intr h k).
Proof.
  intros Hn He Hok HK Hb Hlen Hby Hm HB Hgood HQ2 HQ1. unfold hd_interrupt.
  apply wp_bind, wp_gets. cbn [do_hd]. cbv iota. unfold write_intr.
  assert (is_Some (m0 !! reported h)) as Hrep.
  { destruct HB as (B1 & B2 & B3 & B4 & _). unfold reported. rewrite B1, B2, B3, B4. simpl.
    replace (256 * (j + 1) / 256 - 1) with j by dlia. done. }
  apply wp_bind. eapply (wp_win_result c m0); [exact HB| |intros Hbad; rewrite Hbad in Hrep; by destruct Hrep].
  intros _ h1 HB1. change (truth 0) with false. cbv iota.
  apply wp_bind. eapply (wp_set_this p r n e _ (n - 1) e); [done| |].
  { simpl. rewrite s32_small by (destruct Hn as [-> | ->]; lia). done. }
  intros He2. apply wp_bind. eapply wp_this; [done|]. simpl.
  destruct Hn as [-> | ->].
  - change (truth (1 - 1)) with false. cbv iota.
    eapply wp_end_request; [exact He2|by apply Hok|exact HK|done|].
    intros R' k' HR HK' _. apply HQ1; [done|by eapply released_insert| |done]. apply HB1.
  - change (truth (2 - 1)) with true. cbv iota.
    eapply (wp_port_write m0 _ b 512 _ _ (j + 1)); [exact HB1|done|by rewrite (proj1 HK)|done|rewrite Hlen; lia|].
    intros h2 HB2. apply HQ2; [done|exact He2|by apply released_insert|exact HB2].
Qed.

(** ** A request *)

Definition rq_rw r : Z := if rq_cmd r =? WIN_READ then READ else WRITE.
(** [hd_transfer] as a function of the disk and the buffer. *)
Definition transfer (rw nr lba : Z) (m : gmap (Z * Z) (list Z)) (b : buffer_head) : gmap (Z * Z) (list Z) * buffer_head :=
  match m !! (nr, lba) with
  | None => (m, b <| b_uptodate := 0 |>)
  | Some s0 =>
      (if rw =? READ then m else
         match m !! (nr, lba + 1) with
         | Some _ => <[(nr, lba + 1) := drop 512 (b_data b)]> (<[(nr, lba) := take 512 (b_data b)]> m)
         | None => <[(nr, lba) := drop 512 (b_data b)]> m
         end,
       (if rw =? READ then b <| b_data := s0 ++ default s0 (m !! (nr, lba + 1)) |> else b)
         <| b_uptodate := 1 |> <| b_dirt := 0 |>)
  end.
Lemma hd_transfer_run rw nr lba q b (f : fs) : heads f !! q = Some b →
  let r := transfer rw nr lba (media f) b in
  hd_transfer rw nr lba q f = Ret tt (f <| heads := <[q := r.2]> (heads f) |> <| media := r.1 |>).
Proof.
  intros Hb. unfold hd_transfer, transfer. rewrite (bind_ret _ _ _ _ _ (bh_run q b f Hb)).
  cbv beta. unfold gets at 1. unfold mbind at 1, M_bind at 1.
  destruct (media f !! (nr, lba)) as [s0|] eqn:E0.
  - destruct (rw =? READ).
    + rewrite (bind_ret _ _ _ _ _ (set_bh_run q b _ f Hb)).
      erewrite set_bh_run by (simpl; by rewrite lookup_insert_eq). simpl. rewrite insert_insert_eq.
      destruct f. done.
    + unfold modify at 1. unfold mbind at 1, M_bind at 1. erewrite set_bh_run by (simpl; exact Hb).
      destruct f. done.
  - erewrite set_bh_run by exact Hb. destruct f. done.
Qed.

Lemma with_half_both b s0 s1 : length (b_data b) = 1024%nat → length s0 = 512%nat → length s1 = 512%nat →
  with_half 1 s1 (with_half 2 s0 b) = b <| b_data := s0 ++ s1 |>.
Proof.
  intros Hb H0 H1. unfold with_half. change (off_of 2) with O. change (off_of 1) with 512%nat.
  rewrite take_0. destruct b as [d ? ? ? ? ? ? ? ? ? ?]. simpl in *. f_equal.
  rewrite take_app_length' by done. f_equal.
  rewrite drop_ge by (rewrite length_app, length_drop; lia). by rewrite app_nil_r.
Qed.
Lemma half_2 b : half 2 b = take 512 (b_data b).
Proof. done. Qed.
Lemma half_1 b : length (b_data b) = 1024%nat → half 1 b = drop 512 (b_data b).
Proof. intros Hb. unfold half. change (off_of 1) with 512%nat. apply take_ge. rewrite length_drop. lia. Qed.

Lemma wp_tail_mono n n' (Q : () → drv → Prop) s : (n ≤ n')%nat →
  wp (do_request c;; service n) Q s → wp (do_request c) (λ _, wp (service n') Q) s.
Proof.
  intros Hn H. apply wp_bind_inv in H. eapply wp_mono; [exact H|]. intros [] s'. by apply service_mono.
Qed.

Section Request.
Context (p : Z) (r : hd_request) (R : list hd_request) (h : list event) (k : fs) (H : gmap Z buffer_head)
  (b : buffer_head) (n : nat) (Q : () → drv → Prop).
Context (Hok : rq_ok r) (Hb : H !! rq_bh r = Some b) (Hlen : length (b_data b) = 1024%nat)
  (Hby : bytes (b_data b)) (Hm : good_media (stored m0 h)).
Let m := stored m0 h.
Let res := transfer (rq_rw r) (rq_hd r) (rq_lba r) m b.
Context (HQ : ∀ R' d' h' k', released R p r R' → stored m0 h' = res.1 →
  kern_ok k' (<[rq_bh r := res.2 <| b_lock := 0 |>]> H) →
  wp (do_request c;; service n) Q (Drv R' (rq_next r) 0 d' h' k')).

Lemma serve_read s0 h1 k1 R1 : m !! (rq_hd r, rq_lba r) = Some s0 → rq_cmd r = WIN_READ →
  at_entry R1 p r 2 0 → (∀ R', released R1 p r R' → released R p r R') → kern_ok k1 H →
  busy m0 h1 WIN_READ (rq_hd r) (rq_lba r) (256 * 0) m →
  wp (service (4 + n)) Q (Drv R1 p 0 h_read_intr h1 k1).
Proof.
  intros E0 Hc He HR HK HB. destruct (Hm _ _ E0) as [L0 B0].
  assert (is_Some (m0 !! (rq_hd r, rq_lba r + 0))) as S0.
  { rewrite Z.add_0_r, <-(stored_dom m0 h). fold m. by rewrite E0. }
  assert (off_of 2 = O ∧ off_of 1 = 512%nat) as [O2 O1] by done.
  assert (res = (m, b <| b_data := s0 ++ default s0 (m !! (rq_hd r, rq_lba r + 1)) |> <| b_uptodate := 1 |> <| b_dirt := 0 |>)) as Hres.
  { unfold res, transfer, rq_rw. rewrite E0, Hc. done. }
  assert (length (b_data (with_half 2 s0 b)) = 1024%nat) as Hlen1.
  { unfold with_half. rewrite O2, take_0. simpl. rewrite length_app, length_drop. lia. }
  apply wp_service_step; [done|].
  eapply (wp_read_good p r 2 0 b s0 0 m); try done; [by right|by rewrite Z.add_0_r|].
  intros _ R2 h2 k2 He2 HR2 HB2 HK2.
  destruct (m !! (rq_hd r, rq_lba r + 1)) as [s1|] eqn:E1.
  - destruct (Hm _ _ E1) as [L1 B1]. apply wp_service_step; [done|].
    eapply (wp_read_good p r 1 0 (with_half 2 s0 b) s1 1 m); try done;
      [by left|by rewrite lookup_insert_eq|rewrite <-(stored_dom m0 h); fold m; by rewrite E1|].
    intros _ R3 h3 k3 HR3 (_ & _ & _ & _ & Hs3) HK3. rewrite insert_insert_eq, with_half_both in HK3 by done.
    apply (wp_tail_mono n); [lia|]. apply HQ; [by apply HR, HR2|by rewrite Hs3, Hres|].
    rewrite Hres. exact HK3.
  - apply wp_service_step; [done|].
    eapply wp_bad_interrupt; [by left|exact HB2| |].
    { destruct HB2 as (B1 & B2 & B3 & B4 & _). unfold reported. rewrite B1, B2, B3, B4. simpl.
      destruct (m0 !! (rq_hd r, rq_lba r + 1)) as [x|] eqn:E; [|done].
      assert (is_Some (m !! (rq_hd r, rq_lba r + 1))) as Hx by (apply stored_dom; by rewrite E).
      rewrite E1 in Hx. by destruct Hx. }
    intros h3 E3. eapply wp_bad_retry; [done|done|unfold MAX_ERRORS; lia|].
    intros h4 k4 He4 E4 (K1 & K2 & K3). apply wp_service_step; [done|].
    unfold hd_interrupt. apply wp_bind, wp_gets. cbn [do_hd]. cbv iota.
    assert (kern_ok k4 (<[rq_bh r := with_half 2 s0 b]> H)) as HK4.
    { destruct HK2 as [HK2 Hw]. split; [congruence|by apply K3]. }
    eapply (wp_do_request_read p r 1 (0 + 1)); [done|done|done|]. intros h5 HB5. rewrite E4, E3 in HB5.
    apply wp_service_step; [done|].
    eapply (wp_read_good p r 1 (0 + 1) (with_half 2 s0 b) s0 0 m); try done;
      [by left|by rewrite lookup_insert_eq|by rewrite Z.add_0_r|].
    intros _ R3 h6 k6 HR3 (_ & _ & _ & _ & Hs6) HK6. rewrite insert_insert_eq, with_half_both in HK6 by done.
    apply (wp_tail_mono n); [lia|]. apply HQ; [|by rewrite Hs6, Hres|].
    + apply HR, HR2. by eapply released_insert.
    + rewrite Hres. exact HK6.
Qed.

Lemma good_write_sector m1 (key : Z * Z) (d : list Z) : good_media m1 → length d = 512%nat → bytes d → good_media (write_sector m1 key d).
Proof.
  intros Hg Hl Hbd k0 d0. unfold write_sector. destruct (m1 !! key); [|apply Hg].
  destruct (decide (k0 = key)) as [->|].
  - rewrite lookup_insert_eq. by intros [= <-].
  - rewrite lookup_insert_ne by done. apply Hg.
Qed.
Lemma half_good i : i = 1 ∨ i = 2 → length (half i b) = 512%nat ∧ bytes (half i b).
Proof.
  intros Hi. unfold half. split.
  - rewrite length_take, length_drop, Hlen. by destruct Hi as [-> | ->].
  - by apply Forall_take, Forall_drop.
Qed.

Lemma serve_write s0 h1 k1 R1 : m !! (rq_hd r, rq_lba r) = Some s0 → rq_cmd r = WIN_WRITE →
  at_entry R1 p r 2 0 → (∀ R', released R1 p r R' → released R p r R') → kern_ok k1 H →
  busy m0 h1 WIN_WRITE (rq_hd r) (rq_lba r) (256 * 1) (write_sector m (rq_hd r, rq_lba r) (half 2 b)) →
  wp (service (4 + n)) Q (Drv R1 p 0 h_write_intr h1 k1).
Proof.
  intros E0 Hc He HR HK HB. set (key0 := (rq_hd r, rq_lba r)) in *. set (key1 := (rq_hd r, rq_lba r + 1)).
  assert (∀ x, is_Some (m !! x) ↔ is_Some (m0 !! x)) as Hdom by (intros; apply stored_dom).
  assert (key0 ≠ key1) as Hne by (unfold key0, key1; intros [= E]; lia).
  assert (is_Some (m0 !! (rq_hd r, rq_lba r + 0))) as S0.
  { rewrite Z.add_0_r. apply Hdom. eauto. }
  pose proof (half_good 2 ltac:(by right)) as [G2 G2']. pose proof (half_good 1 ltac:(by left)) as [G1 G1'].
  assert (good_media (write_sector m key0 (half 2 b))) as Hm1 by (by apply good_write_sector).
  assert (write_sector m key0 (half 2 b) = <[key0 := take 512 (b_data b)]> m) as W0.
  { unfold write_sector. by rewrite E0, half_2. }
  assert (res.2 <| b_lock := 0 |> = finished b) as Hres2.
  { unfold res, transfer, rq_rw. fold key0. rewrite E0, Hc. by destruct b. }
  apply wp_service_step; [done|].
  eapply (wp_write_good p r 2 0 b 0 (write_sector m key0 (half 2 b))); try done; [by right|].
  intros _ R2 h2 He2 HR2 HB2.
  destruct (m !! key1) as [s1|] eqn:E1.
  - apply wp_service_step; [done|].
    assert (res.1 = write_sector (write_sector m key0 (half 2 b)) key1 (half 1 b)) as Hres1.
    { unfold res, transfer, rq_rw. fold key0 key1. rewrite E0, E1, Hc. rewrite W0, half_1 by done.
      unfold write_sector. rewrite lookup_insert_ne, E1 by done. done. }
    eapply (wp_write_good p r 1 0 b 1 (write_sector (write_sector m key0 (half 2 b)) key1 (half 1 b))); try done; [by left|by apply good_write_sector| |].
    { apply Hdom. fold key1. eauto. }
    intros _ R3 h3 k3 HR3 Hs3 HK3. apply (wp_tail_mono n); [lia|].
    apply HQ; [by apply HR, HR2|by rewrite Hs3, Hres1|by rewrite Hres2].
  - assert (res.1 = <[key0 := drop 512 (b_data b)]> m) as Hres1.
    { unfold res, transfer, rq_rw. fold key0 key1. by rewrite E0, E1, Hc. }
    apply wp_service_step; [done|].
    assert (write_sector (write_sector m key0 (half 2 b)) key1 (half 1 b) = write_sector m key0 (half 2 b)) as W1.
    { unfold write_sector at 1. rewrite W0, lookup_insert_ne, E1 by done. done. }
    eapply wp_bad_interrupt; [by right|exact HB2| |].
    { destruct HB2 as (B1 & B2 & B3 & B4 & _). unfold reported. rewrite B1, B2, B3, B4. simpl.
      destruct (m0 !! (rq_hd r, rq_lba r + 1)) as [x|] eqn:E; [|done].
      assert (is_Some (m !! key1)) as Hx by (apply Hdom; unfold key1; by rewrite E).
      rewrite E1 in Hx. by destruct Hx. }
    intros h3 E3. eapply wp_bad_retry; [done|done|unfold MAX_ERRORS; lia|].
    intros h4 k4 He4 E4 (K1 & K2 & K3). apply wp_service_step; [done|].
    unfold hd_interrupt. apply wp_bind, wp_gets. cbn [do_hd]. cbv iota.
    assert (kern_ok k4 H) as HK4.
    { destruct HK as [HK Hw]. split; [congruence|by apply K3]. }
    assert (stored m0 h4 = write_sector m key0 (half 2 b)) as E5.
    { rewrite E4, E3. exact W1. }
    eapply (wp_do_request_write p r 1 (0 + 1) b); [done|done|done|by left|by rewrite (proj1 HK4)|done|done|by rewrite E5|].
    intros h5 HB5. rewrite E5 in HB5. fold key0 (half 1 b) in HB5.
    apply wp_service_step; [done|].
    eapply (wp_write_good p r 1 (0 + 1) b 0 (write_sector (write_sector m key0 (half 2 b)) key0 (half 1 b))); try done; [by left|by apply good_write_sector|].
    intros _ R3 h6 k6 HR3 Hs6 HK6. apply (wp_tail_mono n); [lia|].
    apply HQ; [|rewrite Hs6, Hres1|by rewrite Hres2].
    + apply HR, HR2. by eapply released_insert.
    + unfold write_sector at 1. rewrite W0, lookup_insert_eq, insert_insert_eq, half_1 by done. done.
Qed.

(** The service of the current request is [transfer]. *)
Lemma serve_request d k1 : at_entry R p r 2 0 → kern_ok k1 H →
  wp (do_request c;; service (12 + n)) Q (Drv R p 0 d h k1).
Proof.
  intros He HK. apply wp_bind.
  eapply wp_command; [done|done|by right|by rewrite (proj1 HK)|done|done|done|]. intros h1 d1 Hcom.
  destruct (m !! (rq_hd r, rq_lba r)) as [s0|] eqn:E0.
  - apply (service_mono (4 + n)); [lia|].
    destruct Hcom as [(Hc & -> & HB)|(Hc & -> & HB)]; [by eapply serve_read|by eapply serve_write].
  - refine (wp_first_bad p r 2 b n Q 5 0 R h1 d1 k1 H _ _ _ _ _ _ _ _ _ m _ _ _ _ _); try done; [by right| |].
    + destruct (m0 !! (rq_hd r, rq_lba r)) as [x|] eqn:E; [|done].
      assert (is_Some (m !! (rq_hd r, rq_lba r))) as Hx by (apply stored_dom; by rewrite E).
      rewrite E0 in Hx. by destruct Hx.
    + intros R' d' h' k' HR Hs HK'. apply HQ; [done|..].
      * unfold res, transfer. rewrite E0. done.
      * unfold res, transfer. rewrite E0. exact HK'.
Qed.
End Request.

(** ** The queue *)

(** The requests from entry [p] on, with their entries. *)
Fixpoint queued R p (l : list (Z * hd_request)) : Prop :=
  match l with
  | [] => p = NULL
  | (q, r) :: l => p = q ∧ at_entry R q r 2 0 ∧ queued R (rq_next r) l
  end.
(** What the cache takes the service of a request to be. *)
Definition transfer_request r : M fs () :=
  hd_transfer (rq_rw r) (rq_hd r) (rq_lba r) (rq_bh r);; set_bh (rq_bh r) (λ b, b <| b_lock := 0 |>).

Lemma transfer_good rw nr lba m b : good_media m → length (b_data b) = 1024%nat → bytes (b_data b) →
  good_media (transfer rw nr lba m b).1 ∧ length (b_data (transfer rw nr lba m b).2) = 1024%nat ∧
  bytes (b_data (transfer rw nr lba m b).2).
Proof.
  intros Hm Hl Hb. unfold transfer. destruct (m !! (nr, lba)) as [s0|] eqn:E0; [|done].
  destruct (Hm _ _ E0) as [L0 B0].
  assert (∀ m1 (key : Z * Z) (d : list Z), good_media m1 → length d = 512%nat → bytes d → good_media (<[key := d]> m1)) as Hins.
  { intros m1 key dd Hg Hld Hbd k0 d0. destruct (decide (k0 = key)) as [->|].
    - rewrite lookup_insert_eq. by intros [= <-].
    - rewrite lookup_insert_ne by done. apply Hg. }
  assert (length (drop 512 (b_data b)) = 512%nat ∧ bytes (drop 512 (b_data b))) as [L1 B1].
  { split; [rewrite length_drop; lia|by apply Forall_drop]. }
  assert (length (take 512 (b_data b)) = 512%nat ∧ bytes (take 512 (b_data b))) as [L2 B2].
  { split; [rewrite length_take; lia|by apply Forall_take]. }
  split.
  - simpl. destruct (rw =? READ); [done|]. destruct (m !! (nr, lba + 1)); auto.
  - destruct (rw =? READ); [|done]. simpl.
    assert (length (default s0 (m !! (nr, lba + 1))) = 512%nat ∧ bytes (default s0 (m !! (nr, lba + 1)))) as [L3 B3].
    { destruct (m !! (nr, lba + 1)) as [s1|] eqn:E1; [|done]. by apply Hm in E1. }
    split; [rewrite length_app; lia|by apply Forall_app].
Qed.

Lemma transfer_request_run r b (f : fs) : heads f !! rq_bh r = Some b →
  let x := transfer (rq_rw r) (rq_hd r) (rq_lba r) (media f) b in
  transfer_request r f =
    Ret tt (f <| heads := <[rq_bh r := x.2 <| b_lock := 0 |>]> (heads f) |> <| media := x.1 |>).
Proof.
  intros Hb x. unfold transfer_request. rewrite (bind_ret _ _ _ _ _ (hd_transfer_run _ _ _ _ _ _ Hb)).
  cbv beta. erewrite set_bh_run by (simpl; by rewrite lookup_insert_eq). simpl. rewrite insert_insert_eq.
  by destruct f.
Qed.

Lemma queued_insert R p q x l : q ∉ l.*1 → (∀ r, (q, r) ∉ l) → 1 ≤ q → queued R p l →
  queued (<[Z.to_nat (q - 1) := x]> R) p l.
Proof.
  revert p. induction l as [|[q' r] l IH]; intros p Hq Hn Hq1 Hl; [done|].
  destruct Hl as (-> & [Hq' Hr] & Hl). apply not_elem_of_cons in Hq as [Hne Hq]. simpl in Hne.
  split; [done|]. split.
  - split; [done|]. rewrite list_lookup_insert_ne by lia. done.
  - apply IH; [done| |done|done]. intros r' Hr'. apply (Hn r'). by right.
Qed.

Definition queue_ok (l : list hd_request) (f : fs) : Prop :=
  Forall rq_ok l ∧ (∀ r, r ∈ l → is_Some (heads f !! rq_bh r)) ∧ good_heads (heads f) ∧ good_media (media f).

(** One request of the queue. *)
Lemma transfer_step r l (f : fs) : queue_ok (r :: l) f → ∃ b,
  heads f !! rq_bh r = Some b ∧ length (b_data b) = 1024%nat ∧ bytes (b_data b) ∧
  let x := transfer (rq_rw r) (rq_hd r) (rq_lba r) (media f) b in
  let f1 := f <| heads := <[rq_bh r := x.2 <| b_lock := 0 |>]> (heads f) |> <| media := x.1 |> in
  transfer_request r f = Ret tt f1 ∧ queue_ok l f1.
Proof.
  intros (Hok & Hbh & Hgh & Hgm). apply Forall_cons in Hok as [_ Hok].
  destruct (Hbh r) as [b Hb]; [by left|]. destruct (Hgh _ _ Hb) as [Hlen Hby]. exists b.
  split; [done|]. split; [done|]. split; [done|]. intros x f1.
  split; [by apply transfer_request_run|].
  destruct (transfer_good (rq_rw r) (rq_hd r) (rq_lba r) (media f) b Hgm Hlen Hby) as (Gm & Gl & Gb).
  split; [done|]. split; [|split; [|done]].
  - intros r' Hr'. simpl. destruct (decide (rq_bh r' = rq_bh r)) as [->|].
    + rewrite lookup_insert_eq. eauto.
    + rewrite lookup_insert_ne by done. apply Hbh. by right.
  - intros q bq. simpl. destruct (decide (q = rq_bh r)) as [->|].
    + rewrite lookup_insert_eq. intros [= <-]. done.
    + rewrite lookup_insert_ne by done. apply Hgh.
Qed.
Lemma transfers_run l : ∀ f : fs, queue_ok l f → ∃ f', mfor transfer_request l f = Ret tt f'.
Proof.
  induction l as [|r l IH]; intros f Hf; [by exists f|].
  destruct (transfer_step r l f Hf) as (b & _ & _ & _ & Hrun & Hf1). destruct (IH _ Hf1) as [f' Hf'].
  exists f'. rewrite mfor_cons, (bind_ret _ _ _ _ _ Hrun). exact Hf'.
Qed.

Lemma serve_queue l : ∀ R p d h k (f f' : fs), queued R p l → NoDup (l.*1) → queue_ok (l.*2) f →
  kern_ok k (heads f) → stored m0 h = media f → mfor transfer_request (l.*2) f = Ret tt f' →
  wp (do_request c;; service (12 * length l + 1))
    (λ _ s', heads (kern s') = heads f' ∧ stored m0 (io_log s') = media f' ∧
       this_request s' = NULL ∧ do_hd s' = h_NULL ∧
       (∀ q, q ∈ l.*1 → ∃ r', request s' !! Z.to_nat (q - 1) = Some r' ∧ rq_hd r' = -1) ∧
       ∀ i, (∀ q, q ∈ l.*1 → i ≠ Z.to_nat (q - 1)) → request s' !! i = R !! i)
    (Drv R p 0 d h k).
Proof.
  induction l as [|[q r] l IH]; intros R p d h k f f' Hq Hnd Hok HK Hs Hrun.
  { injection Hrun as <-. simpl in Hq. subst p. apply wp_bind. unfold do_request.
    apply wp_bind, wp_gets. change (truth (sorting _)) with false. cbv iota.
    apply wp_bind, wp_gets. cbn [this_request]. change (NULL =? NULL) with true. cbv iota.
    apply wp_modify. simpl. apply wp_bind, wp_gets. cbn [do_hd]. rewrite decide_True by done. apply wp_ret.
    simpl. destruct HK as [HK _]. split_and!; try done. by intros q ?%elem_of_nil. }
  destruct Hq as (-> & He & Hq). apply NoDup_cons in Hnd as [Hql Hnd].
  change (((q, r) :: l).*2) with (r :: l.*2) in *. change (((q, r) :: l).*1) with (q :: l.*1) in *.
  destruct (transfer_step r _ f Hok) as (b & Hb & Hlen & Hby & Hr1 & Hok1).
  rewrite mfor_cons, (bind_ret _ _ _ _ _ Hr1) in Hrun.
  replace (12 * length ((q, r) :: l) + 1)%nat with (12 + (12 * length l + 1))%nat by (simpl; lia).
  assert (good_media (stored m0 h)) as Hgm by (rewrite Hs; apply Hok).
  apply (serve_request q r R h (heads f) b); try done.
  { destruct Hok as (Hok & _). by apply Forall_cons in Hok as [? _]. }
  rewrite Hs. intros R' d' h' k' (r' & Hr' & _ & ->) Hs' HK'.
  eapply wp_mono; [eapply (IH _ (rq_next r) d' h' k'); [|exact Hnd|exact Hok1|exact HK'|exact Hs'|exact Hrun]|].
  - apply queued_insert; [done| |apply He|done]. intros r0 Hr0. apply Hql. apply list_elem_of_fmap.
    by exists (q, r0).
  - intros [] s' (G1 & G2 & G3 & G4 & G5 & G6). split_and!; try done.
    + intros q' [->|Hq']%elem_of_cons; [|by apply G5]. exists r'. split; [|done].
      destruct He as [Hq1 Hlk]. rewrite G6.
      * apply list_lookup_insert_eq. by eapply lookup_lt_Some.
      * intros q' Hq' E. assert (q' = q) as ->; [|done].
        apply list_elem_of_fmap in Hq' as ([q'' r''] & -> & Hin). simpl in *.
        assert (1 ≤ q''); [|lia]. clear -Hq Hin. revert Hq. generalize (rq_next r).
        induction l as [|[q3 r3] l IH]; intros p3 Hq; [by apply elem_of_nil in Hin|].
        destruct Hq as (-> & [H1 _] & Hq). apply elem_of_cons in Hin as [[= -> ->]|Hin]; [done|by eapply IH].
    + intros i Hi. rewrite G6; [|by intros q' Hq'; apply Hi; right].
      rewrite list_lookup_insert_ne; [done|]. apply not_eq_sym, Hi. by left.
Qed.
End Service.

(** ** The theorems *)

(** C8: the interrupt-driven driver refines the transfers that the buffer cache
    is modelled with.  For any controller with the documented laws and any
    queue of requests, do_request and the interrupts that follow come to an end
    (at most twelve interrupts a request), with the driver idle and every
    request free again, and leave the buffers and the sectors of the disk as
    [hd_transfer], run once for each request in the order of the queue, does:
    whichever sectors are bad, and with the retries that read or write the
    first sector in place of a bad second one. *)
Theorem driver_refines_hd_transfer c m0 `{!Controller c m0} l R p d h k f :
  queued R p l → NoDup (l.*1) → queue_ok (l.*2) f → heads k = heads f → waiters_ok (sch k) →
  stored m0 h = media f →
  ∃ f', mfor transfer_request (l.*2) f = Ret tt f' ∧
  wp (do_request c;; service c (12 * length l + 1))
    (λ _ s', heads (kern s') = heads f' ∧ stored m0 (io_log s') = media f' ∧
       this_request s' = NULL ∧ do_hd s' = h_NULL ∧
       ∀ q, q ∈ l.*1 → ∃ r, request s' !! Z.to_nat (q - 1) = Some r ∧ rq_hd r = -1)
    (Drv R p 0 d h k).
Proof.
  intros Hq Hnd Hok Hk Hw Hs. destruct (transfers_run _ _ Hok) as [f' Hf']. exists f'. split; [done|].
  eapply wp_mono; [by apply (serve_queue c m0 l R p d h k f f')|].
  intros [] s' (G1 & G2 & G3 & G4 & G5 & _). auto.
Qed.

(** an interrupt that ends a request while add_request has sorting set
    stops the driver for good: the new request is current and nothing is being
    sorted, but do_hd still points to read_intr, so add_request does not call
    do_request; no command has been sent (all 512 words of the last one have
    been read), so no interrupt will come either. *)
Theorem request_stalls_when_interrupted c m0 `{!Controller c m0} p q r r2 e b src m R h k :
  at_entry R p r 1 e → rq_next r = NULL → rq_ok r → heads k !! rq_bh r = Some b → length (b_data b) = 1024%nat →
  waiters_ok (sch k) → busy m0 h WIN_READ (rq_hd r) (rq_lba r) 256 m →
  m !! (rq_hd r, rq_lba r + 1) = Some src → length src = 512%nat → bytes src →
  is_Some (m0 !! (rq_hd r, rq_lba r + 1)) → 1 ≤ q → q ≠ p → R !! Z.to_nat (q - 1) = Some r2 → rq_nsector r2 = 2 →
  wp (add_request c (hd_interrupt c) q)
    (λ _ s', this_request s' = q ∧ sorting s' = 0 ∧ do_hd s' = h_read_intr ∧ words (io_log s') = 512)
    (Drv R p 0 h_read_intr h k).
Proof.
  intros He Hnext Hok Hb Hlen Hw HB Hsrc Hls Hbs Hgood Hq Hqp Hr2 Hn2. pose proof He as [Hp Hr].
  unfold add_request. apply wp_bind. eapply wp_req; [exact Hq|exact Hr2|]. rewrite Hn2. simpl.
  apply wp_bind, wp_modify. simpl. apply wp_bind, wp_gets. cbn [this_request].
  destruct (Z.eqb_spec p NULL); [unfold NULL in *; lia|].
  apply wp_bind, wp_bind. eapply wp_req; [exact Hp|exact Hr|]. simpl. rewrite Hnext.
  change (NULL =? NULL) with true. cbv iota. eapply wp_set_req; [exact Hp|exact Hr|]. simpl.
  set (r' := HdRequest _ _ _ _ _ _ _ _ q). set (R1 := <[_ := _]> R). apply wp_bind.
  set (r1 := r <| rq_next := q |>).
  assert (at_entry R1 p r1 1 e) as He1.
  { split; [done|]. unfold R1. rewrite list_lookup_insert_eq by (by eapply lookup_lt_Some). done. }
  eapply (wp_read_good c m0 p r1 1 e b src 1 m); [by left|exact He1|exact Hok|by split|exact Hb|done|exact HB|
    exact Hsrc|done|done|exact Hgood|done|].
  intros _ R' h' k' _ (_ & _ & _ & Hwords & _) _. unfold do_request. apply wp_bind, wp_gets. simpl.
  apply wp_ret. apply wp_bind, wp_modify. simpl. apply wp_bind, wp_gets. simpl. apply wp_ret. done.
Qed.

(** ** One drive, one request *)

Definition request1 : hd_request := HdRequest 0 2 7 0 0 WIN_READ 0 1 NULL.
Definition request2 : hd_request := HdRequest 0 2 9 0 0 WIN_READ 0 1 NULL.
Definition buffer1 : buffer_head := BufferHead (replicate 1024 0) 0x300 3 0 0 1 1 0 0 0 0.
Definition kern1 : fs := fs_empty <| heads := {[1 := buffer1]} |>.
Lemma good_drive0 : good_media drive0.
Proof.
  intros k d Hd. apply elem_of_list_to_map_2, list_elem_of_fmap in Hd as (n & Heq & Hn).
  apply elem_of_seqZ in Hn. pose proof (f_equal snd Heq) as E. cbn [snd] in E. rewrite E.
  split; [by rewrite length_replicate|].
  apply Forall_replicate. lia.
Qed.
Lemma zeroes n : bytes (replicate n 0).
Proof. apply Forall_replicate. lia. Qed.
Lemma driver_refines_hd_transfer_witness : ∃ f', mfor transfer_request [request1] kern1 = Ret tt f' ∧
  wp (do_request (ideal drive0);; service (ideal drive0) 13)
    (λ _ s', heads (kern s') = heads f' ∧ stored drive0 (io_log s') = media f' ∧
       this_request s' = NULL ∧ do_hd s' = h_NULL ∧
       ∀ q, q ∈ [1] → ∃ r, request s' !! Z.to_nat (q - 1) = Some r ∧ rq_hd r = -1)
    (Drv [request1] 1 0 h_NULL [] kern1).
Proof.
  apply (driver_refines_hd_transfer (ideal drive0) drive0 [(1, request1)]).
  - split; [done|]. split; [split; [lia|reflexivity]|reflexivity].
  - apply NoDup_singleton.
  - split; [|split; [|split]].
    + apply Forall_singleton. unfold rq_ok. simpl. split_and!; lia.
    + intros r ->%list_elem_of_singleton. simpl. rewrite lookup_singleton_eq. eauto.
    + intros p b Hb. change (heads kern1) with ({[1 := buffer1]} : gmap Z buffer_head) in Hb.
      apply lookup_singleton_Some in Hb as [_ <-]. split; [reflexivity|apply zeroes].
    + exact good_drive0.
  - reflexivity.
  - exact boot_waiters.
  - reflexivity.
Defined.

(** The drive has read the first sector for [request1]. *)
Definition log1 : list event :=
  replicate 256 (EvIn HD_DATA 0) ++ [EvOut HD_COMMAND WIN_READ; EvOut HD_CURRENT 0xA0; EvOut HD_SECTOR 7].
Lemma request_stalls_when_interrupted_witness :
  wp (add_request (ideal drive0) (hd_interrupt (ideal drive0)) 2)
    (λ _ s', this_request s' = 2 ∧ sorting s' = 0 ∧ do_hd s' = h_read_intr ∧ words (io_log s') = 512)
    (Drv [request1 <| rq_nsector := 1 |>; request2] 1 0 h_read_intr log1 kern1).
Proof.
  apply (request_stalls_when_interrupted (ideal drive0) drive0 1 2 request1 request2 0 buffer1 (replicate 512 7) drive0).
  - split; [lia|reflexivity].
  - reflexivity.
  - unfold rq_ok. simpl. split_and!; lia.
  - apply lookup_singleton_eq.
  - reflexivity.
  - exact boot_waiters.
  - repeat split; reflexivity.
  - vm_compute. reflexivity.
  - reflexivity.
  - apply Forall_replicate. lia.
  - exists (replicate 512 7). vm_compute. reflexivity.
  - lia.
  - lia.
  - reflexivity.
  - reflexivity.
Defined.
