(* ===== verification/HdQueue.v ===== *)
(** * The queue of the driver is an elevator

    add_request inserts into a linked list of requests; here the list is the
    list of its entries, and the insertion a function on lists.  The first two
    entries stay where they are, since interrupts use them, and after the first
    one the requests are in at most two ascending sweeps. *)

From S2P Require Import HdFacts HdCtl FsBoot.

(** ** The insertion on lists *)

Section Elevator.
Context {A : Type} (ord : A → A → bool).

Fixpoint place (x a : A) (l : list A) : list A :=
  match l with
  | [] => [a; x]
  | b :: l => if (ord a x || negb (ord a b)) && ord x b then a :: x :: b :: l else a :: place x b l
  end.
Definition elevator (x : A) (l : list A) : list A :=
  match l with
  | [] => [x]
  | [a] => [a; x]
  | a :: b :: l => a :: place x b l
  end.
(** The number of neighbours that are not in ascending order. *)
Fixpoint descents (l : list A) : nat :=
  match l with
  | a :: (b :: _) as t => (if ord a b then 0 else 1) + descents t
  | _ => 0
  end.

Lemma place_split x a l : ∃ l1 b l2, a :: l = l1 ++ b :: l2 ∧ place x a l = l1 ++ b :: x :: l2.
Proof.
  revert a. induction l as [|b l IH]; intros a; simpl; [by exists [], a, []|].
  destruct (_ && _); [by exists [], a, (b :: l)|].
  destruct (IH b) as (l1 & c & l2 & E1 & E2). exists (a :: l1), c, l2. by rewrite E1, E2.
Qed.
Lemma elevator_perm x l : elevator x l ≡ₚ x :: l.
Proof.
  destruct l as [|a [|b l]]; simpl; [done|by constructor|].
  destruct (place_split x b l) as (l1 & c & l2 & E1 & E2). rewrite E2, E1. solve_Permutation.
Qed.
Lemma elevator_front x l : ∃ l', elevator x l = take 2 l ++ l'.
Proof.
  destruct l as [|a [|b l]]; simpl; [by eexists|by eexists|].
  destruct l as [|e l]; simpl; [by eexists|]. destruct (_ && _); by eexists.
Qed.

(** Into an ascending list, from a smaller element on. *)
Lemma place_ascending x a l : (∀ b, b ∈ l → ord x b = false → ord b x = true) →
  descents (a :: l) = O → ord a x = true → descents (place x a l) = O.
Proof.
  revert a. induction l as [|b l IH]; intros a Htot Hd Hax; [simpl; by rewrite Hax|].
  simpl in Hd. destruct (ord a b) eqn:Hab; [|done]. simpl. rewrite Hax, Hab. simpl.
  destruct (ord x b) eqn:Hxb.
  - simpl. rewrite Hax, Hxb. exact Hd.
  - assert (descents (place x b l) = O) as IH'.
    { apply IH; [intros; apply Htot; [by right|done]|exact Hd|apply Htot; [by left|done]]. }
    destruct l as [|e l]; simpl in *; [by rewrite Hab, IH'|]. destruct (_ && _); by rewrite Hab, IH'.
Qed.
Lemma place_sweeps x a l : (∀ b, b ∈ l → ord x b = false → ord b x = true) →
  (descents (a :: l) ≤ 1)%nat → (descents (place x a l) ≤ 1)%nat.
Proof.
  assert (∀ b l, ∃ l', place x b l = b :: l') as Hhead.
  { intros b [|e l']; simpl; [by eexists|]. destruct (_ && _); by eexists. }
  revert a. induction l as [|b l IH]; intros a Htot Hd; [simpl; by destruct (ord a x); lia|].
  simpl in Hd. simpl place. destruct ((ord a x || negb (ord a b)) && ord x b) eqn:Hc.
  - apply andb_prop in Hc as [Hc Hxb]. simpl. rewrite Hxb. destruct (ord a x), (ord a b); simpl in *; try done; lia.
  - destruct (Hhead b l) as [l' Hl'].
    assert (descents (a :: place x b l) = ((if ord a b then 0 else 1) + descents (place x b l))%nat) as ->
      by (by rewrite Hl').
    destruct (ord a b) eqn:Hab; simpl in *.
    + apply IH; [|done]. intros; apply Htot; [by right|done].
    + rewrite orb_true_r in Hc. simpl in Hc. rewrite place_ascending; [done| |simpl; lia|].
      * intros; apply Htot; [by right|done].
      * apply Htot; [by left|done].
Qed.
Lemma elevator_sweeps x l : (∀ b, b ∈ l → ord x b = false → ord b x = true) →
  (descents (tail l) ≤ 1)%nat → (descents (tail (elevator x l)) ≤ 1)%nat.
Proof.
  intros Htot Hd. destruct l as [|a [|b l]]; simpl; [lia|lia|].
  apply place_sweeps; [|done]. intros; apply Htot; [by do 2 right|done].
Qed.
End Elevator.

(** ** Lists of entries *)

Definition entry0 : hd_request := HdRequest (-1) 0 0 0 0 0 0 0 0.
Definition entry (R : list hd_request) (q : Z) : hd_request := default entry0 (R !! Z.to_nat (q - 1)).
Definition in_order (R : list hd_request) (q1 q2 : Z) : bool := IN_ORDER (entry R q1) (entry R q2).
(** The position of a request on the disks. *)
Definition position (r : hd_request) : Z * Z * Z * Z := (rq_hd r, rq_cyl r, rq_head r, rq_sector r).

Lemma IN_ORDER_total r1 r2 : position r1 ≠ position r2 → IN_ORDER r1 r2 = false → IN_ORDER r2 r1 = true.
Proof.
  unfold position, IN_ORDER. intros Hne.
  destruct (Z.ltb_spec (rq_hd r1) (rq_hd r2)), (Z.ltb_spec (rq_hd r2) (rq_hd r1)),
    (Z.eqb_spec (rq_hd r1) (rq_hd r2)), (Z.eqb_spec (rq_hd r2) (rq_hd r1)); try (simpl; done || lia).
  destruct (Z.ltb_spec (rq_cyl r1) (rq_cyl r2)), (Z.ltb_spec (rq_cyl r2) (rq_cyl r1)),
    (Z.eqb_spec (rq_cyl r1) (rq_cyl r2)), (Z.eqb_spec (rq_cyl r2) (rq_cyl r1)); try (simpl; done || lia).
  destruct (Z.ltb_spec (rq_head r1) (rq_head r2)), (Z.ltb_spec (rq_head r2) (rq_head r1)),
    (Z.eqb_spec (rq_head r1) (rq_head r2)), (Z.eqb_spec (rq_head r2) (rq_head r1)); try (simpl; done || lia).
  destruct (Z.ltb_spec (rq_sector r1) (rq_sector r2)), (Z.ltb_spec (rq_sector r2) (rq_sector r1));
    try (simpl; done || lia).
  intros _. destruct Hne. f_equal; [f_equal; [f_equal|]|]; lia.
Qed.

Fixpoint chain (R : list hd_request) (p : Z) (l : list Z) : Prop :=
  match l with
  | [] => p = NULL
  | q :: l => p = q ∧ 1 ≤ q ∧ ∃ r, R !! Z.to_nat (q - 1) = Some r ∧ chain R (rq_next r) l
  end.
Lemma chain_ge R p l q : chain R p l → q ∈ l → 1 ≤ q.
Proof.
  revert p. induction l as [|a l IH]; intros p Hc Hq; [by apply elem_of_nil in Hq|].
  destruct Hc as (_ & Ha & r & _ & Hc). apply elem_of_cons in Hq as [->|Hq]; [done|by eapply IH].
Qed.
Lemma chain_frame R R' p l : chain R p l → (∀ q, q ∈ l → R' !! Z.to_nat (q - 1) = R !! Z.to_nat (q - 1)) → chain R' p l.
Proof.
  revert p. induction l as [|a l IH]; intros p Hc Hf; [done|].
  destruct Hc as (-> & Ha & r & Hr & Hc). split; [done|]. split; [done|]. exists r.
  split; [rewrite Hf; [done|by left]|]. apply IH; [done|]. intros; apply Hf; by right.
Qed.
(** Entry [p] put in after entry [a]. *)
Lemma chain_insert R t l1 a l2 p r ra : chain R t (l1 ++ a :: l2) → NoDup (p :: l1 ++ a :: l2) → 1 ≤ p →
  R !! Z.to_nat (p - 1) = Some r → R !! Z.to_nat (a - 1) = Some ra →
  chain (<[Z.to_nat (a - 1) := ra <| rq_next := p |>]> (<[Z.to_nat (p - 1) := r <| rq_next := rq_next ra |>]> R))
    t (l1 ++ a :: p :: l2).
Proof.
  intros Hc Hnd Hp Hr Hra. set (R' := <[_ := _]> (<[_ := _]> R)).
  assert (1 ≤ a) as Ha by (eapply chain_ge; [exact Hc|]; apply elem_of_app; right; by left).
  assert (∀ q, 1 ≤ q → q ≠ a → q ≠ p → R' !! Z.to_nat (q - 1) = R !! Z.to_nat (q - 1)) as Hf.
  { intros q Hq Hqa Hqp. unfold R'. rewrite !list_lookup_insert_ne by lia. done. }
  apply NoDup_cons in Hnd as [Hpl Hnd].
  assert (p ≠ a) as Hpa by (intros ->; apply Hpl, elem_of_app; right; by left).
  revert t Hc. induction l1 as [|q l1 IH]; intros t Hc; simpl in *.
  - destruct Hc as (-> & _ & ra' & Hra' & Hc). rewrite Hra in Hra'. injection Hra' as <-.
    apply NoDup_cons in Hnd as [Hal _].
    split; [done|]. split; [done|]. exists (ra <| rq_next := p |>). split.
    { unfold R'. apply list_lookup_insert_eq. rewrite length_insert. by eapply lookup_lt_Some. }
    split; [done|]. split; [done|]. exists (r <| rq_next := rq_next ra |>). split.
    { unfold R'. rewrite list_lookup_insert_ne by lia. apply list_lookup_insert_eq. by eapply lookup_lt_Some. }
    eapply chain_frame; [exact Hc|]. intros q Hq. apply Hf; [by eapply chain_ge|..]; intros ->; [done|].
    apply Hpl. by right.
  - destruct Hc as (-> & Hq & rq & Hrq & Hc). apply NoDup_cons in Hnd as [Hql Hnd].
    split; [done|]. split; [done|]. exists rq. split.
    + rewrite Hf; [done|done|..]; intros ->; [|by apply Hpl; left].
      apply Hql, elem_of_app. right. by left.
    + apply IH; [|done|done]. intros Hin. apply Hpl. by right.
Qed.

(** The walk of add_request finds the place. *)
Lemma insert_point_run R t so d h k p r l : ∀ fuel a, chain R a (a :: l) → (length l < fuel)%nat → 1 ≤ p →
  R !! Z.to_nat (p - 1) = Some r →
  ∃ l1 b l2, a :: l = l1 ++ b :: l2 ∧ place (in_order R) p a l = l1 ++ b :: p :: l2 ∧
    insert_point fuel a p (Drv R t so d h k) = Ret b (Drv R t so d h k).
Proof.
  assert (∀ q rq, 1 ≤ q → R !! Z.to_nat (q - 1) = Some rq → req q (Drv R t so d h k) = Ret rq (Drv R t so d h k)) as Hreq.
  { intros q rq Hq Hrq. unfold req, gets, mbind, M_bind. apply index_Some; [lia|done]. }
  induction l as [|b l IH]; intros fuel a Hc Hf Hp Hr; (destruct fuel as [|fuel]; [simpl in Hf; lia|]);
    destruct Hc as (_ & Ha & ra & Hra & Hc); cbn [insert_point]; rewrite (bind_ret _ _ _ _ _ (Hreq a ra Ha Hra)).
  - simpl in Hc. rewrite Hc. exists [], a, []. done.
  - pose proof Hc as (Hnb & Hb & rb & Hrb & _). rewrite Hnb.
    destruct (Z.eqb_spec b NULL); [unfold NULL in *; lia|].
    rewrite (bind_ret _ _ _ _ _ (Hreq p r Hp Hr)), (bind_ret _ _ _ _ _ (Hreq b rb Hb Hrb)).
    assert (in_order R a p = IN_ORDER ra r ∧ in_order R a b = IN_ORDER ra rb ∧ in_order R p b = IN_ORDER r rb)
      as (E1 & E2 & E3) by (unfold in_order, entry; by rewrite Hr, Hra, Hrb).
    simpl place. rewrite E1, E2, E3. destruct (_ && _).
    + exists [], a, (b :: l). done.
    + rewrite Hnb in Hc. destruct (IH fuel b Hc) as (l1 & e & l2 & F1 & F2 & F3); [simpl in Hf; lia|done|done|].
      exists (a :: l1), e, l2. simpl. rewrite F2, <-F1. done.
Qed.

(** The entries but for their links. *)
Definition same_entries (R R' : list hd_request) : Prop :=
  ∀ i, (λ r, r <| rq_next := NULL |>) <$> R' !! i = (λ r, r <| rq_next := NULL |>) <$> R !! i.
Lemma same_entries_insert R i r n : R !! i = Some r → same_entries R (<[i := r <| rq_next := n |>]> R).
Proof.
  intros Hr j. destruct (decide (j = i)) as [->|].
  - rewrite list_lookup_insert_eq by (by eapply lookup_lt_Some). by rewrite Hr.
  - by rewrite list_lookup_insert_ne.
Qed.

Lemma chain_elements R t l q : chain R t l → q ∈ l → ∃ r, R !! Z.to_nat (q - 1) = Some r.
Proof.
  revert t. induction l as [|a l IH]; intros t Hc Hq; [by apply elem_of_nil in Hq|].
  destruct Hc as (_ & _ & r & Hr & Hc). apply elem_of_cons in Hq as [->|Hq]; [eauto|by eapply IH].
Qed.

Section Add.
Context (c : list event → Z → Z) (R : list hd_request) (t so : Z) (d : handler) (h : list event) (k : fs).
Context (l : list Z) (p : Z) (r : hd_request).
Context (Hc : chain R t l) (Hnd : NoDup (p :: l)) (Hp : 1 ≤ p) (Hr : R !! Z.to_nat (p - 1) = Some r).
Context (Hn : rq_nsector r = 2) (Hnext : rq_next r = NULL) (Hlen : (length l ≤ NR_REQUEST)%nat) (Hd : d ≠ h_NULL).

Lemma add_request_run : ∃ R' t', add_request c (mret tt) p (Drv R t so d h k) = Ret tt (Drv R' t' 0 d h k) ∧
  chain R' t' (elevator (in_order R) p l) ∧ same_entries R R'.
Proof.
  assert (∀ R0 t0 q rq, 1 ≤ q → R0 !! Z.to_nat (q - 1) = Some rq →
    req q (Drv R0 t0 1 d h k) = Ret rq (Drv R0 t0 1 d h k)) as Hreq.
  { intros R0 t0 q rq Hq Hrq. unfold req, gets, mbind, M_bind. apply index_Some; [lia|done]. }
  assert (∀ (Q : () → drv → Prop) R' t', Q tt (Drv R' t' 0 d h k) →
    wp (mret tt;; modify (λ s, s <| sorting := 0 |>);; h ← gets do_hd; when (bool_decide (h = h_NULL)) (do_request c)) Q
      (Drv R' t' 1 d h k)) as Hend.
  { intros Q R' t' HQ. apply wp_bind, wp_ret. apply wp_bind, wp_modify. simpl. apply wp_bind, wp_gets. simpl.
    rewrite bool_decide_eq_false_2 by done. done. }
  cut (wp (add_request c (mret tt) p) (λ _ s', ∃ R' t', s' = Drv R' t' 0 d h k ∧
    chain R' t' (elevator (in_order R) p l) ∧ same_entries R R') (Drv R t so d h k)).
  { intros H. apply wp_returns in H as ([] & s' & Hrun & R' & t' & -> & H). by exists R', t'. }
  unfold add_request. apply wp_bind. eapply wp_req; [exact Hp|exact Hr|]. rewrite Hn. simpl negb. cbv iota.
  apply wp_bind, wp_modify. simpl. apply wp_bind, wp_gets. cbn [this_request].
  destruct l as [|a l'].
  { simpl in Hc. subst t. change (NULL =? NULL) with true. cbv iota.
    apply wp_bind, wp_modify. apply Hend. exists R, p. split; [done|]. split; [|by intros i].
    split; [done|]. split; [done|]. by exists r. }
  destruct Hc as (Ht & Ha & ra & Hra & Hc'). subst t. destruct (Z.eqb_spec a NULL); [unfold NULL in *; lia|].
  apply wp_bind, wp_bind. eapply wp_req; [exact Ha|exact Hra|].
  destruct l' as [|b l'].
  { simpl in Hc'. rewrite Hc'. change (NULL =? NULL) with true. cbv iota.
    eapply wp_set_req; [exact Ha|exact Hra|]. apply Hend. eexists _, a. split; [done|].
    split; [|by apply same_entries_insert].
    apply NoDup_cons in Hnd as [Hpa _]. rewrite not_elem_of_cons in Hpa.
    split; [done|]. split; [done|]. eexists. split; [apply list_lookup_insert_eq; by eapply lookup_lt_Some|].
    split; [done|]. split; [done|]. exists r. split; [|done]. rewrite list_lookup_insert_ne by lia. done. }
  pose proof Hc' as (Hnb & Hb & _). rewrite Hnb. destruct (Z.eqb_spec b NULL); [unfold NULL in *; lia|].
  rewrite Hnb in Hc'.
  destruct (insert_point_run R a 1 d h k p r l' NR_REQUEST b Hc') as (l1 & e & l2 & E1 & E2 & E3);
    [simpl in Hlen; lia|done|done|].
  apply wp_bind. eapply wp_of_ret; [exact E3|].
  assert (e ∈ b :: l') as He by (rewrite E1; apply elem_of_app; right; by left).
  assert (1 ≤ e) as He1 by (by eapply chain_ge).
  destruct (chain_elements R b _ e Hc' He) as [re Hre].
  assert (e ≠ p) as Hep.
  { intros ->. apply NoDup_cons in Hnd as [Hpn _]. apply Hpn. by right. }
  apply wp_bind. eapply wp_req; [exact He1|exact Hre|].
  apply wp_bind. eapply wp_set_req; [exact Hp|exact Hr|].
  eapply wp_set_req; [exact He1|rewrite list_lookup_insert_ne by lia; exact Hre|].
  apply Hend. eexists _, a. split; [reflexivity|]. split.
  - assert (chain R a ((a :: l1) ++ e :: l2)) as Hca.
    { simpl. rewrite <-E1. split; [done|]. split; [done|]. exists ra. by rewrite Hnb. }
    assert (elevator (in_order R) p (a :: b :: l') = (a :: l1) ++ e :: p :: l2) as ->
      by (unfold elevator; by rewrite E2).
    apply (chain_insert R a (a :: l1) e l2 p r re Hca); try done.
    simpl. by rewrite <-E1.
  - intros i. rewrite same_entries_insert by (rewrite list_lookup_insert_ne by lia; exact Hre).
    by apply same_entries_insert.
Qed.
End Add.

(** C23: add_request inserts into the linked queue as the elevator: the queue is
    then [elevator] of the queue before, which has the same requests and the
    new one, begins with the same first two (an interrupt may be using them),
    and is, after the first one, in at most two ascending sweeps if it was so
    before; no request is changed but for its link.  This is while the drive
    works; an idle drive is started. *)
Theorem add_request_is_elevator c R t so d h k l p r :
  chain R t l → NoDup (p :: l) → 1 ≤ p → R !! Z.to_nat (p - 1) = Some r → rq_nsector r = 2 → rq_next r = NULL →
  (length l ≤ NR_REQUEST)%nat → d ≠ h_NULL →
  (∀ q, q ∈ l → position (entry R p) ≠ position (entry R q)) →
  ∃ R' t', add_request c (mret tt) p (Drv R t so d h k) = Ret tt (Drv R' t' 0 d h k) ∧
    chain R' t' (elevator (in_order R) p l) ∧ same_entries R R' ∧
    elevator (in_order R) p l ≡ₚ p :: l ∧ (∃ l', elevator (in_order R) p l = take 2 l ++ l') ∧
    ((descents (in_order R) (tail l) ≤ 1)%nat → (descents (in_order R) (tail (elevator (in_order R) p l)) ≤ 1)%nat).
Proof.
  intros Hc Hnd Hp Hr Hn Hnext Hlen Hd Hpos.
  destruct (add_request_run c R t so d h k l p r Hc Hnd Hp Hr Hn Hnext Hlen Hd) as (R' & t' & H1 & H2 & H3).
  exists R', t'. split; [done|]. split; [done|]. split; [done|]. split; [apply elevator_perm|].
  split; [apply elevator_front|]. apply elevator_sweeps. intros b Hb. by apply IN_ORDER_total, Hpos.
Qed.

(** Requests for cylinders 5, 6 and 9 wait; one for cylinder 7 comes. *)
Definition at_cylinder (cyl next : Z) : hd_request := HdRequest 0 2 1 0 cyl WIN_READ 0 1 next.
Definition queue4 : list hd_request := [at_cylinder 5 2; at_cylinder 6 3; at_cylinder 9 0; at_cylinder 7 0].
Lemma add_request_is_elevator_witness : ∃ R' t',
  add_request (ideal drive0) (mret tt) 4 (Drv queue4 1 0 h_read_intr [] kern1) =
    Ret tt (Drv R' t' 0 h_read_intr [] kern1) ∧ chain R' t' [1; 2; 4; 3].
Proof.
  destruct (add_request_is_elevator (ideal drive0) queue4 1 0 h_read_intr [] kern1 [1; 2; 3] 4 (at_cylinder 7 0))
    as (R' & t' & H1 & H2 & _).
  - repeat (split; [done|]; split; [lia|]; eexists; split; [reflexivity|]). reflexivity.
  - refine (bool_decide_unpack (NoDup [4; 1; 2; 3]) _). vm_compute. exact I.
  - lia.
  - reflexivity.
  - reflexivity.
  - reflexivity.
  - unfold NR_REQUEST. simpl. lia.
  - done.
  - intros q Hq. repeat (apply elem_of_cons in Hq as [->|Hq]; [done|]). by apply elem_of_nil in Hq.
  - exists R', t'. exact (conj H1 H2).
Defined.
