(* ===== verification/BitmapFacts.v ===== *)
(** * Bitmaps: what the bit operations and the search do

    Bytes, halfwords and words of a block, then bits; the search for a free bit
    returns the least one, and taking and releasing it are inverse. *)

From S2P Require Import Bitmap.

Definition is_block (d : list Z) : Prop := length d = 1024%nat ∧ Forall (λ x, 0 ≤ x < 256) d.

(** ** Bytes and words *)

Lemma byte_at_range d k : is_block d → 0 ≤ byte_at d k < 256.
Proof.
  intros [_ H]. unfold byte_at. destruct (d !! _) eqn:E; simpl; [|lia].
  eapply Forall_lookup_1 in E; [|done]. done.
Qed.
Lemma is_block_set_byte d k v : is_block d → is_block (set_byte d k v).
Proof.
  intros [Hl Hb]. unfold set_byte. split; [by rewrite length_insert|].
  apply Forall_insert; [done|apply u8_range].
Qed.
Lemma byte_set_eq d k v : is_block d → 0 ≤ k < 1024 → byte_at (set_byte d k v) k = u8 v.
Proof.
  intros [Hl _] Hk. unfold byte_at, set_byte. rewrite list_lookup_insert_eq; [done|lia].
Qed.
Lemma byte_set_ne d k k' v : 0 ≤ k → 0 ≤ k' → k ≠ k' → byte_at (set_byte d k v) k' = byte_at d k'.
Proof.
  intros Hk Hk' Hne. unfold byte_at, set_byte. rewrite list_lookup_insert_ne; [done|lia].
Qed.
Lemma set_byte_id d k : is_block d → 0 ≤ k < 1024 → set_byte d k (byte_at d k) = d.
Proof.
  intros Hd Hk. unfold set_byte. rewrite u8_small by (by apply byte_at_range).
  destruct Hd as [Hl _]. destruct (lookup_lt_is_Some_2 d (Z.to_nat k)) as [x Hx]; [lia|].
  unfold byte_at. rewrite Hx. by apply list_insert_id.
Qed.
Lemma set_byte_twice d k v w : set_byte (set_byte d k v) k w = set_byte d k w.
Proof. unfold set_byte. by rewrite list_insert_insert_eq. Qed.
Lemma set_byte_comm d k k' v w : 0 ≤ k → 0 ≤ k' → k ≠ k' →
  set_byte (set_byte d k v) k' w = set_byte (set_byte d k' w) k v.
Proof. intros. unfold set_byte. rewrite list_insert_insert_ne; [done|lia]. Qed.

Lemma half_at_range d k : is_block d → 0 ≤ half_at d k < 65536.
Proof.
  intros Hd. unfold half_at. pose proof (byte_at_range d (2 * k) Hd).
  pose proof (byte_at_range d (2 * k + 1) Hd). lia.
Qed.
Lemma is_block_set_half d k v : is_block d → is_block (set_half d k v).
Proof. intros. by repeat apply is_block_set_byte. Qed.
Lemma half_set_eq d k v : is_block d → 0 ≤ k < 512 → half_at (set_half d k v) k = u16 v.
Proof.
  intros Hd Hk. unfold half_at, set_half.
  rewrite (byte_set_ne _ (2 * k + 1) (2 * k)) by lia.
  rewrite !byte_set_eq by (try apply is_block_set_byte; done || lia).
  unfold u8, u16. rewrite Z.shiftr_div_pow2 by lia. dlia.
Qed.
Lemma half_set_ne d k k' v : 0 ≤ k → 0 ≤ k' → k ≠ k' → half_at (set_half d k v) k' = half_at d k'.
Proof. intros. unfold half_at, set_half. rewrite !byte_set_ne; lia. Qed.
Lemma set_half_id d k : is_block d → 0 ≤ k < 512 → set_half d k (half_at d k) = d.
Proof.
  intros Hd Hk. unfold set_half.
  pose proof (byte_at_range d (2 * k) Hd). pose proof (byte_at_range d (2 * k + 1) Hd).
  assert (Z.shiftr (half_at d k) 8 = byte_at d (2 * k + 1)) as ->.
  { unfold half_at. rewrite Z.shiftr_div_pow2 by lia. dlia. }
  assert (set_byte d (2 * k) (half_at d k) = d) as ->.
  { unfold set_byte. replace (u8 (half_at d k)) with (u8 (byte_at d (2 * k))).
    - by apply set_byte_id; [|lia].
    - unfold u8, half_at. dlia. }
  apply set_byte_id; [done|lia].
Qed.
Lemma set_half_twice d k v w : 0 ≤ k → set_half (set_half d k v) k w = set_half d k w.
Proof.
  intros. unfold set_half.
  rewrite (set_byte_comm _ (2 * k + 1) (2 * k)) by lia. by rewrite !set_byte_twice.
Qed.
Lemma set_half_comm d k k' v w : 0 ≤ k → 0 ≤ k' → k ≠ k' →
  set_half (set_half d k v) k' w = set_half (set_half d k' w) k v.
Proof.
  intros. unfold set_half.
  rewrite (set_byte_comm _ (2 * k + 1) (2 * k')) by lia.
  rewrite (set_byte_comm _ (2 * k) (2 * k')) by lia.
  rewrite (set_byte_comm _ (2 * k + 1) (2 * k' + 1)) by lia.
  by rewrite (set_byte_comm _ (2 * k) (2 * k' + 1)) by lia.
Qed.

Lemma int_at_range d k : is_block d → 0 ≤ int_at d k < 4294967296.
Proof.
  intros Hd. unfold int_at. pose proof (half_at_range d (2 * k) Hd).
  pose proof (half_at_range d (2 * k + 1) Hd). lia.
Qed.
Lemma is_block_set_int d k v : is_block d → is_block (set_int d k v).
Proof. intros. by repeat apply is_block_set_half. Qed.
Lemma int_set_eq d k v : is_block d → 0 ≤ k < 256 → int_at (set_int d k v) k = u32 v.
Proof.
  intros Hd Hk. unfold int_at, set_int.
  rewrite (half_set_ne _ (2 * k + 1) (2 * k)) by lia.
  rewrite !half_set_eq by (try apply is_block_set_half; done || lia).
  unfold u16, u32. rewrite Z.shiftr_div_pow2 by lia. dlia.
Qed.
Lemma int_set_ne d k k' v : 0 ≤ k → 0 ≤ k' → k ≠ k' → int_at (set_int d k v) k' = int_at d k'.
Proof. intros. unfold int_at, set_int. rewrite !half_set_ne; lia. Qed.
Lemma set_int_id d k : is_block d → 0 ≤ k < 256 → set_int d k (int_at d k) = d.
Proof.
  intros Hd Hk. unfold set_int.
  pose proof (half_at_range d (2 * k) Hd). pose proof (half_at_range d (2 * k + 1) Hd).
  assert (Z.shiftr (int_at d k) 16 = half_at d (2 * k + 1)) as ->.
  { unfold int_at. rewrite Z.shiftr_div_pow2 by lia. dlia. }
  assert (set_half d (2 * k) (int_at d k) = d) as ->.
  { transitivity (set_half d (2 * k) (half_at d (2 * k))); [|apply set_half_id; [done|lia]].
    unfold set_half, set_byte. rewrite !Z.shiftr_div_pow2 by lia. unfold int_at.
    replace (u8 (half_at d (2 * k) + 65536 * half_at d (2 * k + 1)))
      with (u8 (half_at d (2 * k))) by (unfold u8; dlia).
    replace (u8 ((half_at d (2 * k) + 65536 * half_at d (2 * k + 1)) / 2 ^ 8))
      with (u8 (half_at d (2 * k) / 2 ^ 8)) by (unfold u8; dlia).
    done. }
  apply set_half_id; [done|lia].
Qed.
Lemma set_int_twice d k v w : 0 ≤ k → set_int (set_int d k v) k w = set_int d k w.
Proof.
  intros. unfold set_int.
  rewrite (set_half_comm _ (2 * k + 1) (2 * k)) by lia. by rewrite !set_half_twice by lia.
Qed.

(** ** Bits *)

(** Bit [n] of a bitmap block. *)
Definition bit (d : list Z) (n : Z) : bool := Z.testbit (int_at d (Z.shiftr n 5)) (n .& 31).

Lemma shiftr5 n : Z.shiftr n 5 = n / 32.
Proof. by rewrite Z.shiftr_div_pow2. Qed.
Lemma land31 n : n .& 31 = n mod 32.
Proof. change 31 with (Z.ones 5). by rewrite Z.land_ones. Qed.
Lemma mask_testbit nr i : 0 ≤ i → Z.testbit (bit_mask nr) i = bool_decide (i = nr mod 32).
Proof.
  intros Hi. unfold bit_mask. rewrite land31, Z.shiftl_1_l, Z.pow2_bits_eqb by dlia.
  destruct (Z.eqb_spec (nr mod 32) i); case_bool_decide; lia.
Qed.
Lemma land_mask w nr : truth (w .& bit_mask nr) = Z.testbit w (nr mod 32).
Proof.
  unfold bit_mask. rewrite land31, Z.shiftl_1_l.
  assert (0 ≤ nr mod 32) by dlia. revert H. generalize (nr mod 32) as i. intros i Hi.
  destruct (Z.testbit w i) eqn:E.
  - apply truth_true. intros H0. assert (Z.testbit (w .& 2 ^ i) i = false) as F.
    { by rewrite H0, Z.bits_0. }
    rewrite Z.land_spec, E, Z.pow2_bits_true in F; done.
  - apply truth_false. apply Z.bits_inj_0. intros j. rewrite Z.land_spec.
    rewrite Z.pow2_bits_eqb by done. destruct (Z.eqb_spec i j); [subst; by rewrite E|].
    by rewrite andb_false_r.
Qed.

(** The new word of set_bit and clear_bit, as the bits of the block. *)
Lemma bit_set_int d nr w m : is_block d → 0 ≤ nr < 8192 → 0 ≤ m < 8192 → 0 ≤ w < 2 ^ 32 →
  bit (set_int d (Z.shiftr nr 5) w) m =
  if bool_decide (m / 32 = nr / 32) then Z.testbit w (m mod 32) else bit d m.
Proof.
  intros Hd Hn Hm Hw. unfold bit. rewrite !shiftr5, !land31. case_bool_decide as E.
  - rewrite E, int_set_eq by (done || dlia). by rewrite u32_small by lia.
  - rewrite int_set_ne by dlia. done.
Qed.
Lemma lor_mask_range w nr : 0 ≤ w < 2 ^ 32 → 0 ≤ w .| bit_mask nr < 2 ^ 32.
Proof.
  intros Hw. unfold bit_mask. rewrite land31, Z.shiftl_1_l.
  assert (0 < 2 ^ (nr mod 32)) by (apply Z.pow_pos_nonneg; dlia).
  split; [apply Z.lor_nonneg; lia|].
  destruct (Z.eq_dec (w .| 2 ^ (nr mod 32)) 0) as [->|]; [lia|].
  apply Z.log2_lt_pow2; [pose proof (Z.lor_nonneg w (2 ^ (nr mod 32))); lia|].
  rewrite Z.log2_lor by lia. apply Z.max_lub_lt.
  - destruct (Z.eq_dec w 0) as [->|]; [done|]. apply Z.log2_lt_pow2; lia.
  - rewrite Z.log2_pow2 by dlia. dlia.
Qed.
Lemma ldiff_mask_range w nr : 0 ≤ w < 2 ^ 32 → 0 ≤ Z.ldiff w (bit_mask nr) < 2 ^ 32.
Proof.
  intros Hw.
  assert (0 ≤ bit_mask nr).
  { unfold bit_mask. rewrite land31, Z.shiftl_1_l. apply Z.pow_nonneg. lia. }
  split; [apply Z.ldiff_nonneg; lia|].
  assert (Z.ldiff w (bit_mask nr) ≤ w); [|lia].
  apply Z.ldiff_le; [lia|]. apply Z.bits_inj_0. intros i.
  rewrite !Z.ldiff_spec. by destruct (Z.testbit w i), (Z.testbit (bit_mask nr) i).
Qed.

Lemma set_bit_spec nr d : is_block d → 0 ≤ nr < 8192 →
  (set_bit nr d).1 = (if bit d nr then 1 else 0) ∧
  is_block (set_bit nr d).2 ∧
  (∀ m, 0 ≤ m < 8192 → bit (set_bit nr d).2 m = bool_decide (m = nr) || bit d m).
Proof.
  intros Hd Hn. unfold set_bit. simpl.
  pose proof (int_at_range d (Z.shiftr nr 5) Hd) as Hw.
  split_and!.
  - rewrite land_mask. unfold bit. by rewrite land31.
  - by apply is_block_set_int.
  - intros m Hm. rewrite bit_set_int by (done || by apply lor_mask_range).
    unfold bit. rewrite shiftr5, Z.lor_spec, mask_testbit, !shiftr5, land31 by dlia.
    repeat case_bool_decide; subst; simpl; rewrite ?orb_true_r, ?orb_false_r; try done; try dlia.
    by replace (m / 32) with (nr / 32) by lia.
Qed.
Lemma clear_bit_spec nr d : is_block d → 0 ≤ nr < 8192 →
  (clear_bit nr d).1 = (if bit d nr then 0 else 1) ∧
  is_block (clear_bit nr d).2 ∧
  (∀ m, 0 ≤ m < 8192 → bit (clear_bit nr d).2 m = negb (bool_decide (m = nr)) && bit d m).
Proof.
  intros Hd Hn. unfold clear_bit. simpl.
  pose proof (int_at_range d (Z.shiftr nr 5) Hd) as Hw.
  split_and!.
  - rewrite land_mask. unfold bit. by rewrite land31.
  - by apply is_block_set_int.
  - intros m Hm. rewrite bit_set_int by (done || by apply ldiff_mask_range).
    unfold bit. rewrite shiftr5, Z.ldiff_spec, mask_testbit, !shiftr5, land31 by dlia.
    repeat case_bool_decide; subst; simpl; rewrite ?andb_true_r, ?andb_false_r; try done; try dlia.
    by replace (m / 32) with (nr / 32) by lia.
Qed.
(** Releasing a bit that was free before it was taken restores the block. *)
Lemma clear_set_bit nr d : is_block d → 0 ≤ nr < 8192 → bit d nr = false →
  (clear_bit nr (set_bit nr d).2).2 = d.
Proof.
  intros Hd Hn Hb. unfold clear_bit, set_bit. simpl.
  pose proof (int_at_range d (Z.shiftr nr 5) Hd) as Hw.
  rewrite int_set_eq by (done || (rewrite shiftr5; dlia)).
  rewrite u32_small by (by apply lor_mask_range).
  rewrite set_int_twice by (rewrite shiftr5; dlia).
  replace (Z.ldiff (int_at d (Z.shiftr nr 5) .| bit_mask nr) (bit_mask nr))
    with (int_at d (Z.shiftr nr 5)).
  { apply set_int_id; [done|]. rewrite shiftr5. dlia. }
  apply Z.bits_inj'. intros i Hi.
  rewrite Z.ldiff_spec, Z.lor_spec, mask_testbit by done. case_bool_decide; subst; simpl.
  - rewrite orb_true_r. unfold bit in Hb. rewrite land31 in Hb. done.
  - by rewrite orb_false_r, andb_true_r.
Qed.

(** ** The search *)

Lemma first_one_spec n val j : 0 ≤ j →
  match first_one n val j with
  | Some k => j ≤ k < j + Z.of_nat n ∧ Z.testbit val k = true ∧
              ∀ i, j ≤ i < k → Z.testbit val i = false
  | None => ∀ i, j ≤ i < j + Z.of_nat n → Z.testbit val i = false
  end.
Proof.
  revert j. induction n as [|n IH]; intros j Hj; [simpl; intros; lia|].
  change (first_one (S n) val j) with
    (if truth (val .& Z.shiftl 1 j) then Some j else first_one n val (j + 1)).
  assert (truth (val .& Z.shiftl 1 j) = Z.testbit val j) as ->.
  { rewrite Z.shiftl_1_l. destruct (Z.testbit val j) eqn:E.
    - apply truth_true. intros H0. assert (Z.testbit (val .& 2 ^ j) j = false) as F.
      { by rewrite H0, Z.bits_0. }
      rewrite Z.land_spec, E, Z.pow2_bits_true in F; done.
    - apply truth_false. apply Z.bits_inj_0. intros i. rewrite Z.land_spec.
      rewrite Z.pow2_bits_eqb by done. destruct (Z.eqb_spec j i); [subst; by rewrite E|].
      by rewrite andb_false_r. }
  destruct (Z.testbit val j) eqn:E; [split_and!; [lia..|done|intros; lia]|].
  specialize (IH (j + 1) ltac:(lia)). destruct (first_one n val (j + 1)) as [k|].
  - destruct IH as (Hk & Hb & Hbelow). split_and!; [lia..|done|].
    intros i Hi. destruct (Z.eq_dec i j); [by subst|]. apply Hbelow. lia.
  - intros i Hi. destruct (Z.eq_dec i j); [by subst|]. apply IH. lia.
Qed.

(** The complement of a word, bit by bit. *)
Lemma lxor_ones_bit w j : 0 ≤ j < 32 → Z.testbit (Z.lxor w 0xFFFFFFFF) j = negb (Z.testbit w j).
Proof.
  intros Hj. rewrite Z.lxor_spec. change 0xFFFFFFFF with (Z.ones 32).
  rewrite Z.ones_spec_low by lia. by destruct (Z.testbit w j).
Qed.
Lemma bit_word d i j : 0 ≤ i → 0 ≤ j < 32 → bit d (i * 32 + j) = Z.testbit (int_at d i) j.
Proof.
  intros Hi Hj. unfold bit. rewrite shiftr5, land31.
  replace ((i * 32 + j) / 32) with i by dlia. by replace ((i * 32 + j) mod 32) with j by dlia.
Qed.
Lemma full_word d i j : int_at d i = 0xFFFFFFFF → 0 ≤ i → 0 ≤ j < 32 → bit d (i * 32 + j) = true.
Proof.
  intros Hw Hi Hj. rewrite bit_word, Hw by done. change 0xFFFFFFFF with (Z.ones 32).
  by apply Z.ones_spec_low.
Qed.
Lemma not_full_word w : 0 ≤ w < 2 ^ 32 → (∀ j, 0 ≤ j < 32 → Z.testbit w j = true) → w = 0xFFFFFFFF.
Proof.
  intros Hw Hb. change 0xFFFFFFFF with (Z.ones 32). apply Z.bits_inj'. intros i Hi.
  destruct (Z_lt_dec i 32).
  - rewrite Z.ones_spec_low by lia. apply Hb. lia.
  - rewrite Z.ones_spec_high by lia. destruct (Z.eq_dec w 0) as [->|]; [apply Z.bits_0|].
    apply Z.bits_above_log2; [lia|]. assert (Z.log2 w < 32) by (apply Z.log2_lt_pow2; lia). lia.
Qed.

Lemma first_zero_step n d i :
  first_zero_from (S n) d i =
  if negb (int_at d i =? 0xFFFFFFFF) then
    match first_one 32 (Z.lxor (int_at d i) 0xFFFFFFFF) 0 with
    | Some j => i * 32 + j
    | None => first_zero_from n d (i + 1)
    end
  else first_zero_from n d (i + 1).
Proof. reflexivity. Qed.
Lemma first_zero_from_spec n d i : is_block d → 0 ≤ i → i + Z.of_nat n = 256 →
  let j := first_zero_from n d i in
  (j = 8192 ∧ (∀ m, i * 32 ≤ m < 8192 → bit d m = true)) ∨
  (i * 32 ≤ j < 8192 ∧ bit d j = false ∧ ∀ m, i * 32 ≤ m < j → bit d m = true).
Proof.
  intros Hd. revert i. induction n as [|n IH]; intros i Hi Hn.
  { left. split; [done|]. intros m Hm. lia. }
  rewrite first_zero_step. cbv zeta.
  assert (∀ m, i * 32 ≤ m < (i + 1) * 32 → m = i * 32 + (m - i * 32)) as Hsplit by (intros; lia).
  specialize (IH (i + 1) ltac:(lia) ltac:(lia)). cbv zeta in IH.
  assert (int_at d i = 0xFFFFFFFF →
    let j := first_zero_from n d (i + 1) in
    (j = 8192 ∧ (∀ m, i * 32 ≤ m < 8192 → bit d m = true)) ∨
    (i * 32 ≤ j < 8192 ∧ bit d j = false ∧ ∀ m, i * 32 ≤ m < j → bit d m = true)) as Hfull.
  { intros Hw. assert (∀ m, i * 32 ≤ m < (i + 1) * 32 → bit d m = true) as Hhere.
    { intros m Hm. rewrite (Hsplit m Hm). apply full_word; [done..|lia]. }
    cbv zeta. destruct IH as [[-> H]|(Hj & Hb & H)]; [left|right]; split_and?; try done; try lia;
      intros m Hm; (destruct (Z_lt_dec m ((i + 1) * 32)); [apply Hhere; lia|apply H; lia]). }
  destruct (Z.eqb_spec (int_at d i) 0xFFFFFFFF) as [Hw|Hw]; [by apply Hfull|]. simpl negb.
  pose proof (first_one_spec 32 (Z.lxor (int_at d i) 0xFFFFFFFF) 0 ltac:(lia)) as Hf.
  destruct (first_one 32 _ 0) as [k|].
  - right. destruct Hf as (Hk & Hb & Hbelow). rewrite lxor_ones_bit in Hb by lia.
    split_and!; [lia..| |].
    + rewrite bit_word by lia. by destruct (Z.testbit _ k).
    + intros m Hm. rewrite (Hsplit m) by lia. rewrite bit_word by lia.
      specialize (Hbelow (m - i * 32) ltac:(lia)). rewrite lxor_ones_bit in Hbelow by lia.
      by destruct (Z.testbit _ (m - i * 32)).
  - apply Hfull. apply not_full_word; [by apply int_at_range|].
    intros j Hj. specialize (Hf j ltac:(lia)). rewrite lxor_ones_bit in Hf by lia.
    by destruct (Z.testbit _ j).
Qed.

Lemma find_first_zero_cases d : is_block d →
  let j := find_first_zero d in
  (j = 8192 ∧ (∀ m, 0 ≤ m < 8192 → bit d m = true)) ∨
  (0 ≤ j < 8192 ∧ bit d j = false ∧ ∀ m, 0 ≤ m < j → bit d m = true).
Proof. intros Hd. apply (first_zero_from_spec 256 d 0); [done|lia|done]. Qed.

(** The search of the bitmaps is exact and allocation is reversible: for any
    block of bytes find_first_zero returns 8192 when every bit is set, and
    otherwise the least clear bit; set_bit on it reports that it was clear and
    changes no other bit; clear_bit then reports that it was set and restores
    the block byte for byte. *)
Theorem bitmap_take_and_release d : is_block d →
  let j := find_first_zero d in
  (j = 8192 ∧ ∀ m, 0 ≤ m < 8192 → bit d m = true) ∨
  (0 ≤ j < 8192 ∧ bit d j = false ∧ (∀ m, 0 ≤ m < j → bit d m = true) ∧
   (set_bit j d).1 = 0 ∧
   (∀ m, 0 ≤ m < 8192 → bit (set_bit j d).2 m = bool_decide (m = j) || bit d m) ∧
   clear_bit j (set_bit j d).2 = (0, d)).
Proof.
  intros Hd. cbv zeta. destruct (find_first_zero_cases d Hd) as [[H1 H2]|(Hj & Hb & Hbelow)].
  { left. by split. }
  right. destruct (set_bit_spec (find_first_zero d) d Hd Hj) as (Hr & Hd' & Hset).
  rewrite Hb in Hr. split_and!; try done; try lia.
  destruct (clear_bit_spec (find_first_zero d) _ Hd' Hj) as (Hc & _ & _).
  rewrite Hset, bool_decide_eq_true_2 in Hc by done. simpl in Hc.
  apply injective_projections; [exact Hc|]. by apply clear_set_bit.
Qed.

(** Bit 0 of word 1 is the first that is clear. *)
Definition sample_map : list Z := replicate 4 255 ++ [0xFE] ++ replicate 1019 0.
Lemma bitmap_take_and_release_witness :
  is_block sample_map ∧ find_first_zero sample_map = 32 ∧
  clear_bit 32 (set_bit 32 sample_map).2 = (0, sample_map).
Proof.
  assert (is_block sample_map) as H.
  { split; [reflexivity|]. apply Forall_app. split; [by repeat constructor|].
    apply Forall_app. split; [by repeat constructor|]. by apply Forall_replicate. }
  assert (find_first_zero sample_map = 32) as Hf by (vm_compute; reflexivity).
  pose proof (bitmap_take_and_release sample_map H) as P. cbv zeta in P. rewrite Hf in P.
  split; [exact H|]. split; [exact Hf|].
  destruct P as [[P _]|(_ & _ & _ & _ & _ & P)]; [discriminate P|exact P].
Defined.
