(* ===== verification/PipeFacts.v ===== *)
(** * Pipes are bounded queues of bytes

    A pipe is the page of an inode used as a ring; what it holds is the list of
    bytes from the tail to the head.  write_pipe appends to that list and
    read_pipe takes from its front, across the end of the page. *)

From S2P Require Import FileIo FsFacts FsBoot.

(** ** Bytes of the words of a page *)

Lemma word_byte_range w k : 0 ≤ word_byte w k < 256.
Proof.
  unfold word_byte. change 0xff with (Z.ones 8). rewrite Z.land_ones by lia. apply Z.mod_pos_bound. lia.
Qed.
Lemma word_byte_testbit w k i : 0 ≤ k → 0 ≤ i →
  Z.testbit (word_byte w k) i = Z.testbit w (8 * k + i) && bool_decide (i < 8).
Proof.
  intros Hk Hi. unfold word_byte. change 0xff with (Z.ones 8).
  rewrite Z.land_spec, Z.shiftr_spec by lia. rewrite (Z.add_comm i).
  case_bool_decide; [rewrite Z.ones_spec_low|rewrite Z.ones_spec_high]; done || lia.
Qed.
Lemma u8_testbit v i : 0 ≤ i → Z.testbit (u8 v) i = Z.testbit v i && bool_decide (i < 8).
Proof.
  intros Hi. unfold u8. case_bool_decide.
  - rewrite Z.mod_pow2_bits_low by lia. by rewrite andb_true_r.
  - rewrite Z.mod_pow2_bits_high by lia. by rewrite andb_false_r.
Qed.
Lemma word_byte_set w k k' v : 0 ≤ k < 8 → 0 ≤ k' < 8 →
  word_byte (set_word_byte w k v) k' = if bool_decide (k = k') then u8 v else word_byte w k'.
Proof.
  intros Hk Hk'. apply Z.bits_inj'. intros i Hi.
  rewrite word_byte_testbit by lia. unfold set_word_byte.
  rewrite Z.lor_spec, Z.ldiff_spec, !Z.shiftl_spec by lia.
  change 0xff with (Z.ones 8).
  destruct (decide (i < 8)) as [Hi8|Hi8]; rewrite ?(bool_decide_eq_true_2 _ Hi8),
    ?(bool_decide_eq_false_2 _ Hi8), ?andb_true_r, ?andb_false_r.
  2:{ case_bool_decide; rewrite ?u8_testbit, ?word_byte_testbit by lia;
      by rewrite (bool_decide_eq_false_2 _ Hi8), andb_false_r. }
  case_bool_decide as E; [subst k'|].
  - replace (8 * k + i - 8 * k) with i by lia.
    rewrite Z.ones_spec_low by lia. by rewrite andb_false_r.
  - rewrite word_byte_testbit, (bool_decide_eq_true_2 _ Hi8), andb_true_r by lia.
    destruct (Z_lt_dec (8 * k' + i - 8 * k) 0).
    + rewrite (Z.testbit_neg_r (Z.ones 8)), (Z.testbit_neg_r (u8 v)) by lia. by rewrite andb_true_r, orb_false_r.
    + rewrite Z.ones_spec_high by lia. rewrite u8_testbit, bool_decide_eq_false_2 by lia.
      by rewrite !andb_false_r, andb_true_r, orb_false_r.
Qed.

(** The byte of the physical memory at address [x]. *)
Definition mem_byte (s : fs) (x : Z) : Z := word_byte (word (mem s) (x - x mod 8)) (x mod 8).

Lemma wp_page_byte x (Q : Z → fs → Prop) s : Q (mem_byte s x) s → wp (page_byte x) Q s.
Proof.
  intros HQ. unfold page_byte. apply wp_bind, wp_in_mm. unfold rd. apply wp_gets, wp_ret.
  by destruct s.
Qed.
Lemma wp_set_page_byte x v (Q : () → fs → Prop) s :
  (∀ t, mem_map t = mem_map (mem s) →
        (∀ y, mem_byte (s <| mem := t |>) y = if bool_decide (x = y) then u8 v else mem_byte s y) →
        Q tt (s <| mem := t |>)) →
  wp (set_page_byte x v) Q s.
Proof.
  intros HQ. unfold set_page_byte. apply wp_bind, wp_in_mm. unfold rd. apply wp_gets.
  apply wp_in_mm. unfold wr. apply wp_modify. eapply eq_ind; [apply HQ|]; [| |by destruct s]; [done|].
  intros y. unfold mem_byte, word. simpl.
  destruct (decide (x - x mod 8 = y - y mod 8)) as [E|E].
  - rewrite <-E, lookup_insert_eq. simpl. rewrite word_byte_set by dlia.
    repeat case_bool_decide; try done; exfalso; dlia.
  - rewrite lookup_insert_ne by done. case_bool_decide; [by subst|done].
Qed.

(** ** The ring *)

(** An inode whose zones are the head [h] and the tail [t] of a pipe. *)
Definition ring (i : m_inode) (h t : Z) : Prop :=
  0 ≤ h < 4096 ∧ 0 ≤ t < 4096 ∧ ∃ x, i_zone i = [h; 0; 0; 0; t; 0; 0; 0; x].

(** What the pipe holds, oldest first. *)
Definition pipe_bytes (s : fs) (i : m_inode) (h t : Z) : list Z :=
  map (λ k, mem_byte s (i_size i + (t + k) mod 4096)) (seqZ 0 ((h - t) mod 4096)).

Lemma land_4095 x : x .& 4095 = x mod 4096.
Proof. change 4095 with (Z.ones 12). by rewrite Z.land_ones. Qed.
Lemma ring_head i h t : ring i h t → PIPE_HEAD i = h.
Proof. intros (_ & _ & x & Hz). unfold PIPE_HEAD, zone. rewrite Hz. simpl. lia. Qed.
Lemma ring_tail i h t : ring i h t → PIPE_TAIL i = t.
Proof. intros (_ & _ & x & Hz). unfold PIPE_TAIL, zone. rewrite Hz. simpl. lia. Qed.
Lemma ring_size i h t : ring i h t → PIPE_SIZE i = (h - t) mod 4096.
Proof.
  intros H. unfold PIPE_SIZE. rewrite (ring_head _ _ _ H), (ring_tail _ _ _ H).
  apply land_4095.
Qed.
Lemma INC_PIPE_at o l h : 0 ≤ h < 4096 → l !! o = Some h → l !! S o = Some 0 →
  INC_PIPE o l = <[o := (h + 1) mod 4096]> l.
Proof.
  intros Hh Ho HSo. unfold INC_PIPE. rewrite Ho, HSo. cbn [default from_option id].
  replace (u32 (h + 2 ^ 16 * 0 + 1) .& 4095) with ((h + 1) mod 4096).
  2:{ rewrite u32_small by lia. rewrite land_4095. f_equal. lia. }
  assert (0 ≤ (h + 1) mod 4096 < 4096) as Hm by dlia. revert Hm.
  generalize ((h + 1) mod 4096) as m. intros m Hm.
  rewrite Z.shiftr_div_pow2, (Z.div_small m) by lia. rewrite !u16_small by lia.
  by rewrite (list_insert_id l (S o)).
Qed.
Lemma ring_inc_head i h t : ring i h t →
  ring (i <| i_zone ::= INC_PIPE 0 |>) ((h + 1) mod 4096) t.
Proof.
  intros (Hh & Ht & x & Hz). split; [dlia|]. split; [done|]. exists x. simpl.
  rewrite Hz, (INC_PIPE_at 0 _ h) by done. done.
Qed.
Lemma ring_inc_tail i h t : ring i h t →
  ring (i <| i_zone ::= INC_PIPE 4 |>) h ((t + 1) mod 4096).
Proof.
  intros (Hh & Ht & x & Hz). split; [done|]. split; [dlia|]. exists x. simpl.
  rewrite Hz, (INC_PIPE_at 4 _ t) by done. done.
Qed.

(** A state with the pipe [p], its inode [i] and valid wait queues. *)
Definition pipe_at (s : fs) (p : Z) (i : m_inode) (h t : Z) : Prop :=
  1 ≤ p ∧ inode_table s !! Z.to_nat (p - 1) = Some i ∧ ring i h t ∧ waiters_ok (sch s).

Lemma pipe_at_wake s p i h t q : pipe_at s p i h t → pipe_at (with_sch s (woken (sch s) q)) p i h t.
Proof. intros (Hp & Hi & Hr & Hok). split_and!; try done. by apply woken_ok. Qed.
Lemma pipe_at_mem s p i h t m : pipe_at s p i h t → pipe_at (s <| mem := m |>) p i h t.
Proof. done. Qed.
Lemma pipe_at_user s p i h t u : pipe_at s p i h t → pipe_at (with_user s u) p i h t.
Proof. done. Qed.
Lemma pipe_at_set s p i h t f h' t' : pipe_at s p i h t → ring (f i) h' t' →
  pipe_at (s <| inode_table ::= <[Z.to_nat (p - 1) := f i]> |>) p (f i) h' t'.
Proof.
  intros (Hp & Hi & _ & Hok) Hr. split_and!; try done. simpl.
  rewrite list_lookup_insert_eq; [done|by eapply lookup_lt_Some].
Qed.

Lemma mem_byte_ext s s' x : mem s' = mem s → mem_byte s' x = mem_byte s x.
Proof. intros H. unfold mem_byte. by rewrite H. Qed.
Lemma pipe_bytes_ext s s' i i' h t : mem s' = mem s → i_size i' = i_size i →
  pipe_bytes s' i' h t = pipe_bytes s i h t.
Proof.
  intros Hm Hs. unfold pipe_bytes. apply map_ext. intros k. rewrite Hs. by apply mem_byte_ext.
Qed.

(** One byte put at the head. *)
Lemma pipe_bytes_put s m i i' h t v : ring i h t → (h - t) mod 4096 < 4095 → i_size i' = i_size i →
  (∀ y, mem_byte (s <| mem := m |>) y =
        if bool_decide (i_size i + h = y) then u8 v else mem_byte s y) →
  pipe_bytes (s <| mem := m |>) i' ((h + 1) mod 4096) t = pipe_bytes s i h t ++ [u8 v].
Proof.
  intros (Hh & Ht & _) Hroom Hsz Hm. unfold pipe_bytes. rewrite Hsz.
  replace (((h + 1) mod 4096 - t) mod 4096) with (Z.of_nat (S (Z.to_nat ((h - t) mod 4096)))) by dlia.
  rewrite seqZ_S, map_app. replace (Z.of_nat (Z.to_nat ((h - t) mod 4096))) with ((h - t) mod 4096) by dlia.
  f_equal.
  - apply list_fmap_ext. intros k x Hx. rewrite lookup_seqZ in Hx. destruct Hx as [-> Hk].
    rewrite Hm, bool_decide_eq_false_2; [done|dlia].
  - simpl. rewrite Hm, bool_decide_eq_true_2; [done|dlia].
Qed.
(** One byte taken from the tail. *)
Lemma pipe_bytes_take s i i' h t : ring i h t → h ≠ t → i_size i' = i_size i →
  pipe_bytes s i h t = mem_byte s (i_size i + t) :: pipe_bytes s i' h ((t + 1) mod 4096).
Proof.
  intros (Hh & Ht & _) Hne Hsz. unfold pipe_bytes. rewrite Hsz.
  replace ((h - (t + 1) mod 4096) mod 4096) with (Z.pred ((h - t) mod 4096)) by dlia.
  rewrite (seqZ_cons 0) by dlia. simpl. f_equal; [f_equal; dlia|].
  apply list_eq. intros k. rewrite !list_lookup_fmap.
  destruct (decide (Z.of_nat k < Z.pred ((h - t) mod 4096))).
  - rewrite !lookup_seqZ_lt by lia. simpl. do 2 f_equal. dlia.
  - by rewrite !lookup_seqZ_ge by lia.
Qed.
Lemma pipe_bytes_length s i h t : ring i h t →
  length (pipe_bytes s i h t) = Z.to_nat ((h - t) mod 4096).
Proof. intros _. unfold pipe_bytes. by rewrite length_fmap, length_seqZ. Qed.

(** ** The loops *)

(** The [n] bytes of the user's memory from address [a]. *)
Definition user_bytes (s : fs) (a : Z) (n : nat) : list Z :=
  map (λ k, u8 (default 0 (user s !! (a + k)))) (seqZ 0 (Z.of_nat n)).
Lemma user_bytes_S s a n :
  user_bytes s a (S n) = u8 (default 0 (user s !! a)) :: user_bytes s (a + 1) n.
Proof.
  unfold user_bytes. rewrite (seqZ_cons 0) by lia. simpl.
  f_equal; [by rewrite Z.add_0_r|]. apply list_eq. intros k. rewrite !list_lookup_fmap.
  destruct (decide (k < n)%nat).
  - rewrite !lookup_seqZ_lt by lia. simpl. do 4 f_equal. lia.
  - by rewrite !lookup_seqZ_ge by lia.
Qed.
Lemma user_bytes_ext s s' a n : user s' = user s → user_bytes s' a n = user_bytes s a n.
Proof. intros H. unfold user_bytes. by rewrite H. Qed.

Lemma wp_pipe_put n s p buf b i h t : pipe_at s p i h t →
  (h - t) mod 4096 + Z.of_nat n ≤ 4095 →
  wp (pipe_put n p buf b (Z.of_nat n))
     (λ r s', r = b + Z.of_nat n ∧ user s' = user s ∧
              ∃ i' h', pipe_at s' p i' h' t ∧ i_size i' = i_size i ∧ i_count i' = i_count i ∧
                pipe_bytes s' i' h' t = pipe_bytes s i h t ++ user_bytes s (buf + b) n) s.
Proof.
  revert s b i h. induction n as [|n IH]; intros s b i h Hpipe Hroom.
  { simpl. apply wp_bind. pose proof Hpipe as (Hp & Hi & Hr & Hok).
    apply wp_wake; [apply i_wait_nonzero; lia|done|]. apply wp_ret. split; [lia|].
    split; [done|]. exists i, h. split; [by apply pipe_at_wake|].
    split; [done|]. split; [done|]. unfold user_bytes. simpl. by rewrite app_nil_r. }
  pose proof Hpipe as (Hp & Hi & Hr & Hok). simpl pipe_put.
  destruct (Z.leb_spec (Z.of_nat (S n)) 0); [lia|].
  apply wp_bind, (wp_inode p i); [done..|]. unfold PIPE_FULL. rewrite (ring_size _ _ _ Hr).
  destruct (Z.eqb_spec ((h - t) mod 4096) (PAGE_SIZE - 1)) as [E|E]; [unfold PAGE_SIZE in E; lia|].
  apply wp_bind, wp_get_fs_byte. set (v := default 0 (user s !! (buf + b))).
  apply wp_bind, wp_set_page_byte. intros m _ Hm. rewrite (ring_head _ _ _ Hr) in Hm.
  apply wp_bind. eapply wp_set_inode; [done|exact Hi|].
  apply wp_bind, wp_wake; [apply i_wait_nonzero; lia|done|].
  set (i1 := i <| i_zone ::= INC_PIPE 0 |>).
  set (s1 := with_sch _ _).
  assert (pipe_at s1 p i1 ((h + 1) mod 4096) t) as H1.
  { apply pipe_at_wake. eapply (pipe_at_set _ _ _ _ _ (λ i, i <| i_zone ::= INC_PIPE 0 |>)); [by apply pipe_at_mem|].
    by apply ring_inc_head. }
  replace (Z.of_nat (S n) - 1) with (Z.of_nat n) by lia.
  destruct Hr as (Hh & Ht & Hx).
  eapply wp_mono; [apply (IH s1 (b + 1) _ _ H1); dlia|].
  intros r s' (-> & Hu & i' & h' & Hp' & Hsz & Hc & Hb). split; [lia|].
  split; [exact Hu|]. exists i', h'. split; [exact Hp'|]. split; [exact Hsz|]. split; [exact Hc|].
  rewrite Hb. rewrite user_bytes_S, Z.add_assoc.
  rewrite (pipe_bytes_ext (s <| mem := m |>) s1 i i1) by done.
  rewrite (pipe_bytes_put s m i i h t v) by (done || dlia).
  rewrite <-app_assoc. simpl. do 2 f_equal.
Qed.

Lemma wp_pipe_get n s p buf b i h t : pipe_at s p i h t →
  let c := (n `min` length (pipe_bytes s i h t))%nat in
  wp (pipe_get n p buf b (Z.of_nat n))
     (λ r s', r = b + Z.of_nat c ∧ mem s' = mem s ∧
              (∀ k, 0 ≤ k < Z.of_nat c →
                 user s' !! (buf + b + k) = pipe_bytes s i h t !! Z.to_nat k) ∧
              (∀ a, a < buf + b ∨ buf + b + Z.of_nat c ≤ a → user s' !! a = user s !! a) ∧
              ∃ i' t', pipe_at s' p i' h t' ∧ i_size i' = i_size i ∧ i_count i' = i_count i ∧
                pipe_bytes s' i' h t' = drop c (pipe_bytes s i h t)) s.
Proof.
  revert s b i t. induction n as [|n IH]; intros s b i t Hpipe; cbv zeta;
    pose proof Hpipe as (Hp & Hi & Hr & Hok).
  { simpl. apply wp_bind, (wp_inode p i); [done..|]. simpl. apply wp_ret.
    split_and!; [lia|done|intros; lia|done|]. exists i, t. split_and!; try done. }
  simpl pipe_get. apply wp_bind, (wp_inode p i); [done..|]. unfold PIPE_EMPTY.
  rewrite (ring_head _ _ _ Hr), (ring_tail _ _ _ Hr).
  destruct (Z.leb_spec (Z.of_nat (S n)) 0); [lia|]. simpl orb.
  destruct (Z.eqb_spec h t) as [->|Hne].
  { apply wp_ret. rewrite (pipe_bytes_length _ _ _ _ Hr), Z.sub_diag. simpl.
    split_and!; [lia|done|intros; lia|done|]. exists i, t. done. }
  apply wp_bind, wp_page_byte. apply wp_bind, wp_put_fs_byte.
  apply wp_bind. eapply wp_set_inode; [done|exact Hi|].
  set (i1 := i <| i_zone ::= INC_PIPE 4 |>).
  set (v := u8 (mem_byte s (i_size i + t))).
  match goal with |- wp _ _ ?st => set (s1 := st) end.
  assert (pipe_at s1 p i1 h ((t + 1) mod 4096)) as H1.
  { eapply (pipe_at_set _ _ _ _ _ (λ i, i <| i_zone ::= INC_PIPE 4 |>)); [by apply pipe_at_user|].
    by apply ring_inc_tail. }
  replace (Z.of_nat (S n) - 1) with (Z.of_nat n) by lia.
  assert (pipe_bytes s i h t = v :: pipe_bytes s1 i1 h ((t + 1) mod 4096)) as Hcons.
  { rewrite (pipe_bytes_take s i i1) by done. unfold v, mem_byte at 2. rewrite u8_small by apply word_byte_range.
    done. }
  rewrite Hcons. simpl length. rewrite <-Nat.succ_min_distr.
  set (c := (n `min` _)%nat).
  eapply wp_mono; [apply (IH s1 (b + 1) _ _ H1)|]. cbv zeta. fold c.
  intros r s' (-> & Hmem & Hin & Hout & i' & t' & Hp' & Hsz & Hc & Hb).
  split; [lia|]. split; [exact Hmem|]. split_and!.
  - intros k Hk. destruct (decide (k = 0)) as [->|].
    + rewrite Z.add_0_r, Hout by lia. unfold s1, user. simpl. by rewrite lookup_insert_eq.
    + replace (buf + b + k) with (buf + (b + 1) + (k - 1)) by lia. rewrite Hin by lia.
      replace (Z.to_nat k) with (S (Z.to_nat (k - 1))) by lia. done.
  - intros a Ha. rewrite Hout by lia. unfold s1, user. simpl. apply lookup_insert_ne. lia.
  - exists i', t'. split; [exact Hp'|]. split; [exact Hsz|]. split; [exact Hc|]. rewrite Hb. done.
Qed.

(** ** The calls *)

(** C27: write_pipe appends to the pipe: with both ends open, room for the bytes
    and none of it asleep, a write of [n] bytes returns [n] and the pipe then
    holds what it held followed by the [n] bytes of the caller's buffer, wherever
    the ring wraps in its page.  Without a reader it returns -1 and the caller
    gets SIGPIPE; a full pipe with a reader puts the caller to sleep. *)
Theorem write_pipe_appends s p i h t buf n : pipe_at s p i h t →
  (i_count i = 2 → (h - t) mod 4096 + Z.of_nat n ≤ 4095 →
   wp (write_pipe p buf (Z.of_nat n))
      (λ r s', r = Z.of_nat n ∧ user s' = user s ∧
               ∃ i' h', pipe_at s' p i' h' t ∧ i_count i' = 2 ∧
                 pipe_bytes s' i' h' t = pipe_bytes s i h t ++ user_bytes s buf n) s) ∧
  (i_count i ≠ 2 → ∀ c, heap (sch s) !! current (sch s) = Some c →
   wp (write_pipe p buf (Z.of_nat n))
      (λ r s', r = -1 ∧ inode_table s' = inode_table s ∧ mem s' = mem s ∧
               ∃ c', heap (sch s') !! current (sch s') = Some c' ∧
                 Z.testbit (Task.signal c') (SIGPIPE - 1) = true) s).
Proof.
  intros Hpipe. pose proof Hpipe as (Hp & Hi & Hr & Hok). split.
  - intros Hc Hroom. unfold write_pipe. apply wp_bind, wp_wake; [apply i_wait_nonzero; lia|done|].
    apply wp_bind. eapply wp_inode; [done|exact Hi|]. rewrite Hc. simpl. rewrite Nat2Z.id.
    eapply wp_mono; [apply (wp_pipe_put n _ p buf 0 i h t); [by apply pipe_at_wake|done]|].
    intros r s' (-> & Hu & i' & h' & Hp' & _ & Hc' & Hb). split; [lia|]. split; [exact Hu|].
    exists i', h'. split; [exact Hp'|]. split; [congruence|]. rewrite Hb, Z.add_0_r. done.
  - intros Hc c Hcur. unfold write_pipe. apply wp_bind, wp_wake; [apply i_wait_nonzero; lia|done|].
    apply wp_bind. eapply wp_inode; [done|exact Hi|].
    destruct (Z.eqb_spec (i_count i) 2); [done|]. simpl. apply wp_bind. unfold sigpipe.
    set (s1 := with_sch s _).
    assert (∃ c1, heap (sch s1) !! current (sch s1) = Some c1) as [c1 Hc1].
    { unfold s1. rewrite with_sch_sch, woken_current. by eapply woken_heap. }
    apply (wp_set_current c1); [done|]. apply wp_ret. split_and!; try done.
    eexists. rewrite with_sch_sch. simpl. rewrite lookup_insert_eq. split; [done|].
    change (Z.testbit (Task.signal c1 .| 4096) 12 = true).
    rewrite Z.lor_spec. by rewrite orb_true_r.
Qed.

(** C28: read_pipe takes from the front: from a pipe that holds something, a read
    of up to [n] bytes returns as many as there are, stores exactly those bytes,
    oldest first, in the caller's buffer and nothing outside of it, and leaves the
    rest in the pipe.  From an empty pipe whose writers are gone it returns 0;
    from an empty pipe with a writer it goes to sleep. *)
Theorem read_pipe_takes_front s p i h t buf n : pipe_at s p i h t →
  (h ≠ t →
   wp (read_pipe p buf (Z.of_nat n))
      (λ r s', r = Z.of_nat (n `min` length (pipe_bytes s i h t)) ∧
               (∀ k, 0 ≤ k < r → user s' !! (buf + k) = pipe_bytes s i h t !! Z.to_nat k) ∧
               (∀ a, a < buf ∨ buf + r ≤ a → user s' !! a = user s !! a) ∧
               ∃ i' t', pipe_at s' p i' h t' ∧
                 pipe_bytes s' i' h t' = drop (Z.to_nat r) (pipe_bytes s i h t)) s) ∧
  (h = t → i_count i ≠ 2 →
   wp (read_pipe p buf (Z.of_nat n)) (λ r s', r = 0 ∧ user s' = user s) s) ∧
  (h = t → i_count i = 2 → is_Some (heap (sch s) !! current (sch s)) →
   current (sch s) ≠ init_task → ∃ s', read_pipe p buf (Z.of_nat n) s = Sleep s').
Proof.
  intros Hpipe. pose proof Hpipe as (Hp & Hi & Hr & Hok). split_and!.
  - intros Hne. unfold read_pipe. apply wp_bind, (wp_inode p i); [done..|].
    unfold PIPE_EMPTY. rewrite (ring_head _ _ _ Hr), (ring_tail _ _ _ Hr).
    destruct (Z.eqb_spec h t); [done|]. rewrite Nat2Z.id. apply wp_bind.
    eapply wp_mono; [apply (wp_pipe_get n s p buf 0 i h t Hpipe)|]. cbv zeta.
    intros r s' (-> & Hm & Hin & Hout & i' & t' & Hp' & _ & _ & Hb).
    pose proof Hp' as (_ & _ & _ & Hok').
    apply wp_bind, wp_wake; [apply i_wait_nonzero; lia|done|]. apply wp_ret. split; [lia|].
    rewrite Z.add_0_r in Hin, Hout. split; [intros k Hk; apply Hin; lia|].
    split; [intros a Ha; apply Hout; lia|]. exists i', t'. split; [by apply pipe_at_wake|].
    replace (Z.to_nat _) with (n `min` length (pipe_bytes s i h t))%nat by lia. exact Hb.
  - intros -> Hc. unfold read_pipe. apply wp_bind, (wp_inode p i); [done..|].
    unfold PIPE_EMPTY. rewrite (ring_head _ _ _ Hr), (ring_tail _ _ _ Hr), Z.eqb_refl.
    apply wp_bind, wp_wake; [apply i_wait_nonzero; lia|done|].
    apply wp_bind. eapply wp_inode; [done|exact Hi|]. destruct (Z.eqb_spec (i_count i) 2); [done|].
    by apply wp_ret.
  - intros -> Hc [c Hcur] Hinit. unfold read_pipe.
    mstep (inode_Ret p i s Hp Hi). unfold PIPE_EMPTY.
    rewrite (ring_head _ _ _ Hr), (ring_tail _ _ _ Hr), Z.eqb_refl.
    mstep (wake_Ret (i_wait p) s (i_wait_nonzero p ltac:(lia)) Hok).
    mstep (inode_Ret p i (with_sch s (woken (sch s) (i_wait p))) Hp Hi). rewrite Hc. simpl.
    destruct (woken_heap (sch s) (i_wait p) _ _ Hcur) as [c' Hc'].
    eapply sleep_on_Sleep; [apply i_wait_nonzero; lia|by rewrite with_sch_sch, woken_current|].
    rewrite with_sch_sch, woken_current. exact Hc'.
Qed.

(** A pipe that holds one byte, just before the end of its page. *)
Definition pipe_inode : m_inode :=
  MInode 0 0 0x300000 0 0 0 [4095; 0; 0; 0; 4094; 0; 0; 0; 0] 0 0 0 0 2 0 0 1 0 0 0.
Definition fs_pipe : fs := (with_user fs_empty {[ 100 := 65; 101 := 66 ]})
  <| inode_table := pipe_inode :: replicate 31 inode0 |>.
Lemma fs_pipe_at : pipe_at fs_pipe 1 pipe_inode 4095 4094.
Proof.
  split; [lia|]. split; [reflexivity|]. split; [|exact boot_waiters].
  split; [lia|]. split; [lia|]. by exists 0.
Qed.
Lemma write_pipe_appends_witness :
  pipe_at fs_pipe 1 pipe_inode 4095 4094 ∧ ∃ s', write_pipe 1 100 2 fs_pipe = Ret 2 s'.
Proof.
  split; [exact fs_pipe_at|].
  destruct (write_pipe_appends fs_pipe 1 pipe_inode 4095 4094 100 2 fs_pipe_at) as [H _].
  apply wp_returns in H as (r & s' & H & -> & _); [|reflexivity|vm_compute; discriminate].
  exists s'. exact H.
Defined.
Lemma read_pipe_takes_front_witness :
  pipe_at fs_pipe 1 pipe_inode 4095 4094 ∧ ∃ r s', read_pipe 1 200 8 fs_pipe = Ret r s' ∧ r = 1.
Proof.
  split; [exact fs_pipe_at|].
  destruct (read_pipe_takes_front fs_pipe 1 pipe_inode 4095 4094 200 8 fs_pipe_at) as [H _].
  apply wp_returns in H as (r & s' & H & -> & _); [|discriminate].
  exists (Z.of_nat (8 `min` length (pipe_bytes fs_pipe pipe_inode 4095 4094))), s'.
  split; [exact H|reflexivity].
Defined.
