(* ===== verification/ExecFacts.v ===== *)
(** * What a program finds on its stack

    create_tables builds the argument and environment pointers of the System V
    start-up stack from the strings that exec put at the top of memory. *)

From S2P Require Export Exec Bytes FsFacts.
From S2P Require Import FsBoot.

(** ** The memory of the task *)

Lemma with_user_twice s u v : with_user (with_user s u) v = with_user s v.
Proof. done. Qed.
Lemma with_user_same s : with_user s (user s) = s.
Proof. destruct s as [? ? ? ? ? ? ? ? ? ? ? ? [] ?]. done. Qed.

Lemma get_byte_run s a : get_fs_byte a s = Ret (default 0 (user s !! a)) s.
Proof. destruct s as [? ? ? ? ? ? ? ? ? ? ? ? [] ?]. done. Qed.
Lemma put_byte_run s v a : put_fs_byte v a s = Ret tt (with_user s (<[a := u8 v]> (user s))).
Proof. done. Qed.

(** The eight bytes of a long. *)
Definition long (v : Z) : list Z := (λ k, u8 (Z.shiftr v (8 * k))) <$> upto 8.
Lemma long_length v : length (long v) = 8%nat.
Proof. done. Qed.
Lemma put_long_run s v a : put_fs_long v a s = Ret tt (with_user s (blit a (long v) (user s))).
Proof.
  unfold put_fs_long. change (upto 8) with [0; 1; 2; 3; 4; 5; 6; 7]. cbn [mfor long fmap list_fmap].
  rewrite !mfor_cons.
  repeat (rewrite (bind_ret _ _ _ _ _ (put_byte_run _ _ _)); rewrite ?with_user_user, ?with_user_twice, ?mfor_cons).
  unfold long. change (upto 8) with [0; 1; 2; 3; 4; 5; 6; 7]. cbn [blit fmap list_fmap].
  rewrite <-!Z.add_assoc, Z.add_0_r. done.
Qed.

(** Two assignments that do not overlap; one behind the other. *)
Lemma blit_comm p l1 q l2 m : apart p (zlen l1) q (zlen l2) → blit p l1 (blit q l2 m) = blit q l2 (blit p l1 m).
Proof.
  unfold apart. intros H. apply map_eq. intros r. rewrite !blit_lookup. repeat case_decide; try done; lia.
Qed.
Lemma blit_before p l1 l2 m q : q = p + zlen l1 → blit p l1 (blit q l2 m) = blit p (l1 ++ l2) m.
Proof. intros ->. rewrite blit_app. apply blit_comm. unfold apart. lia. Qed.
Lemma blit_after p l1 l2 m q : q = p + zlen l1 → blit q l2 (blit p l1 m) = blit p (l1 ++ l2) m.
Proof. intros ->. by rewrite blit_app. Qed.

(** Strings one after the other, their addresses, and where they end. *)
Fixpoint strings_at (u : gmap Z Z) (p : Z) (l : list (list Z)) : Prop :=
  match l with [] => True | x :: l => cstr u p x ∧ strings_at u (p + zlen x + 1) l end.
Fixpoint addresses (p : Z) (l : list (list Z)) : list Z :=
  match l with [] => [] | x :: l => p :: addresses (p + zlen x + 1) l end.
Fixpoint strings_end (p : Z) (l : list (list Z)) : Z :=
  match l with [] => p | x :: l => strings_end (p + zlen x + 1) l end.
Definition longs (l : list Z) : list Z := flat_map long l.

Lemma longs_length l : zlen (longs l) = 8 * zlen l.
Proof. unfold longs. induction l as [|v l IH]; [done|]. cbn [flat_map length]. rewrite length_app, long_length. lia. Qed.
Lemma longs_app l1 l2 : longs (l1 ++ l2) = longs l1 ++ longs l2.
Proof. apply flat_map_app. Qed.
Lemma addresses_length p l : length (addresses p l) = length l.
Proof. revert p. induction l as [|x l IH]; intros p; simpl; [done|]. by rewrite IH. Qed.
Lemma strings_app u p l1 l2 : strings_at u p (l1 ++ l2) ↔ strings_at u p l1 ∧ strings_at u (strings_end p l1) l2.
Proof. revert p. induction l1 as [|x l1 IH]; intros p; simpl; [tauto|]. rewrite IH. tauto. Qed.
Lemma strings_end_le p l : p ≤ strings_end p l.
Proof. revert p. induction l as [|x l IH]; intros p; simpl; [lia|]. specialize (IH (p + zlen x + 1)). lia. Qed.
Lemma strings_ext u u' p l : strings_at u p l → (∀ q, p ≤ q → u' !! q = u !! q) → strings_at u' p l.
Proof.
  revert p. induction l as [|x l IH]; intros p; simpl; [done|]. intros [Hx Hl] H. split.
  - eapply cstr_ext; [done|]. intros q Hq. apply H. lia.
  - apply IH; [done|]. intros q Hq. apply H. lia.
Qed.

Lemma string_end_run s x : ∀ fuel p, cstr (user s) p x → (length x < fuel)%nat →
  string_end fuel p s = Ret (p + zlen x + 1) s.
Proof.
  induction x as [|c x IH]; intros [|fuel] p Hp Hf; simpl in Hf; try lia; cbn [string_end].
  - apply cstr_nil in Hp. rewrite (bind_ret _ _ _ _ _ (get_byte_run s p)), Hp. simpl. by rewrite Z.add_0_r.
  - apply cstr_cons in Hp as (Hc & Hm & Hp). rewrite (bind_ret _ _ _ _ _ (get_byte_run s p)), Hm. change (default 0 (Some c)) with c.
    rewrite (proj2 (truth_true c)) by lia. rewrite IH by (done || lia). f_equal. cbn [length]. lia.
Qed.

(** The table of pointers lies below the strings. *)
Lemma table_run fuel l : ∀ s p t, strings_at (user s) p l → t + 8 * zlen l ≤ p →
  Forall (λ x, (length x < fuel)%nat) l →
  table fuel (length l) p t s =
  Ret (strings_end p l, t + 8 * zlen l) (with_user s (blit t (longs (addresses p l)) (user s))).
Proof.
  induction l as [|x l IH]; intros s p t Hp Ht Hf.
  - simpl. by rewrite Z.add_0_r, with_user_same.
  - destruct Hp as [Hx Hl]. apply Forall_cons in Hf as [Hfx Hf]. cbn [length] in *. cbn [table].
    rewrite (bind_ret _ _ _ _ _ (put_long_run s p t)). set (u1 := blit t (long p) (user s)).
    assert (∀ q, p ≤ q → u1 !! q = user s !! q) as Hu1.
    { intros q Hq. unfold u1. rewrite blit_out; [done|]. rewrite long_length. lia. }
    assert (cstr (user (with_user s u1)) p x) as Hx1.
    { rewrite with_user_user. eapply cstr_ext; [done|]. intros q Hq. apply Hu1. lia. }
    rewrite (bind_ret _ _ _ _ _ (string_end_run (with_user s u1) x fuel p Hx1 Hfx)).
    rewrite IH; [| |lia|done].
    + rewrite with_user_user, with_user_twice. cbn [strings_end addresses]. f_equal; [f_equal; lia|]. f_equal.
      unfold u1. change (longs (p :: addresses (p + zlen x + 1) l)) with (long p ++ longs (addresses (p + zlen x + 1) l)).
      by rewrite blit_app.
    + rewrite with_user_user. eapply strings_ext; [done|]. intros q Hq. apply Hu1. lia.
Qed.

(** The addresses that create_tables chooses for strings from [p] on. *)
Definition stack_top (p : Z) (argc envc : nat) : Z := 0xfffffffc .& p - 8 * (Z.of_nat argc + Z.of_nat envc + 5).
(** The stack that a program starts with: argc, argv and envp, then the two
    tables of pointers, each ended by NULL. *)
Definition start_stack_words (p : Z) (args envs : list (list Z)) : list Z :=
  let sp := stack_top p (length args) (length envs) in
  let argv := sp + 24 in
  let envp := argv + 8 * (zlen args + 1) in
  [zlen args; argv; envp] ++ addresses p args ++ [0] ++ addresses (strings_end p args) envs ++ [0].

Lemma align_le p : 0 ≤ p < 2 ^ 32 → 0xfffffffc .& p = p - p mod 4.
Proof.
  intros Hp. assert (0xfffffffc .& p = Z.ldiff (p mod 2 ^ 32) 3) as ->.
  { rewrite Z.land_comm. apply Z.bits_inj'. intros n Hn. rewrite Z.land_spec, Z.ldiff_spec.
    destruct (Z.ltb_spec n 32).
    - rewrite Z.mod_pow2_bits_low by lia. f_equal.
      assert (forallb (λ n, eqb (Z.testbit 0xfffffffc n) (negb (Z.testbit 3 n))) (upto 32) = true) as H' by reflexivity.
      rewrite forallb_forall in H'. apply eqb_prop, H', list_elem_of_In, elem_of_upto. lia.
    - rewrite Z.mod_pow2_bits_high by lia. rewrite (Z.bits_above_log2 0xfffffffc) by (simpl; lia).
      by rewrite andb_false_r. }
  rewrite Z.mod_small by lia. change 3 with (Z.ones 2). rewrite (Z.ldiff_ones_r p 2) by lia.
  rewrite Z.shiftl_mul_pow2, Z.shiftr_div_pow2 by lia. change (2 ^ 2) with 4. dlia.
Qed.

(** C25: create_tables gives a program its arguments.  From the strings of the
    arguments and of the environment, one after the other from [p] on, it leaves
    at the stack pointer it returns the number of arguments, the addresses of
    the two tables, and the tables: the address of each string in order, and
    NULL.  Everything lies below the strings, which it does not touch. *)
Theorem create_tables_gives_arguments s p args envs fuel :
  strings_at (user s) p (args ++ envs) → 8 * (zlen args + zlen envs + 6) ≤ p < 2 ^ 32 →
  Forall (λ x, (length x < fuel)%nat) (args ++ envs) →
  let sp := stack_top p (length args) (length envs) in
  let words := start_stack_words p args envs in
  ∃ u, create_tables fuel p (zlen args) (zlen envs) s = Ret sp (with_user s u) ∧
    at_bytes u sp (longs words) ∧ strings_at u p (args ++ envs) ∧
    sp + 8 * zlen words ≤ p ∧ ∀ q, ¬ sp ≤ q < sp + 8 * zlen words → u !! q = user s !! q.
Proof.
  intros Hs Hp Hf sp words. exists (blit sp (longs words) (user s)).
  assert (zlen words = zlen args + zlen envs + 5) as Hwords.
  { unfold words, start_stack_words. rewrite !length_app, !addresses_length. simpl. lia. }
  assert (sp + 8 * zlen words ≤ p) as Hbelow.
  { rewrite Hwords. unfold sp, stack_top. rewrite align_le by lia. pose proof (Z.mod_pos_bound p 4). lia. }
  split; [|split; [apply at_blit|split; [|split; [done|]]]].
  2: { eapply strings_ext; [done|]. intros q Hq. apply blit_out. rewrite longs_length. lia. }
  2: { intros q Hq. apply blit_out. by rewrite longs_length. }
  apply strings_app in Hs as [Hargs Henvs]. apply Forall_app in Hf as [Hfa Hfe].
  unfold create_tables. cbv zeta.
  assert (0 ≤ sp) as Hsp.
  { unfold sp, stack_top. rewrite align_le by lia. pose proof (Z.mod_pos_bound p 4). lia. }
  set (argv := sp + 24). set (envp := argv + 8 * (zlen args + 1)).
  assert (u64 ((0xfffffffc .& p) - 8 * (zlen envs + 1)) = envp) as ->.
  { rewrite u64_small; [unfold envp, argv, sp, stack_top; lia|]. unfold sp, stack_top in Hsp. rewrite align_le in * by lia.
    pose proof (Z.mod_pos_bound p 4). lia. }
  assert (u64 (envp - 8 * (zlen args + 1)) = argv) as -> by (rewrite u64_small; [unfold envp; lia|unfold envp, argv; lia]).
  replace (argv - 8) with (sp + 16) by (unfold argv; lia). replace (argv - 16) with (sp + 8) by (unfold argv; lia).
  replace (argv - 24) with sp by (unfold argv; lia). rewrite (u64_small (zlen args)) by lia.
  rewrite (bind_ret _ _ _ _ _ (put_long_run s envp _)), (bind_ret _ _ _ _ _ (put_long_run _ argv _)),
    (bind_ret _ _ _ _ _ (put_long_run _ (zlen args) _)). rewrite !with_user_user, !with_user_twice, !Nat2Z.id.
  rewrite (blit_before (sp + 8) (long argv) (long envp)) by (rewrite long_length; lia).
  rewrite (blit_before sp (long (zlen args)) (long argv ++ long envp)) by (rewrite long_length; lia).
  set (head := long (zlen args) ++ long argv ++ long envp).
  assert (zlen head = 24) as Hhead by done. set (u0 := blit sp head (user s)).
  (* what is written lies below the strings *)
  assert (∀ l, zlen l ≤ 8 * zlen words → ∀ q, p ≤ q → blit sp l (user s) !! q = user s !! q) as Hlow.
  { intros l Hl q Hq. apply blit_out. lia. }
  assert (strings_at (user (with_user s u0)) p args) as Hargs0.
  { rewrite with_user_user. eapply strings_ext; [done|]. apply Hlow. lia. }
  rewrite (bind_ret _ _ _ _ _ (table_run fuel args _ p argv Hargs0 ltac:(unfold argv; lia) Hfa)).
  cbv iota beta. rewrite with_user_user, with_user_twice. unfold u0.
  rewrite (blit_after sp head) by (unfold argv; lia). set (l1 := head ++ longs (addresses p args)).
  assert (zlen l1 = 24 + 8 * zlen args) as Hl1.
  { unfold l1. rewrite length_app, Nat2Z.inj_add, longs_length, addresses_length. lia. }
  rewrite (bind_ret _ _ _ _ _ (put_long_run _ 0 _)), with_user_user, with_user_twice.
  rewrite (blit_after sp l1) by (unfold argv; lia). set (l2 := l1 ++ long 0).
  assert (zlen l2 = 32 + 8 * zlen args) as Hl2 by (unfold l2; rewrite length_app, long_length; lia).
  assert (strings_at (user (with_user s (blit sp l2 (user s)))) (strings_end p args) envs) as Henvs0.
  { rewrite with_user_user. eapply strings_ext; [done|]. intros q Hq. apply Hlow; [lia|].
    pose proof (strings_end_le p args). lia. }
  pose proof (strings_end_le p args).
  rewrite (bind_ret _ _ _ _ _ (table_run fuel envs _ (strings_end p args) envp Henvs0
    ltac:(unfold envp, argv; lia) Hfe)).
  cbv iota beta. rewrite with_user_user, with_user_twice.
  rewrite (blit_after sp l2) by (unfold envp, argv; lia). set (l3 := l2 ++ longs _).
  rewrite (bind_ret _ _ _ _ _ (put_long_run _ 0 _)), with_user_user, with_user_twice.
  rewrite (blit_after sp l3).
  2: { unfold l3. rewrite length_app, Nat2Z.inj_add, longs_length, addresses_length. unfold envp, argv. lia. }
  unfold mret, M_ret. do 2 f_equal. unfold words, start_stack_words. fold sp argv envp.
  rewrite !longs_app. unfold l3, l2, l1, head. rewrite <-!app_assoc. done.
Qed.

(** "ab" and "c" are the arguments, "d" the environment. *)
Definition three_strings : fs := with_user fs_empty (blit 4096 [97; 98; 0; 99; 0; 100; 0] ∅).
Lemma create_tables_gives_arguments_witness :
  ∃ u, create_tables 10 4096 2 1 three_strings = Ret 4032 (with_user three_strings u) ∧
    at_bytes u 4032 (longs [2; 4056; 4080; 4096; 4099; 0; 4101; 0]).
Proof.
  destruct (create_tables_gives_arguments three_strings 4096 [[97; 98]; [99]] [[100]] 10) as (u & H & Ha & _).
  - repeat split; repeat constructor; simpl; lia.
  - simpl. lia.
  - repeat constructor; simpl; lia.
  - exists u. split; [exact H|exact Ha].
Defined.
