(* ===== verification/ExecArgs.v ===== *)
(** * The strings of exec in the pages of the new stack

    copy_strings stacks the strings of a table of pointers, from the last to the
    first, below an offset of the 32 pages that become the top of the memory of
    the program, and allocates the pages it needs. *)

From S2P Require Import ExecFacts MmFacts PipeFacts FsBoot.

(** ** Longs in memory *)

Lemma long_value v n : ∀ i, 0 ≤ i → 0 ≤ v < 2 ^ (8 * (i + Z.of_nat n)) →
  foldr (λ k w, u8 (Z.shiftr v (8 * k)) + 256 * w) 0 (seqZ i (Z.of_nat n)) = Z.shiftr v (8 * i).
Proof.
  induction n as [|n IH]; intros i Hi Hv.
  - rewrite seqZ_nil by lia. simpl. rewrite Z.shiftr_div_pow2 by lia. rewrite Z.div_small; [done|].
    by rewrite Z.add_0_r in Hv.
  - rewrite seqZ_cons by lia. replace (Z.pred (Z.of_nat (S n))) with (Z.of_nat n) by lia. cbn [foldr].
    rewrite IH; [|lia|by replace (Z.succ i + Z.of_nat n) with (i + Z.of_nat (S n)) by lia].
    replace (8 * Z.succ i) with (8 * i + 8) by lia. rewrite <-Z.shiftr_shiftr by lia.
    rewrite (Z.shiftr_div_pow2 _ 8) by lia. unfold u8. pose proof (Z.div_mod (Z.shiftr v (8 * i)) (2 ^ 8)). lia.
Qed.
Lemma long_read u a v n : ∀ i, at_bytes u (a + i) ((λ k, u8 (Z.shiftr v (8 * k))) <$> seqZ i (Z.of_nat n)) →
  foldr (λ k w, default 0 (u !! (a + k)) + 256 * w) 0 (seqZ i (Z.of_nat n)) =
  foldr (λ k w, u8 (Z.shiftr v (8 * k)) + 256 * w) 0 (seqZ i (Z.of_nat n)).
Proof.
  induction n as [|n IH]; intros i Ha; [by rewrite seqZ_nil by lia|].
  rewrite seqZ_cons in * by lia. replace (Z.pred (Z.of_nat (S n))) with (Z.of_nat n) in * by lia.
  cbn [fmap list_fmap at_bytes] in Ha. destruct Ha as [Hm Ha]. cbn [foldr].
  rewrite IH by (by replace (a + Z.succ i) with (a + i + 1) by lia). by rewrite Hm.
Qed.
Lemma get_long_run s a v : at_bytes (user s) a (long v) → 0 ≤ v < 2 ^ 64 → get_fs_long a s = Ret v s.
Proof.
  intros Ha Hv. unfold get_fs_long, gets. f_equal. fold (user s). change (upto 8) with (seqZ 0 (Z.of_nat 8)).
  rewrite (long_read _ _ v) by (rewrite Z.add_0_r; exact Ha). apply (long_value v 8 0); simpl; lia.
Qed.

(** ** The pages *)

(** The page that holds offset [x], and the address of this byte. *)
Definition page_of (page : list Z) (x : Z) : Z := default 0 (page !! Z.to_nat (x / 4096)).
Definition spot (page : list Z) (x : Z) : Z := page_of page x + x mod 4096.
(** The pages are pages in use, and different. *)
Definition frames_ok (m : mm) (page : list Z) : Prop :=
  length page = MAX_ARG_PAGES ∧ map_ok m ∧
  (∀ i f, page !! i = Some f → f ≠ 0 → ∃ k c, f = page_addr k ∧ mem_map m !! k = Some c ∧ c ≠ 0) ∧
  (∀ i j f, page !! i = Some f → page !! j = Some f → f ≠ 0 → i = j).

Lemma frame_aligned m page i f : frames_ok m page → page !! i = Some f → f ≠ 0 →
  f mod 4096 = 0 ∧ LOW_MEM ≤ f ∧ f + 4096 ≤ HIGH_MEMORY.
Proof.
  intros (_ & [Hlen _] & Hf & _) Hi Hne. destruct (Hf i f Hi Hne) as (k & c & -> & Hk & _).
  apply lookup_lt_Some in Hk. destruct (page_addr_range k) as (? & ? & ?); [lia|]. done.
Qed.
Lemma page_of_Some page x f : page_of page x = f → f ≠ 0 → page !! Z.to_nat (x / 4096) = Some f.
Proof. unfold page_of. destruct (page !! _); simpl; congruence. Qed.
Lemma spot_inj m page x y : frames_ok m page → 0 ≤ x → 0 ≤ y → page_of page x ≠ 0 → page_of page y ≠ 0 →
  spot page x = spot page y → x = y.
Proof.
  intros Hok Hx Hy Hpx Hpy E. pose proof (page_of_Some page x _ eq_refl Hpx) as Ex.
  pose proof (page_of_Some page y _ eq_refl Hpy) as Ey. unfold spot in E.
  destruct (frame_aligned _ _ _ _ Hok Ex Hpx) as [Hax _]. destruct (frame_aligned _ _ _ _ Hok Ey Hpy) as [Hay _].
  assert (page_of page x = page_of page y) as Ep.
  { pose proof (Z.mod_pos_bound x 4096). pose proof (Z.mod_pos_bound y 4096).
    pose proof (Z.div_mod (page_of page x) 4096). pose proof (Z.div_mod (page_of page y) 4096). lia. }
  destruct Hok as (_ & _ & _ & Hinj). rewrite Ep in Ex. pose proof (Hinj _ _ _ Ex Ey Hpy) as Ei.
  apply Z2Nat.inj in Ei; [|apply Z.div_pos; lia|apply Z.div_pos; lia].
  pose proof (Z.div_mod x 4096). pose proof (Z.div_mod y 4096). lia.
Qed.

Lemma page_addr_pos k : page_addr k ≠ 0.
Proof. unfold page_addr. change LOW_MEM with (512 * 4096). lia. Qed.

(** Pages from [k] on are there, and those from [i0] up to [i]. *)
Definition mapped (page : list Z) (k i0 i : nat) : Prop :=
  ∀ j f, page !! j = Some f → (f ≠ 0 ↔ (k ≤ j)%nat ∨ (i0 ≤ j < i)%nat).
(** What an allocation leaves alone: pages in use stay so, with their words. *)
Definition keeps_pages (m m' : mm) : Prop :=
  ∀ k c, mem_map m !! k = Some c → c ≠ 0 →
    (∃ c', mem_map m' !! k = Some c' ∧ c' ≠ 0) ∧ ∀ a, in_page (page_addr k) a → word m' a = word m a.

#[global] Instance keeps_pages_preorder : PreOrder keeps_pages.
Proof.
  split.
  - intros m k c Hk Hc. split; [by exists c|done].
  - intros m1 m2 m3 H12 H23 k c Hk Hc. destruct (H12 k c Hk Hc) as [(c2 & Hk2 & Hc2) Hw2].
    destruct (H23 k c2 Hk2 Hc2) as [H3 Hw3]. split; [done|]. intros a Ha. by rewrite Hw3, Hw2.
Qed.
Lemma frame_addr_inj i j : page_addr i = page_addr j → i = j.
Proof. unfold page_addr. lia. Qed.

(** The pages of [page'] are those of [page] and pages that were free. *)
Definition takes_free (m : mm) (page page' : list Z) : Prop :=
  (∀ j f, page !! j = Some f → f ≠ 0 → page' !! j = Some f) ∧
  ∀ j f, page' !! j = Some f → f ≠ 0 → page !! j = Some f ∨ ∃ k, f = page_addr k ∧ mem_map m !! k = Some 0.

Lemma takes_free_refl m page : takes_free m page page.
Proof. split; [done|by left]. Qed.

(** A new page in slot [i]. *)
Lemma new_page_ok m page i ph n : frames_ok m page → page !! i = Some 0 → last_free (mem_map m) n →
  (∀ a, ¬ in_page (page_addr n) a → ph !! a = phys m !! a) →
  let m' := m <| phys := ph |> <| mem_map ::= <[n := 1]> |> in
  frames_ok m' (<[i := page_addr n]> page) ∧ keeps_pages m m'.
Proof.
  intros (Hlen & [Hmap Hrng] & Hf & Hinj) Hi [Hn _] Hph m'. pose proof (lookup_lt_Some _ _ _ Hn) as Hn'.
  assert (∀ j f, page !! j = Some f → f ≠ 0 → f ≠ page_addr n) as Hnew.
  { intros j f Hj Hne ->. destruct (Hf j _ Hj Hne) as (k & c & E & Hk & Hc). apply frame_addr_inj in E as <-. congruence. }
  split.
  - split; [by rewrite length_insert|]. split; [|split].
    + split; [simpl; by rewrite length_insert|]. simpl. by apply Forall_insert.
    + intros j f [(<- & <- & _)|[_ Hj]]%list_lookup_insert_Some Hne.
      * exists n, 1. split; [done|]. split; [by apply list_lookup_insert_eq|lia].
      * destruct (Hf j f Hj Hne) as (k & c & -> & Hk & Hc). exists k, c. split; [done|]. split; [|done].
        simpl. rewrite list_lookup_insert_ne; [done|congruence].
    + intros j j' f Hj Hj' Hne. apply list_lookup_insert_Some in Hj as [(<- & <- & _)|[_ Hj]];
        apply list_lookup_insert_Some in Hj' as [(<- & E & _)|[_ Hj']].
      * done.
      * by destruct (Hnew _ _ Hj' Hne).
      * subst f. by destruct (Hnew _ _ Hj Hne).
      * by eapply Hinj.
  - intros k c Hk Hc. split.
    + exists c. split; [|done]. simpl. rewrite list_lookup_insert_ne; [done|congruence].
    + intros a Ha. unfold word. simpl. rewrite Hph; [done|]. intros Ha'. unfold in_page, page_addr in *.
      assert (k = n) as -> by lia. congruence.
Qed.

Lemma page_run_spec n : ∀ i i0 k page m, frames_ok m page → mapped page k i0 i → (i0 ≤ i)%nat → (i ≤ k)%nat ∨ i = i0 →
  (MAX_ARG_PAGES ≤ i + n)%nat →
  wp (page_run n (Z.of_nat i) page) (λ r m',
    frames_ok m' r.2 ∧ keeps_pages m m' ∧ takes_free m page r.2 ∧
    if r.1 : bool then mapped r.2 (k `min` i0) 0 0 else ∀ j, mem_map m' !! j ≠ Some 0) m.
Proof.
  induction n as [|n IH]; intros i i0 k page m Hok Hmap Hi Hik Hn; cbn [page_run].
  - apply wp_ret. cbn [fst snd]. split; [done|]. split; [reflexivity|]. split; [apply takes_free_refl|].
    intros j f Hj. rewrite (Hmap j f Hj). apply lookup_lt_Some in Hj. rewrite (proj1 Hok) in Hj. lia.
  - destruct (Z.leb_spec (Z.of_nat MAX_ARG_PAGES) (Z.of_nat i)).
    { apply wp_ret. cbn [fst snd]. split; [done|]. split; [reflexivity|]. split; [apply takes_free_refl|].
      intros j f Hj. rewrite (Hmap j f Hj). apply lookup_lt_Some in Hj. rewrite (proj1 Hok) in Hj. lia. }
    pose proof Hok as [Hlen _]. apply wp_bind, wp_index; [lia|]. intros x Hx. rewrite Nat2Z.id in Hx.
    destruct (truth x) eqn:Ex.
    { apply wp_ret. cbn [fst snd]. split; [done|]. split; [reflexivity|]. split; [apply takes_free_refl|].
      apply truth_true in Ex. apply (Hmap i x Hx) in Ex. intros j f Hj. rewrite (Hmap j f Hj). lia. }
    apply truth_false in Ex as ->.
    destruct (get_free_page_cases m) as [[E Hfull]|(fr & ph & Hfr & E & Hlo & Hhi & _ & _ & Hph)]; [apply Hok|..].
    + eapply wp_bind, wp_of_ret; [exact E|]. simpl Z.eqb. cbv iota. apply wp_ret. cbn [fst snd].
      rewrite Nat2Z.id, list_insert_id by done. split; [done|]. split; [reflexivity|]. split; [apply takes_free_refl|done].
    + eapply wp_bind, wp_of_ret; [exact E|]. rewrite (proj2 (Z.eqb_neq _ _)) by apply page_addr_pos.
      rewrite Nat2Z.id. destruct (new_page_ok m page i ph fr Hok Hx Hfr Hph) as [Hok' Hkeep].
      replace (Z.of_nat i + 1) with (Z.of_nat (S i)) by lia.
      assert (mapped (<[i := page_addr fr]> page) k i0 (S i)) as Hmap'.
      { intros j f [(<- & <- & _)|[Hne Hj]]%list_lookup_insert_Some.
        - split; [lia|]. intros _. apply page_addr_pos.
        - rewrite (Hmap j f Hj). lia. }
      assert (i < k)%nat as Hlt. { destruct (decide (i < k)%nat); [done|]. destruct (proj2 (Hmap i 0 Hx)); [lia|done]. }
      eapply wp_mono; [apply (IH (S i) i0 k _ _ Hok' Hmap'); [lia|left; lia|lia]|].
      intros [ok page'] m' (Hok2 & Hk2 & [Hold Hnew] & Hend). cbn [fst snd] in *.
      split; [done|]. split; [by etrans|]. split; [|done]. split.
      * intros j f Hj Hne. apply Hold; [|done]. rewrite list_lookup_insert_ne; [done|]. intros <-. congruence.
      * intros j f Hj Hne. destruct (Hnew j f Hj Hne) as [[(<- & <- & _)|[_ Hj']]%list_lookup_insert_Some|(q & -> & Hq)].
        -- right. exists fr. split; [done|]. apply Hfr.
        -- by left.
        -- right. exists q. split; [done|]. apply list_lookup_insert_Some in Hq as [(_ & ? & _)|[_ Hq]]; done.
Qed.

(** ** Stacking strings *)

(** From [s] with [page] to [s'] with [page']: only physical memory changes;
    pages in use stay in use and [page'] takes only free pages; what lies at
    offset [x] or above, and every page that is not of [page], is kept. *)
Record grows (s : fs) (page : list Z) (x : Z) (s' : fs) (page' : list Z) : Prop := Grows {
  g_only : s' = s <| mem := mem s' |>;
  g_frames : frames_ok (mem s') page';
  g_used : ∀ k c, mem_map (mem s) !! k = Some c → c ≠ 0 → ∃ c', mem_map (mem s') !! k = Some c' ∧ c' ≠ 0;
  g_pages : takes_free (mem s) page page';
  g_old : ∀ y, x ≤ y → page_of page y ≠ 0 → mem_byte s' (spot page y) = mem_byte s (spot page y);
  g_others : ∀ k c a, mem_map (mem s) !! k = Some c → c ≠ 0 → page_addr k ∉ page →
    in_page (page_addr k) a → mem_byte s' a = mem_byte s a
}.

Lemma takes_free_spot m page page' y : takes_free m page page' → page_of page y ≠ 0 →
  page_of page' y = page_of page y ∧ spot page' y = spot page y.
Proof.
  intros [H _] Hy. pose proof (H _ _ (page_of_Some page y _ eq_refl Hy) Hy) as E.
  assert (page_of page' y = page_of page y) as Ep by (unfold page_of at 1; by rewrite E). split; [done|].
  unfold spot. by rewrite Ep.
Qed.
Lemma takes_free_trans s page x s1 page1 page2 : frames_ok (mem s) page → grows s page x s1 page1 →
  takes_free (mem s1) page1 page2 → takes_free (mem s) page page2.
Proof.
  intros (_ & [Hlen _] & _ & _) [_ (_ & [Hlen1 _] & _ & _) Hused [Hold Hnew] _ _] [Hold1 Hnew1]. split.
  - intros j f Hj Hne. by apply Hold1, Hne; apply Hold.
  - intros j f Hj Hne. destruct (Hnew1 j f Hj Hne) as [Hj1|(k & -> & Hk)]; [by apply Hnew|].
    right. exists k. split; [done|]. pose proof (lookup_lt_Some _ _ _ Hk) as Hlt.
    destruct (lookup_lt_is_Some_2 (mem_map (mem s)) k) as [c Hc]; [lia|]. rewrite Hc. f_equal.
    destruct (Z.eq_dec c 0) as [|Hne']; [done|]. destruct (Hused k c Hc Hne') as (c' & Hc' & ?). congruence.
Qed.
Lemma grows_trans s page x s1 page1 x1 s2 page2 : frames_ok (mem s) page → x1 ≤ x →
  grows s page x s1 page1 → grows s1 page1 x1 s2 page2 → grows s page x s2 page2.
Proof.
  intros Hok Hx G1 G2. pose proof (takes_free_trans _ _ _ _ _ _ Hok G1 (g_pages _ _ _ _ _ G2)) as HT.
  destruct G1 as [E1 F1 U1 T1 O1 A1], G2 as [E2 F2 U2 T2 O2 A2]. split; [| | |exact HT|..].
  - rewrite E2, E1. by destruct s.
  - done.
  - intros k c Hk Hc. destruct (U1 k c Hk Hc) as (c' & Hk' & Hc'). by apply (U2 k c').
  - intros y Hy Hp. destruct (takes_free_spot _ _ _ _ T1 Hp) as [Ep Es].
    rewrite <-(O1 y Hy Hp), <-Es. apply O2; [lia|by rewrite Ep].
  - intros k c a Hk Hc Hn Ha. destruct (U1 k c Hk Hc) as (c' & Hk' & Hc').
    rewrite <-(A1 k c a Hk Hc Hn Ha). apply (A2 k c'); [done..| |done].
    intros [j Hj]%list_elem_of_lookup. destruct T1 as [_ T1].
    destruct (T1 j _ Hj (page_addr_pos k)) as [Hj'|(q & E & Hq)]; [by apply Hn, list_elem_of_lookup; exists j|].
    apply frame_addr_inj in E as <-. congruence.
Qed.

(** The bytes of [n] offsets from [p] on. *)
Definition stacked (s : fs) (page : list Z) (p n : Z) : list Z := (λ y, mem_byte s (spot page y)) <$> seqZ p n.

Lemma mem_byte_words s m x : (∀ a, a = x - x mod 8 → word m a = word (mem s) a) →
  mem_byte (s <| mem := m |>) x = mem_byte s x.
Proof. intros H. unfold mem_byte. simpl. by rewrite H. Qed.
Lemma keeps_pages_byte s m k c a : keeps_pages (mem s) m → mem_map (mem s) !! k = Some c → c ≠ 0 →
  in_page (page_addr k) a → mem_byte (s <| mem := m |>) a = mem_byte s a.
Proof.
  intros H Hk Hc Ha. apply mem_byte_words. intros b ->. apply (H k c Hk Hc). unfold in_page, page_addr in *.
  change LOW_MEM with (512 * 4096) in *. dlia.
Qed.
Lemma page_run_grows s m page page' x : frames_ok (mem s) page → frames_ok m page' → keeps_pages (mem s) m →
  takes_free (mem s) page page' → grows s page x (s <| mem := m |>) page'.
Proof.
  intros Hok Hok' Hk HT. split; simpl; [by destruct s|done| |done|..].
  - intros k c Hkc Hc. by apply (Hk k c Hkc Hc).
  - intros y _ Hy. pose proof (page_of_Some page y _ eq_refl Hy) as Ey.
    destruct Hok as (_ & _ & Hf & _). destruct (Hf _ _ Ey Hy) as (k & c & E & Hkc & Hc).
    eapply keeps_pages_byte; [done..|]. unfold spot, in_page. rewrite E. pose proof (Z.mod_pos_bound y 4096). lia.
  - intros k c a Hkc Hc _ Ha. by eapply keeps_pages_byte.
Qed.

(** One string, from its last byte to the first, into pages that are there. *)
Lemma wp_copy_down page bs : ∀ s a p, frames_ok (mem s) page → at_bytes (user s) a bs → octets bs →
  zlen bs ≤ p ≤ 131072 → (∀ y, p - zlen bs ≤ y < p → page_of page y ≠ 0) →
  wp (copy_down (length bs) (a + zlen bs) p page) (λ r s', r = p - zlen bs ∧ grows s page p s' page ∧
    mem_map (mem s') = mem_map (mem s) ∧ stacked s' page r (zlen bs) = bs) s.
Proof.
  induction bs as [|b bs IH] using rev_ind; intros s a p Hok Ha Ho Hp Hpg.
  - apply wp_ret. simpl. rewrite Z.sub_0_r. split; [done|]. split; [|done].
    replace s with (s <| mem := mem s |>) at 2 by (by destruct s). by apply page_run_grows, takes_free_refl.
  - rewrite length_app in *. cbn [length] in *. replace (length bs + 1)%nat with (S (length bs)) in * by lia.
    apply at_app in Ha as [Ha [Hb _]]. apply Forall_app in Ho as [Ho [Hob _]%Forall_cons].
    cbn [copy_down]. rewrite (u64_small (p - 1)) by lia. change PAGE_SIZE with 4096.
    assert (page_of page (p - 1) ≠ 0) as Hne by (apply Hpg; lia).
    pose proof (page_of_Some page (p - 1) _ eq_refl Hne) as Ex.
    apply wp_bind, wp_index; [pose proof (lookup_lt_Some _ _ _ Ex); dlia|]. intros x Hx. rewrite Ex in Hx.
    injection Hx as <-. rewrite (proj2 (Z.eqb_neq _ _) Hne).
    replace (a + Z.of_nat (S (length bs)) - 1) with (a + zlen bs) by lia.
    eapply wp_bind, wp_of_ret; [apply get_byte_run|]. rewrite Hb. change (default 0 (Some b)) with b.
    apply wp_bind, wp_set_page_byte. intros t Hmap Ht. fold (spot page (p - 1)) in Ht.
    set (s1 := s <| mem := t |>) in *.
    assert (frames_ok (mem s1) page) as Hok1.
    { destruct Hok as (? & [? ?] & ? & ?). unfold frames_ok, map_ok. simpl. by rewrite Hmap. }
    assert (grows s page p s1 page) as G1.
    { split; [by destruct s|done| |apply takes_free_refl|..].
      - intros k c Hk Hc. exists c. simpl. by rewrite Hmap.
      - intros y Hy Hyn. rewrite Ht, bool_decide_eq_false_2; [done|]. intros E.
        apply (spot_inj _ _ _ _ Hok) in E; [lia..|done|done].
      - intros k c y Hk Hc Hnot Hy. rewrite Ht, bool_decide_eq_false_2; [done|]. intros <-. apply Hnot.
        destruct Hok as (_ & _ & Hf & _). destruct (Hf _ _ Ex Hne) as (q & _ & E & _). unfold spot, in_page in Hy.
        apply list_elem_of_lookup. eexists. rewrite Ex, E. do 2 f_equal. rewrite E in Hy.
        pose proof (Z.mod_pos_bound (p - 1) 4096). unfold page_addr in Hy. lia. }
    eapply wp_mono; [apply (IH s1 a (p - 1) Hok1); [done|done|lia|intros y Hy; apply Hpg; lia]|].
    intros r s' (-> & G & Hm & Hst). split; [lia|]. split; [eapply grows_trans; [done| |done|done]; lia|].
    split; [by rewrite Hm|]. unfold stacked in *.
    replace (Z.of_nat (S (length bs))) with (zlen bs + 1) by lia.
    rewrite seqZ_app, fmap_app by lia. f_equal; [exact Hst|]. rewrite seqZ_cons, seqZ_nil by lia. cbn [fmap list_fmap]. f_equal.
    replace (p - 1 - zlen bs + zlen bs) with (p - 1) by lia.
    rewrite (g_old _ _ _ _ _ G) by (done || lia). rewrite Ht, bool_decide_eq_true_2 by done.
    apply u8_small. lia.
Qed.

Lemma stacked_grows s page x s' page' q n : grows s page x s' page' → x ≤ q →
  (∀ y, q ≤ y < q + n → page_of page y ≠ 0) → stacked s' page' q n = stacked s page q n.
Proof.
  intros G Hq Hy. unfold stacked. apply list_fmap_ext. intros i y Hi%list_elem_of_lookup_2%elem_of_seqZ.
  assert (page_of page y ≠ 0) as Hne by (apply Hy; lia).
  destruct (takes_free_spot _ _ _ y (g_pages _ _ _ _ _ G) Hne) as [_ ->]. apply (g_old _ _ _ _ _ G); [lia|done].
Qed.
Lemma grows_user s page x s' page' : grows s page x s' page' → user s' = user s.
Proof. intros G. by rewrite (g_only _ _ _ _ _ G). Qed.
Lemma mapped_from m page k y : frames_ok m page → mapped page k 0 0 → 4096 * Z.of_nat k ≤ y < 131072 →
  page_of page y ≠ 0.
Proof.
  intros [Hlen _] Hk Hy. unfold page_of.
  destruct (lookup_lt_is_Some_2 page (Z.to_nat (y / 4096))) as [f Hf]; [rewrite Hlen; unfold MAX_ARG_PAGES; dlia|].
  rewrite Hf. simpl. apply (Hk _ _ Hf). left. dlia.
Qed.

(** What copy_strings pushes. *)
Definition image (strs : list (list Z)) : list Z := concat ((λ x, x ++ [0]) <$> strs).
Lemma image_app l1 l2 : image (l1 ++ l2) = image l1 ++ image l2.
Proof. unfold image. by rewrite fmap_app, concat_app. Qed.
Lemma image_one x : image [x] = x ++ [0].
Proof. unfold image. simpl. by rewrite app_nil_r. Qed.

(** The pages of one string, and the string. *)
Lemma wp_push_string x s a page p k : frames_ok (mem s) page → mapped page k 0 0 → cstr (user s) a x →
  zlen x + 1 ≤ p ≤ 131072 →
  wp ('(ok, page') ← in_mm (page_run MAX_ARG_PAGES (Z.shiftr (u32 (p - (zlen x + 1))) 12) page);
      if negb ok then mret (None, page') else
      p' ← copy_down (S (length x)) (a + zlen x + 1) p page';
      mret (Some p', page')) (λ r s', grows s page p s' r.2 ∧
    match r.1 with
    | None => ∀ j, mem_map (mem s') !! j ≠ Some 0
    | Some p' => p' = p - (zlen x + 1) ∧ (∃ k', mapped r.2 k' 0 0 ∧ 4096 * Z.of_nat k' ≤ p') ∧
        stacked s' r.2 p' (zlen x + 1) = x ++ [0]
    end) s.
Proof.
  intros Hok Hk [Hc Ha] Hp. rewrite u32_small by lia. rewrite Z.shiftr_div_pow2 by lia. change (2 ^ 12) with 4096.
  set (i := Z.to_nat ((p - (zlen x + 1)) / 4096)). replace ((p - (zlen x + 1)) / 4096) with (Z.of_nat i) by (unfold i; dlia).
  apply wp_bind, wp_in_mm. eapply wp_mono; [apply (page_run_spec _ i i k page (mem s)); [done| |lia|by right|lia]|].
  { intros j f Hj. rewrite (Hk j f Hj). lia. }
  intros [ok page'] m (Hok' & Hkeep & HT & Hend). cbn [fst snd] in *.
  pose proof (page_run_grows s m page page' p Hok Hok' Hkeep HT) as G. destruct ok; cbn [negb].
  2: { apply wp_ret. by split. }
  set (s1 := s <| mem := m |>) in *. assert (4096 * Z.of_nat (k `min` i) ≤ p - (zlen x + 1)) by (unfold i; dlia).
  assert (zlen (x ++ [0]) = zlen x + 1) as Hz by (rewrite length_app; simpl; lia).
  replace (S (length x)) with (length (x ++ [0])) by (rewrite length_app; simpl; lia).
  replace (a + zlen x + 1) with (a + zlen (x ++ [0])) by lia.
  apply wp_bind. eapply wp_mono; [apply (wp_copy_down page' (x ++ [0]) s1 a p Hok' Ha)|].
  - apply Forall_app. split; [by apply chars_octets|]. apply Forall_cons. split; [lia|done].
  - lia.
  - intros y Hy. eapply mapped_from; [done..|lia].
  - intros r s' (-> & G2 & _ & Hst). apply wp_ret. cbn [fst snd]. split; [eapply grows_trans; done|].
    rewrite Hz in *. split; [done|]. split; [|done]. by exists (k `min` i)%nat.
Qed.

(** C26: copy_strings stacks the strings.  From a table of pointers to strings it
    puts the strings, each with its 0 and the first one lowest, below offset [p]
    of the pages of the new stack, and returns the offset of the first; or it
    returns 0, when no page of memory is free.  Nothing but pages that were free
    and the pages of the stack below [p] changes. *)
Theorem copy_strings_stacks_strings fuel strs : ∀ s argv ptrs page p k,
  frames_ok (mem s) page → mapped page k 0 0 → at_bytes (user s) argv (longs ptrs) →
  Forall2 (λ a x, 0 < a < 2 ^ 64 ∧ cstr (user s) a x ∧ (length x < fuel)%nat) ptrs strs →
  zlen (image strs) ≤ p ≤ 131072 →
  wp (copy_strings fuel (length strs) argv page p) (λ r s', grows s page p s' r.2 ∧
    (r.1 = 0 ∧ (∀ j, mem_map (mem s') !! j ≠ Some 0) ∨
     r.1 = p - zlen (image strs) ∧ (∃ k', mapped r.2 k' 0 0) ∧
     stacked s' r.2 r.1 (zlen (image strs)) = image strs)) s.
Proof.
  induction strs as [|x strs IH] using rev_ind; intros s argv ptrs page p k Hok Hk Hptrs Hstrs Hp.
  - apply wp_ret. cbn [fst snd length image]. split.
    + replace s with (s <| mem := mem s |>) at 2 by (by destruct s). by apply page_run_grows, takes_free_refl.
    + right. change (zlen (image [])) with 0. split; [lia|]. split; [by exists k|done].
  - apply Forall2_app_inv_r in Hstrs as (ptrs1 & ptrs2 & Hstrs & Hx & ->).
    apply Forall2_cons_inv_r in Hx as (a & ? & (Ha & Hx & Hf) & Hnil & ->). apply Forall2_nil_inv_r in Hnil as ->.
    pose proof (Forall2_length _ _ _ Hstrs) as Hl.
    rewrite image_app, image_one, !length_app in *. cbn [length] in *.
    replace (length strs + 1)%nat with (S (length strs)) by lia. cbn [copy_strings].
    rewrite longs_app in Hptrs. apply at_app in Hptrs as [Hptrs Hlast]. rewrite longs_length, Hl in Hlast.
    cbn [longs flat_map] in Hlast. rewrite app_nil_r in Hlast.
    eapply wp_bind, wp_of_ret; [apply (get_long_run s _ a Hlast); lia|].
    rewrite (proj2 (Z.eqb_neq _ _)) by (unfold NULL; lia).
    eapply wp_bind, wp_of_ret; [by apply string_end_run|]. cbv zeta.
    rewrite s32_small by lia. replace (a + zlen x + 1 - a) with (zlen x + 1) by lia.
    replace (Z.to_nat (zlen x + 1)) with (S (length x)) by lia.
    pose proof (wp_push_string x s a page p k Hok Hk Hx ltac:(lia)) as Hpush.
    apply wp_bind_inv in Hpush. apply wp_bind. eapply wp_mono; [exact Hpush|].
    intros [ok page'] s1 H1. destruct ok; cbn [negb] in *.
    2: { apply wp_ret. destruct H1 as [G H1]. split; [done|]. by left. }
    apply wp_bind_inv in H1. apply wp_bind. eapply wp_mono; [exact H1|].
    intros p' s2 [G (-> & (k' & Hk' & Hle) & Hst)]. cbn [fst snd] in *.
    eapply wp_mono.
    { apply (IH s2 argv ptrs1 page' _ k'); [apply G|done| | |lia]; rewrite (grows_user _ _ _ _ _ G); done. }
    intros [r page2] s3 [G2 H2]. cbn [fst snd] in *. split; [eapply grows_trans; [done| |done|done]; lia|].
    destruct H2 as [H2|(-> & Hm & Hst2)]; [by left|]. right. split; [lia|]. split; [done|].
    unfold stacked. replace (Z.of_nat (length (image strs) + (length x + 1))) with (zlen (image strs) + (zlen x + 1)) by lia.
    rewrite seqZ_app, fmap_app by lia. f_equal; [exact Hst2|].
    replace (p - (zlen x + 1) - zlen (image strs) + zlen (image strs)) with (p - (zlen x + 1)) by lia.
    rewrite <-Hst. apply (stacked_grows _ _ _ _ _ _ _ G2); [lia|].
    intros y Hy. eapply mapped_from; [apply G|done|lia].
Qed.

(** A task with the strings "ab" at 100 and "c" at 103, and their table at 200. *)
Definition two_strings : fs :=
  with_user fs_empty (blit 100 [97; 98; 0; 99; 0] (blit 200 (longs [100; 103]) ∅)).
Lemma no_frames m : map_ok m → frames_ok m (replicate MAX_ARG_PAGES 0).
Proof.
  intros Hm. split; [done|]. split; [done|]. split.
  - intros i f [-> _]%lookup_replicate. done.
  - intros i j f [-> _]%lookup_replicate. done.
Qed.
Lemma copy_strings_stacks_strings_witness :
  wp (copy_strings 10 2 200 (replicate MAX_ARG_PAGES 0) 131068) (λ r s',
    grows two_strings (replicate MAX_ARG_PAGES 0) 131068 s' r.2 ∧
    (r.1 = 0 ∧ (∀ j, mem_map (mem s') !! j ≠ Some 0) ∨
     r.1 = 131063 ∧ (∃ k', mapped r.2 k' 0 0) ∧ stacked s' r.2 r.1 5 = [97; 98; 0; 99; 0])) two_strings.
Proof.
  apply (copy_strings_stacks_strings 10 [[97; 98]; [99]] two_strings 200 [100; 103] (replicate 32 0) 131068 32).
  - apply no_frames. exact (wf_map _ blank_wf).
  - intros j f Hj. apply lookup_replicate in Hj as [-> ?]. split; [done|]. unfold MAX_ARG_PAGES in *. lia.
  - apply at_bytes_lookup. intros i b Hi. do 16 (destruct i as [|i]; [injection Hi as <-; reflexivity|]). discriminate.
  - repeat constructor; simpl; lia.
  - vm_compute. split; discriminate.
Defined.
