(* ===== verification/Frame.v ===== *)
(** * What the file system leaves alone

    No function up to the block maps of files writes the memory of the running
    task: only the copies to user space do. *)

From S2P Require Export Inode FsFacts.

Definition same_user (s s' : fs) : Prop := user s' = user s.
#[export] Instance same_user_preorder : PreOrder same_user.
Proof. split; [done|]. intros x y z H1 H2. by transitivity (user y). Qed.

Lemma user_sched {A} (m : M sched A) : keeps same_user (in_sched m).
Proof.
  apply keeps_zoom. intros s a t H. unfold zoom in H.
  destruct (m _) as [b c| | | | |]; simplify_eq. done.
Qed.
Lemma user_mm {A} (m : M mm A) : keeps same_user (in_mm m).
Proof. by apply keeps_zoom. Qed.
#[export] Hint Resolve user_sched user_mm : keeps.
#[export] Hint Extern 0 (keeps same_user (modify _)) => refine (keeps_modify _ _ _); done : keeps.
#[export] Hint Extern 0 (keeps same_user (store _ _ _)) => refine (keeps_store _ _ _ _ _); done : keeps.

Lemma user_bh p : keeps same_user (bh p).
Proof. unfold bh. keep. Qed.
Lemma user_inode p : keeps same_user (inode p).
Proof. unfold inode. keep. Qed.
Lemma user_sblock p : keeps same_user (sblock p).
Proof. unfold sblock. keep. Qed.
#[export] Hint Resolve user_bh user_inode user_sblock : keeps.
Lemma user_set_bh p f : keeps same_user (set_bh p f).
Proof. unfold set_bh. keep. Qed.
Lemma user_set_inode p f : keeps same_user (set_inode p f).
Proof. unfold set_inode. keep. Qed.
Lemma user_cur : keeps same_user cur.
Proof. unfold cur. keep. Qed.
Lemma user_wake q : keeps same_user (wake q).
Proof. unfold wake. keep. Qed.
Lemma user_kprint msg : keeps same_user (kprint msg).
Proof. unfold kprint. keep. Qed.
Lemma user_now : keeps same_user CURRENT_TIME.
Proof. unfold CURRENT_TIME. keep. Qed.
Lemma user_sleep_on {A} q : keeps same_user (sleep_on (A := A) q).
Proof. unfold sleep_on. keep. Qed.
Lemma user_get_super dev : keeps same_user (get_super dev).
Proof. unfold get_super. keep. Qed.
#[export] Hint Resolve user_set_bh user_set_inode user_cur user_wake user_kprint user_now
  user_sleep_on user_get_super : keeps.

(** ** The buffer cache *)

Lemma user_wait_on_buffer p : keeps same_user (wait_on_buffer p).
Proof. unfold wait_on_buffer. keep. Qed.
#[export] Hint Resolve user_wait_on_buffer : keeps.
Lemma user_ll_rw_block rw p : keeps same_user (ll_rw_block rw p).
Proof. unfold ll_rw_block, rw_hd, rw_abs_hd, hd_transfer. keep. Qed.
#[export] Hint Resolve user_ll_rw_block : keeps.
Lemma user_sync_dev dev : keeps same_user (sync_dev dev).
Proof. unfold sync_dev, all_buffers. keep. Qed.
Lemma user_hash dev block : keeps same_user (hash dev block).
Proof. unfold hash. keep. Qed.
Lemma user_set_hash dev block p : keeps same_user (set_hash dev block p).
Proof. unfold set_hash. keep. Qed.
#[export] Hint Resolve user_sync_dev user_hash user_set_hash : keeps.
Lemma user_remove p : keeps same_user (remove_from_queues p).
Proof. unfold remove_from_queues. keep. Qed.
Lemma user_insert p : keeps same_user (insert_into_queues p).
Proof. unfold insert_into_queues, set_b_prev. keep. Qed.
Lemma user_find_from n p dev block : keeps same_user (find_from n p dev block).
Proof. revert p. induction n; intros p; simpl; keep. Qed.
#[export] Hint Resolve user_remove user_insert user_find_from : keeps.
Lemma user_find_buffer dev block : keeps same_user (find_buffer dev block).
Proof. unfold find_buffer. keep. Qed.
Lemma user_brelse p : keeps same_user (brelse p).
Proof. unfold brelse. keep. Qed.
#[export] Hint Resolve user_find_buffer user_brelse : keeps.
Lemma user_get_hash_table n dev block : keeps same_user (get_hash_table n dev block).
Proof. induction n; simpl; keep. Qed.
Lemma user_find_free n p : keeps same_user (find_free n p).
Proof. revert p. induction n; intros p; simpl; keep. Qed.
#[export] Hint Resolve user_get_hash_table user_find_free : keeps.
Lemma user_getblk dev block : keeps same_user (getblk dev block).
Proof. unfold getblk. generalize REPEAT. intros n. induction n; simpl; keep. Qed.
#[export] Hint Resolve user_getblk : keeps.
Lemma user_bread dev block : keeps same_user (bread dev block).
Proof. unfold bread. keep. Qed.
#[export] Hint Resolve user_bread : keeps.

(** ** Blocks of files *)

Lemma user_new_block dev : keeps same_user (new_block dev).
Proof. unfold new_block, find_zero_in, bh_set_bit. keep. Qed.
#[export] Hint Resolve user_new_block : keeps.
Lemma user_bmap p block create : keeps same_user (_bmap p block create).
Proof. unfold _bmap, bmap_zone, bmap_indirect. keep. Qed.
#[export] Hint Resolve user_bmap : keeps.
