(* ===== verification/NameiFacts.v ===== *)
(** * Directory look-ups *)

From S2P Require Import Namei FsFacts Frame FsBoot.

(** ** match *)

Definition user_byte (s : fs) (a : Z) : Z := default 0 (user s !! a).

Lemma get_fs_byte_Ret a s : get_fs_byte a s = Ret (user_byte s a) s.
Proof.
  assert (wp (get_fs_byte a) (λ r s', r = user_byte s a ∧ s' = s) s) as H by by apply wp_get_fs_byte.
  by apply wp_returns in H as (? & ? & ? & -> & ->).
Qed.

(** Entry [e] of the block is in use and has exactly the name of [len] chars. *)
Definition entry_is (s : fs) (len name : Z) (d : list Z) (e : Z) : Prop :=
  de_inode d e ≠ 0 ∧ len ≤ 14 ∧ (len < 14 → de_name d e len = 0) ∧
  ∀ k, 0 ≤ k < len → user_byte s (name + k) = de_name d e k.

Lemma match_run s len name d e : 0 ≤ len →
  ∃ r : bool, match_ len name d e s = Ret r s ∧ (r = true ↔ entry_is s len name d e).
Proof.
  intros Hlen. unfold match_, entry_is. change (Z.of_nat NAME_LEN) with 14.
  destruct (Z.eqb_spec (de_inode d e) 0) as [Hi|Hi]; simpl orb.
  { exists false. split; [done|]. split; [done|]. intros [H _]. done. }
  destruct (Z.ltb_spec 14 len) as [H14|H14].
  { exists false. split; [done|]. split; [done|]. intros (_ & H & _). lia. }
  destruct ((len <? 14) && truth (de_name d e len)) eqn:Hz.
  { exists false. split; [done|]. split; [done|]. intros (_ & _ & H & _).
    apply andb_prop in Hz as [Hl Ht]. apply Z.ltb_lt in Hl. apply truth_true in Ht. by destruct Ht; apply H. }
  assert (len < 14 → de_name d e len = 0) as Hend.
  { intros Hl. apply andb_false_iff in Hz as [Hz|Hz]; [apply Z.ltb_ge in Hz; lia|].
    by apply truth_false in Hz. }
  match goal with |- context [mloop ?body ?l] => assert (mloop body l s =
    Ret (if forallb (λ i, user_byte s (name + i) =? de_name d e i) l then None else Some false) s)
    as Hloop end.
  { apply mloop_test. intros i _. mstep (get_fs_byte_Ret (name + i) s). by destruct (_ =? _). }
  destruct (forallb _ _) eqn:Hall; eexists; (split; [exact (bind_ret _ _ _ _ _ Hloop)|]); simpl.
  - split; [|done]. intros _. split_and!; try done. intros k Hk.
    rewrite forallb_forall in Hall. apply Z.eqb_eq, Hall. apply list_elem_of_In, elem_of_upto. lia.
  - split; [done|]. intros (_ & _ & _ & Heq). exfalso.
    assert (forallb (λ i, user_byte s (name + i) =? de_name d e i) (upto (Z.to_nat len)) = true) as Ht.
    { apply forallb_forall. intros k Hk. apply list_elem_of_In, elem_of_upto in Hk.
      apply Z.eqb_eq, Heq. lia. }
    by rewrite Ht in Hall.
Qed.

Lemma s8_range x : -128 ≤ s8 x < 128.
Proof. unfold s8. dlia. Qed.
Lemma entry_is_7bit s len name d e k : entry_is s len name d e → 0 ≤ k < len →
  user_byte s (name + k) < 128.
Proof.
  intros (_ & _ & _ & H) Hk. rewrite H by done. unfold de_name. apply s8_range.
Qed.

(** ** find_entry *)

(** A name with a char from 128 up among those that are compared. *)
Definition has_8bit (u : gmap Z Z) (name namelen : Z) : Prop :=
  ∃ k, 0 ≤ k < namelen ∧ 128 ≤ default 0 (u !! (name + k)).

Lemma match_8bit s len name d e r s' : 0 ≤ len → has_8bit (user s) name len →
  match_ len name d e s = Ret r s' → r = false ∧ s' = s.
Proof.
  intros Hl (k & Hk & Hb) Hr. destruct (match_run s len name d e Hl) as (r0 & H0 & Hiff).
  rewrite H0 in Hr. apply Ret_inj in Hr as [<- <-]. split; [|done].
  destruct r0; [|done]. destruct Hiff as [Hm _].
  pose proof (entry_is_7bit _ _ _ _ _ k (Hm eq_refl) Hk). unfold user_byte in *. lia.
Qed.

Lemma find_entry_loop_8bit n u dir name len entries : 0 ≤ len → has_8bit u name len →
  ∀ i b e s r s', user s = u →
  find_entry_loop n dir name len entries i b e s = Ret r s' → r.1 = NULL.
Proof.
  intros Hl H8. induction n as [|n IH]; intros i b e s r s' Hu H; simpl in H;
    (destruct (entries <=? i); [apply bind_inv in H as (? & ? & _ & H); by apply Ret_inj in H as [<- _]|]);
    [done|].
  assert (∀ b e s r s', user s = u →
    (d ← bh b; x ← match_ len name (b_data d) e;
     if x : bool then mret (b, e) else find_entry_loop n dir name len entries (i + 1) b (e + 1)) s
    = Ret r s' → r.1 = NULL) as Htry.
  { clear -IH Hl H8. intros b e s r s' Hu H.
    apply bind_inv in H as (d & s1 & Hd & H). apply user_bh in Hd.
    apply bind_inv in H as (x & s2 & Hx & H).
    assert (user s1 = u) as Hu1 by (rewrite Hd; done).
    apply match_8bit in Hx as [-> ->]; [|done|by rewrite Hu1]. by eapply IH. }
  apply bind_inv in H as (past & s1 & Hp & H).
  assert (user s1 = u) as Hu1.
  { unfold past_end in Hp. destruct (b =? NULL); [done|]. apply Ret_inj in Hp as [_ <-]. done. }
  destruct (negb past); [by eapply Htry|].
  apply bind_inv in H as ([] & s2 & Hr & H). apply user_brelse in Hr.
  apply bind_inv in H as (blk & s3 & Hb & H). apply user_bmap in Hb.
  apply bind_inv in H as (x & s4 & Hi & H). apply user_inode in Hi.
  apply bind_inv in H as (b' & s5 & Hbr & H).
  assert (same_user s4 s5) as Hs5.
  { destruct (blk =? 0); [by apply Ret_inj in Hbr as [_ <-]|by apply user_bread in Hbr]. }
  unfold same_user in *.
  assert (user s5 = u) as Hu5 by congruence.
  destruct (b' =? NULL); [by eapply IH|by eapply Htry].
Qed.

(** Names with 8-bit characters are never found: get_fs_byte returns an
    unsigned char and the names of a directory are (signed) chars, so match says
    no for every entry, the one created with that very name included, and a
    look-up that returns at all returns NULL.  For names below 128 match is
    exact: it says yes for an entry in use whose name is the given one, with no
    char after it, and for no other. *)
Theorem find_entry_misses_8bit_names s dir name namelen : 0 ≤ namelen →
  (∀ d e, ∃ r : bool, match_ namelen name d e s = Ret r s ∧
     (r = true ↔ entry_is s namelen name d e)) ∧
  (has_8bit (user s) name (Z.min namelen 14) →
   ∀ b e s', find_entry dir name namelen s = Ret (b, e) s' → b = NULL).
Proof.
  intros Hn. split; [intros d e; by apply match_run|].
  intros H8 b e s' H. unfold find_entry in H. change (Z.of_nat NAME_LEN) with 14 in H.
  assert ((if 14 <? namelen then 14 else namelen) = Z.min namelen 14) as Hmin.
  { destruct (Z.ltb_spec 14 namelen); lia. }
  rewrite Hmin in H.
  apply bind_inv in H as (x & s1 & Hx & H). apply user_inode in Hx.
  destruct (Z.min namelen 14 =? 0); [by apply Ret_inj in H as [[= <- <-] _]|].
  destruct (zone x 0 =? 0); [by apply Ret_inj in H as [[= <- <-] _]|].
  apply bind_inv in H as (b1 & s2 & Hb & H). apply user_bread in Hb.
  destruct (b1 =? NULL); [by apply Ret_inj in H as [[= <- <-] _]|].
  unfold same_user in *.
  eapply find_entry_loop_8bit in H; [exact H|lia|exact H8|congruence].
Qed.

(** ** A directory with such a name *)

(** Entry 0 is "é" in Latin-1 (byte 233), inode 7. *)
Definition dir_block : list Z := [7; 0; 233] ++ replicate 1021 0.
Definition latin_name : gmap Z Z := {[ 500 := 233; 501 := 0 ]}.
Definition fs_dir : fs := (with_user fs_boot latin_name)
  <| inode_table := (inode0 <| i_mode := 0x41ED |> <| i_nlinks := 2 |> <| i_size := 16 |>
       <| i_zone := [1; 0; 0; 0; 0; 0; 0; 0; 0] |> <| i_dev := 0x300 |> <| i_num := 1 |>
       <| i_count := 1 |>) :: replicate 31 inode0 |>
  <| media := <[(0, 2) := take 512 dir_block]> (<[(0, 3) := drop 512 dir_block]> drive0) |>.
Lemma find_entry_misses_8bit_names_witness :
  has_8bit (user fs_dir) 500 (Z.min 1 14) ∧
  (∃ e s', find_entry 1 500 1 fs_dir = Ret (NULL, e) s').
Proof.
  assert (user fs_dir = latin_name) as Hu by reflexivity.
  assert (has_8bit (user fs_dir) 500 (Z.min 1 14)) as H8.
  { exists 0. rewrite Hu. split; [lia|]. change (128 ≤ 233). lia. }
  split; [exact H8|].
  assert (match find_entry 1 500 1 fs_dir with Ret _ _ => true | _ => false end = true) as Hr
    by (vm_compute; reflexivity).
  destruct (find_entry 1 500 1 fs_dir) as [[b e] s'| | | | |] eqn:E; try discriminate Hr.
  exists e, s'. destruct (find_entry_misses_8bit_names fs_dir 1 500 1) as [_ H]; [lia|].
  by rewrite (H H8 b e s' E).
Defined.
