(* ===== verification/DirFacts.v ===== *)
(** * A directory is a list of named entries

    find_entry looks a name up in the entries of a directory, in order, over the
    blocks of the directory as files have them. *)

From S2P Require Export FileFacts.
From S2P Require Import Namei Cache CacheFacts FsBoot NameiFacts.

(** ** Names *)

Fixpoint until0 (l : list Z) : list Z :=
  match l with [] => [] | c :: l => if c =? 0 then [] else c :: until0 l end.
(** The name of entry [e] of a block: up to 14 chars. *)
Definition entry_name (d : list Z) (e : Z) : list Z := until0 (de_name d e <$> seqZ 0 14).

Lemma until0_eq nm : ∀ l, Forall (λ c, c ≠ 0) nm → (length nm ≤ length l)%nat →
  until0 l = nm ↔ (∀ k c, nm !! k = Some c → l !! k = Some c) ∧ ((length nm < length l)%nat → l !! length nm = Some 0).
Proof.
  induction nm as [|c nm IH]; intros [|b l] Hnm Hl; simpl in Hl; try lia.
  - simpl. split; [|done]. intros _. split; [done|lia].
  - simpl. destruct (Z.eqb_spec b 0) as [->|Hb].
    + split; [|done]. intros _. by split.
    + split; [done|]. intros [_ H]. specialize (H ltac:(lia)). congruence.
  - apply Forall_cons in Hnm as [Hc Hnm]. simpl. destruct (Z.eqb_spec b 0) as [->|Hb].
    + split; [done|]. intros [H _]. specialize (H O c eq_refl). simpl in H. congruence.
    + specialize (IH l Hnm ltac:(lia)). split.
      * intros [= -> E]. destruct (proj1 IH E) as [H1 H2]. split; [|intros; apply H2; lia].
        intros [|k] x Hx; simpl in *; [congruence|by apply H1].
      * intros [H1 H2]. pose proof (H1 O c eq_refl) as E. simpl in E. injection E as ->. f_equal. apply IH.
        split; [intros k x Hx; by apply (H1 (S k))|intros; apply H2; lia].
Qed.

(** The name that a look-up compares: the string, cut at 14. *)
Definition look_name (nm : list Z) : list Z := take 14 nm.
Lemma entry_is_name s a nm d e : at_bytes (user s) a nm → chars nm → (length nm ≤ 14)%nat →
  entry_is s (zlen nm) a d e ↔ de_inode d e ≠ 0 ∧ entry_name d e = nm.
Proof.
  intros Ha Hc Hl. unfold entry_is, entry_name.
  assert (length (de_name d e <$> seqZ 0 14) = 14%nat) as Hlen by done.
  rewrite until0_eq; [|eapply Forall_impl; [exact Hc|simpl; lia]|lia]. rewrite Hlen.
  assert (∀ k, 0 ≤ k < 14 → (de_name d e <$> seqZ 0 14) !! Z.to_nat k = Some (de_name d e k)) as Hk.
  { intros k Hk. rewrite list_lookup_fmap, lookup_seqZ_lt by lia. simpl. f_equal. f_equal. lia. }
  rewrite at_bytes_lookup in Ha. split.
  - intros (Hi & _ & Hend & Heq). split; [done|]. split.
    + intros k c Hkc. pose proof (lookup_lt_Some _ _ _ Hkc). specialize (Heq (Z.of_nat k) ltac:(lia)).
      unfold user_byte in Heq. rewrite (Ha k c Hkc) in Heq. simpl in Heq.
      rewrite <-(Nat2Z.id k), Hk by lia. congruence.
    + intros Hlt. rewrite <-(Nat2Z.id (length nm)), Hk, Hend by lia. done.
  - intros (Hi & Heq & Hend). split; [done|]. split; [lia|]. split.
    + intros Hlt. specialize (Hend ltac:(lia)). rewrite <-(Nat2Z.id (length nm)), Hk in Hend by lia. congruence.
    + intros k Hk'. destruct (lookup_lt_is_Some_2 nm (Z.to_nat k)) as [c Hkc]; [lia|].
      pose proof (Heq _ _ Hkc) as E. rewrite Hk in E by lia. unfold user_byte.
      pose proof (Ha _ _ Hkc) as Hm. rewrite Z2Nat.id in Hm by lia. rewrite Hm. simpl. congruence.
Qed.

Section Directory.
Context (D start nr : Z).
Implicit Types s : fs.

(** Entry [k] of a directory: it is in use and has this name. *)
Definition entry_inode s (x : m_inode) (k : Z) : Z := de_inode (file_block D start s x (k / 64)) (k mod 64).
Definition hit s (x : m_inode) (nm : list Z) (k : Z) : Prop :=
  entry_inode s x k ≠ 0 ∧ entry_name (file_block D start s x (k / 64)) (k mod 64) = nm.
(** The blocks of a directory are all there. *)
Definition dir_ok s (x : m_inode) : Prop :=
  0 ≤ i_size x < 2 ^ 31 ∧ file_ok D start nr s x (i_size x) ∧
  ∀ n, 0 ≤ n → 1024 * n < i_size x → zone_of D start s x n ≠ 0.

(** What a look-up of the entries from [i] on finds. *)
Definition found s (x : m_inode) (nm : list Z) (i entries : Z) (r : Z * Z) s' : Prop :=
  (∃ k s1 b, i ≤ k < entries ∧ hit s x nm k ∧ (∀ j, i ≤ j < k → ¬ hit s x nm j) ∧
     calm D start nr s s1 ∧ taken_block D start nr s1 (zone_of D start s x (k / 64)) r.1 b s' ∧ r.2 = k mod 64 ∧
     b_data b = file_block D start s x (k / 64)) ∨
  (r.1 = NULL ∧ (∀ j, i ≤ j < entries → ¬ hit s x nm j) ∧ calm D start nr s s').

Lemma found_skip s x nm i entries r s' : ¬ hit s x nm i → found s x nm (i + 1) entries r s' → found s x nm i entries r s'.
Proof.
  intros Hn [(k & s1 & b & Hk & Hh & Hj & F)|(Hr & Hj & F)]; [left|right].
  - exists k, s1, b. split; [lia|]. split; [done|]. split; [|done]. intros j Hji.
    destruct (decide (j = i)) as [->|]; [done|]. apply Hj. lia.
  - split; [done|]. split; [|done]. intros j Hji. destruct (decide (j = i)) as [->|]; [done|]. apply Hj. lia.
Qed.
(** The end of a look-up that found nothing. *)
Lemma wp_give_back s s1 z b bb s2 x nm i entries : entries ≤ i → calm D start nr s s1 →
  taken_block D start nr s1 z b bb s2 →
  wp (brelse b;; mret (NULL, 0)) (found s x nm i entries) s2.
Proof.
  intros Hi C1 T. apply wp_bind. eapply wp_mono; [apply (wp_release _ _ _ _ _ _ _ _ _ T), same_cache_refl|].
  intros [] s3 (S3 & E1 & E2 & E3). destruct (tb_files _ _ _ _ _ _ _ _ T) as (F1 & F2 & F3).
  apply wp_ret. right. split; [done|]. split; [lia|]. eapply calm_trans; [exact C1|]. split; [done|]. split_and!; congruence.
Qed.

Lemma wp_find_entry_loop dir x a nm entries fuel s : cache_ok D start nr s → room s → 1 ≤ dir →
  inode_table s !! Z.to_nat (dir - 1) = Some x → i_dev x = D → dir_ok s x → 16 * entries ≤ i_size x →
  at_bytes (user s) a nm → chars nm → (length nm ≤ 14)%nat →
  ∀ i n e b bb s1 s2, i = 64 * n + e → 0 ≤ e ≤ 64 → 0 ≤ n → 64 * n < entries → entries ≤ i + Z.of_nat fuel →
  calm D start nr s s1 → taken_block D start nr s1 (zone_of D start s x n) b bb s2 →
  wp (find_entry_loop fuel dir a (zlen nm) entries i b e) (found s x nm i entries) s2.
Proof.
  intros HC Hroom Hdir Hx HD (Hsz & [Hmax Hblocks] & Hz) Hent Ha Hc Hl.
  assert (∀ s1, calm D start nr s s1 → cache_ok D start nr s1 ∧ room s1 ∧
    inode_table s1 !! Z.to_nat (dir - 1) = Some x) as Hcalm.
  { intros s1 (S & E & _). split; [apply S|]. split; [by apply (steady_room D start nr s)|by rewrite E]. }
  induction fuel as [|fuel IH]; intros i n e b bb s1 s2 Hi He Hn Hne Hfuel HS T; cbn [find_entry_loop];
    (destruct (Z.leb_spec entries i); [by apply (wp_give_back s s1 (zone_of D start s x n) b bb)|]); [lia|].
  (* the test of an entry *)
  assert (∀ n e b bb s1 s2, i = 64 * n + e → 0 ≤ e < 64 → 0 ≤ n → calm D start nr s s1 →
    taken_block D start nr s1 (zone_of D start s x n) b bb s2 →
    wp (d ← bh b; r ← match_ (zlen nm) a (b_data d) e;
        if r : bool then mret (b, e) else find_entry_loop fuel dir a (zlen nm) entries (i + 1) b (e + 1))
      (found s x nm i entries) s2) as Htry.
  { clear - IH Ha Hc Hl Hz Hfuel Hent Hblocks H. intros n e b bb s1 s2 Hi He Hn HS T.
    apply wp_bind, (wp_bh b bb _ _ (tb_head _ _ _ _ _ _ _ _ T)).
    assert (user s2 = user s) as Hu.
    { destruct (tb_files _ _ _ _ _ _ _ _ T) as (_ & _ & ->). apply HS. }
    assert (b_data bb = file_block D start s x n) as Hdata.
    { unfold file_block. rewrite (proj2 (Z.eqb_neq _ 0)) by (apply Hz; lia).
      destruct (Hblocks n) as [[E|Hv] _]; [lia|lia|by destruct (Hz n ltac:(lia) ltac:(lia))|].
      destruct HS as [S _]. by rewrite <-(st_content _ _ _ _ _ S _ Hv), (tb_data _ _ _ _ _ _ _ _ T). }
    destruct (match_run s2 (zlen nm) a (b_data bb) e) as (r & Hr & Hiff); [lia|].
    apply wp_bind. eapply wp_of_ret; [exact Hr|].
    assert (i / 64 = n ∧ i mod 64 = e) as [Hin Hie] by dlia.
    assert (r = true ↔ hit s x nm i) as Hhit.
    { rewrite Hiff, entry_is_name by (done || by rewrite Hu). unfold hit, entry_inode. by rewrite Hin, Hie, Hdata. }
    destruct r.
    - apply wp_ret. left. exists i, s1, bb. simpl. rewrite Hin, Hie. split; [lia|]. split; [by apply Hhit|].
      split; [lia|]. done.
    - eapply wp_mono; [apply (IH (i + 1) n (e + 1) b bb s1 s2); done || lia|]. intros r s' F.
      apply found_skip; [|done]. intros Hh. apply Hhit in Hh. done. }
  apply wp_bind. unfold past_end. rewrite (proj2 (Z.eqb_neq b NULL) (tb_pointer _ _ _ _ _ _ _ _ T)). apply wp_ret.
  change DIR_ENTRIES_PER_BLOCK with 64. destruct (Z.leb_spec 64 e) as [H64|H64]; simpl negb; cbv iota.
  2: { apply (Htry n e b bb s1 s2); done || lia. }
  apply wp_bind. eapply wp_mono; [apply (wp_release _ _ _ _ _ _ _ _ _ T), same_cache_refl|].
  intros [] s3 (S3 & E1 & E2 & E3). destruct (tb_files _ _ _ _ _ _ _ _ T) as (F1 & F2 & F3).
  assert (calm D start nr s s3) as C3.
  { eapply calm_trans; [exact HS|]. split; [done|]. split_and!; congruence. }
  destruct (Hcalm s3 C3) as (HC3 & Hroom3 & Hx3). rewrite s32_small by dlia.
  assert (i / 64 = n + 1) as -> by dlia. assert (block_ok D start nr s x (n + 1)) as Hbn by (apply Hblocks; lia).
  destruct (zone_of_steady D start nr s s3 x (n + 1) (proj1 C3) Hbn) as [Hz3 Hbn3].
  apply wp_bind. eapply wp_mono.
  { apply (wp_bmap D start nr s3 dir x (n + 1) false); try done. unfold max_blocks in *. dlia. }
  intros z s4 [-> C4]. rewrite Hz3. assert (calm D start nr s s4) as C4' by (by eapply calm_trans).
  destruct (Hcalm s4 C4') as (HC4 & Hroom4 & Hx4).
  assert (zone_of D start s x (n + 1) ≠ 0) as Hzn by (apply Hz; lia).
  apply wp_bind, (wp_inode dir x); [done..|]. rewrite (proj2 (Z.eqb_neq _ 0) Hzn), HD. apply wp_bind.
  apply (wp_take_block D start nr); [done|by destruct Hbn as [[|] _]|done|]. intros b5 bb5 s5 T5.
  rewrite (proj2 (Z.eqb_neq b5 NULL) (tb_pointer _ _ _ _ _ _ _ _ T5)).
  apply (Htry (n + 1) 0 b5 bb5 s4 s5); done || lia.
Qed.

Lemma until0_elem c : ∀ l, c ∈ until0 l → c ∈ l.
Proof.
  intros l. induction l as [|b l IH]; simpl; [done|]. destruct (b =? 0); [by intros ?%elem_of_nil|].
  intros [->|H]%elem_of_cons; [by left|right; auto].
Qed.
Lemma no_hit_8bit s x nm k c : c ∈ nm → 128 ≤ c → ¬ hit s x nm k.
Proof.
  intros Hc H8 [_ E]. rewrite <-E in Hc. apply until0_elem, list_elem_of_fmap in Hc as (j & -> & _).
  pose proof (s8_range (byte_at (file_block D start s x (k / 64)) (16 * (k mod 64) + 2 + j))). unfold de_name in H8. lia.
Qed.

(** C17: find_entry finds the first entry with a name.  In a directory whose blocks
    are all there it returns the first entry, in the order of the blocks of the
    file, that is in use and whose name is the one given, cut at 14 characters,
    in a buffer with the block of this entry and one user more; or NULL, if no
    entry has the name.  Nothing changes but the cache, which keeps its
    invariant.  A name with a character from 128 on is the name of no entry, even
    of the one that was created with it. *)
Theorem find_entry_finds_first s dir x a nm : cache_ok D start nr s → room s → 1 ≤ dir →
  inode_table s !! Z.to_nat (dir - 1) = Some x → i_dev x = D → dir_ok s x → 16 ≤ i_size x →
  at_bytes (user s) a nm → chars nm → nm ≠ [] →
  wp (find_entry dir a (zlen nm)) (found s x (take 14 nm) 0 (i_size x / 16)) s ∧
  ((∃ c, c ∈ take 14 nm ∧ 128 ≤ c) → ∀ k, ¬ hit s x (take 14 nm) k).
Proof.
  intros HC Hroom Hdir Hx HD Hok Hsz Ha Hc Hnm.
  split; [|intros (c & Hin & H8) k; by apply (no_hit_8bit s x _ k c)].
  pose proof Hok as (Hsize & [_ Hblocks] & Hz). unfold find_entry. change (Z.of_nat NAME_LEN) with 14.
  assert ((if 14 <? zlen nm then 14 else zlen nm) = zlen (take 14 nm)) as ->.
  { rewrite length_take. destruct (Z.ltb_spec 14 (zlen nm)); lia. }
  apply wp_bind, (wp_inode dir x); [done..|]. cbv zeta. rewrite s32_small by dlia.
  assert (0 < zlen (take 14 nm)) as Hpos by (destruct nm; [done|simpl; lia]).
  rewrite (proj2 (Z.eqb_neq (zlen (take 14 nm)) 0)) by lia.
  assert (zone x 0 ≠ 0) as Hz0 by (apply (Hz 0); lia). rewrite (proj2 (Z.eqb_neq (zone x 0) 0) Hz0), HD.
  assert (valid nr (zone x 0)) as Hv. { destruct (Hblocks 0) as [[|] _]; [lia|lia|done|done]. }
  apply wp_bind, (wp_take_block D start nr); [done..|]. intros b bb s1 T.
  rewrite (proj2 (Z.eqb_neq b NULL) (tb_pointer _ _ _ _ _ _ _ _ T)).
  apply (wp_find_entry_loop dir x a (take 14 nm) (i_size x / 16) _ s HC Hroom Hdir Hx HD Hok) with (n := 0) (s1 := s) (bb := bb);
    try (done || lia || dlia).
  - rewrite <-(take_drop 14 nm) in Ha. by apply at_app in Ha as [Ha _].
  - by apply Forall_take.
  - rewrite length_take. lia.
  - by apply calm_refl.
Qed.
End Directory.

(** ** A directory in block 3, whose two entries are full of the byte 6 *)

Definition dir_six : m_inode := MInode 0x41ED 0 32 0 0 2 [3; 0; 0; 0; 0; 0; 0; 0; 0] 0 0 0x300 1 1 0 0 0 0 0 0.
Definition six_name : list Z := replicate 16 6.
Definition fs_six : fs := with_user (with_file dir_six fs_boot) (blit 4096 six_name ∅).
Lemma with_user_cache D start nr s u : cache_ok D start nr s → cache_ok D start nr (with_user s u).
Proof. intros HC. by apply (cache_ok_ext D start nr s). Qed.
Lemma fs_six_dir : dir_ok 0x300 0 64 fs_six dir_six.
Proof.
  split; [done|]. split; [split; [done|]|]; intros n Hn Hlt; assert (n = 0) as -> by (simpl in Hlt; lia).
  - split; [|lia]. right. change (zone_of 0x300 0 fs_six dir_six 0) with 3. split; lia.
  - done.
Qed.
Lemma find_entry_finds_first_witness :
  wp (find_entry 1 4096 16) (found 0x300 0 64 fs_six dir_six (replicate 14 6) 0 2) fs_six.
Proof.
  destruct (boot_file_cache dir_six) as [HC HR].
  refine (proj1 (find_entry_finds_first 0x300 0 64 fs_six 1 dir_six 4096 six_name _ _ _ _ _ _ _ _ _ _)).
  - exact (with_user_cache _ _ _ _ _ HC).
  - exact HR.
  - lia.
  - reflexivity.
  - reflexivity.
  - exact fs_six_dir.
  - discriminate.
  - apply at_blit.
  - apply chars_check. reflexivity.
  - discriminate.
Defined.
