(* ===== verification/Alloc.v ===== *)
(** * Blocks are allocated once

    The bitmap of a mounted partition is the set of its used zones: new_block
    takes the least free one and clears it, free_block gives it back, and neither
    touches anything else. *)

From S2P Require Export FileWrite.
From S2P Require Import Bitmap BitmapFacts Cache CacheFacts FsBoot.

(** ** get_super *)

Lemma sblock_Ret s p x : 1 ≤ p → super_block s !! Z.to_nat (p - 1) = Some x → sblock p s = Ret x s.
Proof. intros Hp Hx. unfold sblock, gets, mbind, M_bind. apply index_Some; [lia|done]. Qed.

(** [sb] is the first entry of the table with this device. *)
Definition super_of (s : fs) (dev sb : Z) (x : superblock) : Prop :=
  1 ≤ sb ≤ 8 ∧ super_block s !! Z.to_nat (sb - 1) = Some x ∧ s_dev x = dev ∧ length (super_block s) = 8%nat ∧
  ∀ k y, 0 ≤ k < sb - 1 → super_block s !! Z.to_nat k = Some y → s_dev y ≠ dev.
Lemma get_super_run s dev sb x : super_of s dev sb x → get_super dev s = Ret sb s.
Proof.
  intros (Hsb & Hx & Hd & Hl & Hno).
  assert (wp (mloop (λ k, s ← sblock (k + 1); mret (if s_dev s =? dev then Some (k + 1) else None)) (upto NR_SUPER))
    (λ r s', s' = s ∧ r = Some sb) s) as H.
  { apply (wp_mloop_upto _ (λ k s', s' = s ∧ Z.of_nat k < sb)).
    - split; [done|lia].
    - intros k s' Hk [-> Hks]. destruct (lookup_lt_is_Some_2 (super_block s) k) as [y Hy].
      { rewrite Hl. unfold NR_SUPER in Hk. lia. }
      apply wp_bind. eapply wp_of_ret.
      { apply (sblock_Ret s _ y); [lia|]. by replace (Z.to_nat (Z.of_nat k + 1 - 1)) with k by lia. }
      apply wp_ret. destruct (decide (Z.of_nat k = sb - 1)) as [E|E].
      + assert (y = x) as -> by (rewrite <-E, Nat2Z.id in Hx; congruence). rewrite Hd, Z.eqb_refl. split; [done|]. f_equal. lia.
      + destruct (Z.eqb_spec (s_dev y) dev) as [Ey|].
        * exfalso. apply (Hno (Z.of_nat k) y); [lia|by rewrite Nat2Z.id|done].
        * split; [done|]. lia.
    - intros s' [-> Hk]. unfold NR_SUPER in Hk. lia. }
  apply wp_returns in H as (r & s' & E & -> & ->). unfold get_super. by mstep E.
Qed.

Section Alloc.
Context (D start nr : Z).
Implicit Types s : fs.

(** ** The bitmap of a mounted partition *)

(** Block [k] of the bitmap of zones, behind the boot block, the super block and
    the bitmap of inodes. *)
Definition zmap_block (x : superblock) (k : Z) : Z := 2 + s_imap_blocks x + k.
(** The buffer [p] belongs to block [blk], has a user and is up to date. *)
Definition pinned s (p blk : Z) : Prop :=
  ∃ b, heads s !! p = Some b ∧ key b = (D, blk) ∧ 1 ≤ b_count b ∧ b_uptodate b ≠ 0.
(** The zones of the partition that hold data. *)
Definition data_zone (x : superblock) (z : Z) : Prop := s_firstdatazone x ≤ z < s_nzones x.
(** Bit [n] of the bitmap. *)
Definition map_bit s (x : superblock) (n : Z) : bool :=
  bit (default [] (content D start s (zmap_block x (n / 8192)))) (n mod 8192).
Definition used s (x : superblock) (z : Z) : bool := map_bit s x (z - (s_firstdatazone x - 1)).

(** What do_mount leaves: the bitmap is in pinned buffers, its first bit is
    set; and it is long enough, and in front of the zones with data. *)
Record mounted s (sb : Z) (x : superblock) : Prop := Mounted {
  mo_super : super_of s D sb x;
  mo_shape : 0 ≤ s_imap_blocks x ∧ 0 < s_zmap_blocks x ≤ 8 ∧ length (s_zmap x) = 8%nat ∧
    zmap_block x (s_zmap_blocks x) ≤ s_firstdatazone x ∧ s_nzones x < 65536 ∧ 2 * s_nzones x ≤ nr ∧
    s_nzones x - s_firstdatazone x + 1 ≤ 8192 * s_zmap_blocks x;
  mo_maps : ∀ k, 0 ≤ k < s_zmap_blocks x → ∃ p, s_zmap x !! Z.to_nat k = Some p ∧ pinned s p (zmap_block x k) ∧
    is_block (default [] (content D start s (zmap_block x k)));
  mo_rest : ∀ k, s_zmap_blocks x ≤ k < 8 → s_zmap x !! Z.to_nat k = Some NULL;
  mo_first : map_bit s x 0 = true
}.
(** No task has a buffer of a free zone. *)
Definition free_unheld s (x : superblock) : Prop := ∀ p b, heads s !! p = Some b → b_dev b = D →
  data_zone x (b_blocknr b) → used s x (b_blocknr b) = false → b_count b = 0.

Lemma pinned_kept s s' p blk : users_kept s s' → pinned s p blk → pinned s' p blk.
Proof.
  intros HK (b & Hb & Hk & Hc & Hu). destruct (HK p b Hb) as (b' & Hb' & Ec & Hkk). destruct Hkk as [Ek Huu]; [lia|].
  exists b'. split; [done|]. split; [congruence|]. split; [lia|auto].
Qed.
Lemma pinned_head s p blk : cache_ok D start nr s → pinned s p blk → ∃ b, heads s !! p = Some b ∧ b_dev b = D ∧
  b_blocknr b = blk ∧ 1 ≤ b_count b ∧ b_uptodate b ≠ 0 ∧ content D start s blk = Some (b_data b) ∧ p ≠ 0.
Proof.
  intros [_ HD] (b & Hb & Hk & Hc & Hu). unfold key in Hk. injection Hk as Hd Hbl. exists b. split_and!; try done.
  - by apply (content_cached D start nr s blk p b).
  - intros ->. assert (1 ≤ 0 ≤ Z.of_nat (nr_buffers s)); [apply (do_dom _ _ _ s HD); eauto|lia].
Qed.

Lemma zmap_block_valid s sb x k : mounted s sb x → 0 ≤ k < s_zmap_blocks x → s_firstdatazone x ≤ s_nzones x →
  valid nr (zmap_block x k) ∧ zmap_block x k < s_firstdatazone x.
Proof. intros [_ (? & ? & _ & Hf & ? & ? & _) _ _ _] Hk Hz. unfold valid, zmap_block in *. lia. Qed.
Lemma data_zone_valid s sb x z : mounted s sb x → data_zone x z → valid nr z.
Proof. intros [_ (? & ? & _ & Hf & ? & ? & _) _ _ _] Hk. unfold valid, zmap_block, data_zone in *. lia. Qed.

(** The map bits are those of the blocks. *)
Lemma map_bit_block s x k n : 0 ≤ n < 8192 →
  map_bit s x (k * 8192 + n) = bit (default [] (content D start s (zmap_block x k))) n.
Proof.
  intros Hn. unfold map_bit. replace ((k * 8192 + n) / 8192) with k by dlia.
  by replace ((k * 8192 + n) mod 8192) with n by dlia.
Qed.

(** ** The search *)

Lemma wp_find_zero s sb x : cache_ok D start nr s → mounted s sb x →
  wp (find_zero_in (s_zmap x)) (λ r s', s' = s ∧
    match r with
    | Some (k, p, j) => 0 ≤ k < s_zmap_blocks x ∧ s_zmap x !! Z.to_nat k = Some p ∧ 0 ≤ j < 8192 ∧
        map_bit s x (k * 8192 + j) = false ∧ ∀ n, 0 ≤ n < k * 8192 + j → map_bit s x n = true
    | None => ∀ n, 0 ≤ n < 8192 * s_zmap_blocks x → map_bit s x n = true
    end) s.
Proof.
  intros HC HM. pose proof (mo_shape _ _ _ HM) as (? & Hz & Hl & _). unfold find_zero_in.
  change (upto 8) with (upto 8%nat).
  apply (wp_mloop_upto _ (λ i s', s' = s ∧ ∀ n, 0 ≤ n < 8192 * Z.min (Z.of_nat i) (s_zmap_blocks x) → map_bit s x n = true)).
  - split; [done|]. lia.
  - intros i s' Hi [-> Hfull]. destruct (Z.ltb_spec (Z.of_nat i) (s_zmap_blocks x)) as [Hlt|Hge].
    + destruct (mo_maps _ _ _ HM (Z.of_nat i)) as (p & Hp & Hpin & Hblk); [lia|].
      destruct (pinned_head s p _ HC Hpin) as (b & Hb & _ & _ & _ & _ & Hcont & Hp0).
      rewrite Hcont in Hblk. simpl in Hblk.
      apply wp_bind. eapply wp_of_ret; [apply index_Some; [lia|exact Hp]|].
      rewrite (proj2 (Z.eqb_neq p NULL) Hp0). apply wp_bind, (wp_bh p b); [done|]. cbv zeta.
      assert (∀ n, 0 ≤ n < 8192 → map_bit s x (Z.of_nat i * 8192 + n) = bit (b_data b) n) as Hbit.
      { intros n Hn. rewrite map_bit_block by done. by rewrite Hcont. }
      destruct (find_first_zero_cases (b_data b) Hblk) as [[-> Hall]|(Hj & Hjb & Hbelow)]; apply wp_ret.
      * simpl. split; [done|]. intros n Hn. destruct (decide (n < 8192 * Z.of_nat i)); [apply Hfull; lia|].
        replace n with (Z.of_nat i * 8192 + (n - Z.of_nat i * 8192)) by lia. rewrite Hbit by lia. apply Hall. lia.
      * rewrite (proj2 (Z.ltb_lt _ 8192)) by lia. split; [done|]. split; [lia|]. split; [done|]. split; [lia|].
        split; [by rewrite Hbit|]. intros n Hn. destruct (decide (n < 8192 * Z.of_nat i)); [apply Hfull; lia|].
        replace n with (Z.of_nat i * 8192 + (n - Z.of_nat i * 8192)) by lia. rewrite Hbit by lia. apply Hbelow. lia.
    + apply wp_bind. eapply wp_of_ret; [apply index_Some; [lia|apply (mo_rest _ _ _ HM); lia]|].
      apply wp_ret. split; [done|]. intros n Hn. apply Hfull. lia.
  - intros s' [-> Hfull]. split; [done|]. intros n Hn. apply Hfull. lia.
Qed.

(** ** Changes of the bitmap *)

Lemma mounted_pinned s s' sb x : mounted s sb x → (∀ p blk, pinned s p blk → pinned s' p blk) →
  super_block s' = super_block s →
  (∀ k, 0 ≤ k < s_zmap_blocks x → is_block (default [] (content D start s' (zmap_block x k)))) →
  map_bit s' x 0 = true → mounted s' sb x.
Proof.
  intros [H1 H2 H3 H4 H5] HK HS HB H0. split; [|done| |done|done].
  - unfold super_of. by rewrite HS.
  - intros k Hk. destruct (H3 k Hk) as (p & Hp & Hpin & _). exists p. auto.
Qed.
Lemma mounted_kept s s' sb x : mounted s sb x → users_kept s s' → super_block s' = super_block s →
  (∀ k, 0 ≤ k < s_zmap_blocks x → is_block (default [] (content D start s' (zmap_block x k)))) →
  map_bit s' x 0 = true → mounted s' sb x.
Proof. intros HM HK. apply (mounted_pinned s); [done|]. intros p blk. by apply pinned_kept. Qed.

(** A store into a buffer that holds a block. *)
Lemma store_block s p b v : cache_ok D start nr s → heads s !! p = Some b → b_dev b = D → b_uptodate b ≠ 0 →
  length v = 1024%nat →
  let s' := s <| heads := <[p := b <| b_data := v |> <| b_dirt := 1 |>]> (heads s) |> in
  cache_ok D start nr s' ∧ only_cache s s' ∧ users_kept s s' ∧ content D start s' (b_blocknr b) = Some v ∧
  ∀ blk, blk ≠ b_blocknr b → content D start s' blk = content D start s blk.
Proof.
  intros HC Hb Hd Hu Hv s'. pose proof (wp_modify_block D start nr s p b v HC Hb Hd Hu Hv) as H.
  assert (set_bh p (λ b, b <| b_data := v |> <| b_dirt := 1 |>) s = Ret tt s') as Erun.
  { unfold set_bh. by rewrite (bind_ret _ _ _ _ _ (bh_Ret p b s Hb)). }
  unfold wp in H. rewrite Erun in H. destruct H as (? & ? & _ & ? & ?). split_and!; try done.
  intros q c Hq. simpl. destruct (decide (q = p)) as [->|].
  - rewrite lookup_insert_eq. eexists. split; [done|]. by rewrite Hb in Hq; injection Hq as <-.
  - rewrite lookup_insert_ne by done. eauto.
Qed.

(** Block [k] of the bitmap has become [d]. *)
Lemma map_stored s sb x k p b d : cache_ok D start nr s → mounted s sb x → 0 ≤ k < s_zmap_blocks x →
  heads s !! p = Some b → b_dev b = D → b_blocknr b = zmap_block x k → b_uptodate b ≠ 0 → is_block d →
  (k = 0 → bit d 0 = true) →
  let s' := s <| heads := <[p := b <| b_data := d |> <| b_dirt := 1 |>]> (heads s) |> in
  cache_ok D start nr s' ∧ only_cache s s' ∧ users_kept s s' ∧ mounted s' sb x ∧
  (∀ blk, blk ≠ zmap_block x k → content D start s' blk = content D start s blk) ∧
  ∀ n, map_bit s' x n = if decide (n / 8192 = k) then bit d (n mod 8192) else map_bit s x n.
Proof.
  intros HC HM Hk Hb Hd Hbl Hu Hblk H0 s'.
  destruct (store_block s p b d HC Hb Hd Hu (proj1 Hblk)) as (HC' & HO' & HK' & Hc & Ho). rewrite Hbl in Hc, Ho.
  fold s' in HC', HO', HK', Hc, Ho.
  assert (∀ n, map_bit s' x n = if decide (n / 8192 = k) then bit d (n mod 8192) else map_bit s x n) as Hbit.
  { intros n. unfold map_bit. case_decide as E; [by rewrite E, Hc|]. rewrite Ho; [done|]. unfold zmap_block. lia. }
  split_and!; try done. apply (mounted_kept s); try done.
  - intros k' Hk'. destruct (decide (k' = k)) as [->|]; [by rewrite Hc|].
    rewrite Ho by (unfold zmap_block; lia). by destruct (mo_maps _ _ _ HM k' Hk') as (? & _ & _ & ?).
  - rewrite Hbit. change (0 / 8192) with 0. change (0 mod 8192) with 0. case_decide; [auto|]. apply (mo_first _ _ _ HM).
Qed.

(** The blocks outside of the bitmap. *)
Definition off_map (x : superblock) (blk : Z) : Prop := ∀ k, 0 ≤ k < s_zmap_blocks x → blk ≠ zmap_block x k.
Lemma data_off_map s sb x z : mounted s sb x → data_zone x z → off_map x z.
Proof.
  intros HM Hz k Hk. destruct (zmap_block_valid s sb x k HM Hk); unfold data_zone in *; lia.
Qed.

(** The free zones are not held if the users are kept and no zone becomes free. *)
Lemma unheld_kept s s' x : cache_ok D start nr s → cache_ok D start nr s' → nr_buffers s' = nr_buffers s →
  users_kept s s' → free_unheld s x → (∀ z, data_zone x z → used s' x z = false → used s x z = false) → free_unheld s' x.
Proof.
  intros [_ HD] [_ HD'] HO HK HU Hused q c Hq Hqd Hz Hfree.
  assert (is_Some (heads s !! q)) as [c0 Hc0].
  { apply (do_dom _ _ _ s HD). rewrite <-HO. apply (do_dom _ _ _ s' HD'). eauto. }
  destruct (HK q c0 Hc0) as (c' & Hc' & Ec & Hk). rewrite Hq in Hc'. injection Hc' as <-.
  destruct (decide (b_count c0 = 0)) as [E|E]; [congruence|]. destruct (Hk E) as [Ek _].
  unfold key in Ek. injection Ek as Ed Eb. rewrite Ec. apply (HU q c0 Hc0); [congruence|by rewrite <-Eb|].
  rewrite <-Eb. auto.
Qed.

(** ** new_block *)

Record allocated s (sb : Z) (x : superblock) (z : Z) s' : Prop := Allocated {
  al_cache : cache_ok D start nr s';
  al_only : only_cache s s';
  al_users : users_kept s s';
  al_mounted : mounted s' sb x;
  al_unheld : free_unheld s' x;
  al_zone : data_zone x z;
  al_free : used s x z = false;
  al_least : ∀ z', data_zone x z' → z' < z → used s x z' = true;
  al_used : ∀ z', data_zone x z' → used s' x z' = bool_decide (z' = z) || used s x z';
  al_clear : content D start s' z = Some (replicate 1024 0);
  al_others : ∀ blk, valid nr blk → blk ≠ z → off_map x blk → content D start s' blk = content D start s blk
}.
Record full s (sb : Z) (x : superblock) s' : Prop := Full {
  fu_cache : cache_ok D start nr s';
  fu_only : only_cache s s';
  fu_users : users_kept s s';
  fu_mounted : mounted s' sb x;
  fu_used : ∀ z, data_zone x z → used s x z = true ∧ used s' x z = true;
  fu_others : ∀ blk, off_map x blk → content D start s' blk = content D start s blk
}.

(** The buffer of a free block that getblk gives: it has no other user. *)
Lemma wp_get_free s z : cache_ok D start nr s → room s → valid nr z →
  (∀ p b, heads s !! p = Some b → b_dev b = D → b_blocknr b = z → b_count b = 0) →
  wp (getblk D z) (λ p s', cache_ok D start nr s' ∧ p ≠ 0 ∧ held p s s' ∧ only_cache s s' ∧
    (∀ blk, valid nr blk → content D start s' blk = content D start s blk) ∧
    ∃ b, heads s' !! p = Some b ∧ key b = (D, z) ∧ b_count b = 1) s.
Proof.
  intros HC [Hfree Hlt] HV Hun. eapply wp_mono.
  { apply (wp_getblk D start nr s z); [done|apply HV|done|]. intros p b Hb _. by eapply Hlt. }
  intros p s' (HC' & Hp & Hheld & HO & Hc & b & Hb & Hk & Hcnt). split_and!; try done. exists b. split_and!; try done.
  assert (is_Some (heads s !! p)) as [b0 Hb0].
  { apply (do_dom _ _ _ s (proj2 HC)). rewrite <-(only_cache_n s s' HO). apply (do_dom _ _ _ s' (proj2 HC')). eauto. }
  destruct (Hheld p b0 Hb0) as (b1 & Hb1 & Ec & Hkk). rewrite decide_True in Ec by done.
  assert (b1 = b) as -> by congruence. destruct (decide (b_count b0 = 0)) as [E|E]; [lia|].
  destruct (Hkk E) as [Ek _]. rewrite Hk in Ek. unfold key in Ek. injection Ek as E1 E2. exfalso. by apply E, (Hun p).
Qed.

(** The block gets zeroes and is given back. *)
Lemma wp_clear_block {A} (K : M fs A) (Q : A → fs → Prop) s s1 z p b : cache_ok D start nr s1 → held p s s1 → only_cache s s1 →
  (∀ blk, valid nr blk → content D start s1 blk = content D start s blk) →
  heads s1 !! p = Some b → key b = (D, z) → b_count b = 1 →
  (∀ s', cache_ok D start nr s' → users_kept s s' → only_cache s s' → content D start s' z = Some clear_block →
     (∀ blk, valid nr blk → blk ≠ z → content D start s' blk = content D start s blk) →
     (∀ q c, heads s' !! q = Some c → b_dev c = D → b_blocknr c = z → b_count c = 0) → wp K Q s') →
  wp (set_bh p (λ b, b <| b_data := clear_block |>);;
      set_bh p (λ b, b <| b_uptodate := 1 |>);;
      set_bh p (λ b, b <| b_dirt := 1 |>);;
      brelse p;;
      K) Q s1.
Proof.
  intros HC Hheld HO Hcont Hb Hk Hcnt HK.
  assert (b_dev b = D ∧ b_blocknr b = z) as [Hd Hz] by (unfold key in Hk; split; congruence).
  apply wp_bind, (wp_set_bh p b); [done|]. apply wp_bind. eapply wp_set_bh; [simpl; apply lookup_insert_eq|].
  apply wp_bind. eapply wp_set_bh; [simpl; apply lookup_insert_eq|].
  set (b1 := b <| b_data := clear_block |> <| b_uptodate := 1 |> <| b_dirt := 1 |>).
  set (s2 := s1 <| heads := <[p := b1]> (heads s1) |>).
  assert (∀ s', s' = s2 → wp (brelse p;; K) Q s') as Hgoal; [|apply Hgoal; unfold s2; destruct s1; simpl; f_equal;
    by rewrite !insert_insert_eq].
  intros ? ->. pose proof HC as [HI HD].
  destruct (set_content D start nr s1 p b b1 HD Hb) as (HD2 & Hc2 & Ho2); try done.
  { destruct (do_head _ _ _ s1 HD p b Hb) as [? ? ? ? ? ? ?]. split; try done. simpl. intros; by right. }
  fold s2 in HD2, Hc2, Ho2. rewrite Hz in Hc2, Ho2.
  assert (cache_ok D start nr s2) as HC2.
  { split; [|done]. apply (cache_inv_set 0 s1 p b); [done..|by intros []|by right]. }
  assert (heads s2 !! p = Some b1) as Hb2 by apply lookup_insert_eq.
  apply wp_bind. eapply wp_mono; [apply (wp_brelse D start nr s2 p b1 HC2 Hb2); change (b_count b1) with (b_count b); lia|].
  intros [] s3 (HC3 & HO3 & Hc3 & Hh3). assert (only_cache s s3) as HOs.
  { transitivity s1; [done|]. transitivity s2; [apply set_only|done]. }
  assert (heads s3 !! p = Some (b1 <| b_count := 0 |>)) as Hb3.
  { rewrite Hh3, lookup_insert_eq. assert (b_count b1 = 1) as -> by exact Hcnt. done. }
  apply HK; try done.
  - intros q c Hq. destruct (Hheld q c Hq) as (c1 & Hc1 & Ec & Hkk). destruct (decide (q = p)) as [->|Hqp].
    + exists (b1 <| b_count := 0 |>). split; [done|]. rewrite Hb in Hc1. injection Hc1 as <-.
      change (b_count (b1 <| b_count := 0 |>)) with 0. split; [lia|]. intros []. lia.
    + exists c1. rewrite Hh3, lookup_insert_ne by done. change (heads s2) with (<[p := b1]> (heads s1)). rewrite lookup_insert_ne by done. split; [done|]. split; [lia|].
      intros Hc0. destruct (Hkk Hc0) as [? Hu]. split; [done|]. intros Hu0. by apply Hu.
  - destruct (decide (valid nr z)) as [Hv|Hv].
    + rewrite Hc3; done.
    + apply (content_cached D start nr s3 z p _ (proj2 HC3) Hb3); done.
  - intros blk Hv Hne. rewrite Hc3, Ho2, Hcont; done.
  - intros q c Hq Hqd Hqz. destruct (decide (q = p)) as [->|Hqp]; [by rewrite Hb3 in Hq; injection Hq as <-|]. exfalso. apply Hqp.
    apply (do_key _ _ _ s3 (proj2 HC3) q p c _ Hq Hb3).
    + rewrite Hqd. by apply (D_nonzero D start nr s3), (do_part _ _ _ s3 (proj2 HC3)).
    + transitivity (b_dev b, b_blocknr b); [unfold key; congruence|done].
Qed.

Lemma set_bit_at d j : is_block d → 0 ≤ j < 8192 → bit d j = false →
  (set_bit j d).1 = 0 ∧ is_block (set_bit j d).2 ∧
  ∀ n, 0 ≤ n < 8192 → bit (set_bit j d).2 n = bool_decide (n = j) || bit d n.
Proof. intros Hd Hj Hb. destruct (set_bit_spec j d Hd Hj) as (H1 & H2 & H3). by rewrite Hb in H1. Qed.

(** What new_block does: it takes the least free zone, or finds none. *)
Lemma wp_new_block s sb x : cache_ok D start nr s → room s → mounted s sb x → free_unheld s x →
  s_firstdatazone x ≤ s_nzones x →
  wp (new_block D) (λ r s', (r ≠ 0 ∧ allocated s sb x r s') ∨ (r = 0 ∧ full s sb x s')) s.
Proof.
  intros HC HR HM HU Hfz. pose proof (mo_shape _ _ _ HM) as (Hi0 & Hz & Hl & Hbefore & Hnz & Hnr & Hlong).
  destruct (mo_super _ _ _ HM) as (Hsb & Hx & Hxd & _).
  unfold new_block. apply wp_bind. eapply wp_of_ret; [by apply (get_super_run s D sb x), HM|].
  destruct (Z.eqb_spec sb NULL) as [->|_]; [unfold NULL in Hsb; lia|].
  apply wp_bind. eapply wp_of_ret; [apply (sblock_Ret s sb x); [lia|done]|].
  apply wp_bind. eapply wp_mono; [by apply (wp_find_zero s sb x)|]. intros r s' [-> Hr].
  destruct r as [[[k p] j]|].
  2: { apply wp_ret. right. split; [done|]. assert (∀ z, data_zone x z → used s x z = true) as Hall.
    { intros z Hzz. apply Hr. unfold data_zone in Hzz. lia. }
    split; try done. { apply users_kept_refl. } intros z Hzz. split; by apply Hall. }
  destruct Hr as (Hk & Hp & Hj & Hfree & Hbelow).
  destruct (mo_maps _ _ _ HM k Hk) as (p' & Hp' & Hpin & Hblk). rewrite Hp in Hp'. injection Hp' as <-.
  destruct (pinned_head s p _ HC Hpin) as (b & Hb & Hbd & Hbb & Hcnt & Hu & Hcont & Hp0).
  rewrite map_bit_block in Hfree by done. rewrite Hcont in Hblk, Hfree. simpl in Hblk, Hfree.
  destruct (set_bit_at (b_data b) j Hblk Hj Hfree) as (Hold & Hblk' & Hset).
  set (d := (set_bit j (b_data b)).2) in *.
  unfold bh_set_bit. apply wp_bind, wp_bind, (wp_bh p b); [done|]. cbv zeta. fold d. rewrite Hold.
  apply wp_bind, (wp_set_bh p b); [done|]. apply wp_ret. change (truth 0) with false. cbv iota.
  apply wp_bind. eapply wp_set_bh; [simpl; apply lookup_insert_eq|].
  set (s1 := s <| heads := <[p := b <| b_data := d |> <| b_dirt := 1 |>]> (heads s) |>).
  match goal with |- wp ?K ?Q ?t => assert (∀ s', s' = s1 → wp K Q s') as Hgoal;
    [|apply Hgoal; unfold s1; destruct s; simpl; f_equal; by rewrite insert_insert_eq] end.
  intros ? ->.
  destruct (map_stored s sb x k p b d HC HM Hk Hb Hbd Hbb Hu Hblk') as (HC1 & HO1 & HK1 & HM1 & Hoff1 & Hbit1).
  { intros ->. rewrite Hset by lia. pose proof (mo_first _ _ _ HM) as H0.
    pose proof (map_bit_block s x 0 0 ltac:(lia)) as E0. change (0 * 8192 + 0) with 0 in E0.
    rewrite Hcont in E0. simpl in E0. by rewrite <-E0, H0, orb_true_r. }
  fold s1 in HC1, HO1, HK1, HM1, Hoff1, Hbit1.
  set (z := j + (k * 8192 + s_firstdatazone x - 1)).
  assert (z - (s_firstdatazone x - 1) = k * 8192 + j) as Hzn by (unfold z; lia).
  assert (k * 8192 + j ≠ 0) as Hn0.
  { intros E. pose proof (mo_first _ _ _ HM) as H0. assert (k = 0 ∧ j = 0) as [-> ->] by lia.
    pose proof (map_bit_block s x 0 0 ltac:(lia)) as E0. change (0 * 8192 + 0) with 0 in E0.
    rewrite Hcont in E0. simpl in E0. congruence. }
  assert (s_firstdatazone x ≤ z) as Hz1 by lia.
  assert (∀ n, 0 ≤ n → map_bit s1 x n = bool_decide (n = k * 8192 + j) || map_bit s x n) as Hmap.
  { intros n Hn. rewrite Hbit1. case_decide as E.
    - rewrite Hset by dlia. assert (map_bit s x n = bit (b_data b) (n mod 8192)) as ->.
      { assert (n = k * 8192 + n mod 8192) as En by dlia. rewrite En at 1. rewrite map_bit_block by dlia. by rewrite Hcont. }
      f_equal. apply bool_decide_ext. dlia.
    - rewrite bool_decide_false; [done|]. intros ->. apply E. dlia. }
  assert (∀ z', data_zone x z' → used s1 x z' = bool_decide (z' = z) || used s x z') as Hused.
  { intros z' Hz'. unfold used. rewrite Hmap by (unfold data_zone in Hz'; lia). f_equal. apply bool_decide_ext. lia. }
  destruct (Z.leb_spec (s_nzones x) z) as [Hge|Hlt].
  { apply wp_ret. right. split; [done|]. assert (∀ z', data_zone x z' → used s x z' = true) as Hall.
    { intros z' Hz'. apply Hbelow. unfold data_zone in Hz'. lia. }
    split; try done.
    - intros z' Hz'. rewrite Hused by done. rewrite (Hall z' Hz'), orb_true_r. done.
    - intros blk Hoff. apply Hoff1, Hoff, Hk. }
  assert (data_zone x z) as Hdz by (unfold data_zone; lia). pose proof (data_zone_valid s sb x z HM Hdz) as HV.
  assert (used s x z = false) as Hzfree.
  { unfold used. rewrite Hzn, map_bit_block, Hcont by done. done. }
  assert (∀ q c, heads s1 !! q = Some c → b_dev c = D → b_blocknr c = z → b_count c = 0) as Hun1.
  { intros q c Hq Hqd Hqz. simpl in Hq. destruct (decide (q = p)) as [->|].
    - rewrite lookup_insert_eq in Hq. injection Hq as <-. simpl in Hqz.
      exfalso. apply (data_off_map s sb x z HM Hdz k Hk). congruence.
    - rewrite lookup_insert_ne in Hq by done. apply (HU q c Hq Hqd); rewrite Hqz; done. }
  assert (room s1) as HR1.
  { apply (idle_room D start nr s s1 HO1 HC); [by split|done]. }
  apply wp_bind. eapply wp_mono; [by apply (wp_get_free s1 z)|].
  intros q s2 (HC2 & Hq0 & Hheld2 & HO2 & Hcont2 & c & Hc & Hck & Hcc).
  destruct (Z.eqb_spec q NULL); [done|]. apply wp_bind, (wp_bh q c); [done|]. rewrite Hcc. change (1 =? 1) with true.
  simpl negb. cbv iota. apply (wp_clear_block _ _ s1 s2 z q c); try done.
  intros s3 HC3 HK3 HO3 Hclear Hoth3 Hun3. apply wp_ret. left. split; [unfold zmap_block in *; lia|].
  assert (∀ blk, valid nr blk → blk ≠ z → off_map x blk → content D start s3 blk = content D start s blk) as Hoth.
  { intros blk Hv Hne Hoff. rewrite Hoth3, Hoff1; [done| |done|done]. by apply Hoff. }
  assert (∀ z', data_zone x z' → used s3 x z' = used s1 x z') as Hused3.
  { intros z' Hz'. unfold used, map_bit. assert (0 ≤ (z' - (s_firstdatazone x - 1)) / 8192 < s_zmap_blocks x) as Hk'
      by (unfold data_zone in Hz'; dlia).
    destruct (zmap_block_valid s sb x _ HM Hk' Hfz). rewrite Hoth3; [done|done|]. unfold data_zone in Hdz. lia. }
  assert (mounted s3 sb x) as HM3.
  { apply (mounted_kept s1); [done|done|by destruct HO3 as (? & ? & ? & ? & ? & ? & ->)|..].
    - intros k' Hk'. destruct (zmap_block_valid s sb x k' HM Hk' Hfz). rewrite Hoth3; [|done|unfold data_zone in Hdz; lia].
      by destruct (mo_maps _ _ _ HM1 k' Hk') as (? & _ & _ & ?).
    - unfold map_bit. destruct (zmap_block_valid s sb x 0 HM ltac:(lia) Hfz). change (0 / 8192) with 0.
      rewrite Hoth3; [apply (mo_first _ _ _ HM1)|done|unfold data_zone in Hdz; lia]. }
  split; try done.
  - by apply (users_kept_trans s s1).
  - apply (unheld_kept s s3 x); try done; [by rewrite (only_cache_n s1 s3), (only_cache_n s s1)|by apply (users_kept_trans s s1)|].
    intros w Hw. rewrite Hused3, Hused by done. by intros [_ ?]%orb_false_iff.
  - intros z' Hz' Hlt'. apply Hbelow. unfold data_zone in Hz'. lia.
  - intros z' Hz'. by rewrite Hused3, Hused.
Qed.

(** ** free_block *)

(** No count is about to wrap. *)
Definition no_wrap s : Prop := ∀ p b, heads s !! p = Some b → b_count b < 255.
(** The buffer of a block that is given back, if there is one, holds nothing any more. *)
Record dropped s (z : Z) s' : Prop := Dropped {
  dr_cache : cache_ok D start nr s';
  dr_only : only_cache s s';
  dr_users : users_kept s s';
  dr_others : ∀ blk, valid nr blk → blk ≠ z → content D start s' blk = content D start s blk
}.
Lemma drop_buffer_run s z : cache_ok D start nr s → no_wrap s → valid nr z →
  (∀ p b, heads s !! p = Some b → b_dev b = D → b_blocknr b = z → b_count b = 0) →
  ∃ p b s0 s1, get_hash_table REPEAT D z s = Ret p s0 ∧
    (if truth p then bh p else mret (BufferHead [] 0 0 0 0 1 0 0 0 0 0)) s0 = Ret b s0 ∧ b_count b = 1 ∧
    when (truth p) (set_bh p (λ b, b <| b_dirt := 0 |>);; set_bh p (λ b, b <| b_uptodate := 0 |>);; brelse p) s0
      = Ret tt s1 ∧ dropped s z s1.
Proof.
  intros HC Hlt HV Hun. pose proof HC as [HI HD].
  assert (wp (get_hash_table REPEAT D z) (λ p s0, (p = NULL ∧ s0 = s) ∨
    ∃ b, heads s !! p = Some b ∧ key b = (D, z) ∧ p ≠ 0 ∧ s0 = s <| heads := <[p := b <| b_count := b_count b + 1 |>]> (heads s) |>) s) as H.
  { change REPEAT with 2%nat. apply (wp_get_hash_table D start nr s z); [done|apply HV|..].
    - intros; by eapply Hlt.
    - by left.
    - intros p b Hb Hk Hp. right. eauto. }
  apply wp_returns in H as (p & s0 & E & [[-> ->]|(b & Hb & Hk & Hp & ->)]).
  { eexists NULL, _, s, s. split; [done|]. split; [reflexivity|]. split; [done|]. split; [reflexivity|].
    split; try done. apply users_kept_refl. }
  assert (b_dev b = D ∧ b_blocknr b = z) as [Hd Hz] by (unfold key in Hk; split; congruence).
  assert (b_count b = 0) as Hc by (by apply (Hun p)). rewrite Hc in E. change (0 + 1) with 1 in E.
  set (b1 := b <| b_count := 1 |>) in *. set (s0 := s <| heads := <[p := b1]> (heads s) |>) in *.
  assert (heads s0 !! p = Some b1) as Hb1 by apply lookup_insert_eq.
  set (b2 := b1 <| b_dirt := 0 |> <| b_uptodate := 0 |>). set (s2 := s <| heads := <[p := b2]> (heads s) |>).
  destruct (set_others D start nr s p b b2 HD Hb) as [HD2 Ho2]; try done.
  { destruct (do_head _ _ _ s HD p b Hb) as [? ? ? ? ? ? ?]. split; try done. simpl. by right. }
  fold s2 in HD2, Ho2. rewrite Hz in Ho2.
  assert (cache_ok D start nr s2) as HC2.
  { split; [|done]. apply (cache_inv_set 0 s p b); [done..|by intros []|by right]. }
  assert (heads s2 !! p = Some b2) as Hb2 by apply lookup_insert_eq.
  pose proof (wp_brelse D start nr s2 p b2 HC2 Hb2 ltac:(done)) as Hr.
  apply wp_returns in Hr as ([] & s3 & Er & HC3 & HO3 & Hc3 & Hh3).
  exists p, b1, s0, s3. split; [exact E|]. rewrite (proj2 (truth_true p) Hp). split; [by apply bh_Ret|]. split; [done|].
  assert (∀ q (f : buffer_head → buffer_head) t c, heads t !! q = Some c →
    set_bh q f t = Ret tt (t <| heads ::= <[q := f c]> |>)) as Hset.
  { intros q f t c Hq. unfold set_bh. by rewrite (bind_ret _ _ _ _ _ (bh_Ret q c t Hq)). }
  split.
  - unfold when. rewrite (bind_ret _ _ _ _ _ (Hset p (λ b, b <| b_dirt := 0 |>) s0 b1 Hb1)).
    set (s1 := s0 <| heads ::= _ |>). assert (heads s1 !! p = Some (b1 <| b_dirt := 0 |>)) as Hb1' by apply lookup_insert_eq.
    rewrite (bind_ret _ _ _ _ _ (Hset p (λ b, b <| b_uptodate := 0 |>) s1 _ Hb1')).
    rewrite <-Er. f_equal. unfold s2, s1, s0. destruct s. simpl. f_equal. by rewrite !insert_insert_eq.
  - split; [done| | |].
    + transitivity s2; [apply set_only|done].
    + intros q c Hq. rewrite Hh3. destruct (decide (q = p)) as [->|].
      * rewrite lookup_insert_eq. rewrite Hb in Hq. injection Hq as <-. eexists. split; [done|]. split; [simpl; lia|]. done.
      * rewrite lookup_insert_ne by done. change (heads s2) with (<[p := b2]> (heads s)). rewrite lookup_insert_ne by done. eauto.
    + intros blk Hv Hne. rewrite Hc3, Ho2; done.
Qed.

(** Block [z] is free again; everything but its own contents is as it was. *)
Record released s (sb : Z) (x : superblock) (z : Z) s' : Prop := Released {
  rl_cache : cache_ok D start nr s';
  rl_only : only_cache s s';
  rl_users : users_kept s s';
  rl_mounted : mounted s' sb x;
  rl_unheld : free_unheld s' x;
  rl_used : ∀ z', data_zone x z' → used s' x z' = negb (bool_decide (z' = z)) && used s x z';
  rl_others : ∀ blk, valid nr blk → blk ≠ z → off_map x blk → content D start s' blk = content D start s blk
}.
Lemma land8191 n : n .& 8191 = n mod 8192.
Proof. change 8191 with (Z.ones 13). by rewrite Z.land_ones. Qed.

Lemma free_block_run s sb x z : cache_ok D start nr s → no_wrap s → mounted s sb x → free_unheld s x →
  data_zone x z → (∀ p b, heads s !! p = Some b → b_dev b = D → b_blocknr b = z → b_count b = 0) →
  if used s x z then ∃ s', free_block D z s = Ret tt s' ∧ released s sb x z s'
  else ∃ s', free_block D z s = Panic "free_block: bit already cleared" s'.
Proof.
  intros HC HR HM HU Hdz Hun. pose proof (mo_shape _ _ _ HM) as (Hi0 & Hz & Hl & Hbefore & Hnz & Hnr & Hlong).
  destruct (mo_super _ _ _ HM) as (Hsb & Hx & Hxd & _). pose proof (data_zone_valid s sb x z HM Hdz) as HV.
  assert (s_firstdatazone x ≤ s_nzones x) as Hfz by (unfold data_zone in Hdz; lia).
  destruct (drop_buffer_run s z HC HR HV Hun) as (p & b & s0 & s1 & E1 & E2 & E3 & E4 & [HC1 HO1 HK1 Ho1]).
  set (n := z - (s_firstdatazone x - 1)). assert (0 ≤ n < 8192 * s_zmap_blocks x) as Hn by (unfold n, data_zone in *; lia).
  set (k := n / 8192). assert (0 ≤ k < s_zmap_blocks x) as Hk by (unfold k; dlia).
  assert (mounted s1 sb x) as HM1.
  { assert (super_block s1 = super_block s) as Es by (by destruct HO1 as (? & ? & ? & ? & ? & ? & ->)).
    apply (mounted_kept s); [done|done|done|..].
    - intros k' Hk'. destruct (zmap_block_valid s sb x k' HM Hk' Hfz). rewrite Ho1; [|done|unfold data_zone in Hdz; lia].
      by destruct (mo_maps _ _ _ HM k' Hk') as (? & _ & _ & ?).
    - unfold map_bit. destruct (zmap_block_valid s sb x 0 HM ltac:(lia) Hfz). change (0 / 8192) with 0.
      rewrite Ho1; [apply (mo_first _ _ _ HM)|done|unfold data_zone in Hdz; lia]. }
  assert (∀ m, 0 ≤ m < 8192 * s_zmap_blocks x → map_bit s1 x m = map_bit s x m) as Hbit1.
  { intros m Hm. unfold map_bit. destruct (zmap_block_valid s sb x (m / 8192) HM ltac:(dlia) Hfz).
    rewrite Ho1; [done|done|unfold data_zone in Hdz; lia]. }
  destruct (mo_maps _ _ _ HM1 k Hk) as (q & Hq & Hpin & Hblk).
  destruct (pinned_head s1 q _ HC1 Hpin) as (c & Hc & Hcd & Hcb & Hcnt & Hu & Hcont & Hq0).
  rewrite Hcont in Hblk. simpl in Hblk. set (j := n mod 8192). assert (0 ≤ j < 8192) as Hj by (unfold j; dlia).
  assert (used s x z = bit (b_data c) j) as Hused.
  { unfold used. fold n. rewrite <-Hbit1 by done. unfold map_bit. fold k j. by rewrite Hcont. }
  destruct (clear_bit_spec j (b_data c) Hblk Hj) as (Hr & Hblk' & Hclr). set (d := (clear_bit j (b_data c)).2) in *.
  set (s2 := s1 <| heads ::= <[q := c <| b_data := d |>]> |>).
  assert (bh_clear_bit j q s1 = Ret (if bit (b_data c) j then 0 else 1) s2) as Ebit.
  { unfold bh_clear_bit. rewrite (bind_ret _ _ _ _ _ (bh_Ret q c s1 Hc)). cbv zeta. fold d. rewrite Hr.
    unfold set_bh. unfold mbind at 1, M_bind. rewrite (bind_ret _ _ _ _ _ (bh_Ret q c s1 Hc)). done. }
  assert (free_block D z s = ((r ← bh_clear_bit j q;
    if truth r then kprint "block (%04x:%d) ";; panic "free_block: bit already cleared"
    else set_bh q (λ b, b <| b_dirt := 1 |>)) : M fs ()) s1) as Erun.
  { unfold free_block. mstep (get_super_run s D sb x (mo_super _ _ _ HM)).
    destruct (Z.eqb_spec sb NULL) as [->|_]; [unfold NULL in Hsb; lia|].
    mstep (sblock_Ret s sb x ltac:(lia) Hx).
    assert ((z <? s_firstdatazone x) || (s_nzones x <=? z) = false) as -> by (unfold data_zone in Hdz; lia).
    mstep E1. mstep E2. rewrite E3. change (negb (1 =? 1)) with false. rewrite andb_false_r. mstep E4.
    cbv zeta. fold n. rewrite Z.quot_div_nonneg by lia. fold k. rewrite land8191. fold j.
    by mstep (index_Some (s_zmap x) k q s1 ltac:(lia) Hq). }
  rewrite Hused, Erun. mstep Ebit. destruct (bit (b_data c) j) eqn:Hbj.
  2: { change (truth 1) with true. cbv iota. eexists. reflexivity. }
  change (truth 0) with false. cbv iota.
  set (s3 := s1 <| heads := <[q := c <| b_data := d |> <| b_dirt := 1 |>]> (heads s1) |>). exists s3. split.
  { unfold set_bh. assert (heads s2 !! q = Some (c <| b_data := d |>)) as Hc2 by apply lookup_insert_eq.
    rewrite (bind_ret _ _ _ _ _ (bh_Ret q _ s2 Hc2)). 
    change (Ret tt (s1 <| heads := <[q := c <| b_data := d |> <| b_dirt := 1 |>]> (<[q := c <| b_data := d |>]> (heads s1)) |>) = Ret tt s3).
    by rewrite insert_insert_eq. }
  destruct (map_stored s1 sb x k q c d HC1 HM1 Hk Hc Hcd Hcb Hu Hblk') as (HC3 & HO3 & HK3 & HM3 & Hoff3 & Hbit3).
  { intros Ek. rewrite Hclr by lia. rewrite bool_decide_false by (unfold j, data_zone in *; dlia). simpl.
    pose proof (mo_first _ _ _ HM1) as H0. unfold map_bit in H0. change (0 / 8192) with 0 in H0. change (0 mod 8192) with 0 in H0.
    assert (content D start s1 (zmap_block x 0) = Some (b_data c)) as E0 by (by rewrite <-Hcont, Ek).
    by rewrite E0 in H0. }
  fold s3 in HC3, HO3, HK3, HM3, Hoff3, Hbit3.
  assert (∀ z', data_zone x z' → used s3 x z' = negb (bool_decide (z' = z)) && used s x z') as Hused3.
  { intros z' Hz'. unfold used. set (m := z' - (s_firstdatazone x - 1)).
    assert (0 ≤ m < 8192 * s_zmap_blocks x) as Hm by (unfold m, data_zone in *; lia).
    rewrite Hbit3. case_decide as E.
    - rewrite Hclr by dlia. rewrite <-Hbit1 by done. unfold map_bit. rewrite E, Hcont. simpl. f_equal. f_equal.
      apply bool_decide_ext. unfold m, k, j, n in *. dlia.
    - rewrite Hbit1 by done. rewrite bool_decide_false; [done|]. intros ->. by apply E. }
  split; try done.
  - by transitivity s1.
  - by apply (users_kept_trans s s1).
  - intros q' c' Hq' Hd' Hz' Hfree'.
    assert (is_Some (heads s !! q')) as [c0 Hc0].
    { apply (do_dom _ _ _ s (proj2 HC)). assert (only_cache s s3) as HO by (by transitivity s1).
      rewrite <-(only_cache_n s s3 HO). apply (do_dom _ _ _ s3 (proj2 HC3)). eauto. }
    destruct (users_kept_trans s s1 s3 HK1 HK3 q' c0 Hc0) as (c1 & Hc1 & Ec & Hkk). rewrite Hq' in Hc1. injection Hc1 as <-.
    destruct (decide (b_count c0 = 0)) as [E0|E0]; [congruence|]. destruct (Hkk E0) as [Ek _].
    unfold key in Ek. injection Ek as Ed Eb. rewrite Ec. destruct (decide (b_blocknr c' = z)) as [Ez|Ez].
    + apply (Hun q' c0 Hc0); congruence.
    + rewrite Hused3, bool_decide_false in Hfree' by done. apply (HU q' c0 Hc0); [congruence|by rewrite <-Eb|by rewrite <-Eb].
  - intros blk Hv Hne Hoff. rewrite Hoff3, Ho1; [done..|]. by apply Hoff.
Qed.

(** ** The allocator as a set *)

(** The set of used zones, and what the two operations do to it: a result and a
    new set, or a panic. *)
Inductive request := Take | Give (z : Z).
Definition least_free (lo hi : Z) (U : gset Z) : option Z := filter (λ z, z ∉ U) (seqZ lo (hi - lo)) !! 0%nat.
Definition set_step (lo hi : Z) (U : gset Z) (r : request) : option (Z * gset Z) :=
  match r with
  | Take => match least_free lo hi U with Some z => Some (z, {[z]} ∪ U) | None => Some (0, U) end
  | Give z => if decide (lo ≤ z < hi ∧ z ∈ U) then Some (0, U ∖ {[z]}) else None
  end.
Fixpoint set_run (lo hi : Z) (U : gset Z) (l : list request) : option (list Z * gset Z) :=
  match l with
  | [] => Some ([], U)
  | r :: l => '(z, U1) ← set_step lo hi U r; '(zs, U2) ← set_run lo hi U1 l; Some (z :: zs, U2)
  end.

(** The same requests to the kernel. *)
Definition kernel_step (r : request) : M fs Z :=
  match r with Take => new_block D | Give z => free_block D z;; mret 0 end.
Fixpoint kernel_run (l : list request) : M fs (list Z) :=
  match l with
  | [] => mret []
  | r :: l => z ← kernel_step r; zs ← kernel_run l; mret (z :: zs)
  end.

Lemma least_free_spec lo hi U :
  match least_free lo hi U with
  | Some z => lo ≤ z < hi ∧ (z ∉ U) ∧ ∀ w, lo ≤ w < z → (w ∈ U)
  | None => ∀ w, lo ≤ w < hi → (w ∈ U)
  end.
Proof.
  unfold least_free. destruct (Z.le_gt_cases lo hi) as [Hle|]; [|rewrite seqZ_nil by lia; simpl; lia].
  assert (∀ n, ∀ a, match filter (λ z, z ∉ U) (seqZ a (Z.of_nat n)) !! 0%nat with
    | Some z => a ≤ z < a + Z.of_nat n ∧ (z ∉ U) ∧ ∀ w, a ≤ w < z → (w ∈ U)
    | None => ∀ w, a ≤ w < a + Z.of_nat n → (w ∈ U) end) as H.
  { clear Hle. induction n as [|n IH]; intros a; [simpl; lia|]. rewrite seqZ_cons by lia.
    replace (Z.pred (Z.of_nat (S n))) with (Z.of_nat n) by lia. rewrite filter_cons. specialize (IH (Z.succ a)).
    case_decide as Hu; [simpl; split; [lia|]; split; [done|lia]|].
    assert (a ∈ U) by (destruct (decide (a ∈ U)); done).
    destruct (_ !! _) as [z|].
    - destruct IH as (Hz & Hzu & Hb). split; [lia|]. split; [done|]. intros w Hw. destruct (decide (w = a)) as [->|]; [done|]. apply Hb. lia.
    - intros w Hw. destruct (decide (w = a)) as [->|]; [done|]. apply IH. lia. }
  specialize (H (Z.to_nat (hi - lo)) lo). rewrite Z2Nat.id in H by lia. by replace (lo + (hi - lo)) with hi in H by lia.
Qed.

(** The kernel's state stands for the set [U]; no buffer of a data zone is held. *)
Record stands_for (sb : Z) (x : superblock) (U : gset Z) s : Prop := StandsFor {
  sf_cache : cache_ok D start nr s;
  sf_room : room s;
  sf_mounted : mounted s sb x;
  sf_unheld : ∀ p b, heads s !! p = Some b → b_dev b = D → data_zone x (b_blocknr b) → b_count b = 0;
  sf_used : ∀ z, data_zone x z → (z ∈ U) ↔ used s x z = true
}.
Lemma stands_kept sb x U U' s s' : stands_for sb x U s → cache_ok D start nr s' → only_cache s s' → users_kept s s' →
  mounted s' sb x → (∀ z, data_zone x z → (z ∈ U') ↔ used s' x z = true) → stands_for sb x U' s'.
Proof.
  intros [HC HR _ HU _] HC' HO HK HM' HU'. split; try done.
  - apply (idle_room D start nr s s' HO HC); [by split|done].
  - intros q c Hq Hqd Hz. assert (is_Some (heads s !! q)) as [c0 Hc0].
    { apply (do_dom _ _ _ s (proj2 HC)). rewrite <-(only_cache_n s s' HO). apply (do_dom _ _ _ s' (proj2 HC')). eauto. }
    destruct (HK q c0 Hc0) as (c1 & Hc1 & Ec & Hkk). rewrite Hq in Hc1. injection Hc1 as <-.
    destruct (decide (b_count c0 = 0)) as [E0|E0]; [congruence|]. destruct (Hkk E0) as [Ek _].
    unfold key in Ek. injection Ek as Ed Eb. rewrite Ec. apply (HU q c0 Hc0); [congruence|by rewrite <-Eb].
Qed.

(** One request. *)
Lemma step_refines sb x U s r : stands_for sb x U s → s_firstdatazone x ≤ s_nzones x → 0 < s_firstdatazone x →
  match set_step (s_firstdatazone x) (s_nzones x) U r with
  | Some (z, U') => ∃ s', kernel_step r s = Ret z s' ∧ stands_for sb x U' s'
  | None => ∃ msg s', kernel_step r s = Panic msg s'
  end.
Proof.
  intros HS Hfz Hf0. pose proof HS as [HC HR HM HU HUsed].
  assert (free_unheld s x) as HF by (intros p b Hb Hd Hz _; by apply (HU p b)).
  destruct r as [|z]; simpl.
  - pose proof (wp_new_block s sb x HC HR HM HF Hfz) as H. apply wp_returns in H as (z & s' & E & H).
    pose proof (least_free_spec (s_firstdatazone x) (s_nzones x) U) as Hleast. destruct H as [[Hz0 A]|[-> A]].
    + pose proof (al_zone _ _ _ _ _ A) as Hz.
      assert (z ∉ U) as Hzu by (rewrite HUsed by done; by rewrite (al_free _ _ _ _ _ A)).
      destruct (least_free _ _ U) as [w|]; [|exfalso; apply Hzu, Hleast, Hz].
      destruct Hleast as (Hw & Hwu & Hb). assert (w = z) as ->.
      { destruct (Z.lt_trichotomy w z) as [Hlt|[|Hlt]]; [|done|].
        - exfalso. apply Hwu, HUsed; [done|]. by apply (al_least _ _ _ _ _ A).
        - exfalso. apply Hzu, Hb. unfold data_zone in Hz. lia. }
      exists s'. split; [done|]. apply (stands_kept sb x U _ s); try apply A; [done|].
      intros w Hw'. rewrite (al_used _ _ _ _ _ A) by done. rewrite orb_true_iff, bool_decide_eq_true, elem_of_union, elem_of_singleton.
      by rewrite HUsed.
    + destruct (least_free _ _ U) as [w|].
      { exfalso. destruct Hleast as (Hw & Hwu & _). apply Hwu, HUsed; [done|]. by apply (fu_used _ _ _ _ A). }
      exists s'. split; [done|]. apply (stands_kept sb x U _ s); try apply A; [done|].
      intros w Hw. rewrite HUsed by done. by destruct (fu_used _ _ _ _ A w Hw) as [-> ->].
  - case_decide as Hz.
    + destruct Hz as [Hz Hzu]. pose proof (free_block_run s sb x z HC (proj2 HR) HM HF Hz) as H.
      rewrite (proj1 (HUsed z Hz) Hzu) in H. destruct H as (s' & E & A).
      { intros p b Hb Hd <-. by apply (HU p b). }
      exists s'. split; [by mstep E|]. apply (stands_kept sb x U _ s); try apply A; [done|].
      intros w Hw. rewrite (rl_used _ _ _ _ _ A) by done.
      rewrite andb_true_iff, negb_true_iff, bool_decide_eq_false, elem_of_difference, elem_of_singleton, HUsed by done. tauto.
    + destruct (decide (data_zone x z)) as [Hdz|Hdz].
      * assert (used s x z = false) as Hzf.
        { apply not_true_is_false. intros Ht. by apply Hz; split; [|apply HUsed]. }
        pose proof (free_block_run s sb x z HC (proj2 HR) HM HF Hdz) as H. rewrite Hzf in H. destruct H as (s' & E).
        { intros p b Hb Hd <-. by apply (HU p b). }
        exists "free_block: bit already cleared"%string, s'. unfold mbind, M_bind. by rewrite E.
      * destruct (mo_super _ _ _ HM) as (Hsb & Hx & _). exists "trying to free block not in datazone"%string, s.
        unfold mbind, M_bind. assert (free_block D z s = Panic "trying to free block not in datazone" s) as ->; [|done].
        unfold free_block. mstep (get_super_run s D sb x (mo_super _ _ _ HM)).
        destruct (Z.eqb_spec sb NULL) as [->|_]; [unfold NULL in Hsb; lia|]. mstep (sblock_Ret s sb x ltac:(lia) Hx).
        assert ((z <? s_firstdatazone x) || (s_nzones x <=? z) = true) as -> by (unfold data_zone in Hdz; lia). done.
Qed.
End Alloc.

(** C5: The block allocator is a set of zones.  Whatever blocks are asked for with
    new_block and given back with free_block, in whatever order, on a mounted
    partition of which no data block is in use by a task, the results are those
    of a set that gives the least zone that is not in it, or 0 if there is none,
    and takes zones back: so a block in use is never given out again.  Giving
    back a block that is not in use, or not of the data zones, is a panic, and the
    only way to one.  The cache keeps its invariant and the bitmap stays mounted. *)
Theorem allocator_is_a_set D start nr sb x l : ∀ U s, stands_for D start nr sb x U s →
  s_firstdatazone x ≤ s_nzones x → 0 < s_firstdatazone x →
  match set_run (s_firstdatazone x) (s_nzones x) U l with
  | Some (zs, U') => ∃ s', kernel_run D l s = Ret zs s' ∧ stands_for D start nr sb x U' s'
  | None => ∃ msg s', kernel_run D l s = Panic msg s'
  end.
Proof.
  induction l as [|r l IH]; intros U s HS Hfz Hf0; [by exists s|]. cbn [set_run kernel_run].
  pose proof (step_refines D start nr sb x U s r HS Hfz Hf0) as H.
  destruct (set_step _ _ U r) as [[z U1]|]; simpl.
  - destruct H as (s1 & E & HS1). specialize (IH U1 s1 HS1 Hfz Hf0). destruct (set_run _ _ U1 l) as [[zs U2]|]; simpl.
    + destruct IH as (s2 & E2 & HS2). exists s2. split; [|done]. mstep E. by mstep E2.
    + destruct IH as (msg & s2 & E2). exists msg, s2. mstep E. unfold mbind, M_bind. by rewrite E2.
  - destruct H as (msg & s1 & E). exists msg, s1. unfold mbind at 1, M_bind at 1. by rewrite E.
Qed.

(** new_block takes the least free zone of the partition and fills it with
    zeroes in the cache.  Its bit and no other bit of a data zone is set, every
    block but it and the bitmap holds what it held, buffers in use keep their
    users, and so do the invariants.  When all zones are used the result is 0
    and no block changes but the bitmap, where a bit behind the last zone may be
    set. *)
Theorem new_block_takes_least_free D start nr s sb x : cache_ok D start nr s → room s → mounted D start nr s sb x →
  free_unheld D start s x → s_firstdatazone x ≤ s_nzones x →
  ∃ z s', new_block D s = Ret z s' ∧
    ((z ≠ 0 ∧ allocated D start nr s sb x z s') ∨ (z = 0 ∧ full D start nr s sb x s')).
Proof. intros. apply wp_returns. by apply wp_new_block. Qed.

(** ** A small partition: zones 4 to 7, of which 4 and 6 are used *)

Definition small_super : superblock :=
  SuperBlock 0 8 1 1 4 0 0 0x137F (replicate 8 0) (1 :: replicate 7 0) 0x300 0 0 0 0 0.
Definition small_map : list Z := 11 :: replicate 1023 0.
(** The bitmap has been read, as do_mount does, from block 3. *)
Definition fs_map : fs := match bread 0x300 3 fs_boot with Ret _ s => s | _ => fs_boot end.
Definition with_map (s : fs) : fs :=
  match set_bh 1 (λ b, b <| b_data := small_map |> <| b_dirt := 1 |>) s with
  | Ret _ s => s <| super_block := small_super :: replicate 7 super0 |>
  | _ => s
  end.
Definition fs_small : fs := with_map fs_map.
Lemma with_map_run s b : heads s !! 1 = Some b →
  with_map s = s <| heads := <[1 := b <| b_data := small_map |> <| b_dirt := 1 |>]> (heads s) |>
                 <| super_block := small_super :: replicate 7 super0 |>.
Proof. intros Hb. unfold with_map, set_bh. by rewrite (bind_ret _ _ _ _ _ (bh_Ret 1 b s Hb)). Qed.

Lemma fs_map_read : bread 0x300 3 fs_boot = Ret 1 fs_map.
Proof. vm_compute. reflexivity. Qed.
Lemma small_heads : map_Forall (λ _ b, b_count b < 255 ∧ (b_count b = 0 ∨ b_blocknr b = 3)) (heads fs_small).
Proof. apply (bool_decide_unpack _). vm_compute. reflexivity. Qed.
Lemma small_room : room fs_small.
Proof.
  split.
  - assert (match heads fs_small !! 2 with Some b => b_count b =? 0 | None => false end = true) as H by (vm_compute; reflexivity).
    destruct (heads fs_small !! 2) as [b|] eqn:E; [|done]. exists 2, b. split; [done|]. by apply Z.eqb_eq.
  - intros p b Hb. apply (small_heads p b Hb).
Qed.
Lemma small_block : is_block small_map.
Proof. split; [done|]. constructor; [lia|]. by apply Forall_replicate. Qed.

(** What the store of the bitmap gives, for any state in which it was read. *)
Lemma small_mounted s b s2 : taken_block 0x300 0 64 fs_boot 3 1 b s →
  s2 = s <| heads := <[1 := b <| b_data := small_map |> <| b_dirt := 1 |>]> (heads s) |>
         <| super_block := small_super :: replicate 7 super0 |> →
  cache_ok 0x300 0 64 s2 ∧ mounted 0x300 0 64 s2 1 small_super ∧ content 0x300 0 s2 3 = Some small_map.
Proof.
  intros T ->. set (s1 := s <| heads := _ |>).
  destruct (tb_key _ _ _ _ _ _ _ _ T) as [Hd Hb3].
  destruct (store_block 0x300 0 64 s 1 b small_map (tb_ok _ _ _ _ _ _ _ _ T) (tb_head _ _ _ _ _ _ _ _ T) Hd
    (tb_uptodate _ _ _ _ _ _ _ _ T) eq_refl) as (HC & _ & _ & Hc & _).
  rewrite Hb3 in Hc. set (s2 := s1 <| super_block := _ |>).
  assert (cache_ok 0x300 0 64 s2) as HC2 by (by apply (cache_ok_ext 0x300 0 64 s1)).
  assert (content 0x300 0 s2 3 = Some small_map) as Hc2 by exact Hc.
  split; [done|]. split; [|done]. split.
  - split; [lia|]. split; [done|]. split; [done|]. split; [done|]. simpl. lia.
  - simpl. unfold zmap_block. simpl. lia.
  - intros k Hk. simpl in Hk. assert (k = 0) as -> by lia. exists 1. split; [done|].
    change (zmap_block small_super 0) with 3. split; [|rewrite Hc2; exact small_block].
    exists (b <| b_data := small_map |> <| b_dirt := 1 |>). split; [apply lookup_insert_eq|].
    split; [unfold key; simpl; congruence|]. split; [exact (tb_count _ _ _ _ _ _ _ _ T)|exact (tb_uptodate _ _ _ _ _ _ _ _ T)].
  - intros k Hk. simpl in Hk. assert (k = 1 ∨ k = 2 ∨ k = 3 ∨ k = 4 ∨ k = 5 ∨ k = 6 ∨ k = 7) as HH by lia.
    by repeat destruct HH as [->|HH]; [..|subst].
  - unfold map_bit. change (zmap_block small_super (0 / 8192)) with 3. rewrite Hc2. reflexivity.
Qed.
Lemma fs_small_mounted : cache_ok 0x300 0 64 fs_small ∧ mounted 0x300 0 64 fs_small 1 small_super ∧
  content 0x300 0 fs_small 3 = Some small_map.
Proof.
  destruct boot_cache as [HC HR].
  assert (wp (bread 0x300 3) (λ p s, ∃ b, taken_block 0x300 0 64 fs_boot 3 p b s) fs_boot) as H.
  { apply (wp_take_block 0x300 0 64); [done|split; lia|done|]. eauto. }
  apply wp_returns in H as (p & s & E & b & T). pose proof (eq_trans (eq_sym fs_map_read) E) as E'.
  apply Ret_inj in E' as [<- <-]. apply (small_mounted fs_map b); [done|].
  exact (with_map_run fs_map b (tb_head _ _ _ _ _ _ _ _ T)).
Qed.
Definition small_used : gset Z := {[4; 6]}.
Lemma small_stands : stands_for 0x300 0 64 1 small_super small_used fs_small.
Proof.
  destruct fs_small_mounted as (HC & HM & Hc). split; [done|exact small_room|done|..].
  - intros p b Hb _ Hz. destruct (small_heads p b Hb) as [_ [|E]]; [done|]. unfold data_zone in Hz. simpl in Hz. lia.
  - intros z Hz. unfold data_zone in Hz. simpl in Hz. assert (z = 4 ∨ z = 5 ∨ z = 6 ∨ z = 7) as HH by lia.
    repeat destruct HH as [->|HH]; [..|subst]; unfold used, map_bit;
      match goal with |- context [zmap_block small_super ?k] => change (zmap_block small_super k) with 3 end;
      rewrite Hc; (split; [intros H; try reflexivity; by apply (bool_decide_eq_true_2 _) in H; vm_compute in H|
        intros H; try (vm_compute in H; discriminate H); apply (bool_decide_unpack _); vm_compute; reflexivity]).
Qed.

Lemma allocator_is_a_set_witness :
  ∃ U' s', kernel_run 0x300 [Take; Take; Take; Give 4; Take] fs_small = Ret [5; 7; 0; 0; 4] s' ∧
    stands_for 0x300 0 64 1 small_super U' s'.
Proof.
  pose proof (allocator_is_a_set 0x300 0 64 1 small_super [Take; Take; Take; Give 4; Take] small_used fs_small
    small_stands ltac:(simpl; lia) ltac:(simpl; lia)) as H.
  destruct (set_run (s_firstdatazone small_super) (s_nzones small_super) small_used [Take; Take; Take; Give 4; Take])
    as [[zs U']|] eqn:E.
  - assert (zs = [5; 7; 0; 0; 4]) as ->.
    { assert (fst <$> set_run 4 8 small_used [Take; Take; Take; Give 4; Take] = Some [5; 7; 0; 0; 4]) as E'
        by (vm_compute; reflexivity).
      change (s_firstdatazone small_super) with 4 in E. change (s_nzones small_super) with 8 in E.
      rewrite E in E'. by injection E'. }
    destruct H as (s' & H1 & H2). exists U', s'. split; [exact H1|exact H2].
  - exfalso. vm_compute in E. discriminate E.
Defined.
Lemma new_block_takes_least_free_witness : ∃ z s', new_block 0x300 fs_small = Ret z s'.
Proof.
  destruct fs_small_mounted as (HC & HM & _).
  destruct (new_block_takes_least_free 0x300 0 64 fs_small 1 small_super HC small_room HM) as (z & s' & E & _).
  - intros p b Hb Hd Hz _. by apply (sf_unheld _ _ _ _ _ _ _ small_stands p b).
  - simpl. lia.
  - exists z, s'. exact E.
Defined.
