(* ===== verification/InodeDisk.v ===== *)
(** * An inode in its block

    The fields of a [struct d_inode] in the bytes of a block of inodes: what
    write_inode stores in an entry is what read_inode loads from it, and the
    other entries of the block keep what they hold. *)

From S2P Require Export FileWrite.
From S2P Require Import Inode.

(** ** Little-endian fields of a block *)

Lemma le_at_ext d d' o n : (∀ k, 0 ≤ k < n → byte_at d (o + k) = byte_at d' (o + k)) → le_at d o n = le_at d' o n.
Proof.
  intros H. unfold le_at. assert (∀ k, k ∈ upto (Z.to_nat n) → byte_at d (o + k) = byte_at d' (o + k)) as H'.
  { intros k Hk%elem_of_upto. apply H. lia. }
  induction (upto (Z.to_nat n)) as [|k l IH]; [done|]. simpl. rewrite H' by (by left). f_equal. f_equal.
  apply IH. intros j Hj. apply H'. by right.
Qed.
Lemma set_le_length d o n v : length (set_le d o n v) = length d.
Proof. unfold set_le. induction (upto _) as [|k l IH]; [done|]. simpl. unfold set_byte at 1. by rewrite length_insert. Qed.
Lemma byte_at_set_le d o n v j : 0 ≤ o → o + n ≤ zlen d → 0 ≤ j →
  byte_at (set_le d o n v) j = if decide (o ≤ j < o + n) then u8 (Z.shiftr v (8 * (j - o))) else byte_at d j.
Proof.
  intros Ho Hn Hj. unfold set_le. pose (l := upto (Z.to_nat n)). fold l.
  assert (∀ k, k ∈ l → 0 ≤ k < n) as Hl by (intros k Hk%elem_of_upto; lia).
  assert (byte_at (foldr (λ k d, set_byte d (o + k) (Z.shiftr v (8 * k))) d l) j =
    if decide (j - o ∈ l) then u8 (Z.shiftr v (8 * (j - o))) else byte_at d j) as ->.
  { clearbody l. induction l as [|k l IH]; [done|].
    assert (∀ k, k ∈ l → 0 ≤ k < n) as Hl' by (intros m Hm; apply Hl; by right). specialize (IH Hl').
    pose proof (Hl k ltac:(by left)) as Hk. cbn [foldr]. set (d1 := foldr _ d l) in *.
    assert (length d1 = length d) as Hd1.
    { unfold d1. clear. induction l as [|m l IH]; [done|]. simpl. unfold set_byte at 1. by rewrite length_insert. }
    rewrite byte_at_set by lia. destruct (decide (j = o + k)) as [E|E].
    - replace (j - o) with k by lia. by rewrite decide_True by (by left).
    - rewrite IH. apply decide_ext. rewrite elem_of_cons. split; [by right|]. intros [?|?]; [lia|done]. }
  apply decide_ext. unfold l. rewrite elem_of_upto. lia.
Qed.
Lemma le_bytes v n : ∀ a, 0 ≤ a →
  foldr (λ k w, u8 (Z.shiftr v (8 * k)) + 256 * w) 0 (seqZ a (Z.of_nat n)) = Z.shiftr v (8 * a) mod 256 ^ Z.of_nat n.
Proof.
  induction n as [|n IH]; intros a Ha; [by rewrite Z.mod_1_r|]. rewrite seqZ_cons by lia. cbn [foldr].
  replace (Z.pred (Z.of_nat (S n))) with (Z.of_nat n) by lia. rewrite IH by lia.
  rewrite Nat2Z.inj_succ, Z.pow_succ_r by lia. rewrite Z.rem_mul_r by lia. f_equal. f_equal. f_equal.
  rewrite !Z.shiftr_div_pow2 by lia. replace (8 * Z.succ a) with (8 * a + 8) by lia. rewrite Z.pow_add_r by lia.
  by rewrite Z.div_div by lia.
Qed.
Lemma le_set_same d o n v : 0 ≤ o → 0 ≤ n → o + n ≤ zlen d → 0 ≤ v < 256 ^ n → le_at (set_le d o n v) o n = v.
Proof.
  intros Ho Hn Hd Hv. unfold le_at. transitivity (foldr (λ k w, u8 (Z.shiftr v (8 * k)) + 256 * w) 0 (upto (Z.to_nat n))).
  - assert (∀ k, k ∈ upto (Z.to_nat n) → 0 ≤ k < n) as Hl by (intros k Hk%elem_of_upto; lia).
    induction (upto (Z.to_nat n)) as [|k l IH]; [done|]. simpl. rewrite byte_at_set_le by (specialize (Hl k ltac:(by left)); lia).
    rewrite decide_True by (specialize (Hl k ltac:(by left)); lia). replace (o + k - o) with k by lia. f_equal. f_equal.
    apply IH. intros j Hj. apply Hl. by right.
  - unfold upto. rewrite le_bytes by lia. rewrite Z2Nat.id by lia. by apply Z.mod_small.
Qed.
Lemma le_set_other d o n v o' n' : 0 ≤ o → o + n ≤ zlen d → 0 ≤ o' → o' + n' ≤ o ∨ o + n ≤ o' →
  le_at (set_le d o n v) o' n' = le_at d o' n'.
Proof. intros Ho Hn Ho' Hdis. apply le_at_ext. intros k Hk. rewrite byte_at_set_le by lia. by rewrite decide_False by lia. Qed.

(** ** The part of an inode that is on the disk *)

Record attrs := Attrs {
  a_mode : Z; a_uid : Z; a_size : Z; a_mtime : Z; a_gid : Z; a_nlinks : Z; a_zone : list Z
}.
Definition attrs_of (i : m_inode) : attrs :=
  Attrs (i_mode i) (i_uid i) (i_size i) (i_mtime i) (i_gid i) (i_nlinks i) (i_zone i).
Definition with_attrs (a : attrs) (i : m_inode) : m_inode :=
  i <| i_mode := a_mode a |> <| i_uid := a_uid a |> <| i_size := a_size a |> <| i_mtime := a_mtime a |>
    <| i_gid := a_gid a |> <| i_nlinks := a_nlinks a |> <| i_zone := a_zone a |>.
(** Every field within its width. *)
Record attrs_ok (a : attrs) : Prop := AttrsOk {
  ao_mode : 0 ≤ a_mode a < 256 ^ 2;
  ao_uid : 0 ≤ a_uid a < 256 ^ 2;
  ao_size : 0 ≤ a_size a < 256 ^ 8;
  ao_mtime : 0 ≤ a_mtime a < 256 ^ 8;
  ao_gid : 0 ≤ a_gid a < 256 ^ 1;
  ao_nlinks : 0 ≤ a_nlinks a < 256 ^ 1;
  ao_zones : length (a_zone a) = 9%nat ∧ Forall (λ z, 0 ≤ z < 256 ^ 2) (a_zone a)
}.
(** What entry [k] of a block of inodes holds. *)
Definition attrs_at (d : list Z) (k : Z) : attrs := attrs_of (load_d_inode d k inode0).
Lemma load_attrs d k i : load_d_inode d k i = with_attrs (attrs_at d k) i.
Proof. by destruct i. Qed.
Lemma attrs_with a i : attrs_of (with_attrs a i) = a.
Proof. by destruct a. Qed.

Lemma store_d_inode_length d k i : length (store_d_inode d k i) = length d.
Proof.
  unfold store_d_inode. change (upto 9) with [0; 1; 2; 3; 4; 5; 6; 7; 8]. cbn [foldr]. by rewrite !set_le_length.
Qed.
(** The fields of an entry: offset, width and value. *)
Definition fields (i : m_inode) : list (Z * Z * Z) :=
  [(0, 2, i_mode i); (2, 2, i_uid i); (8, 8, i_size i); (16, 8, i_mtime i); (24, 1, i_gid i); (25, 1, i_nlinks i)] ++
  ((λ j, (26 + 2 * j, 2, zone i j)) <$> reverse (upto 9)).
Definition set_field (o : Z) (d : list Z) (f : Z * Z * Z) : list Z := set_le d (o + f.1.1) f.1.2 f.2.
Lemma store_fields d k i : store_d_inode d k i = foldl (set_field (48 * k)) d (fields i).
Proof.
  unfold store_d_inode, fields, set_field. change (sizeof d_inode_t) with 48. rewrite (Z.mul_comm k 48).
  change (reverse (upto 9)) with [8; 7; 6; 5; 4; 3; 2; 1; 0]. change (upto 9) with [0; 1; 2; 3; 4; 5; 6; 7; 8].
  cbn [foldr foldl fmap list_fmap app fst snd]. rewrite !Z.add_assoc, ?Z.add_0_r. reflexivity.
Qed.
Lemma set_fields_length o l d : length (foldl (set_field o) d l) = length d.
Proof. revert d. induction l as [|f l IH]; intros d; [done|]. simpl. rewrite IH. apply set_le_length. Qed.
(** Fields that do not meet a range leave it. *)
Lemma set_fields_other o l o' n' : 0 ≤ o → 0 ≤ o' → ∀ d, (∀ f, f ∈ l → 0 ≤ f.1.1 ∧ o + f.1.1 + f.1.2 ≤ zlen d ∧
    (o' + n' ≤ o + f.1.1 ∨ o + f.1.1 + f.1.2 ≤ o')) →
  le_at (foldl (set_field o) d l) o' n' = le_at d o' n'.
Proof.
  intros Ho Ho'. induction l as [|f l IH]; intros d H; [done|]. simpl. destruct (H f) as (? & ? & ?); [by left|].
  rewrite IH.
  - apply le_set_other; lia.
  - intros g Hg. unfold set_field. rewrite set_le_length. apply H. by right.
Qed.
Lemma set_fields_same o l1 l2 a n v : 0 ≤ o → 0 ≤ a → 0 ≤ n → 0 ≤ v < 256 ^ n → ∀ d, o + a + n ≤ zlen d →
  (∀ f, f ∈ l2 → 0 ≤ f.1.1 ∧ o + f.1.1 + f.1.2 ≤ zlen d ∧ (a + n ≤ f.1.1 ∨ f.1.1 + f.1.2 ≤ a)) →
  le_at (foldl (set_field o) d (l1 ++ (a, n, v) :: l2)) (o + a) n = v.
Proof.
  intros Ho Ha Hn Hv d Hd H2. rewrite foldl_app. cbn [foldl]. pose proof (set_fields_length o l1 d) as Hl.
  set (d1 := foldl _ d l1) in *. rewrite set_fields_other; [|lia|lia|].
  - apply le_set_same; simpl; lia.
  - intros f Hf. unfold set_field at 1. rewrite set_le_length. destruct (H2 f Hf) as (? & ? & ?). lia.
Qed.

(** The fields have places of their own. *)
Definition layout : list (Z * Z) := (fields inode0).*1.
Lemma fields_layout i : (fields i).*1 = layout.
Proof. reflexivity. Qed.
Lemma layout_ok j p : layout !! j = Some p →
  0 ≤ p.1 ∧ 0 ≤ p.2 ∧ p.1 + p.2 ≤ 48 ∧
  ∀ j' q, layout !! j' = Some q → j ≠ j' → p.1 + p.2 ≤ q.1 ∨ q.1 + q.2 ≤ p.1.
Proof.
  assert (forallb (λ j, match layout !! j with Some p => (0 <=? p.1) && (0 <=? p.2) && (p.1 + p.2 <=? 48) &&
      forallb (λ j', match layout !! j' with
        | Some q => Nat.eqb j j' || (p.1 + p.2 <=? q.1) || (q.1 + q.2 <=? p.1) | None => true end) (seq 0 15)
    | None => true end) (seq 0 15) = true) as H by (vm_compute; reflexivity).
  rewrite forallb_forall in H. intros Hp. assert (∀ j p, layout !! j = Some p → List.In j (seq 0 15)) as Hin.
  { intros m q Hq%lookup_lt_Some. apply in_seq. change (length layout) with 15%nat in Hq. lia. }
  specialize (H j (Hin j p Hp)). rewrite Hp in H. apply andb_prop in H as [H HD]. split_and!; [lia..|].
  intros j' q Hq Hne. rewrite forallb_forall in HD. specialize (HD j' (Hin j' q Hq)). rewrite Hq in HD.
  destruct (Nat.eqb_spec j j'); [done|]. lia.
Qed.
Lemma field_layout i j f : fields i !! j = Some f → layout !! j = Some f.1.
Proof. intros H. rewrite <-(fields_layout i), list_lookup_fmap, H. done. Qed.

Lemma stored_field d k i j a n v : length d = 1024%nat → 0 ≤ k < 21 → fields i !! j = Some (a, n, v) → 0 ≤ v < 256 ^ n →
  le_at (store_d_inode d k i) (48 * k + a) n = v.
Proof.
  intros Hd Hk Hj Hv. destruct (layout_ok j (a, n) (field_layout i j _ Hj)) as (H1 & H2 & H3 & H4). simpl in H1, H2, H3.
  rewrite store_fields, <-(take_drop_middle (fields i) j _ Hj). apply set_fields_same; [lia..|].
  intros f Hf. apply list_elem_of_lookup in Hf as [m Hm]. rewrite lookup_drop in Hm.
  pose proof (field_layout i _ f Hm) as Hm'. destruct (layout_ok _ _ Hm') as (? & ? & ? & _).
  specialize (H4 _ _ Hm' ltac:(lia)). simpl in H4. lia.
Qed.
Lemma kept_field d k k' i a n : length d = 1024%nat → 0 ≤ k < 21 → 0 ≤ k' < 21 → k' ≠ k → 0 ≤ a → a + n ≤ 48 →
  le_at (store_d_inode d k i) (48 * k' + a) n = le_at d (48 * k' + a) n.
Proof.
  intros Hd Hk Hk' Hne Ha Hn. rewrite store_fields. apply set_fields_other; [lia..|].
  intros f Hf. apply list_elem_of_lookup in Hf as [m Hm]. destruct (layout_ok _ _ (field_layout i _ f Hm)) as (? & ? & ? & _).
  lia.
Qed.

Lemma attrs_at_le d k : attrs_at d k =
  Attrs (le_at d (48 * k + 0) 2) (le_at d (48 * k + 2) 2) (le_at d (48 * k + 8) 8) (le_at d (48 * k + 16) 8)
    (le_at d (48 * k + 24) 1) (le_at d (48 * k + 25) 1) (map (λ j, le_at d (48 * k + (26 + 2 * j)) 2) (upto 9)).
Proof.
  rewrite (map_ext _ (λ j, le_at d (48 * k + 26 + 2 * j) 2)) by (intros j; f_equal; lia).
  unfold attrs_at, load_d_inode. change (sizeof d_inode_t) with 48. by rewrite (Z.mul_comm k 48), Z.add_0_r.
Qed.
(** An entry holds what was stored in it, the others what they held. *)
Lemma attrs_stored d k i : length d = 1024%nat → 0 ≤ k < 21 → attrs_ok (attrs_of i) →
  attrs_at (store_d_inode d k i) k = attrs_of i.
Proof.
  intros Hd Hk [? ? ? ? ? ? [Hl Hz]]. simpl in *. rewrite attrs_at_le. unfold attrs_of.
  rewrite (stored_field d k i 0 0 2 (i_mode i)) by done. rewrite (stored_field d k i 1 2 2 (i_uid i)) by done.
  rewrite (stored_field d k i 2 8 8 (i_size i)) by done. rewrite (stored_field d k i 3 16 8 (i_mtime i)) by done.
  rewrite (stored_field d k i 4 24 1 (i_gid i)) by done. rewrite (stored_field d k i 5 25 1 (i_nlinks i)) by done.
  f_equal. transitivity (map (zone i) (upto 9)).
  - apply map_ext_in. intros j Hj%list_elem_of_In%elem_of_upto.
    apply (stored_field d k i (6 + (8 - Z.to_nat j))); [done|done| |].
    + unfold fields. rewrite lookup_app_r by (simpl; lia). rewrite list_lookup_fmap.
      replace (reverse (upto 9) !! _) with (Some j); [done|]. symmetry. rewrite reverse_lookup_Some. split.
      * simpl length. rewrite <-(Z2Nat.id j) at 2 by lia. unfold upto. rewrite lookup_seqZ_lt; [f_equal|]; simpl; lia.
      * simpl. lia.
    + unfold zone. destruct (i_zone i !! Z.to_nat j) as [z|] eqn:E; simpl; [|lia].
      rewrite Forall_lookup in Hz. by apply (Hz _ _ E).
  - destruct (i_zone i) as [|z0 [|z1 [|z2 [|z3 [|z4 [|z5 [|z6 [|z7 [|z8 [|]]]]]]]]]] eqn:E; try done.
    unfold zone. by rewrite E.
Qed.
Lemma attrs_kept d k k' i : length d = 1024%nat → 0 ≤ k < 21 → 0 ≤ k' < 21 → k' ≠ k →
  attrs_at (store_d_inode d k i) k' = attrs_at d k'.
Proof.
  intros Hd Hk Hk' Hne. rewrite !attrs_at_le. f_equal; try (by apply kept_field).
  apply map_ext_in. intros j Hj%list_elem_of_In%elem_of_upto. apply kept_field; lia.
Qed.
