(* ===== verification/InodeFacts.v ===== *)
(** * The inode table is transparent

    iget, iput and the write-back of changed inodes, over the buffer cache: what
    a holder of an inode sees is what was last stored in it, whichever entries of
    the table and blocks of the cache were recycled in between. *)

From S2P Require Export InodeDisk.
From S2P Require Import Inode Alloc Cache CacheFacts FsBoot.

(** ** The table *)

Section Inodes.
Context (D start nr sb : Z) (x : superblock).
Implicit Types s : fs.

(** The inodes of the partition, and where they are on it. *)
Definition inum (n : Z) : Prop := 1 ≤ n ≤ s_ninodes x ∧ n < 65536.
Definition home (n : Z) : Z := 2 + s_imap_blocks x + s_zmap_blocks x + (n - 1) / INODES_PER_BLOCK.
Definition slot (n : Z) : Z := (n - 1) mod INODES_PER_BLOCK.
Definition area_ok : Prop := 0 ≤ s_imap_blocks x ∧ 0 ≤ s_zmap_blocks x ∧ ∀ n, inum n → valid nr (home n).
(** What the block of inode [n], in the cache or on the disk, has for it. *)
Definition stored s (n : Z) : attrs := attrs_at (default [] (content D start s (home n))) (slot n).

(** The entry of inode [n]. *)
Definition is_inode (n : Z) (i : m_inode) : bool := (i_dev i =? D) && (i_num i =? n).
Definition entry_of (T : list m_inode) (n : Z) : option m_inode := List.find (is_inode n) T.
(** What the kernel takes for the inode: its entry, or the disk's. *)
Definition value s (n : Z) : attrs := match entry_of (inode_table s) n with Some i => attrs_of i | None => stored s n end.
Definition refs s (n : Z) : Z := match entry_of (inode_table s) n with Some i => i_count i | None => 0 end.

Definition distinct (T : list m_inode) : Prop := ∀ k k' i i', T !! k = Some i → T !! k' = Some i' →
  i_dev i = D → i_dev i' = D → i_num i' = i_num i → k' = k.
(** An entry is free of locks.  If it is for an inode of the partition and
    clean it agrees with the disk; others are dirty only while in use as a pipe. *)
Definition entry_ok s (i : m_inode) : Prop := i_lock i = 0 ∧ 0 ≤ i_count i ∧
  if decide (i_dev i = D) then inum (i_num i) ∧ i_pipe i = 0 ∧
    (if i_dirt i =? 0 then attrs_of i = stored s (i_num i) else attrs_ok (attrs_of i))
  else i_dirt i = 0 ∨ i_pipe i ≠ 0 ∧ i_count i ≠ 0.
Record base_ok s : Prop := BaseOk {
  bo_cache : cache_ok D start nr s;
  bo_room : room s;
  bo_super : super_of s D sb x;
  bo_last : 0 ≤ last_allocated_inode s < 32;
  bo_length : length (inode_table s) = NR_INODE
}.
Record inodes_ok s : Prop := InodesOk {
  io_base : base_ok s;
  io_distinct : distinct (inode_table s);
  io_entry : ∀ k i, inode_table s !! k = Some i → entry_ok s i
}.

Lemma is_inode_true n i : is_inode n i = true ↔ i_dev i = D ∧ i_num i = n.
Proof. unfold is_inode. rewrite andb_true_iff, !Z.eqb_eq. done. Qed.
Lemma entry_of_Some T n i : entry_of T n = Some i → ∃ k, T !! k = Some i ∧ i_dev i = D ∧ i_num i = n.
Proof.
  intros H. apply find_some in H as [Hin Hi%is_inode_true]. apply list_elem_of_In, list_elem_of_lookup in Hin as [k Hk].
  eauto.
Qed.
Lemma entry_of_None T n k i : entry_of T n = None → T !! k = Some i → i_dev i = D → i_num i ≠ n.
Proof.
  intros H Hi Hd Hn. pose proof (find_none _ _ H i) as Hf. rewrite (proj2 (is_inode_true n i)) in Hf by done.
  assert (true = false); [|done]. apply Hf, list_elem_of_In. by eapply list_elem_of_lookup_2.
Qed.
Lemma entry_of_at T k i : distinct T → T !! k = Some i → i_dev i = D → entry_of T (i_num i) = Some i.
Proof.
  intros HT Hk Hd. destruct (entry_of T (i_num i)) as [j|] eqn:E.
  - apply entry_of_Some in E as (k' & Hk' & Hd' & Hn). pose proof (HT k k' i j Hk Hk' Hd Hd' Hn) as ->. congruence.
  - by destruct (entry_of_None T (i_num i) k i E Hk Hd).
Qed.
(** One entry is replaced. *)
Lemma entry_of_set T k i i' n : distinct T → distinct (<[k := i']> T) → T !! k = Some i →
  entry_of (<[k := i']> T) n = if is_inode n i' then Some i' else if is_inode n i then None else entry_of T n.
Proof.
  intros HT HT' Hk. assert (k < length T)%nat as Hlt by (by apply lookup_lt_Some in Hk).
  destruct (is_inode n i') eqn:E'.
  { apply is_inode_true in E' as [Hd <-]. apply (entry_of_at _ k); [done|by apply list_lookup_insert_eq|done]. }
  assert (∀ j, entry_of (<[k := i']> T) n = Some j → ∃ k', k' ≠ k ∧ T !! k' = Some j ∧ i_dev j = D ∧ i_num j = n) as Hback.
  { intros j (k' & Hk' & Hd & Hn)%entry_of_Some. destruct (decide (k' = k)) as [->|Hne].
    - rewrite list_lookup_insert_eq in Hk' by done. injection Hk' as ->.
      assert (is_inode n j = true) by (by apply is_inode_true). congruence.
    - rewrite list_lookup_insert_ne in Hk' by done. eauto. }
  destruct (is_inode n i) eqn:Ei.
  - apply is_inode_true in Ei as [Hd <-]. destruct (entry_of (<[k := i']> T) (i_num i)) as [j|]; [|done].
    destruct (Hback j eq_refl) as (k' & Hne & Hk' & Hd' & Hn). by destruct Hne; apply (HT k k' i j).
  - destruct (entry_of (<[k := i']> T) n) as [j|] eqn:E.
    + destruct (Hback j eq_refl) as (k' & Hne & Hk' & Hd' & <-). by rewrite (entry_of_at T k' j).
    + destruct (entry_of T n) as [j|] eqn:E0; [|done]. apply entry_of_Some in E0 as (k' & Hk' & Hd & Hn).
      destruct (decide (k' = k)) as [->|Hne].
      * assert (is_inode n i = true); [|congruence]. apply is_inode_true. split; congruence.
      * destruct (entry_of_None _ n k' j E); [by rewrite list_lookup_insert_ne by done|done|done].
Qed.
Lemma distinct_set T k i i' : distinct T → T !! k = Some i →
  (i_dev i' = D → (i_dev i = D ∧ i_num i = i_num i') ∨ entry_of T (i_num i') = None) → distinct (<[k := i']> T).
Proof.
  intros HT Hk Hi'. assert (k < length T)%nat as Hlt by (by apply lookup_lt_Some in Hk).
  assert (∀ m j, m ≠ k → T !! m = Some j → i_dev j = D → i_dev i' = D → i_num j ≠ i_num i') as Hno.
  { intros m j Hm Hj Hd Hd' E. destruct (Hi' Hd') as [[Hdi Hni]|HN].
    - apply Hm. by apply (HT k m i j); congruence.
    - by apply (entry_of_None T _ m j HN). }
  intros a b i1 i2. rewrite !list_lookup_insert. case_decide as Ea; case_decide as Eb.
  - intros. destruct Ea, Eb. congruence.
  - intros [= <-] H2 Hd1 Hd2 E. destruct Ea as [-> _]. destruct (decide (b = a)) as [|Hne]; [done|].
    destruct (Hno b i2 Hne H2 Hd2 Hd1 E).
  - intros H1 [= <-] Hd1 Hd2 E. destruct Eb as [-> _]. destruct (decide (a = b)) as [|Hne]; [done|].
    by destruct (Hno a i1 Hne H1 Hd1 Hd2).
  - intros H1 H2. by apply (HT a b).
Qed.

(** ** Locks, which nobody holds, and the super block *)

(** A change of inodes, files, the memory of the task, and of sleepers. *)
Definition quiet s s' : Prop := heads s' = heads s ∧ hash_table s' = hash_table s ∧ free_list s' = free_list s ∧
  media s' = media s ∧ waiters_ok (sch s') ∧ nr_buffers s' = nr_buffers s ∧ hd s' = hd s ∧ super_block s' = super_block s.
Lemma quiet_trans s1 s2 s3 : quiet s1 s2 → quiet s2 s3 → quiet s1 s3.
Proof. intros (? & ? & ? & ? & ? & ? & ? & ?) (? & ? & ? & ? & ? & ? & ? & ?). split_and!; congruence || done. Qed.
Lemma quiet_content s s' blk : quiet s s' → content D start s' blk = content D start s blk.
Proof. intros (E1 & E2 & E3 & E4 & _ & E5 & _). unfold content, cached, disk. by rewrite E1, E4, E5. Qed.
Lemma quiet_cache s s' : quiet s s' → cache_ok D start nr s → cache_ok D start nr s'.
Proof.
  intros (E1 & E2 & E3 & E4 & Hw & E5 & E6 & _) HC.
  by apply (cache_ok_ext D start nr (with_sch s (sch s'))); [apply cache_ok_sch|..].
Qed.
Lemma quiet_room s s' : quiet s s' → room s → room s'.
Proof. intros (E1 & _) [Hf Hl]. unfold room. by rewrite E1. Qed.
Lemma quiet_stored s s' n : quiet s s' → stored s' n = stored s n.
Proof. intros H. unfold stored. by rewrite (quiet_content s s'). Qed.

Lemma wait_on_inode_Ret p i s : 1 ≤ p → inode_table s !! Z.to_nat (p - 1) = Some i → i_lock i = 0 →
  wait_on_inode p s = Ret tt s.
Proof. intros Hp Hi Hl. unfold wait_on_inode. rewrite (bind_ret _ _ _ _ _ (inode_Ret p i s Hp Hi)). by rewrite Hl. Qed.
Lemma set_inode_Ret p i f s : 1 ≤ p → inode_table s !! Z.to_nat (p - 1) = Some i →
  set_inode p f s = Ret tt (s <| inode_table ::= <[Z.to_nat (p - 1) := f i]> |>).
Proof.
  intros Hp Hi. unfold set_inode. rewrite (bind_ret _ _ _ _ _ (inode_Ret p i s Hp Hi)).
  apply (store_in inode_table). apply lookup_lt_Some in Hi. lia.
Qed.
(** The state with another inode table. *)
Definition with_table (T : list m_inode) s : fs := s <| inode_table := T |>.
Lemma with_table_quiet T s : waiters_ok (sch s) → quiet s (with_table T s).
Proof. intros H. by split_and!. Qed.
Lemma wp_unlock_inode p i (Q : () → fs → Prop) s : 1 ≤ p → inode_table s !! Z.to_nat (p - 1) = Some i → waiters_ok (sch s) →
  (∀ s', quiet s s' → rest s' = rest s → file_table s' = file_table s → user s' = user s →
    inode_table s' = <[Z.to_nat (p - 1) := i <| i_lock := 0 |>]> (inode_table s) → Q tt s') →
  wp (unlock_inode p) Q s.
Proof.
  intros Hp Hi Hw HQ. unfold unlock_inode. apply wp_bind, (wp_set_inode p i); [done..|].
  apply wp_wake; [apply i_wait_nonzero; lia|done|]. apply HQ; try done. split_and!; try done. by apply woken_ok.
Qed.

(** The superblock as the functions find it. *)
Lemma super_run s dev : dev = D → super_of s D sb x → get_super dev s = Ret sb s ∧ sblock sb s = Ret x s.
Proof.
  intros -> HS. split; [by apply (get_super_run s D sb x)|]. destruct HS as (? & ? & _). apply sblock_Ret; [lia|done].
Qed.
Lemma inode_block_home i : area_ok → inum (i_num i) → inode_block x i = home (i_num i) ∧ inode_entry i = slot (i_num i).
Proof.
  intros (H1 & H2 & H3) Hn. pose proof (H3 _ Hn) as [Hv _]. unfold home, inode_block, inode_entry, slot in *. unfold inum in Hn.
  rewrite (u64_small (i_num i - 1)) by lia. rewrite s32_small by lia. done.
Qed.
Lemma home_slot m n : home m = home n → slot m = slot n → m = n.
Proof. unfold home, slot. change INODES_PER_BLOCK with 21. intros. dlia. Qed.
Lemma slot_range n : 0 ≤ slot n < 21.
Proof. unfold slot. change INODES_PER_BLOCK with 21. apply Z.mod_pos_bound. lia. Qed.

(** ** write_inode and read_inode *)

Lemma lock_inode_Ret p i s : 1 ≤ p → inode_table s !! Z.to_nat (p - 1) = Some i → i_lock i = 0 →
  lock_inode p s = Ret tt (with_table (<[Z.to_nat (p - 1) := i <| i_lock := 1 |>]> (inode_table s)) s).
Proof.
  intros Hp Hi Hl. unfold lock_inode. rewrite (bind_ret _ _ _ _ _ (wait_on_inode_Ret p i s Hp Hi Hl)).
  by apply (set_inode_Ret p i).
Qed.
Definition same_beside s s' : Prop := rest s' = rest s ∧ file_table s' = file_table s ∧ user s' = user s.
Definition cached_block s (blk : Z) : list Z := default [] (content D start s blk).

(** Up to the buffer of the inode's block. *)
Lemma wp_inode_block {A} p i (K : m_inode → Z → M fs A) (Q : A → fs → Prop) s : base_ok s → area_ok → 1 ≤ p →
  inode_table s !! Z.to_nat (p - 1) = Some i → i_dev i = D → inum (i_num i) → i_lock i = 0 →
  let s1 := with_table (<[Z.to_nat (p - 1) := i <| i_lock := 1 |>]> (inode_table s)) s in
  (∀ b h s2, taken_block D start nr s1 (home (i_num i)) b h s2 → b_data h = cached_block s (home (i_num i)) →
     wp (K (i <| i_lock := 1 |>) b) Q s2) →
  wp (lock_inode p;; i ← inode p; sb ← get_super (i_dev i); s ← sblock sb; b ← bread (i_dev i) (inode_block s i); K i b) Q s.
Proof.
  intros HI HA Hp Hi Hd Hn Hl s1 HK. destruct HI as [HC HR HS _ _].
  assert (inode_table s1 !! Z.to_nat (p - 1) = Some (i <| i_lock := 1 |>)) as Hi1.
  { apply list_lookup_insert_eq. by apply lookup_lt_Some in Hi. }
  assert (quiet s s1) as HQ by (apply with_table_quiet, (do_wait _ _ _ s (proj2 HC))).
  apply wp_bind. eapply wp_of_ret; [by apply (lock_inode_Ret p i)|]. fold s1.
  apply wp_bind, (wp_inode p _ _ _ Hp Hi1). simpl i_dev.
  destruct (super_run s1 (i_dev i) Hd HS) as [E1 E2]. apply wp_bind. eapply wp_of_ret; [exact E1|].
  apply wp_bind. eapply wp_of_ret; [exact E2|]. rewrite Hd.
  change (inode_block x (i <| i_lock := 1 |>)) with (inode_block x i). destruct (inode_block_home i HA Hn) as [-> _].
  apply wp_bind, (wp_take_block D start nr); [by apply (quiet_cache s)|by apply HA|by apply (quiet_room s)|].
  intros b h s2 T. apply (HK b h s2 T). unfold cached_block.
  rewrite <-(quiet_content s s1), (tb_data _ _ _ _ _ _ _ _ T) by done. done.
Qed.

(** The state after the entry [k] was written out, or read in. *)
Record moved s (k : nat) (i' : m_inode) (blk : Z) (d : list Z) s' : Prop := Moved {
  mv_idle : idle D start nr s s';
  mv_beside : same_beside s s';
  mv_table : inode_table s' = <[k := i']> (inode_table s);
  mv_block : content D start s' blk = Some d;
  mv_others : ∀ blk', valid nr blk' → blk' ≠ blk → content D start s' blk' = content D start s blk'
}.
Lemma wp_write_low p i s : base_ok s → area_ok → 1 ≤ p →
  inode_table s !! Z.to_nat (p - 1) = Some i → i_dev i = D → inum (i_num i) → i_lock i = 0 →
  wp (write_inode p) (λ _ s', moved s (Z.to_nat (p - 1)) (i <| i_dirt := 0 |>) (home (i_num i))
    (store_d_inode (cached_block s (home (i_num i))) (slot (i_num i)) i) s') s.
Proof.
  intros HI HA Hp Hi Hd Hn Hl. unfold write_inode. apply (wp_inode_block p i); [done..|].
  set (s1 := with_table _ s). set (i1 := i <| i_lock := 1 |>). intros b h s2 T Hdata.
  rewrite (proj2 (Z.eqb_neq b NULL) (tb_pointer _ _ _ _ _ _ _ _ T)).
  assert (inode_table s1 !! Z.to_nat (p - 1) = Some i1) as Hi1.
  { apply list_lookup_insert_eq. by apply lookup_lt_Some in Hi. }
  destruct (tb_files _ _ _ _ _ _ _ _ T) as (F1 & F2 & F3). pose proof (tb_head _ _ _ _ _ _ _ _ T) as Hh.
  apply wp_bind, (wp_set_bh b h _ _ _ Hh). apply wp_bind. eapply wp_set_bh; [simpl; apply lookup_insert_eq|].
  destruct (inode_block_home i HA Hn) as [_ Es]. change (inode_entry i1) with (inode_entry i). rewrite Es.
  set (d := store_d_inode (cached_block s (home (i_num i))) (slot (i_num i)) i).
  apply wp_bind, (wp_set_inode p i1 _ _ _ Hp); [simpl; by rewrite F1|]. set (s3 := _ <| inode_table ::= _ |>).
  apply wp_bind. eapply wp_mono.
  { apply (wp_release_written D start nr s1 (home (i_num i)) b h s2 d s3 T); try done.
    - unfold d. rewrite store_d_inode_length, <-Hdata. apply (tb_length _ _ _ _ _ _ _ _ T).
    - unfold s3. simpl. rewrite insert_insert_eq. unfold d. by rewrite <-Hdata. }
  intros [] s4 ([[HC4 HK4] R4 B4 O4] & G1 & G2 & G3).
  apply (wp_unlock_inode p (i1 <| i_dirt := 0 |>)); [done| |exact (do_wait _ _ _ s4 (proj2 HC4))|].
  { rewrite G1. unfold s3. simpl. apply list_lookup_insert_eq. rewrite F1. by apply lookup_lt_Some in Hi1. }
  intros s5 Hq R5 G4 G5 G6. split.
  - split; [by apply (quiet_cache s4)|]. intros q c Hc. destruct Hq as (-> & _). by apply HK4.
  - split_and!; [by rewrite R5, R4|by rewrite G4, G2; unfold s3; simpl; rewrite F2|by rewrite G5, G3; unfold s3].
  - rewrite G6, G1. unfold s3. simpl. rewrite F1. unfold s1. simpl. rewrite !list_insert_insert_eq. f_equal.
    destruct i. simpl in Hl. by subst.
  - by rewrite (quiet_content s4).
  - intros blk Hv Hne. rewrite (quiet_content s4), O4 by done. done.
Qed.
Lemma wp_read_low p i s : base_ok s → area_ok → 1 ≤ p →
  inode_table s !! Z.to_nat (p - 1) = Some i → i_dev i = D → inum (i_num i) → i_lock i = 0 →
  wp (read_inode p) (λ _ s', moved s (Z.to_nat (p - 1)) (with_attrs (stored s (i_num i)) i) (home (i_num i))
    (cached_block s (home (i_num i))) s') s.
Proof.
  intros HI HA Hp Hi Hd Hn Hl. unfold read_inode. apply (wp_inode_block p i); [done..|].
  set (s1 := with_table _ s). set (i1 := i <| i_lock := 1 |>). intros b h s2 T Hdata.
  rewrite (proj2 (Z.eqb_neq b NULL) (tb_pointer _ _ _ _ _ _ _ _ T)).
  assert (inode_table s1 !! Z.to_nat (p - 1) = Some i1) as Hi1.
  { apply list_lookup_insert_eq. by apply lookup_lt_Some in Hi. }
  destruct (tb_files _ _ _ _ _ _ _ _ T) as (F1 & F2 & F3).
  apply wp_bind, (wp_bh b h _ _ (tb_head _ _ _ _ _ _ _ _ T)).
  destruct (inode_block_home i HA Hn) as [_ Es]. change (inode_entry i1) with (inode_entry i). rewrite Es, Hdata.
  apply wp_bind, (wp_set_inode p i1 _ _ _ Hp); [by rewrite F1|]. set (s3 := _ <| inode_table ::= _ |>).
  apply wp_bind. eapply wp_mono; [apply (wp_release D start nr s1 _ b h s2 s3 T); by split_and!|].
  intros [] s4 ([[HC4 HK4] C4 R4] & G1 & G2 & G3).
  set (i4 := with_attrs (stored s (i_num i)) i1).
  apply (wp_unlock_inode p i4); [done| |exact (do_wait _ _ _ s4 (proj2 HC4))|].
  { rewrite G1. unfold s3. simpl. rewrite load_attrs. apply list_lookup_insert_eq. rewrite F1. by apply lookup_lt_Some in Hi1. }
  intros s5 Hq R5 G4 G5 G6. split.
  - split; [by apply (quiet_cache s4)|]. intros q c Hc. destruct Hq as (-> & _). by apply HK4.
  - split_and!; [by rewrite R5, R4|by rewrite G4, G2; unfold s3; simpl; rewrite F2|by rewrite G5, G3; unfold s3].
  - rewrite G6, G1. unfold s3. simpl. rewrite F1. unfold s1. simpl. rewrite !list_insert_insert_eq. f_equal.
    destruct i. simpl in Hl. by subst.
  - rewrite (quiet_content s4), C4 by (done || by apply HA). rewrite (tb_data _ _ _ _ _ _ _ _ T). by rewrite Hdata.
  - intros blk Hv Hne. rewrite (quiet_content s4), C4 by done. done.
Qed.

(** ** What an operation of the table leaves alone *)

Definition rest0 s := rest (s <| last_allocated_inode := 0 |>).
Record beside s s' : Prop := Beside {
  be_idle : idle D start nr s s';
  be_rest : rest0 s' = rest0 s;
  be_files : file_table s' = file_table s ∧ user s' = user s;
  be_others : ∀ blk, valid nr blk → (∀ n, inum n → blk ≠ home n) → content D start s' blk = content D start s blk
}.
(** The inodes are what they were, with as many users. *)
Definition same_view s s' : Prop := ∀ n, inum n → value s' n = value s n ∧ refs s' n = refs s n.
Lemma beside_trans s1 s2 s3 : beside s1 s2 → beside s2 s3 → beside s1 s3.
Proof.
  intros [[_ K1] R1 [F1 U1] O1] [[C2 K2] R2 [F2 U2] O2]. split.
  - split; [done|]. by apply (users_kept_trans s1 s2).
  - congruence.
  - split; congruence.
  - intros blk Hv Ha. by rewrite O2, O1.
Qed.
Lemma quiet_beside s s' : cache_ok D start nr s → quiet s s' → rest0 s' = rest0 s → file_table s' = file_table s →
  user s' = user s → beside s s'.
Proof.
  intros HC Hq HR HF HU. split; [|done|done|].
  - split; [by apply (quiet_cache s)|]. apply users_kept_heads. apply Hq.
  - intros blk _ _. by apply quiet_content.
Qed.
Lemma base_kept s s' : base_ok s → beside s s' → 0 ≤ last_allocated_inode s' < 32 →
  length (inode_table s') = NR_INODE → base_ok s'.
Proof.
  intros [HC HR HS _ _] [HI HR0 _ _] Hl Hlen. unfold rest0, rest in HR0. simpl in HR0. split; [apply HI| |..|done|done].
  - apply (room_idle D start nr s); [done..|congruence|done].
  - unfold super_of in *. by replace (super_block s') with (super_block s) by congruence.
Qed.

(** Entry [k] is replaced; at most its own inode may change on the disk. *)
Lemma step_ok s s' k i i' : inodes_ok s → inode_table s !! k = Some i → base_ok s' →
  inode_table s' = <[k := i']> (inode_table s) →
  (i_dev i' = D → (i_dev i = D ∧ i_num i = i_num i') ∨ entry_of (inode_table s) (i_num i') = None) →
  (∀ n, inum n → stored s' n = stored s n ∨ i_dev i = D ∧ i_num i = n) → entry_ok s' i' →
  inodes_ok s' ∧ ∀ n, entry_of (inode_table s') n =
    if is_inode n i' then Some i' else if is_inode n i then None else entry_of (inode_table s) n.
Proof.
  intros [HB HD HE] Hk HB' HT Hi' Hst HE'.
  assert (distinct (inode_table s')) as HD' by (rewrite HT; by apply (distinct_set _ k i)).
  split; [|intros n; rewrite HT in HD' |- *; by apply entry_of_set]. split; [done..|].
  intros m j. rewrite HT. intros [(<- & <- & _)|[Hne Hj]]%list_lookup_insert_Some; [done|].
  destruct (HE m j Hj) as (H1 & H2 & H3). split; [done|]. split; [done|].
  case_decide as Hd; [|done]. destruct H3 as (Hn & Hp & Ha). split; [done|]. split; [done|].
  destruct (i_dirt j =? 0); [|done]. rewrite Ha. destruct (Hst _ Hn) as [->|[Hdi Hni]]; [done|].
  destruct Hne. symmetry. by apply (HD k m i j).
Qed.

Lemma entry_Some s k i : inodes_ok s → inode_table s !! k = Some i → (k < 32)%nat.
Proof. intros HI Hk%lookup_lt_Some. by rewrite (bo_length _ (io_base _ HI)) in Hk. Qed.
Lemma entry_home s i : entry_ok s i → i_dev i = D → inum (i_num i) ∧ i_pipe i = 0 ∧
  (i_dirt i = 0 → attrs_of i = stored s (i_num i)) ∧ (i_dirt i ≠ 0 → attrs_ok (attrs_of i)).
Proof.
  intros (_ & _ & H) Hd. rewrite decide_True in H by done. destruct H as (Hn & Hp & Ha). split; [done|]. split; [done|].
  destruct (Z.eqb_spec (i_dirt i) 0); done.
Qed.
Lemma moved_beside s k i' n d s' : base_ok s → (k < 32)%nat → inum n → moved s k i' (home n) d s' → beside s s' ∧ base_ok s'.
Proof.
  intros HB Hk Hn [HI (R1 & R2 & R3) HT HBl HO].
  assert (beside s s') as Hbe.
  { split; [done| |done|].
    - unfold rest0, rest in *. simpl. congruence.
    - intros blk Hv Ha. apply HO; [done|]. by apply Ha. }
  split; [done|]. apply (base_kept s); [done..| |].
  - unfold rest in R1. assert (last_allocated_inode s' = last_allocated_inode s) as -> by congruence. apply HB.
  - rewrite HT, length_insert. apply HB.
Qed.

(** A dirty entry is written out. *)
Lemma wp_write_inode p i s : inodes_ok s → area_ok → 1 ≤ p → inode_table s !! Z.to_nat (p - 1) = Some i → i_dev i = D →
  i_dirt i ≠ 0 →
  wp (write_inode p) (λ _ s', inodes_ok s' ∧ beside s s' ∧ same_view s s' ∧
    last_allocated_inode s' = last_allocated_inode s ∧
    inode_table s' = <[Z.to_nat (p - 1) := i <| i_dirt := 0 |>]> (inode_table s)) s.
Proof.
  intros HI HA Hp Hk Hd Hdirt. pose proof (io_base _ HI) as HB. pose proof (io_entry _ HI _ _ Hk) as HE.
  destruct (entry_home s i HE Hd) as (Hn & Hpipe & _ & Hok). specialize (Hok Hdirt). destruct HE as (Hl & Hcnt & _).
  eapply wp_mono; [by apply (wp_write_low p i)|]. intros [] s' HM.
  destruct (moved_beside s _ _ _ _ s' HB (entry_Some s _ _ HI Hk) Hn HM) as [Hbe HB'].
  destruct HM as [_ (R & _) HT HBl HO]. destruct (content_length D start nr s (home (i_num i)) (bo_cache _ HB)) as (c & Hc & Hlen); [by apply HA|].
  assert (cached_block s (home (i_num i)) = c) as Ec by (unfold cached_block; by rewrite Hc). rewrite Ec in HBl.
  assert (∀ n, inum n → stored s' n = if decide (n = i_num i) then attrs_of i else stored s n) as Hst.
  { intros n Hn'. unfold stored. destruct (decide (home n = home (i_num i))) as [Eh|Eh].
    - rewrite Eh, HBl, Hc. simpl. case_decide as En; [subst n; by apply attrs_stored; [|apply slot_range|]|].
      apply attrs_kept; [done|apply slot_range..|]. intros Es. by apply En, home_slot.
    - rewrite HO by (done || by apply HA). case_decide; [congruence|done]. }
  assert (entry_ok s' (i <| i_dirt := 0 |>)) as HE'.
  { split; [done|]. split; [done|]. rewrite decide_True by done. split; [done|]. split; [done|].
    simpl. by rewrite Hst, decide_True by done. }
  destruct (step_ok s s' _ i _ HI Hk HB' HT) as [HI' Hent]; [by left| |done|].
  { intros n Hn'. rewrite Hst by done. case_decide; [by right|by left]. }
  split; [done|]. split; [done|]. split; [|split; [unfold rest in R; congruence|done]].
  intros n Hn'. unfold value, refs. rewrite Hent.
  change (is_inode n (i <| i_dirt := 0 |>)) with (is_inode n i). destruct (is_inode n i) eqn:En.
  - apply is_inode_true in En as [_ <-]. rewrite (entry_of_at _ _ i (io_distinct _ HI) Hk Hd). done.
  - destruct (entry_of (inode_table s) n); [done|]. rewrite Hst by done. case_decide; [|done]. subst n.
    rewrite (proj2 (is_inode_true _ _)) in En; done.
Qed.

(** ** get_empty_inode *)

Lemma entry_ok_stored s s' i : (i_dev i = D → inum (i_num i) → stored s' (i_num i) = stored s (i_num i)) → entry_ok s i → entry_ok s' i.
Proof.
  intros Hst (H1 & H2 & H3). split; [done|]. split; [done|]. case_decide as Hd; [|done].
  destruct H3 as (Hn & Hp & Ha). split; [done|]. split; [done|]. destruct (i_dirt i =? 0); [|done]. by rewrite Hst.
Qed.
(** A change of one entry, beside the cache. *)
Lemma quiet_step s s' k i i' : inodes_ok s → inode_table s !! k = Some i → quiet s s' → rest0 s' = rest0 s →
  file_table s' = file_table s → user s' = user s → 0 ≤ last_allocated_inode s' < 32 →
  inode_table s' = <[k := i']> (inode_table s) →
  (i_dev i' = D → (i_dev i = D ∧ i_num i = i_num i') ∨ entry_of (inode_table s) (i_num i') = None) → entry_ok s i' →
  inodes_ok s' ∧ beside s s' ∧ ∀ n, entry_of (inode_table s') n =
    if is_inode n i' then Some i' else if is_inode n i then None else entry_of (inode_table s) n.
Proof.
  intros HI Hk Hq HR HF HU Hl HT Hi' HE'. pose proof (io_base _ HI) as HB.
  assert (beside s s') as Hbe by (apply quiet_beside; [apply HB|done..]).
  assert (base_ok s') as HB'.
  { apply (base_kept s); [done..|]. rewrite HT, length_insert. apply HB. }
  destruct (step_ok s s' k i i' HI Hk HB' HT Hi') as [HI' Hent]; [| |done].
  - intros n _. left. by apply quiet_stored.
  - apply (entry_ok_stored s); [|done]. intros _ _. by apply quiet_stored.
Qed.
(** The views of two tables over the same disk. *)
Lemma view_step s s' i i' : quiet s s' → inodes_ok s → (∃ k, inode_table s !! k = Some i) →
  (∀ n, entry_of (inode_table s') n =
    if is_inode n i' then Some i' else if is_inode n i then None else entry_of (inode_table s) n) →
  ∀ n, (value s' n = if is_inode n i' then attrs_of i' else if is_inode n i then stored s n else value s n) ∧
    (refs s' n = if is_inode n i' then i_count i' else if is_inode n i then 0 else refs s n).
Proof.
  intros Hq HI [k Hk] Hent n. unfold value, refs. rewrite Hent.
  destruct (is_inode n i'); [done|]. destruct (is_inode n i); [split; [by apply quiet_stored|done]|].
  destruct (entry_of (inode_table s) n); [done|]. split; [by apply quiet_stored|done].
Qed.

(** Some entry is not in use. *)
Definition spare s : Prop := ∃ k i, inode_table s !! k = Some i ∧ i_count i = 0.
Lemma find_unused_run s n start0 ino d i : length (inode_table s) = NR_INODE → (n ≤ 32)%nat → 0 ≤ start0 < 32 →
  ino = (start0 + (32 - Z.of_nat n)) mod 32 → 0 ≤ d < Z.of_nat n →
  inode_table s !! Z.to_nat ((ino + d) mod 32) = Some i → i_count i = 0 →
  ∃ r j, find_unused n ino start0 s = Ret (Some r) s ∧ 0 ≤ r < 32 ∧ inode_table s !! Z.to_nat r = Some j ∧ i_count j = 0.
Proof.
  intros Hlen Hn Hs. revert ino d. induction n as [|n IH]; intros ino d Hino Hd Hi Hc; [lia|].
  pose proof (Z.mod_pos_bound (start0 + (32 - Z.of_nat (S n))) 32 ltac:(lia)) as Hr. rewrite <-Hino in Hr.
  destruct (lookup_lt_is_Some_2 (inode_table s) (Z.to_nat ino)) as [j Hj]; [rewrite Hlen; unfold NR_INODE; lia|].
  cbn [find_unused]. rewrite (bind_ret _ _ _ _ _ (inode_Ret (ino + 1) j s ltac:(lia) ltac:(by replace (ino + 1 - 1) with ino by lia))).
  destruct (Z.eqb_spec (i_count j) 0) as [E|E]; [by exists ino, j|].
  assert (d ≠ 0) as Hd0.
  { intros ->. rewrite Z.add_0_r, Z.mod_small in Hi by lia. congruence. }
  change (Z.of_nat NR_INODE) with 32. set (next := if 32 <=? ino + 1 then 0 else ino + 1).
  assert (next = (start0 + (32 - Z.of_nat n)) mod 32) as Hnext.
  { unfold next. destruct (Z.leb_spec 32 (ino + 1)); dlia. }
  assert ((next =? start0) = false) as -> by (apply Z.eqb_neq; dlia). simpl negb. cbv iota.
  apply (IH ltac:(lia) next (d - 1)); [done|lia| |done].
  rewrite <-Hi. f_equal. f_equal. unfold next. destruct (Z.leb_spec 32 (ino + 1)); dlia.
Qed.
Lemma wp_find_unused s (Q : option Z → fs → Prop) : inodes_ok s → spare s →
  (∀ r j, 0 ≤ r < 32 → inode_table s !! Z.to_nat r = Some j → i_count j = 0 → Q (Some r) s) →
  wp (find_unused NR_INODE (last_allocated_inode s) (last_allocated_inode s)) Q s.
Proof.
  intros HI (k & i & Hk & Hc) HQ. pose proof (io_base _ HI) as [_ _ _ Hl Hlen]. pose proof (entry_Some s k i HI Hk) as Hk32.
  destruct (find_unused_run s NR_INODE (last_allocated_inode s) (last_allocated_inode s)
    ((Z.of_nat k - last_allocated_inode s) mod 32) i) as (r & j & E & Hr & Hj & Hcj); try done.
  - unfold NR_INODE. dlia.
  - unfold NR_INODE. dlia.
  - replace (Z.to_nat _) with k; [done|]. dlia.
  - eapply wp_of_ret; [exact E|by apply (HQ r j)].
Qed.
(** [while (inode->i_dirt)]: an unused entry becomes clean. *)
Lemma wp_write_while_dirty p i s : inodes_ok s → area_ok → 1 ≤ p → inode_table s !! Z.to_nat (p - 1) = Some i → i_count i = 0 →
  wp (write_while_dirty 2 p) (λ _ s', inodes_ok s' ∧ beside s s' ∧ same_view s s' ∧
    last_allocated_inode s' = last_allocated_inode s ∧
    ∃ j, i_count j = 0 ∧ i_dirt j = 0 ∧ inode_table s' = <[Z.to_nat (p - 1) := j]> (inode_table s)) s.
Proof.
  intros HI HA Hp Hi Hc. pose proof (io_entry _ HI _ _ Hi) as HE. cbn [write_while_dirty].
  apply wp_bind, (wp_inode p i); [done..|]. destruct (Z.eqb_spec (i_dirt i) 0) as [E|E].
  - rewrite E. simpl. apply wp_ret. split; [done|]. split.
    { split; [split; [apply (bo_cache _ (io_base _ HI))|apply users_kept_refl]|done..]. }
    split; [done|]. split; [done|]. exists i. split; [done|]. split; [done|]. by rewrite list_insert_id.
  - assert (truth (i_dirt i) = true) as -> by (by apply truth_true).
    assert (i_dev i = D) as Hd.
    { destruct HE as (_ & _ & H). destruct (decide (i_dev i = D)); [done|]. destruct H as [?|[_ ?]]; done. }
    apply wp_bind. eapply wp_mono; [by apply (wp_write_inode p i)|]. intros [] s1 (HI1 & Hb1 & Hv1 & Hl1 & HT1).
    assert (inode_table s1 !! Z.to_nat (p - 1) = Some (i <| i_dirt := 0 |>)) as Hi1.
    { rewrite HT1. apply list_lookup_insert_eq. by apply lookup_lt_Some in Hi. }
    apply wp_bind. eapply wp_of_ret; [by apply (wait_on_inode_Ret p _ s1 Hp Hi1), HE|].
    apply wp_bind, (wp_inode p _ _ _ Hp Hi1). simpl. apply wp_ret. split; [done|]. split; [done|]. split; [done|].
    split; [done|]. by exists (i <| i_dirt := 0 |>).
Qed.

Definition fresh_inode : m_inode := inode0 <| i_count := 1 |>.
Lemma wp_clear_inode p i (Q : () → fs → Prop) s : 1 ≤ p → inode_table s !! Z.to_nat (p - 1) = Some i → waiters_ok (sch s) →
  (∀ s', quiet s s' → rest s' = rest s → file_table s' = file_table s → user s' = user s →
    inode_table s' = <[Z.to_nat (p - 1) := inode0]> (inode_table s) → Q tt s') →
  wp (clear_inode p) Q s.
Proof.
  intros Hp Hi Hw HQ. unfold clear_inode. apply wp_bind, (wp_set_inode p i); [done..|]. apply wp_in_sched. unfold set_head.
  apply wp_modify. apply HQ; try done. split_and!; try done. intros q h. simpl.
  rewrite lookup_insert. case_decide; [intros [= <-]; by left|]. apply Hw.
Qed.
Lemma D_not_0 s : base_ok s → D ≠ 0.
Proof. intros HB. apply (D_nonzero D start nr s), (do_part _ _ _ s), (bo_cache _ HB). Qed.
Lemma not_inode i n : i_dev i ≠ D → is_inode n i = false.
Proof. intros Hd. destruct (is_inode n i) eqn:E; [|done]. by apply is_inode_true in E as [? _]. Qed.

(** An unused entry is written out if it has to be, and cleared; every inode is
    what it was. *)
Lemma wp_get_empty_inode s : inodes_ok s → area_ok → spare s →
  wp get_empty_inode (λ p s', 1 ≤ p ≤ 32 ∧ inodes_ok s' ∧ beside s s' ∧ same_view s s' ∧
    (∃ i, inode_table s !! Z.to_nat (p - 1) = Some i ∧ i_count i = 0) ∧
    inode_table s' = <[Z.to_nat (p - 1) := fresh_inode]> (inode_table s)) s.
Proof.
  intros HI HA HS. unfold get_empty_inode. change REPEAT with 2%nat. cbn [get_empty_loop].
  apply wp_bind, wp_gets. apply wp_bind, wp_find_unused; [done..|]. intros r i Hr Hi Hc.
  apply wp_bind, wp_modify. set (s1 := s <| last_allocated_inode := r |>). set (p := r + 1).
  assert (Z.to_nat (p - 1) = Z.to_nat r) as Ep by (unfold p; f_equal; lia).
  assert (waiters_ok (sch s)) as Hw by apply (do_wait _ _ _ s (proj2 (bo_cache _ (io_base _ HI)))).
  assert (quiet s s1) as Hq1 by (by split_and!).
  assert (inodes_ok s1 ∧ beside s s1 ∧ same_view s s1) as (HI1 & Hb1 & Hv1).
  { destruct (quiet_step s s1 (Z.to_nat r) i i) as (H1 & H2 & H3); try done; [simpl; by rewrite list_insert_id|intros; by left|by apply (io_entry _ HI _ _ Hi)]. }
  assert (inode_table s1 !! Z.to_nat (p - 1) = Some i) as Hi1 by (by rewrite Ep).
  pose proof (io_entry _ HI1 _ _ Hi1) as HE1.
  apply wp_bind. eapply wp_of_ret; [apply (wait_on_inode_Ret p i s1); [unfold p; lia|done|apply HE1]|].
  apply wp_bind. eapply wp_mono; [apply (wp_write_while_dirty p i s1); [done|done|unfold p; lia|done|done]|].
  intros [] s2 (HI2 & Hb2 & Hv2 & Hl2 & j & Hcj & Hdj & HT2).
  assert (inode_table s2 !! Z.to_nat (p - 1) = Some j) as Hj.
  { rewrite HT2. apply list_lookup_insert_eq. by apply lookup_lt_Some in Hi1. }
  apply wp_bind, (wp_inode p j); [unfold p; lia|done|]. rewrite Hcj. simpl.
  apply wp_bind, (wp_clear_inode p j); [unfold p; lia|done|apply (do_wait _ _ _ s2 (proj2 (bo_cache _ (io_base _ HI2))))|].
  intros s3 Hq3 R3 F3 U3 HT3. assert (inode_table s3 !! Z.to_nat (p - 1) = Some inode0) as Hj3.
  { rewrite HT3. apply list_lookup_insert_eq. by apply lookup_lt_Some in Hj. }
  apply wp_bind, (wp_set_inode p inode0); [unfold p; lia|done|]. apply wp_ret. set (s4 := s3 <| inode_table ::= _ |>).
  assert (inode_table s4 = <[Z.to_nat (p - 1) := fresh_inode]> (inode_table s2)) as HT4.
  { unfold s4. simpl. by rewrite HT3, list_insert_insert_eq. }
  pose proof (D_not_0 _ (io_base _ HI)) as HD0.
  assert (last_allocated_inode s4 = r) as El.
  { change (last_allocated_inode s3 = r). unfold rest in R3. transitivity (last_allocated_inode s2); [congruence|done]. }
  destruct (quiet_step s2 s4 (Z.to_nat (p - 1)) j fresh_inode) as (HI4 & Hb4 & Hent); try done.
  - unfold rest0, rest in *. simpl. congruence.
  - lia.
  - split; [done|]. split; [done|]. rewrite decide_False by (intros Hd; by destruct HD0). by left.
  - split; [unfold p; lia|]. split; [done|]. split; [by apply (beside_trans s s1), (beside_trans s1 s2)|]. split.
    + intros n Hn. destruct (Hv1 n Hn) as [<- <-], (Hv2 n Hn) as [<- <-].
      destruct (view_step s2 s4 j fresh_inode Hq3 HI2 ltac:(by eexists) Hent n) as [-> ->].
      rewrite (not_inode fresh_inode n) by (intros Hd; by destruct HD0). destruct (is_inode n j) eqn:En; [|done].
      apply is_inode_true in En as [Hdj' <-]. unfold value, refs. rewrite (entry_of_at _ _ j (io_distinct _ HI2) Hj Hdj').
      pose proof (io_entry _ HI2 _ _ Hj) as HEj. destruct (entry_home s2 j HEj Hdj') as (_ & _ & Ha & _). by rewrite Ha.
    + split; [exists i; split; [by rewrite Ep|done]|]. rewrite HT4, HT2, list_insert_insert_eq. done.
Qed.

(** ** iget *)

Lemma wp_find_inode n s (Q : option Z → fs → Prop) : inodes_ok s →
  (∀ p i, 1 ≤ p ≤ 32 → inode_table s !! Z.to_nat (p - 1) = Some i → i_dev i = D → i_num i = n → Q (Some p) s) →
  (entry_of (inode_table s) n = None → Q None s) →
  wp (find_inode D n) Q s.
Proof.
  intros HI HS HN. assert (wp (find_inode D n) (λ r s', s' = s ∧ match r with
    | Some p => ∃ i, 1 ≤ p ≤ 32 ∧ inode_table s !! Z.to_nat (p - 1) = Some i ∧ i_dev i = D ∧ i_num i = n
    | None => ∀ k i, (k < 32)%nat → inode_table s !! k = Some i → is_inode n i = false end) s) as H.
  { unfold find_inode. apply (wp_mloop_upto _ (λ k s', s' = s ∧ ∀ m i, (m < k)%nat → inode_table s !! m = Some i → is_inode n i = false)).
    - split; [done|]. intros m i Hm. lia.
    - intros k s' Hk [-> Hno]. destruct (lookup_lt_is_Some_2 (inode_table s) k) as [i Hi]; [by rewrite (bo_length _ (io_base _ HI))|].
      assert (inode_table s !! Z.to_nat (Z.of_nat k + 1 - 1) = Some i) as Hi' by (by replace (Z.to_nat _) with k by lia).
      apply wp_bind, (wp_inode _ i); [lia|done|]. destruct (is_inode n i) eqn:E.
      + pose proof E as [Hd Hn]%is_inode_true. unfold is_inode in E. apply andb_prop in E as [-> ->]. simpl.
        apply wp_bind. eapply wp_of_ret; [apply (wait_on_inode_Ret _ i s); [lia|done|apply (io_entry _ HI _ _ Hi)]|].
        apply wp_ret. split; [done|]. exists i. unfold NR_INODE in Hk. split; [lia|done].
      + assert (negb (i_dev i =? D) || negb (i_num i =? n) = true) as -> by (by rewrite <-negb_andb; apply negb_true_iff).
        apply wp_ret. split; [done|]. intros m j Hm Hj. destruct (decide (m = k)) as [->|]; [congruence|]. apply (Hno m j); [lia|done].
    - intros s' [-> Hno]. split; [done|]. intros k i Hk. by apply Hno. }
  eapply wp_mono; [exact H|]. intros [p|] s' [-> Hr].
  - destruct Hr as (i & ? & ? & ? & ?). by apply (HS p i).
  - apply HN. destruct (entry_of (inode_table s) n) as [i|] eqn:E; [|done].
    apply entry_of_Some in E as (k & Hk & Hd & Hn). specialize (Hr k i (entry_Some s k i HI Hk) Hk).
    by rewrite (proj2 (is_inode_true n i)) in Hr.
Qed.

(** What iget and iput do to the table: entry [k] of inode [n] gets [c] more
    users; all inodes are what they were, and so are the other entries in use. *)
Record counted s (n : Z) (k : nat) (c : Z) s' : Prop := Counted {
  ct_ok : inodes_ok s';
  ct_beside : beside s s';
  ct_value : ∀ m, inum m → value s' m = value s m;
  ct_refs : ∀ m, inum m → refs s' m = refs s m + (if decide (m = n) then c else 0);
  ct_used : ∀ m j, inode_table s !! m = Some j → i_count j ≠ 0 → m ≠ k → inode_table s' !! m = Some j;
  ct_entry : ∃ i, inode_table s' !! k = Some i ∧ i_dev i = D ∧ i_num i = n;
  ct_same : ∀ j, inode_table s !! k = Some j → i_dev j = D → i_count j ≠ 0 → i_num j = n;
  ct_others : ∀ m j, inode_table s' !! m = Some j → i_dev j ≠ D → i_count j ≠ 0 → inode_table s !! m = Some j
}.
(** A change of the count of an entry. *)
Lemma count_step s k i c : inodes_ok s → inode_table s !! k = Some i → i_dev i = D → 0 ≤ c →
  let s' := with_table (<[k := i <| i_count := c |>]> (inode_table s)) s in counted s (i_num i) k (c - i_count i) s'.
Proof.
  intros HI Hk Hd Hc s'. pose proof (io_base _ HI) as HB. pose proof (io_entry _ HI _ _ Hk) as HE.
  assert (quiet s s') as Hq by apply with_table_quiet, (do_wait _ _ _ s (proj2 (bo_cache _ HB))).
  destruct (quiet_step s s' k i (i <| i_count := c |>)) as (HI' & Hb' & Hent); try done.
  { apply HB. } { intros _. by left. }
  { destruct HE as (H1 & H2 & H3). split; [done|]. split; [done|]. simpl. rewrite decide_True in * by done. done. }
  assert (∀ m, (value s' m = value s m) ∧ refs s' m = refs s m + (if decide (m = i_num i) then c - i_count i else 0)) as Hv.
  { intros m. destruct (view_step s s' i _ Hq HI ltac:(eauto) Hent m) as [-> ->].
    change (is_inode m (i <| i_count := c |>)) with (is_inode m i). destruct (is_inode m i) eqn:E.
    - apply is_inode_true in E as [_ <-]. unfold value, refs. rewrite (entry_of_at _ k i (io_distinct _ HI) Hk Hd).
      rewrite decide_True by done. simpl. split; [done|lia].
    - split; [done|]. rewrite decide_False; [lia|]. intros ->. by rewrite (proj2 (is_inode_true _ i)) in E. }
  split; [done|done|intros; apply Hv|intros; apply Hv|..].
  - intros m j Hm _ Hne. simpl. by rewrite list_lookup_insert_ne.
  - exists (i <| i_count := c |>). split; [|done]. simpl. apply list_lookup_insert_eq. by apply lookup_lt_Some in Hk.
  - congruence.
  - intros m j [(<- & <- & _)|[_ Hj]]%list_lookup_insert_Some; [by intros []|done].
Qed.
(** An entry that holds no inode is given back. *)
Lemma wp_iput_fresh p s : inodes_ok s → 1 ≤ p → inode_table s !! Z.to_nat (p - 1) = Some fresh_inode →
  wp (iput p) (λ _ s', inodes_ok s' ∧ beside s s' ∧ same_view s s' ∧
    inode_table s' = <[Z.to_nat (p - 1) := inode0]> (inode_table s)) s.
Proof.
  intros HI Hp Hi. pose proof (io_base _ HI) as HB. pose proof (D_not_0 _ HB) as HD0.
  unfold iput. rewrite (proj2 (Z.eqb_neq p NULL)) by (unfold NULL; lia).
  apply wp_bind. eapply wp_of_ret; [by apply (wait_on_inode_Ret p fresh_inode)|].
  apply wp_bind, (wp_inode p fresh_inode); [done..|]. simpl. apply (wp_set_inode p fresh_inode); [done..|].
  set (s' := s <| inode_table ::= _ |>).
  assert (quiet s s') as Hq by apply (with_table_quiet _ s), (do_wait _ _ _ s (proj2 (bo_cache _ HB))).
  destruct (quiet_step s s' (Z.to_nat (p - 1)) fresh_inode inode0) as (HI' & Hb' & Hent); try done.
  { apply HB. } { split; [done|]. split; [done|]. rewrite decide_False by (intros Hd; by destruct HD0). by left. }
  split; [done|]. split; [done|]. split; [|done]. intros n _.
  destruct (view_step s s' fresh_inode inode0 Hq HI ltac:(eauto) Hent n) as [-> ->].
  rewrite !not_inode by (intros Hd; by destruct HD0). done.
Qed.

Lemma wp_regroup {St A B C} (m : M St A) (f : A → M St B) (g : B → M St C) Q (t : St) :
  wp ((m ≫= f) ≫= g) Q t → wp (m ≫= λ a, f a ≫= g) Q t.
Proof. unfold wp, mbind, M_bind. by destruct (m t). Qed.
(** No entry has the inode: the empty one is filled from the disk. *)
Lemma wp_fill p n s : inodes_ok s → area_ok → 1 ≤ p → inode_table s !! Z.to_nat (p - 1) = Some fresh_inode → inum n →
  entry_of (inode_table s) n = None →
  wp (set_inode p (λ i, i <| i_dev := u16 D |> <| i_num := u16 n |>);; read_inode p)
    (λ _ s', counted s n (Z.to_nat (p - 1)) 1 s') s.
Proof.
  intros HI HA Hp Hi Hn HN. pose proof (io_base _ HI) as HB. pose proof (D_not_0 _ HB) as HD0.
  pose proof (entry_Some s _ _ HI Hi) as Hk. pose proof (bo_cache _ HB) as HC.
  rewrite (u16_small D) by apply (pt_dev D start nr s), (do_part D start nr s (proj2 HC)). rewrite u16_small by (unfold inum in Hn; lia).
  apply wp_bind, (wp_set_inode p fresh_inode); [done..|]. set (i1 := fresh_inode <| i_dev := D |> <| i_num := n |>).
  set (s1 := s <| inode_table ::= _ |>).
  assert (quiet s s1) as Hq by apply (with_table_quiet _ s), (do_wait _ _ _ s (proj2 HC)).
  assert (beside s s1) as Hb1 by (by apply quiet_beside).
  assert (base_ok s1) as HB1 by (apply (base_kept s); [done|done|apply HB|simpl; rewrite length_insert; apply HB]).
  assert (inode_table s1 !! Z.to_nat (p - 1) = Some i1) as Hi1.
  { apply list_lookup_insert_eq. by apply lookup_lt_Some in Hi. }
  eapply wp_mono; [by apply (wp_read_low p i1 s1)|]. intros [] s2 HM.
  destruct (moved_beside s1 _ _ n _ s2 HB1 Hk Hn HM) as [Hb2 HB2]. destruct HM as [_ _ HT2 HBl HO].
  change (i_num i1) with n in *. rewrite (quiet_stored s s1 n Hq) in HT2. set (i2 := with_attrs (stored s n) i1) in *.
  assert (inode_table s2 = <[Z.to_nat (p - 1) := i2]> (inode_table s)) as HT.
  { rewrite HT2. unfold s1. simpl. by rewrite list_insert_insert_eq. }
  assert (∀ m, inum m → stored s2 m = stored s m) as Hst.
  { intros m Hm. rewrite <-(quiet_stored s s1 m Hq). unfold stored. destruct (decide (home m = home n)) as [E|E].
    - rewrite E, HBl. done.
    - rewrite HO by (done || by apply HA). done. }
  destruct (step_ok s s2 _ fresh_inode i2 HI Hi HB2 HT) as [HI2 Hent]; [by right|by left; auto|..].
  { split; [done|]. split; [done|]. rewrite decide_True by done. split; [done|]. split; [done|].
    simpl. rewrite Hst by done. unfold i2. apply attrs_with. }
  assert (∀ m, is_inode m i2 = bool_decide (m = n)) as His.
  { intros m. unfold is_inode. simpl. rewrite Z.eqb_refl. simpl.
    case_bool_decide as E; [subst; apply Z.eqb_refl|]. apply Z.eqb_neq. congruence. }
  split; [done|by apply (beside_trans s s1)|..].
  - intros m Hm. unfold value. rewrite Hent, His. case_bool_decide as E.
    + subst m. rewrite HN. unfold i2. apply attrs_with.
    + rewrite not_inode by (intros Hd; by destruct HD0). destruct (entry_of (inode_table s) m); [done|auto].
  - intros m Hm. unfold refs. rewrite Hent, His. case_bool_decide as E.
    + subst m. by rewrite HN, decide_True.
    + rewrite not_inode by (intros Hd; by destruct HD0). rewrite decide_False by done. lia.
  - intros m j Hm _ Hne. rewrite HT. by rewrite list_lookup_insert_ne.
  - exists i2. rewrite HT. split; [|done]. apply list_lookup_insert_eq. by apply lookup_lt_Some in Hi.
  - intros j Hj Hd. rewrite Hi in Hj. injection Hj as <-. by destruct HD0.
  - intros m j. rewrite HT. intros [(<- & <- & _)|[_ Hj]]%list_lookup_insert_Some; [by intros []|done].
Qed.

(** iget counts one more user of the inode, wherever it was. *)
Lemma wp_iget n s : inodes_ok s → area_ok → spare s → inum n → refs s n < 65535 →
  wp (iget D n) (λ p s', 1 ≤ p ≤ 32 ∧ counted s n (Z.to_nat (p - 1)) 1 s') s.
Proof.
  intros HI HA HS Hn Href. pose proof (D_not_0 _ (io_base _ HI)) as HD0.
  unfold iget. rewrite (proj2 (Z.eqb_neq D 0)) by done.
  apply wp_bind. eapply wp_mono; [by apply wp_get_empty_inode|]. intros e s1 (He & HI1 & Hb1 & Hv1 & (i0 & Hi0 & Hc0) & HT1).
  assert (inode_table s1 !! Z.to_nat (e - 1) = Some fresh_inode) as He1.
  { rewrite HT1. apply list_lookup_insert_eq. by apply lookup_lt_Some in Hi0. }
  assert (∀ m j, inode_table s !! m = Some j → i_count j ≠ 0 → m ≠ Z.to_nat (e - 1) ∧ inode_table s1 !! m = Some j) as Hused.
  { intros m j Hm Hj. assert (m ≠ Z.to_nat (e - 1)) as Hne by congruence. split; [done|].
    rewrite HT1. by rewrite list_lookup_insert_ne. }
  assert (∀ m j, inode_table s1 !! m = Some j → m ≠ Z.to_nat (e - 1) → inode_table s !! m = Some j) as Hback.
  { intros m j. rewrite HT1. intros [(<- & _)|[_ Hj]]%list_lookup_insert_Some; done. }
  apply wp_bind, wp_find_inode; [done|..].
  - intros p i Hp Hi Hd Hin. subst n. destruct (Hv1 _ Hn) as [_ Er].
    assert (refs s1 (i_num i) = i_count i) as Ei.
    { unfold refs. by rewrite (entry_of_at _ _ i (io_distinct _ HI1) Hi Hd). }
    destruct (io_entry _ HI1 _ _ Hi) as (_ & Hc & _).
    apply wp_bind, (wp_set_inode p i); [lia|done|]. rewrite u16_small by lia.
    pose proof (count_step s1 _ i (i_count i + 1) HI1 Hi Hd ltac:(lia)) as HC.
    replace (i_count i + 1 - i_count i) with 1 in HC by lia. set (s2 := with_table _ s1) in HC.
    change (s1 <| inode_table ::= _ |>) with s2.
    assert (Z.to_nat (e - 1) ≠ Z.to_nat (p - 1)) as Hep.
    { intros E. rewrite E, Hi in He1. injection He1 as ->. by destruct HD0. }
    assert (truth e = true) as -> by (apply truth_true; lia). unfold when. cbv iota.
    apply wp_bind. eapply wp_mono.
    { apply (wp_iput_fresh e s2); [apply HC|lia|]. unfold s2. simpl. by rewrite list_lookup_insert_ne. }
    intros [] s3 (HI3 & Hb3 & Hv3 & HT3). apply wp_ret. split; [done|]. split; [done|..].
    + apply (beside_trans s s1); [done|]. by apply (beside_trans s1 s2); [apply HC|].
    + intros m Hm. destruct (Hv3 m Hm) as [-> _]. rewrite (ct_value _ _ _ _ _ HC) by done. by apply Hv1.
    + intros m Hm. destruct (Hv3 m Hm) as [_ ->]. rewrite (ct_refs _ _ _ _ _ HC) by done. f_equal. by apply Hv1.
    + intros m j Hm Hj Hne. destruct (Hused m j Hm Hj) as [Hne' Hm1]. rewrite HT3. rewrite list_lookup_insert_ne by done.
      by apply (ct_used _ _ _ _ _ HC).
    + destruct (ct_entry _ _ _ _ _ HC) as (i' & Hi' & ?). exists i'. rewrite HT3. split; [|done].
      by rewrite list_lookup_insert_ne.
    + intros j Hj _ Hcj. destruct (Hused _ j Hj Hcj) as [_ ?]. congruence.
    + intros m j Hj Hdj Hcj. rewrite HT3 in Hj. apply list_lookup_insert_Some in Hj as [(_ & <- & _)|[Hne Hj]]; [done|].
      apply Hback; [|done]. by apply (ct_others _ _ _ _ _ HC).
  - intros HN. rewrite (proj2 (Z.eqb_neq e NULL)) by (unfold NULL; lia).
    apply wp_regroup, wp_bind. eapply wp_mono; [apply (wp_fill e n s1); try done; lia|]. intros [] s2 HC. apply wp_ret. split; [done|].
    split.
    + apply HC.
    + apply (beside_trans s s1); [done|apply HC].
    + intros m Hm. rewrite (ct_value _ _ _ _ _ HC) by done. by apply Hv1.
    + intros m Hm. rewrite (ct_refs _ _ _ _ _ HC) by done. f_equal. by apply Hv1.
    + intros m j Hm Hj Hne. apply (ct_used _ _ _ _ _ HC); [by apply Hused|done|done].
    + apply HC.
    + intros j Hj _ Hcj. by destruct (Hused _ j Hj Hcj).
    + intros m j Hj Hdj Hcj. apply Hback; [by apply (ct_others _ _ _ _ _ HC)|]. intros ->.
      destruct (ct_entry _ _ _ _ _ HC) as (i' & Hi' & ? & _). congruence.
Qed.

(** ** iput *)

Lemma counted_after s s1 i j c s' k : beside s s1 → same_view s s1 → inode_table s !! k = Some i → i_num j = i_num i →
  i_dev j = D → inode_table s1 = <[k := j]> (inode_table s) →
  counted s1 (i_num j) k c s' → counted s (i_num i) k c s'.
Proof.
  intros Hb Hv Hi Hn Hd HT HC. rewrite Hn in HC. assert (∀ m, m ≠ k → inode_table s1 !! m = inode_table s !! m) as Hu.
  { intros m Hm. rewrite HT. by rewrite list_lookup_insert_ne. }
  split.
  - apply HC.
  - apply (beside_trans s s1); [done|apply HC].
  - intros m Hm. rewrite (ct_value _ _ _ _ _ HC) by done. by apply Hv.
  - intros m Hm. rewrite (ct_refs _ _ _ _ _ HC) by done. f_equal. by apply Hv.
  - intros m a Hm Ha Hne. apply (ct_used _ _ _ _ _ HC); [by rewrite Hu|done|done].
  - apply HC.
  - intros a Ha _ _. congruence.
  - intros m a Ha Hda Hca. pose proof (ct_others _ _ _ _ _ HC m a Ha Hda Hca) as Hm1. rewrite <-Hu; [done|]. intros ->.
    rewrite HT in Hm1. apply list_lookup_insert_Some in Hm1 as [(_ & <- & _)|[]]; done.
Qed.
Lemma wp_drop_count p i s : inodes_ok s → 1 ≤ p → inode_table s !! Z.to_nat (p - 1) = Some i → i_dev i = D →
  1 ≤ i_count i < 65536 →
  wp (set_inode p (λ i, i <| i_count := u16 (i_count i - 1) |>)) (λ _ s', counted s (i_num i) (Z.to_nat (p - 1)) (-1) s') s.
Proof.
  intros HI Hp Hi Hd Hc. apply (wp_set_inode p i); [done..|]. rewrite u16_small by lia.
  replace (-1) with (i_count i - 1 - i_count i) by lia. apply (count_step s _ i (i_count i - 1) HI Hi Hd). lia.
Qed.
(** The last user of a linked inode leaves it written; any user leaves it one
    fewer. *)
Lemma wp_iput p i s : inodes_ok s → area_ok → 1 ≤ p → inode_table s !! Z.to_nat (p - 1) = Some i → i_dev i = D →
  1 ≤ i_count i < 65536 → i_nlinks i ≠ 0 →
  wp (iput p) (λ _ s', counted s (i_num i) (Z.to_nat (p - 1)) (-1) s') s.
Proof.
  intros HI HA Hp Hi Hd Hc Hnl. pose proof (io_entry _ HI _ _ Hi) as HE. pose proof HE as (Hl & _ & _).
  destruct (entry_home s i HE Hd) as (Hn & Hpipe & _). pose proof (D_not_0 _ (io_base _ HI)) as HD0.
  unfold iput. rewrite (proj2 (Z.eqb_neq p NULL)) by (unfold NULL; lia).
  apply wp_bind. eapply wp_of_ret; [by apply (wait_on_inode_Ret p i)|]. apply wp_bind, (wp_inode p i); [done..|].
  rewrite (proj2 (Z.eqb_neq (i_count i) 0)) by lia. rewrite Hpipe. simpl.
  rewrite Hd, (proj2 (Z.eqb_neq D 0)) by done. simpl. destruct (Z.ltb_spec 1 (i_count i)); [by apply wp_drop_count|].
  apply wp_bind, (wp_inode p i); [done..|]. rewrite (proj2 (Z.eqb_neq (i_nlinks i) 0)) by done.
  destruct (Z.eqb_spec (i_dirt i) 0) as [E|E]; [rewrite E; by apply wp_drop_count|].
  assert (truth (i_dirt i) = true) as -> by (by apply truth_true).
  apply wp_bind. eapply wp_mono; [by apply (wp_write_inode p i)|]. intros [] s1 (HI1 & Hb1 & Hv1 & _ & HT1).
  assert (inode_table s1 !! Z.to_nat (p - 1) = Some (i <| i_dirt := 0 |>)) as Hi1.
  { rewrite HT1. apply list_lookup_insert_eq. by apply lookup_lt_Some in Hi. }
  apply wp_bind. eapply wp_of_ret; [by apply (wait_on_inode_Ret p _ s1 Hp Hi1)|].
  apply wp_bind, (wp_inode p _ _ _ Hp Hi1). simpl. rewrite (proj2 (Z.eqb_neq (i_nlinks i) 0)) by done.
  eapply wp_mono; [by apply (wp_drop_count p (i <| i_dirt := 0 |>) s1)|]. intros [] s2 HC.
  by apply (counted_after s s1 i (i <| i_dirt := 0 |>)).
Qed.

(** ** Changing a held inode *)

Definition change (p : Z) (f : attrs → attrs) : M fs attrs :=
  i ← inode p;
  set_inode p (λ i, with_attrs (f (attrs_of i)) i <| i_dirt := 1 |>);;
  mret (attrs_of i).
Record altered s (n : Z) (a : attrs) s' : Prop := Altered {
  al_ok : inodes_ok s';
  al_beside : beside s s';
  al_value : ∀ m, inum m → value s' m = if decide (m = n) then a else value s m;
  al_refs : ∀ m, inum m → refs s' m = refs s m;
  al_used : ∀ m j, inode_table s !! m = Some j → ∃ j', inode_table s' !! m = Some j' ∧ i_dev j' = i_dev j ∧
    i_num j' = i_num j ∧ i_count j' = i_count j
}.
Lemma wp_change p i f s : inodes_ok s → 1 ≤ p → inode_table s !! Z.to_nat (p - 1) = Some i → i_dev i = D →
  attrs_ok (f (attrs_of i)) →
  wp (change p f) (λ a s', a = value s (i_num i) ∧ altered s (i_num i) (f a) s') s.
Proof.
  intros HI Hp Hi Hd Hok. pose proof (io_base _ HI) as HB. pose proof (io_entry _ HI _ _ Hi) as HE.
  unfold change. apply wp_bind, (wp_inode p i); [done..|]. apply wp_bind, (wp_set_inode p i); [done..|]. apply wp_ret.
  set (i' := with_attrs (f (attrs_of i)) i <| i_dirt := 1 |>). set (s' := s <| inode_table ::= _ |>).
  assert (quiet s s') as Hq by apply (with_table_quiet _ s), (do_wait _ _ _ s (proj2 (bo_cache _ HB))).
  destruct (quiet_step s s' (Z.to_nat (p - 1)) i i') as (HI' & Hb' & Hent); try done.
  { apply HB. } { intros _. by left. }
  { destruct HE as (H1 & H2 & H3). split; [done|]. split; [done|]. change (i_dev i') with (i_dev i).
    rewrite decide_True in * by done. destruct H3 as (Hn & Hpi & _). split; [done|]. split; [done|].
    change (i_dirt i' =? 0) with false. cbv iota. change (attrs_of i') with (attrs_of (with_attrs (f (attrs_of i)) i)).
    by rewrite attrs_with. }
  assert (value s (i_num i) = attrs_of i) as Ev by (unfold value; by rewrite (entry_of_at _ _ i (io_distinct _ HI) Hi Hd)).
  assert (∀ m, is_inode m i' = is_inode m i) as Eis by done. split; [done|].
  split; [done|done|..].
  - intros m Hm. destruct (view_step s s' i i' Hq HI ltac:(eauto) Hent m) as [-> _]. rewrite Eis.
    destruct (is_inode m i) eqn:E.
    + apply is_inode_true in E as [_ <-]. rewrite decide_True by done. apply attrs_with.
    + rewrite decide_False; [done|]. intros ->. by rewrite (proj2 (is_inode_true _ i)) in E.
  - intros m Hm. destruct (view_step s s' i i' Hq HI ltac:(eauto) Hent m) as [_ ->]. rewrite Eis.
    destruct (is_inode m i) eqn:E; [|done]. apply is_inode_true in E as [_ <-].
    unfold refs. by rewrite (entry_of_at _ _ i (io_distinct _ HI) Hi Hd).
  - intros m j Hj. simpl. destruct (decide (m = Z.to_nat (p - 1))) as [->|].
    + exists i'. rewrite Hi in Hj. injection Hj as <-. split; [|done]. apply list_lookup_insert_eq. by apply lookup_lt_Some in Hi.
    + exists j. by rewrite list_lookup_insert_ne.
Qed.

(** ** sys_sync *)

(** What the disk itself has for inode [n]. *)
Definition on_disk s (n : Z) : attrs := attrs_at (default [] (disk D start s (home n))) (slot n).
(** The same entries, for the same users. *)
Definition same_entries s s' : Prop := ∀ m j', inode_table s' !! m = Some j' → ∃ j, inode_table s !! m = Some j ∧
  i_dev j' = i_dev j ∧ i_num j' = i_num j ∧ i_count j' = i_count j.
Record synced s s' : Prop := Synced {
  sy_ok : inodes_ok s';
  sy_beside : beside s s';
  sy_view : same_view s s';
  sy_length : length (inode_table s') = length (inode_table s);
  sy_entries : same_entries s s'
}.
Lemma beside_refl s : base_ok s → beside s s.
Proof. intros HB. split; try done. split; [apply HB|apply users_kept_refl]. Qed.

Lemma wp_sync_inodes s : inodes_ok s → area_ok →
  wp sync_inodes (λ _ s', synced s s' ∧ ∀ m j, inode_table s' !! m = Some j → i_dev j = D → i_dirt j = 0) s.
Proof.
  intros HI HA. unfold sync_inodes.
  pose (Inv := λ (k : nat) s1, synced s s1 ∧ ∀ m j, (m < k)%nat → inode_table s1 !! m = Some j → i_dev j = D → i_dirt j = 0).
  eapply wp_mono; [apply (wp_mfor_upto _ Inv)|].
  - split; [|intros m j Hm; lia]. split; [done|by apply beside_refl, HI|done|done|]. intros m j Hj. eauto.
  - intros k s1 Hk [[HI1 Hb1 Hv1 Hl1 He1] Hclean]. set (p := Z.of_nat k + 1).
    destruct (lookup_lt_is_Some_2 (inode_table s1) k) as [i Hi]; [by rewrite (bo_length _ (io_base _ HI1))|].
    assert (Z.to_nat (p - 1) = k) as Ep by (unfold p; lia).
    assert (inode_table s1 !! Z.to_nat (p - 1) = Some i) as Hi' by (by rewrite Ep).
    pose proof (io_entry _ HI1 _ _ Hi) as HE. apply wp_bind. eapply wp_of_ret; [apply (wait_on_inode_Ret p i s1); [unfold p; lia|done|apply HE]|].
    apply wp_bind, (wp_inode p i); [unfold p; lia|done|]. apply wp_when; intros Hw.
    + apply andb_prop in Hw as [Hdirt%truth_true Hpipe%negb_true_iff%truth_false].
      assert (i_dev i = D) as Hd.
      { destruct HE as (_ & _ & H). destruct (decide (i_dev i = D)); [done|]. destruct H as [?|[? _]]; done. }
      eapply wp_mono; [apply (wp_write_inode p i s1); try done; unfold p; lia|]. intros [] s2 (HI2 & Hb2 & Hv2 & _ & HT2).
      rewrite Ep in HT2. split; [split|].
      * done.
      * by apply (beside_trans s s1).
      * intros n Hn. destruct (Hv2 n Hn) as [-> ->]. by apply Hv1.
      * by rewrite HT2, length_insert.
      * intros m j'. rewrite HT2. intros [(<- & <- & _)|[_ Hj]]%list_lookup_insert_Some; [by apply He1 in Hi|by apply He1].
      * intros m j Hm. rewrite HT2. intros [(<- & <- & _)|[Hne Hj]]%list_lookup_insert_Some; [done|]. apply (Hclean m); [lia|done].
    + split; [done|]. intros m j Hm Hj Hd. destruct (decide (m = k)) as [->|]; [|apply (Hclean m); [lia|done..]].
      assert (j = i) as -> by congruence. destruct (entry_home s1 i HE Hd) as (_ & Hp & _). rewrite Hp in Hw.
      change (negb (truth 0)) with true in Hw. rewrite andb_true_r in Hw. by apply truth_false.
  - intros [] s' [HS Hclean]. split; [done|]. intros m j Hj. apply (Hclean m); [|done].
    by apply (entry_Some s' _ _ (sy_ok _ _ HS) Hj).
Qed.

(** sync puts every inode on the disk as it is in the table. *)
Lemma wp_sys_sync s : inodes_ok s → area_ok →
  wp sys_sync (λ r s', r = 0 ∧ synced s s' ∧ ∀ n, inum n → on_disk s' n = value s n) s.
Proof.
  intros HI HA. unfold sys_sync. apply wp_bind. eapply wp_mono; [by apply wp_sync_inodes|].
  intros [] s1 [[HI1 Hb1 Hv1 Hl1 He1] Hclean]. pose proof (io_base _ HI1) as HB1. pose proof (bo_cache _ HB1) as HC1.
  apply wp_bind. eapply wp_mono; [apply (wp_sync_buffers D start nr), HC1|]. intros [] s2 [HF Hbc]. apply wp_ret.
  destruct (flushed_synced D start nr s1 s2 HC1 HF Hbc) as (HC2 & HO & Hcont).
  destruct (only_cache_rest s1 s2 HO) as (HR & HT & HFi & HU). split; [done|].
  assert (∀ n, inum n → stored s2 n = stored s1 n) as Hst.
  { intros n Hn. unfold stored. by destruct (Hcont (home n)) as [-> _]; [apply HA|]. }
  assert (beside s1 s2) as Hb2.
  { split; [split; [done|]|unfold rest0, rest in *; simpl; congruence|done|by intros; apply Hcont].
    intros q b Hb. destruct (fl_heads _ _ _ _ _ HF q b Hb) as (b' & Hb' & Hor). exists b'. split; [done|].
    destruct Hor as [->|[Hu ->]]; done. }
  assert (inodes_ok s2) as HI2.
  { split.
    - apply (base_kept s1); [done|done| |by rewrite HT; apply HB1]. unfold rest in HR.
      assert (last_allocated_inode s2 = last_allocated_inode s1) as -> by congruence. apply HB1.
    - rewrite HT. apply HI1.
    - intros k i. rewrite HT. intros Hi. apply (entry_ok_stored s1); [by intros; apply Hst|by apply (io_entry _ HI1 k)]. }
  split; [split|].
  - done.
  - by apply (beside_trans s s1).
  - intros n Hn. destruct (Hv1 n Hn) as [<- <-]. unfold value, refs. rewrite HT. split; [|done].
    destruct (entry_of (inode_table s1) n); [done|auto].
  - by rewrite HT.
  - unfold same_entries. by rewrite HT.
  - intros n Hn. destruct (Hv1 n Hn) as [<- _]. transitivity (stored s1 n).
    + unfold on_disk, stored. by destruct (Hcont (home n)) as [_ ->]; [apply HA|].
    + unfold value. destruct (entry_of (inode_table s1) n) as [i|] eqn:E; [|done].
      apply entry_of_Some in E as (k & Hk & Hd & Hin). subst n.
      destruct (entry_home s1 i (io_entry _ HI1 _ _ Hk) Hd) as (_ & _ & Ha & _). symmetry. by apply Ha, (Hclean k).
Qed.

(** ** The abstract inode store

    Its state: what each inode is, and the list of handles given out so far, with
    the number of the inode each stands for, or 0 once it is given back. *)

Inductive inode_request :=
  | Get (n : Z)                             (* iget *)
  | Put (h : nat)                           (* iput *)
  | Change (h : nat) (f : attrs → attrs)    (* a change by a holder, which marks the inode dirty *)
  | Sync.                                   (* sys_sync *)
Definition occ (n : Z) (ns : list Z) : Z := zlen (filter (λ m, m = n) ns).
Definition open_inodes (ns : list Z) : gset Z := list_to_set ns ∖ {[0]}.
(** [busy] entries of the table are taken by pipes. *)
Inductive spec_step (busy : nat) : (Z → attrs) * list Z → inode_request → list attrs → (Z → attrs) * list Z → Prop :=
  | spec_get V ns n : inum n → (size (open_inodes ns) + busy < NR_INODE)%nat → occ n ns < 65535 →
      spec_step busy (V, ns) (Get n) [V n] (V, ns ++ [n])
  | spec_put V ns h n : ns !! h = Some n → n ≠ 0 → a_nlinks (V n) ≠ 0 →
      spec_step busy (V, ns) (Put h) [] (V, <[h := 0]> ns)
  | spec_change V ns h n f : ns !! h = Some n → n ≠ 0 → attrs_ok (f (V n)) →
      spec_step busy (V, ns) (Change h f) [V n] (λ m, if decide (m = n) then f (V n) else V m, ns)
  | spec_sync V ns : spec_step busy (V, ns) Sync [] (V, ns).
Inductive spec_run (busy : nat) : (Z → attrs) * list Z → list inode_request → list attrs → (Z → attrs) * list Z → Prop :=
  | run_nil a : spec_run busy a [] [] a
  | run_cons a b c r l o o' : spec_step busy a r o b → spec_run busy b l o' c → spec_run busy a (r :: l) (o ++ o') c.

(** The kernel, with its pointers as handles. *)
Definition inode_step (hs : list Z) (r : inode_request) : M fs (list Z * list attrs) :=
  match r with
  | Get n => p ← iget D n; i ← inode p; mret (hs ++ [p], [attrs_of i])
  | Put h => p ← index hs (Z.of_nat h); iput p;; mret (hs, [])
  | Change h f => p ← index hs (Z.of_nat h); a ← change p f; mret (hs, [a])
  | Sync => _ ← sys_sync; mret (hs, [])
  end.
Fixpoint inode_run (hs : list Z) (l : list inode_request) : M fs (list Z * list attrs) :=
  match l with
  | [] => mret (hs, [])
  | r :: l => x ← inode_step hs r; y ← inode_run x.1 l; mret (y.1, x.2 ++ y.2)
  end.

(** A pointer to the entry of inode [n]. *)
Definition handle s (p n : Z) : Prop := n ≠ 0 →
  1 ≤ p ≤ 32 ∧ inum n ∧ ∃ i, inode_table s !! Z.to_nat (p - 1) = Some i ∧ i_dev i = D ∧ i_num i = n.
Record stands (B : gset nat) (hs : list Z) (V : Z → attrs) (ns : list Z) s : Prop := Stands {
  sd_ok : inodes_ok s;
  sd_value : ∀ n, inum n → value s n = V n;
  sd_refs : ∀ n, inum n → refs s n = occ n ns;
  sd_width : ∀ n, inum n → occ n ns < 65536;
  sd_handles : Forall2 (handle s) hs ns;
  sd_busy : ∀ k i, inode_table s !! k = Some i → i_dev i ≠ D → i_count i ≠ 0 → k ∈ B
}.

Lemma occ_nil n : occ n [] = 0.
Proof. done. Qed.
Lemma occ_cons n m ns : occ n (m :: ns) = (if decide (m = n) then 1 else 0) + occ n ns.
Proof. unfold occ. rewrite filter_cons. case_decide; [|done]. simpl length. lia. Qed.
Lemma occ_app n ns ms : occ n (ns ++ ms) = occ n ns + occ n ms.
Proof. unfold occ. rewrite filter_app, length_app. lia. Qed.
Lemma occ_nonneg n ns : 0 ≤ occ n ns.
Proof. unfold occ. lia. Qed.
Lemma occ_close n h m ns : ns !! h = Some m → m ≠ 0 → n ≠ 0 →
  occ n (<[h := 0]> ns) = occ n ns - (if decide (n = m) then 1 else 0).
Proof.
  intros Hh Hm Hn. rewrite insert_take_drop by (by apply lookup_lt_Some in Hh).
  rewrite <-(take_drop_middle ns h m Hh) at 3. rewrite !occ_app, !occ_cons. repeat case_decide; lia || congruence.
Qed.
Lemma occ_pos n ns : 0 < occ n ns → n ∈ ns.
Proof.
  induction ns as [|m ns IH]; [by rewrite occ_nil|]. rewrite occ_cons. case_decide as E; [subst; by left|].
  intros H. right. apply IH. lia.
Qed.
Lemma occ_in n ns : n ∈ ns → 1 ≤ occ n ns.
Proof.
  induction ns as [|m ns IH]; [by intros ?%elem_of_nil|]. rewrite occ_cons. pose proof (occ_nonneg n ns).
  intros [->|H']%elem_of_cons; [rewrite decide_True by done; lia|]. specialize (IH H'). case_decide; lia.
Qed.
Lemma filter_split_length (P : nat → Prop) `{∀ k, Decision (P k)} l :
  (length (filter P l) + length (filter (λ k, ¬ P k) l))%nat = length l.
Proof. induction l as [|k l IH]; [done|]. rewrite !filter_cons. repeat case_decide; simpl; tauto || lia. Qed.

(** If all were in use, there would be as many open inodes and pipes. *)
Lemma spare_entry B hs V ns s : stands B hs V ns s → (size (open_inodes ns) + size B < NR_INODE)%nat → spare s.
Proof.
  intros [HI _ HR _ _ HB] Hsize. pose proof (bo_length _ (io_base _ HI)) as Hlen.
  destruct (decide (Exists (λ i, i_count i = 0) (inode_table s))) as [[i [Hi Hc]]%Exists_exists|Hno].
  { apply list_elem_of_lookup in Hi as [k Hk]. by exists k, i. }
  exfalso. apply not_Exists_Forall in Hno; [|apply _]. rewrite Forall_lookup in Hno.
  set (free := filter (λ k, k ∉ B) (seq 0 32)). set (num k := default 0 (i_num <$> inode_table s !! k)).
  assert (∀ k, k ∈ free → ∃ i, inode_table s !! k = Some i ∧ i_dev i = D ∧ inum (i_num i) ∧ num k = i_num i ∧ i_num i ∈ open_inodes ns) as Hfree.
  { intros k [HkB Hk%elem_of_seq]%list_elem_of_filter. destruct (lookup_lt_is_Some_2 (inode_table s) k) as [i Hi]; [rewrite Hlen; unfold NR_INODE; lia|].
    exists i. assert (i_dev i = D) as Hd.
    { destruct (decide (i_dev i = D)); [done|]. destruct HkB. apply (HB k i); [done|done|by apply (Hno k)]. }
    destruct (entry_home s i (io_entry _ HI _ _ Hi) Hd) as (Hn & _). split; [done|]. split; [done|]. split; [done|].
    split; [unfold num; by rewrite Hi|]. destruct (io_entry _ HI _ _ Hi) as (_ & Hc & _). pose proof (Hno k i Hi) as Hc0. simpl in Hc0.
    pose proof (HR _ Hn) as Hr. unfold refs in Hr. rewrite (entry_of_at _ k i (io_distinct _ HI) Hi Hd) in Hr.
    unfold open_inodes. apply elem_of_difference. split; [apply elem_of_list_to_set, occ_pos; lia|].
    unfold inum in Hn. rewrite elem_of_singleton. lia. }
  assert (NoDup (num <$> free)) as Hnd.
  { apply NoDup_fmap_2_strong; [|apply NoDup_filter, NoDup_seq]. intros k k' Hk Hk' E.
    destruct (Hfree k Hk) as (i & Hi & Hd & _ & En & _). destruct (Hfree k' Hk') as (i' & Hi' & Hd' & _ & En' & _).
    apply (io_distinct _ HI k' k i' i); congruence. }
  assert (length free ≤ size (open_inodes ns))%nat as H1.
  { rewrite <-(length_fmap num), <-(size_list_to_set (C := gset Z) (num <$> free)) by done. apply subseteq_size.
    intros n [k [-> Hk]]%elem_of_list_to_set%list_elem_of_fmap. destruct (Hfree k Hk) as (i & _ & _ & _ & -> & ?). done. }
  assert (32 ≤ length free + size B)%nat as H2.
  { assert (length (filter (λ k, k ∈ B) (seq 0 32)) ≤ size B)%nat.
    { rewrite <-(size_list_to_set (C := gset nat)) by apply NoDup_filter, NoDup_seq. apply subseteq_size.
      intros k [Hk _]%elem_of_list_to_set%list_elem_of_filter. done. }
    pose proof (filter_split_length (λ k, k ∈ B) (seq 0 32)) as Hsplit. rewrite length_seq in Hsplit. unfold free. lia. }
  unfold NR_INODE in Hsize. lia.
Qed.

(** ** The kernel does what the store says *)

Lemma handle_entry B hs V ns s h n : stands B hs V ns s → ns !! h = Some n → n ≠ 0 →
  ∃ p i, hs !! h = Some p ∧ 1 ≤ p ≤ 32 ∧ inum n ∧ inode_table s !! Z.to_nat (p - 1) = Some i ∧ i_dev i = D ∧ i_num i = n ∧
    i_count i = occ n ns ∧ 1 ≤ occ n ns ∧ attrs_of i = V n.
Proof.
  intros [HI HV HR _ HH _] Hh Hn. destruct (Forall2_lookup_r _ _ _ _ _ HH Hh) as (p & Hp & Hhd).
  destruct (Hhd Hn) as (Hp32 & Hin & i & Hi & Hd & En). exists p, i. split_and!; try done; try lia.
  - rewrite <-HR, <-En by done. unfold refs. by rewrite (entry_of_at _ _ i (io_distinct _ HI) Hi Hd).
  - by apply occ_in, list_elem_of_lookup_2 with h.
  - rewrite <-HV, <-En by done. unfold value. by rewrite (entry_of_at _ _ i (io_distinct _ HI) Hi Hd).
Qed.
Lemma handles_counted B hs V ns s n k c s' : stands B hs V ns s → counted s n k c s' → Forall2 (handle s') hs ns.
Proof.
  intros HS HC. pose proof (sd_handles _ _ _ _ _ HS) as HH. apply Forall2_same_length_lookup.
  split; [by eapply Forall2_length|]. intros h p m Hp Hm Hm0.
  destruct (handle_entry B hs V ns s h m HS Hm Hm0) as (p' & i & Hp' & Hp32 & Hin & Hi & Hd & En & Hc & Hc1 & _).
  assert (p' = p) as -> by congruence. split; [done|]. split; [done|]. destruct (decide (Z.to_nat (p - 1) = k)) as [Ek|Ek].
  - subst k. destruct (ct_entry _ _ _ _ _ HC) as (i' & Hi' & Hd' & En'). exists i'. split_and!; try done.
    rewrite En', <-En. symmetry. apply (ct_same _ _ _ _ _ HC); [done..|lia].
  - exists i. split; [|done]. apply (ct_used _ _ _ _ _ HC); [done|lia|done].
Qed.
Lemma handle_same s s' p n : length (inode_table s') = length (inode_table s) → same_entries s s' → handle s p n → handle s' p n.
Proof.
  intros Hl HE H Hn. destruct (H Hn) as (Hp & Hin & i & Hi & Hd & En). split; [done|]. split; [done|].
  destruct (lookup_lt_is_Some_2 (inode_table s') (Z.to_nat (p - 1))) as [i' Hi']; [rewrite Hl; by apply lookup_lt_Some in Hi|].
  destruct (HE _ _ Hi') as (j & Hj & Ed & En' & _). exists i'. split; [done|]. split; congruence.
Qed.
Lemma stands_same B hs V ns s V' s' : stands B hs V ns s → inodes_ok s' → length (inode_table s') = length (inode_table s) →
  same_entries s s' → (∀ n, inum n → value s' n = V' n) → (∀ n, inum n → refs s' n = refs s n) → stands B hs V' ns s'.
Proof.
  intros [HI HV HR HW HH HB] HI' Hl HE HV' HR'. split; [done|done| |done|..].
  - intros n Hn. by rewrite HR', HR.
  - eapply Forall2_impl; [exact HH|]. intros p n. by apply handle_same.
  - intros k i Hi Hd Hc. destruct (HE k i Hi) as (j & Hj & E1 & _ & E3). apply (HB k j Hj); congruence.
Qed.
Lemma stands_counted B hs V ns s n k c s' : stands B hs V ns s → counted s n k c s' →
  inodes_ok s' ∧ (∀ m, inum m → value s' m = V m) ∧
  (∀ m, inum m → refs s' m = occ m ns + (if decide (m = n) then c else 0)) ∧ Forall2 (handle s') hs ns ∧
  (∀ k i, inode_table s' !! k = Some i → i_dev i ≠ D → i_count i ≠ 0 → k ∈ B).
Proof.
  intros HS HC. pose proof HS as [HI HV HR _ HH HB]. split; [apply HC|]. split.
  { intros m Hm. rewrite (ct_value _ _ _ _ _ HC) by done. by apply HV. } split.
  { intros m Hm. rewrite (ct_refs _ _ _ _ _ HC) by done. by rewrite HR. }
  split; [by apply (handles_counted B hs V ns s n k c)|]. intros m i Hi Hd Hc. apply (HB m i); [|done..].
  by apply (ct_others _ _ _ _ _ HC).
Qed.

Definition implements (B : gset nat) (a : (Z → attrs) * list Z) (o : list attrs) s (x : list Z * list attrs) s' : Prop :=
  x.2 = o ∧ stands B x.1 a.1 a.2 s' ∧ beside s s'.
Lemma inode_step_refines B hs a s r o b : area_ok → stands B hs a.1 a.2 s → spec_step (size B) a r o b →
  wp (inode_step hs r) (implements B b o s) s.
Proof.
  intros HA HS Hstep. pose proof (sd_ok _ _ _ _ _ HS) as HI. destruct Hstep as [V ns n Hn Hsize Hocc|V ns h n Hh Hn Hnl|V ns h n f Hh Hn Hf|V ns];
    simpl in HS; cbn [inode_step].
  - pose proof (sd_refs _ _ _ _ _ HS n Hn) as Hr. apply wp_bind. eapply wp_mono.
    { apply wp_iget; [done|done|by apply (spare_entry B hs V ns)|done|lia]. }
    intros p s1 [Hp HC]. destruct (ct_entry _ _ _ _ _ HC) as (i & Hi & Hd & En).
    destruct (stands_counted B hs V ns s n _ _ s1 HS HC) as (HI1 & HV1 & HR1 & HH1 & HB1).
    apply wp_bind, (wp_inode p i); [lia|done|]. apply wp_ret. split; [|split; [split|apply HC]]; try done.
    + simpl. rewrite <-HV1, <-En by done. unfold value. by rewrite (entry_of_at _ _ i (io_distinct _ HI1) Hi Hd).
    + intros m Hm. simpl. rewrite HR1, occ_app, occ_cons, occ_nil by done. repeat case_decide; lia || congruence.
    + intros m Hm. simpl. rewrite occ_app, occ_cons, occ_nil. pose proof (sd_width _ _ _ _ _ HS m Hm). case_decide; [subst; lia|lia].
    + apply Forall2_app; [done|]. constructor; [|constructor]. intros _. split; [done|]. split; [done|]. eauto.
  - destruct (handle_entry B hs V ns s h n HS Hh Hn) as (p & i & Hp & Hp32 & Hin & Hi & Hd & En & Hc & Hc1 & Ha).
    apply wp_bind. eapply wp_of_ret; [apply (index_Some hs (Z.of_nat h) p); [lia|by rewrite Nat2Z.id]|].
    apply wp_bind. eapply wp_mono.
    { apply (wp_iput p i); try done; [lia| |by rewrite <-Ha in Hnl].
      pose proof (sd_width _ _ _ _ _ HS n Hin). lia. }
    intros [] s1 HC. rewrite En in HC. destruct (stands_counted B hs V ns s n _ _ s1 HS HC) as (HI1 & HV1 & HR1 & HH1 & HB1).
    apply wp_ret. split; [done|]. split; [split; try done|apply HC].
    + intros m Hm. simpl. rewrite HR1, (occ_close m h n ns Hh Hn) by (done || unfold inum in Hm; lia). case_decide; lia.
    + intros m Hm. simpl. rewrite (occ_close m h n ns Hh Hn) by (unfold inum in Hm; lia).
      pose proof (sd_width _ _ _ _ _ HS m Hm). case_decide; lia.
    + simpl. apply Forall2_same_length_lookup. split; [rewrite length_insert; by eapply Forall2_length|].
      intros j q m Hq. intros [(_ & <- & _)|[_ Hm]]%list_lookup_insert_Some; [by intros []|].
      apply Forall2_same_length_lookup in HH1 as [_ HH1]. by apply (HH1 j).
  - destruct (handle_entry B hs V ns s h n HS Hh Hn) as (p & i & Hp & Hp32 & Hin & Hi & Hd & En & Hc & Hc1 & Ha).
    apply wp_bind. eapply wp_of_ret; [apply (index_Some hs (Z.of_nat h) p); [lia|by rewrite Nat2Z.id]|].
    apply wp_bind. eapply wp_mono; [apply (wp_change p i f); try done; [lia|by rewrite Ha]|].
    intros a0 s1 [-> [HI1 Hb1 HV1 HR1 HU1]]. rewrite En in *. apply wp_ret. rewrite (sd_value _ _ _ _ _ HS n Hin) in *.
    assert (length (inode_table s1) = length (inode_table s)) as Hl by (by rewrite (bo_length _ (io_base _ HI1)), (bo_length _ (io_base _ HI))).
    split; [done|]. split; [|done]. apply (stands_same B hs V ns s); try done.
    + intros k j' Hj'. destruct (lookup_lt_is_Some_2 (inode_table s) k) as [j Hj]; [rewrite <-Hl; by apply lookup_lt_Some in Hj'|].
      destruct (HU1 k j Hj) as (j2 & Hj2 & ? & ? & ?). exists j. assert (j2 = j') as -> by congruence. done.
    + intros m Hm. simpl. rewrite HV1 by done. case_decide; [done|]. by apply HS.
  - apply wp_bind. eapply wp_mono; [by apply wp_sys_sync|]. intros z s1 (_ & [HI1 Hb1 Hv1 Hl1 He1] & _). apply wp_ret.
    split; [done|]. split; [|done]. apply (stands_same B hs V ns s); try done.
    + intros n Hn. destruct (Hv1 n Hn) as [-> _]. by apply HS.
    + intros n Hn. by apply Hv1.
Qed.
Lemma inode_run_refines B l : area_ok → ∀ hs a s o b, stands B hs a.1 a.2 s → spec_run (size B) a l o b →
  wp (inode_run hs l) (implements B b o s) s.
Proof.
  intros HA. induction l as [|r l IH]; intros hs a s o b HS Hrun; inversion Hrun; subst.
  - apply wp_ret. split; [done|]. split; [done|apply beside_refl, HS].
  - cbn [inode_run]. apply wp_bind. eapply wp_mono; [by eapply inode_step_refines|]. intros y s1 (E1 & HS1 & Hb1).
    apply wp_bind. eapply wp_mono; [by eapply IH|]. intros z s2 (E2 & HS2 & Hb2). apply wp_ret.
    split; [simpl; by rewrite E1, E2|]. split; [done|by apply (beside_trans s s1)].
Qed.
End Inodes.

(** C6: The inode table is a transparent write-back cache of the inodes of the
    partition.  Any sequence of iget, iput, changes by holders and sync, with a
    spare entry of the table at each iget, answers as a store that has every
    inode in memory would: iget of an inode shows what was last stored in it,
    by whatever holder and however often its entry and the blocks of its table
    were recycled in between, all handles of an inode are one entry, and a sync
    at the end puts on the disk what each inode is.  Blocks outside of the inode
    area, open files and the memory of the task are left alone. *)
Theorem inode_table_is_transparent D start nr sb x B l hs V ns s o V' ns' :
  area_ok nr x → stands D start nr sb x B hs V ns s → spec_run x (size B) (V, ns) l o (V', ns') →
  ∃ hs' s', inode_run D hs l s = Ret (hs', o) s' ∧ stands D start nr sb x B hs' V' ns' s' ∧ beside D start nr x s s' ∧
    ∃ s'', sys_sync s' = Ret 0 s'' ∧ beside D start nr x s s'' ∧ ∀ n, inum x n → on_disk D start x s'' n = V' n.
Proof.
  intros HA HS Hrun. destruct (wp_returns _ _ _ (inode_run_refines D start nr sb x B l HA hs (V, ns) s o (V', ns') HS Hrun))
    as ([hs' o'] & s' & E & Eo & HS' & Hb). simpl in Eo, HS'. subst o'. exists hs', s'. split; [done|]. split; [done|]. split; [done|].
  destruct (wp_returns _ _ _ (wp_sys_sync D start nr sb x s' (sd_ok _ _ _ _ _ _ _ _ _ _ HS') HA)) as (z & s2 & E2 & -> & [_ Hb2 _ _ _] & Hd).
  exists s2. split; [done|]. split; [by apply (beside_trans _ _ _ _ s s')|]. intros n Hn. rewrite Hd by done.
  by apply (sd_value _ _ _ _ _ _ _ _ _ _ HS').
Qed.

(** ** An empty table over the inodes of a small partition *)

Definition inode_super : superblock :=
  SuperBlock 42 8 1 1 6 0 0 0x137F (replicate 8 0) (replicate 8 0) 0x300 0 0 0 0 0.
Lemma inode_super_area : area_ok 64 inode_super.
Proof.
  split; [simpl; lia|]. split; [simpl; lia|]. intros n [Hn _]. simpl in Hn. unfold home.
  change INODES_PER_BLOCK with 21. simpl s_imap_blocks. simpl s_zmap_blocks. split; dlia.
Qed.
Lemma empty_table_stands s : cache_ok 0x300 0 64 s → room s → inode_table s = replicate 32 inode0 →
  last_allocated_inode s = 0 → super_block s = inode_super :: replicate 7 super0 →
  stands 0x300 0 64 1 inode_super ∅ [] (value 0x300 0 inode_super s) [] s.
Proof.
  intros HC HR HT Hl HS. assert (∀ n, entry_of 0x300 (inode_table s) n = None) as HN by (by intros n; rewrite HT).
  split; try done.
  - split; [split; [done|done| |lia|by rewrite HT]|..].
    + unfold super_of. rewrite HS. split; [lia|]. split; [done|]. split; [done|]. split; [done|]. lia.
    + intros k k' i i'. rewrite HT. by intros [-> _]%lookup_replicate_1.
    + intros k i. rewrite HT. intros [-> _]%lookup_replicate_1. split; [done|]. split; [done|]. by left.
  - intros n _. unfold refs. by rewrite HN.
  - intros k i. rewrite HT. by intros [-> _]%lookup_replicate_1.
Qed.
Definition fs_inodes : fs := fs_boot <| inode_table := replicate 32 inode0 |> <| last_allocated_inode := 0 |>
  <| super_block := inode_super :: replicate 7 super0 |>.
Lemma inodes_cache s T l S : cache_ok 0x300 0 64 s ∧ room s →
  let s' := s <| inode_table := T |> <| last_allocated_inode := l |> <| super_block := S |> in cache_ok 0x300 0 64 s' ∧ room s'.
Proof. intros [HC HR] s'. split; [by apply (cache_ok_ext 0x300 0 64 s)|exact HR]. Qed.
Lemma fs_inodes_stands : stands 0x300 0 64 1 inode_super ∅ [] (value 0x300 0 inode_super fs_inodes) [] fs_inodes.
Proof.
  destruct (inodes_cache fs_boot (replicate 32 inode0) 0 (inode_super :: replicate 7 super0) boot_cache) as [HC HR].
  by apply empty_table_stands.
Qed.
Definition a_file : attrs := Attrs 0x81A4 0 5 0 0 1 (replicate 9 0).

(** Inode 1 is taken, changed, given back, taken again and with it inode 30. *)
Lemma inode_table_is_transparent_witness : ∃ hs' a b s' s'',
  inode_run 0x300 [] [Get 1; Change 0 (λ _, a_file); Put 0; Sync; Get 30; Get 1] fs_inodes = Ret (hs', [a; a; b; a_file]) s' ∧
  sys_sync s' = Ret 0 s'' ∧ on_disk 0x300 0 inode_super s'' 1 = a_file.
Proof.
  set (V := value 0x300 0 inode_super fs_inodes).
  destruct (inode_table_is_transparent 0x300 0 64 1 inode_super ∅ [Get 1; Change 0 (λ _, a_file); Put 0; Sync; Get 30; Get 1]
    [] V [] fs_inodes [V 1; V 1; V 30; a_file] (λ m, if decide (m = 1) then a_file else V m) [0; 30; 1])
    as (hs' & s' & E & _ & _ & s2 & E2 & _ & Hd).
  - exact inode_super_area.
  - exact fs_inodes_stands.
  - apply (run_cons _ _ _ (V, [1]) _ _ _ [V 1] [V 1; V 30; a_file]).
    { apply (spec_get _ _ V []); [split; simpl; lia|vm_compute; lia|done]. }
    apply (run_cons _ _ _ (λ m, if decide (m = 1) then a_file else V m, [1]) _ _ _ [V 1] [V 30; a_file]).
    { apply (spec_change _ _ V [1] 0 1 (λ _, a_file)); [done|done|]. split; simpl; try lia. split; [done|]. repeat constructor; lia. }
    set (V1 := λ m, if decide (m = 1) then a_file else V m).
    apply (run_cons _ _ _ (V1, [0]) _ _ _ [] [V 30; a_file]).
    { apply (spec_put _ _ V1 [1] 0 1); done. }
    apply (run_cons _ _ _ (V1, [0]) _ _ _ [] [V 30; a_file]); [constructor|].
    apply (run_cons _ _ _ (V1, [0; 30]) _ _ _ [V1 30] [a_file]).
    { apply (spec_get _ _ V1 [0]); [split; simpl; lia|vm_compute; lia|done]. }
    apply (run_cons _ _ _ (V1, [0; 30; 1]) _ _ _ [V1 1] []).
    { apply (spec_get _ _ V1 [0; 30]); [split; simpl; lia|vm_compute; lia|done]. }
    constructor.
  - exists hs', (V 1), (V 30), s', s2. split; [exact E|]. split; [exact E2|].
    refine (Hd 1 _). split; simpl; lia.
Defined.
