(* ===== verification/FileTree.v ===== *)
(** * The blocks of a file grow on demand

    The zones and tables of an inode as a tree of blocks, no two of its nodes the
    same block; create_block adds the nodes that are missing on the way to a
    block, from the free zones of the partition, and changes nothing that the
    file or any other file holds. *)

From S2P Require Export Alloc.
From S2P Require Import Bitmap BitmapFacts Cache CacheFacts FsBoot.

(** ** The tree *)

(** The tables: the zones 7 and 8, and those that zone 8 points to. *)
Inductive table := Ind | Dind | Sub (k : Z).
(** The places that hold a block number. *)
Inductive slot := Root (k : Z) | Ent (t : table) (k : Z).
#[export] Instance table_eq_dec : EqDecision table.
Proof. solve_decision. Defined.
#[export] Instance slot_eq_dec : EqDecision slot.
Proof. solve_decision. Defined.
Definition table_ok (t : table) : Prop := match t with Sub k => 0 ≤ k < 512 | _ => True end.
Definition slot_ok (c : slot) : Prop :=
  match c with Root k => 0 ≤ k < 9 | Ent t k => table_ok t ∧ 0 ≤ k < 512 end.
(** Where a table is entered. *)
Definition slot_of (t : table) : slot := match t with Ind => Root 7 | Dind => Root 8 | Sub k => Ent Dind k end.
Definition is_leaf (c : slot) : Prop := ∀ t, table_ok t → slot_of t ≠ c.
(** The place of block [n] of a file. *)
Definition slot_for (n : Z) : slot :=
  if n <? 7 then Root n else if n - 7 <? 512 then Ent Ind (n - 7)
  else Ent (Sub (Z.shiftr (n - 7 - 512) 9)) ((n - 7 - 512) .& 511).

Lemma slot_of_ok t : table_ok t → slot_ok (slot_of t).
Proof. destruct t; simpl; [lia|lia|]. intros. split; [done|lia]. Qed.
Lemma slot_of_inj t t' : slot_of t = slot_of t' → t = t'.
Proof. destruct t, t'; simpl; congruence. Qed.
Lemma land511 n : n .& 511 = n mod 512.
Proof. change 511 with (Z.ones 9). by rewrite Z.land_ones. Qed.
Lemma shiftr9 n : Z.shiftr n 9 = n / 512.
Proof. by rewrite Z.shiftr_div_pow2. Qed.
Lemma slot_for_ok n : 0 ≤ n < max_blocks → slot_ok (slot_for n) ∧ is_leaf (slot_for n).
Proof.
  unfold max_blocks. intros Hn. unfold slot_for. rewrite land511, shiftr9.
  destruct (Z.ltb_spec n 7); [|destruct (Z.ltb_spec (n - 7) 512)]; (split; [simpl; dlia|]); intros [] _; simpl; try congruence;
    intros [= <-]; lia.
Qed.
Lemma slot_for_inj n m : 0 ≤ n → 0 ≤ m → slot_for n = slot_for m → n = m.
Proof.
  intros Hn Hm. unfold slot_for. rewrite !land511, !shiftr9.
  destruct (Z.ltb_spec n 7); [|destruct (Z.ltb_spec (n - 7) 512)]; (destruct (Z.ltb_spec m 7); [|destruct (Z.ltb_spec (m - 7) 512)]);
    intros [=]; dlia.
Qed.

Section Tree.
Context (D start nr sb : Z) (x : superblock).
Implicit Types s : fs.
Implicit Types i : m_inode.

(** The block a place holds; 0 if it is empty or its table is missing. *)
Definition sub s (t k : Z) : Z := if t =? 0 then 0 else entry D start s t k.
Definition table_block s i (t : table) : Z :=
  match t with Ind => zone i 7 | Dind => zone i 8 | Sub k => sub s (zone i 8) k end.
Definition node s i (c : slot) : Z :=
  match c with Root k => zone i k | Ent t k => sub s (table_block s i t) k end.
Lemma node_slot_of s i t : node s i (slot_of t) = table_block s i t.
Proof. by destruct t. Qed.
Lemma zone_of_slot s i n : zone_of D start s i n = node s i (slot_for n).
Proof.
  unfold zone_of, slot_for. destruct (n <? 7); [done|]. destruct (n - 7 <? 512); [done|]. simpl. unfold sub.
  by destruct (zone i 8 =? 0).
Qed.

(** A well-formed file: its nodes are used zones, all different. *)
Record tree s i : Prop := Tree {
  tr_zones : length (i_zone i) = 9%nat;
  tr_used : ∀ c, slot_ok c → node s i c ≠ 0 → data_zone x (node s i c) ∧ used D start s x (node s i c) = true;
  tr_inj : ∀ c c', slot_ok c → slot_ok c' → node s i c ≠ 0 → node s i c' = node s i c → c' = c
}.
Lemma tree_table s i t : tree s i → table_ok t → table_block s i t ≠ 0 →
  data_zone x (table_block s i t) ∧ used D start s x (table_block s i t) = true.
Proof. rewrite <-node_slot_of. intros HT Ht. by apply (tr_used s i HT), slot_of_ok. Qed.
Lemma tree_table_inj s i t t' : tree s i → table_ok t → table_ok t' → table_block s i t ≠ 0 →
  table_block s i t' = table_block s i t → t' = t.
Proof.
  rewrite <-!node_slot_of. intros HT Ht Ht' Hne E. apply slot_of_inj.
  by apply (tr_inj s i HT); [apply slot_of_ok..|done|].
Qed.
(** The tables know all nodes. *)
Lemma node_same s s' i : (∀ t, table_ok t → table_block s i t ≠ 0 →
    content D start s' (table_block s i t) = content D start s (table_block s i t)) →
  ∀ c, slot_ok c → node s' i c = node s i c.
Proof.
  intros HS. assert (∀ t k, table_ok t → table_block s i t ≠ 0 →
    entry D start s' (table_block s i t) k = entry D start s (table_block s i t) k) as HE.
  { intros t k Ht Hne. unfold entry. by rewrite HS. }
  assert (∀ t k, table_ok t → table_block s' i t = table_block s i t → node s' i (Ent t k) = node s i (Ent t k)) as Hent.
  { intros t k Ht E. simpl. rewrite E. unfold sub. destruct (Z.eqb_spec (table_block s i t) 0); [done|]. by apply HE. }
  assert (∀ t, table_ok t → table_block s' i t = table_block s i t) as Htb.
  { intros [| |a] Ht; [done|done|]. by apply (Hent Dind a). }
  intros [k|t k] Hc; [done|]. destruct Hc as [Ht _]. apply Hent; auto.
Qed.

(** ** One node more *)

(** The table of a place is there. *)
Definition parent s i (c : slot) : Prop := match c with Root _ => True | Ent t _ => table_block s i t ≠ 0 end.

(** If [z] has been put in place [c], the other entries of the tables are as they
    were and [z] is full of zeroes, then [c] is the only node that has changed. *)
Lemma nodes_grow s i s' i' c z : node s i c = 0 → parent s i c → z ≠ 0 →
  (∀ k, 0 ≤ k < 9 → zone i' k = if decide (Root k = c) then z else zone i k) →
  (∀ k, 0 ≤ k < 512 → entry D start s' z k = 0) →
  (∀ t k, table_ok t → table_block s i t ≠ 0 → 0 ≤ k < 512 →
     entry D start s' (table_block s i t) k = if decide (Ent t k = c) then z else entry D start s (table_block s i t) k) →
  ∀ c', slot_ok c' → node s' i' c' = if decide (c' = c) then z else node s i c'.
Proof.
  intros Hc Hp Hz HR HZ HE.
  assert (∀ t, table_ok t → table_block s' i' t = (if decide (slot_of t = c) then z else table_block s i t) →
    ∀ k, 0 ≤ k < 512 → node s' i' (Ent t k) = if decide (Ent t k = c) then z else node s i (Ent t k)) as Hent.
  { intros t Ht Htb k Hk. simpl. rewrite Htb. unfold sub. destruct (decide (slot_of t = c)) as [Ec|Ec].
    - rewrite (proj2 (Z.eqb_neq z 0) Hz), HZ by done.
      assert (table_block s i t = 0) as E by (by rewrite <-node_slot_of, Ec).
      rewrite decide_False; [by rewrite E|]. intros E'. rewrite <-E' in Hp. by apply Hp.
    - destruct (Z.eqb_spec (table_block s i t) 0) as [E|E]; [|by rewrite HE].
      rewrite decide_False; [done|]. intros E'. rewrite <-E' in Hp. by apply Hp. }
  assert (∀ t, table_ok t → table_block s' i' t = if decide (slot_of t = c) then z else table_block s i t) as Htb.
  { intros [| |a] Ht; [simpl; apply HR; lia|simpl; apply HR; lia|]. apply (Hent Dind); [done| |done]. simpl. apply HR. lia. }
  intros [k|t k] Hok; [by apply HR|]. destruct Hok as [Ht Hk]. by apply Hent; [|apply Htb|].
Qed.

(** ** Growing *)

Context (Hzones : ∀ z, data_zone x z → z ≠ 0 ∧ valid nr z ∧ off_map x z).

(** The blocks that are not in a table of the file, nor free. *)
Definition outside s i (blk : Z) : Prop := valid nr blk ∧ off_map x blk ∧
  (data_zone x blk → used D start s x blk = true) ∧
  ∀ t, table_ok t → table_block s i t ≠ 0 → blk ≠ table_block s i t.
(** From [s] and [i] to [s'] and [i'] the file may have got nodes, from the free
    zones and full of zeroes; the others are where they were, and so is
    everything else. *)
Record grows s i s' i' : Prop := Grows {
  gr_nodes : ∀ c, slot_ok c → node s i c ≠ 0 → node s' i' c = node s i c;
  gr_new : ∀ c, slot_ok c → node s i c = 0 → node s' i' c ≠ 0 → used D start s x (node s' i' c) = false;
  gr_clear : ∀ c, slot_ok c → is_leaf c → node s i c = 0 → node s' i' c ≠ 0 →
    content D start s' (node s' i' c) = Some (replicate 1024 0);
  gr_used : ∀ z, data_zone x z →
    used D start s' x z = true ↔ used D start s x z = true ∨ ∃ c, slot_ok c ∧ node s' i' c = z;
  gr_outside : ∀ blk, outside s i blk → content D start s' blk = content D start s blk
}.

(** The blocks with the bytes of the file are outside of its tables. *)
Lemma leaf_outside s i c : tree s i → slot_ok c → is_leaf c → node s i c ≠ 0 → outside s i (node s i c).
Proof.
  intros HT Hok Hleaf Hne. destruct (tr_used s i HT c Hok Hne) as [Hz Hu]. destruct (Hzones _ Hz) as (_ & ? & ?).
  split; [done|]. split; [done|]. split; [done|]. intros t Ht Htb E. apply (Hleaf t Ht).
  apply (tr_inj s i HT c (slot_of t)); [done|by apply slot_of_ok|done|]. by rewrite node_slot_of.
Qed.
Lemma outside_grows s i s' i' blk : tree s' i' → grows s i s' i' → outside s i blk → outside s' i' blk.
Proof.
  intros HT' G (Hv & Hoff & Hu & Ht). split; [done|]. split; [done|]. split; [intros Hz; apply (gr_used _ _ _ _ G); auto|].
  intros t Hok Hne ->. destruct (tree_table s' i' t HT' Hok Hne) as [Hz _]. rewrite <-node_slot_of in *.
  destruct (decide (node s i (slot_of t) = 0)) as [E|E].
  - assert (used D start s x (node s' i' (slot_of t)) = false) as Hf by (by apply (gr_new _ _ _ _ G); [apply slot_of_ok|..]).
    by rewrite Hu in Hf.
  - pose proof (gr_nodes _ _ _ _ G (slot_of t) (slot_of_ok t Hok) E) as E'. rewrite node_slot_of in E.
    apply (Ht t Hok E). by rewrite E', node_slot_of.
Qed.
Lemma tree_grows_refl s i : tree s i → grows s i s i.
Proof.
  intros HT. split; try done.
  intros z Hz. split; [by left|]. intros [|(c & Hc & <-)]; [done|]. apply (tr_used s i HT c Hc). by apply Hzones.
Qed.
Lemma tree_grows_trans s1 i1 s2 i2 s3 i3 : tree s2 i2 → tree s3 i3 → grows s1 i1 s2 i2 → grows s2 i2 s3 i3 → grows s1 i1 s3 i3.
Proof.
  intros HT2 HT3 G1 G2.
  assert (∀ c, slot_ok c → node s2 i2 c ≠ 0 → node s3 i3 c = node s2 i2 c) as HN by apply G2. split.
  - intros c Hc Hne. pose proof (gr_nodes _ _ _ _ G1 c Hc Hne) as E. rewrite <-E in Hne |- *. by apply HN.
  - intros c Hc E1 Hne. destruct (decide (node s2 i2 c = 0)) as [E2|E2].
    + pose proof (gr_new _ _ _ _ G2 c Hc E2 Hne) as Hf. destruct (tr_used s3 i3 HT3 c Hc Hne) as [Hz _].
      apply not_true_is_false. intros Ht. assert (used D start s2 x (node s3 i3 c) = true) as Ht2; [|congruence].
      apply (gr_used _ _ _ _ G1); auto.
    + rewrite HN by done. by apply (gr_new _ _ _ _ G1).
  - intros c Hc Hl E1 Hne. destruct (decide (node s2 i2 c = 0)) as [E2|E2]; [by apply (gr_clear _ _ _ _ G2)|].
    rewrite HN by done. rewrite (gr_outside _ _ _ _ G2); [by apply (gr_clear _ _ _ _ G1)|]. by apply leaf_outside.
  - intros z Hz. rewrite (gr_used _ _ _ _ G2), (gr_used _ _ _ _ G1) by done. split; [|by intros [|]; [left; left|right]].
    intros [[|(c & Hc & E)]|]; [by left| |by right]. right. exists c. split; [done|]. rewrite HN; [done..|].
    rewrite E. by apply Hzones.
  - intros blk Ho. rewrite (gr_outside _ _ _ _ G2), (gr_outside _ _ _ _ G1); [done|done|]. by apply (outside_grows s1 i1).
Qed.

(** The blocks of the file have the bytes they had: a hole is full of zeroes. *)
Lemma grows_file_block s i s' i' n : tree s i → grows s i s' i' → 0 ≤ n < max_blocks →
  file_block D start s' i' n = file_block D start s i n.
Proof.
  intros HT G Hn. destruct (slot_for_ok n Hn) as [Hok Hleaf]. unfold file_block. rewrite !zone_of_slot.
  destruct (Z.eqb_spec (node s i (slot_for n)) 0) as [E|E].
  - destruct (Z.eqb_spec (node s' i' (slot_for n)) 0) as [|E']; [done|]. by rewrite (gr_clear _ _ _ _ G).
  - rewrite (gr_nodes _ _ _ _ G) by done. rewrite (proj2 (Z.eqb_neq _ 0) E).
    rewrite (gr_outside _ _ _ _ G); [done|]. by apply leaf_outside.
Qed.

(** ** The step *)

Lemma half_at_set d k v k' : length d = 1024%nat → 0 ≤ k < 512 → 0 ≤ k' → 0 ≤ v < 65536 →
  half_at (set_half d k v) k' = if decide (k' = k) then v else half_at d k'.
Proof.
  intros Hd Hk Hk' Hv. unfold half_at, set_half. pose proof (length_insert d (Z.to_nat (2 * k)) (u8 v)) as Hl.
  rewrite !byte_at_set by (unfold set_byte; lia).
  destruct (decide (k' = k)) as [->|]; repeat case_decide; try lia.
  unfold u8. rewrite Z.shiftr_div_pow2 by lia. dlia.
Qed.
Lemma half_at_clear k : half_at (replicate 1024 0) k = 0.
Proof.
  assert (∀ j, byte_at (replicate 1024 0) j = 0) as H; [|unfold half_at; by rewrite !H].
  intros j. unfold byte_at. destruct (replicate 1024 0 !! _) eqn:E; [|done]. by apply lookup_replicate in E as [-> _].
Qed.

(** The free zone [z], full of zeroes, has been put in place [c]. *)
Record put_node s i s' i' (c : slot) (z : Z) : Prop := PutNode {
  pn_ok : slot_ok c;
  pn_empty : node s i c = 0;
  pn_parent : parent s i c;
  pn_zone : data_zone x z;
  pn_free : used D start s x z = false;
  pn_length : length (i_zone i') = 9%nat;
  pn_root : ∀ k, 0 ≤ k < 9 → zone i' k = if decide (Root k = c) then z else zone i k;
  pn_used : ∀ z', data_zone x z' → used D start s' x z' = bool_decide (z' = z) || used D start s x z';
  pn_clear : content D start s' z = Some (replicate 1024 0);
  pn_table : ∀ t k, c = Ent t k → ∃ d, content D start s (table_block s i t) = Some d ∧ length d = 1024%nat ∧
    content D start s' (table_block s i t) = Some (set_half d k z);
  pn_others : ∀ blk, valid nr blk → off_map x blk → blk ≠ z → (∀ t k, c = Ent t k → blk ≠ table_block s i t) →
    content D start s' blk = content D start s blk
}.
Lemma put_node_nodes s i s' i' c z : s_nzones x < 65536 → 0 ≤ s_firstdatazone x → tree s i → put_node s i s' i' c z →
  ∀ c', slot_ok c' → node s' i' c' = if decide (c' = c) then z else node s i c'.
Proof.
  intros Hnz Hfz HT P. pose proof (pn_zone _ _ _ _ _ _ P) as Hz. destruct (Hzones z Hz) as (Hz0 & _).
  apply nodes_grow; try apply P; [done|..].
  - intros k _. unfold entry. rewrite (pn_clear _ _ _ _ _ _ P). apply half_at_clear.
  - intros t k Ht Htb Hk. destruct (tree_table s i t HT Ht Htb) as [Htz Htu]. destruct (Hzones _ Htz) as (_ & Hv & Hoff).
    assert (table_block s i t ≠ z) as Hne.
    { intros E. rewrite E, (pn_free _ _ _ _ _ _ P) in Htu. done. }
    assert (∀ k', c = Ent t k' ∨ (∀ t' k', c = Ent t' k' → t' ≠ t) → entry D start s' (table_block s i t) k =
      if decide (Ent t k = c) then z else entry D start s (table_block s i t) k) as H.
    { intros k' [E|E].
      - destruct (pn_table _ _ _ _ _ _ P t k' E) as (d & Hd & Hl & Hd'). unfold entry. rewrite Hd, Hd'. simpl.
        pose proof (pn_ok _ _ _ _ _ _ P) as Hok. rewrite E in Hok. destruct Hok as [_ Hk'].
        rewrite half_at_set by (done || unfold data_zone in Hz; lia). apply decide_ext. rewrite E. split; congruence.
      - rewrite decide_False by (intros E'; by apply (E t k)). unfold entry. rewrite (pn_others _ _ _ _ _ _ P); [done..|].
        intros t' k'' Ec Etb. apply (E t' k'' Ec). pose proof (pn_ok _ _ _ _ _ _ P) as Hok. rewrite Ec in Hok. destruct Hok as [Ht' _].
        by apply (tree_table_inj s i t t' HT). }
    destruct c as [k'|t' k']; [apply (H 0); by right|]. destruct (decide (t' = t)) as [->|Hne']; [apply (H k'); by left|].
    apply (H k'). right. by intros ?? [= <- <-].
Qed.
Lemma put_node_grows s i s' i' c z : s_nzones x < 65536 → 0 ≤ s_firstdatazone x → tree s i → put_node s i s' i' c z →
  tree s' i' ∧ grows s i s' i' ∧ node s' i' c = z.
Proof.
  intros Hnz Hfz HT P. pose proof (put_node_nodes s i s' i' c z Hnz Hfz HT P) as HN.
  pose proof (pn_zone _ _ _ _ _ _ P) as Hz. destruct (Hzones z Hz) as (Hz0 & Hzv & Hzoff). pose proof (pn_ok _ _ _ _ _ _ P) as Hok.
  assert (∀ z', data_zone x z' → used D start s x z' = true → z' ≠ z) as Hfresh.
  { intros z' _ Hu ->. by rewrite (pn_free _ _ _ _ _ _ P) in Hu. }
  split; [|split; [|rewrite HN by done; by rewrite decide_True]].
  - split; [apply P|..].
    + intros c' Hc'. rewrite HN by done. case_decide.
      * intros _. split; [done|]. rewrite (pn_used _ _ _ _ _ _ P) by done. by rewrite bool_decide_true.
      * intros Hne. destruct (tr_used s i HT c' Hc' Hne) as [Hz' Hu]. split; [done|].
        by rewrite (pn_used _ _ _ _ _ _ P), Hu, orb_true_r.
    + intros c1 c2 H1 H2. rewrite !HN by done. repeat case_decide; try congruence.
      * intros _ E. exfalso. destruct (tr_used s i HT c2 H2) as [Hz' Hu]; [congruence|]. by apply (Hfresh _ Hz' Hu).
      * intros Hne E. exfalso. destruct (tr_used s i HT c1 H1 Hne) as [Hz' Hu]. by apply (Hfresh _ Hz' Hu).
      * by apply (tr_inj s i HT).
  - split.
    + intros c' Hc' Hne. rewrite HN by done. rewrite decide_False; [done|]. intros ->. by rewrite (pn_empty _ _ _ _ _ _ P) in Hne.
    + intros c' Hc' E. rewrite HN by done. case_decide; [|done]. intros _. apply P.
    + intros c' Hc' _ E. rewrite HN by done. case_decide; [|done]. intros _. apply P.
    + intros z' Hz'. rewrite (pn_used _ _ _ _ _ _ P) by done. rewrite orb_true_iff, bool_decide_eq_true. split.
      * intros [->|]; [right|by left]. exists c. split; [done|]. rewrite HN by done. by rewrite decide_True.
      * intros [|(c' & Hc' & E)]; [by right|]. rewrite HN in E by done. case_decide; [by left|]. right. rewrite <-E.
        apply (tr_used s i HT c' Hc'). rewrite E. by apply Hzones.
    + intros blk (Hv & Hoff & Hu & Ht). apply (pn_others _ _ _ _ _ _ P); [done|done| |].
      * intros ->. by apply (Hfresh z Hz (Hu Hz)).
      * intros t k ->. destruct Hok as [Htok _]. apply Ht; [done|]. exact (pn_parent _ _ _ _ _ _ P).
Qed.
End Tree.
