(* ===== verification/FileGrow.v ===== *)
(** * Writing grows a file

    create_block, through new_block and the tables, and file_write on it: a write
    at any position succeeds as long as there are free zones, the bytes become
    those of the task, and nothing else that is stored anywhere changes. *)

From S2P Require Export FileTree.
From S2P Require Import FileIo Bitmap BitmapFacts Cache CacheFacts FsBoot.

Section Grow.
Context (D start nr sb : Z) (x : superblock).
Implicit Types s : fs.
Implicit Types i : m_inode.

(** ** Room for two *)

(** Two buffers are free, and no count is about to wrap: a table can be held while
    a block is allocated. *)
Definition room_for_two s : Prop :=
  (∃ p q b c, p ≠ q ∧ heads s !! p = Some b ∧ b_count b = 0 ∧ heads s !! q = Some c ∧ b_count c = 0) ∧
  ∀ p b, heads s !! p = Some b → b_count b < 254.
Lemma room_for_one s : room_for_two s → room s.
Proof.
  intros [(p & _ & b & _ & _ & Hb & E & _) Hlt]. split; [by exists p, b|]. intros q c Hc. specialize (Hlt q c Hc). lia.
Qed.
Lemma two_kept s s' : cache_ok D start nr s → idle D start nr s s' → rest s' = rest s → room_for_two s → room_for_two s'.
Proof.
  intros [_ HD] [[_ HD'] Hi] HR [(p & q & b & c & Hpq & Hb & Eb & Hc & Ec) Hlt]. split.
  - destruct (Hi p b Hb) as (b' & Hb' & ? & _), (Hi q c Hc) as (c' & Hc' & ? & _). exists p, q, b', c'.
    split_and!; congruence.
  - intros r d Hd. assert (is_Some (heads s !! r)) as [d0 Hd0].
    { apply (do_dom _ _ _ s HD). assert (nr_buffers s' = nr_buffers s) as <- by (unfold rest in HR; congruence).
      apply (do_dom _ _ _ s' HD'). eauto. }
    destruct (Hi r d0 Hd0) as (d' & Hd' & ? & _). rewrite Hd in Hd'. injection Hd' as <-. specialize (Hlt r d0 Hd0). lia.
Qed.
Lemma taken_room s blk p b s1 : cache_ok D start nr s → room_for_two s → taken_block D start nr s blk p b s1 → room s1.
Proof.
  intros [_ HD] [(p1 & p2 & b1 & b2 & Hne & Hb1 & E1 & Hb2 & E2) Hlt] T. pose proof (tb_held _ _ _ _ _ _ _ _ T) as HH.
  destruct (tb_ok _ _ _ _ _ _ _ _ T) as [_ HD1]. split.
  - assert (∃ q c, q ≠ p ∧ heads s !! q = Some c ∧ b_count c = 0) as (q & c & Hq & Hc & E).
    { destruct (decide (p1 = p)) as [->|]; [exists p2, b2|exists p1, b1]; split_and!; congruence. }
    destruct (HH q c Hc) as (c' & Hc' & Ec & _). rewrite decide_False in Ec by done. exists q, c'. split; [done|lia].
  - intros q c Hc. assert (is_Some (heads s !! q)) as [c0 Hc0].
    { apply (do_dom _ _ _ s HD). pose proof (tb_rest _ _ _ _ _ _ _ _ T) as HR.
      assert (nr_buffers s1 = nr_buffers s) as <- by (unfold rest in HR; congruence).
      apply (do_dom _ _ _ s1 HD1). eauto. }
    destruct (HH q c0 Hc0) as (c' & Hc' & Ec & _). rewrite Hc in Hc'. injection Hc' as <-. specialize (Hlt q c0 Hc0).
    case_decide; lia.
Qed.

(** ** The bitmap under changes elsewhere *)

Lemma used_same s s' sb' : mounted D start nr s sb' x →
  (∀ k, 0 ≤ k < s_zmap_blocks x → content D start s' (zmap_block x k) = content D start s (zmap_block x k)) →
  (∀ z, data_zone x z → used D start s' x z = used D start s x z) ∧ map_bit D start s' x 0 = true ∧
  ∀ k, 0 ≤ k < s_zmap_blocks x → is_block (default [] (content D start s' (zmap_block x k))).
Proof.
  intros HM HE. pose proof (mo_shape _ _ _ _ _ _ HM) as (_ & ? & _ & _ & _ & _ & Hlong). split; [|split].
  - intros z Hz. unfold used, map_bit. rewrite HE; [done|]. unfold data_zone in Hz. dlia.
  - unfold map_bit. change (0 / 8192) with 0. rewrite HE by lia. apply (mo_first _ _ _ _ _ _ HM).
  - intros k Hk. rewrite HE by done. by destruct (mo_maps _ _ _ _ _ _ HM k Hk) as (? & _ & _ & ?).
Qed.
Lemma same_cache_facts s s' : same_cache s s' → mounted D start nr s sb x →
  mounted D start nr s' sb x ∧ (∀ z, used D start s' x z = used D start s x z) ∧
  (free_unheld D start s x → free_unheld D start s' x) ∧ ∀ blk, content D start s' blk = content D start s blk.
Proof.
  intros (E1 & E2 & E3 & E4 & E5 & E6) HM.
  assert (∀ blk, content D start s' blk = content D start s blk) as HE.
  { intros blk. unfold content, cached, disk. rewrite E1, E4. unfold rest in E6.
    by replace (nr_buffers s') with (nr_buffers s) by congruence. }
  assert (∀ z, used D start s' x z = used D start s x z) as HU by (intros z; unfold used, map_bit; by rewrite HE).
  split_and!; try done.
  - destruct (used_same s s' sb HM) as (_ & H0 & HB); [auto|].
    apply (mounted_kept D start nr s); [done|by apply users_kept_heads|unfold rest in E6; congruence|done..].
  - intros H p b. rewrite E1, HU. apply H.
Qed.

(** While the buffer of a used block is held. *)
Lemma taken_state s blk q b s1 : cache_ok D start nr s → mounted D start nr s sb x → free_unheld D start s x →
  s_firstdatazone x ≤ s_nzones x → used D start s x blk = true → taken_block D start nr s blk q b s1 →
  mounted D start nr s1 sb x ∧ free_unheld D start s1 x ∧ ∀ z, data_zone x z → used D start s1 x z = used D start s x z.
Proof.
  intros HC HM HU Hfz Hused T. pose proof (tb_rest _ _ _ _ _ _ _ _ T) as HR. unfold rest in HR.
  destruct (used_same s s1 sb HM) as (Hu & H0 & HB).
  { intros k Hk. apply (tb_content _ _ _ _ _ _ _ _ T). by apply (zmap_block_valid D start nr s sb x k). }
  split; [|split; [|done]].
  - apply (mounted_pinned D start nr s); [done| |congruence|done..].
    intros p' blk' (c & Hc & Hk & Hcnt & Hup). destruct (tb_held _ _ _ _ _ _ _ _ T p' c Hc) as (c' & Hc' & Ec & Hkk).
    destruct Hkk as [Ek Hup']; [lia|]. exists c'. split; [done|]. split; [congruence|]. split; [case_decide; lia|]. by apply Hup'.
  - intros p' c' Hc' Hd Hz Hfree.
    assert (is_Some (heads s !! p')) as [c Hc].
    { apply (do_dom _ _ _ s (proj2 HC)). assert (nr_buffers s1 = nr_buffers s) as <- by congruence.
      apply (do_dom _ _ _ s1 (proj2 (tb_ok _ _ _ _ _ _ _ _ T))). eauto. }
    destruct (tb_held _ _ _ _ _ _ _ _ T p' c Hc) as (c1 & Hc1 & Ec & Hkk). rewrite Hc' in Hc1. injection Hc1 as <-.
    rewrite Hu in Hfree by done. case_decide as E.
    + subst p'. rewrite (tb_head _ _ _ _ _ _ _ _ T) in Hc'. injection Hc' as <-.
      destruct (tb_key _ _ _ _ _ _ _ _ T) as [_ Ek]. rewrite Ek in Hfree. congruence.
    + destruct (decide (b_count c = 0)) as [E0|E0]; [lia|]. destruct (Hkk E0) as [Ek _]. unfold key in Ek. injection Ek as Ed Eb.
      rewrite Ec. rewrite (HU p' c Hc); [done|congruence|by rewrite <-Eb|by rewrite <-Eb].
Qed.

(** ** What the creation of blocks does *)

(** The inode but for its zones and its time of change. *)
Definition same_file i i' : Prop := ∃ zs ct dt, i' = i <| i_zone := zs |> <| i_ctime := ct |> <| i_dirt := dt |>.
Lemma same_file_refl i : same_file i i.
Proof. exists (i_zone i), (i_ctime i), (i_dirt i). by destruct i. Qed.
Lemma same_file_trans i1 i2 i3 : same_file i1 i2 → same_file i2 i3 → same_file i1 i3.
Proof. intros (? & ? & ? & ->) (zs & ct & dt & ->). exists zs, ct, dt. by destruct i1. Qed.

Record file_grows (p : Z) s i s' i' : Prop := FileGrows {
  fg_idle : idle D start nr s s';
  fg_rest : rest s' = rest s;
  fg_files : file_table s' = file_table s ∧ user s' = user s;
  fg_inode : inode_table s' = <[Z.to_nat (p - 1) := i']> (inode_table s);
  fg_attr : same_file i i';
  fg_mounted : mounted D start nr s' sb x;
  fg_unheld : free_unheld D start s' x;
  fg_tree : tree D start x s' i';
  fg_grows : grows D start nr x s i s' i'
}.
(** All zones are used. *)
Definition no_zone s : Prop := ∀ z, data_zone x z → used D start s x z = true.

(** What a file needs to grow. *)
Record growing (p : Z) s i : Prop := Growing {
  gw_cache : cache_ok D start nr s;
  gw_room : room_for_two s;
  gw_mounted : mounted D start nr s sb x;
  gw_unheld : free_unheld D start s x;
  gw_zones : s_firstdatazone x ≤ s_nzones x;
  gw_pointer : 1 ≤ p;
  gw_inode : inode_table s !! Z.to_nat (p - 1) = Some i;
  gw_dev : i_dev i = D;
  gw_tree : tree D start x s i
}.
Lemma zones_ok p s i : growing p s i → ∀ z, data_zone x z → z ≠ 0 ∧ valid nr z ∧ off_map x z.
Proof.
  intros G z Hz. pose proof (gw_mounted _ _ _ G) as HM. split; [|split; [by apply (data_zone_valid D start nr s sb x)|by apply (data_off_map D start nr s sb x)]].
  pose proof (mo_shape _ _ _ _ _ _ HM). unfold data_zone, zmap_block in *. lia.
Qed.
Lemma growing_kept p s i s' i' : growing p s i → file_grows p s i s' i' → growing p s' i'.
Proof.
  intros G F. pose proof (fg_idle _ _ _ _ _ F) as HI. split.
  - by destruct HI.
  - exact (two_kept s s' (gw_cache _ _ _ G) HI (fg_rest _ _ _ _ _ F) (gw_room _ _ _ G)).
  - exact (fg_mounted _ _ _ _ _ F).
  - exact (fg_unheld _ _ _ _ _ F).
  - exact (gw_zones _ _ _ G).
  - exact (gw_pointer _ _ _ G).
  - rewrite (fg_inode _ _ _ _ _ F). apply list_lookup_insert_eq. apply (lookup_lt_Some _ _ _ (gw_inode _ _ _ G)).
  - destruct (fg_attr _ _ _ _ _ F) as (? & ? & ? & ->). exact (gw_dev _ _ _ G).
  - exact (fg_tree _ _ _ _ _ F).
Qed.
Lemma file_grows_trans p s1 i1 s2 i2 s3 i3 : growing p s1 i1 → file_grows p s1 i1 s2 i2 → file_grows p s2 i2 s3 i3 →
  file_grows p s1 i1 s3 i3.
Proof.
  intros G [[_ I1] R1 [F1 U1] T1 A1 _ _ TR1 G1] [[HC I2] R2 [F2 U2] T2 A2 HM HU TR2 G2]. split; try done.
  - split; [done|]. by apply (users_kept_trans s1 s2).
  - by rewrite R2.
  - split; congruence.
  - by rewrite T2, T1, list_insert_insert_eq.
  - by eapply same_file_trans.
  - eapply tree_grows_trans; [by eapply zones_ok|exact TR1|exact TR2|done|done].
Qed.

(** Nothing has grown. *)
Lemma file_grows_same p s i s' : growing p s i → idle D start nr s s' → rest s' = rest s →
  file_table s' = file_table s → user s' = user s → inode_table s' = inode_table s →
  mounted D start nr s' sb x → (∀ z, data_zone x z → used D start s' x z = used D start s x z) →
  (∀ blk, valid nr blk → off_map x blk → content D start s' blk = content D start s blk) →
  file_grows p s i s' i.
Proof.
  intros G HI HR HF HU HT HM Hused Hc. pose proof (gw_tree _ _ _ G) as TR. pose proof (zones_ok _ _ _ G) as HZ.
  assert (∀ c, slot_ok c → node D start s' i c = node D start s i c) as HN.
  { apply node_same. intros t Ht Hne. destruct (tree_table D start x s i t TR Ht Hne) as [Hz _].
    by apply Hc; apply HZ. }
  split; try done.
  - rewrite HT, list_insert_id; [done|apply G].
  - apply same_file_refl.
  - apply (unheld_kept D start nr s); [apply G|apply HI|unfold rest in HR; congruence|apply HI|apply G|].
    intros z Hz. by rewrite Hused.
  - split; [apply TR|..].
    + intros c Hok. rewrite HN by done. intros Hne. destruct (tr_used _ _ _ _ _ TR c Hok Hne). by rewrite Hused.
    + intros c c' Hok Hok'. rewrite !HN by done. by apply (tr_inj _ _ _ _ _ TR).
  - split.
    + intros c Hok _. by apply HN.
    + intros c Hok. rewrite HN by done. done.
    + intros c Hok _. rewrite HN by done. done.
    + intros z Hz. rewrite Hused by done. split; [by left|]. intros [|(c & Hok & E)]; [done|]. rewrite HN in E by done.
      rewrite <-E. apply (tr_used _ _ _ _ _ TR c Hok). rewrite E. by apply HZ.
    + intros blk (Hv & Hoff & _). by apply Hc.
Qed.
Lemma file_grows_calm p s i s' : growing p s i → calm D start nr s s' → file_grows p s i s' i.
Proof.
  intros G (S & ET & EF & EU). pose proof (gw_mounted _ _ _ G) as HM. pose proof (gw_zones _ _ _ G) as Hfz.
  destruct (used_same s s' sb HM) as (Hu & H0 & HB).
  { intros k Hk. apply S. by apply (zmap_block_valid D start nr s sb x k). }
  apply file_grows_same; try done; [apply S|apply S| |intros blk Hv _; by apply S].
  apply (mounted_kept D start nr s); [done|apply S| |done..].
  pose proof (st_rest _ _ _ _ _ S) as HR. unfold rest in HR. congruence.
Qed.
Lemma file_grows_refl p s i : growing p s i → file_grows p s i s i.
Proof. intros G. apply file_grows_calm; [done|]. apply calm_refl, G. Qed.

(** ** One zone more *)

Lemma file_grows_put p s i s' i' c z : growing p s i → idle D start nr s s' → rest s' = rest s →
  file_table s' = file_table s → user s' = user s → inode_table s' = <[Z.to_nat (p - 1) := i']> (inode_table s) →
  same_file i i' → mounted D start nr s' sb x → put_node D start nr x s i s' i' c z →
  file_grows p s i s' i' ∧ node D start s' i' c = z.
Proof.
  intros G HI HR HF HU HT HA HM P. pose proof (mo_shape _ _ _ _ _ _ (gw_mounted _ _ _ G)) as (H0 & Hz & _ & Hfz & Hnz & _).
  unfold zmap_block in Hfz.
  destruct (put_node_grows D start nr x (zones_ok _ _ _ G) s i s' i' c z) as (HT' & HG & HN); [lia|lia|apply (gw_tree _ _ _ G)|done|].
  split; [|done]. split; try done.
  apply (unheld_kept D start nr s); [exact (gw_cache _ _ _ G)|apply HI|unfold rest in HR; congruence|apply HI|exact (gw_unheld _ _ _ G)|].
  intros w Hw. rewrite (pn_used _ _ _ _ _ _ _ _ _ _ P) by done. by intros [_ ?]%orb_false_iff.
Qed.
(** new_block has found nothing. *)
Lemma file_grows_full p s i s' : growing p s i → full D start nr s sb x s' →
  file_grows p s i s' i ∧ no_zone s'.
Proof.
  intros G F. destruct (only_cache_rest s s' (fu_only _ _ _ _ _ _ _ F)) as (HR & HT & HF & HU). split.
  - apply file_grows_same; try done; [split; apply F|apply F|..].
    + intros z Hz. by destruct (fu_used _ _ _ _ _ _ _ F z Hz) as [-> ->].
    + intros blk _ Hoff. by apply F.
  - intros z Hz. by destruct (fu_used _ _ _ _ _ _ _ F z Hz).
Qed.

(** A zone of the inode. *)
Lemma grow_zone p s i k : growing p s i → 0 ≤ k < 9 →
  wp (bmap_zone p k true) (λ r s', ∃ i', file_grows p s i s' i' ∧ r = node D start s' i' (Root k) ∧ (r = 0 → no_zone s')) s.
Proof.
  intros G Hk. pose proof (gw_pointer _ _ _ G) as Hp. pose proof (gw_inode _ _ _ G) as Hi. pose proof (gw_mounted _ _ _ G) as HM.
  pose proof (lookup_lt_Some _ _ _ Hi) as Hlt. pose proof (tr_zones _ _ _ _ _ (gw_tree _ _ _ G)) as Hl.
  unfold bmap_zone. apply wp_bind, (wp_inode p i); [done..|]. simpl andb. destruct (Z.eqb_spec (zone i k) 0) as [E|E].
  2: { apply wp_ret. exists i. split; [by apply file_grows_refl|]. done. }
  rewrite (gw_dev _ _ _ G). apply wp_bind. eapply wp_mono.
  { apply (wp_new_block D start nr s sb x); [exact (gw_cache _ _ _ G)|exact (room_for_one s (gw_room _ _ _ G))|done|exact (gw_unheld _ _ _ G)|exact (gw_zones _ _ _ G)]. }
  assert (∀ k', 0 ≤ k' < 9 → ∀ v, <[Z.to_nat k := v]> (i_zone i) !! Z.to_nat k' = if decide (k' = k) then Some v else i_zone i !! Z.to_nat k') as Hins.
  { intros k' Hk' v. rewrite list_lookup_insert. repeat case_decide; try done; lia. }
  intros z s1 [[Hz A]|[-> F]].
  - destruct (only_cache_rest s s1 (al_only _ _ _ _ _ _ _ _ A)) as (HR & HT & HF & HU).
    pose proof (al_zone _ _ _ _ _ _ _ _ A) as Hdz. destruct (zones_ok _ _ _ G z Hdz) as (_ & Hv & Hoff).
    assert (u16 z = z) as Eu by (apply Z.mod_small; apply Hv). rewrite Eu.
    apply wp_bind, (wp_set_inode p i); [done|by rewrite HT|]. rewrite (proj2 (truth_true z)) by done. unfold when.
    apply wp_bind, wp_bind, wp_CURRENT_TIME. intros now.
    set (i1 := i <| i_zone ::= <[Z.to_nat k := z]> |>). set (s2 := s1 <| inode_table ::= _ |>).
    apply (wp_set_inode p i1); [done|simpl; rewrite HT; by apply list_lookup_insert_eq|]. apply wp_ret.
    set (i2 := i1 <| i_ctime := u64 now |> <| i_dirt := 1 |>). set (s3 := s2 <| inode_table ::= _ |>).
    destruct (same_cache_facts s1 s3) as (HM3 & HU3 & _ & HC3); [by split_and!|exact (al_mounted _ _ _ _ _ _ _ _ A)|].
    destruct (file_grows_put p s i s3 i2 (Root k) z) as [HG HN]; try done.
    + split; [|by apply (users_kept_trans s s1); [exact (al_users _ _ _ _ _ _ _ _ A)|apply users_kept_heads]].
      by apply (cache_ok_ext D start nr s1); [exact (al_cache _ _ _ _ _ _ _ _ A)|..].
    + simpl. by rewrite HT, list_insert_insert_eq.
    + exists (<[Z.to_nat k := z]> (i_zone i)), (u64 now), 1. by destruct i.
    + split; try done; [exact (al_free _ _ _ _ _ _ _ _ A)|simpl; by rewrite length_insert|..].
      * intros k' Hk'. unfold zone. simpl. rewrite Hins by done. repeat case_decide; try done; congruence.
      * intros z' Hz'. rewrite HU3. by apply (al_used _ _ _ _ _ _ _ _ A).
      * rewrite HC3. apply A.
      * intros blk Hvb Hob Hne _. rewrite HC3. by apply (al_others _ _ _ _ _ _ _ _ A).
    + exists i2. split; [done|]. split; [done|]. by intros.
  - destruct (only_cache_rest s s1 (fu_only _ _ _ _ _ _ _ F)) as (HR & HT & HF & HU).
    destruct (file_grows_full p s i s1 G F) as [HG HN]. change (u16 0) with 0. change (truth 0) with false.
    apply wp_bind, (wp_set_inode p i); [done|by rewrite HT|]. apply wp_bind, wp_ret, wp_ret. exists i.
    assert (i <| i_zone ::= <[Z.to_nat k := 0]> |> = i) as ->.
    { assert (<[Z.to_nat k := 0]> (i_zone i) = i_zone i) as E'.
      { apply list_insert_id. unfold zone in E. destruct (lookup_lt_is_Some_2 (i_zone i) (Z.to_nat k)) as [v Hv]; [lia|].
        rewrite Hv in E |- *. simpl in E. congruence. }
      destruct i. simpl in *. by rewrite E'. }
    assert (s1 <| inode_table ::= <[Z.to_nat (p - 1) := i]> |> = s1) as ->.
    { assert (<[Z.to_nat (p - 1) := i]> (inode_table s1) = inode_table s1) as E' by (apply list_insert_id; by rewrite HT).
      destruct s1. simpl in *. by rewrite E'. }
    done.
Qed.

(** An entry of a table: while its buffer is held, a zone is allocated. *)
Lemma growing_taken p s i t q b s1 : growing p s i → table_ok t → table_block D start s i t ≠ 0 →
  taken_block D start nr s (table_block D start s i t) q b s1 →
  cache_ok D start nr s1 ∧ room s1 ∧ mounted D start nr s1 sb x ∧ free_unheld D start s1 x ∧
  ∀ z, data_zone x z → used D start s1 x z = used D start s x z.
Proof.
  intros G Ht Htb T. destruct (tree_table D start x s i t (gw_tree _ _ _ G) Ht Htb) as [Htz Htu].
  destruct (taken_state s _ q b s1 (gw_cache _ _ _ G) (gw_mounted _ _ _ G) (gw_unheld _ _ _ G) (gw_zones _ _ _ G) Htu T) as (? & ? & ?).
  split; [apply T|]. split; [|done].
  exact (taken_room s (table_block D start s i t) q b s1 (gw_cache _ _ _ G) (gw_room _ _ _ G) T).
Qed.

(** The entry is stored and the buffer given back. *)
Lemma wp_put_entry {R} (K : M fs R) (Q : R → fs → Prop) p s i t k q b s1 s2 z :
  growing p s i → table_ok t → 0 ≤ k < 512 → table_block D start s i t ≠ 0 →
  taken_block D start nr s (table_block D start s i t) q b s1 → node D start s i (Ent t k) = 0 →
  allocated D start nr s1 sb x z s2 →
  (∀ s', file_grows p s i s' i → node D start s' i (Ent t k) = z → wp K Q s') →
  wp (set_bh q (λ b, b <| b_data ::= λ d, set_half d k z |>);;
      set_bh q (λ b, b <| b_dirt := 1 |>)) (λ _, wp (brelse q;; K) Q) s2.
Proof.
  intros G Ht Hk Htb T HN0 A HK. set (tb := table_block D start s i t) in *.
  destruct (growing_taken p s i t q b s1 G Ht Htb T) as (HC1 & HR1 & HM1 & HU1 & Hused1).
  pose proof (zones_ok _ _ _ G) as HZ. pose proof (al_zone _ _ _ _ _ _ _ _ A) as Hdz.
  destruct (tree_table D start x s i t (gw_tree _ _ _ G) Ht Htb) as [Htz Htu]. fold tb in Htz, Htu.
  destruct (HZ tb Htz) as (_ & Htv & Htoff). destruct (HZ z Hdz) as (Hz0 & Hzv & Hzoff).
  assert (tb ≠ z) as Htbz.
  { intros E. pose proof (al_free _ _ _ _ _ _ _ _ A) as Hf. rewrite Hused1 in Hf by done. congruence. }
  pose proof (al_cache _ _ _ _ _ _ _ _ A) as HC2.
  destruct (al_users _ _ _ _ _ _ _ _ A q b (tb_head _ _ _ _ _ _ _ _ T)) as (b2 & Hb2 & Ec2 & Hk2).
  pose proof (tb_count _ _ _ _ _ _ _ _ T) as Hcnt. destruct Hk2 as [Hk2 Hu2]; [lia|].
  specialize (Hu2 (tb_uptodate _ _ _ _ _ _ _ _ T)). destruct (tb_key _ _ _ _ _ _ _ _ T) as [Hd Hb]. fold tb in Hb.
  assert (b_dev b2 = D ∧ b_blocknr b2 = tb) as [Hd2 Hbl2] by (unfold key in Hk2; split; congruence).
  assert (content D start s2 tb = content D start s tb) as Hctb.
  { rewrite (al_others _ _ _ _ _ _ _ _ A) by done. by apply T. }
  assert (content D start s tb = Some (b_data b2)) as Hd0.
  { rewrite <-Hctb. by apply (content_cached D start nr s2 tb q b2 (proj2 HC2)). }
  pose proof (hk_data _ _ _ _ _ (do_head _ _ _ _ (proj2 HC2) q b2 Hb2)) as Hlen.
  set (d' := set_half (b_data b2) k z).
  assert (length d' = 1024%nat) as Hlen' by (unfold d', set_half, set_byte; by rewrite !length_insert).
  destruct (store_block D start nr s2 q b2 d' HC2 Hb2 Hd2 Hu2 Hlen') as (HC3 & HO3 & HK3 & Hc3 & Ho3).
  rewrite Hbl2 in Hc3, Ho3.
  apply wp_bind, (wp_set_bh q b2); [done|]. eapply wp_set_bh; [simpl; apply lookup_insert_eq|].
  set (s3 := s2 <| heads := _ |>) in HC3, HO3, HK3, Hc3, Ho3.
  match goal with |- wp ?K ?Q ?t => assert (∀ s', s' = s3 → wp K Q s') as Hgoal;
    [|apply Hgoal; unfold s3, d'; destruct s2; simpl; f_equal; by rewrite insert_insert_eq] end.
  intros ? ->. set (b3 := b2 <| b_data := d' |> <| b_dirt := 1 |>) in *.
  assert (heads s3 !! q = Some b3) as Hb3 by apply lookup_insert_eq.
  apply wp_bind. eapply wp_mono; [apply (wp_brelse D start nr s3 q b3 HC3 Hb3); change (b_count b3) with (b_count b2); lia|].
  intros [] s4 (HC4 & HO4 & Hc4 & Hh4).
  destruct (only_cache_rest s1 s2 (al_only _ _ _ _ _ _ _ _ A)) as (R2 & T2 & F2 & U2).
  destruct (only_cache_rest s2 s3 HO3) as (R3 & T3 & F3 & U3). destruct (only_cache_rest s3 s4 HO4) as (R4 & T4 & F4 & U4).
  destruct (tb_files _ _ _ _ _ _ _ _ T) as (T1 & F1 & U1). pose proof (tb_rest _ _ _ _ _ _ _ _ T) as R1.
  assert (users_kept s s4) as HUK.
  { apply (users_returned s s3 s4 q b3 (b3 <| b_count := b_count b3 - 1 |>)); try done.
    apply (lent_trans D start nr q s s2 s3); [exact (gw_cache _ _ _ G)| |done].
    apply (lent_trans D start nr q s s1 s2); [exact (gw_cache _ _ _ G)|apply held_lent, T|apply A]. }
  assert (∀ blk, valid nr blk → blk ≠ tb → content D start s4 blk = content D start s2 blk) as Hoth.
  { intros blk Hv Hne. by rewrite Hc4, Ho3. }
  destruct (used_same s2 s4 sb (al_mounted _ _ _ _ _ _ _ _ A)) as (Hused4 & H0 & HB).
  { intros k' Hk'. apply Hoth; [apply (zmap_block_valid D start nr s sb x k' (gw_mounted _ _ _ G) Hk' (gw_zones _ _ _ G))|].
    intros E. by apply (Htoff k'). }
  destruct (file_grows_put p s i s4 i (Ent t k) z G) as [HG HN]; [by split|by rewrite R4, R3, R2| | | |apply same_file_refl|..].
  - by rewrite F4, F3, F2.
  - by rewrite U4, U3, U2.
  - rewrite T4, T3, T2, T1, list_insert_id; [done|exact (gw_inode _ _ _ G)].
  - apply (mounted_kept D start nr s); [exact (gw_mounted _ _ _ G)|done| |done..].
    unfold rest in R1, R2, R3, R4. congruence.
  - split; try done; [|exact (tr_zones _ _ _ _ _ (gw_tree _ _ _ G))|..].
    + rewrite <-Hused1 by done. exact (al_free _ _ _ _ _ _ _ _ A).
    + intros z' Hz'. rewrite Hused4, (al_used _ _ _ _ _ _ _ _ A), Hused1; done.
    + rewrite Hoth by done. apply A.
    + intros t' k' [= <- <-]. exists (b_data b2). fold tb. split; [done|]. split; [done|]. by rewrite Hc4.
    + intros blk Hv Hoff Hne Hnt. rewrite Hoth, (al_others _ _ _ _ _ _ _ _ A); try done; [by apply T|]. by apply (Hnt t k).
  - by apply HK.
Qed.

Lemma grow_entry p s i t k : growing p s i → table_ok t → 0 ≤ k < 512 → table_block D start s i t ≠ 0 →
  wp (bmap_indirect D (table_block D start s i t) k true)
    (λ r s', ∃ i', file_grows p s i s' i' ∧ r = node D start s' i' (Ent t k) ∧ (r = 0 → no_zone s')) s.
Proof.
  intros G Ht Hk Htb. pose proof (room_for_one s (gw_room _ _ _ G)) as HR1.
  destruct (tree_table D start x s i t (gw_tree _ _ _ G) Ht Htb) as [Htz _]. destruct (zones_ok _ _ _ G _ Htz) as (_ & Hv & Hoff).
  assert (node D start s i (Ent t k) = entry D start s (table_block D start s i t) k) as HN.
  { simpl. unfold sub. by rewrite (proj2 (Z.eqb_neq _ 0) Htb). }
  destruct (decide (entry D start s (table_block D start s i t) k = 0)) as [E|E].
  2: { eapply wp_mono; [apply (wp_entry D start nr); [exact (gw_cache _ _ _ G)|done|done|done]|].
    intros z s' [-> C]. pose proof (file_grows_calm p s i s' G C) as F. exists i. split; [done|]. split; [|done].
    rewrite (gr_nodes _ _ _ _ _ _ _ _ (fg_grows _ _ _ _ _ F)); [done|by split|by rewrite HN]. }
  unfold bmap_indirect. apply wp_bind, (wp_take_block D start nr); [exact (gw_cache _ _ _ G)|done|done|]. intros q b s1 T.
  rewrite (proj2 (Z.eqb_neq q NULL) (tb_pointer _ _ _ _ _ _ _ _ T)). apply wp_bind, (wp_bh q b _ _ (tb_head _ _ _ _ _ _ _ _ T)).
  assert (half_at (b_data b) k = 0) as ->.
  { rewrite <-E. unfold entry. by rewrite (tb_data _ _ _ _ _ _ _ _ T). }
  change (true && (0 =? 0)) with true. cbv iota.
  destruct (growing_taken p s i t q b s1 G Ht Htb T) as (HC1 & HR & HM1 & HU1 & Hused1).
  apply wp_bind, wp_bind. eapply wp_mono; [by apply (wp_new_block D start nr s1 sb x HC1 HR HM1 HU1), (gw_zones _ _ _ G)|].
  intros z s2 [[Hz A]|[-> F]].
  - rewrite (proj2 (truth_true z)) by done. unfold when. apply wp_bind.
    eapply wp_mono; [apply (wp_put_entry (mret z) (λ r s', ∃ i', file_grows p s i s' i' ∧ r = node D start s' i' (Ent t k) ∧ (r = 0 → no_zone s'))
      p s i t k q b s1 s2 z G Ht Hk Htb T); [by rewrite HN|done|]|].
    + intros s' HG HN'. apply wp_ret. exists i. split; [done|]. split; [done|]. by intros.
    + intros [] s3 H3. apply wp_ret. exact H3.
  - change (truth 0) with false. apply wp_bind, wp_ret, wp_ret. apply wp_bind.
    destruct (fu_users _ _ _ _ _ _ _ F q b (tb_head _ _ _ _ _ _ _ _ T)) as (b2 & Hb2 & Ec2 & _).
    pose proof (tb_count _ _ _ _ _ _ _ _ T) as Hcnt. pose proof (fu_cache _ _ _ _ _ _ _ F) as HC2.
    eapply wp_mono; [apply (wp_brelse D start nr s2 q b2 HC2 Hb2); lia|]. intros [] s3 (HC3 & HO3 & Hc3 & Hh3). apply wp_ret.
    destruct (only_cache_rest s1 s2 (fu_only _ _ _ _ _ _ _ F)) as (R2 & T2 & F2 & U2).
    destruct (only_cache_rest s2 s3 HO3) as (R3 & T3 & F3 & U3).
    destruct (tb_files _ _ _ _ _ _ _ _ T) as (T1 & F1 & U1). pose proof (tb_rest _ _ _ _ _ _ _ _ T) as R1.
    assert (∀ blk, valid nr blk → off_map x blk → content D start s3 blk = content D start s blk) as Hc.
    { intros blk Hv' Hoff'. rewrite Hc3, (fu_others _ _ _ _ _ _ _ F) by done. by apply T. }
    destruct (used_same s2 s3 sb (fu_mounted _ _ _ _ _ _ _ F)) as (Hused3 & H0 & HB).
    { intros k' Hk'. apply Hc3. apply (zmap_block_valid D start nr s sb x k' (gw_mounted _ _ _ G) Hk' (gw_zones _ _ _ G)). }
    assert (users_kept s s3) as HUK.
    { apply (users_returned s s2 s3 q b2 (b2 <| b_count := b_count b2 - 1 |>)); try done.
      apply (lent_trans D start nr q s s1 s2); [exact (gw_cache _ _ _ G)|apply held_lent, T|apply F]. }
    assert (file_grows p s i s3 i) as HG.
    { apply file_grows_same; try done; [congruence..| |].
      - apply (mounted_kept D start nr s); [exact (gw_mounted _ _ _ G)|done|unfold rest in R1, R2, R3; congruence|done..].
      - intros z Hz. rewrite Hused3, <-Hused1 by done. by destruct (fu_used _ _ _ _ _ _ _ F z Hz) as [-> ->]. }
    exists i. split; [done|]. split.
    + symmetry. destruct (decide (node D start s3 i (Ent t k) = 0)) as [|Hne]; [done|]. exfalso.
      assert (used D start s x (node D start s3 i (Ent t k)) = false) as Hf.
      { apply (gr_new _ _ _ _ _ _ _ _ (fg_grows _ _ _ _ _ HG)); [by split|by rewrite HN|done]. }
      destruct (tr_used _ _ _ _ _ (fg_tree _ _ _ _ _ HG) (Ent t k)) as [Hz _]; [by split|done|].
      rewrite <-Hused1 in Hf by done. by destruct (fu_used _ _ _ _ _ _ _ F _ Hz) as [Ht' _]; rewrite Ht' in Hf.
    + intros _ z Hz. rewrite Hused3 by done. by destruct (fu_used _ _ _ _ _ _ _ F z Hz).
Qed.

(** create_block: the missing nodes on the way to a block, as far as there are
    zones. *)
Definition gets_block p s i n (r : Z) s' : Prop :=
  ∃ i', file_grows p s i s' i' ∧ r = node D start s' i' (slot_for n) ∧ (r = 0 → no_zone s').
Lemma gets_block_after p s i s1 i1 n r s' : growing p s i → file_grows p s i s1 i1 → gets_block p s1 i1 n r s' → gets_block p s i n r s'.
Proof.
  intros G F1 (i' & F2 & H). exists i'. split; [|done]. by apply (file_grows_trans p s i s1 i1).
Qed.
Lemma grow_block p s i n : growing p s i → 0 ≤ n < max_blocks → wp (create_block p n) (gets_block p s i n) s.
Proof.
  intros G Hn. unfold create_block, _bmap. unfold max_blocks in Hn.
  rewrite (proj2 (Z.ltb_ge n 0)), (proj2 (Z.leb_gt _ n)) by lia. unfold gets_block, slot_for. rewrite land511, shiftr9.
  destruct (Z.ltb_spec n 7) as [H7|H7]; [apply grow_zone; [done|lia]|].
  destruct (Z.ltb_spec (n - 7) 512) as [H5|H5].
  - apply wp_bind. eapply wp_mono; [apply (grow_zone p s i 7 G); lia|]. intros z s1 (i1 & F1 & -> & Hfull). simpl.
    destruct (Z.eqb_spec (zone i1 7) 0) as [E|E].
    { apply wp_ret. exists i1. split; [done|]. split; [simpl; unfold sub; by rewrite E|auto]. }
    pose proof (growing_kept p s i s1 i1 G F1) as G1.
    apply wp_bind, (wp_inode p i1); [exact (gw_pointer _ _ _ G1)|exact (gw_inode _ _ _ G1)|]. rewrite (gw_dev _ _ _ G1).
    eapply wp_mono; [apply (grow_entry p s1 i1 Ind (n - 7) G1); [done|lia|done]|].
    intros r s2 (i2 & F2 & H). exists i2. split; [by apply (file_grows_trans p s i s1 i1)|done].
  - apply wp_bind. eapply wp_mono; [apply (grow_zone p s i 8 G); lia|]. intros z s1 (i1 & F1 & -> & Hfull). simpl.
    destruct (Z.eqb_spec (zone i1 8) 0) as [E|E].
    { apply wp_ret. exists i1. split; [done|]. split; [simpl; unfold sub; by rewrite E|auto]. }
    pose proof (growing_kept p s i s1 i1 G F1) as G1. set (k := (n - 7 - 512) / 512).
    assert (0 ≤ k < 512) as Hk by (unfold k; dlia).
    apply wp_bind, (wp_inode p i1); [exact (gw_pointer _ _ _ G1)|exact (gw_inode _ _ _ G1)|]. rewrite (gw_dev _ _ _ G1).
    apply wp_bind. eapply wp_mono; [apply (grow_entry p s1 i1 Dind k G1); done|]. intros m s2 (i2 & F2 & -> & Hfull2).
    pose proof (file_grows_trans p s i s1 i1 s2 i2 G F1 F2) as F12. pose proof (growing_kept p s1 i1 s2 i2 G1 F2) as G2.
    destruct (Z.eqb_spec (node D start s2 i2 (Ent Dind k)) 0) as [E2|E2].
    { apply wp_ret. exists i2. split; [done|]. split; [simpl in *; by rewrite E2|auto]. }
    eapply wp_mono; [apply (grow_entry p s2 i2 (Sub k) ((n - 7 - 512) mod 512) G2); [done|dlia|done]|].
    intros r s3 (i3 & F3 & H). exists i3. split; [by apply (file_grows_trans p s i s2 i2)|done].
Qed.

(** ** A file with a tree has blocks of its own *)

Lemma node_zones s i i' c : i_zone i' = i_zone i → node D start s i' c = node D start s i c.
Proof. intros E. destruct c as [k|[| |a] k]; simpl; unfold zone; by rewrite E. Qed.
Lemma tree_zones s i i' : i_zone i' = i_zone i → tree D start x s i → tree D start x s i'.
Proof.
  intros E [H1 H2 H3]. split; [by rewrite E|..].
  - intros c. rewrite (node_zones s i i') by done. apply H2.
  - intros c c'. rewrite !(node_zones s i i') by done. apply H3.
Qed.
Definition max_size : Z := 1024 * max_blocks.
Lemma tree_own_blocks p s i : growing p s i → own_blocks D start nr s i max_size.
Proof.
  intros G. pose proof (gw_tree _ _ _ G) as TR. pose proof (zones_ok _ _ _ G) as HZ.
  assert (∀ c, slot_ok c → in_partition nr (node D start s i c)) as Hin.
  { intros c Hc. destruct (decide (node D start s i c = 0)) as [|Hne]; [by left|right].
    destruct (tr_used _ _ _ _ _ TR c Hc Hne) as [Hz _]. by apply HZ. }
  assert (∀ n, 0 ≤ n → 1024 * n < max_size → 0 ≤ n < max_blocks) as Hmax by (unfold max_size; lia).
  split; [split; [unfold max_size; lia|]|split; [apply (Hin (Root 7))|apply (Hin (Root 8))]; simpl; lia|..].
  - intros n Hn Hlt. destruct (slot_for_ok n (Hmax n Hn Hlt)) as [Hok _]. split; [rewrite zone_of_slot; auto|].
    intros H7. specialize (Hmax n Hn Hlt). unfold max_blocks in Hmax.
    destruct (Z.ltb_spec (n - 7) 512); [apply (Hin (Root 7)); simpl; lia|].
    split; [apply (Hin (Root 8)); simpl; lia|]. intros H8. rewrite shiftr9.
    specialize (Hin (Ent Dind ((n - 7 - 512) / 512))). simpl in Hin. unfold sub in Hin.
    rewrite (proj2 (Z.eqb_neq _ 0) H8) in Hin. apply Hin. split; [done|dlia].
  - intros n n' Hn Hlt Hn' Hlt'. rewrite !zone_of_slot. intros Hne E. apply slot_for_inj; [done|done|].
    apply (tr_inj _ _ _ _ _ TR (slot_for n) (slot_for n')); try done; by apply slot_for_ok, Hmax.
  - intros n Hn Hlt. rewrite zone_of_slot. destruct (slot_for_ok n (Hmax n Hn Hlt)) as [Hok Hleaf]. intros Hne HT.
    assert (∀ t, table_ok t → node D start s i (slot_for n) ≠ table_block D start s i t) as Hno.
    { intros t Ht E. apply (Hleaf t Ht). apply (tr_inj _ _ _ _ _ TR (slot_for n)); [done|by apply slot_of_ok|done|].
      by rewrite node_slot_of. }
    destruct HT as [E|[E|(H8 & k & Hk & E)]]; [by apply (Hno Ind)|by apply (Hno Dind)|].
    destruct (decide (k < 512)) as [Hk5|Hk5].
    + apply (Hno (Sub k)); [done|]. simpl. unfold sub. by rewrite (proj2 (Z.eqb_neq _ 0) H8).
    + apply Hne. rewrite E. unfold entry. destruct (tree_table D start x s i Dind TR I H8) as [Hz _].
      destruct (HZ _ Hz) as (_ & Hv & _). destruct (content_length D start nr s _ (gw_cache _ _ _ G) Hv) as (d & Hd & Hl).
      simpl in Hd. rewrite Hd. simpl. unfold half_at, byte_at. rewrite !lookup_ge_None_2 by lia. done.
Qed.

(** ** The loop of file_write *)

(** The inode but for its zones, its size and its times. *)
Definition same_attrs i i' : Prop := ∃ zs sz mt ct dt,
  i' = i <| i_zone := zs |> <| i_size := sz |> <| i_mtime := mt |> <| i_ctime := ct |> <| i_dirt := dt |>.
Lemma same_attrs_trans i1 i2 i3 : same_attrs i1 i2 → same_attrs i2 i3 → same_attrs i1 i3.
Proof. intros (? & ? & ? & ? & ? & ->) (zs & sz & mt & ct & dt & ->). exists zs, sz, mt, ct, dt. by destruct i1. Qed.
Lemma same_file_attrs i i' : same_file i i' → same_attrs i i' ∧ i_size i' = i_size i.
Proof. intros (zs & ct & dt & ->). split; [|done]. exists zs, (i_size i), (i_mtime i), ct, dt. by destruct i. Qed.

(** [w] bytes from [a] on have become the bytes of the file at [pos], on the
    blocks that it has and on new ones; everything else is as it was. *)
Record written (p : Z) s i (pos w a : Z) s' i' : Prop := Written {
  ws_idle : idle D start nr s s';
  ws_rest : rest s' = rest s;
  ws_user : user s' = user s;
  ws_inode : inode_table s' = <[Z.to_nat (p - 1) := i']> (inode_table s);
  ws_attrs : same_attrs i i';
  ws_size : i_size i' = if w =? 0 then i_size i else Z.max (i_size i) (pos + w);
  ws_mounted : mounted D start nr s' sb x;
  ws_unheld : free_unheld D start s' x;
  ws_tree : tree D start x s' i';
  ws_nodes : ∀ c, slot_ok c → node D start s i c ≠ 0 → node D start s' i' c = node D start s i c;
  ws_new : ∀ c, slot_ok c → node D start s i c = 0 → node D start s' i' c ≠ 0 →
    used D start s x (node D start s' i' c) = false;
  ws_used : ∀ z, data_zone x z →
    used D start s' x z = true ↔ used D start s x z = true ∨ ∃ c, slot_ok c ∧ node D start s' i' c = z;
  ws_bytes : ∀ y, 0 ≤ y < max_size → file_byte D start s' i' y =
    if decide (pos ≤ y < pos + w) then user_byte s (a + (y - pos)) else file_byte D start s i y;
  ws_others : ∀ blk, valid nr blk → off_map x blk → (data_zone x blk → used D start s x blk = true) →
    (∀ c, slot_ok c → node D start s i c ≠ 0 → blk ≠ node D start s i c) →
    content D start s' blk = content D start s blk
}.
Lemma growing_written p s i pos w a s' i' : growing p s i → written p s i pos w a s' i' → growing p s' i'.
Proof.
  intros G W. pose proof (ws_idle _ _ _ _ _ _ _ _ W) as HI. split.
  - by destruct HI.
  - exact (two_kept s s' (gw_cache _ _ _ G) HI (ws_rest _ _ _ _ _ _ _ _ W) (gw_room _ _ _ G)).
  - exact (ws_mounted _ _ _ _ _ _ _ _ W).
  - exact (ws_unheld _ _ _ _ _ _ _ _ W).
  - exact (gw_zones _ _ _ G).
  - exact (gw_pointer _ _ _ G).
  - rewrite (ws_inode _ _ _ _ _ _ _ _ W). apply list_lookup_insert_eq. apply (lookup_lt_Some _ _ _ (gw_inode _ _ _ G)).
  - destruct (ws_attrs _ _ _ _ _ _ _ _ W) as (? & ? & ? & ? & ? & ->). exact (gw_dev _ _ _ G).
  - exact (ws_tree _ _ _ _ _ _ _ _ W).
Qed.
Lemma written_grows p s i pos a s' i' : growing p s i → file_grows p s i s' i' → written p s i pos 0 a s' i'.
Proof.
  intros G F. pose proof (fg_grows _ _ _ _ _ F) as HG. destruct (same_file_attrs i i' (fg_attr _ _ _ _ _ F)) as [HA HS].
  split; [exact (fg_idle _ _ _ _ _ F)|exact (fg_rest _ _ _ _ _ F)|by destruct (fg_files _ _ _ _ _ F)|
    exact (fg_inode _ _ _ _ _ F)|done|done|exact (fg_mounted _ _ _ _ _ F)|exact (fg_unheld _ _ _ _ _ F)|
    exact (fg_tree _ _ _ _ _ F)|exact (gr_nodes _ _ _ _ _ _ _ _ HG)|exact (gr_new _ _ _ _ _ _ _ _ HG)|
    exact (gr_used _ _ _ _ _ _ _ _ HG)|..].
  - intros y Hy. rewrite decide_False by lia. unfold file_byte.
    rewrite (grows_file_block D start nr x (zones_ok _ _ _ G) s i s' i'); [done|exact (gw_tree _ _ _ G)|done|].
    unfold max_size in Hy. dlia.
  - intros blk Hv Hoff Hu Hn. apply (gr_outside _ _ _ _ _ _ _ _ HG). split; [done|]. split; [done|]. split; [done|].
    intros t Ht. rewrite <-node_slot_of. apply Hn. by apply slot_of_ok.
Qed.
Lemma written_trans p s1 i1 s2 i2 s3 i3 pos c w a : growing p s1 i1 → 0 ≤ c → 0 ≤ w → 0 ≤ pos →
  written p s1 i1 pos c a s2 i2 → written p s2 i2 (pos + c) w (a + c) s3 i3 → written p s1 i1 pos (c + w) a s3 i3.
Proof.
  intros G Hc Hw Hpos W1 W2. pose proof (growing_written _ _ _ _ _ _ _ _ G W1) as G2.
  pose proof (zones_ok _ _ _ G) as HZ. pose proof (ws_tree _ _ _ _ _ _ _ _ W2) as TR3. pose proof (ws_tree _ _ _ _ _ _ _ _ W1) as TR2.
  pose proof (ws_nodes _ _ _ _ _ _ _ _ W2) as HN.
  destruct (ws_idle _ _ _ _ _ _ _ _ W1) as [_ K1], (ws_idle _ _ _ _ _ _ _ _ W2) as [C2 K2].
  split; [split; [done|by apply (users_kept_trans s1 s2)]| | | | | |exact (ws_mounted _ _ _ _ _ _ _ _ W2)|
    exact (ws_unheld _ _ _ _ _ _ _ _ W2)|exact TR3|..].
  - by rewrite (ws_rest _ _ _ _ _ _ _ _ W2), (ws_rest _ _ _ _ _ _ _ _ W1).
  - by rewrite (ws_user _ _ _ _ _ _ _ _ W2), (ws_user _ _ _ _ _ _ _ _ W1).
  - by rewrite (ws_inode _ _ _ _ _ _ _ _ W2), (ws_inode _ _ _ _ _ _ _ _ W1), list_insert_insert_eq.
  - exact (same_attrs_trans _ _ _ (ws_attrs _ _ _ _ _ _ _ _ W1) (ws_attrs _ _ _ _ _ _ _ _ W2)).
  - rewrite (ws_size _ _ _ _ _ _ _ _ W2), (ws_size _ _ _ _ _ _ _ _ W1).
    destruct (Z.eqb_spec c 0), (Z.eqb_spec w 0), (Z.eqb_spec (c + w) 0); lia.
  - intros d Hd Hne. pose proof (ws_nodes _ _ _ _ _ _ _ _ W1 d Hd Hne) as E. rewrite <-E in Hne |- *. by apply HN.
  - intros d Hd E1 Hne. destruct (decide (node D start s2 i2 d = 0)) as [E2|E2].
    + pose proof (ws_new _ _ _ _ _ _ _ _ W2 d Hd E2 Hne) as Hf. destruct (tr_used _ _ _ _ _ TR3 d Hd Hne) as [Hz _].
      apply not_true_is_false. intros Ht. assert (used D start s2 x (node D start s3 i3 d) = true) as Ht2; [|congruence].
      apply (ws_used _ _ _ _ _ _ _ _ W1); auto.
    + rewrite HN by done. by apply (ws_new _ _ _ _ _ _ _ _ W1).
  - intros z Hz. rewrite (ws_used _ _ _ _ _ _ _ _ W2), (ws_used _ _ _ _ _ _ _ _ W1) by done. split; [|by intros [|]; [left; left|right]].
    intros [[|(d & Hd & E)]|]; [by left| |by right]. right. exists d. split; [done|]. rewrite HN; [done..|].
    rewrite E. by apply HZ.
  - intros y Hy. rewrite (ws_bytes _ _ _ _ _ _ _ _ W2), (ws_bytes _ _ _ _ _ _ _ _ W1) by done.
    unfold user_byte. rewrite (ws_user _ _ _ _ _ _ _ _ W1). repeat case_decide; try lia; try done. do 3 f_equal. lia.
  - intros blk Hv Hoff Hu Hn. rewrite (ws_others _ _ _ _ _ _ _ _ W2), (ws_others _ _ _ _ _ _ _ _ W1); try done.
    + intros Hz. apply (ws_used _ _ _ _ _ _ _ _ W1); auto.
    + intros d Hd Hne ->. destruct (tr_used _ _ _ _ _ TR2 d Hd Hne) as [Hz _]. destruct (decide (node D start s1 i1 d = 0)) as [E|E].
      * pose proof (ws_new _ _ _ _ _ _ _ _ W1 d Hd E Hne) as Hf. by rewrite (Hu Hz) in Hf.
      * apply (Hn d Hd E). by apply (ws_nodes _ _ _ _ _ _ _ _ W1).
Qed.

(** The store into one block that the file has. *)
Lemma written_stored p s i n pos c a s' : growing p s i → 0 ≤ i_size i → 0 ≤ pos → 1 ≤ c → pos + c ≤ max_size → n = pos / 1024 →
  pos + c ≤ 1024 * (n + 1) → node D start s i (slot_for n) ≠ 0 → stored D start nr s p i max_size pos c a s' → written p s i pos c a s' (grown i pos c).
Proof.
  intros G Hsize Hpos Hc Hmax Hn Hone Hne0 W. pose proof (gw_tree _ _ _ G) as TR. pose proof (zones_ok _ _ _ G) as HZ.
  pose proof (gw_mounted _ _ _ G) as HM. destruct (grown_zone i pos c) as [Egz _].
  pose proof (so_idle _ _ _ _ _ _ _ _ _ _ _ W) as [HC HK]. pose proof (so_rest _ _ _ _ _ _ _ _ _ _ _ W) as HR.
  assert (0 ≤ n < max_blocks) as Hnr by (unfold max_size in Hmax; dlia). destruct (slot_for_ok n Hnr) as [Hok Hleaf].
  assert (∀ blk, valid nr blk → blk ≠ node D start s i (slot_for n) → content D start s' blk = content D start s blk) as Hsame.
  { intros blk Hv Hno. apply (so_others _ _ _ _ _ _ _ _ _ _ _ W); [done|]. intros k Hk. rewrite zone_of_slot.
    assert (k = n) as -> by dlia. done. }
  assert (∀ c, slot_ok c → node D start s i c ≠ 0 → ∀ k, 0 ≤ k < s_zmap_blocks x → zmap_block x k ≠ node D start s i c) as Hmap.
  { intros d Hd Hne k Hk E. destruct (tr_used _ _ _ _ _ TR d Hd Hne) as [Hz _]. destruct (HZ _ Hz) as (_ & _ & Hoff). by apply (Hoff k). }
  destruct (used_same s s' sb HM) as (Hused & H0 & HB).
  { intros k Hk. destruct (zmap_block_valid D start nr s sb x k HM Hk (gw_zones _ _ _ G)) as [Hv _].
    apply Hsame; [done|]. by apply Hmap. }
  assert (∀ d, slot_ok d → node D start s' i d = node D start s i d) as HN.
  { apply node_same. intros t Ht Hne. destruct (tree_table D start x s i t TR Ht Hne) as [Hz _]. apply Hsame; [by apply HZ|].
    intros E. apply (Hleaf t Ht). apply (tr_inj _ _ _ _ _ TR (slot_for n)); [done|by apply slot_of_ok|done|]. by rewrite node_slot_of. }
  assert (∀ d, slot_ok d → node D start s' (grown i pos c) d = node D start s i d) as HN'.
  { intros d Hd. rewrite (node_zones s' i) by done. auto. }
  split; try done.
  - by destruct (so_files _ _ _ _ _ _ _ _ _ _ _ W).
  - exact (so_inode _ _ _ _ _ _ _ _ _ _ _ W).
  - unfold grown. destruct (i_size i <? pos + c).
    + exists (i_zone i), (pos + c), (i_mtime i), (i_ctime i), 1. by destruct i.
    + exists (i_zone i), (i_size i), (i_mtime i), (i_ctime i), (i_dirt i). by destruct i.
  - rewrite (proj2 (Z.eqb_neq c 0)) by lia. unfold grown. destruct (Z.ltb_spec (i_size i) (pos + c)); simpl; lia.
  - apply (mounted_kept D start nr s); [done|done|unfold rest in HR; congruence|done..].
  - apply (unheld_kept D start nr s); [exact (gw_cache _ _ _ G)|done|unfold rest in HR; congruence|done|exact (gw_unheld _ _ _ G)|].
    intros z Hz. by rewrite Hused.
  - apply (tree_zones s' i); [done|]. split; [apply TR|..].
    + intros d Hd. rewrite HN by done. intros Hne. destruct (tr_used _ _ _ _ _ TR d Hd Hne). by rewrite Hused.
    + intros d d' Hd Hd'. rewrite !HN by done. by apply (tr_inj _ _ _ _ _ TR).
  - intros d Hd _. by apply HN'.
  - intros d Hd. by rewrite HN' by done.
  - intros z Hz. rewrite Hused by done. split; [by left|]. intros [|(d & Hd & E)]; [done|]. rewrite HN' in E by done.
    rewrite <-E. apply (tr_used _ _ _ _ _ TR d Hd). rewrite E. by apply HZ.
  - intros y Hy. rewrite file_byte_grown. by apply (so_bytes _ _ _ _ _ _ _ _ _ _ _ W).
  - intros blk Hv Hoff Hu Hno. apply Hsame; [done|]. by apply Hno.
Qed.

(** As many bytes as there are zones for. *)
Definition grows_by p s i pos n a (r : Z * Z) (k0 : Z) s' : Prop := ∃ w i', 0 ≤ w ≤ n ∧ r = (pos + w, k0 + w) ∧
  (w < n → no_zone s') ∧ written p s i pos w a s' i' ∧ file_table s' = file_table s.
Lemma wp_grow_loop p count buf fuel : ∀ s pos k0 i, growing p s i → 0 ≤ i_size i → 0 ≤ pos →
  0 ≤ count - k0 ≤ Z.of_nat fuel → pos + (count - k0) ≤ max_size →
  wp (file_write_loop fuel p buf count pos k0) (λ r s', grows_by p s i pos (count - k0) (buf + k0) r k0 s') s.
Proof.
  assert (∀ s i pos n a k0 s' i', growing p s i → file_grows p s i s' i' → 0 ≤ n → (0 < n → no_zone s') →
    grows_by p s i pos n a (pos, k0) k0 s') as Hstop.
  { intros s i pos n a k0 s' i' G F Hn Hno. exists 0, i'. split; [lia|]. split; [f_equal; lia|]. split; [done|].
    split; [by apply written_grows|]. by destruct (fg_files _ _ _ _ _ F). }
  induction fuel as [|fuel IH]; intros s pos k0 i G Hsize Hpos Hfuel Hmax;
    cbn [file_write_loop]; destruct (Z.leb_spec count k0) as [Hle|Hlt]; try lia.
  1,2: apply wp_ret; apply (Hstop s i pos _ _ k0 s i G); [by apply file_grows_refl|lia|lia].
  assert (pos + (count - k0) < 2 ^ 31) as H31 by (unfold max_size, max_blocks in *; lia).
  unfold BLOCK_SIZE. rewrite Z.quot_div_nonneg, Z.rem_mod_nonneg by lia. rewrite s32_small by dlia.
  set (n := pos / 1024). set (o := pos mod 1024). assert (pos = 1024 * n + o) as Hno by (unfold n, o; dlia).
  assert (0 ≤ o < 1024) as Ho by (apply Z.mod_pos_bound; lia).
  assert (0 ≤ n < max_blocks) as Hn by (unfold n, max_size in *; dlia). destruct (slot_for_ok n Hn) as [Hok Hleaf].
  apply wp_bind. eapply wp_mono; [by apply (grow_block p s i n)|]. intros z s1 (i1 & F & -> & Hfull).
  set (z := node D start s1 i1 (slot_for n)) in *. destruct (Z.eqb_spec z 0) as [Hz|Hz].
  { apply wp_ret. apply (Hstop s i pos _ _ k0 s1 i1 G F); [lia|auto]. }
  pose proof (growing_kept p s i s1 i1 G F) as G1. destruct (same_file_attrs i i1 (fg_attr _ _ _ _ _ F)) as [_ Es1].
  pose proof (gw_pointer _ _ _ G1) as Hp. pose proof (gw_inode _ _ _ G1) as Hi1.
  apply wp_bind, (wp_inode p i1); [done..|]. rewrite (gw_dev _ _ _ G1).
  destruct (tr_used _ _ _ _ _ (gw_tree _ _ _ G1) (slot_for n) Hok Hz) as [Hdz _]. destruct (zones_ok _ _ _ G1 _ Hdz) as (_ & Hv & _).
  apply wp_bind, (wp_take_block D start nr); [exact (gw_cache _ _ _ G1)|done|exact (room_for_one _ (gw_room _ _ _ G1))|].
  intros q b s2 T. rewrite (proj2 (Z.eqb_neq q NULL) (tb_pointer _ _ _ _ _ _ _ _ T)).
  replace (if count - k0 <? 1024 - o then count - k0 else 1024 - o) with (Z.min (count - k0) (1024 - o))
    by (destruct (Z.ltb_spec (count - k0) (1024 - o)); lia).
  set (c := Z.min (count - k0) (1024 - o)). rewrite (s64_small (pos + c)) by lia. rewrite Es1.
  assert (0 ≤ i_size i1) as Hsize1 by lia. rewrite <-Es1.
  apply (wp_store_block D start nr _ _ s1 s2 p i1 max_size n o c pos (buf + k0) z q b); try done; try lia.
  { by rewrite (proj1 (tb_files _ _ _ _ _ _ _ _ T)). }
  { by apply (tree_own_blocks p). }
  { symmetry. apply zone_of_slot. }
  intros s3 W1. pose proof (so_files _ _ _ _ _ _ _ _ _ _ _ W1) as [Ef3 _].
  assert (written p s1 i1 pos c (buf + k0) s3 (grown i1 pos c)) as W.
  { apply (written_stored p s1 i1 n pos c); try done; lia. }
  clear W1. pose proof (growing_written _ _ _ _ _ _ _ _ G1 W) as G3.
  eapply wp_mono; [apply (IH s3 (pos + c) (k0 + c) (grown i1 pos c) G3); try lia|].
  { rewrite (ws_size _ _ _ _ _ _ _ _ W). case_match; lia. }
  intros r s4 (w & i4 & Hw & -> & Hfull4 & W4 & Ef4).
  exists (c + w), i4. split; [lia|]. split; [f_equal; lia|]. split; [intros; apply Hfull4; lia|]. split.
  - apply (written_trans p s i s1 i1 s4 i4 pos 0 (c + w)); [done|lia|lia|lia|by apply written_grows|].
    rewrite !Z.add_0_r. apply (written_trans p s1 i1 s3 (grown i1 pos c) s4 i4 pos c w); [done|lia|lia|lia|done|].
    by replace (buf + k0 + c) with (buf + (k0 + c)) by lia.
  - rewrite Ef4, Ef3. by destruct (fg_files _ _ _ _ _ F) as [<- _].
Qed.

(** ** file_write *)

Lemma written_then p s i pos w a s1 i1 s2 i2 : written p s i pos w a s1 i1 → same_cache s1 s2 →
  inode_table s2 = <[Z.to_nat (p - 1) := i2]> (inode_table s) → user s2 = user s →
  i_zone i2 = i_zone i1 → i_size i2 = i_size i1 → same_attrs i1 i2 → written p s i pos w a s2 i2.
Proof.
  intros W Hsame Ei Eu Ez Es HA. destruct (same_cache_facts s1 s2 Hsame (ws_mounted _ _ _ _ _ _ _ _ W)) as (HM2 & HU2 & HF2 & HC2).
  destruct (ws_idle _ _ _ _ _ _ _ _ W) as [HC1 HK1].
  destruct (steady_ext D start nr s1 s2 HC1 Hsame) as [[HCC HKK] _ HR2].
  assert (∀ c, slot_ok c → node D start s2 i2 c = node D start s1 i1 c) as HN.
  { intros c Hc. rewrite (node_zones s2 i1 i2) by done. by apply node_same. }
  split.
  - split; [done|by apply (users_kept_trans s s1)].
  - by rewrite HR2, (ws_rest _ _ _ _ _ _ _ _ W).
  - done.
  - done.
  - exact (same_attrs_trans _ _ _ (ws_attrs _ _ _ _ _ _ _ _ W) HA).
  - rewrite Es. apply W.
  - done.
  - exact (HF2 (ws_unheld _ _ _ _ _ _ _ _ W)).
  - pose proof (ws_tree _ _ _ _ _ _ _ _ W) as [H1 H2 H3]. split; [by rewrite Ez|..].
    + intros c Hc. rewrite HN, HU2 by done. by apply H2.
    + intros c c' Hc Hc'. rewrite !HN by done. by apply H3.
  - intros c Hc Hne. rewrite HN by done. by apply W.
  - intros c Hc. rewrite HN by done. by apply W.
  - intros z Hz. rewrite HU2, (ws_used _ _ _ _ _ _ _ _ W) by done.
    split; intros [|(c & Hc & E)]; [by left| |by left|]; right; exists c; (split; [done|]); by rewrite <-E, HN.
  - intros y Hy. rewrite <-(ws_bytes _ _ _ _ _ _ _ _ W y Hy). unfold file_byte, file_block, zone_of, zone, entry.
    by rewrite Ez, !HC2.
  - intros blk Hv Hoff Hu Hno. rewrite HC2. by apply (ws_others _ _ _ _ _ _ _ _ W).
Qed.

(** What a write of up to [n] bytes at [pos] does: [w] of them are written, all
    unless the partition is full. *)
Definition has_grown s fp f p i pos n a (r : Z) s' : Prop := ∃ w i', 0 ≤ w ≤ n ∧ r = (if w =? 0 then -1 else w) ∧
  (w < n → no_zone s') ∧ written p s i pos w a s' i' ∧
  file_table s' = <[Z.to_nat (fp - 1) := after_write f i w]> (file_table s).
Lemma wp_file_write_grows p i fp f s buf n : growing p s i → 0 ≤ i_size i →
  1 ≤ fp → file_table s !! Z.to_nat (fp - 1) = Some f → 0 ≤ f_pos f → 0 < n → write_pos f i + n ≤ max_size →
  wp (file_write p fp buf n) (has_grown s fp f p i (write_pos f i) n buf) s.
Proof.
  intros G Hsize Hfp Hf Hpos Hn Hmax. pose proof (gw_pointer _ _ _ G) as Hp. pose proof (gw_inode _ _ _ G) as Hi.
  pose proof (lookup_lt_Some _ _ _ Hi) as Hlt.
  unfold file_write. apply wp_bind, (wp_filp fp f); [done..|]. apply wp_bind, (wp_inode p i); [done..|]. cbv zeta.
  fold (appends f). assert (0 ≤ write_pos f i) as Hpos' by (unfold write_pos; by destruct (appends f)).
  replace (if appends f then s64 (i_size i) else f_pos f) with (write_pos f i).
  2: { unfold write_pos in *. destruct (appends f); [|done]. symmetry. apply s64_small. unfold max_size, max_blocks in *. lia. }
  set (pos := write_pos f i) in *. apply wp_bind. eapply wp_mono.
  { apply (wp_grow_loop p n buf (Z.to_nat n) s pos 0 i); try (done || lia). }
  intros r s1 (w & i1 & Hw & -> & Hfull & W & Ef). rewrite Z.sub_0_r, Z.add_0_r in *. cbn [fst snd]. change (0 + w) with w.
  pose proof (ws_inode _ _ _ _ _ _ _ _ W) as Ei. pose proof (ws_user _ _ _ _ _ _ _ _ W) as Eu.
  apply wp_bind, wp_CURRENT_TIME. intros now.
  assert (inode_table s1 !! Z.to_nat (p - 1) = Some i1) as Hg by (rewrite Ei; apply list_lookup_insert_eq; lia).
  apply wp_bind, (wp_set_inode p i1); [done..|]. set (s2 := s1 <| inode_table ::= _ |>).
  set (i2 := i1 <| i_mtime := u64 now |>).
  assert (∀ s3, same_cache s1 s3 → no_zone s1 → no_zone s3) as Hnz.
  { intros s3 Hs H z Hz. destruct (same_cache_facts s1 s3 Hs (ws_mounted _ _ _ _ _ _ _ _ W)) as (_ & -> & _). by apply H. }
  assert ((if truth w then w else -1) = if w =? 0 then -1 else w) as -> by (unfold truth; by destruct (w =? 0)).
  apply wp_bind. unfold after_write, has_grown. destruct (appends f) eqn:Happ; simpl negb.
  - apply wp_ret, wp_ret. exists w, i2. assert (same_cache s1 s2) as Hsame by done.
    split; [done|]. split; [done|]. split; [intros Hwn; exact (Hnz s2 Hsame (Hfull Hwn))|].
    split; [|simpl; rewrite Ef; unfold after_write; rewrite Happ, list_insert_id; done].
    apply (written_then p s i pos w buf s1 i1); try done; [simpl; by rewrite Ei, list_insert_insert_eq|].
    exists (i_zone i1), (i_size i1), (u64 now), (i_ctime i1), (i_dirt i1). by destruct i1.
  - unfold when. apply wp_bind, (wp_set_filp fp f); [done|simpl; by rewrite Ef|].
    apply (wp_set_inode p i2); [done|simpl; by apply list_lookup_insert_eq; rewrite Ei, length_insert|]. apply wp_ret.
    set (s3 := _ <| inode_table ::= _ |>). exists w, (i2 <| i_ctime := u64 now |>).
    assert (same_cache s1 s3) as Hsame by done. split; [done|]. split; [done|].
    split; [intros Hwn; exact (Hnz s3 Hsame (Hfull Hwn))|]. split.
    + apply (written_then p s i pos w buf s1 i1); try done; [simpl; by rewrite Ei, !list_insert_insert_eq|].
      exists (i_zone i1), (i_size i1), (u64 now), (u64 now), (i_dirt i1). by destruct i1.
    + simpl. rewrite Ef. f_equal. unfold after_write. rewrite Happ. unfold pos, write_pos. by rewrite Happ.
Qed.
End Grow.

(** C2: write makes a regular file longer and fills its holes.  On a mounted
    partition whose free zones no task holds, a file whose zones and tables are
    used zones, no two the same, gets [w] of the [n] bytes at the position (at its
    end, with O_APPEND): all of them, or else every zone of the partition is used
    afterwards (-1 if there was not even one).  The bytes of the file are those of
    the task there and as before elsewhere, zeroes where there was a hole; the
    zones and tables it had stay, those it got were free, and no other zone is
    taken; the blocks of all other files, of the inodes and of everything else
    outside of the bitmap are as they were, and so are the other inodes and files;
    the size becomes the end of what was written if that is further; the file and
    the partition are again as the theorem asks. *)
Theorem sys_write_grows_file D start nr sb x fuel fd fp f p i buf n s :
  growing D start nr sb x p s i → opened D s fd fp f p i → S_ISREG (i_mode i) = true →
  0 < n → write_pos f i + n ≤ max_size →
  wp (sys_write fuel fd buf n) (has_grown D start nr sb x s fp f p i (write_pos f i) n buf) s.
Proof.
  intros G O Hmode Hn Hmax. destruct (op_p _ _ _ _ _ _ _ O) as [Hfi Hp].
  pose proof (op_fp _ _ _ _ _ _ _ O) as Hfp. pose proof (op_file _ _ _ _ _ _ _ O) as Hf.
  pose proof (op_pos _ _ _ _ _ _ _ O) as Hpos. pose proof (op_inode _ _ _ _ _ _ _ O) as Hi.
  unfold sys_write. apply wp_bind. eapply wp_fd_file; [done|].
  rewrite (proj2 (Z.ltb_ge n 0)), (proj2 (Z.eqb_neq n 0)) by lia.
  rewrite (proj2 (Z.eqb_neq fp NULL)) by (unfold NULL; lia). simpl orb. cbv iota.
  apply wp_bind, (wp_filp fp f); [done..|]. rewrite Hfi. apply wp_bind, (wp_inode p i); [done..|].
  rewrite (op_pipe _ _ _ _ _ _ _ O). change (truth 0) with false. cbv iota.
  destruct (readable_mode (i_mode i)) as (-> & -> & _); [by rewrite Hmode|]. rewrite Hmode. cbv iota.
  apply wp_file_write_grows; try done; [apply O|lia].
Qed.

(** ** A file of one block, on a partition with two free zones *)

Definition inode_4 : m_inode := MInode 0x81A4 0 1024 0 0 1 [4; 0; 0; 0; 0; 0; 0; 0; 0] 0 0 0x300 2 1 0 0 0 0 0 0.
Definition fs_grow : fs := with_file inode_4 fs_small.
Lemma inode_4_nodes D start s c : slot_ok c → node D start s inode_4 c = if decide (c = Root 0) then 4 else 0.
Proof.
  destruct c as [k|t k]; simpl; [intros Hk|intros _; by destruct t].
  assert (k = 0 ∨ k = 1 ∨ k = 2 ∨ k = 3 ∨ k = 4 ∨ k = 5 ∨ k = 6 ∨ k = 7 ∨ k = 8) as HH by lia.
  by repeat destruct HH as [->|HH]; [..|subst].
Qed.
Lemma inode_4_tree D start x s : data_zone x 4 → used D start s x 4 = true → tree D start x s inode_4.
Proof.
  intros Hz Hu. split; [done|..].
  - intros c Hc. rewrite inode_4_nodes by done. by case_decide.
  - intros c c' Hc Hc'. rewrite !inode_4_nodes by done. repeat case_decide; congruence.
Qed.
Lemma with_file_kept D start nr sb x i s : mounted D start nr s sb x → free_unheld D start s x →
  mounted D start nr (with_file i s) sb x ∧ free_unheld D start (with_file i s) x ∧
  ∀ z, used D start (with_file i s) x z = used D start s x z.
Proof.
  intros HM HU. split; [|done]. apply (mounted_kept D start nr s); [done|by apply users_kept_heads|done| |].
  - intros k Hk. by destruct (mo_maps _ _ _ _ _ _ HM k Hk) as (? & _ & _ & ?).
  - exact (mo_first _ _ _ _ _ _ HM).
Qed.
Definition is_free (s : fs) (p : Z) : bool := match heads s !! p with Some b => b_count b =? 0 | None => false end.
Lemma two_free s p q : p ≠ q → is_free s p && is_free s q = true → map_Forall (λ _ b, b_count b < 254) (heads s) →
  room_for_two s.
Proof.
  intros Hpq [Hp Hq]%andb_prop Hlt. split; [|exact Hlt]. unfold is_free in *.
  destruct (heads s !! p) as [b|] eqn:Eb; [|done]. destruct (heads s !! q) as [c|] eqn:Ec; [|done].
  apply Z.eqb_eq in Hp, Hq. by exists p, q, b, c.
Qed.
Lemma small_two : room_for_two fs_small.
Proof.
  apply (two_free fs_small 2 3); [done|vm_compute; reflexivity|]. apply (bool_decide_unpack _). vm_compute. reflexivity.
Qed.
Lemma small_waits : waitq (sch fs_small) = ∅.
Proof. vm_compute. reflexivity. Qed.
Lemma with_file_growing s sb x : cache_ok 0x300 0 64 s → waitq (sch s) = ∅ → room_for_two s →
  mounted 0x300 0 64 s sb x → free_unheld 0x300 0 s x → s_firstdatazone x ≤ s_nzones x →
  data_zone x 4 → used 0x300 0 s x 4 = true → growing 0x300 0 64 sb x 1 (with_file inode_4 s) inode_4.
Proof.
  intros HC Hw HR HM HU Hfz Hz Hused. destruct (with_file_cache inode_4 _ _ _ s HC (room_for_one s HR) Hw) as [HC' _].
  destruct (with_file_kept 0x300 0 64 sb x inode_4 s HM HU) as (HM' & HU' & Hused').
  split; try done. apply inode_4_tree; [done|]. by rewrite Hused'.
Qed.
Lemma grow_growing : growing 0x300 0 64 1 small_super 1 fs_grow inode_4.
Proof.
  destruct fs_small_mounted as (HC & HM & _). assert (data_zone small_super 4) as Hz by (unfold data_zone; simpl; lia).
  apply with_file_growing; [exact HC|exact small_waits|exact small_two|exact HM| |simpl; lia|done|].
  - intros p b Hb Hd Hz' _. by apply (sf_unheld _ _ _ _ _ _ _ small_stands p b).
  - apply (sf_used _ _ _ _ _ _ _ small_stands 4 Hz). unfold small_used. set_solver.
Qed.
Lemma fs_grow_opened : opened 0x300 fs_grow 3 1 file_1000 1 inode_4.
Proof.
  split; [split; done|eexists; split; vm_compute; reflexivity|done|reflexivity|split; done|done|reflexivity|done..].
Qed.
(** 3000 bytes from 1000 on want blocks 0 to 3; there are zones for 1 and 2. *)
Example a_short_write : match sys_write 10 3 4096 3000 fs_grow with Ret r _ => r | _ => 0 end = 2072.
Proof. vm_compute. reflexivity. Qed.

Lemma sys_write_grows_file_witness :
  wp (sys_write 10 3 4096 3000) (has_grown 0x300 0 64 1 small_super fs_grow 1 file_1000 1 inode_4 1000 3000 4096) fs_grow.
Proof.
  refine (sys_write_grows_file 0x300 0 64 1 small_super 10 3 1 file_1000 1 inode_4 4096 3000 fs_grow
    grow_growing fs_grow_opened _ _ _).
  - reflexivity.
  - reflexivity.
  - discriminate.
Defined.
