(* ===== verification/FileTrunc.v ===== *)
(** * Truncating a file

    truncate gives the zones and the tables of a file back, each once, while the
    tables it walks are held in the cache, and nothing else. *)

From S2P Require Export FileGrow.
From S2P Require Import FileIo Bitmap BitmapFacts Cache CacheFacts FsBoot.

Section Trunc.
Context (D start nr sb : Z) (x : superblock).
Implicit Types s : fs.

(** ** Giving back a list of zones *)

Definition unheld s (z : Z) : Prop := ∀ p b, heads s !! p = Some b → b_dev b = D → b_blocknr b = z → b_count b = 0.
(** [k] buffers are free, and counts can grow by as much. *)
Definition room_n (k : nat) s : Prop :=
  (∃ l, NoDup l ∧ length l = k ∧ ∀ p, p ∈ l → ∃ b, heads s !! p = Some b ∧ b_count b = 0) ∧
  ∀ p b, heads s !! p = Some b → b_count b + Z.of_nat k < 255.
Record ready (k : nat) s : Prop := Ready {
  rd_cache : cache_ok D start nr s;
  rd_room : room_n k s;
  rd_mounted : mounted D start nr s sb x;
  rd_unheld : free_unheld D start s x
}.
Record freed s (l : list Z) s' : Prop := Freed {
  fr_idle : idle D start nr s s';
  fr_rest : rest s' = rest s;
  fr_mounted : mounted D start nr s' sb x;
  fr_unheld : free_unheld D start s' x;
  fr_used : ∀ z, data_zone x z → used D start s' x z = used D start s x z && negb (bool_decide (z ∈ l));
  fr_others : ∀ blk, valid nr blk → off_map x blk → blk ∉ l → content D start s' blk = content D start s blk
}.
Definition same_files s s' : Prop := inode_table s' = inode_table s ∧ file_table s' = file_table s ∧ user s' = user s.
(** Used zones, no two the same, that no task holds. *)
Definition freeable s (l : list Z) : Prop := NoDup l ∧ ∀ z, z ∈ l → data_zone x z ∧ used D start s x z = true ∧ unheld s z.

Lemma same_files_trans s1 s2 s3 : same_files s1 s2 → same_files s2 s3 → same_files s1 s3.
Proof. intros (? & ? & ?) (? & ? & ?). split_and!; congruence. Qed.
Lemma freed_trans s1 s2 s3 l1 l2 : freed s1 l1 s2 → freed s2 l2 s3 → freed s1 (l1 ++ l2) s3.
Proof.
  intros [[_ K1] R1 _ _ U1 O1] [[C2 K2] R2 M2 F2 U2 O2]. split; try done.
  - split; [done|]. by apply (users_kept_trans s1 s2).
  - by rewrite R2.
  - intros z Hz. rewrite U2, U1 by done. rewrite <-andb_assoc, <-negb_orb, <-bool_decide_or. do 2 f_equal.
    apply bool_decide_ext. rewrite elem_of_app. tauto.
  - intros blk Hv Hoff [H1 H2]%not_elem_of_app. by rewrite O2, O1.
Qed.
(** A buffer in use was in use, with the same block. *)
Lemma user_before s s' p b : cache_ok D start nr s → idle D start nr s s' → rest s' = rest s → heads s' !! p = Some b →
  b_count b ≠ 0 → ∃ b0, heads s !! p = Some b0 ∧ b_count b0 = b_count b ∧ key b0 = key b.
Proof.
  intros [_ HD] [[_ HD'] HK] HR Hb Hc. assert (is_Some (heads s !! p)) as [b0 Hb0].
  { apply (do_dom _ _ _ s HD). assert (nr_buffers s' = nr_buffers s) as <- by (unfold rest in HR; congruence).
    apply (do_dom _ _ _ s' HD'). eauto. }
  destruct (HK p b0 Hb0) as (b1 & Hb1 & Ec & Hk). rewrite Hb in Hb1. injection Hb1 as <-. exists b0. split; [done|].
  split; [done|]. symmetry. apply Hk. congruence.
Qed.
Lemma unheld_idle s s' z : cache_ok D start nr s → idle D start nr s s' → rest s' = rest s → unheld s z → unheld s' z.
Proof.
  intros HC HI HR HU p b Hb Hd Hz. destruct (decide (b_count b = 0)) as [|Hc]; [done|].
  destruct (user_before s s' p b HC HI HR Hb Hc) as (b0 & Hb0 & Ec & Ek). unfold key in Ek. injection Ek as E1 E2.
  rewrite <-Ec. apply (HU p b0 Hb0); congruence.
Qed.
Lemma free_unheld_idle s s' l : cache_ok D start nr s → idle D start nr s s' → rest s' = rest s →
  free_unheld D start s x → freeable s l →
  (∀ z, data_zone x z → used D start s' x z = used D start s x z && negb (bool_decide (z ∈ l))) → free_unheld D start s' x.
Proof.
  intros HC HI HR HU [_ HL] Hused p b Hb Hd Hz Hf. destruct (decide (b_count b = 0)) as [|Hc]; [done|].
  destruct (user_before s s' p b HC HI HR Hb Hc) as (b0 & Hb0 & Ec & Ek). unfold key in Ek. injection Ek as E1 E2.
  rewrite Hused in Hf by done. rewrite <-Ec. destruct (decide (b_blocknr b ∈ l)) as [Hl|Hl].
  - destruct (HL _ Hl) as (_ & _ & Hun). apply (Hun p b0 Hb0); congruence.
  - rewrite (bool_decide_false _ Hl), andb_true_r in Hf. apply (HU p b0 Hb0); [congruence|by rewrite E2|by rewrite E2].
Qed.
Lemma room_n_kept k s s' : cache_ok D start nr s → idle D start nr s s' → rest s' = rest s → room_n k s → room_n k s'.
Proof.
  intros HC HI HR [(l & Hnd & Hl & Hfree) Hlt]. pose proof HI as [_ HK]. split.
  - exists l. split; [done|]. split; [done|]. intros p Hp. destruct (Hfree p Hp) as (b & Hb & E).
    destruct (HK p b Hb) as (b' & Hb' & Ec & _). exists b'. split; [done|congruence].
  - intros p b Hb. destruct (decide (b_count b = 0)) as [E|E].
    + rewrite E. destruct l as [|q l]; simpl in Hl; [subst k; simpl; lia|]. destruct (Hfree q) as (c & Hc & E0); [by left|].
      specialize (Hlt q c Hc). lia.
    + destruct (user_before s s' p b HC HI HR Hb E) as (b0 & Hb0 & Ec & _). specialize (Hlt p b0 Hb0). lia.
Qed.
Lemma ready_freed k s l s' : ready k s → freed s l s' → ready k s'.
Proof.
  intros [HC HR HM HU] [HI Hr HM' HU' _ _]. split; [by destruct HI|by apply (room_n_kept k s)|done|done].
Qed.
Lemma freeable_app s l1 l2 : freeable s (l1 ++ l2) → freeable s l1 ∧ freeable s l2.
Proof.
  intros [(H1 & _ & H2)%NoDup_app HL]. split; (split; [done|]); intros z Hz; apply HL, elem_of_app; auto.
Qed.
Lemma freeable_rest s l1 l2 s' : cache_ok D start nr s → freeable s (l1 ++ l2) → freed s l1 s' → freeable s' l2.
Proof.
  intros HC [(_ & H12 & H2)%NoDup_app HL] F. split; [done|]. intros z Hz. destruct (HL z) as (Hd & Hu & Hun); [apply elem_of_app; auto|].
  split; [done|]. split.
  - rewrite (fr_used _ _ _ F), Hu by done. rewrite bool_decide_false; [done|]. intros Hz1. by apply (H12 z).
  - apply (unheld_idle s); [done|apply F|apply F|done].
Qed.
Lemma freed_nil k s : ready k s → freed s [] s.
Proof.
  intros [HC HR HM HU]. split; try done.
  - split; [done|apply users_kept_refl].
  - intros z _. by rewrite andb_true_r.
Qed.
(** A change outside of the cache. *)
Lemma freed_then s l s1 s2 : freed s l s1 → same_cache s1 s2 → freed s l s2.
Proof.
  intros [[HC1 HK1] R1 M1 F1 U1 O1] Hsame.
  destruct (same_cache_facts D start nr sb x s1 s2 Hsame M1) as (HM2 & HU2 & HF2 & HC2).
  destruct (steady_ext D start nr s1 s2 HC1 Hsame) as [[HCC HKK] _ HR2].
  split; try done.
  - split; [done|by apply (users_kept_trans s s1)].
  - by rewrite HR2.
  - by apply HF2.
  - intros z Hz. by rewrite HU2, U1.
  - intros blk Hv Hoff Hl. by rewrite HC2, O1.
Qed.

(** ** free_block, free_ind, free_dind *)

Definition gives_back (m : M fs ()) s (l : list Z) : Prop := wp m (λ _ s', freed s l s' ∧ same_files s s') s.

Lemma free_one k s z : ready k s → freeable s [z] → gives_back (free_block D z) s [z].
Proof.
  intros [HC [_ HR] HM HU] [_ HL]. destruct (HL z) as (Hz & Hu & Hun); [by left|].
  pose proof (free_block_run D start nr s sb x z HC) as H. rewrite Hu in H.
  destruct H as (s' & E & F); [intros p b Hb; specialize (HR p b Hb); lia|done..|].
  eapply wp_of_ret; [exact E|]. destruct (only_cache_rest s s' (rl_only _ _ _ _ _ _ _ _ F)) as (R & T & Ft & Us).
  split; [|by split_and!]. split; [split; apply F|done|apply F|apply F|..].
  - intros w Hw. rewrite (rl_used _ _ _ _ _ _ _ _ F) by done. rewrite andb_comm. do 2 f_equal.
    apply bool_decide_ext. rewrite list_elem_of_singleton. done.
  - intros blk Hv Hoff Hne. apply (rl_others _ _ _ _ _ _ _ _ F); [done| |done]. intros ->. apply Hne. by left.
Qed.

Lemma taken_room_n k s blk p b s1 : cache_ok D start nr s → room_n (S k) s → taken_block D start nr s blk p b s1 → room_n k s1.
Proof.
  intros [_ HD] [(l & Hnd & Hl & Hfree) Hlt] T. pose proof (tb_held _ _ _ _ _ _ _ _ T) as HH.
  destruct (tb_ok _ _ _ _ _ _ _ _ T) as [_ HD1]. split.
  - assert (∃ l', NoDup l' ∧ length l' = k ∧ ∀ q, q ∈ l' → (q ∈ l) ∧ q ≠ p) as (l' & H1 & H2 & H3).
    { destruct (decide (p ∈ l)) as [Hp|Hp].
      - apply elem_of_Permutation in Hp as [l' Hp]. exists l'. rewrite Hp in Hnd. apply NoDup_cons in Hnd as [Hnp Hnd].
        split; [done|]. rewrite Hp in Hl. simpl in Hl. split; [lia|]. intros q Hq. rewrite Hp. split; [by right|congruence].
      - exists (take k l). split; [by rewrite <-(take_drop k l) in Hnd; apply NoDup_app in Hnd as (? & _)|]. rewrite length_take. split; [lia|].
        intros q Hq%elem_of_take. destruct Hq as (j & Hq & _). apply list_elem_of_lookup_2 in Hq. split; [done|congruence]. }
    exists l'. split; [done|]. split; [done|]. intros q Hq. destruct (H3 q Hq) as [Hql Hqp]. destruct (Hfree q Hql) as (c & Hc & E).
    destruct (HH q c Hc) as (c' & Hc' & Ec & _). rewrite decide_False in Ec by done. exists c'. split; [done|lia].
  - intros q c Hc. assert (is_Some (heads s !! q)) as [c0 Hc0].
    { apply (do_dom _ _ _ s HD). pose proof (tb_rest _ _ _ _ _ _ _ _ T) as HR.
      assert (nr_buffers s1 = nr_buffers s) as <- by (unfold rest in HR; congruence).
      apply (do_dom _ _ _ s1 HD1). eauto. }
    destruct (HH q c0 Hc0) as (c' & Hc' & Ec & _). rewrite Hc in Hc'. injection Hc' as <-. specialize (Hlt q c0 Hc0).
    case_decide; lia.
Qed.

(** The entries of a table that are not empty. *)
Definition entries (d : list Z) (n : nat) : list Z := filter (λ z, z ≠ 0) (half_at d <$> upto n).
Lemma entries_S d n : entries d (S n) = entries d n ++ if half_at d (Z.of_nat n) =? 0 then [] else [half_at d (Z.of_nat n)].
Proof.
  unfold entries. rewrite upto_S, fmap_app, filter_app. f_equal. simpl.
  destruct (Z.eqb_spec (half_at d (Z.of_nat n)) 0); [by rewrite filter_cons_False by (intros Hne; by apply Hne)|by rewrite filter_cons_True].
Qed.

Lemma entries_split d n m : half_at d (Z.of_nat n) ≠ 0 → ∃ l, entries d (n + S m) = entries d n ++ half_at d (Z.of_nat n) :: l.
Proof.
  intros Hne. induction m as [|m (l & IH)].
  - exists []. rewrite Nat.add_1_r, entries_S. by rewrite (proj2 (Z.eqb_neq _ 0) Hne).
  - replace (n + S (S m))%nat with (S (n + S m)) by lia. rewrite entries_S, IH. eexists. by rewrite <-app_assoc.
Qed.

(** [free] gives back the zones [F e] below entry [e], as long as the table [e]
    holds what it holds in [s0]. *)
Definition frees (s0 : fs) (k : nat) (free : Z → Z → M fs ()) (F : Z → list Z) : Prop :=
  (∀ e, e ∈ F e) ∧ ∀ s e, ready k s → content D start s e = content D start s0 e → freeable s (F e) → gives_back (free D e) s (F e).

Section Table.
Context (Hfz : s_firstdatazone x ≤ s_nzones x) (Hzones : ∀ z, data_zone x z → z ≠ 0 ∧ valid nr z ∧ off_map x z).
Context (s0 : fs) (k : nat) (free : Z → Z → M fs ()) (F : Z → list Z) (HF : frees s0 k free F).

(** A held buffer shows the block while other blocks are given back. *)
Lemma shows_block s1 s' l q b t : cache_ok D start nr s1 → heads s1 !! q = Some b → b_dev b = D → b_blocknr b = t →
  1 ≤ b_count b → b_uptodate b ≠ 0 → data_zone x t → t ∉ l → freed s1 l s' →
  ∃ b', heads s' !! q = Some b' ∧ b_data b' = b_data b ∧ b_count b' = b_count b ∧ key b' = key b ∧ b_uptodate b' ≠ 0.
Proof.
  intros HC1 Hb Hd Hk Hc Hu Hz Ht FR. destruct (fr_idle _ _ _ FR) as [HC' HK]. destruct (HK q b Hb) as (b' & Hb' & Ec & Hkk).
  destruct Hkk as [Ek Hu']; [lia|]. specialize (Hu' Hu). exists b'. split_and!; try done.
  destruct (Hzones t Hz) as (_ & Hv & Hoff). unfold key in Ek. injection Ek as E1 E2.
  pose proof (content_cached D start nr s1 t q b (proj2 HC1) Hb Hd Hk Hu) as H1.
  assert (content D start s' t = Some (b_data b')) as H2 by (apply (content_cached D start nr s' t q b' (proj2 HC')); congruence).
  rewrite (fr_others _ _ _ FR) in H2 by done. congruence.
Qed.

Lemma free_table_gives_back s t d : ready (S k) s → t ≠ 0 → content D start s t = Some d →
  (∀ e, e ∈ entries d 512 → content D start s e = content D start s0 e) →
  freeable s ((entries d 512 ≫= F) ++ [t]) → gives_back (free_table free D t) s ((entries d 512 ≫= F) ++ [t]).
Proof.
  intros HR Ht Hd Hsame HL. pose proof (rd_cache _ _ HR) as HC. pose proof (rd_room _ _ HR) as HRm.
  destruct (freeable_app _ _ _ HL) as [HL1 [_ HLt]]. destruct (HLt t) as (Htz & Htu & Htun); [by left|].
  destruct (Hzones t Htz) as (_ & Htv & Htoff).
  assert (room s) as Hroom.
  { destruct HRm as [(l & Hnd & Hl & Hfree) Hlt]. destruct l as [|p l]; [done|]. destruct (Hfree p) as (b & Hb & E); [by left|].
    split; [by exists p, b|]. intros q c Hq. specialize (Hlt q c Hq). lia. }
  assert (t ∉ (entries d 512 ≫= F)) as Htl by (destruct HL as [(_ & H & _)%NoDup_app _]; intros Hin; apply (H t Hin); by left).
  unfold gives_back, free_table. rewrite (proj2 (Z.eqb_neq t 0) Ht). apply wp_bind, (wp_take_block D start nr); [done..|].
  intros q b s1 T. rewrite (proj2 (truth_true q) (tb_pointer _ _ _ _ _ _ _ _ T)).
  pose proof (tb_data _ _ _ _ _ _ _ _ T) as Hbd. rewrite Hd in Hbd. injection Hbd as Hbd.
  destruct (tb_key _ _ _ _ _ _ _ _ T) as [Hbdev Hbblk]. pose proof (tb_ok _ _ _ _ _ _ _ _ T) as HC1.
  destruct (taken_state D start nr sb x s t q b s1 HC (rd_mounted _ _ HR) (rd_unheld _ _ HR) Hfz Htu T) as (HM1 & HU1 & Hused1).
  assert (ready k s1) as HR1.
  { split; try done. by apply (taken_room_n k s t q b). }
  assert (∀ z, data_zone x z → z ≠ t → unheld s z → unheld s1 z) as Hun1.
  { intros z Hz Hzt Hun p c Hc Hcd Hcz. assert (is_Some (heads s !! p)) as [c0 Hc0].
    { apply (do_dom _ _ _ s (proj2 HC)). pose proof (tb_rest _ _ _ _ _ _ _ _ T) as Hr.
      assert (nr_buffers s1 = nr_buffers s) as <- by (unfold rest in Hr; congruence). apply (do_dom _ _ _ s1 (proj2 HC1)). eauto. }
    destruct (tb_held _ _ _ _ _ _ _ _ T p c0 Hc0) as (c1 & Hc1 & Ec & Hkk). rewrite Hc in Hc1. injection Hc1 as <-.
    case_decide as E; [subst p; rewrite (tb_head _ _ _ _ _ _ _ _ T) in Hc; congruence|].
    destruct (decide (b_count c0 = 0)) as [E0|E0]; [lia|]. destruct (Hkk E0) as [Ek _]. unfold key in Ek. injection Ek as E1 E2.
    rewrite Ec, Z.add_0_r. apply (Hun p c0 Hc0); congruence. }
  assert (freeable s1 (entries d 512 ≫= F)) as HL1'.
  { destruct HL1 as [Hnd HL1]. split; [done|]. intros z Hz. destruct (HL1 z Hz) as (H1 & H2 & H3). split; [done|].
    split; [by rewrite Hused1|]. apply Hun1; [done| |done]. by intros ->. }
  (* the entries *)
  set (L := entries d 512 ≫= F) in *.
  apply wp_bind. unfold when. apply wp_bind. eapply wp_mono.
  { apply (wp_mfor_upto _ (λ n s', freed s1 (entries d n ≫= F) s' ∧ same_files s1 s')).
    - split; [by apply (freed_nil k)|done].
    - intros n s' Hn [FR SF].
      assert (t ∉ (entries d n ≫= F)) as Htn.
      { intros Hin. apply Htl. apply list_elem_of_bind in Hin as (e & Hin & He). apply list_elem_of_bind. exists e. split; [done|].
        unfold entries in *. apply list_elem_of_filter in He as [He0 He]. apply list_elem_of_filter. split; [done|].
        apply list_elem_of_fmap in He as (j & -> & Hj%elem_of_upto). apply list_elem_of_fmap. exists j. split; [done|]. apply elem_of_upto. lia. }
      destruct (shows_block s1 s' _ q b t HC1 (tb_head _ _ _ _ _ _ _ _ T) Hbdev Hbblk (tb_count _ _ _ _ _ _ _ _ T)
        (tb_uptodate _ _ _ _ _ _ _ _ T) Htz Htn FR) as (b' & Hb' & Hdata & _).
      apply wp_bind, (wp_bh q b'); [done|]. rewrite Hdata, <-Hbd. cbv zeta. set (e := half_at d (Z.of_nat n)).
      destruct (Z.eq_dec e 0) as [E|E].
      { rewrite (proj2 (truth_false e) E). apply wp_ret. rewrite entries_S. fold e. by rewrite E, app_nil_r. }
      rewrite (proj2 (truth_true e) E). destruct (entries_split d n (511 - n) E) as [l Hsplit].
      replace (n + S (511 - n))%nat with 512%nat in Hsplit by lia. fold e in Hsplit.
      assert (e ∈ entries d 512) as Hin by (rewrite Hsplit; apply elem_of_app; right; by left).
      assert (L = (entries d n ≫= F) ++ F e ++ (l ≫= F)) as HLs by (unfold L; by rewrite Hsplit, bind_app).
      rewrite HLs in HL1'. pose proof (freeable_rest s1 _ _ s' HC1 HL1' FR) as [HLe _]%freeable_app.
      destruct HF as [HFe HFr]. destruct HL1' as [(_ & Hno & _)%NoDup_app HLz].
      destruct (HLz e) as (Hez & _); [apply elem_of_app; right; apply elem_of_app; left; apply HFe|].
      destruct (Hzones e Hez) as (_ & Hev & Heoff).
      eapply wp_mono; [apply (HFr s' e); [by apply (ready_freed k s1 (entries d n ≫= F))| |done]|].
      + rewrite (fr_others _ _ _ FR), (tb_content _ _ _ _ _ _ _ _ T) by (done || (intros Hin'; by apply (Hno e Hin'), elem_of_app; left; apply HFe)).
        by apply Hsame.
      + intros [] s'' [FR' SF']. rewrite entries_S. fold e. rewrite (proj2 (Z.eqb_neq e 0) E), bind_app.
        split; [|by apply (same_files_trans s1 s')]. simpl. rewrite app_nil_r. by apply (freed_trans s1 s'). }
  intros [] s2 [FR SF]. change (entries d 512 ≫= F) with L in FR. destruct (shows_block s1 s2 L q b t HC1 (tb_head _ _ _ _ _ _ _ _ T) Hbdev Hbblk (tb_count _ _ _ _ _ _ _ _ T)
    (tb_uptodate _ _ _ _ _ _ _ _ T) Htz Htl FR) as (b2 & Hb2 & _ & Ec2 & Ek2 & Hu2).
  destruct (fr_idle _ _ _ FR) as [HC2 HK2]. pose proof (tb_count _ _ _ _ _ _ _ _ T) as Hcnt.
  eapply wp_mono; [apply (wp_brelse D start nr s2 q b2 HC2 Hb2); lia|]. intros [] s3 (HC3 & HO3 & Hc3 & Hh3).
  destruct (only_cache_rest s2 s3 HO3) as (R3 & T3 & F3 & U3).
  destruct (used_same D start nr x s2 s3 sb (fr_mounted _ _ _ FR)) as (Hused3 & H03 & HB3).
  { intros k' Hk'. apply Hc3. by apply (zmap_block_valid D start nr s sb x k' (rd_mounted _ _ HR) Hk'). }
  assert (idle D start nr s s3) as HI3.
  { split; [done|]. apply (users_returned s s2 s3 q b2 (b2 <| b_count := b_count b2 - 1 |>)); try done.
    apply (lent_trans D start nr q s s1 s2); [done|apply held_lent, T|done]. }
  assert (rest s3 = rest s) as HR3 by (rewrite R3, (fr_rest _ _ _ FR); apply T).
  assert (∀ z, data_zone x z → used D start s3 x z = used D start s x z && negb (bool_decide (z ∈ L))) as HU3.
  { intros z Hz. by rewrite Hused3, (fr_used _ _ _ FR), Hused1. }
  assert (freed s L s3) as FR3.
  { split; try done.
    - apply (mounted_kept D start nr s); [exact (rd_mounted _ _ HR)|apply HI3|unfold rest in HR3; congruence|done..].
    - apply (free_unheld_idle s s3 L); try done. exact (rd_unheld _ _ HR).
    - intros blk Hv Hoff Hl. rewrite Hc3, (fr_others _ _ _ FR) by done. by apply T. }
  assert (same_files s s3) as SF3.
  { destruct SF as (? & ? & ?). destruct (tb_files _ _ _ _ _ _ _ _ T) as (? & ? & ?). split_and!; congruence. }
  eapply wp_mono; [apply (free_one k s3 t); [|by apply (freeable_rest s L [t] s3 HC HL)]|].
  { pose proof (ready_freed (S k) s L s3 HR FR3) as [? [(l & ? & ? & ?) Hlt] ? ?]. split; try done. split.
    - destruct l as [|p0 l]; [done|]. exists l. apply NoDup_cons in H as [_ ?]. split; [done|]. split; [simpl in *; lia|].
      intros p Hp. apply H1. by right.
    - intros p c Hc. specialize (Hlt p c Hc). lia. }
  intros [] s4 [FR4 SF4]. split; [by apply (freed_trans s s3)|by apply (same_files_trans s s3)].
Qed.
End Table.

(** What the tables hold in [s0]. *)
Definition table_data (s0 : fs) (e : Z) : list Z := default [] (content D start s0 e).
(** The zones below an entry of the double table. *)
Definition below (s0 : fs) (e : Z) : list Z := (entries (table_data s0 e) 512 ≫= λ z, [z]) ++ [e].

Section Walk.
Context (Hfz : s_firstdatazone x ≤ s_nzones x) (Hzones : ∀ z, data_zone x z → z ≠ 0 ∧ valid nr z ∧ off_map x z).

Lemma frees_block s0 k : frees s0 k free_block (λ z, [z]).
Proof. split; [by left|]. intros s e HR _ HL. by apply (free_one k). Qed.
Lemma frees_ind s0 k : frees s0 (S k) free_ind (below s0).
Proof.
  split; [intros e; apply elem_of_app; right; by left|]. intros s e HR Hsame HL.
  destruct (proj2 HL e) as (Hz & _); [apply elem_of_app; right; by left|]. destruct (Hzones e Hz) as (H0 & Hv & _).
  destruct (content_length D start nr s e (rd_cache _ _ HR) Hv) as (d & Hd & _).
  assert (table_data s0 e = d) as Ed by (unfold table_data; by rewrite <-Hsame, Hd). unfold below in *. rewrite Ed in *.
  by apply (free_table_gives_back Hfz Hzones s k free_block (λ z, [z]) (frees_block s k)).
Qed.
(** free_ind and free_dind of a zone of the inode, which may be 0. *)
Lemma free_ind_gives_back s0 s k z : ready (S k) s → (z ≠ 0 → content D start s z = content D start s0 z) →
  let l := if z =? 0 then [] else below s0 z in freeable s l → gives_back (free_ind D z) s l.
Proof.
  intros HR Hsame l HL. unfold l in *. destruct (Z.eqb_spec z 0) as [->|Hz].
  - apply wp_ret. split; [by apply (freed_nil (S k))|done].
  - apply (frees_ind s0 k); auto.
Qed.
Lemma free_dind_gives_back s0 s k z : ready (S (S k)) s → (z ≠ 0 → content D start s z = content D start s0 z) →
  let l := if z =? 0 then [] else (entries (table_data s0 z) 512 ≫= below s0) ++ [z] in
  (z ≠ 0 → ∀ e, e ∈ entries (table_data s0 z) 512 → content D start s e = content D start s0 e) →
  freeable s l → gives_back (free_dind D z) s l.
Proof.
  intros HR Hsame l He HL. unfold l in *. destruct (Z.eqb_spec z 0) as [->|Hz].
  - apply wp_ret. split; [by apply (freed_nil (S (S k)))|done].
  - destruct (proj2 HL z) as (Hdz & _); [apply elem_of_app; right; by left|]. destruct (Hzones z Hdz) as (H0 & Hv & _).
    destruct (content_length D start nr s z (rd_cache _ _ HR) Hv) as (d & Hd & _).
    assert (table_data s0 z = d) as Ed by (unfold table_data; by rewrite <-Hsame, Hd). rewrite Ed in *.
    apply (free_table_gives_back Hfz Hzones s0 (S k) free_ind (below s0) (frees_ind s0 k)); auto.
Qed.
End Walk.

(** ** The nodes of a file, in the order of truncate *)

Definition slots : list slot :=
  (Root <$> upto 7) ++ ((Ent Ind <$> upto 512) ++ [Root 7]) ++
  ((upto 512 ≫= λ a, (Ent (Sub a) <$> upto 512) ++ [Ent Dind a]) ++ [Root 8]).
Definition nodes s i (cs : list slot) : list Z := filter (λ z, z ≠ 0) (node D start s i <$> cs).

Lemma elem_of_fmap_upto {A} (f : Z → A) n y : y ∈ f <$> upto n ↔ ∃ k, y = f k ∧ 0 ≤ k < Z.of_nat n.
Proof. rewrite list_elem_of_fmap. by setoid_rewrite elem_of_upto. Qed.
Lemma slots_all c : c ∈ slots ↔ slot_ok c.
Proof.
  unfold slots. rewrite !elem_of_app, !list_elem_of_singleton, list_elem_of_bind.
  setoid_rewrite elem_of_app. setoid_rewrite list_elem_of_singleton. rewrite !elem_of_fmap_upto. setoid_rewrite elem_of_fmap_upto.
  setoid_rewrite elem_of_upto. destruct c as [k|[| |a] k]; unfold slot_ok, table_ok; split.
  - intros [(? & [= ->] & ?)|[[(? & [=] & _)|[= ->]]|[(? & [(? & [=] & _)|[=]] & _)|[= ->]]]]; lia.
  - intros Hk. destruct (decide (k < 7)); [left; exists k; split; [done|lia]|]. right. assert (k = 7 ∨ k = 8) as [->| ->] by lia; auto.
  - intros [(? & [=] & ?)|[[(? & [= ->] & ?)|[=]]|[(? & [(? & [=] & _)|[=]] & _)|[=]]]]. split; [done|lia].
  - intros [_ Hk]. right. left. left. exists k. split; [done|lia].
  - intros [(? & [=] & ?)|[[(? & [=] & ?)|[=]]|[(? & [(? & [=] & _)|[= ->]] & ?)|[=]]]]. split; [done|lia].
  - intros [_ Hk]. right. right. left. exists k. split; [by right|lia].
  - intros [(? & [=] & ?)|[[(? & [=] & ?)|[=]]|[(? & [(? & [= -> ->] & ?)|[=]] & ?)|[=]]]]. lia.
  - intros [Ha Hk]. right. right. left. exists a. split; [left; exists k; split; [done|lia]|lia].
Qed.
Lemma slots_NoDup : NoDup slots.
Proof.
  assert (∀ n, NoDup (upto n)) as Hup by (intros n; apply NoDup_seqZ).
  assert (∀ {A} (l1 l2 : list A), NoDup l1 → NoDup l2 → (∀ z, z ∈ l1 → z ∉ l2) → NoDup (l1 ++ l2)) as Happ.
  { intros A l1 l2 H1 H2 H3. apply NoDup_app. auto. }
  assert (∀ t, NoDup (Ent t <$> upto 512)) as Hent by (intros t; apply NoDup_fmap_2; [intros ?? [=]; done|apply Hup]).
  unfold slots. apply Happ; [apply NoDup_fmap_2; [intros ?? [=]; done|apply Hup]|apply Happ|].
  - apply Happ; [apply Hent|apply NoDup_singleton|]. intros z (k & -> & _)%list_elem_of_fmap. rewrite list_elem_of_singleton. done.
  - apply Happ; [|apply NoDup_singleton|].
    + apply NoDup_bind; [|intros a Ha; apply Happ; [apply Hent|apply NoDup_singleton|]|apply Hup].
      * intros a b c _ _ [(k & -> & _)%list_elem_of_fmap| ->%list_elem_of_singleton]%elem_of_app
          [(k' & E & _)%list_elem_of_fmap|E%list_elem_of_singleton]%elem_of_app; congruence.
      * intros z (k & -> & _)%list_elem_of_fmap. rewrite list_elem_of_singleton. done.
    + intros z (a & [(k & -> & _)%list_elem_of_fmap| ->%list_elem_of_singleton]%elem_of_app & _)%list_elem_of_bind;
        by rewrite list_elem_of_singleton.
  - intros z [(k & -> & _)%list_elem_of_fmap| ->%list_elem_of_singleton]%elem_of_app;
      intros [(a & [(k' & E & _)%list_elem_of_fmap|E%list_elem_of_singleton]%elem_of_app & _)%list_elem_of_bind|E%list_elem_of_singleton]%elem_of_app;
      done.
  - intros z (k & -> & Hk%elem_of_upto)%list_elem_of_fmap.
    intros [[(k' & E & _)%list_elem_of_fmap|E%list_elem_of_singleton]%elem_of_app|
      [(a & [(k' & E & _)%list_elem_of_fmap|E%list_elem_of_singleton]%elem_of_app & _)%list_elem_of_bind|E%list_elem_of_singleton]%elem_of_app]%elem_of_app;
      try done; injection E as ->; lia.
Qed.
Lemma elem_of_nodes s i cs z : z ∈ nodes s i cs ↔ z ≠ 0 ∧ ∃ c, c ∈ cs ∧ node D start s i c = z.
Proof. unfold nodes. rewrite list_elem_of_filter, list_elem_of_fmap. split; [intros (? & c & -> & ?)|intros (? & c & ? & <-)]; eauto. Qed.
Lemma nodes_freeable s i cs : tree D start x s i → (∀ c, slot_ok c → node D start s i c ≠ 0 → unheld s (node D start s i c)) →
  NoDup cs → (∀ c, c ∈ cs → slot_ok c) → freeable s (nodes s i cs).
Proof.
  intros TR Hun Hnd Hok. split.
  - induction Hnd as [|c cs Hc Hnd IH]; [constructor|]. unfold nodes. simpl. rewrite filter_cons.
    assert (NoDup (nodes s i cs)) by (apply IH; intros; apply Hok; by right). case_decide as Hne; [|done].
    constructor; [|done]. change (node D start s i c ∉ nodes s i cs). rewrite elem_of_nodes. intros (_ & c' & Hc' & E). apply Hc.
    rewrite <-(tr_inj _ _ _ _ _ TR c c'); [done|apply Hok; by left|apply Hok; by right|done|done].
  - intros z (Hz & c & Hc%Hok & <-)%elem_of_nodes. destruct (tr_used _ _ _ _ _ TR c Hc Hz). auto.
Qed.
Lemma nodes_app s i c1 c2 : nodes s i (c1 ++ c2) = nodes s i c1 ++ nodes s i c2.
Proof. unfold nodes. by rewrite fmap_app, filter_app. Qed.
Lemma nodes_table s i t : nodes s i (Ent t <$> upto 512) =
  if table_block D start s i t =? 0 then [] else entries (table_data s (table_block D start s i t)) 512.
Proof.
  unfold nodes, entries. rewrite <-list_fmap_compose. destruct (Z.eqb_spec (table_block D start s i t) 0) as [E|E].
  - assert (∀ l : list Z, filter (λ z, z ≠ 0) ((node D start s i ∘ Ent t) <$> l) = []) as H; [|apply H].
    induction l as [|k l IH]; [done|]. simpl. rewrite filter_cons_False; [done|]. unfold sub. rewrite E. by intros [].
  - f_equal. apply list_fmap_ext. intros j k _. simpl. unfold sub. by rewrite (proj2 (Z.eqb_neq _ 0) E).
Qed.
Lemma bind_singleton (l : list Z) : (l ≫= λ z, [z]) = l.
Proof. induction l as [|z l IH]; [done|]. by rewrite bind_cons, IH. Qed.
Lemma nodes_slots s i : nodes s i slots = nodes s i (Root <$> upto 7) ++
  (if zone i 7 =? 0 then [] else below s (zone i 7)) ++
  (if zone i 8 =? 0 then [] else (entries (table_data s (zone i 8)) 512 ≫= below s) ++ [zone i 8]).
Proof.
  assert (∀ c, nodes s i [c] = if node D start s i c =? 0 then [] else [node D start s i c]) as H1.
  { intros c. unfold nodes. simpl. destruct (Z.eqb_spec (node D start s i c) 0); [by rewrite filter_cons_False by (intros Hne; by apply Hne)|by rewrite filter_cons_True]. }
  assert (∀ l : list Z, nodes s i (l ≫= λ a, (Ent (Sub a) <$> upto 512) ++ [Ent Dind a]) =
    if zone i 8 =? 0 then [] else filter (λ z, z ≠ 0) (half_at (table_data s (zone i 8)) <$> l) ≫= below s) as H2.
  { induction l as [|a l IH]; [by destruct (zone i 8 =? 0)|].
    rewrite bind_cons, nodes_app, IH, nodes_app, nodes_table, H1. cbn [node table_block]. unfold sub.
    destruct (Z.eqb_spec (zone i 8) 0) as [E|E]; [done|].
    rewrite fmap_cons, filter_cons. change (half_at (table_data s (zone i 8)) a) with (entry D start s (zone i 8) a).
    destruct (Z.eqb_spec (entry D start s (zone i 8) a) 0) as [E'|E']; case_decide; try done.
    rewrite bind_cons. unfold below at 2. by rewrite bind_singleton. }
  unfold slots. rewrite !nodes_app, nodes_table, !H1, H2. cbn [node table_block]. apply (f_equal (app _)).
  apply (f_equal2 app).
  - destruct (zone i 7 =? 0); [done|]. unfold below. by rewrite bind_singleton.
  - by destruct (zone i 8 =? 0).
Qed.

(** ** truncate *)

(** Every zone of the file is free again; all else is as it was. *)
Record truncated (p : Z) s i s' i' : Prop := Truncated {
  tc_idle : idle D start nr s s';
  tc_rest : rest s' = rest s;
  tc_files : file_table s' = file_table s ∧ user s' = user s;
  tc_inode : inode_table s' = <[Z.to_nat (p - 1) := i']> (inode_table s);
  tc_attrs : same_attrs i i' ∧ i_size i' = 0 ∧ i_zone i' = replicate 9 0;
  tc_used : ∀ z, data_zone x z →
    used D start s' x z = true ↔ used D start s x z = true ∧ ∀ c, slot_ok c → node D start s i c ≠ z;
  tc_others : ∀ blk, valid nr blk → off_map x blk → (∀ c, slot_ok c → node D start s i c ≠ 0 → blk ≠ node D start s i c) →
    content D start s' blk = content D start s blk;
  tc_growing : growing D start nr sb x p s' i'
}.
Lemma other_content s l1 l2 s' z : (∀ z, data_zone x z → z ≠ 0 ∧ valid nr z ∧ off_map x z) →
  freeable s (l1 ++ l2) → freed s l1 s' → z ∈ l2 → content D start s' z = content D start s z.
Proof.
  intros HZ [(_ & Hno & _)%NoDup_app HL] FR Hz. destruct (HL z) as (Hd & _); [apply elem_of_app; by right|].
  destruct (HZ z Hd) as (_ & ? & ?). apply (fr_others _ _ _ FR); [done|done|]. intros Hin. by apply (Hno z).
Qed.
(** A file without zones. *)
Lemma empty_tree s i : i_zone i = replicate 9 0 → tree D start x s i.
Proof.
  intros E. assert (∀ k, zone i k = 0) as Hz.
  { intros k. unfold zone. rewrite E. destruct (replicate 9 0 !! Z.to_nat k) eqn:H; [|done]. by apply lookup_replicate in H as [-> _]. }
  assert (∀ c, node D start s i c = 0) as HN.
  { intros [k|[| |a] k]; simpl; rewrite ?Hz; done. }
  split; [by rewrite E|intros c _ Hne; by rewrite HN in Hne|intros c c' _ _ Hne; by rewrite HN in Hne].
Qed.

Lemma zeroed_zone (zs : list Z) n m : (n ≤ m)%nat → (replicate n 0 ++ drop n zs) !! m = zs !! m.
Proof.
  intros Hm. rewrite lookup_app_r by (rewrite length_replicate; lia). rewrite length_replicate, lookup_drop. f_equal. lia.
Qed.
Lemma zeroed_S (zs : list Z) n : (n < length zs)%nat → <[n := 0]> (replicate n 0 ++ drop n zs) = replicate (S n) 0 ++ drop (S n) zs.
Proof.
  intros Hn. rewrite insert_app_r_alt by (rewrite length_replicate; lia). rewrite length_replicate, Nat.sub_diag.
  destruct (lookup_lt_is_Some_2 zs n Hn) as [z Hz]. rewrite (drop_S zs z n Hz).
  by rewrite replicate_S_end, <-app_assoc.
Qed.

(** The direct zones. *)
Definition direct_freed (p : Z) s i (n : nat) s' : Prop := freed s (nodes s i (Root <$> upto n)) s' ∧
  inode_table s' = <[Z.to_nat (p - 1) := i <| i_zone := replicate n 0 ++ drop n (i_zone i) |>]> (inode_table s) ∧
  file_table s' = file_table s ∧ user s' = user s.
Lemma free_direct p s i : growing D start nr sb x p s i → ready 2 s →
  (∀ c, slot_ok c → node D start s i c ≠ 0 → unheld s (node D start s i c)) →
  wp (mfor (λ k,
    i ← inode p;
    when (truth (zone i k))
      (free_block (i_dev i) (zone i k);;
       set_inode p (λ i, i <| i_zone ::= <[Z.to_nat k := 0]> |>))) (upto 7)) (λ _, direct_freed p s i 7) s.
Proof.
  intros G HR Hun. pose proof (gw_pointer _ _ _ _ _ _ _ _ G) as Hp. pose proof (gw_inode _ _ _ _ _ _ _ _ G) as Hi.
  pose proof (lookup_lt_Some _ _ _ Hi) as Hlt. pose proof (gw_tree _ _ _ _ _ _ _ _ G) as TR. pose proof (tr_zones _ _ _ _ _ TR) as Hlen.
  apply (wp_mfor_upto _ (direct_freed p s i)).
  - split; [by apply (freed_nil 2)|]. split; [|done]. rewrite list_insert_id; [done|]. rewrite Hi. by destruct i.
  - intros n s' Hn (FR & Ei & Ef & Eu). set (i_n := i <| i_zone := replicate n 0 ++ drop n (i_zone i) |>) in *.
    assert (inode_table s' !! Z.to_nat (p - 1) = Some i_n) as Hi' by (rewrite Ei; apply list_lookup_insert_eq; lia).
    apply wp_bind, (wp_inode p i_n); [done..|]. cbv zeta.
    assert (zone i_n (Z.of_nat n) = zone i (Z.of_nat n)) as ->.
    { unfold zone. simpl. rewrite Nat2Z.id, zeroed_zone; done. }
    assert (nodes s i (Root <$> upto (S n)) = nodes s i (Root <$> upto n) ++
      (if zone i (Z.of_nat n) =? 0 then [] else [zone i (Z.of_nat n)])) as HS.
    { rewrite upto_S, fmap_app, nodes_app. f_equal. unfold nodes. simpl.
      destruct (Z.eqb_spec (zone i (Z.of_nat n)) 0); [by rewrite filter_cons_False by (intros Hne; by apply Hne)|by rewrite filter_cons_True]. }
    assert (i_dev i_n = D) as -> by exact (gw_dev _ _ _ _ _ _ _ _ G).
    destruct (Z.eqb_spec (zone i (Z.of_nat n)) 0) as [E|E].
    + rewrite (proj2 (truth_false _) E). apply wp_ret. unfold direct_freed. rewrite HS, app_nil_r. split; [done|]. split; [|done].
      rewrite Ei. do 2 f_equal. unfold i_n. destruct (lookup_lt_is_Some_2 (i_zone i) n ltac:(lia)) as [z Hz].
      unfold zone in E. rewrite Nat2Z.id, Hz in E. simpl in E. subst z.
      assert (replicate n 0 ++ drop n (i_zone i) = replicate (S n) 0 ++ drop (S n) (i_zone i)) as ->; [|done].
      rewrite (drop_S _ _ _ Hz). by rewrite replicate_S_end, <-app_assoc.
    + rewrite (proj2 (truth_true _) E). unfold when.
      assert (freeable s (nodes s i (Root <$> upto (S n)))) as HL.
      { apply nodes_freeable; [done|done|apply NoDup_fmap_2; [intros ?? [=]; done|apply NoDup_seqZ]|].
        intros c (k & -> & Hk)%elem_of_fmap_upto. simpl. lia. }
      rewrite HS in HL. apply wp_bind. eapply wp_mono.
      { apply (free_one 2); [by apply (ready_freed 2 s (nodes s i (Root <$> upto n)))|].
        by apply (freeable_rest s (nodes s i (Root <$> upto n)) _ s' (rd_cache _ _ HR)). }
      intros [] s2 [FR2 (Ei2 & Ef2 & Eu2)]. apply (wp_set_inode p i_n); [done|by rewrite Ei2|]. unfold direct_freed. rewrite HS.
      split; [|split; [|by split; [rewrite <-Ef, <-Ef2|rewrite <-Eu, <-Eu2]]].
      * apply (freed_then _ _ s2); [by apply (freed_trans s s')|done].
      * simpl. rewrite Ei2, Ei, list_insert_insert_eq. f_equal. unfold i_n. simpl. rewrite Nat2Z.id.
        assert (<[n := 0]> (replicate n 0 ++ drop n (i_zone i)) = replicate (S n) 0 ++ drop (S n) (i_zone i)) as E'
          by (apply zeroed_S; lia).
        destruct i. simpl in *. by rewrite E'.
Qed.

Lemma truncated_freed p s i s1 s2 i2 : growing D start nr sb x p s i → freed s (nodes s i slots) s1 → same_cache s1 s2 →
  file_table s2 = file_table s → user s2 = user s → inode_table s2 = <[Z.to_nat (p - 1) := i2]> (inode_table s) →
  same_attrs i i2 → i_size i2 = 0 → i_zone i2 = replicate 9 0 → truncated p s i s2 i2.
Proof.
  intros G F Hsame Ef Eu Ei HA Es Ez. pose proof (freed_then s _ s1 s2 F Hsame) as F2. pose proof (fr_idle _ _ _ F2) as HI.
  assert (∀ z, (z ∈ nodes s i slots) ↔ z ≠ 0 ∧ ∃ c, slot_ok c ∧ node D start s i c = z) as Hel.
  { intros z. rewrite elem_of_nodes. by setoid_rewrite slots_all. }
  split; try done.
  - apply F2.
  - intros z Hz. rewrite (fr_used _ _ _ F2), andb_true_iff, negb_true_iff, bool_decide_eq_false, Hel by done.
    destruct (zones_ok _ _ _ _ _ _ _ _ G z Hz) as (Hz0 & _). split; intros [H1 H2]; (split; [done|]).
    + intros c Hc E. apply H2. eauto.
    + intros (_ & c & Hc & E). by apply (H2 c).
  - intros blk Hv Hoff Hno. apply (fr_others _ _ _ F2); [done..|]. rewrite Hel. intros (H0 & c & Hc & <-). by apply (Hno c).
  - split.
    + by destruct HI.
    + exact (two_kept D start nr s s2 (gw_cache _ _ _ _ _ _ _ _ G) HI (fr_rest _ _ _ F2) (gw_room _ _ _ _ _ _ _ _ G)).
    + apply F2.
    + apply F2.
    + exact (gw_zones _ _ _ _ _ _ _ _ G).
    + exact (gw_pointer _ _ _ _ _ _ _ _ G).
    + rewrite Ei. apply list_lookup_insert_eq. apply (lookup_lt_Some _ _ _ (gw_inode _ _ _ _ _ _ _ _ G)).
    + destruct HA as (? & ? & ? & ? & ? & ->). exact (gw_dev _ _ _ _ _ _ _ _ G).
    + by apply empty_tree.
Qed.

Lemma wp_truncate p s i : growing D start nr sb x p s i → room_n 2 s → S_ISREG (i_mode i) || S_ISDIR (i_mode i) = true →
  (∀ c, slot_ok c → node D start s i c ≠ 0 → unheld s (node D start s i c)) →
  wp (truncate p) (λ _ s', ∃ i', truncated p s i s' i') s.
Proof.
  intros G Hroom Hmode Hun. pose proof (gw_pointer _ _ _ _ _ _ _ _ G) as Hp. pose proof (gw_inode _ _ _ _ _ _ _ _ G) as Hi.
  pose proof (lookup_lt_Some _ _ _ Hi) as Hlt. pose proof (gw_tree _ _ _ _ _ _ _ _ G) as TR. pose proof (tr_zones _ _ _ _ _ TR) as Hlen.
  pose proof (gw_cache _ _ _ _ _ _ _ _ G) as HC. pose proof (zones_ok _ _ _ _ _ _ _ _ G) as HZ. pose proof (gw_zones _ _ _ _ _ _ _ _ G) as Hfz.
  assert (ready 2 s) as HR.
  { split; [done|done|exact (gw_mounted _ _ _ _ _ _ _ _ G)|exact (gw_unheld _ _ _ _ _ _ _ _ G)]. }
  assert (freeable s (nodes s i slots)) as HL by (apply nodes_freeable; [done|done|exact slots_NoDup|apply slots_all]).
  pose proof (nodes_slots s i) as HS. set (l7 := if zone i 7 =? 0 then [] else below s (zone i 7)) in HS.
  set (l8 := if zone i 8 =? 0 then [] else _ ++ _) in HS. set (l0 := nodes s i (Root <$> upto 7)) in HS.
  unfold truncate. apply wp_bind, (wp_inode p i); [done..|]. rewrite Hmode. simpl negb. cbv iota.
  apply wp_bind. eapply wp_mono; [apply (free_direct p s i G HR Hun)|]. intros [] s1 (F1 & Ei1 & Ef1 & Eu1). fold l0 in F1.
  set (i1 := i <| i_zone := replicate 7 0 ++ drop 7 (i_zone i) |>) in *.
  assert (inode_table s1 !! Z.to_nat (p - 1) = Some i1) as Hi1 by (rewrite Ei1; apply list_lookup_insert_eq; lia).
  assert (zone i1 7 = zone i 7 ∧ zone i1 8 = zone i 8) as [E7 E8].
  { split; apply (f_equal (default 0)); [exact (zeroed_zone (i_zone i) 7 7 ltac:(lia))|exact (zeroed_zone (i_zone i) 7 8 ltac:(lia))]. }
  assert (i_dev i1 = D) as HD by exact (gw_dev _ _ _ _ _ _ _ _ G).
  apply wp_bind, (wp_inode p i1); [done..|]. rewrite HD, E7.
  rewrite HS in HL. pose proof (freeable_rest s l0 (l7 ++ l8) s1 HC HL F1) as HL1.
  assert (∀ z, z ∈ l7 ++ l8 → content D start s1 z = content D start s z) as Hc1 by (intros z; by apply (other_content s l0 (l7 ++ l8))).
  apply wp_bind. eapply wp_mono.
  { apply (free_ind_gives_back Hfz HZ s s1 1 (zone i 7)); [by apply (ready_freed 2 s l0)| |fold l7; by destruct (freeable_app _ _ _ HL1)].
    intros H7. apply Hc1, elem_of_app. left. unfold l7. rewrite (proj2 (Z.eqb_neq _ 0) H7). apply elem_of_app. right. by left. }
  fold l7. intros [] s2 [F2 (Ei2 & Ef2 & Eu2)]. pose proof (freed_trans s s1 s2 l0 l7 F1 F2) as F12.
  apply wp_bind, (wp_inode p i1); [done|by rewrite Ei2|]. rewrite HD, E8. rewrite app_assoc in HL.
  pose proof (freeable_rest s (l0 ++ l7) l8 s2 HC HL F12) as HL2.
  assert (∀ z, z ∈ l8 → content D start s2 z = content D start s z) as Hc2 by (intros z; by apply (other_content s (l0 ++ l7) l8)).
  apply wp_bind. eapply wp_mono.
  { apply (free_dind_gives_back Hfz HZ s s2 0 (zone i 8)); [by apply (ready_freed 2 s (l0 ++ l7))| | |done].
    - intros H8. apply Hc2. unfold l8. rewrite (proj2 (Z.eqb_neq _ 0) H8). apply elem_of_app. right. by left.
    - intros H8 e He. apply Hc2. unfold l8. rewrite (proj2 (Z.eqb_neq _ 0) H8). apply elem_of_app. left.
      apply list_elem_of_bind. exists e. split; [|done]. apply elem_of_app. right. by left. }
  fold l8. intros [] s3 [F3 (Ei3 & Ef3 & Eu3)]. pose proof (freed_trans s s2 s3 _ l8 F12 F3) as F. rewrite <-app_assoc, <-HS in F.
  assert (inode_table s3 = <[Z.to_nat (p - 1) := i1]> (inode_table s)) as Ei by congruence.
  assert (∀ j, <[Z.to_nat (p - 1) := j]> (inode_table s) !! Z.to_nat (p - 1) = Some j) as Hset by (intros j; apply list_lookup_insert_eq; lia).
  apply wp_bind, (wp_set_inode p i1); [done|by rewrite Ei|]. apply wp_bind. eapply wp_set_inode; [done|simpl; rewrite Ei, list_insert_insert_eq; apply Hset|].
  apply wp_bind. eapply wp_set_inode; [done|simpl; rewrite Ei, !list_insert_insert_eq; apply Hset|].
  apply wp_bind, wp_CURRENT_TIME. intros now.
  eapply wp_set_inode; [done|simpl; rewrite Ei, !list_insert_insert_eq; apply Hset|].
  eexists. eapply (truncated_freed p s i s3 _ _ G F); [done|exact (eq_trans Ef3 (eq_trans Ef2 Ef1))|exact (eq_trans Eu3 (eq_trans Eu2 Eu1))|
    simpl; rewrite Ei, !list_insert_insert_eq; reflexivity|..].
  - eexists _, 0, (u64 now), (u64 now), 1. unfold i1. destruct i. reflexivity.
  - done.
  - simpl. destruct (i_zone i) as [|? [|? [|? [|? [|? [|? [|? [|? [|? [|? ?]]]]]]]]]]; simpl in Hlen; try lia. done.
Qed.
End Trunc.

(** C3: truncate gives back exactly the zones of the file.  For a regular file or
    a directory on a mounted partition whose zones and tables are used, no two
    the same, and in use by no task, it ends, and after it a zone is used if it was
    used before and was none of the file's (data block, table, or table below a
    table); the file has no zones and no size; no other block, inode or file has
    changed, the buffers have the users they had, and the file can grow again. *)
Theorem truncate_gives_back_the_file D start nr sb x p s i :
  growing D start nr sb x p s i → room_n 2 s → S_ISREG (i_mode i) || S_ISDIR (i_mode i) = true →
  (∀ c, slot_ok c → node D start s i c ≠ 0 → unheld D s (node D start s i c)) →
  ∃ s' i', truncate p s = Ret tt s' ∧ truncated D start nr sb x p s i s' i'.
Proof.
  intros G HR Hm Hun. destruct (wp_returns _ _ _ (wp_truncate D start nr sb x p s i G HR Hm Hun)) as ([] & s' & E & i' & T).
  by exists s', i'.
Qed.

Lemma grow_room_n : room_n 2 fs_grow.
Proof.
  assert (∀ s p q, p ≠ q → is_free s p && is_free s q = true → map_Forall (λ _ b, b_count b + Z.of_nat 2 < 255) (heads s) →
    room_n 2 (with_file inode_4 s)) as H.
  { intros s p q Hpq [Hp Hq]%andb_prop Hlt. split; [|exact Hlt]. exists [p; q]. split.
    - constructor; [by rewrite list_elem_of_singleton|apply NoDup_singleton].
    - split; [done|]. unfold is_free in *. intros r [-> | ->%list_elem_of_singleton]%elem_of_cons.
      + destruct (heads s !! p) as [b|] eqn:E; [|done]. exists b. split; [exact E|by apply Z.eqb_eq].
      + destruct (heads s !! q) as [b|] eqn:E; [|done]. exists b. split; [exact E|by apply Z.eqb_eq]. }
  apply (H fs_small 2 3); [done|vm_compute; reflexivity|]. apply (bool_decide_unpack _). vm_compute. reflexivity.
Qed.
Lemma inode_4_unheld D start s : unheld D s 4 →
  ∀ c, slot_ok c → node D start (with_file inode_4 s) inode_4 c ≠ 0 → unheld D (with_file inode_4 s) (node D start (with_file inode_4 s) inode_4 c).
Proof.
  intros HU c Hc. rewrite inode_4_nodes by done. destruct (decide (c = Root 0)); [intros _; exact HU|intros Hne; by destruct Hne].
Qed.
Lemma truncate_gives_back_the_file_witness :
  ∃ s' i', truncate 1 fs_grow = Ret tt s' ∧ truncated 0x300 0 64 1 small_super 1 fs_grow inode_4 s' i'.
Proof.
  apply (truncate_gives_back_the_file 0x300 0 64 1 small_super 1 fs_grow inode_4 grow_growing grow_room_n); [reflexivity|].
  apply inode_4_unheld. intros q b Hb Hd Hz.
  apply (sf_unheld _ _ _ _ _ _ _ small_stands q b Hb Hd). rewrite Hz. unfold data_zone. simpl. lia.
Defined.
