(* ===== verification/ProcFacts.v ===== *)
(** * Processes: pids, signals

    find_empty_process always ends, with a pid that no task has; kill changes
    the signals of exactly the tasks it names and may change. *)

From S2P Require Export Proc FsFacts.
From S2P Require Import SchedFacts Wait FsBoot.

(** ** The tasks of a state *)

Definition tasks (s : proc) : sched := sch (fsys s).
Definition with_tasks (s : proc) (c : sched) : proc := s <| fsys := with_sch (fsys s) c |>.

Lemma with_tasks_id s : with_tasks s (tasks s) = s.
Proof. by destruct s as [[? ? ? ? ? ? ? ? ? ? ? ? [] ?] ? ? ?]. Qed.
Lemma with_tasks_twice s c c' : with_tasks (with_tasks s c) c' = with_tasks s c'.
Proof. done. Qed.
Lemma tasks_with s c : tasks (with_tasks s c) = c.
Proof. done. Qed.

Lemma on_tasks_Ret {A} (m : M sched A) s a c :
  m (tasks s) = Ret a c → on_tasks m s = Ret a (with_tasks s c).
Proof.
  intros H. unfold on_tasks, in_fs, in_sched, in_tty, zoom. change (TtyIo.sch (term (fsys s))) with (tasks s).
  by rewrite H.
Qed.
Lemma wp_on_tasks {A} (m : M sched A) (Q : A → proc → Prop) s :
  wp m (λ a c, Q a (with_tasks s c)) (tasks s) → wp (on_tasks m) Q s.
Proof. intros H. unfold on_tasks, in_fs. apply wp_zoom. by apply wp_in_sched. Qed.
(** An access that only reads the tasks. *)
Lemma on_tasks_reads {A} (m : M sched A) s a :
  m (tasks s) = Ret a (tasks s) → on_tasks m s = Ret a s.
Proof. intros H. rewrite (on_tasks_Ret m s a (tasks s) H). by rewrite with_tasks_id. Qed.

Section Access.
Implicit Types s : proc.

Lemma task_p_Ret s p t : heap (tasks s) !! p = Some t → task_p p s = Ret t s.
Proof. intros H. by apply on_tasks_reads, deref_Ret. Qed.
Lemma set_task_p_Ret s p t f : heap (tasks s) !! p = Some t →
  set_task_p p f s = Ret tt (with_tasks s ((tasks s) <| heap ::= <[p := f t]> |>)).
Proof. intros H. by apply on_tasks_Ret, set_task_Ret. Qed.
Lemma slot_Ret s i p : 0 ≤ i → task (tasks s) !! Z.to_nat i = Some p → slot i s = Ret p s.
Proof.
  intros Hi H. apply on_tasks_reads. unfold task_at, gets, mbind, M_bind. by apply index_Some.
Qed.
Lemma me_Ret s t : heap (tasks s) !! current (tasks s) = Some t → me s = Ret t s.
Proof.
  intros H. apply (on_tasks_reads cur_task). unfold cur_task, gets, mbind, M_bind. by apply deref_Ret.
Qed.
End Access.

(** The slots of the table in a state. *)
Lemma slot_lookup c i : wf_sched c → 0 ≤ i < 64 → ∃ p, task c !! Z.to_nat i = Some p.
Proof.
  intros [Hl _ _ _] Hi. apply lookup_lt_is_Some_2. rewrite Hl. unfold NR_TASKS. lia.
Qed.

(** ** Pids *)

(** The pids of the tasks in the table, slot by slot. *)
Definition pids (c : sched) : list Z :=
  omap (λ i, p ← task c !! Z.to_nat i; if p =? 0 then None else Task.pid <$> heap c !! p) (upto NR_TASKS).
Definition pid_of (c : sched) (pid : Z) : Prop := ∃ i t, i < 64 ∧ in_slot c i t ∧ Task.pid t = pid.

Lemma elem_of_pids c pid : pid ∈ pids c ↔ pid_of c pid.
Proof.
  unfold pids, pid_of, in_slot, slot_ptr. rewrite list_elem_of_omap. split.
  - intros (i & Hi & H). apply elem_of_upto in Hi. change (Z.of_nat NR_TASKS) with 64 in Hi.
    destruct (task c !! Z.to_nat i) as [p|] eqn:Ep; [|done]. simpl in H.
    destruct (Z.eqb_spec p 0); [done|]. destruct (heap c !! p) as [t|] eqn:Et; [|done].
    injection H as <-. exists i, t. split; [lia|]. split; [|done]. exists p. split_and!; [lia|done..].
  - intros (i & t & Hi & (p & (Hi0 & Hp & Hp0) & Ht) & <-). exists i. split; [apply elem_of_upto; change (Z.of_nat NR_TASKS) with 64; lia|].
    rewrite Hp. simpl. rewrite (proj2 (Z.eqb_neq p 0) Hp0), Ht. done.
Qed.
Lemma omap_length_le {A B} (f : A → option B) l : (length (omap f l) ≤ length l)%nat.
Proof. induction l as [|i l IH]; csimpl; [lia|]. destruct (f i); csimpl; lia. Qed.
Lemma pids_length c : (length (pids c) ≤ NR_TASKS)%nat.
Proof.
  unfold pids. etrans; [apply omap_length_le|]. unfold upto. rewrite length_seqZ. lia.
Qed.
#[local] Instance pid_of_dec c pid : Decision (pid_of c pid).
Proof. destruct (decide (pid ∈ pids c)) as [H|H]; [left|right]; by rewrite <-elem_of_pids. Defined.

Lemma pid_in_use_run s pid : wf_sched (tasks s) →
  pid_in_use pid s = Ret (bool_decide (pid_of (tasks s) pid)) s.
Proof.
  intros Hwf. unfold pid_in_use.
  set (body := λ i, p ← slot i; if p =? 0 then mret None else t ← task_p p;
                 mret (if Task.pid t =? pid then Some tt else None)).
  assert (∀ i p, 0 ≤ i < 64 → task (tasks s) !! Z.to_nat i = Some p →
    (body i s = Ret None s ∧ ∀ t, in_slot (tasks s) i t → Task.pid t ≠ pid) ∨
    (body i s = Ret (Some tt) s ∧ pid_of (tasks s) pid)) as Hbody.
  { intros i p Hi Hp. unfold body. mstep (slot_Ret s i p ltac:(lia) Hp).
    destruct (Z.eqb_spec p 0) as [->|Hp0].
    { left. split; [done|]. intros t (q & (_ & Hq & Hq0) & _). congruence. }
    destruct (ws_live _ Hwf i p) as (t & Ht & _); [split_and!; [lia|done..]|]. mstep (task_p_Ret s p t Ht).
    destruct (Z.eqb_spec (Task.pid t) pid).
    - right. split; [done|]. exists i, t. split; [lia|]. split; [|done]. exists p. split; [split_and!; [lia|done..]|done].
    - left. split; [done|]. intros t' (q & (_ & Hq & Hq0) & Ht'). congruence. }
  assert (wp (mloop body (upto NR_TASKS)) (λ r s', s' = s ∧
    match r with Some _ => pid_of (tasks s) pid | None => ∀ i t, i < 64 → in_slot (tasks s) i t → Task.pid t ≠ pid end) s) as H.
  { apply (wp_mloop_upto _ (λ k s', s' = s ∧ ∀ i t, i < Z.of_nat k → in_slot (tasks s) i t → Task.pid t ≠ pid)).
    - split; [done|]. intros i t Hi (p & (Hi0 & _) & _). lia.
    - intros k s' Hk [-> Hno]. change NR_TASKS with 64%nat in Hk.
      destruct (slot_lookup (tasks s) (Z.of_nat k) Hwf) as [p Hp]; [lia|].
      destruct (Hbody (Z.of_nat k) p) as [[E Hn]|[E Hyes]]; [lia|done|..]; (eapply wp_of_ret; [exact E|]).
      + split; [done|]. intros i t Hi. destruct (decide (i = Z.of_nat k)) as [->|]; [by apply Hn|]. apply Hno. lia.
      + done.
    - intros s' [-> Hno]. done. }
  apply wp_returns in H as (r & s' & E & -> & H). mstep E. destruct r as [[]|].
  - by rewrite bool_decide_true.
  - rewrite bool_decide_false; [done|]. intros (i & t & Hi & Hin & Hp). by apply (H i t).
Qed.

(** The pids that find_empty_process tries after [last]: 1 follows the greatest. *)
Definition pid_after (last : Z) : Z := if s64 (last + 1) <? 0 then 1 else s64 (last + 1).
Lemma pid_after_range last : 0 ≤ last < 2 ^ 63 → 0 < pid_after last < 2 ^ 63.
Proof.
  intros H. unfold pid_after. destruct (decide (last + 1 = 2 ^ 63)) as [->|].
  - change (s64 (2 ^ 63)) with (- 2 ^ 63). simpl. lia.
  - rewrite s64_small by lia. destruct (Z.ltb_spec (last + 1) 0); lia.
Qed.
(** The [k]-th of them. *)
Definition pid_try (last : Z) (k : nat) : Z := Nat.iter k pid_after last.
Lemma pid_try_value last k : 0 ≤ last < 2 ^ 63 → (k < 100)%nat →
  pid_try last k = if last + Z.of_nat k <? 2 ^ 63 then last + Z.of_nat k else last + Z.of_nat k - 2 ^ 63 + 1.
Proof.
  intros Hl. induction k as [|k IH]; intros Hk.
  { simpl. destruct (Z.ltb_spec (last + Z.of_nat 0) (2 ^ 63)); lia. }
  change (pid_try last (S k)) with (pid_after (pid_try last k)). rewrite IH by lia. unfold pid_after.
  destruct (Z.ltb_spec (last + Z.of_nat k) (2 ^ 63)).
  - destruct (decide (last + Z.of_nat k + 1 = 2 ^ 63)) as [E|].
    + rewrite E. change (s64 (2 ^ 63)) with (- 2 ^ 63). change (- 2 ^ 63 <? 0) with true. cbv iota.
      destruct (Z.ltb_spec (last + Z.of_nat (S k)) (2 ^ 63)); lia.
    + rewrite s64_small by lia. rewrite (proj2 (Z.ltb_ge _ 0)) by lia.
      destruct (Z.ltb_spec (last + Z.of_nat (S k)) (2 ^ 63)); lia.
  - rewrite s64_small by lia. rewrite (proj2 (Z.ltb_ge _ 0)) by lia.
    destruct (Z.ltb_spec (last + Z.of_nat (S k)) (2 ^ 63)); lia.
Qed.
Lemma pid_try_inj last j k : 0 ≤ last < 2 ^ 63 → (0 < j < 100)%nat → (0 < k < 100)%nat →
  pid_try last j = pid_try last k → j = k.
Proof.
  intros Hl Hj Hk. rewrite !pid_try_value by lia.
  destruct (Z.ltb_spec (last + Z.of_nat j) (2 ^ 63)), (Z.ltb_spec (last + Z.of_nat k) (2 ^ 63)); lia.
Qed.

(** Of 65 pids one is not in use: there are 64 tasks. *)
Lemma pid_exists c last : 0 ≤ last < 2 ^ 63 → ∃ k, (0 < k ≤ 65)%nat ∧ ¬ pid_of c (pid_try last k).
Proof.
  intros Hl. destruct (decide (Exists (λ k, ¬ pid_of c (pid_try last k)) (seq 1 65))) as [H|H].
  { apply Exists_exists in H as (k & Hk%elem_of_seq & H). exists k. split; [lia|done]. }
  exfalso. assert (NoDup (pid_try last <$> seq 1 65)) as Hnd.
  { apply NoDup_fmap_2_strong; [|apply NoDup_seq]. intros j k Hj%elem_of_seq Hk%elem_of_seq. apply pid_try_inj; [done|lia..]. }
  assert (pid_try last <$> seq 1 65 ⊆ pids c) as Hsub.
  { intros x (k & -> & Hk)%list_elem_of_fmap. apply elem_of_pids.
    destruct (decide (pid_of c (pid_try last k))) as [|Hn]; [done|]. destruct H. apply Exists_exists. eauto. }
  pose proof (submseteq_length _ _ (NoDup_submseteq _ _ Hnd Hsub)) as Hlen.
  rewrite length_fmap, length_seq in Hlen. pose proof (pids_length c). unfold NR_TASKS in *. lia.
Qed.

(** The loop on the label repeat tries the pids one after the other. *)
Lemma next_pid_run k : ∀ fuel s, wf_sched (tasks s) → 0 ≤ last_pid s < 2 ^ 63 → (0 < k ≤ fuel)%nat →
  (∀ j, (0 < j < k)%nat → pid_of (tasks s) (pid_try (last_pid s) j)) →
  ¬ pid_of (tasks s) (pid_try (last_pid s) k) →
  next_pid fuel s = Ret tt (s <| last_pid := pid_try (last_pid s) k |>).
Proof.
  induction k as [|k IH]; intros fuel s Hwf Hl Hk Hused Hfree; [lia|]. destruct fuel as [|fuel]; [lia|].
  cbn [next_pid]. rewrite bind_modify.
  set (s1 := s <| last_pid ::= _ |>). assert (last_pid s1 = pid_after (last_pid s)) as El by done.
  assert (tasks s1 = tasks s) as Et by done. assert (∀ j, pid_try (last_pid s1) j = pid_try (last_pid s) (S j)) as Hshift.
  { intros j. rewrite El. unfold pid_try. by rewrite Nat.iter_succ_r. }
  rewrite bind_gets. rewrite (bind_ret _ _ _ _ _ (pid_in_use_run s1 (last_pid s1) ltac:(by rewrite Et))).
  rewrite Et. destruct k as [|k].
  - rewrite bool_decide_false by (rewrite El; exact Hfree). done.
  - rewrite bool_decide_true by (rewrite El; exact (Hused 1%nat ltac:(lia))).
    rewrite (IH fuel s1); [by rewrite Hshift| |rewrite El; pose proof (pid_after_range (last_pid s) Hl); lia|lia|..].
    + by rewrite Et.
    + intros j Hj. rewrite Et, Hshift. apply Hused. lia.
    + by rewrite Et, Hshift.
Qed.

Lemma minimal_free (P : nat → Prop) `{!∀ k, Decision (P k)} n : P n →
  ∃ k, (k ≤ n)%nat ∧ P k ∧ ∀ j, (j < k)%nat → ¬ P j.
Proof.
  induction n as [n IH] using (well_founded_induction Nat.lt_wf_0). intros Hn.
  destruct (decide (Exists P (seq 0 n))) as [Hex|Hex].
  - apply Exists_exists in Hex as (j & Hj%elem_of_seq & Hp). destruct (IH j ltac:(lia) Hp) as (k & ? & ?). exists k. split; [lia|done].
  - exists n. split; [lia|]. split; [done|]. intros j Hj Hp. apply Hex, Exists_exists. exists j. split; [apply elem_of_seq; lia|done].
Qed.

(** The first free slot, from 1 on. *)
Definition free_slot (c : sched) (r : Z) : Prop :=
  1 ≤ r < 64 ∧ task c !! Z.to_nat r = Some 0 ∧ ∀ i, 1 ≤ i < r → task c !! Z.to_nat i ≠ Some 0.
Definition table_full (c : sched) : Prop := ∀ i, 1 ≤ i < 64 → task c !! Z.to_nat i ≠ Some 0.

(** The search for the first slot from 1 on whose pointer passes a test. *)
Definition first_slot (P : Z → bool) (c : sched) (r : option Z) : Prop :=
  match r with
  | Some i => 1 ≤ i < 64 ∧ (∃ p, task c !! Z.to_nat i = Some p ∧ P p = true) ∧
      ∀ j p, 1 ≤ j < i → task c !! Z.to_nat j = Some p → P p = false
  | None => ∀ j p, 1 ≤ j < 64 → task c !! Z.to_nat j = Some p → P p = false
  end.
Lemma slot_search (P : Z → bool) s : wf_sched (tasks s) →
  ∃ r, mloop (λ i, p ← slot (i + 1); mret (if P p then Some (i + 1) else None)) (upto (NR_TASKS - 1)) s = Ret r s ∧
    first_slot P (tasks s) r.
Proof.
  intros Hwf.
  assert (wp (mloop (λ i, p ← slot (i + 1); mret (if P p then Some (i + 1) else None)) (upto (NR_TASKS - 1)))
    (λ r s', s' = s ∧ first_slot P (tasks s) r) s) as H.
  { apply (wp_mloop_upto _ (λ k s', s' = s ∧ ∀ i p, 1 ≤ i < Z.of_nat k + 1 → task (tasks s) !! Z.to_nat i = Some p → P p = false)).
    - split; [done|]. lia.
    - intros k s' Hk [-> Hno]. change (NR_TASKS - 1)%nat with 63%nat in Hk.
      destruct (slot_lookup (tasks s) (Z.of_nat k + 1) Hwf) as [p Hp]; [lia|].
      apply wp_bind. eapply wp_of_ret; [apply (slot_Ret s _ p); [lia|done]|]. apply wp_ret.
      destruct (P p) eqn:HP.
      + split; [done|]. split; [lia|]. eauto.
      + split; [done|]. intros i q Hi Hq. destruct (decide (i = Z.of_nat k + 1)) as [->|]; [congruence|]. apply (Hno i); [lia|done].
    - intros s' [-> Hno]. done. }
  apply wp_returns in H as (r & s' & E & -> & H). eauto.
Qed.

(** C19: find_empty_process always returns.  It leaves in last_pid the first pid
    after the last one, in the cyclic order of the positive longs, that no task
    has; at most 65 are tried.  Its result is the first free slot of the table from 1 on,
    or -EAGAIN if there is none (the pid is used up even then), and nothing but
    last_pid changes. *)
Theorem find_empty_process_gives_free_pid s : wf_sched (tasks s) → 0 ≤ last_pid s < 2 ^ 63 →
  ∃ k r, (0 < k ≤ 65)%nat ∧
    find_empty_process s = Ret r (s <| last_pid := pid_try (last_pid s) k |>) ∧
    0 < pid_try (last_pid s) k < 2 ^ 63 ∧
    (∀ j, (0 < j < k)%nat → pid_of (tasks s) (pid_try (last_pid s) j)) ∧
    ¬ pid_of (tasks s) (pid_try (last_pid s) k) ∧
    (free_slot (tasks s) r ∨ r = - EAGAIN ∧ table_full (tasks s)).
Proof.
  intros Hwf Hl. destruct (pid_exists (tasks s) (last_pid s) Hl) as (k0 & Hk0 & Hf0).
  destruct (minimal_free (λ k, (0 < k)%nat ∧ ¬ pid_of (tasks s) (pid_try (last_pid s) k)) k0) as (k & Hk & [Hk1 Hf] & Hmin);
    [by split; [lia|]|].
  assert (∀ j, (0 < j < k)%nat → pid_of (tasks s) (pid_try (last_pid s) j)) as Hused.
  { intros j Hj. destruct (decide (pid_of (tasks s) (pid_try (last_pid s) j))) as [|Hn]; [done|]. destruct (Hmin j); [lia|]. by split; [lia|]. }
  set (s1 := s <| last_pid := pid_try (last_pid s) k |>).
  destruct (slot_search (λ p, p =? 0) s1) as (r & Er & Hr); [done|].
  exists k, (default (- EAGAIN) r). split; [lia|]. split.
  { unfold find_empty_process. rewrite (bind_ret _ _ _ _ _ (next_pid_run k (S NR_TASKS) s Hwf Hl ltac:(unfold NR_TASKS; lia) Hused Hf)).
    fold s1. by mstep Er. }
  split; [|split_and!; [done|done|]].
  - destruct k; [lia|]. apply pid_after_range. clear -Hl. induction k as [|k IH]; [done|]. pose proof (pid_after_range _ IH). simpl. lia.
  - change (tasks s1) with (tasks s) in Hr. destruct r as [r|]; [left|right; split; [done|]].
    + destruct Hr as (Hr & (p & Hp & ->%Z.eqb_eq) & Hno). split; [done|]. split; [done|]. intros i Hi Hq. by apply (Hno i 0) in Hq.
    + intros i Hi Hq. by apply (Hr i 0) in Hq.
Qed.

(** ** Signals *)

(** The signal that send_sig adds, and who may send one. *)
Definition signalled (sig : Z) (t : Task.task_struct) : Task.task_struct :=
  t <| Task.signal ::= λ x, x .| s32 (Z.shiftl 1 (sig - 1)) |>.
Definition may_signal (c t : Task.task_struct) : Prop :=
  Task.uid c = Task.uid t ∨ Task.euid c = Task.uid t ∨ Task.uid c = Task.euid t ∨ Task.euid c = Task.euid t.
(** The tasks that kill(pid) is for, of the running task [c]. *)
Definition kill_for (pid : Z) (c t : Task.task_struct) : Prop :=
  (pid = 0 ∧ Task.pgrp t = Task.pid c) ∨ (0 < pid ∧ Task.pid t = pid) ∨ pid = -1 ∨
  (pid < -1 ∧ Task.pgrp t = - pid).
Definition kill_hits (pid sig : Z) (priv : bool) (c t : Task.task_struct) : Prop :=
  kill_for pid c t ∧ 1 ≤ sig ≤ 32 ∧ (priv = true ∨ may_signal c t).
#[local] Instance kill_hits_dec pid sig priv c t : Decision (kill_hits pid sig priv c t).
Proof. unfold kill_hits, kill_for, may_signal. apply _. Defined.
Definition killed (pid sig : Z) (priv : bool) (c t : Task.task_struct) : Task.task_struct :=
  if decide (kill_hits pid sig priv c t) then signalled sig t else t.

Lemma kill_target_for pid c t : - 2 ^ 31 ≤ pid < 2 ^ 31 → kill_target pid c t = true ↔ kill_for pid c t.
Proof.
  intros Hp. unfold kill_target, kill_for. rewrite s64_small by lia.
  destruct (Z.eqb_spec pid 0); [rewrite Z.eqb_eq; lia|]. destruct (Z.ltb_spec 0 pid); [rewrite Z.eqb_eq; lia|].
  destruct (Z.eqb_spec pid (-1)); [by intuition|]. rewrite Z.eqb_eq. lia.
Qed.

(** The identity of a task, which a signal does not change. *)
Definition same_id (c c' : Task.task_struct) : Prop :=
  Task.pid c = Task.pid c' ∧ Task.uid c = Task.uid c' ∧ Task.euid c = Task.euid c'.
Lemma killed_same_id pid sig priv c t : same_id t (killed pid sig priv c t).
Proof. unfold killed. by case_decide. Qed.
Lemma killed_same pid sig priv c c' t : same_id c c' → killed pid sig priv c' t = killed pid sig priv c t.
Proof.
  intros (E1 & E2 & E3). unfold killed. apply decide_ext. unfold kill_hits, kill_for, may_signal. by rewrite <-E1, <-E2, <-E3.
Qed.

(** The state with another heap of tasks. *)
Definition with_heap (s : proc) (h : gmap Z Task.task_struct) : proc := with_tasks s ((tasks s) <| heap := h |>).
Lemma with_heap_id s : with_heap s (heap (tasks s)) = s.
Proof. unfold with_heap. etrans; [|apply with_tasks_id]. by destruct (tasks s). Qed.

Lemma send_sig_run s sig p priv c t pid : p ≠ 0 → heap (tasks s) !! current (tasks s) = Some c →
  heap (tasks s) !! p = Some t → kill_for pid c t →
  send_sig sig p priv s = Ret tt (with_heap s (<[p := killed pid sig priv c t]> (heap (tasks s)))).
Proof.
  intros Hp Hc Ht Hfor. unfold send_sig. rewrite (proj2 (Z.eqb_neq p 0) Hp). rewrite orb_false_l. unfold killed.
  destruct ((sig <? 1) || (32 <? sig)) eqn:Hs.
  { rewrite decide_False by (unfold kill_hits; lia). rewrite insert_id by done. by rewrite with_heap_id. }
  mstep (me_Ret s c Hc). mstep (task_p_Ret s p t Ht).
  set (b := priv || _ || _ || _ || _). assert (b = true ↔ priv = true ∨ may_signal c t) as Hb.
  { unfold b, may_signal. rewrite !orb_true_iff, !Z.eqb_eq. tauto. }
  destruct b; unfold when.
  - rewrite decide_True by (split_and!; [done|lia|lia|tauto]). by rewrite (set_task_p_Ret s p t).
  - rewrite decide_False by (intros (_ & _ & H); by apply Hb in H). rewrite insert_id by done. by rewrite with_heap_id.
Qed.

(** A task of the slots [l]. *)
Definition among (c : sched) (l : list Z) (p : Z) : Prop := ∃ i, i ∈ l ∧ slot_ptr c i p.
#[local] Instance among_dec c l p : Decision (among c l p).
Proof.
  refine (cast_if (decide (Exists (λ i, 0 ≤ i ∧ task c !! Z.to_nat i = Some p ∧ p ≠ 0) l))); by rewrite Exists_exists in *.
Defined.
Section Kill.
Context (pid sig : Z) (priv : bool) (c : Task.task_struct) (Hpid : - 2 ^ 31 ≤ pid < 2 ^ 31).

Definition kill_body (i : Z) : M proc () :=
  p ← slot i;
  if p =? 0 then mret () else
  c ← me;
  t ← task_p p;
  when (kill_target pid c t) (send_sig sig p priv).
Definition kill_done (c0 : sched) (l : list Z) (h : gmap Z Task.task_struct) : Prop :=
  (∀ p t, among c0 l p → heap c0 !! p = Some t → h !! p = Some (killed pid sig priv c t)) ∧
  (∀ p, ¬ among c0 l p → h !! p = heap c0 !! p).

Lemma kill_body_run s i p c' t : 0 ≤ i → task (tasks s) !! Z.to_nat i = Some p → p ≠ 0 →
  heap (tasks s) !! current (tasks s) = Some c' → same_id c c' → heap (tasks s) !! p = Some t →
  kill_body i s = Ret tt (with_heap s (<[p := killed pid sig priv c t]> (heap (tasks s)))).
Proof.
  intros Hi Hp Hp0 Hc Hid Ht. unfold kill_body. mstep (slot_Ret s i p Hi Hp). rewrite (proj2 (Z.eqb_neq p 0) Hp0).
  mstep (me_Ret s c' Hc). mstep (task_p_Ret s p t Ht). rewrite <-(killed_same pid sig priv c c' t Hid).
  pose proof (kill_target_for pid c' t Hpid) as Hfor. destruct (kill_target pid c' t).
  - by apply send_sig_run; [..|apply Hfor].
  - unfold killed. rewrite decide_False by (intros [H _]; by apply Hfor in H). rewrite insert_id by done. by rewrite with_heap_id.
Qed.

Lemma kill_loop s l : wf_sched (tasks s) → heap (tasks s) !! current (tasks s) = Some c →
  NoDup l → (∀ i, i ∈ l → 0 ≤ i < 64) →
  ∃ h, mfor kill_body l s = Ret tt (with_heap s h) ∧ kill_done (tasks s) l h.
Proof.
  intros Hwf Hc. assert (∀ l' h, NoDup (l' ++ l) → (∀ i, i ∈ l → 0 ≤ i < 64) → kill_done (tasks s) l' h →
    ∃ h', mfor kill_body l (with_heap s h) = Ret tt (with_heap s h') ∧ kill_done (tasks s) (l' ++ l) h') as H.
  { induction l as [|i l IH]; intros l' h Hnd Hl [H1 H2].
    { exists h. split; [done|]. by rewrite app_nil_r. }
    rewrite mfor_cons. destruct (slot_lookup (tasks s) i Hwf) as [p Hp]; [apply Hl; left|].
    assert (0 ≤ i < 64) as Hi by (apply Hl; left).
    assert (∀ q, among (tasks s) (l' ++ [i]) q ↔ among (tasks s) l' q ∨ p ≠ 0 ∧ q = p) as Ham.
    { intros q. unfold among. setoid_rewrite elem_of_app. setoid_rewrite list_elem_of_singleton. split.
      - intros (j & [Hj| ->] & Hq); [left; eauto|right]. destruct Hq as (_ & Hq & Hq0). split; congruence.
      - intros [(j & Hj & Hq)|[Hp0 ->]]; [eauto|]. exists i. split; [by right|]. split_and!; [lia|done..]. }
    assert (∃ h1, kill_body i (with_heap s h) = Ret tt (with_heap s h1) ∧ kill_done (tasks s) (l' ++ [i]) h1) as (h1 & E1 & D1).
    { destruct (decide (p = 0)) as [->|Hp0].
      - exists h. split.
        + unfold kill_body. by mstep (slot_Ret (with_heap s h) i 0 ltac:(lia) Hp).
        + split; intros q; [intros t [Hq|[]]%Ham; [auto|done]|intros Hq; apply H2; intros Hq'; apply Hq, Ham; tauto].
      - assert (¬ among (tasks s) l' p) as Hnew.
        { intros (j & Hj & Hq). assert (j = i) as -> by (eapply (ws_inj _ Hwf); [exact Hq|split_and!; [lia|done..]]).
          apply NoDup_app in Hnd as (_ & Hd & _). apply (Hd i Hj). left. }
        destruct (ws_live _ Hwf i p) as (t & Ht & _); [split_and!; [lia|done..]|].
        exists (<[p := killed pid sig priv c t]> h). split.
        + destruct (decide (among (tasks s) l' (current (tasks s)))) as [Hcur|Hcur].
          * rewrite (kill_body_run (with_heap s h) i p (killed pid sig priv c c) t); [done|lia|done|done|..].
            -- by apply H1.
            -- apply killed_same_id.
            -- change (h !! p = Some t). by rewrite H2.
          * rewrite (kill_body_run (with_heap s h) i p c t); [done|lia|done|done|..].
            -- change (h !! current (tasks s) = Some c). by rewrite H2.
            -- done.
            -- change (h !! p = Some t). by rewrite H2.
        + split; intros q.
          * intros t' [Hq|[_ ->]]%Ham Ht'.
            -- rewrite lookup_insert_ne; [by apply H1|]. intros <-. done.
            -- rewrite lookup_insert_eq. congruence.
          * intros Hq. rewrite Ham in Hq. rewrite lookup_insert_ne; [apply H2; tauto|]. intros <-. tauto. }
    mstep E1. destruct (IH (l' ++ [i]) h1) as (h2 & E2 & D2); [by rewrite <-app_assoc|intros j Hj; apply Hl; by right|done|].
    exists h2. rewrite <-app_assoc in D2. done. }
  intros Hnd Hl. destruct (H [] (heap (tasks s))) as (h' & E & D); [done|done| |exists h'; by rewrite with_heap_id in E].
  split; [|done]. intros p t (i & Hi & _). by apply not_elem_of_nil in Hi.
Qed.
End Kill.

(** C20: kill changes the signals of exactly the tasks it is for and may change.
    It returns 0 always; the bit of the signal is set in every task of the slots
    1 to 63 that the pid names (the group whose number is the pid of the caller
    for 0, one pid, all for -1, a group for less), if the signal is one of 1 to
    32 and the caller is root or one of its user ids is one of theirs; nothing
    else changes, task 0 included. *)
Theorem kill_signals_its_targets s pid sig c : wf_sched (tasks s) → - 2 ^ 31 ≤ pid < 2 ^ 31 →
  heap (tasks s) !! current (tasks s) = Some c →
  let root := negb (truth (Task.uid c) || truth (Task.euid c)) in
  ∃ h, sys_kill pid sig s = Ret 0 (with_heap s h) ∧
    (∀ i p t, 1 ≤ i < 64 → slot_ptr (tasks s) i p → heap (tasks s) !! p = Some t →
       h !! p = Some (if decide (kill_hits pid sig root c t) then signalled sig t else t)) ∧
    (∀ p, (∀ i, 1 ≤ i < 64 → ¬ slot_ptr (tasks s) i p) → h !! p = heap (tasks s) !! p) ∧
    h !! init_task = heap (tasks s) !! init_task.
Proof.
  intros Hwf Hp Hc root.
  destruct (kill_loop pid sig root c Hp s last_to_first Hwf Hc NoDup_last_to_first) as (h & E & H1 & H2).
  { intros i Hi%elem_of_last_to_first. lia. }
  assert (∀ p, (∀ i, 1 ≤ i < 64 → ¬ slot_ptr (tasks s) i p) → h !! p = heap (tasks s) !! p) as Hno.
  { intros p Hno. apply H2. intros (i & Hi%elem_of_last_to_first & Hq). by apply (Hno i). }
  exists h. split_and!; [|intros i p t Hi Hq Ht; apply H1; [exists i; by rewrite elem_of_last_to_first|done]|done|].
  - unfold sys_kill. mstep (me_Ret s c Hc). change (do_kill pid sig root) with (mfor (kill_body pid sig root) last_to_first).
    by mstep E.
  - apply Hno. intros i Hi Hq. assert (0 = i); [|lia].
    eapply (ws_inj _ Hwf); [|exact Hq]. split_and!; [done|exact (ws_init _ Hwf)|done].
Qed.

(** ** Two tasks with pids 1 and 2, and the greatest pid of all the last one *)

Definition proc_two : proc := Proc (with_sch fs_empty two_tasks) (2 ^ 63 - 1) ∅ ∅.

Lemma find_empty_process_gives_free_pid_witness :
  (∃ k r, find_empty_process proc_two = Ret r (proc_two <| last_pid := pid_try (2 ^ 63 - 1) k |>)) ∧
  find_empty_process proc_two = Ret 3 (proc_two <| last_pid := 3 |>).
Proof.
  split; [|vm_compute; reflexivity].
  destruct (find_empty_process_gives_free_pid proc_two two_tasks_wf) as (k & r & _ & E & _).
  - split; [discriminate|reflexivity].
  - exists k, r. exact E.
Defined.

Lemma kill_signals_its_targets_witness :
  ∃ h, sys_kill (-1) 15 proc_two = Ret 0 (with_heap proc_two h) ∧
    h !! task_B = Some (signalled 15 (INIT_TASK <| Task.pid := 2 |>)).
Proof.
  destruct (kill_signals_its_targets proc_two (-1) 15 (INIT_TASK <| Task.pid := 1 |>) two_tasks_wf)
    as (h & E & H & _).
  - split; [discriminate|reflexivity].
  - reflexivity.
  - exists h. split; [exact E|]. rewrite (H 2 task_B (INIT_TASK <| Task.pid := 2 |>)).
    + reflexivity.
    + lia.
    + split; [lia|]. split; [reflexivity|discriminate].
    + reflexivity.
Defined.
