(* ===== verification/Reap.v ===== *)
(** * Dead children (kernel/exit.c)

    waitpid returns the first dead child that the pid names and frees all that
    is left of it. *)

From S2P Require Export ProcFacts.
From S2P Require Import SchedFacts Wait MmFacts ExecFacts FsBoot.

(** ** Who waits for whom *)

(** [t] is a child of [m] that waitpid(pid) of [m] is for. *)
Definition waited (pid : Z) (m t : Task.task_struct) : Prop :=
  (pid = -1 ∨ Task.pid t = pid ∨ pid = 0 ∧ Task.pgrp t = Task.pgrp m ∨ pid < 0 ∧ Task.pgrp t = - pid) ∧
  Task.father t = Task.pid m.
(** Slot [i] has such a task, not the caller itself. *)
Definition child_in (c : sched) (pid : Z) (m : Task.task_struct) (i p : Z) (t : Task.task_struct) : Prop :=
  slot_ptr c i p ∧ p ≠ current c ∧ heap c !! p = Some t ∧ waited pid m t.
Definition no_child (c : sched) (pid : Z) (m : Task.task_struct) (i : Z) : Prop := ∀ p t, ¬ child_in c pid m i p t.
Definition dead_in (c : sched) (pid : Z) (m : Task.task_struct) (i : Z) : Prop :=
  ∃ p t, child_in c pid m i p t ∧ Task.state t = TASK_ZOMBIE.

Section Scan.
Context (s : proc) (pid stat : Z) (m : Task.task_struct) (Hwf : wf_sched (tasks s)).
Context (Hm : heap (tasks s) !! current (tasks s) = Some m) (Hpid : - 2 ^ 31 < pid < 2 ^ 31).
Let c := tasks s.

(** What wait_for does with a dead child. *)
Definition reap (p : Z) (t : Task.task_struct) : M proc (bool * option Z) :=
  in_fs (put_fs_long (u64 (Task.exit_code t)) stat);;
  set_me (λ m, m <| Task.cutime ::= λ x, s64 (x + Task.utime t) |>
                 <| Task.cstime ::= λ x, s64 (x + Task.stime t) |>);;
  release p;;
  mret (true, Some (s32 (Task.pid t))).

Lemma reap_ends (m1 m2 m3 : M proc ()) (v : Z) k s0 :
  ((m1;; m2;; m3;; mret (true, Some v)) ≫= λ r, match r.2 with Some _ => mret r | None => k r end) s0
  = (m1;; m2;; m3;; mret (true, Some v)) s0.
Proof.
  unfold mbind, M_bind. destruct (m1 s0) as [[] s1| | | | |]; [|done..]. destruct (m2 s1) as [[] s2| | | | |]; [|done..].
  by destruct (m3 s2) as [[] s3| | | | |].
Qed.
Lemma bind_same {A B} (m1 m2 : M proc A) (k : A → M proc B) s0 : m1 s0 = m2 s0 → (m1 ≫= k) s0 = (m2 ≫= k) s0.
Proof. unfold mbind, M_bind. by intros ->. Qed.

(** The look at one slot. *)
Lemma wait_for_cases i flag : 0 ≤ i < 64 →
  (no_child c pid m i ∧ wait_for pid stat i flag s = Ret (flag, None) s) ∨
  (∃ p t, child_in c pid m i p t ∧
     wait_for pid stat i flag s =
       if Task.state t =? TASK_ZOMBIE then reap p t s else Ret (true, None) s).
Proof.
  intros Hi. destruct (slot_lookup c i Hwf Hi) as [p Hp]. unfold wait_for.
  mstep (slot_Ret s i p ltac:(lia) Hp). mstep (on_tasks_reads (gets current) s (current c) eq_refl).
  destruct (Z.eqb_spec p 0) as [->|Hp0].
  { left. split; [|done]. intros q t ((_ & Hq & Hq0) & _). unfold c in *. congruence. }
  destruct (Z.eqb_spec p (current c)) as [->|Hpc].
  { left. split; [|done]. intros q t ((_ & Hq & Hq0) & Hne & _). unfold c in *. congruence. }
  destruct (ws_live _ Hwf i p) as (t & Ht & _); [split_and!; [lia|done..]|].
  cbn [orb]. mstep (me_Ret s m Hm). mstep (task_p_Ret s p t Ht). cbv zeta.
  set (w := (pid =? -1) || _ || _ || _). assert (w && (Task.father t =? Task.pid m) = true ↔ waited pid m t) as Hw.
  { unfold w, waited. rewrite s32_small by lia.
    rewrite !andb_true_iff, !orb_true_iff, !andb_true_iff, !Z.eqb_eq, Z.ltb_lt. tauto. }
  destruct (w && (Task.father t =? Task.pid m)); simpl negb; cbv iota.
  - right. exists p, t. split; [split_and!; [split_and!; [lia|done..]|done|done|by apply Hw]|].
    unfold reap. destruct (Task.state t =? TASK_ZOMBIE); reflexivity.
  - left. split; [|done]. intros q t' ((_ & Hq & Hq0) & Hne & Ht' & Hwt). unfold c in *.
    assert (q = p) as -> by congruence. assert (t' = t) as -> by congruence. by apply Hw in Hwt.
Qed.

(** The look at the slots [l], in order. *)
Lemma wait_loop_cases : ∀ l flag, (∀ i, i ∈ l → 0 ≤ i < 64) →
  (∃ l1 i l2 p t, l = l1 ++ i :: l2 ∧ (∀ j, j ∈ l1 → ¬ dead_in c pid m j) ∧ child_in c pid m i p t ∧
     Task.state t = TASK_ZOMBIE ∧ wait_loop l pid stat flag s = reap p t s) ∨
  ((∀ j, j ∈ l → ¬ dead_in c pid m j) ∧ ∃ flag', wait_loop l pid stat flag s = Ret (flag', None) s ∧
     (flag' = true ↔ flag = true ∨ ∃ i, i ∈ l ∧ ¬ no_child c pid m i)).
Proof.
  induction l as [|i l IH]; intros flag Hl.
  { right. split; [by intros j ?%elem_of_nil|]. exists flag. split; [done|]. split; [by left|].
    intros [|(i & Hi%elem_of_nil & _)]; done. }
  cbn [wait_loop]. destruct (wait_for_cases i flag) as [[Hno E]|(p & t & Hch & E)]; [apply Hl; left|..].
  - assert (¬ dead_in c pid m i) as Hnd by (intros (p & t & Hc & _); by apply (Hno p t)).
    mstep E. destruct (IH flag) as [(l1 & j & l2 & p & t & -> & H1 & H2)|[H1 (f & H2 & H3)]]; [intros j Hj; apply Hl; by right|..].
    + left. exists (i :: l1), j, l2, p, t. split; [done|]. split; [|done]. intros k [->|Hk]%elem_of_cons; auto.
    + right. split; [intros j [->|Hj]%elem_of_cons; auto|]. exists f. split; [done|]. rewrite H3.
      setoid_rewrite elem_of_cons. split; [intros [|(j & ? & ?)]; eauto|].
      intros [|(j & [->|] & ?)]; [by left|tauto|eauto].
  - destruct (Z.eqb_spec (Task.state t) TASK_ZOMBIE) as [Hz|Hz].
    + left. exists [], i, l, p, t. split_and!; [done|by intros j ?%elem_of_nil|done|done|].
      etrans; [exact (bind_same _ _ _ _ E)|]. apply reap_ends.
    + assert (¬ dead_in c pid m i) as Hnd.
      { intros (q & t' & ((_ & Hq & _) & _ & Ht' & _) & Hz'). destruct Hch as ((_ & Hp & _) & _ & Ht & _). unfold c in *. congruence. }
      mstep E. destruct (IH true) as [(l1 & j & l2 & q & t' & -> & H1 & H2)|[H1 (f & H2 & H3)]]; [intros j Hj; apply Hl; by right|..].
      * left. exists (i :: l1), j, l2, q, t'. split; [done|]. split; [|done]. intros k [->|Hk]%elem_of_cons; auto.
      * right. split; [intros j [->|Hj]%elem_of_cons; auto|]. exists f. split; [done|]. rewrite H3.
        split; [intros _; right; exists i; split; [left|]; intros Hno; by apply (Hno p t)|by left].
Qed.
End Scan.

(** ** What is left of a dead child *)

Lemma wf_same_slice c p t t' : wf_sched c → heap c !! p = Some t → (slice_ok t → slice_ok t') →
  wf_sched (c <| heap ::= <[p := t']> |>).
Proof.
  intros [W1 W2 W3 W4] Ht Hok. split; [done| |done|done]. intros i q Hq. simpl.
  destruct (W2 i q Hq) as (tq & Htq & Hsl). destruct (decide (p = q)) as [<-|].
  - rewrite lookup_insert_eq. eexists. split; [done|]. apply Hok. congruence.
  - rewrite lookup_insert_ne by done. eauto.
Qed.
Lemma wf_free_slot c i : wf_sched c → 1 ≤ i → wf_sched (c <| task ::= <[Z.to_nat i := 0]> |>).
Proof.
  intros [W1 W2 W3 W4] Hi.
  assert (∀ j p, slot_ptr (c <| task ::= <[Z.to_nat i := 0]> |>) j p → slot_ptr c j p) as Hs.
  { intros j p (Hj & Hp & Hp0). split_and!; [done| |done]. simpl in Hp.
    apply list_lookup_insert_Some in Hp as [(_ & <- & _)|[_ Hp]]; done. }
  split.
  - simpl. by rewrite length_insert.
  - intros j p Hp. apply (W2 j p), Hs, Hp.
  - intros j k p Hj Hk. by apply (W3 j k p); apply Hs.
  - simpl. by rewrite list_lookup_insert_ne by lia.
Qed.

(** The task goes on if it is chosen again; if not it sleeps. *)
Lemma reschedule_run s : wf_sched (tasks s) →
  ∃ h cur, let s' := with_tasks s (rescheduled (tasks s) h cur) in
    reschedule s = (if current (tasks s) =? cur then Ret tt s' else Sleep s') ∧ wf_sched (tasks s') ∧
    ∀ p t, heap (tasks s) !! p = Some t → ∃ t', h !! p = Some t' ∧
      Task.cutime t' = Task.cutime t ∧ Task.cstime t' = Task.cstime t.
Proof.
  intros Hwf. destruct (schedule_run (tasks s) 2 Hwf) as (h & cur & n & again & E & Hwf' & _ & _ & H1 & H2 & _); [lia|].
  exists h, cur. split; [|split; [done|]].
  - unfold reschedule. mstep (on_tasks_reads (gets current) s (current (tasks s)) eq_refl).
    mstep (on_tasks_Ret _ s _ _ E). set (s1 := with_tasks s _).
    mstep (on_tasks_reads (gets current) s1 cur eq_refl). by destruct (current (tasks s) =? cur).
  - intros p t Ht. destruct (slot_cases (tasks s) p) as [(i & Hi & Hp)|Hno].
    + rewrite (H1 i p Hi Hp), Ht. eexists. split; [done|]. unfold wake_signalled.
      destruct again; destruct (_ && _), (_ && _); done.
    + rewrite H2 by done. eauto.
Qed.

Record reaped (stat i : Z) (j : nat) (m t : Task.task_struct) (s s' : proc) : Prop := {
  re_wf : wf_sched (tasks s');
  re_slot : task (tasks s') = <[Z.to_nat i := 0]> (task (tasks s));
  re_page : ∃ n, mem_map (mem (fsys s)) !! j = Some n ∧ mem_map (mem (fsys s')) = <[j := n - 1]> (mem_map (mem (fsys s)));
  re_status : user (fsys s') = blit stat (long (u64 (Task.exit_code t))) (user (fsys s));
  re_times : ∃ m', heap (tasks s') !! current (tasks s) = Some m' ∧
    Task.cutime m' = s64 (Task.cutime m + Task.utime t) ∧ Task.cstime m' = s64 (Task.cstime m + Task.stime t)
}.

Lemma in_fs_Ret {A} (f : M fs A) s a x : f (fsys s) = Ret a x → in_fs f s = Ret a (s <| fsys := x |>).
Proof. intros H. unfold in_fs, zoom. by rewrite H. Qed.
Lemma in_mm_Ret {A} (f : M mm A) s a x : f (mem (fsys s)) = Ret a x →
  in_fs (in_mm f) s = Ret a (s <| fsys := (fsys s) <| mem := x |> |>).
Proof. intros H. apply in_fs_Ret. unfold in_mm, zoom. by rewrite H. Qed.
Lemma set_me_Ret s t f : heap (tasks s) !! current (tasks s) = Some t →
  set_me f s = Ret tt (with_tasks s ((tasks s) <| heap ::= <[current (tasks s) := f t]> |>)).
Proof.
  intros H. apply (on_tasks_Ret (set_cur f)). unfold set_cur, gets, mbind, M_bind. by apply set_task_Ret.
Qed.

(** release of a task that is in the table: its slot and its page are free. *)
Lemma release_run s i p j n : wf_sched (tasks s) → 1 ≤ i < 64 → slot_ptr (tasks s) i p → map_ok (mem (fsys s)) →
  p = page_addr j → mem_map (mem (fsys s)) !! j = Some n → 0 < n →
  let s1 := with_tasks (s <| fsys := (fsys s) <| mem := (mem (fsys s)) <| mem_map ::= <[j := n - 1]> |> |> |>)
              ((tasks s) <| task ::= <[Z.to_nat i := 0]> |>) in
  release p s = reschedule s1.
Proof.
  intros Hwf Hi Hp Hm Hpj Hn Hn0 s1. unfold release. destruct (Z.eqb_spec p 0); [by destruct Hp as (_ & _ & ?)|].
  destruct (slot_search (λ q, q =? p) s Hwf) as (r & E & Hr). mstep E. assert (r = Some i) as ->.
  { destruct r as [k|].
    - destruct Hr as (Hk & (q & Hq & ->%Z.eqb_eq) & _). f_equal. eapply (ws_inj _ Hwf); [|exact Hp]. split_and!; [lia|done|done].
    - destruct Hp as (_ & Hp & _). apply (Hr i p) in Hp; [|done]. by rewrite Z.eqb_refl in Hp. }
  assert (store task i 0 (tasks s) = Ret tt ((tasks s) <| task ::= <[Z.to_nat i := 0]> |>)) as Es.
  { apply store_in. rewrite (ws_len _ Hwf). unfold NR_TASKS. lia. }
  mstep (on_tasks_Ret _ s _ _ Es). set (s0 := with_tasks s _).
  assert (free_page p (mem (fsys s0)) = Ret tt ((mem (fsys s)) <| mem_map ::= <[j := n - 1]> |>)) as Ef.
  { rewrite (free_page_run _ j _ n Hm Hn); [|rewrite Hpj; unfold in_page; lia]. by rewrite (proj2 (Z.eqb_neq n 0)) by lia. }
  by mstep (in_mm_Ret _ s0 _ _ Ef).
Qed.

Lemma reap_run s pid stat i p t m j n : wf_sched (tasks s) → 1 ≤ i < 64 →
  heap (tasks s) !! current (tasks s) = Some m → child_in (tasks s) pid m i p t → map_ok (mem (fsys s)) →
  p = page_addr j → mem_map (mem (fsys s)) !! j = Some n → 0 < n →
  ∃ s', reaped stat i j m t s s' ∧
    reap stat p t s = if current (tasks s) =? current (tasks s') then Ret (true, Some (s32 (Task.pid t))) s' else Sleep s'.
Proof.
  intros Hwf Hi Hm (Hp & Hpc & Ht & _) Hmap Hpj Hn Hn0. unfold reap.
  mstep (in_fs_Ret _ s _ _ (put_long_run (fsys s) (u64 (Task.exit_code t)) stat)). set (s1 := s <| fsys := _ |>).
  set (f := λ m, m <| Task.cutime ::= λ x, s64 (x + Task.utime t) |> <| Task.cstime ::= λ x, s64 (x + Task.stime t) |>).
  assert (tasks s1 = tasks s) as Et by done.
  mstep (set_me_Ret s1 m f Hm). set (s2 := with_tasks s1 _).
  assert (wf_sched (tasks s2)) as Hwf2 by (by apply (wf_same_slice (tasks s) _ m)).
  pose proof (release_run s2 i p j n Hwf2 Hi Hp Hmap Hpj Hn Hn0) as Er. cbv zeta in Er.
  set (s3 := with_tasks _ _) in Er.
  assert (wf_sched (tasks s3)) as Hwf3 by (apply (wf_free_slot (tasks s2)); [done|lia]).
  destruct (reschedule_run s3 Hwf3) as (h & cur & E & Hwf4 & Hk). cbv zeta in E, Hwf4. rewrite E in Er.
  set (s4 := with_tasks s3 _) in *. exists s4. split.
  - split; [done|done| |done|].
    + exists n. split; [done|]. done.
    + destruct (Hk (current (tasks s)) (f m)) as (m' & Hm' & E1 & E2); [apply lookup_insert_eq|].
      exists m'. split; [exact Hm'|]. rewrite E1, E2. done.
  - change (current (tasks s4)) with cur. change (current (tasks s3)) with (current (tasks s)) in Er.
    unfold mbind, M_bind. rewrite Er. by destruct (current (tasks s) =? cur).
Qed.

(** Slot [i] has the dead child that waitpid takes: the one in the highest slot. *)
Definition last_dead (c : sched) (pid : Z) (m : Task.task_struct) (i : Z) : Prop :=
  dead_in c pid m i ∧ ∀ j, i < j < 64 → ¬ dead_in c pid m j.

Lemma sorted_split l1 i l2 j : Sorted.StronglySorted (λ i j, j < i) (l1 ++ i :: l2) → j ∈ l1 ++ i :: l2 → i < j → j ∈ l1.
Proof.
  intros Hs Hj Hlt. apply elem_of_app in Hj as [|[->|Hj]%elem_of_cons]; [done|lia|]. exfalso.
  induction l1 as [|x l1 IH]; simpl in Hs; apply Sorted.StronglySorted_inv in Hs as [Hs Hf]; [|by apply IH].
  rewrite Forall_forall in Hf. apply Hf in Hj. lia.
Qed.

(** C18: waitpid reaps one dead child.  If children that the pid names are dead it
    takes the one in the highest slot: the status is stored, as eight bytes,
    the times of the child are added to those of the caller, its slot is empty and
    its page has one user less, and the pid of the child is the result, at once
    if schedule chooses the caller again and later if not.  If such
    children live the result is 0 with WNOHANG, and without it the caller sleeps
    until a signal; if there are none it is -ECHILD.  In these cases nothing
    changes but by the check of the address. *)
Theorem waitpid_reaps_one_child s pid stat options m mm1 : wf_sched (tasks s) → - 2 ^ 31 < pid < 2 ^ 31 →
  heap (tasks s) !! current (tasks s) = Some m →
  verify_area stat 4 (fsys s) = Ret tt ((fsys s) <| mem := mm1 |>) → map_ok mm1 →
  (∀ i p, 1 ≤ i < 64 → slot_ptr (tasks s) i p → ∃ j n, p = page_addr j ∧ mem_map mm1 !! j = Some n ∧ 0 < n) →
  let s1 := s <| fsys := (fsys s) <| mem := mm1 |> |> in
  let child := ∃ i, 1 ≤ i < 64 ∧ ¬ no_child (tasks s) pid m i in
  let dead := ∃ i, 1 ≤ i < 64 ∧ dead_in (tasks s) pid m i in
  (dead → ∃ i j t s', 1 ≤ i < 64 ∧ last_dead (tasks s) pid m i ∧ child_in (tasks s) pid m i (page_addr j) t ∧
     reaped stat i j m t s1 s' ∧
     sys_waitpid pid stat options s =
       if current (tasks s) =? current (tasks s') then Ret (s32 (Task.pid t)) s' else Sleep s') ∧
  (¬ dead → child → truth (options .& WNOHANG) = true → sys_waitpid pid stat options s = Ret 0 s1) ∧
  (¬ dead → child → truth (options .& WNOHANG) = false → ∃ h cur,
     sys_waitpid pid stat options s = Sleep (with_tasks s1 (rescheduled (tasks s) h cur))) ∧
  (¬ child → sys_waitpid pid stat options s = Ret (- ECHILD) s1).
Proof.
  intros Hwf Hpid Hm Hv Hmap Hpages s1 child dead.
  assert (sys_waitpid pid stat options s = (wait_loop last_to_first pid stat false ≫= λ r,
    match r with (_, Some v) => mret v | (false, None) => mret (- ECHILD)
    | (true, None) => if truth (options .& WNOHANG) then mret 0 else on_tasks (sys_pause_enter 2);; sleep end) s1) as Ew.
  { unfold sys_waitpid. by mstep (in_fs_Ret _ s _ _ Hv). }
  assert (∀ i, i ∈ last_to_first → 0 ≤ i < 64) as Hl by (intros i Hi%elem_of_last_to_first; lia).
  destruct (wait_loop_cases s1 pid stat m Hwf Hm Hpid last_to_first false Hl)
    as [(l1 & i & l2 & p & t & Hsplit & Hno & Hch & Hz & E)|(Hno & flag & E & Hflag)].
  - assert (1 ≤ i < 64) as Hi.
    { apply elem_of_last_to_first. rewrite Hsplit. apply elem_of_app. right. left. }
    assert (dead_in (tasks s) pid m i) as Hd by (exists p, t; done).
    assert (dead) as Hdead by (exists i; done). assert child as Hchild.
    { exists i. split; [done|]. intros H. by apply (H p t). }
    split_and!; [intros _|done|done|done]. destruct (Hpages i p Hi (proj1 Hch)) as (j & n & -> & Hn & Hn0).
    destruct (reap_run s1 pid stat i (page_addr j) t m j n Hwf Hi Hm Hch Hmap eq_refl Hn Hn0) as (s' & Hr & Er).
    exists i, j, t, s'. split; [done|]. split_and!; [|done|done|].
    + split; [done|]. intros k Hk. apply Hno. apply (sorted_split l1 i l2); rewrite <-?Hsplit; [apply last_to_first_sorted| |lia].
      apply elem_of_last_to_first. lia.
    + rewrite Ew. unfold mbind, M_bind. rewrite E, Er. change (tasks s1) with (tasks s). by destruct (_ =? _).
  - assert (¬ dead) as Hnd by (intros (i & Hi & Hd); apply (Hno i); [by apply elem_of_last_to_first|done]).
    assert (flag = true ↔ child) as Hc.
    { rewrite Hflag. unfold child. setoid_rewrite elem_of_last_to_first. split; [by intros [|]|by right]. }
    split; [done|]. rewrite Ew. rewrite (bind_ret _ _ _ _ _ E). destruct flag.
    + split_and!; [by intros _ _ ->| |intros H; by destruct H; apply Hc].
      intros _ _ ->. set (c1 := (tasks s) <| heap ::= <[current (tasks s) := m <| Task.state := TASK_INTERRUPTIBLE |>]> |>).
      assert (wf_sched c1) as Hwf1 by (by apply (wf_same_slice (tasks s) _ m)).
      destruct (schedule_run c1 2 Hwf1) as (h & cur & n & again & Es & _); [lia|]. exists h, cur.
      assert (sys_pause_enter 2 (tasks s1) = Ret tt (rescheduled c1 h cur)) as Ep.
      { assert (set_cur (λ t, t <| Task.state := TASK_INTERRUPTIBLE |>) (tasks s1) = Ret tt c1) as E1.
        { unfold set_cur, gets, mbind, M_bind. by apply set_task_Ret. }
        unfold sys_pause_enter. mstep E1. exact Es. }
      by mstep (on_tasks_Ret _ s1 _ _ Ep).
    + split_and!; [intros _ H; by apply Hc in H..|done].
Qed.

(** ** Task A with a dead child in slot 2 *)

Definition dead_B : Task.task_struct :=
  INIT_TASK <| Task.pid := 2 |> <| Task.father := 1 |> <| Task.state := TASK_ZOMBIE |> <| Task.exit_code := 0x100 |>.
Definition family : sched := two_tasks <| heap ::= <[task_B := dead_B]> |>.
Definition family_mm : mm := Mm ∅ (<[1533%nat := 1]> (<[1534%nat := 1]> (replicate 1536 0))) [].
Definition proc_family : proc := Proc (with_sch (fs_empty <| mem := family_mm |>) family) 2 ∅ ∅.

Lemma family_wf : wf_sched family.
Proof. by apply (wf_same_slice two_tasks task_B (INIT_TASK <| Task.pid := 2 |>) dead_B two_tasks_wf). Qed.
Lemma family_map : map_ok family_mm.
Proof.
  split; [done|]. apply (Forall_insert _ (<[1534%nat := 1]> (replicate 1536 0))); [|lia].
  apply (Forall_insert _ (replicate 1536 0)); [apply Forall_replicate; lia|lia].
Qed.
Lemma family_pages i p : 1 ≤ i < 64 → slot_ptr family i p →
  ∃ j n, p = page_addr j ∧ mem_map family_mm !! j = Some n ∧ 0 < n.
Proof.
  intros Hi (_ & Hp & Hp0). simpl in Hp. destruct (decide (i < 3)) as [Hlt|Hge].
  - assert (i = 1 ∨ i = 2) as [->| ->] by lia; simpl in Hp; injection Hp as <-; [exists 1534%nat|exists 1533%nat]; by exists 1.
  - exfalso. apply Hp0. replace (Z.to_nat i) with (3 + Z.to_nat (i - 3))%nat in Hp by lia.
    rewrite !lookup_cons_ne_0 in Hp by lia. simpl in Hp.
    change (replicate 61 0 !! Z.to_nat (i - 3) = Some p) in Hp. by apply lookup_replicate in Hp as [-> _].
Qed.
Lemma family_dead : dead_in family (-1) (INIT_TASK <| Task.pid := 1 |>) 2.
Proof.
  exists task_B, dead_B. split; [|done]. split_and!; [split_and!; done|done|done|]. split; [tauto|done].
Qed.

Lemma waitpid_reaps_one_child_witness :
  ∃ i j t s', last_dead family (-1) (INIT_TASK <| Task.pid := 1 |>) i ∧
    reaped 4096 i j (INIT_TASK <| Task.pid := 1 |>) t proc_family s'.
Proof.
  destruct (proj1 (waitpid_reaps_one_child proc_family (-1) 4096 0 (INIT_TASK <| Task.pid := 1 |>) family_mm
    family_wf ltac:(lia) eq_refl ltac:(vm_compute; reflexivity) family_map family_pages))
    as (i & j & t & s' & _ & H1 & _ & H2 & _).
  - exists 2. split; [lia|exact family_dead].
  - exists i, j, t, s'. split; [exact H1|exact H2].
Defined.
