(* ===== verification/Time.v ===== *)
(** * The clock at boot (kernel/mktime.c, time_init in init/main.c)

    kernel_mktime against a calendar, and time_init, which reads the CMOS clock
    in binary-coded decimal.  [cmos k a] is what the [k]-th read of the clock
    gets at address [a]; the loop reads again when the seconds have changed. *)

From S2P Require Import Prelude.

(** ** include/time.h, kernel/mktime.c *)

(** The fields that the kernel uses. *)
Record tm := Tm { tm_sec : Z; tm_min : Z; tm_hour : Z; tm_mday : Z; tm_mon : Z; tm_year : Z }.

Definition MINUTE : Z := 60.
Definition HOUR : Z := 60 * MINUTE.
Definition DAY : Z := 24 * HOUR.
Definition YEAR : Z := 365 * DAY.

Definition month : list Z :=
  [0; DAY * 31; DAY * (31 + 29); DAY * (31 + 29 + 31); DAY * (31 + 29 + 31 + 30);
   DAY * (31 + 29 + 31 + 30 + 31); DAY * (31 + 29 + 31 + 30 + 31 + 30);
   DAY * (31 + 29 + 31 + 30 + 31 + 30 + 31); DAY * (31 + 29 + 31 + 30 + 31 + 30 + 31 + 31);
   DAY * (31 + 29 + 31 + 30 + 31 + 30 + 31 + 31 + 30);
   DAY * (31 + 29 + 31 + 30 + 31 + 30 + 31 + 31 + 30 + 31);
   DAY * (31 + 29 + 31 + 30 + 31 + 30 + 31 + 31 + 30 + 31 + 30)].

(** The products are of type int; the sum [res] is a long.  [None]: [month] is
    read outside of its bounds.  First the seconds before the month. *)
Definition mktime_month (year mon : Z) : option Z :=
  let res := s32 (s32 (YEAR * year) + s32 (DAY * Z.quot (year + 1) 4)) in
  if mon <? 0 then None else
  m ← month !! Z.to_nat mon;
  let res := res + m in
  Some (if (1 <? mon) && truth (Z.rem (year + 2) 4) then res - DAY else res).
Definition kernel_mktime (t : tm) : option Z :=
  let year := s32 (tm_year t - 70) in
  res ← mktime_month year (tm_mon t);
  let res := res + s32 (DAY * (tm_mday t - 1)) in
  let res := res + s32 (HOUR * tm_hour t) in
  let res := res + s32 (MINUTE * tm_min t) in
  Some (s64 (res + tm_sec t)).

(** ** time_init *)

Definition BCD_TO_BIN (val : Z) : Z := (val .& 15) + Z.shiftr val 4 * 10.

Section Clock.
Context (cmos : nat → Z → Z).

(** The reads of one turn of the loop; [k] reads were made before. *)
Definition read_clock (k : nat) : tm * Z :=
  (Tm (u8 (cmos k 0)) (u8 (cmos (k + 1) 2)) (u8 (cmos (k + 2) 4)) (u8 (cmos (k + 3) 7))
     (u8 (cmos (k + 4) 8) - 1) (u8 (cmos (k + 5) 9)), u8 (cmos (k + 6) 0)).
Fixpoint time_loop (fuel k : nat) : option tm :=
  match fuel with
  | O => None
  | S n => let (t, again) := read_clock k in
           if tm_sec t =? again then Some t else time_loop n (k + 7)
  end.
Definition time_init (fuel : nat) : option Z :=
  t ← time_loop fuel 0;
  kernel_mktime (Tm (BCD_TO_BIN (tm_sec t)) (BCD_TO_BIN (tm_min t)) (BCD_TO_BIN (tm_hour t))
    (BCD_TO_BIN (tm_mday t)) (BCD_TO_BIN (tm_mon t)) (BCD_TO_BIN (tm_year t))).
End Clock.

(** ** A calendar *)

Definition leap (y : Z) : bool := (y mod 4 =? 0) && (negb (y mod 100 =? 0) || (y mod 400 =? 0)).
(** Months are counted from 0. *)
Definition days_in_month (y m : Z) : Z :=
  if m =? 1 then (if leap y then 29 else 28)
  else if (m =? 3) || (m =? 5) || (m =? 8) || (m =? 10) then 30 else 31.
Definition days_in_year (y : Z) : Z := foldr (λ m n, days_in_month y m + n) 0 (upto 12).
(** Days from 1 January 1970 to day [d] of month [m] of year [y]. *)
Definition days_from_1970 (y m d : Z) : Z :=
  foldr (λ k n, days_in_year (1970 + k) + n) 0 (upto (Z.to_nat (y - 1970))) +
  foldr (λ k n, days_in_month y k + n) 0 (upto (Z.to_nat m)) + (d - 1).
Definition seconds_from_1970 (y m d h mi s : Z) : Z :=
  ((days_from_1970 y m d * 24 + h) * 60 + mi) * 60 + s.

(** A date and time of day. *)
Record date := Date { d_year : Z; d_month : Z; d_day : Z; d_hour : Z; d_minute : Z; d_second : Z }.
Definition valid_date (t : date) : Prop :=
  0 ≤ d_month t ≤ 11 ∧ 1 ≤ d_day t ≤ days_in_month (d_year t) (d_month t) ∧
  0 ≤ d_hour t ≤ 23 ∧ 0 ≤ d_minute t ≤ 59 ∧ 0 ≤ d_second t ≤ 59.
Definition seconds (t : date) : Z :=
  seconds_from_1970 (d_year t) (d_month t) (d_day t) (d_hour t) (d_minute t) (d_second t).

(** ** kernel_mktime is the calendar up to 2038 *)

Lemma mktime_base : forallb (λ y, forallb (λ m,
  match mktime_month y m with
  | Some r => r =? DAY * days_from_1970 (1970 + y) m 1
  | None => false
  end && (days_from_1970 (1970 + y) m 1 <? 25300) && (0 <=? days_from_1970 (1970 + y) m 1) &&
  (days_in_month (1970 + y) m <=? 31)) (upto 12)) (upto 69) = true.
Proof. vm_compute. reflexivity. Qed.

Lemma mktime_calendar t : valid_date t → 1970 ≤ d_year t ≤ 2038 →
  kernel_mktime (Tm (d_second t) (d_minute t) (d_hour t) (d_day t) (d_month t) (d_year t - 1900)) = Some (seconds t).
Proof.
  destruct t as [y m d h mi s]. unfold valid_date, seconds, seconds_from_1970. simpl.
  intros (Hm & Hd & Hh & Hmi & Hs) Hy.
  pose proof mktime_base as H. rewrite forallb_forall in H. specialize (H (y - 1970)).
  rewrite forallb_forall in H. specialize (fun A => H A m).
  assert (In (y - 1970) (upto 69)) as I1 by (apply list_elem_of_In, elem_of_upto; lia).
  assert (In m (upto 12)) as I2 by (apply list_elem_of_In, elem_of_upto; lia).
  specialize (H I1 I2). clear I1 I2.
  apply andb_prop in H as [[[H H1%Z.ltb_lt]%andb_prop H2%Z.leb_le]%andb_prop H3%Z.leb_le].
  replace (1970 + (y - 1970)) with y in * by lia.
  assert (days_from_1970 y m d = days_from_1970 y m 1 + (d - 1)) as -> by (unfold days_from_1970; lia).
  set (n := days_from_1970 y m 1) in *. unfold kernel_mktime. cbn [tm_mon tm_year tm_mday tm_hour tm_min tm_sec].
  replace (y - 1900 - 70) with (y - 1970) by lia. rewrite (s32_small (y - 1970)) by lia.
  destruct (mktime_month (y - 1970) m) as [r|]; [|done]. apply Z.eqb_eq in H. subst r.
  unfold DAY, HOUR, MINUTE. simpl mbind. cbv beta. rewrite !s32_small by lia. rewrite s64_small by lia.
  f_equal. lia.
Qed.

(** From 2039 on the product YEAR * year does not fit in an int. *)
Lemma mktime_overflows : kernel_mktime (Tm 0 0 0 1 0 139) = Some (-2117514496).
Proof. vm_compute. reflexivity. Qed.

(** ** time_init *)

(** Binary-coded decimal, as the clock has it. *)
Definition bcd (x : Z) : Z := x / 10 * 16 + x mod 10.
Definition BCD_ok (x : Z) : Prop := BCD_TO_BIN (u8 (bcd x)) = x.
Lemma BCD_round_trip x : 0 ≤ x < 100 → BCD_ok x.
Proof.
  intros Hx. assert (forallb (λ x, BCD_TO_BIN (u8 (bcd x)) =? x) (upto 100) = true) as H by (vm_compute; reflexivity).
  rewrite forallb_forall in H. apply Z.eqb_eq, H, list_elem_of_In, elem_of_upto. lia.
Qed.
(** The month is decremented before it is converted. *)
Lemma BCD_month m : 0 ≤ m ≤ 11 → BCD_TO_BIN (u8 (bcd (m + 1)) - 1) = if m =? 9 then 15 else m.
Proof.
  intros Hm. assert (forallb (λ m, BCD_TO_BIN (u8 (bcd (m + 1)) - 1) =? if m =? 9 then 15 else m) (upto 12) = true) as H
    by (vm_compute; reflexivity).
  rewrite forallb_forall in H. apply Z.eqb_eq, H, list_elem_of_In, elem_of_upto. lia.
Qed.

(** The seven reads from number [k] on see the date [t] of the years 19xx. *)
Definition clock_shows (cmos : nat → Z → Z) (k : nat) (t : date) : Prop :=
  cmos k 0 = bcd (d_second t) ∧ cmos (k + 1)%nat 2 = bcd (d_minute t) ∧ cmos (k + 2)%nat 4 = bcd (d_hour t) ∧
  cmos (k + 3)%nat 7 = bcd (d_day t) ∧ cmos (k + 4)%nat 8 = bcd (d_month t + 1) ∧
  cmos (k + 5)%nat 9 = bcd (d_year t - 1900) ∧ cmos (k + 6)%nat 0 = bcd (d_second t).

Lemma time_loop_skip cmos n fuel k : (∀ j, (j < n)%nat → u8 (cmos (k + 7 * j)%nat 0) ≠ u8 (cmos (k + 7 * j + 6)%nat 0)) →
  time_loop cmos (n + fuel) k = time_loop cmos fuel (k + 7 * n).
Proof.
  revert k. induction n as [|n IH]; intros k Hd; [by rewrite Nat.mul_0_r, Nat.add_0_r|].
  simpl. pose proof (Hd O ltac:(lia)) as H0. rewrite Nat.mul_0_r, Nat.add_0_r in H0.
  destruct (Z.eqb_spec (u8 (cmos k 0)) (u8 (cmos (k + 6)%nat 0))); [done|].
  rewrite IH; [f_equal; lia|]. intros j Hj. specialize (Hd (S j) ltac:(lia)).
  replace (k + 7 + 7 * j)%nat with (k + 7 * S j)%nat by lia. done.
Qed.

(** C31: time_init sets startup_time to the seconds of the calendar from 1970 to
    the date the clock shows, for every date of 1970 to 1999 but those of
    October; it reads the clock until the seconds do not change, however often
    that takes.  In October the month, taken from its binary-coded decimal 0x10
    before it is converted, is 15, and month[15] is outside of the table. *)
Theorem time_init_reads_the_clock cmos n fuel t :
  valid_date t → 1970 ≤ d_year t ≤ 1999 → clock_shows cmos (7 * n) t →
  (∀ j, (j < n)%nat → u8 (cmos (7 * j)%nat 0) ≠ u8 (cmos (7 * j + 6)%nat 0)) → (n < fuel)%nat →
  time_init cmos fuel = if d_month t =? 9 then None else Some (seconds t).
Proof.
  intros Hv Hy (C0 & C1 & C2 & C3 & C4 & C5 & C6) Hd Hf. unfold time_init.
  replace fuel with (n + S (fuel - n - 1))%nat by lia.
  rewrite (time_loop_skip cmos n _ 0) by (intros j Hj; apply (Hd j Hj)).
  change (0 + 7 * n)%nat with (7 * n)%nat. generalize dependent (7 * n)%nat. intros k C0 C1 C2 C3 C4 C5 C6.
  cbn [time_loop read_clock].
  cbn [tm_sec]. rewrite C0, C6, Z.eqb_refl. simpl mbind. cbn [tm_sec tm_min tm_hour tm_mday tm_mon tm_year].
  rewrite C1, C2, C3, C4, C5. pose proof Hv as (Hm & Hday & Hh & Hmi & Hs).
  assert (days_in_month (d_year t) (d_month t) ≤ 31) as H31.
  { unfold days_in_month. repeat case_match; lia. }
  rewrite (BCD_round_trip (d_second t)), (BCD_round_trip (d_minute t)), (BCD_round_trip (d_hour t)),
    (BCD_round_trip (d_day t)), (BCD_round_trip (d_year t - 1900)), BCD_month by lia.
  destruct (Z.eqb_spec (d_month t) 9) as [_|_].
  - unfold kernel_mktime, mktime_month. simpl. done.
  - by apply mktime_calendar; [|lia].
Qed.

(** 14 September 1991, 10:20:30; the first turn of the loop is disturbed. *)
Definition boot_date : date := Date 1991 8 14 10 20 30.
Definition boot_cmos (k : nat) (a : Z) : Z :=
  if a =? 0 then (if Nat.leb k 6 then Z.of_nat k else 0x30)
  else if a =? 2 then 0x20 else if a =? 4 then 0x10 else if a =? 7 then 0x14 else if a =? 8 then 0x09 else 0x91.
Lemma time_init_reads_the_clock_witness : time_init boot_cmos 2 = Some (seconds boot_date).
Proof.
  apply (time_init_reads_the_clock boot_cmos 1 2 boot_date).
  - unfold valid_date. simpl. split; [lia|]. split; [vm_compute; split; discriminate|]. lia.
  - simpl. lia.
  - repeat split.
  - intros j Hj. assert (j = 0%nat) as -> by lia. done.
  - lia.
Defined.
