(* ===== verification/Init.v ===== *)
(** * The built-in shell (init/main.c)

    The port of the kernel ends its boot in a shell on the serial line.  Of the
    serial port the model has the bytes that have arrived ([fifo]), those that
    will ([rx]) and those sent ([tx]); waiting for a byte that never comes is
    [Sleep], and the reset of the machine by cmd_reboot a [Fault].  A C string
    is a list of bytes that ends with 0. *)

From S2P Require Export Prelude Sched.
From Stdlib Require Import Ascii String.

(** The bytes of a string literal. *)
Definition str (s : string) : list Z := map (λ a, Z.of_N (N_of_ascii a)) (list_ascii_of_string s).
Definition nl : list Z := [10].

Record shell := Shell {
  fifo : list Z;
  rx : list Z;
  tx : list Z;
  cmd_buf : list Z;
  cmd_pos : Z;
  tasks : sched
}.
#[export] Instance eta_shell : Eta shell := λ s,
  Shell (fifo s) (rx s) (tx s) (cmd_buf s) (cmd_pos s) (tasks s).

(** ** The serial line *)

Definition early_serial_putc (c : Z) : M shell () := modify (λ s, s <| tx ::= λ l, l ++ [u8 c] |>).
Fixpoint early_serial_puts (s : list Z) : M shell () :=
  match s with
  | [] => fault                     (* no 0 at the end *)
  | c :: s =>
      if c =? 0 then mret () else
      when (c =? 10) (early_serial_putc 13);;
      early_serial_putc c;;
      early_serial_puts s
  end.
Definition shell_putc (c : Z) : M shell () := early_serial_putc c.
Definition shell_puts (s : list Z) : M shell () := early_serial_puts s.
(** A literal in the program. *)
Definition puts (s : list Z) : M shell () := shell_puts (s ++ [0]).

Definition serial_data_ready : M shell bool := f ← gets fifo; mret (negb (bool_decide (f = []))).
(** inb(SERIAL_PORT) takes the oldest byte. *)
Definition serial_in : M shell Z :=
  f ← gets fifo;
  match f with [] => mret 0 | c :: f => modify (λ s, s <| fifo := f |>);; mret (u8 c) end.
(** The polling loop goes on until the next byte has arrived. *)
Definition serial_wait : M shell () :=
  r ← serial_data_ready;
  if r : bool then mret () else
  l ← gets rx;
  match l with
  | [] => sleep
  | c :: l => modify (λ s, s <| fifo ::= λ f, f ++ [c] |> <| rx := l |>)
  end.
Definition shell_getc : M shell Z := serial_wait;; serial_in.
Definition flush_input : M shell () := l ← gets fifo; mfor (λ _, serial_in;; mret ()) l.

(** ** strcmp and strncmp (of main.c: the chars are signed) *)

Fixpoint strcmp (s1 s2 : list Z) : option Z :=
  match s1, s2 with
  | a :: s1, b :: s2 => if truth a && (a =? b) then strcmp s1 s2 else Some (s8 a - s8 b)
  | _, _ => None
  end.
Fixpoint strncmp (fuel : nat) (s1 s2 : list Z) (n : Z) : option Z :=
  match fuel with
  | O => None
  | S k =>
      if 0 <? n then
        match s1, s2 with
        | a :: s1', b :: s2' =>
            if truth a && (a =? b) then strncmp k s1' s2' (n - 1) else Some (s8 a - s8 b)
        | _, _ => None
        end
      else if n =? 0 then Some 0
      else match s1, s2 with a :: _, b :: _ => Some (s8 a - s8 b) | _, _ => None end
  end.

(** ** Commands *)

Definition cmd_help : M shell () :=
  puts (str "Available commands:" ++ nl);;
  puts (str "  help     - show this help" ++ nl);;
  puts (str "  uname    - show system info" ++ nl);;
  puts (str "  ps       - show processes" ++ nl);;
  puts (str "  free     - show memory info" ++ nl);;
  puts (str "  uptime   - show uptime" ++ nl);;
  puts (str "  reboot   - reboot system" ++ nl).
Definition cmd_uname : M shell () := puts (str "Linux 0.01 (64-bit port) x86_64" ++ nl).

Definition state_char (state : Z) : list Z :=
  if state =? 0 then str "R" else if state =? 1 then str "S" else if state =? 2 then str "D"
  else if state =? 3 then str "Z" else str "T".
(** A digit as the code makes it: '0' plus a remainder of either sign. *)
Definition digit (x : Z) : Z := u8 (48 + Z.rem x 10).
Definition ps_line (i pid state : Z) : list Z :=
  [digit (Z.quot pid 10); digit pid] ++ str "   " ++ state_char state ++ str "     " ++
  (if i =? 0 then str "idle" else if i =? 1 then str "init" else str "task" ++ [u8 (48 + i)]).
Definition cmd_ps : M shell () :=
  puts (str "PID  STATE  NAME" ++ nl);;
  mfor (λ i,
    p ← zoom tasks (task_at i);
    if p =? 0 then mret () else
    t ← zoom tasks (deref p);
    puts (ps_line i (s32 (Task.pid t)) (s32 (Task.state t)));;
    puts nl) (upto NR_TASKS).

Definition cmd_free : M shell () := puts (str "Memory: 8MB total, 6MB usable (1536 pages)" ++ nl).
Definition cmd_uptime : M shell () :=
  j ← gets (λ s, jiffies (tasks s));
  let secs := Z.quot j HZ in
  let mins := s32 (Z.quot secs 60) in
  let secs := Z.rem secs 60 in
  puts (str "Up " ++ [digit (Z.quot mins 10); digit mins] ++ str ":" ++
        [digit (Z.quot secs 10); digit secs] ++ nl).
Definition cmd_reboot : M shell () := puts (str "Rebooting..." ++ nl);; fault.

(** [strcmp(cmd_buf, s) == 0] *)
Definition buf_is (s : list Z) : M shell bool :=
  b ← gets cmd_buf;
  match strcmp b (s ++ [0]) with Some r => mret (r =? 0) | None => fault end.
Definition process_command : M shell () :=
  p ← gets cmd_pos;
  store cmd_buf p 0;;
  if p =? 0 then mret () else
  r ← buf_is (str "help"); if r : bool then cmd_help else
  r ← buf_is (str "uname");
  r ← (if r : bool then mret true else buf_is (str "uname -a"));
  if r : bool then cmd_uname else
  r ← buf_is (str "ps"); if r : bool then cmd_ps else
  r ← buf_is (str "free"); if r : bool then cmd_free else
  r ← buf_is (str "uptime"); if r : bool then cmd_uptime else
  r ← buf_is (str "reboot"); if r : bool then cmd_reboot else
  puts (str "Unknown command: ");;
  b ← gets cmd_buf; shell_puts b;;
  puts (nl ++ str "Type 'help' for available commands." ++ nl).

(** ** The loop *)

Definition shell_key : M shell (option ()) :=
  c ← shell_getc;
  if (c =? 13) || (c =? 10) then puts nl;; process_command;; mret (Some ())
  else if (c =? 127) || (c =? 8) then
    p ← gets cmd_pos;
    when (0 <? p) (modify (λ s, s <| cmd_pos := p - 1 |>);; puts ([8] ++ str " " ++ [8]));;
    mret None
  else
    p ← gets cmd_pos;
    when ((32 <=? c) && (c <? 127) && (p <? 255))
      (store cmd_buf p c;;
       modify (λ s, s <| cmd_pos := p + 1 |>);;
       shell_putc c);;
    mret None.
Definition shell_line (fuel : nat) : M shell () :=
  puts (str "# ");;
  modify (λ s, s <| cmd_pos := 0 |>);;
  mwhile fuel shell_key.

Definition rule : list Z := str "====================================" ++ nl.
(** [lines] commands of at most [keys] keys; the loop has no end. *)
Definition builtin_shell (lines keys : nat) : M shell () :=
  flush_input;;
  puts nl;;
  puts rule;;
  puts (str "  Linux 0.01 - 64-bit Port Shell" ++ nl);;
  puts rule;;
  puts (str "Type 'help' for available commands." ++ nl ++ nl);;
  mwhile lines (shell_line keys;; mret None).
