(* ===== verification/InitFacts.v ===== *)
(** * The shell edits a line and runs its command

    What the user types is edited into a line that never leaves its buffer, is
    echoed, and is taken for the command it spells. *)

From S2P Require Import Init.


(** ** The reference *)

Definition printable (c : Z) : bool := (32 <=? c) && (c <? 127).
Definition rubout (c : Z) : bool := (c =? 127) || (c =? 8).
Definition edit_step (line : list Z) (c : Z) : list Z :=
  if rubout c then take (length line - 1) line
  else if printable c && Nat.ltb (length line) 255 then line ++ [c] else line.
Definition edit (keys : list Z) : list Z := foldl edit_step [] keys.
Definition echo_step (line : list Z) (c : Z) : list Z :=
  if rubout c then (if bool_decide (line = []) then [] else [8; 32; 8])
  else if printable c && Nat.ltb (length line) 255 then [c] else [].
Fixpoint echoes (line keys : list Z) : list Z :=
  match keys with [] => [] | c :: keys => echo_step line c ++ echoes (edit_step line c) keys end.

(** The command that a line is. *)
Definition command (line : list Z) : M shell () :=
  if decide (line = []) then mret ()
  else if decide (line = str "help") then cmd_help
  else if decide (line = str "uname" ∨ line = str "uname -a") then cmd_uname
  else if decide (line = str "ps") then cmd_ps
  else if decide (line = str "free") then cmd_free
  else if decide (line = str "uptime") then cmd_uptime
  else if decide (line = str "reboot") then cmd_reboot
  else puts (str "Unknown command: ");; puts line;; puts (nl ++ str "Type 'help' for available commands." ++ nl).

(** ** Output *)

Definition crlf (s : list Z) : list Z := flat_map (λ c, if c =? 10 then [13; 10] else [u8 c]) s.
Definition sent (s : shell) (l : list Z) : shell := s <| tx := tx s ++ l |>.

Lemma sent_sent s l1 l2 : sent (sent s l1) l2 = sent s (l1 ++ l2).
Proof. unfold sent. simpl. by rewrite <-app_assoc. Qed.
Lemma puts_run l tl s : Forall (λ c, c ≠ 0) l → early_serial_puts (l ++ 0 :: tl) s = Ret tt (sent s (crlf l)).
Proof.
  revert s. induction l as [|c l IH]; intros s Hl.
  - unfold sent. rewrite app_nil_r. by destruct s.
  - apply Forall_cons in Hl as [Hc Hl]. simpl. destruct (Z.eqb_spec c 0); [done|].
    destruct (Z.eqb_spec c 10) as [->|].
    + unfold when. erewrite bind_ret by reflexivity. erewrite bind_ret by reflexivity.
      rewrite IH by done. unfold sent. simpl. by rewrite <-!app_assoc.
    + unfold when. erewrite bind_ret by reflexivity. erewrite bind_ret by reflexivity.
      rewrite IH by done. unfold sent. simpl. by rewrite <-!app_assoc.
Qed.
Lemma puts_literal l s : Forall (λ c, c ≠ 0) l → puts l s = Ret tt (sent s (crlf l)).
Proof. intros Hl. unfold puts, shell_puts. by apply puts_run. Qed.

(** ** Comparing *)

Definition text (l : list Z) : Prop := Forall (λ c, 32 ≤ c < 127) l.
Lemma text_nonzero l : text l → Forall (λ c, c ≠ 0) l.
Proof. intros Hl. eapply Forall_impl; [exact Hl|]. intros c Hc. simpl in Hc. lia. Qed.
Lemma s8_ascii c : 0 ≤ c < 127 → s8 c = c.
Proof. intros Hc. unfold s8. rewrite Z.mod_small; lia. Qed.

Lemma strcmp_cons a l b w : strcmp (a :: l) (b :: w) =
  (if truth a && (a =? b) then strcmp l w else Some (s8 a - s8 b)).
Proof. done. Qed.
(** Where they differ the first difference decides. *)
Lemma strcmp_differs a l b w : 0 ≤ a < 127 → 0 ≤ b < 127 → a ≠ b →
  ∃ r, strcmp (a :: l) (b :: w) = Some r ∧ (r =? 0) = false.
Proof.
  intros Ha Hb Hab. rewrite strcmp_cons, (proj2 (Z.eqb_neq a b)), andb_false_r by done.
  eexists. split; [done|]. rewrite !s8_ascii by done. apply Z.eqb_neq. lia.
Qed.
Lemma strcmp_text l w tl tl' : text l → text w →
  ∃ r, strcmp (l ++ 0 :: tl) (w ++ 0 :: tl') = Some r ∧ (r =? 0) = bool_decide (l = w).
Proof.
  unfold text. revert w. induction l as [|a l IH]; intros [|b w]; rewrite ?Forall_cons; cbn [app].
  - by exists 0.
  - intros _ [Hb _]. rewrite bool_decide_eq_false_2 by done. apply strcmp_differs; lia.
  - intros [Ha _] _. rewrite bool_decide_eq_false_2 by done. apply strcmp_differs; lia.
  - intros [Ha Hl] [Hb Hw]. destruct (decide (a = b)) as [E|Hab]; [subst b|].
    + rewrite strcmp_cons, Z.eqb_refl, (proj2 (truth_true a)) by lia.
      destruct (IH w Hl Hw) as (r & Hr & Hb'). exists r. split; [done|]. rewrite Hb'.
      apply bool_decide_ext. split; congruence.
    + rewrite bool_decide_eq_false_2 by congruence. apply strcmp_differs; lia.
Qed.
Lemma buf_is_run l tl w s : text l → text w → cmd_buf s = l ++ 0 :: tl →
  buf_is w s = Ret (bool_decide (l = w)) s.
Proof.
  intros Hl Hw Hs. unfold buf_is, gets, mbind, M_bind. rewrite Hs.
  destruct (strcmp_text l w tl [] Hl Hw) as (r & Hr & Hb). by rewrite Hr, <-Hb.
Qed.
Lemma literal_text w : forallb printable w = true → text w.
Proof.
  intros H. rewrite forallb_forall in H. apply Forall_forall. intros c Hc%list_elem_of_In%H.
  apply andb_prop in Hc as [?%Z.leb_le ?%Z.ltb_lt]. lia.
Qed.

(** ** process_command *)

(** The buffer holds the line in its first bytes. *)
Definition holds (s : shell) (line : list Z) : Prop :=
  length (cmd_buf s) = 256%nat ∧ take (length line) (cmd_buf s) = line ∧ (length line ≤ 255)%nat ∧ text line ∧
  cmd_pos s = Z.of_nat (length line).

Lemma process_command_run s line : holds s line →
  ∃ buf, length buf = 256%nat ∧ process_command s = command line (s <| cmd_buf := buf |>).
Proof.
  intros (Hlen & Htake & Hl & Htext & Hpos). set (buf := <[length line := 0]> (cmd_buf s)).
  exists buf. split; [unfold buf; by rewrite length_insert|]. set (s' := s <| cmd_buf := buf |>).
  assert (buf = line ++ 0 :: drop (S (length line)) (cmd_buf s)) as Hbuf.
  { unfold buf. rewrite insert_take_drop by lia. by rewrite Htake. }
  assert (cmd_buf s' = line ++ 0 :: drop (S (length line)) (cmd_buf s)) as Hs' by exact Hbuf.
  unfold process_command. rewrite bind_gets, Hpos.
  erewrite bind_ret by (apply store_in; rewrite Hlen; lia). rewrite Nat2Z.id.
  change (s <| cmd_buf ::= <[length line:=0]> |>) with s'.
  unfold command. destruct (decide (line = [])) as [->|Hne]; [done|].
  destruct (Z.eqb_spec (Z.of_nat (length line)) 0) as [E|_].
  { destruct line; [done|simpl in E; lia]. }
  assert (∀ w, forallb printable w = true → buf_is w s' = Ret (bool_decide (line = w)) s') as Hb.
  { intros w Hw. eapply buf_is_run; [done|by apply literal_text|exact Hs']. }
  rewrite (bind_ret _ _ _ _ _ (Hb (str "help") eq_refl)). case_bool_decide as E1; [by rewrite decide_True|].
  rewrite (decide_False (P := line = str "help")) by done.
  rewrite (bind_ret _ _ _ _ _ (Hb (str "uname") eq_refl)).
  assert ((if bool_decide (line = str "uname") then mret true else buf_is (str "uname -a")) s' =
    Ret (bool_decide (line = str "uname" ∨ line = str "uname -a")) s') as Hu.
  { case_bool_decide as E2; [rewrite bool_decide_eq_true_2 by tauto; done|]. rewrite Hb by done.
    f_equal. apply bool_decide_ext. tauto. }
  rewrite (bind_ret _ _ _ _ _ Hu). clear Hu. case_bool_decide as E2; [by rewrite decide_True|].
  rewrite (decide_False (P := line = str "uname" ∨ _)) by done.
  rewrite (bind_ret _ _ _ _ _ (Hb (str "ps") eq_refl)). case_bool_decide as E3; [by rewrite decide_True|].
  rewrite (decide_False (P := line = str "ps")) by done.
  rewrite (bind_ret _ _ _ _ _ (Hb (str "free") eq_refl)). case_bool_decide as E4; [by rewrite decide_True|].
  rewrite (decide_False (P := line = str "free")) by done.
  rewrite (bind_ret _ _ _ _ _ (Hb (str "uptime") eq_refl)). case_bool_decide as E5; [by rewrite decide_True|].
  rewrite (decide_False (P := line = str "uptime")) by done.
  rewrite (bind_ret _ _ _ _ _ (Hb (str "reboot") eq_refl)). case_bool_decide as E6; [by rewrite decide_True|].
  rewrite (decide_False (P := line = str "reboot")) by done.
  rewrite !(bind_ret _ _ _ _ _ (puts_literal (str "Unknown command: ") s' ltac:(by apply text_nonzero, literal_text))).
  rewrite bind_gets.
  change (cmd_buf (sent s' (crlf (str "Unknown command: ")))) with (cmd_buf s'). rewrite Hs'.
  unfold shell_puts at 1. rewrite (bind_ret _ _ _ _ _ (puts_run _ _ _ (text_nonzero _ Htext))).
  by rewrite (bind_ret _ _ _ _ _ (puts_literal _ _ (text_nonzero _ Htext))).
Qed.

(** ** A key *)

Lemma getc_run s c l : fifo s = [] → rx s = c :: l → 0 ≤ c < 256 →
  shell_getc s = Ret c (s <| rx := l |>).
Proof.
  destruct s as [f r t b p ts]. simpl. intros -> -> Hc. rewrite <-(u8_small c) at 2 by done. reflexivity.
Qed.
Lemma printable_spec c : printable c = true ↔ 32 ≤ c < 127.
Proof. unfold printable. rewrite andb_true_iff, Z.leb_le, Z.ltb_lt. lia. Qed.
Lemma rubout_spec c : rubout c = true ↔ c = 127 ∨ c = 8.
Proof. unfold rubout. by rewrite orb_true_iff, !Z.eqb_eq. Qed.

(** What the line editor keeps: the bytes to come, those sent, the tasks. *)
Definition waiting (s : shell) (l t : list Z) (ts : sched) : Prop :=
  fifo s = [] ∧ rx s = l ∧ tx s = t ∧ tasks s = ts.

Lemma holds_rubout s line : holds s line → line ≠ [] →
  holds (s <| cmd_pos := cmd_pos s - 1 |>) (take (length line - 1) line).
Proof.
  intros (Hlen & Htake & Hl & Htext & Hpos) Hne.
  assert (length line ≠ 0%nat) as Hn by (by intros ?%length_zero_iff_nil).
  unfold holds. rewrite length_take. simpl. replace ((length line - 1) `min` length line)%nat with (length line - 1)%nat by lia.
  split_and!; [done| |lia|by apply Forall_take|lia].
  trans (take (length line - 1) (take (length line) (cmd_buf s))); [|by rewrite Htake].
  rewrite take_take. f_equal. lia.
Qed.
Lemma holds_key s line c : holds s line → 32 ≤ c < 127 → (length line < 255)%nat →
  holds (s <| cmd_buf ::= <[Z.to_nat (cmd_pos s) := c]> |> <| cmd_pos := cmd_pos s + 1 |>) (line ++ [c]).
Proof.
  intros (Hlen & Htake & Hl & Htext & Hpos) Hc Hlt. unfold holds. rewrite length_app. simpl.
  rewrite Hpos, Nat2Z.id, length_insert. split_and!; [done| |lia| |lia].
  - rewrite Nat.add_1_r, insert_take_drop by lia. rewrite firstn_app, length_take, take_take.
    replace (S (length line) `min` length line)%nat with (length line) by lia.
    rewrite Htake. f_equal. replace (S (length line) - length line `min` _)%nat with 1%nat by lia. done.
  - apply Forall_app. split; [done|]. by apply Forall_singleton.
Qed.

Lemma shell_key_edits s line c l t ts : holds s line → waiting s (c :: l) t ts →
  0 ≤ c < 256 → c ≠ 13 → c ≠ 10 →
  ∃ s', shell_key s = Ret None s' ∧ holds s' (edit_step line c) ∧ waiting s' l (t ++ echo_step line c) ts.
Proof.
  intros Hh (Hf & Hr & Ht & Hts) Hc H13 H10. pose proof Hh as (Hlen & _ & Hl & _ & Hpos).
  unfold shell_key. rewrite (bind_ret _ _ _ _ _ (getc_run s c l Hf Hr Hc)).
  rewrite (proj2 (Z.eqb_neq c 13)), (proj2 (Z.eqb_neq c 10)) by done. cbn [orb].
  set (s1 := s <| rx := l |>). assert (holds s1 line) as Hh1 by exact Hh.
  unfold edit_step, echo_step. change ((c =? 127) || (c =? 8)) with (rubout c).
  destruct (rubout c) eqn:Er; rewrite bind_gets; change (cmd_pos s1) with (cmd_pos s).
  - destruct (decide (line = [])) as [->|Hne].
    + rewrite Hpos. eexists. split; [done|]. split; [done|]. unfold waiting. rewrite app_nil_r. done.
    + assert (0 < cmd_pos s) as Hp by (rewrite Hpos; destruct line; [done|simpl; lia]).
      rewrite (proj2 (Z.ltb_lt _ _)) by done. rewrite bool_decide_eq_false_2 by done.
      unfold when. rewrite Hpos.
      erewrite bind_ret; [|rewrite bind_modify; apply puts_literal; by repeat constructor].
      eexists. split; [done|]. split; [rewrite <-Hpos; exact (holds_rubout s1 line Hh1 Hne)|].
      unfold waiting, s1. simpl. by rewrite Ht.
  - change ((32 <=? c) && (c <? 127)) with (printable c). rewrite Hpos.
    replace (Z.of_nat (length line) <? 255) with (Nat.ltb (length line) 255)
      by (apply eq_bool_prop_intro; rewrite !Is_true_true, Nat.ltb_lt, Z.ltb_lt; lia).
    destruct (printable c && Nat.ltb (length line) 255) eqn:E.
    + apply andb_prop in E as [Hpr%printable_spec Hlt%Nat.ltb_lt]. unfold when.
      erewrite bind_ret; [|erewrite bind_ret by (apply store_in; change (cmd_buf s1) with (cmd_buf s); lia); done].
      eexists. split; [done|]. rewrite <-Hpos. split; [by apply (holds_key s1)|].
      unfold waiting. simpl. rewrite Ht, u8_small by lia. done.
    + eexists. split; [done|]. split; [done|]. unfold waiting. by rewrite app_nil_r.
Qed.
Lemma shell_keys_edit keys : ∀ s line l t ts n, holds s line → waiting s (keys ++ l) t ts →
  Forall (λ c, 0 ≤ c < 256 ∧ c ≠ 13 ∧ c ≠ 10) keys →
  ∃ s', holds s' (foldl edit_step line keys) ∧ waiting s' l (t ++ echoes line keys) ts ∧
    mwhile (length keys + n) shell_key s = mwhile n shell_key s'.
Proof.
  induction keys as [|c keys IH]; intros s line l t ts n Hh Hw Hk.
  - exists s. simpl. by rewrite app_nil_r.
  - apply Forall_cons in Hk as [(Hc & H13 & H10) Hk].
    destruct (shell_key_edits _ _ _ _ _ _ Hh Hw Hc H13 H10) as (s1 & Hs1 & Hh1 & Hw1).
    destruct (IH s1 _ l _ ts n Hh1 Hw1 Hk) as (s' & Hh' & Hw' & E). exists s'.
    split; [done|]. split; [simpl; by rewrite app_assoc|]. simpl. by rewrite (bind_ret _ _ _ _ _ Hs1).
Qed.

Lemma mwhile_last {St} n (body : M St (option ())) (m : M St ()) s s' :
  body s = (m;; mret (Some ())) s' → mwhile (S n) body s = m s'.
Proof.
  intros Hb. simpl. unfold mbind, M_bind in *. rewrite Hb. by destruct (m s') as [[] ?| | | | |].
Qed.
(** Enter runs the line. *)
Lemma shell_key_enter s c l : fifo s = [] → rx s = c :: l → c = 13 ∨ c = 10 →
  shell_key s = (process_command;; mret (Some ())) (sent (s <| rx := l |>) [13; 10]).
Proof.
  intros Hf Hr Hc. unfold shell_key. rewrite (bind_ret _ _ _ _ _ (getc_run s c l Hf Hr ltac:(lia))).
  replace ((c =? 13) || (c =? 10)) with true by (destruct Hc as [-> | ->]; done).
  by rewrite (bind_ret _ _ _ _ _ (puts_literal nl _ ltac:(by repeat constructor))).
Qed.

(** C30: Whatever bytes the user types before the first carriage return or
    newline, one round of the shell prints its prompt, echoes the keys as a
    line editor would (rubbing out with backspace or delete, ignoring control
    characters and what no longer fits), never writes outside its buffer of
    256 bytes, and runs exactly the command that the edited line spells. *)
Theorem shell_runs_the_edited_line s keys e rest fuel :
  length (cmd_buf s) = 256%nat → fifo s = [] → rx s = keys ++ e :: rest →
  Forall (λ c, 0 ≤ c < 256 ∧ c ≠ 13 ∧ c ≠ 10) keys → e = 13 ∨ e = 10 → (length keys < fuel)%nat →
  ∃ buf, length buf = 256%nat ∧
    shell_line fuel s = command (edit keys)
      (Shell [] rest (tx s ++ str "# " ++ echoes [] keys ++ [13; 10]) buf
         (Z.of_nat (length (edit keys))) (tasks s)).
Proof.
  intros Hlen Hf Hr Hk He Hfuel. unfold shell_line.
  rewrite (bind_ret _ _ _ _ _ (puts_literal (str "# ") s ltac:(by repeat constructor))), bind_modify.
  set (s0 := (sent s (crlf (str "# "))) <| cmd_pos := 0 |>).
  assert (holds s0 []) as Hh by (split_and!; simpl; try done; [lia|constructor]).
  assert (waiting s0 (keys ++ e :: rest) (tx s ++ str "# ") (tasks s)) as Hw by done.
  replace fuel with (length keys + S (fuel - length keys - 1))%nat by lia.
  destruct (shell_keys_edit keys s0 [] _ _ _ (S (fuel - length keys - 1)) Hh Hw Hk)
    as (s1 & Hh1 & (Hf1 & Hr1 & Ht1 & Hts1) & ->).
  fold (edit keys) in Hh1. set (s2 := sent (s1 <| rx := rest |>) [13; 10]).
  destruct (process_command_run s2 (edit keys)) as (buf & Hbuf & Hcmd).
  { destruct Hh1 as (?&?&?&?&?). by split_and!. }
  exists buf. split; [done|]. rewrite (mwhile_last _ _ _ _ _ (shell_key_enter s1 e rest Hf1 Hr1 He)).
  unfold s2 in Hcmd. rewrite Hcmd. f_equal.
  destruct Hh1 as (_ & _ & _ & _ & Hpos).
  unfold s2. destruct s1. simpl in *. subst. by rewrite <-!app_assoc.
Qed.

(** The boot state of the shell: nothing received, the tasks those of the boot. *)
Definition boot_shell (input : list Z) : shell :=
  Shell [] input [] (replicate 256 0) 0 (Sched {[init_task := INIT_TASK]} (init_task :: replicate 63 0) init_task 0 0 0 ∅).

(** psx, a backspace, Enter: ps is run. *)
Definition keys_example : list Z := str "psx" ++ [8].

Lemma shell_runs_the_edited_line_witness :
  ∃ buf, length buf = 256%nat ∧
    shell_line 10 (boot_shell (keys_example ++ 13 :: str "uname")) = command (edit keys_example)
      (Shell [] (str "uname") (str "# psx" ++ [8; 32; 8; 13; 10]) buf 2 (tasks (boot_shell []))).
Proof.
  apply (shell_runs_the_edited_line (boot_shell (keys_example ++ 13 :: str "uname")) keys_example 13 (str "uname") 10);
    [reflexivity| reflexivity| reflexivity| |by left|simpl; lia].
  change keys_example with [112; 115; 120; 8].
  repeat (apply Forall_cons; split; [lia|]). constructor.
Defined.
