(* ===== verification/Str.v ===== *)
(** * C strings (include/string.h, lib/string.c)

    The memory is a finite map from addresses to bytes: the addresses in its
    domain are those of the program's objects, and an access to any other is a
    [Fault].  A pointer is an address, NULL is 0; the static variable ___strtok
    is part of the state.  A loop of the source is [miter], whose argument holds
    the local variables that the loop changes; the functions take the fuel of
    their loops as their first argument. *)

From S2P Require Export Prelude.

Record cmem := CMem { bytes : gmap Z Z; ___strtok : Z }.
#[export] Instance eta_cmem : Eta cmem := λ s, CMem (bytes s) (___strtok s).
Definition NULL : Z := 0.

(** A loop with local variables [l]: [inl] goes on, [inr] leaves the loop. *)
Fixpoint miter {St L R} (fuel : nat) (body : L → M St (L + R)) (l : L) : M St R :=
  match fuel with
  | O => nofuel
  | S n => x ← body l; match x with inl l => miter n body l | inr r => mret r end
  end.

Definition getb (p : Z) : M cmem Z :=
  m ← gets bytes; match m !! p with Some b => mret b | None => fault end.
Definition putb (p c : Z) : M cmem () :=
  m ← gets bytes; 
  if m !! p is Some _ then modify (λ s, s <| bytes ::= <[p := u8 c]> |>) else fault.

Section String.
Context (fuel : nat).

(** Copy bytes up to and with the 0. *)
Definition copy_str (d s : Z) : M cmem () :=
  miter fuel (λ '(d, s),
    c ← getb s; putb d c;;
    mret (if truth c then inl (d + 1, s + 1) else inr ())) (d, s).
(** The address of the 0 that ends the string. *)
Definition str_end (d : Z) : M cmem Z :=
  miter fuel (λ d, c ← getb d; mret (if truth c then inl (d + 1) else inr d)) d.

Definition strcpy (dest src : Z) : M cmem Z := copy_str dest src;; mret dest.
(** [count] bytes of 0. *)
Definition pad (d count : Z) : M cmem () :=
  miter fuel (λ '(d, n),
    if 0 <? n then putb d 0;; mret (inl (d + 1, n - 1)) else mret (inr ())) (d, count).
Definition strncpy (dest src count : Z) : M cmem Z :=
  '(d, count) ← miter fuel (λ '(d, s, n),
    if 0 <? n then
      c ← getb s; putb d c;;
      mret (if truth c then inl (d + 1, s + 1, n - 1) else inr (d + 1, n))
    else mret (inr (d, n))) (dest, src, count);
  pad d count;; mret dest.
Definition strcat (dest src : Z) : M cmem Z :=
  d ← str_end dest; copy_str d src;; mret dest.
Definition strncat (dest src count : Z) : M cmem Z :=
  d ← str_end dest;
  d ← miter fuel (λ '(d, s, n),
    if 0 <? n then
      c ← getb s; putb d c;;
      mret (if truth c then inl (d + 1, s + 1, n - 1) else inr d)
    else mret (inr d)) (d, src, count);
  putb d 0;; mret dest.

Definition strcmp (cs ct : Z) : M cmem Z :=
  miter fuel (λ '(cs, ct),
    a ← getb cs; b ← getb ct;
    mret (if truth a && (a =? b) then inl (cs + 1, ct + 1) else inr (u8 a - u8 b))) (cs, ct).
Definition strncmp (cs ct count : Z) : M cmem Z :=
  miter fuel (λ '(cs, ct, n),
    if n =? 0 then mret (inr 0) else
    a ← getb cs; b ← getb ct;
    mret (if (0 <? n) && truth a && (a =? b) then inl (cs + 1, ct + 1, n - 1)
          else inr (u8 a - u8 b))) (cs, ct, count).

Definition strchr (s c : Z) : M cmem Z :=
  miter fuel (λ s,
    a ← getb s;
    mret (if truth a then if a =? u8 c then inr s else inl (s + 1)
          else inr (if truth (u8 c) then NULL else s))) s.
Definition strrchr (s c : Z) : M cmem Z :=
  miter fuel (λ '(s, last),
    a ← getb s;
    mret (if truth a then inl (s + 1, if a =? u8 c then s else last)
          else inr (if truth (u8 c) then last else s))) (s, NULL).

(** The inner loop over [ct]: is [a] in that string? *)
Definition in_set (ct a : Z) : M cmem bool :=
  miter fuel (λ p,
    b ← getb p;
    mret (if truth b then if b =? a then inr true else inl (p + 1) else inr false)) ct.
(** The first place from [s] on whose byte is, or is not, in [ct]; or the end. *)
Definition span_while (inside : bool) (s ct : Z) : M cmem Z :=
  miter fuel (λ s,
    a ← getb s;
    if truth a then
      r ← in_set ct a;
      mret (if eqb r inside then inl (s + 1) else inr s)
    else mret (inr s)) s.
Definition strspn (cs ct : Z) : M cmem Z := s ← span_while true cs ct; mret (s32 (s - cs)).
Definition strcspn (cs ct : Z) : M cmem Z := s ← span_while false cs ct; mret (s32 (s - cs)).
Definition strpbrk (cs ct : Z) : M cmem Z :=
  s ← span_while false cs ct; a ← getb s; mret (if truth a then s else NULL).

(** The inner loop of strstr and the test of the byte it stops at. *)
Definition starts_with (s ct : Z) : M cmem bool :=
  q ← miter fuel (λ '(p, q),
    a ← getb p;
    if truth a then
      b ← getb q;
      mret (if truth b && (a =? b) then inl (p + 1, q + 1) else inr q)
    else mret (inr q)) (s, ct);
  b ← getb q; mret (negb (truth b)).
Definition strstr (cs ct : Z) : M cmem Z :=
  c ← getb ct;
  if negb (truth c) then mret cs else
  miter fuel (λ s,
    a ← getb s;
    if truth a then
      r ← starts_with s ct; mret (if r : bool then inr s else inl (s + 1))
    else mret (inr NULL)) cs.

Definition strlen (s : Z) : M cmem Z := sc ← str_end s; mret (s32 (sc - s)).

Definition strtok (s ct : Z) : M cmem Z :=
  when (truth s) (modify (λ m, m <| ___strtok := s |>));;
  t ← gets ___strtok;
  if negb (truth t) then mret NULL else
  t ← span_while true t ct;
  modify (λ m, m <| ___strtok := t |>);;
  a ← getb t;
  if negb (truth a) then mret NULL else
  e ← span_while false t ct;
  b ← getb e;
  (if truth b then putb e 0;; modify (λ m, m <| ___strtok := e + 1 |>)
   else modify (λ m, m <| ___strtok := NULL |>));;
  mret t.

(** [while (n--)]: the loop ends at 0 only. *)
Definition memcpy (dest src n : Z) : M cmem Z :=
  miter fuel (λ '(d, s, n),
    if truth n then c ← getb s; putb d c;; mret (inl (d + 1, s + 1, s32 (n - 1)))
    else mret (inr ())) (dest, src, n);;
  mret dest.
Definition memmove (dest src n : Z) : M cmem Z :=
  if dest <? src then memcpy dest src n else
  miter fuel (λ '(d, s, n),
    if truth n then c ← getb (s - 1); putb (d - 1) c;; mret (inl (d - 1, s - 1, s32 (n - 1)))
    else mret (inr ())) (dest + n, src + n, n);;
  mret dest.
Definition memcmp (cs ct count : Z) : M cmem Z :=
  miter fuel (λ '(s1, s2, n),
    if truth n then
      a ← getb s1; b ← getb s2;
      mret (if a =? b then inl (s1 + 1, s2 + 1, s32 (n - 1)) else inr (a - b))
    else mret (inr 0)) (cs, ct, count).
Definition memchr (cs c count : Z) : M cmem Z :=
  miter fuel (λ '(s, n),
    if truth n then
      a ← getb s;
      mret (if a =? u8 c then inr s else inl (s + 1, s32 (n - 1)))
    else mret (inr NULL)) (cs, count).
Definition memset (s c count : Z) : M cmem Z :=
  miter fuel (λ '(d, n),
    if truth n then putb d c;; mret (inl (d + 1, s32 (n - 1))) else mret (inr ())) (s, count);;
  mret s.
End String.

(** ** lib/string.c

    The functions that gcc calls for copies of structures.  Their count is an
    unsigned long, that of the inline functions above an int. *)
Section Lib.
Context (fuel : nat).

Definition lib_memcpy (dest src n : Z) : M cmem Z :=
  miter fuel (λ '(d, s, n),
    if truth n then c ← getb s; putb d c;; mret (inl (d + 1, s + 1, u64 (n - 1)))
    else mret (inr ())) (dest, src, n);;
  mret dest.
Definition lib_memset (s c n : Z) : M cmem Z :=
  miter fuel (λ '(xs, n),
    if truth n then putb xs c;; mret (inl (xs + 1, u64 (n - 1))) else mret (inr ())) (s, n);;
  mret s.
Definition lib_memmove (dest src n : Z) : M cmem Z :=
  if dest <? src then
    miter fuel (λ '(d, s, n),
      if truth n then c ← getb s; putb d c;; mret (inl (d + 1, s + 1, u64 (n - 1)))
      else mret (inr ())) (dest, src, n);;
    mret dest
  else
    miter fuel (λ '(d, s, n),
      if truth n then c ← getb (s - 1); putb (d - 1) c;; mret (inl (d - 1, s - 1, u64 (n - 1)))
      else mret (inr ())) (dest + n, src + n, n);;
    mret dest.
Definition lib_memcmp (s1 s2 n : Z) : M cmem Z :=
  miter fuel (λ '(p1, p2, n),
    if truth n then
      a ← getb p1; b ← getb p2;
      mret (if negb (a =? b) then inr (a - b) else inl (p1 + 1, p2 + 1, u64 (n - 1)))
    else mret (inr 0)) (s1, s2, n).
End Lib.
