(* ===== verification/StrFacts.v ===== *)
(** * The string functions against functions on lists

    What include/string.h computes on memory, stated with the bytes of the
    strings as lists. *)

From S2P Require Export Str Bytes.

(** ** Strings in memory *)

Lemma getb_run p b s : bytes s !! p = Some b → getb p s = Ret b s.
Proof. intros H. unfold getb. by rewrite bind_gets, H. Qed.
Lemma putb_run p c s : is_Some (bytes s !! p) → putb p c s = Ret tt (s <| bytes ::= <[p := u8 c]> |>).
Proof. intros [b H]. unfold putb. by rewrite bind_gets, H. Qed.
Lemma putb_fault p c s : bytes s !! p = None → putb p c s = Fault s.
Proof. intros H. unfold putb. by rewrite bind_gets, H. Qed.
(** One turn of a loop. *)
Lemma miter_S {St L R} n (body : L → M St (L + R)) l :
  miter (S n) body l = (x ← body l; match x with inl l => miter n body l | inr r => mret r end).
Proof. done. Qed.
Lemma miter_next {St L R} n (body : L → M St (L + R)) l l' s s' :
  body l s = Ret (inl l') s' → miter (S n) body l s = miter n body l' s'.
Proof. intros H. by rewrite miter_S, (bind_ret _ _ _ _ _ H). Qed.
Lemma miter_end {St L R} n (body : L → M St (L + R)) l r s s' :
  body l s = Ret (inr r) s' → miter (S n) body l s = Ret r s'.
Proof. intros H. by rewrite miter_S, (bind_ret _ _ _ _ _ H). Qed.

Lemma truth_char b : 0 < b < 256 → truth b = true.
Proof. rewrite truth_true. lia. Qed.

(** ** Searches *)

Section Search.
Context (m : gmap Z Z) (st : Z).
Let s : cmem := CMem m st.

Lemma read p b : m !! p = Some b → getb p s = Ret b s.
Proof. intros H. by apply (getb_run p b s). Qed.
Lemma read_str p l : cstr m p l → getb p s = Ret (hd 0 l) s.
Proof. intros H. by apply read, cstr_head. Qed.

Lemma str_end_run l : ∀ fuel p, cstr m p l → (length l < fuel)%nat → str_end fuel p s = Ret (p + zlen l) s.
Proof.
  induction l as [|b l IH]; intros [|fuel] p Hp Hf; simpl in Hf; try lia; unfold str_end.
  - apply cstr_nil in Hp. rewrite Z.add_0_r. apply miter_end. by rewrite (bind_ret _ _ _ _ _ (read _ _ Hp)).
  - apply cstr_cons in Hp as (Hb & Hm & Hp). erewrite miter_next.
    2: { rewrite (bind_ret _ _ _ _ _ (read _ _ Hm)), truth_char by done. done. }
    fold (str_end fuel (p + 1)). rewrite IH by (done || lia). f_equal. cbn [length]. lia.
Qed.

(** The first difference of two strings. *)
Fixpoint difference (l w : list Z) : Z :=
  match l, w with
  | a :: l, b :: w => if a =? b then difference l w else a - b
  | _, _ => hd 0 l - hd 0 w
  end.
Lemma char_u8 b : 0 < b < 256 → u8 b = b.
Proof. intros. apply u8_small. lia. Qed.
Lemma hd_char l : chars l → 0 ≤ hd 0 l < 256.
Proof. destruct l; [simpl; lia|]. rewrite chars_cons. simpl. lia. Qed.

Lemma strcmp_run l : ∀ fuel w p q, cstr m p l → cstr m q w → (length l < fuel)%nat →
  strcmp fuel p q s = Ret (difference l w) s.
Proof.
  induction l as [|a l IH]; intros [|fuel] w p q Hp Hq Hf; simpl in Hf; try lia; unfold strcmp.
  - apply miter_end. rewrite (bind_ret _ _ _ _ _ (read_str _ _ Hp)), (bind_ret _ _ _ _ _ (read_str _ _ Hq)).
    cbn [hd]. change (truth 0) with false. cbv iota. simpl andb. cbv iota.
    rewrite (u8_small (hd 0 w)) by (apply hd_char; apply Hq). by destruct w.
  - apply cstr_cons in Hp as (Ha & Hm & Hp). destruct w as [|b w].
    + apply miter_end. rewrite (bind_ret _ _ _ _ _ (read _ _ Hm)), (bind_ret _ _ _ _ _ (read_str _ _ Hq)).
      cbn [hd difference]. rewrite (proj2 (Z.eqb_neq a 0)), andb_false_r, char_u8 by lia. done.
    + apply cstr_cons in Hq as (Hb & Hm' & Hq). cbn [difference]. destruct (Z.eqb_spec a b) as [<-|Hne].
      * erewrite miter_next.
        2: { rewrite (bind_ret _ _ _ _ _ (read _ _ Hm)), (bind_ret _ _ _ _ _ (read _ _ Hm')).
             rewrite truth_char, Z.eqb_refl by done. done. }
        fold (strcmp fuel (p + 1) (q + 1)). apply IH; [done..|lia].
      * apply miter_end. rewrite (bind_ret _ _ _ _ _ (read _ _ Hm)), (bind_ret _ _ _ _ _ (read _ _ Hm')).
        rewrite (proj2 (Z.eqb_neq a b)), andb_false_r, !char_u8 by done. done.
Qed.

(** The length of the longest prefix of bytes that satisfy [f]. *)
Fixpoint span (f : Z → bool) (l : list Z) : nat :=
  match l with b :: l => if f b then S (span f l) else O | [] => O end.
Lemma span_le f l : (span f l ≤ length l)%nat.
Proof. induction l as [|b l IH]; simpl; [lia|]. destruct (f b); lia. Qed.

Lemma span_ext f g l : (∀ a, f a = g a) → span f l = span g l.
Proof. intros H. induction l as [|b l IH]; [done|]. simpl. by rewrite H, IH. Qed.

Definition mem (w : list Z) (a : Z) : bool := bool_decide (a ∈ w).
Lemma in_set_run w : ∀ fuel q a, cstr m q w → (length w < fuel)%nat → in_set fuel q a s = Ret (mem w a) s.
Proof.
  unfold mem. induction w as [|b w IH]; intros [|fuel] q a Hq Hf; simpl in Hf; try lia; unfold in_set.
  - apply cstr_nil in Hq. rewrite bool_decide_eq_false_2 by apply not_elem_of_nil.
    apply miter_end. by rewrite (bind_ret _ _ _ _ _ (read _ _ Hq)).
  - apply cstr_cons in Hq as (Hb & Hm & Hq). destruct (Z.eqb_spec b a) as [<-|Hne].
    + rewrite bool_decide_eq_true_2 by left. apply miter_end.
      by rewrite (bind_ret _ _ _ _ _ (read _ _ Hm)), truth_char, Z.eqb_refl.
    + erewrite miter_next.
      2: { rewrite (bind_ret _ _ _ _ _ (read _ _ Hm)), truth_char, (proj2 (Z.eqb_neq b a)) by done. done. }
      fold (in_set fuel (q + 1) a). rewrite IH by (done || lia). f_equal.
      apply bool_decide_ext. rewrite elem_of_cons. split; [by right|]. by intros [E|?]; [congruence|].
Qed.
Lemma span_while_run inside q w l : ∀ fuel p, cstr m p l → cstr m q w → (length l < fuel)%nat → (length w < fuel)%nat →
  ∀ n, (n ≤ fuel)%nat → (length l < n)%nat →
  miter n (λ t, a ← getb t;
    if truth a then r ← in_set fuel q a; mret (if eqb r inside then inl (t + 1) else inr t)
    else mret (inr t)) p s = Ret (p + Z.of_nat (span (λ a, eqb (mem w a) inside) l)) s.
Proof.
  induction l as [|b l IH]; intros fuel p Hp Hq Hf Hw [|n] Hn Hl; simpl in Hl; try lia; cbn [span].
  - apply cstr_nil in Hp. rewrite Z.add_0_r. apply miter_end. by rewrite (bind_ret _ _ _ _ _ (read _ _ Hp)).
  - apply cstr_cons in Hp as (Hb & Hm & Hp). simpl in Hf. destruct (eqb (mem w b) inside) eqn:E.
    + erewrite miter_next.
      2: { rewrite (bind_ret _ _ _ _ _ (read _ _ Hm)), truth_char by done. cbv iota.
           rewrite (bind_ret _ _ _ _ _ (in_set_run w fuel q b Hq Hw)), E. done. }
      rewrite IH by (done || lia). f_equal. lia.
    + rewrite Z.add_0_r. apply miter_end. rewrite (bind_ret _ _ _ _ _ (read _ _ Hm)), truth_char by done. cbv iota.
      by rewrite (bind_ret _ _ _ _ _ (in_set_run w fuel q b Hq Hw)), E.
Qed.
Lemma span_run inside fuel p q l w : cstr m p l → cstr m q w → (length l < fuel)%nat → (length w < fuel)%nat →
  span_while fuel inside p q s = Ret (p + Z.of_nat (span (λ a, eqb (mem w a) inside) l)) s.
Proof. intros. unfold span_while. by apply span_while_run. Qed.

(** The place of the first, and of the last, byte that satisfies [f]. *)
Fixpoint first (f : Z → bool) (l : list Z) : option nat :=
  match l with b :: l => if f b then Some O else S <$> first f l | [] => None end.
Fixpoint last_place (f : Z → bool) (l : list Z) : option nat :=
  match l with
  | b :: l => match last_place f l with Some i => Some (S i) | None => if f b then Some O else None end
  | [] => None
  end.
(** The place of the first occurrence of [w]. *)
Fixpoint occurrence (w l : list Z) : option nat :=
  if bool_decide (w `prefix_of` l) then Some O
  else match l with [] => None | _ :: l => S <$> occurrence w l end.
(** A place as a pointer into the string at [p]. *)
Definition ptr (p : Z) (o : option nat) : Z := match o with Some i => p + Z.of_nat i | None => NULL end.
Lemma ptr_S p o : ptr p (S <$> o) = ptr (p + 1) o.
Proof. destruct o; simpl; [lia|done]. Qed.

Lemma strchr_run c l : ∀ fuel p, cstr m p l → (length l < fuel)%nat →
  strchr fuel p c s = Ret (ptr p (first (λ b, b =? u8 c) (l ++ [0]))) s.
Proof.
  induction l as [|b l IH]; intros [|fuel] p Hp Hf; simpl in Hf; try lia; unfold strchr; cbn [app first].
  - apply cstr_nil in Hp. apply miter_end. rewrite (bind_ret _ _ _ _ _ (read _ _ Hp)).
    change (truth 0) with false. cbv iota. unfold truth. rewrite (Z.eqb_sym 0).
    destruct (u8 c =? 0); simpl; [by rewrite Z.add_0_r|done].
  - apply cstr_cons in Hp as (Hb & Hm & Hp). destruct (b =? u8 c) eqn:E.
    + cbn [ptr]. rewrite Z.add_0_r. apply miter_end.
      by rewrite (bind_ret _ _ _ _ _ (read _ _ Hm)), truth_char, E.
    + rewrite ptr_S. erewrite miter_next.
      2: { by rewrite (bind_ret _ _ _ _ _ (read _ _ Hm)), truth_char, E. }
      fold (strchr fuel (p + 1) c). by apply IH; [|lia].
Qed.
Lemma strrchr_loop c l : ∀ n p last, cstr m p l → (length l < n)%nat →
  miter n (λ '(t, last), a ← getb t;
    mret (if truth a then inl (t + 1, if a =? u8 c then t else last)
          else inr (if truth (u8 c) then last else t))) (p, last) s =
  Ret (match last_place (λ b, b =? u8 c) (l ++ [0]) with Some i => p + Z.of_nat i | None => last end) s.
Proof.
  induction l as [|b l IH]; intros [|n] p last Hp Hf; simpl in Hf; try lia; cbn [app last_place].
  - apply cstr_nil in Hp. apply miter_end. rewrite (bind_ret _ _ _ _ _ (read _ _ Hp)).
    change (truth 0) with false. cbv iota. unfold truth. rewrite (Z.eqb_sym 0).
    destruct (u8 c =? 0); simpl; [by rewrite Z.add_0_r|done].
  - apply cstr_cons in Hp as (Hb & Hm & Hp). erewrite miter_next.
    2: { by rewrite (bind_ret _ _ _ _ _ (read _ _ Hm)), truth_char. }
    rewrite IH by (done || lia). f_equal. destruct (last_place _ (l ++ [0])); [lia|].
    destruct (b =? u8 c); [by rewrite Z.add_0_r|done].
Qed.
Lemma strrchr_run c l fuel p : cstr m p l → (length l < fuel)%nat →
  strrchr fuel p c s = Ret (ptr p (last_place (λ b, b =? u8 c) (l ++ [0]))) s.
Proof. apply strrchr_loop. Qed.

Lemma span_first f l : first f l =
  if bool_decide (span (λ a, negb (f a)) l < length l)%nat then Some (span (λ a, negb (f a)) l) else None.
Proof.
  induction l as [|b l IH]; [done|]. cbn [first span length]. destruct (f b); cbn [negb]; [done|].
  rewrite IH. repeat case_bool_decide; try done; lia.
Qed.
Lemma span_head f l : hd 0 (drop (span f l) l) = 0 ∨ (span f l < length l)%nat.
Proof. induction l as [|b l IH]; [by left|]. simpl. destruct (f b); simpl; [destruct IH; [by left|right; lia]|right; lia]. Qed.
Lemma strpbrk_run l w fuel p q : cstr m p l → cstr m q w → (length l < fuel)%nat → (length w < fuel)%nat →
  strpbrk fuel p q s = Ret (ptr p (first (mem w) l)) s.
Proof.
  intros Hp Hq Hf Hw. unfold strpbrk.
  rewrite (bind_ret _ _ _ _ _ (span_run false fuel p q l w Hp Hq Hf Hw)).
  rewrite span_first, (span_ext (λ a, eqb (mem w a) false) (λ a, negb (mem w a))) by (intros a; by destruct (mem w a)).
  set (k := span _ l). pose proof (span_le (λ a, negb (mem w a)) l) as Hk. fold k in Hk.
  pose proof (cstr_drop _ _ _ k Hp Hk) as Hd. rewrite (bind_ret _ _ _ _ _ (read_str _ _ Hd)).
  case_bool_decide as Hlt.
  - destruct (drop k l) as [|b l'] eqn:E.
    + apply (f_equal length) in E. rewrite length_drop in E. simpl in E. lia.
    + apply cstr_cons in Hd as (Hb & _). simpl hd. by rewrite truth_char.
  - rewrite drop_ge by lia. done.
Qed.

Lemma starts_with_run l : ∀ w fuel p q, cstr m p l → cstr m q w → (length l < fuel)%nat →
  starts_with fuel p q s = Ret (bool_decide (w `prefix_of` l)) s.
Proof.
  intros w fuel p q Hp Hq Hf. unfold starts_with.
  cut (∃ q' w', miter fuel (λ '(p, q), a ← getb p;
     if truth a then b ← getb q; mret (if truth b && (a =? b) then inl (p + 1, q + 1) else inr q)
     else mret (inr q)) (p, q) s = Ret q' s ∧ cstr m q' w' ∧ (w' = [] ↔ w `prefix_of` l)).
  { intros (q' & w' & Hl & Hq' & Hiff). rewrite (bind_ret _ _ _ _ _ Hl), (bind_ret _ _ _ _ _ (read_str _ _ Hq')).
    destruct w' as [|b w']; [rewrite bool_decide_eq_true_2 by tauto; done|].
    rewrite bool_decide_eq_false_2 by (intros H%Hiff; done). apply cstr_cons in Hq' as [Hb _].
    cbn [hd]. by rewrite truth_char. }
  revert w fuel p q Hp Hq Hf. induction l as [|a l IH]; intros w [|fuel] p q Hp Hq Hf; simpl in Hf; try lia.
  - apply cstr_nil in Hp. exists q, w. split; [|split; [done|split]].
    + apply miter_end. by rewrite (bind_ret _ _ _ _ _ (read _ _ Hp)).
    + intros ->. apply prefix_nil.
    + apply prefix_nil_inv.
  - apply cstr_cons in Hp as (Ha & Hm & Hp). destruct w as [|b w].
    { exists q, []. split; [|split; [done|split; [|done]]].
      - apply miter_end. rewrite (bind_ret _ _ _ _ _ (read _ _ Hm)), truth_char by done. cbv iota.
        by rewrite (bind_ret _ _ _ _ _ (read_str _ _ Hq)).
      - intros _. apply prefix_nil. }
    pose proof Hq as (Hb & Hm' & Hq')%cstr_cons. destruct (Z.eqb_spec a b) as [<-|Hne].
    + destruct (IH w fuel (p + 1) (q + 1) Hp Hq' ltac:(lia)) as (q' & w' & Hl & Hc & Hiff).
      exists q', w'. split; [|split; [done|split]].
      * erewrite miter_next; [exact Hl|]. rewrite (bind_ret _ _ _ _ _ (read _ _ Hm)), truth_char by done. cbv iota.
        by rewrite (bind_ret _ _ _ _ _ (read _ _ Hm')), truth_char, Z.eqb_refl.
      * intros H%Hiff. by apply prefix_cons.
      * intros H%prefix_cons_inv_2. by apply Hiff.
    + exists q, (b :: w). split; [|split; [done|split; [done|]]].
      * apply miter_end. rewrite (bind_ret _ _ _ _ _ (read _ _ Hm)), truth_char by done. cbv iota.
        by rewrite (bind_ret _ _ _ _ _ (read _ _ Hm')), (proj2 (Z.eqb_neq a b)), andb_false_r.
      * intros H%prefix_cons_inv_1. congruence.
Qed.

Lemma strstr_loop l w n fuel q : cstr m q w → w ≠ [] → (length l < fuel)%nat → ∀ p, cstr m p l → (length l < n)%nat →
  miter n (λ t, a ← getb t;
    if truth a then r ← starts_with fuel t q; mret (if r : bool then inr t else inl (t + 1))
    else mret (inr NULL)) p s = Ret (ptr p (occurrence w l)) s.
Proof.
  intros Hq Hne. revert n. induction l as [|a l IH]; intros [|n] Hf p Hp Hn; simpl in Hn; try lia; cbn [occurrence].
  - rewrite bool_decide_eq_false_2 by (by intros ?%prefix_nil_inv). apply cstr_nil in Hp. apply miter_end.
    by rewrite (bind_ret _ _ _ _ _ (read _ _ Hp)).
  - pose proof (starts_with_run (a :: l) w fuel p q Hp Hq Hf) as Hs.
    apply cstr_cons in Hp as (Ha & Hm & Hp). case_bool_decide as E.
    + cbn [ptr]. rewrite Z.add_0_r. apply miter_end. rewrite (bind_ret _ _ _ _ _ (read _ _ Hm)), truth_char by done.
      cbv iota. by rewrite (bind_ret _ _ _ _ _ Hs).
    + rewrite ptr_S. erewrite miter_next.
      2: { rewrite (bind_ret _ _ _ _ _ (read _ _ Hm)), truth_char by done. cbv iota.
           by rewrite (bind_ret _ _ _ _ _ Hs). }
      simpl in Hf. apply IH; [lia|done|lia].
Qed.
Lemma strstr_run l w fuel p q : cstr m p l → cstr m q w → (length l < fuel)%nat →
  strstr fuel p q s = Ret (ptr p (occurrence w l)) s.
Proof.
  intros Hp Hq Hf. unfold strstr. rewrite (bind_ret _ _ _ _ _ (read_str _ _ Hq)). destruct w as [|b w].
  - cbn [hd]. change (truth 0) with false. cbn [negb]. unfold occurrence.
    destruct l; (rewrite bool_decide_eq_true_2 by apply prefix_nil); cbn [ptr]; by rewrite Z.add_0_r.
  - pose proof Hq as (Hb & _)%cstr_cons. cbn [hd]. rewrite truth_char by done. cbn [negb].
    by apply strstr_loop.
Qed.

Lemma strlen_run l fuel p : cstr m p l → (length l < fuel)%nat → strlen fuel p s = Ret (s32 (zlen l)) s.
Proof.
  intros Hp Hf. unfold strlen. rewrite (bind_ret _ _ _ _ _ (str_end_run l fuel p Hp Hf)).
  by replace (p + zlen l - p) with (zlen l) by lia.
Qed.

Lemma memchr_run c l : ∀ fuel p, at_bytes m p l → (length l < fuel)%nat → zlen l < 2147483648 →
  memchr fuel p c (zlen l) s = Ret (ptr p (first (λ b, b =? u8 c) l)) s.
Proof.
  induction l as [|b l IH]; intros [|fuel] p Hp Hf Hl; simpl in Hf; try lia; unfold memchr; cbn [first].
  - by apply miter_end.
  - destruct Hp as [Hm Hp]. cbn [length] in *. destruct (b =? u8 c) eqn:E.
    + cbn [ptr]. rewrite Z.add_0_r. apply miter_end. rewrite (proj2 (truth_true _)) by lia.
      by rewrite (bind_ret _ _ _ _ _ (read _ _ Hm)), E.
    + rewrite ptr_S. erewrite miter_next.
      2: { rewrite (proj2 (truth_true _)) by lia. by rewrite (bind_ret _ _ _ _ _ (read _ _ Hm)), E. }
      rewrite s32_small by lia. replace (Z.of_nat (S (length l)) - 1) with (zlen l) by lia.
      fold (memchr fuel (p + 1) c (zlen l)). apply IH; [done|lia|lia].
Qed.
Lemma memcmp_run l : ∀ w fuel p q, at_bytes m p l → at_bytes m q w → length w = length l → (length l < fuel)%nat →
  zlen l < 2147483648 → memcmp fuel p q (zlen l) s = Ret (difference l w) s.
Proof.
  induction l as [|a l IH]; intros [|b w] [|fuel] p q Hp Hq Hw Hf Hl; simpl in Hf, Hw; try lia; unfold memcmp; cbn [difference].
  - by apply miter_end.
  - destruct Hp as [Hm Hp], Hq as [Hm' Hq]. cbn [length] in *. destruct (a =? b) eqn:E.
    + erewrite miter_next.
      2: { rewrite (proj2 (truth_true _)) by lia.
           by rewrite (bind_ret _ _ _ _ _ (read _ _ Hm)), (bind_ret _ _ _ _ _ (read _ _ Hm')), E. }
      rewrite s32_small by lia. replace (Z.of_nat (S (length l)) - 1) with (zlen l) by lia.
      fold (memcmp fuel (p + 1) (q + 1) (zlen l)). apply IH; [done|done|lia|lia|lia].
    + apply miter_end. rewrite (proj2 (truth_true _)) by lia.
      by rewrite (bind_ret _ _ _ _ _ (read _ _ Hm)), (bind_ret _ _ _ _ _ (read _ _ Hm')), E.
Qed.
Lemma strncmp_run l : ∀ w fuel p q n, cstr m p l → cstr m q w → (length l < fuel)%nat →
  strncmp fuel p q (Z.of_nat n) s = Ret (difference (take n l) (take n w)) s.
Proof.
  induction l as [|a l IH]; intros w [|fuel] p q [|n] Hp Hq Hf; simpl in Hf; try lia; unfold strncmp;
    [by apply miter_end| |by apply miter_end|].
  - apply miter_end. rewrite (proj2 (Z.eqb_neq _ 0)) by lia. cbv iota.
    rewrite (bind_ret _ _ _ _ _ (read_str _ _ Hp)), (bind_ret _ _ _ _ _ (read_str _ _ Hq)).
    cbn [hd]. change (truth 0) with false. rewrite andb_false_r. simpl andb. cbv iota.
    rewrite (u8_small (hd 0 w)) by (apply hd_char; apply Hq). by destruct w.
  - apply cstr_cons in Hp as (Ha & Hm & Hp). destruct w as [|b w].
    + apply miter_end. rewrite (proj2 (Z.eqb_neq (Z.of_nat _) 0)) by lia. cbv iota.
      rewrite (bind_ret _ _ _ _ _ (read _ _ Hm)), (bind_ret _ _ _ _ _ (read_str _ _ Hq)).
      cbn [hd difference take]. rewrite (proj2 (Z.eqb_neq a 0)), andb_false_r, char_u8 by lia. done.
    + apply cstr_cons in Hq as (Hb & Hm' & Hq). cbn [take difference]. destruct (a =? b) eqn:E.
      * erewrite miter_next.
        2: { rewrite (proj2 (Z.eqb_neq (Z.of_nat _) 0)) by lia. cbv iota.
             rewrite (bind_ret _ _ _ _ _ (read _ _ Hm)), (bind_ret _ _ _ _ _ (read _ _ Hm')), E.
             rewrite truth_char, (proj2 (Z.ltb_lt 0 _)) by (done || lia). done. }
        replace (Z.of_nat (S n) - 1) with (Z.of_nat n) by lia.
        fold (strncmp fuel (p + 1) (q + 1) (Z.of_nat n)). apply IH; [done|done|lia].
      * apply miter_end. rewrite (proj2 (Z.eqb_neq (Z.of_nat _) 0)) by lia. cbv iota.
        rewrite (bind_ret _ _ _ _ _ (read _ _ Hm)), (bind_ret _ _ _ _ _ (read _ _ Hm')), E.
        by rewrite andb_false_r, !char_u8.
Qed.
End Search.

Lemma difference_eq l w : chars l → chars w → difference l w = 0 ↔ l = w.
Proof.
  revert w. induction l as [|a l IH]; intros [|b w]; rewrite ?chars_cons; cbn [difference hd].
  - done.
  - intros _ [? _]. split; [lia|done].
  - intros [? _] _. split; [lia|done].
  - intros [_ Hl] [_ Hw]. destruct (Z.eqb_spec a b) as [E|Hne]; [rewrite IH by done|]; split; try congruence. lia.
Qed.

(** On strings in memory strlen, strcmp, strncmp, strchr, strrchr, strspn,
    strcspn, strpbrk and strstr end and compute what their functions on lists
    do: the length, the first difference (zero exactly on equal strings), the
    first and last place of a character (its terminator included), the longest
    prefix inside and outside a set, the first member of a set, the first
    occurrence of a string; they change nothing. *)
Theorem string_searches s p q l w c n fuel :
  cstr (bytes s) p l → cstr (bytes s) q w → (length l < fuel)%nat → (length w < fuel)%nat → zlen l < 2 ^ 31 →
  strlen fuel p s = Ret (zlen l) s ∧
  strcmp fuel p q s = Ret (difference l w) s ∧ (difference l w = 0 ↔ l = w) ∧
  strncmp fuel p q (Z.of_nat n) s = Ret (difference (take n l) (take n w)) s ∧
  strchr fuel p c s = Ret (ptr p (first (λ b, b =? u8 c) (l ++ [0]))) s ∧
  strrchr fuel p c s = Ret (ptr p (last_place (λ b, b =? u8 c) (l ++ [0]))) s ∧
  strspn fuel p q s = Ret (Z.of_nat (span (mem w) l)) s ∧
  strcspn fuel p q s = Ret (Z.of_nat (span (λ b, negb (mem w b)) l)) s ∧
  strpbrk fuel p q s = Ret (ptr p (first (mem w) l)) s ∧
  strstr fuel p q s = Ret (ptr p (occurrence w l)) s.
Proof.
  destruct s as [m st]. cbn [bytes]. intros Hp Hq Hf Hw Hl.
  assert (∀ f, s32 (p + Z.of_nat (span f l) - p) = Z.of_nat (span f l)) as Hs.
  { intros f. rewrite s32_small; [lia|]. pose proof (span_le f l). lia. }
  split; [rewrite (strlen_run m st l), s32_small by (done || lia); done|].
  split; [by apply strcmp_run|]. split; [apply difference_eq; [apply Hp|apply Hq]|].
  split; [by apply strncmp_run|]. split; [by apply strchr_run|]. split; [by apply strrchr_run|].
  split; [|split; [|split; [by apply strpbrk_run|by apply strstr_run]]].
  - unfold strspn. rewrite (bind_ret _ _ _ _ _ (span_run m st true fuel p q l w Hp Hq Hf Hw)), Hs.
    by rewrite (span_ext _ (mem w)) by (intros a; by destruct (mem w a)).
  - unfold strcspn. rewrite (bind_ret _ _ _ _ _ (span_run m st false fuel p q l w Hp Hq Hf Hw)), Hs.
    by rewrite (span_ext _ (λ b, negb (mem w b))) by (intros a; by destruct (mem w a)).
Qed.

(** ** Copies *)

(** A loop copies a byte. *)
Lemma copy_byte d p b (m : gmap Z Z) st : m !! p = Some b → is_Some (m !! d) → 0 ≤ b < 256 →
  (c ← getb p; putb d c) (CMem m st) = Ret tt (CMem (<[d := b]> m) st).
Proof.
  intros Hp Hd Hb. rewrite (bind_ret _ _ _ _ _ (getb_run p b (CMem m st) Hp)), putb_run by done.
  by rewrite u8_small.
Qed.
Lemma copy_byte_then {B} d p b (m : gmap Z Z) st (k : Z → M cmem B) : m !! p = Some b → is_Some (m !! d) → 0 ≤ b < 256 →
  (c ← getb p; putb d c;; k c) (CMem m st) = k b (CMem (<[d := b]> m) st).
Proof.
  intros Hp Hd Hb. rewrite (bind_ret _ _ _ _ _ (getb_run p b (CMem m st) Hp)).
  rewrite (bind_ret _ _ _ _ _ (putb_run d b (CMem m st) Hd)), u8_small by done. done.
Qed.

Lemma forward_run st l : ∀ fuel d p m, at_bytes m p l → octets l → room m d (zlen l) →
  d < p ∨ p + zlen l ≤ d → (length l < fuel)%nat → zlen l < 2147483648 →
  memcpy fuel d p (zlen l) (CMem m st) = Ret d (CMem (blit d l m) st).
Proof.
  intros fuel d p m Hp Ho Hr Hd Hf Hl. unfold memcpy. erewrite bind_ret; [reflexivity|].
  revert fuel d p m Hp Ho Hr Hd Hf Hl. induction l as [|b l IH]; intros [|fuel] d p m Hp Ho Hr Hd Hf Hl; simpl in Hf; try lia.
  - by apply miter_end.
  - destruct Hp as [Hm Hp]. apply octets_cons in Ho as [Hb Ho]. cbn [length] in *. erewrite miter_next.
    2: { rewrite (proj2 (truth_true _)) by lia.
         rewrite (copy_byte_then d p b) by (try done; apply Hr; lia). done. }
    rewrite s32_small by lia. replace (Z.of_nat (S (length l)) - 1) with (zlen l) by lia.
    apply IH; [|done| |lia|lia|lia].
    + apply at_insert; [done|]. lia.
    + apply room_insert. eapply room_sub; [done|lia|lia].
Qed.
Lemma backward_run st l : ∀ fuel d p m, at_bytes m p l → octets l → room m d (zlen l) → p ≤ d →
  (length l < fuel)%nat → zlen l < 2147483648 →
  miter fuel (λ '(d, s, n),
    if truth n then c ← getb (s - 1); putb (d - 1) c;; mret (inl (d - 1, s - 1, s32 (n - 1)))
    else mret (inr ())) (d + zlen l, p + zlen l, zlen l) (CMem m st) = Ret tt (CMem (blit d l m) st).
Proof.
  induction l as [|b l IH] using rev_ind; intros [|fuel] d p m Hp Ho Hr Hd Hf Hl; try lia.
  - by apply miter_end.
  - apply at_app in Hp as [Hp [Hm _]]. apply Forall_app in Ho as [Ho Hb]. rewrite Forall_singleton in Hb.
    rewrite length_app in *. cbn [length] in *. erewrite miter_next.
    2: { rewrite (proj2 (truth_true _)) by lia.
         replace (p + Z.of_nat (length l + 1) - 1) with (p + zlen l) by lia.
         replace (d + Z.of_nat (length l + 1) - 1) with (d + zlen l) by lia.
         rewrite (copy_byte_then (d + zlen l) (p + zlen l) b) by (try done; apply Hr; lia). done. }
    rewrite s32_small by lia. replace (Z.of_nat (length l + 1) - 1) with (zlen l) by lia.
    rewrite <-blit_insert_end. apply IH; [|done| |lia|lia|lia].
    + apply at_insert; [done|]. lia.
    + apply room_insert. eapply room_sub; [done|lia|lia].
Qed.

(** memmove ends and copies its bytes whatever the overlap of the two
    ranges: the destination gets the bytes that the source had, and no other
    byte changes. *)
Theorem memmove_moves s d p l fuel :
  at_bytes (bytes s) p l → octets l → room (bytes s) d (zlen l) →
  (length l < fuel)%nat → zlen l < 2 ^ 31 →
  ∃ m, memmove fuel d p (zlen l) s = Ret d (s <| bytes := m |>) ∧ at_bytes m d l ∧
    ∀ q, ¬ d ≤ q < d + zlen l → m !! q = bytes s !! q.
Proof.
  destruct s as [m st]. cbn [bytes]. intros Hp Ho Hr Hf Hl. exists (blit d l m).
  split; [|split; [apply at_blit|intros q; apply blit_out]]. unfold memmove. destruct (Z.ltb_spec d p).
  - apply forward_run; [done..|lia|done|lia].
  - rewrite (bind_ret _ _ _ _ _ (backward_run st l fuel d p m Hp Ho Hr ltac:(lia) Hf ltac:(lia))). done.
Qed.

Lemma copy_str_run st l : ∀ fuel d p m, cstr m p l → room m d (zlen l + 1) → apart d (zlen l + 1) p (zlen l + 1) →
  (length l < fuel)%nat → copy_str fuel d p (CMem m st) = Ret tt (CMem (blit d (l ++ [0]) m) st).
Proof.
  unfold apart. induction l as [|b l IH]; intros [|fuel] d p m Hp Hr Ha Hf; simpl in Hf; try lia; unfold copy_str.
  - apply cstr_nil in Hp. apply miter_end. rewrite (copy_byte_then d p 0) by (try done; apply Hr; simpl; lia). done.
  - destruct Hp as [Hc Hp]. apply chars_cons in Hc as [Hb Hc]. destruct Hp as [Hm Hp]. cbn [length] in *.
    erewrite miter_next.
    2: { rewrite (copy_byte_then d p b) by (first [done|lia|apply Hr; lia]). by rewrite truth_char. }
    fold (copy_str fuel (d + 1) (p + 1)). rewrite IH; [done| | |lia|lia].
    + split; [done|]. fold (app l [0]) in *. apply at_insert; [done|]. rewrite length_app. cbn [length]. lia.
    + apply room_insert. eapply room_sub; [done|lia|lia].
Qed.

(** The padding loop of strncpy. *)
Lemma pad_prefix st n : ∀ fuel x d m, room m d (Z.of_nat n) → 0 ≤ x →
  pad (n + fuel) d (Z.of_nat n + x) (CMem m st) =
  pad fuel (d + Z.of_nat n) x (CMem (blit d (replicate n 0) m) st).
Proof.
  induction n as [|n IH]; intros fuel x d m Hr Hx; [by rewrite Z.add_0_r|]. cbn [Nat.add].
  unfold pad. erewrite miter_next.
  2: { rewrite (proj2 (Z.ltb_lt 0 _)) by lia.
       rewrite (bind_ret _ _ _ _ _ (putb_run d 0 (CMem m st) ltac:(apply Hr; lia))). done. }
  replace (Z.of_nat (S n) + x - 1) with (Z.of_nat n + x) by lia.
  replace (d + Z.of_nat (S n)) with (d + 1 + Z.of_nat n) by lia. cbn [replicate blit]. apply IH; [|lia].
  apply room_insert. eapply room_sub; [done|lia|lia].
Qed.
Lemma pad_nothing fuel d s : pad (S fuel) d (Z.of_nat 0) s = Ret tt s.
Proof. by apply miter_end. Qed.
(** Its last byte may be outside of the buffer. *)
Lemma pad_run st n fuel d m : room m d (Z.of_nat n) → (S n < fuel)%nat →
  pad fuel d (Z.of_nat (S n)) (CMem m st) =
  let m := blit d (replicate n 0) m in
  match m !! (d + Z.of_nat n) with
  | Some _ => Ret tt (CMem (<[d + Z.of_nat n := 0]> m) st)
  | None => Fault (CMem m st)
  end.
Proof.
  intros Hr Hf. cbv zeta. replace (Z.of_nat (S n)) with (Z.of_nat n + 1) by lia.
  replace fuel with (n + S (S (fuel - n - 2)))%nat by lia.
  rewrite pad_prefix by (done || lia). set (m' := blit d _ m). unfold pad. rewrite miter_S. change (0 <? 1) with true. cbv iota.
  destruct (m' !! (d + Z.of_nat n)) as [b|] eqn:E.
  - unfold mbind at 1, M_bind at 1.
    rewrite (bind_ret _ _ _ _ _ (putb_run (d + Z.of_nat n) 0 (CMem m' st) ltac:(by exists b))). by apply miter_end.
  - unfold mbind, M_bind. by rewrite putb_fault.
Qed.
(** What its first loop copies: at most [n] bytes, the 0 among them if it comes. *)
Definition copied (l : list Z) (n : nat) : list Z := take n (l ++ [0]).
Lemma strncpy_loop st l : ∀ n fuel d p m, cstr m p l → room m d (Z.of_nat n) → apart d (Z.of_nat n) p (zlen l + 1) →
  (length l < fuel)%nat → (n < fuel)%nat →
  miter fuel (λ '(d, s, n),
    if 0 <? n then
      c ← getb s; putb d c;;
      mret (if truth c then inl (d + 1, s + 1, n - 1) else inr (d + 1, n))
    else mret (inr (d, n))) (d, p, Z.of_nat n) (CMem m st) =
  Ret (d + zlen (copied l n), Z.of_nat (n - length l)) (CMem (blit d (copied l n) m) st).
Proof.
  unfold copied, apart. induction l as [|b l IH]; intros [|n] [|fuel] d p m Hp Hr Ha Hf Hn; simpl in Hf; try lia.
  1, 3: apply miter_end; cbn [take length blit]; by rewrite Z.add_0_r.
  - apply cstr_nil in Hp. apply miter_end. rewrite (proj2 (Z.ltb_lt 0 _)) by lia.
    rewrite (copy_byte_then d p 0) by (try done; apply Hr; lia). cbn [app take]. rewrite take_nil. done.
  - destruct Hp as [Hc Hp]. apply chars_cons in Hc as [Hb Hc]. destruct Hp as [Hm Hp]. cbn [length] in *.
    erewrite miter_next.
    2: { rewrite (proj2 (Z.ltb_lt 0 _)) by lia.
         rewrite (copy_byte_then d p b) by (first [done|lia|apply Hr; lia]). by rewrite truth_char. }
    replace (Z.of_nat (S n) - 1) with (Z.of_nat n) by lia. cbn [app take].
    rewrite IH; [|split; [done|]| |lia|lia|lia].
    + cbn [length blit]. do 2 f_equal; lia.
    + apply at_insert; [done|]. rewrite length_app. cbn [length]. lia.
    + apply room_insert. eapply room_sub; [done|lia|lia].
Qed.

(** strncpy ends.  From a string of [count] bytes or more it copies exactly
    [count]; of a shorter one it writes the string and then zeros up to
    [count] + 1 bytes: the 0 of the string is not counted, so that one byte
    behind the buffer of [count] bytes is overwritten, or faults. *)
Theorem strncpy_writes_one_too_many s d p l n fuel :
  cstr (bytes s) p l → room (bytes s) d (Z.of_nat n) → apart d (Z.of_nat n + 1) p (zlen l + 1) →
  (length l < fuel)%nat → (n < fuel)%nat →
  strncpy fuel d p (Z.of_nat n) s =
  if decide (n ≤ length l)%nat then Ret d (s <| bytes := blit d (take n l) (bytes s) |>)
  else let m := blit d (l ++ replicate (n - length l) 0) (bytes s) in
       match m !! (d + Z.of_nat n) with
       | Some _ => Ret d (s <| bytes := <[d + Z.of_nat n := 0]> m |>)
       | None => Fault (s <| bytes := m |>)
       end.
Proof.
  destruct s as [m st]. cbn [bytes]. intros Hp Hr Ha Hf Hn. unfold strncpy.
  rewrite (bind_ret _ _ _ _ _ (strncpy_loop st l n fuel d p m Hp Hr ltac:(unfold apart in *; lia) Hf Hn)).
  unfold copied. case_decide as Hle.
  - replace (n - length l)%nat with O by lia. destruct fuel as [|fuel]; [lia|]. rewrite take_app_le by lia.
    by rewrite (bind_ret _ _ _ _ _ (pad_nothing _ _ _)).
  - cbv zeta. replace (n - length l)%nat with (S (n - length l - 1))%nat by lia. set (k := (n - length l - 1)%nat).
    rewrite take_ge by (rewrite length_app; cbn [length]; lia).
    assert (room (blit d (l ++ [0]) m) (d + zlen (l ++ [0])) (Z.of_nat k)) as Hr'.
    { apply room_blit. rewrite length_app. cbn [length]. eapply room_sub; [done|lia|lia]. }
    unfold mbind at 1, M_bind at 1. rewrite (pad_run st k fuel _ _ Hr') by lia. cbv zeta.
    rewrite <-blit_app, <-app_assoc.
    replace (d + zlen (l ++ [0]) + Z.of_nat k) with (d + Z.of_nat n) by (rewrite length_app; cbn [length]; lia).
    by destruct (_ !! (d + Z.of_nat n)).
Qed.

Lemma strcpy_copies st l fuel d p m : cstr m p l → room m d (zlen l + 1) → apart d (zlen l + 1) p (zlen l + 1) →
  (length l < fuel)%nat → strcpy fuel d p (CMem m st) = Ret d (CMem (blit d (l ++ [0]) m) st).
Proof. intros Hp Hr Ha Hf. unfold strcpy. by rewrite (bind_ret _ _ _ _ _ (copy_str_run st l fuel d p m Hp Hr Ha Hf)). Qed.
Lemma strcat_appends st l1 l2 fuel d p m : cstr m d l1 → cstr m p l2 → room m d (zlen l1 + zlen l2 + 1) →
  apart d (zlen l1 + zlen l2 + 1) p (zlen l2 + 1) → (length l1 < fuel)%nat → (length l2 < fuel)%nat →
  strcat fuel d p (CMem m st) = Ret d (CMem (blit (d + zlen l1) (l2 ++ [0]) m) st).
Proof.
  intros Hd Hp Hr Ha Hf1 Hf2. unfold strcat, apart in *.
  rewrite (bind_ret _ _ _ _ _ (str_end_run m st l1 fuel d Hd Hf1)).
  erewrite bind_ret; [reflexivity|]. apply copy_str_run; [done| |unfold apart; lia|done].
  eapply room_sub; [done|lia|lia].
Qed.

(** ** The functions of lib/string.c

    For a count that is an int they are the inline functions; a count from 2^31
    on is a negative int to those. *)

(** Two loops whose bodies agree where the invariant [I] of the count holds. *)
Lemma miter_agree {L R} (I : L → Prop) (f g : L → M cmem (L + R)) fuel : ∀ l s, I l →
  (∀ l s, I l → f l s = g l s ∧ ∀ l' s', g l s = Ret (inl l') s' → I l') →
  miter fuel f l s = miter fuel g l s.
Proof.
  induction fuel as [|fuel IH]; intros l s Hl Hfg; [done|]. rewrite !miter_S. unfold mbind, M_bind.
  destruct (Hfg l s Hl) as [-> Hnext]. destruct (g l s) as [[l'|r] s'|?|?|?|?|?] eqn:E; try done.
  by apply IH; [apply (Hnext l' s')|].
Qed.
Lemma bind_agree {A B} (m m' : M cmem A) (k : A → M cmem B) s : m s = m' s → (m ≫= k) s = (m' ≫= k) s.
Proof. unfold mbind, M_bind. by intros ->. Qed.
Lemma count_down n : 0 ≤ n < 2 ^ 31 → truth n = true → u64 (n - 1) = s32 (n - 1) ∧ 0 ≤ s32 (n - 1) < 2 ^ 31.
Proof. intros Hn Ht%truth_true. rewrite u64_small, s32_small by lia. lia. Qed.

Ltac same_body n :=
  let E := fresh "E" in let Hd := fresh "Hd" in
  destruct (truth n) eqn:E; [|by split];
  destruct (count_down n) as [-> Hd]; [done|done|]; split; [done|];
  unfold mbind, M_bind, mret, M_ret; intros ??; repeat case_match; intros ?; simplify_eq; done.
Lemma lib_memcpy_is_inline fuel d p n s : 0 ≤ n < 2 ^ 31 → lib_memcpy fuel d p n s = memcpy fuel d p n s.
Proof.
  intros Hn. apply bind_agree, (miter_agree (λ '(_, _, n), 0 ≤ n < 2 ^ 31)); [done|]. intros [[x y] k] s' Hk. same_body k.
Qed.
Lemma lib_memmove_is_inline fuel d p n s : 0 ≤ n < 2 ^ 31 → lib_memmove fuel d p n s = memmove fuel d p n s.
Proof.
  intros Hn. unfold lib_memmove, memmove. destruct (d <? p); [by apply lib_memcpy_is_inline|].
  apply bind_agree, (miter_agree (λ '(_, _, n), 0 ≤ n < 2 ^ 31)); [done|]. intros [[x y] k] s' Hk. same_body k.
Qed.
Lemma lib_memset_is_inline fuel d c n s : 0 ≤ n < 2 ^ 31 → lib_memset fuel d c n s = memset fuel d c n s.
Proof.
  intros Hn. apply bind_agree, (miter_agree (λ '(_, n), 0 ≤ n < 2 ^ 31)); [done|]. intros [x k] s' Hk. same_body k.
Qed.
Lemma lib_memcmp_is_inline fuel d p n s : 0 ≤ n < 2 ^ 31 → lib_memcmp fuel d p n s = memcmp fuel d p n s.
Proof.
  intros Hn. apply (miter_agree (λ '(_, _, n), 0 ≤ n < 2 ^ 31)); [done|]. intros [[x y] k] s' Hk.
  destruct (truth k) eqn:E; [|by split]. destruct (count_down k) as [-> Hd]; [done|done|].
  split; [unfold mbind, M_bind; repeat case_match; done|].
  unfold mbind, M_bind, mret, M_ret; intros ??; repeat case_match; intros ?; simplify_eq; done.
Qed.

(** ** strtok *)

(** The fields of [l] between the bytes of [f], and those that are not empty. *)
Fixpoint fields (f : Z → bool) (l : list Z) : list (list Z) :=
  match l with
  | [] => [[]]
  | b :: l => if f b then [] :: fields f l
              else match fields f l with x :: xs => (b :: x) :: xs | [] => [[b]] end
  end.
Definition tokens (w l : list Z) : list (list Z) := filter (λ t, t ≠ []) (fields (mem w) l).

Lemma fields_hd f l : ∃ x xs, fields f l = x :: xs.
Proof. induction l as [|b l (x & xs & IH)]; simpl; [eauto|]. destruct (f b); [eauto|]. rewrite IH. eauto. Qed.
Lemma tokens_skip w b l : mem w b = true → tokens w (b :: l) = tokens w l.
Proof. intros H. unfold tokens. simpl. rewrite H. by rewrite filter_cons_False by naive_solver. Qed.
Lemma fields_run f t : ∀ l, Forall (λ b, f b = false) t →
  ∃ x xs, fields f l = x :: xs ∧ fields f (t ++ l) = (t ++ x) :: xs.
Proof.
  induction t as [|b t IH]; intros l Ht; [destruct (fields_hd f l) as (x & xs & E); eauto|].
  apply Forall_cons in Ht as [Hb Ht]. destruct (IH l Ht) as (x & xs & E1 & E2). exists x, xs.
  split; [done|]. simpl. by rewrite Hb, E2.
Qed.
Lemma tokens_nil w : tokens w [] = [].
Proof. done. Qed.
Lemma tokens_last w t : Forall (λ b, mem w b = false) t → t ≠ [] → tokens w t = [t].
Proof.
  intros Ht Hne. destruct (fields_run (mem w) t [] Ht) as (x & xs & E1 & E2). injection E1 as <- <-.
  unfold tokens. rewrite <-(app_nil_r t) at 1. rewrite E2, app_nil_r. by rewrite filter_cons_True.
Qed.
Lemma tokens_field w t b l : Forall (λ b, mem w b = false) t → t ≠ [] → mem w b = true →
  tokens w (t ++ b :: l) = t :: tokens w l.
Proof.
  intros Ht Hne Hb. destruct (fields_run (mem w) t (b :: l) Ht) as (x & xs & E1 & E2).
  simpl in E1. rewrite Hb in E1. injection E1 as <- <-.
  unfold tokens. rewrite E2, app_nil_r. by rewrite filter_cons_True.
Qed.

Lemma span_split f l : ∃ l1 l2, l = l1 ++ l2 ∧ length l1 = span f l ∧ Forall (λ b, f b = true) l1 ∧
  match l2 with b :: _ => f b = false | [] => True end.
Proof.
  induction l as [|b l (l1 & l2 & -> & Hn & Hf & Hl2)]; [by exists [], []|]. simpl. destruct (f b) eqn:E.
  - exists (b :: l1), l2. simpl. rewrite Hn. auto.
  - by exists [], (b :: l1 ++ l2).
Qed.
Lemma tokens_skips w l1 l2 : Forall (λ b, mem w b = true) l1 → tokens w (l1 ++ l2) = tokens w l2.
Proof. induction 1 as [|b l1 Hb _ IH]; [done|]. simpl. by rewrite tokens_skip. Qed.

Lemma span_app w l1 l2 : Forall (λ b, mem w b = true) l1 →
  match l2 with b :: _ => mem w b = false | [] => True end →
  span (λ a, eqb (mem w a) true) (l1 ++ l2) = length l1.
Proof.
  intros Hl1 Hl2. induction Hl1 as [|b l1 Hb _ IH]; simpl; [|by rewrite Hb, IH].
  destruct l2 as [|b l2]; [done|]. simpl. by rewrite Hl2.
Qed.

(** strtok goes on where ___strtok is. *)
Lemma strtok_from fuel p q m st : p ≠ 0 → strtok fuel p q (CMem m st) = strtok fuel NULL q (CMem m p).
Proof.
  intros Hp. unfold strtok. rewrite (proj2 (truth_true p)) by done. change (truth NULL) with false.
  unfold when. rewrite bind_modify. done.
Qed.
Lemma strtok_none fuel q m : strtok fuel NULL q (CMem m NULL) = Ret NULL (CMem m NULL).
Proof. done. Qed.

Section Strtok.
Context (w : list Z) (q : Z) (fuel : nat).
Hypothesis fuel_w : (length w < fuel)%nat.

(** Up to the choice of the token: [l1] is skipped. *)
Lemma strtok_skip m t l1 l2 : cstr m t (l1 ++ l2) → cstr m q w → 0 < t → (length (l1 ++ l2) < fuel)%nat →
  Forall (λ b, mem w b = true) l1 → match l2 with b :: _ => mem w b = false | [] => True end →
  strtok fuel NULL q (CMem m t) =
  (if negb (truth (hd 0 l2)) then mret NULL else
   e ← span_while fuel false (t + zlen l1) q;
   b ← getb e;
   (if truth b then putb e 0;; modify (λ m, m <| ___strtok := e + 1 |>)
    else modify (λ m, m <| ___strtok := NULL |>));;
   mret (t + zlen l1)) (CMem m (t + zlen l1)).
Proof.
  intros Ht Hq Hpos Hf Hl1 Hl2. unfold strtok. change (truth NULL) with false. unfold when. cbv iota.
  erewrite bind_ret by reflexivity. rewrite bind_gets. cbn [___strtok]. rewrite (proj2 (truth_true t)) by lia. cbn [negb].
  rewrite (bind_ret _ _ _ _ _ (span_run m t true fuel t q _ w Ht Hq Hf fuel_w)).
  rewrite span_app by done.
  rewrite bind_modify. apply cstr_app in Ht.
  change ((CMem m t) <| ___strtok := t + zlen l1 |>) with (CMem m (t + zlen l1)).
  by rewrite (bind_ret _ _ _ _ _ (read_str m (t + zlen l1) _ _ Ht)).
Qed.
Lemma span_not w' tok l3 : Forall (λ b, mem w' b = false) tok → match l3 with b :: _ => mem w' b = true | [] => True end →
  span (λ a, eqb (mem w' a) false) (tok ++ l3) = length tok.
Proof.
  intros Ht Hl3. induction Ht as [|b tok Hb _ IH]; simpl; [|by rewrite Hb, IH].
  destruct l3 as [|b l3]; [done|]. simpl. by rewrite Hl3.
Qed.
Lemma strtok_token m t l1 tok l3 : cstr m t (l1 ++ tok ++ l3) → cstr m q w → 0 < t →
  (length (l1 ++ tok ++ l3) < fuel)%nat → Forall (λ b, mem w b = true) l1 → tok ≠ [] →
  Forall (λ b, mem w b = false) tok → match l3 with b :: _ => mem w b = true | [] => True end →
  let a := t + zlen l1 in
  strtok fuel NULL q (CMem m t) = Ret a
    (match l3 with
     | [] => CMem m NULL
     | _ :: _ => CMem (<[a + zlen tok := 0]> m) (a + zlen tok + 1)
     end).
Proof.
  intros Ht Hq Hpos Hf Hl1 Hne Htok Hl3 a. pose proof (cstr_app _ _ _ _ Ht) as Ha. fold a in Ha.
  rewrite (strtok_skip m t l1 (tok ++ l3)); try done.
  2: { destruct Htok as [|b tok' Hb _]; [done|exact Hb]. }
  destruct tok as [|c tok]; [done|]. set (tk := c :: tok) in *.
  pose proof Ha as (Hc & _)%cstr_cons. cbn [hd app]. change (hd 0 (tk ++ l3)) with c. rewrite truth_char by done. cbn [negb].
  rewrite !length_app in Hf.
  rewrite (bind_ret _ _ _ _ _ (span_run m a false fuel a q _ w Ha Hq ltac:(rewrite length_app; lia) fuel_w)), span_not by done.
  pose proof (cstr_app _ _ _ _ Ha) as He. rewrite (bind_ret _ _ _ _ _ (read_str m a _ _ He)).
  destruct l3 as [|b l3].
  - done.
  - apply cstr_cons in He as (Hb & Hm & _). cbn [hd]. rewrite truth_char by done.
    unfold mbind at 1, M_bind at 1.
    rewrite (bind_ret _ _ _ _ _ (putb_run (a + zlen tk) 0 (CMem m a) ltac:(by exists b))). done.
Qed.

(** The client's loop: strtok(s, ct), then strtok(NULL, ct) until it is NULL. *)
Fixpoint strtok_all (n : nat) (p : Z) : M cmem (list Z) :=
  match n with
  | O => nofuel
  | S n => t ← strtok fuel p q;
           if truth t then ps ← strtok_all n NULL; mret (t :: ps) else mret []
  end.

Lemma strtok_all_run n : ∀ l m t, cstr m t l → cstr m q w → 0 < t → apart t (zlen l + 1) q (zlen w + 1) →
  (length l < fuel)%nat → (length l < n)%nat → q ≠ 0 →
  ∃ ps m' t', strtok_all n NULL (CMem m t) = Ret ps (CMem m' t') ∧ Forall2 (cstr m') ps (tokens w l) ∧
    ∀ a, ¬ t ≤ a < t + zlen l → m' !! a = m !! a.
Proof.
  induction n as [|n IH]; intros l m t Ht Hq Hpos Ha Hf Hn Hq0; [lia|]. unfold apart in Ha.
  destruct (span_split (mem w) l) as (l1 & l2 & -> & _ & Hl1 & Hl2). rewrite tokens_skips by done. simpl.
  destruct (span_split (λ b, negb (mem w b)) l2) as (tok & l3 & -> & _ & Htok & Hl3).
  assert (Forall (λ b, mem w b = false) tok) as Htok'.
  { eapply Forall_impl; [exact Htok|]. intros b. simpl. by destruct (mem w b). }
  assert (match l3 with b :: _ => mem w b = true | [] => True end) as Hl3'.
  { destruct l3 as [|b l3]; [done|]. by destruct (mem w b). }
  destruct (decide (tok = [])) as [->|Hne].
  - destruct l3 as [|b l3]; [|simpl in Hl2; congruence]. simpl.
    exists [], m, (t + zlen l1). split; [|by split; [constructor|]].
    rewrite (bind_ret _ _ _ _ _ (strtok_skip m t l1 [] Ht Hq Hpos Hf Hl1 I)). done.
  - pose proof (strtok_token m t l1 tok l3 Ht Hq Hpos Hf Hl1 Hne Htok' Hl3') as Hs. cbv zeta in Hs.
    rewrite (bind_ret _ _ _ _ _ Hs). rewrite (proj2 (truth_true _)) by lia.
    pose proof (cstr_app _ _ _ _ Ht) as Ht1. rewrite !length_app in *. destruct l3 as [|b l3].
    + destruct n as [|n]; [destruct tok; simpl in Hn; [done|lia]|].
      exists [t + zlen l1], m, NULL. split; [done|]. rewrite app_nil_r in *. rewrite tokens_last by done.
      split; [by constructor|done].
    + rewrite tokens_field by done. pose proof (cstr_app _ _ _ _ Ht1) as Ht2.
      apply cstr_cons in Ht2 as (_ & _ & Ht3). apply cstr_at in Ht1 as (Htk & Hck & _).
      set (a := t + zlen l1) in *. set (m1 := <[a + zlen tok := 0]> m). cbn [length] in *.
      destruct (IH l3 m1 (a + zlen tok + 1)) as (ps & m' & t' & Hps & Hall & Hout).
      { eapply cstr_ext; [done|]. intros x Hx. apply lookup_insert_ne. lia. }
      { eapply cstr_ext; [done|]. intros x Hx. apply lookup_insert_ne. lia. }
      { lia. } { unfold apart. lia. } { lia. } { lia. } { done. }
      exists (a :: ps), m', t'. rewrite (bind_ret _ _ _ _ _ Hps). split; [done|]. split.
      * constructor; [|done]. eapply cstr_ext; [by apply cstr_cut|]. intros x Hx. apply Hout. lia.
      * intros x Hx. rewrite Hout by lia. apply lookup_insert_ne. lia.
Qed.
End Strtok.

(** C29: Calling strtok on a string, and then with NULL until it returns NULL,
    ends and gives in order pointers to exactly the non-empty fields of the
    string between the delimiters, each one now a string of its own; the bytes
    outside of the string are not changed. *)
Theorem strtok_splits s p q l w fuel n :
  cstr (bytes s) p l → cstr (bytes s) q w → 0 < p → q ≠ 0 → apart p (zlen l + 1) q (zlen w + 1) →
  (length l < fuel)%nat → (length w < fuel)%nat → (length l < n)%nat →
  ∃ ps s', strtok_all q fuel n p s = Ret ps s' ∧ Forall2 (cstr (bytes s')) ps (tokens w l) ∧
    ∀ a, ¬ p ≤ a < p + zlen l → bytes s' !! a = bytes s !! a.
Proof.
  destruct s as [m st]. cbn [bytes]. intros Hp Hq Hpos Hq0 Ha Hf Hw Hn.
  destruct (strtok_all_run w q fuel Hw n l m p Hp Hq Hpos Ha Hf Hn Hq0) as (ps & m' & t' & H & Hall & Hout).
  exists ps, (CMem m' t'). split; [|done]. destruct n as [|n]; [lia|]. rewrite <-H. simpl.
  unfold mbind at 1 3, M_bind at 1 3. by rewrite strtok_from by lia.
Qed.

(** ** A concrete memory *)

(** ab,,cd at 64, the string , at 80 and eight bytes of 9 at 96. *)
Definition example_mem : gmap Z Z :=
  blit 64 [97; 98; 44; 44; 99; 100; 0] (blit 80 [44; 0] (blit 96 (replicate 8 9) ∅)).
Definition example : cmem := CMem example_mem NULL.

Lemma example_l : cstr example_mem 64 [97; 98; 44; 44; 99; 100].
Proof. split; [by apply chars_check|]. vm_compute. repeat split. Qed.
Lemma example_w : cstr example_mem 80 [44].
Proof. split; [by apply chars_check|]. vm_compute. repeat split. Qed.

Lemma string_searches_witness :
  strstr 10 64 80 example = Ret (ptr 64 (occurrence [44] [97; 98; 44; 44; 99; 100])) example.
Proof.
  pose proof (string_searches example 64 80 [97; 98; 44; 44; 99; 100] [44] 44 2 10 example_l example_w
    ltac:(simpl; lia) ltac:(simpl; lia) ltac:(simpl; lia)) as H.
  exact (proj2 (proj2 (proj2 (proj2 (proj2 (proj2 (proj2 (proj2 (proj2 H))))))))).
Defined.

(** Three bytes up, onto themselves. *)
Lemma memmove_moves_witness :
  ∃ m, memmove 10 66 64 (zlen [97; 98; 44; 44]) example = Ret 66 (example <| bytes := m |>) ∧
    at_bytes m 66 [97; 98; 44; 44] ∧ ∀ q, ¬ 66 ≤ q < 66 + zlen [97; 98; 44; 44] → m !! q = bytes example !! q.
Proof.
  apply (memmove_moves example 66 64 [97; 98; 44; 44] 10); [vm_compute; repeat split| |by apply room_check|simpl; lia|simpl; lia].
  repeat (apply Forall_cons; split; [lia|]). constructor.
Defined.

(** Into the last three bytes of an object: the string is shorter, and the
    fourth byte written is behind it. *)
Lemma strncpy_writes_one_too_many_witness :
  strncpy 10 101 80 (Z.of_nat 3) example =
  Fault (example <| bytes := blit 101 [44; 0; 0] example_mem |>).
Proof.
  refine (eq_trans (strncpy_writes_one_too_many example 101 80 [44] 3 10 example_w _ _ _ _) _);
    [by apply room_check|unfold apart; simpl; lia|simpl; lia|lia|]. reflexivity.
Defined.

Lemma strtok_splits_witness :
  ∃ ps s', strtok_all 80 10 10 64 example = Ret ps s' ∧
    Forall2 (cstr (bytes s')) ps (tokens [44] [97; 98; 44; 44; 99; 100]) ∧
    ∀ a, ¬ 64 ≤ a < 64 + zlen [97; 98; 44; 44; 99; 100] → bytes s' !! a = bytes example !! a.
Proof.
  apply (strtok_splits example 64 80 [97; 98; 44; 44; 99; 100] [44] 10 10 example_l example_w);
    [lia|lia|unfold apart; simpl; lia|simpl; lia|simpl; lia|simpl; lia].
Defined.
Example tokens_example : tokens [44] [97; 98; 44; 44; 99; 100] = [[97; 98]; [99; 100]].
Proof. reflexivity. Qed.
