(* ===== verification/Printf.v ===== *)
(** * Formatted output (kernel/vsprintf.c, kernel/printk.c, kernel/panic.c)

    On the memory of C strings.  The arguments are a list of 8-byte slots, from
    which va_arg takes the next one at the width of its type; taking one that is
    not there is a [Fault].  The functions take the fuel of their loops first. *)

From S2P Require Export Prelude Str.

Definition is_digit (c : Z) : bool := (48 <=? c) && (c <=? 57).

Definition ZEROPAD : Z := 1.
Definition SIGN : Z := 2.
Definition PLUS : Z := 4.
Definition SPACE : Z := 8.
Definition LEFT : Z := 16.
Definition SPECIAL : Z := 32.
Definition SMALL : Z := 64.
Definition flag (type f : Z) : bool := truth (type .& f).

(** divl: the unsigned 32-bit quotient (back in [n]) and the remainder. *)
Definition do_div (n base : Z) : Z * Z := (s32 (u32 n / u32 base), s32 (u32 n mod u32 base)).

Definition upper_digits : list Z := seqZ 48 10 ++ seqZ 65 26.
Definition lower_digits : list Z := seqZ 48 10 ++ seqZ 97 26.

Section Vsprintf.
Context (fuel : nat).

(** The value, and where the numeral ends. *)
Definition skip_atoi (s : Z) : M cmem (Z * Z) :=
  miter fuel (λ '(s, i),
    c ← getb s;
    mret (if is_digit c then inl (s + 1, s32 (i * 10 + c - 48)) else inr (i, s))) (s, 0).

(** [while (size-- > 0)], storing [c]. *)
Definition fill (str size c : Z) : M cmem (Z * Z) :=
  miter fuel (λ '(str, size),
    if 0 <? size then putb str c;; mret (inl (str + 1, s32 (size - 1)))
    else mret (inr (str, s32 (size - 1)))) (str, size).
(** The digits from the last to the first, in an array of 36. *)
Definition digits_of (digits : list Z) (num base : Z) : M cmem (list Z) :=
  if num =? 0 then mret [48] else
  miter fuel (λ '(num, tmp),
    if num =? 0 then mret (inr tmp) else
    let (n, r) := do_div num base in
    d ← index digits r;
    if 36 <=? Z.of_nat (length tmp) then fault else
    mret (inl (n, tmp ++ [d]))) (num, []).
(** [while (i-- > 0)], storing [tmp[i]]. *)
Definition put_digits (str : Z) (tmp : list Z) : M cmem Z :=
  '(str, _) ← miter fuel (λ '(str, i),
    if 0 <? i then d ← index tmp (i - 1); putb str d;; mret (inl (str + 1, i - 1))
    else mret (inr (str, i))) (str, Z.of_nat (length tmp));
  mret str.

Definition number (str num base size precision type : Z) : M cmem Z :=
  let digits := if flag type SMALL then lower_digits else upper_digits in
  let type := if flag type LEFT then Z.ldiff type ZEROPAD else type in
  if (base <? 2) || (36 <? base) then mret NULL else
  let c := if flag type ZEROPAD then 48 else 32 in
  let '(sign, num) :=
    if flag type SIGN && (num <? 0) then (45, s32 (- num))
    else (if flag type PLUS then 43 else if flag type SPACE then 32 else 0, num) in
  let size := if truth sign then s32 (size - 1) else size in
  let size := if flag type SPECIAL then
                if base =? 16 then s32 (size - 2) else if base =? 8 then s32 (size - 1) else size
              else size in
  tmp ← digits_of digits num base;
  let i := Z.of_nat (length tmp) in
  let precision := if precision <? i then i else precision in
  let size := s32 (size - precision) in
  '(str, size) ← (if flag type (ZEROPAD + LEFT) then mret (str, size) else fill str size 32);
  str ← (if truth sign then putb str sign;; mret (str + 1) else mret str);
  str ← (if flag type SPECIAL then
           if base =? 8 then putb str 48;; mret (str + 1)
           else if base =? 16 then
             x ← index digits 33; putb str 48;; putb (str + 1) x;; mret (str + 2)
           else mret str
         else mret str);
  '(str, size) ← (if flag type LEFT then mret (str, size) else fill str size c);
  '(str, _) ← fill str (precision - i) 48;
  str ← put_digits str tmp;
  '(str, _) ← fill str size 32;
  mret str.

(** va_arg *)
Definition va_slot (args : list Z) : M cmem (Z * list Z) :=
  match args with a :: args => mret (a, args) | [] => fault end.

(** The flags of a directive and where they end; [fmt] is before the first. *)
Definition directive_flags (fmt : Z) : M cmem (Z * Z) :=
  miter fuel (λ '(fmt, flags),
    c ← getb (fmt + 1);
    mret (if c =? 45 then inl (fmt + 1, flags .| LEFT)
          else if c =? 43 then inl (fmt + 1, flags .| PLUS)
          else if c =? 32 then inl (fmt + 1, flags .| SPACE)
          else if c =? 35 then inl (fmt + 1, flags .| SPECIAL)
          else if c =? 48 then inl (fmt + 1, flags .| ZEROPAD)
          else inr (fmt + 1, flags))) (fmt, 0).
Definition directive_width (fmt flags : Z) (args : list Z) : M cmem (Z * Z * Z * list Z) :=
  c ← getb fmt;
  if is_digit c then '(w, fmt) ← skip_atoi fmt; mret (fmt, w, flags, args)
  else if c =? 42 then
    (* the source does not step over the star *)
    '(a, args) ← va_slot args;
    let w := s32 a in
    mret (if w <? 0 then (fmt, s32 (- w), flags .| LEFT, args) else (fmt, w, flags, args))
  else mret (fmt, -1, flags, args).
Definition directive_precision (fmt : Z) (args : list Z) : M cmem (Z * Z * list Z) :=
  c ← getb fmt;
  if c =? 46 then
    let fmt := fmt + 1 in
    c ← getb fmt;
    '(p, fmt, args) ←
      (if is_digit c then '(p, fmt) ← skip_atoi fmt; mret (p, fmt, args)
       else if c =? 42 then '(a, args) ← va_slot args; mret (s32 a, fmt, args)
       else mret (-1, fmt, args));
    mret (fmt, if p <? 0 then 0 else p, args)
  else mret (fmt, -1, args).
Definition directive_qualifier (fmt : Z) : M cmem Z :=
  c ← getb fmt; mret (if (c =? 104) || (c =? 108) || (c =? 76) then fmt + 1 else fmt).

(** [while (--field_width > 0)] *)
Definition pad_char (str field_width : Z) : M cmem (Z * Z) :=
  miter fuel (λ '(str, w),
    let w := s32 (w - 1) in
    if 0 <? w then putb str 32;; mret (inl (str + 1, w)) else mret (inr (str, w))) (str, field_width).
Definition put_char (str field_width flags a : Z) : M cmem Z :=
  '(str, w) ← (if flag flags LEFT then mret (str, field_width) else pad_char str field_width);
  putb str (u8 a);;
  '(str, _) ← pad_char (str + 1) w;
  mret str.
(** [while (len < field_width--)] *)
Definition pad_str (str len field_width : Z) : M cmem (Z * Z) :=
  miter fuel (λ '(str, w),
    if len <? w then putb str 32;; mret (inl (str + 1, s32 (w - 1))) else mret (inr (str, s32 (w - 1))))
    (str, field_width).
Definition put_str (str field_width precision flags s : Z) : M cmem Z :=
  len ← strlen fuel s;
  let len := if precision <? 0 then len else if precision <? len then precision else len in
  '(str, w) ← (if flag flags LEFT then mret (str, field_width) else pad_str str len field_width);
  str ← miter fuel (λ '(str, s, i),
    if i <? len then c ← getb s; putb str c;; mret (inl (str + 1, s + 1, i + 1))
    else mret (inr str)) (str, s, 0);
  '(str, _) ← pad_str str len w;
  mret str.
(** The four bytes of an int. *)
Definition put_int (p v : Z) : M cmem () :=
  putb p v;; putb (p + 1) (Z.shiftr v 8);; putb (p + 2) (Z.shiftr v 16);; putb (p + 3) (Z.shiftr v 24).

(** The switch on the conversion character [c], at [fmt]. *)
Definition convert (buf str fmt c flags field_width precision : Z) (args : list Z) : M cmem (Z * Z * list Z + Z) :=
  let num flags base width :=
    '(a, args) ← va_slot args;
    str ← number str (s32 a) base width precision flags;
    mret (inl (str, fmt + 1, args)) in
  if c =? 99 then
    '(a, args) ← va_slot args;
    str ← put_char str field_width flags a;
    mret (inl (str, fmt + 1, args))
  else if c =? 115 then
    '(a, args) ← va_slot args;
    str ← put_str str field_width precision flags a;
    mret (inl (str, fmt + 1, args))
  else if c =? 111 then num flags 8 field_width
  else if c =? 112 then
    if field_width =? -1 then num (flags .| ZEROPAD) 16 8 else num flags 16 field_width
  else if c =? 120 then num (flags .| SMALL) 16 field_width
  else if c =? 88 then num flags 16 field_width
  else if (c =? 100) || (c =? 105) then num (flags .| SIGN) 10 field_width
  else if c =? 117 then num flags 10 field_width
  else if c =? 110 then
    '(a, args) ← va_slot args;
    put_int a (s32 (str - buf));;
    mret (inl (str, fmt + 1, args))
  else
    str ← (if c =? 37 then mret str else putb str 37;; mret (str + 1));
    if truth c then putb str c;; mret (inl (str + 1, fmt + 1, args))
    else mret (inl (str, fmt, args)).
(** One turn of the loop of vsprintf. *)
Definition conversion (buf : Z) (st : Z * Z * list Z) : M cmem (Z * Z * list Z + Z) :=
  let '(str, fmt, args) := st in
  c ← getb fmt;
  if negb (truth c) then mret (inr str) else
  if negb (c =? 37) then putb str c;; mret (inl (str + 1, fmt + 1, args)) else
  '(fmt, flags) ← directive_flags fmt;
  '(fmt, field_width, flags, args) ← directive_width fmt flags args;
  '(fmt, precision, args) ← directive_precision fmt args;
  fmt ← directive_qualifier fmt;
  c ← getb fmt;
  convert buf str fmt c flags field_width precision args.

Definition vsprintf (buf fmt : Z) (args : list Z) : M cmem Z :=
  str ← miter fuel (conversion buf) (buf, fmt, args);
  putb str 0;;
  mret (s32 (str - buf)).

(** ** printk and panic

    [printbuf] is the static buffer of 1024 bytes; what is returned is what
    tty_write gets: the bytes and their number. *)

Fixpoint written_bytes (p : Z) (n : nat) : M cmem (list Z) :=
  match n with O => mret [] | S n => c ← getb p; l ← written_bytes (p + 1) n; mret (c :: l) end.
Definition printk (printbuf fmt : Z) (args : list Z) : M cmem (list Z) :=
  i ← vsprintf printbuf fmt args;
  written_bytes printbuf (Z.to_nat i).
(** [fmt] is the literal of the function; it loops for ever after that. *)
Definition panic_print (printbuf fmt s : Z) : M cmem (list Z) := printk printbuf fmt [s].
End Vsprintf.
