(* ===== verification/PrintfFacts.v ===== *)
(** * Formatted output against a layout of lists

    The text that a directive stands for, as a function on lists, and that
    vsprintf writes exactly this. *)

From S2P Require Import Printf StrFacts.

(** ** The reference *)

(** The digits of [n] from the last to the first; 32 are enough below 2^32. *)
Fixpoint num_digits (k : nat) (b n : Z) : list Z :=
  match k with
  | O => []
  | S k => if n =? 0 then [] else n mod b :: num_digits k b (n / b)
  end.
Definition digit_char (small : bool) (d : Z) : Z :=
  if d <? 10 then 48 + d else if small then 87 + d else 55 + d.
Definition numeral (small : bool) (b n : Z) : list Z :=
  if n =? 0 then [48] else reverse (digit_char small <$> num_digits 32 b n).

Definition spaces (n : Z) : list Z := replicate (Z.to_nat n) 32.
Definition zeros (n : Z) : list Z := replicate (Z.to_nat n) 48.
(** The sign of a number, its prefix, and its magnitude. *)
Definition sign_char (num type : Z) : Z :=
  if flag type SIGN && (num <? 0) then 45 else if flag type PLUS then 43 else if flag type SPACE then 32 else 0.
Definition sign_text (sign : Z) : list Z := if truth sign then [sign] else [].
Definition prefix_text (base type : Z) : list Z :=
  if flag type SPECIAL then
    if base =? 8 then [48] else if base =? 16 then [48; if flag type SMALL then 120 else 88] else []
  else [].
Definition magnitude (num type : Z) : Z := if flag type SIGN && (num <? 0) then - num else u32 num.

(** The text of a number: sign, prefix, at least [precision] digits, filled up
    to [size] characters on the left, on the right or with zeros. *)
Definition layout (num base size precision type : Z) : list Z :=
  let sign := sign_text (sign_char num type) in
  let prefix := prefix_text base type in
  let digits := numeral (flag type SMALL) base (magnitude num type) in
  let body := zeros (precision - zlen digits) ++ digits in
  let n := size - zlen sign - zlen prefix - zlen body in
  if flag type LEFT then sign ++ prefix ++ body ++ spaces n
  else if flag type ZEROPAD then sign ++ prefix ++ zeros n ++ body
  else spaces n ++ sign ++ prefix ++ body.

(** ** Code that only writes at [str] *)

Definition emits {A} (str : Z) (l : list Z) (a : A) (f : M cmem A) : Prop :=
  ∀ m st, room m str (zlen l) → f (CMem m st) = Ret a (CMem (blit str l m) st).

Lemma emits_ret {A} str (a : A) : emits str [] a (mret a).
Proof. by intros m st _. Qed.
Lemma emits_bind {A B} str l1 l2 (a : A) (b : B) f k :
  emits str l1 a f → emits (str + zlen l1) l2 b (k a) → emits str (l1 ++ l2) b (f ≫= k).
Proof.
  intros Hf Hk m st Hr. rewrite length_app in Hr.
  rewrite (bind_ret _ _ _ _ _ (Hf m st ltac:(eapply room_sub; [exact Hr|lia|lia]))).
  rewrite Hk; [by rewrite blit_app|]. apply room_blit. eapply room_sub; [exact Hr|lia|lia].
Qed.
Lemma emits_eq {A} str l l' (a a' : A) f : emits str l a f → l = l' → a = a' → emits str l' a' f.
Proof. by intros H -> ->. Qed.
(** A part that writes nothing. *)
Lemma emits_pure {A B} str l (a : A) (b : B) f k : emits str [] a f → emits str l b (k a) → emits str l b (f ≫= k).
Proof. intros Hf Hk. apply (emits_bind str [] l a); [done|]. by rewrite Z.add_0_r. Qed.
Lemma emits_putb str c : 0 ≤ c < 256 → emits str [c] () (putb str c).
Proof.
  intros Hc m st Hr. rewrite putb_run by (apply Hr; simpl; lia). by rewrite u8_small.
Qed.
Lemma emits_put {A} str c l (a : A) k : 0 ≤ c < 256 → emits (str + 1) l a k → emits str (c :: l) a (putb str c;; k).
Proof. intros Hc Hk. apply (emits_bind str [c] l ()); [by apply emits_putb|done]. Qed.
Lemma emits_iter {A L} str l1 l2 n (body : L → M cmem (L + A)) x y a :
  emits str l1 (inl y) (body x) → emits (str + zlen l1) l2 a (miter n body y) →
  emits str (l1 ++ l2) a (miter (S n) body x).
Proof. intros H1 H2. rewrite miter_S. by eapply emits_bind. Qed.
Lemma emits_stop {A L} str n (body : L → M cmem (L + A)) x a : emits str [] (inr a) (body x) → emits str [] a (miter (S n) body x).
Proof. intros H. rewrite miter_S. by eapply emits_pure; [exact H|apply emits_ret]. Qed.

(** A count of the C program that no arithmetic of a directive can overflow. *)
Definition small_int (n : Z) : Prop := -2 ^ 30 < n < 2 ^ 30.

Lemma fill_emits c n : ∀ fuel str size, 0 ≤ c < 256 → small_int size → n = Z.to_nat size → (n < fuel)%nat →
  emits str (replicate n c) (str + Z.max size 0, Z.min size 0 - 1) (fill fuel str size c).
Proof.
  unfold small_int. induction n as [|n IH]; intros [|fuel] str size Hc Hs Hn Hf; try lia; unfold fill.
  - apply emits_stop. rewrite (proj2 (Z.ltb_ge 0 size)) by lia. rewrite s32_small by lia.
    replace (str + Z.max size 0) with str by lia. replace (Z.min size 0) with size by lia. apply emits_ret.
  - change (replicate (S n) c) with ([c] ++ replicate n c). eapply (emits_iter str [c] _ fuel _ _ (str + 1, size - 1)).
    + rewrite (proj2 (Z.ltb_lt 0 size)) by lia. rewrite s32_small by lia.
      apply emits_put; [done|apply emits_ret].
    + fold (fill fuel (str + 1) (size - 1) c).
      replace (str + Z.max size 0) with (str + 1 + Z.max (size - 1) 0) by lia.
      replace (Z.min size 0) with (Z.min (size - 1) 0) by lia. apply IH; [done|lia|lia|lia].
Qed.

(** ** The digits *)

Lemma digit_index small r (s : cmem) : 0 ≤ r < 36 →
  index (if small : bool then lower_digits else upper_digits) r s = Ret (digit_char small r) s.
Proof.
  intros Hr. apply index_Some; [lia|]. unfold lower_digits, upper_digits, digit_char.
  destruct (Z.ltb_spec r 10); destruct small.
  1, 2: rewrite lookup_app_l by (rewrite length_seqZ; lia); apply lookup_seqZ; lia.
  all: rewrite lookup_app_r by (rewrite length_seqZ; lia); apply lookup_seqZ; rewrite length_seqZ; lia.
Qed.
Lemma digit_char_byte small d : 0 ≤ d < 36 → 0 < digit_char small d < 256.
Proof. intros Hd. unfold digit_char. repeat case_match; lia. Qed.

Lemma num_digits_length k b n : (length (num_digits k b n) ≤ k)%nat.
Proof. revert n. induction k as [|k IH]; intros n; simpl; [lia|]. destruct (n =? 0); simpl; [lia|]. specialize (IH (n / b)). lia. Qed.
Lemma num_digits_pos k b n : n ≠ 0 → (1 ≤ length (num_digits (S k) b n))%nat.
Proof. intros Hn. simpl. rewrite (proj2 (Z.eqb_neq n 0)) by done. simpl. lia. Qed.
Lemma num_digits_range k b n : 0 < b → Forall (λ d, 0 ≤ d < b) (num_digits k b n).
Proof.
  intros Hb. revert n. induction k as [|k IH]; intros n; simpl; [constructor|]. destruct (n =? 0); [constructor|].
  constructor; [by apply Z.mod_pos_bound|done].
Qed.

(** The loop of [number] over the digits: [n] is below b^k. *)
Lemma digits_loop_run small b (Hb : 2 ≤ b ≤ 36) k : ∀ fuel n tmp (s : cmem), 0 ≤ n < 2 ^ Z.of_nat k → n < 2 ^ 32 →
  (k < fuel)%nat → (length tmp + k ≤ 36)%nat →
  miter fuel (λ '(num, tmp),
    if num =? 0 then mret (inr tmp) else
    let (n, r) := do_div num b in
    d ← index (if small : bool then lower_digits else upper_digits) r;
    if 36 <=? Z.of_nat (length tmp) then fault else
    mret (inl (n, tmp ++ [d]))) (s32 n, tmp) s = Ret (tmp ++ (digit_char small <$> num_digits k b n)) s.
Proof.
  induction k as [|k IH]; intros [|fuel] n tmp s Hn Hn32 Hf Hl; try lia; cbn [num_digits].
  - replace n with 0 by lia. rewrite app_nil_r. by apply miter_end.
  - assert ((s32 n =? 0) = (n =? 0)) as H0.
    { unfold s32. destruct (Z.eqb_spec n 0) as [->|]; [done|]. apply Z.eqb_neq. dlia. }
    destruct (Z.eqb_spec n 0) as [->|Hne].
    { rewrite app_nil_r. by apply miter_end. }
    assert (u32 (s32 n) = n) as Hu by (unfold u32, s32; dlia).
    pose proof (Z.mod_pos_bound n b ltac:(lia)) as Hr.
    assert (0 ≤ n / b < 2 ^ Z.of_nat k) as Hq.
    { split; [apply Z.div_pos; lia|]. apply Z.div_lt_upper_bound; [lia|].
      rewrite Nat2Z.inj_succ, Z.pow_succ_r in Hn by lia. nia. }
    assert (n / b < 2 ^ 31) as Hq31 by (apply Z.div_lt_upper_bound; lia).
    erewrite miter_next.
    2: { rewrite H0. unfold do_div. rewrite Hu, (u32_small b) by lia. rewrite (s32_small (n mod b)) by lia.
         rewrite (bind_ret _ _ _ _ _ (digit_index small (n mod b) s ltac:(lia))).
         rewrite (proj2 (Z.leb_gt 36 _)) by lia. done. }
    rewrite IH; [|lia|lia|lia|rewrite length_app; simpl; lia].
    by rewrite <-app_assoc.
Qed.
Lemma digits_of_run small b fuel u (s : cmem) : 2 ≤ b ≤ 36 → 0 ≤ u < 2 ^ 32 → (32 < fuel)%nat →
  digits_of fuel (if small : bool then lower_digits else upper_digits) (s32 u) b s = Ret (reverse (numeral small b u)) s.
Proof.
  intros Hb Hu Hf. unfold digits_of, numeral.
  assert ((s32 u =? 0) = (u =? 0)) as ->.
  { unfold s32. destruct (Z.eqb_spec u 0) as [->|]; [done|]. apply Z.eqb_neq. dlia. }
  destruct (u =? 0); [done|]. rewrite reverse_involutive.
  apply (digits_loop_run small b Hb 32 fuel u [] s); simpl; lia.
Qed.
Lemma numeral_bytes small b n : 2 ≤ b ≤ 36 → Forall (λ c, 0 ≤ c < 256) (numeral small b n).
Proof.
  intros Hb. unfold numeral. destruct (n =? 0); [by repeat constructor|].
  apply Forall_reverse, Forall_fmap. eapply Forall_impl; [apply num_digits_range; lia|].
  intros d Hd. pose proof (digit_char_byte small d). simpl in *. lia.
Qed.
Lemma numeral_length small b n : (1 ≤ length (numeral small b n) ≤ 32)%nat.
Proof.
  unfold numeral. destruct (Z.eqb_spec n 0); [simpl; lia|]. rewrite length_reverse, length_fmap.
  split; [by apply (num_digits_pos 31)|apply num_digits_length].
Qed.

Lemma put_digits_loop tmp i : ∀ fuel str, Forall (λ c, 0 ≤ c < 256) tmp → (i ≤ length tmp)%nat → (i < fuel)%nat →
  emits str (reverse (take i tmp)) (str + Z.of_nat i, 0)
    (miter fuel (λ '(str, i),
       if 0 <? i then d ← index tmp (i - 1); putb str d;; mret (inl (str + 1, i - 1))
       else mret (inr (str, i))) (str, Z.of_nat i)).
Proof.
  induction i as [|i IH]; intros [|fuel] str Ht Hi Hf; try lia.
  - rewrite Z.add_0_r. apply emits_stop, emits_ret.
  - destruct (lookup_lt_is_Some_2 tmp i Hi) as [d Hd]. rewrite (take_S_r _ _ _ Hd), reverse_snoc.
    change (d :: reverse (take i tmp)) with ([d] ++ reverse (take i tmp)).
    eapply (emits_iter str [d] _ fuel _ _ (str + 1, Z.of_nat i)).
    + rewrite (proj2 (Z.ltb_lt 0 _)) by lia. replace (Z.of_nat (S i) - 1) with (Z.of_nat i) by lia.
      eapply emits_pure.
      { intros m st _. apply index_Some; [lia|]. by rewrite Nat2Z.id. }
      apply emits_put; [|apply emits_ret]. exact (proj1 (Forall_lookup _ _) Ht i d Hd).
    + replace (str + Z.of_nat (S i)) with (str + 1 + Z.of_nat i) by lia. apply IH; [done|lia|lia].
Qed.
Lemma put_digits_emits fuel str tmp : Forall (λ c, 0 ≤ c < 256) tmp → (length tmp < fuel)%nat →
  emits str (reverse tmp) (str + zlen tmp) (put_digits fuel str tmp).
Proof.
  intros Ht Hf. unfold put_digits. rewrite <-(app_nil_r (reverse tmp)).
  apply (emits_bind _ _ [] (str + zlen tmp, 0)); [|apply emits_ret]. rewrite <-(take_ge tmp (length tmp)) at 1 by done.
  by apply put_digits_loop.
Qed.

Lemma length_spaces n : zlen (spaces n) = Z.max n 0.
Proof. unfold spaces. rewrite length_replicate. lia. Qed.
Lemma length_zeros n : zlen (zeros n) = Z.max n 0.
Proof. unfold zeros. rewrite length_replicate. lia. Qed.
Lemma fill_spaces fuel str size : small_int size → (Z.to_nat size < fuel)%nat →
  emits str (spaces size) (str + zlen (spaces size), Z.min size 0 - 1) (fill fuel str size 32).
Proof. intros. rewrite length_spaces. by apply fill_emits. Qed.
Lemma fill_zeros fuel str size : small_int size → (Z.to_nat size < fuel)%nat →
  emits str (zeros size) (str + zlen (zeros size), Z.min size 0 - 1) (fill fuel str size 48).
Proof. intros. rewrite length_zeros. by apply fill_emits. Qed.
Lemma fill_none fuel str size c : small_int size → size ≤ 0 → (0 < fuel)%nat →
  emits str [] (str, size - 1) (fill fuel str size c).
Proof.
  unfold small_int. intros. destruct fuel as [|fuel]; [lia|]. apply emits_stop.
  rewrite (proj2 (Z.ltb_ge 0 size)), s32_small by lia. apply emits_ret.
Qed.
Lemma spaces_none n : n ≤ 0 → spaces n = [].
Proof. intros. unfold spaces. by replace (Z.to_nat n) with O by lia. Qed.
Lemma digits_emit fuel str digits : Forall (λ c, 0 ≤ c < 256) digits → (length digits < fuel)%nat →
  emits str digits (str + zlen digits) (put_digits fuel str (reverse digits)).
Proof.
  intros Hd Hf. pose proof (put_digits_emits fuel str (reverse digits)) as H.
  rewrite reverse_involutive, length_reverse in H. apply H; [by apply Forall_reverse|done].
Qed.

(** ** number *)

Lemma flag_lor t f g : flag t (f .| g) = flag t f || flag t g.
Proof.
  unfold flag, truth. rewrite Z.land_lor_distr_r, <-negb_andb. f_equal.
  apply eq_bool_prop_intro. rewrite !Is_true_true, andb_true_iff, !Z.eqb_eq. apply Z.lor_eq_0_iff.
Qed.
Lemma flag_ldiff t f g : flag (Z.ldiff t g) f = flag t (Z.ldiff f g).
Proof.
  unfold flag. f_equal. apply Z.bits_inj'. intros n Hn. rewrite !Z.land_spec, !Z.ldiff_spec.
  destruct (Z.testbit t n), (Z.testbit f n), (Z.testbit g n); done.
Qed.
(** The type that [number] works with: LEFT excludes ZEROPAD. *)
Definition eff (type : Z) : Z := if flag type LEFT then Z.ldiff type ZEROPAD else type.
Lemma flag_eff type f : Z.ldiff f ZEROPAD = f → flag (eff type) f = flag type f.
Proof. intros Hf. unfold eff. destruct (flag type LEFT); [|done]. by rewrite flag_ldiff, Hf. Qed.
Lemma flag_eff_zeropad type : flag (eff type) ZEROPAD = negb (flag type LEFT) && flag type ZEROPAD.
Proof.
  unfold eff. destruct (flag type LEFT); [|done]. rewrite flag_ldiff. unfold flag.
  change (Z.ldiff ZEROPAD ZEROPAD) with 0. by rewrite Z.land_0_r.
Qed.
Lemma flag_eff_both type : flag (eff type) (ZEROPAD + LEFT) = flag type LEFT || flag type ZEROPAD.
Proof.
  change (ZEROPAD + LEFT) with (ZEROPAD .| LEFT). rewrite flag_lor, flag_eff_zeropad, flag_eff by done.
  by destruct (flag type LEFT), (flag type ZEROPAD).
Qed.

Lemma magnitude_spec num type : -2 ^ 31 ≤ num < 2 ^ 31 → 0 ≤ magnitude num type < 2 ^ 32 ∧
  (if flag type SIGN && (num <? 0) then (45, s32 (- num))
   else (if flag type PLUS then 43 else if flag type SPACE then 32 else 0, num)) =
  (sign_char num type, s32 (magnitude num type)).
Proof.
  intros Hn. unfold magnitude, sign_char. destruct (flag type SIGN && (num <? 0)) eqn:E.
  - apply andb_prop in E as [_ ?%Z.ltb_lt]. split; [lia|done].
  - split; [unfold u32; dlia|]. f_equal. unfold s32, u32. dlia.
Qed.
Lemma sign_emits str sign : 0 ≤ sign < 256 → emits str (sign_text sign) (str + zlen (sign_text sign))
  (if truth sign then putb str sign;; mret (str + 1) else mret str).
Proof.
  intros Hs. unfold sign_text. destruct (truth sign).
  - apply emits_put; [done|apply emits_ret].
  - rewrite Z.add_0_r. apply emits_ret.
Qed.
Lemma prefix_emits str base type : emits str (prefix_text base type) (str + zlen (prefix_text base type))
  (if flag type SPECIAL then
     if base =? 8 then putb str 48;; mret (str + 1)
     else if base =? 16 then
       x ← index (if flag type SMALL then lower_digits else upper_digits) 33; putb str 48;; putb (str + 1) x;; mret (str + 2)
     else mret str
   else mret str).
Proof.
  unfold prefix_text. destruct (flag type SPECIAL); [|rewrite Z.add_0_r; apply emits_ret].
  destruct (base =? 8); [apply emits_put; [done|apply emits_ret]|].
  destruct (base =? 16); [|rewrite Z.add_0_r; apply emits_ret].
  eapply emits_pure; [intros m st _; apply digit_index; lia|].
  replace (digit_char _ 33) with (if flag type SMALL then 120 else 88) by (by destruct (flag type SMALL)).
  apply emits_put; [done|]. apply emits_put; [by destruct (flag type SMALL)|]. apply emits_ret.
Qed.
Lemma sign_char_byte num type : 0 ≤ sign_char num type < 256.
Proof. unfold sign_char. repeat case_match; lia. Qed.

Lemma size_sign size sign : small_int size →
  (if truth sign then s32 (size - 1) else size) = size - zlen (sign_text sign).
Proof. unfold small_int, sign_text. intros H. destruct (truth sign); simpl; [rewrite s32_small by lia|]; lia. Qed.
Lemma size_prefix size base type : - 2 ^ 30 - 1 < size < 2 ^ 30 →
  (if flag type SPECIAL then if base =? 16 then s32 (size - 2) else if base =? 8 then s32 (size - 1) else size
   else size) = size - zlen (prefix_text base type).
Proof.
  intros H. unfold prefix_text. destruct (flag type SPECIAL); [|simpl; lia].
  destruct (Z.eqb_spec base 16) as [->|]; [simpl; rewrite s32_small; lia|].
  destruct (base =? 8); simpl; [rewrite s32_small|]; lia.
Qed.
Lemma sign_text_length sign : 0 ≤ zlen (sign_text sign) ≤ 1.
Proof. unfold sign_text. destruct (truth sign); simpl; lia. Qed.
Lemma prefix_text_length base type : 0 ≤ zlen (prefix_text base type) ≤ 2.
Proof. unfold prefix_text. repeat case_match; simpl; lia. Qed.

(** After the digits are known: [n] is the room that is left. *)
Lemma number_tail fuel str sign base type digits precision n :
  0 ≤ sign < 256 → Forall (λ c, 0 ≤ c < 256) digits → - 2 ^ 29 < n < 2 ^ 29 → zlen digits ≤ precision < 2 ^ 29 →
  (Z.to_nat n < fuel)%nat → (Z.to_nat precision < fuel)%nat →
  let prefix := prefix_text base type in
  let body := zeros (precision - zlen digits) ++ digits in
  let text := if flag type LEFT then sign_text sign ++ prefix ++ body ++ spaces n
    else if flag type ZEROPAD then sign_text sign ++ prefix ++ zeros n ++ body
    else spaces n ++ sign_text sign ++ prefix ++ body in
  emits str text (str + zlen text)
   ('(str, size) ← (if flag type LEFT || flag type ZEROPAD then mret (str, n) else fill fuel str n 32);
    str ← (if truth sign then putb str sign;; mret (str + 1) else mret str);
    str ← (if flag type SPECIAL then
             if base =? 8 then putb str 48;; mret (str + 1)
             else if base =? 16 then
               x ← index (if flag type SMALL then lower_digits else upper_digits) 33;
               putb str 48;; putb (str + 1) x;; mret (str + 2)
             else mret str
           else mret str);
    '(str, size) ← (if flag type LEFT then mret (str, size) else
       fill fuel str size (if negb (flag type LEFT) && flag type ZEROPAD then 48 else 32));
    '(str, _) ← fill fuel str (precision - zlen digits) 48;
    str ← put_digits fuel str (reverse digits);
    '(str, _) ← fill fuel str size 32;
    mret str).
Proof.
  intros Hsign Hdig Hn Hprec Hf1 Hf2. cbv zeta. set (prefix := prefix_text base type).
  set (k := precision - zlen digits).
  assert (∀ str size, small_int size → (Z.to_nat size < fuel)%nat →
    emits str (zeros k ++ digits ++ spaces size) (str + zlen (zeros k ++ digits ++ spaces size))
    ('(str, _) ← fill fuel str k 48; str ← put_digits fuel str (reverse digits); '(str, _) ← fill fuel str size 32; mret str)) as Hend.
  { clear str. intros str size Hsz Hfs. eapply emits_eq.
    - eapply emits_bind; [apply fill_zeros; unfold small_int, k; lia|]. cbv iota beta.
      eapply emits_bind; [apply digits_emit; [done|lia]|].
      eapply emits_bind; [by apply fill_spaces|]. cbv iota beta. apply emits_ret.
    - by rewrite app_nil_r.
    - rewrite !length_app. lia. }
  destruct (flag type LEFT) eqn:EL; cbn [orb negb andb].
  - eapply emits_eq.
    + eapply emits_pure; [apply emits_ret|]. cbv iota beta.
      eapply emits_bind; [by apply sign_emits|]. eapply emits_bind; [apply prefix_emits|].
      eapply emits_pure; [apply emits_ret|]. cbv iota beta. apply (Hend _ n); unfold small_int; lia.
    + by rewrite <-!app_assoc.
    + rewrite !length_app. fold prefix. lia.
  - destruct (flag type ZEROPAD) eqn:EZ; cbn [orb negb andb].
    + eapply emits_eq.
      * eapply emits_pure; [apply emits_ret|]. cbv iota beta.
        eapply emits_bind; [by apply sign_emits|]. eapply emits_bind; [apply prefix_emits|].
        eapply emits_bind; [apply fill_zeros; unfold small_int; lia|]. cbv iota beta.
        apply (Hend _ (Z.min n 0 - 1)); unfold small_int; lia.
      * fold prefix. rewrite (spaces_none (Z.min n 0 - 1)), app_nil_r by lia. done.
      * fold prefix. rewrite (spaces_none (Z.min n 0 - 1)), app_nil_r by lia. rewrite !length_app. lia.
    + eapply emits_eq.
      * eapply emits_bind; [apply fill_spaces; unfold small_int; lia|]. cbv iota beta.
        eapply emits_bind; [by apply sign_emits|]. eapply emits_bind; [apply prefix_emits|].
        eapply emits_pure.
        { apply (fill_none fuel _ (Z.min n 0 - 1)); unfold small_int; lia. }
        cbv iota beta. apply (Hend _ (Z.min n 0 - 1 - 1)); unfold small_int; lia.
      * fold prefix. rewrite (spaces_none (Z.min n 0 - 1 - 1)), app_nil_r by lia. done.
      * fold prefix. rewrite (spaces_none (Z.min n 0 - 1 - 1)), app_nil_r by lia. rewrite !length_app. lia.
Qed.

(** Field widths and precisions up to a million; the buffers are smaller. *)
Definition reasonable (n : Z) : Prop := -1 ≤ n ≤ 2 ^ 20.

Definition enough (fuel : nat) (size precision : Z) : Prop := Z.max size 0 + Z.max precision 0 + 40 < Z.of_nat fuel.

Lemma number_emits fuel str num base size precision type :
  2 ≤ base ≤ 36 → -2 ^ 31 ≤ num < 2 ^ 31 → reasonable size → reasonable precision → enough fuel size precision →
  emits str (layout num base size precision type) (str + zlen (layout num base size precision type))
    (number fuel str num base size precision type).
Proof.
  unfold reasonable, enough. intros Hb Hn Hs Hp Hf. unfold number. fold (eff type).
  destruct (Z.ltb_spec base 2); [lia|]. destruct (Z.ltb_spec 36 base); [lia|]. cbn [orb].
  rewrite (flag_eff type SIGN), (flag_eff type PLUS), (flag_eff type SPACE), (flag_eff type SPECIAL),
    (flag_eff type LEFT) by done.
  rewrite !flag_eff_zeropad, !flag_eff_both.
  destruct (magnitude_spec num type Hn) as [Hm ->]. cbv iota beta.
  rewrite size_sign by (unfold small_int; lia).
  pose proof (sign_text_length (sign_char num type)). pose proof (prefix_text_length base type).
  rewrite size_prefix by lia.
  eapply emits_pure; [intros m st _; apply digits_of_run; lia|]. rewrite length_reverse.
  pose proof (numeral_length (flag type SMALL) base (magnitude num type)) as Hl.
  pose proof (numeral_bytes (flag type SMALL) base (magnitude num type) Hb) as Hd.
  unfold layout. cbv zeta. set (digits := numeral _ _ _) in *.
  set (prec := if precision <? zlen digits then zlen digits else precision).
  assert (zlen digits ≤ prec ≤ Z.max 32 precision) as Hprec.
  { unfold prec. destruct (Z.ltb_spec precision (zlen digits)); lia. }
  rewrite (s32_small (size - zlen (sign_text (sign_char num type)) - zlen (prefix_text base type) - prec)).
  2: { clearbody prec. clear - Hs Hp H1 H2 Hl Hprec. lia. }
  assert (zeros (precision - zlen digits) = zeros (prec - zlen digits)) as ->.
  { unfold zeros. f_equal. unfold prec. destruct (Z.ltb_spec precision (zlen digits)); lia. }
  assert (zlen (zeros (prec - zlen digits) ++ digits) = prec) as -> by (rewrite length_app, Nat2Z.inj_add, length_zeros; lia).
  apply number_tail; [apply sign_char_byte|done|lia|lia|lia|lia].
Qed.

(** ** Numerals, read back *)

Definition digit_value (i c : Z) : Z := i * 10 + (c - 48).
Definition value (l : list Z) : Z := foldl digit_value 0 l.

Lemma num_digits_value k b n : 2 ≤ b → 0 ≤ n < 2 ^ Z.of_nat k →
  foldr (λ d i, i * b + d) 0 (num_digits k b n) = n.
Proof.
  intros Hb. revert n. induction k as [|k IH]; intros n Hn; [simpl in *; lia|]. cbn [num_digits].
  destruct (Z.eqb_spec n 0) as [->|Hne]; [done|]. cbn [foldr].
  rewrite IH; [pose proof (Z.div_mod n b); lia|]. split; [apply Z.div_pos; lia|].
  apply Z.div_lt_upper_bound; [lia|]. rewrite Nat2Z.inj_succ, Z.pow_succ_r in Hn by lia. nia.
Qed.
Lemma value_of_digits small ds : Forall (λ d, 0 ≤ d < 10) ds →
  value (reverse (digit_char small <$> ds)) = foldr (λ d i, i * 10 + d) 0 ds.
Proof.
  unfold value. induction 1 as [|d ds Hd _ IH]; [done|]. cbn [fmap list_fmap foldr].
  rewrite reverse_cons, foldl_app, IH. simpl. unfold digit_value, digit_char.
  rewrite (proj2 (Z.ltb_lt d 10)) by lia. lia.
Qed.
Lemma numeral_value small n : 0 ≤ n < 2 ^ 32 → value (numeral small 10 n) = n.
Proof.
  intros Hn. unfold numeral. destruct (Z.eqb_spec n 0) as [->|Hne]; [done|].
  rewrite value_of_digits by (apply num_digits_range; lia). apply num_digits_value; lia.
Qed.
Lemma digit_char_10 small d : 0 ≤ d < 10 → is_digit (digit_char small d) = true.
Proof. intros Hd. unfold digit_char, is_digit. rewrite (proj2 (Z.ltb_lt d 10)) by lia. lia. Qed.
Lemma numeral_digits small n : Forall (λ c, is_digit c = true) (numeral small 10 n).
Proof.
  unfold numeral. destruct (n =? 0); [by repeat constructor|]. apply Forall_reverse, Forall_fmap.
  eapply Forall_impl; [apply num_digits_range; lia|]. intros d Hd. by apply digit_char_10.
Qed.

Lemma value_app l : ∀ i, 0 ≤ i → Forall (λ c, is_digit c = true) l → i ≤ foldl digit_value i l.
Proof.
  induction l as [|c l IH]; intros i Hi Hl; simpl; [lia|]. apply Forall_cons in Hl as [Hc Hl].
  unfold is_digit in Hc. apply andb_prop in Hc as [?%Z.leb_le ?%Z.leb_le].
  etrans; [|apply IH; [|done]]; unfold digit_value; lia.
Qed.
Lemma skip_atoi_loop m st l c : ∀ fuel p i, at_bytes m p (l ++ [c]) → Forall (λ c, is_digit c = true) l →
  is_digit c = false → 0 ≤ i → foldl digit_value i l < 2 ^ 31 → (length l < fuel)%nat →
  miter fuel (λ '(s, i), c ← getb s;
    mret (if is_digit c then inl (s + 1, s32 (i * 10 + c - 48)) else inr (i, s))) (p, i) (CMem m st) =
  Ret (foldl digit_value i l, p + zlen l) (CMem m st).
Proof.
  induction l as [|d l IH]; intros [|fuel] p i Hp Hl Hc Hi Hv Hf; simpl in Hf; try lia.
  - destruct Hp as [Hm _]. apply miter_end. rewrite (bind_ret _ _ _ _ _ (read m st _ _ Hm)), Hc.
    simpl. by rewrite Z.add_0_r.
  - destruct Hp as [Hm Hp]. apply Forall_cons in Hl as [Hd Hl]. cbn [foldl] in *.
    pose proof Hd as Hd'. unfold is_digit in Hd'. apply andb_prop in Hd' as [?%Z.leb_le ?%Z.leb_le].
    assert (0 ≤ digit_value i d) by (unfold digit_value; lia).
    pose proof (value_app l (digit_value i d) ltac:(done) Hl).
    erewrite miter_next.
    2: { rewrite (bind_ret _ _ _ _ _ (read m st _ _ Hm)), Hd. done. }
    replace (s32 (i * 10 + d - 48)) with (digit_value i d).
    2: { unfold digit_value in *. rewrite s32_small by lia. lia. }
    rewrite IH; [|done|done|done|done|done|lia]. do 2 f_equal. cbn [length]. lia.
Qed.
Lemma skip_atoi_run m st fuel p l c : at_bytes m p (l ++ [c]) → Forall (λ c, is_digit c = true) l →
  is_digit c = false → value l < 2 ^ 31 → (length l < fuel)%nat →
  skip_atoi fuel p (CMem m st) = Ret (value l, p + zlen l) (CMem m st).
Proof. intros. by apply (skip_atoi_loop m st l c). Qed.

Lemma zeros_value n : value (zeros n) = 0.
Proof. unfold value, zeros. induction (Z.to_nat n) as [|k IH]; [done|]. simpl. exact IH. Qed.
Lemma zeros_digits n : Forall (λ c, is_digit c = true) (zeros n).
Proof. by apply Forall_replicate. Qed.
(** A numeral with zeros before it. *)
Lemma padded_value small n k j : 0 ≤ n < 2 ^ 32 →
  value (zeros j ++ zeros k ++ numeral small 10 n) = n ∧ Forall (λ c, is_digit c = true) (zeros j ++ zeros k ++ numeral small 10 n).
Proof.
  intros Hn. split.
  - unfold value. rewrite !foldl_app. fold (value (zeros j)). rewrite zeros_value. fold (value (zeros k)).
    rewrite zeros_value. by apply numeral_value.
  - rewrite !Forall_app. split; [apply zeros_digits|]. split; [apply zeros_digits|apply numeral_digits].
Qed.

Lemma layout_plain num size precision type : 0 ≤ num < 2 ^ 31 → type = 0 ∨ type = ZEROPAD →
  ∃ a j k, layout num 10 size precision type = spaces a ++ zeros j ++ zeros k ++ numeral false 10 num ∧
    j ≤ Z.max size 0 ∧ k ≤ Z.max precision 0.
Proof.
  intros Hn Ht. unfold layout. cbv zeta.
  assert (magnitude num type = num) as -> by (unfold magnitude; destruct Ht as [-> | ->]; apply u32_small; lia).
  assert (sign_text (sign_char num type) = []) as -> by (by destruct Ht as [-> | ->]).
  assert (prefix_text 10 type = []) as -> by (by destruct Ht as [-> | ->]).
  set (k := precision - _). set (n := size - _ - _ - _).
  destruct Ht as [-> | ->].
  - exists n, 0, k. change (flag 0 LEFT) with false. change (flag 0 ZEROPAD) with false. change (flag 0 SMALL) with false.
    split; [done|]. unfold k. lia.
  - exists 0, n, k. change (flag ZEROPAD LEFT) with false. change (flag ZEROPAD ZEROPAD) with true.
    change (flag ZEROPAD SMALL) with false. split; [done|]. unfold k, n. cbn [length]. lia.
Qed.

(** Reading back what was printed gives the number.  [number] in base 10,
    with any width and precision, filled with spaces or with zeros, prints
    after its spaces a numeral that skip_atoi reads, up to its end, as the
    number that was printed. *)
Theorem decimal_round_trip num size precision type str fuel m st :
  0 ≤ num < 2 ^ 31 → reasonable size → reasonable precision → enough fuel size precision →
  type = 0 ∨ type = ZEROPAD → room m str (zlen (layout num 10 size precision type) + 1) →
  ∃ a m', (e ← number fuel str num 10 size precision type; putb e 0) (CMem m st) = Ret tt (CMem m' st) ∧
    at_bytes m' str (spaces a) ∧
    skip_atoi fuel (str + zlen (spaces a)) (CMem m' st) =
      Ret (num, str + zlen (layout num 10 size precision type)) (CMem m' st).
Proof.
  intros Hn Hs Hp Hf Ht Hr. pose proof (number_emits fuel str num 10 size precision type) as He.
  destruct (layout_plain num size precision type Hn Ht) as (a & j & k & El & Hj & Hk). rewrite El in *.
  set (digits := zeros j ++ zeros k ++ numeral false 10 num) in *.
  set (m' := <[str + zlen (spaces a ++ digits) := 0]> (blit str (spaces a ++ digits) m)). exists a, m'.
  assert (at_bytes m' str (spaces a ++ digits ++ [0])) as Hat.
  { rewrite app_assoc. apply at_app. split; [apply at_insert; [apply at_blit|lia]|].
    split; [|done]. apply lookup_insert_eq. }
  split; [|split].
  - rewrite (bind_ret _ _ _ _ _ (He ltac:(lia) ltac:(lia) Hs Hp Hf m st ltac:(eapply room_sub; [exact Hr|lia|lia]))).
    rewrite putb_run; [done|]. apply (room_blit m str (zlen (spaces a ++ digits) + 1)); [done|lia].
  - by apply at_app in Hat as [? _].
  - apply at_app in Hat as [_ Hat]. destruct (padded_value false num k j ltac:(lia)) as [Hv Hd].
    fold digits in Hv, Hd. rewrite (skip_atoi_run m' st fuel _ digits 0 Hat Hd eq_refl); [|lia|].
    + rewrite Hv. do 2 f_equal. rewrite length_app. lia.
    + unfold digits, enough in *. rewrite !length_app. pose proof (length_zeros j). pose proof (length_zeros k).
      pose proof (numeral_length false 10 num). lia.
Qed.

(** ** vsprintf *)

(** The pieces of a format: text, a doubled percent sign, and a directive with
    flags, width, precision, conversion, argument and, for %s, the string that
    the argument points to. *)
Inductive piece :=
| Text (t : list Z)
| Percent
| Conv (flags : list Z) (width precision : option Z) (c arg : Z) (s : list Z).

Definition flag_bit (c : Z) : Z :=
  if c =? 45 then LEFT else if c =? 43 then PLUS else if c =? 32 then SPACE
  else if c =? 35 then SPECIAL else ZEROPAD.
Definition flag_chars : list Z := [45; 43; 32; 35; 48].
Definition flags_value (fl : list Z) : Z := foldl (λ t c, t .| flag_bit c) 0 fl.
Definition opt_text (pre : list Z) (o : option Z) : list Z :=
  match o with Some n => pre ++ numeral false 10 n | None => [] end.
Definition opt_value (o : option Z) : Z := match o with Some n => n | None => -1 end.

(** The text of a piece in the format. *)
Definition source (p : piece) : list Z :=
  match p with
  | Text t => t
  | Percent => [37; 37]
  | Conv fl w p c _ _ => [37] ++ fl ++ opt_text [] w ++ opt_text [46] p ++ [c]
  end.
Definition argument (p : piece) : list Z := match p with Conv _ _ _ _ a _ => [a] | _ => [] end.
(** Filled up to [width] with spaces. *)
Definition field (left : bool) (width : Z) (l : list Z) : list Z :=
  if left then l ++ spaces (width - zlen l) else spaces (width - zlen l) ++ l.
(** At most [p] characters. *)
Definition clip (p : option Z) (l : list Z) : list Z := match p with Some n => take (Z.to_nat n) l | None => l end.
(** What a piece stands for. *)
Definition text_of (p : piece) : list Z :=
  match p with
  | Text t => t
  | Percent => [37]
  | Conv fl w p c a s =>
      let flags := flags_value fl in
      let width := opt_value w in
      let num := s32 a in
      if c =? 99 then field (flag flags LEFT) width [u8 a]
      else if c =? 115 then field (flag flags LEFT) width (clip p s)
      else if c =? 111 then layout num 8 width (opt_value p) flags
      else if c =? 112 then
        match w with
        | None => layout num 16 8 (opt_value p) (flags .| ZEROPAD)
        | Some w => layout num 16 w (opt_value p) flags
        end
      else if c =? 120 then layout num 16 width (opt_value p) (flags .| SMALL)
      else if c =? 88 then layout num 16 width (opt_value p) flags
      else if (c =? 100) || (c =? 105) then layout num 10 width (opt_value p) (flags .| SIGN)
      else layout num 10 width (opt_value p) flags
  end.
Definition conversions : list Z := [99; 115; 111; 112; 120; 88; 100; 105; 117].
Definition in_range (lo : Z) (o : option Z) : Prop := match o with Some n => lo ≤ n ≤ 2 ^ 20 | None => True end.
Definition piece_ok (p : piece) : Prop :=
  match p with
  | Text t => Forall (λ c, 0 < c < 256 ∧ c ≠ 37) t
  | Percent => True
  | Conv fl w p c _ s => Forall (λ c, c ∈ flag_chars) fl ∧ in_range 1 w ∧ in_range 0 p ∧ c ∈ conversions ∧ zlen s < 2 ^ 20
  end.

(** The header of a directive. *)
Lemma flag_char_cases c : c ∈ flag_chars → c = 45 ∨ c = 43 ∨ c = 32 ∨ c = 35 ∨ c = 48.
Proof. unfold flag_chars. rewrite !elem_of_cons, elem_of_nil. tauto. Qed.
Lemma flags_run m st fl c : ∀ fuel p t, at_bytes m (p + 1) (fl ++ [c]) → Forall (λ c, c ∈ flag_chars) fl → c ∉ flag_chars →
  (length fl < fuel)%nat →
  miter fuel (λ '(fmt, flags),
    c ← getb (fmt + 1);
    mret (if c =? 45 then inl (fmt + 1, flags .| LEFT)
          else if c =? 43 then inl (fmt + 1, flags .| PLUS)
          else if c =? 32 then inl (fmt + 1, flags .| SPACE)
          else if c =? 35 then inl (fmt + 1, flags .| SPECIAL)
          else if c =? 48 then inl (fmt + 1, flags .| ZEROPAD)
          else inr (fmt + 1, flags))) (p, t) (CMem m st) =
  Ret (p + 1 + zlen fl, foldl (λ t c, t .| flag_bit c) t fl) (CMem m st).
Proof.
  induction fl as [|f fl IH]; intros [|fuel] p t Hp Hfl Hc Hf; simpl in Hf; try lia.
  - destruct Hp as [Hm _]. apply miter_end. rewrite (bind_ret _ _ _ _ _ (read m st _ _ Hm)), Z.add_0_r.
    unfold flag_chars in Hc. repeat match goal with |- context [c =? ?n] => destruct (Z.eqb_spec c n); [subst; set_solver|] end.
    done.
  - destruct Hp as [Hm Hp]. apply Forall_cons in Hfl as [Hfc Hfl]. cbn [length foldl].
    replace (p + 1 + Z.of_nat (S (length fl))) with (p + 1 + 1 + zlen fl) by lia.
    rewrite <-(IH fuel (p + 1) (t .| flag_bit f)) by (done || lia). apply miter_next.
    rewrite (bind_ret _ _ _ _ _ (read m st _ _ Hm)).
    by destruct (flag_char_cases f Hfc) as [-> | [-> | [-> | [-> | ->]]]].
Qed.

Lemma num_digits_last k n : 0 < n < 2 ^ Z.of_nat k → ∃ l d, num_digits k 10 n = l ++ [d] ∧ 0 < d < 10.
Proof.
  revert n. induction k as [|k IH]; intros n Hn; [simpl in Hn; lia|]. cbn [num_digits].
  rewrite (proj2 (Z.eqb_neq n 0)) by lia. rewrite Nat2Z.inj_succ, Z.pow_succ_r in Hn by lia.
  destruct (decide (n < 10)) as [Hs|Hs].
  - exists [], n. rewrite Z.div_small, Z.mod_small by lia. split; [by destruct k|lia].
  - destruct (IH (n / 10)) as (l & d & -> & Hd).
    { split; [apply Z.div_str_pos; lia|apply Z.div_lt_upper_bound; lia]. }
    by exists (n mod 10 :: l), d.
Qed.
Lemma numeral_first n : 1 ≤ n < 2 ^ 32 → ∃ c l, numeral false 10 n = c :: l ∧ 49 ≤ c ≤ 57.
Proof.
  intros Hn. unfold numeral. rewrite (proj2 (Z.eqb_neq n 0)) by lia.
  destruct (num_digits_last 32 n ltac:(lia)) as (l & d & -> & Hd). rewrite fmap_app, reverse_app. simpl.
  exists (digit_char false d), (reverse (digit_char false <$> l)). split; [done|].
  unfold digit_char. rewrite (proj2 (Z.ltb_lt d 10)) by lia. lia.
Qed.
Lemma numeral_head_digit n : 0 ≤ n < 2 ^ 32 → ∃ c l, numeral false 10 n = c :: l ∧ is_digit c = true.
Proof.
  intros Hn. pose proof (numeral_digits false n) as Hd. pose proof (numeral_length false 10 n) as Hl.
  destruct (numeral false 10 n) as [|c l]; [simpl in Hl; lia|]. apply Forall_cons in Hd as [Hc _]. eauto.
Qed.

Lemma width_run m st fuel p w c flags args : at_bytes m p (opt_text [] w ++ [c]) → in_range 1 w →
  is_digit c = false → c ≠ 42 → (32 < fuel)%nat →
  directive_width fuel p flags args (CMem m st) =
  Ret (p + zlen (opt_text [] w), opt_value w, flags, args) (CMem m st).
Proof.
  intros Hp Hw Hc Hs Hf. unfold directive_width. destruct w as [w|]; simpl in Hw, Hp; cbn [opt_text opt_value app].
  - destruct (numeral_head_digit w ltac:(lia)) as (d & l & E & Hd). pose proof Hp as Hp'. rewrite E in Hp'.
    rewrite (bind_ret _ _ _ _ _ (read m st _ _ (proj1 Hp'))), Hd.
    pose proof (numeral_length false 10 w).
    rewrite (bind_ret _ _ _ _ _ (skip_atoi_run m st fuel p _ c Hp (numeral_digits false w) Hc
      ltac:(rewrite numeral_value; lia) ltac:(lia))). by rewrite numeral_value by lia.
  - destruct Hp as [Hm _]. rewrite (bind_ret _ _ _ _ _ (read m st _ _ Hm)), Hc, (proj2 (Z.eqb_neq c 42)) by done.
    simpl. by rewrite Z.add_0_r.
Qed.
Lemma precision_run m st fuel p w c args : at_bytes m p (opt_text [46] w ++ [c]) → in_range 0 w →
  is_digit c = false → c ≠ 46 → (32 < fuel)%nat →
  directive_precision fuel p args (CMem m st) =
  Ret (p + zlen (opt_text [46] w), opt_value w, args) (CMem m st).
Proof.
  intros Hp Hw Hc Hs Hf. unfold directive_precision. destruct w as [w|]; simpl in Hw, Hp; cbn [opt_text opt_value app].
  - destruct Hp as [Hm Hp]. rewrite (bind_ret _ _ _ _ _ (read m st _ _ Hm)). change (46 =? 46) with true. cbv iota.
    destruct (numeral_head_digit w ltac:(lia)) as (d & l & E & Hd). pose proof Hp as Hp'. rewrite E in Hp'.
    rewrite (bind_ret _ _ _ _ _ (read m st _ _ (proj1 Hp'))), Hd.
    pose proof (numeral_length false 10 w).
    pose proof (skip_atoi_run m st fuel (p + 1) _ c Hp (numeral_digits false w) Hc
      ltac:(rewrite numeral_value; lia) ltac:(lia)) as Hs'. rewrite numeral_value in Hs' by lia.
    erewrite bind_ret by (rewrite (bind_ret _ _ _ _ _ Hs'); reflexivity). cbv iota beta.
    destruct (Z.ltb_spec w 0); [lia|]. cbn [length]. replace (p + 1 + zlen (numeral false 10 w)) with (p + Z.of_nat (S (length (numeral false 10 w)))) by lia.
    done.
  - destruct Hp as [Hm _]. rewrite (bind_ret _ _ _ _ _ (read m st _ _ Hm)), (proj2 (Z.eqb_neq c 46)) by done.
    simpl. by rewrite Z.add_0_r.
Qed.

Lemma conversion_cases c : c ∈ conversions →
  c = 99 ∨ c = 115 ∨ c = 111 ∨ c = 112 ∨ c = 120 ∨ c = 88 ∨ c = 100 ∨ c = 105 ∨ c = 117.
Proof. unfold conversions. rewrite !elem_of_cons, elem_of_nil. tauto. Qed.
Lemma conversion_char c : c ∈ conversions → is_digit c = false ∧ (c ∉ flag_chars) ∧ c ≠ 42 ∧ c ≠ 46 ∧
  ((c =? 104) || (c =? 108) || (c =? 76)) = false ∧ 0 < c < 256.
Proof.
  assert (∀ c, bool_decide (c ∈ flag_chars) = false → c ∉ flag_chars) as Hb by (intros ? ?%bool_decide_eq_false; done).
  intros [->|[->|[->|[->|[->|[->|[->|[->| ->]]]]]]]]%conversion_cases;
    (split; [done|]; split; [by apply Hb|]; split; [done|]; split; [done|]; split; [done|lia]).
Qed.

(** A directive is read up to its conversion character. *)
Lemma header_run m st buf fuel str p args fl w pr c a s : at_bytes m p (source (Conv fl w pr c a s)) →
  piece_ok (Conv fl w pr c a s) → (32 < fuel)%nat → (length fl < fuel)%nat →
  conversion fuel buf (str, p, args) (CMem m st) =
  convert fuel buf str (p + zlen (source (Conv fl w pr c a s)) - 1) c (flags_value fl) (opt_value w) (opt_value pr)
    args (CMem m st).
Proof.
  intros Hp (Hfl & Hw & Hpr & Hc & _) Hf Hf'. destruct (conversion_char c Hc) as (Hdig & Hnf & H42 & H46 & Hq & Hc0).
  cbn [source app] in Hp. destruct Hp as [Hm Hp].
  unfold conversion. rewrite (bind_ret _ _ _ _ _ (read m st _ _ Hm)).
  change (truth 37) with true. change (37 =? 37) with true. cbn [negb].
  set (wt := opt_text [] w) in *. set (pt := opt_text [46] pr) in *.
  assert (at_bytes m (p + 1) fl ∧ at_bytes m (p + 1 + zlen fl) wt ∧ at_bytes m (p + 1 + zlen fl + zlen wt) pt ∧
    m !! (p + 1 + zlen fl + zlen wt + zlen pt) = Some c) as (Ha1 & Ha2 & Ha3 & Hmc).
  { apply at_app in Hp as [? Hp]. apply at_app in Hp as [? Hp]. apply at_app in Hp as [? [? _]]. done. }
  assert (∃ c1 l, wt ++ pt ++ [c] = c1 :: l ∧ c1 ∉ flag_chars) as (c1 & l1 & E1 & Hc1).
  { unfold wt, pt. destruct w as [w|]; cbn [opt_text app].
    - destruct (numeral_first w) as (d & l & -> & Hd); [simpl in Hw; lia|]. exists d, (l ++ opt_text [46] pr ++ [c]).
      split; [done|]. intros H%flag_char_cases. lia.
    - destruct pr as [pr|]; cbn [opt_text app]; [|by exists c, []].
      exists 46, (numeral false 10 pr ++ [c]). split; [done|]. intros H%flag_char_cases. lia. }
  assert (directive_flags fuel p (CMem m st) = Ret (p + 1 + zlen fl, flags_value fl) (CMem m st)) as Hflags.
  { apply (flags_run m st fl c1); [|done..]. apply at_app. split; [done|]. split; [|done].
    apply at_app in Hp as [_ Hp]. rewrite E1 in Hp. apply Hp. }
  rewrite (bind_ret _ _ _ _ _ Hflags). cbv iota beta.
  assert (∃ c2, m !! (p + 1 + zlen fl + zlen wt) = Some c2 ∧ is_digit c2 = false ∧ c2 ≠ 42) as (c2 & Hm2 & Hc2 & Hs2).
  { unfold pt in *. destruct pr as [pr|]; cbn [opt_text app length] in *; [by exists 46; destruct Ha3|].
    rewrite Z.add_0_r in Hmc. by exists c. }
  rewrite (bind_ret _ _ _ _ _ (width_run m st fuel (p + 1 + zlen fl) w c2 (flags_value fl) args
    ltac:(apply at_app; split; [done|by split]) Hw Hc2 Hs2 Hf)). cbv iota beta.
  rewrite (bind_ret _ _ _ _ _ (precision_run m st fuel (p + 1 + zlen fl + zlen wt) pr c args
    ltac:(apply at_app; split; [done|by split]) Hpr Hdig H46 Hf)). cbv iota beta. fold pt.
  unfold directive_qualifier.
  erewrite bind_ret by (rewrite (bind_ret _ _ _ _ _ (read m st _ _ Hmc)), Hq; reflexivity).
  rewrite (bind_ret _ _ _ _ _ (read m st _ _ Hmc)). f_equal.
  cbn [source app length]. fold wt pt. rewrite !length_app. cbn [length]. lia.
Qed.

(** ** The conversions *)

Lemma pad_char_emits n : ∀ fuel str w, small_int w → n = Z.to_nat (w - 1) → (n < fuel)%nat →
  emits str (replicate n 32) (str + Z.of_nat n, Z.min (w - 1) 0) (pad_char fuel str w).
Proof.
  unfold small_int. induction n as [|n IH]; intros [|fuel] str w Hw Hn Hf; try lia; unfold pad_char.
  - apply emits_stop. cbv zeta. rewrite s32_small, (proj2 (Z.ltb_ge 0 (w - 1))) by lia.
    rewrite Z.add_0_r, Z.min_l by lia. apply emits_ret.
  - change (replicate (S n) 32) with ([32] ++ replicate n 32).
    eapply (emits_iter str [32] _ fuel _ _ (str + 1, w - 1)).
    + cbv zeta. rewrite s32_small, (proj2 (Z.ltb_lt 0 (w - 1))) by lia. apply emits_put; [done|apply emits_ret].
    + fold (pad_char fuel (str + 1) (w - 1)). replace (str + Z.of_nat (S n)) with (str + 1 + Z.of_nat n) by lia.
      replace (Z.min (w - 1) 0) with (Z.min (w - 1 - 1) 0) by lia. apply IH; lia.
Qed.
Lemma pad_char_spaces fuel str w : small_int w → (Z.to_nat w < fuel)%nat →
  emits str (spaces (w - 1)) (str + zlen (spaces (w - 1)), Z.min (w - 1) 0) (pad_char fuel str w).
Proof. intros. unfold spaces. rewrite length_replicate. apply pad_char_emits; [done|done|lia]. Qed.
Lemma put_char_emits fuel str w flags a : reasonable w → (Z.to_nat w + 1 < fuel)%nat →
  emits str (field (flag flags LEFT) w [u8 a]) (str + zlen (field (flag flags LEFT) w [u8 a])) (put_char fuel str w flags a).
Proof.
  unfold reasonable. intros Hw Hf. unfold put_char, field. change (zlen [u8 a]) with 1.
  pose proof (u8_range a). destruct (flag flags LEFT).
  - eapply emits_eq.
    + eapply emits_pure; [apply emits_ret|]. cbv iota beta. apply emits_put; [done|].
      eapply emits_bind; [apply pad_char_spaces; unfold small_int; lia|]. cbv iota beta. apply emits_ret.
    + by rewrite app_nil_r.
    + rewrite length_app. cbn [length]. lia.
  - eapply emits_eq.
    + eapply emits_bind; [apply pad_char_spaces; unfold small_int; lia|]. cbv iota beta. apply emits_put; [done|].
      eapply emits_bind; [apply pad_char_spaces; unfold small_int; lia|]. cbv iota beta. apply emits_ret.
    + rewrite (spaces_none (Z.min (w - 1) 0 - 1)) by lia. done.
    + rewrite (spaces_none (Z.min (w - 1) 0 - 1)) by lia. rewrite length_app. cbn [length]. lia.
Qed.

Lemma pad_str_emits n : ∀ fuel str len w, 0 ≤ len < 2 ^ 30 → small_int w → n = Z.to_nat (w - len) → (n < fuel)%nat →
  emits str (replicate n 32) (str + Z.of_nat n, Z.min w len - 1) (pad_str fuel str len w).
Proof.
  unfold small_int. induction n as [|n IH]; intros [|fuel] str len w Hl Hw Hn Hf; try lia; unfold pad_str.
  - apply emits_stop. rewrite s32_small, (proj2 (Z.ltb_ge len w)) by lia.
    rewrite Z.add_0_r, Z.min_l by lia. apply emits_ret.
  - change (replicate (S n) 32) with ([32] ++ replicate n 32).
    eapply (emits_iter str [32] _ fuel _ _ (str + 1, w - 1)).
    + rewrite s32_small, (proj2 (Z.ltb_lt len w)) by lia. apply emits_put; [done|apply emits_ret].
    + fold (pad_str fuel (str + 1) len (w - 1)). replace (str + Z.of_nat (S n)) with (str + 1 + Z.of_nat n) by lia.
      replace (Z.min w len) with (Z.min (w - 1) len) by lia. apply IH; lia.
Qed.
Lemma pad_str_spaces fuel str len w : 0 ≤ len < 2 ^ 30 → small_int w → (Z.to_nat w < fuel)%nat →
  emits str (spaces (w - len)) (str + zlen (spaces (w - len)), Z.min w len - 1) (pad_str fuel str len w).
Proof. intros. unfold spaces. rewrite length_replicate. apply pad_str_emits; [done|done|done|lia]. Qed.

(** The loop of %s reads the string while it writes. *)
Lemma copy_loop st l : ∀ fuel str p i len m, at_bytes m p l → octets l → room m str (zlen l) → apart str (zlen l) p (zlen l) →
  len = i + zlen l → (length l < fuel)%nat →
  miter fuel (λ '(str, s, i),
    if i <? len then c ← getb s; putb str c;; mret (inl (str + 1, s + 1, i + 1))
    else mret (inr str)) (str, p, i) (CMem m st) = Ret (str + zlen l) (CMem (blit str l m) st).
Proof.
  unfold apart. induction l as [|b l IH]; intros [|fuel] str p i len m Hp Ho Hr Ha Hlen Hf; simpl in Hf; try lia.
  - apply miter_end. simpl in Hlen. rewrite (proj2 (Z.ltb_ge i len)), Z.add_0_r by lia. done.
  - destruct Hp as [Hm Hp]. apply octets_cons in Ho as [Hb Ho]. cbn [length] in *. erewrite miter_next.
    2: { rewrite (proj2 (Z.ltb_lt i len)) by lia.
         rewrite (copy_byte_then str p b) by (first [done|lia|apply Hr; lia]). done. }
    rewrite IH; [f_equal; lia| |done| |lia|lia|lia].
    + apply at_insert; [done|lia].
    + apply room_insert. eapply room_sub; [done|lia|lia].
Qed.
Lemma at_take m p l n : at_bytes m p l → at_bytes m p (take n l).
Proof. intros H. rewrite <-(take_drop n l) in H. by apply at_app in H as [? _]. Qed.

Lemma put_str_run m st fuel str w pr flags p l : cstr m p l → reasonable w → in_range 0 pr →
  zlen l < 2 ^ 20 → (Z.to_nat w + length l + 2 < fuel)%nat →
  let out := field (flag flags LEFT) w (clip pr l) in
  room m str (zlen out) → apart str (zlen out) p (zlen l + 1) →
  put_str fuel str w (opt_value pr) flags p (CMem m st) = Ret (str + zlen out) (CMem (blit str out m) st).
Proof.
  intros Hp Hw Hpr Hl Hf out Hr Ha. unfold reasonable in Hw. unfold put_str.
  rewrite (bind_ret _ _ _ _ _ (strlen_run m st l fuel p Hp ltac:(lia))), s32_small by lia.
  set (t := clip pr l) in *.
  assert (length t ≤ length l)%nat as Htl by (unfold t, clip; destruct pr; [rewrite length_take|]; lia).
  replace (if opt_value pr <? 0 then zlen l else if opt_value pr <? zlen l then opt_value pr else zlen l) with (zlen t).
  2: { unfold t, clip. destruct pr as [n|]; simpl in Hpr; cbn [opt_value]; [|done].
       destruct (Z.ltb_spec n 0); [lia|]. rewrite length_take. destruct (Z.ltb_spec n (zlen l)); lia. }
  assert (at_bytes m p t) as Hat.
  { destruct Hp as [_ Hp]. apply at_app in Hp as [Hp _]. unfold t, clip. destruct pr; [by apply at_take|done]. }
  assert (octets t) as Ho.
  { destruct Hp as [Hc _]. apply chars_octets in Hc. unfold t, clip. destruct pr; [by apply Forall_take|done]. }
  unfold out, field, apart in *. destruct (flag flags LEFT); rewrite !length_app in *.
  - erewrite bind_ret by reflexivity. cbv iota beta.
    rewrite (bind_ret _ _ _ _ _ (copy_loop st t fuel str p 0 (zlen t) m Hat Ho
      ltac:(eapply room_sub; [done|lia|lia]) ltac:(unfold apart; lia) ltac:(lia) ltac:(lia))).
    rewrite (bind_ret _ _ _ _ _ (pad_str_spaces fuel (str + zlen t) (zlen t) w ltac:(lia) ltac:(unfold small_int; lia) ltac:(lia)
      _ st ltac:(apply room_blit; eapply room_sub; [done|lia|lia]))). cbv iota beta.
    rewrite blit_app. unfold mret, M_ret. f_equal. lia.
  - rewrite (bind_ret _ _ _ _ _ (pad_str_spaces fuel str (zlen t) w ltac:(lia) ltac:(unfold small_int; lia) ltac:(lia)
      m st ltac:(eapply room_sub; [done|lia|lia]))). cbv iota beta.
    rewrite (bind_ret _ _ _ _ _ (copy_loop st t fuel (str + zlen (spaces (w - zlen t))) p 0 (zlen t) (blit str (spaces (w - zlen t)) m)
      ltac:(eapply at_ext; [done|intros q Hq; apply blit_out; lia]) Ho
      ltac:(apply room_blit; eapply room_sub; [done|lia|lia]) ltac:(unfold apart; lia) ltac:(lia) ltac:(lia))).
    rewrite blit_app. set (m' := blit _ t _).
    assert (small_int (Z.min w (zlen t) - 1)) by (unfold small_int; lia).
    pose proof (pad_str_spaces fuel (str + zlen (spaces (w - zlen t)) + zlen t) (zlen t) (Z.min w (zlen t) - 1)
      ltac:(lia) ltac:(done) ltac:(lia) m' st) as He. rewrite (spaces_none (Z.min w (zlen t) - 1 - zlen t)) in He by lia.
    rewrite (bind_ret _ _ _ _ _ (He ltac:(intros q Hq; simpl in Hq; lia))). cbv iota beta.
    unfold mret, M_ret. cbn [blit length]. f_equal. lia.
Qed.

(** The arguments of %s are strings, and lie outside of what is written. *)
Definition string_ok (m : gmap Z Z) (str n : Z) (p : piece) : Prop :=
  match p with Conv _ _ _ c a s => c = 115 → cstr m a s ∧ apart str n a (zlen s + 1) | _ => True end.
(** The fuel that a piece needs. *)
Definition piece_fuel (p : piece) : Z :=
  match p with
  | Conv fl w pr _ _ s => zlen fl + zlen s + Z.max (opt_value w) 8 + Z.max (opt_value pr) 0 + 50
  | _ => 1
  end.

Lemma number_conversion m st fuel str base size precision flags a args q :
  2 ≤ base ≤ 36 → reasonable size → reasonable precision → enough fuel size precision →
  let out := layout (s32 a) base size precision flags in
  room m str (zlen out) →
  ('(a, args) ← va_slot (a :: args);
   str ← number fuel str (s32 a) base size precision flags;
   mret (inl (str, q + 1, args))) (CMem m st) = Ret (inl (A := Z * Z * list Z) (B := Z) (str + zlen out, q + 1, args)) (CMem (blit str out m) st).
Proof.
  intros Hb Hs Hp Hf out Hr. erewrite bind_ret by reflexivity. cbv iota beta.
  rewrite (bind_ret _ _ _ _ _ (number_emits fuel str (s32 a) base size precision flags Hb
    ltac:(pose proof (s32_range a); lia) Hs Hp Hf m st Hr)). done.
Qed.
Lemma opt_reasonable lo o : 0 ≤ lo → in_range lo o → reasonable (opt_value o).
Proof. unfold reasonable. destruct o; simpl; lia. Qed.

Lemma convert_run m st buf fuel str q fl w pr c a s args : let p := Conv fl w pr c a s in
  piece_ok p → piece_fuel p < Z.of_nat fuel → string_ok m str (zlen (text_of p)) p → room m str (zlen (text_of p)) →
  convert fuel buf str q c (flags_value fl) (opt_value w) (opt_value pr) (a :: args) (CMem m st) =
  Ret (inl (str + zlen (text_of p), q + 1, args)) (CMem (blit str (text_of p) m) st).
Proof.
  intros p (_ & Hw & Hpr & Hc & Hs) Hf Hstr Hr. cbn [piece_fuel p] in Hf.
  pose proof (opt_reasonable 1 w ltac:(lia) Hw) as Hw'. pose proof (opt_reasonable 0 pr ltac:(lia) Hpr) as Hpr'.
  unfold convert. cbv zeta. unfold p in *. cbn [text_of string_ok] in *. cbv zeta in *.
  destruct (conversion_cases c Hc) as [-> | [-> | [-> | [-> | [-> | [-> | [-> | [-> | ->]]]]]]]];
    cbn [Z.eqb Pos.eqb orb] in *.
  3, 5, 6, 7, 8, 9: apply number_conversion; [lia|done|done|unfold enough; lia|done].
  - erewrite bind_ret by reflexivity. cbv iota beta.
    by rewrite (bind_ret _ _ _ _ _ (put_char_emits fuel str _ _ a Hw' ltac:(lia) m st Hr)).
  - erewrite bind_ret by reflexivity. cbv iota beta. destruct (Hstr eq_refl) as [Hcs Ha].
    by rewrite (bind_ret _ _ _ _ _ (put_str_run m st fuel str _ pr _ a s Hcs Hw' Hpr Hs ltac:(lia) Hr Ha)).
  - destruct w as [w|]; cbn [opt_value] in *.
    + simpl in Hw. rewrite (proj2 (Z.eqb_neq w (-1))) by lia.
      apply number_conversion; [lia|done|done|unfold enough; lia|done].
    + change (-1 =? -1) with true. apply number_conversion; [lia|unfold reasonable; lia|done|unfold enough; lia|done].
Qed.

(** ** The loop *)

Definition steps (p : piece) : nat := match p with Text t => length t | _ => 1%nat end.

Lemma text_run st fuel buf args n t : ∀ m str fmt, at_bytes m fmt t → Forall (λ c, 0 < c < 256 ∧ c ≠ 37) t →
  room m str (zlen t) → apart str (zlen t) fmt (zlen t) →
  miter (length t + n) (conversion fuel buf) (str, fmt, args) (CMem m st) =
  miter n (conversion fuel buf) (str + zlen t, fmt + zlen t, args) (CMem (blit str t m) st).
Proof.
  unfold apart. induction t as [|c t IH]; intros m str fmt Hp Hok Hr Ha; [by rewrite !Z.add_0_r|].
  destruct Hp as [Hm Hp]. apply Forall_cons in Hok as [[Hc H37] Hok]. cbn [length Nat.add] in *.
  erewrite miter_next.
  2: { unfold conversion. rewrite (bind_ret _ _ _ _ _ (read m st _ _ Hm)), truth_char, (proj2 (Z.eqb_neq c 37)) by done.
       cbn [negb]. rewrite (bind_ret _ _ _ _ _ (putb_run str c (CMem m st) ltac:(apply Hr; lia))), u8_small by lia. done. }
  change ((CMem m st) <| bytes ::= <[str:=c]> |>) with (CMem (<[str:=c]> m) st).
  rewrite IH; [| |done| |lia].
  - replace (str + Z.of_nat (S (length t))) with (str + 1 + zlen t) by lia.
    by replace (fmt + Z.of_nat (S (length t))) with (fmt + 1 + zlen t) by lia.
  - apply at_insert; [done|lia].
  - apply room_insert. eapply room_sub; [done|lia|lia].
Qed.
Lemma percent_run st fuel buf args m str fmt : at_bytes m fmt [37; 37] → room m str 1 → (32 < fuel)%nat →
  conversion fuel buf (str, fmt, args) (CMem m st) =
  Ret (inl (str + 1, fmt + 2, args)) (CMem (blit str [37] m) st).
Proof.
  intros [Hm [Hm' _]] Hr Hf. unfold conversion. rewrite (bind_ret _ _ _ _ _ (read m st _ _ Hm)).
  change (truth 37) with true. change (37 =? 37) with true. cbn [negb].
  assert (37 ∉ flag_chars) as Hnf by (by intros H%flag_char_cases; lia).
  assert (directive_flags fuel fmt (CMem m st) = Ret (fmt + 1, 0) (CMem m st)) as Hfl.
  { pose proof (flags_run m st [] 37 fuel fmt 0 (conj Hm' I) (Forall_nil_2 _) Hnf ltac:(simpl; lia)) as H.
    simpl in H. rewrite Z.add_0_r in H. exact H. }
  rewrite (bind_ret _ _ _ _ _ Hfl). cbv iota beta.
  pose proof (width_run m st fuel (fmt + 1) None 37 0 args (conj Hm' I) I eq_refl ltac:(lia) Hf) as Hw.
  simpl opt_text in Hw. cbn [length] in Hw. rewrite Z.add_0_r in Hw. rewrite (bind_ret _ _ _ _ _ Hw). cbv iota beta.
  pose proof (precision_run m st fuel (fmt + 1) None 37 args (conj Hm' I) I eq_refl ltac:(lia) Hf) as Hp.
  simpl opt_text in Hp. cbn [length] in Hp. rewrite Z.add_0_r in Hp. rewrite (bind_ret _ _ _ _ _ Hp). cbv iota beta.
  unfold directive_qualifier.
  erewrite bind_ret by (rewrite (bind_ret _ _ _ _ _ (read m st _ _ Hm')); reflexivity).
  cbn [Z.eqb Pos.eqb orb]. rewrite (bind_ret _ _ _ _ _ (read m st _ _ Hm')).
  unfold convert. cbn [Z.eqb Pos.eqb orb opt_value]. erewrite bind_ret by reflexivity.
  change (truth 37) with true. cbv iota.
  rewrite (bind_ret _ _ _ _ _ (putb_run str 37 (CMem m st) ltac:(apply Hr; lia))).
  change (u8 37) with 37. cbn [blit]. unfold mret, M_ret. do 3 f_equal. f_equal. lia.
Qed.
Lemma piece_run st fuel buf args n p m str fmt : at_bytes m fmt (source p) → piece_ok p → piece_fuel p < Z.of_nat fuel →
  (32 < fuel)%nat → string_ok m str (zlen (text_of p)) p → room m str (zlen (text_of p)) →
  apart str (zlen (text_of p)) fmt (zlen (source p)) →
  miter (steps p + n) (conversion fuel buf) (str, fmt, argument p ++ args) (CMem m st) =
  miter n (conversion fuel buf) (str + zlen (text_of p), fmt + zlen (source p), args) (CMem (blit str (text_of p) m) st).
Proof.
  intros Hp Hok Hf Hf32 Hs Hr Ha. destruct p as [t| |fl w pr c a s].
  - by apply text_run.
  - apply miter_next. by apply percent_run.
  - apply miter_next. cbn [argument app]. cbn [piece_fuel] in Hf.
    rewrite (header_run m st buf fuel str fmt (a :: args) fl w pr c a s Hp Hok Hf32 ltac:(lia)).
    rewrite (convert_run m st buf fuel str _ fl w pr c a s args Hok Hf Hs Hr). do 3 f_equal. f_equal. lia.
Qed.

Definition format (ps : list piece) : list Z := flat_map source ps.
Fixpoint all_steps (ps : list piece) : nat := match ps with p :: ps => (steps p + all_steps ps)%nat | [] => O end.
Definition rendered (ps : list piece) : list Z := flat_map text_of ps.
Definition arguments (ps : list piece) : list Z := flat_map argument ps.

Lemma string_ok_after m str l n k p : string_ok m str n p → zlen l + k ≤ n → 0 ≤ k →
  string_ok (blit str l m) (str + zlen l) k p.
Proof.
  unfold string_ok, apart. destruct p as [| |fl w pr c a s]; try done. intros H Hn Hk Hc. destruct (H Hc) as [Hs Ha].
  split; [|lia]. eapply cstr_ext; [done|]. intros q Hq. apply blit_out. lia.
Qed.
Lemma string_ok_less m str n k p : string_ok m str n p → k ≤ n → 0 ≤ k → string_ok m str k p.
Proof.
  unfold string_ok, apart. destruct p as [| |fl w pr c a s]; try done. intros H Hn Hk Hc. destruct (H Hc) as [Hs Ha].
  split; [done|lia].
Qed.

Lemma pieces_run st fuel buf args n ps : ∀ m str fmt, at_bytes m fmt (format ps) → Forall piece_ok ps →
  Forall (λ p, piece_fuel p < Z.of_nat fuel) ps → (32 < fuel)%nat →
  Forall (string_ok m str (zlen (rendered ps))) ps → room m str (zlen (rendered ps)) →
  apart str (zlen (rendered ps)) fmt (zlen (format ps)) →
  miter (all_steps ps + n) (conversion fuel buf) (str, fmt, arguments ps ++ args) (CMem m st) =
  miter n (conversion fuel buf) (str + zlen (rendered ps), fmt + zlen (format ps), args) (CMem (blit str (rendered ps) m) st).
Proof.
  unfold apart. induction ps as [|p ps IH]; intros m str fmt Hp Hok Hf Hf32 Hs Hr Ha; [by rewrite !Z.add_0_r|].
  unfold format, rendered, arguments in *. cbn [flat_map all_steps] in *.
  rewrite !length_app in *. apply at_app in Hp as [Hp Hp']. apply Forall_cons in Hok as [Hok1 Hok], Hf as [Hf1 Hf].
  apply Forall_cons in Hs as [Hs1 Hs].
  rewrite <-Nat.add_assoc, <-app_assoc.
  rewrite piece_run; [|done..|eapply string_ok_less; [done|lia|lia]|eapply room_sub; [done|lia|lia]|unfold apart; lia].
  rewrite IH; [|eapply at_ext; [done|intros q Hq; apply blit_out; lia]|done..| | |lia].
  - rewrite blit_app. rewrite !Nat2Z.inj_add, !Z.add_assoc. done.
  - eapply Forall_impl; [exact Hs|]. intros p' Hp''. eapply string_ok_after; [done|lia|lia].
  - apply room_blit. eapply room_sub; [done|lia|lia].
Qed.

Lemma steps_le ps : (all_steps ps ≤ length (format ps))%nat.
Proof.
  unfold format. induction ps as [|p ps IH]; [done|]. cbn [flat_map all_steps].
  rewrite length_app. assert (steps p ≤ length (source p))%nat by (destruct p; simpl; lia).
  lia.
Qed.

(** C15: vsprintf ends and renders its format.  For a format made of text,
    doubled percent signs and the directives c, s, o, p, x, X, d, i and u, with
    any flags, widths and precisions, the buffer gets exactly the text that the
    pieces stand for and a 0, one after the other and in order, each argument
    used by its own directive; the length is returned and nothing else is
    written.  The buffer needs the length of the text and one byte. *)
Theorem vsprintf_renders ps buf fmt args fuel m st :
  cstr m fmt (format ps) → Forall piece_ok ps →
  Forall (λ p, piece_fuel p < Z.of_nat fuel) ps → (length (format ps) + 32 < fuel)%nat →
  Forall (string_ok m buf (zlen (rendered ps))) ps → zlen (rendered ps) < 2 ^ 31 →
  room m buf (zlen (rendered ps) + 1) → apart buf (zlen (rendered ps)) fmt (zlen (format ps) + 1) →
  vsprintf fuel buf fmt (arguments ps ++ args) (CMem m st) =
  Ret (zlen (rendered ps)) (CMem (blit buf (rendered ps ++ [0]) m) st).
Proof.
  intros [_ Hp] Hok Hf Hf32 Hs Hl Hr Ha. apply at_app in Hp as [Hp [Hend _]]. unfold apart in Ha.
  pose proof (steps_le ps) as Hsteps. unfold vsprintf.
  replace fuel with (all_steps ps + S (fuel - all_steps ps - 1))%nat at 1 by lia.
  unfold mbind at 1, M_bind at 1.
  rewrite pieces_run; [|done..|lia|done|eapply room_sub; [done|lia|lia]|unfold apart; lia].
  set (m' := blit buf (rendered ps) m).
  assert (m' !! (fmt + zlen (format ps)) = Some 0) as Hend' by (unfold m'; rewrite blit_out by lia; done).
  erewrite miter_end.
  2: { unfold conversion. by rewrite (bind_ret _ _ _ _ _ (read m' st _ _ Hend')). }
  assert (is_Some (m' !! (buf + zlen (rendered ps)))) as Hr'.
  { apply (room_blit m buf (zlen (rendered ps) + 1)); [done|lia]. }
  rewrite (bind_ret _ _ _ _ _ (putb_run _ 0 (CMem m' st) Hr')).
  rewrite blit_app. unfold mret, M_ret. f_equal. rewrite s32_small; lia.
Qed.

(** ** A concrete format *)

(** The format [pid %05d%%%-6.2s] with the arguments -42 and the string abc. *)
Definition example_pieces : list piece :=
  [Text [112; 105; 100; 32]; Conv [48] (Some 5) None 100 (-42) []; Percent; Conv [45] (Some 6) (Some 2) 115 96 [97; 98; 99]].
Definition example_memory : gmap Z Z :=
  blit 16 (replicate 32 9) (blit 64 (format example_pieces ++ [0]) (blit 96 [97; 98; 99; 0] ∅)).
Example format_example : format example_pieces = [112; 105; 100; 32; 37; 48; 53; 100; 37; 37; 37; 45; 54; 46; 50; 115].
Proof. reflexivity. Qed.
(** [pid -0042%ab    ] *)
Example rendered_example : rendered example_pieces =
  [112; 105; 100; 32; 45; 48; 48; 52; 50; 37; 97; 98; 32; 32; 32; 32].
Proof. vm_compute. reflexivity. Qed.
Lemma directive_check fl w pr c arg s : forallb (λ f, bool_decide (f ∈ flag_chars)) fl = true →
  bool_decide (c ∈ conversions) = true → in_range 1 w → in_range 0 pr → zlen s < 2 ^ 20 → piece_ok (Conv fl w pr c arg s).
Proof.
  intros Hfl Hc%bool_decide_eq_true ???. split; [|done]. rewrite forallb_forall in Hfl. apply Forall_forall.
  intros f Hf%list_elem_of_In%Hfl. by apply bool_decide_eq_true in Hf.
Qed.
Lemma example_ok : Forall piece_ok example_pieces.
Proof.
  unfold example_pieces. apply Forall_cons_2; [|apply Forall_cons_2; [|apply Forall_cons_2; [|apply Forall_cons_2]]]; [| | | |constructor].
  - repeat (apply Forall_cons; split; [lia|]). constructor.
  - by apply directive_check; [| |simpl; lia| |].
  - exact I.
  - apply directive_check; [done|done|simpl; lia|simpl; lia|simpl; lia].
Qed.
Lemma example_strings : Forall (string_ok example_memory 16 (zlen (rendered example_pieces))) example_pieces.
Proof.
  unfold example_pieces at 2. apply Forall_cons_2; [|apply Forall_cons_2; [|apply Forall_cons_2; [|apply Forall_cons_2]]]; [exact I|done|exact I| |constructor].
  intros _. split; [|unfold apart; vm_compute; left; done].
  split; [by apply chars_check|]. vm_compute. repeat split.
Qed.
Lemma vsprintf_renders_witness :
  vsprintf 200 16 64 (arguments example_pieces ++ []) (CMem example_memory 0) =
  Ret (zlen (rendered example_pieces)) (CMem (blit 16 (rendered example_pieces ++ [0]) example_memory) 0).
Proof.
  apply (vsprintf_renders example_pieces 16 64 [] 200 example_memory 0).
  - split; [by apply chars_check|]. vm_compute. repeat split.
  - exact example_ok.
  - repeat (apply Forall_cons; split; [simpl; lia|]). constructor.
  - vm_compute. lia.
  - exact example_strings.
  - vm_compute. reflexivity.
  - apply room_check. vm_compute. reflexivity.
  - unfold apart. vm_compute. left. discriminate.
Defined.
Lemma decimal_round_trip_witness :
  ∃ a m', (e ← number 100 16 1991 10 8 (-1) 0; putb e 0) (CMem example_memory 0) = Ret tt (CMem m' 0) ∧
    at_bytes m' 16 (spaces a) ∧
    skip_atoi 100 (16 + zlen (spaces a)) (CMem m' 0) =
      Ret (1991, 16 + zlen (layout 1991 10 8 (-1) 0)) (CMem m' 0).
Proof.
  apply (decimal_round_trip 1991 8 (-1) 0 16 100 example_memory 0);
    [lia|unfold reasonable; lia|unfold reasonable; lia|unfold enough; lia|by left|].
  apply room_check. vm_compute. reflexivity.
Defined.

(** A star takes its argument but stays in the format: [%*d] prints itself. *)
Example star_is_printed : vsprintf 50 16 64 [5; 42] (CMem (blit 16 (replicate 8 9) (blit 64 [37; 42; 100; 0] ∅)) 0) =
  Ret 3 (CMem (blit 16 [37; 42; 100; 0] (blit 16 (replicate 8 9) (blit 64 [37; 42; 100; 0] ∅))) 0).
Proof. vm_compute. reflexivity. Qed.
