(* ===== verification/Syscall.v ===== *)
(** * System calls (include/unistd.h, include/linux/sys.h, lib/,
    kernel/system_call.nasm)

    The way of a system call: the stub of the library puts its number and
    arguments in registers, the handler of interrupt 0x80 takes the function
    from sys_call_table, and the stub turns the result into errno.  What the
    functions do is a parameter here, [run]: by the name of the function and the
    six argument registers. *)

From S2P Require Import Prelude.

(** ** The numbers (include/unistd.h) *)

Definition __NR_setup : Z := 0.
Definition __NR_exit : Z := 1.
Definition __NR_fork : Z := 2.
Definition __NR_read : Z := 3.
Definition __NR_write : Z := 4.
Definition __NR_open : Z := 5.
Definition __NR_close : Z := 6.
Definition __NR_waitpid : Z := 7.
Definition __NR_creat : Z := 8.
Definition __NR_link : Z := 9.
Definition __NR_unlink : Z := 10.
Definition __NR_execve : Z := 11.
Definition __NR_chdir : Z := 12.
Definition __NR_time : Z := 13.
Definition __NR_mknod : Z := 14.
Definition __NR_chmod : Z := 15.
Definition __NR_chown : Z := 16.
Definition __NR_break : Z := 17.
Definition __NR_stat : Z := 18.
Definition __NR_lseek : Z := 19.
Definition __NR_getpid : Z := 20.
Definition __NR_mount : Z := 21.
Definition __NR_umount : Z := 22.
Definition __NR_setuid : Z := 23.
Definition __NR_getuid : Z := 24.
Definition __NR_stime : Z := 25.
Definition __NR_ptrace : Z := 26.
Definition __NR_alarm : Z := 27.
Definition __NR_fstat : Z := 28.
Definition __NR_pause : Z := 29.
Definition __NR_utime : Z := 30.
Definition __NR_stty : Z := 31.
Definition __NR_gtty : Z := 32.
Definition __NR_access : Z := 33.
Definition __NR_nice : Z := 34.
Definition __NR_ftime : Z := 35.
Definition __NR_sync : Z := 36.
Definition __NR_kill : Z := 37.
Definition __NR_rename : Z := 38.
Definition __NR_mkdir : Z := 39.
Definition __NR_rmdir : Z := 40.
Definition __NR_dup : Z := 41.
Definition __NR_pipe : Z := 42.
Definition __NR_times : Z := 43.
Definition __NR_prof : Z := 44.
Definition __NR_brk : Z := 45.
Definition __NR_setgid : Z := 46.
Definition __NR_getgid : Z := 47.
Definition __NR_signal : Z := 48.
Definition __NR_geteuid : Z := 49.
Definition __NR_getegid : Z := 50.
Definition __NR_acct : Z := 51.
Definition __NR_phys : Z := 52.
Definition __NR_lock : Z := 53.
Definition __NR_ioctl : Z := 54.
Definition __NR_fcntl : Z := 55.
Definition __NR_mpx : Z := 56.
Definition __NR_setpgid : Z := 57.
Definition __NR_ulimit : Z := 58.
Definition __NR_uname : Z := 59.
Definition __NR_umask : Z := 60.
Definition __NR_chroot : Z := 61.
Definition __NR_ustat : Z := 62.
Definition __NR_dup2 : Z := 63.
Definition __NR_getppid : Z := 64.
Definition __NR_getpgrp : Z := 65.
Definition __NR_setsid : Z := 66.

(** ** The table (include/linux/sys.h) *)

Definition sys_call_table : list string :=
  ["sys_setup"; "sys_exit"; "sys_fork"; "sys_read"; "sys_write"; "sys_open"; "sys_close";
   "sys_waitpid"; "sys_creat"; "sys_link"; "sys_unlink"; "sys_execve"; "sys_chdir"; "sys_time";
   "sys_mknod"; "sys_chmod"; "sys_chown"; "sys_break"; "sys_stat"; "sys_lseek"; "sys_getpid";
   "sys_mount"; "sys_umount"; "sys_setuid"; "sys_getuid"; "sys_stime"; "sys_ptrace"; "sys_alarm";
   "sys_fstat"; "sys_pause"; "sys_utime"; "sys_stty"; "sys_gtty"; "sys_access"; "sys_nice";
   "sys_ftime"; "sys_sync"; "sys_kill"; "sys_rename"; "sys_mkdir"; "sys_rmdir"; "sys_dup";
   "sys_pipe"; "sys_times"; "sys_prof"; "sys_brk"; "sys_setgid"; "sys_getgid"; "sys_signal";
   "sys_geteuid"; "sys_getegid"; "sys_acct"; "sys_phys"; "sys_lock"; "sys_ioctl"; "sys_fcntl";
   "sys_mpx"; "sys_setpgid"; "sys_ulimit"; "sys_uname"; "sys_umask"; "sys_chroot"; "sys_ustat";
   "sys_dup2"; "sys_getppid"; "sys_getpgrp"; "sys_setsid"].
Definition nr_system_calls : Z := 67.

(** The name of a call, as the macros take it, and its number. *)
Definition calls : list (string * Z) :=
  [("setup", __NR_setup); ("exit", __NR_exit); ("fork", __NR_fork); ("read", __NR_read);
   ("write", __NR_write); ("open", __NR_open); ("close", __NR_close); ("waitpid", __NR_waitpid);
   ("creat", __NR_creat); ("link", __NR_link); ("unlink", __NR_unlink); ("execve", __NR_execve);
   ("chdir", __NR_chdir); ("time", __NR_time); ("mknod", __NR_mknod); ("chmod", __NR_chmod);
   ("chown", __NR_chown); ("break", __NR_break); ("stat", __NR_stat); ("lseek", __NR_lseek);
   ("getpid", __NR_getpid); ("mount", __NR_mount); ("umount", __NR_umount);
   ("setuid", __NR_setuid); ("getuid", __NR_getuid); ("stime", __NR_stime);
   ("ptrace", __NR_ptrace); ("alarm", __NR_alarm); ("fstat", __NR_fstat); ("pause", __NR_pause);
   ("utime", __NR_utime); ("stty", __NR_stty); ("gtty", __NR_gtty); ("access", __NR_access);
   ("nice", __NR_nice); ("ftime", __NR_ftime); ("sync", __NR_sync); ("kill", __NR_kill);
   ("rename", __NR_rename); ("mkdir", __NR_mkdir); ("rmdir", __NR_rmdir); ("dup", __NR_dup);
   ("pipe", __NR_pipe); ("times", __NR_times); ("prof", __NR_prof); ("brk", __NR_brk);
   ("setgid", __NR_setgid); ("getgid", __NR_getgid); ("signal", __NR_signal);
   ("geteuid", __NR_geteuid); ("getegid", __NR_getegid); ("acct", __NR_acct);
   ("phys", __NR_phys); ("lock", __NR_lock); ("ioctl", __NR_ioctl); ("fcntl", __NR_fcntl);
   ("mpx", __NR_mpx); ("setpgid", __NR_setpgid); ("ulimit", __NR_ulimit); ("uname", __NR_uname);
   ("umask", __NR_umask); ("chroot", __NR_chroot); ("ustat", __NR_ustat); ("dup2", __NR_dup2);
   ("getppid", __NR_getppid); ("getpgrp", __NR_getpgrp); ("setsid", __NR_setsid)].

(** ** The interrupt and the stubs *)

(** The registers that a system call uses. *)
Record regs := Regs { rax : Z; rbx : Z; rcx : Z; rdx : Z; rsi : Z; rdi : Z; rbp : Z }.

Section Call.
Context {St : Type} (run : string → list Z → M St Z).

(** system_call (system_call.nasm): the number is compared as unsigned. *)
Definition system_call (r : regs) : M St Z :=
  if nr_system_calls <=? u64 (rax r) then mret (-1) else
  f ← index sys_call_table (u64 (rax r));
  run f [rbx r; rcx r; rdx r; rsi r; rdi r; rbp r].

(** The end of a stub whose function has a type with the conversion [ty]: the
    result, and what errno becomes if it is set. *)
Definition stub_result (ty : Z → Z) (res : Z) : Z * option Z :=
  if 0 <=? s64 res then (ty res, None) else (ty (-1), Some (s32 (- s64 res))).
(** The registers that a stub does not load are those of its caller, [r]. *)
Definition _syscall0 (ty : Z → Z) (nr : Z) (r : regs) : M St (Z * option Z) :=
  res ← system_call (Regs nr (rbx r) (rcx r) (rdx r) (rsi r) (rdi r) (rbp r));
  mret (stub_result ty res).
Definition _syscall1 (ty : Z → Z) (nr a : Z) (r : regs) : M St (Z * option Z) :=
  res ← system_call (Regs nr (s64 a) (rcx r) (rdx r) (rsi r) (rdi r) (rbp r));
  mret (stub_result ty res).
Definition _syscall2 (ty : Z → Z) (nr a b : Z) (r : regs) : M St (Z * option Z) :=
  res ← system_call (Regs nr (s64 a) (s64 b) (rdx r) (rsi r) (rdi r) (rbp r));
  mret (stub_result ty res).
Definition _syscall3 (ty : Z → Z) (nr a b c : Z) (r : regs) : M St (Z * option Z) :=
  res ← system_call (Regs nr (s64 a) (s64 b) (s64 c) (rsi r) (rdi r) (rbp r));
  mret (stub_result ty res).
(** lib/: the functions of the library.  A pid_t is an int. *)
Definition close (fd : Z) : regs → M St (Z * option Z) := _syscall1 s32 __NR_close fd.
Definition dup (fd : Z) : regs → M St (Z * option Z) := _syscall1 s32 __NR_dup fd.
Definition execve (file argv envp : Z) : regs → M St (Z * option Z) := _syscall3 s32 __NR_execve file argv envp.
Definition setsid : regs → M St (Z * option Z) := _syscall0 s32 __NR_setsid.
Definition write (fd buf count : Z) : regs → M St (Z * option Z) := _syscall3 s32 __NR_write fd buf count.
Definition waitpid (pid wait_stat options : Z) : regs → M St (Z * option Z) := _syscall3 s32 __NR_waitpid pid wait_stat options.
Definition wait (wait_stat : Z) : regs → M St (Z * option Z) := waitpid (-1) wait_stat 0.
(** open takes its result as an int, and its flags and mode as 32 bits of their
    registers. *)
Definition open (filename flag mode : Z) (r : regs) : M St (Z * option Z) :=
  res ← system_call (Regs __NR_open (s64 filename) (u32 flag) (u32 mode) (rsi r) (rdi r) (rbp r));
  mret (if 0 <=? s32 res then (s32 res, None) else (-1, Some (s32 (- s32 res)))).
(** If the call returned, so would _exit. *)
Definition _exit (exit_code : Z) (r : regs) : M St () :=
  system_call (Regs __NR_exit (u32 exit_code) (rcx r) (rdx r) (rsi r) (rdi r) (rbp r));;
  mret ().
End Call.

(** ** From the stub to the function *)

Lemma table_length : Z.of_nat (length sys_call_table) = nr_system_calls.
Proof. reflexivity. Qed.
(** The numbers of the calls are the places of their functions, and there are
    no others. *)
Lemma table_agrees : forallb (λ '(name, nr),
  bool_decide (sys_call_table !! Z.to_nat nr = Some ("sys_" +:+ name)) && (0 <=? nr) && (nr <? nr_system_calls)) calls = true.
Proof. vm_compute. reflexivity. Qed.
Lemma calls_complete : map snd calls = upto 67.
Proof. vm_compute. reflexivity. Qed.

Section Dispatch.
Context {St : Type} (run : string → list Z → M St Z).

Lemma system_call_named name nr r s : (name, nr) ∈ calls → rax r = nr →
  system_call run r s = run ("sys_" +:+ name) [rbx r; rcx r; rdx r; rsi r; rdi r; rbp r] s.
Proof.
  intros Hin Hr. pose proof table_agrees as H. rewrite forallb_forall in H.
  specialize (H (name, nr) (proj1 (list_elem_of_In _ _) Hin)). cbv beta iota in H.
  apply andb_prop in H as [[H%bool_decide_eq_true H0%Z.leb_le]%andb_prop H1%Z.ltb_lt].
  unfold system_call. rewrite Hr. assert (nr_system_calls = 67) as E by done.
  rewrite u64_small by lia. rewrite (proj2 (Z.leb_gt _ _)) by done.
  by rewrite (bind_ret _ _ _ _ _ (index_Some sys_call_table nr _ s H0 H)).
Qed.
Lemma system_call_bad r s : ¬ 0 ≤ rax r < nr_system_calls → - 2 ^ 63 ≤ rax r < 2 ^ 64 → system_call run r s = Ret (-1) s.
Proof.
  intros Hr Hrange. unfold system_call. assert (nr_system_calls = 67) as E by done.
  rewrite (proj2 (Z.leb_le _ _)); [done|]. unfold u64. destruct (decide (0 ≤ rax r)).
  - rewrite Z.mod_small by lia. lia.
  - rewrite <-(Z.mod_unique (rax r) (2 ^ 64) (-1) (rax r + 2 ^ 64)); lia.
Qed.

(** C32: A system call runs the function of its name.  For every call that
    unistd.h numbers, the stub with three arguments reaches sys_<name> through
    the table with these arguments in its first three places and the registers
    of the caller in the others; what the function leaves in rax is returned if
    it is not negative as a long, and otherwise -1 with its opposite in errno.  A
    number outside of the table reaches no function and is the error 1. *)
Theorem syscall_reaches_its_function ty name nr a b c r s :
  (name, nr) ∈ calls → - 2 ^ 63 ≤ a < 2 ^ 63 → - 2 ^ 63 ≤ b < 2 ^ 63 → - 2 ^ 63 ≤ c < 2 ^ 63 →
  _syscall3 run ty nr a b c r s =
  (res ← run ("sys_" +:+ name) [a; b; c; rsi r; rdi r; rbp r];
   mret (if 0 <=? s64 res then (ty res, None) else (ty (-1), Some (s32 (- s64 res))))) s ∧
  ∀ nr', ¬ 0 ≤ nr' < nr_system_calls → - 2 ^ 63 ≤ nr' < 2 ^ 64 →
    _syscall3 run ty nr' a b c r s = Ret (ty (-1), Some 1) s.
Proof.
  intros Hin Ha Hb Hc. unfold _syscall3. rewrite !s64_small by lia. split.
  - unfold mbind, M_bind. by rewrite (system_call_named name nr) by done.
  - intros nr' Hbad Hrange. by rewrite (bind_ret _ _ _ _ _ (system_call_bad (Regs nr' a b c _ _ _) s Hbad Hrange)).
Qed.

(** waitpid with a pid of -1 gets the register as a long; a result that is an
    error as an int comes back from open as -1 with errno, with or without its
    upper half. *)
Lemma wait_waits_for_any wait_stat r s : - 2 ^ 63 ≤ wait_stat < 2 ^ 63 →
  wait run wait_stat r s = (res ← run "sys_waitpid" [-1; wait_stat; 0; rsi r; rdi r; rbp r]; mret (stub_result s32 res)) s.
Proof.
  intros Hw. unfold wait, waitpid, _syscall3. rewrite !s64_small by lia. unfold mbind, M_bind.
  by rewrite (system_call_named "waitpid" __NR_waitpid); [|refine (bool_decide_unpack _ _); vm_compute; exact I|].
Qed.
Lemma open_reports_errors filename flag mode e r s : - 2 ^ 63 ≤ filename < 2 ^ 63 → 0 < e < 2 ^ 31 →
  (∀ l s, ∃ s', run "sys_open" l s = Ret (- e) s' ∨ run "sys_open" l s = Ret (u32 (- e)) s') →
  ∃ s', open run filename flag mode r s = Ret (-1, Some e) s'.
Proof.
  intros Hf He Hrun. unfold open. unfold mbind, M_bind.
  rewrite (system_call_named "open" __NR_open); [|refine (bool_decide_unpack _ _); vm_compute; exact I|done].
  change ("sys_" +:+ "open") with "sys_open"%string.
  destruct (Hrun [s64 filename; u32 flag; u32 mode; rsi r; rdi r; rbp r] s) as (s' & [E | E]); cbn [rbx rcx rdx rsi rdi rbp] in *;
    rewrite E; exists s'; unfold mret, M_ret.
  - rewrite s32_small by lia. rewrite (proj2 (Z.leb_gt _ _)) by lia. by rewrite Z.opp_involutive, s32_small by lia.
  - assert (s32 (u32 (- e)) = - e) as -> by (unfold s32, u32; dlia).
    rewrite (proj2 (Z.leb_gt _ _)) by lia. by rewrite Z.opp_involutive, s32_small by lia.
Qed.
End Dispatch.

(** A function of type int leaves an error in eax; with zeros in the upper half
    of rax the stub does not see it, and errno is not set. *)
Lemma int_error_is_missed e : 0 < e < 2 ^ 31 → stub_result s32 (u32 (- e)) = (- e, None).
Proof.
  intros He. unfold stub_result. assert (u32 (- e) = 2 ^ 32 - e) as -> by (unfold u32; dlia).
  rewrite s64_small by lia. rewrite (proj2 (Z.leb_le _ _)) by lia. f_equal. unfold s32. dlia.
Qed.

(** write(1, buf, 5) with a function that returns its third argument. *)
Definition example_run (f : string) (l : list Z) : M () Z :=
  mret (if bool_decide (f = "sys_write") then default 0 (l !! 2%nat) else 0).
Lemma write_is_call : ("write", __NR_write) ∈ calls.
Proof. refine (bool_decide_unpack _ _). vm_compute. exact I. Qed.
Lemma syscall_reaches_its_function_witness :
  _syscall3 example_run s32 __NR_write 1 4096 5 (Regs 0 0 0 0 0 0 0) tt = Ret (5, None) tt.
Proof.
  refine (eq_trans (proj1 (syscall_reaches_its_function example_run s32 "write" __NR_write 1 4096 5
    (Regs 0 0 0 0 0 0 0) tt write_is_call _ _ _)) _); [lia|lia|lia|vm_compute; reflexivity].
Defined.
