(* ===== verification/Traps.v ===== *)
(** * Interrupts, exceptions and the descriptors of the processor
    (kernel/traps.c, kernel/asm.nasm, include/asm/system.h, sched_init) and the
    serial ports (kernel/serial.c, init/main.c)

    The interrupt table [idt], the descriptor table [gdt] and the bytes sent to
    ports; the addresses of the handlers are a function of their names.  An
    exception goes from its vector through the stub of asm.nasm to its function
    of traps.c, which reports it and ends the task. *)

From S2P Require Export Prelude Sched.

(** ** Tables (include/linux/head.h) *)

Record idt_entry := Gate {
  offset_low : Z; selector : Z; ist : Z; type_attr : Z; offset_mid : Z; offset_high : Z; g_reserved : Z
}.
#[export] Instance idt_entry_eq_dec : EqDecision idt_entry.
Proof. solve_decision. Defined.
Definition gate0 : idt_entry := Gate 0 0 0 0 0 0 0.
(** An 8-byte entry of the gdt: the ints a and b. *)
Definition desc_struct : Type := Z * Z.

Record machine := Machine {
  idt : list idt_entry;           (* idt[256] *)
  gdt : list desc_struct;         (* gdt[256] *)
  out : list (Z * Z);             (* outb: port and value, oldest first *)
  pic1 : Z; pic2 : Z;             (* the masks at ports 0x21 and 0xA1 *)
  tr : Z; ldtr : Z;               (* the task and the table that are loaded *)
  rsp0 : Z;                       (* init_tss.rsp0 *)
  sch : sched
}.
#[export] Instance eta_machine : Eta machine := λ s,
  Machine (idt s) (gdt s) (out s) (pic1 s) (pic2 s) (tr s) (ldtr s) (rsp0 s) (sch s).

(** ** include/asm/system.h *)

Definition _set_gate (n type dpl addr : Z) : M machine () :=
  store idt n (Gate (addr .& 0xFFFF) 0x08 0 (u8 (0x80 .| Z.shiftl dpl 5 .| type))
    (Z.shiftr addr 16 .& 0xFFFF) (u32 (Z.shiftr addr 32)) 0).
Definition set_intr_gate (n addr : Z) : M machine () := _set_gate n 14 0 addr.
Definition set_trap_gate (n addr : Z) : M machine () := _set_gate n 15 0 addr.
Definition set_system_gate (n addr : Z) : M machine () := _set_gate n 15 3 addr.

(** Four bytes of a descriptor as an int. *)
Definition word_of (b0 b1 b2 b3 : Z) : Z := b0 + 256 * (b1 + 256 * (b2 + 256 * b3)).
(** The 16 bytes from entry [n] of the gdt on. *)
Definition _set_tssldt_desc (n addr limit type : Z) : M machine () :=
  let byte k := Z.shiftr addr (8 * k) .& 0xFF in
  store gdt n (word_of (limit .& 0xFF) (Z.shiftr limit 8 .& 0xFF) (byte 0) (byte 1),
               word_of (byte 2) (type .| 0x80) (Z.shiftr limit 16 .& 0x0F) (byte 3));;
  store gdt (n + 1) (word_of (byte 4) (byte 5) (byte 6) (byte 7), 0).
Definition set_tss_desc (n addr : Z) : M machine () := _set_tssldt_desc n addr 103 0x09.
Definition set_ldt_desc (n addr : Z) : M machine () := _set_tssldt_desc n addr 23 0x02.

Definition outb (v port : Z) : M machine () :=
  modify (λ s, s <| out ::= λ l, l ++ [(port, u8 v)] |>);;
  when (port =? 0x21) (modify (λ s, s <| pic1 := u8 v |>));;
  when (port =? 0xA1) (modify (λ s, s <| pic2 := u8 v |>)).

(** ** sched.h: where the descriptors of tasks are *)

Definition FIRST_TSS_ENTRY : Z := 5.
Definition FIRST_LDT_ENTRY : Z := FIRST_TSS_ENTRY + 2.
Definition _TSS (n : Z) : Z := Z.shiftl n 4 + Z.shiftl FIRST_TSS_ENTRY 3.
Definition _LDT (n : Z) : Z := Z.shiftl n 4 + Z.shiftl FIRST_LDT_ENTRY 3.
Definition ltr (n : Z) : M machine () := modify (λ s, s <| tr := _TSS n |>).
Definition lldt (n : Z) : M machine () := modify (λ s, s <| ldtr := _LDT n |>).
(** The descriptor of the tables of task [nr] (copy_process). *)
Definition set_task_ldt (nr addr : Z) : M machine () := set_ldt_desc (Z.shiftl nr 1 + FIRST_LDT_ENTRY) addr.

Section Setup.
(** The addresses of handlers and static objects, by name. *)
Context (address : string → Z).

(** ** kernel/traps.c *)

Definition trap_init : M machine () :=
  set_trap_gate 0 (address "divide_error");;
  set_trap_gate 1 (address "debug");;
  set_trap_gate 2 (address "nmi");;
  set_system_gate 3 (address "int3");;
  set_system_gate 4 (address "overflow");;
  set_system_gate 5 (address "bounds");;
  set_trap_gate 6 (address "invalid_op");;
  set_trap_gate 7 (address "device_not_available");;
  set_trap_gate 8 (address "double_fault");;
  set_trap_gate 9 (address "coprocessor_segment_overrun");;
  set_trap_gate 10 (address "invalid_TSS");;
  set_trap_gate 11 (address "segment_not_present");;
  set_trap_gate 12 (address "stack_segment");;
  set_trap_gate 13 (address "general_protection");;
  set_trap_gate 14 (address "page_fault");;
  set_trap_gate 15 (address "reserved");;
  set_trap_gate 16 (address "coprocessor_error");;
  mfor (λ i, set_trap_gate (i + 17) (address "reserved")) (upto 15).

(** ** The other initialisations: their part in the tables and the masks *)

Definition LATCH : Z := 1193180 / HZ.

Definition sched_init : M machine () :=
  modify (λ s, s <| rsp0 := u64 (address "init_task" + 4096) |>);;
  set_tss_desc FIRST_TSS_ENTRY (address "init_tss");;
  set_ldt_desc FIRST_LDT_ENTRY (address "init_task.ldt");;
  mfor (λ k,
    let i := k + 1 in
    zoom sch (store task i 0);;
    store gdt (2 + FIRST_LDT_ENTRY + 2 * k) (0, 0);;
    store gdt (2 + FIRST_LDT_ENTRY + 2 * k + 1) (0, 0)) (upto (NR_TASKS - 1));;
  ltr 0;;
  lldt 0;;
  outb 0x36 0x43;;
  outb (LATCH .& 0xff) 0x40;;
  outb (Z.shiftr LATCH 8) 0x40;;
  set_intr_gate 0x20 (address "timer_interrupt");;
  m ← gets pic1;
  outb (m .& 0xFE) 0x21;;
  set_system_gate 0x80 (address "system_call").

(** kernel/serial.c: the set-up of a port.  The read of the data port at its end
    drops what has been received and leaves no trace here. *)
Definition serial_init (port : Z) : M machine () :=
  outb 0x80 (port + 3);;
  outb 0x30 port;;
  outb 0x00 (port + 1);;
  outb 0x03 (port + 3);;
  outb 0x0b (port + 4);;
  outb 0x0d (port + 1).
(** The ports in tty_table[1] and tty_table[2]. *)
Definition COM1 : Z := 0x3f8.
Definition COM2 : Z := 0x2f8.
Definition rs_init : M machine () :=
  set_intr_gate 0x24 (address "rs1_interrupt");;
  set_intr_gate 0x23 (address "rs2_interrupt");;
  serial_init COM1;;
  serial_init COM2;;
  m ← gets pic1;
  outb (m .& 0xE7) 0x21.
(** con_init and hd_init after their own devices. *)
Definition con_init_gates : M machine () :=
  set_trap_gate 0x21 (address "keyboard_interrupt");;
  m ← gets pic1;
  outb (m .& 0xfd) 0x21.
Definition hd_init_gates : M machine () :=
  set_trap_gate 0x2E (address "hd_interrupt");;
  m ← gets pic1;
  outb (m .& 0xfb) 0x21;;
  m ← gets pic2;
  outb (m .& 0xbf) 0xA1.
Definition tty_init : M machine () :=
  rs_init;;
  con_init_gates.

(** ** init/main.c *)

Definition SERIAL_PORT : Z := 0x3f8.
Definition early_serial_init : M machine () :=
  outb 0x00 (SERIAL_PORT + 1);;
  outb 0x80 (SERIAL_PORT + 3);;
  outb 0x01 (SERIAL_PORT + 0);;
  outb 0x00 (SERIAL_PORT + 1);;
  outb 0x03 (SERIAL_PORT + 3);;
  outb 0xC7 (SERIAL_PORT + 2);;
  outb 0x0B (SERIAL_PORT + 4).
(** The calls of main() that set up tables and ports, up to sti(). *)
Definition init_interrupts : M machine () :=
  early_serial_init;;
  tty_init;;
  trap_init;;
  sched_init;;
  hd_init_gates.
End Setup.

(** ** Exceptions (kernel/asm.nasm, kernel/traps.c) *)

(** What the processor and the stub have pushed when the function is called,
    from the stack pointer up: es, ds, r15 ... r8, rbp, rsi, rdi, rdx, rcx, rbx,
    rax, the error code (0 where the processor has none), and the interrupt
    frame. *)
Record pushed := Pushed {
  segs : list Z;      (* es, ds *)
  saved : list Z;     (* r15, ..., rbx *)
  rax_at : Z;
  error_code : Z;
  frame : list Z      (* rip, cs, rflags, rsp, ss *)
}.
Definition stack_of (p : pushed) : list Z := segs p ++ saved p ++ [rax_at p; error_code p] ++ frame p.
(** The second argument of the function: [mov rsi, [rsp + 18*8]]. *)
Definition handler_argument (p : pushed) : option Z := stack_of p !! 18%nat.

(** The function of traps.c that a stub calls. *)
Definition handler_of (stub : string) : string :=
  if bool_decide (stub = "debug") then "do_int3" else "do_" +:+ stub.

(** A call of printk: the format as the source spells it, and the arguments. *)
Definition console : Type := list (string * list (Z + string)).
Record report := Report { log : console; now : Task.task_struct }.
#[export] Instance eta_report : Eta report := λ s, Report (log s) (now s).
Definition say (fmt : string) (args : list Z) : M report () :=
  modify (λ s, s <| log ::= λ l, l ++ [(fmt, inl <$> args)] |>).

Section Die.
(** The memory that is read: the longs at [esp], longs and bytes of a segment;
    fs, the base and limit of the task, and the task register. *)
Context (long_at : Z → Z) (seg_long seg_byte : Z → Z → Z) (fs_reg base limit task_nr : Z).

Definition die (str : string) (esp_ptr nr : Z) : M report () :=
  let esp i := long_at (esp_ptr + 8 * i) in
  modify (λ s, s <| log ::= λ l, l ++ [("%s: %04x\n\r", [inr str; inl (nr .& 0xffff)])] |>);;
  say "EIP:\t%04x:%p\nEFLAGS:\t%p\nESP:\t%04x:%p\n" [esp 1; esp 0; esp 2; esp 4; esp 3];;
  say "fs: %04x\n" [fs_reg];;
  say "base: %p, limit: %p\n" [base; limit];;
  when (esp 4 =? 0x17)
    (say "Stack: " [];;
     mfor (λ i, say "%p " [seg_long 0x17 (esp 3 + 8 * i)]) (upto 4);;
     say "\n" []);;
  t ← gets now;
  say "Pid: %d, process nr: %d\n\r" [Task.pid t; 0xffff .& task_nr];;
  mfor (λ i, say "%02x " [0xff .& seg_byte (esp 1) (esp 0 + i)]) (upto 10);;
  say "\n\r" [];;
  do_exit_with 11.

Definition do_int3 (esp_ptr error_code fs es ds ebp esi edi edx ecx ebx eax : Z) : M report () :=
  let esp i := long_at (esp_ptr + 8 * i) in
  say "eax\t\tebx\t\tecx\t\tedx\n\r%8x\t%8x\t%8x\t%8x\n\r" [eax; ebx; ecx; edx];;
  say "esi\t\tedi\t\tebp\t\tesp\n\r%8x\t%8x\t%8x\t%8x\n\r" [esi; edi; ebp; esp_ptr];;
  say "\n\rds\tes\tfs\ttr\n\r%4x\t%4x\t%4x\t%4x\n\r" [ds; es; fs; task_nr];;
  say "EIP: %8x   CS: %4x  EFLAGS: %8x\n\r" [esp 0; esp 1; esp 2].
Definition do_double_fault (esp error_code : Z) : M report () := die "double fault" esp error_code.
Definition do_general_protection (esp error_code : Z) : M report () := die "general protection" esp error_code.
Definition do_divide_error (esp error_code : Z) : M report () := die "divide error" esp error_code.
Definition do_nmi (esp error_code : Z) : M report () := die "nmi" esp error_code.
Definition do_debug (esp error_code : Z) : M report () := die "debug" esp error_code.
Definition do_overflow (esp error_code : Z) : M report () := die "overflow" esp error_code.
Definition do_bounds (esp error_code : Z) : M report () := die "bounds" esp error_code.
Definition do_invalid_op (esp error_code : Z) : M report () := die "invalid operand" esp error_code.
Definition do_device_not_available (esp error_code : Z) : M report () := die "device not available" esp error_code.
Definition do_coprocessor_segment_overrun (esp error_code : Z) : M report () := die "coprocessor segment overrun" esp error_code.
Definition do_invalid_TSS (esp error_code : Z) : M report () := die "invalid TSS" esp error_code.
Definition do_segment_not_present (esp error_code : Z) : M report () := die "segment not present" esp error_code.
Definition do_stack_segment (esp error_code : Z) : M report () := die "stack segment" esp error_code.
Definition do_coprocessor_error (esp error_code : Z) : M report () := die "coprocessor error" esp error_code.
Definition do_reserved (esp error_code : Z) : M report () := die "reserved (15,17-31) error" esp error_code.
End Die.
