(* ===== verification/TrapsFacts.v ===== *)
(** * The interrupt table after boot

    Which function each vector reaches once main() has initialised its parts,
    with which privilege, and that the descriptors of the first task are those
    of its objects. *)

From S2P Require Import Traps.

(** ** Gates and descriptors, as the processor reads them *)

Definition target (g : idt_entry) : Z := offset_low g + offset_mid g * 2 ^ 16 + offset_high g * 2 ^ 32.
Definition gate_type (g : idt_entry) : Z := type_attr g .& 15.
Definition gate_dpl (g : idt_entry) : Z := Z.shiftr (type_attr g) 5 .& 3.
Definition present (g : idt_entry) : bool := Z.testbit (type_attr g) 7.
(** A gate to [addr] in the code of the kernel. *)
Definition gate_to (addr type dpl : Z) (g : idt_entry) : Prop :=
  target g = addr ∧ gate_type g = type ∧ gate_dpl g = dpl ∧ present g = true ∧ selector g = 0x08 ∧ ist g = 0.

(** The base, limit and type of the 16-byte descriptor in two entries. *)
Definition byte_of (w k : Z) : Z := Z.shiftr w (8 * k) .& 0xFF.
Definition desc_base (lo hi : desc_struct) : Z :=
  Z.shiftr lo.1 16 + Z.shiftl (byte_of lo.2 0) 16 + Z.shiftl (byte_of lo.2 3) 24 + Z.shiftl hi.1 32.
Definition desc_limit (lo hi : desc_struct) : Z := (lo.1 .& 0xFFFF) + Z.shiftl (byte_of lo.2 2 .& 0xF) 16.
Definition desc_type (lo hi : desc_struct) : Z := byte_of lo.2 1 .& 0x1F.

Definition gate_for (type dpl addr : Z) : idt_entry :=
  Gate (addr .& 0xFFFF) 0x08 0 (u8 (0x80 .| Z.shiftl dpl 5 .| type)) (Z.shiftr addr 16 .& 0xFFFF) (u32 (Z.shiftr addr 32)) 0.

Lemma land_mod x n : 0 ≤ n → x .& Z.ones n = x mod 2 ^ n.
Proof. intros. by apply Z.land_ones. Qed.
Lemma gate_for_target type dpl addr : 0 ≤ addr < 2 ^ 64 → target (gate_for type dpl addr) = addr.
Proof.
  intros Ha. unfold target, gate_for. cbn [offset_low offset_mid offset_high].
  change 0xFFFF with (Z.ones 16). rewrite !land_mod by lia. rewrite !Z.shiftr_div_pow2 by lia. unfold u32. dlia.
Qed.
Lemma gate_for_ok type dpl addr : 0 ≤ addr < 2 ^ 64 → type = 14 ∨ type = 15 → dpl = 0 ∨ dpl = 3 →
  gate_to addr type dpl (gate_for type dpl addr).
Proof.
  intros Ha Ht Hd. split; [by apply gate_for_target|].
  destruct Ht as [-> | ->], Hd as [-> | ->]; repeat split; reflexivity.
Qed.

(** ** Filling tables *)

Definition wf (s : machine) : Prop :=
  length (idt s) = 256%nat ∧ length (gdt s) = 256%nat ∧ length (task (sch s)) = NR_TASKS.

Lemma set_gate_run n type dpl addr s : wf s → 0 ≤ n < 256 →
  _set_gate n type dpl addr s = Ret tt (s <| idt ::= <[Z.to_nat n := gate_for type dpl addr]> |>).
Proof. intros (Hl & _) Hn. unfold _set_gate. apply store_in. rewrite Hl. lia. Qed.

(** [m] fills the entries [l] of the interrupt table, in this order. *)
Definition install (l : list (Z * idt_entry)) (t : list idt_entry) : list idt_entry :=
  foldl (λ t x, <[Z.to_nat x.1 := x.2]> t) t l.
Definition sets (l : list (Z * idt_entry)) (m : M machine ()) : Prop :=
  ∀ s, wf s → wp m (λ _ s', wf s' ∧ idt s' = install l (idt s)) s.

Lemma install_app l1 l2 t : install (l1 ++ l2) t = install l2 (install l1 t).
Proof. apply foldl_app. Qed.
Lemma install_length l t : length (install l t) = length t.
Proof. revert t. induction l as [|x l IH]; intros t; [done|]. simpl. by rewrite IH, length_insert. Qed.
Lemma sets_bind l1 l2 m k : sets l1 m → sets l2 k → sets (l1 ++ l2) (m;; k).
Proof.
  intros Hm Hk s Hs. apply wp_bind. eapply wp_mono; [by apply Hm|]. intros [] s1 [Hs1 E1].
  eapply wp_mono; [by apply Hk|]. intros [] s2 [Hs2 E2]. split; [done|]. by rewrite E2, E1, install_app.
Qed.
Lemma sets_gate n type dpl addr : 0 ≤ n < 256 → sets [(n, gate_for type dpl addr)] (_set_gate n type dpl addr).
Proof.
  intros Hn s Hs. eapply wp_of_ret; [by apply set_gate_run|]. destruct Hs as (H1 & H2 & H3).
  split; [|done]. split; [simpl; by rewrite length_insert|done].
Qed.
Lemma sets_modify f : (∀ s, wf s → wf (f s) ∧ idt (f s) = idt s) → sets [] (modify f).
Proof. intros H s Hs. by apply wp_modify, H. Qed.
Lemma sets_gets {A} l (f : machine → A) k : (∀ a, sets l (k a)) → sets l (gets f ≫= k).
Proof. intros H s Hs. apply wp_bind, wp_gets. by apply H. Qed.
Lemma sets_when c m : sets [] m → sets [] (when c m).
Proof. intros H s Hs. apply wp_when; intros _; [by apply H|done]. Qed.
Lemma sets_outb v port : sets [] (outb v port).
Proof.
  unfold outb. apply (sets_bind [] []); [by apply sets_modify|].
  apply (sets_bind [] []); apply sets_when; by apply sets_modify.
Qed.
Lemma sets_gdt n x : 0 ≤ n < 256 → sets [] (store gdt n x).
Proof.
  intros Hn s (H1 & H2 & H3). eapply wp_of_ret; [apply store_in; rewrite H2; lia|].
  split; [|done]. split_and!; simpl; [done|by rewrite length_insert|done].
Qed.
Lemma sets_task i x : 0 ≤ i < 64 → sets [] (zoom sch (store task i x)).
Proof.
  intros Hi s (H1 & H2 & H3). apply wp_zoom. eapply wp_of_ret; [apply store_in; rewrite H3; change (Z.of_nat NR_TASKS) with 64; lia|].
  split; [|done]. split_and!; simpl; [done|done|by rewrite length_insert].
Qed.
Lemma sets_mfor {I} (f : I → list (Z * idt_entry)) body l : (∀ i, i ∈ l → sets (f i) (body i)) → sets (flat_map f l) (mfor body l).
Proof.
  intros H. induction l as [|i l IH]; [by intros s Hs|]. rewrite mfor_cons. cbn [flat_map].
  apply sets_bind; [apply H; by left|]. apply IH. intros j Hj. apply H. by right.
Qed.
Lemma sets_nothing {I} body (l : list I) : (∀ i, i ∈ l → sets [] (body i)) → sets [] (mfor body l).
Proof.
  intros H. replace (@nil (Z * idt_entry)) with (flat_map (λ _ : I, @nil (Z * idt_entry)) l) by (induction l as [|i l IH]; [done|]; apply IH; intros j Hj; apply H; by right).
  by apply sets_mfor.
Qed.

Lemma install_other l t n : (∀ x, x ∈ l → 0 ≤ x.1) → 0 ≤ n → n ∉ l.*1 → install l t !! Z.to_nat n = t !! Z.to_nat n.
Proof.
  revert t. induction l as [|[k h] l IH]; intros t Hr Hm Hn; [done|].
  change (install l (<[Z.to_nat k := h]> t) !! Z.to_nat n = t !! Z.to_nat n).
  apply not_elem_of_cons in Hn as [Hne Hn]. simpl in Hne. rewrite IH; [|intros x Hx; apply Hr; by right|done|done].
  apply list_lookup_insert_ne. pose proof (Hr (k, h) ltac:(left)). simpl in *. lia.
Qed.
(** The last entry for a vector counts; here there is one for each. *)
Lemma install_lookup l t n g : NoDup l.*1 → (∀ x, x ∈ l → 0 ≤ x.1 < Z.of_nat (length t)) → (n, g) ∈ l →
  install l t !! Z.to_nat n = Some g.
Proof.
  revert t. induction l as [|[m h] l IH]; intros t Hnd Hr Hin; [by apply elem_of_nil in Hin|].
  apply NoDup_cons in Hnd as [Hm Hnd]. apply elem_of_cons in Hin as [E|Hin].
  - injection E as -> ->. pose proof (Hr (m, h) ltac:(left)) as Hm'. simpl in Hm'.
    change (install l (<[Z.to_nat m := h]> t) !! Z.to_nat m = Some h).
    rewrite install_other; [apply list_lookup_insert_eq; lia|intros x Hx; apply (Hr x); by right|lia|done].
  - simpl. apply IH; [done| |done]. intros x Hx. rewrite length_insert. apply Hr. by right.
Qed.

(** ** The table *)

(** Vector, handler, type of the gate, privilege. *)
Definition vectors : list (Z * (string * Z * Z)) :=
  [(0x24, ("rs1_interrupt", 14, 0)); (0x23, ("rs2_interrupt", 14, 0)); (0x21, ("keyboard_interrupt", 15, 0));
   (0, ("divide_error", 15, 0)); (1, ("debug", 15, 0)); (2, ("nmi", 15, 0)); (3, ("int3", 15, 3));
   (4, ("overflow", 15, 3)); (5, ("bounds", 15, 3)); (6, ("invalid_op", 15, 0)); (7, ("device_not_available", 15, 0));
   (8, ("double_fault", 15, 0)); (9, ("coprocessor_segment_overrun", 15, 0)); (10, ("invalid_TSS", 15, 0));
   (11, ("segment_not_present", 15, 0)); (12, ("stack_segment", 15, 0)); (13, ("general_protection", 15, 0));
   (14, ("page_fault", 15, 0)); (15, ("reserved", 15, 0)); (16, ("coprocessor_error", 15, 0))] ++
  ((λ i, (i + 17, ("reserved", 15, 0))) <$> upto 15) ++
  [(0x20, ("timer_interrupt", 14, 0)); (0x80, ("system_call", 15, 3)); (0x2E, ("hd_interrupt", 15, 0))].
Definition entry_for (address : string → Z) (x : Z * (string * Z * Z)) : Z * idt_entry :=
  (x.1, gate_for x.2.1.2 x.2.2 (address x.2.1.1)).

Lemma sets_eq l l' m : sets l m → l = l' → sets l' m.
Proof. by intros H <-. Qed.
(** Follow the structure of an initialisation. *)
Ltac sets_step :=
  match goal with
  | |- sets _ (_set_gate _ _ _ _) => apply sets_gate; lia
  | |- sets _ (set_trap_gate _ _) => apply sets_gate; lia
  | |- sets _ (set_intr_gate _ _) => apply sets_gate; lia
  | |- sets _ (set_system_gate _ _) => apply sets_gate; lia
  | |- sets _ (gets _ ≫= _) => apply sets_gets; intros ?
  | |- sets _ (modify _) => by apply sets_modify
  | |- sets _ (outb _ _) => apply sets_outb
  | |- sets _ (store gdt _ _) => apply sets_gdt; unfold FIRST_LDT_ENTRY, FIRST_TSS_ENTRY; lia
  | |- sets _ (zoom sch (store task _ _)) => apply sets_task; lia
  | |- sets _ (@mbind _ _ _ _ _ _) => eapply sets_bind
  end.
Lemma trap_init_sets address : sets (entry_for address <$> take 32 (drop 3 vectors)) (trap_init address).
Proof.
  unfold trap_init. eapply sets_eq.
  - repeat sets_step. apply (sets_mfor (λ i, [(i + 17, gate_for 15 0 (address "reserved"))])).
    intros i Hi%elem_of_upto. sets_step.
  - reflexivity.
Qed.
Lemma sched_init_sets address : sets (entry_for address <$> take 2 (drop 35 vectors)) (sched_init address).
Proof.
  unfold sched_init, ltr, lldt, set_tss_desc, set_ldt_desc, _set_tssldt_desc. cbv zeta. eapply sets_eq.
  - repeat (sets_step || (apply sets_nothing; intros i Hi%elem_of_upto;
      change (Z.of_nat (NR_TASKS - 1)) with 63 in Hi;
      apply (sets_bind [] []); [sets_step|apply (sets_bind [] []); sets_step])).
  - reflexivity.
Qed.
Lemma init_interrupts_sets address : sets (entry_for address <$> vectors) (init_interrupts address).
Proof.
  unfold init_interrupts, early_serial_init, tty_init, rs_init, serial_init, con_init_gates, hd_init_gates. eapply sets_eq.
  - repeat match goal with
    | |- sets _ (trap_init _) => apply trap_init_sets
    | |- sets _ (sched_init _) => apply sched_init_sets
    | _ => sets_step
    end.
  - reflexivity.
Qed.

(** C33: After the initialisations of main() every vector of the interrupt table
    is what it should be, wherever the handlers are: the 32 exceptions, the
    devices and the system call have a present gate to kernel code that decodes
    to the 64-bit address of their handler, a trap gate or an interrupt gate, and
    only int3, overflow, bounds and the system call can be raised by user code;
    all other entries are left as they were. *)
Theorem interrupt_table_after_boot address s :
  wf s → (∀ name, 0 ≤ address name < 2 ^ 64) →
  ∃ s', init_interrupts address s = Ret tt s' ∧
    (∀ n name type dpl, (n, (name, type, dpl)) ∈ vectors →
       ∃ g, idt s' !! Z.to_nat n = Some g ∧ gate_to (address name) type dpl g) ∧
    (∀ n, 0 ≤ n → n ∉ vectors.*1 → idt s' !! Z.to_nat n = idt s !! Z.to_nat n).
Proof.
  intros Hs Ha. destruct (wp_returns _ _ _ (init_interrupts_sets address s Hs)) as ([] & s' & Hrun & _ & Hidt).
  exists s'. split; [done|]. rewrite Hidt.
  assert ((entry_for address <$> vectors).*1 = vectors.*1) as Hkeys by reflexivity.
  assert (NoDup vectors.*1) as Hnd by (refine (bool_decide_unpack (NoDup vectors.*1) _); vm_compute; exact I).
  assert (forallb (λ x, (0 <=? x.1) && (x.1 <? 256) && ((x.2.1.2 =? 14) || (x.2.1.2 =? 15)) &&
    ((x.2.2 =? 0) || (x.2.2 =? 3))) vectors = true) as Hall by reflexivity.
  rewrite forallb_forall in Hall.
  assert (∀ x, x ∈ vectors → 0 ≤ x.1 < 256 ∧ (x.2.1.2 = 14 ∨ x.2.1.2 = 15) ∧ (x.2.2 = 0 ∨ x.2.2 = 3)) as Hx.
  { intros x H%list_elem_of_In%Hall. lia. }
  assert (∀ x, x ∈ entry_for address <$> vectors → 0 ≤ x.1 < 256) as Hr.
  { intros x (y & -> & Hy)%list_elem_of_fmap. apply (Hx y Hy). }
  split.
  - intros n name type dpl Hin. exists (gate_for type dpl (address name)). split.
    + apply install_lookup; [by rewrite Hkeys| |].
      * intros x H%Hr. destruct Hs as (-> & _). done.
      * apply list_elem_of_fmap. by exists (n, (name, type, dpl)).
    + destruct (Hx _ Hin) as (_ & Ht & Hd). by apply gate_for_ok.
  - intros n Hn Hnot. apply install_other; [|done|by rewrite Hkeys]. intros x H%Hr. lia.
Qed.

Definition boot_machine : machine :=
  Machine (replicate 256 gate0) (replicate 256 (0, 0)) [] 0xff 0xff 0 0 0
    (Sched {[init_task := INIT_TASK]} (init_task :: replicate 63 0) init_task 0 0 0 ∅).
Definition example_address (name : string) : Z := if bool_decide (name = "system_call") then 0x123456789abc else 4096.

Lemma interrupt_table_after_boot_witness :
  ∃ s', init_interrupts example_address boot_machine = Ret tt s' ∧
    (∀ n name type dpl, (n, (name, type, dpl)) ∈ vectors →
       ∃ g, idt s' !! Z.to_nat n = Some g ∧ gate_to (example_address name) type dpl g) ∧
    (∀ n, 0 ≤ n → n ∉ vectors.*1 → idt s' !! Z.to_nat n = idt boot_machine !! Z.to_nat n).
Proof.
  apply (interrupt_table_after_boot example_address boot_machine).
  - split; [reflexivity|split; reflexivity].
  - intros name. unfold example_address. case_bool_decide; lia.
Defined.
Example vectors_count : length vectors = 38%nat.
Proof. reflexivity. Qed.

(** ** The serial ports *)

(** The registers of a UART, from the writes to its eight ports, as its data
    sheet has them: while bit 7 of the line control is set, the first two ports
    are the divisor of the clock. *)
Record uart := Uart { divisor_low : Z; divisor_high : Z; interrupt_enable : Z; line_control : Z }.
Definition uart_write (port : Z) (u : uart) (w : Z * Z) : uart :=
  let dlab := Z.testbit (line_control u) 7 in
  if w.1 =? port + 3 then Uart (divisor_low u) (divisor_high u) (interrupt_enable u) w.2
  else if w.1 =? port then if dlab then Uart w.2 (divisor_high u) (interrupt_enable u) (line_control u) else u
  else if w.1 =? port + 1 then
    if dlab then Uart (divisor_low u) w.2 (interrupt_enable u) (line_control u)
    else Uart (divisor_low u) (divisor_high u) w.2 (line_control u)
  else u.
Definition uart_after (port : Z) (l : list (Z * Z)) (u : uart) : uart := foldl (uart_write port) u l.

Lemma outb_out v port s : ∃ s', outb v port s = Ret tt s' ∧ out s' = out s ++ [(port, u8 v)].
Proof. unfold outb. destruct (port =? 0x21), (port =? 0xA1); eexists; split; reflexivity. Qed.
(** The line control register can always be written; what the first two ports
    are depends on its bit 7. *)
Lemma uart_write_line port a b c d v : uart_write port (Uart a b c d) (port + 3, v) = Uart a b c v.
Proof. unfold uart_write. cbn [fst snd]. by rewrite Z.eqb_refl. Qed.
Lemma uart_write_low port a b c d v :
  uart_write port (Uart a b c d) (port, v) = if Z.testbit d 7 then Uart v b c d else Uart a b c d.
Proof. unfold uart_write. cbn [fst snd line_control]. by rewrite (proj2 (Z.eqb_neq _ _)), Z.eqb_refl by lia. Qed.
Lemma uart_write_high port a b c d v :
  uart_write port (Uart a b c d) (port + 1, v) = if Z.testbit d 7 then Uart a v c d else Uart a b v d.
Proof.
  unfold uart_write. cbn [fst snd line_control]. rewrite (proj2 (Z.eqb_neq (port + 1) (port + 3))) by lia.
  by rewrite (proj2 (Z.eqb_neq _ _)), Z.eqb_refl by lia.
Qed.
Lemma uart_write_control port a b c d v : uart_write port (Uart a b c d) (port + 4, v) = Uart a b c d.
Proof. unfold uart_write. cbn [fst]. by rewrite !(proj2 (Z.eqb_neq _ _)) by lia. Qed.
(** Whatever was there before: 115200 / 48 = 2400 bits a second, 8 bits without
    parity, and an interrupt for each byte received. *)
Lemma serial_init_sets_the_line port s u :
  ∃ s', serial_init port s = Ret tt s' ∧ uart_after port (out s') u = Uart 0x30 0 0x0d 3.
Proof.
  unfold serial_init, mbind, M_bind.
  repeat match goal with
  | |- context [outb ?v ?p ?s] => let s1 := fresh "s" in let H := fresh in let E := fresh in
      destruct (outb_out v p s) as (s1 & H & E); rewrite H; clear H
  end.
  eexists. split; [reflexivity|].
  repeat match goal with H : out ?a = _ |- context [out ?a] => rewrite H; clear H end.
  unfold uart_after. rewrite !foldl_app. cbn [foldl]. destruct (foldl _ u _) as [a b c d].
  rewrite uart_write_line, uart_write_low. change (Z.testbit (u8 128) 7) with true. cbv iota.
  rewrite uart_write_high. change (Z.testbit (u8 128) 7) with true. cbv iota.
  by rewrite uart_write_line, uart_write_control, uart_write_high.
Qed.
(** The polled line that main() prints on, and the same line after tty_init. *)
Example early_serial_line : ∃ s', early_serial_init boot_machine = Ret tt s' ∧
  uart_after SERIAL_PORT (out s') (Uart 0 0 0 0) = Uart 1 0 0 3.
Proof. eexists. split; vm_compute; reflexivity. Qed.
Example serial_line_after_boot : ∃ s', init_interrupts example_address boot_machine = Ret tt s' ∧
  uart_after SERIAL_PORT (out s') (Uart 0 0 0 0) = Uart 0x30 0 0x0d 3 ∧ Z.testbit (pic1 s') 4 = false.
Proof. eexists. split_and!; vm_compute; reflexivity. Qed.

(** ** Exceptions *)

(** Whatever it finds in memory, die reports and ends the task with code 11. *)
Lemma die_exits long_at seg_long seg_byte fs base limit nr str esp code s :
  ∃ s', die long_at seg_long seg_byte fs base limit nr str esp code s = Exit 11 s' ∧ now s' = now s.
Proof.
  unfold die. cbv zeta. destruct (long_at (esp + 8 * 4) =? 0x17); eexists; (split; [reflexivity|reflexivity]).
Qed.
(** The second argument of an exception's function is not its error code but
    the instruction pointer behind it. *)
Lemma handler_gets_the_instruction_pointer p : length (segs p) = 2%nat → length (saved p) = 14%nat →
  handler_argument p = frame p !! O.
Proof.
  intros H1 H2. unfold handler_argument, stack_of. rewrite lookup_app_r by lia. rewrite lookup_app_r by lia.
  rewrite H1, H2. done.
Qed.
(** A gdt slot for the tables of each task: disjoint from those before it. *)
Lemma task_ldt_slot nr : 0 ≤ nr < 64 →
  8 * (Z.shiftl nr 1 + FIRST_LDT_ENTRY) = _LDT nr ∧ Z.shiftl nr 1 + FIRST_LDT_ENTRY + 1 < 256.
Proof. intros Hn. unfold _LDT, FIRST_LDT_ENTRY, FIRST_TSS_ENTRY. rewrite !Z.shiftl_mul_pow2 by lia. lia. Qed.
